(* ===== verification/_CoqProject ===== *)
-Q . S2P
Prelude.v
PyString.v
PyDecimal.v
DecimalFacts.v
PyFloat.v
PyCalendar.v
PyTime.v
Sha256.v
PyJson.v
MinimumRR.v
TradePlan.v
LifecycleModels.v
CandleIntegrity.v
ShadowDiagnostics.v
JsonText.v
CandleProps.v
JsonFacts.v
OutcomePolicy.v
Identity.v
EconomicIdentity.v
PlanVersionBinding.v
RuntimeEpoch.v
LifecycleRepository.v
RepositoryFacts.v
Breakeven.v
PrefixEvidence.v
Observation.v
CandleFreshness.v
FreshnessProps.v
StateMachine.v
StateMachineFacts.v
OutcomeEvents.v
Outcomes.v
OutcomeFacts.v
OutcomePass.v
OutcomeProps.v
StateMachineProps.v
IdentityProps.v
OrderBook.v
OrderBookProps.v
Blake2b.v
MinuteBuckets.v
TradeFlow.v
FlowSnapshot.v
TradeFlowProps.v
Liquidation.v
LiquidationSnapshot.v
LiquidationProps.v
StreamEvidence.v
FlowService.v
FlowServiceProps.v
DynRecord.v
DisplayFacts.v
PublicQuality.v
DynPlan.v
Eligibility.v
EligibilityProps.v
QualityProps.v
OpportunityScoring.v
OpportunityProps.v
Regime.v
RegimeClassifier.v
RegimeProps.v
Hygiene.v
HygieneProps.v
EpochOrigin.v
ObservationConsumption.v
TerminalAnalytics.v
OwnerMonitoring.v
MonitoringProps.v
EpochOriginProps.v
ConsumptionProps.v
LifecycleService.v
LifecycleRun.v
ServiceProps.v
RunProps.v
RiskManager.v
TradeIdea.v
TechnicalStructure.v
DerivativesOrderflow.v
