(* ===== verification/Prelude.v ===== *)
(** * Candle Craft trading agent: a verification library

    Candle Craft scans crypto markets, proposes trade plans and follows each
    proposed setup through a persistent lifecycle.  This library models the
    parts of it that decide: which plans are acceptable, what state a setup is
    in, which identity its plan has, what closed candles did to it, and whether
    candles and the local order book can be trusted.  Paths below are under
    src/app/.

    ** The program and how its parts meet

    - core/minimum_rr.py computes the minimum risk/reward a candidate must meet;
      core/trade_plan_integrity.py validates the levels of a plan.
    - lifecycle/models.py holds the persistent record of a setup, its events and
      its outcome progress.
    - lifecycle/state_machine.py folds one market observation into the record:
      it first refuses a monitored record whose stored plan is invalid
      (lifecycle/outcome_policy.py), holds it when only candle freshness failed
      (data/candle_freshness.py), otherwise updates scores, plan and
      confirmation count, picks the next state, applies confidence decay, checks
      the transition table, and finally latches the economic identities
      (lifecycle/economic_identity.py).
    - data/candle_integrity.py validates candle sequences and cuts them at a
      decision time; data/candle_freshness.py decides whether the cut is recent
      enough.
    - lifecycle/outcomes.py runs the closed candles of a setup, after the cursor
      of its stored progress, through entry, stop, breakeven stop and targets
      (outcome_events.py, breakeven.py), binds the progress to the proven plan
      version (plan_version_binding.py), attaches evidence of what it evaluated
      (prefix_disposition_evidence.py), and writes records, events and progress
      through lifecycle/repositories.py, whose writes first pass the ownership
      guards of runtime_epoch/.
    - lifecycle/identity.py decides when a new generation of a setup starts.
    - runtime_epoch/ draws the operational boundary: one epoch with a cutoff,
      runs registered after it, and at most one origin per run and symbol,
      granted to live evaluations after the cutoff only.
    - lifecycle/service.py applies the symbols of a run, each in a savepoint: it
      asks for an origin, looks up the receipt of the observation
      (observation_consumption.py), finds the owner, scans it with the state
      machine, writes receipt, record and event, runs the outcome pass and stores
      the analytics of a lifecycle that ended.  At the end of the run
      lifecycle/owner_monitoring.py runs the outcome pass on every owned plan that
      has not ended, whatever the scan selected, and what it commits is delivered
      with the results; the same monitoring runs between scans with candles it
      fetches itself.
    - lifecycle/hygiene.py audits stored records with malformed plans and, under
      an approved manifest, quarantines those nothing depends on.
    - scoring/opportunity_scoring.py weighs the component scores of a setup into
      a grade and a decision; lifecycle/eligibility.py decides from any record of
      a setup (scan result, stored record, mapping) whether it may be shown as a
      public watchlist candidate, as an active signal or as research, using the
      grades of analytics/public_signal_quality.py, the plan validator and the
      stored plan policy.
    - agents/ holds the analysts of a scan: technical_structure.py finds swings,
      sweeps and breaks in a candle series, derivatives_orderflow.py reads
      funding and open interest, risk_manager.py sizes and approves a setup, and
      trade_idea.py turns an approved, scored setup into an idea behind a gate
      that uses the plan validator.
    - regime/ classifies the market from closed BTC and ETH candles and the
      breadth of the scan, with a confidence and the compatibility of each
      trading mode.
    - microstructure/order_book.py maintains a local order book from a depth
      stream and REST snapshots and publishes a view of it; it is independent
      of the lifecycle.
    - microstructure/aggregator.py and liquidation_aggregator.py sum aggregate
      trades and liquidations of one symbol per minute and publish windows of 1,
      5 and 15 minutes; service.py runs one trade aggregator per tracked symbol
      behind one stream and trusts it only for contracts that exchange metadata
      lists (stream_evidence.py).

    ** Files

    Language and library support:
    - [Prelude]: exceptions as values ([result], [let!], [raise!]) and record
      update [r <| field := v |>] (model_copy, dataclasses.replace).
    - [PyString]: str methods (strip, lower, upper, replace, join, in) on ASCII
      text.
    - [PyDecimal], [DecimalFacts]: decimal.Decimal under the default context (28
      digits, half even): parsing, text, comparison, the arithmetic the sources
      use (quantize in both roundings, squares, roots), with the value of a finite Decimal as a rational [dQ], its order laws
      and the error bound of rounding.
    - [PyFloat]: the value of a float literal as a binary64, for comparisons with
      integers.
    - [PyCalendar], [PyTime]: the proleptic Gregorian calendar and aware
      datetimes as microseconds with an offset; isoformat and fromisoformat with
      their round trip.
    - [Sha256], [Blake2b]: hashlib.sha256 and blake2b on bytes, executable.
    - [PyJson], [JsonText], [JsonFacts]: dictionaries, decoded JSON values,
      json.dumps with sorted keys and json.loads, with the round trip between
      them.

    Components:
    - [MinimumRR]: core/minimum_rr.py.
    - [TradePlan]: core/trade_plan_integrity.py.
    - [LifecycleModels]: lifecycle/models.py.
    - [OutcomePolicy]: lifecycle/outcome_policy.py (stored plan, plan identity,
      candle range, touched levels).
    - [CandleIntegrity], [ShadowDiagnostics], [CandleProps]:
      data/candle_integrity.py.
    - [CandleFreshness], [FreshnessProps]: data/candle_freshness.py.
    - [Identity], [IdentityProps]: lifecycle/identity.py.
    - [EconomicIdentity]: lifecycle/economic_identity.py.
    - [Observation]: the observation, evidence gates and text keys of
      lifecycle/state_machine.py, and the freshness queries of
      data/candle_freshness.py, stated against the class [FreshnessView] and
      instantiated by the observation.
    - [StateMachine]: the transitions of lifecycle/state_machine.py, up to
      evaluate_lifecycle_transition.  [StateMachineFacts] has the case analysis
      of one scan and the invariants, [StateMachineProps] the theorems.
    - [RuntimeEpoch]: the database as its tables, and the ownership guards of
      runtime_epoch/.  [EpochOrigin], [EpochOriginProps]: epochs, runs, origins,
      cohorts and the watch payload of runtime_epoch/.  [PlanVersionBinding]: lifecycle/plan_version_binding.py.
      [LifecycleRepository]: the records, events and progress of
      lifecycle/repositories.py as transactions (a state monad with exceptions);
      [RepositoryFacts]: what a transaction may change.
    - [Breakeven], [PrefixEvidence], [OutcomeEvents], [Outcomes]: the files of
      the outcome pass, under their own names.  [OutcomeFacts] has the abstract
      outcome machine and the triples of one candle, [OutcomePass] the triples
      of the pass, [OutcomeProps] the theorems.
    - [ObservationConsumption], [ConsumptionProps]:
      lifecycle/observation_consumption.py.
    - [TerminalAnalytics]: the analytics rows of lifecycle/service.py.
      [LifecycleService], [ServiceProps]: the handler of one symbol of
      lifecycle/service.py.  [LifecycleRun], [RunProps]: a run, with its
      monitoring, deliveries and summary.
    - [OwnerMonitoring], [MonitoringProps]: lifecycle/owner_monitoring.py,
      lifecycle/monitoring_diagnostics.py and the queries they make of
      lifecycle/repositories.py.
    - [Hygiene], [HygieneProps]: lifecycle/hygiene.py and the entry point of
      scripts/repair_lifecycle_hygiene.py.
    - [DynRecord]: duck-typed values and the readers of
      lifecycle/eligibility.py; [DisplayFacts]: displayed decimals read back.
      [DynPlan]: lifecycle/outcome_policy.py on such values, equal to
      [OutcomePolicy] on lifecycle records.  [PublicQuality], [QualityProps]:
      analytics/public_signal_quality.py.  [Eligibility], [EligibilityProps]:
      lifecycle/eligibility.py.
    - [OpportunityScoring], [OpportunityProps]: scoring/opportunity_scoring.py.
    - [RiskManager]: agents/risk_manager.py.  [TradeIdea]: agents/trade_idea.py,
      on the plan validator and the directions of [RiskManager].
      [TechnicalStructure]: agents/technical_structure.py.
      [DerivativesOrderflow]: agents/derivatives_orderflow.py.  Each file has its
      definitions first and its theorems after them.
    - [Regime]: regime/models.py and regime/scoring.py.  [RegimeClassifier]:
      regime/classifier.py.  [RegimeProps]: their theorems.
    - [OrderBook], [OrderBookProps]: microstructure/order_book.py with
      order_book_models.py, the stream symbol check of websocket_protocol.py and
      the status enumeration of context/models.py.
    - [MinuteBuckets]: the minute dictionaries of both aggregators, generic in
      the accumulator.  [TradeFlow], [FlowSnapshot], [TradeFlowProps]:
      microstructure/agg_trade.py, aggregator.py and models.py.  [Liquidation],
      [LiquidationSnapshot], [LiquidationProps]: liquidation.py,
      liquidation_aggregator.py and liquidation_models.py.
    - [StreamEvidence]: microstructure/stream_evidence.py and the control
      messages of websocket_protocol.py.  [FlowService], [FlowServiceProps]:
      microstructure/service.py.

    A definition has the name of the Python function it translates, without its
    leading underscore; where two modules have a helper of the same name it
    carries a prefix (op_, gid_, eid_, sm_, ob_, at_, lq_, flow_, liquidation_,
    val_, plan_, pq_, os_, rg_, cl_, hy_, tl_, sv_, mo_, rm_, ti_, ts_, do_).  A Python function that can
    raise returns [result].  Long functions are split at their own blocks:
    evaluate_lifecycle_transition into [evaluate_new], [evaluate_existing] and
    [evaluate_scan], validate_trade_plan into [parse_plan], [check_plan] and
    [check_targets], snapshot into [view_status] and [synchronized_snapshot],
    evaluate_closed_candle_outcomes into [evaluate_bound], [evaluate_eligible],
    [evaluate_window], [adopt_contract], [start_tracking], [process_tracked],
    [process_pending] and [run_pending] with its loop [candle_loop].

    ** What is proved

    - Plans: the validators refine declarative specifications on every input
      ([validate_trade_plan_refines_spec], [stored_plan_geometry_refines_spec]);
      an accepted public plan pays three times its risk after cost
      ([public_plan_contract]); the RR policy has its floors.
    - State machine: every scan refines the transition table
      ([scan_refines_table]) and is total ([evaluate_total]); for the records
      scans can reach, plan levels are immutable under the lock, states have the
      provenance the table promises, CONFIRMED needs its confirmations and
      evidence, outcomes are final, stale data moves nothing, decay is bounded
      and cooldowns last a day.
    - Identities: payloads are injective before hashing, latched ids are never
      rewritten, a plan version is created only under the lock, generations
      rotate exactly under the stated conditions and agree with the cooldown.
    - Candles: a closed window never looks ahead and ignores what has not closed;
      values, timestamps and freshness verdicts meet their specifications.
    - Outcomes: a pass is a run of the outcome machine over candles that follow
      the stored cursor ([outcome_pass_refines_machine]); it changes only its own
      lifecycle and never a bound plan version ([outcome_pass_extends_database]);
      the stop wins on an ambiguous candle, recorded milestones and terminal
      outcomes are final, breakeven protection is prospective, lifecycles of
      another epoch are untouched, and stored metadata reads back.  Three sample
      passes are evaluated in full.
    - Operational boundary: in every database the epoch operations produce, runs
      and granted origins lie after the cutoff of the one epoch
      ([reachable_boundary]), and an origin is granted once
      ([origin_granted_once]).
    - Exactly once: a decision has one receipt, which its retry finds and any
      other decision of the mode conflicts with ([observation_consumed_once]);
      so applying an observation again writes nothing
      ([observation_applied_once]).
    - Runs: symbols that fail leave no trace ([failed_symbols_leave_no_trace]),
      every symbol is counted, and what monitoring commits is delivered once
      ([run_accounts_and_delivers]).
    - Monitoring: the obligations are exactly the owned plans that have not ended
      ([no_owned_plan_forgotten]), a plan that changed while candles were fetched
      is left alone ([stale_plans_not_monitored]), and each obligation is in the
      summary with what happened to it ([every_obligation_accounted]).
    - Hygiene: a record is safe to quarantine only if nothing was delivered or
      recorded for its plan ([safe_record_contract]); a quarantine changes those
      records only, completely, and under a manifest that is the audit's template
      ([quarantine_changes_only_safe_records], [quarantine_leaves_nothing],
      [accepted_manifest_is_template]).
    - Order book: a synchronized book is a gap-free replay of one snapshot
      (refinement to a replay function), stays usable, fails closed on gaps and
      crossings, recovers after a reconnect, and is published as verified only
      when fresh.
    - Streams: a published window is what the accepted trades or liquidations
      give, although neither aggregator keeps them ([flow_window_is_replay],
      [liquidation_window_is_replay]); accepted trades are ordered and gaps in
      their ids reset coverage ([verified_flow_gap_free]); no recent liquidation
      is counted twice; the service keeps one sound aggregator per tracked symbol
      ([service_tracking_invariant]), which discharges the clock hypothesis of
      the aggregator's histories, and its verified views carry the guarantees of
      every layer ([verified_service_view]).
    - Publication: an active signal satisfies every condition its readers rely on
      ([active_signal_contract]), the watchlist test is its declarative
      specification ([watchlist_candidate_refines_spec]), no record is shown on
      two surfaces ([public_surfaces_exclusive]), and a published lifecycle
      record is in a live state of the state machine with a valid stored plan
      ([active_lifecycle_record]).
    - Scoring: totals are in range and close to the exact weighted sum
      ([opportunity_score_bounds]), and grade, decision and reasons agree with
      the hard gates ([opportunity_decision_contract]).
    - Setups: an approved setup keeps every risk rule ([approved_setup_sound]) and
      its position loses no more than the permitted share of the equity at its
      stop ([position_loss_bounded]); an idea that is not rejected is an
      executable plan of an approved setup ([accepted_idea_executable]).
    - Scan analysis: structure signals rest on swings confirmed before the latest
      candle ([structure_signals_confirmed]), which later candles never repaint
      ([swings_never_repaint]); the derivatives context says what its numbers say
      ([derivatives_context_contract]).
    - Regime: scores and confidence are in range and under their caps and the
      adjustment is inert ([regime_result_contract]), extreme volatility is never
      benign ([panic_volatility_is_defensive]), and open candles do not count
      ([regime_ignores_unclosed_candles]).

    Six theorems record behaviour that differs from the documentation or from
    the evident intent: [rejected_never_rewatched], [quality_gate_ignores_score],
    [executing_without_trade_idea], [enum_grade_candidate_ignored],
    [displayed_risk_overstates_ratio] and [approved_without_ratio].

    ** Bounds, fuel and abstractions

    - Recursions on text use the length of the text as fuel
      ([collapse_underscores], digit printing, stripping of trailing zeros); the
      fuel is proved enough where a theorem depends on it ([status_key_normal],
      the digit and calendar round trips).  No theorem about a result is
      conditional on fuel.  The JSON scanner uses the length of the text as
      fuel, proved enough for every text dumps writes ([loads_dumps]).
    - The text of a JSON decoding error is the json library's: class [JsonErrors]
      is a parameter and no theorem depends on it.  Floats of decoded JSON keep
      their text.
    - A transaction returns its new database or raises; a raised exception
      discards it, as the connection's rollback does.  SQLite rows are lists in
      rowid order; the unique indexes, foreign keys and conflict clauses the
      code relies on are written out.
    - Text is ASCII: upper, lower and strip are the ASCII restrictions of the
      Python methods.  Decimal exponents are unbounded, so the overflow and
      underflow signals of the default context (beyond 10^999999) do not arise;
      no price or ratio comes near them.
    - A dict keyed by Decimal is an association list in insertion order whose
      keys are compared by value.  Order-book times are microseconds since the
      epoch; the age of a view is exact, before display rounding.
    - The wall clock is an argument (clock, now), as are the values of uuid4;
      what other connections commit before a write lock is an argument
      ([initialize_runtime_epoch]) or while candles are fetched
      ([monitor_obligations_with_market_data]), and so are the candle fetcher and
      what SQLite answers to the pragmas of the hygiene preflight
      ([sqlite_answers]).  The class name and text of an exception are the class
      [ExnText], a parameter no theorem depends on.
    - The repr of values other than scalars, which only error texts of the
      analysts contain, is the class [ObjectRepr], a parameter no theorem depends
      on.
    - Theorems on hashed identities are about the text that is hashed; collision
      resistance of SHA-256 or BLAKE2b is not assumed anywhere: two liquidation
      observations are the same to the code, and to the theorems, when their
      fingerprints are.
    - An operation of the flow service is one atomic stretch of its coroutines
      (they hold no lock across an await) and reads the clock once.  The
      comparison key of exchange symbols is unicodedata's, a parameter with its
      value on ASCII text ([UnicodeData]).

    - A duck-typed value is a scalar, a member of a (str, Enum) class, a
      sequence, a mapping with text keys or an object with plain attributes
      ([DynRecord]); str() of a container or object is part of the value, so the
      theorems hold whatever it is.

    ** Not modelled, and next

    Network clients, schema creation and migrations, message delivery, reports
    and process supervision are left out: they are I/O around the modelled
    functions.  Of runtime_epoch/ the opening of database files and the ownership
    queries of public delivery are not modelled, of lifecycle/service.py the
    reading of an observation out of a scanner result and the audit log, of
    lifecycle/repositories.py the list queries the modelled functions do not
    make, of microstructure/ the liquidation and order-book services, the float
    pacing of reconnects and the health reports.  Of scoring/ the coercions of
    pydantic are not modelled, nor are those of the inputs of agents/, whose alert
    and journal agents only format and store; of regime/ the metrics payload of a
    result.  Next, in this order: the strategies, data/timeframes.py, the watch
    retry policy. *)

From stdpp Require Import base tactics list strings.
From Stdlib Require Import ZArith Lia Bool.

(** ** Exceptions as values

    A Python function that can raise is translated to a function into
    [result]; the exception carries its class and its text.  [IntegrityError] is
    the [CandleIntegrityError] of the sources, a subclass of [ValueError] with a
    reason; [JSONDecodeError] is a subclass of [ValueError] too; the kind of a
    [RuntimeEpochError] is its subclass; [DatabaseError] is a constraint of the
    SQLite schema. *)

Inductive exn : Type :=
| ValueError (msg : string)
| RuntimeError (msg : string)
| OverflowError (msg : string)
| DecimalError (msg : string)
| IntegrityError (reason msg : string)
| TypeError (msg : string)
| AttributeError (msg : string)
| JSONDecodeError (msg : string)
| RuntimeEpochError (kind msg : string)
| DatabaseError (msg : string)
| ConnectionError (msg : string).

Inductive result (A : Type) : Type :=
| Ok (a : A)
| Raise (e : exn).
Arguments Ok {A} a.
Arguments Raise {A} e.

Definition bind_result {A B} (c : result A) (k : A -> result B) : result B :=
  match c with
  | Ok a => k a
  | Raise e => Raise e
  end.

(** The text an [except ValueError] handler sees, if it catches the exception. *)
Definition value_error_text (e : exn) : option string :=
  match e with
  | ValueError msg => Some msg
  | IntegrityError _ msg => Some msg
  | JSONDecodeError msg => Some msg
  | _ => None
  end.

Definition map_result {A B} (f : A -> B) (c : result A) : result B :=
  bind_result c (fun a => Ok (f a)).

(** Invert one step of a run that did not raise. *)
Lemma bind_ok {A B} (c : result A) (k : A -> result B) b :
  bind_result c k = Ok b -> exists a, c = Ok a /\ k a = Ok b.
Proof. destruct c as [a|e]; cbn [bind_result]; [eauto|discriminate]. Qed.

(** [injection] without its simplification of the sides *)
Lemma ok_inj {A} (x y : A) : Ok x = Ok y -> x = y.
Proof. by intros [= ->]. Qed.

(** Invert every step of a run that did not raise, naming the intermediate
    equations. *)
Ltac inv_run H :=
  repeat (let x := fresh "x" in let Hx := fresh "Hx" in apply bind_ok in H as (x & Hx & H)).

Declare Scope py_scope.
Delimit Scope py_scope with py.

Notation "'let!' x ':=' c 'in' k" := (bind_result c (fun x => k))
  (at level 10, x pattern, c at level 100, k at level 200) : py_scope.
Notation "'raise!' e" := (Raise e) (at level 10, e at level 9) : py_scope.

(** ** Record update: [r <| field := v |>]

    [model_copy(update={...})] and [dataclasses.replace] rebuild a record with
    some fields changed.  The setter of a field is computed from the record's
    eta expansion by abstracting the projection out of it. *)

Class RecordEta (R : Type) := record_eta : R -> R.

Class FieldSetter {R E : Type} (field : R -> E) := set_field : E -> R -> R.
#[global] Hint Mode FieldSetter + + + : typeclass_instances.

Ltac setter_of_field R E field :=
  let eta := constr:(@record_eta R _) in
  let eta := eval hnf in eta in
  let abstracted := eval pattern field in eta in
  lazymatch abstracted with
  | ?body _ => exact (fun (v : E) => body (fun _ : R => v))
  end.

#[export] Hint Extern 1 (@FieldSetter ?R ?E ?field) =>
  setter_of_field R E field : typeclass_instances.

Notation "r <| field := v |>" := (set_field (field := field) v r)
  (at level 1, left associativity, format "r  <| field  :=  v |>") : py_scope.
