(* ===== verification/PyString.v ===== *)
(** * Python [str] operations on ASCII text

    The text of the modelled components (symbols, gates, grades, reasons,
    ISO timestamps) is ASCII; a Python [str] is a Rocq [string], and each
    method below is the restriction of the CPython method to code points
    0..127.  [str.strip()] removes the ASCII white space of [str.isspace],
    which includes the separators U+001C..U+001F. *)

From stdpp Require Import base tactics list strings.
From Stdlib Require Import ZArith NArith Lia Bool Ascii.
From S2P Require Import Prelude.
Open Scope string_scope.

#[global] Arguments String.append !_ _ : simpl nomatch.

Definition ascii_code (c : ascii) : N := N_of_ascii c.

Definition code_between (lo hi : N) (c : ascii) : bool :=
  ((lo <=? ascii_code c) && (ascii_code c <=? hi))%N.

Definition is_space (c : ascii) : bool :=
  code_between 9 13 c || code_between 28 32 c.

Definition is_digit (c : ascii) : bool := code_between 48 57 c.

Definition digit_value (c : ascii) : N := (ascii_code c - 48)%N.

Definition lower_char (c : ascii) : ascii :=
  if code_between 65 90 c then ascii_of_N (ascii_code c + 32)%N else c.

Definition upper_char (c : ascii) : ascii :=
  if code_between 97 122 c then ascii_of_N (ascii_code c - 32)%N else c.

Fixpoint string_map (f : ascii -> ascii) (s : string) : string :=
  match s with
  | EmptyString => EmptyString
  | String c s' => String (f c) (string_map f s')
  end.

Definition py_lower (s : string) : string := string_map lower_char s.
Definition py_upper (s : string) : string := string_map upper_char s.

Fixpoint lstrip_by (p : ascii -> bool) (s : string) : string :=
  match s with
  | EmptyString => EmptyString
  | String c s' => if p c then lstrip_by p s' else s
  end.

Fixpoint rstrip_by (p : ascii -> bool) (s : string) : string :=
  match s with
  | EmptyString => EmptyString
  | String c s' =>
      let r := rstrip_by p s' in
      if (p c && String.eqb r "")%bool then "" else String c r
  end.

Definition strip_by (p : ascii -> bool) (s : string) : string :=
  rstrip_by p (lstrip_by p s).

Definition py_strip (s : string) : string := strip_by is_space s.

Definition py_strip_char (ch : ascii) (s : string) : string :=
  strip_by (Ascii.eqb ch) s.

Fixpoint is_prefix (p s : string) : bool :=
  match p, s with
  | EmptyString, _ => true
  | String a p', String b s' => Ascii.eqb a b && is_prefix p' s'
  | String _ _, EmptyString => false
  end.

(** [sub in s] *)
Fixpoint py_contains (sub s : string) : bool :=
  is_prefix sub s ||
  match s with
  | EmptyString => false
  | String _ s' => py_contains sub s'
  end.

(** [s.replace(old, new)] for a non-empty [old]: [skip] characters of the
    occurrence just replaced are still to be dropped. *)
Fixpoint replace_go (old new s : string) (skip : nat) : string :=
  match s with
  | EmptyString => EmptyString
  | String c s' =>
      match skip with
      | S k => replace_go old new s' k
      | O =>
          if is_prefix old s
          then new +:+ replace_go old new s' (String.length old - 1)
          else String c (replace_go old new s' 0)
      end
  end.

Definition py_replace (old new s : string) : string := replace_go old new s 0.

Fixpoint py_join (sep : string) (parts : list string) : string :=
  match parts with
  | [] => ""
  | [p] => p
  | p :: rest => p +:+ sep +:+ py_join sep rest
  end.

(** [s.split(ch, 1)[0]] *)
Fixpoint split_head (ch : ascii) (s : string) : string :=
  match s with
  | EmptyString => EmptyString
  | String c s' => if Ascii.eqb c ch then "" else String c (split_head ch s')
  end.

(** [x in {a, b, ...}] for strings *)
Definition str_in (s : string) (l : list string) : bool :=
  existsb (String.eqb s) l.

(** [tuple(dict.fromkeys(l))]: first occurrences, in order *)
Fixpoint dict_fromkeys_go (seen l : list string) : list string :=
  match l with
  | [] => []
  | x :: l' =>
      if str_in x seen then dict_fromkeys_go seen l'
      else x :: dict_fromkeys_go (x :: seen) l'
  end.

Definition dict_fromkeys (l : list string) : list string := dict_fromkeys_go [] l.

(** [str(n)] for an [int] *)
Fixpoint digits_go (fuel : nat) (n : N) (acc : string) : string :=
  match fuel with
  | O => acc
  | S k =>
      let acc' := String (ascii_of_N (48 + n mod 10)%N) acc in
      if (n / 10 =? 0)%N then acc' else digits_go k (n / 10)%N acc'
  end.

Definition string_of_N (n : N) : string := digits_go (S (N.size_nat n)) n "".

Definition string_of_Z (z : Z) : string :=
  match z with
  | Z.neg p => "-" +:+ string_of_N (Npos p)
  | _ => string_of_N (Z.to_N z)
  end.

Fixpoint string_repeat (c : ascii) (n : nat) : string :=
  match n with
  | O => ""
  | S k => String c (string_repeat c k)
  end.

Fixpoint string_forallb (p : ascii -> bool) (s : string) : bool :=
  match s with
  | EmptyString => true
  | String c s' => p c && string_forallb p s'
  end.

(** ** Lemmas on stripping and case mapping *)

Lemma str_in_spec s l : str_in s l = true <-> In s l.
Proof.
  unfold str_in. rewrite existsb_exists. split.
  - intros (x & Hx & He). apply String.eqb_eq in He. by subst.
  - intros H. exists s. by rewrite String.eqb_refl.
Qed.

Lemma str_in_false s l : str_in s l = false <-> ~ In s l.
Proof. rewrite <- str_in_spec. by destruct (str_in s l). Qed.

Lemma dict_fromkeys_nil l : dict_fromkeys l = [] <-> l = [].
Proof. unfold dict_fromkeys. by destruct l. Qed.

Lemma rstrip_by_idem p s : rstrip_by p (rstrip_by p s) = rstrip_by p s.
Proof.
  induction s as [|c s IH]; [done|]. simpl.
  destruct (p c && String.eqb (rstrip_by p s) "") eqn:E; [done|].
  simpl. by rewrite IH, E.
Qed.

Lemma lstrip_by_fix p s : lstrip_by p (lstrip_by p s) = lstrip_by p s.
Proof.
  induction s as [|c s IH]; [done|]. simpl.
  destruct (p c) eqn:E; [exact IH|]. simpl. by rewrite E.
Qed.

Lemma lstrip_rstrip_by p s :
  lstrip_by p s = s -> lstrip_by p (rstrip_by p s) = rstrip_by p s.
Proof.
  destruct s as [|c s]; [done|]. simpl.
  destruct (p c) eqn:E; intros H.
  - exfalso. assert (String.length (lstrip_by p s) <= String.length s)%nat as Hl.
    { clear. induction s as [|a s IH]; simpl; [lia|]. destruct (p a); simpl; lia. }
    rewrite H in Hl. simpl in Hl. lia.
  - simpl. by rewrite E.
Qed.

Lemma strip_by_idem p s : strip_by p (strip_by p s) = strip_by p s.
Proof.
  unfold strip_by. rewrite (lstrip_rstrip_by p (lstrip_by p s)) by apply lstrip_by_fix.
  apply rstrip_by_idem.
Qed.

Lemma py_strip_idem s : py_strip (py_strip s) = py_strip s.
Proof. apply strip_by_idem. Qed.

Lemma string_map_ext_idem f s :
  (forall c, f (f c) = f c) -> string_map f (string_map f s) = string_map f s.
Proof. intros Hf. induction s as [|c s IH]; simpl; [done|]. by rewrite Hf, IH. Qed.

Lemma lower_char_idem c : lower_char (lower_char c) = lower_char c.
Proof. by destruct c as [[] [] [] [] [] [] [] []]. Qed.

Lemma upper_char_idem c : upper_char (upper_char c) = upper_char c.
Proof. by destruct c as [[] [] [] [] [] [] [] []]. Qed.

Lemma py_lower_idem s : py_lower (py_lower s) = py_lower s.
Proof. apply string_map_ext_idem, lower_char_idem. Qed.

Lemma py_upper_idem s : py_upper (py_upper s) = py_upper s.
Proof. apply string_map_ext_idem, upper_char_idem. Qed.

Lemma string_map_strip_by p f s :
  (forall c, p (f c) = p c) -> strip_by p (string_map f s) = string_map f (strip_by p s).
Proof.
  intros Hp. unfold strip_by.
  assert (forall t, lstrip_by p (string_map f t) = string_map f (lstrip_by p t)) as Hl.
  { induction t as [|c t IH]; simpl; [done|]. rewrite Hp. by destruct (p c). }
  assert (forall t, rstrip_by p (string_map f t) = string_map f (rstrip_by p t)) as Hr.
  { induction t as [|c t IH]; simpl; [done|]. rewrite Hp, IH.
    assert (String.eqb (string_map f (rstrip_by p t)) "" = String.eqb (rstrip_by p t) "") as ->.
    { by destruct (rstrip_by p t). }
    by destruct (p c && String.eqb (rstrip_by p t) ""). }
  by rewrite Hl, Hr.
Qed.

Lemma lower_char_space c : is_space (lower_char c) = is_space c.
Proof. by destruct c as [[] [] [] [] [] [] [] []]. Qed.

Lemma upper_char_space c : is_space (upper_char c) = is_space c.
Proof. by destruct c as [[] [] [] [] [] [] [] []]. Qed.

Lemma upper_lower_char c : upper_char (lower_char c) = upper_char c.
Proof. by destruct c as [[] [] [] [] [] [] [] []]. Qed.

Lemma lower_upper_char c : lower_char (upper_char c) = lower_char c.
Proof. by destruct c as [[] [] [] [] [] [] [] []]. Qed.

Lemma py_strip_lower s : py_strip (py_lower s) = py_lower (py_strip s).
Proof. apply string_map_strip_by, lower_char_space. Qed.

Lemma py_strip_upper s : py_strip (py_upper s) = py_upper (py_strip s).
Proof. apply string_map_strip_by, upper_char_space. Qed.

Lemma string_map_length f s : String.length (string_map f s) = String.length s.
Proof. induction s; simpl; congruence. Qed.

Lemma string_map_empty f s : string_map f s = "" <-> s = "".
Proof. by destruct s. Qed.

Lemma string_app_nil_r s : s +:+ "" = s.
Proof. induction s as [|c s IH]; simpl; [done|]. by rewrite IH. Qed.

Lemma string_app_assoc a b c : (a +:+ b) +:+ c = a +:+ (b +:+ c).
Proof. induction a as [|x a IH]; simpl; [done|]. by rewrite IH. Qed.

Lemma string_length_app a b :
  String.length (a +:+ b) = (String.length a + String.length b)%nat.
Proof. induction a as [|x a IH]; simpl; [done|]. by rewrite IH. Qed.

Lemma is_prefix_app p s : is_prefix p (p +:+ s) = true.
Proof. induction p as [|c p IH]; simpl; [done|]. by rewrite Ascii.eqb_refl, IH. Qed.

(** ** Joining with a separator the fields cannot contain *)

Fixpoint char_in (ch : ascii) (s : string) : bool :=
  match s with
  | EmptyString => false
  | String c s' => Ascii.eqb c ch || char_in ch s'
  end.

Lemma char_in_app ch a b : char_in ch (a +:+ b) = (char_in ch a || char_in ch b)%bool.
Proof. induction a as [|c a IH]; simpl; [done|]. by rewrite IH, orb_assoc. Qed.

Lemma char_in_contains ch s : py_contains (String ch "") s = char_in ch s.
Proof.
  induction s as [|c s IH]; [done|].
  change (py_contains (String ch "") (String c s)) with
    ((Ascii.eqb ch c && true) || py_contains (String ch "") s).
  rewrite IH. simpl. rewrite andb_true_r.
  by rewrite (Ascii.eqb_sym ch c).
Qed.

Lemma sep_split_inj ch a b s t :
  char_in ch a = false -> char_in ch b = false ->
  a +:+ String ch s = b +:+ String ch t -> a = b /\ s = t.
Proof.
  revert b. induction a as [|x a IH]; intros [|y b] Ha Hb H; simpl in *.
  - injection H. auto.
  - injection H as -> _. rewrite Ascii.eqb_refl in Hb. discriminate.
  - injection H as -> _. rewrite Ascii.eqb_refl in Ha. discriminate.
  - apply orb_false_iff in Ha, Hb. injection H as -> H.
    destruct (IH b) as [-> ->]; tauto.
Qed.

Lemma char_in_join_last ch a b t :
  char_in ch a = false -> a = b +:+ String ch t -> False.
Proof.
  intros Ha ->. revert Ha. induction b as [|x b IH]; simpl.
  - by rewrite Ascii.eqb_refl.
  - intros H. apply orb_false_iff in H. tauto.
Qed.

(** Two tuples of separator-free fields with the same arity have the same
    joined payload only if they are equal. *)
Lemma py_join_inj ch l1 l2 :
  length l1 = length l2 ->
  Forall (fun s => char_in ch s = false) l1 ->
  Forall (fun s => char_in ch s = false) l2 ->
  py_join (String ch "") l1 = py_join (String ch "") l2 -> l1 = l2.
Proof.
  revert l2. induction l1 as [|a l1 IH]; intros [|b l2] Hlen H1 H2 He;
    try discriminate; [done|].
  inversion H1 as [|? ? Ha H1']; inversion H2 as [|? ? Hb H2']; subst.
  injection Hlen as Hlen.
  destruct l1 as [|a' l1], l2 as [|b' l2]; try discriminate; simpl in He.
  - by subst.
  - apply sep_split_inj in He; [|done..]. destruct He as [-> He].
    f_equal. by apply IH.
Qed.

(** ** Texts over a character class *)

Lemma string_forallb_app p a b :
  string_forallb p (a +:+ b) = string_forallb p a && string_forallb p b.
Proof. induction a as [|c a IH]; simpl; [done|]. by rewrite IH, andb_assoc. Qed.

Lemma string_forallb_impl (p q : ascii -> bool) s :
  (forall c, p c = true -> q c = true) -> string_forallb p s = true -> string_forallb q s = true.
Proof.
  intros Hpq. induction s as [|c s IH]; simpl; [done|]. rewrite !andb_true_iff.
  intros [Hc Hs]. auto.
Qed.

Lemma lstrip_by_none p s : string_forallb (fun c => negb (p c)) s = true -> lstrip_by p s = s.
Proof. destruct s as [|c s]; [done|]. simpl. by destruct (p c). Qed.

Lemma rstrip_by_none p s : string_forallb (fun c => negb (p c)) s = true -> rstrip_by p s = s.
Proof.
  induction s as [|c s IH]; simpl; [done|]. rewrite andb_true_iff. intros [Hc Hs].
  rewrite IH by done. by destruct (p c).
Qed.

(** Text without white space is its own strip. *)
Lemma py_strip_id s : string_forallb (fun c => negb (is_space c)) s = true -> py_strip s = s.
Proof. intros H. unfold py_strip, strip_by. by rewrite lstrip_by_none, rstrip_by_none. Qed.

Lemma char_in_forallb ch (p : ascii -> bool) s :
  p ch = false -> string_forallb p s = true -> char_in ch s = false.
Proof.
  intros Hch. induction s as [|c s IH]; simpl; [done|]. rewrite andb_true_iff. intros [Hc Hs].
  rewrite IH by done. rewrite orb_false_r. apply Ascii.eqb_neq. intros ->. congruence.
Qed.

(** ** Replacing *)

Lemma is_prefix_char ch s :
  is_prefix (String ch "") s = match s with String c _ => Ascii.eqb ch c | "" => false end.
Proof. destruct s as [|c s]; [done|]. simpl. apply andb_true_r. Qed.

Lemma py_replace_absent ch new s : char_in ch s = false -> py_replace (String ch "") new s = s.
Proof.
  unfold py_replace. induction s as [|c s IH]; [done|]. cbn [char_in]. intros H.
  apply orb_false_iff in H as [H1 H2]. cbn [replace_go]. rewrite is_prefix_char.
  rewrite Ascii.eqb_sym, H1. by rewrite IH.
Qed.

(** Replacing two characters by one never lengthens, and shortens when an
    occurrence is found. *)
Lemma replace_pair_length a b c s : forall skip, (skip <= 1)%nat ->
  (String.length (replace_go (String a (String b "")) (String c "") s skip)
   <= String.length s - skip)%nat.
Proof.
  induction s as [|x s IH]; intros skip Hs; [simpl; lia|]. cbn [replace_go].
  destruct skip as [|[|k]]; [|specialize (IH 0%nat ltac:(lia)); cbn [String.length]; lia|lia].
  destruct (is_prefix _ _) eqn:E.
  - cbn [String.length Nat.sub]. simpl String.append. cbn [String.length].
    destruct s as [|y s']; [simpl in E; destruct (Ascii.eqb a x); discriminate|].
    specialize (IH 1%nat ltac:(lia)). cbn [String.length] in *. lia.
  - cbn [String.length]. specialize (IH 0%nat ltac:(lia)). lia.
Qed.

Lemma replace_pair_shorter a b c s :
  py_contains (String a (String b "")) s = true ->
  (String.length (py_replace (String a (String b "")) (String c "") s) < String.length s)%nat.
Proof.
  unfold py_replace. induction s as [|x s IH]; [done|]. cbn [py_contains replace_go].
  destruct (is_prefix (String a (String b "")) (String x s)) eqn:E.
  - intros _. destruct s as [|y s']; [simpl in E; destruct (Ascii.eqb a x); discriminate|].
    pose proof (replace_pair_length a b c s' 0 ltac:(lia)) as H.
    simpl String.append. cbn [String.length Nat.sub] in *. lia.
  - simpl orb. intros H. specialize (IH H). cbn [String.length]. lia.
Qed.
