(* ===== verification/PyDecimal.v ===== *)
(** * Python [decimal.Decimal]

    Finite decimals are sign, coefficient and exponent triples, as in CPython.
    Arithmetic uses the default context (28 significant digits,
    ROUND_HALF_EVEN) and follows [decimal.py]; comparisons are exact and see
    only the numeric value.  The exponent limits Emin/Emax of the context
    (+-999999) are not modelled: no overflow or subnormal result occurs. *)

From stdpp Require Import base tactics list strings.
From Stdlib Require Import ZArith NArith QArith Qabs Qpower Lia Lqa ZifyN ZifyNat Bool Ascii.
From S2P Require Import Prelude PyString.
Open Scope string_scope.

Record dec := mkDec { d_neg : bool; d_coef : N; d_exp : Z }.

Inductive pydec : Type :=
| Finite (d : dec)
| Infinity (neg : bool)
| NaN (neg : bool).

Definition prec : nat := 28.

Definition is_finite (p : pydec) : bool :=
  match p with Finite _ => true | _ => false end.

(** ** Digits and rounding *)

Fixpoint ndigits_go (fuel : nat) (n : N) : nat :=
  match fuel with
  | O => 1
  | S k => if (n / 10 =? 0)%N then 1 else S (ndigits_go k (n / 10)%N)
  end.

(** [len(self._int)] *)
Definition ndigits (n : N) : nat := ndigits_go (N.size_nat n) n.

Definition pow10 (k : nat) : N := (10 ^ N.of_nat k)%N.

Definition div_half_even (n d : N) : N :=
  let q := (n / d)%N in
  let r := (n mod d)%N in
  match (2 * r ?= d)%N with
  | Lt => q
  | Gt => (q + 1)%N
  | Eq => if N.even q then q else (q + 1)%N
  end.

(** [Decimal._fix] *)
Definition dfix (d : dec) : dec :=
  let k := ndigits (d_coef d) in
  if (prec <? k)%nat then
    let drop := (k - prec)%nat in
    let c := div_half_even (d_coef d) (pow10 drop) in
    if (c =? pow10 prec)%N
    then mkDec (d_neg d) (c / 10)%N (d_exp d + Z.of_nat drop + 1)
    else mkDec (d_neg d) c (d_exp d + Z.of_nat drop)
  else d.

(** signed coefficient *)
Definition d_sc (d : dec) : Z :=
  if d_neg d then (- Z.of_N (d_coef d))%Z else Z.of_N (d_coef d).

(** coefficient of [d] at the smaller exponent [m] *)
Definition scaled (d : dec) (m : Z) : Z := (d_sc d * 10 ^ (d_exp d - m))%Z.

(** ** Comparison (exact) *)

Definition dcmp (a b : dec) : comparison :=
  let m := Z.min (d_exp a) (d_exp b) in
  Z.compare (scaled a m) (scaled b m).

Definition dleb (a b : dec) : bool :=
  match dcmp a b with Gt => false | _ => true end.
Definition dltb (a b : dec) : bool :=
  match dcmp a b with Lt => true | _ => false end.
Definition deqb (a b : dec) : bool :=
  match dcmp a b with Eq => true | _ => false end.

Definition dec_of_Z (z : Z) : dec := mkDec (z <? 0)%Z (Z.abs_N z) 0.
Definition dzero : dec := dec_of_Z 0.

(** truth value of a Decimal: [bool(d)] *)
Definition dtruth (d : dec) : bool := negb (d_coef d =? 0)%N.

(** [max(a, b)] and [min(a, b)]: the first argument wins ties *)
Definition dmax (a b : dec) : dec := if dltb a b then b else a.
Definition dmin (a b : dec) : dec := if dltb b a then b else a.

(** ** Arithmetic (default context) *)

Definition dneg_copy (d : dec) : dec := mkDec (negb (d_neg d)) (d_coef d) (d_exp d).

Definition dadd (a b : dec) : dec :=
  let m := Z.min (d_exp a) (d_exp b) in
  let s := (scaled a m + scaled b m)%Z in
  let neg :=
    if (s =? 0)%Z
    then (d_coef a =? 0)%N && (d_coef b =? 0)%N && d_neg a && d_neg b
    else (s <? 0)%Z in
  dfix (mkDec neg (Z.abs_N s) m).

Definition dsub (a b : dec) : dec := dadd a (dneg_copy b).

Definition dmul (a b : dec) : dec :=
  dfix (mkDec (xorb (d_neg a) (d_neg b)) (d_coef a * d_coef b)%N (d_exp a + d_exp b)).

(** Exact quotients are brought as close to the ideal exponent as possible. *)
Fixpoint shed_zeros (fuel : nat) (c : N) (e ideal : Z) : N * Z :=
  match fuel with
  | O => (c, e)
  | S k =>
      if ((e <? ideal)%Z && (c mod 10 =? 0)%N)%bool
      then shed_zeros k (c / 10)%N (e + 1)%Z ideal
      else (c, e)
  end.

Definition ddiv_raw (a b : dec) : dec :=
  let neg := xorb (d_neg a) (d_neg b) in
  let ideal := (d_exp a - d_exp b)%Z in
  if (d_coef a =? 0)%N then mkDec neg 0 ideal
  else
    let shift := (Z.of_nat (ndigits (d_coef b)) - Z.of_nat (ndigits (d_coef a))
                  + Z.of_nat prec + 1)%Z in
    let e := (ideal - shift)%Z in
    let num := if (0 <=? shift)%Z then (d_coef a * pow10 (Z.to_nat shift))%N else d_coef a in
    let den := if (0 <=? shift)%Z then d_coef b else (d_coef b * pow10 (Z.to_nat (- shift)))%N in
    let q := (num / den)%N in
    let r := (num mod den)%N in
    if (r =? 0)%N then
      let (c, e') := shed_zeros (Z.to_nat (ideal - e)) q e ideal in
      mkDec neg c e'
    else mkDec neg (if (q mod 5 =? 0)%N then (q + 1)%N else q) e.

Definition ddiv (a b : dec) : result dec :=
  if (d_coef b =? 0)%N
  then Raise (DecimalError (if (d_coef a =? 0)%N then "DivisionUndefined" else "DivisionByZero"))
  else Ok (dfix (ddiv_raw a b)).

(** [abs(d)] *)
Definition dabs (d : dec) : dec := dfix (mkDec false (d_coef d) (d_exp d)).

(** [Decimal._rescale] *)
Definition drescale (d : dec) (e : Z) : dec :=
  if (d_coef d =? 0)%N then mkDec (d_neg d) 0 e
  else if (e <=? d_exp d)%Z
  then mkDec (d_neg d) (d_coef d * pow10 (Z.to_nat (d_exp d - e)))%N e
  else mkDec (d_neg d) (div_half_even (d_coef d) (pow10 (Z.to_nat (e - d_exp d)))) e.

(** [d.quantize(Decimal((0, (1,), e)))] *)
Definition dquantize (d : dec) (e : Z) : result dec :=
  let r := drescale d e in
  if (prec <? ndigits (d_coef r))%nat
  then Raise (DecimalError "InvalidOperation")
  else Ok r.

(** [d.quantize(Decimal((0, (1,), e)), rounding=ROUND_DOWN)] *)
Definition drescale_down (d : dec) (e : Z) : dec :=
  if (d_coef d =? 0)%N then mkDec (d_neg d) 0 e
  else if (e <=? d_exp d)%Z
  then mkDec (d_neg d) (d_coef d * pow10 (Z.to_nat (d_exp d - e)))%N e
  else mkDec (d_neg d) (d_coef d / pow10 (Z.to_nat (e - d_exp d)))%N e.

Definition dquantize_down (d : dec) (e : Z) : result dec :=
  let r := drescale_down d e in
  if (prec <? ndigits (d_coef r))%nat
  then Raise (DecimalError "InvalidOperation")
  else Ok r.

(** [d.to_integral_value()] *)
Definition dto_integral (d : dec) : dec :=
  if (0 <=? d_exp d)%Z then d else drescale d 0.

Fixpoint strip_zeros (fuel : nat) (c : N) (e : Z) : N * Z :=
  match fuel with
  | O => (c, e)
  | S k => if (c mod 10 =? 0)%N then strip_zeros k (c / 10)%N (e + 1)%Z else (c, e)
  end.

(** [d.normalize()] *)
Definition dnormalize (d : dec) : dec :=
  let f := dfix d in
  if (d_coef f =? 0)%N then mkDec (d_neg f) 0 0
  else let (c, e) := strip_zeros (ndigits (d_coef f)) (d_coef f) (d_exp f) in
       mkDec (d_neg f) c e.

(** ** Text *)

Fixpoint take_string (n : nat) (s : string) : string :=
  match n, s with
  | O, _ => ""
  | _, EmptyString => ""
  | S k, String c s' => String c (take_string k s')
  end.

Fixpoint drop_string (n : nat) (s : string) : string :=
  match n, s with
  | O, _ => s
  | _, EmptyString => ""
  | S k, String _ s' => drop_string k s'
  end.

Definition zeros (n : Z) : string := string_repeat "0" (Z.to_nat n).

(** [str(d)] *)
Definition dec_to_string (d : dec) : string :=
  let digits := string_of_N (d_coef d) in
  let len := Z.of_nat (String.length digits) in
  let leftdigits := (d_exp d + len)%Z in
  let dotplace := if ((d_exp d <=? 0) && (-6 <? leftdigits))%Z then leftdigits else 1%Z in
  let '(intpart, fracpart) :=
    if (dotplace <=? 0)%Z then ("0", "." +:+ zeros (- dotplace) +:+ digits)
    else if (len <=? dotplace)%Z then (digits +:+ zeros (dotplace - len), "")
    else (take_string (Z.to_nat dotplace) digits,
          "." +:+ drop_string (Z.to_nat dotplace) digits) in
  let ex := (leftdigits - dotplace)%Z in
  let exptext :=
    if (ex =? 0)%Z then ""
    else "E" +:+ (if (0 <? ex)%Z then "+" else "") +:+ string_of_Z ex in
  (if d_neg d then "-" else "") +:+ intpart +:+ fracpart +:+ exptext.

(** [format(d, "f")] *)
Definition dec_format_f (d : dec) : string :=
  let d := if ((d_coef d =? 0)%N && (0 <? d_exp d)%Z)%bool
           then mkDec (d_neg d) 0 0 else d in
  let digits := string_of_N (d_coef d) in
  let len := Z.of_nat (String.length digits) in
  let dotplace := (d_exp d + len)%Z in
  let '(intpart, fracpart) :=
    if (dotplace <? 0)%Z then ("0", zeros (- dotplace) +:+ digits)
    else if (len <? dotplace)%Z then (digits +:+ zeros (dotplace - len), "")
    else let i := take_string (Z.to_nat dotplace) digits in
         (if String.eqb i "" then "0" else i, drop_string (Z.to_nat dotplace) digits) in
  (if d_neg d then "-" else "") +:+ intpart
  +:+ (if String.eqb fracpart "" then "" else "." +:+ fracpart).

(** [Decimal(text)]: [None] is [InvalidOperation] *)
Fixpoint read_digits (s : string) (acc : N) (n : nat) : N * nat * string :=
  match s with
  | String c s' =>
      if is_digit c then read_digits s' (10 * acc + digit_value c)%N (S n) else (acc, n, s)
  | EmptyString => (acc, n, s)
  end.

Definition read_sign (s : string) : bool * string :=
  match s with
  | String "-" s' => (true, s')
  | String "+" s' => (false, s')
  | _ => (false, s)
  end.

Definition read_special (neg : bool) (t : string) : option pydec :=
  let l := py_lower t in
  if String.eqb l "inf" || String.eqb l "infinity" then Some (Infinity neg)
  else
    let l' := if is_prefix "s" l then drop_string 1 l else l in
    if is_prefix "nan" l' && string_forallb is_digit (drop_string 3 l')
    then Some (NaN neg) else None.

Definition read_exponent (s : string) : option Z :=
  match s with
  | EmptyString => Some 0%Z
  | String c s' =>
      if Ascii.eqb c "e" || Ascii.eqb c "E" then
        let (eneg, r) := read_sign s' in
        let '(v, n, rest) := read_digits r 0 0 in
        if ((0 <? n)%nat && String.eqb rest "")%bool
        then Some (if eneg then (- Z.of_N v)%Z else Z.of_N v)
        else None
      else None
  end.

Definition parse_decimal (text : string) : option pydec :=
  let t := py_replace "_" "" (py_strip text) in
  let (neg, body) := read_sign t in
  let '(i, ni, r) := read_digits body 0 0 in
  let '(c, nf, r') :=
    match r with
    | String "." rest => read_digits rest i 0
    | _ => (i, 0%nat, r)
    end in
  if (0 <? ni + nf)%nat then
    match read_exponent r' with
    | Some e => Some (Finite (mkDec neg c (e - Z.of_nat nf)))
    | None => None
    end
  else read_special neg body.

(** A Python argument annotated [Any] that the code reads as a number.  A
    [float] is represented by its [repr]. *)
Inductive pyobj : Type :=
| PyNone
| PyBool (b : bool)
| PyInt (z : Z)
| PyFloat (repr : string)
| PyDec (d : pydec)
| PyStr (s : string).

Definition pydec_to_string (p : pydec) : string :=
  match p with
  | Finite d => dec_to_string d
  | Infinity neg => (if neg then "-" else "") +:+ "Infinity"
  | NaN neg => (if neg then "-" else "") +:+ "NaN"
  end.

(** [str(value)] *)
Definition py_str (o : pyobj) : string :=
  match o with
  | PyNone => "None"
  | PyBool b => if b then "True" else "False"
  | PyInt z => string_of_Z z
  | PyFloat repr => repr
  | PyDec p => pydec_to_string p
  | PyStr s => s
  end.

(** ** Digit counts *)

Lemma ndigits_go_pos fuel n : (1 <= ndigits_go fuel n)%nat.
Proof. destruct fuel; simpl; [lia|]. destruct (n / 10 =? 0)%N; lia. Qed.

Lemma ndigits_pos n : (1 <= ndigits n)%nat.
Proof. apply ndigits_go_pos. Qed.

Lemma pow10_succ k : pow10 (S k) = (10 * pow10 k)%N.
Proof. unfold pow10. rewrite Nat2N.inj_succ. apply N.pow_succ_r'. Qed.

Lemma pow10_pos k : (0 < pow10 k)%N.
Proof. unfold pow10. pose proof (N.pow_nonzero 10 (N.of_nat k)). lia. Qed.

Lemma pow10_add a b : pow10 (a + b) = (pow10 a * pow10 b)%N.
Proof. unfold pow10. rewrite Nat2N.inj_add. apply N.pow_add_r. Qed.

Lemma pow10_le a b : (a <= b)%nat -> (pow10 a <= pow10 b)%N.
Proof. intros H. unfold pow10. apply N.pow_le_mono_r; lia. Qed.

Lemma ndigits_go_spec fuel n :
  (n < 2 ^ N.of_nat fuel)%N ->
  (n < pow10 (ndigits_go fuel n))%N /\
  ((0 < n)%N -> (pow10 (ndigits_go fuel n - 1) <= n)%N).
Proof.
  revert n. induction fuel as [|fuel IH]; intros n Hn; simpl.
  - cbn in Hn. unfold pow10; simpl. lia.
  - rewrite Nat2N.inj_succ, N.pow_succ_r' in Hn.
    pose proof (N.div_mod n 10 ltac:(lia)) as Hdm.
    pose proof (N.mod_lt n 10 ltac:(lia)) as Hlt.
    destruct (N.eqb_spec (n / 10) 0) as [E|E].
    + unfold pow10; simpl. lia.
    + destruct (IH (n / 10)%N) as [IHu IHl].
      { apply N.Div0.div_lt_upper_bound; lia. }
      pose proof (ndigits_go_pos fuel (n / 10)) as Hp.
      specialize (IHl ltac:(lia)).
      rewrite pow10_succ. split; [lia|]. intros _.
      replace (S (ndigits_go fuel (n / 10)) - 1)%nat
        with (S (ndigits_go fuel (n / 10) - 1)) by lia.
      rewrite pow10_succ. apply (N.le_trans _ (10 * (n / 10))%N); [apply N.mul_le_mono_l, IHl|].
      apply N.Div0.mul_div_le.
Qed.

Lemma N_size_nat_bound n : (n < 2 ^ N.of_nat (N.size_nat n))%N.
Proof.
  replace (N.of_nat (N.size_nat n)) with (N.size n).
  - apply N.size_gt.
  - destruct n as [|p]; [done|]. simpl. induction p; simpl; lia.
Qed.

Lemma ndigits_upper n : (n < pow10 (ndigits n))%N.
Proof. apply ndigits_go_spec, N_size_nat_bound. Qed.

Lemma ndigits_lower n : (0 < n)%N -> (pow10 (ndigits n - 1) <= n)%N.
Proof. apply ndigits_go_spec, N_size_nat_bound. Qed.

Lemma ndigits_le n k : (n < pow10 k)%N -> (1 <= k)%nat -> (ndigits n <= k)%nat.
Proof.
  intros Hn Hk. destruct (N.eq_dec n 0) as [->|Hz]; [done|].
  pose proof (ndigits_lower n ltac:(lia)) as Hl.
  destruct (Nat.le_gt_cases (ndigits n) k) as [|Hgt]; [done|].
  pose proof (pow10_le k (ndigits n - 1) ltac:(lia)). lia.
Qed.

(** ** Rounding *)

(** The rounded quotient is within half a unit of the exact one. *)
Lemma div_half_even_bound n d :
  (0 < d)%N ->
  (2 * n <= 2 * d * div_half_even n d + d)%N /\ (2 * d * div_half_even n d <= 2 * n + d)%N.
Proof.
  intros Hd. unfold div_half_even.
  pose proof (N.div_mod n d ltac:(lia)) as Hdm.
  pose proof (N.mod_lt n d ltac:(lia)) as Hlt.
  set (q := (n / d)%N) in *. set (r := (n mod d)%N) in *.
  destruct (N.compare_spec (2 * r) d); [destruct (N.even q)|..]; nia.
Qed.

Lemma div_half_even_exact q d : (0 < d)%N -> div_half_even (q * d) d = q.
Proof.
  intros Hd. unfold div_half_even.
  rewrite N.div_mul, N.Div0.mod_mul by lia.
  destruct (N.compare_spec (2 * 0) d); lia.
Qed.

Lemma dfix_small d : (ndigits (d_coef d) <= prec)%nat -> dfix d = d.
Proof. intros H. unfold dfix. destruct (Nat.ltb_spec prec (ndigits (d_coef d))); [lia|done]. Qed.

Lemma dfix_neg d : d_neg (dfix d) = d_neg d.
Proof. unfold dfix. destruct (_ <? _)%nat; [|done]. by destruct (_ =? _)%N. Qed.

(** Rounding a coefficient of [prec + drop] digits leaves at least [10^(prec-1)]
    and at most [10^prec]. *)
Lemma dfix_coef_range n :
  (prec < ndigits n)%nat ->
  let c := div_half_even n (pow10 (ndigits n - prec)) in
  (pow10 (prec - 1) <= c <= pow10 prec)%N.
Proof.
  intros Hk c.
  assert (0 < n)%N as Hn.
  { destruct (N.eq_dec n 0) as [->|]; [cbn in Hk; unfold prec in Hk; lia|lia]. }
  pose proof (ndigits_lower n Hn) as Hl. pose proof (ndigits_upper n) as Hu.
  pose proof (div_half_even_bound n (pow10 (ndigits n - prec)) (pow10_pos _)) as [B1 B2].
  fold c in B1, B2.
  replace (ndigits n) with (prec + (ndigits n - prec))%nat in Hu at 1 by lia.
  replace (ndigits n - 1)%nat with ((prec - 1) + (ndigits n - prec))%nat in Hl
    by (unfold prec in *; lia).
  rewrite pow10_add in Hu, Hl.
  pose proof (pow10_pos (ndigits n - prec)). set (p := pow10 (ndigits n - prec)) in *.
  set (P := pow10 prec) in *. set (P' := pow10 (prec - 1)) in *.
  clearbody c p P P'. nia.
Qed.

Lemma dfix_digits d : (ndigits (d_coef (dfix d)) <= prec)%nat.
Proof.
  unfold dfix. destruct (Nat.ltb_spec prec (ndigits (d_coef d))) as [Hk|Hk]; [|lia].
  pose proof (dfix_coef_range (d_coef d) Hk) as Hr. cbv zeta in Hr.
  destruct (N.eqb_spec (div_half_even (d_coef d) (pow10 (ndigits (d_coef d) - prec))) (pow10 prec))
    as [->|Hne]; simpl.
  - done.
  - apply ndigits_le; [|unfold prec; lia]. lia.
Qed.

Lemma dfix_idem d : dfix (dfix d) = dfix d.
Proof. apply dfix_small, dfix_digits. Qed.

Lemma dfix_coef_zero d : d_coef (dfix d) = 0%N <-> d_coef d = 0%N.
Proof.
  unfold dfix. destruct (Nat.ltb_spec prec (ndigits (d_coef d))) as [Hk|Hk]; [|done].
  pose proof (dfix_coef_range (d_coef d) Hk) as Hr. cbv zeta in Hr.
  assert (d_coef d <> 0%N) as Hnz.
  { intros E. rewrite E in Hk. cbn in Hk. unfold prec in Hk. lia. }
  pose proof (pow10_pos (prec - 1)).
  destruct (N.eqb_spec (div_half_even (d_coef d) (pow10 (ndigits (d_coef d) - prec))) (pow10 prec))
    as [E|Hne]; simpl.
  - rewrite E. split; [|intros H0; destruct (Hnz H0)].
    intros Hz. exfalso. apply (N.lt_irrefl 0). rewrite <- Hz at 2. by vm_compute.
  - lia.
Qed.

(** ** Shape of the text of a decimal *)

Definition numeric_head (c : ascii) : bool := is_digit c || Ascii.eqb c "-".

Lemma digit_char_is_digit n : is_digit (ascii_of_N (48 + n mod 10)%N) = true.
Proof.
  assert (n mod 10 < 10)%N as H by (apply N.mod_lt; lia).
  generalize dependent (n mod 10)%N. intros m Hm.
  assert (In m [0;1;2;3;4;5;6;7;8;9]%N) as Hin by (simpl; lia).
  simpl in Hin. destruct_or!; subst; try done; lia.
Qed.

Lemma digits_go_head fuel n acc :
  (fuel <> 0%nat \/ exists c s, acc = String c s /\ is_digit c = true) ->
  exists c s, digits_go fuel n acc = String c s /\ is_digit c = true.
Proof.
  revert n acc. induction fuel as [|fuel IH]; intros n acc [H|H]; try done; simpl.
  all: destruct (n / 10 =? 0)%N;
    [eexists _, _; split; [reflexivity|apply digit_char_is_digit]|];
    apply IH; right; eexists _, _; split; [reflexivity|apply digit_char_is_digit].
Qed.

Lemma string_of_N_head n : exists c s, string_of_N n = String c s /\ is_digit c = true.
Proof. apply digits_go_head. by left. Qed.

Lemma digits_go_digits fuel n acc :
  string_forallb is_digit acc = true -> string_forallb is_digit (digits_go fuel n acc) = true.
Proof.
  revert n acc. induction fuel as [|fuel IH]; intros n acc Ha; [done|]. simpl.
  assert (string_forallb is_digit (String (ascii_of_N (48 + n mod 10)) acc) = true) as H.
  { cbn [string_forallb]. by rewrite digit_char_is_digit. }
  destruct (n / 10 =? 0)%N; auto.
Qed.

Lemma string_of_N_digits n : string_forallb is_digit (string_of_N n) = true.
Proof. by apply digits_go_digits. Qed.

Lemma digit_char_value n :
  is_digit (ascii_of_N (48 + n mod 10)) = true /\ digit_value (ascii_of_N (48 + n mod 10)) = (n mod 10)%N.
Proof.
  split; [apply digit_char_is_digit|]. pose proof (N.mod_lt n 10 ltac:(lia)).
  unfold digit_value, ascii_code. rewrite N_ascii_embedding; lia.
Qed.

Lemma dec_to_string_head d :
  exists c s, dec_to_string d = String c s /\ numeric_head c = true.
Proof.
  unfold dec_to_string. destruct (string_of_N_head (d_coef d)) as (c & s & -> & Hc).
  destruct (d_neg d).
  - destruct (if _ : bool then _ else _) as [ip fp]. simpl. eauto.
  - unfold numeric_head. set (dp := if _ : bool then _ else 1%Z).
    destruct (Z.leb_spec dp 0); [simpl; eauto|].
    destruct (_ <=? dp)%Z; simpl; [exists c; rewrite Hc; eauto|].
    destruct (Z.to_nat dp) eqn:E; [lia|]. simpl. exists c. rewrite Hc. eauto.
Qed.

Lemma numeric_head_strip c s :
  numeric_head c = true ->
  exists s', py_upper (py_strip (String c s)) = String (upper_char c) s'.
Proof.
  intros Hc. unfold py_strip, strip_by. simpl.
  assert (is_space c = false) as E by (revert Hc; by destruct c as [[] [] [] [] [] [] [] []]).
  rewrite E. simpl. rewrite E. simpl. by eexists.
Qed.

(** ** Squares and square roots

    [x ** 2] multiplies with three more digits than the context has and rounds
    again, as libmpdec does for integer powers; [x.sqrt()] is the correctly rounded
    root. *)

(** rounding half even to [p] digits *)
Definition dround (p : nat) (d : dec) : dec :=
  let k := ndigits (d_coef d) in
  if (p <? k)%nat then
    let drop := (k - p)%nat in
    let c := div_half_even (d_coef d) (pow10 drop) in
    if (c =? pow10 p)%N
    then mkDec (d_neg d) (c / 10)%N (d_exp d + Z.of_nat drop + 1)
    else mkDec (d_neg d) c (d_exp d + Z.of_nat drop)
  else d.

(** [d ** 2] *)
Definition dsquare (d : dec) : dec :=
  if (d_coef d =? 0)%N then mkDec false 0 0
  else dfix (dround (prec + 3) (mkDec false (d_coef d * d_coef d)%N (d_exp d + d_exp d))).

(** [d.sqrt()]: the coefficient is scaled to [prec + 1] pairs of digits, and an inexact root never ends in 0 or 5 *)
Definition dsqrt (d : dec) : result dec :=
  if (d_coef d =? 0)%N then Ok (mkDec (d_neg d) 0 (d_exp d / 2))
  else if d_neg d then Raise (DecimalError "InvalidOperation")
  else
    let len := Z.of_nat (ndigits (d_coef d)) in
    let odd := Z.odd (d_exp d) in
    let c := if odd then (d_coef d * 10)%N else d_coef d in
    let l := if odd then (len / 2 + 1)%Z else ((len + 1) / 2)%Z in
    let shift := (Z.of_nat prec + 1 - l)%Z in
    let scale := pow10 (2 * Z.to_nat (Z.abs shift)) in
    let scaled := if (0 <=? shift)%Z then (c * scale)%N else (c / scale)%N in
    let e := (d_exp d / 2 - shift)%Z in
    let n := N.sqrt scaled in
    let exact := ((0 <=? shift)%Z || (c mod scale =? 0)%N) && (n * n =? scaled)%N in
    if exact
    then Ok (dfix (mkDec false (if (0 <=? shift)%Z then (n / pow10 (Z.to_nat shift))%N else (n * pow10 (Z.to_nat (- shift)))%N)
                     (d_exp d / 2)))
    else Ok (dfix (mkDec false (if (n mod 5 =? 0)%N then (n + 1)%N else n) e)).

Example sqrt_two : map_result dec_to_string (dsqrt (dec_of_Z 2)) = Ok "1.414213562373095048801688724".
Proof. vm_compute. reflexivity. Qed.

Example sqrt_of_square : map_result dec_to_string (dsqrt (mkDec false 390625 (-4))) = Ok "6.25".
Proof. vm_compute. reflexivity. Qed.

Example sqrt_odd_exponent : map_result dec_to_string (dsqrt (mkDec false 9 (-3))) = Ok "0.09486832980505137995996680633".
Proof. vm_compute. reflexivity. Qed.

Example square_rounds : dec_to_string (dsquare (mkDec true 1234567890123456789012345678 (-10))) = "1.524157875323883675049535154E+34".
Proof. vm_compute. reflexivity. Qed.
