(* ===== verification/DecimalFacts.v ===== *)
(** * Decimals as rationals

    The numeric value [dQ] of a decimal, the proof that the exact comparisons
    of [PyDecimal] decide the order of the values, and the error and sign
    lemmas of the rounded operations.  [dec_lra] turns the boolean comparisons
    in a goal and its hypotheses into rational (in)equalities and calls [lra];
    the equivalence [deq] ("numerically equal") has [Proper] instances for the
    comparisons. *)

From stdpp Require Import base tactics list strings.
From Stdlib Require Import ZArith NArith QArith Qabs Qpower Qminmax Lia Lqa ZifyN ZifyNat Bool.
From S2P Require Import Prelude PyString PyDecimal.
Open Scope Q_scope.

Definition ten_pow (z : Z) : Q := (10 # 1) ^ z.

Definition dQ (d : dec) : Q := inject_Z (d_sc d) * ten_pow (d_exp d).

(** Numerical equality: [Decimal("1.0") == Decimal("1.00")]. *)
Definition deq (a b : dec) : Prop := dQ a == dQ b.

Lemma ten_pow_pos z : 0 < ten_pow z.
Proof. unfold ten_pow. by apply Qpower_0_lt. Qed.

Lemma ten_pow_add a b : ten_pow (a + b) == ten_pow a * ten_pow b.
Proof. unfold ten_pow. apply Qpower_plus. discriminate. Qed.

Lemma ten_pow_nonneg z : (0 <= z)%Z -> ten_pow z == inject_Z (10 ^ z).
Proof. intros Hz. unfold ten_pow. by rewrite Zpower_Qpower. Qed.

Lemma ten_pow_0 : ten_pow 0 == 1.
Proof. reflexivity. Qed.

Lemma ten_pow_nat k : ten_pow (Z.of_nat k) == inject_Z (Z.of_N (pow10 k)).
Proof.
  rewrite ten_pow_nonneg by lia. unfold pow10. rewrite N2Z.inj_pow, nat_N_Z. reflexivity.
Qed.

Lemma dQ_scaled d m : (m <= d_exp d)%Z -> dQ d == inject_Z (scaled d m) * ten_pow m.
Proof.
  intros Hm. unfold dQ, scaled. rewrite inject_Z_mult, <- ten_pow_nonneg by lia.
  rewrite <- Qmult_assoc, <- ten_pow_add. by replace (d_exp d - m + m)%Z with (d_exp d) by lia.
Qed.

(** ** Comparisons *)

Lemma dcmp_spec a b : CompareSpec (dQ a == dQ b) (dQ a < dQ b) (dQ b < dQ a) (dcmp a b).
Proof.
  unfold dcmp. set (m := Z.min (d_exp a) (d_exp b)).
  assert (dQ a == inject_Z (scaled a m) * ten_pow m) as Ha by (apply dQ_scaled; lia).
  assert (dQ b == inject_Z (scaled b m) * ten_pow m) as Hb by (apply dQ_scaled; lia).
  pose proof (ten_pow_pos m) as Hp.
  destruct (Z.compare_spec (scaled a m) (scaled b m)) as [E|E|E]; constructor;
    rewrite Ha, Hb.
  - by rewrite E.
  - apply Qmult_lt_compat_r; [done|]. by rewrite <- Zlt_Qlt.
  - apply Qmult_lt_compat_r; [done|]. by rewrite <- Zlt_Qlt.
Qed.

Lemma dleb_spec a b : dleb a b = true <-> dQ a <= dQ b.
Proof. unfold dleb. destruct (dcmp_spec a b); split; intros; try done; lra. Qed.

Lemma dltb_spec a b : dltb a b = true <-> dQ a < dQ b.
Proof. unfold dltb. destruct (dcmp_spec a b); split; intros; try done; lra. Qed.

Lemma deqb_spec a b : deqb a b = true <-> dQ a == dQ b.
Proof. unfold deqb. destruct (dcmp_spec a b); split; intros; try done; lra. Qed.

Lemma dleb_false a b : dleb a b = false <-> dQ b < dQ a.
Proof. unfold dleb. destruct (dcmp_spec a b); split; intros; try done; lra. Qed.

Lemma dltb_false a b : dltb a b = false <-> dQ b <= dQ a.
Proof. unfold dltb. destruct (dcmp_spec a b); split; intros; try done; lra. Qed.

Lemma deqb_false a b : deqb a b = false <-> ~ dQ a == dQ b.
Proof. unfold deqb. destruct (dcmp_spec a b); split; intros; try done; lra. Qed.

Lemma dleb_true_of a b : dQ a <= dQ b -> dleb a b = true.
Proof. apply dleb_spec. Qed.

#[export] Instance deq_equiv : Equivalence deq.
Proof. unfold deq. split; repeat intro; [reflexivity|by symmetry|by etrans]. Qed.

#[export] Instance dleb_proper : Proper (deq ==> deq ==> eq) dleb.
Proof.
  intros a a' Ha b b' Hb. unfold deq in *. apply eq_true_iff_eq.
  rewrite !dleb_spec. by rewrite Ha, Hb.
Qed.

#[export] Instance dltb_proper : Proper (deq ==> deq ==> eq) dltb.
Proof.
  intros a a' Ha b b' Hb. unfold deq in *. apply eq_true_iff_eq.
  rewrite !dltb_spec. by rewrite Ha, Hb.
Qed.

#[export] Instance deqb_proper : Proper (deq ==> deq ==> eq) deqb.
Proof.
  intros a a' Ha b b' Hb. unfold deq in *. apply eq_true_iff_eq.
  rewrite !deqb_spec. by rewrite Ha, Hb.
Qed.

Create Rewrite HintDb decQ.
#[export] Hint Rewrite dleb_spec dltb_spec deqb_spec dleb_false dltb_false deqb_false
  : decQ.

(** Turn every boolean comparison into a rational one and finish with [lra]. *)
Ltac dec_lra :=
  rewrite ?negb_true_iff, ?negb_false_iff, ?andb_true_iff in *;
  autorewrite with decQ in *; destruct_and?; repeat split; lra.

Lemma dQ_dec_of_Z z : dQ (dec_of_Z z) == inject_Z z.
Proof.
  unfold dQ, dec_of_Z, d_sc. cbn [d_neg d_coef d_exp]. change (ten_pow 0) with 1.
  rewrite Qmult_1_r.
  destruct (Z.ltb_spec z 0); rewrite N2Z.inj_abs_N.
  - by replace (- Z.abs z)%Z with z by lia.
  - by rewrite Z.abs_eq by lia.
Qed.

Lemma dQ_zero : dQ dzero == 0.
Proof. apply (dQ_dec_of_Z 0). Qed.

Lemma dmax_Q a b : dQ (dmax a b) == Qmax (dQ a) (dQ b).
Proof.
  unfold dmax. destruct (dltb a b) eqn:E; autorewrite with decQ in E.
  - rewrite Q.max_r; [done|lra].
  - rewrite Q.max_l; [done|lra].
Qed.

Lemma dmin_Q a b : dQ (dmin a b) == Qmin (dQ a) (dQ b).
Proof.
  unfold dmin. destruct (dltb b a) eqn:E; autorewrite with decQ in E.
  - rewrite Q.min_r; [done|lra].
  - rewrite Q.min_l; [done|lra].
Qed.

(** ** Rounding to the context precision *)

Lemma dQ_coef d : Qabs (dQ d) == inject_Z (Z.of_N (d_coef d)) * ten_pow (d_exp d).
Proof.
  unfold dQ. rewrite Qabs_Qmult, (Qabs_pos (ten_pow _)) by apply Qlt_le_weak, ten_pow_pos.
  apply Qmult_comp; [|done]. unfold d_sc. destruct (d_neg d).
  - rewrite inject_Z_opp, Qabs_opp. apply Qabs_pos. rewrite <- (Zle_Qle 0). lia.
  - apply Qabs_pos. rewrite <- (Zle_Qle 0). lia.
Qed.

Definition half_ulp : Q := 1 # 2000000000000000000000000000.

(** The relative error of rounding to 28 digits is at most half a unit in the
    last place. *)
Lemma dfix_error d : Qabs (dQ (dfix d) - dQ d) <= half_ulp * Qabs (dQ d).
Proof.
  unfold dfix. destruct (Nat.ltb_spec prec (ndigits (d_coef d))) as [Hk|Hk].
  2:{ setoid_replace (dQ d - dQ d) with 0 using relation Qeq by ring. rewrite Qabs_pos by lra.
      apply Qmult_le_0_compat; [discriminate|apply Qabs_nonneg]. }
  set (k := (ndigits (d_coef d) - prec)%nat).
  set (c := div_half_even (d_coef d) (pow10 k)).
  pose proof (div_half_even_bound (d_coef d) (pow10 k) (pow10_pos k)) as [B1 B2].
  fold c in B1, B2.
  assert (d_coef d <> 0%N) as Hnz by (intros E; rewrite E in Hk; cbn in Hk; unfold prec in Hk; lia).
  pose proof (ndigits_lower (d_coef d) ltac:(lia)) as Hl.
  replace (ndigits (d_coef d) - 1)%nat with (27 + k)%nat in Hl by (unfold k, prec in *; lia).
  rewrite pow10_add in Hl.
  assert (forall d', d_neg d' = d_neg d ->
            dQ d' == (if d_neg d then -1 else 1) * (inject_Z (Z.of_N (c * pow10 k)) * ten_pow (d_exp d)) ->
            Qabs (dQ d' - dQ d) <= half_ulp * Qabs (dQ d)) as Main.
  { intros d' _ Hd'. pose proof (ten_pow_pos (d_exp d)) as Hp.
    assert (dQ d == (if d_neg d then -1 else 1) *
              (inject_Z (Z.of_N (d_coef d)) * ten_pow (d_exp d))) as Hd.
    { unfold dQ, d_sc. destruct (d_neg d); rewrite ?inject_Z_opp; ring. }
    rewrite dQ_coef, Hd', Hd.
    setoid_replace ((if d_neg d then -1 else 1) * (inject_Z (Z.of_N (c * pow10 k)) * ten_pow (d_exp d)) -
       (if d_neg d then -1 else 1) * (inject_Z (Z.of_N (d_coef d)) * ten_pow (d_exp d)))
      with ((if d_neg d then -1 else 1) *
            (inject_Z (Z.of_N (c * pow10 k) - Z.of_N (d_coef d)) * ten_pow (d_exp d)))
      using relation Qeq by (unfold Z.sub; rewrite inject_Z_plus, inject_Z_opp; ring).
    rewrite Qabs_Qmult.
    assert (Qabs (if d_neg d then -1 else 1) == 1) as -> by (by destruct (d_neg d)).
    rewrite Qmult_1_l, Qabs_Qmult, (Qabs_pos (ten_pow _)), Qmult_assoc by lra.
    apply Qmult_le_compat_r; [|lra].
    unfold half_ulp, inject_Z, Qabs, Qle, Qmult; simpl Qnum; simpl Qden.
    assert (pow10 27 = 1000000000000000000000000000%N) as E27 by (by vm_compute).
    rewrite E27 in Hl.
    set (p := pow10 k) in *. set (n := d_coef d) in *.
    assert (Z.abs (2 * Z.of_N (c * p) - 2 * Z.of_N n) <= Z.of_N p)%Z by lia.
    assert (1000000000000000000000000000 * Z.of_N p <= Z.of_N n)%Z by lia.
    lia. }
  assert (forall e1 e2 : Z, e1 = (d_exp d + e2)%Z -> (0 <= e2)%Z ->
     ten_pow e1 == inject_Z (10 ^ e2) * ten_pow (d_exp d)) as Hten.
  { intros e1 e2 -> He2. rewrite ten_pow_add, (ten_pow_nonneg e2) by done. ring. }
  assert (forall c' e', (Z.of_N c' * 10 ^ e' = Z.of_N (c * pow10 k))%Z -> (0 <= e')%Z ->
    dQ (mkDec (d_neg d) c' (d_exp d + e')) ==
    (if d_neg d then -1 else 1) * (inject_Z (Z.of_N (c * pow10 k)) * ten_pow (d_exp d))) as Hval.
  { intros c' e' Hc He. unfold dQ. simpl. rewrite (Hten _ e' eq_refl He), <- Hc, inject_Z_mult.
    unfold d_sc; simpl. destruct (d_neg d); rewrite ?inject_Z_opp; ring. }
  destruct (N.eqb_spec c (pow10 prec)) as [Ec|Ec].
  - apply Main; [done|]. rewrite <- Z.add_assoc. apply Hval; [|lia].
    rewrite Ec. rewrite Z.pow_add_r by lia. change (pow10 prec) with (pow10 27 * 10)%N.
    rewrite N.div_mul by done. unfold pow10 at 3. rewrite !N2Z.inj_mul, N2Z.inj_pow, nat_N_Z.
    change (Z.of_N 10) with 10%Z. ring.
  - apply Main; [done|]. apply Hval; [|lia].
    unfold pow10. by rewrite N2Z.inj_mul, N2Z.inj_pow, nat_N_Z.
Qed.

Lemma dfix_exact d : (ndigits (d_coef d) <= prec)%nat -> dQ (dfix d) == dQ d.
Proof. intros H. by rewrite dfix_small. Qed.

Lemma dfix_sgn d : Z.sgn (d_sc (dfix d)) = Z.sgn (d_sc d).
Proof.
  pose proof (dfix_coef_zero d) as Hz. unfold d_sc. rewrite dfix_neg.
  destruct (d_neg d); destruct (N.eq_dec (d_coef d) 0) as [E|E];
    destruct (N.eq_dec (d_coef (dfix d)) 0) as [E'|E']; try tauto; lia.
Qed.

Lemma dQ_sgn_pos d : 0 < dQ d <-> (0 < d_sc d)%Z.
Proof.
  unfold dQ. pose proof (ten_pow_pos (d_exp d)). split; intros Hd.
  - rewrite Zlt_Qlt. change (inject_Z 0) with 0.
    apply (Qmult_lt_r _ _ (ten_pow (d_exp d))); [done|]. lra.
  - rewrite Zlt_Qlt in Hd. change (inject_Z 0) with 0 in Hd. apply (Qmult_lt_r _ _ (ten_pow (d_exp d))) in Hd; [|done]. lra.
Qed.

Lemma dQ_sgn_neg d : dQ d < 0 <-> (d_sc d < 0)%Z.
Proof.
  unfold dQ. pose proof (ten_pow_pos (d_exp d)). split; intros Hd.
  - rewrite Zlt_Qlt. change (inject_Z 0) with 0.
    apply (Qmult_lt_r _ _ (ten_pow (d_exp d))); [done|]. lra.
  - rewrite Zlt_Qlt in Hd. change (inject_Z 0) with 0 in Hd. apply (Qmult_lt_r _ _ (ten_pow (d_exp d))) in Hd; [|done]. lra.
Qed.

(** Rounding never changes the sign, and never turns a non-zero value into zero. *)
Lemma dfix_pos d : 0 < dQ (dfix d) <-> 0 < dQ d.
Proof. rewrite !dQ_sgn_pos. pose proof (dfix_sgn d). lia. Qed.

Lemma dfix_negative d : dQ (dfix d) < 0 <-> dQ d < 0.
Proof. rewrite !dQ_sgn_neg. pose proof (dfix_sgn d). lia. Qed.

(** ** Addition, subtraction, multiplication *)

Lemma dQ_neg_copy d : dQ (dneg_copy d) == - dQ d.
Proof.
  unfold dQ, dneg_copy, d_sc. cbn [d_neg d_coef d_exp].
  destruct (d_neg d); simpl negb; cbv iota; rewrite inject_Z_opp; ring.
Qed.

Lemma d_sc_of_Z neg z e :
  neg = (z <? 0)%Z \/ z = 0%Z -> d_sc (mkDec neg (Z.abs_N z) e) = z.
Proof. intros H. unfold d_sc; cbn [d_neg d_coef]. destruct neg; destruct (Z.ltb_spec z 0); lia. Qed.

(** A sum is the exact sum of the values, rounded once. *)
Lemma dadd_value a b : exists x, dadd a b = dfix x /\ dQ x == dQ a + dQ b.
Proof.
  unfold dadd. eexists. split; [reflexivity|].
  set (m := Z.min (d_exp a) (d_exp b)). set (s := (scaled a m + scaled b m)%Z).
  unfold dQ at 1. cbn [d_exp]. rewrite d_sc_of_Z.
  - rewrite (dQ_scaled a m), (dQ_scaled b m) by lia. unfold s. rewrite inject_Z_plus. ring.
  - destruct (Z.eqb_spec s 0) as [E|E]; [by right|by left].
Qed.

Lemma dsub_value a b : exists x, dsub a b = dfix x /\ dQ x == dQ a - dQ b.
Proof.
  destruct (dadd_value a (dneg_copy b)) as (x & Hx & Hq).
  exists x. split; [exact Hx|]. rewrite Hq, dQ_neg_copy. ring.
Qed.

Lemma dmul_value a b : exists x, dmul a b = dfix x /\ dQ x == dQ a * dQ b.
Proof.
  unfold dmul. eexists. split; [reflexivity|].
  unfold dQ. cbn [d_exp]. rewrite ten_pow_add.
  assert (d_sc (mkDec (xorb (d_neg a) (d_neg b)) (d_coef a * d_coef b) (d_exp a + d_exp b))
          = (d_sc a * d_sc b)%Z) as ->.
  { unfold d_sc; cbn [d_neg d_coef]. destruct (d_neg a), (d_neg b); simpl xorb; cbv iota;
      rewrite N2Z.inj_mul; ring. }
  rewrite inject_Z_mult. ring.
Qed.

Lemma dsub_pos a b : 0 < dQ (dsub a b) <-> dQ b < dQ a.
Proof. destruct (dsub_value a b) as (x & -> & Hx). rewrite dfix_pos, Hx. split; intros; lra. Qed.

Lemma dsub_negative a b : dQ (dsub a b) < 0 <-> dQ a < dQ b.
Proof. destruct (dsub_value a b) as (x & -> & Hx). rewrite dfix_negative, Hx. split; intros; lra. Qed.

Lemma dsub_zero a b : dQ (dsub a b) == 0 <-> dQ a == dQ b.
Proof.
  pose proof (dsub_pos a b) as [P1 P2]. pose proof (dsub_negative a b) as [N1 N2].
  split; intros E.
  - destruct (Q_dec (dQ a) (dQ b)) as [[H|H]|H]; [apply N2 in H|apply P2 in H|done]; lra.
  - destruct (Q_dec (dQ (dsub a b)) 0) as [[H|H]|H]; [apply N1 in H|apply P1 in H|done]; lra.
Qed.

Lemma dadd_pos a b : 0 < dQ (dadd a b) <-> 0 < dQ a + dQ b.
Proof. destruct (dadd_value a b) as (x & -> & Hx). by rewrite dfix_pos, Hx. Qed.

Lemma dmul_pos a b : 0 < dQ a -> 0 < dQ b -> 0 < dQ (dmul a b).
Proof.
  intros Ha Hb. destruct (dmul_value a b) as (x & -> & Hx). rewrite dfix_pos, Hx.
  by apply Qmult_lt_0_compat.
Qed.

(** ** Division *)

Lemma shed_zeros_value fuel c e ideal :
  let '(c', e') := shed_zeros fuel c e ideal in
  inject_Z (Z.of_N c') * ten_pow e' == inject_Z (Z.of_N c) * ten_pow e.
Proof.
  revert c e. induction fuel as [|fuel IH]; intros c e; simpl; [reflexivity|].
  destruct (Z.ltb_spec e ideal) as [He|He]; simpl; [|reflexivity].
  destruct (N.eqb_spec (c mod 10) 0) as [Hc|Hc]; [|reflexivity].
  specialize (IH (c / 10)%N (e + 1)%Z). destruct (shed_zeros _ _ _ _) as [c' e'].
  rewrite IH, ten_pow_add. change (ten_pow 1) with (inject_Z 10).
  assert (c = 10 * (c / 10))%N as Hdiv by (pose proof (N.div_mod c 10); lia).
  rewrite Hdiv at 2. rewrite N2Z.inj_mul, inject_Z_mult. change (Z.of_N 10) with 10%Z. ring.
Qed.

Definition sgnQ (neg : bool) : Q := if neg then -1 else 1.

Lemma sgnQ_abs neg : Qabs (sgnQ neg) == 1.
Proof. by destruct neg. Qed.

Lemma dQ_sgn d : dQ d == sgnQ (d_neg d) * (inject_Z (Z.of_N (d_coef d)) * ten_pow (d_exp d)).
Proof. unfold dQ, d_sc, sgnQ. destruct (d_neg d); rewrite ?inject_Z_opp; ring. Qed.

(** Numerator and denominator of the long division of two coefficients. *)
Definition div_shift (a b : dec) : Z :=
  (Z.of_nat (ndigits (d_coef b)) - Z.of_nat (ndigits (d_coef a)) + Z.of_nat prec + 1)%Z.
Definition div_num (a b : dec) : N :=
  if (0 <=? div_shift a b)%Z then (d_coef a * pow10 (Z.to_nat (div_shift a b)))%N else d_coef a.
Definition div_den (a b : dec) : N :=
  if (0 <=? div_shift a b)%Z then d_coef b
  else (d_coef b * pow10 (Z.to_nat (- div_shift a b)))%N.

Lemma div_den_pos a b : d_coef b <> 0%N -> (0 < div_den a b)%N.
Proof.
  intros Hb. unfold div_den. destruct (0 <=? div_shift a b)%Z; [lia|].
  pose proof (pow10_pos (Z.to_nat (- div_shift a b))). nia.
Qed.

Lemma div_num_den_lower a b :
  d_coef a <> 0%N -> d_coef b <> 0%N -> (pow10 prec * div_den a b <= div_num a b)%N.
Proof.
  intros Ha Hb. pose proof (ndigits_lower (d_coef a) ltac:(lia)) as Hl.
  pose proof (ndigits_upper (d_coef b)) as Hu.
  pose proof (ndigits_pos (d_coef a)). pose proof (ndigits_pos (d_coef b)).
  unfold div_num, div_den. destruct (Z.leb_spec 0 (div_shift a b)) as [Hs|Hs].
  - assert (prec + ndigits (d_coef b) =
            (ndigits (d_coef a) - 1) + Z.to_nat (div_shift a b))%nat as He
      by (unfold div_shift in *; lia).
    apply (f_equal pow10) in He. rewrite !pow10_add in He.
    set (p := pow10 (Z.to_nat (div_shift a b))) in *.
    set (P := pow10 prec) in *. nia.
  - assert (prec + ndigits (d_coef b) + Z.to_nat (- div_shift a b) =
            (ndigits (d_coef a) - 1))%nat as He by (unfold div_shift in *; lia).
    apply (f_equal pow10) in He. rewrite !pow10_add in He.
    set (p := pow10 (Z.to_nat (- div_shift a b))) in *.
    set (P := pow10 prec) in *. nia.
Qed.

(** The exact quotient, at the exponent of the long division. *)
Lemma div_exact_value a b :
  d_coef b <> 0%N ->
  dQ a / dQ b ==
  sgnQ (xorb (d_neg a) (d_neg b)) *
  ((inject_Z (Z.of_N (div_num a b)) / inject_Z (Z.of_N (div_den a b)))
   * ten_pow (d_exp a - d_exp b - div_shift a b)).
Proof.
  intros Hb.
  assert (forall n, n <> 0%N -> ~ inject_Z (Z.of_N n) == 0) as Hnz.
  { intros n Hn. change 0 with (inject_Z 0). rewrite inject_Z_injective. lia. }
  assert (forall z, ~ ten_pow z == 0) as Htz.
  { intros z. pose proof (ten_pow_pos z). lra. }
  assert (ten_pow (d_exp a) ==
          ten_pow (d_exp a - d_exp b - div_shift a b) * ten_pow (d_exp b) *
          ten_pow (div_shift a b)) as Hexp.
  { rewrite <- !ten_pow_add. by replace (d_exp a - d_exp b - div_shift a b + d_exp b + div_shift a b)%Z
      with (d_exp a) by lia. }
  rewrite (dQ_sgn a), (dQ_sgn b), Hexp. unfold div_num, div_den.
  set (e := ten_pow (d_exp a - d_exp b - div_shift a b)).
  destruct (Z.leb_spec 0 (div_shift a b)) as [Hs|Hs].
  - assert (ten_pow (div_shift a b) == inject_Z (Z.of_N (pow10 (Z.to_nat (div_shift a b))))) as ->
      by (rewrite <- ten_pow_nat; by rewrite Z2Nat.id).
    rewrite N2Z.inj_mul, inject_Z_mult.
    unfold sgnQ. destruct (d_neg a), (d_neg b); simpl xorb; cbv iota; field; auto.
  - assert (ten_pow (- div_shift a b) * ten_pow (div_shift a b) == 1) as Hinv
      by (rewrite <- ten_pow_add; by replace (- div_shift a b + div_shift a b)%Z with 0%Z by lia).
    assert (inject_Z (Z.of_N (pow10 (Z.to_nat (- div_shift a b)))) == ten_pow (- div_shift a b)) as Hp
      by (rewrite <- ten_pow_nat; by rewrite Z2Nat.id by lia).
    rewrite N2Z.inj_mul, inject_Z_mult, Hp.
    assert (ten_pow (div_shift a b) == 1 / ten_pow (- div_shift a b)) as ->
      by (rewrite <- Hinv; field; auto).
    unfold sgnQ. destruct (d_neg a), (d_neg b); simpl xorb; cbv iota; field; auto.
Qed.

(** The long division yields an integer within one unit of the exact quotient. *)
Lemma ddiv_raw_coef a b :
  d_coef a <> 0%N -> d_coef b <> 0%N ->
  exists c, dQ (ddiv_raw a b) ==
            sgnQ (xorb (d_neg a) (d_neg b)) *
            (inject_Z (Z.of_N c) * ten_pow (d_exp a - d_exp b - div_shift a b)) /\
            (Z.abs (Z.of_N c * Z.of_N (div_den a b) - Z.of_N (div_num a b))
             <= Z.of_N (div_den a b))%Z.
Proof.
  intros Ha Hb. unfold ddiv_raw. destruct (N.eqb_spec (d_coef a) 0) as [|_]; [done|].
  fold (div_shift a b). fold (div_num a b). fold (div_den a b).
  pose proof (div_den_pos a b Hb) as Hd.
  pose proof (N.div_mod (div_num a b) (div_den a b) ltac:(lia)) as Hdm.
  pose proof (N.mod_lt (div_num a b) (div_den a b) ltac:(lia)) as Hr.
  set (q := (div_num a b / div_den a b)%N) in *.
  set (r := (div_num a b mod div_den a b)%N) in *.
  set (ideal := (d_exp a - d_exp b)%Z). set (e := (ideal - div_shift a b)%Z).
  destruct (N.eqb_spec r 0) as [E|E].
  - exists q. pose proof (shed_zeros_value (Z.to_nat (ideal - e)) q e ideal) as Hv.
    destruct (shed_zeros _ _ _ _) as [c e']. rewrite dQ_sgn. cbn [d_neg d_coef d_exp].
    rewrite Hv. split; [reflexivity|]. nia.
  - exists (if (q mod 5 =? 0)%N then (q + 1)%N else q). rewrite dQ_sgn.
    cbn [d_neg d_coef d_exp]. split; [reflexivity|].
    destruct (q mod 5 =? 0)%N; nia.
Qed.

Lemma Qabs_scaled_diff s c x t :
  0 < t -> Qabs (sgnQ s * (c * t) - sgnQ s * (x * t)) == Qabs (c - x) * t.
Proof.
  intros Ht.
  setoid_replace (sgnQ s * (c * t) - sgnQ s * (x * t)) with (sgnQ s * ((c - x) * t))
    using relation Qeq by ring.
  rewrite !Qabs_Qmult, sgnQ_abs, (Qabs_pos t) by lra. ring.
Qed.

Lemma Qabs_scaled s x t : 0 < t -> Qabs (sgnQ s * (x * t)) == Qabs x * t.
Proof. intros Ht. rewrite !Qabs_Qmult, sgnQ_abs, (Qabs_pos t) by lra. ring. Qed.

Lemma quotient_unit_error c num den :
  (0 < den)%N -> (pow10 prec * den <= num)%N ->
  (Z.abs (Z.of_N c * Z.of_N den - Z.of_N num) <= Z.of_N den)%Z ->
  Qabs (inject_Z (Z.of_N c) - inject_Z (Z.of_N num) / inject_Z (Z.of_N den)) <=
  (1 # 10000000000000000000000000000) * Qabs (inject_Z (Z.of_N num) / inject_Z (Z.of_N den)).
Proof.
  intros Hd Hlow Habs.
  assert (0 < inject_Z (Z.of_N den)) as Hdq by (change 0 with (inject_Z 0); rewrite <- Zlt_Qlt; lia).
  set (D := inject_Z (Z.of_N den)) in *. set (X := inject_Z (Z.of_N num)).
  assert ((10000000000000000000000000000 # 1) * D <= X) as Hlow'.
  { change (10000000000000000000000000000 # 1) with (inject_Z 10000000000000000000000000000).
    unfold D, X. rewrite <- inject_Z_mult, <- Zle_Qle.
    assert (Z.of_N (pow10 prec) = 10000000000000000000000000000%Z) as <- by (by vm_compute). lia. }
  assert (Qabs (inject_Z (Z.of_N c) * D - X) <= D) as Habs'.
  { unfold D, X. unfold Qminus. rewrite <- inject_Z_mult, <- inject_Z_opp, <- inject_Z_plus.
    rewrite Zle_Qle in Habs. exact Habs. }
  setoid_replace (inject_Z (Z.of_N c) - X / D) with ((inject_Z (Z.of_N c) * D - X) / D)
    using relation Qeq by (field; lra).
  assert (0 < / D) as HiD by by apply Qinv_lt_0_compat.
  unfold Qdiv. rewrite !Qabs_Qmult, (Qabs_pos (/ D)), Qmult_assoc by lra.
  apply Qmult_le_compat_r; [|lra]. rewrite (Qabs_pos X) by lra. lra.
Qed.

Lemma ddiv_raw_error a b :
  d_coef a <> 0%N -> d_coef b <> 0%N ->
  Qabs (dQ (ddiv_raw a b) - dQ a / dQ b) <= (1 # 10000000000000000000000000000) * Qabs (dQ a / dQ b).
Proof.
  intros Ha Hb. destruct (ddiv_raw_coef a b Ha Hb) as (c & Hc & Habs).
  rewrite Hc, (div_exact_value a b Hb).
  rewrite Qabs_scaled_diff, Qabs_scaled, Qmult_assoc by apply ten_pow_pos.
  apply Qmult_le_compat_r; [|apply Qlt_le_weak, ten_pow_pos].
  apply quotient_unit_error; [by apply div_den_pos|by apply div_num_den_lower|done].
Qed.

Definition div_eps : Q := 1 # 1000000000000000000000000000.

Lemma coef_zero_dQ d : d_coef d = 0%N <-> dQ d == 0.
Proof.
  pose proof (ten_pow_pos (d_exp d)). rewrite dQ_sgn. split.
  - intros ->. simpl. ring.
  - intros E. destruct (N.eq_dec (d_coef d) 0) as [|Hn]; [done|]. exfalso.
    assert (0 < inject_Z (Z.of_N (d_coef d))) by (change 0 with (inject_Z 0); rewrite <- Zlt_Qlt; lia).
    assert (0 < inject_Z (Z.of_N (d_coef d)) * ten_pow (d_exp d)) by by apply Qmult_lt_0_compat.
    unfold sgnQ in E. destruct (d_neg d); lra.
Qed.

Lemma ddiv_zero_num a b : d_coef a = 0%N -> dQ (dfix (ddiv_raw a b)) == 0.
Proof.
  intros Ha. apply coef_zero_dQ. apply dfix_coef_zero. unfold ddiv_raw. by rewrite Ha.
Qed.

(** Division succeeds exactly when the divisor is not zero, and its relative
    error is below [10^-27]. *)
Lemma ddiv_value a b :
  ~ dQ b == 0 ->
  exists r, ddiv a b = Ok r /\ Qabs (dQ r - dQ a / dQ b) <= div_eps * Qabs (dQ a / dQ b).
Proof.
  intros Hb. rewrite <- coef_zero_dQ in Hb.
  unfold ddiv. destruct (N.eqb_spec (d_coef b) 0) as [|_]; [done|].
  eexists; split; [reflexivity|].
  destruct (N.eq_dec (d_coef a) 0) as [Ha|Ha].
  - rewrite (ddiv_zero_num a b Ha). apply coef_zero_dQ in Ha. rewrite Ha.
    setoid_replace (0 / dQ b) with 0 using relation Qeq by (unfold Qdiv; ring).
    by vm_compute.
  - pose proof (ddiv_raw_error a b Ha Hb) as H1. pose proof (dfix_error (ddiv_raw a b)) as H2.
    set (x := dQ a / dQ b) in *. set (y := dQ (ddiv_raw a b)) in *.
    set (z := dQ (dfix (ddiv_raw a b))) in *.
    pose proof (Qabs_triangle (z - y) (y - x)) as T.
    assert (z - y + (y - x) == z - x) as Ez by ring. rewrite Ez in T.
    pose proof (Qabs_triangle (y - x) x) as T'.
    assert (y - x + x == y) as Ey by ring. rewrite Ey in T'.
    pose proof (Qabs_nonneg x). unfold half_ulp, div_eps in *.
    lra.
Qed.

Lemma ddiv_pos a b r : 0 < dQ a -> 0 < dQ b -> ddiv a b = Ok r -> 0 < dQ r.
Proof.
  intros Ha Hb Hr. destruct (ddiv_value a b) as (r' & Hr' & He); [lra|].
  rewrite Hr in Hr'. injection Hr' as <-.
  assert (0 < dQ a / dQ b) as Hx by (apply Qlt_shift_div_l; [done|lra]).
  rewrite (Qabs_pos (dQ a / dQ b)) in He by lra. apply Qabs_Qle_condition in He.
  unfold div_eps in He. lra.
Qed.

(** ** Normal form *)

Lemma strip_zeros_spec fuel c e :
  (0 < c)%N -> (c < pow10 fuel)%N ->
  exists c' k, strip_zeros fuel c e = (c', (e + Z.of_nat k)%Z) /\
    c = (c' * pow10 k)%N /\ (c' mod 10 <> 0)%N.
Proof.
  revert c e. induction fuel as [|fuel IH]; intros c e Hc Hb; [unfold pow10 in Hb; simpl in Hb; lia|].
  simpl. rewrite pow10_succ in Hb. destruct (N.eqb_spec (c mod 10) 0) as [Hm|Hm].
  - destruct (IH (c / 10)%N (e + 1)%Z) as (c' & k & -> & Hv & Hn); [lia..|].
    exists c', (S k). split; [f_equal; lia|]. split; [|done]. rewrite pow10_succ. lia.
  - exists c, 0%nat. split; [f_equal; lia|]. split; [|done]. unfold pow10; simpl. lia.
Qed.

(** A positive number has one representation without trailing zeros. *)
Lemma no_trailing_zero_unique c1 c2 k :
  (c1 mod 10 <> 0)%N -> c1 = (c2 * pow10 k)%N -> k = 0%nat.
Proof. intros H1 ->. destruct k as [|k]; [done|]. rewrite pow10_succ in H1. lia. Qed.

Lemma dQ_scaled_inj s c1 e1 c2 e2 :
  (e1 <= e2)%Z -> deq (mkDec s c1 e1) (mkDec s c2 e2) -> c1 = (c2 * pow10 (Z.to_nat (e2 - e1)))%N.
Proof.
  intros He H. unfold deq in H. rewrite (dQ_scaled _ e1), (dQ_scaled (mkDec s c2 e2) e1) in H by (simpl; lia).
  apply Qmult_inj_r in H; [|pose proof (ten_pow_pos e1); lra].
  unfold Qeq in H. simpl in H. unfold scaled, d_sc in H. simpl in H.
  replace (e1 - e1)%Z with 0%Z in H by lia. unfold pow10.
  apply N2Z.inj. rewrite N2Z.inj_mul, N2Z.inj_pow, nat_N_Z, Z2Nat.id by lia. destruct s; simpl in *; lia.
Qed.

Lemma normal_form_unique s c1 e1 c2 e2 :
  (c1 mod 10 <> 0)%N -> (c2 mod 10 <> 0)%N ->
  deq (mkDec s c1 e1) (mkDec s c2 e2) -> c1 = c2 /\ e1 = e2.
Proof.
  intros H1 H2 H. destruct (Z.le_ge_cases e1 e2) as [He|He].
  - pose proof (dQ_scaled_inj _ _ _ _ _ He H) as Hc.
    pose proof (no_trailing_zero_unique _ _ _ H1 Hc) as Hk. rewrite Hk in Hc. unfold pow10 in Hc; simpl in Hc. lia.
  - assert (deq (mkDec s c2 e2) (mkDec s c1 e1)) as H' by (by symmetry).
    pose proof (dQ_scaled_inj _ _ _ _ _ He H') as Hc.
    pose proof (no_trailing_zero_unique _ _ _ H2 Hc) as Hk. rewrite Hk in Hc. unfold pow10 in Hc; simpl in Hc. lia.
Qed.

Lemma dnormalize_spec d :
  d_coef d <> 0%N -> (ndigits (d_coef d) <= prec)%nat ->
  exists c e, dnormalize d = mkDec (d_neg d) c e /\ (c mod 10 <> 0)%N /\ deq (mkDec (d_neg d) c e) d.
Proof.
  intros Hc Hd. unfold dnormalize. rewrite dfix_small by done.
  destruct (N.eqb_spec (d_coef d) 0); [done|].
  destruct (strip_zeros_spec (ndigits (d_coef d)) (d_coef d) (d_exp d)) as (c' & k & -> & Hv & Hm);
    [lia|apply ndigits_upper|].
  eexists _, _. split; [reflexivity|]. split; [done|].
  unfold deq, dQ. simpl. rewrite ten_pow_add, ten_pow_nat.
  setoid_replace (inject_Z (d_sc d)) with
    (inject_Z (d_sc (mkDec (d_neg d) c' (d_exp d))) * inject_Z (Z.of_N (pow10 k))) using relation Qeq.
  - unfold d_sc; simpl. ring.
  - rewrite <- inject_Z_mult. unfold d_sc; simpl. rewrite Hv, N2Z.inj_mul.
    destruct (d_neg d); f_equiv; ring.
Qed.

Lemma deq_sign a b : d_coef a <> 0%N -> deq a b -> d_neg a = d_neg b.
Proof.
  intros Ha H. unfold deq in H. pose proof (coef_zero_dQ a) as Hza.
  assert (forall d, d_neg d = true -> dQ d <= 0) as Hn.
  { intros d Hd. apply Qnot_lt_le. rewrite dQ_sgn_pos. unfold d_sc. rewrite Hd. lia. }
  assert (forall d, d_neg d = false -> 0 <= dQ d) as Hp.
  { intros d Hd. apply Qnot_lt_le. rewrite dQ_sgn_neg. unfold d_sc. rewrite Hd. lia. }
  assert (~ dQ a == 0) by tauto.
  destruct (d_neg a) eqn:Ea, (d_neg b) eqn:Eb; try done; exfalso;
    apply Hn in Ea || apply Hp in Ea; apply Hn in Eb || apply Hp in Eb; apply H0; lra.
Qed.

Lemma dnormalize_canonical a b :
  d_coef a <> 0%N -> (ndigits (d_coef a) <= prec)%nat -> (ndigits (d_coef b) <= prec)%nat ->
  deq a b -> dnormalize a = dnormalize b.
Proof.
  intros Ha Da Db H. assert (d_coef b <> 0%N) as Hb.
  { rewrite coef_zero_dQ. unfold deq in H. rewrite <- H. by rewrite <- coef_zero_dQ. }
  pose proof (deq_sign a b Ha H) as Hs.
  destruct (dnormalize_spec a Ha Da) as (c1 & e1 & -> & H1 & V1).
  destruct (dnormalize_spec b Hb Db) as (c2 & e2 & -> & H2 & V2). rewrite <- Hs in *.
  destruct (normal_form_unique (d_neg a) c1 e1 c2 e2) as [-> ->]; try done.
  unfold deq in *. by rewrite V1, V2.
Qed.
