(* ===== verification/PyFloat.v ===== *)
(** * Floats read from decimal literals

    A literal denotes the IEEE double nearest to it, ties to even: what
    [int(value)] and [value == n] see of a decoded JSON number. *)

From stdpp Require Import base tactics list strings.
From Stdlib Require Import ZArith NArith Lia Bool Ascii.
From S2P Require Import Prelude PyString PyDecimal.
Open Scope string_scope.
Open Scope Z_scope.

(** the double nearest to a positive quotient, as a numerator and a power of two *)
Definition binary64 (num den : Z) : Z * Z :=
  let l := Z.log2 num - Z.log2 den in
  let shifted (e : Z) := (num * 2 ^ Z.max 0 (- e), den * 2 ^ Z.max 0 e) in
  let (n, d) := shifted l in
  let e := Z.max (-1074) ((if d <=? n then l else l - 1) - 52) in
  let (n, d) := shifted e in
  (Z.of_N (div_half_even (Z.to_N n) (Z.to_N d)), e).

(** the size of a literal, as a numerator and a power of two *)
Definition float_size (d : dec) : Z * Z :=
  binary64 (Z.of_N (d_coef d) * 10 ^ Z.max 0 (d_exp d)) (10 ^ Z.max 0 (- d_exp d)).

(** [int(value)] of a finite literal *)
Definition float_int (d : dec) : result Z :=
  if (d_coef d =? 0)%N then Ok 0 else
  let (m, e) := float_size d in
  let size := m * 2 ^ Z.max 0 e / 2 ^ Z.max 0 (- e) in
  if 2 ^ 1024 <=? size then Raise (OverflowError "cannot convert float infinity to integer")
  else Ok (if d_neg d then - size else size).

(** [value == n] for a positive [n] *)
Definition float_equals (literal : string) (n : Z) : bool :=
  match parse_decimal literal with
  | Some (Finite d) =>
      negb (d_neg d) && negb (d_coef d =? 0)%N
      && (let (m, e) := float_size d in m * 2 ^ Z.max 0 e =? n * 2 ^ Z.max 0 (- e))
  | _ => false
  end.

Example float_readings :
  map (fun s => match parse_decimal s with Some (Finite d) => float_int d | _ => Ok 0 end)
    ["27.0"; "-2.7e1"; "26.999999999999999999"; "0.1"; "1e23"]
  = [Ok 27; Ok (-27); Ok 27; Ok 0; Ok 99999999999999991611392] /\
  map (fun s => float_equals s 1) ["1.0"; "10e-1"; "1.00000000000000001"; "1.0000000000000003"; "-1.0"]
  = [true; true; true; false; false].
Proof. vm_compute. split; reflexivity. Qed.
