(* ===== verification/PyCalendar.v ===== *)
(** * The proleptic Gregorian calendar of Python's [datetime]

    Days since 0001-01-01 and year/month/day triples, with the proof that the
    conversion from days loses nothing over the range of [datetime]. *)

From stdpp Require Import base tactics list strings.
From Stdlib Require Import ZArith NArith Lia ZifyN ZifyNat Bool.
From S2P Require Import Prelude.
Local Open Scope Z_scope.

Definition days_per_era : Z := 146097.

(** ** Proleptic Gregorian calendar, days counted from 0001-01-01 *)

(** Day of the March-based 400-year era of a date in it. *)
Definition day_of_era (yoe mp d : Z) : Z :=
  365 * yoe + yoe / 4 - yoe / 100 + (153 * mp + 2) / 5 + d - 1.

(** Days of 0001-01-01 after 0000-03-01. *)
Definition era_shift : Z := 306.

Definition days_of_civil (y m d : Z) : Z :=
  let y' := if m <=? 2 then y - 1 else y in
  let mp := if m <=? 2 then m + 9 else m - 3 in
  (y' / 400) * days_per_era + day_of_era (y' mod 400) mp d - era_shift.

Definition civil_of_era (doe : Z) : Z * Z * Z :=
  let yoe := (doe - doe / 1460 + doe / 36524 - doe / 146096) / 365 in
  let doy := doe - (365 * yoe + yoe / 4 - yoe / 100) in
  let mp := (5 * doy + 2) / 153 in
  (yoe, mp, doy - (153 * mp + 2) / 5 + 1).

Definition civil_of_days (n : Z) : Z * Z * Z :=
  let z := n + era_shift in
  let '(yoe, mp, d) := civil_of_era (z mod days_per_era) in
  let m := if mp <? 10 then mp + 3 else mp - 9 in
  (yoe + (z / days_per_era) * 400 + (if m <=? 2 then 1 else 0), m, d).

Definition is_leap (y : Z) : bool :=
  (y mod 4 =? 0) && (negb (y mod 100 =? 0) || (y mod 400 =? 0)).

Definition days_in_month (y m : Z) : Z :=
  if m =? 2 then (if is_leap y then 29 else 28)
  else if (m =? 4) || (m =? 6) || (m =? 9) || (m =? 11) then 30 else 31.

Definition valid_date (y m d : Z) : bool :=
  (1 <=? y) && (y <=? 9999) && (1 <=? m) && (m <=? 12) && (1 <=? d) && (d <=? days_in_month y m).

(** ** The calendar is a bijection *)

(** First day of a March-based year of the era. *)
Definition year_start (yoe : Z) : Z := 365 * yoe + yoe / 4 - yoe / 100.

(** The numerator of the year-of-era formula. *)
Definition year_num (doe : Z) : Z := doe - doe / 1460 + doe / 36524 - doe / 146096.

Fixpoint all_below (fuel : nat) (p : Z -> bool) (k : Z) : bool :=
  match fuel with
  | O => true
  | S f => p k && all_below f p (k + 1)
  end.

Lemma all_below_spec fuel p k :
  all_below fuel p k = true -> forall i, k <= i < k + Z.of_nat fuel -> p i = true.
Proof.
  revert k. induction fuel as [|f IH]; intros k H i Hi; [lia|].
  simpl in H. apply andb_true_iff in H as [H1 H2].
  destruct (Z.eq_dec i k) as [->|]; [done|]. apply (IH (k + 1) H2). lia.
Qed.

Lemma year_num_step doe : 0 <= doe < days_per_era - 1 -> year_num doe <= year_num (doe + 1).
Proof.
  unfold year_num, days_per_era. intros H.
  assert (forall x, x / 146096 = x / 36524 / 4) as E by (intros x; by rewrite Z.div_div).
  rewrite !E.
  assert (forall c c', c <= c' -> c - c / 4 <= c' - c' / 4) as Hc by (intros; lia).
  pose proof (Hc _ _ (Z.div_le_mono doe (doe + 1) 36524 ltac:(lia) ltac:(lia))).
  assert ((doe + 1) / 1460 <= doe / 1460 + 1) by lia.
  set (x := doe / 36524 / 4) in *. set (x' := (doe + 1) / 36524 / 4) in *.
  set (y := doe / 36524) in *. set (y' := (doe + 1) / 36524) in *.
  clearbody x x' y y'. lia.
Qed.

Lemma year_num_mono a b : 0 <= a <= b -> b < days_per_era -> year_num a <= year_num b.
Proof.
  intros Hab Hb. replace b with (a + Z.of_nat (Z.to_nat (b - a))) in * by lia.
  generalize dependent (Z.to_nat (b - a)). intros n Hab Hb.
  induction n as [|n IH]; [replace (a + Z.of_nat 0) with a by lia; lia|].
  replace (a + Z.of_nat (S n)) with (a + Z.of_nat n + 1) in * by lia.
  etrans; [apply IH; lia|]. apply year_num_step. lia.
Qed.

Definition year_ok (yoe : Z) : bool :=
  (year_num (year_start yoe) / 365 =? yoe)
  && (year_num (if yoe =? 399 then days_per_era - 1 else year_start (yoe + 1) - 1) / 365 =? yoe)
  && ((if yoe =? 399 then days_per_era else year_start (yoe + 1))
      =? year_start yoe + 365 + (if is_leap (yoe + 1) then 1 else 0)).

Lemma years_ok yoe : 0 <= yoe < 400 -> year_ok yoe = true.
Proof. intros H. apply (all_below_spec 400 _ 0); [by vm_compute|lia]. Qed.

Definition year_end (yoe : Z) : Z := if yoe =? 399 then days_per_era else year_start (yoe + 1).

Lemma find_year (k : nat) doe :
  0 <= doe < year_start (Z.of_nat k) ->
  exists yoe, 0 <= yoe < Z.of_nat k /\ year_start yoe <= doe < year_start (yoe + 1).
Proof.
  induction k as [|k IH]; [unfold year_start; simpl; lia|]. intros H.
  destruct (Z.lt_ge_cases doe (year_start (Z.of_nat k))) as [Hlt|Hge].
  - destruct IH as (y & Hy & ?); [lia|]. exists y. lia.
  - exists (Z.of_nat k). replace (Z.of_nat k + 1) with (Z.of_nat (S k)) by lia. lia.
Qed.

Lemma find_era_year doe :
  0 <= doe < days_per_era ->
  exists yoe, 0 <= yoe < 400 /\ year_start yoe <= doe < year_end yoe.
Proof.
  intros H. destruct (Z.lt_ge_cases doe (year_start 399)) as [Hlt|Hge].
  - destruct (find_year 399 doe) as (y & Hy & Hs); [split; [lia|exact Hlt]|].
    exists y. split; [lia|]. unfold year_end. rewrite (proj2 (Z.eqb_neq y 399)) by lia. done.
  - exists 399. split; [lia|]. unfold year_end. simpl. lia.
Qed.

Definition doy_ok (doy : Z) : bool :=
  let mp := (5 * doy + 2) / 153 in
  let d := doy - (153 * mp + 2) / 5 + 1 in
  let m := if mp <? 10 then mp + 3 else mp - 9 in
  (0 <=? mp) && (mp <=? 11) && (1 <=? d)
  && (if m =? 2 then (d <=? 28) || ((d =? 29) && (doy =? 365)) else d <=? days_in_month 1 m)
  && ((306 <=? doy) || (2 <? m)) && ((doy <? 306) || (m <=? 2)).

Lemma doys_ok doy : 0 <= doy < 366 -> doy_ok doy = true.
Proof. intros H. apply (all_below_spec 366 _ 0); [by vm_compute|lia]. Qed.

Lemma days_in_month_not_feb y y' m : m <> 2 -> days_in_month y m = days_in_month y' m.
Proof. intros H. unfold days_in_month. by rewrite (proj2 (Z.eqb_neq m 2)). Qed.

(** The date of a day of the era: its year, month and day are in range, and the
    day is recovered from them. *)
Lemma era_days_ok doe :
  0 <= doe < days_per_era ->
  let '(yoe, mp, d) := civil_of_era doe in
  let m := if mp <? 10 then mp + 3 else mp - 9 in
  let y := yoe + (if m <=? 2 then 1 else 0) in
  0 <= yoe < 400 /\ 0 <= mp <= 11 /\ 1 <= d <= days_in_month y m /\
  day_of_era yoe mp d = doe /\ (doe < era_shift \/ 1 <= y) /\ (146037 <= doe \/ y <= 399).
Proof.
  intros H. destruct (find_era_year doe H) as (yoe & Hy & Hs).
  pose proof (years_ok yoe Hy) as Hok. unfold year_ok in Hok. fold (year_end yoe) in Hok.
  rewrite !andb_true_iff, !Z.eqb_eq in Hok. destruct Hok as [[K1 K2] K3].
  assert (year_num doe / 365 = yoe) as Hyoe.
  { assert (0 <= year_start yoe) by (unfold year_start; lia).
    assert (year_end yoe <= days_per_era) as He
      by (unfold year_end, year_start, days_per_era in *; destruct (Z.eqb_spec yoe 399); lia).
    pose proof (year_num_mono (year_start yoe) doe ltac:(lia) ltac:(lia)) as M1.
    pose proof (year_num_mono doe (year_end yoe - 1) ltac:(lia) ltac:(lia)) as M2.
    replace (if yoe =? 399 then days_per_era - 1 else year_start (yoe + 1) - 1)
      with (year_end yoe - 1) in K2 by (unfold year_end; by destruct (yoe =? 399)).
    apply Z.le_antisymm.
    - rewrite <- K2. apply Z.div_le_mono; lia.
    - rewrite <- K1 at 1. apply Z.div_le_mono; lia. }
  unfold civil_of_era. fold (year_num doe). rewrite Hyoe. fold (year_start yoe).
  set (doy := doe - year_start yoe).
  assert (0 <= doy < 366) as Hdoy by (unfold doy; destruct (is_leap (yoe + 1)); lia).
  pose proof (doys_ok doy Hdoy) as Hd. unfold doy_ok in Hd.
  set (mp := (5 * doy + 2) / 153) in *. set (d := doy - (153 * mp + 2) / 5 + 1) in *.
  set (m := if mp <? 10 then mp + 3 else mp - 9) in *. cbv zeta.
  rewrite !andb_true_iff, !orb_true_iff, !Z.leb_le, !Z.ltb_lt in Hd.
  destruct Hd as [[[[[D1 D2] D3] D4] D5] D6].
  assert (day_of_era yoe mp d = doe) as Hday
    by (unfold day_of_era; fold (year_start yoe); unfold d, doy; lia).
  split; [lia|]. split; [lia|]. split.
  - split; [lia|]. clearbody m. destruct (Z.eqb_spec m 2) as [Em|Hm].
    + subst m. change (2 <=? 2) with true. cbv iota. unfold days_in_month.
      change (2 =? 2) with true. cbv iota.
      rewrite orb_true_iff, andb_true_iff, Z.leb_le, !Z.eqb_eq in D4.
      destruct (is_leap (yoe + 1)); [|unfold doy in D4]; lia.
    + rewrite (days_in_month_not_feb _ 1) by done. by apply Z.leb_le.
  - split; [done|]. unfold doy, year_start, era_shift in *.
    split; destruct (Z.leb_spec m 2); lia.
Qed.

Lemma is_leap_era y k : is_leap (y + k * 400) = is_leap y.
Proof.
  unfold is_leap.
  assert ((y + k * 400) mod 4 = y mod 4) as ->
    by (replace (y + k * 400) with (y + k * 100 * 4) by lia; apply Z.mod_add; lia).
  assert ((y + k * 400) mod 100 = y mod 100) as ->
    by (replace (y + k * 400) with (y + k * 4 * 100) by lia; apply Z.mod_add; lia).
  by rewrite Z.mod_add by lia.
Qed.

Lemma civil_roundtrip n :
  0 <= n < 3652059 ->
  let '(y, m, d) := civil_of_days n in
  valid_date y m d = true /\ days_of_civil y m d = n.
Proof.
  intros Hn. unfold civil_of_days. set (z := n + era_shift).
  pose proof (Z.div_mod z days_per_era ltac:(done)) as Hdm.
  pose proof (Z.mod_pos_bound z days_per_era ltac:(done)) as Hb.
  pose proof (era_days_ok (z mod days_per_era) Hb) as Hok.
  set (era := z / days_per_era) in *. set (doe := z mod days_per_era) in *.
  destruct (civil_of_era doe) as [[yoe mp] d].
  set (m := if mp <? 10 then mp + 3 else mp - 9) in *.
  set (b := if m <=? 2 then 1 else 0) in *.
  cbv zeta in Hok. fold m b in Hok. destruct Hok as (H1 & H2 & H3 & H4 & H5 & H6).
  assert (0 <= era <= 24) as Hera by (unfold z, era_shift, days_per_era in *; lia).
  assert (1 <= m <= 12 /\ ((m <=? 2) = true <-> 10 <= mp)) as [Hm Hm2].
  { unfold m. destruct (Z.ltb_spec mp 10); rewrite Z.leb_le; lia. }
  assert (days_in_month (yoe + era * 400 + b) m = days_in_month (yoe + b) m) as Hdim.
  { unfold days_in_month. replace (yoe + era * 400 + b) with (yoe + b + era * 400) by lia.
    by rewrite is_leap_era. }
  assert (0 <= b <= 1) as Hb1 by (unfold b; destruct (m <=? 2); lia).
  split.
  - unfold valid_date. rewrite !andb_true_iff, !Z.leb_le, Hdim.
    unfold z, era_shift, days_per_era in *. lia.
  - unfold days_of_civil.
    assert ((if m <=? 2 then yoe + era * 400 + b - 1 else yoe + era * 400 + b)
            = yoe + era * 400) as -> by (unfold b; destruct (m <=? 2); lia).
    assert ((if m <=? 2 then m + 9 else m - 3) = mp) as ->.
    { destruct (m <=? 2) eqn:E; unfold m in *; destruct (Z.ltb_spec mp 10);
        rewrite ?Z.leb_le, ?Z.leb_gt in E; lia. }
    rewrite Z.div_add, Z.mod_add, Z.div_small, Z.mod_small by lia.
    unfold z in *. lia.
Qed.

