(* ===== verification/PyTime.v ===== *)
(** * Python [datetime]

    A [datetime] is its wall-clock reading, in microseconds since
    0001-01-01T00:00:00, with the UTC offset of its tzinfo when it has one.
    [fromisoformat] reads the extended calendar form that [isoformat] writes
    ([YYYY-MM-DD], any one-character separator, [HH[:MM[:SS[.ffffff]]]], an
    optional [Z] or [+HH:MM[:SS[.ffffff]]] offset); the basic and week-date
    forms, which nothing in the repository writes, read as malformed. *)

From stdpp Require Import base tactics list strings.
From Stdlib Require Import ZArith NArith Lia ZifyN ZifyNat Bool Ascii.
From S2P Require Import Prelude PyString PyDecimal PyCalendar.
Open Scope string_scope.
Open Scope py_scope.
Local Open Scope Z_scope.

Definition us_per_second : Z := 1000000.
Definition us_per_day : Z := 86400 * us_per_second.

(** First microsecond after year 9999. *)
Definition max_us : Z := 3652059 * us_per_day.

Record datetime := mkDatetime { dt_us : Z; dt_offset : option Z }.

(** The absolute instant, in microseconds of the UTC calendar. *)
Definition instant (t : datetime) : Z :=
  match dt_offset t with Some o => dt_us t - o | None => dt_us t end.

(** [t.replace(tzinfo=timezone.utc)] of a naive datetime *)
Definition as_utc (t : datetime) : datetime :=
  match dt_offset t with Some _ => t | None => mkDatetime (dt_us t) (Some 0) end.

(** [t.replace(microsecond=0)] *)
Definition without_microsecond (t : datetime) : datetime :=
  mkDatetime (dt_us t - dt_us t mod us_per_second) (dt_offset t).

(** [t + timedelta(microseconds=us)] *)
Definition add_us (t : datetime) (us : Z) : result datetime :=
  let v := dt_us t + us in
  if (0 <=? v) && (v <? max_us) then Ok (mkDatetime v (dt_offset t))
  else Raise (OverflowError "date value out of range").

(** [t.astimezone(timezone.utc)] of an aware datetime *)
Definition astimezone_utc (t : datetime) : result datetime :=
  let v := instant t in
  if (0 <=? v) && (v <? max_us) then Ok (mkDatetime v (Some 0))
  else Raise (OverflowError "date value out of range").

(** ** Unix time *)

(** 1970-01-01, in microseconds of the calendar *)
Definition epoch_us : Z := days_of_civil 1970 1 1 * us_per_day.

(** first milliseconds of year 1 and of year 10000, from the Unix epoch *)
Definition min_epoch_ms : Z := -62135596800000.
Definition max_epoch_ms : Z := 253402300800000.

(** The microseconds of [datetime.fromtimestamp(z / 1000, tz=UTC)] since the
    epoch, for [z >= 0]: the quotient is a 53-bit float, rounded to the nearest
    microsecond.  Below 2^33 seconds the float error is under half a
    microsecond, so the millisecond is exact; above, the float's last bit
    decides. *)
Definition fromtimestamp_abs (z : Z) : Z :=
  let exponent := Z.log2 (z / 1000) in
  if exponent <? 33 then z * 1000
  else
    let scale := Z.to_N (Z.shiftl 1 (52 - exponent)) in
    let mantissa := div_half_even (Z.to_N z * scale) 1000 in
    Z.of_N (div_half_even (mantissa * 1000000) scale).

(** Float division and rounding to even are symmetric in the sign. *)
Definition fromtimestamp_us (z : Z) : Z :=
  if z <? 0 then - fromtimestamp_abs (- z) else fromtimestamp_abs z.

(** [datetime.fromtimestamp(z / 1000, tz=UTC)]: [None] is [ValueError] or
    [OverflowError] *)
Definition fromtimestamp_ms (z : Z) : option datetime :=
  if (min_epoch_ms <=? z) && (z <? max_epoch_ms)
  then Some (mkDatetime (epoch_us + fromtimestamp_us z) (Some 0)) else None.

(** Whole milliseconds of an aware datetime since the epoch:
    [delta.days * 86_400_000 + delta.seconds * 1000 + delta.microseconds // 1000] *)
Definition epoch_milliseconds (t : datetime) : Z := (instant t - epoch_us) / 1000.

(** ** Text *)

Definition digit_char (n : Z) : ascii := ascii_of_N (48 + Z.to_N n).

(** [n] modulo [10^k], in exactly [k] digits *)
Fixpoint pad (k : nat) (n : Z) : string :=
  match k with
  | O => ""
  | S k' => pad k' (n / 10) +:+ String (digit_char (n mod 10)) ""
  end.

Definition format_time (us : Z) : string :=
  let s := us / us_per_second in
  let micro := us mod us_per_second in
  pad 2 (s / 3600) +:+ ":" +:+ pad 2 (s / 60 mod 60) +:+ ":" +:+ pad 2 (s mod 60)
  +:+ (if micro =? 0 then "" else "." +:+ pad 6 micro).

Definition format_offset (o : Z) : string :=
  let a := Z.abs o in
  let s := a / us_per_second in
  let micro := a mod us_per_second in
  (if o <? 0 then "-" else "+") +:+ pad 2 (s / 3600) +:+ ":" +:+ pad 2 (s / 60 mod 60)
  +:+ (if (s mod 60 =? 0) && (micro =? 0) then ""
       else ":" +:+ pad 2 (s mod 60) +:+ (if micro =? 0 then "" else "." +:+ pad 6 micro)).

(** [t.isoformat()] *)
Definition isoformat (t : datetime) : string :=
  let '(y, m, d) := civil_of_days (dt_us t / us_per_day) in
  pad 4 y +:+ "-" +:+ pad 2 m +:+ "-" +:+ pad 2 d +:+ "T" +:+ format_time (dt_us t mod us_per_day)
  +:+ match dt_offset t with Some o => format_offset o | None => "" end.

(** Exactly [k] digits and the rest of the text. *)
Fixpoint read_fixed (k : nat) (acc : Z) (s : string) : option (Z * string) :=
  match k with
  | O => Some (acc, s)
  | S k' =>
      match s with
      | String c s' =>
          if is_digit c then read_fixed k' (10 * acc + Z.of_N (digit_value c)) s' else None
      | EmptyString => None
      end
  end.

Definition read_char (ch : ascii) (s : string) : option string :=
  match s with
  | String c s' => if Ascii.eqb c ch then Some s' else None
  | EmptyString => None
  end.

(** Fraction of a second: up to six digits are kept, further digits dropped. *)
Definition read_fraction (s : string) : option (Z * string) :=
  let '(v, n, rest) := read_digits (take_string 6 s) 0 0 in
  if ((0 <? n)%nat && String.eqb rest "")%bool
  then
    let extra := drop_string 6 s in
    if string_forallb is_digit extra
    then Some (Z.of_N v * 10 ^ (6 - Z.of_nat n), "") else None
  else None.

(** [_parse_hh_mm_ss_ff] with ':' separators; the text must be consumed. *)
Definition parse_clock (s : string) : option Z :=
  match read_fixed 2 0 s with
  | None => None
  | Some (h, r) =>
      if String.eqb r "" then Some (h * 3600 * us_per_second) else
      match read_char ":" r with
      | None => None
      | Some r1 =>
          match read_fixed 2 0 r1 with
          | None => None
          | Some (mi, r2) =>
              if 60 <=? mi then None else
              if String.eqb r2 "" then Some ((h * 3600 + mi * 60) * us_per_second) else
              match read_char ":" r2 with
              | None => None
              | Some r3 =>
                  match read_fixed 2 0 r3 with
                  | None => None
                  | Some (sec, r4) =>
                      if 60 <=? sec then None else
                      let base := (h * 3600 + mi * 60 + sec) * us_per_second in
                      if String.eqb r4 "" then Some base else
                      match r4 with
                      | String c f =>
                          if Ascii.eqb c "." || Ascii.eqb c ","
                          then match read_fraction f with
                               | Some (us, _) => Some (base + us)
                               | None => None
                               end
                          else None
                      | EmptyString => None
                      end
                  end
              end
          end
      end
  end.

(** Split a time text at its offset sign: the clock part and the offset. *)
Fixpoint split_offset (s : string) : string * option (ascii * string) :=
  match s with
  | EmptyString => ("", None)
  | String c s' =>
      if Ascii.eqb c "+" || Ascii.eqb c "-" || Ascii.eqb c "Z" then ("", Some (c, s'))
      else let (a, o) := split_offset s' in (String c a, o)
  end.

Definition parse_offset (o : option (ascii * string)) : option (option Z) :=
  match o with
  | None => Some None
  | Some (c, txt) =>
      if Ascii.eqb c "Z" then (if String.eqb txt "" then Some (Some 0) else None)
      else
        match parse_clock txt with
        | Some v => if v <? us_per_day
                    then Some (Some (if Ascii.eqb c "-" then - v else v)) else None
        | None => None
        end
  end.

(** [datetime.fromisoformat(s)]: [None] is [ValueError] *)
Definition fromisoformat (s : string) : option datetime :=
  match read_fixed 4 0 s with
  | None => None
  | Some (y, r) =>
    match read_char "-" r with None => None | Some r =>
    match read_fixed 2 0 r with None => None | Some (m, r) =>
    match read_char "-" r with None => None | Some r =>
    match read_fixed 2 0 r with None => None | Some (d, r) =>
    if negb (valid_date y m d) then None else
    let day := days_of_civil y m d * us_per_day in
    match r with
    | EmptyString => Some (mkDatetime day None)
    | String _ EmptyString => None
    | String _ t =>
        let (clock, off) := split_offset t in
        match parse_clock clock, parse_offset off with
        | Some us, Some o => if us <? us_per_day then Some (mkDatetime (day + us) o) else None
        | _, _ => None
        end
    end
    end end end end
  end.

(** ** Digits round trip *)

Lemma digit_char_digit n : 0 <= n < 10 -> is_digit (digit_char n) = true
  /\ Z.of_N (digit_value (digit_char n)) = n.
Proof.
  intros H. assert (In n [0;1;2;3;4;5;6;7;8;9]) as Hin by (simpl; lia).
  simpl in Hin. destruct_or!; subst; try (by split); lia.
Qed.

Lemma read_fixed_app k j acc s v r :
  read_fixed k acc s = Some (v, r) -> read_fixed (k + j) acc s = read_fixed j v r.
Proof.
  revert acc s. induction k as [|k IH]; intros acc s; simpl; [by intros [= <- <-]|].
  destruct s as [|c s]; [done|]. destruct (is_digit c); [|done]. apply IH.
Qed.

Lemma read_fixed_pad k n acc rest :
  read_fixed k acc (pad k n +:+ rest) = Some (acc * 10 ^ Z.of_nat k + n mod 10 ^ Z.of_nat k, rest).
Proof.
  revert n rest. induction k as [|k IH]; intros n rest.
  - simpl. rewrite Z.mod_1_r. f_equal; f_equal; lia.
  - simpl pad. rewrite string_app_assoc. replace (S k) with (k + 1)%nat by lia.
    erewrite read_fixed_app by apply IH. simpl.
    pose proof (Z.mod_pos_bound n 10 ltac:(lia)) as Hd.
    destruct (digit_char_digit (n mod 10) Hd) as [-> ->].
    rewrite Nat2Z.inj_add, Z.pow_add_r by lia. change (10 ^ Z.of_nat 1) with 10.
    f_equal; f_equal. rewrite (Z.mul_comm (10 ^ Z.of_nat k) 10).
    rewrite Z.rem_mul_r by lia. lia.
Qed.

Lemma read_fixed_pad_small k n rest :
  0 <= n < 10 ^ Z.of_nat k -> read_fixed k 0 (pad k n +:+ rest) = Some (n, rest).
Proof. intros H. rewrite read_fixed_pad, Z.mod_small by done. f_equal. Qed.

Lemma pad_length k n : String.length (pad k n) = k.
Proof. revert n. induction k; intros n; simpl; [done|]. rewrite string_length_app, IHk. simpl. lia. Qed.

Lemma pad_digits k n : string_forallb is_digit (pad k n) = true.
Proof.
  revert n. induction k as [|k IH]; intros n; simpl; [done|].
  assert (forall a b, string_forallb is_digit (a +:+ b)
                      = string_forallb is_digit a && string_forallb is_digit b) as Happ.
  { induction a as [|c a IHa]; intros b; simpl; [done|]. by rewrite IHa, andb_assoc. }
  rewrite Happ, IH. simpl. rewrite andb_true_r.
  apply digit_char_digit, Z.mod_pos_bound. lia.
Qed.

Lemma read_digits_fixed k : forall acc s v n,
  read_fixed k (Z.of_N acc) s = Some (v, "") -> read_digits s acc n = (Z.to_N v, (n + k)%nat, "").
Proof.
  induction k as [|k IH]; intros acc s v n; simpl.
  - intros [= <- ->]. simpl. by rewrite N2Z.id, Nat.add_0_r.
  - destruct s as [|c s]; [done|]. simpl. destruct (is_digit c); [|done].
    intros H. rewrite <- plus_n_Sm. apply (IH (10 * acc + digit_value c)%N _ _ (S n)).
    rewrite <- H. f_equal. lia.
Qed.

Lemma read_fraction_pad micro : 0 <= micro < us_per_second -> read_fraction (pad 6 micro) = Some (micro, "").
Proof.
  intros H. unfold read_fraction.
  assert (forall a n, String.length a = n -> take_string n a = a /\ drop_string n a = "") as Htd.
  { induction a as [|c a IH]; intros n <-; simpl; [done|]. destruct (IH _ eq_refl) as [-> ->]. done. }
  destruct (Htd (pad 6 micro) 6%nat (pad_length 6 micro)) as [-> ->].
  rewrite (read_digits_fixed 6 0 _ micro).
  - simpl. f_equal; f_equal. lia.
  - rewrite <- (string_app_nil_r (pad 6 micro)). by apply read_fixed_pad_small.
Qed.

(** ** Clock and offset round trip *)

Lemma eqb_string_cons c s : String.eqb (String c s) "" = false.
Proof. done. Qed.

Lemma read_char_same ch s : read_char ch (String ch s) = Some s.
Proof. simpl. by rewrite Ascii.eqb_refl. Qed.

(** Hours, minutes, seconds and microseconds of a duration below 100 hours. *)
Lemma clock_fields us :
  0 <= us < us_per_day ->
  let s := us / us_per_second in
  0 <= s / 3600 < 24 /\ 0 <= s / 60 mod 60 < 60 /\ 0 <= s mod 60 < 60 /\
  0 <= us mod us_per_second < us_per_second /\
  ((s / 3600) * 3600 + (s / 60 mod 60) * 60 + s mod 60) * us_per_second + us mod us_per_second = us.
Proof.
  intros H s. unfold us_per_day, us_per_second in *.
  assert (0 <= s < 86400) by (unfold s; lia).
  assert (s / 3600 = s / 60 / 60) as E by (rewrite Z.div_div by lia; done).
  rewrite E. unfold s in *. clear E. lia.
Qed.

Lemma parse_clock_digits h mi sec micro :
  0 <= h < 100 -> 0 <= mi < 60 -> 0 <= sec < 60 -> 0 <= micro < us_per_second ->
  parse_clock (pad 2 h +:+ ":" +:+ pad 2 mi +:+ ":" +:+ pad 2 sec
               +:+ (if micro =? 0 then "" else "." +:+ pad 6 micro))
  = Some ((h * 3600 + mi * 60 + sec) * us_per_second + micro).
Proof.
  intros Hh Hmi Hs Hm. unfold parse_clock.
  rewrite read_fixed_pad_small by (simpl; lia). cbn [String.append].
  rewrite eqb_string_cons, read_char_same.
  rewrite read_fixed_pad_small by (simpl; lia). cbn [String.append].
  rewrite (proj2 (Z.leb_gt 60 mi)) by lia. rewrite eqb_string_cons, read_char_same.
  rewrite read_fixed_pad_small by (simpl; lia). rewrite (proj2 (Z.leb_gt 60 sec)) by lia.
  destruct (Z.eqb_spec micro 0) as [->|Hne].
  - simpl String.eqb. f_equal. lia.
  - cbn [String.append]. rewrite eqb_string_cons. change (Ascii.eqb "." "." || _) with true.
    cbv iota. by rewrite read_fraction_pad.
Qed.

Lemma parse_clock_format us : 0 <= us < us_per_day -> parse_clock (format_time us) = Some us.
Proof.
  intros H. destruct (clock_fields us H) as (H1 & H2 & H3 & H4 & H5). unfold format_time.
  rewrite parse_clock_digits by lia. by f_equal.
Qed.

Lemma parse_clock_short h mi :
  0 <= h < 100 -> 0 <= mi < 60 ->
  parse_clock (pad 2 h +:+ ":" +:+ pad 2 mi) = Some ((h * 3600 + mi * 60) * us_per_second).
Proof.
  intros Hh Hmi. unfold parse_clock.
  rewrite read_fixed_pad_small by (simpl; lia). cbn [String.append].
  rewrite eqb_string_cons, read_char_same.
  rewrite <- (string_app_nil_r (pad 2 mi)), read_fixed_pad_small by (simpl; lia).
  rewrite (proj2 (Z.leb_gt 60 mi)) by lia. done.
Qed.

Definition offset_ok (o : Z) : Prop := - us_per_day < o < us_per_day.

Lemma parse_offset_format o :
  offset_ok o ->
  exists c txt, format_offset o = String c txt /\
    (Ascii.eqb c "+" || Ascii.eqb c "-" || Ascii.eqb c "Z") = true /\
    parse_offset (Some (c, txt)) = Some (Some o).
Proof.
  intros Ho. unfold format_offset. set (a := Z.abs o).
  assert (0 <= a < us_per_day) as Ha by (unfold offset_ok, a in *; lia).
  destruct (clock_fields a Ha) as (H1 & H2 & H3 & H4 & H5).
  set (txt := pad 2 (a / us_per_second / 3600) +:+ _).
  assert (parse_clock txt = Some a) as Hp.
  { unfold txt. destruct (Z.eqb_spec (a / us_per_second mod 60) 0) as [E|E];
      [destruct (Z.eqb_spec (a mod us_per_second) 0) as [E'|E']|]; cbn [andb].
    - rewrite string_app_nil_r, parse_clock_short by lia. f_equal. lia.
    - pose proof (parse_clock_digits (a / us_per_second / 3600) (a / us_per_second / 60 mod 60)
        (a / us_per_second mod 60) (a mod us_per_second)) as P.
      rewrite (proj2 (Z.eqb_neq _ _) E') in P. rewrite P by lia. f_equal. lia.
    - rewrite parse_clock_digits by lia. f_equal. lia. }
  exists (if o <? 0 then "-"%char else "+"%char), txt.
  split; [by destruct (o <? 0)|]. split; [by destruct (o <? 0)|].
  unfold parse_offset.
  destruct (Z.ltb_spec o 0); simpl Ascii.eqb; cbv iota; rewrite Hp;
    rewrite (proj2 (Z.ltb_lt a us_per_day)) by lia; f_equal; f_equal; unfold a; lia.
Qed.

Definition clock_char (c : ascii) : bool := is_digit c || Ascii.eqb c ":" || Ascii.eqb c ".".

Lemma format_time_chars us : string_forallb clock_char (format_time us) = true.
Proof.
  assert (forall k n, string_forallb clock_char (pad k n) = true) as Hpad.
  { intros k n. eapply string_forallb_impl; [|apply pad_digits]. intros c Hc.
    unfold clock_char. by rewrite Hc. }
  unfold format_time. rewrite !string_forallb_app, !Hpad.
  destruct (_ =? 0); [done|]. by rewrite string_forallb_app, Hpad.
Qed.

Lemma split_offset_clock a rest :
  string_forallb clock_char a = true ->
  split_offset (a +:+ rest) = let (b, o) := split_offset rest in (a +:+ b, o).
Proof.
  induction a as [|c a IH]; simpl; [by destruct (split_offset rest)|].
  rewrite andb_true_iff. intros [Hc Ha]. rewrite (IH Ha).
  assert (Ascii.eqb c "+" || Ascii.eqb c "-" || Ascii.eqb c "Z" = false) as ->
    by (revert Hc; by destruct c as [[] [] [] [] [] [] [] []]).
  by destruct (split_offset rest).
Qed.

Definition datetime_wf (t : datetime) : Prop :=
  0 <= dt_us t < max_us /\ match dt_offset t with Some o => offset_ok o | None => True end.

Lemma format_time_nonempty us : exists c s, format_time us = String c s.
Proof.
  destruct (format_time us) as [|c s] eqn:E; [|eauto].
  apply (f_equal String.length) in E. unfold format_time in E.
  rewrite !string_length_app, pad_length in E. simpl in E. lia.
Qed.

(** Reading back what [isoformat] wrote gives the same datetime. *)
Lemma fromisoformat_isoformat t : datetime_wf t -> fromisoformat (isoformat t) = Some t.
Proof.
  intros [Hus Hoff]. unfold isoformat.
  assert (0 <= dt_us t / us_per_day < 3652059) as Hday by (unfold max_us, us_per_day, us_per_second in *; lia).
  pose proof (civil_roundtrip _ Hday) as Hciv.
  destruct (civil_of_days (dt_us t / us_per_day)) as [[y m] d]. destruct Hciv as [Hval Hdays].
  assert (1 <= y <= 9999 /\ 1 <= m <= 12 /\ 1 <= d <= 31) as (Hy & Hm & Hd).
  { unfold valid_date in Hval. rewrite !andb_true_iff, !Z.leb_le in Hval.
    assert (days_in_month y m <= 31)
      by (unfold days_in_month; destruct (m =? 2); [destruct (is_leap y)|destruct (_ || _)]; lia).
    lia. }
  unfold fromisoformat.
  rewrite read_fixed_pad_small by (simpl; lia). cbn [String.append]. rewrite read_char_same.
  rewrite read_fixed_pad_small by (simpl; lia). cbn [String.append]. rewrite read_char_same.
  rewrite read_fixed_pad_small by (simpl; lia). rewrite Hval. cbn [negb String.append].
  pose proof (Z.mod_pos_bound (dt_us t) us_per_day ltac:(done)) as Hmod.
  pose proof (parse_clock_format _ Hmod) as Hclock.
  pose proof (format_time_chars (dt_us t mod us_per_day)) as Hchars.
  destruct (format_time_nonempty (dt_us t mod us_per_day)) as (c0 & s0 & E0).
  rewrite E0 in *. cbn [String.append]. set (rest := match dt_offset t with Some _ => _ | None => _ end).
  change (String c0 (s0 +:+ rest)) with (String c0 s0 +:+ rest).
  rewrite split_offset_clock by done. unfold rest. clear rest.
  assert (days_of_civil y m d * us_per_day + dt_us t mod us_per_day = dt_us t) as Hsum
    by (rewrite Hdays; unfold us_per_day, us_per_second in *; lia).
  destruct (dt_offset t) as [o|] eqn:Eo.
  - destruct (parse_offset_format o Hoff) as (c & txt & -> & Hc & Hp).
    cbn [split_offset]. rewrite Hc, string_app_nil_r, Hclock, Hp.
    rewrite (proj2 (Z.ltb_lt _ _)) by lia. rewrite Hsum. destruct t; simpl in *. by subst.
  - cbn [split_offset]. rewrite string_app_nil_r, Hclock. cbn [parse_offset].
    rewrite (proj2 (Z.ltb_lt _ _)) by lia. rewrite Hsum. destruct t; simpl in *. by subst.
Qed.

Definition iso_char (c : ascii) : bool :=
  clock_char c || Ascii.eqb c "-" || Ascii.eqb c "T" || Ascii.eqb c "+".

Lemma isoformat_chars t : string_forallb iso_char (isoformat t) = true.
Proof.
  assert (forall c, clock_char c = true -> iso_char c = true) as H1 by (intros c Hc; unfold iso_char; by rewrite Hc).
  assert (forall k n, string_forallb iso_char (pad k n) = true) as Hpad.
  { intros k n. eapply string_forallb_impl; [|apply pad_digits]. intros c Hc.
    apply H1. unfold clock_char. by rewrite Hc. }
  assert (forall us, string_forallb iso_char (format_time us) = true) as Ht
    by (intros us; eapply string_forallb_impl; [exact H1|apply format_time_chars]).
  unfold isoformat. destruct (civil_of_days _) as [[y m] d].
  rewrite !string_forallb_app, !Hpad, Ht. cbn [string_forallb andb]. destruct (dt_offset t) as [o|]; [|done].
  unfold format_offset.
  repeat first [done | rewrite string_forallb_app | rewrite Hpad
    | match goal with |- context [if ?b then _ else _] => destruct b end
    | progress cbn [string_forallb andb]].
Qed.

(** The text [isoformat] writes has no [Z] suffix to rewrite. *)
Lemma isoformat_no_Z t : py_replace "Z" "+00:00" (isoformat t) = isoformat t.
Proof. apply py_replace_absent, (char_in_forallb _ iso_char); [done|]. apply isoformat_chars. Qed.
