(* ===== verification/Sha256.v ===== *)
(** * [hashlib.sha256(text).hexdigest()]

    The identities of the lifecycle layer are SHA-256 digests of joined text.
    This is FIPS 180-4 over lists of bytes, with 32-bit words kept reduced. *)

From stdpp Require Import base tactics list strings.
From Stdlib Require Import ZArith NArith Lia Bool Ascii.
From S2P Require Import Prelude PyString.
Open Scope string_scope.
Local Open Scope N_scope.

Definition mask32 : N := 4294967295.
Definition add32 (a b : N) : N := N.land (a + b) mask32.
Definition rotr (n x : N) : N :=
  N.lor (N.shiftr x n) (N.land (N.shiftl x (32 - n)) mask32).
Definition not32 (x : N) : N := N.lxor x mask32.

Definition big_sigma0 (x : N) : N := N.lxor (N.lxor (rotr 2 x) (rotr 13 x)) (rotr 22 x).
Definition big_sigma1 (x : N) : N := N.lxor (N.lxor (rotr 6 x) (rotr 11 x)) (rotr 25 x).
Definition small_sigma0 (x : N) : N := N.lxor (N.lxor (rotr 7 x) (rotr 18 x)) (N.shiftr x 3).
Definition small_sigma1 (x : N) : N := N.lxor (N.lxor (rotr 17 x) (rotr 19 x)) (N.shiftr x 10).
Definition choose (x y z : N) : N := N.lxor (N.land x y) (N.land (not32 x) z).
Definition majority (x y z : N) : N :=
  N.lxor (N.lxor (N.land x y) (N.land x z)) (N.land y z).

Definition round_constants : list N :=
  [1116352408; 1899447441; 3049323471; 3921009573; 961987163; 1508970993;
   2453635748; 2870763221; 3624381080; 310598401; 607225278; 1426881987;
   1925078388; 2162078206; 2614888103; 3248222580; 3835390401; 4022224774;
   264347078; 604807628; 770255983; 1249150122; 1555081692; 1996064986;
   2554220882; 2821834349; 2952996808; 3210313671; 3336571891; 3584528711;
   113926993; 338241895; 666307205; 773529912; 1294757372; 1396182291;
   1695183700; 1986661051; 2177026350; 2456956037; 2730485921; 2820302411;
   3259730800; 3345764771; 3516065817; 3600352804; 4094571909; 275423344;
   430227734; 506948616; 659060556; 883997877; 958139571; 1322822218;
   1537002063; 1747873779; 1955562222; 2024104815; 2227730452; 2361852424;
   2428436474; 2756734187; 3204031479; 3329325298].

Definition initial_hash : list N :=
  [1779033703; 3144134277; 1013904242; 2773480762; 1359893119; 2600822924; 528734635; 1541459225].

Fixpoint bytes_of_string (s : string) : list N :=
  match s with
  | EmptyString => []
  | String c s' => ascii_code c :: bytes_of_string s'
  end.

Fixpoint be_bytes (k : nat) (n : N) : list N :=
  match k with
  | O => []
  | S k' => (be_bytes k' (n / 256) ++ [n mod 256])%list
  end.

Definition padded (msg : list N) : list N :=
  let len := length msg in
  let zeros := (Z.to_nat ((55 - Z.of_nat len) mod 64))%nat in
  (msg ++ [128] ++ repeat 0 zeros ++ be_bytes 8 (8 * N.of_nat len))%list.

Fixpoint words (l : list N) : list N :=
  match l with
  | a :: b :: c :: d :: rest =>
      (N.shiftl a 24 + N.shiftl b 16 + N.shiftl c 8 + d) :: words rest
  | _ => []
  end.

(** Message schedule, most recent word first. *)
Fixpoint extend (n : nat) (ws : list N) : list N :=
  match n with
  | O => ws
  | S k =>
      let w := add32 (add32 (small_sigma1 (nth 1 ws 0)) (nth 6 ws 0))
                     (add32 (small_sigma0 (nth 14 ws 0)) (nth 15 ws 0)) in
      extend k (w :: ws)
  end.

Definition step (st : list N) (kw : N * N) : list N :=
  match st with
  | [a; b; c; d; e; f; g; h] =>
      let t1 := add32 (add32 (add32 h (big_sigma1 e)) (add32 (choose e f g) (fst kw))) (snd kw) in
      let t2 := add32 (big_sigma0 a) (majority a b c) in
      [add32 t1 t2; a; b; c; add32 d t1; e; f; g]
  | _ => st
  end.

Definition compress (h : list N) (block : list N) : list N :=
  let ws := rev (extend 48 (rev block)) in
  let st := fold_left step (combine round_constants ws) h in
  map (fun p => add32 (fst p) (snd p)) (combine h st).

Fixpoint blocks (fuel : nat) (ws : list N) (h : list N) : list N :=
  match fuel with
  | O => h
  | S k => match ws with
           | [] => h
           | _ => blocks k (skipn 16 ws) (compress h (firstn 16 ws))
           end
  end.

Definition hex_digit (n : N) : ascii :=
  if n <? 10 then ascii_of_N (48 + n) else ascii_of_N (87 + n).

Fixpoint hex_word (k : nat) (n : N) : string :=
  match k with
  | O => ""
  | S k' => hex_word k' (n / 16) +:+ String (hex_digit (n mod 16)) ""
  end.

(** [hashlib.sha256(text.encode("utf-8")).hexdigest()] for ASCII text *)
Definition sha256_hexdigest (text : string) : string :=
  let ws := words (padded (bytes_of_string text)) in
  fold_right (fun w acc => hex_word 8 w +:+ acc) "" (blocks (length ws) ws initial_hash).
#[global] Arguments sha256_hexdigest : simpl never.

(** Published test vectors. *)
Example sha256_empty :
  sha256_hexdigest "" = "e3b0c44298fc1c149afbf4c8996fb92427ae41e4649b934ca495991b7852b855".
Proof. vm_compute. reflexivity. Qed.

Example sha256_two_blocks :
  sha256_hexdigest "abcdbcdecdefdefgefghfghighijhijkijkljklmklmnlmnomnopnopq"
  = "248d6a61d20638b8e5c026930c3e6039a33ce45964ff2167f6ecedd419db06c1".
Proof. vm_compute. reflexivity. Qed.

(** The digest is text over the hexadecimal digits. *)
Definition is_hex (c : ascii) : bool := is_digit c || code_between 97 102 c.

Lemma hex_digit_is_hex n : n < 16 -> is_hex (hex_digit n) = true.
Proof.
  intros Hn. assert (In n (map N.of_nat (seq 0 16))) as Hin.
  { apply in_map_iff. exists (N.to_nat n). split; [apply N2Nat.id|]. apply in_seq. lia. }
  revert Hin. clear Hn. simpl. intros H. repeat destruct H as [<-|H]; try reflexivity. destruct H.
Qed.

Lemma hex_word_is_hex k n : string_forallb is_hex (hex_word k n) = true.
Proof.
  revert n. induction k as [|k IH]; intros n; [done|]. simpl.
  rewrite string_forallb_app, IH. cbn [string_forallb]. rewrite hex_digit_is_hex; [done|].
  apply N.mod_lt. lia.
Qed.

Lemma sha256_is_hex text : string_forallb is_hex (sha256_hexdigest text) = true.
Proof.
  unfold sha256_hexdigest. induction (blocks _ _ _) as [|w l IH]; [done|].
  cbn [fold_right]. by rewrite string_forallb_app, hex_word_is_hex, IH.
Qed.

(** The digest has 64 digits. *)
Lemma step_length st kw : length st = 8%nat -> length (step st kw) = 8%nat.
Proof. intros H. destruct st as [|a [|b [|c [|d [|e [|f [|g [|h []]]]]]]]]; try discriminate H. done. Qed.

Lemma compress_length h block : length h = 8%nat -> length (compress h block) = 8%nat.
Proof.
  intros Hh. unfold compress. generalize (combine round_constants (rev (extend 48 (rev block)))). intros kws.
  assert (forall st, length st = 8%nat -> length (fold_left step kws st) = 8%nat) as Hf.
  { induction kws as [|kw kws IH]; intros st Hst; [done|]. cbn [fold_left]. by apply IH, step_length. }
  by rewrite length_map, length_combine, (Hf h Hh), Hh.
Qed.

Lemma blocks_length fuel : forall ws h, length h = 8%nat -> length (blocks fuel ws h) = 8%nat.
Proof.
  induction fuel as [|k IH]; intros ws h Hh; [done|]. cbn [blocks]. destruct ws; [done|]. by apply IH, compress_length.
Qed.

Lemma hex_word_length k : forall n, String.length (hex_word k n) = k.
Proof. induction k as [|k IH]; intros n; [done|]. cbn [hex_word]. rewrite string_length_app, IH. cbn. lia. Qed.

Lemma sha256_length text : String.length (sha256_hexdigest text) = 64%nat.
Proof.
  unfold sha256_hexdigest. set (ws := words _).
  assert (forall l, String.length (fold_right (fun w acc => hex_word 8 w +:+ acc) "" l) = (8 * length l)%nat) as Hl.
  { induction l as [|w l IH]; [done|]. cbn [fold_right]. rewrite string_length_app, hex_word_length, IH. cbn [length]. lia. }
  by rewrite Hl, blocks_length.
Qed.
