(* ===== verification/PyJson.v ===== *)
(** * JSON values and dictionaries

    A dictionary with string keys is an association list in insertion order,
    each key at most once. *)

From stdpp Require Import base tactics list strings.
From Stdlib Require Import ZArith Bool Ascii.
From S2P Require Import Prelude PyString.
Open Scope string_scope.

(** A decoded JSON value; a float is its [repr]. *)
Inductive json : Type :=
| JNull
| JBool (b : bool)
| JInt (z : Z)
| JFloat (repr : string)
| JStr (s : string)
| JArr (l : list json)
| JObj (fields : list (string * json)).

(** [payload.get(name)]; the keys of a decoded object are distinct *)
Fixpoint json_get (name : string) (fields : list (string * json)) : json :=
  match fields with
  | [] => JNull
  | (k, v) :: rest => if String.eqb k name then v else json_get name rest
  end.

(** ** Dictionaries *)

(** [d[key] = f(d.get(key, default))] on a dictionary in insertion order *)
Fixpoint dict_update {A} (key : string) (default : A) (f : A -> A) (d : list (string * A))
    : list (string * A) :=
  match d with
  | [] => [(key, f default)]
  | (k, v) :: rest => if String.eqb k key then (k, f v) :: rest else (k, v) :: dict_update key default f rest
  end.

(** [sorted(d.items())] with distinct keys *)
Fixpoint insert_item {A} (x : string * A) (l : list (string * A)) : list (string * A) :=
  match l with
  | [] => [x]
  | y :: rest => if String.ltb (fst x) (fst y) then x :: l else y :: insert_item x rest
  end.

Definition sorted_items {A} (l : list (string * A)) : list (string * A) :=
  fold_right insert_item [] l.

(** [name in d] *)
Definition dict_mem {A} (key : string) (d : list (string * A)) : bool :=
  existsb (fun kv => String.eqb (fst kv) key) d.

(** [d[key] = value] *)
Definition dict_set {A} (key : string) (value : A) (d : list (string * A)) : list (string * A) :=
  dict_update key value (fun _ => value) d.

(** [d.pop(key, None)] *)
Definition dict_pop {A} (key : string) (d : list (string * A)) : list (string * A) :=
  List.filter (fun kv => negb (String.eqb (fst kv) key)) d.

(** [d.update(other)] *)
Definition dict_merge {A} (d other : list (string * A)) : list (string * A) :=
  fold_left (fun acc kv => dict_set (fst kv) (snd kv) acc) other d.

(** [set(a) == set(b)] *)
Definition same_texts (a b : list string) : bool :=
  forallb (fun s => str_in s b) a && forallb (fun s => str_in s a) b.

Lemma same_texts_spec a b : same_texts a b = true <-> forall x, In x a <-> In x b.
Proof.
  unfold same_texts. rewrite andb_true_iff, !forallb_forall. setoid_rewrite str_in_spec. naive_solver.
Qed.
