(* ===== verification/MinimumRR.v ===== *)
(** * Minimum risk/reward policy (src/app/core/minimum_rr.py)

    The configured global minimum, the hard floor of each trading mode and the
    effective minimum a candidate's RR is compared with. *)

From stdpp Require Import base tactics list strings.
From Stdlib Require Import ZArith NArith QArith Qminmax Lia Lqa Bool.
From S2P Require Import Prelude PyString PyDecimal DecimalFacts.
Open Scope string_scope.
Open Scope py_scope.

Definition DEFAULT_CONFIGURED_MINIMUM_RR : dec := mkDec false 25 (-1).
Definition SCALP_HARD_MINIMUM_RR : dec := mkDec false 25 (-1).
Definition SWING_HARD_MINIMUM_RR : dec := mkDec false 25 (-1).
Definition CHALLENGE_HARD_MINIMUM_RR : dec := mkDec false 30 (-1).

Record MinimumRRPolicy := {
  mrr_mode : string;
  configured_global_minimum_rr : dec;
  hard_mode_floor : dec;
  effective_minimum_rr : dec
}.

Definition minimum_rr_config_error : exn :=
  ValueError "configured minimum RR must be a finite decimal greater than or equal to 2.5".

Definition validate_configured_minimum_rr (value : pyobj) : result dec :=
  let parsed :=
    match value with
    | PyDec d => Some d
    | _ => parse_decimal (py_strip (py_str value))
    end in
  match parsed with
  | Some (Finite minimum_rr) =>
      if dltb minimum_rr DEFAULT_CONFIGURED_MINIMUM_RR
      then Raise minimum_rr_config_error
      else Ok minimum_rr
  | _ => Raise minimum_rr_config_error
  end.

Definition mode_name (mode : string) : string := py_lower (py_strip mode).

Definition hard_mode_minimum_rr (mode : string) : result dec :=
  let name := mode_name mode in
  if String.eqb name "challenge" then Ok CHALLENGE_HARD_MINIMUM_RR
  else if String.eqb name "scalp" then Ok SCALP_HARD_MINIMUM_RR
  else if String.eqb name "swing" then Ok SWING_HARD_MINIMUM_RR
  else Raise (ValueError ("unsupported minimum-RR mode: '" +:+ name +:+ "'")).

Definition minimum_rr_policy (configured : pyobj) (mode : string) : result MinimumRRPolicy :=
  let! configured := validate_configured_minimum_rr configured in
  let name := mode_name mode in
  let! hard_floor := hard_mode_minimum_rr name in
  Ok {| mrr_mode := name;
        configured_global_minimum_rr := configured;
        hard_mode_floor := hard_floor;
        effective_minimum_rr := dmax configured hard_floor |}.

Definition candidate_decimal (value : pyobj) : option dec :=
  match value with
  | PyNone => None
  | _ =>
      if str_in (py_upper (py_strip (py_str value))) [""; "N/A"; "NA"; "NONE"; "NAN"]
      then None
      else
        let parsed :=
          match value with
          | PyDec d => Some d
          | _ => parse_decimal (py_strip (py_str value))
          end in
        match parsed with
        | Some (Finite d) => Some d
        | _ => None
        end
  end.

Definition candidate_rr_meets_minimum (candidate_rr : pyobj) (policy : MinimumRRPolicy) : bool :=
  match candidate_decimal candidate_rr with
  | Some c => dleb (effective_minimum_rr policy) c
  | None => false
  end.

Definition display (d : dec) : string := dec_format_f d.

Definition rr_rejection_reason (candidate_rr : pyobj) (policy : MinimumRRPolicy) : string :=
  let details :=
    "configured_global_minimum_rr=" +:+ display (configured_global_minimum_rr policy) +:+ ";"
    +:+ "hard_mode_floor=" +:+ display (hard_mode_floor policy) +:+ ";"
    +:+ "effective_minimum_rr=" +:+ display (effective_minimum_rr policy) +:+ ";"
    +:+ "mode=" +:+ mrr_mode policy in
  match candidate_decimal candidate_rr with
  | None => "missing_rr:candidate_rr=N/A;" +:+ details
  | Some c =>
      if negb (candidate_rr_meets_minimum (PyDec (Finite c)) policy)
      then "rr_below_minimum:candidate_rr=" +:+ display c +:+ ";" +:+ details
      else "N/A"
  end.

(** ** Theorems *)

Lemma validate_configured_finite value d :
  validate_configured_minimum_rr value = Ok d -> (5 # 2) <= dQ d.
Proof.
  unfold validate_configured_minimum_rr.
  destruct (match value with PyDec d => Some d | _ => _ end) as [[m| |]|]; try done.
  destruct (dltb m DEFAULT_CONFIGURED_MINIMUM_RR) eqn:E; [done|].
  intros [= <-]. apply dltb_false in E.
  assert (dQ DEFAULT_CONFIGURED_MINIMUM_RR == 5 # 2) by reflexivity. lra.
Qed.

Lemma hard_mode_floor_cases mode d :
  hard_mode_minimum_rr mode = Ok d ->
  dQ d == 5 # 2 /\ mode_name mode <> "challenge" \/ dQ d == 3 /\ mode_name mode = "challenge".
Proof.
  unfold hard_mode_minimum_rr.
  destruct (String.eqb_spec (mode_name mode) "challenge") as [E|E].
  - intros [= <-]. right. by split.
  - destruct (_ =? _); [|destruct (_ =? _); [|done]]; intros [= <-]; left; by split.
Qed.

(** The text of a finite decimal starts with a digit or a minus sign, so it is
    never one of the missing-value words. *)
Lemma candidate_decimal_finite d : candidate_decimal (PyDec (Finite d)) = Some d.
Proof.
  unfold candidate_decimal. cbn [py_str pydec_to_string].
  destruct (dec_to_string_head d) as (c & s & -> & Hc).
  destruct (numeric_head_strip c s Hc) as (s' & ->).
  assert (str_in (String (upper_char c) s') [""; "N/A"; "NA"; "NONE"; "NAN"] = false) as ->.
  { apply not_true_iff_false. rewrite str_in_spec. simpl.
    intros [H|[H|[H|[H|[H|[]]]]]]; try discriminate; injection H as H _;
      revert Hc; by destruct c as [[] [] [] [] [] [] [] []]. }
  done.
Qed.

Lemma candidate_meets_iff v p :
  candidate_rr_meets_minimum v p = true <->
  exists c, candidate_decimal v = Some c /\ dQ (effective_minimum_rr p) <= dQ c.
Proof.
  unfold candidate_rr_meets_minimum. destruct (candidate_decimal v) as [c|].
  - rewrite dleb_spec. split; [eauto|]. by intros (c' & [= <-] & H).
  - split; [done|]. by intros (c' & [=] & _).
Qed.

(** Every policy [minimum_rr_policy] returns has an effective minimum
    risk/reward of at least 2.5, never below the configured value nor below the
    hard floor of the mode, and of at least 3 in challenge mode. *)
Theorem minimum_rr_policy_floor configured mode policy :
  minimum_rr_policy configured mode = Ok policy ->
  5 # 2 <= dQ (effective_minimum_rr policy) /\
  dQ (hard_mode_floor policy) <= dQ (effective_minimum_rr policy) /\
  dQ (configured_global_minimum_rr policy) <= dQ (effective_minimum_rr policy) /\
  (mode_name mode = "challenge" -> 3 <= dQ (effective_minimum_rr policy)).
Proof.
  unfold minimum_rr_policy, bind_result.
  destruct (validate_configured_minimum_rr configured) as [c|] eqn:Hc; [|done].
  destruct (hard_mode_minimum_rr (mode_name mode)) as [h|] eqn:Hh; [|done].
  intros [= <-]. cbn [effective_minimum_rr hard_mode_floor configured_global_minimum_rr].
  apply validate_configured_finite in Hc. apply hard_mode_floor_cases in Hh.
  assert (mode_name (mode_name mode) = mode_name mode) as Hm.
  { unfold mode_name. by rewrite py_strip_lower, py_lower_idem, py_strip_idem. }
  rewrite Hm in Hh.
  pose proof (dmax_Q c h) as Hmax. pose proof (Q.le_max_l (dQ c) (dQ h)).
  pose proof (Q.le_max_r (dQ c) (dQ h)).
  repeat split; try lra. intros Hch. destruct Hh as [[_ Hh]|[Hh _]]; [done|lra].
Qed.

Lemma minimum_rr_policy_floor_witness :
  exists policy,
    minimum_rr_policy (PyStr "2.75") " Challenge " = Ok policy /\
    3 <= dQ (effective_minimum_rr policy).
Proof.
  eexists. split; [vm_compute; reflexivity|].
  eapply (minimum_rr_policy_floor (PyStr "2.75") " Challenge "); vm_compute; reflexivity.
Defined.

(** The rejection reason of a candidate is the text N/A exactly when the
    candidate meets the effective minimum: the diagnostic and the gate agree on
    every input (missing, unparsable, infinite and finite candidates). *)
Theorem rr_rejection_reason_na_iff v policy :
  rr_rejection_reason v policy = "N/A" <-> candidate_rr_meets_minimum v policy = true.
Proof.
  unfold rr_rejection_reason. rewrite candidate_meets_iff.
  destruct (candidate_decimal v) as [c|] eqn:Hv.
  - unfold candidate_rr_meets_minimum. rewrite candidate_decimal_finite.
    destruct (dleb (effective_minimum_rr policy) c) eqn:E; simpl.
    + apply dleb_spec in E. split; eauto.
    + apply dleb_false in E. split; [done|]. intros (c' & [= <-] & Hle). lra.
  - split; [done|]. by intros (c' & [=] & _).
Qed.
