(* ===== verification/TradePlan.v ===== *)
(** * Trade-plan integrity (src/app/core/trade_plan_integrity.py)

    The one validator of entry zone, stop, targets and net risk/reward that the
    strategy, the stored-plan geometry check and the public contract share. *)

From stdpp Require Import base tactics list strings.
From Stdlib Require Import ZArith NArith QArith Qabs Qminmax Lia Lqa Bool Sorted.
From S2P Require Import Prelude PyString PyDecimal DecimalFacts.
Open Scope string_scope.
Open Scope py_scope.

Definition PUBLIC_TP2_MINIMUM_RR : dec := mkDec false 30 (-1).

Inductive TradePlanFailure : Type :=
| UNSUPPORTED_DIRECTION
| MISSING_COMPONENT
| MALFORMED_NUMERIC
| NON_FINITE_NUMERIC
| NON_POSITIVE_PRICE
| ENTRY_ZONE_INVALID
| ENTRY_REFERENCE_OUTSIDE_ZONE
| STOP_INSIDE_ENTRY_ZONE
| STOP_WRONG_SIDE
| TARGET_INSIDE_ENTRY_ZONE
| TARGET_WRONG_SIDE
| DUPLICATE_TARGETS
| TARGET_ORDER_INVALID
| ZERO_RISK
| NEGATIVE_RISK
| ZERO_REWARD
| NEGATIVE_REWARD
| RR_BELOW_MINIMUM.

Definition failure_value (f : TradePlanFailure) : string :=
  match f with
  | UNSUPPORTED_DIRECTION => "unsupported_direction"
  | MISSING_COMPONENT => "missing_required_plan_component"
  | MALFORMED_NUMERIC => "malformed_numeric"
  | NON_FINITE_NUMERIC => "non_finite_numeric"
  | NON_POSITIVE_PRICE => "non_positive_price"
  | ENTRY_ZONE_INVALID => "entry_zone_invalid"
  | ENTRY_REFERENCE_OUTSIDE_ZONE => "entry_reference_outside_zone"
  | STOP_INSIDE_ENTRY_ZONE => "stop_inside_entry_zone"
  | STOP_WRONG_SIDE => "stop_wrong_side"
  | TARGET_INSIDE_ENTRY_ZONE => "target_inside_entry_zone"
  | TARGET_WRONG_SIDE => "target_wrong_side"
  | DUPLICATE_TARGETS => "duplicate_targets"
  | TARGET_ORDER_INVALID => "target_order_invalid"
  | ZERO_RISK => "zero_risk"
  | NEGATIVE_RISK => "negative_risk"
  | ZERO_REWARD => "zero_reward"
  | NEGATIVE_REWARD => "negative_reward"
  | RR_BELOW_MINIMUM => "rr_below_minimum"
  end.

Record TradePlanIntegrityResult := {
  tp_valid : bool;
  tp_reason : string;
  tp_direction : option string;
  tp_entry_low : option dec;
  tp_entry_high : option dec;
  tp_entry_reference : option dec;
  tp_stop_loss : option dec;
  tp_tp1 : option dec;
  tp_tp2 : option dec;
  tp_tp3 : option dec;
  tp_risk_distance : option dec;
  tp_reward_distance : option dec;
  tp_rr : option dec;
  tp_rr_target : string;
  tp_entry_reference_type : string;
  tp_execution_cost : dec
}.

Definition failed_text (reason : string) : TradePlanIntegrityResult :=
  {| tp_valid := false; tp_reason := reason; tp_direction := None;
     tp_entry_low := None; tp_entry_high := None; tp_entry_reference := None;
     tp_stop_loss := None; tp_tp1 := None; tp_tp2 := None; tp_tp3 := None;
     tp_risk_distance := None; tp_reward_distance := None; tp_rr := None;
     tp_rr_target := "tp2"; tp_entry_reference_type := "N/A";
     tp_execution_cost := dzero |}.

Definition failed (f : TradePlanFailure) : TradePlanIntegrityResult :=
  failed_text (failure_value f).

Definition plan_result (valid : bool) (reason side : string) (low high entry stop : dec)
    (targets : list (option dec)) (risk : dec) (reward rr : option dec)
    (entry_reference_type : string) (execution_cost : dec) : TradePlanIntegrityResult :=
  {| tp_valid := valid; tp_reason := reason; tp_direction := Some side;
     tp_entry_low := Some low; tp_entry_high := Some high;
     tp_entry_reference := Some entry; tp_stop_loss := Some stop;
     tp_tp1 := nth 0 targets None; tp_tp2 := nth 1 targets None; tp_tp3 := nth 2 targets None;
     tp_risk_distance := Some risk; tp_reward_distance := reward; tp_rr := rr;
     tp_rr_target := "tp2"; tp_entry_reference_type := entry_reference_type;
     tp_execution_cost := execution_cost |}.

(** [_optional_decimal]: the error is the [reason] of [_PlanInputError]. *)
Definition optional_decimal (value : pyobj) (name : string) (required : bool)
    : result (option dec) :=
  let missing :=
    match value with
    | PyNone => true
    | _ => str_in (py_strip (py_str value)) [""; "N/A"]
    end in
  if missing then
    if required then Raise (ValueError (failure_value MISSING_COMPONENT +:+ ":" +:+ name))
    else Ok None
  else
    let parsed :=
      match value with
      | PyDec d => Some d
      | _ => parse_decimal (py_str value)
      end in
    match parsed with
    | None => Raise (ValueError (failure_value MALFORMED_NUMERIC +:+ ":" +:+ name))
    | Some (Finite d) => Ok (Some d)
    | Some _ => Raise (ValueError (failure_value NON_FINITE_NUMERIC +:+ ":" +:+ name))
    end.

Definition required_decimal (value : pyobj) (name : string) : result dec :=
  let! parsed := optional_decimal value name true in
  match parsed with
  | Some d => Ok d
  | None => Raise (RuntimeError "AssertionError")
  end.

(** [enumerate(targets, start=i)] restricted to the present ones *)
Fixpoint present_from (i : nat) (targets : list (option dec)) : list (nat * dec) :=
  match targets with
  | [] => []
  | Some t :: rest => (i, t) :: present_from (S i) rest
  | None :: rest => present_from (S i) rest
  end.

Definition present_targets (targets : list (option dec)) : list (nat * dec) :=
  present_from 1 targets.

Definition tp_label (i : nat) : string := "tp" +:+ string_of_N (N.of_nat i).

Fixpoint first_non_positive (named : list (string * dec)) : option string :=
  match named with
  | [] => None
  | (name, price) :: rest => if dleb price dzero then Some name else first_non_positive rest
  end.

Fixpoint target_side_failure (long : bool) (low high : dec) (targets : list (nat * dec))
    : option string :=
  match targets with
  | [] => None
  | (i, target) :: rest =>
      if dleb low target && dleb target high
      then Some (tp_label i +:+ "_" +:+ failure_value TARGET_INSIDE_ENTRY_ZONE)
      else if long && dltb target low
      then Some (tp_label i +:+ "_" +:+ failure_value TARGET_WRONG_SIDE)
      else if negb long && dltb high target
      then Some (tp_label i +:+ "_" +:+ failure_value TARGET_WRONG_SIDE)
      else target_side_failure long low high rest
  end.

(** [len(set(targets)) != len(targets)]: equality of Decimals is numeric *)
Fixpoint has_duplicate (l : list dec) : bool :=
  match l with
  | [] => false
  | x :: rest => existsb (deqb x) rest || has_duplicate rest
  end.

Fixpoint targets_ordered (long : bool) (l : list dec) : bool :=
  match l with
  | x :: (y :: _) as rest => (if long then dltb x y else dltb y x) && targets_ordered long rest
  | _ => true
  end.

(** The reward, target and RR checks of [validate_trade_plan], once the entry
    zone and the stop are accepted and [risk] includes the cost. *)
Definition check_targets (side : string) (low high entry stop : dec)
    (target_values : list (option dec)) (minimum : option dec) (cost risk : dec)
    (entry_reference_type : string) : result TradePlanIntegrityResult :=
  let long := String.eqb side "long" in
  let reward :=
    match nth 1 target_values None with
    | None => None
    | Some t => Some (dsub (if long then dsub t entry else dsub entry t) cost)
    end in
  if match reward with Some r => deqb r dzero | None => false end
  then Ok (failed ZERO_REWARD) else
  if match reward with Some r => dltb r dzero | None => false end
  then Ok (failed NEGATIVE_REWARD) else
  let present := present_targets target_values in
  match target_side_failure long low high present with
  | Some reason => Ok (failed_text reason)
  | None =>
  let targets := map snd present in
  if has_duplicate targets then Ok (failed DUPLICATE_TARGETS) else
  if negb (targets_ordered long targets) then Ok (failed TARGET_ORDER_INVALID) else
  match reward with
  | Some rw =>
      let! rr := ddiv rw risk in
      if match minimum with Some m => dltb rr m | None => false end
      then Ok (plan_result false (failure_value RR_BELOW_MINIMUM) side low high entry stop
                 target_values risk (Some rw) (Some rr) entry_reference_type cost)
      else Ok (plan_result true "N/A" side low high entry stop
                 target_values risk (Some rw) (Some rr) entry_reference_type cost)
  | None =>
      match minimum with
      | Some _ => Ok (failed_text (failure_value MISSING_COMPONENT +:+ ":tp2"))
      | None => Ok (plan_result true "N/A" side low high entry stop
                      target_values risk None None entry_reference_type cost)
      end
  end
  end.

(** The body of [validate_trade_plan] once its inputs are parsed. *)
Definition check_plan (side : string) (low high entry stop : dec)
    (target_values : list (option dec)) (minimum : option dec) (cost : dec)
    (entry_reference_type : string) : result TradePlanIntegrityResult :=
  let long := String.eqb side "long" in
  if dltb cost dzero then Ok (failed_text "negative_execution_cost") else
  let named_prices :=
    ([("entry_low", low); ("entry_high", high); ("entry_reference", entry); ("stop_loss", stop)]
     ++ map (fun p => (tp_label (fst p), snd p)) (present_targets target_values))%list in
  match first_non_positive named_prices with
  | Some name => Ok (failed_text (failure_value NON_POSITIVE_PRICE +:+ ":" +:+ name))
  | None =>
  if dltb high low then Ok (failed ENTRY_ZONE_INVALID) else
  if negb (dleb low entry && dleb entry high) then Ok (failed ENTRY_REFERENCE_OUTSIDE_ZONE) else
  let signed_risk := if long then dsub entry stop else dsub stop entry in
  if deqb signed_risk dzero then Ok (failed ZERO_RISK) else
  if dleb low stop && dleb stop high then Ok (failed STOP_INSIDE_ENTRY_ZONE) else
  if (if long then dleb high stop else dleb stop low) then Ok (failed STOP_WRONG_SIDE) else
  let risk := if long then dsub entry stop else dsub stop entry in
  if deqb risk dzero then Ok (failed ZERO_RISK) else
  if dltb risk dzero then Ok (failed NEGATIVE_RISK) else
  check_targets side low high entry stop target_values minimum cost (dadd risk cost)
    entry_reference_type
  end.

(** The arguments of [validate_trade_plan] after the defaults are applied. *)
Record plan_args := {
  pa_direction : string;
  pa_entry_low : pyobj;
  pa_entry_high : pyobj;
  pa_entry_reference : pyobj;
  pa_stop_loss : pyobj;
  pa_tp1 : pyobj;
  pa_tp2 : pyobj;
  pa_tp3 : pyobj;
  pa_minimum_rr : pyobj;
  pa_require_all_targets : bool;
  pa_entry_reference_type : string;
  pa_execution_cost : pyobj
}.

Record parsed_plan := {
  pp_low : dec; pp_high : dec; pp_entry : dec; pp_stop : dec;
  pp_targets : list (option dec); pp_minimum : option dec; pp_cost : dec
}.

Definition parse_plan (a : plan_args) : result parsed_plan :=
  let! low := required_decimal (pa_entry_low a) "entry_low" in
  let! high := required_decimal (pa_entry_high a) "entry_high" in
  let! entry := required_decimal (pa_entry_reference a) "entry_reference" in
  let! stop := required_decimal (pa_stop_loss a) "stop_loss" in
  let! t1 := optional_decimal (pa_tp1 a) "tp1" (pa_require_all_targets a) in
  let! t2 := optional_decimal (pa_tp2 a) "tp2" (pa_require_all_targets a) in
  let! t3 := optional_decimal (pa_tp3 a) "tp3" (pa_require_all_targets a) in
  let! minimum := optional_decimal (pa_minimum_rr a) "minimum_rr" false in
  let! cost := required_decimal (pa_execution_cost a) "execution_cost" in
  Ok {| pp_low := low; pp_high := high; pp_entry := entry; pp_stop := stop;
        pp_targets := [t1; t2; t3]; pp_minimum := minimum; pp_cost := cost |}.

Definition plan_side (a : plan_args) : string := py_lower (py_strip (pa_direction a)).

Definition validate_trade_plan (a : plan_args) : result TradePlanIntegrityResult :=
  let side := plan_side a in
  if negb (str_in side ["long"; "short"]) then Ok (failed UNSUPPORTED_DIRECTION) else
  match parse_plan a with
  | Raise (ValueError reason) => Ok (failed_text reason)
  | Raise e => Raise e
  | Ok p =>
      check_plan side (pp_low p) (pp_high p) (pp_entry p) (pp_stop p) (pp_targets p)
        (pp_minimum p) (pp_cost p) (pa_entry_reference_type a)
  end.

(** The [validate_trade_plan] call of [validate_public_trade_plan] *)
Definition public_plan_args (direction : string) (low high minimum : dec)
    (stop_loss tp1 tp2 tp3 execution_cost : pyobj) : plan_args :=
  let side := py_lower (py_strip direction) in
  {| pa_direction := side;
     pa_entry_low := PyDec (Finite low);
     pa_entry_high := PyDec (Finite high);
     pa_entry_reference := PyDec (Finite (if String.eqb side "long" then high else low));
     pa_stop_loss := stop_loss;
     pa_tp1 := tp1; pa_tp2 := tp2; pa_tp3 := tp3;
     pa_minimum_rr := PyDec (Finite (dmax PUBLIC_TP2_MINIMUM_RR minimum));
     pa_require_all_targets := true;
     pa_entry_reference_type := "worst_entry_zone_edge";
     pa_execution_cost := execution_cost |}.

Definition validate_public_trade_plan (direction : string)
    (entry_low entry_high stop_loss tp1 tp2 tp3 minimum_rr execution_cost : pyobj)
    : result TradePlanIntegrityResult :=
  match (let! low := required_decimal entry_low "entry_low" in
         let! high := required_decimal entry_high "entry_high" in
         let! minimum := required_decimal minimum_rr "minimum_rr" in
         Ok (low, high, minimum)) with
  | Raise (ValueError reason) => Ok (failed_text reason)
  | Raise e => Raise e
  | Ok (low, high, minimum) =>
      validate_trade_plan
        (public_plan_args direction low high minimum stop_loss tp1 tp2 tp3 execution_cost)
  end.

(** ** Specification *)

(** The levels of an executable plan, as rationals: the stop is on the losing
    side of the whole entry zone, every target on the winning side, in order. *)
Definition plan_geometry (long : bool) (low high entry stop : dec) (targets : list dec) : Prop :=
  0 < dQ low /\ dQ low <= dQ entry <= dQ high /\ 0 < dQ stop /\
  Forall (fun t => 0 < dQ t) targets /\
  if long then
    dQ stop < dQ low /\ Forall (fun t => dQ high < dQ t) targets /\
    StronglySorted (fun a b => dQ a < dQ b) targets
  else
    dQ high < dQ stop /\ Forall (fun t => dQ t < dQ low) targets /\
    StronglySorted (fun a b => dQ b < dQ a) targets.

Definition plan_risk (long : bool) (entry stop cost : dec) : dec :=
  dadd (if long then dsub entry stop else dsub stop entry) cost.

Definition plan_reward (long : bool) (entry target cost : dec) : dec :=
  dsub (if long then dsub target entry else dsub entry target) cost.

(** The second target pays after costs, and the computed RR reaches the
    minimum when one is required. *)
Definition plan_economics (long : bool) (entry stop : dec) (t2 minimum : option dec)
    (cost : dec) : Prop :=
  match t2 with
  | None => minimum = None
  | Some t =>
      0 < dQ (plan_reward long entry t cost) /\
      forall m, minimum = Some m ->
      exists rr, ddiv (plan_reward long entry t cost) (plan_risk long entry stop cost) = Ok rr
                 /\ dQ m <= dQ rr
  end.

(** ** Helper lemmas *)

Lemma first_non_positive_none named :
  first_non_positive named = None <-> Forall (fun p => 0 < dQ (snd p)) named.
Proof.
  pose proof dQ_zero as Hz. induction named as [|[n d] named IH]; simpl; [by split|].
  rewrite Forall_cons, <- IH. simpl. destruct (dleb d dzero) eqn:E; autorewrite with decQ in E.
  - split; [done|]. intros [H _]. lra.
  - split; [intros H; split; [lra|done]|tauto].
Qed.

Lemma target_side_failure_none (long : bool) low high targets :
  dQ low <= dQ high ->
  target_side_failure long low high targets = None <->
  Forall (fun t => if long then dQ high < dQ t else dQ t < dQ low) (map snd targets).
Proof.
  intros Hlh. induction targets as [|[i t] targets IH]; simpl; [by split|].
  rewrite Forall_cons, <- IH.
  destruct (dleb low t) eqn:E1, (dleb t high) eqn:E2; simpl;
    try (split; [done|intros [H _]; exfalso; destruct long; dec_lra]);
    destruct long; simpl;
    try (destruct (dltb t low) eqn:E3); try (destruct (dltb high t) eqn:E4);
    autorewrite with decQ in *;
    try (split; [done|intros [H _]; exfalso; lra]);
    try (exfalso; lra);
    (split; [intros H; split; [lra|exact H]|tauto]).
Qed.

Lemma targets_ordered_iff (long : bool) l :
  targets_ordered long l = true <->
  StronglySorted (fun a b => if long then dQ a < dQ b else dQ b < dQ a) l.
Proof.
  induction l as [|x [|y l] IH]; [by split; [constructor|]|by split; repeat constructor|].
  change (targets_ordered long (x :: y :: l)) with
    ((if long then dltb x y else dltb y x) && targets_ordered long (y :: l)).
  rewrite andb_true_iff, IH. split.
  - intros [Hxy Hs]. constructor; [done|]. inversion Hs as [|? ? _ Hf]; subst.
    assert (if long then dQ x < dQ y else dQ y < dQ x) as Hxy'.
    { destruct long; by apply dltb_spec. }
    constructor; [done|]. eapply Forall_impl; [exact Hf|]. intros z Hz. destruct long; lra.
  - intros H. inversion H as [|? ? Hs Hf]; subst. inversion Hf; subst. split; [|done].
    destruct long; by apply dltb_spec.
Qed.

Lemma sorted_no_duplicate (long : bool) l :
  StronglySorted (fun a b => if long then dQ a < dQ b else dQ b < dQ a) l ->
  has_duplicate l = false.
Proof.
  induction 1 as [|x l _ IH Hf]; [done|]. simpl. rewrite IH, orb_false_r.
  apply not_true_iff_false. rewrite existsb_exists. intros (y & Hy & E).
  rewrite Forall_forall in Hf. apply list_elem_of_In in Hy. specialize (Hf y Hy).
  apply deqb_spec in E. destruct long; lra.
Qed.

Lemma plan_risk_pos (long : bool) low high entry stop cost :
  0 <= dQ cost -> dQ low <= dQ entry <= dQ high ->
  (if long then dQ stop < dQ low else dQ high < dQ stop) ->
  0 < dQ (plan_risk long entry stop cost).
Proof.
  intros Hc Hz Hs. unfold plan_risk. apply dadd_pos.
  assert (0 < dQ (if long then dsub entry stop else dsub stop entry)); [|lra].
  destruct long; apply dsub_pos; lra.
Qed.

(** A rejecting branch: the result is computed and the specification fails. *)
Ltac reject_plan := eexists; split; [reflexivity|]; split; [discriminate|]; intros Hspec; exfalso.

(** Side and order of the present targets. *)
Definition targets_spec (long : bool) (low high : dec) (targets : list dec) : Prop :=
  Forall (fun t => if long then dQ high < dQ t else dQ t < dQ low) targets /\
  StronglySorted (fun a b => if long then dQ a < dQ b else dQ b < dQ a) targets.

Lemma plan_geometry_split (long : bool) low high entry stop (ts : list (nat * dec)) :
  plan_geometry long low high entry stop (map snd ts) <->
  Forall (fun p => 0 < dQ (snd p))
    ([("entry_low", low); ("entry_high", high); ("entry_reference", entry); ("stop_loss", stop)]
     ++ map (fun p => (tp_label (fst p), snd p)) ts)%list /\
  dQ low <= dQ entry <= dQ high /\
  (if long then dQ stop < dQ low else dQ high < dQ stop) /\
  targets_spec long low high (map snd ts).
Proof.
  unfold plan_geometry, targets_spec. rewrite Forall_app, !Forall_cons, !Forall_map. simpl.
  split.
  - intros (Hlow & Hzone & Hstop & Htpos & Hside).
    destruct long; destruct Hside as (? & ? & ?);
      repeat first [split | lra | done | apply Forall_nil | by apply Forall_map].
  - intros [[(H1 & H2 & H3 & H4 & _) H5] (Hzone & Hstop & Hside & Hsort)].
    apply (proj1 (Forall_map _ _ _)) in H5.
    destruct long; repeat first [split | lra | done | apply Forall_nil].
Qed.

Lemma check_targets_levels (long : bool) low high ts :
  dQ low <= dQ high ->
  match target_side_failure long low high ts with
  | Some _ => false
  | None => negb (has_duplicate (map snd ts)) && targets_ordered long (map snd ts)
  end = true <-> targets_spec long low high (map snd ts).
Proof.
  intros Hlh. unfold targets_spec. rewrite <- (target_side_failure_none long low high ts Hlh).
  destruct (target_side_failure long low high ts); [split; [done|by intros [[=] _]]|].
  rewrite andb_true_iff, targets_ordered_iff, negb_true_iff.
  split; [tauto|]. intros [_ Hs]. split; [by eapply sorted_no_duplicate|done].
Qed.

Lemma check_targets_valid_iff side low high entry stop t1 t2 t3 minimum cost risk ert :
  dQ low <= dQ high -> 0 < dQ risk ->
  risk = plan_risk (String.eqb side "long") entry stop cost ->
  exists r,
    check_targets side low high entry stop [t1; t2; t3] minimum cost risk ert = Ok r /\
    (tp_valid r = true <->
     targets_spec (String.eqb side "long") low high (map snd (present_targets [t1; t2; t3])) /\
     plan_economics (String.eqb side "long") entry stop t2 minimum cost).
Proof.
  intros Hlh Hrisk Er. unfold check_targets. set (long := String.eqb side "long") in *.
  set (ts := present_targets [t1; t2; t3]). pose proof dQ_zero as Hz. cbn [nth].
  pose proof (check_targets_levels long low high ts Hlh) as Hlev.
  unfold plan_economics. rewrite <- Er.
  destruct t2 as [t|].
  - fold (plan_reward long entry t cost). destruct (deqb (plan_reward long entry t cost) dzero) eqn:E9.
    { reject_plan. destruct Hspec as (_ & Hp & _). dec_lra. }
    destruct (dltb (plan_reward long entry t cost) dzero) eqn:E10.
    { reject_plan. destruct Hspec as (_ & Hp & _). dec_lra. }
    destruct (ddiv_value (plan_reward long entry t cost) risk) as (rr & Hrr & _); [lra|].
    destruct (target_side_failure long low high ts); [reject_plan; destruct Hspec as [Hs _]; by apply Hlev in Hs|].
    destruct (has_duplicate (map snd ts)); [reject_plan; destruct Hspec as [Hs _]; by apply Hlev in Hs|].
    destruct (targets_ordered long (map snd ts)); [|reject_plan; destruct Hspec as [Hs _]; by apply Hlev in Hs].
    simpl negb; cbv iota. rewrite Hrr. cbn [bind_result].
    destruct (match minimum with Some m => dltb rr m | None => false end) eqn:E14.
    { reject_plan. destruct minimum as [m|]; [|done]. destruct Hspec as (_ & _ & Hm).
      destruct (Hm m eq_refl) as (rr' & [= <-] & Hle). dec_lra. }
    eexists; split; [reflexivity|]. split; [|done]. intros _.
    split; [by apply Hlev|]. split; [autorewrite with decQ in *; lra|].
    intros m ->. exists rr. split; [done|]. dec_lra.
  - destruct (target_side_failure long low high ts); [reject_plan; destruct Hspec as [Hs _]; by apply Hlev in Hs|].
    destruct (has_duplicate (map snd ts)); [reject_plan; destruct Hspec as [Hs _]; by apply Hlev in Hs|].
    destruct (targets_ordered long (map snd ts)); [|reject_plan; destruct Hspec as [Hs _]; by apply Hlev in Hs].
    destruct minimum; [reject_plan; by destruct Hspec as [_ [=]]|]. eexists; split; [reflexivity|]. split; [|done].
    intros _. split; [by apply Hlev|done].
Qed.

Ltac reject_geometry :=
  reject_plan;
  lazymatch goal with
  | H : _ /\ plan_geometry _ _ _ _ _ _ /\ _ |- _ =>
      rewrite plan_geometry_split, <- first_non_positive_none in H
  end.

Lemma check_plan_valid_iff side low high entry stop t1 t2 t3 minimum cost ert :
  exists r,
    check_plan side low high entry stop [t1; t2; t3] minimum cost ert = Ok r /\
    (tp_valid r = true <->
     0 <= dQ cost /\
     plan_geometry (String.eqb side "long") low high entry stop
       (map snd (present_targets [t1; t2; t3])) /\
     plan_economics (String.eqb side "long") entry stop t2 minimum cost).
Proof.
  unfold check_plan. set (long := String.eqb side "long"). pose proof dQ_zero as Hz.
  destruct (dltb cost dzero) eqn:E1; [reject_geometry; dec_lra|].
  destruct (first_non_positive _) as [name|] eqn:E2; [reject_geometry; destruct Hspec as (_ & [Hn _] & _); congruence|].
  destruct (dltb high low) eqn:E3; [reject_geometry; dec_lra|].
  destruct (dleb low entry && dleb entry high) eqn:E4; simpl negb; cbv iota.
  2:{ reject_geometry. apply andb_false_iff in E4. destruct E4; dec_lra. }
  assert (dQ low <= dQ entry <= dQ high) as Hentry by dec_lra.
  destruct (deqb (if long then dsub entry stop else dsub stop entry) dzero) eqn:E5.
  { reject_geometry. apply deqb_spec in E5. rewrite Hz in E5.
    destruct long; apply dsub_zero in E5; lra. }
  destruct (dleb low stop && dleb stop high) eqn:E6; [reject_geometry; destruct long; dec_lra|].
  destruct (if long then dleb high stop else dleb stop low) eqn:E7;
    [reject_geometry; destruct long; dec_lra|].
  assert (if long then dQ stop < dQ low else dQ high < dQ stop) as Hstop.
  { apply andb_false_iff in E6. destruct long; destruct E6; dec_lra. }
  destruct (dltb (if long then dsub entry stop else dsub stop entry) dzero) eqn:E8.
  { exfalso. apply dltb_spec in E8. rewrite Hz in E8.
    destruct long; apply dsub_negative in E8; lra. }
  assert (0 <= dQ cost) as Hcost by dec_lra.
  destruct (check_targets_valid_iff side low high entry stop t1 t2 t3 minimum cost
              (plan_risk long entry stop cost) ert) as (r & Hr & Hiff);
    [lra|by apply (plan_risk_pos long low high)|done|].
  exists r. split; [exact Hr|]. rewrite Hiff, plan_geometry_split, <- first_non_positive_none. tauto.
Qed.

Lemma optional_decimal_error v name req e :
  optional_decimal v name req = Raise e -> exists msg, e = ValueError msg.
Proof.
  unfold optional_decimal. destruct (match v with PyNone => true | _ => _ end).
  - destruct req; intros [= <-]; eauto.
  - destruct (match v with PyDec d => _ | _ => _ end) as [[d| |]|]; intros [= <-]; eauto.
Qed.

Lemma optional_decimal_required v name d : optional_decimal v name true = Ok d -> d <> None.
Proof.
  unfold optional_decimal. destruct (match v with PyNone => true | _ => _ end); [done|].
  by destruct (match v with PyDec d => _ | _ => _ end) as [[?| |]|]; intros [= <-].
Qed.

Lemma required_decimal_error v name e :
  required_decimal v name = Raise e -> exists msg, e = ValueError msg.
Proof.
  unfold required_decimal, bind_result.
  destruct (optional_decimal v name true) as [[d|]|e'] eqn:E; intros [= <-].
  - by apply optional_decimal_required in E.
  - by apply optional_decimal_error in E.
Qed.

(** Run the parsing steps of a plan; every failing step is a [ValueError]. *)
Ltac step_parse :=
  repeat match goal with
  | H : context [bind_result ?c _] |- _ =>
      let E := fresh "Hp" in destruct c eqn:E; cbn [bind_result] in H;
      [|injection H as <-; (apply required_decimal_error in E || apply optional_decimal_error in E);
        exact E]
  end.

Lemma parse_plan_error a e : parse_plan a = Raise e -> exists msg, e = ValueError msg.
Proof. unfold parse_plan. intros H. step_parse. discriminate. Qed.

Lemma parse_plan_targets a p :
  parse_plan a = Ok p -> exists t1 t2 t3, pp_targets p = [t1; t2; t3].
Proof.
  unfold parse_plan. intros H.
  repeat match goal with
  | H : context [bind_result ?c _] |- _ => destruct c; cbn [bind_result] in H; [|discriminate]
  end.
  injection H as <-. simpl. eauto.
Qed.

Lemma parse_plan_fields a p :
  parse_plan a = Ok p ->
  required_decimal (pa_entry_low a) "entry_low" = Ok (pp_low p) /\
  required_decimal (pa_entry_high a) "entry_high" = Ok (pp_high p) /\
  required_decimal (pa_entry_reference a) "entry_reference" = Ok (pp_entry p) /\
  (exists t1 t2 t3, pp_targets p = [t1; t2; t3] /\
     optional_decimal (pa_tp2 a) "tp2" (pa_require_all_targets a) = Ok t2) /\
  optional_decimal (pa_minimum_rr a) "minimum_rr" false = Ok (pp_minimum p).
Proof.
  unfold parse_plan. intros H.
  repeat match goal with
  | H : context [bind_result ?c _] |- _ =>
      destruct c eqn:?; cbn [bind_result] in H; [|discriminate]
  end.
  injection H as <-. simpl. eauto 10.
Qed.

Definition second_target (p : parsed_plan) : option dec := nth 1 (pp_targets p) None.

(** The plan a caller passed is acceptable. *)
Definition acceptable_plan (a : plan_args) : Prop :=
  str_in (plan_side a) ["long"; "short"] = true /\
  exists p, parse_plan a = Ok p /\ 0 <= dQ (pp_cost p) /\
    plan_geometry (String.eqb (plan_side a) "long") (pp_low p) (pp_high p) (pp_entry p)
      (pp_stop p) (map snd (present_targets (pp_targets p))) /\
    plan_economics (String.eqb (plan_side a) "long") (pp_entry p) (pp_stop p)
      (second_target p) (pp_minimum p) (pp_cost p).

Lemma validate_trade_plan_iff a :
  exists r, validate_trade_plan a = Ok r /\ (tp_valid r = true <-> acceptable_plan a).
Proof.
  unfold validate_trade_plan, acceptable_plan.
  destruct (str_in (plan_side a) ["long"; "short"]) eqn:Es; simpl negb; cbv iota.
  2:{ eexists; split; [reflexivity|]. split; [done|]. by intros [[=] _]. }
  destruct (parse_plan a) as [p|e] eqn:Ep.
  - destruct (parse_plan_targets a p Ep) as (t1 & t2 & t3 & Et).
    unfold second_target. rewrite Et.
    destruct (check_plan_valid_iff (plan_side a) (pp_low p) (pp_high p) (pp_entry p) (pp_stop p)
                t1 t2 t3 (pp_minimum p) (pp_cost p) (pa_entry_reference_type a)) as (r & Hr & Hiff).
    exists r. split; [exact Hr|]. rewrite Hiff. split.
    + intros H. split; [done|]. exists p. rewrite Et. tauto.
    + intros (_ & p' & [= <-] & H). rewrite Et in H. tauto.
  - destruct (parse_plan_error a e Ep) as [msg ->].
    eexists; split; [reflexivity|]. split; [done|]. by intros (_ & p & [=] & _).
Qed.

(** An accepted result carries the parsed levels and the computed economics. *)
Lemma check_plan_valid_result side low high entry stop t1 t2 t3 minimum cost ert r :
  check_plan side low high entry stop [t1; t2; t3] minimum cost ert = Ok r ->
  tp_valid r = true ->
  exists reward rr,
    r = plan_result true "N/A" side low high entry stop [t1; t2; t3]
          (plan_risk (String.eqb side "long") entry stop cost) reward rr ert cost /\
    match t2 with
    | Some t => reward = Some (plan_reward (String.eqb side "long") entry t cost) /\
                exists q, rr = Some q /\
                  ddiv (plan_reward (String.eqb side "long") entry t cost)
                       (plan_risk (String.eqb side "long") entry stop cost) = Ok q
    | None => reward = None /\ rr = None
    end.
Proof.
  unfold check_plan, check_targets. cbn [nth].
  repeat match goal with
  | |- (if ?b then _ else _) = _ -> _ => destruct b; [by intros [= <-]|]
  | |- match first_non_positive ?l with _ => _ end = _ -> _ =>
      destruct (first_non_positive l); [by intros [= <-]|]
  | |- match target_side_failure ?a ?b ?c ?d with _ => _ end = _ -> _ =>
      destruct (target_side_failure a b c d); [by intros [= <-]|]
  end.
  destruct t2 as [t|].
  - destruct (ddiv _ _) as [q|] eqn:Eq; cbn [bind_result]; [|done].
    destruct (match minimum with Some m => _ | None => _ end); intros [= <-] Hv; [done|].
    eexists _, _. split; [reflexivity|]. split; [reflexivity|]. eauto.
  - destruct minimum; intros [= <-] Hv; [done|]. eexists _, _. by split.
Qed.

(** A computed RR at or above [m] means an exact RR at or above [m] up to the
    relative error of one division. *)
Lemma ddiv_lower a b r m :
  0 <= m -> 0 < dQ b -> 0 < dQ a -> ddiv a b = Ok r -> m <= dQ r ->
  m * (1 - div_eps) * dQ b <= dQ a.
Proof.
  intros Hm Hb Ha Hr Hle. destruct (ddiv_value a b) as (r' & Hr' & He); [lra|].
  rewrite Hr in Hr'. injection Hr' as <-.
  assert (0 < dQ a / dQ b) as Hx by (apply Qlt_shift_div_l; [done|lra]).
  rewrite (Qabs_pos (dQ a / dQ b)) in He by lra. apply Qabs_Qle_condition in He.
  set (x := dQ a / dQ b) in *.
  assert (m <= (1 + div_eps) * x) as H1 by lra.
  assert (m * (1 - div_eps) <= x) as H2.
  { apply (Qle_trans _ ((1 + div_eps) * x * (1 - div_eps))).
    - apply Qmult_le_compat_r; [done|]. unfold div_eps. lra.
    - unfold div_eps. lra. }
  setoid_replace (dQ a) with (x * dQ b) using relation Qeq by (unfold x; field; lra).
  apply Qmult_le_compat_r; [done|lra].
Qed.

Lemma optional_decimal_finite d name req :
  optional_decimal (PyDec (Finite d)) name req = Ok (Some d).
Proof.
  unfold optional_decimal. cbn [py_str pydec_to_string].
  destruct (dec_to_string_head d) as (c & s & -> & Hc).
  destruct (numeric_head_strip c s Hc) as (s' & Hs).
  assert (str_in (py_strip (String c s)) [""; "N/A"] = false) as ->; [|done].
  apply not_true_iff_false. rewrite str_in_spec. simpl.
  intros [H|[H|[]]]; rewrite <- H in Hs; simpl in Hs; [done|].
  injection Hs as H1 _. revert H1 Hc. by destruct c as [[] [] [] [] [] [] [] []].
Qed.

Lemma required_decimal_finite d name : required_decimal (PyDec (Finite d)) name = Ok d.
Proof. unfold required_decimal. by rewrite optional_decimal_finite. Qed.

(** An accepted public plan went through [validate_trade_plan]. *)
Lemma public_plan_run direction lo hi st t1 t2 t3 m cost r :
  validate_public_trade_plan direction lo hi st t1 t2 t3 m cost = Ok r ->
  tp_valid r = true ->
  exists low high mn,
    validate_trade_plan (public_plan_args direction low high mn st t1 t2 t3 cost) = Ok r.
Proof.
  unfold validate_public_trade_plan. intros Hr Hv.
  destruct (required_decimal lo "entry_low") as [low|[]]; cbn [bind_result] in Hr;
    try (injection Hr as <-; done); try done.
  destruct (required_decimal hi "entry_high") as [high|[]]; cbn [bind_result] in Hr;
    try (injection Hr as <-; done); try done.
  destruct (required_decimal m "minimum_rr") as [mn|[]]; cbn [bind_result] in Hr;
    try (injection Hr as <-; done); try done.
  eauto.
Qed.

(** What an accepted plan with all targets required was parsed to. *)
Lemma accepted_plan_parsed a r :
  pa_require_all_targets a = true ->
  validate_trade_plan a = Ok r -> tp_valid r = true ->
  exists p T1 t2 T3,
    acceptable_plan a /\ parse_plan a = Ok p /\ pp_targets p = [T1; Some t2; T3] /\
    check_plan (plan_side a) (pp_low p) (pp_high p) (pp_entry p) (pp_stop p)
      [T1; Some t2; T3] (pp_minimum p) (pp_cost p) (pa_entry_reference_type a) = Ok r.
Proof.
  intros Hall Hr Hv. destruct (validate_trade_plan_iff a) as (r' & Hr' & Hiff).
  rewrite Hr in Hr'. injection Hr' as <-. pose proof (proj1 Hiff Hv) as Hacc.
  destruct Hacc as (Hside & p & Hp & Hrest).
  destruct (parse_plan_fields a p Hp) as (_ & _ & _ & (T1 & T2 & T3 & Et & HT2) & _).
  rewrite Hall in HT2. destruct T2 as [t2|]; [|by apply optional_decimal_required in HT2].
  exists p, T1, t2, T3. repeat split; try done.
  - exists p. by split.
  - unfold validate_trade_plan in Hr. rewrite Hside, Hp, Et in Hr. exact Hr.
Qed.

Lemma public_plan_side direction low high mn st t1 t2 t3 cost :
  plan_side (public_plan_args direction low high mn st t1 t2 t3 cost)
  = py_lower (py_strip direction).
Proof. unfold plan_side; simpl. by rewrite py_strip_lower, py_strip_idem, py_lower_idem. Qed.


(** a plan the public validator accepts is reported at its worst entry
    edge, has its stop beyond and its second target past the whole entry zone,
    and pays, after execution cost, at least three times its risk up to the
    relative error of one 28-digit division. *)
Theorem public_plan_contract direction lo hi st t1 t2 t3 m cost r :
  validate_public_trade_plan direction lo hi st t1 t2 t3 m cost = Ok r ->
  tp_valid r = true ->
  let side := py_lower (py_strip direction) in
  let long := String.eqb side "long" in
  exists low high stop target c,
    tp_entry_low r = Some low /\ tp_entry_high r = Some high /\
    tp_stop_loss r = Some stop /\ tp_tp2 r = Some target /\ tp_execution_cost r = c /\
    tp_entry_reference r = Some (if long then high else low) /\
    (if long then dQ stop < dQ low <= dQ high /\ dQ high < dQ target
     else dQ target < dQ low <= dQ high /\ dQ high < dQ stop) /\
    3 * (1 - div_eps) * dQ (plan_risk long (if long then high else low) stop c)
      <= dQ (plan_reward long (if long then high else low) target c).
Proof.
  intros H Hv side long. destruct (public_plan_run _ _ _ _ _ _ _ _ _ _ H Hv) as (low & high & mn & Hr).
  set (a := public_plan_args _ _ _ _ _ _ _ _ _) in Hr.
  destruct (accepted_plan_parsed a r eq_refl Hr Hv)
    as (p & T1 & target & T3 & (_ & p' & Hp' & Hc & Hg & He) & Hp & Et & Hchk).
  rewrite Hp in Hp'. injection Hp' as <-.
  assert (plan_side a = side) as Eside by apply public_plan_side. rewrite Eside in Hg, He, Hchk.
  destruct (parse_plan_fields a p Hp) as (F1 & F2 & F3 & _ & F4).
  simpl in F1, F2, F3, F4. rewrite required_decimal_finite in F1, F2, F3.
  rewrite optional_decimal_finite in F4.
  injection F1 as F1. injection F2 as F2. injection F3 as F3. injection F4 as F4.
  unfold second_target in He. rewrite Et in Hg, He.
  rewrite <- F1, <- F2, <- F3, <- F4 in *. fold side long in Hg, He, Hchk.
  destruct (check_plan_valid_result _ _ _ _ _ _ _ _ _ _ _ _ Hchk Hv) as (rw & rr & -> & Hrw & q & -> & Hq).
  fold long in Hrw, Hq |- *.
  exists low, high, (pp_stop p), target, (pp_cost p). simpl. repeat (split; [done|]).
  destruct He as [Hpos Hm]. destruct (Hm _ eq_refl) as (q' & Hq' & Hle).
  rewrite Hq in Hq'. injection Hq' as <-.
  apply plan_geometry_split in Hg. destruct Hg as (_ & Hz & Hs & [Ht _]).
  assert (In target (map snd (present_targets [T1; Some target; T3]))) as Hin
    by (destruct T1, T3; simpl; tauto).
  rewrite Forall_forall in Ht. apply list_elem_of_In in Hin. specialize (Ht _ Hin).
  split; [destruct long; lra|].
  apply (ddiv_lower _ _ q); try done; try lra.
  - apply (plan_risk_pos long low high); [done|destruct long; lra|done].
  - pose proof (dmax_Q PUBLIC_TP2_MINIMUM_RR mn) as Hmax.
    pose proof (Q.le_max_l (dQ PUBLIC_TP2_MINIMUM_RR) (dQ mn)).
    assert (dQ PUBLIC_TP2_MINIMUM_RR == 3) by reflexivity. lra.
Qed.

Lemma public_plan_contract_witness :
  exists r low high stop target c,
    validate_public_trade_plan " LONG " (PyStr "99") (PyStr "100") (PyStr "95")
      (PyStr "110") (PyStr "120") (PyStr "130") (PyStr "2.5") (PyStr "0.1") = Ok r /\
    tp_entry_low r = Some low /\ tp_entry_high r = Some high /\
    tp_stop_loss r = Some stop /\ tp_tp2 r = Some target /\ tp_execution_cost r = c /\
    dQ stop < dQ low <= dQ high /\ dQ high < dQ target.
Proof.
  destruct (validate_public_trade_plan " LONG " (PyStr "99") (PyStr "100") (PyStr "95")
    (PyStr "110") (PyStr "120") (PyStr "130") (PyStr "2.5") (PyStr "0.1")) as [r|e] eqn:Hr;
    [|vm_compute in Hr; discriminate].
  assert (tp_valid r = true) as Hv by (vm_compute in Hr; injection Hr as <-; reflexivity).
  destruct (public_plan_contract _ _ _ _ _ _ _ _ _ _ Hr Hv)
    as (low & high & stop & target & c & H1 & H2 & H3 & H4 & H5 & _ & Hg & _).
  exists r, low, high, stop, target, c. repeat (split; [assumption || reflexivity|]). exact Hg.
Defined.
