(* ===== verification/LifecycleModels.v ===== *)
(** * Lifecycle data model (src/app/lifecycle/models.py)

    The states and transition reasons of a setup, the persisted record, event
    and outcome-progress rows and the result of a transition.  Constructing a
    row runs its pydantic validators ([validate_record], [validate_event]);
    [model_copy] does not, and is the record update of [Prelude]. *)

From stdpp Require Import base tactics list strings.
From Stdlib Require Import ZArith NArith Lia Bool.
From S2P Require Import Prelude PyString.
Open Scope string_scope.
Open Scope py_scope.

Definition NA : string := "N/A".

Inductive SetupLifecycleState : Type :=
| DISCOVERED
| REJECTED
| WATCHLISTED
| STALKING
| TRIGGERED
| CONFIRMED
| ACTIONABLE_A_GRADE
| A_GRADE_WATCH
| EXECUTING
| MANAGING
| TP_HIT
| SL_HIT
| BREAKEVEN
| INVALIDATED
| EXPIRED
| COOLDOWN
| COOLED_DOWN
| NO_LONGER_TRACKING
| REMOVED
| CANCELLED
| CANCELED
| ARCHIVED.

#[export] Instance SetupLifecycleState_eq_dec : EqDecision SetupLifecycleState.
Proof. solve_decision. Defined.

Definition state_value (s : SetupLifecycleState) : string :=
  match s with
  | DISCOVERED => "DISCOVERED"
  | REJECTED => "REJECTED"
  | WATCHLISTED => "WATCHLISTED"
  | STALKING => "STALKING"
  | TRIGGERED => "TRIGGERED"
  | CONFIRMED => "CONFIRMED"
  | ACTIONABLE_A_GRADE => "ACTIONABLE_A_GRADE"
  | A_GRADE_WATCH => "A_GRADE_WATCH"
  | EXECUTING => "EXECUTING"
  | MANAGING => "MANAGING"
  | TP_HIT => "TP_HIT"
  | SL_HIT => "SL_HIT"
  | BREAKEVEN => "BREAKEVEN"
  | INVALIDATED => "INVALIDATED"
  | EXPIRED => "EXPIRED"
  | COOLDOWN => "COOLDOWN"
  | COOLED_DOWN => "COOLED_DOWN"
  | NO_LONGER_TRACKING => "NO_LONGER_TRACKING"
  | REMOVED => "REMOVED"
  | CANCELLED => "CANCELLED"
  | CANCELED => "CANCELED"
  | ARCHIVED => "ARCHIVED"
  end.

Definition all_states : list SetupLifecycleState :=
  [DISCOVERED; REJECTED; WATCHLISTED; STALKING; TRIGGERED;
   CONFIRMED; ACTIONABLE_A_GRADE; A_GRADE_WATCH; EXECUTING; MANAGING;
   TP_HIT; SL_HIT; BREAKEVEN; INVALIDATED; EXPIRED;
   COOLDOWN; COOLED_DOWN; NO_LONGER_TRACKING; REMOVED; CANCELLED;
   CANCELED; ARCHIVED].

Inductive SetupTransitionReason : Type :=
| INITIALIZED
| REASON_DISCOVERED
| REASON_REJECTED
| CONFIRMATION_PENDING
| MULTI_SCAN_CONFIRMED
| READINESS_IMPROVED
| SWEEP_APPEARED
| STRUCTURE_SHIFT_CONFIRMED
| PULLBACK_RR_VALID
| REASON_ACTIONABLE_A_GRADE
| REASON_A_GRADE_WATCH
| VALID_TRADE_IDEA
| ENTRY_ZONE_TOUCHED
| ENTRY_ACTIVATED
| ENTRY_FILL_SIMULATED
| SETUP_DECAYED
| TAKE_PROFIT_HIT
| TP1_MILESTONE
| TP2_MILESTONE
| TP3_MILESTONE
| STOP_LOSS_HIT
| BREAKEVEN_STOP_HIT
| SETUP_INVALIDATED
| SETUP_EXPIRED
| COOLDOWN_STARTED
| COOLDOWN_EXPIRED
| REACTIVATED
| LEGACY_INVALID_STORED_PLAN_GEOMETRY
| NO_CHANGE
| INVALID_TRANSITION.

#[export] Instance SetupTransitionReason_eq_dec : EqDecision SetupTransitionReason.
Proof. solve_decision. Defined.

Definition reason_value (r : SetupTransitionReason) : string :=
  match r with
  | INITIALIZED => "Lifecycle initialized from current scan snapshot."
  | REASON_DISCOVERED => "Setup discovered and awaiting stronger structure."
  | REASON_REJECTED => "Setup rejected by current deterministic gates."
  | CONFIRMATION_PENDING => "Setup is waiting for another consistent scan confirmation."
  | MULTI_SCAN_CONFIRMED => "Setup passed required consecutive scan confirmations."
  | READINESS_IMPROVED => "Readiness improved enough for watchlist."
  | SWEEP_APPEARED => "Execution sweep appeared."
  | STRUCTURE_SHIFT_CONFIRMED => "5m BOS/CHoCH confirmed after sweep."
  | PULLBACK_RR_VALID => "Pullback zone and RR became valid."
  | REASON_ACTIONABLE_A_GRADE => "Clean A-grade setup map is actionable but not fully confirmed."
  | REASON_A_GRADE_WATCH => "A-grade setup mapped and waiting for limit zone."
  | VALID_TRADE_IDEA => "Valid trade idea exists."
  | ENTRY_ZONE_TOUCHED => "Entry zone touched by latest price range."
  | ENTRY_ACTIVATED => "Entry activation recorded from a closed execution candle."
  | ENTRY_FILL_SIMULATED => "Entry fill simulated or confirmed."
  | SETUP_DECAYED => "Setup confidence decayed after no lifecycle progress."
  | TAKE_PROFIT_HIT => "Take-profit outcome recorded."
  | TP1_MILESTONE => "TP1 milestone recorded internally."
  | TP2_MILESTONE => "TP2 milestone recorded internally."
  | TP3_MILESTONE => "TP3 milestone recorded internally."
  | STOP_LOSS_HIT => "Stop-loss outcome recorded."
  | BREAKEVEN_STOP_HIT => "Reference breakeven stop reached after TP1."
  | SETUP_INVALIDATED => "Setup invalidated by current structure or failed gate."
  | SETUP_EXPIRED => "Setup expired before completion."
  | COOLDOWN_STARTED => "Lifecycle moved into cooldown."
  | COOLDOWN_EXPIRED => "Cooldown expired."
  | REACTIVATED => "New structure reactivated archived setup."
  | LEGACY_INVALID_STORED_PLAN_GEOMETRY => "legacy_invalid_stored_plan_geometry"
  | NO_CHANGE => "No lifecycle transition."
  | INVALID_TRANSITION => "Invalid lifecycle transition rejected."
  end.

(** [s in {...}] for a set or tuple of states *)
Definition state_in (s : SetupLifecycleState) (l : list SetupLifecycleState) : bool :=
  existsb (fun x => bool_decide (s = x)) l.

Definition state_eqb (a b : SetupLifecycleState) : bool := bool_decide (a = b).

(** [SetupLifecycleState(text)] *)
Fixpoint find_state (text : string) (l : list SetupLifecycleState) : option SetupLifecycleState :=
  match l with
  | [] => None
  | s :: rest => if String.eqb (state_value s) text then Some s else find_state text rest
  end.

Definition state_of_text (text : string) : option SetupLifecycleState := find_state text all_states.

Definition ACTIVE_LIFECYCLE_MONITORING_STATES : list SetupLifecycleState :=
  [EXECUTING; MANAGING; ACTIONABLE_A_GRADE; A_GRADE_WATCH; STALKING; TRIGGERED; CONFIRMED;
   WATCHLISTED].

(** The argument [SetupLifecycleState | str] of the two monitoring queries. *)
Inductive state_arg : Type :=
| ByState (s : SetupLifecycleState)
| ByText (text : string).

Definition normalize_state (a : state_arg) : option SetupLifecycleState :=
  match a with
  | ByState s => Some s
  | ByText t => state_of_text (py_upper (py_strip t))
  end.

Definition lifecycle_requires_market_observation (a : state_arg) : bool :=
  match normalize_state a with
  | Some s => state_in s ACTIVE_LIFECYCLE_MONITORING_STATES
  | None => false
  end.

Fixpoint index_of (s : SetupLifecycleState) (l : list SetupLifecycleState) : option nat :=
  match l with
  | [] => None
  | x :: rest => if state_eqb s x then Some 0%nat else option_map S (index_of s rest)
  end.

Definition lifecycle_monitoring_priority (a : state_arg) : nat :=
  match normalize_state a with
  | Some s =>
      match index_of s ACTIVE_LIFECYCLE_MONITORING_STATES with
      | Some i => i
      | None => length ACTIVE_LIFECYCLE_MONITORING_STATES
      end
  | None => length ACTIVE_LIFECYCLE_MONITORING_STATES
  end.

Record SetupLifecycleRecord := mkSetupLifecycleRecord {
  r_lifecycle_id : string;
  r_symbol : string;
  r_mode : string;
  r_direction : string;
  r_current_state : SetupLifecycleState;
  r_previous_state : option SetupLifecycleState;
  r_first_seen_at : string;
  r_last_seen_at : string;
  r_last_transition_at : string;
  r_failed_gate : string;
  r_candidate_quality_grade : string;
  r_final_quality_grade : string;
  r_technical_score : string;
  r_opportunity_score : string;
  r_final_failed_gate : string;
  r_final_block_reason : string;
  r_target_integrity_status : string;
  r_target_failure : string;
  r_target_failure_severity : string;
  r_target_warning_reason : string;
  r_actionability_state : string;
  r_readiness_score : Z;
  r_quality_score : Z;
  r_edge_score : string;
  r_regime_state : string;
  r_action_label : string;
  r_invalidation_reason : string;
  r_cooldown_until : option string;
  r_archived_at : option string;
  r_entry_low : string;
  r_entry_high : string;
  r_stop_loss : string;
  r_tp1 : string;
  r_tp2 : string;
  r_tp3 : string;
  r_rr : string;
  r_invalidation_logic : string;
  r_confirmation_count : Z;
  r_required_confirmation_cycles : Z;
  r_quality_grade_first_seen : string;
  r_quality_grade_current : string;
  r_quality_grade_confirmed : string;
  r_confirmed_at : option string;
  r_decay_count : Z;
  r_decay_reason : string;
  r_symbol_health_score_at_detection : string;
  r_symbol_health_penalty_cycles : Z;
  r_setup_identity : string;
  r_structural_anchor : string;
  r_is_current : bool;
  r_setup_id : option string;
  r_plan_version_id : option string;
  r_economic_identity_reason : option string;
  r_runtime_epoch_id : option string;
  r_creation_origin_id : option string
}.

#[export] Instance SetupLifecycleRecord_eta : RecordEta SetupLifecycleRecord := fun r =>
  mkSetupLifecycleRecord (r_lifecycle_id r) (r_symbol r) (r_mode r) (r_direction r)
    (r_current_state r) (r_previous_state r) (r_first_seen_at r) (r_last_seen_at r)
    (r_last_transition_at r) (r_failed_gate r) (r_candidate_quality_grade r) (r_final_quality_grade r)
    (r_technical_score r) (r_opportunity_score r) (r_final_failed_gate r) (r_final_block_reason r)
    (r_target_integrity_status r) (r_target_failure r) (r_target_failure_severity r) (r_target_warning_reason r)
    (r_actionability_state r) (r_readiness_score r) (r_quality_score r) (r_edge_score r)
    (r_regime_state r) (r_action_label r) (r_invalidation_reason r) (r_cooldown_until r)
    (r_archived_at r) (r_entry_low r) (r_entry_high r) (r_stop_loss r)
    (r_tp1 r) (r_tp2 r) (r_tp3 r) (r_rr r)
    (r_invalidation_logic r) (r_confirmation_count r) (r_required_confirmation_cycles r) (r_quality_grade_first_seen r)
    (r_quality_grade_current r) (r_quality_grade_confirmed r) (r_confirmed_at r) (r_decay_count r)
    (r_decay_reason r) (r_symbol_health_score_at_detection r) (r_symbol_health_penalty_cycles r) (r_setup_identity r)
    (r_structural_anchor r) (r_is_current r) (r_setup_id r) (r_plan_version_id r)
    (r_economic_identity_reason r) (r_runtime_epoch_id r) (r_creation_origin_id r).

Record SetupLifecycleEvent := mkSetupLifecycleEvent {
  ev_lifecycle_id : string;
  ev_timestamp : string;
  ev_symbol : string;
  ev_from_state : option SetupLifecycleState;
  ev_to_state : SetupLifecycleState;
  ev_reason : SetupTransitionReason;
  ev_scan_run_id : option string;
  ev_readiness_score : Z;
  ev_quality_score : Z;
  ev_failed_gate : string;
  ev_notes : string
}.

#[export] Instance SetupLifecycleEvent_eta : RecordEta SetupLifecycleEvent := fun r =>
  mkSetupLifecycleEvent (ev_lifecycle_id r) (ev_timestamp r) (ev_symbol r) (ev_from_state r)
    (ev_to_state r) (ev_reason r) (ev_scan_run_id r) (ev_readiness_score r)
    (ev_quality_score r) (ev_failed_gate r) (ev_notes r).

Record SetupLifecycleOutcomeProgress := mkSetupLifecycleOutcomeProgress {
  pg_lifecycle_id : string;
  pg_plan_identity : string;
  pg_symbol : string;
  pg_mode : string;
  pg_direction : string;
  pg_execution_timeframe : string;
  pg_tracking_start_at : option string;
  pg_evaluation_cursor_open_at : option string;
  pg_evaluation_cursor_close_at : option string;
  pg_entry_at : option string;
  pg_tp1_at : option string;
  pg_tp2_at : option string;
  pg_tp3_at : option string;
  pg_stop_at : option string;
  pg_invalidated_at : option string;
  pg_outcome_at : option string;
  pg_terminal_outcome : string;
  pg_integrity_status : string;
  pg_diagnostic : string;
  pg_metadata_json : string;
  pg_first_evaluated_at : string;
  pg_last_evaluated_at : string;
  pg_plan_version_id : option string;
  pg_last_eligibility_decision_at : option string;
  pg_last_eligibility_prefix_evidence_json : option string;
  pg_eligibility_cutoff_observed : bool
}.

#[export] Instance SetupLifecycleOutcomeProgress_eta : RecordEta SetupLifecycleOutcomeProgress := fun r =>
  mkSetupLifecycleOutcomeProgress (pg_lifecycle_id r) (pg_plan_identity r) (pg_symbol r) (pg_mode r)
    (pg_direction r) (pg_execution_timeframe r) (pg_tracking_start_at r) (pg_evaluation_cursor_open_at r)
    (pg_evaluation_cursor_close_at r) (pg_entry_at r) (pg_tp1_at r) (pg_tp2_at r)
    (pg_tp3_at r) (pg_stop_at r) (pg_invalidated_at r) (pg_outcome_at r)
    (pg_terminal_outcome r) (pg_integrity_status r) (pg_diagnostic r) (pg_metadata_json r)
    (pg_first_evaluated_at r) (pg_last_evaluated_at r) (pg_plan_version_id r) (pg_last_eligibility_decision_at r)
    (pg_last_eligibility_prefix_evidence_json r) (pg_eligibility_cutoff_observed r).

Record SetupTransitionResult := mkSetupTransitionResult {
  tr_lifecycle_id : string;
  tr_symbol : string;
  tr_from_state : option SetupLifecycleState;
  tr_to_state : SetupLifecycleState;
  tr_reason : SetupTransitionReason;
  tr_transitioned : bool;
  tr_allowed : bool;
  tr_notes : string;
  tr_event : option SetupLifecycleEvent;
  tr_record : option SetupLifecycleRecord
}.

#[export] Instance SetupTransitionResult_eta : RecordEta SetupTransitionResult := fun r =>
  mkSetupTransitionResult (tr_lifecycle_id r) (tr_symbol r) (tr_from_state r) (tr_to_state r)
    (tr_reason r) (tr_transitioned r) (tr_allowed r) (tr_notes r)
    (tr_event r) (tr_record r).

Record SetupOutcomeAnalyticsRecord := mkSetupOutcomeAnalyticsRecord {
  an_lifecycle_id : string;
  an_symbol : string;
  an_bias : string;
  an_first_seen_at : string;
  an_confirmed_at : string;
  an_entry_zone : string;
  an_stop_loss : string;
  an_tp1 : string;
  an_tp2 : string;
  an_tp3 : string;
  an_quality_at_first_detection : string;
  an_quality_at_confirmation : string;
  an_rr : string;
  an_lifecycle_path : string;
  an_final_outcome : string;
  an_failure_reason : string;
  an_outcome_reason : string;
  an_regime_context : string;
  an_symbol_health_at_detection : string;
  an_raw_payload_json : string
}.

#[export] Instance SetupOutcomeAnalyticsRecord_eta : RecordEta SetupOutcomeAnalyticsRecord := fun r =>
  mkSetupOutcomeAnalyticsRecord (an_lifecycle_id r) (an_symbol r) (an_bias r) (an_first_seen_at r)
    (an_confirmed_at r) (an_entry_zone r) (an_stop_loss r) (an_tp1 r)
    (an_tp2 r) (an_tp3 r) (an_quality_at_first_detection r) (an_quality_at_confirmation r)
    (an_rr r) (an_lifecycle_path r) (an_final_outcome r) (an_failure_reason r)
    (an_outcome_reason r) (an_regime_context r) (an_symbol_health_at_detection r) (an_raw_payload_json r).

(** ** Validators *)

(** [_normalize_text] of the text fields *)
Definition normalize_text (value : string) : string :=
  let text := py_strip value in
  if String.eqb text "" then NA else text.

(** [_normalize_optional_identity] *)
Definition normalize_optional_identity (value : option string) : option string :=
  match value with
  | None => None
  | Some v =>
      let text := py_strip v in
      if String.eqb text "" || String.eqb (py_upper text) NA then None else Some text
  end.

(** [_normalize_symbol] *)
Definition normalize_symbol (value : string) : result string :=
  let normalized := py_upper (py_strip value) in
  if String.eqb normalized "" then Raise (ValueError "symbol must not be blank")
  else Ok normalized.

Definition in_range (lo hi v : Z) : bool := ((lo <=? v) && (v <=? hi))%Z.

(** [SetupLifecycleRecord(...)]: field constraints and validators *)
Definition validate_record (r : SetupLifecycleRecord) : result SetupLifecycleRecord :=
  let! sym := normalize_symbol (r_symbol r) in
  if negb (in_range 0 100 (r_readiness_score r) && in_range 0 100 (r_quality_score r)
           && (0 <=? r_confirmation_count r)%Z && (1 <=? r_required_confirmation_cycles r)%Z
           && (0 <=? r_decay_count r)%Z && (0 <=? r_symbol_health_penalty_cycles r)%Z)
  then Raise (ValueError "SetupLifecycleRecord field constraint")
  else Ok (r <| r_symbol := sym |>
    <| r_mode := normalize_text (r_mode r) |>
    <| r_direction := normalize_text (r_direction r) |>
    <| r_failed_gate := normalize_text (r_failed_gate r) |>
    <| r_candidate_quality_grade := normalize_text (r_candidate_quality_grade r) |>
    <| r_final_quality_grade := normalize_text (r_final_quality_grade r) |>
    <| r_technical_score := normalize_text (r_technical_score r) |>
    <| r_opportunity_score := normalize_text (r_opportunity_score r) |>
    <| r_final_failed_gate := normalize_text (r_final_failed_gate r) |>
    <| r_final_block_reason := normalize_text (r_final_block_reason r) |>
    <| r_target_integrity_status := normalize_text (r_target_integrity_status r) |>
    <| r_target_failure := normalize_text (r_target_failure r) |>
    <| r_target_failure_severity := normalize_text (r_target_failure_severity r) |>
    <| r_target_warning_reason := normalize_text (r_target_warning_reason r) |>
    <| r_actionability_state := normalize_text (r_actionability_state r) |>
    <| r_edge_score := normalize_text (r_edge_score r) |>
    <| r_regime_state := normalize_text (r_regime_state r) |>
    <| r_action_label := normalize_text (r_action_label r) |>
    <| r_invalidation_reason := normalize_text (r_invalidation_reason r) |>
    <| r_entry_low := normalize_text (r_entry_low r) |>
    <| r_entry_high := normalize_text (r_entry_high r) |>
    <| r_stop_loss := normalize_text (r_stop_loss r) |>
    <| r_tp1 := normalize_text (r_tp1 r) |>
    <| r_tp2 := normalize_text (r_tp2 r) |>
    <| r_tp3 := normalize_text (r_tp3 r) |>
    <| r_rr := normalize_text (r_rr r) |>
    <| r_invalidation_logic := normalize_text (r_invalidation_logic r) |>
    <| r_quality_grade_first_seen := normalize_text (r_quality_grade_first_seen r) |>
    <| r_quality_grade_current := normalize_text (r_quality_grade_current r) |>
    <| r_quality_grade_confirmed := normalize_text (r_quality_grade_confirmed r) |>
    <| r_decay_reason := normalize_text (r_decay_reason r) |>
    <| r_symbol_health_score_at_detection := normalize_text (r_symbol_health_score_at_detection r) |>
    <| r_setup_identity := normalize_text (r_setup_identity r) |>
    <| r_structural_anchor := normalize_text (r_structural_anchor r) |>
    <| r_setup_id := normalize_optional_identity (r_setup_id r) |>
    <| r_plan_version_id := normalize_optional_identity (r_plan_version_id r) |>
    <| r_economic_identity_reason := normalize_optional_identity (r_economic_identity_reason r) |>
    <| r_runtime_epoch_id := normalize_optional_identity (r_runtime_epoch_id r) |>
    <| r_creation_origin_id := normalize_optional_identity (r_creation_origin_id r) |>).

(** [SetupLifecycleEvent(...)] *)
Definition validate_event (e : SetupLifecycleEvent) : result SetupLifecycleEvent :=
  let! sym := normalize_symbol (ev_symbol e) in
  if negb (in_range 0 100 (ev_readiness_score e) && in_range 0 100 (ev_quality_score e))
  then Raise (ValueError "SetupLifecycleEvent field constraint")
  else Ok (e <| ev_symbol := sym |>
    <| ev_failed_gate := normalize_text (ev_failed_gate e) |>
    <| ev_notes := normalize_text (ev_notes e) |>).

(** [_normalize_optional_prefix_evidence_json] *)
Definition normalize_optional_prefix_evidence_json (value : option string) : option string :=
  match value with
  | None => None
  | Some v => let text := py_strip v in if String.eqb text "" then None else Some text
  end.

(** [SetupLifecycleOutcomeProgress(...)]: the validators *)
Definition validate_progress (p : SetupLifecycleOutcomeProgress) : result SetupLifecycleOutcomeProgress :=
  let! sym := normalize_symbol (pg_symbol p) in
  Ok (p <| pg_symbol := sym |>
    <| pg_lifecycle_id := normalize_text (pg_lifecycle_id p) |>
    <| pg_plan_identity := normalize_text (pg_plan_identity p) |>
    <| pg_mode := normalize_text (pg_mode p) |>
    <| pg_direction := normalize_text (pg_direction p) |>
    <| pg_execution_timeframe := normalize_text (pg_execution_timeframe p) |>
    <| pg_terminal_outcome := normalize_text (pg_terminal_outcome p) |>
    <| pg_integrity_status := normalize_text (pg_integrity_status p) |>
    <| pg_diagnostic := normalize_text (pg_diagnostic p) |>
    <| pg_metadata_json := normalize_text (pg_metadata_json p) |>
    <| pg_plan_version_id := normalize_optional_identity (pg_plan_version_id p) |>
    <| pg_last_eligibility_decision_at :=
         normalize_optional_identity (pg_last_eligibility_decision_at p) |>
    <| pg_last_eligibility_prefix_evidence_json :=
         normalize_optional_prefix_evidence_json (pg_last_eligibility_prefix_evidence_json p) |>).

(** [SetupOutcomeAnalyticsRecord(...)] *)
Definition validate_analytics (a : SetupOutcomeAnalyticsRecord) : result SetupOutcomeAnalyticsRecord :=
  let! sym := normalize_symbol (an_symbol a) in
  Ok (a <| an_symbol := sym |>
    <| an_bias := normalize_text (an_bias a) |>
    <| an_confirmed_at := normalize_text (an_confirmed_at a) |>
    <| an_entry_zone := normalize_text (an_entry_zone a) |>
    <| an_stop_loss := normalize_text (an_stop_loss a) |>
    <| an_tp1 := normalize_text (an_tp1 a) |>
    <| an_tp2 := normalize_text (an_tp2 a) |>
    <| an_tp3 := normalize_text (an_tp3 a) |>
    <| an_quality_at_first_detection := normalize_text (an_quality_at_first_detection a) |>
    <| an_quality_at_confirmation := normalize_text (an_quality_at_confirmation a) |>
    <| an_rr := normalize_text (an_rr a) |>
    <| an_lifecycle_path := normalize_text (an_lifecycle_path a) |>
    <| an_failure_reason := normalize_text (an_failure_reason a) |>
    <| an_outcome_reason := normalize_text (an_outcome_reason a) |>
    <| an_regime_context := normalize_text (an_regime_context a) |>
    <| an_symbol_health_at_detection := normalize_text (an_symbol_health_at_detection a) |>
    <| an_raw_payload_json := normalize_text (an_raw_payload_json a) |>).
