(* ===== verification/CandleIntegrity.v ===== *)
(** * Candle integrity (src/app/data/candle_integrity.py)

    Timeframes, timestamps, candle values, candle sequences and the window of
    candles closed at a decision time.

    A candle is a mapping or an object with attributes; its field values are
    the Python values below.  A sequence of candles is a list. *)

From stdpp Require Import base tactics list strings.
From Stdlib Require Import ZArith NArith Lia Bool Ascii.
From S2P Require Import Prelude PyString PyDecimal DecimalFacts PyCalendar PyTime LifecycleModels.
Open Scope string_scope.
Open Scope py_scope.

(** ** Values *)

(** A field value: a number, text or nothing, a [datetime], or any other
    object, of which only its truth value and its text are observed. *)
Inductive cval : Type :=
| CVal (v : pyobj)
| CDatetime (t : datetime)
| COther (truthy : bool) (text : string).

(** [str(t)] of a [datetime]: isoformat with a blank separator *)
Definition datetime_text (t : datetime) : string := py_replace "T" " " (isoformat t).

Definition cval_text (v : cval) : string :=
  match v with
  | CVal o => py_str o
  | CDatetime t => datetime_text t
  | COther _ text => text
  end.

(** [bool(value)]; the [repr] of a float zero is "0.0" or "-0.0" *)
Definition cval_truthy (v : cval) : bool :=
  match v with
  | CVal PyNone => false
  | CVal (PyBool b) => b
  | CVal (PyInt z) => negb (z =? 0)%Z
  | CVal (PyFloat r) => negb (str_in r ["0.0"; "-0.0"])
  | CVal (PyDec (Finite d)) => negb (d_coef d =? 0)%N
  | CVal (PyDec _) => true
  | CVal (PyStr s) => negb (String.eqb s "")
  | CDatetime _ => true
  | COther b _ => b
  end.

(** A candle, or one of the values the code refuses as a candle (None, text,
    bytes, a number, a list, a tuple or a set). *)
Inductive candle : Type :=
| NotACandle
| MappingCandle (fields : list (string * cval))
| ObjectCandle (attributes : list (string * cval)).

Fixpoint assoc {A} (name : string) (l : list (string * A)) : option A :=
  match l with
  | [] => None
  | (k, v) :: rest => if String.eqb k name then Some v else assoc name rest
  end.

Definition candle_fields (c : candle) : list (string * cval) :=
  match c with NotACandle => [] | MappingCandle l | ObjectCandle l => l end.

(** [_has_field] *)
Definition has_field (c : candle) (name : string) : bool :=
  match assoc name (candle_fields c) with Some _ => true | None => false end.

(** [_field] *)
Definition field (c : candle) (name : string) : cval :=
  match assoc name (candle_fields c) with Some v => v | None => CVal PyNone end.

(** [_is_missing] *)
Definition is_missing (v : cval) : bool :=
  match v with
  | CVal PyNone => true
  | CVal (PyStr s) => String.eqb s "" || String.eqb s NA
  | _ => false
  end.

(** [_first_present_field] *)
Fixpoint first_present_field (c : candle) (names : list string) : cval :=
  match names with
  | [] => CVal PyNone
  | name :: rest =>
      let value := field c name in
      if is_missing value then first_present_field c rest else value
  end.

(** ** Numbers *)

(** [int(text)] of decimal digits with single underscores between them;
    [None] is [ValueError], also beyond CPython's limit of 4300 digits *)
Fixpoint int_digits (s : string) (acc : Z) (after_digit : bool) (count : nat) : option Z :=
  match s with
  | EmptyString => if after_digit && (count <=? 4300)%nat then Some acc else None
  | String c s' =>
      if is_digit c then int_digits s' (10 * acc + Z.of_N (digit_value c))%Z true (S count)
      else if Ascii.eqb c "_" && after_digit then int_digits s' acc false count
      else None
  end.

Definition py_int (text : string) : option Z :=
  let (neg, body) := read_sign (py_strip text) in
  option_map (fun v => if neg then (- v)%Z else v) (int_digits body 0 false 0).

Definition is_digits (s : string) : bool := negb (String.eqb s "") && string_forallb is_digit s.

(** [_parse_finite_decimal] *)
Definition parse_finite_decimal (value : cval) : option dec :=
  let finite (p : option pydec) := match p with Some (Finite d) => Some d | _ => None end in
  match value with
  | CVal (PyDec p) => finite (Some p)
  | CVal (PyInt z) => Some (dec_of_Z z)
  | CVal (PyFloat repr) => finite (parse_decimal repr)
  | CVal (PyStr s) =>
      let cleaned := py_strip s in
      if String.eqb cleaned "" || String.eqb (py_upper cleaned) NA then None
      else finite (parse_decimal cleaned)
  | _ => None
  end.

Definition int_digit_limit_error (digits : string) : exn :=
  ValueError ("Exceeds the limit (4300 digits) for integer string conversion: value has "
    +:+ string_of_N (N.of_nat (String.length digits))
    +:+ " digits; use sys.set_int_max_str_digits() to increase the limit").

(** [_parse_non_negative_int]: the limit on digits makes [int] raise
    [ValueError], which the code does not catch *)
Definition parse_non_negative_int (value : cval) : result (option Z) :=
  match value with
  | CVal (PyInt z) => Ok (if (0 <=? z)%Z then Some z else None)
  | CVal (PyStr s) =>
      let cleaned := py_strip s in
      if negb (is_digits cleaned) then Ok None
      else match py_int cleaned with
           | Some z => Ok (Some z)
           | None => Raise (int_digit_limit_error cleaned)
           end
  | _ => Ok None
  end.

(** ** Errors *)

Inductive CandleIntegrityReason : Type :=
| MISSING_OPEN_TIMESTAMP | INVALID_OPEN_TIMESTAMP | INVALID_CLOSE_TIMESTAMP | INVALID_TIMEFRAME
| DUPLICATE_TIMESTAMP | OUT_OF_ORDER | OVERLAPPING_INTERVAL | CONTINUITY_GAP
| INSUFFICIENT_CLOSED_HISTORY | INVALID_CANDLE | MISSING_PRICE | INVALID_PRICE
| INVALID_OHLC_GEOMETRY | MISSING_VOLUME | INVALID_VOLUME.

Definition integrity_reason_value (r : CandleIntegrityReason) : string :=
  match r with
  | MISSING_OPEN_TIMESTAMP => "missing_open_timestamp"
  | INVALID_OPEN_TIMESTAMP => "invalid_open_timestamp"
  | INVALID_CLOSE_TIMESTAMP => "invalid_close_timestamp"
  | INVALID_TIMEFRAME => "invalid_timeframe"
  | DUPLICATE_TIMESTAMP => "duplicate_timestamp"
  | OUT_OF_ORDER => "out_of_order"
  | OVERLAPPING_INTERVAL => "overlapping_interval"
  | CONTINUITY_GAP => "continuity_gap"
  | INSUFFICIENT_CLOSED_HISTORY => "insufficient_closed_history"
  | INVALID_CANDLE => "invalid_candle"
  | MISSING_PRICE => "missing_price"
  | INVALID_PRICE => "invalid_price"
  | INVALID_OHLC_GEOMETRY => "invalid_ohlc_geometry"
  | MISSING_VOLUME => "missing_volume"
  | INVALID_VOLUME => "invalid_volume"
  end.

Definition CandleIntegrityError (reason : CandleIntegrityReason) (message timeframe : string)
    (index : option nat) : exn :=
  let location := match index with
                  | Some i => " index=" +:+ string_of_N (N.of_nat i)
                  | None => "" end in
  IntegrityError (integrity_reason_value reason)
    ("candle_integrity:" +:+ integrity_reason_value reason +:+ " timeframe=" +:+ timeframe
       +:+ location +:+ ": " +:+ message).

(** ** Timeframes *)

(** [repr(text)] of ASCII text *)
Definition repr_char (quote c : ascii) : string :=
  let code := ascii_code c in
  let hex n := String (ascii_of_N (if (n <? 10)%N then 48 + n else 87 + n)%N) "" in
  if Ascii.eqb c "\" then "\\"
  else if Ascii.eqb c quote then String "\" (String c "")
  else if (code =? 10)%N then "\n"
  else if (code =? 13)%N then "\r"
  else if (code =? 9)%N then "\t"
  else if (code <? 32)%N || (126 <? code)%N then "\x" +:+ hex (code / 16)%N +:+ hex (code mod 16)%N
  else String c "".

Fixpoint repr_body (quote : ascii) (s : string) : string :=
  match s with
  | EmptyString => ""
  | String c s' => repr_char quote c +:+ repr_body quote s'
  end.

Definition single_quote : ascii := ascii_of_N 39.
Definition double_quote : ascii := ascii_of_N 34.

Definition py_repr (s : string) : string :=
  let quote := if char_in single_quote s && negb (char_in double_quote s)
               then double_quote else single_quote in
  String quote "" +:+ repr_body quote s +:+ String quote "".

(** [_UNIT_DURATION], in microseconds *)
Definition unit_duration (unit : ascii) : option Z :=
  if Ascii.eqb unit "m" then Some (60 * us_per_second)%Z
  else if Ascii.eqb unit "h" then Some (3600 * us_per_second)%Z
  else if Ascii.eqb unit "d" then Some us_per_day
  else if Ascii.eqb unit "w" then Some (7 * us_per_day)%Z
  else None.

(** The last character and what precedes it *)
Fixpoint split_last (s : string) : option (string * ascii) :=
  match s with
  | EmptyString => None
  | String c s' =>
      match split_last s' with
      | None => Some ("", c)
      | Some (init, last) => Some (String c init, last)
      end
  end.

(** [_TIMEFRAME_PATTERN.fullmatch]: the count's digits and the unit *)
Definition match_timeframe (s : string) : option (string * Z) :=
  match split_last s with
  | Some (String c rest as count, unit) =>
      if is_digit c && negb (Ascii.eqb c "0") && string_forallb is_digit rest
      then option_map (fun d => (count, d)) (unit_duration unit) else None
  | _ => None
  end.

(** [timedelta] holds at most 999999999 days *)
Definition max_timedelta_us : Z := 1000000000 * us_per_day.

(** the duration in microseconds *)
Definition timeframe_duration (timeframe : string) : result Z :=
  let normalized := py_lower (py_strip timeframe) in
  match match_timeframe normalized with
  | None =>
      Raise (CandleIntegrityError INVALID_TIMEFRAME
        ("unsupported fixed-duration timeframe " +:+ py_repr timeframe)
        (if String.eqb normalized "" then timeframe else normalized) None)
  | Some (count, unit) =>
      match py_int count with
      | None => Raise (int_digit_limit_error count)
      | Some n => if (n * unit <? max_timedelta_us)%Z then Ok (n * unit)%Z
                  else Raise (OverflowError "timedelta out of range")
      end
  end.

(** ** Timestamps *)

Definition normalize_int_timestamp (z : Z) (field_name : string) : result datetime :=
  match fromtimestamp_ms z with
  | Some t => Ok t
  | None => Raise (ValueError (field_name +:+ " is outside the supported UTC range"))
  end.

(** The integer a finite decimal equals, if any *)
Definition dec_integral (d : dec) : option Z :=
  let sign z := if d_neg d then (- z)%Z else z in
  if (0 <=? d_exp d)%Z then Some (sign (Z.of_N (d_coef d) * 10 ^ d_exp d)%Z)
  else
    let p := (10 ^ (- d_exp d))%Z in
    if (Z.of_N (d_coef d) mod p =? 0)%Z then Some (sign (Z.of_N (d_coef d) / p)%Z) else None.

Definition normalize_integral_timestamp (p : option pydec) (field_name : string) : result datetime :=
  match p with
  | Some (Finite d) =>
      match dec_integral d with
      | Some z => normalize_int_timestamp z field_name
      | None => Raise (ValueError (field_name +:+ " must be an integral epoch-millisecond value"))
      end
  | _ => Raise (ValueError (field_name +:+ " must be an integral epoch-millisecond value"))
  end.

(** the [datetime] branch *)
Definition normalize_datetime (t : datetime) : result datetime :=
  match dt_offset t with
  | None => Ok (as_utc t)
  | Some _ => astimezone_utc t
  end.

Definition normalize_utc_timestamp (value : cval) (field_name : string) : result datetime :=
  match value with
  | CDatetime t => normalize_datetime t
  | CVal (PyInt z) => normalize_int_timestamp z field_name
  | CVal (PyFloat repr) => normalize_integral_timestamp (parse_decimal repr) field_name
  | CVal (PyDec p) => normalize_integral_timestamp (Some p) field_name
  | CVal (PyStr s) =>
      let cleaned := py_strip s in
      if String.eqb cleaned "" || String.eqb cleaned NA
      then Raise (ValueError (field_name +:+ " is missing")) else
      match py_int cleaned with
      | Some z => normalize_int_timestamp z field_name
      | None =>
          match fromisoformat (py_replace "Z" "+00:00" cleaned) with
          | None => Raise (ValueError (field_name +:+ " is not a valid UTC timestamp"))
          | Some parsed => normalize_datetime parsed
          end
      end
  | CVal PyNone | CVal (PyBool _) | COther _ _ =>
      Raise (ValueError (field_name +:+ " must be an epoch-millisecond or datetime value"))
  end.

(** ** Candle values *)

Record ValidatedCandleValues := {
  vv_open : dec; vv_high : dec; vv_low : dec; vv_close : dec;
  vv_volume : option dec; vv_quote_volume : option dec; vv_turnover : option dec;
  vv_trade_count : option Z
}.

(** [value is None or (isinstance(value, str) and value.strip() == NA)] *)
Definition none_or_na (v : cval) : bool :=
  match v with
  | CVal PyNone => true
  | CVal (PyStr s) => String.eqb (py_strip s) NA
  | _ => false
  end.

(** [isinstance(value, str) and not value.strip()] *)
Definition blank_text (v : cval) : bool :=
  match v with CVal (PyStr s) => String.eqb (py_strip s) "" | _ => false end.

(** one iteration of the price loop *)
Definition candle_price (c : candle) (name timeframe : string) (index : option nat) : result dec :=
  let missing := Raise (CandleIntegrityError MISSING_PRICE
    ("candle is missing required price field '" +:+ name +:+ "'") timeframe index) in
  if negb (has_field c name) then missing else
  let raw := field c name in
  if is_missing raw || blank_text raw then missing else
  match parse_finite_decimal raw with
  | Some price =>
      if dleb price dzero
      then Raise (CandleIntegrityError INVALID_PRICE
        ("candle price field '" +:+ name +:+ "' must be a finite positive number") timeframe index)
      else Ok price
  | None => Raise (CandleIntegrityError INVALID_PRICE
      ("candle price field '" +:+ name +:+ "' must be a finite positive number") timeframe index)
  end.

(** a supplied volume: finite and not negative *)
Definition supplied_volume (raw : cval) (blank invalid timeframe : string) (index : option nat)
    : result (option dec) :=
  if blank_text raw then Raise (CandleIntegrityError INVALID_VOLUME blank timeframe index) else
  match parse_finite_decimal raw with
  | Some volume =>
      if dltb volume dzero then Raise (CandleIntegrityError INVALID_VOLUME invalid timeframe index)
      else Ok (Some volume)
  | None => Raise (CandleIntegrityError INVALID_VOLUME invalid timeframe index)
  end.

Definition candle_volume (c : candle) (require_volume : bool) (timeframe : string) (index : option nat)
    : result (option dec) :=
  let raw := field c "volume" in
  if negb (has_field c "volume") || none_or_na raw then
    if require_volume
    then Raise (CandleIntegrityError MISSING_VOLUME "candle is missing required volume field 'volume'"
                  timeframe index)
    else Ok None
  else supplied_volume raw "candle field 'volume' is blank"
         "candle field 'volume' must be a finite non-negative number" timeframe index.

(** one iteration of the [quote_volume]/[turnover] loop *)
Definition candle_optional_volume (c : candle) (name timeframe : string) (index : option nat)
    : result (option dec) :=
  let raw := field c name in
  if negb (has_field c name) || none_or_na raw then Ok None
  else supplied_volume raw ("candle optional field '" +:+ name +:+ "' is blank")
         ("candle optional field '" +:+ name +:+ "' must be a finite non-negative number")
         timeframe index.

Definition candle_trade_count (c : candle) (timeframe : string) (index : option nat)
    : result (option Z) :=
  let raw := field c "trade_count" in
  if negb (has_field c "trade_count") || none_or_na raw then Ok None else
  let! parsed := parse_non_negative_int raw in
  match parsed with
  | Some n => Ok (Some n)
  | None => Raise (CandleIntegrityError INVALID_VOLUME
      "candle optional field 'trade_count' must be a non-negative integer" timeframe index)
  end.

(** [low > high or not (low <= open <= high) or not (low <= close <= high)] *)
Definition bad_geometry (open high low close : dec) : bool :=
  dltb high low || negb (dleb low open && dleb open high)
  || negb (dleb low close && dleb close high).

Definition exposes_ohlc (c : candle) : bool :=
  existsb (has_field c) ["open"; "high"; "low"; "close"].

(** [str(timeframe or _field(candle, "interval") or "unknown").strip().lower() or "unknown"] *)
Definition values_timeframe (c : candle) (timeframe : option string) : string :=
  let text := match timeframe with
              | Some (String _ _ as t) => t
              | _ => let interval := field c "interval" in
                     if cval_truthy interval then cval_text interval else "unknown"
              end in
  let normalized := py_lower (py_strip text) in
  if String.eqb normalized "" then "unknown" else normalized.

Definition validate_candle_values (c : candle) (index : option nat) (timeframe : option string)
    (require_volume : bool) : result ValidatedCandleValues :=
  let normalized := values_timeframe c timeframe in
  match c with
  | NotACandle => Raise (CandleIntegrityError INVALID_CANDLE
      "candle must be a mapping or candle object" normalized index)
  | _ =>
  if match c with MappingCandle _ => false | _ => negb (exposes_ohlc c) end
  then Raise (CandleIntegrityError INVALID_CANDLE "candle does not expose OHLC fields" normalized index)
  else
  let! open := candle_price c "open" normalized index in
  let! high := candle_price c "high" normalized index in
  let! low := candle_price c "low" normalized index in
  let! close := candle_price c "close" normalized index in
  if bad_geometry open high low close
  then Raise (CandleIntegrityError INVALID_OHLC_GEOMETRY
    ("candle OHLC geometry violates low <= open, close <= high (open=" +:+ dec_to_string open
       +:+ ", high=" +:+ dec_to_string high +:+ ", low=" +:+ dec_to_string low
       +:+ ", close=" +:+ dec_to_string close +:+ ")") normalized index)
  else
  let! volume := candle_volume c require_volume normalized index in
  let! quote_volume := candle_optional_volume c "quote_volume" normalized index in
  let! turnover := candle_optional_volume c "turnover" normalized index in
  let! trade_count := candle_trade_count c normalized index in
  Ok {| vv_open := open; vv_high := high; vv_low := low; vv_close := close; vv_volume := volume;
        vv_quote_volume := quote_volume; vv_turnover := turnover; vv_trade_count := trade_count |}
  end.

(** ** Sequences *)

Record CausalCandle := mkCausalCandle {
  cc_source : candle;
  cc_open_timestamp : datetime;
  cc_close_timestamp : datetime;
  cc_index : option nat
}.

Record ClosedCandleWindow := {
  cw_candles : list candle;
  cw_timeline : list CausalCandle;
  cw_decision_timestamp : datetime;
  cw_excluded_unclosed_count : nat
}.

(** [except ValueError as exc: raise CandleIntegrityError(reason, str(exc))] *)
Definition as_integrity_error {A} (reason : CandleIntegrityReason) (timeframe : string)
    (index : nat) (r : result A) : result A :=
  match r with
  | Ok a => Ok a
  | Raise e => match value_error_text e with
               | Some msg => Raise (CandleIntegrityError reason msg timeframe (Some index))
               | None => Raise e
               end
  end.

Definition one_millisecond_us : Z := 1000.

(** the close timestamp of one candle *)
Definition candle_close (c : candle) (derived_close : datetime) (timeframe : string) (index : nat)
    : result datetime :=
  let raw_close := first_present_field c ["close_timestamp"; "closed_at"] in
  if is_missing raw_close then Ok derived_close else
  let! close := as_integrity_error INVALID_CLOSE_TIMESTAMP timeframe index
                  (normalize_utc_timestamp raw_close "close_timestamp") in
  let! earliest := add_us derived_close (- one_millisecond_us) in
  if (instant close <? instant earliest)%Z || (instant derived_close <? instant close)%Z
  then Raise (CandleIntegrityError INVALID_CLOSE_TIMESTAMP
    "explicit close timestamp does not match the deterministic timeframe boundary" timeframe (Some index))
  else Ok close.

(** the checks against the previous candle's open *)
Definition check_successor (open : datetime) (previous_open : option datetime) (duration : Z)
    (require_continuity : bool) (timeframe : string) (index : nat) : result unit :=
  match previous_open with
  | None => Ok tt
  | Some previous =>
      if (instant open =? instant previous)%Z
      then Raise (CandleIntegrityError DUPLICATE_TIMESTAMP
        ("duplicate candle open at " +:+ isoformat open) timeframe (Some index))
      else if (instant open <? instant previous)%Z
      then Raise (CandleIntegrityError OUT_OF_ORDER
        ("candle open " +:+ isoformat open +:+ " precedes the prior open " +:+ isoformat previous)
        timeframe (Some index))
      else
      let! expected := add_us previous duration in
      if (instant open <? instant expected)%Z
      then Raise (CandleIntegrityError OVERLAPPING_INTERVAL
        ("candle open " +:+ isoformat open +:+ " overlaps prior interval closing at "
           +:+ isoformat expected) timeframe (Some index))
      else if require_continuity && negb (instant open =? instant expected)%Z
      then Raise (CandleIntegrityError CONTINUITY_GAP
        ("expected open " +:+ isoformat expected +:+ ", received " +:+ isoformat open)
        timeframe (Some index))
      else Ok tt
  end.

(** one iteration of the loop of [validate_candle_sequence] *)
Definition validate_one (c : candle) (previous_open : option datetime) (duration : Z)
    (timeframe : string) (require_continuity require_volume validate_values : bool) (index : nat)
    : result CausalCandle :=
  match c with
  | NotACandle => Raise (CandleIntegrityError INVALID_CANDLE
      "candle must be a mapping or candle object" timeframe (Some index))
  | _ =>
  let raw_open := first_present_field c ["timestamp"; "open_timestamp"; "opened_at"] in
  if is_missing raw_open
  then Raise (CandleIntegrityError MISSING_OPEN_TIMESTAMP "candle has no explicit open timestamp"
                timeframe (Some index))
  else
  let! open := as_integrity_error INVALID_OPEN_TIMESTAMP timeframe index
                 (normalize_utc_timestamp raw_open "open_timestamp") in
  match add_us open duration with
  | Raise _ => Raise (CandleIntegrityError INVALID_OPEN_TIMESTAMP
      "candle close boundary overflows supported UTC range" timeframe (Some index))
  | Ok derived_close =>
      let! close := candle_close c derived_close timeframe index in
      let! _ := check_successor open previous_open duration require_continuity timeframe index in
      let! _ := if validate_values
                then map_result (fun _ => tt)
                       (validate_candle_values c (Some index) (Some timeframe) require_volume)
                else Ok tt in
      Ok (mkCausalCandle c open close (Some index))
  end
  end.

Fixpoint validate_from (candles : list candle) (previous_open : option datetime) (duration : Z)
    (timeframe : string) (require_continuity require_volume validate_values : bool) (index : nat)
    : result (list CausalCandle) :=
  match candles with
  | [] => Ok []
  | c :: rest =>
      let! causal := validate_one c previous_open duration timeframe require_continuity
                       require_volume validate_values index in
      let! timeline := validate_from rest (Some (cc_open_timestamp causal)) duration timeframe
                         require_continuity require_volume validate_values (S index) in
      Ok (causal :: timeline)
  end.

Definition validate_candle_sequence (candles : list candle) (timeframe : string)
    (require_continuity require_volume validate_values : bool) : result (list CausalCandle) :=
  let normalized := py_lower (py_strip timeframe) in
  let! duration := timeframe_duration normalized in
  validate_from candles None duration normalized require_continuity require_volume validate_values 0.

(** the loop that validates the values of the eligible candles *)
Fixpoint validate_eligible (items : list CausalCandle) (timeframe : string) (require_volume : bool)
    : result unit :=
  match items with
  | [] => Ok tt
  | item :: rest =>
      let! _ := validate_candle_values (cc_source item) (cc_index item) (Some timeframe) require_volume in
      validate_eligible rest timeframe require_volume
  end.

Definition closed_by (decision : datetime) (item : CausalCandle) : bool :=
  (instant (cc_close_timestamp item) <=? instant decision)%Z.

Definition closed_candles_as_of (candles : list candle) (timeframe : string) (decision : cval)
    (minimum_closed_history : Z) (require_continuity require_volume validate_values : bool)
    : result ClosedCandleWindow :=
  if (minimum_closed_history <? 0)%Z
  then Raise (ValueError "minimum_closed_history must be zero or greater") else
  let normalized := py_lower (py_strip timeframe) in
  let! decision_utc := normalize_utc_timestamp decision "decision_timestamp" in
  let! timeline := validate_candle_sequence candles normalized require_continuity require_volume false in
  let eligible := List.filter (closed_by decision_utc) timeline in
  let! _ := if validate_values then validate_eligible eligible normalized require_volume else Ok tt in
  if (Z.of_nat (length eligible) <? minimum_closed_history)%Z
  then Raise (CandleIntegrityError INSUFFICIENT_CLOSED_HISTORY
    ("received " +:+ string_of_N (N.of_nat (length timeline)) +:+ " candles but only "
       +:+ string_of_N (N.of_nat (length eligible)) +:+ " were closed by " +:+ isoformat decision_utc
       +:+ "; required at least " +:+ string_of_Z minimum_closed_history) normalized None)
  else Ok {| cw_candles := map cc_source eligible; cw_timeline := eligible;
             cw_decision_timestamp := decision_utc;
             cw_excluded_unclosed_count := length timeline - length eligible |}.
