(* ===== verification/ShadowDiagnostics.v ===== *)
(** * Shadow diagnostics of candles (src/app/data/candle_integrity.py)

    Observational flags on candles that pass validation, with bounded samples
    and a bounded recording list; and the optional-metadata checks of the same
    module. *)

From stdpp Require Import base tactics list strings.
From Stdlib Require Import ZArith NArith Lia Bool Ascii.
From S2P Require Import Prelude PyString PyDecimal DecimalFacts PyTime PyJson LifecycleModels CandleIntegrity.
Open Scope string_scope.
Open Scope py_scope.

Definition SHADOW_RULE_VERSION : string := "candle-integrity-shadow-v1".
Definition MAX_SHADOW_SAMPLE_INDICES : nat := 10.
Definition MAX_RECORDED_SHADOW_DIAGNOSTICS : nat := 256.

Record CandleShadowDiagnostic := {
  sd_rule_version : string; sd_consumer : string; sd_source : string; sd_timeframe : string;
  sd_observation_kind : string; sd_sample_count : nat; sd_old_decision : string;
  sd_new_decision : string; sd_would_flag_under_strict_shadow : bool; sd_disagreement_count : nat;
  sd_reason_counts : list (string * nat); sd_sampled_indices : list (string * list nat);
  sd_promotion_evidence_required : list string; sd_total_flag_count : nat
}.

(** The dictionaries and the set the loop fills *)
Record shadow_state := mkShadow {
  sh_counts : list (string * nat);
  sh_samples : list (string * list nat);
  sh_disagreeing : list nat;
  sh_rejected : nat
}.
#[export] Instance shadow_state_eta : RecordEta shadow_state :=
  fun r => mkShadow (sh_counts r) (sh_samples r) (sh_disagreeing r) (sh_rejected r).

Definition set_add (n : nat) (l : list nat) : list nat :=
  if existsb (Nat.eqb n) l then l else n :: l.

(** [_record] *)
Definition record_flag (reason : string) (index : nat) (s : shadow_state) : shadow_state :=
  s <| sh_counts := dict_update reason 0%nat S (sh_counts s) |>
    <| sh_disagreeing := set_add index (sh_disagreeing s) |>
    <| sh_samples := dict_update reason []
         (fun bucket => if (length bucket <? MAX_SHADOW_SAMPLE_INDICES)%nat
                        then (bucket ++ [index])%list else bucket) (sh_samples s) |>.

(** the zero-volume rules *)
Definition zero_volume_flag (v : ValidatedCandleValues) : option string :=
  match vv_volume v with
  | Some volume =>
      if deqb volume dzero then
        Some (if deqb (vv_open v) (vv_high v) && deqb (vv_high v) (vv_low v)
                 && deqb (vv_low v) (vv_close v)
              then "flat_zero_volume_bar" else "positive_range_zero_volume_bar")
      else None
  | None => None
  end.

(** the first quote volume that contradicts the base volume *)
Fixpoint quote_volume_flag (volume : option dec) (quotes : list (option dec)) : option string :=
  match quotes with
  | [] => None
  | quote :: rest =>
      match volume, quote with
      | Some v, Some q =>
          if deqb v dzero && dltb dzero q then Some "quote_volume_positive_on_zero_base_volume"
          else if dltb dzero v && deqb q dzero then Some "quote_volume_zero_on_positive_base_volume"
          else quote_volume_flag volume rest
      | _, _ => quote_volume_flag volume rest
      end
  end.

Definition extreme_range (v : ValidatedCandleValues) : result bool :=
  if dltb dzero (vv_low v) then
    let! ratio := ddiv (dsub (vv_high v) (vv_low v)) (vv_low v) in
    Ok (dltb (dec_of_Z 10) ratio)
  else Ok false.

(** [except (ValueError, OverflowError): pass] *)
Definition caught {A} (r : result A) : result (option A) :=
  match r with
  | Ok a => Ok (Some a)
  | Raise (OverflowError _) => Ok None
  | Raise e => match value_error_text e with Some _ => Ok None | None => Raise e end
  end.

(** the timestamp rules: the open must be anchored, the close on schedule *)
Definition timestamp_flags (c : candle) (duration_ms : Z) : result (list string) :=
  if (duration_ms <=? 0)%Z then Ok [] else
  let raw_open := first_present_field c ["timestamp"; "open_timestamp"; "opened_at"] in
  if is_missing raw_open then Ok [] else
  let! open := caught (normalize_utc_timestamp raw_open "open_timestamp") in
  match open with
  | None => Ok []
  | Some open =>
      let unanchored := if negb (epoch_milliseconds open mod duration_ms =? 0)%Z
                        then ["unanchored_open_timestamp"] else [] in
      let raw_close := first_present_field c ["close_timestamp"; "closed_at"] in
      if is_missing raw_close then Ok unanchored else
      let! late := caught (let! close := normalize_utc_timestamp raw_close "close_timestamp" in
                           let! scheduled := add_us open (duration_ms * 1000) in
                           Ok (instant scheduled <? instant close)%Z) in
      Ok (unanchored ++ (if match late with Some true => true | _ => false end
                         then ["close_timestamp_exceeds_scheduled_close"] else []))%list
  end.

Definition optional_flag (f : option string) : list string :=
  match f with Some r => [r] | None => [] end.

(** the flags of one valid candle, in order *)
Definition candle_flags (c : candle) (v : ValidatedCandleValues) (duration_ms : Z)
    : result (list string) :=
  let! extreme := extreme_range v in
  let! times := timestamp_flags c duration_ms in
  Ok (optional_flag (zero_volume_flag v)
        ++ optional_flag (quote_volume_flag (vv_volume v) [vv_quote_volume v; vv_turnover v])
        ++ (if extreme then ["extreme_range_to_low_ratio"] else []) ++ times)%list.

(** one iteration of the loop *)
Definition shadow_step (timeframe : string) (duration_ms : Z) (index : nat) (c : candle)
    (s : shadow_state) : result shadow_state :=
  match validate_candle_values c (Some index) (Some timeframe) false with
  | Raise (IntegrityError _ _) => Ok (s <| sh_rejected := S (sh_rejected s) |>)
  | Raise e => Raise e
  | Ok values =>
      let! flags := candle_flags c values duration_ms in
      Ok (fold_left (fun s reason => record_flag reason index s) flags s)
  end.

Fixpoint shadow_loop (timeframe : string) (duration_ms : Z) (index : nat) (candles : list candle)
    (s : shadow_state) : result shadow_state :=
  match candles with
  | [] => Ok s
  | c :: rest =>
      let! s := shadow_step timeframe duration_ms index c s in
      shadow_loop timeframe duration_ms (S index) rest s
  end.

Definition shadow_duration_ms (timeframe : string) : result Z :=
  match timeframe_duration timeframe with
  | Ok d => Ok (d / 1000)%Z
  | Raise (IntegrityError _ _) => Ok 0%Z
  | Raise e => Raise e
  end.

Definition PROMOTION_EVIDENCE : list string :=
  ["Cross-venue Binance USD-M and Bybit Linear empirical frequency audit over >=30 days";
   "Zero false-rejection proof on legitimate low-liquidity closed intervals";
   "Explicit Astra review approval before promoting any shadow rule to a hard gate"].

(** [_RECORDED_SHADOW_DIAGNOSTICS]: append, dropping the oldest when full *)
Definition record_diagnostic (recorded : list CandleShadowDiagnostic) (d : CandleShadowDiagnostic)
    : list CandleShadowDiagnostic :=
  let kept := if (MAX_RECORDED_SHADOW_DIAGNOSTICS <=? length recorded)%nat
              then tl recorded else recorded in
  (kept ++ [d])%list.

Definition shadow_diagnostic (timeframe consumer source : string) (synthetic_fixture : bool)
    (sample_count : nat) (s : shadow_state) : CandleShadowDiagnostic :=
  let disagreements := length (sh_disagreeing s) in
  {| sd_rule_version := SHADOW_RULE_VERSION; sd_consumer := consumer; sd_source := source;
     sd_timeframe := timeframe;
     sd_observation_kind := if synthetic_fixture then "synthetic_fixture" else "exchange_observation";
     sd_sample_count := sample_count;
     sd_old_decision := if (0 <? sh_rejected s)%nat then "reject" else "pass";
     sd_new_decision := if (0 <? sh_rejected s)%nat then "reject"
                        else if (0 <? disagreements)%nat then "shadow_flag" else "pass";
     sd_would_flag_under_strict_shadow := (0 <? disagreements)%nat;
     sd_disagreement_count := disagreements;
     sd_reason_counts := sorted_items (sh_counts s);
     sd_sampled_indices := sorted_items (sh_samples s);
     sd_promotion_evidence_required := PROMOTION_EVIDENCE;
     sd_total_flag_count := list_sum (map snd (sh_counts s)) |}.

(** the diagnostic and the recording list after the call *)
Definition evaluate_candle_shadow_diagnostics (recorded : list CandleShadowDiagnostic)
    (candles : list candle) (timeframe consumer source : string) (synthetic_fixture record : bool)
    : result (CandleShadowDiagnostic * list CandleShadowDiagnostic) :=
  let stripped := py_lower (py_strip timeframe) in
  let normalized := if String.eqb stripped "" then "unknown" else stripped in
  let! duration_ms := shadow_duration_ms normalized in
  let! s := shadow_loop normalized duration_ms 0 candles (mkShadow [] [] [] 0) in
  let d := shadow_diagnostic normalized consumer source synthetic_fixture (length candles) s in
  Ok (d, if record then record_diagnostic recorded d else recorded).

(** ** Optional metadata *)

(** epoch milliseconds, or [None] for NA *)
Definition normalize_optional_timestamp_ms (value : cval) (field_name : string) : result (option Z) :=
  if is_missing value then Ok None else
  let! t := normalize_utc_timestamp value field_name in
  Ok (Some (epoch_milliseconds t)).

Definition metadata_volume (c : candle) (path name : string) : result unit :=
  let raw := field c name in
  if negb (has_field c name) || none_or_na raw then Ok tt
  else if blank_text raw
  then Raise (ValueError ("Malformed candle " +:+ path +:+ "." +:+ name +:+ ": value is blank."))
  else match parse_finite_decimal raw with
       | Some q =>
           if dltb q dzero
           then Raise (ValueError ("Malformed candle " +:+ path +:+ "." +:+ name
                                     +:+ ": must be a finite non-negative decimal."))
           else Ok tt
       | None => Raise (ValueError ("Malformed candle " +:+ path +:+ "." +:+ name
                                      +:+ ": must be a finite non-negative decimal."))
       end.

Definition metadata_trade_count (c : candle) (path : string) : result unit :=
  let raw := field c "trade_count" in
  if negb (has_field c "trade_count") || none_or_na raw then Ok tt else
  let! parsed := parse_non_negative_int raw in
  match parsed with
  | Some _ => Ok tt
  | None => Raise (ValueError ("Malformed candle " +:+ path
                                 +:+ ".trade_count: must be a non-negative integer."))
  end.

Definition metadata_close (c : candle) (path name : string) : result unit :=
  let raw := field c name in
  if negb (has_field c name) || is_missing raw then Ok tt
  else map_result (fun _ => tt) (normalize_utc_timestamp raw (path +:+ "." +:+ name)).

Definition validate_optional_candle_metadata (c : candle) (path : string) : result unit :=
  let! _ := metadata_volume c path "quote_volume" in
  let! _ := metadata_volume c path "turnover" in
  let! _ := metadata_trade_count c path in
  let! _ := metadata_close c path "close_timestamp" in
  metadata_close c path "closed_at".
