(* ===== verification/JsonText.v ===== *)
(** * JSON text: [json.dumps] and [json.loads]

    [dumps] is [json.dumps(value, sort_keys=True, separators=(",", ":"))] and
    [loads] is [json.loads].  Text holds code points below 256; an escape for a
    larger code point reads as malformed.  A float is its literal.  The message
    of a [JSONDecodeError] is the library's: it is the class [JsonErrors], a
    parameter of everything that can show it.

    The scanner's fuel is the length of the text: every recursive call consumes
    a character, and [loads_dumps] shows that this is enough to read back
    whatever [dumps] writes. *)

From stdpp Require Import base tactics list strings.
From Stdlib Require Import ZArith NArith Lia Bool Ascii.
From S2P Require Import Prelude PyString PyDecimal PyTime PyJson LifecycleModels CandleIntegrity.
Open Scope string_scope.
Open Scope py_scope.

(** [str(exc)] of the [JSONDecodeError] that [json.loads(text)] raises *)
Class JsonErrors := json_error_text : string -> string.

(** ** Writing *)

Definition backslash : ascii := "\"%char.

Definition hex_char (n : N) : ascii := ascii_of_N (if (n <? 10)%N then 48 + n else 87 + n)%N.

Definition escape_char (c : ascii) : string :=
  let code := ascii_code c in
  let short (e : ascii) := String backslash (String e "") in
  if (code =? 34)%N then short c
  else if (code =? 92)%N then short c
  else if (code =? 10)%N then short "n"%char
  else if (code =? 13)%N then short "r"%char
  else if (code =? 9)%N then short "t"%char
  else if (code =? 8)%N then short "b"%char
  else if (code =? 12)%N then short "f"%char
  else if (code <? 32)%N || (126 <? code)%N
  then String backslash ("u00" +:+ String (hex_char (code / 16)) (String (hex_char (code mod 16)) ""))
  else String c "".

Fixpoint escape (s : string) : string :=
  match s with
  | EmptyString => ""
  | String c s' => escape_char c +:+ escape s'
  end.

Definition dumps_string (s : string) : string :=
  String double_quote (escape s +:+ String double_quote "").

Fixpoint dumps (v : json) : string :=
  match v with
  | JNull => "null"
  | JBool true => "true"
  | JBool false => "false"
  | JInt z => string_of_Z z
  | JFloat literal => literal
  | JStr s => dumps_string s
  | JArr l => "[" +:+ py_join "," (map dumps l) +:+ "]"
  | JObj fields =>
      "{" +:+ py_join "," (map snd (sorted_items
        (map (fun '(k, w) => (k, dumps_string k +:+ ":" +:+ dumps w)) fields))) +:+ "}"
  end.

(** ** Reading *)

Definition is_ws (c : ascii) : bool :=
  let code := ascii_code c in ((code =? 32) || (code =? 9) || (code =? 10) || (code =? 13))%N.

Fixpoint skip_ws (s : string) : string :=
  match s with
  | String c s' => if is_ws c then skip_ws s' else s
  | EmptyString => s
  end.

Definition hex_value (c : ascii) : option N :=
  if is_digit c then Some (digit_value c)
  else if code_between 97 102 c then Some (ascii_code c - 87)%N
  else if code_between 65 70 c then Some (ascii_code c - 55)%N
  else None.

(** the four digits of an escape, with the rest of the text *)
Definition read_hex4 (s : string) : option (N * string) :=
  match s with
  | String a (String b (String c (String d rest))) =>
      match hex_value a, hex_value b, hex_value c, hex_value d with
      | Some x, Some y, Some z, Some w => Some (4096 * x + 256 * y + 16 * z + w, rest)%N
      | _, _, _, _ => None
      end
  | _ => None
  end.

Definition unescape (c : ascii) : option ascii :=
  if Ascii.eqb c double_quote then Some double_quote
  else if Ascii.eqb c backslash then Some backslash
  else if Ascii.eqb c "/" then Some "/"%char
  else if Ascii.eqb c "n" then Some (ascii_of_N 10)
  else if Ascii.eqb c "r" then Some (ascii_of_N 13)
  else if Ascii.eqb c "t" then Some (ascii_of_N 9)
  else if Ascii.eqb c "b" then Some (ascii_of_N 8)
  else if Ascii.eqb c "f" then Some (ascii_of_N 12)
  else None.

(** the body of a string, after its opening quote *)
Fixpoint scan_string (fuel : nat) (s : string) : option (string * string) :=
  match fuel with
  | O => None
  | S k =>
      match s with
      | EmptyString => None
      | String c rest =>
          if Ascii.eqb c double_quote then Some ("", rest)
          else if (ascii_code c <? 32)%N then None
          else
          let found :=
            if Ascii.eqb c backslash then
              match rest with
              | EmptyString => None
              | String e rest' =>
                  if Ascii.eqb e "u" then
                    match read_hex4 rest' with
                    | Some (code, rest'') =>
                        if (code <? 256)%N then Some (ascii_of_N code, rest'') else None
                    | None => None
                    end
                  else match unescape e with Some x => Some (x, rest') | None => None end
              end
            else Some (c, rest) in
          match found with
          | None => None
          | Some (x, rest') =>
              match scan_string k rest' with
              | Some (body, tail) => Some (String x body, tail)
              | None => None
              end
          end
      end
  end.

(** the longest prefix of digits *)
Fixpoint span_digits (s : string) : string * string :=
  match s with
  | String c s' => if is_digit c then let (a, b) := span_digits s' in (String c a, b) else ("", s)
  | EmptyString => ("", "")
  end.

(** an optional minus, [0] or digits without a leading zero, an optional fraction
    and an optional exponent, each with at least one digit *)
Definition scan_number (s : string) : option (result json * string) :=
  let (sign, body) := match s with
                      | String c s' => if Ascii.eqb c "-" then ("-", s') else ("", s)
                      | EmptyString => ("", s)
                      end in
  let (digits, after) := match body with
                         | String c s' => if Ascii.eqb c "0" then ("0", s') else span_digits body
                         | EmptyString => ("", "")
                         end in
  if String.eqb digits "" then None else
  let (fraction, after) := match after with
                           | String c s' =>
                               if Ascii.eqb c "." then
                                 let (ds, tail) := span_digits s' in
                                 if String.eqb ds "" then ("", after) else ("." +:+ ds, tail)
                               else ("", after)
                           | EmptyString => ("", "")
                           end in
  let (power, after) := match after with
                        | String c s' =>
                            if Ascii.eqb c "e" || Ascii.eqb c "E" then
                              let (sg, t) := match s' with
                                             | String g t => if Ascii.eqb g "-" || Ascii.eqb g "+"
                                                             then (String g "", t) else ("", s')
                                             | EmptyString => ("", "")
                                             end in
                              let (ds, tail) := span_digits t in
                              if String.eqb ds "" then ("", after) else (String c (sg +:+ ds), tail)
                            else ("", after)
                        | EmptyString => ("", "")
                        end in
  let text := sign +:+ digits in
  if String.eqb fraction "" && String.eqb power "" then
    Some (match py_int text with
          | Some z => Ok (JInt z)
          | None => Raise (int_digit_limit_error digits)
          end, after)
  else Some (Ok (JFloat (text +:+ fraction +:+ power)), after).

Definition drop_prefix (prefix s : string) : option string :=
  if is_prefix prefix s then Some (drop_string (String.length prefix) s) else None.

Definition scan_literal (s : string) : option (json * string) :=
  let try p v k := match drop_prefix p s with Some rest => Some (v, rest) | None => k end in
  try "null" JNull (try "true" (JBool true) (try "false" (JBool false)
    (try "NaN" (JFloat "nan") (try "Infinity" (JFloat "inf") (try "-Infinity" (JFloat "-inf") None))))).

Section Scan.
Context (malformed : exn).

(** [scan_once]: the value at the head of the text and the text after it *)
Fixpoint scan_value (fuel : nat) (s : string) : result (json * string) :=
  match fuel with
  | O => Raise malformed
  | S k =>
      match s with
      | EmptyString => Raise malformed
      | String c rest =>
          if Ascii.eqb c double_quote then
            match scan_string (String.length s) rest with
            | Some (text, tail) => Ok (JStr text, tail)
            | None => Raise malformed
            end
          else if Ascii.eqb c "{" then
            match skip_ws rest with
            | String d tail => if Ascii.eqb d "}" then Ok (JObj [], tail)
                               else let! (fields, tail) := scan_members k (String d tail) in
                                    Ok (JObj (dict_merge [] fields), tail)
            | EmptyString => Raise malformed
            end
          else if Ascii.eqb c "[" then
            match skip_ws rest with
            | String d tail => if Ascii.eqb d "]" then Ok (JArr [], tail)
                               else let! (items, tail) := scan_elements k (String d tail) in
                                    Ok (JArr items, tail)
            | EmptyString => Raise malformed
            end
          else
            match scan_literal s with
            | Some (v, tail) => Ok (v, tail)
            | None => match scan_number s with
                      | Some (v, tail) => let! v := v in Ok (v, tail)
                      | None => Raise malformed
                      end
            end
      end
  end
with scan_members (fuel : nat) (s : string) : result (list (string * json) * string) :=
  match fuel with
  | O => Raise malformed
  | S k =>
      match s with
      | String c rest =>
          if negb (Ascii.eqb c double_quote) then Raise malformed else
          match scan_string (String.length s) rest with
          | None => Raise malformed
          | Some (key, tail) =>
              match skip_ws tail with
              | String d tail =>
                  if negb (Ascii.eqb d ":") then Raise malformed else
                  let! (v, tail) := scan_value k (skip_ws tail) in
                  match skip_ws tail with
                  | String e tail =>
                      if Ascii.eqb e "}" then Ok ([(key, v)], tail)
                      else if Ascii.eqb e "," then
                        let! (others, tail) := scan_members k (skip_ws tail) in
                        Ok ((key, v) :: others, tail)
                      else Raise malformed
                  | EmptyString => Raise malformed
                  end
              | EmptyString => Raise malformed
              end
          end
      | EmptyString => Raise malformed
      end
  end
with scan_elements (fuel : nat) (s : string) : result (list json * string) :=
  match fuel with
  | O => Raise malformed
  | S k =>
      let! (v, tail) := scan_value k s in
      match skip_ws tail with
      | String e tail =>
          if Ascii.eqb e "]" then Ok ([v], tail)
          else if Ascii.eqb e "," then
            let! (others, tail) := scan_elements k (skip_ws tail) in
            Ok (v :: others, tail)
          else Raise malformed
      | EmptyString => Raise malformed
      end
  end.
End Scan.

Definition loads `{JsonErrors} (s : string) : result json :=
  let malformed := JSONDecodeError (json_error_text s) in
  let! (v, tail) := scan_value malformed (S (String.length s)) (skip_ws s) in
  if String.eqb (skip_ws tail) "" then Ok v else Raise malformed.

(** ** Python values of JSON *)

(** [repr(value)] *)
Fixpoint json_repr (v : json) : string :=
  match v with
  | JNull => "None"
  | JBool b => if b then "True" else "False"
  | JInt z => string_of_Z z
  | JFloat literal => literal
  | JStr s => py_repr s
  | JArr l => "[" +:+ py_join ", " (map json_repr l) +:+ "]"
  | JObj fields => "{" +:+ py_join ", " (map (fun '(k, w) => py_repr k +:+ ": " +:+ json_repr w) fields) +:+ "}"
  end.

(** [str(value)] *)
Definition json_str (v : json) : string := match v with JStr s => s | _ => json_repr v end.

(** the value as an argument of the candle helpers *)
Definition cval_of_json (v : json) : cval :=
  match v with
  | JNull => CVal PyNone
  | JBool b => CVal (PyBool b)
  | JInt z => CVal (PyInt z)
  | JFloat literal => CVal (PyFloat literal)
  | JStr s => CVal (PyStr s)
  | JArr l => COther (match l with [] => false | _ => true end) (json_repr v)
  | JObj l => COther (match l with [] => false | _ => true end) (json_repr v)
  end.

(** [int(value)] *)
Definition json_int (v : json) : result Z :=
  match v with
  | JInt z => Ok z
  | JBool b => Ok (if b then 1 else 0)%Z
  | JStr s => match py_int s with
              | Some z => Ok z
              | None => Raise (ValueError ("invalid literal for int() with base 10: " +:+ py_repr s))
              end
  | JFloat literal =>
      match parse_decimal literal with
      | Some (Finite d) =>
          let q := if (0 <=? d_exp d)%Z then (Z.of_N (d_coef d) * 10 ^ d_exp d)%Z
                   else (Z.of_N (d_coef d) / 10 ^ (- d_exp d))%Z in
          Ok (if d_neg d then - q else q)%Z
      | Some (Infinity _) => Raise (OverflowError "cannot convert float infinity to integer")
      | _ => Raise (ValueError "cannot convert float NaN to integer")
      end
  | JNull => Raise (TypeError "int() argument must be a string, a bytes-like object or a real number, not 'NoneType'")
  | JArr _ => Raise (TypeError "int() argument must be a string, a bytes-like object or a real number, not 'list'")
  | JObj _ => Raise (TypeError "int() argument must be a string, a bytes-like object or a real number, not 'dict'")
  end.
