(* ===== verification/CandleProps.v ===== *)
(** * Properties of candle windows

    Closed windows never look ahead, their candles are spaced by the timeframe,
    and timestamps and values are read as specified. *)

From stdpp Require Import base tactics list strings.
From Stdlib Require Import ZArith NArith QArith Lia Lqa Bool Ascii ZifyN ZifyNat.
From S2P Require Import Prelude PyString PyDecimal DecimalFacts PyCalendar PyTime LifecycleModels.
From S2P Require Import CandleIntegrity.
Open Scope string_scope.
Open Scope py_scope.
Open Scope list_scope.
Open Scope Z_scope.

(** ** Time arithmetic *)

Lemma add_us_instant t us t' : add_us t us = Ok t' -> instant t' = instant t + us.
Proof.
  unfold add_us. destruct (_ && _)%bool; [|discriminate]. intros [= <-].
  unfold instant. cbn [dt_us dt_offset]. destruct (dt_offset t); lia.
Qed.

Lemma as_integrity_error_ok {A} reason tf i (r : result A) a :
  as_integrity_error reason tf i r = Ok a -> r = Ok a.
Proof. destruct r as [x|e]; [done|]. cbn. by destruct (value_error_text e). Qed.

(** ** Durations *)

Lemma digit_value_range c : is_digit c = true -> (digit_value c < 10)%N.
Proof. unfold is_digit, code_between, digit_value, ascii_code. rewrite andb_true_iff, !N.leb_le. lia. Qed.

Lemma digit_value_pos c : is_digit c = true -> Ascii.eqb c "0" = false -> (0 < digit_value c)%N.
Proof.
  destruct c as [[] [] [] [] [] [] [] []]; intros H1 H2; try discriminate H1; try discriminate H2;
    vm_compute; reflexivity.
Qed.

Lemma int_digits_lower s acc b n v : int_digits s acc b n = Some v -> 0 <= acc -> acc <= v.
Proof.
  revert acc b n. induction s as [|c s IH]; intros acc b n; cbn [int_digits].
  - destruct (_ && _)%bool; [intros [= <-]; lia|discriminate].
  - destruct (is_digit c); [|destruct (_ && _)%bool; [apply IH|discriminate]].
    intros H Ha. apply IH in H; lia.
Qed.

(** A digit is neither a blank nor a sign. *)
Lemma digit_not_space c : is_digit c = true -> negb (is_space c) = true.
Proof. by destruct c as [[] [] [] [] [] [] [] []]. Qed.

Lemma py_strip_digits s : string_forallb is_digit s = true -> py_strip s = s.
Proof. intros H. apply py_strip_id. eapply string_forallb_impl; [exact digit_not_space|exact H]. Qed.

Lemma read_sign_digit c s : is_digit c = true -> read_sign (String c s) = (false, String c s).
Proof. by destruct c as [[] [] [] [] [] [] [] []]. Qed.

Lemma unit_duration_min c d : unit_duration c = Some d -> 60 * us_per_second <= d.
Proof.
  unfold unit_duration. unfold us_per_second, us_per_day.
  destruct (Ascii.eqb c "m"); [intros [= <-]; lia|]. destruct (Ascii.eqb c "h"); [intros [= <-]; lia|].
  destruct (Ascii.eqb c "d"); [intros [= <-]; unfold us_per_second; lia|].
  destruct (Ascii.eqb c "w"); [intros [= <-]; unfold us_per_second; lia|discriminate].
Qed.

(** Every accepted timeframe lasts at least a minute. *)
Lemma timeframe_duration_min tf d : timeframe_duration tf = Ok d -> 60 * us_per_second <= d.
Proof.
  unfold timeframe_duration, match_timeframe.
  destruct (split_last _) as [[[|c rest] unit]|]; [discriminate| |discriminate].
  destruct (is_digit c && negb (Ascii.eqb c "0") && string_forallb is_digit rest)%bool eqn:E; [|discriminate].
  rewrite !andb_true_iff, negb_true_iff in E. destruct E as [[E1 E2] E3].
  destruct (unit_duration unit) as [u|] eqn:Eu; [|discriminate]. cbn [option_map].
  apply unit_duration_min in Eu.
  destruct (py_int (String c rest)) as [n|] eqn:En; [|discriminate].
  destruct (_ <? _); [|discriminate]. intros [= <-].
  assert (1 <= n).
  { unfold py_int in En. rewrite py_strip_digits in En by (cbn [string_forallb]; by rewrite E1).
    rewrite read_sign_digit in En by done. cbn [int_digits] in En. rewrite E1 in En.
    destruct (int_digits rest _ _ _) as [v|] eqn:Ev; [|discriminate]. cbn [option_map] in En.
    injection En as <-. pose proof (digit_value_pos c E1 E2). apply int_digits_lower in Ev; lia. }
  unfold us_per_second in *. nia.
Qed.

(** ** Sequences *)

(** [c] closes at its scheduled close or one millisecond before. *)
Definition closes_on_schedule (duration : Z) (c : CausalCandle) : Prop :=
  instant (cc_open_timestamp c) + duration - one_millisecond_us <= instant (cc_close_timestamp c)
  <= instant (cc_open_timestamp c) + duration.

(** [c] opens after the interval of the previous candle, exactly at its end
    when continuity is required. *)
Definition follows (continuity : bool) (duration : Z) (previous : option datetime) (c : CausalCandle) : Prop :=
  match previous with
  | None => True
  | Some p =>
      instant p + duration <= instant (cc_open_timestamp c) /\
      (continuity = true -> instant (cc_open_timestamp c) = instant p + duration)
  end.

Fixpoint spaced (continuity : bool) (duration : Z) (previous : option datetime)
    (timeline : list CausalCandle) : Prop :=
  match timeline with
  | [] => True
  | c :: rest =>
      follows continuity duration previous c /\ closes_on_schedule duration c /\
      spaced continuity duration (Some (cc_open_timestamp c)) rest
  end.

Lemma candle_close_ok c derived tf i close :
  candle_close c derived tf i = Ok close ->
  instant derived - one_millisecond_us <= instant close <= instant derived.
Proof.
  unfold candle_close, one_millisecond_us. destruct (is_missing _); [intros [= <-]; lia|].
  intros H. inv_run H. apply add_us_instant in Hx0.
  destruct (_ || _)%bool eqn:E; [discriminate|]. injection H as <-.
  apply orb_false_iff in E. unfold one_millisecond_us in *. lia.
Qed.

Lemma check_successor_ok open previous duration continuity tf i c :
  check_successor open previous duration continuity tf i = Ok tt ->
  cc_open_timestamp c = open -> follows continuity duration previous c.
Proof.
  unfold check_successor, follows. intros H ->. destruct previous as [p|]; [|done].
  destruct (_ =? _); [discriminate|]. destruct (_ <? _); [discriminate|]. inv_run H.
  apply add_us_instant in Hx. destruct (Z.ltb_spec (instant open) (instant x)); [discriminate|].
  destruct (continuity && _)%bool eqn:E; [discriminate|]. split; [lia|]. intros ->.
  cbn [andb] in E. apply negb_false_iff, Z.eqb_eq in E. lia.
Qed.

Lemma validate_one_ok c previous duration tf continuity vol vals i cc :
  validate_one c previous duration tf continuity vol vals i = Ok cc ->
  cc_source cc = c /\ follows continuity duration previous cc /\ closes_on_schedule duration cc.
Proof.
  intros H. assert (c <> NotACandle) as Hn by (intros ->; discriminate H).
  unfold validate_one in H. 
  destruct c as [|fields|attributes]; [done| |];
  (destruct (is_missing _) in H; [discriminate|]; apply bind_ok in H as (open & _ & H);
   destruct (add_us open duration) as [derived|] eqn:Ed; [|discriminate];
   inv_run H; injection H as <-; apply add_us_instant in Ed; apply candle_close_ok in Hx;
   split; [done|]; destruct x0; split; [by apply (check_successor_ok _ _ _ _ _ _ _ Hx0)|];
   unfold closes_on_schedule; cbn [cc_open_timestamp cc_close_timestamp]; lia).
Qed.

Lemma validate_from_ok candles previous duration tf continuity vol vals i timeline :
  validate_from candles previous duration tf continuity vol vals i = Ok timeline ->
  map cc_source timeline = candles /\ spaced continuity duration previous timeline.
Proof.
  revert previous i timeline. induction candles as [|c candles IH]; intros previous i timeline H.
  - by injection H as <-.
  - cbn [validate_from] in H. inv_run H. injection H as <-.
    apply validate_one_ok in Hx as (Hs & Hf & Hc). apply IH in Hx0 as [Hm Hsp].
    cbn [map spaced]. split; [congruence|]. auto.
Qed.

(** In a spaced timeline the closed candles come first. *)
Lemma spaced_later_opens continuity duration p timeline :
  0 < duration -> spaced continuity duration (Some p) timeline ->
  Forall (fun c => instant p + duration <= instant (cc_open_timestamp c)) timeline.
Proof.
  intros Hd. revert p. induction timeline as [|c timeline IH]; intros p; [constructor|].
  cbn [spaced follows]. intros ([H1 _] & H2 & H3). constructor; [done|].
  eapply Forall_impl; [exact (IH _ H3)|]. intros x Hx. cbn beta in Hx. lia.
Qed.

Lemma spaced_closes_on_schedule continuity duration p timeline :
  spaced continuity duration p timeline -> Forall (closes_on_schedule duration) timeline.
Proof.
  revert p. induction timeline as [|c timeline IH]; intros p; [constructor|].
  cbn [spaced]. intros (_ & H2 & H3). constructor; [done|]. by apply (IH _ H3).
Qed.

Lemma filter_all_false {A} (f : A -> bool) l : Forall (fun x => f x = false) l -> List.filter f l = [].
Proof. induction 1 as [|x l Hx _ IH]; [done|]. cbn [List.filter]. by rewrite Hx. Qed.

Lemma closed_prefix continuity duration p timeline decision :
  one_millisecond_us < duration -> spaced continuity duration p timeline ->
  exists rest, timeline = List.filter (closed_by decision) timeline ++ rest /\
    Forall (fun c => closed_by decision c = false) rest.
Proof.
  intros Hd. revert p. induction timeline as [|c timeline IH]; intros p Hs; [by exists []|].
  cbn [spaced] in Hs. destruct Hs as (_ & Hc & Hs).
  destruct (closed_by decision c) eqn:E; cbn [List.filter]; rewrite E.
  - destruct (IH _ Hs) as (rest & Heq & Hrest). exists rest. split; [cbn [app]; congruence|done].
  - assert (Forall (fun c => closed_by decision c = false) timeline) as Hall.
    { pose proof (spaced_closes_on_schedule _ _ _ _ Hs) as Hcs.
      apply spaced_later_opens in Hs; [|unfold one_millisecond_us in Hd; lia].
      rewrite Forall_forall in Hs, Hcs |- *. intros x Hx. specialize (Hs _ Hx). specialize (Hcs _ Hx).
      unfold closed_by in E |- *. unfold closes_on_schedule in Hc, Hcs.
      apply Z.leb_gt in E. apply Z.leb_gt. lia. }
    rewrite (filter_all_false _ _ Hall). exists (c :: timeline). split; [done|]. by constructor.
Qed.

(** What a closed window is made of. *)
Lemma closed_candles_run candles tf decision minimum continuity vol vals w :
  closed_candles_as_of candles tf decision minimum continuity vol vals = Ok w ->
  exists duration timeline,
    normalize_utc_timestamp decision "decision_timestamp" = Ok (cw_decision_timestamp w) /\
    validate_candle_sequence candles (py_lower (py_strip tf)) continuity vol false = Ok timeline /\
    timeframe_duration (py_lower (py_strip tf)) = Ok duration /\
    cw_timeline w = List.filter (closed_by (cw_decision_timestamp w)) timeline /\
    cw_candles w = map cc_source (cw_timeline w) /\
    cw_excluded_unclosed_count w = (length timeline - length (cw_timeline w))%nat /\
    minimum <= Z.of_nat (length (cw_timeline w)) /\
    (vals = true -> validate_eligible (cw_timeline w) (py_lower (py_strip tf)) vol = Ok tt).
Proof.
  unfold closed_candles_as_of. destruct (Z.ltb_spec minimum 0) as [|_]; [discriminate|]. intros H.
  apply bind_ok in H as (d & Hd & H). apply bind_ok in H as (timeline & Ht & H).
  apply bind_ok in H as ([] & Hv & H). destruct (Z.ltb_spec (Z.of_nat (length (List.filter (closed_by d) timeline))) minimum); [discriminate|].
  injection H as <-. cbn [cw_timeline cw_candles cw_decision_timestamp cw_excluded_unclosed_count].
  assert (exists duration, timeframe_duration (py_lower (py_strip tf)) = Ok duration) as (duration & Hdur).
  { unfold validate_candle_sequence in Ht. rewrite py_strip_lower, py_strip_idem, py_lower_idem in Ht.
    inv_run Ht. eauto. }
  exists duration, timeline. split_and!; try done. by intros ->.
Qed.

Lemma validate_sequence_spaced candles tf continuity vol vals timeline duration :
  validate_candle_sequence candles (py_lower (py_strip tf)) continuity vol vals = Ok timeline ->
  timeframe_duration (py_lower (py_strip tf)) = Ok duration ->
  map cc_source timeline = candles /\ spaced continuity duration None timeline.
Proof.
  unfold validate_candle_sequence. rewrite py_strip_lower, py_strip_idem, py_lower_idem.
  intros H Hd. rewrite Hd in H. cbn [bind_result] in H. by apply validate_from_ok in H.
Qed.

(** a closed window never looks ahead: it is a prefix of the given candles
    whose closes are at or before the decision, every candle after it closes
    later, consecutive opens are at least (with continuity, exactly) one
    timeframe apart, each close is on schedule up to one millisecond, and the
    number of excluded candles is reported. *)
Theorem closed_window_never_looks_ahead candles tf decision minimum continuity vol vals w :
  closed_candles_as_of candles tf decision minimum continuity vol vals = Ok w ->
  exists duration rest,
    timeframe_duration (py_lower (py_strip tf)) = Ok duration /\
    candles = map cc_source (cw_timeline w ++ rest) /\
    Forall (fun c => instant (cc_close_timestamp c) <= instant (cw_decision_timestamp w)) (cw_timeline w) /\
    Forall (fun c => instant (cw_decision_timestamp w) < instant (cc_close_timestamp c)) rest /\
    spaced continuity duration None (cw_timeline w ++ rest) /\
    cw_candles w = map cc_source (cw_timeline w) /\
    cw_excluded_unclosed_count w = length rest /\ minimum <= Z.of_nat (length (cw_timeline w)).
Proof.
  intros H. apply closed_candles_run in H as (duration & timeline & _ & Ht & Hd & Hw & Hc & Hx & Hm & _).
  destruct (validate_sequence_spaced _ _ _ _ _ _ _ Ht Hd) as [Hsrc Hsp].
  pose proof (timeframe_duration_min _ _ Hd) as Hmin.
  destruct (closed_prefix continuity duration None timeline (cw_decision_timestamp w)) as (rest & Heq & Hrest);
    [unfold one_millisecond_us, us_per_second in *; lia|done|].
  rewrite <- Hw in Heq. exists duration, rest. rewrite <- Heq. split_and!; try done.
  - rewrite Hw, List.Forall_forall. intros c Hin. apply filter_In in Hin as [_ Hin]. by apply Z.leb_le.
  - eapply Forall_impl; [exact Hrest|]. intros c Hin. by apply Z.leb_gt in Hin.
  - rewrite Hx, Heq, length_app. lia.
Qed.

Lemma validate_from_app l1 l2 previous duration tf continuity vol vals i timeline :
  validate_from (l1 ++ l2) previous duration tf continuity vol vals i = Ok timeline ->
  exists t1 t2, timeline = t1 ++ t2 /\ length t1 = length l1 /\
    validate_from l1 previous duration tf continuity vol vals i = Ok t1.
Proof.
  revert previous i timeline. induction l1 as [|c l1 IH]; intros previous i timeline H.
  - by exists [], timeline.
  - cbn [app validate_from] in H. inv_run H. injection H as <-.
    apply IH in Hx0 as (t1 & t2 & -> & Hlen & Hrun). exists (x :: t1), t2. split; [done|].
    split; [cbn [length]; congruence|]. cbn [validate_from]. rewrite Hx. cbn [bind_result].
    by rewrite Hrun.
Qed.

(** Two fifteen-minute candles, the second still open at 00:20. *)
Definition sample_window_candle (open_ms : Z) : candle :=
  MappingCandle [("timestamp", CVal (PyInt open_ms)); ("open", CVal (PyStr "100")); ("high", CVal (PyStr "110"));
                 ("low", CVal (PyStr "90")); ("close", CVal (PyStr "105"))].
Definition sample_window (future : list candle) : result ClosedCandleWindow :=
  closed_candles_as_of (sample_window_candle 1767225600000 :: future) "15m" (CVal (PyInt 1767226800000)) 1 true false true.

Lemma closed_window_never_looks_ahead_witness :
  exists w, sample_window [sample_window_candle 1767226500000] = Ok w /\
    Forall (fun c => instant (cc_close_timestamp c) <= instant (cw_decision_timestamp w)) (cw_timeline w).
Proof.
  destruct (sample_window [sample_window_candle 1767226500000]) as [w|e] eqn:E; [|vm_compute in E; discriminate].
  exists w. split; [done|].
  destruct (closed_window_never_looks_ahead _ _ _ _ _ _ _ _ E) as (_ & _ & _ & _ & H & _). exact H.
Defined.

(** the window is independent of what has not closed yet: dropping the
    candles after the last closed one gives the same timeline and candles, so
    no unclosed candle can influence a decision. *)
Theorem closed_window_ignores_the_future closed future tf decision minimum continuity vol vals w :
  closed_candles_as_of (closed ++ future) tf decision minimum continuity vol vals = Ok w ->
  length (cw_timeline w) = length closed ->
  closed_candles_as_of closed tf decision minimum continuity vol vals
  = Ok {| cw_candles := cw_candles w; cw_timeline := cw_timeline w;
          cw_decision_timestamp := cw_decision_timestamp w; cw_excluded_unclosed_count := 0 |}.
Proof.
  intros H Hlen. assert (Hrun := H). apply closed_candles_run in Hrun as (duration & timeline & Hdec & Ht & Hd & Hw & Hc & Hx & Hm & Hv).
  destruct (validate_sequence_spaced _ _ _ _ _ _ _ Ht Hd) as [_ Hsp].
  pose proof (timeframe_duration_min _ _ Hd) as Hmin.
  destruct (closed_prefix continuity duration None timeline (cw_decision_timestamp w)) as (rest & Heq & Hrest);
    [unfold one_millisecond_us, us_per_second in *; lia|done|].
  unfold validate_candle_sequence in Ht. rewrite py_strip_lower, py_strip_idem, py_lower_idem, Hd in Ht.
  cbn [bind_result] in Ht. apply validate_from_app in Ht as (t1 & t2 & Happ & Hl1 & Hrun).
  assert (t1 = cw_timeline w) as ->.
  { rewrite <- Hw in Heq. rewrite Happ in Heq. apply app_inj_1 in Heq as [-> _]; [done|]. lia. }
  assert (List.filter (closed_by (cw_decision_timestamp w)) (cw_timeline w) = cw_timeline w) as Hf.
  { rewrite Hw at 2. rewrite Happ, List.filter_app. rewrite (filter_all_false _ t2), app_nil_r; [done|].
    rewrite <- Hw in Heq. rewrite Happ in Heq. apply app_inv_head in Heq as ->. exact Hrest. }
  unfold closed_candles_as_of. destruct (Z.ltb_spec minimum 0) as [Hneg|]; [unfold closed_candles_as_of in H; by rewrite (proj2 (Z.ltb_lt _ _) Hneg) in H|].
  rewrite Hdec. cbn [bind_result]. unfold validate_candle_sequence.
  rewrite py_strip_lower, py_strip_idem, py_lower_idem, Hd. cbn [bind_result]. rewrite Hrun. cbn [bind_result].
  rewrite Hf. assert ((if vals then validate_eligible (cw_timeline w) (py_lower (py_strip tf)) vol else Ok tt) = Ok tt) as ->
    by (destruct vals; auto).
  cbn [bind_result]. rewrite (proj2 (Z.ltb_ge _ _)) by lia. rewrite Nat.sub_diag. by rewrite Hc.
Qed.

Lemma closed_window_ignores_the_future_witness :
  exists w, sample_window [sample_window_candle 1767226500000] = Ok w /\
    sample_window [] = Ok {| cw_candles := cw_candles w; cw_timeline := cw_timeline w;
      cw_decision_timestamp := cw_decision_timestamp w; cw_excluded_unclosed_count := 0 |}.
Proof.
  destruct (sample_window [sample_window_candle 1767226500000]) as [w|e] eqn:E; [|vm_compute in E; discriminate].
  exists w. split; [done|].
  apply (closed_window_ignores_the_future [sample_window_candle 1767225600000] [sample_window_candle 1767226500000]
    _ _ _ _ _ _ w E).
  vm_compute in E. injection E as <-. reflexivity.
Defined.

(** ** Values *)

Definition price_spec (c : candle) (name : string) (p : dec) : Prop :=
  parse_finite_decimal (field c name) = Some p /\ (0 < dQ p)%Q.

(** A volume is absent, or a number that is not negative. *)
Definition volume_spec (c : candle) (name : string) (v : option dec) : Prop :=
  match v with
  | None => none_or_na (field c name) = true
  | Some q => parse_finite_decimal (field c name) = Some q /\ (0 <= dQ q)%Q
  end.

Definition trade_count_spec (c : candle) (n : option Z) : Prop :=
  match n with
  | None => none_or_na (field c "trade_count") = true
  | Some k => parse_non_negative_int (field c "trade_count") = Ok (Some k)
  end.

Definition candle_values_spec (c : candle) (require_volume : bool) (v : ValidatedCandleValues) : Prop :=
  price_spec c "open" (vv_open v) /\ price_spec c "high" (vv_high v) /\
  price_spec c "low" (vv_low v) /\ price_spec c "close" (vv_close v) /\
  (dQ (vv_low v) <= dQ (vv_open v) <= dQ (vv_high v))%Q /\
  (dQ (vv_low v) <= dQ (vv_close v) <= dQ (vv_high v))%Q /\
  volume_spec c "volume" (vv_volume v) /\ (require_volume = true -> vv_volume v <> None) /\
  volume_spec c "quote_volume" (vv_quote_volume v) /\ volume_spec c "turnover" (vv_turnover v) /\
  trade_count_spec c (vv_trade_count v).

Lemma absent_field_none c name : has_field c name = false -> field c name = CVal PyNone.
Proof. unfold has_field, field. by destruct (assoc _ _). Qed.

Lemma missing_not_decimal v : (is_missing v || blank_text v)%bool = true -> parse_finite_decimal v = None.
Proof.
  destruct v as [[| | | | |s]|t|b text]; cbn [is_missing blank_text parse_finite_decimal]; try discriminate; [done|].
  rewrite !orb_true_iff, !String.eqb_eq. intros [[->| ->]|Hs]; [done|done|]. by rewrite Hs.
Qed.

Lemma na_not_decimal v : none_or_na v = true -> parse_finite_decimal v = None.
Proof.
  destruct v as [[| | | | |s]|t|b text]; cbn [none_or_na parse_finite_decimal]; try discriminate; [done|].
  rewrite String.eqb_eq. by intros ->.
Qed.

Lemma candle_price_iff c name tf i p : candle_price c name tf i = Ok p <-> price_spec c name p.
Proof.
  unfold candle_price, price_spec. pose proof dQ_zero as Hz.
  destruct (has_field c name) eqn:Eh; cbn [negb].
  2: { rewrite (absent_field_none _ _ Eh). split; [discriminate|]. by intros [[=] _]. }
  destruct (is_missing (field c name) || blank_text (field c name))%bool eqn:Em.
  { rewrite (missing_not_decimal _ Em). split; [discriminate|]. by intros [[=] _]. }
  destruct (parse_finite_decimal (field c name)) as [q|]; [|split; [discriminate|by intros [[=] _]]].
  destruct (dleb q dzero) eqn:E; (split; [intros [= <-]|intros [[= <-] H]]).
  - exfalso. dec_lra.
  - split; [done|]. dec_lra.
  - done.
Qed.

Lemma supplied_volume_iff c name blank invalid tf i v :
  none_or_na (field c name) = false ->
  supplied_volume (field c name) blank invalid tf i = Ok v <-> volume_spec c name v.
Proof.
  intros Hn. unfold supplied_volume, volume_spec. pose proof dQ_zero as Hz.
  destruct (blank_text (field c name)) eqn:Eb.
  { rewrite (missing_not_decimal (field c name)) by (by rewrite Eb, orb_true_r).
    split; [discriminate|]. destruct v; [by intros [[=] _]|congruence]. }
  destruct (parse_finite_decimal (field c name)) as [q|].
  - destruct (dltb q dzero) eqn:E; (split; [intros [= <-]|]).
    + destruct v; [intros [[= <-] H]; exfalso; dec_lra|congruence].
    + split; [done|]. dec_lra.
    + destruct v; [by intros [[= <-] H]|congruence].
  - split; [discriminate|]. destruct v; [by intros [[=] _]|congruence].
Qed.

Lemma absent_or_na c name :
  (negb (has_field c name) || none_or_na (field c name))%bool = none_or_na (field c name).
Proof. destruct (has_field c name) eqn:E; [done|]. by rewrite (absent_field_none _ _ E). Qed.

Lemma candle_optional_volume_iff c name tf i v :
  candle_optional_volume c name tf i = Ok v <-> volume_spec c name v.
Proof.
  unfold candle_optional_volume. rewrite absent_or_na.
  destruct (none_or_na (field c name)) eqn:E; [|by apply supplied_volume_iff].
  unfold volume_spec. destruct v; [|by rewrite E].
  rewrite (na_not_decimal _ E). split; [discriminate|by intros [[=] _]].
Qed.

Lemma candle_volume_iff c req tf i v :
  candle_volume c req tf i = Ok v <-> volume_spec c "volume" v /\ (req = true -> v <> None).
Proof.
  unfold candle_volume. rewrite absent_or_na. destruct (none_or_na (field c "volume")) eqn:E.
  - unfold volume_spec. destruct req, v; rewrite ?E, ?(na_not_decimal _ E);
      (split; [intros [=]; split; done|intros [H1 H2]]); try done; try (by destruct H1). by destruct (H2 eq_refl).
  - rewrite (supplied_volume_iff c "volume" _ _ _ _ _ E). split; [|tauto]. intros H. split; [done|].
    intros _ ->. unfold volume_spec in H. congruence.
Qed.

Lemma candle_trade_count_iff c tf i n :
  candle_trade_count c tf i = Ok n <-> trade_count_spec c n.
Proof.
  unfold candle_trade_count, trade_count_spec. rewrite absent_or_na.
  destruct (none_or_na (field c "trade_count")) eqn:E.
  - destruct n; [|done]. split; [discriminate|].
    destruct (field c "trade_count") as [[| | | | |s]|t|b text]; try discriminate E; cbn [none_or_na] in E.
    + discriminate.
    + apply String.eqb_eq in E. cbn [parse_non_negative_int]. by rewrite E.
  - destruct (parse_non_negative_int (field c "trade_count")) as [[k|]|]; cbn [bind_result];
      destruct n; split; try done; by intros [= <-].
Qed.

Lemma price_exposes c p : price_spec c "open" p -> exposes_ohlc c = true.
Proof.
  intros [H _]. unfold exposes_ohlc. cbn [existsb].
  destruct (has_field c "open") eqn:E; [done|]. by rewrite (absent_field_none _ _ E) in H.
Qed.

(** candle validation is exactly its specification: values are returned if
    and only if the four prices are finite and positive with low at the bottom
    and high at the top, the volume is present when required and every volume
    that is present is finite and not negative, and a trade count that is
    present is a non-negative integer; the returned values are those read. *)
Theorem validate_candle_values_refines_spec c index tf require_volume v :
  validate_candle_values c index tf require_volume = Ok v <-> candle_values_spec c require_volume v.
Proof.
  unfold candle_values_spec. split.
  - intros H. unfold validate_candle_values in H. set (name := values_timeframe c tf) in H. clearbody name.
    destruct c as [|fields|attributes]; [discriminate| |];
      (destruct (negb (exposes_ohlc _)) in H || cbv iota in H); try discriminate H;
      inv_run H; destruct (bad_geometry _ _ _ _) eqn:E in H; try discriminate H; inv_run H; injection H as <-;
      rewrite candle_price_iff in *; rewrite candle_volume_iff in *; rewrite candle_optional_volume_iff in *;
      rewrite candle_trade_count_iff in *;
      cbn [vv_open vv_high vv_low vv_close vv_volume vv_quote_volume vv_turnover vv_trade_count];
      unfold bad_geometry in E; rewrite !orb_false_iff, !negb_false_iff in E;
      destruct E as [[E1 E2] E3]; destruct_and?; split_and!; try assumption; dec_lra.
  - intros (H1 & H2 & H3 & H4 & H5 & H6 & H7 & H8 & H9 & H10 & H11).
    unfold validate_candle_values. set (name := values_timeframe c tf). clearbody name.
    pose proof (price_exposes _ _ H1) as He.
    assert (bad_geometry (vv_open v) (vv_high v) (vv_low v) (vv_close v) = false) as Hg.
    { unfold bad_geometry. rewrite !orb_false_iff, !negb_false_iff, !andb_true_iff, !dleb_spec, dltb_false.
      split_and!; try apply H5; try apply H6. lra. }
    rewrite <- (candle_price_iff c "open" name index) in H1. rewrite <- (candle_price_iff c "high" name index) in H2.
    rewrite <- (candle_price_iff c "low" name index) in H3. rewrite <- (candle_price_iff c "close" name index) in H4.
    pose proof (proj2 (candle_volume_iff c require_volume name index _) (conj H7 H8)) as V1.
    rewrite <- (candle_optional_volume_iff c "quote_volume" name index) in H9.
    rewrite <- (candle_optional_volume_iff c "turnover" name index) in H10.
    rewrite <- (candle_trade_count_iff c name index) in H11.
    destruct c as [|fields|attributes]; [discriminate He| |]; rewrite ?He; cbn [negb];
      rewrite H1, H2, H3, H4; cbn [bind_result]; rewrite Hg, V1, H9, H10, H11; by destruct v.
Qed.

(** ** Timestamps *)

Lemma int_digits_dash s acc b n : char_in "-" s = true -> int_digits s acc b n = None.
Proof.
  revert acc b n. induction s as [|c s IH]; intros acc b n; [discriminate|].
  cbn [char_in int_digits]. destruct (Ascii.eqb_spec c "-") as [->|_]; [done|]. cbn [orb]. intros H.
  destruct (is_digit c); [by apply IH|]. destruct (_ && _)%bool; [by apply IH|done].
Qed.

Lemma pad_head k n : exists c s, pad (S k) n = String c s /\ is_digit c = true.
Proof.
  pose proof (pad_digits (S k) n) as Hd. pose proof (pad_length (S k) n) as Hl.
  destruct (pad (S k) n) as [|c s]; [discriminate Hl|]. exists c, s. split; [done|].
  cbn [string_forallb] in Hd. by apply andb_true_iff in Hd as [Hd _].
Qed.

(** An ISO text is never read as an integer. *)
Lemma isoformat_head t :
  (exists c s, isoformat t = String c s /\ is_digit c = true) /\ char_in "-" (isoformat t) = true.
Proof.
  unfold isoformat. destruct (civil_of_days _) as [[y m] d]. split.
  - destruct (pad_head 3 y) as (c & s & -> & Hc). by eexists c, _.
  - rewrite char_in_app. apply orb_true_intro. right. done.
Qed.

Lemma py_strip_iso t : py_strip (isoformat t) = isoformat t.
Proof.
  apply py_strip_id. eapply string_forallb_impl; [|apply isoformat_chars].
  intros c. by destruct c as [[] [] [] [] [] [] [] []].
Qed.

Lemma normalize_utc_id t name :
  datetime_wf t -> dt_offset t = Some 0 -> normalize_utc_timestamp (CDatetime t) name = Ok t.
Proof.
  intros [[H1 H2] _] Ho. cbn [normalize_utc_timestamp]. unfold normalize_datetime. rewrite Ho.
  unfold astimezone_utc, instant. rewrite Ho, Z.sub_0_r.
  rewrite (proj2 (Z.leb_le _ _) H1), (proj2 (Z.ltb_lt _ _) H2). cbn [andb]. destruct t; simpl in *. by subst.
Qed.

Lemma normalize_isoformat t name :
  datetime_wf t -> dt_offset t = Some 0 ->
  normalize_utc_timestamp (CVal (PyStr (isoformat t))) name = Ok t.
Proof.
  intros Hwf Ho. destruct (isoformat_head t) as [(c & s & E & Hc) Hd].
  cbn [normalize_utc_timestamp]. rewrite py_strip_iso.
  assert (String.eqb (isoformat t) "" = false) as -> by (by rewrite E).
  assert (String.eqb (isoformat t) NA = false) as ->.
  { rewrite E. apply String.eqb_neq. intros [= -> _]. discriminate Hc. }
  cbn [orb]. assert (py_int (isoformat t) = None) as ->.
  { unfold py_int. rewrite py_strip_iso, E, read_sign_digit, <- E by done. by rewrite int_digits_dash. }
  rewrite isoformat_no_Z, fromisoformat_isoformat by done. by apply (normalize_utc_id t name).
Qed.

(** [int(str(n)) == n] *)
Lemma int_digits_go fuel n s a b k :
  (n < 2 ^ N.of_nat fuel)%N ->
  exists m, (1 <= m <= S fuel)%nat /\
    int_digits (digits_go (S fuel) n s) a b k = int_digits s (a * 10 ^ Z.of_nat m + Z.of_N n) true (k + m).
Proof.
  revert n s. induction fuel as [|fuel IH]; intros n s Hn; cbn [digits_go];
    destruct (digit_char_value n) as [Hd Hv]; pose proof (N.div_mod n 10 ltac:(lia)) as Hdm.
  all: destruct (N.eqb_spec (n / 10) 0) as [E|E];
    [exists 1%nat; split; [lia|]; cbn [int_digits]; rewrite Hd, Hv, Nat.add_1_r; f_equal;
     change (10 ^ Z.of_nat 1) with 10; lia|].
  - change (2 ^ N.of_nat 0)%N with 1%N in Hn. assert (n = 0%N) as -> by lia. done.
  - rewrite Nat2N.inj_succ, N.pow_succ_r' in Hn.
    destruct (IH (n / 10)%N (String (ascii_of_N (48 + n mod 10)) s)) as (m & Hm & Heq).
    { apply N.Div0.div_lt_upper_bound. lia. }
    exists (S m). split; [lia|]. cbn [digits_go] in Heq. rewrite Heq. cbn [int_digits]. rewrite Hd, Hv.
    rewrite Nat.add_succ_r. f_equal. rewrite Nat2Z.inj_succ, Z.pow_succ_r by lia. nia.
Qed.

Lemma int_digits_string_of_N n :
  (N.size_nat n <= 4000)%nat -> int_digits (string_of_N n) 0 false 0 = Some (Z.of_N n).
Proof.
  intros Hs. unfold string_of_N.
  destruct (int_digits_go (N.size_nat n) n "" 0 false 0) as (m & Hm & ->).
  { apply N_size_nat_bound. }
  cbn [int_digits andb]. by rewrite (proj2 (Nat.leb_le _ _)) by lia.
Qed.

Lemma N_size_nat_le n k : (n < 2 ^ N.of_nat k)%N -> (N.size_nat n <= k)%nat.
Proof.
  intros H. destruct (decide (n = 0%N)) as [->|Hn]; [cbn; lia|].
  assert (N.of_nat (N.size_nat n) = N.succ (N.log2 n)) as E.
  { rewrite <- N.size_log2 by done. destruct n as [|q]; [done|]. cbn [N.size_nat N.size].
    clear. induction q as [q IH|q IH|]; cbn [Pos.size_nat Pos.size]; lia. }
  assert (N.log2 n < N.of_nat k)%N by (apply N.log2_lt_pow2; lia). lia.
Qed.

(** The integer a timestamp text names is the one [str] wrote. *)
Lemma py_int_string_of_Z z :
  Z.abs z < 2 ^ 64 -> py_int (string_of_Z z) = Some z /\ py_strip (string_of_Z z) = string_of_Z z.
Proof.
  intros Hz.
  assert (forall c, (is_digit c || Ascii.eqb c "-")%bool = true -> is_space c = false) as Hsp
    by (intros c; by destruct c as [[] [] [] [] [] [] [] []]).
  assert (forall n, string_forallb (fun c => is_digit c || Ascii.eqb c "-")%bool (string_of_N n) = true) as Hdig
    by (intros n; eapply string_forallb_impl; [|apply string_of_N_digits]; intros c ->; done).
  assert (py_strip (string_of_Z z) = string_of_Z z) as Hs.
  { apply py_strip_id. eapply (string_forallb_impl (fun c => is_digit c || Ascii.eqb c "-")%bool).
    - intros c Hc. by rewrite (Hsp c Hc).
    - destruct z as [|q|q]; [apply Hdig|apply Hdig|]. cbn [string_of_Z]. rewrite string_forallb_app. by rewrite Hdig. }
  split; [|done]. unfold py_int. rewrite Hs.
  assert (forall n, (n < 2 ^ 64)%N -> int_digits (string_of_N n) 0 false 0 = Some (Z.of_N n)) as Hint.
  { intros n Hn. apply int_digits_string_of_N. pose proof (N_size_nat_le n 64 Hn). lia. }
  destruct z as [|q|q]; cbn [string_of_Z]; [done| |].
  - destruct (string_of_N_head (Z.to_N (Z.pos q))) as (c & s & E & Hc).
    rewrite E, read_sign_digit by exact Hc. cbv beta iota. rewrite <- E, Hint by lia.
    cbn [option_map]. f_equal; lia.
  - change (read_sign ("-" +:+ string_of_N (N.pos q))) with (true, string_of_N (N.pos q)).
    cbv beta iota. rewrite Hint by lia. done.
Qed.

(** Milliseconds within 2^33 seconds of the epoch are exact. *)
Lemma fromtimestamp_us_exact z : Z.abs z < 1000 * 2 ^ 33 -> fromtimestamp_us z = 1000 * z.
Proof.
  assert (forall a, 0 <= a < 1000 * 2 ^ 33 -> fromtimestamp_abs a = a * 1000) as H.
  { intros a Ha. unfold fromtimestamp_abs.
    assert (a / 1000 < 2 ^ 33) as Hq by (apply Z.div_lt_upper_bound; lia).
    assert (0 <= a / 1000) by (apply Z.div_pos; lia).
    assert (Z.log2 (a / 1000) < 33) as Hl.
    { destruct (decide (a / 1000 = 0)) as [->|]; [done|]. apply Z.log2_lt_pow2; lia. }
    by rewrite (proj2 (Z.ltb_lt _ _) Hl). }
  intros Hz. unfold fromtimestamp_us. destruct (Z.ltb_spec z 0); rewrite H; lia.
Qed.

Lemma normalize_int_exact z name :
  Z.abs z < 1000 * 2 ^ 33 ->
  let t := mkDatetime (epoch_us + 1000 * z) (Some 0) in
  normalize_int_timestamp z name = Ok t /\ datetime_wf t /\ epoch_milliseconds t = z.
Proof.
  intros Hz t. change (2 ^ 33) with 8589934592 in Hz.
  assert (epoch_us = 62135596800000000) as He by (vm_compute; reflexivity).
  assert (max_us = 315537897600000000) as Hm by (vm_compute; reflexivity).
  split; [|split].
  - unfold normalize_int_timestamp, fromtimestamp_ms, min_epoch_ms, max_epoch_ms.
    rewrite (proj2 (Z.leb_le _ _)), (proj2 (Z.ltb_lt _ _)) by lia. cbn [andb].
    by rewrite fromtimestamp_us_exact by lia.
  - unfold datetime_wf, t, offset_ok. cbn [dt_us dt_offset]. rewrite He, Hm. change us_per_day with 86400000000. lia.
  - unfold epoch_milliseconds, instant, t. cbn [dt_us dt_offset].
    replace (epoch_us + 1000 * z - 0 - epoch_us) with (z * 1000) by lia. by rewrite Z.div_mul.
Qed.

(** C39: the timestamp forms a candle may carry are interchangeable: a UTC
    datetime and its ISO text normalise to that datetime, and the integer
    milliseconds of any instant up to year 2242, their decimal text and the ISO
    text of the result all normalise to one datetime, whose epoch milliseconds
    are that integer. *)
Theorem timestamps_round_trip t z name :
  datetime_wf t -> dt_offset t = Some 0 -> Z.abs z < 1000 * 2 ^ 33 ->
  normalize_utc_timestamp (CDatetime t) name = Ok t /\
  normalize_utc_timestamp (CVal (PyStr (isoformat t))) name = Ok t /\
  exists u, normalize_utc_timestamp (CVal (PyInt z)) name = Ok u /\
    normalize_utc_timestamp (CVal (PyStr (string_of_Z z))) name = Ok u /\
    normalize_utc_timestamp (CVal (PyStr (isoformat u))) name = Ok u /\ epoch_milliseconds u = z.
Proof.
  intros Hwf Ho Hz. split_and!; [by apply normalize_utc_id|by apply normalize_isoformat|].
  destruct (normalize_int_exact z name Hz) as (Hi & Hu & He).
  eexists. split_and!; [exact Hi| |by apply normalize_isoformat|exact He].
  cbn [normalize_utc_timestamp]. destruct (py_int_string_of_Z z ltac:(lia)) as [Hp Hs].
  rewrite Hs, Hp.
  rewrite Hi. destruct z as [|q|q]; [done| |done]; cbn [string_of_Z];
    destruct (string_of_N_head (Z.to_N (Z.pos q))) as (c & s & -> & Hc).
  destruct (Ascii.eqb_spec c "N"); [by subst|]. cbn [String.eqb NA orb].
  destruct (Ascii.eqb_spec c "N"); done.
Qed.

Lemma timestamps_round_trip_witness :
  exists u, normalize_utc_timestamp (CVal (PyStr "1767225600123")) "close_time" = Ok u
            /\ epoch_milliseconds u = 1767225600123.
Proof.
  destruct (timestamps_round_trip (mkDatetime 63902822400000000 (Some 0)) 1767225600123 "close_time") as (_ & _ & H).
  - split; [vm_compute; split; [discriminate|reflexivity]|vm_compute; split; reflexivity].
  - reflexivity.
  - reflexivity.
  - destruct H as (u & _ & H & _ & He). exists u. split; [exact H|exact He].
Defined.
