(* ===== verification/JsonFacts.v ===== *)
(** * What [json.loads] reads back

    [loads (dumps v)] is [v] with its dictionaries in key order, for every value
    without floats whose dictionaries have distinct keys. *)

From stdpp Require Import base tactics list strings.
From Stdlib Require Import ZArith NArith Lia Bool Ascii.
From S2P Require Import Prelude PyString PyDecimal PyTime PyJson LifecycleModels CandleIntegrity CandleProps JsonText.
Open Scope string_scope.
Open Scope py_scope.
Open Scope list_scope.

(** ** Values that are read back *)

(** the value with every dictionary in key order *)
Fixpoint canon (v : json) : json :=
  match v with
  | JArr l => JArr (map canon l)
  | JObj fields => JObj (sorted_items (map (fun '(k, w) => (k, canon w)) fields))
  | _ => v
  end.

Definition keys {A} (d : list (string * A)) : list string := map fst d.

Fixpoint json_ok (v : json) : Prop :=
  match v with
  | JFloat _ => False
  | JInt z => (Z.abs z < 2 ^ 64)%Z
  | JArr l => fold_right (fun w P => json_ok w /\ P) True l
  | JObj fields => NoDup (keys fields) /\ fold_right (fun '(k, w) P => json_ok w /\ P) True fields
  | _ => True
  end.

Lemma json_ok_arr l : json_ok (JArr l) <-> Forall json_ok l.
Proof. cbn [json_ok]. induction l as [|w l IH]; cbn [fold_right]; [done|]. by rewrite IH, Forall_cons. Qed.

Lemma json_ok_obj fields :
  json_ok (JObj fields) <-> NoDup (keys fields) /\ Forall (fun kv => json_ok (snd kv)) fields.
Proof.
  cbn [json_ok]. apply and_iff_compat_l.
  induction fields as [|[k w] l IH]; cbn [fold_right]; [done|]. by rewrite IH, Forall_cons.
Qed.

(** ** Sorted items *)

Lemma insert_item_map {A B} (f : string * A -> string * B) x l :
  (forall y, fst (f y) = fst y) -> insert_item (f x) (map f l) = map f (insert_item x l).
Proof.
  intros Hf. induction l as [|y l IH]; [done|]. cbn [map insert_item]. rewrite !Hf.
  destruct (String.ltb _ _); [done|]. cbn [map]. by rewrite IH.
Qed.

Lemma sorted_items_map {A B} (f : string * A -> string * B) l :
  (forall y, fst (f y) = fst y) -> sorted_items (map f l) = map f (sorted_items l).
Proof.
  intros Hf. induction l as [|x l IH]; [done|]. unfold sorted_items in *. cbn [map fold_right].
  by rewrite IH, insert_item_map.
Qed.

Lemma insert_item_perm {A} (x : string * A) l : insert_item x l ≡ₚ x :: l.
Proof.
  induction l as [|y l IH]; [done|]. cbn [insert_item]. destruct (String.ltb _ _); [done|].
  rewrite IH. apply Permutation_swap.
Qed.

Lemma sorted_items_perm {A} (l : list (string * A)) : sorted_items l ≡ₚ l.
Proof.
  induction l as [|x l IH]; [done|]. unfold sorted_items in *. cbn [fold_right].
  by rewrite insert_item_perm, IH.
Qed.

(** ** Distinct keys *)

Lemma dict_update_absent {A} key (default : A) f d :
  ~ In key (keys d) -> dict_update key default f d = d ++ [(key, f default)].
Proof.
  induction d as [|[k v] d IH]; [done|]. cbn [keys map In dict_update app fst]. intros H.
  destruct (String.eqb_spec k key) as [->|]; [tauto|]. rewrite IH; [done|]. tauto.
Qed.

Lemma dict_merge_distinct {A} (d other : list (string * A)) :
  NoDup (keys (d ++ other)) -> dict_merge d other = d ++ other.
Proof.
  revert d. induction other as [|[k v] other IH]; intros d H; [by rewrite app_nil_r|].
  unfold dict_merge in *. cbn [fold_left fst snd]. unfold dict_set.
  rewrite dict_update_absent.
  - rewrite IH; rewrite <- app_assoc; [done|]. exact H.
  - unfold keys in *. rewrite map_app in H. cbn [map fst] in H. apply NoDup_app in H as (_ & H & _).
    intros Hin. apply (H k); [by apply list_elem_of_In|apply list_elem_of_here].
Qed.

(** ** Strings *)

Lemma scan_string_escape_char k c t :
  scan_string (S k) (escape_char c +:+ t)
  = match scan_string k t with Some (body, tail) => Some (String c body, tail) | None => None end.
Proof. destruct c as [[] [] [] [] [] [] [] []]; reflexivity. Qed.

Lemma escape_char_length c : (1 <= String.length (escape_char c))%nat.
Proof. apply Nat.leb_le. destruct c as [[] [] [] [] [] [] [] []]; reflexivity. Qed.

Lemma scan_string_escape s fuel rest :
  (String.length s < fuel)%nat ->
  scan_string fuel (escape s +:+ String double_quote rest) = Some (s, rest).
Proof.
  revert fuel. induction s as [|c s IH]; intros [|k] H; cbn [String.length] in H; try lia; [reflexivity|].
  cbn [escape]. rewrite string_app_assoc, scan_string_escape_char, IH by lia. done.
Qed.

Lemma escape_length s : (String.length s <= String.length (escape s))%nat.
Proof.
  induction s as [|c s IH]; [done|]. cbn [escape String.length]. rewrite string_length_app.
  pose proof (escape_char_length c). lia.
Qed.

Lemma dumps_string_app s rest :
  dumps_string s +:+ rest = String double_quote (escape s +:+ String double_quote rest).
Proof. unfold dumps_string. cbn [String.append]. by rewrite string_app_assoc. Qed.

Lemma scan_string_dumps s n rest :
  (String.length (escape s) < n)%nat ->
  scan_string n (escape s +:+ String double_quote rest) = Some (s, rest).
Proof. intros H. apply scan_string_escape. pose proof (escape_length s). lia. Qed.

(** ** Numbers *)

(** what may follow a number *)
Definition number_ends (rest : string) : bool :=
  match rest with
  | EmptyString => true
  | String c _ => negb (is_digit c || Ascii.eqb c "." || Ascii.eqb c "e" || Ascii.eqb c "E")
  end.

Lemma span_digits_app a rest :
  string_forallb is_digit a = true -> number_ends rest = true -> span_digits (a +:+ rest) = (a, rest).
Proof.
  intros Ha Hr. induction a as [|c a IH].
  - cbn [String.append]. destruct rest as [|c rest]; [done|]. cbn [span_digits number_ends] in *.
    destruct (is_digit c); [discriminate|done].
  - cbn [string_forallb] in Ha. apply andb_true_iff in Ha as [Hc Ha]. cbn [String.append span_digits].
    by rewrite Hc, IH.
Qed.

(** A positive number does not start with a zero. *)
Lemma digits_go_nonzero fuel n s :
  (0 < n < 2 ^ N.of_nat fuel)%N -> exists c t, digits_go fuel n s = String c t /\ Ascii.eqb c "0" = false.
Proof.
  revert n s. induction fuel as [|fuel IH]; intros n s Hn.
  - change (2 ^ N.of_nat 0)%N with 1%N in Hn. lia.
  - cbn [digits_go]. destruct (N.eqb_spec (n / 10) 0) as [E|E].
    + eexists _, _. split; [reflexivity|]. pose proof (N.div_mod n 10 ltac:(lia)).
      destruct (digit_char_value n) as [_ Hv]. destruct (Ascii.eqb_spec (ascii_of_N (48 + n mod 10)) "0") as [Eq|]; [|done].
      rewrite Eq in Hv. change (digit_value "0") with 0%N in Hv. lia.
    + apply IH. rewrite Nat2N.inj_succ, N.pow_succ_r' in Hn. split; [lia|].
      apply N.Div0.div_lt_upper_bound. lia.
Qed.

Lemma string_of_N_nonzero n :
  (0 < n)%N -> exists c t, string_of_N n = String c t /\ Ascii.eqb c "0" = false.
Proof.
  intros H. apply digits_go_nonzero. split; [done|]. pose proof (N_size_nat_bound n).
  rewrite Nat2N.inj_succ, N.pow_succ_r'. lia.
Qed.

(** the digits of a number, as [scan_number] splits them *)
Lemma number_digits n rest :
  number_ends rest = true ->
  match string_of_N n +:+ rest with
  | String c s' => if Ascii.eqb c "0" then ("0", s') else span_digits (string_of_N n +:+ rest)
  | EmptyString => ("", "")
  end = (string_of_N n, rest).
Proof.
  intros Hr. destruct (decide (n = 0)%N) as [->|Hn]; [done|].
  destruct (string_of_N_nonzero n ltac:(lia)) as (c & t & E & Hc). rewrite E. cbn [String.append]. rewrite Hc.
  change (String c (t +:+ rest)) with (String c t +:+ rest). rewrite <- E.
  apply span_digits_app; [apply string_of_N_digits|done].
Qed.

Lemma is_digit_not_minus c : is_digit c = true -> Ascii.eqb c "-" = false.
Proof. by destruct c as [[] [] [] [] [] [] [] []]. Qed.

Lemma scan_number_int z rest :
  (Z.abs z < 2 ^ 64)%Z -> number_ends rest = true ->
  scan_number (string_of_Z z +:+ rest) = Some (Ok (JInt z), rest).
Proof.
  intros Hz Hr. destruct (py_int_string_of_Z z Hz) as [Hp _]. unfold scan_number.
  set (sign := if (z <? 0)%Z then "-" else "").
  assert (string_of_Z z = sign +:+ string_of_N (Z.abs_N z)) as Ez by (by destruct z).
  assert (match string_of_Z z +:+ rest with
          | String c s' => if Ascii.eqb c "-" then ("-", s') else ("", string_of_Z z +:+ rest)
          | EmptyString => ("", string_of_Z z +:+ rest) end
          = (sign, string_of_N (Z.abs_N z) +:+ rest)) as ->.
  { rewrite Ez. subst sign. destruct (z <? 0)%Z; cbn [String.append]; [done|].
    destruct (string_of_N_head (Z.abs_N z)) as (c & t & -> & Hc). cbn [String.append].
    by rewrite (is_digit_not_minus c Hc). }
  cbv beta iota zeta. rewrite number_digits by done.
  destruct (string_of_N_head (Z.abs_N z)) as (c & t & E & Hc).
  assert (String.eqb (string_of_N (Z.abs_N z)) "" = false) as -> by (by rewrite E).
  rewrite <- Ez, Hp. destruct rest as [|d rest]; [done|].
  cbn [number_ends] in Hr. rewrite negb_true_iff, !orb_false_iff in Hr. destruct Hr as [[[_ H1] H2] H3].
  rewrite H1. cbv beta iota. rewrite H2, H3. done.
Qed.

Lemma scan_literal_int z rest : scan_literal (string_of_Z z +:+ rest) = None.
Proof.
  unfold scan_literal, drop_prefix. destruct z as [|q|q]; cbn [string_of_Z].
  - done.
  - destruct (string_of_N_head (Z.to_N (Z.pos q))) as (c & t & -> & Hc).
    by destruct c as [[] [] [] [] [] [] [] []].
  - destruct (string_of_N_head (N.pos q)) as (c & t & -> & Hc).
    by destruct c as [[] [] [] [] [] [] [] []].
Qed.

(** ** Values *)

Lemma dumps_obj fields :
  dumps (JObj fields) = "{" +:+ py_join "," (map (fun '(k, w) => dumps_string k +:+ ":" +:+ dumps w)
                                              (sorted_items fields)) +:+ "}".
Proof.
  cbn [dumps]. do 2 f_equal. f_equal. rewrite (sorted_items_map (fun '(k, w) => (k, dumps_string k +:+ ":" +:+ dumps w)))
    by (by intros []). rewrite map_map. apply map_ext. by intros [].
Qed.

Lemma canon_obj fields :
  canon (JObj fields) = JObj (map (fun '(k, w) => (k, canon w)) (sorted_items fields)).
Proof. cbn [canon]. by rewrite sorted_items_map by (by intros []). Qed.

(** how a written value starts *)
Lemma dumps_head v :
  json_ok v -> exists c s, dumps v = String c s /\ is_ws c = false /\ Ascii.eqb c "]" = false.
Proof.
  destruct v as [|[]|z|f|s|l|fields]; intros H; try (by eexists _, _; split; [reflexivity|]); [|done].
  cbn [dumps]. destruct z as [|q|q]; cbn [string_of_Z]; try (by eexists _, _; split; [reflexivity|]).
  destruct (string_of_N_head (Z.to_N (Z.pos q))) as (c & t & -> & Hc). exists c, t. split; [done|].
  by destruct c as [[] [] [] [] [] [] [] []].
Qed.

Lemma skip_ws_head c s : is_ws c = false -> skip_ws (String c s) = String c s.
Proof. intros H. cbn [skip_ws]. by rewrite H. Qed.

Lemma skip_ws_dumps v rest : json_ok v -> skip_ws (dumps v +:+ rest) = dumps v +:+ rest.
Proof. intros H. destruct (dumps_head v H) as (c & s & -> & Hc & _). by apply skip_ws_head. Qed.

Section ReadBack.
Context (m : exn).

Definition reads_back (n : nat) : Prop := forall v fuel rest,
  (String.length (dumps v) < fuel <= n)%nat -> json_ok v -> number_ends rest = true ->
  scan_value m fuel (dumps v +:+ rest) = Ok (canon v, rest).

Lemma scan_elements_dumps n l : reads_back n -> forall fuel rest,
  l <> [] -> Forall json_ok l -> (String.length (py_join "," (map dumps l)) + 1 < fuel <= S n)%nat ->
  scan_elements m fuel (py_join "," (map dumps l) +:+ String "]" rest) = Ok (map canon l, rest).
Proof.
  intros IH. induction l as [|v l IHl]; [done|]. intros [|fuel] rest _ Hok Hf; [lia|].
  apply Forall_cons in Hok as [Hv Hl]. cbn [scan_elements]. destruct l as [|w l].
  - cbn [map py_join] in *. rewrite IH by (done || lia). reflexivity.
  - cbn [map py_join] in Hf |- *. rewrite !string_length_app in Hf. cbn [String.length] in Hf.
    rewrite !string_app_assoc. change ("," +:+ ?x) with (String "," x).
    rewrite IH by (done || lia). cbn [bind_result skip_ws]. change (is_ws ",") with false. cbv iota.
    change (Ascii.eqb "," "]") with false. change (Ascii.eqb "," ",") with true. cbv iota.
    change (skip_ws ("" +:+ ?x)) with (skip_ws x). cbn [String.append].
    assert (Forall json_ok (w :: l)) as Hl' by done. apply Forall_cons in Hl' as [Hw _].
    assert (forall x, skip_ws (py_join "," (map dumps (w :: l)) +:+ x) = py_join "," (map dumps (w :: l)) +:+ x) as Hskip.
    { intros x. destruct l; cbn [map py_join]; [by apply skip_ws_dumps|].
      rewrite !string_app_assoc. by apply skip_ws_dumps. }
    cbn [map py_join] in Hskip, IHl. rewrite Hskip. rewrite IHl; [done|done|done|].
    destruct l; cbn [map py_join] in *; lia.
Qed.

Definition member_text (kw : string * json) : string := dumps_string (fst kw) +:+ ":" +:+ dumps (snd kw).

Lemma member_head kw : exists s, member_text kw = String double_quote s.
Proof. unfold member_text, dumps_string. by eexists. Qed.

Lemma scan_members_dumps n l : reads_back n -> forall fuel rest,
  l <> [] -> Forall (fun kw => json_ok (snd kw)) l ->
  (String.length (py_join "," (map member_text l)) + 1 < fuel <= S n)%nat ->
  scan_members m fuel (py_join "," (map member_text l) +:+ String "}" rest)
  = Ok (map (fun '(k, w) => (k, canon w)) l, rest).
Proof.
  intros IH. induction l as [|[k v] l IHl]; [done|]. intros [|fuel] rest _ Hok Hf; [lia|].
  apply Forall_cons in Hok as [Hv Hl]. cbn [snd] in Hv.
  assert (exists tail, py_join "," (map member_text ((k, v) :: l)) +:+ String "}" rest
    = dumps_string k +:+ String ":" (dumps v +:+ tail) /\
    (String.length (dumps v) < fuel)%nat /\ number_ends tail = true /\
    ((l = [] /\ tail = String "}" rest) \/
     (l <> [] /\ tail = String "," (py_join "," (map member_text l) +:+ String "}" rest) /\
      (String.length (py_join "," (map member_text l)) + 1 < fuel)%nat))) as (tail & -> & Hlen & Hends & Htail).
  { destruct l as [|kw l].
    - change (py_join "," (map member_text [(k, v)])) with (dumps_string k +:+ ":" +:+ dumps v) in *.
      exists (String "}" rest). rewrite !string_length_app in Hf. cbn [String.length] in Hf.
      rewrite !string_app_assoc. split; [done|]. split; [lia|]. split; [done|]. by left.
    - set (others := py_join "," (map member_text (kw :: l))) in *.
      change (py_join "," (map member_text ((k, v) :: kw :: l)))
        with ((dumps_string k +:+ ":" +:+ dumps v) +:+ "," +:+ others) in *.
      exists (String "," (others +:+ String "}" rest)). rewrite !string_length_app in Hf. cbn [String.length] in Hf.
      rewrite !string_app_assoc. split; [done|]. split; [lia|]. split; [done|]. right.
      split; [done|]. split; [done|]. lia. }
  rewrite dumps_string_app. cbn [scan_members].
  change (Ascii.eqb double_quote double_quote) with true. cbn [negb].
  rewrite scan_string_dumps.
  2: { cbn [String.length]. rewrite string_length_app. lia. }
  change (skip_ws (String ":" ?x)) with (String ":" x). change (Ascii.eqb ":" ":") with true. cbn [negb].
  rewrite skip_ws_dumps by done. rewrite IH by (done || lia). cbn [bind_result].
  destruct Htail as [[-> ->]|(Hne & -> & Hf')]; [reflexivity|].
  change (skip_ws (String "," ?x)) with (String "," x). change (Ascii.eqb "," "}") with false.
  change (Ascii.eqb "," ",") with true. cbv iota.
  assert (forall x, skip_ws (py_join "," (map member_text l) +:+ x) = py_join "," (map member_text l) +:+ x) as Hskip.
  { intros x. destruct l as [|kw l]; [done|]. destruct (member_head kw) as [s Hs]. cbn [map py_join]. rewrite Hs.
    destruct l; reflexivity. }
  rewrite Hskip. rewrite IHl; [reflexivity|done|done|lia].
Qed.

Lemma member_texts l :
  map (fun '(k, w) => dumps_string k +:+ ":" +:+ dumps w) l = map member_text l.
Proof. apply map_ext. by intros []. Qed.

Lemma reads_back_all n : reads_back n.
Proof.
  induction n as [|n IH]; intros v [|fuel] rest Hf Hok Hr; try lia.
  destruct v as [|[]|z|f|s|l|fields]; try (by destruct Hok); try reflexivity.
  - cbn [dumps canon] in *. destruct (string_of_Z z +:+ rest) as [|c t] eqn:E.
    { destruct z as [|q|q]; cbn [string_of_Z] in E; [discriminate| |discriminate].
      destruct (string_of_N_head (Z.to_N (Z.pos q))) as (c & t & Eh & _). by rewrite Eh in E. }
    assert (Ascii.eqb c double_quote = false /\ Ascii.eqb c "{" = false /\ Ascii.eqb c "[" = false) as (H1 & H2 & H3).
    { destruct z as [|q|q]; cbn [string_of_Z] in E; [by injection E as <- _| |by injection E as <- _].
      destruct (string_of_N_head (Z.to_N (Z.pos q))) as (d & u & Eh & Hd). rewrite Eh in E. injection E as <- _.
      by destruct d as [[] [] [] [] [] [] [] []]. }
    cbn [scan_value]. rewrite H1, H2, H3, <- E, scan_literal_int, scan_number_int by done. done.
  - cbn [dumps canon] in *. rewrite dumps_string_app. cbn [scan_value].
    change (Ascii.eqb double_quote double_quote) with true. cbv iota.
    rewrite scan_string_dumps; [done|]. cbn [String.length]. rewrite string_length_app. lia.
  - apply json_ok_arr in Hok. destruct l as [|w l]; [reflexivity|].
    assert (exists c s, py_join "," (map dumps (w :: l)) +:+ String "]" rest = String c s /\ is_ws c = false
      /\ Ascii.eqb c "]" = false) as (c & s & E & Hc & Hb).
    { apply Forall_cons in Hok as [Hw _]. destruct (dumps_head w Hw) as (c & s & E & Hc & Hb).
      destruct l; cbn [map py_join]; rewrite E; by eexists _, _; split; [reflexivity|]. }
    assert (String.length (py_join "," (map dumps (w :: l))) + 1 < fuel <= S n)%nat as Hlen.
    { cbn [dumps] in Hf. rewrite !string_length_app in Hf. cbn [String.length] in Hf. lia. }
    pose proof (scan_elements_dumps n (w :: l) IH fuel rest ltac:(done) Hok Hlen) as Hrun.
    change (dumps (JArr (w :: l))) with ("[" +:+ py_join "," (map dumps (w :: l)) +:+ "]").
    rewrite !string_app_assoc. change ("]" +:+ rest) with (String "]" rest). rewrite E in *.
    cbn [scan_value String.append]. change (Ascii.eqb "[" double_quote) with false.
    change (Ascii.eqb "[" "{") with false. change (Ascii.eqb "[" "[") with true. cbv iota.
    rewrite skip_ws_head by done. rewrite Hb, Hrun. done.
  - rewrite canon_obj. apply json_ok_obj in Hok as [Hnd Hok]. rewrite dumps_obj, member_texts in *.
    assert (Forall (fun kw => json_ok (snd kw)) (sorted_items fields)) as Hok' by (by rewrite sorted_items_perm).
    assert (NoDup (keys (sorted_items fields))) as Hnd' by (unfold keys; by rewrite sorted_items_perm).
    destruct (sorted_items fields) as [|kw l] eqn:Es; [reflexivity|]. clear Hok Hnd Es.
    assert (exists s, py_join "," (map member_text (kw :: l)) +:+ String "}" rest = String double_quote s) as [s E].
    { destruct (member_head kw) as [s E]. destruct l; cbn [map py_join]; rewrite E; by eexists. }
    assert (String.length (py_join "," (map member_text (kw :: l))) + 1 < fuel <= S n)%nat as Hlen.
    { rewrite !string_length_app in Hf. cbn [String.length] in Hf. lia. }
    pose proof (scan_members_dumps n (kw :: l) IH fuel rest ltac:(done) Hok' Hlen) as Hrun.
    rewrite !string_app_assoc. change ("}" +:+ rest) with (String "}" rest). rewrite E in *.
    cbn [scan_value String.append]. change (Ascii.eqb "{" double_quote) with false.
    change (Ascii.eqb "{" "{") with true. cbv iota.
    change (skip_ws (String double_quote s)) with (String double_quote s).
    change (Ascii.eqb double_quote "}") with false. cbv iota. rewrite Hrun. cbn [bind_result].
    rewrite dict_merge_distinct; [done|]. unfold keys in *. rewrite app_nil_l, map_map.
    erewrite map_ext; [exact Hnd'|]. by intros [].
Qed.
End ReadBack.

(** [json.loads(json.dumps(v, sort_keys=True, ...))] is [v], with its
    dictionaries in key order. *)
Lemma loads_dumps `{JsonErrors} v : json_ok v -> loads (dumps v) = Ok (canon v).
Proof.
  intros Hok. unfold loads. rewrite <- (string_app_nil_r (dumps v)), skip_ws_dumps by done.
  rewrite (reads_back_all _ (S (String.length (dumps v +:+ "")))); [done| |done|done].
  rewrite string_length_app. cbn [String.length]. lia.
Qed.

(** ** Lookups *)

Lemma json_get_absent name d : ~ In name (keys d) -> json_get name d = JNull.
Proof.
  induction d as [|[k v] d IH]; [done|]. cbn [keys map In json_get fst]. intros Hn.
  destruct (String.eqb_spec k name) as [->|]; [tauto|]. apply IH. tauto.
Qed.

Lemma json_get_in name v d : NoDup (keys d) -> In (name, v) d -> json_get name d = v.
Proof.
  induction d as [|[k w] d IH]; [done|]. cbn [keys map json_get fst]. intros Hn Hin.
  apply NoDup_cons in Hn as [Hk Hn]. destruct Hin as [[= -> ->]|Hin]; [by rewrite String.eqb_refl|].
  destruct (String.eqb_spec k name) as [->|]; [|auto]. destruct Hk. apply list_elem_of_In.
  apply in_map_iff. by exists (name, v).
Qed.

Lemma json_get_perm name d d' : d ≡ₚ d' -> NoDup (keys d) -> json_get name d = json_get name d'.
Proof.
  intros Hp Hn. assert (keys d ≡ₚ keys d') as Hk by (by apply fmap_Permutation).
  assert (NoDup (keys d')) as Hn' by (by rewrite <- Hk).
  destruct (in_dec String.string_dec name (keys d)) as [Hin|Hin].
  - apply in_map_iff in Hin as ([k v] & <- & Hin). cbn [fst]. rewrite (json_get_in k v d) by done.
    symmetry. apply json_get_in; [done|]. by apply (Permutation_in _ Hp).
  - rewrite !json_get_absent; [done| |done]. intros Hin'. apply Hin. by apply (Permutation_in _ (symmetry Hk)).
Qed.

Lemma json_get_canon name d : json_get name (map (fun '(k, w) => (k, canon w)) d) = canon (json_get name d).
Proof. induction d as [|[k v] d IH]; [done|]. cbn [map json_get]. by destruct (String.eqb k name). Qed.

Lemma keys_canon (d : list (string * json)) : keys (map (fun '(k, w) => (k, canon w)) d) = keys d.
Proof. unfold keys. rewrite map_map. apply map_ext. by intros []. Qed.

(** a field of a dictionary that was written and read back *)
Lemma json_get_read name d :
  NoDup (keys d) -> json_get name (sorted_items (map (fun '(k, w) => (k, canon w)) d)) = canon (json_get name d).
Proof.
  intros Hn. rewrite <- json_get_canon. symmetry. apply json_get_perm; [by rewrite sorted_items_perm|].
  by rewrite keys_canon.
Qed.

Lemma json_get_set_same name v d : json_get name (dict_set name v d) = v.
Proof.
  induction d as [|[k w] d IH]; cbn; [by rewrite String.eqb_refl|].
  destruct (String.eqb k name) eqn:E; cbn; rewrite E; [done|exact IH].
Qed.

Lemma json_ok_set name v fields :
  ~ In name (keys fields) -> json_ok (JObj fields) -> json_ok v -> json_ok (JObj (dict_set name v fields)).
Proof.
  intros Hn [Hk Hf]%json_ok_obj Hv. unfold dict_set. rewrite dict_update_absent by done. apply json_ok_obj. split.
  - unfold keys. rewrite map_app. apply NoDup_app. split; [done|]. split; [|apply NoDup_singleton].
    intros x Hx Hx'. apply list_elem_of_singleton in Hx'. subst. apply Hn. by apply list_elem_of_In.
  - apply Forall_app. split; [done|]. by constructor.
Qed.

Lemma dict_mem_keys {A} name (d : list (string * A)) : dict_mem name d = false -> ~ In name (keys d).
Proof.
  intros Hm Hin. apply in_map_iff in Hin as (kv & <- & Hin).
  assert (dict_mem (fst kv) d = true) as Ht; [|congruence]. apply existsb_exists. exists kv. by rewrite String.eqb_refl.
Qed.
