(* ===== verification/OutcomePolicy.v ===== *)
(** * Stored plan geometry and price touches (src/app/lifecycle/outcome_policy.py)

    The plan a lifecycle record stores is read back as Decimals, checked with
    [validate_trade_plan], and compared with the range of one closed candle.
    The plan identities hash the stored levels. *)

From stdpp Require Import base tactics list strings.
From Stdlib Require Import ZArith NArith QArith Lia Lqa Bool Ascii Sorting.Sorted.
From S2P Require Import Prelude PyString PyDecimal DecimalFacts TradePlan PyTime Sha256.
From S2P Require Import LifecycleModels CandleIntegrity.
Open Scope string_scope.
Open Scope py_scope.

Definition INVALID_STORED_PLAN_GEOMETRY : string := "invalid_stored_plan_geometry".

(** the separator U+001F of the hashed payloads *)
Definition unit_separator : ascii := Ascii.ascii_of_N 31.

Record StoredPlanGeometry := {
  g_direction : string;
  g_entry_low : dec;
  g_entry_high : dec;
  g_stop_loss : dec;
  g_targets : dec * dec * dec
}.

(** [_text] of a [str] value *)
Definition op_text (value : string) : string :=
  if String.eqb value "" then NA else
  let text := py_strip value in
  if String.eqb text "" then NA else text.

(** [_identity_price], also [canonical_stored_price] *)
Definition identity_price (value : string) : string :=
  let text := op_text value in
  if String.eqb text NA then NA else
  match parse_decimal text with
  | Some (Finite number) =>
      let normalized := dec_format_f (dnormalize number) in
      if str_in normalized ["-0"; "-0.0"] then "0" else normalized
  | _ => text
  end.

Definition canonical_stored_price (value : string) : string := identity_price value.

(** [_stored_invalidation] *)
Definition stored_invalidation (record : SetupLifecycleRecord) : string :=
  let logic := op_text (r_invalidation_logic record) in
  if negb (String.eqb logic NA) then logic else
  let reason := op_text (r_invalidation_reason record) in
  if negb (String.eqb reason NA) then reason else NA.

(** [_plan_identity] *)
Definition plan_identity_values (record : SetupLifecycleRecord)
    (normalize_numeric_representation : bool) : list string :=
  let price v := if normalize_numeric_representation then identity_price v else op_text v in
  ([r_lifecycle_id record; r_symbol record; r_mode record; r_direction record]
   ++ map price [r_entry_low record; r_entry_high record; r_stop_loss record;
                 r_tp1 record; r_tp2 record; r_tp3 record]
   ++ [stored_invalidation record])%list.

Definition plan_identity (record : SetupLifecycleRecord)
    (normalize_numeric_representation : bool) : string :=
  let values := plan_identity_values record normalize_numeric_representation in
  "plan-" +:+ sha256_hexdigest (py_join (String unit_separator "") (map op_text values)).

Definition canonical_plan_identity (record : SetupLifecycleRecord) : string :=
  plan_identity record true.

Definition compatible_plan_identities (record : SetupLifecycleRecord) : list string :=
  dict_fromkeys [canonical_plan_identity record; plan_identity record false].

(** [_required_decimal] *)
Definition stored_decimal (value : pyobj) (name : string) : result dec :=
  match value with
  | PyBool _ => Raise (ValueError ("invalid_" +:+ name))
  | PyNone => Raise (ValueError ("missing_" +:+ name))
  | _ =>
      let blank := match value with PyStr s => str_in s [""; NA] | _ => false end in
      if blank then Raise (ValueError ("missing_" +:+ name)) else
      match parse_decimal (py_str value) with
      | None => Raise (ValueError ("invalid_" +:+ name))
      | Some (Finite d) => Ok d
      | Some _ => Raise (ValueError ("non_finite_" +:+ name))
      end
  end.

(** The [validate_trade_plan] call of [stored_plan_geometry] *)
Definition stored_plan_args (direction : string) (low high stop t1 t2 t3 : dec) : plan_args :=
  {| pa_direction := direction;
     pa_entry_low := PyDec (Finite low);
     pa_entry_high := PyDec (Finite high);
     pa_entry_reference := PyDec (Finite (if String.eqb direction "long" then low else high));
     pa_stop_loss := PyDec (Finite stop);
     pa_tp1 := PyDec (Finite t1); pa_tp2 := PyDec (Finite t2); pa_tp3 := PyDec (Finite t3);
     pa_minimum_rr := PyNone;
     pa_require_all_targets := true;
     pa_entry_reference_type := "favorable_zone_edge";
     pa_execution_cost := PyDec (Finite dzero) |}.

Definition stored_plan_geometry (record : SetupLifecycleRecord) : result StoredPlanGeometry :=
  let direction := py_lower (op_text (r_direction record)) in
  if negb (str_in direction ["long"; "short"])
  then Raise (ValueError ("unsupported_direction:" +:+ r_direction record)) else
  let! low := stored_decimal (PyStr (r_entry_low record)) "entry_low" in
  let! high := stored_decimal (PyStr (r_entry_high record)) "entry_high" in
  let! stop := stored_decimal (PyStr (r_stop_loss record)) "stop_loss" in
  let! t1 := stored_decimal (PyStr (r_tp1 record)) "tp1" in
  let! t2 := stored_decimal (PyStr (r_tp2 record)) "tp2" in
  let! t3 := stored_decimal (PyStr (r_tp3 record)) "tp3" in
  if String.eqb (stored_invalidation record) NA
  then Raise (ValueError "missing_invalidation") else
  if dltb high low then Raise (ValueError "entry_low_above_entry_high") else
  let! integrity := validate_trade_plan (stored_plan_args direction low high stop t1 t2 t3) in
  if negb (tp_valid integrity) then
    Raise (ValueError (if String.eqb direction "long" then "invalid_long_level_order"
                       else "invalid_short_level_order"))
  else Ok {| g_direction := direction; g_entry_low := low; g_entry_high := high;
             g_stop_loss := stop; g_targets := (t1, t2, t3) |}.

(** The [except ValueError] handler: any other exception propagates. *)
Definition stored_plan_geometry_failure (record : SetupLifecycleRecord) : result (option string) :=
  match stored_plan_geometry record with
  | Ok _ => Ok None
  | Raise (ValueError msg) => Ok (Some msg)
  | Raise e => Raise e
  end.

Definition has_valid_stored_plan_geometry (record : SetupLifecycleRecord) : result bool :=
  let! failure := stored_plan_geometry_failure record in
  Ok (match failure with None => true | Some _ => false end).

(** [_required_decimal] of a candle's field *)
Definition candle_decimal (value : cval) (name : string) : result dec :=
  match value with
  | CVal v => stored_decimal v name
  | _ =>
      match parse_decimal (cval_text value) with
      | Some (Finite d) => Ok d
      | Some _ => Raise (ValueError ("non_finite_" +:+ name))
      | None => Raise (ValueError ("invalid_" +:+ name))
      end
  end.

(** one iteration of the [open]/[close] loop *)
Definition check_price_field (opened : string) (high low : dec) (name : string) (raw : cval)
    : result unit :=
  if none_or_na raw then Ok tt else
  if blank_text raw then
    Raise (ValueError ("candle_integrity:invalid_ohlc_range open=" +:+ opened +:+ " "
                         +:+ name +:+ "=blank"))
  else
  let! price := candle_decimal raw ("candle_" +:+ name) in
  if dleb price dzero || negb (dleb low price && dleb price high) then
    Raise (ValueError ("candle_integrity:invalid_ohlc_range open=" +:+ opened +:+ " "
                         +:+ name +:+ "=" +:+ dec_to_string price
                         +:+ " high=" +:+ dec_to_string high +:+ " low=" +:+ dec_to_string low))
  else Ok tt.

(** one iteration of the volume loop *)
Definition check_volume_field (opened : string) (name : string) (raw : cval) : result unit :=
  if none_or_na raw then Ok tt else
  if blank_text raw then
    Raise (ValueError ("candle_integrity:invalid_" +:+ name +:+ " open=" +:+ opened))
  else
  let! vol := candle_decimal raw ("candle_" +:+ name) in
  if dltb vol dzero then
    Raise (ValueError ("candle_integrity:invalid_" +:+ name +:+ " open=" +:+ opened +:+ " "
                         +:+ name +:+ "=" +:+ dec_to_string vol))
  else Ok tt.

Definition candle_range (causal : CausalCandle) : result (dec * dec) :=
  let! high := candle_decimal (field (cc_source causal) "high") "candle_high" in
  let! low := candle_decimal (field (cc_source causal) "low") "candle_low" in
  let opened := isoformat (cc_open_timestamp causal) in
  if dleb high dzero || dleb low dzero || dltb high low then
    Raise (ValueError ("candle_integrity:invalid_ohlc_range open=" +:+ opened
                         +:+ " high=" +:+ dec_to_string high +:+ " low=" +:+ dec_to_string low))
  else
  let! _ := check_price_field opened high low "open" (field (cc_source causal) "open") in
  let! _ := check_price_field opened high low "close" (field (cc_source causal) "close") in
  let! _ := check_volume_field opened "volume" (field (cc_source causal) "volume") in
  let! _ := check_volume_field opened "quote_volume" (field (cc_source causal) "quote_volume") in
  let! _ := check_volume_field opened "turnover" (field (cc_source causal) "turnover") in
  Ok (high, low).

Definition entry_touched (high low : dec) (geometry : StoredPlanGeometry) : bool :=
  dleb (g_entry_low geometry) high && dleb low (g_entry_high geometry).

Definition stop_touched (high low : dec) (geometry : StoredPlanGeometry) : bool :=
  if String.eqb (g_direction geometry) "long" then dleb low (g_stop_loss geometry)
  else dleb (g_stop_loss geometry) high.

Definition target_touched (high low : dec) (geometry : StoredPlanGeometry) (target : dec) : bool :=
  if String.eqb (g_direction geometry) "long" then dleb target high else dleb low target.

(** [newly_touched_targets]: the loop over [enumerate(targets, start=1)] *)
Definition target_if_new (high low : dec) (geometry : StoredPlanGeometry) (recorded : option string)
    (number : Z) (target : dec) : list (Z * dec) :=
  match recorded with
  | Some _ => []
  | None => if target_touched high low geometry target then [(number, target)] else []
  end.

Definition newly_touched_targets (high low : dec) (geometry : StoredPlanGeometry)
    (progress : SetupLifecycleOutcomeProgress) : list (Z * dec) :=
  let '(t1, t2, t3) := g_targets geometry in
  (target_if_new high low geometry (pg_tp1_at progress) 1 t1
   ++ target_if_new high low geometry (pg_tp2_at progress) 2 t2
   ++ target_if_new high low geometry (pg_tp3_at progress) 3 t3)%list.

(** ** Specification *)

Local Open Scope Q_scope.

(** The stop, the zone and the three targets in strict order of profit. *)
Definition levels_ordered (direction : string) (low high stop t1 t2 t3 : dec) : Prop :=
  if String.eqb direction "long" then
    0 < dQ stop /\ dQ stop < dQ low /\ dQ low <= dQ high /\ dQ high < dQ t1 /\
    dQ t1 < dQ t2 /\ dQ t2 < dQ t3
  else
    0 < dQ t3 /\ dQ t3 < dQ t2 /\ dQ t2 < dQ t1 /\ dQ t1 < dQ low /\
    dQ low <= dQ high /\ dQ high < dQ stop.

Definition geometry_ordered (g : StoredPlanGeometry) : Prop :=
  let '(t1, t2, t3) := g_targets g in
  str_in (g_direction g) ["long"; "short"] = true /\
  levels_ordered (g_direction g) (g_entry_low g) (g_entry_high g) (g_stop_loss g) t1 t2 t3.

(** A stored level is the text of a finite Decimal. *)
Definition stored_level (text : string) (d : dec) : Prop :=
  text <> "" /\ text <> NA /\ parse_decimal text = Some (Finite d).

Definition stored_plan_spec (record : SetupLifecycleRecord) (g : StoredPlanGeometry) : Prop :=
  let '(t1, t2, t3) := g_targets g in
  g_direction g = py_lower (op_text (r_direction record)) /\
  stored_level (r_entry_low record) (g_entry_low g) /\
  stored_level (r_entry_high record) (g_entry_high g) /\
  stored_level (r_stop_loss record) (g_stop_loss g) /\
  stored_level (r_tp1 record) t1 /\ stored_level (r_tp2 record) t2 /\
  stored_level (r_tp3 record) t3 /\
  stored_invalidation record <> NA /\
  geometry_ordered g.

(** ** Helper lemmas *)

Lemma str_in_two s a b : str_in s [a; b] = true <-> s = a \/ s = b.
Proof. rewrite str_in_spec. simpl. intuition congruence. Qed.

Lemma stored_decimal_text text name d :
  stored_decimal (PyStr text) name = Ok d <-> stored_level text d.
Proof.
  unfold stored_decimal, stored_level. cbn [py_str].
  destruct (str_in text [""; NA]) eqn:E.
  - rewrite str_in_two in E. intuition (try discriminate; congruence).
  - assert (text <> "" /\ text <> NA) as [].
    { split; intros ->; by rewrite (proj2 (str_in_two _ "" NA)) in E by auto. }
    destruct (parse_decimal text) as [[]|]; split; intros Hd; (try discriminate Hd);
      (try (destruct Hd as (_ & _ & [=]); by subst)); injection Hd as ->; auto.
Qed.

Lemma stored_decimal_error value name e :
  stored_decimal value name = Raise e -> exists msg, e = ValueError msg.
Proof.
  assert (forall o : option pydec,
    match o with None => Raise (ValueError ("invalid_" +:+ name))
    | Some (Finite d) => Ok d | Some _ => Raise (ValueError ("non_finite_" +:+ name)) end
    = Raise e -> exists msg, e = ValueError msg) as Hp.
  { intros [[]|] [=]; subst; eauto. }
  destruct value; simpl; try (intros [= <-]; eauto; fail); try apply Hp.
  destruct (_ || _); [intros [= <-]; eauto|apply Hp].
Qed.

Lemma direction_side direction :
  str_in direction ["long"; "short"] = true -> py_lower (py_strip direction) = direction.
Proof. rewrite str_in_two. by intros [-> | ->]. Qed.

(** The trade-plan check, on the arguments a stored plan passes to it, is the
    strict order of the levels. *)
Lemma stored_plan_args_acceptable direction low high stop t1 t2 t3 :
  str_in direction ["long"; "short"] = true ->
  dQ low <= dQ high ->
  acceptable_plan (stored_plan_args direction low high stop t1 t2 t3) <->
  levels_ordered direction low high stop t1 t2 t3.
Proof.
  intros Hd Hz. unfold acceptable_plan, plan_side, stored_plan_args, parse_plan. simpl pa_direction.
  rewrite direction_side by done. cbn [pa_entry_low pa_entry_high pa_entry_reference pa_stop_loss
    pa_tp1 pa_tp2 pa_tp3 pa_minimum_rr pa_require_all_targets pa_execution_cost].
  rewrite !required_decimal_finite, !optional_decimal_finite.
  cbn [bind_result]. change (optional_decimal PyNone "minimum_rr" false) with (@Ok (option dec) None).
  cbn [bind_result]. unfold levels_ordered. pose proof dQ_zero as H0.
  split.
  - intros (_ & p & [= <-] & _ & Hg & _). simpl in Hg. unfold plan_geometry in Hg.
    rewrite !Forall_cons in Hg.
    destruct (String.eqb direction "long"); destruct Hg as (? & ? & ? & ? & ? & ? & Hs);
    repeat match goal with H : StronglySorted _ (_ :: _) |- _ => apply StronglySorted_inv in H as [? ?] end;
    rewrite ?Forall_cons in *; destruct_and?; repeat split; lra.
  - intros H. split; [done|]. eexists; split; [reflexivity|]. simpl. split; [lra|].
    unfold plan_geometry, plan_economics, plan_reward.
    destruct (String.eqb direction "long"); destruct_and?;
    (split; [repeat split; try lra;
      repeat first [apply List.Forall_nil | apply List.Forall_cons | apply SSorted_nil | apply SSorted_cons];
      cbv beta; lra|]);
    (split; [apply dsub_pos, (Qle_lt_trans _ 0); [lra|apply dsub_pos; lra]|done]).
Qed.

Lemma stored_plan_geometry_iff record g :
  stored_plan_geometry record = Ok g <-> stored_plan_spec record g.
Proof.
  unfold stored_plan_geometry, stored_plan_spec, geometry_ordered.
  destruct g as [dir lo hi st [[t1 t2] t3]].
  cbn [g_direction g_entry_low g_entry_high g_stop_loss g_targets].
  set (d := py_lower (op_text (r_direction record))).
  destruct (str_in d ["long"; "short"]) eqn:Ed; simpl negb; cbv iota.
  2:{ split; [intros [=]|]. intros (-> & _ & _ & _ & _ & _ & _ & _ & H & _). congruence. }
  split.
  - intros H.
    repeat match type of H with
    | bind_result (stored_decimal (PyStr ?t) ?n) _ = _ =>
        let E := fresh "E" in destruct (stored_decimal (PyStr t) n) eqn:E; cbn [bind_result] in H;
        [apply stored_decimal_text in E|discriminate]
    end.
    destruct (String.eqb_spec (stored_invalidation record) NA); [done|].
    destruct (dltb _ _) eqn:Ez; [done|].
    match type of H with context [validate_trade_plan ?a] =>
      destruct (validate_trade_plan_iff a) as (r & Hr & Hiff) end.
    rewrite Hr in H. cbn [bind_result] in H. destruct (tp_valid r) eqn:Ev; [|done].
    injection H as <- <- <- <- <- <- <-. apply dltb_false in Ez.
    apply proj1 in Hiff. specialize (Hiff eq_refl). apply stored_plan_args_acceptable in Hiff; [|done..].
    tauto.
  - intros (-> & E1 & E2 & E3 & E4 & E5 & E6 & Hi & _ & Ho).
    rewrite !(proj2 (stored_decimal_text _ _ _) E1), !(proj2 (stored_decimal_text _ _ _) E2),
      !(proj2 (stored_decimal_text _ _ _) E3), !(proj2 (stored_decimal_text _ _ _) E4),
      !(proj2 (stored_decimal_text _ _ _) E5), !(proj2 (stored_decimal_text _ _ _) E6).
    cbn [bind_result]. apply String.eqb_neq in Hi. rewrite Hi.
    assert (dQ lo <= dQ hi) as Hz by (unfold levels_ordered in Ho; destruct (String.eqb d "long"); lra).
    rewrite (proj2 (dltb_false hi lo)) by done.
    destruct (validate_trade_plan_iff (stored_plan_args d lo hi st t1 t2 t3)) as (r & -> & Hiff).
    cbn [bind_result]. apply stored_plan_args_acceptable in Ho; [|done..].
    by rewrite (proj2 Hiff Ho).
Qed.

Lemma stored_plan_geometry_error record e :
  stored_plan_geometry record = Raise e -> exists msg, e = ValueError msg.
Proof.
  unfold stored_plan_geometry. destruct (negb _); [intros [= <-]; eauto|]. intros H.
  repeat match type of H with
  | bind_result (stored_decimal ?v ?n) _ = _ =>
      let E := fresh "E" in destruct (stored_decimal v n) eqn:E; cbn [bind_result] in H;
      [|injection H as <-; by apply stored_decimal_error in E]
  end.
  destruct (String.eqb _ NA); [injection H as <-; eauto|].
  destruct (dltb _ _); [injection H as <-; eauto|].
  match type of H with context [validate_trade_plan ?a] =>
    destruct (validate_trade_plan_iff a) as (r & Hr & _) end.
  rewrite Hr in H. cbn [bind_result] in H. destruct (negb (tp_valid r)); [injection H as <-; eauto|discriminate].
Qed.

(** The failure query never raises: its handler covers every exception. *)
Lemma stored_plan_geometry_failure_total record :
  (exists g, stored_plan_geometry record = Ok g /\ stored_plan_geometry_failure record = Ok None) \/
  (exists msg, stored_plan_geometry record = Raise (ValueError msg) /\
               stored_plan_geometry_failure record = Ok (Some msg)).
Proof.
  unfold stored_plan_geometry_failure. destruct (stored_plan_geometry record) as [g|e] eqn:E; [eauto|].
  destruct (stored_plan_geometry_error record e E) as [msg ->]. eauto.
Qed.

(** Blank text never reads as a number. *)
Lemma blank_text_no_decimal raw name p : candle_decimal raw name = Ok p -> blank_text raw = false.
Proof.
  destruct raw as [[| | | | |s]|t|b text]; try done. cbn [candle_decimal blank_text].
  unfold stored_decimal. cbn [py_str]. destruct (String.eqb_spec (py_strip s) "") as [E|]; [|done].
  destruct (str_in _ _) eqn:F; [discriminate|]. unfold parse_decimal. rewrite E. discriminate.
Qed.

Lemma check_price_field_iff opened high low name raw :
  check_price_field opened high low name raw = Ok tt <->
  none_or_na raw = true \/
  exists p, candle_decimal raw ("candle_" +:+ name) = Ok p /\ 0 < dQ p /\ dQ low <= dQ p <= dQ high.
Proof.
  unfold check_price_field. destruct (none_or_na raw); [split; auto|].
  split.
  - destruct (blank_text raw); [intros [=]|].
    destruct (candle_decimal raw ("candle_" +:+ name)) as [p|]; cbn [bind_result]; [|intros [=]].
    destruct (_ || _) eqn:E; [intros [=]|]. intros _. right. exists p. split; [done|].
    apply orb_false_iff in E as [E1 E2]. pose proof dQ_zero. dec_lra.
  - intros [[=]|(p & Hp & H0 & H1)]. rewrite (blank_text_no_decimal _ _ _ Hp), Hp. cbn [bind_result].
    destruct (_ || _) eqn:E; [|done]. exfalso. pose proof dQ_zero.
    apply orb_true_iff in E as [E|E]; [dec_lra|].
    apply negb_true_iff, andb_false_iff in E as [E|E]; dec_lra.
Qed.

Lemma check_volume_field_iff opened name raw :
  check_volume_field opened name raw = Ok tt <->
  none_or_na raw = true \/ exists v, candle_decimal raw ("candle_" +:+ name) = Ok v /\ 0 <= dQ v.
Proof.
  unfold check_volume_field. destruct (none_or_na raw); [split; auto|].
  pose proof dQ_zero. split.
  - destruct (blank_text raw); [intros [=]|].
    destruct (candle_decimal raw ("candle_" +:+ name)) as [v|]; cbn [bind_result]; [|intros [=]].
    destruct (dltb v dzero) eqn:E; [intros [=]|]. intros _. right. exists v. split; [done|]. dec_lra.
  - intros [[=]|(v & Hv & H0)]. rewrite (blank_text_no_decimal _ _ _ Hv), Hv. cbn [bind_result].
    destruct (dltb v dzero) eqn:E; [|done]. exfalso. dec_lra.
Qed.

(** What a usable outcome candle is, field by field. *)
Definition candle_range_spec (source : candle) (high low : dec) : Prop :=
  candle_decimal (field source "high") "candle_high" = Ok high /\
  candle_decimal (field source "low") "candle_low" = Ok low /\
  0 < dQ low /\ dQ low <= dQ high /\
  (forall name, In name ["open"; "close"] ->
     none_or_na (field source name) = true \/
     exists p, candle_decimal (field source name) ("candle_" +:+ name) = Ok p /\ dQ low <= dQ p <= dQ high) /\
  (forall name, In name ["volume"; "quote_volume"; "turnover"] ->
     none_or_na (field source name) = true \/
     exists v, candle_decimal (field source name) ("candle_" +:+ name) = Ok v /\ 0 <= dQ v).

Lemma candle_range_iff causal high low :
  candle_range causal = Ok (high, low) <-> candle_range_spec (cc_source causal) high low.
Proof.
  unfold candle_range, candle_range_spec. pose proof dQ_zero as Hz. split.
  - intros H.
    destruct (candle_decimal (field _ "high") _) as [h|]; cbn [bind_result] in H; [|discriminate].
    destruct (candle_decimal (field _ "low") _) as [l|]; cbn [bind_result] in H; [|discriminate].
    destruct (_ || _) eqn:E; [discriminate|].
    repeat match type of H with
    | bind_result ?c _ = _ =>
        let E := fresh "C" in destruct c as [[]|] eqn:E; cbn [bind_result] in H; [|discriminate]
    end.
    injection H as <- <-. rewrite !orb_false_iff in E.
    rewrite check_price_field_iff in C, C0. rewrite check_volume_field_iff in C1, C2, C3.
    split_and!; try done; try dec_lra.
    + intros name [<-|[<-|[]]]; [destruct C as [?|(p & ? & ? & ?)]|destruct C0 as [?|(p & ? & ? & ?)]]; eauto.
    + intros name [<-|[<-|[<-|[]]]]; assumption.
  - intros (Hh & Hl & H0 & H1 & Hp & Hv). rewrite Hh, Hl. cbn [bind_result].
    destruct (_ || _) eqn:E.
    { exfalso. rewrite !orb_true_iff in E. destruct E as [[E|E]|E]; dec_lra. }
    assert (forall name, In name ["open"; "close"] ->
      check_price_field (isoformat (cc_open_timestamp causal)) high low name
        (field (cc_source causal) name) = Ok tt) as Fp.
    { intros name Hn. apply check_price_field_iff. destruct (Hp name Hn) as [?|(p & ? & ?)]; [auto|].
      right. exists p. split; [done|]. lra. }
    assert (forall name, In name ["volume"; "quote_volume"; "turnover"] ->
      check_volume_field (isoformat (cc_open_timestamp causal)) name
        (field (cc_source causal) name) = Ok tt) as Fv.
    { intros name Hn. apply check_volume_field_iff. by apply Hv. }
    rewrite !Fp by (simpl; tauto). cbn [bind_result]. rewrite !Fv by (simpl; tauto). reflexivity.
Qed.

(** [progress] already records target [n]. *)
Definition target_recorded (progress : SetupLifecycleOutcomeProgress) (n : Z) : bool :=
  match (if (n =? 1)%Z then pg_tp1_at progress
         else if (n =? 2)%Z then pg_tp2_at progress else pg_tp3_at progress) with
  | Some _ => true
  | None => false
  end.

Lemma target_touched_mono high low g a b :
  (if String.eqb (g_direction g) "long" then dQ a <= dQ b else dQ b <= dQ a) ->
  target_touched high low g b = true -> target_touched high low g a = true.
Proof.
  unfold target_touched. destruct (String.eqb _ _); rewrite !dleb_spec; intros; lra.
Qed.

Lemma target_if_new_in high low g recorded number target k t :
  In (k, t) (target_if_new high low g recorded number target) <->
  recorded = None /\ target_touched high low g target = true /\ k = number /\ t = target.
Proof.
  unfold target_if_new. destruct recorded, (target_touched high low g target); simpl;
    intuition congruence.
Qed.

(** Representations of one price with at most 28 digits have one identity text. *)
Lemma identity_price_stable v1 v2 d1 d2 :
  stored_level (op_text v1) d1 -> stored_level (op_text v2) d2 ->
  (ndigits (d_coef d1) <= prec)%nat -> (ndigits (d_coef d2) <= prec)%nat ->
  dQ d1 == dQ d2 -> identity_price v1 = identity_price v2.
Proof.
  intros (_ & N1 & P1) (_ & N2 & P2) D1 D2 H. unfold identity_price.
  apply String.eqb_neq in N1, N2. rewrite N1, N2, P1, P2.
  destruct (N.eq_dec (d_coef d1) 0) as [Z1|Z1].
  - assert (d_coef d2 = 0%N) as Z2 by (rewrite coef_zero_dQ in *; lra).
    unfold dnormalize. rewrite !dfix_small, Z1, Z2 by done. by destruct (d_neg d1), (d_neg d2).
  - by rewrite (dnormalize_canonical d1 d2).
Qed.

(** ** Properties *)

(** reading a stored plan is total up to [ValueError] and implements its
    specification: it returns [g] exactly when the direction is long or short,
    all six level texts are finite Decimals, an invalidation is stored and the
    levels of [g] are strictly ordered on the winning and losing sides; the
    failure query, whose handler only catches [ValueError], never raises and
    reports no failure exactly for such plans. *)
Theorem stored_plan_geometry_refines_spec record :
  (forall g, stored_plan_geometry record = Ok g <-> stored_plan_spec record g) /\
  exists failure, stored_plan_geometry_failure record = Ok failure /\
    (failure = None <-> exists g, stored_plan_spec record g).
Proof.
  split; [intros g; apply stored_plan_geometry_iff|].
  destruct (stored_plan_geometry_failure_total record) as [(g & Hg & ->)|(msg & Hg & ->)];
    eexists; (split; [reflexivity|]).
  - split; [|done]. intros _. exists g. by apply stored_plan_geometry_iff.
  - split; [done|]. intros (g & Hs). apply stored_plan_geometry_iff in Hs. congruence.
Qed.

(** the range of a candle is returned exactly for usable candles: high and
    low are finite decimals with 0 < low <= high, an open or close that is
    present lies in that range, and a volume that is present is not negative;
    every other candle is refused. *)
Theorem candle_range_refines_spec causal high low :
  candle_range causal = Ok (high, low) <-> candle_range_spec (cc_source causal) high low.
Proof. apply candle_range_iff. Qed.

Definition sample_candle : CausalCandle :=
  mkCausalCandle
    (MappingCandle [("high", CVal (PyStr "105.5")); ("low", CVal (PyStr "99"));
                    ("open", CVal (PyDec (Finite (dec_of_Z 100)))); ("volume", CVal (PyStr "N/A"));
                    ("quote_volume", CVal (PyInt 7))])
    (mkDatetime 63871200000000000 (Some 0%Z)) (mkDatetime 63871200900000000 (Some 0%Z)) (Some 0%nat).

Example sample_candle_range :
  candle_range sample_candle = Ok (mkDec false 1055 (-1), mkDec false 99 0).
Proof. vm_compute. reflexivity. Qed.

(** On an ordered plan one candle reports targets without a hole: when it
    newly reaches target [k], every earlier target is already recorded or is
    reported with it, and no recorded target is reported again. *)
Theorem touched_targets_contiguous high low g progress k t :
  geometry_ordered g ->
  In (k, t) (newly_touched_targets high low g progress) ->
  target_recorded progress k = false /\
  forall j, (1 <= j < k)%Z ->
    target_recorded progress j = true \/
    exists t', In (j, t') (newly_touched_targets high low g progress).
Proof.
  unfold geometry_ordered, newly_touched_targets. destruct (g_targets g) as [[t1 t2] t3].
  intros [_ Ho] Hin. unfold levels_ordered in Ho.
  assert (target_touched high low g t2 = true -> target_touched high low g t1 = true) as M12
    by (apply target_touched_mono; destruct (String.eqb _ _); lra).
  assert (target_touched high low g t3 = true -> target_touched high low g t2 = true) as M23
    by (apply target_touched_mono; destruct (String.eqb _ _); lra).
  rewrite !in_app_iff, !target_if_new_in in Hin. unfold target_recorded.
  split.
  - destruct Hin as [(H & _ & -> & _)|[(H & _ & -> & _)|(H & _ & -> & _)]]; simpl; by rewrite H.
  - intros j Hj.
    assert (j = 1 \/ j = 2)%Z as Hj' by (destruct_or? Hin; lia).
    destruct Hj' as [-> | ->]; simpl.
    + destruct (pg_tp1_at progress) eqn:E1; [auto|]. right. exists t1.
      rewrite !in_app_iff, !target_if_new_in. left. repeat split.
      destruct Hin as [(_ & ? & -> & _)|[(_ & ? & -> & _)|(_ & ? & -> & _)]]; [lia|auto..].
    + destruct (pg_tp2_at progress) eqn:E2; [auto|]. right. exists t2.
      rewrite !in_app_iff, !target_if_new_in. right; left. repeat split.
      destruct Hin as [(_ & ? & -> & _)|[(_ & ? & -> & _)|(_ & ? & -> & _)]]; [lia..|auto].
Qed.

(** Rows used by the concrete evaluations of this library. *)
Definition sample_record : SetupLifecycleRecord :=
  {| r_lifecycle_id := "L1"; r_symbol := "BTCUSDT"; r_mode := "swing"; r_direction := "long";
     r_current_state := WATCHLISTED; r_previous_state := None;
     r_first_seen_at := "2025-01-01T00:00:00+00:00";
     r_last_seen_at := "2025-01-01T00:00:00+00:00";
     r_last_transition_at := "2025-01-01T00:00:00+00:00";
     r_failed_gate := NA; r_candidate_quality_grade := NA; r_final_quality_grade := NA;
     r_technical_score := NA; r_opportunity_score := NA; r_final_failed_gate := NA;
     r_final_block_reason := NA; r_target_integrity_status := NA; r_target_failure := NA;
     r_target_failure_severity := NA; r_target_warning_reason := NA; r_actionability_state := NA;
     r_readiness_score := 60; r_quality_score := 80; r_edge_score := NA; r_regime_state := NA;
     r_action_label := NA; r_invalidation_reason := "close below 95"; r_cooldown_until := None;
     r_archived_at := None; r_entry_low := "99"; r_entry_high := "100"; r_stop_loss := "95";
     r_tp1 := "110"; r_tp2 := "120"; r_tp3 := "130"; r_rr := "4";
     r_invalidation_logic := "close below 95"; r_confirmation_count := 0;
     r_required_confirmation_cycles := 2; r_quality_grade_first_seen := "A";
     r_quality_grade_current := "A"; r_quality_grade_confirmed := NA; r_confirmed_at := None;
     r_decay_count := 0; r_decay_reason := NA; r_symbol_health_score_at_detection := NA;
     r_symbol_health_penalty_cycles := 0; r_setup_identity := "id"; r_structural_anchor := NA;
     r_is_current := true; r_setup_id := None; r_plan_version_id := None;
     r_economic_identity_reason := None; r_runtime_epoch_id := None; r_creation_origin_id := None |}.

Definition sample_geometry : StoredPlanGeometry :=
  {| g_direction := "long"; g_entry_low := dec_of_Z 99; g_entry_high := dec_of_Z 100;
     g_stop_loss := dec_of_Z 95; g_targets := (dec_of_Z 110, dec_of_Z 120, dec_of_Z 130) |}.

Definition sample_progress : SetupLifecycleOutcomeProgress :=
  {| pg_lifecycle_id := "L1"; pg_plan_identity := "P1"; pg_symbol := "BTCUSDT"; pg_mode := "swing";
     pg_direction := "long"; pg_execution_timeframe := "15m"; pg_tracking_start_at := None;
     pg_evaluation_cursor_open_at := None; pg_evaluation_cursor_close_at := None;
     pg_entry_at := None; pg_tp1_at := Some "2025-01-01T01:00:00+00:00"; pg_tp2_at := None;
     pg_tp3_at := None; pg_stop_at := None; pg_invalidated_at := None; pg_outcome_at := None;
     pg_terminal_outcome := NA; pg_integrity_status := NA; pg_diagnostic := NA;
     pg_metadata_json := "{}"; pg_first_evaluated_at := "2025-01-01T00:00:00+00:00";
     pg_last_evaluated_at := "2025-01-01T00:00:00+00:00"; pg_plan_version_id := None;
     pg_last_eligibility_decision_at := None; pg_last_eligibility_prefix_evidence_json := None;
     pg_eligibility_cutoff_observed := false |}.

Example sample_plan_read : stored_plan_geometry sample_record = Ok sample_geometry.
Proof. vm_compute. reflexivity. Qed.

Lemma touched_targets_contiguous_witness :
  target_recorded sample_progress 3 = false /\
  forall j, (1 <= j < 3)%Z -> target_recorded sample_progress j = true \/
    exists t', In (j, t') (newly_touched_targets (dec_of_Z 131) (dec_of_Z 108) sample_geometry sample_progress).
Proof.
  apply (touched_targets_contiguous (dec_of_Z 131) (dec_of_Z 108) sample_geometry sample_progress 3 (dec_of_Z 130)).
  - split; [reflexivity|]. vm_compute. repeat split; discriminate.
  - vm_compute. right; left. reflexivity.
Defined.

(** Two texts of one price, within the 28 digits of the decimal context *)
Definition same_price (v1 v2 : string) : Prop :=
  exists d1 d2, stored_level (op_text v1) d1 /\ stored_level (op_text v2) d2 /\
    (ndigits (d_coef d1) <= prec)%nat /\ (ndigits (d_coef d2) <= prec)%nat /\ deq d1 d2.

Lemma same_price_identity v1 v2 : same_price v1 v2 -> identity_price v1 = identity_price v2.
Proof. intros (d1 & d2 & ? & ? & ? & ? & ?). by apply (identity_price_stable v1 v2 d1 d2). Qed.

(** the canonical plan identity does not depend on how the stored prices are
    written ("100", "100.0", "1E+2", a sign on zero): two records that agree on
    the lifecycle fields and the invalidation and store numerically equal
    levels have the same identity, which is also the first of the identities
    accepted for compatibility. *)
Theorem canonical_plan_identity_stable a b :
  r_lifecycle_id a = r_lifecycle_id b -> r_symbol a = r_symbol b ->
  r_mode a = r_mode b -> r_direction a = r_direction b ->
  stored_invalidation a = stored_invalidation b ->
  same_price (r_entry_low a) (r_entry_low b) -> same_price (r_entry_high a) (r_entry_high b) ->
  same_price (r_stop_loss a) (r_stop_loss b) -> same_price (r_tp1 a) (r_tp1 b) ->
  same_price (r_tp2 a) (r_tp2 b) -> same_price (r_tp3 a) (r_tp3 b) ->
  canonical_plan_identity a = canonical_plan_identity b /\
  In (canonical_plan_identity a) (compatible_plan_identities b).
Proof.
  intros H1 H2 H3 H4 H5 P1 P2 P3 P4 P5 P6.
  assert (canonical_plan_identity a = canonical_plan_identity b) as E.
  { unfold canonical_plan_identity, plan_identity, plan_identity_values. cbn [map].
    by rewrite H1, H2, H3, H4, H5, (same_price_identity _ _ P1), (same_price_identity _ _ P2),
      (same_price_identity _ _ P3), (same_price_identity _ _ P4), (same_price_identity _ _ P5),
      (same_price_identity _ _ P6). }
  split; [done|]. rewrite E. by left.
Qed.

Ltac decide_same_price :=
  match goal with |- same_price ?a ?b =>
    let da := eval vm_compute in (parse_decimal (op_text a)) in
    let db := eval vm_compute in (parse_decimal (op_text b)) in
    lazymatch da with Some (Finite ?x) => lazymatch db with Some (Finite ?y) =>
      exists x, y; repeat split; try (vm_compute; discriminate); try (vm_compute; reflexivity);
      vm_compute; lia end end end.

Definition respelled_record : SetupLifecycleRecord :=
  sample_record <| r_entry_low := "99.0" |> <| r_entry_high := "1E+2" |> <| r_tp1 := " 110.00 " |>.

Lemma canonical_plan_identity_stable_witness :
  r_entry_low respelled_record <> r_entry_low sample_record /\
  canonical_plan_identity sample_record = canonical_plan_identity respelled_record.
Proof.
  split; [discriminate|].
  apply (canonical_plan_identity_stable sample_record respelled_record);
    first [reflexivity | decide_same_price].
Defined.
