(* ===== verification/Identity.v ===== *)
(** * Setup generations (src/app/lifecycle/identity.py)

    The geometry identity of a setup, the identifier of one persisted
    generation and the rule that starts a new one. *)

From stdpp Require Import base tactics list strings.
From Stdlib Require Import ZArith NArith Lia Bool Ascii.
From S2P Require Import Prelude PyString PyDecimal PyTime Sha256 LifecycleModels OutcomePolicy.
Open Scope string_scope.
Open Scope py_scope.

Definition GENERATION_IDENTITY_VERSION : string := "cci-lifecycle-generation-v1".

(** [_text] *)
Definition gid_text (value : option string) : string :=
  match value with
  | None => NA
  | Some v =>
      let text := py_strip v in
      if negb (String.eqb text "") && negb (String.eqb (py_upper text) NA) then text else NA
  end.

(** [_symbol] *)
Definition gid_symbol (value : option string) : string :=
  let text := gid_text value in
  if String.eqb text NA then NA else py_upper text.

(** [_identity_text] *)
Definition gid_identity_text (value : option string) : string :=
  let text := gid_text value in
  if String.eqb text NA then NA else py_lower text.

Definition setup_geometry_identity
    (symbol mode direction entry_low entry_high stop_loss invalidation_reason : string) : string :=
  py_join "|" (map (fun v => gid_text (Some v))
    [gid_symbol (Some symbol); gid_identity_text (Some mode); gid_identity_text (Some direction);
     entry_low; entry_high; stop_loss; invalidation_reason]).

(** The text an anchored generation is named after *)
Definition generation_seed (symbol mode direction : option string) (anchor : string) : string :=
  py_join (String unit_separator "")
    [GENERATION_IDENTITY_VERSION; gid_symbol symbol; gid_identity_text mode;
     gid_identity_text direction; anchor].

(** [fallback] is the text the factory ([uuid4().hex] by default) returns. *)
Definition new_setup_generation_id (symbol mode direction structural_anchor : option string)
    (fallback : option string) : string :=
  let anchor := gid_text structural_anchor in
  if negb (String.eqb anchor NA) then
    take_string 32 (sha256_hexdigest (generation_seed symbol mode direction anchor))
  else gid_text fallback.

(** [_parse_timestamp] *)
Definition gid_parse_timestamp (value : option string) : result (option datetime) :=
  let text := gid_text value in
  if String.eqb text NA then Ok None else
  match fromisoformat (py_replace "Z" "+00:00" text) with
  | None => Ok None
  | Some parsed =>
      match dt_offset parsed with
      | None => Ok (Some (as_utc parsed))
      | Some _ => let! utc := astimezone_utc parsed in Ok (Some utc)
      end
  end.

(** [_timestamp_reached] *)
Definition timestamp_reached (value now : option string) : result bool :=
  let! expiry := gid_parse_timestamp value in
  let! current := gid_parse_timestamp now in
  match expiry, current with
  | Some e, Some c => Ok (instant e <=? instant c)%Z
  | _, _ => Ok false
  end.

Definition generation_rotation_reason (record : option SetupLifecycleRecord)
    (observed_structural_anchor : option string) (setup_observable terminal_observation : bool)
    (now : string) : result (option string) :=
  match record with
  | None => Ok None
  | Some record =>
      if negb setup_observable || terminal_observation then Ok None else
      let observed_anchor := gid_text observed_structural_anchor in
      let stored_anchor := gid_text (Some (r_structural_anchor record)) in
      if negb (String.eqb observed_anchor NA) && negb (String.eqb stored_anchor NA) then
        if negb (String.eqb observed_anchor stored_anchor) then Ok (Some "new_structural_anchor")
        else Ok None
      else if negb (String.eqb stored_anchor NA) && String.eqb observed_anchor NA then Ok None
      else if state_eqb (r_current_state record) ARCHIVED
      then Ok (Some "archived_lifecycle_new_setup")
      else if state_eqb (r_current_state record) COOLDOWN then
        let! reached := timestamp_reached (r_cooldown_until record) (Some now) in
        if reached then Ok (Some "completed_cooldown_new_setup") else Ok None
      else Ok None
  end.
