(* ===== verification/EconomicIdentity.v ===== *)
(** * Economic identities (src/app/lifecycle/economic_identity.py)

    [setup_id] names the structural lineage of a setup, [plan_version_id] one
    immutable version of its plan.  Both hash canonical fields joined with
    U+001F; both are latched on the record and then never overwritten. *)

From stdpp Require Import base tactics list strings.
From Stdlib Require Import ZArith NArith QArith Lia Lqa Bool Ascii.
From S2P Require Import Prelude PyString PyDecimal DecimalFacts Sha256 LifecycleModels.
From S2P Require Import OutcomePolicy.
Open Scope string_scope.
Open Scope py_scope.

Definition SETUP_ID_SCHEMA_VERSION : string := "cci-setup-id-v1".
Definition PLAN_VERSION_ID_SCHEMA_VERSION : string := "cci-plan-version-v1".
Definition SETUP_ID_PREFIX : string := "setup-".
Definition PLAN_VERSION_ID_PREFIX : string := "plan-version-".
Definition CANONICAL_SEPARATOR : string := String unit_separator "".
Definition OPTIONAL_NULL_TOKEN : string := "optional-null".

Definition REASON_MISSING_INSTRUMENT_VENUE : string := "missing_instrument_venue".
Definition REASON_MISSING_SYMBOL : string := "missing_symbol".
Definition REASON_MISSING_DIRECTION : string := "missing_direction".
Definition REASON_MISSING_MODE : string := "missing_mode".
Definition REASON_MISSING_STRUCTURAL_ANCHOR : string := "missing_structural_anchor".
Definition REASON_MISSING_SETUP_ID : string := "setup_id_unavailable".
Definition REASON_MISSING_INVALIDATION : string := "missing_invalidation".
Definition REASON_PLAN_GEOMETRY_UNLOCKED : string := "plan_geometry_unlocked".
Definition REASON_INVALID_STORED_PLAN_GEOMETRY : string := "invalid_stored_plan_geometry".
Definition REASON_PLAN_VERSION_INVARIANT_VIOLATION : string := "plan_version_invariant_violation".

Inductive IdentityFieldKind : Type := VALUE | REQUIRED_MISSING | OPTIONAL_NULL | FIELD_REJECTED.

Record CanonicalField := {
  cf_name : string;
  cf_kind : IdentityFieldKind;
  cf_canonical : option string;
  cf_reason : option string
}.

Record IdentityMintResult := {
  im_identity : option string;
  im_available : bool;
  im_reason : option string;
  im_fields : list CanonicalField
}.

Definition unavailable (reason : string) (fields : list CanonicalField) : IdentityMintResult :=
  {| im_identity := None; im_available := false; im_reason := Some reason; im_fields := fields |}.

Definition value_field (name canonical : string) : CanonicalField :=
  {| cf_name := name; cf_kind := VALUE; cf_canonical := Some canonical; cf_reason := None |}.
Definition missing_field (name reason : string) : CanonicalField :=
  {| cf_name := name; cf_kind := REQUIRED_MISSING; cf_canonical := None; cf_reason := Some reason |}.
Definition rejected_field (name reason : string) : CanonicalField :=
  {| cf_name := name; cf_kind := FIELD_REJECTED; cf_canonical := None; cf_reason := Some reason |}.

Inductive text_case : Type := CaseLower | CaseUpper | CaseNone.

(** [_identity_text] *)
Definition eid_identity_text (value : option string) (c : text_case) : option string :=
  match value with
  | None => None
  | Some v =>
      let text := py_strip v in
      if String.eqb text "" || String.eqb (py_upper text) NA then None
      else Some (match c with
                 | CaseLower => py_lower text
                 | CaseUpper => py_upper text
                 | CaseNone => text
                 end)
  end.

(** [_separator_rejection] *)
Definition separator_rejection (name text : string) : option CanonicalField :=
  if negb (py_contains CANONICAL_SEPARATOR text) then None
  else Some (rejected_field name ("canonical_separator_in_" +:+ name)).

(** [_required_symbol] *)
Definition required_symbol (name : string) (value : option string) : CanonicalField :=
  match eid_identity_text value CaseUpper with
  | None => missing_field name REASON_MISSING_SYMBOL
  | Some text =>
      match separator_rejection name text with
      | Some rejection => rejection
      | None => value_field name text
      end
  end.

(** [_required_direction] *)
Definition required_direction (name : string) (value : option string) : CanonicalField :=
  match eid_identity_text value CaseLower with
  | None => missing_field name REASON_MISSING_DIRECTION
  | Some text =>
      match separator_rejection name text with
      | Some rejection => rejection
      | None =>
          if negb (str_in text ["long"; "short"]) then rejected_field name ("invalid_" +:+ name)
          else value_field name text
      end
  end.

(** the reason table of [_required_identity_text] *)
Definition missing_text_reason (name : string) : string :=
  if String.eqb name "instrument_venue" then REASON_MISSING_INSTRUMENT_VENUE
  else if String.eqb name "mode" then REASON_MISSING_MODE
  else if String.eqb name "structural_anchor" then REASON_MISSING_STRUCTURAL_ANCHOR
  else if String.eqb name "setup_id" then REASON_MISSING_SETUP_ID
  else if String.eqb name "invalidation" then REASON_MISSING_INVALIDATION
  else "missing_" +:+ name.

(** [_required_identity_text] *)
Definition required_identity_text (name : string) (value : option string) (c : text_case)
    : CanonicalField :=
  match eid_identity_text value c with
  | None => missing_field name (missing_text_reason name)
  | Some text =>
      match separator_rejection name text with
      | Some rejection => rejection
      | None => value_field name text
      end
  end.

(** [_is_required_missing] *)
Definition is_required_missing (value : pyobj) : bool :=
  match value with
  | PyNone => true
  | _ => let text := py_strip (py_str value) in
         String.eqb text "" || String.eqb (py_upper text) NA
  end.

(** [_price_on_tick] *)
Definition price_on_tick (price tick_size : dec) : result bool :=
  let! quotient := ddiv price tick_size in
  Ok (deqb quotient (dto_integral quotient)).

(** [format(number.normalize(), "f")] with the sign of zero dropped *)
Definition canonical_price (number : dec) : string :=
  let canonical := dec_format_f (dnormalize number) in
  if str_in canonical ["-0"; "-0.0"] then "0" else canonical.

(** The tail of [_required_price], once the value is a finite number. *)
Definition price_field (name : string) (number : dec) (tick_size : option dec)
    : result CanonicalField :=
  let! on_tick := match tick_size with
                  | None => Ok true
                  | Some tick => price_on_tick number tick
                  end in
  if negb on_tick then Ok (rejected_field name ("off_tick_" +:+ name))
  else Ok (value_field name (canonical_price number)).

(** [_required_price] *)
Definition required_price (name : string) (value : pyobj) (tick_size : option dec)
    : result CanonicalField :=
  if is_required_missing value then Ok (missing_field name ("missing_" +:+ name)) else
  let parse raw :=
    match separator_rejection name raw with
    | Some rejection => Ok rejection
    | None =>
        match parse_decimal (py_strip raw) with
        | None => Ok (rejected_field name ("malformed_" +:+ name))
        | Some (Finite number) => price_field name number tick_size
        | Some _ => Ok (rejected_field name ("non_finite_" +:+ name))
        end
    end in
  match value with
  | PyBool _ | PyFloat _ => Ok (rejected_field name ("rejected_" +:+ name))
  | PyDec (Finite number) => price_field name number tick_size
  | PyDec _ => Ok (rejected_field name ("non_finite_" +:+ name))
  | _ => parse (py_str value)
  end.

(** [value in (None, "", NA)] *)
Definition in_blank (value : pyobj) : bool :=
  match value with
  | PyNone => true
  | PyStr s => str_in s [""; NA]
  | _ => false
  end.

(** [_optional_tick_size] *)
Definition optional_tick_size (value : pyobj) : option dec :=
  if in_blank value then None else
  match value with
  | PyBool _ | PyFloat _ => None
  | _ =>
      match (match value with PyDec d => Some d | _ => parse_decimal (py_strip (py_str value)) end) with
      | Some (Finite tick) => if dleb tick dzero then None else Some tick
      | _ => None
      end
  end.

(** [_first_blocking_reason] *)
Fixpoint first_blocking_reason (fields : list CanonicalField) : option string :=
  match fields with
  | [] => None
  | field :: rest =>
      match cf_kind field with
      | VALUE | OPTIONAL_NULL => first_blocking_reason rest
      | kind =>
          match cf_reason field with
          | Some reason =>
              if String.eqb reason "" then
                Some (match kind with
                      | REQUIRED_MISSING => "missing_" +:+ cf_name field
                      | _ => "rejected_" +:+ cf_name field
                      end)
              else Some reason
          | None =>
              Some (match kind with
                    | REQUIRED_MISSING => "missing_" +:+ cf_name field
                    | _ => "rejected_" +:+ cf_name field
                    end)
          end
      end
  end.

(** [_canonical_value] *)
Definition canonical_value (field : CanonicalField) : result string :=
  match cf_kind field, cf_canonical field with
  | OPTIONAL_NULL, _ => Ok OPTIONAL_NULL_TOKEN
  | VALUE, Some canonical => Ok canonical
  | _, _ => Raise (RuntimeError ("refusing to hash non-value identity field " +:+ cf_name field))
  end.

Fixpoint canonical_values (fields : list CanonicalField) : result (list string) :=
  match fields with
  | [] => Ok []
  | field :: rest =>
      let! v := canonical_value field in
      let! vs := canonical_values rest in
      Ok (v :: vs)
  end.

(** [_digest] *)
Definition digest (prefix : string) (parts : list string) : string :=
  prefix +:+ sha256_hexdigest (py_join CANONICAL_SEPARATOR parts).

Definition mint (prefix : string) (fields : list CanonicalField) : result IdentityMintResult :=
  match first_blocking_reason fields with
  | Some blocking => Ok (unavailable blocking fields)
  | None =>
      let! parts := canonical_values fields in
      Ok {| im_identity := Some (digest prefix parts); im_available := true;
            im_reason := None; im_fields := fields |}
  end.

Definition setup_id_fields (instrument_venue symbol direction mode structural_anchor : option string)
    : list CanonicalField :=
  [value_field "schema_version" SETUP_ID_SCHEMA_VERSION;
   required_identity_text "instrument_venue" instrument_venue CaseLower;
   required_symbol "symbol" symbol;
   required_direction "direction" direction;
   required_identity_text "mode" mode CaseLower;
   required_identity_text "structural_anchor" structural_anchor CaseNone].

Definition mint_setup_id (instrument_venue symbol direction mode structural_anchor : option string)
    : result IdentityMintResult :=
  mint SETUP_ID_PREFIX (setup_id_fields instrument_venue symbol direction mode structural_anchor).

Record plan_version_args := {
  pv_setup_id : option string;
  pv_entry_low : pyobj; pv_entry_high : pyobj; pv_stop_loss : pyobj;
  pv_tp1 : pyobj; pv_tp2 : pyobj; pv_tp3 : pyobj;
  pv_invalidation : option string;
  pv_tick_size : pyobj
}.

Definition plan_version_fields (a : plan_version_args) (tick : option dec)
    : result (list CanonicalField) :=
  let! low := required_price "entry_low" (pv_entry_low a) tick in
  let! high := required_price "entry_high" (pv_entry_high a) tick in
  let! stop := required_price "stop_loss" (pv_stop_loss a) tick in
  let! t1 := required_price "tp1" (pv_tp1 a) tick in
  let! t2 := required_price "tp2" (pv_tp2 a) tick in
  let! t3 := required_price "tp3" (pv_tp3 a) tick in
  Ok [value_field "schema_version" PLAN_VERSION_ID_SCHEMA_VERSION;
      required_identity_text "setup_id" (pv_setup_id a) CaseNone;
      low; high; stop; t1; t2; t3;
      required_identity_text "invalidation" (pv_invalidation a) CaseNone].

Definition mint_plan_version_id (a : plan_version_args) : result IdentityMintResult :=
  let tick := optional_tick_size (pv_tick_size a) in
  if negb (in_blank (pv_tick_size a)) && match tick with None => true | Some _ => false end then
    Ok (unavailable "invalid_tick_size" [rejected_field "tick_size" "invalid_tick_size"])
  else
  let! fields := plan_version_fields a tick in
  mint PLAN_VERSION_ID_PREFIX fields.

(** [_join_reasons] *)
Definition join_reasons (reasons : list string) : option string :=
  match dict_fromkeys (List.filter (fun r => negb (String.eqb r "")) reasons) with
  | [] => None
  | unique => Some (py_join ";" unique)
  end.

(** [_stored_invalidation] of this module *)
Definition eid_stored_invalidation (record : SetupLifecycleRecord) : option string :=
  match eid_identity_text (Some (r_invalidation_logic record)) CaseNone with
  | Some text => Some text
  | None => eid_identity_text (Some (r_invalidation_reason record)) CaseNone
  end.

(** [_optional_latched_id] *)
Definition optional_latched_id (value : option string) : option string :=
  eid_identity_text value CaseNone.

(** [a or b] of two optional texts that are never empty *)
Definition opt_or (a b : option string) : option string :=
  match a with Some _ => a | None => b end.

(** [_preserved_latched_plan_result] *)
Definition preserved_latched_plan_result (latched_plan : string) (candidate : IdentityMintResult)
    : IdentityMintResult :=
  let same := match im_identity candidate with
              | Some i => im_available candidate && String.eqb i latched_plan
              | None => false
              end in
  {| im_identity := Some latched_plan; im_available := true;
     im_reason :=
       if same then None
       else join_reasons [REASON_PLAN_VERSION_INVARIANT_VIOLATION;
                          match im_reason candidate with Some r => r | None => "" end];
     im_fields := [] |}.

Definition record_plan_args (record : SetupLifecycleRecord) (setup_id : string) (tick_size : pyobj)
    : plan_version_args :=
  {| pv_setup_id := Some setup_id;
     pv_entry_low := PyStr (r_entry_low record); pv_entry_high := PyStr (r_entry_high record);
     pv_stop_loss := PyStr (r_stop_loss record); pv_tp1 := PyStr (r_tp1 record);
     pv_tp2 := PyStr (r_tp2 record); pv_tp3 := PyStr (r_tp3 record);
     pv_invalidation := eid_stored_invalidation record;
     pv_tick_size := tick_size |}.

Definition nonempty (reason : option string) : list string :=
  match reason with
  | Some r => if String.eqb r "" then [] else [r]
  | None => []
  end.

(** the [setup_result] of [latch_economic_identities] *)
Definition latch_setup (record : SetupLifecycleRecord) (instrument_venue : option string)
    (latched_setup : option string) : result IdentityMintResult :=
  match latched_setup with
  | Some _ => Ok {| im_identity := latched_setup; im_available := true; im_reason := None;
                    im_fields := [] |}
  | None => mint_setup_id instrument_venue (Some (r_symbol record)) (Some (r_direction record))
              (Some (r_mode record)) (Some (r_structural_anchor record))
  end.

(** the [plan_result] of [latch_economic_identities] *)
Definition latch_plan (record : SetupLifecycleRecord) (plan_locked : bool)
    (setup_id latched_plan : option string) (candidate : IdentityMintResult)
    : result IdentityMintResult :=
  match latched_plan with
  | Some plan => Ok (preserved_latched_plan_result plan candidate)
  | None =>
      if negb plan_locked then Ok (unavailable REASON_PLAN_GEOMETRY_UNLOCKED []) else
      match setup_id with
      | None => Ok candidate
      | Some _ =>
          let! valid := has_valid_stored_plan_geometry record in
          if negb valid then Ok (unavailable REASON_INVALID_STORED_PLAN_GEOMETRY [])
          else Ok candidate
      end
  end.

Definition opt_string_eqb (a b : option string) : bool := bool_decide (a = b).

Definition latch_economic_identities (record : SetupLifecycleRecord)
    (instrument_venue : option string) (plan_locked : bool)
    (previous : option SetupLifecycleRecord) (tick_size : pyobj) : result SetupLifecycleRecord :=
  let prior := match previous with Some p => p | None => record end in
  let latched_setup := opt_or (optional_latched_id (r_setup_id prior))
                              (optional_latched_id (r_setup_id record)) in
  let latched_plan := opt_or (optional_latched_id (r_plan_version_id prior))
                             (optional_latched_id (r_plan_version_id record)) in
  let! setup_result := latch_setup record instrument_venue latched_setup in
  let setup_id := im_identity setup_result in
  let setup_reasons := if im_available setup_result then [] else nonempty (im_reason setup_result) in
  let! candidate :=
    match setup_id with
    | None => Ok (unavailable REASON_MISSING_SETUP_ID [])
    | Some sid => mint_plan_version_id (record_plan_args record sid tick_size)
    end in
  let! plan_result := latch_plan record plan_locked setup_id latched_plan candidate in
  let plan_version_id := if im_available plan_result then im_identity plan_result else None in
  let reason := join_reasons (setup_reasons ++ nonempty (im_reason plan_result))%list in
  if opt_string_eqb (r_setup_id record) setup_id
     && opt_string_eqb (r_plan_version_id record) plan_version_id
     && opt_string_eqb (r_economic_identity_reason record) reason
  then Ok record
  else Ok (record <| r_setup_id := setup_id |>
                  <| r_plan_version_id := plan_version_id |>
                  <| r_economic_identity_reason := reason |>).

Definition proven_progress_plan_version_id (record : SetupLifecycleRecord) : result (option string) :=
  match optional_latched_id (r_plan_version_id record) with
  | None => Ok None
  | Some stored =>
      let reason := match r_economic_identity_reason record with Some r => r | None => "" end in
      if py_contains REASON_PLAN_VERSION_INVARIANT_VIOLATION reason then Ok None else
      match optional_latched_id (r_setup_id record) with
      | None => Ok None
      | Some setup_id =>
          let! candidate := mint_plan_version_id (record_plan_args record setup_id PyNone) in
          if negb (im_available candidate) || negb (opt_string_eqb (im_identity candidate) (Some stored))
          then Ok None else Ok (Some stored)
      end
  end.

Definition classify_plan_invalidation (value : option string) : CanonicalField :=
  required_identity_text "invalidation" value CaseNone.

Definition stored_plan_invalidation (record : SetupLifecycleRecord) : option string :=
  match eid_stored_invalidation record with
  | None => None
  | Some raw =>
      let field := classify_plan_invalidation (Some raw) in
      match cf_kind field, cf_canonical field with
      | VALUE, Some canonical => Some canonical
      | _, _ => None
      end
  end.

(** ** Helper lemmas *)

(** A field the mint functions build: a separator-free value, or a blocking
    field with a non-empty reason. *)
Definition field_ok (f : CanonicalField) : Prop :=
  (cf_kind f = VALUE /\ exists v, cf_canonical f = Some v /\ char_in unit_separator v = false) \/
  ((cf_kind f = REQUIRED_MISSING \/ cf_kind f = FIELD_REJECTED) /\
   exists c s, cf_reason f = Some (String c s)).

Lemma separator_rejection_none name text :
  separator_rejection name text = None <-> char_in unit_separator text = false.
Proof.
  unfold separator_rejection, CANONICAL_SEPARATOR. rewrite char_in_contains.
  by destruct (char_in unit_separator text).
Qed.

Lemma value_field_ok name v : char_in unit_separator v = false -> field_ok (value_field name v).
Proof. intros H. left. split; [done|]. by exists v. Qed.

Lemma rejected_field_ok name c s : field_ok (rejected_field name (String c s)).
Proof. right. split; [by right|]. by exists c, s. Qed.

Lemma missing_field_ok name c s : field_ok (missing_field name (String c s)).
Proof. right. split; [by left|]. by exists c, s. Qed.

#[local] Hint Resolve value_field_ok rejected_field_ok missing_field_ok : core.

Lemma checked_field_ok name text f :
  (char_in unit_separator text = false -> field_ok f) ->
  field_ok (match separator_rejection name text with Some r => r | None => f end).
Proof.
  intros H. destruct (separator_rejection name text) eqn:E.
  - unfold separator_rejection in E. destruct (negb _); [done|]. injection E as <-.
    apply rejected_field_ok.
  - apply H. by apply separator_rejection_none in E.
Qed.

Lemma required_symbol_ok name v : field_ok (required_symbol name v).
Proof.
  unfold required_symbol. destruct (eid_identity_text v CaseUpper); [|apply missing_field_ok].
  apply checked_field_ok. auto.
Qed.

Lemma required_direction_ok name v : field_ok (required_direction name v).
Proof.
  unfold required_direction. destruct (eid_identity_text v CaseLower); [|apply missing_field_ok].
  apply checked_field_ok. destruct (negb _); [intros _; apply rejected_field_ok|auto].
Qed.

Lemma missing_text_reason_cons name : exists c s, missing_text_reason name = String c s.
Proof.
  unfold missing_text_reason.
  repeat match goal with |- context [if ?b then _ else _] => destruct b; [eexists _, _; reflexivity|] end.
  by eexists _, _.
Qed.

Lemma required_identity_text_ok name v c : field_ok (required_identity_text name v c).
Proof.
  unfold required_identity_text. destruct (eid_identity_text v c); [apply checked_field_ok; auto|].
  destruct (missing_text_reason_cons name) as (a & s & ->). apply missing_field_ok.
Qed.

(** *** Canonical price texts *)

Definition price_char (c : ascii) : bool := is_digit c || Ascii.eqb c "-" || Ascii.eqb c ".".

Lemma price_char_digit c : is_digit c = true -> price_char c = true.
Proof. unfold price_char. by intros ->. Qed.

Lemma zeros_digits z : string_forallb is_digit (zeros z) = true.
Proof. unfold zeros. by induction (Z.to_nat z). Qed.

Lemma take_string_forallb p n s : string_forallb p s = true -> string_forallb p (take_string n s) = true.
Proof.
  revert n. induction s as [|c s IH]; intros [|n] H; simpl in *; try done.
  apply andb_true_iff in H as [-> H]. simpl. auto.
Qed.

Lemma drop_string_forallb p n s : string_forallb p s = true -> string_forallb p (drop_string n s) = true.
Proof.
  revert n. induction s as [|c s IH]; intros [|n] H; simpl in *; try done.
  apply andb_true_iff in H as [_ H]. auto.
Qed.

Lemma dec_format_f_chars d : string_forallb price_char (dec_format_f d) = true.
Proof.
  unfold dec_format_f. set (d' := if ((d_coef d =? 0)%N && (0 <? d_exp d)%Z)%bool then mkDec (d_neg d) 0 0 else d). clearbody d'.
  pose proof (string_of_N_digits (d_coef d')) as Hd.
  match goal with |- context [match ?e with pair _ _ => _ end] => destruct e as [i f] eqn:E end.
  assert (string_forallb is_digit i = true /\ string_forallb is_digit f = true) as [Hi Hf].
  { destruct (_ <? 0)%Z; [|destruct (_ <? _)%Z]; injection E as <- <-;
      rewrite ?string_forallb_app, ?zeros_digits, ?Hd; try done.
    split; [|by apply drop_string_forallb].
    destruct (String.eqb _ ""); [done|by apply take_string_forallb]. }
  assert (string_forallb price_char i = true /\ string_forallb price_char f = true) as [Hi' Hf']
    by (split; [exact (string_forallb_impl is_digit _ _ price_char_digit Hi)
               |exact (string_forallb_impl is_digit _ _ price_char_digit Hf)]).
  rewrite !string_forallb_app, Hi'.
  destruct (d_neg d'), (String.eqb f ""); simpl; by rewrite ?string_forallb_app, ?Hf'.
Qed.

Lemma canonical_price_no_separator d : char_in unit_separator (canonical_price d) = false.
Proof.
  apply (char_in_forallb _ price_char); [done|]. unfold canonical_price.
  destruct (str_in _ _); [done|]. apply dec_format_f_chars.
Qed.

Lemma price_on_tick_total p t : 0 < dQ t -> exists b, price_on_tick p t = Ok b.
Proof.
  intros Ht. unfold price_on_tick. destruct (ddiv_value p t) as (q & -> & _); [lra|].
  cbn [bind_result]. eauto.
Qed.

Definition tick_ok (tick : option dec) : Prop := forall t, tick = Some t -> 0 < dQ t.

Lemma optional_tick_size_ok v : tick_ok (optional_tick_size v).
Proof.
  assert (forall o : option pydec, tick_ok (match o with
    | Some (Finite tick) => if dleb tick dzero then None else Some tick | _ => None end)) as Hp.
  { intros [[d| |]|] t; try done. destruct (dleb d dzero) eqn:E; [done|]. intros [= <-].
    pose proof dQ_zero. dec_lra. }
  unfold optional_tick_size. destruct (in_blank v); [done|].
  destruct v; first [intros t; discriminate | apply (Hp (Some _)) | apply Hp].
Qed.

Lemma price_field_ok name d tick :
  tick_ok tick -> exists f, price_field name d tick = Ok f /\ field_ok f.
Proof.
  intros Ht. unfold price_field.
  assert (exists b, match tick with None => Ok true | Some t => price_on_tick d t end = Ok b) as [b ->].
  { destruct tick as [t|]; [|eauto]. by apply price_on_tick_total, Ht. }
  cbn [bind_result]. destruct b; eexists; (split; [reflexivity|]); simpl.
  - apply value_field_ok, canonical_price_no_separator.
  - apply rejected_field_ok.
Qed.

Lemma required_price_ok name v tick :
  tick_ok tick -> exists f, required_price name v tick = Ok f /\ field_ok f.
Proof.
  intros Ht. unfold required_price.
  destruct (is_required_missing v); [eexists; split; [reflexivity|apply missing_field_ok]|].
  assert (forall raw, exists f,
    match separator_rejection name raw with
    | Some rejection => Ok rejection
    | None => match parse_decimal (py_strip raw) with
              | None => Ok (rejected_field name ("malformed_" +:+ name))
              | Some (Finite number) => price_field name number tick
              | Some _ => Ok (rejected_field name ("non_finite_" +:+ name))
              end
    end = Ok f /\ field_ok f) as Hp.
  { intros raw. destruct (separator_rejection name raw) eqn:E.
    - eexists; split; [reflexivity|]. unfold separator_rejection in E.
      destruct (negb _); [done|]. injection E as <-. apply rejected_field_ok.
    - destruct (parse_decimal _) as [[]|];
        first [by apply price_field_ok | eexists; split; [reflexivity|apply rejected_field_ok]]. }
  destruct v as [| | | |[]|];
    first [apply Hp | by apply price_field_ok | eexists; split; [reflexivity|apply rejected_field_ok]].
Qed.

(** *** Minting *)

Lemma first_blocking_none fields :
  Forall field_ok fields -> first_blocking_reason fields = None ->
  Forall (fun f => cf_kind f = VALUE /\ exists v, cf_canonical f = Some v /\
                   char_in unit_separator v = false) fields.
Proof.
  induction 1 as [|f fields [[Hk Hv]|[Hk (c & s & Hr)]] Hf IH]; simpl; [constructor|..].
  - rewrite Hk. constructor; auto.
  - destruct Hk as [-> | ->]; rewrite Hr; done.
Qed.

Lemma canonical_values_ok fields :
  Forall (fun f => cf_kind f = VALUE /\ exists v, cf_canonical f = Some v /\
                   char_in unit_separator v = false) fields ->
  exists parts, canonical_values fields = Ok parts /\ map cf_canonical fields = map Some parts /\
    Forall (fun s => char_in unit_separator s = false) parts.
Proof.
  induction 1 as [|f fields (Hk & v & Hv & Hs) _ (parts & Hp & Hm & Ha)]; simpl.
  - exists []. auto.
  - unfold canonical_value. rewrite Hk, Hv. cbn [bind_result]. rewrite Hp. cbn [bind_result].
    exists (v :: parts). simpl. rewrite Hm. auto.
Qed.

(** Minting never reaches the [RuntimeError]; an available identity is the
    digest of the separator-free canonical values of its fields. *)
Lemma mint_total prefix fields :
  Forall field_ok fields ->
  exists r, mint prefix fields = Ok r /\ im_fields r = fields /\
    (im_available r = true ->
     exists parts, im_identity r = Some (digest prefix parts) /\ im_reason r = None /\
       map cf_canonical fields = map Some parts /\
       Forall (fun s => char_in unit_separator s = false) parts) /\
    (im_available r = false -> im_identity r = None /\ im_reason r <> None).
Proof.
  intros H. unfold mint. destruct (first_blocking_reason fields) eqn:E.
  - eexists; split; [reflexivity|]. simpl. repeat split; done.
  - destruct (canonical_values_ok fields (first_blocking_none fields H E)) as (parts & Hp & Hm & Ha).
    rewrite Hp. cbn [bind_result]. eexists; split; [reflexivity|]. simpl.
    split; [done|]. split; [|done]. intros _. exists parts. auto.
Qed.

Lemma setup_id_fields_ok venue sym dir mode anchor :
  Forall field_ok (setup_id_fields venue sym dir mode anchor).
Proof.
  unfold setup_id_fields. repeat apply List.Forall_cons;
    auto using List.Forall_nil, required_identity_text_ok, required_symbol_ok, required_direction_ok.
Qed.

Lemma plan_version_fields_ok a tick :
  tick_ok tick -> exists fields, plan_version_fields a tick = Ok fields /\ Forall field_ok fields.
Proof.
  intros Ht. unfold plan_version_fields.
  repeat match goal with
  | |- context [required_price ?n ?v tick] =>
      destruct (required_price_ok n v tick Ht) as (? & -> & ?); cbn [bind_result]
  end.
  eexists; split; [reflexivity|].
  repeat apply List.Forall_cons; auto using List.Forall_nil, required_identity_text_ok.
Qed.

Lemma plan_version_fields_length a tick fields :
  plan_version_fields a tick = Ok fields -> length fields = 9%nat.
Proof.
  unfold plan_version_fields. intros H.
  repeat match type of H with
  | bind_result ?c _ = _ => destruct c; cbn [bind_result] in H; [|discriminate]
  end.
  by injection H as <-.
Qed.

Lemma mint_plan_version_id_total a :
  exists r, mint_plan_version_id a = Ok r /\
    (im_available r = true -> exists parts, im_identity r = Some (digest PLAN_VERSION_ID_PREFIX parts)
                                           /\ im_reason r = None) /\
    (im_available r = false -> im_identity r = None /\ im_reason r <> None).
Proof.
  unfold mint_plan_version_id. destruct (_ && _); [by eexists|].
  destruct (plan_version_fields_ok a _ (optional_tick_size_ok (pv_tick_size a))) as (fs & -> & Hok).
  cbn [bind_result]. destruct (mint_total PLAN_VERSION_ID_PREFIX fs Hok) as (r & -> & _ & Ha & Hn).
  eexists; split; [reflexivity|]. split; [|done].
  intros Hav. destruct (Ha Hav) as (parts & ? & ? & _). eauto.
Qed.

(** *** Latching *)

Lemma eid_identity_text_idem v t :
  eid_identity_text v CaseNone = Some t -> eid_identity_text (Some t) CaseNone = Some t.
Proof.
  unfold eid_identity_text. destruct v as [v|]; [|done].
  destruct (_ || _) eqn:E; [done|]. intros [= <-]. by rewrite py_strip_idem, E.
Qed.

Lemma is_hex_not_space c : is_hex c = true -> negb (is_space c) = true.
Proof. by destruct c as [[] [] [] [] [] [] [] []]. Qed.

Lemma digest_latched p parts :
  p = SETUP_ID_PREFIX \/ p = PLAN_VERSION_ID_PREFIX ->
  optional_latched_id (Some (digest p parts)) = Some (digest p parts).
Proof.
  intros Hp. unfold optional_latched_id, eid_identity_text, digest.
  rewrite py_strip_id.
  - by destruct Hp as [-> | ->].
  - rewrite string_forallb_app.
    rewrite (string_forallb_impl is_hex _ _ is_hex_not_space (sha256_is_hex _)).
    by destruct Hp as [-> | ->].
Qed.

Definition prior_record (previous : option SetupLifecycleRecord) (record : SetupLifecycleRecord)
    : SetupLifecycleRecord :=
  match previous with Some p => p | None => record end.

Definition latched_before (field : SetupLifecycleRecord -> option string)
    (previous : option SetupLifecycleRecord) (record : SetupLifecycleRecord) : option string :=
  opt_or (optional_latched_id (field (prior_record previous record)))
         (optional_latched_id (field record)).

(** What a run of the latch computed. *)
Record latch_run (record : SetupLifecycleRecord) (venue : option string) (locked : bool)
    (previous : option SetupLifecycleRecord) (tick : pyobj) (out : SetupLifecycleRecord) := {
  lr_setup : IdentityMintResult;
  lr_candidate : IdentityMintResult;
  lr_plan : IdentityMintResult;
  lr_setup_eq : latch_setup record venue (latched_before r_setup_id previous record) = Ok lr_setup;
  lr_candidate_eq :
    match im_identity lr_setup with
    | None => Ok (unavailable REASON_MISSING_SETUP_ID [])
    | Some sid => mint_plan_version_id (record_plan_args record sid tick)
    end = Ok lr_candidate;
  lr_plan_eq : latch_plan record locked (im_identity lr_setup)
                 (latched_before r_plan_version_id previous record) lr_candidate = Ok lr_plan;
  lr_out : out = record
    <| r_setup_id := im_identity lr_setup |>
    <| r_plan_version_id := if im_available lr_plan then im_identity lr_plan else None |>
    <| r_economic_identity_reason :=
         join_reasons ((if im_available lr_setup then [] else nonempty (im_reason lr_setup))
                       ++ nonempty (im_reason lr_plan))%list |>
}.

Lemma record_identity_eta (r : SetupLifecycleRecord) :
  r = r <| r_setup_id := r_setup_id r |> <| r_plan_version_id := r_plan_version_id r |>
        <| r_economic_identity_reason := r_economic_identity_reason r |>.
Proof. by destruct r. Qed.

Lemma latch_economic_identities_run record venue locked previous tick out :
  latch_economic_identities record venue locked previous tick = Ok out ->
  latch_run record venue locked previous tick out.
Proof.
  unfold latch_economic_identities. fold (prior_record previous record).
  fold (latched_before r_setup_id previous record).
  fold (latched_before r_plan_version_id previous record).
  destruct (latch_setup _ _ _) as [s|] eqn:Es; cbn [bind_result]; [|discriminate].
  destruct (match im_identity s with None => _ | Some _ => _ end) as [c|] eqn:Ec;
    cbn [bind_result]; [|discriminate].
  destruct (latch_plan _ _ _ _ _) as [p|] eqn:Ep; cbn [bind_result]; [|discriminate].
  intros H. refine (Build_latch_run record venue locked previous tick out s c p Es Ec Ep _).
  destruct (opt_string_eqb _ _ && _ && _) eqn:E; [|by injection H as <-].
  injection H as <-. unfold opt_string_eqb in E. rewrite !andb_true_iff, !bool_decide_eq_true in E.
  destruct E as [[E1 E2] E3]. rewrite <- E1, <- E2, <- E3. apply record_identity_eta.
Qed.

Lemma has_valid_geometry_total record :
  exists b, has_valid_stored_plan_geometry record = Ok b /\
    (b = true -> exists g, stored_plan_geometry record = Ok g).
Proof.
  unfold has_valid_stored_plan_geometry.
  destruct (stored_plan_geometry_failure_total record) as [(g & Hg & ->)|(msg & Hg & ->)];
    cbn [bind_result]; eauto. by exists false.
Qed.

Lemma latch_plan_total record locked setup_id latched candidate :
  exists p, latch_plan record locked setup_id latched candidate = Ok p.
Proof.
  unfold latch_plan. destruct latched; [eauto|]. destruct (negb locked); [eauto|].
  destruct setup_id; [|eauto]. destruct (has_valid_geometry_total record) as (b & -> & _).
  cbn [bind_result]. destruct (negb b); eauto.
Qed.

Lemma latch_economic_identities_total record venue locked previous tick :
  exists out, latch_economic_identities record venue locked previous tick = Ok out.
Proof.
  unfold latch_economic_identities.
  assert (exists s, latch_setup record venue (latched_before r_setup_id previous record) = Ok s) as [s Hs].
  { unfold latch_setup. destruct (latched_before _ _ _); [eauto|].
    unfold mint_setup_id. destruct (mint_total SETUP_ID_PREFIX _ (setup_id_fields_ok venue
      (Some (r_symbol record)) (Some (r_direction record)) (Some (r_mode record))
      (Some (r_structural_anchor record)))) as (r & -> & _). eauto. }
  unfold latched_before, prior_record in Hs. rewrite Hs. cbn [bind_result].
  assert (exists c, match im_identity s with None => Ok (unavailable REASON_MISSING_SETUP_ID [])
    | Some sid => mint_plan_version_id (record_plan_args record sid tick) end = Ok c) as [c ->].
  { destruct (im_identity s) as [sid|]; [|eauto].
    destruct (mint_plan_version_id_total (record_plan_args record sid tick)) as (r & -> & _). eauto. }
  cbn [bind_result].
  match goal with |- context [latch_plan record locked ?i ?l c] =>
    destruct (latch_plan_total record locked i l c) as [p ->] end.
  cbn [bind_result]. destruct (_ && _ && _); eauto.
Qed.

(** The plan identity a run adds to a record that had none. *)
Lemma latch_new_plan record venue locked previous tick out id :
  latch_run record venue locked previous tick out ->
  latched_before r_plan_version_id previous record = None ->
  r_plan_version_id out = Some id ->
  locked = true /\ (exists g, stored_plan_geometry record = Ok g) /\
  exists sid c, r_setup_id out = Some sid /\
    mint_plan_version_id (record_plan_args record sid tick) = Ok c /\
    im_available c = true /\ im_identity c = Some id /\ im_reason c = None.
Proof.
  intros [s c p Hs Hc Hp ->] Hl Hid. rewrite Hl in Hp. unfold latch_plan in Hp.
  cbn in Hid. destruct locked; cbn [negb] in Hp; [|injection Hp as <-; done].
  destruct (im_identity s) as [sid|] eqn:Ei; [|injection Hc as <-; injection Hp as <-; done].
  destruct (has_valid_geometry_total record) as (b & Hb & Hg). rewrite Hb in Hp. cbn [bind_result] in Hp.
  destruct b; cbn [negb] in Hp; injection Hp as <-; [|done].
  split; [done|]. split; [by apply Hg|]. exists sid, c.
  destruct (mint_plan_version_id_total (record_plan_args record sid tick)) as (c' & Hc' & Ha & _).
  rewrite Hc in Hc'. injection Hc' as <-. destruct (im_available c) eqn:Ea; [|done].
  destruct (Ha eq_refl) as (parts & Hi & Hr). repeat split; try done.
Qed.

(** The setup id a run stores is its own latched form. *)
Lemma latch_setup_stable record venue locked previous tick out sid :
  latch_run record venue locked previous tick out ->
  r_setup_id out = Some sid -> optional_latched_id (Some sid) = Some sid.
Proof.
  intros [s c p Hs _ _ ->] Hid. cbn in Hid. unfold latch_setup in Hs.
  destruct (latched_before r_setup_id previous record) as [l|] eqn:El.
  - injection Hs as <-. cbn in Hid. injection Hid as ->. unfold latched_before in El.
    destruct (optional_latched_id (r_setup_id (prior_record previous record))) eqn:E;
      cbn [opt_or] in El; [injection El as ->|]; eapply eid_identity_text_idem; eassumption.
  - unfold mint_setup_id in Hs.
    destruct (mint_total SETUP_ID_PREFIX _ (setup_id_fields_ok venue (Some (r_symbol record))
      (Some (r_direction record)) (Some (r_mode record)) (Some (r_structural_anchor record))))
      as (r & Hr & _ & Ha & Hn). rewrite Hs in Hr. injection Hr as <-.
    destruct (im_available s); [|destruct (Hn eq_refl); congruence].
    destruct (Ha eq_refl) as (parts & Hi & _). rewrite Hid in Hi. injection Hi as ->.
    apply digest_latched. auto.
Qed.

(** A run that creates a plan version leaves no diagnostic. *)
Lemma latch_new_plan_reason record venue locked previous tick out id :
  latch_run record venue locked previous tick out ->
  latched_before r_plan_version_id previous record = None ->
  r_plan_version_id out = Some id -> r_economic_identity_reason out = None.
Proof.
  intros Hrun Hl Hid. destruct (latch_new_plan _ _ _ _ _ _ _ Hrun Hl Hid) as (-> & (g & Hg) & sid & c' & Hsid & Hc' & Ha & Hi & Hr).
  destruct Hrun as [s c p Hs Hc Hp ->]. cbn in Hsid |- *. rewrite Hsid in *. rewrite Hc in Hc'.
  injection Hc' as ->. rewrite Hl in Hp. unfold latch_plan in Hp. cbn [negb] in Hp.
  unfold has_valid_stored_plan_geometry, stored_plan_geometry_failure in Hp. rewrite Hg in Hp.
  cbn in Hp. injection Hp as <-. rewrite Hr.
  assert (im_available s = true) as ->; [|reflexivity].
  unfold latch_setup in Hs. destruct (latched_before r_setup_id previous record); [by injection Hs as <-|].
  unfold mint_setup_id in Hs.
  destruct (mint_total SETUP_ID_PREFIX _ (setup_id_fields_ok venue (Some (r_symbol record))
    (Some (r_direction record)) (Some (r_mode record)) (Some (r_structural_anchor record))))
    as (r & Hr' & _ & _ & Hn). rewrite Hs in Hr'. injection Hr' as <-.
  destruct (im_available s); [done|]. destruct (Hn eq_refl). congruence.
Qed.

(** The text a mint hashes. *)
Definition identity_payload (r : IdentityMintResult) : string :=
  py_join CANONICAL_SEPARATOR
    (flat_map (fun f => match cf_canonical f with Some v => [v] | None => [] end) (im_fields r)).

Lemma flat_map_some (fields : list CanonicalField) parts :
  map cf_canonical fields = map Some parts ->
  flat_map (fun f => match cf_canonical f with Some v => [v] | None => [] end) fields = parts.
Proof.
  revert parts. induction fields as [|f fields IH]; intros [|v parts] H; try discriminate; [done|].
  injection H as H1 H2. simpl. rewrite H1. simpl. f_equal. auto.
Qed.

(** Equal payloads of two available mints of one arity come from equal fields. *)
Lemma mint_payload_inj prefix fa fb ra rb :
  Forall field_ok fa -> Forall field_ok fb -> length fa = length fb ->
  mint prefix fa = Ok ra -> mint prefix fb = Ok rb ->
  im_available ra = true -> im_available rb = true ->
  identity_payload ra = identity_payload rb -> map cf_canonical fa = map cf_canonical fb.
Proof.
  intros Ka Kb Hlen Ha Hb Aa Ab Hp.
  destruct (mint_total prefix fa Ka) as (ra' & Ha' & Fa & Sa & _).
  destruct (mint_total prefix fb Kb) as (rb' & Hb' & Fb & Sb & _).
  rewrite Ha in Ha'. injection Ha' as <-. rewrite Hb in Hb'. injection Hb' as <-.
  destruct (Sa Aa) as (pa & _ & _ & Ma & Na). destruct (Sb Ab) as (pb & _ & _ & Mb & Nb).
  unfold identity_payload in Hp. rewrite Fa, Fb, (flat_map_some fa pa Ma), (flat_map_some fb pb Mb) in Hp.
  rewrite Ma, Mb. f_equal. apply (py_join_inj unit_separator); try done.
  apply (f_equal length) in Ma. apply (f_equal length) in Mb. rewrite !length_map in Ma, Mb. congruence.
Qed.

Lemma mint_identity prefix fields r :
  Forall field_ok fields -> mint prefix fields = Ok r -> im_available r = true ->
  im_identity r = Some (prefix +:+ sha256_hexdigest (identity_payload r)).
Proof.
  intros Hok Hr Ha. destruct (mint_total prefix fields Hok) as (r' & Hr' & Hf & Hs & _).
  rewrite Hr in Hr'. injection Hr' as <-. destruct (Hs Ha) as (parts & -> & _ & Hm & _).
  unfold identity_payload, digest. by rewrite Hf, (flat_map_some fields parts Hm).
Qed.

Lemma required_identity_text_value name v c x :
  cf_canonical (required_identity_text name v c) = Some x -> eid_identity_text v c = Some x.
Proof.
  unfold required_identity_text. destruct (eid_identity_text v c) as [t|]; [|done].
  unfold separator_rejection. destruct (negb _); [|done]. simpl. congruence.
Qed.

Lemma required_symbol_value name v x :
  cf_canonical (required_symbol name v) = Some x -> eid_identity_text v CaseUpper = Some x.
Proof.
  unfold required_symbol. destruct (eid_identity_text v CaseUpper) as [t|]; [|done].
  unfold separator_rejection. destruct (negb _); [|done]. simpl. congruence.
Qed.

Lemma required_direction_value name v x :
  cf_canonical (required_direction name v) = Some x -> eid_identity_text v CaseLower = Some x.
Proof.
  unfold required_direction. destruct (eid_identity_text v CaseLower) as [t|]; [|done].
  unfold separator_rejection. destruct (negb _); [|done]. destruct (negb _); [done|]. simpl. congruence.
Qed.

(** ** Properties *)

(** minting a setup id never raises (the refusal to hash a non-value field
    is unreachable), an available id is the prefixed SHA-256 of its payload,
    and the payload determines the canonical venue, symbol, direction, mode and
    anchor: two setups that differ in one of them never hash the same text. *)
Theorem setup_id_payload_injective v1 s1 d1 m1 a1 v2 s2 d2 m2 a2 :
  exists r1 r2,
    mint_setup_id v1 s1 d1 m1 a1 = Ok r1 /\ mint_setup_id v2 s2 d2 m2 a2 = Ok r2 /\
    (im_available r1 = true ->
     im_identity r1 = Some (SETUP_ID_PREFIX +:+ sha256_hexdigest (identity_payload r1))) /\
    (im_available r1 = true -> im_available r2 = true ->
     identity_payload r1 = identity_payload r2 ->
     eid_identity_text v1 CaseLower = eid_identity_text v2 CaseLower /\
     eid_identity_text s1 CaseUpper = eid_identity_text s2 CaseUpper /\
     eid_identity_text d1 CaseLower = eid_identity_text d2 CaseLower /\
     eid_identity_text m1 CaseLower = eid_identity_text m2 CaseLower /\
     eid_identity_text a1 CaseNone = eid_identity_text a2 CaseNone).
Proof.
  pose proof (setup_id_fields_ok v1 s1 d1 m1 a1) as K1.
  pose proof (setup_id_fields_ok v2 s2 d2 m2 a2) as K2.
  destruct (mint_total SETUP_ID_PREFIX _ K1) as (r1 & H1 & _ & S1 & _).
  destruct (mint_total SETUP_ID_PREFIX _ K2) as (r2 & H2 & _).
  exists r1, r2. split; [exact H1|]. split; [exact H2|]. split; [by apply (mint_identity _ _ _ K1)|].
  intros A1 A2 Hp. pose proof (mint_payload_inj _ _ _ _ _ K1 K2 eq_refl H1 H2 A1 A2 Hp) as Hm.
  destruct (S1 A1) as (parts & _ & _ & Hv & _). simpl in Hm, Hv. rewrite Hv in Hm.
  destruct parts as [|p0 [|p1 [|p2 [|p3 [|p4 [|p5 [|]]]]]]]; try discriminate.
  injection Hv as _ E1 E2 E3 E4 E5. injection Hm as _ F1 F2 F3 F4 F5. symmetry in F1, F2, F3, F4, F5.
  apply required_identity_text_value in E1, E4, E5, F1, F4, F5.
  apply required_symbol_value in E2, F2. apply required_direction_value in E3, F3.
  repeat split; congruence.
Qed.

(** the plan-version payload is injective too: two available plan versions
    with the same payload have the same setup id, the same six canonical
    prices and the same invalidation. *)
Theorem plan_version_payload_injective a b ra rb :
  mint_plan_version_id a = Ok ra -> mint_plan_version_id b = Ok rb ->
  im_available ra = true -> im_available rb = true ->
  im_identity ra = Some (PLAN_VERSION_ID_PREFIX +:+ sha256_hexdigest (identity_payload ra)) /\
  (identity_payload ra = identity_payload rb ->
   map cf_canonical (im_fields ra) = map cf_canonical (im_fields rb)).
Proof.
  unfold mint_plan_version_id. intros Ha Hb Aa Ab.
  destruct (negb (in_blank (pv_tick_size a)) && _); [by injection Ha as <-|].
  destruct (negb (in_blank (pv_tick_size b)) && _); [by injection Hb as <-|].
  destruct (plan_version_fields_ok a _ (optional_tick_size_ok (pv_tick_size a))) as (fa & Ea & Ka).
  destruct (plan_version_fields_ok b _ (optional_tick_size_ok (pv_tick_size b))) as (fb & Eb & Kb).
  rewrite Ea in Ha. rewrite Eb in Hb. cbn [bind_result] in Ha, Hb.
  split; [by apply (mint_identity _ _ _ Ka)|]. intros Hp.
  destruct (mint_total PLAN_VERSION_ID_PREFIX fa Ka) as (ra' & Ha' & Fa & _).
  destruct (mint_total PLAN_VERSION_ID_PREFIX fb Kb) as (rb' & Hb' & Fb & _).
  rewrite Ha in Ha'. injection Ha' as <-. rewrite Hb in Hb'. injection Hb' as <-.
  rewrite Fa, Fb. apply (mint_payload_inj PLAN_VERSION_ID_PREFIX fa fb ra rb); try done.
  apply plan_version_fields_length in Ea, Eb. congruence.
Qed.

Definition sample_plan_args : plan_version_args :=
  record_plan_args sample_record "setup-1" PyNone.

Lemma plan_version_payload_injective_witness :
  exists r, mint_plan_version_id sample_plan_args = Ok r /\
  im_identity r = Some (PLAN_VERSION_ID_PREFIX +:+ sha256_hexdigest (identity_payload r)).
Proof.
  destruct (mint_plan_version_id sample_plan_args) as [r|] eqn:E.
  - exists r. split; [reflexivity|].
    assert (im_available r = true) as A
      by (revert E; vm_compute; intros E; injection E as <-; reflexivity).
    exact (proj1 (plan_version_payload_injective _ _ r r E E A A)).
  - exfalso. revert E. vm_compute. discriminate.
Defined.

(** C32: latching is total and never overwrites: a setup id or plan version id
    the previous record carries is kept whatever the new geometry, and no
    field other than the two ids and their diagnostic changes. *)
Theorem latched_identities_immutable record venue locked previous tick :
  exists out, latch_economic_identities record venue locked (Some previous) tick = Ok out /\
    (forall id, optional_latched_id (r_setup_id previous) = Some id -> r_setup_id out = Some id) /\
    (forall id, optional_latched_id (r_plan_version_id previous) = Some id ->
                r_plan_version_id out = Some id) /\
    out = record <| r_setup_id := r_setup_id out |> <| r_plan_version_id := r_plan_version_id out |>
                 <| r_economic_identity_reason := r_economic_identity_reason out |>.
Proof.
  destruct (latch_economic_identities_total record venue locked (Some previous) tick) as [out Hout].
  exists out. split; [done|]. apply latch_economic_identities_run in Hout as [s c p Hs Hc Hp ->].
  unfold latched_before, prior_record in Hs, Hp.
  split; [|split; [|done]]; intros id Hid; rewrite Hid in *; cbn [opt_or] in *.
  - injection Hs as <-. reflexivity.
  - injection Hp as <-. reflexivity.
Qed.

(** a plan version id is created only under the lock: when neither the
    previous nor the current record had one and the latch stores one, the plan
    was locked, its stored geometry was valid, and the stored id is exactly the
    one reminted later as proof that progress belongs to this plan
    ([proven_progress_plan_version_id] accepts it). *)
Theorem new_plan_version_locked_and_proven record venue locked previous out id :
  latch_economic_identities record venue locked previous PyNone = Ok out ->
  latched_before r_plan_version_id previous record = None ->
  r_plan_version_id out = Some id ->
  locked = true /\ (exists g, stored_plan_geometry record = Ok g) /\
  proven_progress_plan_version_id out = Ok (Some id).
Proof.
  intros Hrun Hl Hid. apply latch_economic_identities_run in Hrun.
  destruct (latch_new_plan _ _ _ _ _ _ _ Hrun Hl Hid) as (-> & Hg & sid & c & Hsid & Hc & Ha & Hi & _).
  split; [done|]. split; [done|].
  destruct (mint_plan_version_id_total (record_plan_args record sid PyNone)) as (c' & Hc' & Hd & _).
  rewrite Hc in Hc'. injection Hc' as <-. destruct (Hd Ha) as (parts & Hi' & _).
  rewrite Hi in Hi'. injection Hi' as ->.
  unfold proven_progress_plan_version_id. rewrite Hid, digest_latched by auto.
  rewrite (latch_new_plan_reason _ _ _ _ _ _ _ Hrun Hl Hid). cbn [py_contains is_prefix orb].
  change (py_contains REASON_PLAN_VERSION_INVARIANT_VIOLATION "") with false. cbv iota.
  rewrite Hsid, (latch_setup_stable _ _ _ _ _ _ _ Hrun Hsid).
  replace (record_plan_args out sid PyNone) with (record_plan_args record sid PyNone)
    by (destruct Hrun as [? ? ? _ _ _ ->]; reflexivity).
  rewrite Hc. cbn [bind_result]. rewrite Ha, Hi. cbn [negb orb].
  unfold opt_string_eqb. by rewrite bool_decide_eq_true_2.
Qed.

Lemma new_plan_version_locked_and_proven_witness :
  exists out id,
    latch_economic_identities (sample_record <| r_structural_anchor := "sweep-1" |>)
      (Some "binance") true None PyNone = Ok out /\
    r_plan_version_id out = Some id /\ proven_progress_plan_version_id out = Ok (Some id).
Proof.
  destruct (latch_economic_identities (sample_record <| r_structural_anchor := "sweep-1" |>)
      (Some "binance") true None PyNone) as [out|] eqn:E.
  - assert (exists id, r_plan_version_id out = Some id) as [id Hid]
      by (revert E; vm_compute; intros E; injection E as <-; eexists; reflexivity).
    exists out, id. split; [reflexivity|]. split; [exact Hid|].
    exact (proj2 (proj2 (new_plan_version_locked_and_proven _ _ _ _ out id E eq_refl Hid))).
  - exfalso. revert E. vm_compute. discriminate.
Defined.
