(* ===== verification/PlanVersionBinding.v ===== *)
(** * Plan version binding of outcome progress (src/app/lifecycle/plan_version_binding.py) *)

From stdpp Require Import base tactics list strings.
From Stdlib Require Import ZArith NArith Lia Bool Ascii.
From S2P Require Import Prelude PyString PyDecimal PyTime PyJson LifecycleModels CandleIntegrity JsonText.
From S2P Require Import OutcomePolicy EconomicIdentity.
Open Scope string_scope.
Open Scope py_scope.

Definition PLAN_VERSION_BINDING_AWAITING : string := "awaiting_proven_plan_version".
Definition PLAN_VERSION_BINDING_BOUND_AT_CREATION : string := "bound_at_creation".
Definition PLAN_VERSION_BINDING_BOUND_FORWARD : string := "bound_forward_to_proven_plan_version".
Definition PLAN_VERSION_BINDING_UNRESOLVED : string := "unresolved".
Definition PLAN_VERSION_BINDING_KEY : string := "plan_version_binding".

Section Binding.
Context `{JsonErrors}.

(** [_metadata]: malformed text and text that is not an object read as empty *)
Definition metadata (progress : SetupLifecycleOutcomeProgress) : result (list (string * json)) :=
  match loads (pg_metadata_json progress) with
  | Ok (JObj fields) => Ok fields
  | Ok _ => Ok []
  | Raise (JSONDecodeError _) | Raise (TypeError _) => Ok []
  | Raise e => Raise e
  end.

(** [model_copy(update={"metadata_json": json.dumps(metadata, ...)})] *)
Definition with_metadata (progress : SetupLifecycleOutcomeProgress) (fields : list (string * json))
    : SetupLifecycleOutcomeProgress :=
  progress <| pg_metadata_json := dumps (JObj fields) |>.

Record PlanVersionBindDecision := {
  bd_progress : SetupLifecycleOutcomeProgress;
  bd_bound : bool;
  bd_reason : string
}.

(** [_latched_plan_version_id] *)
Definition latched_plan_version_id (record : SetupLifecycleRecord) : option string :=
  match r_plan_version_id record with
  | None => None
  | Some value =>
      let text := py_strip value in
      if String.eqb text "" || String.eqb (py_upper text) NA then None else Some text
  end.

Definition initial_plan_version_binding (record : SetupLifecycleRecord) : result string :=
  let! proven := proven_progress_plan_version_id record in
  match proven with
  | Some _ => Ok PLAN_VERSION_BINDING_BOUND_AT_CREATION
  | None =>
      let reason := match r_economic_identity_reason record with Some r => r | None => "" end in
      if py_contains REASON_PLAN_VERSION_INVARIANT_VIOLATION reason
      then Ok PLAN_VERSION_BINDING_UNRESOLVED
      else match latched_plan_version_id record with
           | None => Ok PLAN_VERSION_BINDING_AWAITING
           | Some _ => Ok PLAN_VERSION_BINDING_UNRESOLVED
           end
  end.

Definition json_is_str (v : json) (s : string) : bool :=
  match v with JStr t => String.eqb t s | _ => false end.

Definition bind_progress_to_proven_plan_version (progress : SetupLifecycleOutcomeProgress)
    (record : SetupLifecycleRecord) : result PlanVersionBindDecision :=
  let unchanged reason := Ok {| bd_progress := progress; bd_bound := false; bd_reason := reason |} in
  if negb (String.eqb (pg_lifecycle_id progress) (r_lifecycle_id record))
  then unchanged "different_lifecycle" else
  let! proven := proven_progress_plan_version_id record in
  match pg_plan_version_id progress, proven with
  | Some stored, Some p => if String.eqb stored p then unchanged "preserved" else unchanged "wrong_plan_version"
  | Some _, None => unchanged "preserved_unproven_economics"
  | None, None => unchanged "unresolved"
  | None, Some p =>
      let! fields := metadata progress in
      if negb (json_is_str (json_get PLAN_VERSION_BINDING_KEY fields) PLAN_VERSION_BINDING_AWAITING)
      then unchanged "unresolved_legacy"
      else if negb (String.eqb (pg_plan_identity progress) (canonical_plan_identity record))
      then unchanged "economics_mismatch"
      else
        Ok {| bd_progress := with_metadata (progress <| pg_plan_version_id := Some p |>)
                (dict_set PLAN_VERSION_BINDING_KEY (JStr PLAN_VERSION_BINDING_BOUND_FORWARD) fields);
              bd_bound := true; bd_reason := "bound_forward" |}
  end.

(** [_without_binding_provenance] *)
Definition without_binding_provenance (progress : SetupLifecycleOutcomeProgress)
    : result SetupLifecycleOutcomeProgress :=
  let! fields := metadata progress in
  Ok (with_metadata (progress <| pg_plan_version_id := None |>) (dict_pop PLAN_VERSION_BINDING_KEY fields)).

(** [_with_plan_version] *)
Definition with_plan_version (progress : SetupLifecycleOutcomeProgress) (id : option string)
    : SetupLifecycleOutcomeProgress :=
  if opt_string_eqb (pg_plan_version_id progress) id then progress
  else progress <| pg_plan_version_id := id |>.

(** [_bind_existing_null_row] *)
Definition bind_existing_null_row (progress : SetupLifecycleOutcomeProgress)
    (record : SetupLifecycleRecord) (existing : SetupLifecycleOutcomeProgress)
    : result SetupLifecycleOutcomeProgress :=
  let! decision := bind_progress_to_proven_plan_version existing record in
  let identity_matches :=
    String.eqb (pg_plan_identity progress) (pg_plan_identity existing)
    && String.eqb (pg_plan_identity existing) (canonical_plan_identity record) in
  let marked id marker :=
    let! fields := metadata progress in
    Ok (with_metadata (progress <| pg_plan_version_id := id |>)
          (dict_set PLAN_VERSION_BINDING_KEY (JStr marker) fields)) in
  if bd_bound decision && identity_matches
     && match pg_plan_version_id (bd_progress decision) with Some _ => true | None => false end
  then marked (pg_plan_version_id (bd_progress decision)) PLAN_VERSION_BINDING_BOUND_FORWARD
  else
  let! stored := metadata existing in
  if identity_matches
     && json_is_str (json_get PLAN_VERSION_BINDING_KEY stored) PLAN_VERSION_BINDING_AWAITING
  then marked None PLAN_VERSION_BINDING_AWAITING
  else without_binding_provenance progress.

Definition resolve_persisted_plan_version (progress : SetupLifecycleOutcomeProgress)
    (record : SetupLifecycleRecord) (existing : option SetupLifecycleOutcomeProgress)
    : result SetupLifecycleOutcomeProgress :=
  let existing_id := match existing with Some e => pg_plan_version_id e | None => None end in
  if negb (String.eqb (pg_lifecycle_id progress) (r_lifecycle_id record))
  then Ok (with_plan_version progress existing_id) else
  match existing_id, existing with
  | Some id, _ => Ok (with_plan_version progress (Some id))
  | None, Some e => bind_existing_null_row progress record e
  | None, None =>
      let! proven := proven_progress_plan_version_id record in
      let identity_matches := String.eqb (pg_plan_identity progress) (canonical_plan_identity record) in
      match pg_plan_version_id progress with
      | Some incoming =>
          if opt_string_eqb (Some incoming) proven && identity_matches then Ok progress
          else if negb identity_matches then without_binding_provenance progress
          else Ok (with_plan_version progress None)
      | None => if negb identity_matches then without_binding_provenance progress else Ok progress
      end
  end.
End Binding.
