(* ===== verification/RuntimeEpoch.v ===== *)
(** * Runtime epoch ownership (src/app/runtime_epoch)

    The database as its tables: the active epoch, granted origins and registered
    runs of src/app/runtime_epoch, and the lifecycle tables of
    src/app/lifecycle/repositories.py.  Every write of the repository first
    passes one of the two guards of ownership.py modelled here. *)

From stdpp Require Import base tactics list strings.
From Stdlib Require Import ZArith NArith Lia Bool Ascii.
From S2P Require Import Prelude PyString PyDecimal LifecycleModels.
Open Scope string_scope.
Open Scope py_scope.

Definition ACTIVE_EPOCH_CONTROL_KEY : string := "active".
Definition ORIGIN_STATUS_GRANTED : string := "granted".

Record RuntimeEpochRecord := {
  re_epoch_id : string;
  re_contract_version : string;
  re_activated_at : string;
  re_cutoff_at : string;
  re_reviewed_release_sha : string;
  re_generation_binding : string;
  re_created_at : string
}.

(** a row of [runtime_operational_origins] *)
Record origin_row := {
  og_origin_id : string;
  og_runtime_epoch_id : string;
  og_symbol : string;
  og_run_id : string;
  og_evaluation_completed_at : option string;
  og_decision_cutoff_at : option string;
  og_producer_observed_at : option string;
  og_origin_kind : string;
  og_status : string;
  og_block_reason : option string;
  og_created_at : option string;
  og_lifecycle_consumption_json : option string
}.
#[export] Instance origin_row_eta : RecordEta origin_row := fun o =>
  Build_origin_row (og_origin_id o) (og_runtime_epoch_id o) (og_symbol o) (og_run_id o) (og_evaluation_completed_at o)
    (og_decision_cutoff_at o) (og_producer_observed_at o) (og_origin_kind o) (og_status o) (og_block_reason o)
    (og_created_at o) (og_lifecycle_consumption_json o).

(** a row of [runtime_operational_runs] *)
Record run_row := {
  run_run_id : string;
  run_runtime_epoch_id : string;
  run_registered_at : string;
  run_status : string;
  run_producer_started_at : option string
}.

(** The database; [db_control] is [None] while the table does not exist.  Rows
    of the lifecycle tables are in rowid order. *)
Record database := mkDatabase {
  db_control : option (list (string * string));
  db_epochs : list RuntimeEpochRecord;
  db_origins : list origin_row;
  db_runs : list run_row;
  db_records : list SetupLifecycleRecord;
  db_events : list SetupLifecycleEvent;
  db_progress : list SetupLifecycleOutcomeProgress;
  db_analytics : list SetupOutcomeAnalyticsRecord
}.
#[export] Instance database_eta : RecordEta database := fun d =>
  mkDatabase (db_control d) (db_epochs d) (db_origins d) (db_runs d) (db_records d) (db_events d)
    (db_progress d) (db_analytics d).

(** ** The active epoch (authority.py) *)

Definition load_active_runtime_epoch (db : database) : option RuntimeEpochRecord :=
  match db_control db with
  | None => None
  | Some control =>
      match find (fun kv => String.eqb (fst kv) ACTIVE_EPOCH_CONTROL_KEY
                   && existsb (fun e => String.eqb (re_epoch_id e) (snd kv)) (db_epochs db)) control with
      | None => None
      | Some kv => find (fun e => String.eqb (re_epoch_id e) (snd kv)) (db_epochs db)
      end
  end.

Definition configuration_error (msg : string) : exn := RuntimeEpochError "RuntimeEpochConfigurationError" msg.
Definition ownership_error (msg : string) : exn := RuntimeEpochError "RuntimeEpochOwnershipError" msg.
Definition origin_error (msg : string) : exn := RuntimeEpochError "RuntimeEpochOriginError" msg.
Definition collision_error (msg : string) : exn := RuntimeEpochError "RuntimeEpochIdentityCollisionError" msg.

Definition require_active_runtime_epoch (db : database) : result RuntimeEpochRecord :=
  match load_active_runtime_epoch db with
  | Some epoch => Ok epoch
  | None => Raise (configuration_error
      "Operational runtime epoch is missing; refusing to initialize a default boundary.")
  end.

(** ** Ownership of a lifecycle row (ownership.py) *)

(** [str(value or "").strip()] of a nullable column *)
Definition column_text (value : option string) : string :=
  match value with Some s => py_strip s | None => "" end.

Definition canonical_operational_symbol (value : string) : string :=
  let text := py_upper (py_strip value) in
  if String.eqb text "" || String.eqb text NA then "" else text.

Definition lifecycle_row_epoch_id (row : SetupLifecycleRecord) : option string :=
  let text := column_text (r_runtime_epoch_id row) in
  if String.eqb text "" then None else Some text.

(** [load_granted_origin] (origin.py) *)
Definition load_granted_origin (db : database) (origin_id : string) : option origin_row :=
  let normalized := py_strip origin_id in
  if String.eqb normalized "" then None
  else find (fun o => String.eqb (og_origin_id o) normalized && String.eqb (og_status o) ORIGIN_STATUS_GRANTED)
         (db_origins db).

(** [_require_origin_owns_symbol] *)
Definition require_origin_owns_symbol (db : database) (origin_id symbol epoch_id : string)
    : result origin_row :=
  match load_granted_origin db origin_id with
  | None => Raise (origin_error "Creation origin is missing or was not granted.")
  | Some origin =>
      if negb (String.eqb (og_runtime_epoch_id origin) epoch_id)
      then Raise (origin_error "Creation origin is not bound to the active runtime epoch.") else
      let origin_symbol := canonical_operational_symbol (og_symbol origin) in
      if String.eqb symbol "" || negb (String.eqb origin_symbol symbol)
      then Raise (origin_error "Creation origin symbol does not match the lifecycle symbol.") else
      let run_id := py_strip (og_run_id origin) in
      if String.eqb run_id "" then Raise (origin_error "Creation origin is missing its operational run.") else
      match find (fun r => String.eqb (run_run_id r) run_id) (db_runs db) with
      | None => Raise (origin_error "Creation origin run is not registered.")
      | Some run =>
          if negb (String.eqb (run_runtime_epoch_id run) epoch_id)
          then Raise (origin_error "Creation origin run is not bound to the active runtime epoch.")
          else if negb (String.eqb (og_status origin) ORIGIN_STATUS_GRANTED)
          then Raise (origin_error "Creation origin was not granted.")
          else Ok origin
      end
  end.

(** the row of [setup_lifecycle_records] with this primary key *)
Definition record_row_of (db : database) (lifecycle_id : string) : option SetupLifecycleRecord :=
  find (fun r => String.eqb (r_lifecycle_id r) lifecycle_id) (db_records db).

Definition require_current_epoch_lifecycle_id (db : database) (lifecycle_id : string)
    : result SetupLifecycleRecord :=
  let! epoch := require_active_runtime_epoch db in
  let normalized_id := py_strip lifecycle_id in
  if String.eqb normalized_id "" || String.eqb (py_upper normalized_id) NA
  then Raise (ownership_error "Lifecycle ownership lookup requires a lifecycle_id.") else
  match record_row_of db normalized_id with
  | None => Raise (ownership_error ("Lifecycle " +:+ normalized_id +:+ " does not exist."))
  | Some row =>
      match lifecycle_row_epoch_id row with
      | None => Raise (ownership_error "Legacy or unattributed lifecycle rows are evidence-only.")
      | Some row_epoch =>
          if negb (String.eqb row_epoch (re_epoch_id epoch))
          then Raise (ownership_error "Lifecycle ownership does not match the active runtime epoch.") else
          let origin_id := column_text (r_creation_origin_id row) in
          if String.eqb origin_id ""
          then Raise (origin_error "Lifecycle is missing a granted creation origin.") else
          let! _ := require_origin_owns_symbol db origin_id
                      (canonical_operational_symbol (r_symbol row)) (re_epoch_id epoch) in
          Ok row
      end
  end.

(** [if creation_origin_id and existing_origin and ...] *)
Definition origin_changed (incoming existing : option string) : bool :=
  match incoming, existing with
  | Some i, Some e => negb (String.eqb i "") && negb (String.eqb e "") && negb (String.eqb i e)
  | _, _ => false
  end.

Definition require_current_epoch_lifecycle_write (db : database) (record : SetupLifecycleRecord)
    (inserting : bool) : result RuntimeEpochRecord :=
  let! epoch := require_active_runtime_epoch db in
  let normalized_id := py_strip (r_lifecycle_id record) in
  if String.eqb normalized_id "" || String.eqb (py_upper normalized_id) NA
  then Raise (ownership_error "Lifecycle write requires a lifecycle_id.") else
  let record_symbol := canonical_operational_symbol (r_symbol record) in
  match record_row_of db normalized_id with
  | None =>
      if negb inserting
      then Raise (ownership_error ("Lifecycle " +:+ normalized_id +:+ " does not exist."))
      else if negb (bool_decide (r_runtime_epoch_id record = Some (re_epoch_id epoch)))
      then Raise (ownership_error "New lifecycle records must carry the active runtime epoch.")
      else
      let origin_id := column_text (r_creation_origin_id record) in
      if String.eqb origin_id ""
      then Raise (origin_error "New lifecycle records require a granted creation origin.") else
      let! _ := require_origin_owns_symbol db origin_id record_symbol (re_epoch_id epoch) in
      Ok epoch
  | Some existing =>
      match lifecycle_row_epoch_id existing with
      | None => Raise (collision_error
          "Legacy lifecycle identity collision: refusing to overwrite, relabel, or supersede an untagged row.")
      | Some existing_epoch =>
          if negb (String.eqb existing_epoch (re_epoch_id epoch))
          then Raise (ownership_error "Lifecycle ownership does not match the active runtime epoch.")
          else if negb (bool_decide (r_runtime_epoch_id record = None)
                        || bool_decide (r_runtime_epoch_id record = Some existing_epoch))
          then Raise (ownership_error "Runtime epoch membership is immutable.") else
          let existing_origin := column_text (r_creation_origin_id existing) in
          if String.eqb existing_origin ""
          then Raise (origin_error
            "Malformed current-epoch lifecycle is missing a granted creation origin.")
          else if origin_changed (r_creation_origin_id record) (r_creation_origin_id existing)
          then Raise (ownership_error "Creation origin is immutable.") else
          let existing_symbol := canonical_operational_symbol (r_symbol existing) in
          let owned_symbol := if String.eqb record_symbol "" then existing_symbol else record_symbol in
          let! _ := require_origin_owns_symbol db existing_origin owned_symbol (re_epoch_id epoch) in
          if negb (String.eqb record_symbol "") && negb (String.eqb existing_symbol "")
             && negb (String.eqb record_symbol existing_symbol)
          then Raise (ownership_error "Lifecycle symbol is immutable relative to its creation origin.")
          else Ok epoch
      end
  end.
