(* ===== verification/LifecycleRepository.v ===== *)
(** * The lifecycle repository (src/app/lifecycle/repositories.py)

    Reads and writes of the lifecycle tables.  A write is a function from the
    database to a database or an exception; an exception that leaves the
    repository's context rolls the transaction back ([__exit__]), so the
    database it would have left is not part of the result. *)

From stdpp Require Import base tactics list strings.
From Stdlib Require Import ZArith NArith Lia Bool Ascii.
From S2P Require Import Prelude PyString PyDecimal PyTime PyJson LifecycleModels CandleIntegrity JsonText.
From S2P Require Import OutcomePolicy EconomicIdentity PlanVersionBinding RuntimeEpoch.
Open Scope string_scope.
Open Scope py_scope.

(** ** Effects *)

Definition tx (A : Type) : Type := database -> result (A * database).

Definition ret {A} (a : A) : tx A := fun db => Ok (a, db).
Definition lift {A} (r : result A) : tx A := fun db => let! a := r in Ok (a, db).
Definition bind_tx {A B} (c : tx A) (k : A -> tx B) : tx B :=
  fun db => let! (a, db') := c db in k a db'.

Declare Scope tx_scope.
Delimit Scope tx_scope with tx.
Notation "'do!' x ':=' c 'in' k" := (bind_tx c (fun x => k))
  (at level 10, x pattern, c at level 100, k at level 200) : tx_scope.
Open Scope tx_scope.

(** a query: a function of the database that leaves it alone *)
Definition query {A} (f : database -> result A) : tx A := fun db => let! a := f db in Ok (a, db).

Lemma bind_tx_ok {A B} (c : tx A) (k : A -> tx B) db b db' :
  bind_tx c k db = Ok (b, db') -> exists a db1, c db = Ok (a, db1) /\ k a db1 = Ok (b, db').
Proof. unfold bind_tx. intros H. apply bind_ok in H as ([a db1] & H1 & H2). eauto. Qed.

Lemma lift_ok {A} (r : result A) db a db' : lift r db = Ok (a, db') -> r = Ok a /\ db' = db.
Proof. unfold lift. destruct r; [|discriminate]. by intros [= <- <-]. Qed.

(** ** Rows *)

(** [_lifecycle_id_text] *)
Definition lifecycle_id_text (value : string) : string :=
  let text := py_strip value in if String.eqb text "" then NA else text.

(** [_identity_text] *)
Definition identity_text (value : string) : string :=
  let text := py_lower (py_strip value) in if String.eqb text "" then NA else text.

(** [_record_params]; the other columns are the fields themselves, a missing
    previous state being the text N/A and back *)
Definition record_params (r : SetupLifecycleRecord) : SetupLifecycleRecord :=
  r <| r_mode := identity_text (r_mode r) |> <| r_direction := identity_text (r_direction r) |>.

(** [max(1, int(row["required_confirmation_cycles"] or 2))] *)
Definition cycles_of_column (z : Z) : Z := if (z =? 0)%Z then 2%Z else Z.max 1 z.

(** [_record_from_row] *)
Definition record_from_row (row : SetupLifecycleRecord) : result SetupLifecycleRecord :=
  validate_record
    (row <| r_required_confirmation_cycles := cycles_of_column (r_required_confirmation_cycles row) |>).

(** [_outcome_progress_params] *)
Definition outcome_progress_params (p : SetupLifecycleOutcomeProgress) : SetupLifecycleOutcomeProgress :=
  let observed {A} (v : option A) := if pg_eligibility_cutoff_observed p then v else None in
  p <| pg_last_eligibility_decision_at := observed (pg_last_eligibility_decision_at p) |>
    <| pg_last_eligibility_prefix_evidence_json := observed (pg_last_eligibility_prefix_evidence_json p) |>
    <| pg_eligibility_cutoff_observed := false |>.

(** [_outcome_progress_from_row] *)
Definition outcome_progress_from_row (row : SetupLifecycleOutcomeProgress)
    : result SetupLifecycleOutcomeProgress :=
  validate_progress (row <| pg_eligibility_cutoff_observed := false |>).

(** ** Queries *)

Definition get_record_by_lifecycle_id (db : database) (lifecycle_id : string)
    : result (option SetupLifecycleRecord) :=
  let normalized := lifecycle_id_text lifecycle_id in
  if String.eqb normalized NA then Ok None else
  match record_row_of db normalized with
  | Some row => map_result Some (record_from_row row)
  | None => Ok None
  end.

Definition progress_key_eqb (lifecycle_id plan_identity : string) (p : SetupLifecycleOutcomeProgress) : bool :=
  String.eqb (pg_lifecycle_id p) lifecycle_id && String.eqb (pg_plan_identity p) plan_identity.

Definition get_outcome_progress (db : database) (lifecycle_id plan_identity : string)
    : result (option SetupLifecycleOutcomeProgress) :=
  match find (progress_key_eqb (lifecycle_id_text lifecycle_id) (lifecycle_id_text plan_identity))
          (db_progress db) with
  | Some row => map_result Some (outcome_progress_from_row row)
  | None => Ok None
  end.

Fixpoint all_from_rows {A B} (f : A -> result B) (rows : list A) : result (list B) :=
  match rows with
  | [] => Ok []
  | row :: rest =>
      let! b := f row in
      let! others := all_from_rows f rest in
      Ok (b :: others)
  end.

(** [list_outcome_progress(lifecycle_id=...)] *)
Definition list_outcome_progress (db : database) (lifecycle_id : string)
    : result (list SetupLifecycleOutcomeProgress) :=
  all_from_rows outcome_progress_from_row
    (List.filter (fun p => String.eqb (pg_lifecycle_id p) (lifecycle_id_text lifecycle_id)) (db_progress db)).

(** [ORDER BY timestamp ASC, event_id ASC] *)
Fixpoint insert_event_row (e : SetupLifecycleEvent) (l : list SetupLifecycleEvent)
    : list SetupLifecycleEvent :=
  match l with
  | [] => [e]
  | x :: rest => if String.leb (ev_timestamp e) (ev_timestamp x) then e :: l
                 else x :: insert_event_row e rest
  end.

Definition events_by_time (l : list SetupLifecycleEvent) : list SetupLifecycleEvent :=
  fold_right insert_event_row [] l.

(** [list_events(lifecycle_id=...)] *)
Definition list_events (db : database) (lifecycle_id : string) : result (list SetupLifecycleEvent) :=
  all_from_rows validate_event
    (events_by_time (List.filter (fun e => String.eqb (ev_lifecycle_id e) lifecycle_id) (db_events db))).

(** [_outcome_params] and [_outcome_from_row]: the columns are the fields; the row's own timestamps are not read *)
Definition outcome_from_row (row : SetupOutcomeAnalyticsRecord) : result SetupOutcomeAnalyticsRecord := validate_analytics row.

(** [_symbol] *)
Definition repository_symbol (value : string) : string :=
  let text := py_upper (py_strip value) in if String.eqb text "" then NA else text.

(** [list_outcome_analytics(symbol=...)] *)
Definition list_outcome_analytics (db : database) (symbol : string) : result (list SetupOutcomeAnalyticsRecord) :=
  all_from_rows outcome_from_row
    (List.filter (fun a => String.eqb (an_symbol a) (repository_symbol symbol)) (db_analytics db)).

(** ** Writes *)

(** the unique indexes on current rows *)
Definition current_slot_eqb (a b : SetupLifecycleRecord) : bool :=
  r_is_current a && r_is_current b && bool_decide (r_runtime_epoch_id a = r_runtime_epoch_id b)
  && String.eqb (r_symbol a) (r_symbol b) && String.eqb (r_mode a) (r_mode b)
  && String.eqb (r_direction a) (r_direction b).

Definition update_row {A} (same : A -> bool) (f : A -> A) (rows : list A) : list A :=
  map (fun row => if same row then f row else row) rows.

Definition upsert_record (record : SetupLifecycleRecord) : tx unit := fun db =>
  let! existing := get_record_by_lifecycle_id db (r_lifecycle_id record) in
  let! _ := require_current_epoch_lifecycle_write db record
              (match existing with None => true | Some _ => false end) in
  let params := record_params record in
  let same r := String.eqb (r_lifecycle_id r) (r_lifecycle_id params) in
  let stored := match record_row_of db (r_lifecycle_id params) with
                | Some row => params <| r_runtime_epoch_id := r_runtime_epoch_id row |>
                                <| r_creation_origin_id := r_creation_origin_id row |>
                | None => params
                end in
  if existsb (fun r => negb (same r) && current_slot_eqb r stored) (db_records db)
  then Raise (DatabaseError "UNIQUE constraint failed: setup_lifecycle_records")
  else Ok (tt, db <| db_records :=
    if existsb same (db_records db) then update_row same (fun _ => stored) (db_records db)
    else (db_records db ++ [stored])%list |>).

Definition foreign_key_ok (db : database) (lifecycle_id : string) : bool :=
  match record_row_of db lifecycle_id with Some _ => true | None => false end.

Definition insert_event (event : SetupLifecycleEvent) : tx unit := fun db =>
  let! _ := require_current_epoch_lifecycle_id db (ev_lifecycle_id event) in
  if negb (foreign_key_ok db (ev_lifecycle_id event))
  then Raise (DatabaseError "FOREIGN KEY constraint failed")
  else Ok (tt, db <| db_events := (db_events db ++ [event])%list |>).

(** [plan_version_id IS NOT NULL AND TRIM(plan_version_id) != ''] *)
Definition has_plan_version (row : SetupLifecycleOutcomeProgress) : bool :=
  match pg_plan_version_id row with
  | Some id => negb (String.eqb (strip_by (Ascii.eqb " ") id) "")
  | None => false
  end.

(** the [DO UPDATE SET] clause *)
Definition update_progress_row (observed : bool) (params row : SetupLifecycleOutcomeProgress)
    : SetupLifecycleOutcomeProgress :=
  params
    <| pg_plan_version_id := if has_plan_version row then pg_plan_version_id row
                             else pg_plan_version_id params |>
    <| pg_first_evaluated_at := pg_first_evaluated_at row |>
    <| pg_last_eligibility_decision_at :=
         if observed then pg_last_eligibility_decision_at params
         else pg_last_eligibility_decision_at row |>
    <| pg_last_eligibility_prefix_evidence_json :=
         if observed then pg_last_eligibility_prefix_evidence_json params
         else pg_last_eligibility_prefix_evidence_json row |>.

Section Store.
Context `{JsonErrors}.

Definition upsert_outcome_progress (progress : SetupLifecycleOutcomeProgress) : tx unit := fun db =>
  let! _ := require_current_epoch_lifecycle_id db (pg_lifecycle_id progress) in
  let! existing := get_outcome_progress db (pg_lifecycle_id progress) (pg_plan_identity progress) in
  let! record := get_record_by_lifecycle_id db (pg_lifecycle_id progress) in
  let! progress := match record with
                   | Some r => resolve_persisted_plan_version progress r existing
                   | None => Ok progress
                   end in
  if negb (foreign_key_ok db (pg_lifecycle_id progress))
  then Raise (DatabaseError "FOREIGN KEY constraint failed") else
  let params := outcome_progress_params progress in
  let same := progress_key_eqb (pg_lifecycle_id params) (pg_plan_identity params) in
  Ok (tt, db <| db_progress :=
    if existsb same (db_progress db)
    then update_row same (update_progress_row (pg_eligibility_cutoff_observed progress) params) (db_progress db)
    else (db_progress db ++ [params])%list |>).
End Store.

(** [supersede_record] *)
Definition supersede_record (lifecycle_id : string) : tx unit := fun db =>
  let! _ := require_current_epoch_lifecycle_id db lifecycle_id in
  let id := lifecycle_id_text lifecycle_id in
  Ok (tt, db <| db_records := update_row (fun r => String.eqb (r_lifecycle_id r) id && r_is_current r)
                                (fun r => r <| r_is_current := false |>) (db_records db) |>).

(** the key of [UNIQUE(lifecycle_id, final_outcome)] *)
Definition analytics_key_eqb (a b : SetupOutcomeAnalyticsRecord) : bool :=
  String.eqb (an_lifecycle_id b) (an_lifecycle_id a) && String.eqb (an_final_outcome b) (an_final_outcome a).

(** [upsert_outcome_analytics]: the conflict clause writes every column but the key *)
Definition upsert_outcome_analytics (record : SetupOutcomeAnalyticsRecord) : tx unit := fun db =>
  let! _ := require_current_epoch_lifecycle_id db (an_lifecycle_id record) in
  let same := analytics_key_eqb record in
  Ok (tt, db <| db_analytics :=
    if existsb same (db_analytics db) then update_row same (fun _ => record) (db_analytics db)
    else (db_analytics db ++ [record])%list |>).
