(* ===== verification/RepositoryFacts.v ===== *)
(** * What a transaction may change

    [extends id db db'] bounds the effect of writes on behalf of one lifecycle:
    other lifecycles keep their rows, events are only appended, no row
    disappears, and epoch membership, creation origin, stored plan versions and
    first evaluation times never change.  [writes id c Q] is the triple "every
    run of [c] that does not raise stays within [extends id] and returns a value
    in [Q]"; the rules compose it along [bind_tx]. *)

From stdpp Require Import base tactics list strings.
From Stdlib Require Import ZArith NArith Lia Bool Ascii.
From S2P Require Import Prelude PyString PyDecimal PyTime PyJson LifecycleModels CandleIntegrity JsonText.
From S2P Require Import OutcomePolicy EconomicIdentity PlanVersionBinding RuntimeEpoch LifecycleRepository.
Open Scope string_scope.
Open Scope py_scope.
Open Scope tx_scope.
Open Scope list_scope.

(** ** Rows *)

Lemma filter_update_row {A} (p same : A -> bool) (f : A -> A) l :
  (forall x, same x = true -> p x = false /\ p (f x) = false) ->
  List.filter p (update_row same f l) = List.filter p l.
Proof.
  intros H. induction l as [|x l IH]; [done|]. unfold update_row in *. cbn [map List.filter].
  destruct (same x) eqn:E; [|by rewrite IH]. destruct (H x E) as [-> ->]. exact IH.
Qed.

Lemma find_update_row {A} (k same : A -> bool) (f : A -> A) l :
  (forall x, same x = true -> k (f x) = k x) ->
  find k (update_row same f l) = option_map (fun x => if same x then f x else x) (find k l).
Proof.
  intros H. induction l as [|x l IH]; [done|]. unfold update_row in *. cbn [map find].
  destruct (same x) eqn:E.
  - rewrite (H x E). destruct (k x); [cbn; by rewrite E|exact IH].
  - destruct (k x) eqn:Ek; [cbn; by rewrite E|exact IH].
Qed.

Lemma find_app {A} (k : A -> bool) l1 l2 :
  find k (l1 ++ l2) = match find k l1 with Some x => Some x | None => find k l2 end.
Proof. induction l1 as [|x l1 IH]; [done|]. cbn [app find]. by destruct (k x). Qed.

Lemma filter_snoc {A} (p : A -> bool) l x : p x = false -> List.filter p (l ++ [x]) = List.filter p l.
Proof. intros H. rewrite List.filter_app. cbn [List.filter]. by rewrite H, app_nil_r. Qed.

(** ** The relation *)

Definition other_id (id x : string) : bool := negb (String.eqb (lifecycle_id_text x) id).

Lemma other_id_same x : other_id (lifecycle_id_text x) x = false.
Proof. unfold other_id. by rewrite String.eqb_refl. Qed.

Record extends (id : string) (db db' : database) : Prop := mkExtends {
  ex_control : db_control db' = db_control db;
  ex_epochs : db_epochs db' = db_epochs db;
  ex_origins : db_origins db' = db_origins db;
  ex_runs : db_runs db' = db_runs db;
  ex_records : List.filter (fun r => other_id id (r_lifecycle_id r)) (db_records db')
               = List.filter (fun r => other_id id (r_lifecycle_id r)) (db_records db);
  ex_progress : List.filter (fun p => other_id id (pg_lifecycle_id p)) (db_progress db')
                = List.filter (fun p => other_id id (pg_lifecycle_id p)) (db_progress db);
  ex_analytics : List.filter (fun a => other_id id (an_lifecycle_id a)) (db_analytics db')
                 = List.filter (fun a => other_id id (an_lifecycle_id a)) (db_analytics db);
  ex_events : exists added, db_events db' = db_events db ++ added /\
                Forall (fun e => lifecycle_id_text (ev_lifecycle_id e) = id) added;
  ex_ownership : forall x row, record_row_of db x = Some row ->
    exists row', record_row_of db' x = Some row' /\
      r_runtime_epoch_id row' = r_runtime_epoch_id row /\ r_creation_origin_id row' = r_creation_origin_id row;
  ex_plan_version : forall lid pid row, find (progress_key_eqb lid pid) (db_progress db) = Some row ->
    exists row', find (progress_key_eqb lid pid) (db_progress db') = Some row' /\
      (has_plan_version row = true -> pg_plan_version_id row' = pg_plan_version_id row) /\
      pg_first_evaluated_at row' = pg_first_evaluated_at row
}.

Lemma extends_refl id db : extends id db db.
Proof. split; try done; [exists []; by rewrite app_nil_r|eauto|eauto]. Qed.

Lemma extends_trans id db1 db2 db3 : extends id db1 db2 -> extends id db2 db3 -> extends id db1 db3.
Proof.
  intros A B. destruct (ex_events _ _ _ A) as (ev1 & E1 & F1), (ex_events _ _ _ B) as (ev2 & E2 & F2).
  split.
  - by rewrite (ex_control _ _ _ B), (ex_control _ _ _ A).
  - by rewrite (ex_epochs _ _ _ B), (ex_epochs _ _ _ A).
  - by rewrite (ex_origins _ _ _ B), (ex_origins _ _ _ A).
  - by rewrite (ex_runs _ _ _ B), (ex_runs _ _ _ A).
  - by rewrite (ex_records _ _ _ B), (ex_records _ _ _ A).
  - by rewrite (ex_progress _ _ _ B), (ex_progress _ _ _ A).
  - by rewrite (ex_analytics _ _ _ B), (ex_analytics _ _ _ A).
  - exists (ev1 ++ ev2). rewrite E2, E1, app_assoc. split; [done|]. by apply Forall_app.
  - intros x row H. destruct (ex_ownership _ _ _ A x row H) as (row2 & H2 & Ha & Hb).
    destruct (ex_ownership _ _ _ B x row2 H2) as (row3 & H3 & Hc & Hd). exists row3. split_and!; congruence.
  - intros lid pid row H. destruct (ex_plan_version _ _ _ A lid pid row H) as (row2 & H2 & Ha & Hb).
    destruct (ex_plan_version _ _ _ B lid pid row2 H2) as (row3 & H3 & Hc & Hd). exists row3.
    split_and!; [done| |congruence]. intros Hp. rewrite <- (Ha Hp). apply Hc.
    unfold has_plan_version in *. by rewrite (Ha Hp).
Qed.

(** ** Triples *)

Definition writes {A} (id : string) (c : tx A) (Q : A -> Prop) : Prop :=
  forall db a db', c db = Ok (a, db') -> extends id db db' /\ Q a.

Lemma writes_ret {A} id (a : A) (Q : A -> Prop) : Q a -> writes id (ret a) Q.
Proof. intros H db a' db' E. injection E as <- <-. split; [apply extends_refl|done]. Qed.

Lemma writes_lift {A} id (r : result A) (Q : A -> Prop) : (forall a, r = Ok a -> Q a) -> writes id (lift r) Q.
Proof. intros H db a db' E. apply lift_ok in E as [E ->]. split; [apply extends_refl|auto]. Qed.

Lemma writes_query {A} id (f : database -> result A) (Q : A -> Prop) :
  (forall db a, f db = Ok a -> Q a) -> writes id (query f) Q.
Proof.
  intros H db a db' E. unfold query in E. apply bind_ok in E as (x & Hx & E). injection E as <- <-.
  split; [apply extends_refl|eauto].
Qed.

Lemma writes_bind {A B} id (c : tx A) (k : A -> tx B) (Q : A -> Prop) (R : B -> Prop) :
  writes id c Q -> (forall a, Q a -> writes id (k a) R) -> writes id (bind_tx c k) R.
Proof.
  intros Hc Hk db b db' E. apply bind_tx_ok in E as (a & db1 & E1 & E2).
  destruct (Hc _ _ _ E1) as [X HQ]. destruct (Hk a HQ _ _ _ E2) as [Y HR].
  split; [by eapply extends_trans|done].
Qed.

Lemma writes_impl {A} id (c : tx A) (Q R : A -> Prop) : writes id c Q -> (forall a, Q a -> R a) -> writes id c R.
Proof. intros H HQ db a db' E. destruct (H _ _ _ E). auto. Qed.

(** a transaction that depends on the database it runs in *)
Lemma writes_at {A} id (c : database -> tx A) (Q : A -> Prop) :
  (forall db, writes id (c db) Q) -> writes id (fun db => c db db) Q.
Proof. intros H db a db' E. by eapply H. Qed.

(** ** The writes of the repository *)

Lemma extends_records id db rows :
  List.filter (fun r => other_id id (r_lifecycle_id r)) rows
    = List.filter (fun r => other_id id (r_lifecycle_id r)) (db_records db) ->
  (forall x row, record_row_of db x = Some row ->
    exists row', find (fun r => String.eqb (r_lifecycle_id r) x) rows = Some row' /\
      r_runtime_epoch_id row' = r_runtime_epoch_id row /\ r_creation_origin_id row' = r_creation_origin_id row) ->
  extends id db (db <| db_records := rows |>).
Proof. intros H1 H2. split; try done; [exists []; split; [symmetry; apply app_nil_r|done]|eauto]. Qed.

Lemma extends_progress id db rows :
  List.filter (fun p => other_id id (pg_lifecycle_id p)) rows
    = List.filter (fun p => other_id id (pg_lifecycle_id p)) (db_progress db) ->
  (forall lid pid row, find (progress_key_eqb lid pid) (db_progress db) = Some row ->
    exists row', find (progress_key_eqb lid pid) rows = Some row' /\
      (has_plan_version row = true -> pg_plan_version_id row' = pg_plan_version_id row) /\
      pg_first_evaluated_at row' = pg_first_evaluated_at row) ->
  extends id db (db <| db_progress := rows |>).
Proof. intros H1 H2. split; try done; [exists []; split; [symmetry; apply app_nil_r|done]|eauto]. Qed.

Lemma record_params_id r : r_lifecycle_id (record_params r) = r_lifecycle_id r.
Proof. reflexivity. Qed.

Lemma upsert_record_writes r : writes (lifecycle_id_text (r_lifecycle_id r)) (upsert_record r) (fun _ => True).
Proof.
  intros db [] db' H. split; [|done]. unfold upsert_record in H.
  apply bind_ok in H as (existing & _ & H). apply bind_ok in H as (epoch & _ & H).
  set (id := lifecycle_id_text (r_lifecycle_id r)).
  set (stored := match record_row_of db (r_lifecycle_id (record_params r)) with Some row => _ | None => _ end) in H.
  assert (r_lifecycle_id stored = r_lifecycle_id r) as Hid by (unfold stored; by destruct (record_row_of _ _)).
  destruct (existsb _ (db_records db)) in H; [discriminate|]. injection H as <-.
  set (same := fun x : SetupLifecycleRecord => String.eqb (r_lifecycle_id x) (r_lifecycle_id r)).
  assert (forall x, same x = true -> r_lifecycle_id x = r_lifecycle_id r) as Hsame
    by (intros x Hx; by apply String.eqb_eq in Hx).
  assert (other_id id (r_lifecycle_id stored) = false) as Hoth by (rewrite Hid; apply other_id_same).
  apply extends_records; fold same.
  - destruct (existsb same (db_records db)).
    + apply filter_update_row. intros x Hx. rewrite (Hsame x Hx). split; [apply other_id_same|exact Hoth].
    + by apply filter_snoc.
  - intros x row Hrow. destruct (existsb same (db_records db)) eqn:Ee.
    + rewrite find_update_row.
      2: { intros y Hy. rewrite Hid. by rewrite (Hsame y Hy). }
      unfold record_row_of in Hrow. rewrite Hrow. cbn [option_map]. eexists. split; [reflexivity|].
      destruct (same row) eqn:Es; [|done]. unfold stored. unfold same in Es. apply String.eqb_eq in Es.
      apply find_some in Hrow as Hr. destruct Hr as [_ Hx]. apply String.eqb_eq in Hx. subst x.
      change (r_lifecycle_id (record_params r)) with (r_lifecycle_id r). unfold record_row_of.
      rewrite <- Es, Hrow. done.
    + rewrite find_app. unfold record_row_of in Hrow. rewrite Hrow. eauto.
Qed.

Lemma insert_event_writes e : writes (lifecycle_id_text (ev_lifecycle_id e)) (insert_event e) (fun _ => True).
Proof.
  intros db [] db' H. split; [|done]. unfold insert_event in H. apply bind_ok in H as (row & _ & H).
  destruct (negb _) in H; [discriminate|]. injection H as <-.
  split; cbn; try done; [|by eauto..]. exists [e]. split; [done|]. by constructor.
Qed.

Lemma upsert_outcome_analytics_writes a :
  writes (lifecycle_id_text (an_lifecycle_id a)) (upsert_outcome_analytics a) (fun _ => True).
Proof.
  intros db [] db' H. split; [|done]. unfold upsert_outcome_analytics in H. apply bind_ok in H as (row & _ & H).
  injection H as <-. split; cbn; try done; [|exists []; split; [symmetry; apply app_nil_r|done]|by eauto..].
  destruct (existsb _ _).
  - apply filter_update_row. intros x Hx. apply andb_true_iff in Hx as [->%String.eqb_eq _]. by rewrite other_id_same.
  - apply filter_snoc, other_id_same.
Qed.

Section Store.
Context `{JsonErrors}.

(** What identifies a progress row. *)
Definition progress_key (p : SetupLifecycleOutcomeProgress) : string * string :=
  (pg_lifecycle_id p, pg_plan_identity p).

Lemma with_plan_version_key p id : progress_key (with_plan_version p id) = progress_key p.
Proof. unfold with_plan_version. by destruct (opt_string_eqb _ _). Qed.

Lemma without_binding_provenance_key p q : without_binding_provenance p = Ok q -> progress_key q = progress_key p.
Proof. unfold without_binding_provenance. intros H1. inv_run H1. by injection H1 as <-. Qed.

Lemma bind_existing_null_row_key p r e q : bind_existing_null_row p r e = Ok q -> progress_key q = progress_key p.
Proof.
  unfold bind_existing_null_row. intros H1. apply bind_ok in H1 as (d & _ & H1).
  match type of H1 with (if ?c then _ else _) = _ => destruct c end.
  - inv_run H1. by injection H1 as <-.
  - apply bind_ok in H1 as (m & _ & H1). match type of H1 with (if ?c then _ else _) = _ => destruct c end.
    + inv_run H1. by injection H1 as <-.
    + by apply without_binding_provenance_key in H1.
Qed.

Lemma resolve_key p r existing q :
  resolve_persisted_plan_version p r existing = Ok q -> progress_key q = progress_key p.
Proof.
  unfold resolve_persisted_plan_version. intros H1.
  destruct (negb _) in H1; [injection H1 as <-; apply with_plan_version_key|].
  destruct existing as [e|]; [destruct (pg_plan_version_id e)|].
  - injection H1 as <-. apply with_plan_version_key.
  - by apply bind_existing_null_row_key in H1.
  - apply bind_ok in H1 as (proven & _ & H1). destruct (pg_plan_version_id p).
    + destruct (_ && _) in H1; [by injection H1 as <-|]. destruct (negb _) in H1.
      * by apply without_binding_provenance_key in H1.
      * injection H1 as <-. apply with_plan_version_key.
    + destruct (negb _) in H1; [by apply without_binding_provenance_key in H1|by injection H1 as <-].
Qed.

Lemma upsert_outcome_progress_writes p :
  writes (lifecycle_id_text (pg_lifecycle_id p)) (upsert_outcome_progress p) (fun _ => True).
Proof.
  intros db [] db' H1. split; [|done]. unfold upsert_outcome_progress in H1.
  apply bind_ok in H1 as (row & _ & H1). apply bind_ok in H1 as (existing & _ & H1).
  apply bind_ok in H1 as (record & _ & H1). apply bind_ok in H1 as (q & Hq & H1).
  assert (progress_key q = progress_key p) as Hkey
    by (destruct record; [by apply resolve_key in Hq|by injection Hq as <-]).
  injection Hkey as Hlid Hpid. destruct (negb _) in H1; [discriminate|]. injection H1 as <-.
  set (params := outcome_progress_params q).
  set (same := progress_key_eqb (pg_lifecycle_id q) (pg_plan_identity q)).
  set (upd := update_progress_row (pg_eligibility_cutoff_observed q) params).
  assert (forall x, same x = true -> pg_lifecycle_id x = pg_lifecycle_id q /\ pg_plan_identity x = pg_plan_identity q) as Hsame.
  { intros x Hx. unfold same, progress_key_eqb in Hx. by rewrite andb_true_iff, !String.eqb_eq in Hx. }
  assert (other_id (lifecycle_id_text (pg_lifecycle_id p)) (pg_lifecycle_id q) = false) as Hoth
    by (rewrite Hlid; apply other_id_same).
  apply extends_progress; fold params same upd.
  - destruct (existsb same (db_progress db)).
    + apply filter_update_row. intros x Hx. destruct (Hsame x Hx) as [-> _]. split; exact Hoth.
    + by apply filter_snoc.
  - intros lid pid row' Hrow. destruct (existsb same (db_progress db)) eqn:Ee.
    + rewrite find_update_row.
      2: { intros x Hx. destruct (Hsame x Hx) as [E1 E2]. unfold progress_key_eqb. by rewrite E1, E2. }
      rewrite Hrow. cbn [option_map]. eexists. split; [reflexivity|]. destruct (same row'); [|done].
      unfold upd, update_progress_row. cbn. split; [|done]. by intros ->.
    + rewrite find_app, Hrow. eauto.
Qed.
End Store.
