(* ===== verification/Breakeven.v ===== *)
(** * Breakeven stop management (src/app/lifecycle/breakeven.py)

    Once the first target is recorded, a plan bound to the policy is stopped at
    the midpoint of its entry zone, on candles that open after the target and
    after the policy was adopted. *)

From stdpp Require Import base tactics list strings.
From Stdlib Require Import ZArith NArith Lia Bool Ascii.
From S2P Require Import Prelude PyString PyDecimal PyTime PyJson LifecycleModels CandleIntegrity JsonText.
From S2P Require Import OutcomePolicy EconomicIdentity PlanVersionBinding.
Open Scope string_scope.
Open Scope py_scope.

Definition POLICY : string := "tp1_entry_zone_midpoint_breakeven_v2".
Definition KEY : string := "stop_management".

Definition reference_price (g : StoredPlanGeometry) : dec :=
  ddiv_raw (dadd (g_entry_low g) (g_entry_high g)) (dec_of_Z 2).

Definition BINDING_KEYS : list string :=
  ["policy"; "reference_type"; "reference_price"; "adopted_at"; "effective_from_candle_open_at";
   "prior_policy"; "actual_fill_or_net_pnl_claim"].

(** [set(d) == names] *)
Definition same_keys (d : list (string * json)) (names : list string) : bool :=
  forallb (fun kv => str_in (fst kv) names) d && forallb (fun name => dict_mem name d) names.

(** [max(a, b)]: the first of two equal instants *)
Definition later (a b : datetime) : datetime := if (instant a <? instant b)%Z then b else a.

Definition utc (value : option string) (field_name : string) : result datetime :=
  normalize_utc_timestamp (match value with Some s => CVal (PyStr s) | None => CVal PyNone end) field_name.

Section Breakeven.
Context `{JsonErrors}.

(** the checks of a binding that is already stored *)
Definition check_binding (binding : json) (g : StoredPlanGeometry) : result unit :=
  match binding with
  | JObj fields =>
      if negb (json_is_str (json_get "policy" fields) POLICY)
      then Raise (ValueError "unsupported_stop_management_policy") else
      match parse_decimal (json_str (json_get "reference_price" fields)) with
      | None => Raise (ValueError "invalid_stop_management_reference")
      | Some stored =>
          if negb (match stored with Finite d => deqb d (reference_price g) | _ => false end)
          then Raise (ValueError "stop_management_reference_changed")
          else if negb (json_is_str (json_get "reference_type" fields) "entry_zone_midpoint")
          then Raise (ValueError "invalid_stop_management_reference_type")
          else if negb (same_keys fields BINDING_KEYS)
          then Raise (ValueError "incomplete_stop_management_binding") else
          let! _ := normalize_utc_timestamp (cval_of_json (json_get "adopted_at" fields))
                      "stop_policy_adopted_at" in
          if negb (match json_get "actual_fill_or_net_pnl_claim" fields with JBool false => true | _ => false end)
          then Raise (ValueError "invalid_stop_management_claim")
          else if negb (json_is_str (json_get "prior_policy" fields) "fixed_original_stop")
          then Raise (ValueError "unsupported_prior_stop_policy") else
          match json_get "effective_from_candle_open_at" fields with
          | JNull => Raise (ValueError "missing_stop_policy_adoption_boundary")
          | boundary =>
              let! _ := normalize_utc_timestamp (cval_of_json boundary) "stop_policy_effective_from" in
              Ok tt
          end
      end
  | _ => Raise (ValueError "unsupported_stop_management_policy")
  end.

Definition new_binding (g : StoredPlanGeometry) (evaluated_at : string) (cutoff : datetime) : json :=
  JObj [("policy", JStr POLICY);
        ("reference_type", JStr "entry_zone_midpoint");
        ("reference_price", JStr (dec_to_string (reference_price g)));
        ("adopted_at", JStr evaluated_at);
        ("effective_from_candle_open_at", JStr (isoformat cutoff));
        ("prior_policy", JStr "fixed_original_stop");
        ("actual_fill_or_net_pnl_claim", JBool false)].

Definition bind_stop_policy (progress : SetupLifecycleOutcomeProgress) (g : StoredPlanGeometry)
    (decision_timestamp : cval) (evaluated_at : string) : result SetupLifecycleOutcomeProgress :=
  let! value := loads (pg_metadata_json progress) in
  match value with
  | JObj fields =>
      if dict_mem KEY fields then
        let! _ := check_binding (json_get KEY fields) g in
        Ok progress
      else
        let! cutoff := normalize_utc_timestamp decision_timestamp "stop_policy_adoption_cutoff" in
        let! _ := utc (Some evaluated_at) "stop_policy_adopted_at" in
        let! cutoff := match pg_evaluation_cursor_close_at progress with
                       | None => Ok cutoff
                       | Some close =>
                           let! prior := utc (Some close) "stop_policy_prior_cursor" in
                           Ok (later cutoff prior)
                       end in
        Ok (with_metadata progress (dict_set KEY (new_binding g evaluated_at cutoff) fields))
  | _ => Raise (ValueError "invalid_stop_policy_metadata")
  end.

Definition protection_active (progress : SetupLifecycleOutcomeProgress) (candle_open : cval) : result bool :=
  match pg_tp1_at progress with
  | None => Ok false
  | Some tp1_at =>
      let! value := loads (pg_metadata_json progress) in
      match value with
      | JObj metadata =>
          match json_get KEY metadata with
          | JObj binding =>
              if negb (json_is_str (json_get "policy" binding) POLICY) then Ok false else
              let! opened := normalize_utc_timestamp candle_open "breakeven_candle_open" in
              let! tp1 := utc (Some tp1_at) "breakeven_tp1_at" in
              if (instant opened <? instant tp1)%Z then Ok false else
              match json_get "effective_from_candle_open_at" binding with
              | JNull => Ok false
              | boundary =>
                  let! from := normalize_utc_timestamp (cval_of_json boundary) "breakeven_effective_from" in
                  Ok (instant from <=? instant opened)%Z
              end
          | _ => Ok false
          end
      | _ => Raise (AttributeError "metadata has no attribute 'get'")
      end
  end.

Definition reference_stop_touched (high low : dec) (g : StoredPlanGeometry) : bool :=
  let price := reference_price g in
  if String.eqb (g_direction g) "long" then dleb low price else dleb price high.

Definition validate_breakeven_outcome (progress : SetupLifecycleOutcomeProgress) (g : StoredPlanGeometry)
    : result unit :=
  let! value := loads (pg_metadata_json progress) in
  if negb (match value with JObj fields => dict_mem KEY fields | _ => false end)
  then Raise (ValueError "missing_stop_management_binding") else
  let! _ := bind_stop_policy progress g (CVal (PyStr (pg_last_evaluated_at progress)))
              (pg_last_evaluated_at progress) in
  match pg_entry_at progress, pg_tp1_at progress, pg_stop_at progress with
  | Some entry_at, Some tp1_at, Some stop_at =>
      if match pg_tp3_at progress, pg_invalidated_at progress with None, None => false | _, _ => true end
      then Raise (ValueError "conflicting_breakeven_terminal") else
      let! active := match pg_evaluation_cursor_open_at progress with
                     | None => Ok false
                     | Some open => protection_active progress (CVal (PyStr open))
                     end in
      if negb active then Raise (ValueError "breakeven_precedes_protection") else
      let! entry := utc (Some entry_at) "breakeven_entry" in
      let! tp1 := utc (Some tp1_at) "breakeven_tp1" in
      let! stop := utc (Some stop_at) "breakeven_stop" in
      if negb ((instant entry <? instant tp1) && (instant tp1 <? instant stop))%Z
      then Raise (ValueError "invalid_breakeven_milestone_order")
      else if negb (opt_string_eqb (pg_outcome_at progress) (Some stop_at)
                    && opt_string_eqb (pg_evaluation_cursor_close_at progress) (Some stop_at))
      then Raise (ValueError "breakeven_terminal_cursor_mismatch") else
      match pg_tp2_at progress with
      | None => Ok tt
      | Some tp2_at =>
          let! tp2 := utc (Some tp2_at) "breakeven_tp2" in
          if negb ((instant tp1 <=? instant tp2) && (instant tp2 <? instant stop))%Z
          then Raise (ValueError "invalid_breakeven_tp2_order") else Ok tt
      end
  | _, _, _ => Raise (ValueError "missing_breakeven_milestones")
  end.
End Breakeven.
