(* ===== verification/PrefixEvidence.v ===== *)
(** * Prefix disposition evidence (src/app/lifecycle/prefix_disposition_evidence.py)

    The envelope a pass of the outcome evaluation attaches to its progress: what
    window was supplied, which suffix was pending, what was completed and why the
    pass stopped.  An envelope is written only when it is structurally valid and
    consistent with its disposition. *)

From stdpp Require Import base tactics list strings.
From Stdlib Require Import ZArith NArith Lia Bool Ascii.
From S2P Require Import Prelude PyString PyDecimal PyTime PyJson LifecycleModels CandleIntegrity JsonText.
From S2P Require Import OutcomePolicy EconomicIdentity PlanVersionBinding Breakeven.
Open Scope string_scope.
Open Scope py_scope.

Definition PREFIX_EVIDENCE_CONTRACT_VERSION : string := "cci-eligibility-prefix-evidence-v1".
Definition PREFIX_EVIDENCE_STATUS_KNOWN : string := "known".
Definition PREFIX_EVIDENCE_STATUS_MALFORMED : string := "malformed".
Definition PREFIX_EVIDENCE_STATUS_CONFLICTING : string := "conflicting".

Definition DISPOSITION_NO_ELIGIBLE_CLOSED_CANDLES : string := "NO_ELIGIBLE_CLOSED_CANDLES".
Definition DISPOSITION_WAITING_FOR_TRACKING_START : string := "WAITING_FOR_TRACKING_START".
Definition DISPOSITION_NO_NEW_PENDING_CANDLES : string := "NO_NEW_PENDING_CANDLES".
Definition DISPOSITION_PENDING_SUFFIX_EXHAUSTED : string := "PENDING_SUFFIX_EXHAUSTED".
Definition DISPOSITION_POLICY_TERMINAL : string := "POLICY_TERMINAL".
Definition DISPOSITION_POST_FILTER_BLOCKED : string := "POST_FILTER_BLOCKED".
Definition DISPOSITION_PROCESSING_ABORTED : string := "PROCESSING_ABORTED".

Definition PREFIX_DISPOSITIONS : list string :=
  [DISPOSITION_NO_ELIGIBLE_CLOSED_CANDLES; DISPOSITION_WAITING_FOR_TRACKING_START;
   DISPOSITION_NO_NEW_PENDING_CANDLES; DISPOSITION_PENDING_SUFFIX_EXHAUSTED;
   DISPOSITION_POLICY_TERMINAL; DISPOSITION_POST_FILTER_BLOCKED; DISPOSITION_PROCESSING_ABORTED].

Definition WINDOW_KEYS : list string := ["count"; "first_open_at"; "last_open_at"; "last_close_at"].
Definition PENDING_KEYS : list string :=
  ["established"; "count"; "first_open_at"; "last_open_at"; "last_close_at"; "expected_next_open_at";
   "unknown_reason"].
Definition COMPLETED_KEYS : list string := ["count"; "last_open_at"; "last_close_at"].
Definition CURSOR_KEYS : list string := ["open_at"; "close_at"].
Definition ENVELOPE_KEYS : list string :=
  ["contract_version"; "lifecycle_id"; "plan_identity"; "applied_cutoff"; "execution_timeframe";
   "tracking_start_at"; "cursor_before"; "supplied_window"; "pending_suffix"; "completed_work";
   "cursor_after"; "disposition"; "pending_suffix_exhausted"].

(** ** The pass-local evidence *)

Record PrefixPassEvidence := mkEvidence {
  pe_execution_timeframe : string;
  pe_applied_cutoff : string;
  pe_supplied : list CausalCandle;
  pe_cursor_before_open_at : option string;
  pe_cursor_before_close_at : option string;
  pe_pending : option (list CausalCandle);
  pe_expected_next_open_at : option datetime;
  pe_pending_unknown_reason : option string;
  pe_disposition : option string;
  pe_completed : list CausalCandle
}.
#[export] Instance PrefixPassEvidence_eta : RecordEta PrefixPassEvidence := fun e =>
  mkEvidence (pe_execution_timeframe e) (pe_applied_cutoff e) (pe_supplied e) (pe_cursor_before_open_at e)
    (pe_cursor_before_close_at e) (pe_pending e) (pe_expected_next_open_at e) (pe_pending_unknown_reason e)
    (pe_disposition e) (pe_completed e).

Definition mark_pending (e : PrefixPassEvidence) (pending : list CausalCandle)
    (expected_next_open : option datetime) : PrefixPassEvidence :=
  e <| pe_pending := Some pending |> <| pe_expected_next_open_at := expected_next_open |>
    <| pe_pending_unknown_reason := None |>.

Definition record_completed (e : PrefixPassEvidence) (causal : CausalCandle) : PrefixPassEvidence :=
  e <| pe_completed := (pe_completed e ++ [causal])%list |>.

(** [_optional_text] of a nullable text and of a decoded value *)
Definition optional_text (value : option string) : option string :=
  match value with
  | None => None
  | Some v =>
      let text := py_strip v in
      if String.eqb text "" || String.eqb (py_upper text) NA then None else Some text
  end.

Definition optional_json_text (v : json) : option string :=
  match v with JNull => None | _ => optional_text (Some (json_str v)) end.

Definition start_prefix_pass_evidence (progress : SetupLifecycleOutcomeProgress)
    (window : ClosedCandleWindow) (execution_timeframe : string) : PrefixPassEvidence :=
  {| pe_execution_timeframe := py_lower (py_strip execution_timeframe);
     pe_applied_cutoff := isoformat (cw_decision_timestamp window);
     pe_supplied := cw_timeline window;
     pe_cursor_before_open_at := optional_text (pg_evaluation_cursor_open_at progress);
     pe_cursor_before_close_at := optional_text (pg_evaluation_cursor_close_at progress);
     pe_pending := None; pe_expected_next_open_at := None;
     pe_pending_unknown_reason := Some "pending_rules_not_evaluated";
     pe_disposition := None; pe_completed := [] |}.

(** ** The payload *)

Definition json_text (v : option string) : json := match v with Some s => JStr s | None => JNull end.

(** [_iso] *)
Definition iso (t : option datetime) : option string := option_map isoformat t.

Definition json_count (n : nat) : json := JInt (Z.of_nat n).

(** [_window_bounds] *)
Definition window_bounds (candles : list CausalCandle) : list (string * json) :=
  match candles with
  | [] => [("count", JInt 0); ("first_open_at", JNull); ("last_open_at", JNull); ("last_close_at", JNull)]
  | first :: _ =>
      let latest := List.last candles first in
      [("count", json_count (length candles));
       ("first_open_at", JStr (isoformat (cc_open_timestamp first)));
       ("last_open_at", JStr (isoformat (cc_open_timestamp latest)));
       ("last_close_at", JStr (isoformat (cc_close_timestamp latest)))]
  end.

(** [_pending_bounds] *)
Definition pending_bounds (candles : option (list CausalCandle)) (expected_next_open_at unknown_reason : option string)
    : list (string * json) :=
  match candles with
  | None =>
      [("established", JBool false); ("count", JNull); ("first_open_at", JNull); ("last_open_at", JNull);
       ("last_close_at", JNull); ("expected_next_open_at", json_text expected_next_open_at);
       ("unknown_reason", JStr (match unknown_reason with
                                | Some r => if String.eqb r "" then "pending_rules_not_evaluated" else r
                                | None => "pending_rules_not_evaluated"
                                end))]
  | Some l =>
      let bounds := window_bounds l in
      [("established", JBool true); ("count", json_get "count" bounds);
       ("first_open_at", json_get "first_open_at" bounds); ("last_open_at", json_get "last_open_at" bounds);
       ("last_close_at", json_get "last_close_at" bounds);
       ("expected_next_open_at", json_text expected_next_open_at); ("unknown_reason", JNull)]
  end.

(** [_cursor_pair] *)
Definition cursor_pair (open_at close_at : option string) : json :=
  match open_at, close_at with
  | None, None => JNull
  | _, _ => JObj [("open_at", json_text open_at); ("close_at", json_text close_at)]
  end.

(** [_pending_suffix_exhausted] *)
Definition pending_suffix_exhausted (disposition : string) (pending_count : option nat) (completed_count : nat)
    : option bool :=
  if String.eqb disposition DISPOSITION_NO_NEW_PENDING_CANDLES then Some true
  else if str_in disposition [DISPOSITION_NO_ELIGIBLE_CLOSED_CANDLES; DISPOSITION_WAITING_FOR_TRACKING_START;
                              DISPOSITION_POST_FILTER_BLOCKED] then None
  else match pending_count with
       | None => None
       | Some n =>
           if String.eqb disposition DISPOSITION_PROCESSING_ABORTED then Some false
           else if String.eqb disposition DISPOSITION_PENDING_SUFFIX_EXHAUSTED then Some true
           else if String.eqb disposition DISPOSITION_POLICY_TERMINAL
           then Some (Nat.eqb completed_count n)
           else None
       end.

Definition json_flag (b : option bool) : json := match b with Some b => JBool b | None => JNull end.

(** [completed_work] *)
Definition completed_bounds (completed : list CausalCandle) : list (string * json) :=
  let latest f := match last completed with Some c => JStr (isoformat (f c)) | None => JNull end in
  [("count", json_count (length completed)); ("last_open_at", latest cc_open_timestamp);
   ("last_close_at", latest cc_close_timestamp)].

(** ** Validation *)

(** [a and b] of checks that may raise *)
Definition and_then (a b : result bool) : result bool := let! x := a in if x then b else Ok false.
Infix "&&!" := and_then (at level 40, left associativity) : py_scope.

(** [_parsed_utc] *)
Definition parsed_utc (v : json) (field_name : string) : result (option datetime) :=
  match optional_json_text v with
  | None => Ok None
  | Some text =>
      match normalize_utc_timestamp (CVal (PyStr text)) field_name with
      | Ok t => Ok (Some t)
      | Raise e => match value_error_text e with Some _ => Ok None | None => Raise e end
      end
  end.

(** [_valid_timestamp] *)
Definition valid_timestamp (v : json) (field_name : string) : result bool :=
  let! t := parsed_utc v field_name in Ok (match t with Some _ => true | None => false end).

(** [value is None or _valid_timestamp(value)] *)
Definition null_or_timestamp (v : json) (field_name : string) : result bool :=
  match v with JNull => Ok true | _ => valid_timestamp v field_name end.

(** [_non_negative_int] *)
Definition non_negative_int (v : json) : option Z :=
  match v with JInt z => if (0 <=? z)%Z then Some z else None | _ => None end.

(** [_required_text] *)
Definition required_text (v : json) : bool :=
  match optional_json_text v with Some _ => true | None => false end.

Definition is_null (v : json) : bool := match v with JNull => true | _ => false end.

(** [a <= b] of two parsed instants, false when either is missing *)
Definition instants_le (a b : option datetime) : bool :=
  match a, b with Some x, Some y => (instant x <=? instant y)%Z | _, _ => false end.

(** [_valid_window] *)
Definition valid_window (v : json) (extra_allowed : option (list string)) : result bool :=
  match v with
  | JObj fields =>
      let keys_ok := match extra_allowed with
                     | None => same_keys fields WINDOW_KEYS
                     | Some extra => forallb (fun name => dict_mem name fields) WINDOW_KEYS
                         && forallb (fun kv => str_in (fst kv) (WINDOW_KEYS ++ extra)%list) fields
                     end in
      if negb keys_ok then Ok false else
      match non_negative_int (json_get "count" fields) with
      | None => Ok false
      | Some count =>
          if (count =? 0)%Z then
            Ok (is_null (json_get "first_open_at" fields) && is_null (json_get "last_open_at" fields)
                && is_null (json_get "last_close_at" fields))
          else
            let! first_open := parsed_utc (json_get "first_open_at" fields) "first_open_at" in
            let! last_open := parsed_utc (json_get "last_open_at" fields) "last_open_at" in
            let! last_close := parsed_utc (json_get "last_close_at" fields) "last_close_at" in
            Ok (instants_le first_open last_open && instants_le last_open last_close)
      end
  | _ => Ok false
  end.

(** [_optional_utc_equal] *)
Definition optional_utc_equal (left right : json) (field_name : string) : result bool :=
  match optional_json_text left, optional_json_text right with
  | None, None => Ok true
  | _, _ =>
      let! l := parsed_utc left (field_name +:+ "_left") in
      let! r := parsed_utc right (field_name +:+ "_right") in
      Ok (match l, r with Some x, Some y => (instant x =? instant y)%Z | _, _ => false end)
  end.

(** [_cursor_pairs_equivalent] *)
Definition cursor_pairs_equivalent (left right : json) : result bool :=
  match left, right with
  | JNull, JNull => Ok true
  | JObj l, JObj r =>
      optional_utc_equal (json_get "open_at" l) (json_get "open_at" r) "cursor_open_at"
      &&! optional_utc_equal (json_get "close_at" l) (json_get "close_at" r) "cursor_close_at"
  | _, _ => Ok false
  end.

(** [_cursor_matches_completed] *)
Definition cursor_matches_completed (cursor_after : json) (completed : list (string * json)) : result bool :=
  match cursor_after with
  | JObj c =>
      optional_utc_equal (json_get "open_at" c) (json_get "last_open_at" completed) "cursor_after_open_at"
      &&! optional_utc_equal (json_get "close_at" c) (json_get "last_close_at" completed)
            "cursor_after_close_at"
  | _ => Ok false
  end.

(** [_valid_cursor_pair] *)
Definition valid_cursor_pair (v : json) (field_name : string) : result bool :=
  match v with
  | JNull => Ok true
  | JObj fields =>
      if negb (same_keys fields CURSOR_KEYS) then Ok false else
      let open_at := json_get "open_at" fields in
      let close_at := json_get "close_at" fields in
      if is_null open_at || is_null close_at then Ok false else
      let! opened := parsed_utc open_at (field_name +:+ "_open_at") in
      let! closed := parsed_utc close_at (field_name +:+ "_close_at") in
      Ok (instants_le opened closed)
  | _ => Ok false
  end.

Definition fields_of (v : json) : list (string * json) := match v with JObj fields => fields | _ => [] end.

(** [_causal_windows_contained]; the windows are mappings *)
Definition causal_windows_contained (payload : list (string * json)) : result bool :=
  let supplied := fields_of (json_get "supplied_window" payload) in
  let pending := fields_of (json_get "pending_suffix" payload) in
  let supplied_ok :=
    match non_negative_int (json_get "count" supplied) with
    | Some n =>
        if (0 <? n)%Z then
          let! cutoff := parsed_utc (json_get "applied_cutoff" payload) "applied_cutoff" in
          let! last_close := parsed_utc (json_get "last_close_at" supplied) "supplied_last_close_at" in
          Ok (instants_le last_close cutoff)
        else Ok true
    | None => Ok true
    end in
  supplied_ok &&!
  match json_get "established" pending with
  | JBool true =>
      match non_negative_int (json_get "count" pending) with
      | None => Ok true
      | Some n =>
          if (n =? 0)%Z then Ok true else
          let! window_first := parsed_utc (json_get "first_open_at" supplied) "supplied_first_open_at" in
          let! window_last_open := parsed_utc (json_get "last_open_at" supplied) "supplied_last_open_at" in
          let! window_last_close := parsed_utc (json_get "last_close_at" supplied) "supplied_last_close_at" in
          let! pending_first := parsed_utc (json_get "first_open_at" pending) "pending_first_open_at" in
          let! pending_last_open := parsed_utc (json_get "last_open_at" pending) "pending_last_open_at" in
          let! pending_last_close := parsed_utc (json_get "last_close_at" pending) "pending_last_close_at" in
          Ok (instants_le window_first pending_first
              && instants_le pending_last_open window_last_open
              && instants_le pending_last_close window_last_close
              && instants_le window_last_open pending_last_open
              && instants_le window_last_close pending_last_close)
      end
  | _ => Ok true
  end.

(** the completed work lies inside the pending suffix *)
Definition completed_inside_pending (pending completed : list (string * json)) : result bool :=
  let! pending_first := parsed_utc (json_get "first_open_at" pending) "pending_first_open_at" in
  let! pending_last_open := parsed_utc (json_get "last_open_at" pending) "pending_last_open_at" in
  let! pending_last_close := parsed_utc (json_get "last_close_at" pending) "pending_last_close_at" in
  let! completed_last_open := parsed_utc (json_get "last_open_at" completed) "completed_last_open_at" in
  let! completed_last_close := parsed_utc (json_get "last_close_at" completed) "completed_last_close_at" in
  Ok (instants_le pending_first completed_last_open && instants_le completed_last_open pending_last_open
      && instants_le pending_first completed_last_close
      && instants_le completed_last_close pending_last_close).

(** the truth table of the dispositions *)
Definition disposition_consistent (disposition : json) (supplied_count completed_count : Z)
    (pending_established : bool) (pending_count exhausted : json) : bool :=
  let named d := json_is_str disposition d in
  let pending_is z := match pending_count with JInt n => (n =? z)%Z | _ => false end in
  let pending_pos := match non_negative_int pending_count with Some n => (1 <=? n)%Z | None => false end in
  let n := match pending_count with JInt n => n | _ => 0%Z end in
  let is_true := match exhausted with JBool true => true | _ => false end in
  let is_false := match exhausted with JBool false => true | _ => false end in
  if named DISPOSITION_NO_ELIGIBLE_CLOSED_CANDLES then
    (supplied_count =? 0)%Z && negb pending_established && is_null pending_count
    && (completed_count =? 0)%Z && is_null exhausted
  else if named DISPOSITION_NO_NEW_PENDING_CANDLES then
    (1 <=? supplied_count)%Z && pending_established && pending_is 0%Z && (completed_count =? 0)%Z && is_true
  else if named DISPOSITION_WAITING_FOR_TRACKING_START then
    (1 <=? supplied_count)%Z && pending_established && pending_is 0%Z && (completed_count =? 0)%Z
    && is_null exhausted
  else if named DISPOSITION_POST_FILTER_BLOCKED then
    (1 <=? supplied_count)%Z && (completed_count =? 0)%Z && is_null exhausted
  else if named DISPOSITION_PENDING_SUFFIX_EXHAUSTED then
    pending_established && pending_pos && (completed_count =? n)%Z && is_true
  else if named DISPOSITION_PROCESSING_ABORTED then
    pending_established && pending_pos && is_false && (completed_count <? n)%Z
  else if named DISPOSITION_POLICY_TERMINAL then
    pending_established && pending_pos && (1 <=? completed_count)%Z && (completed_count <=? n)%Z
    && match exhausted with JBool b => Bool.eqb b (completed_count =? n)%Z | _ => false end
  else false.

(** [_semantically_consistent_envelope] *)
Definition semantically_consistent_envelope (payload : list (string * json)) : result bool :=
  match json_get "pending_suffix" payload, json_get "completed_work" payload,
        json_get "supplied_window" payload with
  | JObj pending, JObj completed, JObj supplied =>
      let exhausted := json_get "pending_suffix_exhausted" payload in
      let pending_established := match json_get "established" pending with JBool true => true | _ => false end in
      let pending_count := json_get "count" pending in
      match non_negative_int (json_get "count" completed), non_negative_int (json_get "count" supplied) with
      | Some completed_count, Some supplied_count =>
          let too_many := match non_negative_int pending_count with
                          | Some n => pending_established && (supplied_count <? n)%Z
                          | None => false
                          end in
          if too_many then Ok false else
          causal_windows_contained payload &&!
          (if (completed_count =? 0)%Z
           then cursor_pairs_equivalent (json_get "cursor_before" payload) (json_get "cursor_after" payload)
           else cursor_matches_completed (json_get "cursor_after" payload) completed) &&!
          (if pending_established
              && match non_negative_int pending_count with Some n => (0 <? n)%Z | None => false end
              && (0 <? completed_count)%Z
           then completed_inside_pending pending completed else Ok true) &&!
          Ok (disposition_consistent (json_get "disposition" payload) supplied_count completed_count
                pending_established pending_count exhausted)
      | _, _ => Ok false
      end
  | _, _, _ => Ok false
  end.

(** the checks of [pending_suffix] *)
Definition valid_pending (pending : list (string * json)) : result bool :=
  if negb (same_keys pending PENDING_KEYS) then Ok false else
  let expected := null_or_timestamp (json_get "expected_next_open_at" pending) "expected_next_open_at" in
  match json_get "established" pending with
  | JBool true =>
      valid_window (JObj pending) (Some ["established"; "expected_next_open_at"; "unknown_reason"]) &&!
      Ok (is_null (json_get "unknown_reason" pending)) &&! expected
  | JBool false =>
      if negb (is_null (json_get "count" pending) && is_null (json_get "first_open_at" pending)
               && is_null (json_get "last_open_at" pending) && is_null (json_get "last_close_at" pending)
               && required_text (json_get "unknown_reason" pending))
      then Ok false else expected
  | _ => Ok false
  end.

(** the checks of [completed_work] *)
Definition valid_completed (completed : list (string * json)) : result bool :=
  if negb (same_keys completed COMPLETED_KEYS) then Ok false else
  match non_negative_int (json_get "count" completed) with
  | None => Ok false
  | Some count =>
      if (count =? 0)%Z then
        Ok (is_null (json_get "last_open_at" completed) && is_null (json_get "last_close_at" completed))
      else
        let! last_open := parsed_utc (json_get "last_open_at" completed) "completed_last_open_at" in
        let! last_close := parsed_utc (json_get "last_close_at" completed) "completed_last_close_at" in
        Ok (instants_le last_open last_close)
  end.

(** no more work is completed than was pending *)
Definition completed_within_pending (pending completed : list (string * json)) : bool :=
  match json_get "established" pending, non_negative_int (json_get "count" pending),
        non_negative_int (json_get "count" completed) with
  | JBool true, Some n, Some c => (c <=? n)%Z
  | _, _, _ => true
  end.

(** [_structurally_valid_envelope] *)
Definition structurally_valid_envelope (payload : list (string * json)) : result bool :=
  if negb (same_keys payload ENVELOPE_KEYS) then Ok false
  else if negb (json_is_str (json_get "contract_version" payload) PREFIX_EVIDENCE_CONTRACT_VERSION) then Ok false
  else if negb (required_text (json_get "lifecycle_id" payload)) then Ok false
  else if negb (required_text (json_get "plan_identity" payload)) then Ok false
  else
  valid_timestamp (json_get "applied_cutoff" payload) "applied_cutoff" &&!
  Ok (required_text (json_get "execution_timeframe" payload)) &&!
  null_or_timestamp (json_get "tracking_start_at" payload) "tracking_start_at" &&!
  valid_cursor_pair (json_get "cursor_before" payload) "cursor_before" &&!
  valid_cursor_pair (json_get "cursor_after" payload) "cursor_after" &&!
  valid_window (json_get "supplied_window" payload) None &&!
  match json_get "pending_suffix" payload, json_get "completed_work" payload with
  | JObj pending, JObj completed =>
      valid_pending pending &&! valid_completed completed &&!
      Ok (completed_within_pending pending completed
          && match json_get "disposition" payload with JStr d => str_in d PREFIX_DISPOSITIONS | _ => false end
          && match json_get "pending_suffix_exhausted" payload with JNull | JBool _ => true | _ => false end) &&!
      semantically_consistent_envelope payload
  | JObj pending, _ => valid_pending pending &&! Ok false
  | _, _ => Ok false
  end.

(** ** Building and reading *)

Definition prefix_payload (progress : SetupLifecycleOutcomeProgress) (e : PrefixPassEvidence)
    (disposition : string) : list (string * json) :=
  let completed := pe_completed e in
  let exhausted := pending_suffix_exhausted disposition (option_map (@length _) (pe_pending e))
                     (length completed) in
  [("contract_version", JStr PREFIX_EVIDENCE_CONTRACT_VERSION);
   ("lifecycle_id", JStr (pg_lifecycle_id progress));
   ("plan_identity", JStr (pg_plan_identity progress));
   ("applied_cutoff", JStr (pe_applied_cutoff e));
   ("execution_timeframe", JStr (pe_execution_timeframe e));
   ("tracking_start_at", json_text (optional_text (pg_tracking_start_at progress)));
   ("cursor_before", cursor_pair (pe_cursor_before_open_at e) (pe_cursor_before_close_at e));
   ("supplied_window", JObj (window_bounds (pe_supplied e)));
   ("pending_suffix", JObj (pending_bounds (pe_pending e) (iso (pe_expected_next_open_at e))
      (match pe_pending e with Some _ => None | None => pe_pending_unknown_reason e end)));
   ("completed_work", JObj (completed_bounds completed));
   ("cursor_after", cursor_pair (optional_text (pg_evaluation_cursor_open_at progress))
      (optional_text (pg_evaluation_cursor_close_at progress)));
   ("disposition", JStr disposition);
   ("pending_suffix_exhausted", json_flag exhausted)].

Definition build_prefix_evidence_payload (progress : SetupLifecycleOutcomeProgress)
    (e : PrefixPassEvidence) : result (option (list (string * json))) :=
  match pe_disposition e with
  | Some disposition =>
      if negb (str_in disposition PREFIX_DISPOSITIONS) then Ok None else
      let payload := prefix_payload progress e disposition in
      let! valid := structurally_valid_envelope payload in
      Ok (if valid then Some payload else None)
  | None => Ok None
  end.

Definition serialize_prefix_evidence (payload : option (list (string * json))) : result (option string) :=
  match payload with
  | None => Ok None
  | Some p =>
      let! valid := structurally_valid_envelope p in
      Ok (if valid then Some (dumps (JObj p)) else None)
  end.

Definition bind_prefix_disposition (progress : SetupLifecycleOutcomeProgress) (e : PrefixPassEvidence)
    (disposition : option string) : result SetupLifecycleOutcomeProgress :=
  let e := match disposition with Some d => e <| pe_disposition := Some d |> | None => e end in
  let! payload := build_prefix_evidence_payload progress e in
  let! text := serialize_prefix_evidence payload in
  Ok (progress <| pg_last_eligibility_prefix_evidence_json := text |>).

(** [_owner_conflicts] *)
Definition owner_conflicts (payload : list (string * json)) (lifecycle_id plan_identity : string)
    (applied_cutoff execution_timeframe : option string) : list (string * string) :=
  let conflict (b : bool) field reason := if b then [(field, reason)] else [] in
  let timeframe_text := match json_get "execution_timeframe" payload with
                        | JNull => "" | v => if cval_truthy (cval_of_json v) then json_str v else "" end in
  (conflict (negb (json_is_str (json_get "lifecycle_id" payload) lifecycle_id))
     "lifecycle_id" "envelope_owner_mismatch"
   ++ conflict (negb (json_is_str (json_get "plan_identity" payload) plan_identity))
        "plan_identity" "envelope_owner_mismatch"
   ++ conflict (negb (bool_decide (optional_text applied_cutoff
                                   = optional_json_text (json_get "applied_cutoff" payload))))
        "applied_cutoff" "envelope_cutoff_mismatch"
   ++ match optional_text execution_timeframe with
      | None => []
      | Some timeframe => conflict (negb (String.eqb (py_lower (py_strip timeframe_text)) (py_lower timeframe)))
                            "execution_timeframe" "envelope_timeframe_mismatch"
      end)%list.

(** the fields of the dictionary [diagnose_prefix_evidence] returns, apart from
    its fixed contract text *)
Record PrefixDiagnosis := mkDiagnosis {
  dg_status : string;
  dg_raw : option string;
  dg_payload : option (list (string * json));
  dg_conflicts : list (string * string);
  dg_disposition : json;
  dg_pending_suffix_exhausted : option bool
}.

Section Diagnose.
Context `{JsonErrors}.

Definition diagnose_prefix_evidence (raw_json : option string) (lifecycle_id plan_identity : string)
    (applied_cutoff execution_timeframe : option string) : result PrefixDiagnosis :=
  match optional_text raw_json with
  | None => Ok (mkDiagnosis "unavailable" None None [] JNull None)
  | Some raw =>
      let malformed payload reason :=
        mkDiagnosis PREFIX_EVIDENCE_STATUS_MALFORMED (Some raw) payload
          [("last_eligibility_prefix_evidence_json", reason)] JNull None in
      match loads raw with
      | Raise (JSONDecodeError _) | Raise (TypeError _) => Ok (malformed None "not_json_object")
      | Raise e => Raise e
      | Ok (JObj loaded) =>
          let! valid := structurally_valid_envelope loaded in
          if negb valid then Ok (malformed (Some loaded) "invalid_envelope_structure") else
          match owner_conflicts loaded lifecycle_id plan_identity applied_cutoff execution_timeframe with
          | [] => Ok (mkDiagnosis PREFIX_EVIDENCE_STATUS_KNOWN (Some raw) (Some loaded) []
                        (json_get "disposition" loaded)
                        (match json_get "pending_suffix_exhausted" loaded with
                         | JBool b => Some b | _ => None end))
          | conflicts => Ok (mkDiagnosis PREFIX_EVIDENCE_STATUS_CONFLICTING (Some raw) (Some loaded)
                               conflicts JNull None)
          end
      | Ok _ => Ok (malformed None "invalid_envelope_structure")
      end
  end.
End Diagnose.
