(* ===== verification/Observation.v ===== *)
(** * Lifecycle observations (src/app/lifecycle/state_machine.py, first part)

    One scan's view of a setup, the text and number readers of the state
    machine, and the gates evaluated on an observation alone: freshness,
    confirmation blockers, quality and readiness.  The freshness queries of
    src/app/data/candle_freshness.py read an observation by attribute name;
    [FreshnessView] is that interface. *)

From stdpp Require Import base tactics list strings.
From Stdlib Require Import ZArith NArith Lia Bool Ascii.
From S2P Require Import Prelude PyString PyDecimal LifecycleModels.
Open Scope string_scope.
Open Scope py_scope.

(** ** Freshness (src/app/data/candle_freshness.py) *)

Definition FRESHNESS_TOKEN : string := "essential_candle_freshness".

(** The attributes [_observation_texts] reads from any observation object. *)
Class FreshnessView (A : Type) := {
  fv_required_data_missing : A -> list string;
  fv_required_data_unverified : A -> list string;
  fv_failed_gate : A -> string;
  fv_final_failed_gate : A -> string;
  fv_final_block_reason : A -> string
}.

Section Freshness.
Context {A : Type} {view : FreshnessView A}.

(** [_observation_texts] *)
Definition observation_texts (observation : A) : list string :=
  (fv_required_data_missing observation ++ fv_required_data_unverified observation
   ++ [fv_failed_gate observation; fv_final_failed_gate observation;
       fv_final_block_reason observation])%list.

Definition observation_has_essential_freshness_failure (observation : A) : bool :=
  existsb (py_contains FRESHNESS_TOKEN) (observation_texts observation).

Definition freshness_failure_preserves_owner (observation : A) : bool :=
  if negb (observation_has_essential_freshness_failure observation) then false else
  let flat := (fv_required_data_missing observation
               ++ fv_required_data_unverified observation)%list in
  if existsb (fun item => negb (py_contains FRESHNESS_TOKEN item)) flat then false else true.
End Freshness.

(** ** The observation *)

(** [LifecycleObservation] *)
Record LifecycleObservation := mkLifecycleObservation {
  o_symbol : string;
  o_mode : string;
  o_direction : string;
  o_readiness_score : Z;
  o_readiness_label : string;
  o_quality_score : Z;
  o_quality_grade : string;
  o_entry_low : string;
  o_entry_high : string;
  o_stop_loss : string;
  o_tp1 : string;
  o_tp2 : string;
  o_tp3 : string;
  o_rr : string;
  o_current_price : string;
  o_latest_high : string;
  o_latest_low : string;
  o_edge_score : string;
  o_failed_gate : string;
  o_candidate_quality_grade : string;
  o_final_quality_grade : string;
  o_final_failed_gate : string;
  o_final_block_reason : string;
  o_target_integrity_status : string;
  o_target_failure : string;
  o_target_failure_severity : string;
  o_target_warning_reason : string;
  o_actionability_state : string;
  o_regime_state : string;
  o_action_label : string;
  o_confirmation_timeframe : string;
  o_invalidation_reason : string;
  o_sweep_detected : bool;
  o_structure_shift_detected : bool;
  o_pullback_valid : bool;
  o_rr_valid : bool;
  o_valid_trade_idea : bool;
  o_core_status : string;
  o_setup_quality_state : string;
  o_technical_score : string;
  o_opportunity_score : string;
  o_min_technical_score : string;
  o_min_opportunity_score : string;
  o_active_rejection_reason : string;
  o_active_invalidation_reason : string;
  o_data_health_failed : bool;
  o_required_data_missing : list string;
  o_required_data_unverified : list string;
  o_optional_data_missing : list string;
  o_optional_data_unverified : list string;
  o_limit_fill_required : bool;
  o_actionable_a_grade_candidate : bool;
  o_a_grade_watch_candidate : bool;
  o_actionable_grade_reason : string;
  o_confirmation_block_reason : string;
  o_lifecycle_promotion_reason : string;
  o_entry_filled : bool;
  o_tp_hit : bool;
  o_sl_hit : bool;
  o_invalidated : bool;
  o_expired : bool;
  o_closed_candle_outcomes_managed : bool;
  o_structural_anchor : string;
  o_instrument_venue : string
}.

#[export] Instance LifecycleObservation_eta : RecordEta LifecycleObservation := fun r =>
  mkLifecycleObservation (o_symbol r) (o_mode r) (o_direction r) (o_readiness_score r)
    (o_readiness_label r) (o_quality_score r) (o_quality_grade r) (o_entry_low r)
    (o_entry_high r) (o_stop_loss r) (o_tp1 r) (o_tp2 r)
    (o_tp3 r) (o_rr r) (o_current_price r) (o_latest_high r)
    (o_latest_low r) (o_edge_score r) (o_failed_gate r) (o_candidate_quality_grade r)
    (o_final_quality_grade r) (o_final_failed_gate r) (o_final_block_reason r) (o_target_integrity_status r)
    (o_target_failure r) (o_target_failure_severity r) (o_target_warning_reason r) (o_actionability_state r)
    (o_regime_state r) (o_action_label r) (o_confirmation_timeframe r) (o_invalidation_reason r)
    (o_sweep_detected r) (o_structure_shift_detected r) (o_pullback_valid r) (o_rr_valid r)
    (o_valid_trade_idea r) (o_core_status r) (o_setup_quality_state r) (o_technical_score r)
    (o_opportunity_score r) (o_min_technical_score r) (o_min_opportunity_score r) (o_active_rejection_reason r)
    (o_active_invalidation_reason r) (o_data_health_failed r) (o_required_data_missing r) (o_required_data_unverified r)
    (o_optional_data_missing r) (o_optional_data_unverified r) (o_limit_fill_required r) (o_actionable_a_grade_candidate r)
    (o_a_grade_watch_candidate r) (o_actionable_grade_reason r) (o_confirmation_block_reason r) (o_lifecycle_promotion_reason r)
    (o_entry_filled r) (o_tp_hit r) (o_sl_hit r) (o_invalidated r)
    (o_expired r) (o_closed_candle_outcomes_managed r) (o_structural_anchor r) (o_instrument_venue r).

#[export] Instance LifecycleObservation_freshness : FreshnessView LifecycleObservation := {
  fv_required_data_missing := o_required_data_missing;
  fv_required_data_unverified := o_required_data_unverified;
  fv_failed_gate := o_failed_gate;
  fv_final_failed_gate := o_final_failed_gate;
  fv_final_block_reason := o_final_block_reason
}.

Definition pullback_and_rr_valid (o : LifecycleObservation) : bool :=
  o_pullback_valid o && o_rr_valid o.

(** ** Readers *)

(** [_text] of a [str] value *)
Definition sm_text (value : string) : string :=
  if String.eqb value "" then NA else
  let text := py_strip value in
  if String.eqb text "" then NA else text.

Definition is_na (value : string) : bool := String.eqb (sm_text value) NA.

(** [_text_or] *)
Definition text_or (value : option string) (default : string) : string :=
  let text := match value with None => NA | Some v => sm_text v end in
  if String.eqb text NA then default else text.

(** [_decimal_or_none] *)
Definition decimal_or_none (value : string) : option dec :=
  let text := sm_text value in
  if String.eqb text NA then None else
  match parse_decimal text with
  | Some (Finite number) => Some number
  | _ => None
  end.

(** [x is None] of an optional number *)
Definition no_number (o : option dec) : bool := match o with None => true | Some _ => false end.

(** the [while "__" in key] loop of [_status_key] *)
Fixpoint collapse_underscores (fuel : nat) (key : string) : string :=
  match fuel with
  | O => key
  | S k => if py_contains "__" key then collapse_underscores k (py_replace "__" "_" key) else key
  end.

(** [_status_key] *)
Definition status_key (value : string) : string :=
  let text := sm_text value in
  if String.eqb text NA then "" else
  let key := py_replace " " "_" (py_replace "-" "_" (py_strip (py_lower text))) in
  py_strip_char "_" (collapse_underscores (String.length key) key).

(** [_bounded_score] of an [int | None] *)
Definition bounded_score (value : option Z) (default : Z) : Z :=
  match value with
  | None => default
  | Some score => Z.max 0 (Z.min 100 score)
  end.

(** [_grade_key] *)
Definition grade_key (value : string) : string :=
  py_replace " " "" (py_lower (sm_text value)).

Definition MIN_CONFIRMATION_GRADES : list string := ["a+"; "a"; "a-"; "b+"].

(** [_quality_at_least_b_plus] *)
Definition quality_at_least_b_plus (grade : string) (score : Z) : bool :=
  let key := grade_key grade in
  if str_in key MIN_CONFIRMATION_GRADES then true
  else if negb (String.eqb key "") then false
  else (75 <=? bounded_score (Some score) 0)%Z.

(** [_quality_grade_or_score] *)
Definition quality_grade_or_score (o : LifecycleObservation) : string :=
  let grade := sm_text (o_quality_grade o) in
  if negb (String.eqb grade NA) then grade else
  let score := bounded_score (Some (o_quality_score o)) 0 in
  if (90 <=? score)%Z then "A+"
  else if (85 <=? score)%Z then "A"
  else if (80 <=? score)%Z then "A-"
  else if (75 <=? score)%Z then "B+"
  else if (65 <=? score)%Z then "B"
  else if (55 <=? score)%Z then "B-"
  else "Reject".

(** [_is_watch_ready] *)
Definition is_watch_ready (o : LifecycleObservation) : bool :=
  str_in (py_upper (sm_text (o_readiness_label o))) ["WATCH"; "HOT WATCH"; "VALID SETUP"]
  || (50 <=? o_readiness_score o)%Z.

(** [_terminal_observation] *)
Definition terminal_observation (o : LifecycleObservation) : bool :=
  o_tp_hit o || o_sl_hit o || o_invalidated o || o_expired o.

(** [_setup_observable] *)
Definition setup_observable (o : LifecycleObservation) : bool :=
  if o_valid_trade_idea o || pullback_and_rr_valid o || o_actionable_a_grade_candidate o
     || o_a_grade_watch_candidate o
  then true
  else o_sweep_detected o || is_watch_ready o.

(** [_invalidation_reason] *)
Definition invalidation_reason_of (o : LifecycleObservation) : string :=
  let reason := sm_text (o_invalidation_reason o) in
  if negb (String.eqb reason NA) then reason else
  let gate := sm_text (o_failed_gate o) in
  if negb (String.eqb gate NA) then gate else NA.

(** ** Confirmation blockers *)

Definition PUBLIC_WATCHLIST_MIN_RR : dec := mkDec false 25 (-1).
Definition CONFIRMED_MIN_RR : dec := dec_of_Z 3.
Definition MIN_TECHNICAL_SCORE : dec := dec_of_Z 50.
Definition DEFAULT_MIN_OPPORTUNITY_SCORE : dec := dec_of_Z 80.

Definition CONFIRMED_ALLOWED_QUALITY_STATE_KEYS : list string :=
  ["high_quality_trade"; "valid_but_lower_quality"].

Definition CONFIRMED_REJECTED_STATUS_KEYS : list string :=
  ["scan_error"; "scanned_no_setup"; "rejected_by_technical"; "rejected_by_derivatives";
   "rejected_by_risk"; "rejected_by_scoring"; "rejected_by_regime"; "failed"; "near_miss";
   "no_setup"; "rejected"].

Definition when (b : bool) (blocker : string) : list string := if b then [blocker] else [].

Lemma when_nil b s : when b s = [] <-> b = false.
Proof. by destruct b. Qed.

Definition nonempty_list (l : list string) : bool := match l with [] => false | _ => true end.

(** [a or default] of an optional number *)
Definition number_or (o : option dec) (default : dec) : dec :=
  match o with
  | Some d => if dtruth d then d else default
  | None => default
  end.

(** a score that must be present and reach its minimum *)
Definition score_blockers (missing below : string) (score : option dec) (minimum : dec) : list string :=
  match score with
  | None => [missing]
  | Some s => when (dltb s minimum)
                (below +:+ ":" +:+ sm_text (dec_to_string s) +:+ "<" +:+ sm_text (dec_to_string minimum))
  end.

(** status, gate, reasons and data health *)
Definition status_blockers (o : LifecycleObservation) : list string :=
  let core_status := status_key (o_core_status o) in
  let failed_gate := status_key (o_failed_gate o) in
  (when (str_in core_status CONFIRMED_REJECTED_STATUS_KEYS) ("core_status_blocked:" +:+ core_status)
   ++ when (negb (String.eqb failed_gate "")) ("failed_confirmation_gate:" +:+ failed_gate)
   ++ when (negb (is_na (o_active_rejection_reason o))) "active_rejection_reason"
   ++ when (negb (is_na (o_active_invalidation_reason o))) "active_invalidation"
   ++ when (nonempty_list (o_required_data_missing o))
        ("required_data_missing:" +:+ py_join "," (o_required_data_missing o))
   ++ when (nonempty_list (o_required_data_unverified o))
        ("required_data_unverified:" +:+ py_join "," (o_required_data_unverified o))
   ++ when (o_data_health_failed o
            && negb (nonempty_list (o_required_data_missing o)
                     || nonempty_list (o_required_data_unverified o)))
        "data_health_failed")%list.

(** trade idea, side, levels and invalidation *)
Definition plan_blockers (o : LifecycleObservation) : list string :=
  (when (negb (o_valid_trade_idea o)) "trade_idea_missing"
   ++ when (negb (str_in (status_key (o_direction o)) ["long"; "short"])) "missing_side"
   ++ when (no_number (decimal_or_none (o_entry_low o)) || no_number (decimal_or_none (o_entry_high o)))
        "missing_entry_zone"
   ++ when (no_number (decimal_or_none (o_stop_loss o))) "missing_stop"
   ++ when (is_na (o_invalidation_reason o)) "missing_invalidation")%list.

(** RR, grade, quality state and scores *)
Definition quality_blockers (o : LifecycleObservation) : list string :=
  let quality_state := status_key (o_setup_quality_state o) in
  (score_blockers "rr_missing" "rr_below_min" (decimal_or_none (o_rr o)) CONFIRMED_MIN_RR
   ++ when (negb (quality_at_least_b_plus (o_quality_grade o) (o_quality_score o)))
        "confirmed_grade_below_min"
   ++ (if negb (String.eqb quality_state "")
          && negb (str_in quality_state CONFIRMED_ALLOWED_QUALITY_STATE_KEYS)
       then ("setup_quality_not_confirmed:" +:+ quality_state)
            :: when (String.eqb quality_state "watchlist_near_miss") "watchlist_near_miss_not_confirmed"
       else [])
   ++ score_blockers "technical_score_missing" "technical_score_below_min"
        (decimal_or_none (o_technical_score o))
        (number_or (decimal_or_none (o_min_technical_score o)) MIN_TECHNICAL_SCORE)
   ++ score_blockers "opportunity_score_missing" "opportunity_score_below_min"
        (decimal_or_none (o_opportunity_score o))
        (number_or (decimal_or_none (o_min_opportunity_score o)) DEFAULT_MIN_OPPORTUNITY_SCORE))%list.

(** [_confirmed_observation_blockers], also [confirmed_observation_block_reasons] *)
Definition confirmed_observation_blockers (o : LifecycleObservation) : list string :=
  dict_fromkeys (status_blockers o ++ plan_blockers o ++ quality_blockers o)%list.

(** [_confirmed_observation_ready] *)
Definition confirmed_observation_ready (o : LifecycleObservation) : bool :=
  match confirmed_observation_blockers o with [] => true | _ => false end.

(** [_valid_confirmed_observation] *)
Definition valid_confirmed_observation (o : LifecycleObservation) : bool :=
  confirmed_observation_ready o && negb (terminal_observation o).

Definition active_blockers : list string :=
  ["active_rejection_reason"; "active_invalidation"; "core_status_blocked";
   "failed_confirmation_gate"; "data_health_failed"; "required_data_missing";
   "required_data_unverified"].

(** [_confirmed_observation_invalidates_active_signal] *)
Definition confirmed_observation_invalidates_active_signal (o : LifecycleObservation) : bool :=
  existsb (fun blocker => str_in (split_head ":" blocker) active_blockers)
    (confirmed_observation_blockers o).

(** [_confirmation_countable] *)
Definition confirmation_countable (o : LifecycleObservation) : bool :=
  if observation_has_essential_freshness_failure o then false
  else confirmed_observation_ready o || o_actionable_a_grade_candidate o
       || o_a_grade_watch_candidate o.
