(* ===== verification/CandleFreshness.v ===== *)
(** * Essential candle freshness (src/app/data/candle_freshness.py)

    Whether a closed candle series covers the last close scheduled before a
    decision cutoff, for one role and for the bundle of essential roles.
    Durations and allowances are microseconds.  A candle series is a list; the
    [None] a mapping may hold for a timeframe is the absence of the key. *)

From stdpp Require Import base tactics list strings.
From Stdlib Require Import ZArith NArith Lia Bool Ascii.
From S2P Require Import Prelude PyString PyDecimal PyCalendar PyTime PyJson LifecycleModels.
From S2P Require Import CandleIntegrity Observation.
Open Scope string_scope.
Open Scope py_scope.

Definition POLICY_VERSION : string := "essential-candle-freshness-v1".
Definition ANCHOR_UNIX_EPOCH_UTC : string := "unix_epoch_utc".
Definition PUBLICATION_ALLOWANCE : Z := 0.

Inductive CandleFreshnessStatus : Type := FRESH_PASS | FRESH_STALE | FRESH_MISSING | FRESH_UNVERIFIED.

#[export] Instance CandleFreshnessStatus_eq_dec : EqDecision CandleFreshnessStatus.
Proof. solve_decision. Defined.

Definition freshness_status_value (s : CandleFreshnessStatus) : string :=
  match s with
  | FRESH_PASS => "pass" | FRESH_STALE => "stale"
  | FRESH_MISSING => "missing" | FRESH_UNVERIFIED => "unverified"
  end.

Record CandleFreshnessAssessment := mkAssessment {
  fa_status : CandleFreshnessStatus;
  fa_reason : string;
  fa_symbol : string;
  fa_timeframe : string;
  fa_role : string;
  fa_decision_cutoff : option datetime;
  fa_latest_observed_close : option datetime;
  fa_required_close : option datetime;
  fa_lag_intervals : option Z;
  fa_policy_version : string;
  fa_allowance : Z;
  fa_anchor : string
}.
#[export] Instance CandleFreshnessAssessment_eta : RecordEta CandleFreshnessAssessment :=
  fun a => mkAssessment (fa_status a) (fa_reason a) (fa_symbol a) (fa_timeframe a) (fa_role a)
    (fa_decision_cutoff a) (fa_latest_observed_close a) (fa_required_close a) (fa_lag_intervals a)
    (fa_policy_version a) (fa_allowance a) (fa_anchor a).

(** [CandleFreshnessAssessment.passed] *)
Definition fa_passed (a : CandleFreshnessAssessment) : bool :=
  bool_decide (fa_status a = FRESH_PASS).

(** ** Helpers *)

(** [_timedelta_milliseconds] *)
Definition timedelta_milliseconds (us : Z) : Z := (us / 1000)%Z.

(** [_datetime_from_epoch_ms] *)
Definition datetime_from_epoch_ms (ms : Z) : result datetime :=
  add_us (mkDatetime epoch_us (Some 0%Z)) (ms * 1000)%Z.

(** [utc_epoch_milliseconds] *)
Definition utc_epoch_milliseconds (t : datetime) : result Z :=
  let! utc := astimezone_utc (as_utc t) in
  Ok (epoch_milliseconds utc).

(** [_normalize_timeframe] *)
Definition normalize_timeframe (timeframe : string) : string := py_lower (py_strip timeframe).

(** [_supported_anchor] *)
Definition supported_anchor (timeframe : string) : result bool :=
  match split_last timeframe with
  | None => Ok false
  | Some (count, unit) =>
      if (Ascii.eqb unit "m" || Ascii.eqb unit "h" || Ascii.eqb unit "d") && is_digits count then
        match py_int count with
        | Some n => Ok (0 <? n)%Z
        | None => Raise (int_digit_limit_error count)
        end
      else Ok false
  end.

(** [_optional_decision] *)
Definition optional_decision (value : cval) : result (option datetime) :=
  match value with
  | CVal PyNone => Ok None
  | _ =>
      match normalize_utc_timestamp value "decision_timestamp" with
      | Ok t => Ok (Some t)
      | Raise e => match value_error_text e with Some _ => Ok None | None => Raise e end
      end
  end.

(** [text.lstrip("-")] *)
Definition lstrip_dash (s : string) : string := lstrip_by (Ascii.eqb "-") s.

(** [_open_milliseconds] *)
Definition open_milliseconds (c : candle) (open_timestamp : datetime) : result (option Z) :=
  let fallback := match utc_epoch_milliseconds open_timestamp with
                  | Ok ms => Ok (Some ms)
                  | Raise (OverflowError _) => Ok None
                  | Raise e => match value_error_text e with Some _ => Ok None | None => Raise e end
                  end in
  match field c "timestamp" with
  | CVal (PyBool _) => Ok None
  | CVal (PyInt z) => Ok (Some z)
  | CVal (PyStr s) =>
      let cleaned := py_strip s in
      if is_digits (lstrip_dash cleaned) then Ok (py_int cleaned) else fallback
  | CDatetime t => map_result Some (utc_epoch_milliseconds t)
  | _ => fallback
  end.

(** [_unverified] *)
Definition unverified (symbol timeframe role reason : string)
    (decision_cutoff required_close latest_observed_close : option datetime) (anchor : string)
    : CandleFreshnessAssessment :=
  mkAssessment FRESH_UNVERIFIED reason symbol timeframe role decision_cutoff latest_observed_close
    required_close None POLICY_VERSION PUBLICATION_ALLOWANCE anchor.

(** ** The required close *)

(** [E = A + floor((D - allowance - A) / delta) * delta], in milliseconds *)
Definition required_scheduled_close_ms (timeframe : string) (decision : cval) (allowance : Z) : result Z :=
  let normalized := normalize_timeframe timeframe in
  let! anchored := supported_anchor normalized in
  if negb anchored then Raise (ValueError "unsupported_anchor") else
  let! duration := timeframe_duration normalized in
  let delta_ms := timedelta_milliseconds duration in
  if (delta_ms <=? 0)%Z then Raise (ValueError "invalid_duration") else
  let! decision := normalize_utc_timestamp decision "decision_timestamp" in
  let! decision_ms := utc_epoch_milliseconds decision in
  let effective_ms := (decision_ms - timedelta_milliseconds allowance)%Z in
  if (effective_ms <? 0)%Z then Raise (ValueError "decision_before_anchor") else
  Ok (effective_ms / delta_ms * delta_ms)%Z.

Definition required_scheduled_close (timeframe : string) (decision : cval) (allowance : Z)
    : result datetime :=
  let! ms := required_scheduled_close_ms timeframe decision allowance in
  datetime_from_epoch_ms ms.

(** ** One series *)

(** the verdict on the latest closed candle *)
Definition assess_latest (latest : CausalCandle) (symbol timeframe role : string)
    (decision required_close : datetime) (required_ms delta_ms allowance : Z)
    : result CandleFreshnessAssessment :=
  let! open_ms := open_milliseconds (cc_source latest) (cc_open_timestamp latest) in
  let off_anchor latest_close :=
    unverified symbol timeframe role "off_anchor" (Some decision) (Some required_close) latest_close
      ANCHOR_UNIX_EPOCH_UTC in
  match open_ms with
  | None => Ok (off_anchor None)
  | Some open_ms =>
      if (delta_ms <=? 0)%Z || negb (open_ms mod delta_ms =? 0)%Z then
        let! latest_close := datetime_from_epoch_ms (open_ms + delta_ms) in
        Ok (off_anchor (Some latest_close))
      else
      let scheduled_close_ms := (open_ms + delta_ms)%Z in
      let! latest_close := datetime_from_epoch_ms scheduled_close_ms in
      if (scheduled_close_ms <? required_ms)%Z then
        Ok (mkAssessment FRESH_STALE "missing_completed_interval" symbol timeframe role
              (Some decision) (Some latest_close) (Some required_close)
              (Some ((required_ms - scheduled_close_ms) / delta_ms)%Z)
              POLICY_VERSION allowance ANCHOR_UNIX_EPOCH_UTC)
      else
        Ok (mkAssessment FRESH_PASS "covers_required_close" symbol timeframe role
              (Some decision) (Some latest_close) (Some required_close) (Some 0%Z)
              POLICY_VERSION allowance ANCHOR_UNIX_EPOCH_UTC)
  end.

(** what is assessed once the required close is known *)
Definition assess_series (candles : list candle) (symbol timeframe role : string)
    (decision : datetime) (required_ms delta_ms allowance : Z) : result CandleFreshnessAssessment :=
  let! required_close := datetime_from_epoch_ms required_ms in
  let blocked reason :=
    unverified symbol timeframe role reason (Some decision) (Some required_close) None
      ANCHOR_UNIX_EPOCH_UTC in
  match closed_candles_as_of candles timeframe (CDatetime decision) 0 true false true with
  | Raise (IntegrityError reason _) => Ok (blocked ("candle_integrity:" +:+ reason))
  | Raise (ValueError _) => Ok (blocked "candle_timestamps_unverifiable")
  | Raise e => Raise e
  | Ok window =>
      match last (cw_timeline window) with
      | None =>
          Ok (mkAssessment FRESH_MISSING "no_closed_candle" symbol timeframe role (Some decision)
                None (Some required_close) None POLICY_VERSION allowance ANCHOR_UNIX_EPOCH_UTC)
      | Some latest =>
          assess_latest latest symbol timeframe role decision required_close required_ms delta_ms
            allowance
      end
  end.

Definition assess_candle_freshness (candles : list candle) (symbol timeframe role : string)
    (decision_timestamp : cval) (allowance : Z) : result CandleFreshnessAssessment :=
  let normalized := normalize_timeframe timeframe in
  let! decision := optional_decision decision_timestamp in
  match decision with
  | None => Ok (unverified symbol normalized role "decision_cutoff_invalid" None None None
                  ANCHOR_UNIX_EPOCH_UTC)
  | Some decision =>
  let blocked reason anchor :=
    unverified symbol normalized role reason (Some decision) None None anchor in
  if (allowance <? 0)%Z then Ok (blocked "negative_allowance" ANCHOR_UNIX_EPOCH_UTC) else
  match timeframe_duration normalized with
  | Raise (IntegrityError _ _) => Ok (blocked "unsupported_timeframe" ANCHOR_UNIX_EPOCH_UTC)
  | Raise e => Raise e
  | Ok delta =>
      let! anchored := supported_anchor normalized in
      if negb anchored then Ok (blocked "unsupported_anchor" NA) else
      match required_scheduled_close_ms normalized (CDatetime decision) allowance with
      | Raise e =>
          match value_error_text e with
          | Some msg => Ok (blocked (if String.eqb msg "" then "required_close_unavailable" else msg)
                              ANCHOR_UNIX_EPOCH_UTC)
          | None => Raise e
          end
      | Ok required_ms =>
          assess_series candles symbol normalized role decision required_ms
            (timedelta_milliseconds delta) allowance
      end
  end
  end.

(** ** The bundle of essential roles *)

(** [_two_day_pair_assessment]: [None] keeps the base assessment *)
Definition two_day_pair_assessment (base : CandleFreshnessAssessment) (symbol : string)
    (decision_timestamp : cval) (daily_source_candles : option (list candle))
    : result (option CandleFreshnessAssessment) :=
  let! decision := optional_decision decision_timestamp in
  match decision, fa_required_close base with
  | Some decision, Some required_close =>
  let verdict status reason lag :=
    mkAssessment status reason symbol "2d" "htf" (Some decision) (fa_latest_observed_close base)
      (Some required_close) lag POLICY_VERSION (fa_allowance base) ANCHOR_UNIX_EPOCH_UTC in
  let blocked reason :=
    unverified symbol "2d" "htf" reason (Some decision) (Some required_close) None
      ANCHOR_UNIX_EPOCH_UTC in
  match daily_source_candles with
  | None => Ok (Some (verdict FRESH_MISSING "synthetic_2d_source_missing" (fa_lag_intervals base)))
  | Some daily =>
      match (let! required_ms := utc_epoch_milliseconds required_close in
             let! day := timeframe_duration "1d" in
             Ok (required_ms, timedelta_milliseconds day)) with
      | Raise e => match value_error_text e with
                   | Some _ => Ok (Some (blocked "synthetic_2d_pair_unverifiable"))
                   | None => Raise e
                   end
      | Ok (required_ms, day_ms) =>
          let bucket_open := (required_ms - 2 * day_ms)%Z in
          match closed_candles_as_of daily "1d" (CDatetime decision) 0 true false true with
          | Raise e => match value_error_text e with
                       | Some _ => Ok (Some (blocked "synthetic_2d_source_unverifiable"))
                       | None => Raise e
                       end
          | Ok window =>
              let! opens := (fix opens_of (items : list CausalCandle) : result (list Z) :=
                match items with
                | [] => Ok []
                | item :: rest =>
                    let! open_ms := open_milliseconds (cc_source item) (cc_open_timestamp item) in
                    let! others := opens_of rest in
                    Ok (match open_ms with Some ms => ms :: others | None => others end)
                end) (cw_timeline window) in
              if match cw_timeline window with [] => true | _ => false end
              then Ok (Some (verdict FRESH_MISSING "synthetic_2d_source_missing" (fa_lag_intervals base)))
              else if negb (existsb (Z.eqb bucket_open) opens && existsb (Z.eqb (bucket_open + day_ms)) opens)
              then Ok (Some (verdict FRESH_STALE "incomplete_daily_pair"
                               (match fa_lag_intervals base with
                                | Some lag => if (lag =? 0)%Z then Some 1%Z else Some lag
                                | None => Some 1%Z
                                end)))
              else Ok None
          end
      end
  end
  | _, _ => Ok None
  end.

Record EssentialFreshnessBundle := mkBundle {
  fb_assessments : list CandleFreshnessAssessment;
  fb_policy_version : string
}.

(** [EssentialFreshnessBundle.passed] *)
Definition fb_passed (b : EssentialFreshnessBundle) : bool :=
  match fb_assessments b with [] => false | l => forallb fa_passed l end.

Definition pair_eqb (a b : string * string) : bool :=
  String.eqb (fst a) (fst b) && String.eqb (snd a) (snd b).

(** append the roles that have a timeframe and were not seen *)
Definition add_role (roles : list (string * string)) (spec : string * string) : list (string * string) :=
  if String.eqb (fst spec) "" || existsb (pair_eqb spec) roles then roles else (roles ++ [spec])%list.

Definition essential_discovery_roles (strategy_enabled : bool)
    (primary_timeframe execution_timeframe confirmation_timeframe bias_timeframe
     structure_timeframe htf_timeframe : string) : list (string * string) :=
  let primary := normalize_timeframe primary_timeframe in
  if negb strategy_enabled then
    if String.eqb primary "" then [] else [(primary, "primary_technical")]
  else
  let roles := fold_left add_role
    [(primary, "primary_technical");
     (normalize_timeframe execution_timeframe, "execution");
     (normalize_timeframe confirmation_timeframe, "confirmation");
     (normalize_timeframe bias_timeframe, "bias");
     (normalize_timeframe structure_timeframe, "structure")] [] in
  let htf := normalize_timeframe htf_timeframe in
  if String.eqb htf "2d" then fold_left add_role [("2d", "htf"); ("1d", "synthetic_2d_source")] roles
  else add_role roles (htf, "htf").

(** the roles of each timeframe, in order of first appearance *)
Fixpoint group_role (grouped : list (string * list string)) (timeframe role : string)
    : list (string * list string) :=
  match grouped with
  | [] => [(timeframe, [role])]
  | (t, rs) :: rest =>
      if String.eqb t timeframe then (t, (rs ++ [role])%list) :: rest
      else (t, rs) :: group_role rest timeframe role
  end.

Definition group_roles (roles : list (string * string)) : list (string * list string) :=
  fold_left (fun grouped '(timeframe, role) => group_role grouped timeframe role) roles [].

(** the base assessment of one timeframe *)
Definition assess_timeframe (symbol timeframe first_role : string) (roles : list string)
    (decision_timestamp : cval) (candles_by_timeframe : list (string * list candle))
    (daily_source_candles : option (list candle)) : result CandleFreshnessAssessment :=
  let series := assoc timeframe candles_by_timeframe in
  let empty := match series with None | Some [] => true | Some _ => false end in
  let series := if empty && String.eqb timeframe "1d"
                then match daily_source_candles with Some d => Some d | None => series end
                else series in
  let! base := assess_candle_freshness (match series with Some l => l | None => [] end) symbol timeframe
                 first_role decision_timestamp PUBLICATION_ALLOWANCE in
  if String.eqb timeframe "2d" && str_in "htf" roles then
    let! daily_pair := two_day_pair_assessment base symbol decision_timestamp
                   (match daily_source_candles with
                    | Some d => Some d
                    | None => assoc "1d" candles_by_timeframe
                    end) in
    Ok (match daily_pair with Some p => p | None => base end)
  else Ok base.

Fixpoint assess_groups (groups : list (string * list string)) (symbol : string)
    (decision_timestamp : cval) (candles_by_timeframe : list (string * list candle))
    (daily_source_candles : option (list candle)) : result (list CandleFreshnessAssessment) :=
  match groups with
  | [] => Ok []
  | (timeframe, roles) :: rest =>
      let! base := assess_timeframe symbol timeframe (List.hd "" roles) roles decision_timestamp
                     candles_by_timeframe daily_source_candles in
      let! others := assess_groups rest symbol decision_timestamp candles_by_timeframe
                       daily_source_candles in
      Ok (map (fun role => base <| fa_role := role |>) roles ++ others)%list
  end.

Definition assess_essential_discovery (symbol : string) (decision_timestamp : cval)
    (roles : list (string * string)) (candles_by_timeframe : list (string * list candle))
    (daily_source_candles : option (list candle)) : result EssentialFreshnessBundle :=
  match roles with
  | [] =>
      let! decision := optional_decision decision_timestamp in
      Ok (mkBundle [unverified symbol "" "essential" "no_essential_roles" decision None None
                      ANCHOR_UNIX_EPOCH_UTC] POLICY_VERSION)
  | _ =>
      let! assessments := assess_groups (group_roles roles) symbol decision_timestamp
                            candles_by_timeframe daily_source_candles in
      Ok (mkBundle assessments POLICY_VERSION)
  end.

(** ** Diagnostics *)

(** [_iso_or_na]; the datetimes of an assessment are in UTC *)
Definition iso_or_na (t : option datetime) : result string :=
  match t with
  | None => Ok NA
  | Some t => let! utc := astimezone_utc t in Ok (isoformat utc)
  end.

Definition text_or_na (s : string) : string := if String.eqb s "" then NA else s.

Definition lag_text (lag : option Z) : string :=
  match lag with Some z => string_of_Z z | None => NA end.

(** [CandleFreshnessAssessment.as_dict] *)
Definition assessment_as_dict (a : CandleFreshnessAssessment) : result (list (string * json)) :=
  let! cutoff := iso_or_na (fa_decision_cutoff a) in
  let! latest := iso_or_na (fa_latest_observed_close a) in
  let! required := iso_or_na (fa_required_close a) in
  Ok [("status", JStr (freshness_status_value (fa_status a)));
      ("reason", JStr (fa_reason a));
      ("symbol", JStr (text_or_na (fa_symbol a)));
      ("timeframe", JStr (text_or_na (fa_timeframe a)));
      ("role", JStr (text_or_na (fa_role a)));
      ("decision_cutoff", JStr cutoff);
      ("latest_observed_close", JStr latest);
      ("required_close", JStr required);
      ("lag_intervals", match fa_lag_intervals a with Some z => JInt z | None => JStr NA end);
      ("policy_version", JStr (fa_policy_version a));
      ("allowance_ms", JInt (timedelta_milliseconds (fa_allowance a)));
      ("anchor", JStr (text_or_na (fa_anchor a)))].

(** [CandleFreshnessAssessment.diagnostic_line] *)
Definition diagnostic_line (a : CandleFreshnessAssessment) : result (option string) :=
  if fa_passed a then Ok None else
  let label := if bool_decide (fa_status a = FRESH_UNVERIFIED) then "Unverified" else NA in
  let! cutoff := iso_or_na (fa_decision_cutoff a) in
  let! latest := iso_or_na (fa_latest_observed_close a) in
  let! required := iso_or_na (fa_required_close a) in
  let detail :=
    "role=" +:+ text_or_na (fa_role a) +:+ ",status=" +:+ freshness_status_value (fa_status a)
    +:+ ",reason=" +:+ fa_reason a +:+ ",decision_cutoff=" +:+ cutoff
    +:+ ",latest_observed_close=" +:+ latest +:+ ",required_close=" +:+ required
    +:+ ",lag_intervals=" +:+ lag_text (fa_lag_intervals a)
    +:+ ",policy_version=" +:+ fa_policy_version a
    +:+ ",allowance_ms=" +:+ string_of_Z (timedelta_milliseconds (fa_allowance a))
    +:+ ",anchor=" +:+ text_or_na (fa_anchor a) in
  Ok (Some (FRESHNESS_TOKEN +:+ "["
              +:+ (if String.eqb (fa_timeframe a) "" then "unknown" else fa_timeframe a)
              +:+ "]: " +:+ label +:+ " (" +:+ detail +:+ ")")).

(** missing lines and unverified lines of the assessments *)
Fixpoint assessment_lines (l : list CandleFreshnessAssessment) : result (list string * list string) :=
  match l with
  | [] => Ok ([], [])
  | a :: rest =>
      let! line := diagnostic_line a in
      let! (missing, unverified) := assessment_lines rest in
      Ok (match line with
          | None => (missing, unverified)
          | Some text =>
              if bool_decide (fa_status a = FRESH_UNVERIFIED) then (missing, text :: unverified)
              else (text :: missing, unverified)
          end)
  end.

(** [EssentialFreshnessBundle.diagnostic_lines] *)
Definition diagnostic_lines (b : EssentialFreshnessBundle) : result (list string * list string) :=
  match fb_assessments b with
  | [] => Ok ([], [FRESHNESS_TOKEN +:+ ": Unverified (reason=assessment_missing,policy_version="
                     +:+ fb_policy_version b +:+ ",allowance_ms=0)"])
  | l => assessment_lines l
  end.

Fixpoint as_dicts (l : list CandleFreshnessAssessment) : result (list json) :=
  match l with
  | [] => Ok []
  | a :: rest =>
      let! d := assessment_as_dict a in
      let! ds := as_dicts rest in
      Ok (JObj d :: ds)
  end.

(** [EssentialFreshnessBundle.receipt] *)
Definition receipt (b : EssentialFreshnessBundle) : result (list (string * json)) :=
  let! (missing, unverified) := diagnostic_lines b in
  let! assessments := as_dicts (fb_assessments b) in
  Ok ([("discovery_passed", JBool (fb_passed b));
       ("policy_version", JStr (fb_policy_version b));
       ("allowance_ms", JInt (timedelta_milliseconds PUBLICATION_ALLOWANCE));
       ("anchor", JStr ANCHOR_UNIX_EPOCH_UTC);
       ("assessments", JArr assessments);
       ("missing_lines", JArr (map JStr missing));
       ("unverified_lines", JArr (map JStr unverified))]
      ++ (if fb_passed b then [] else [("first_failed_gate", JStr FRESHNESS_TOKEN)]))%list.
