(* ===== verification/FreshnessProps.v ===== *)
(** * Properties of essential candle freshness

    What each verdict of [assess_candle_freshness] means on the timeframe's
    grid of closes, and that a bundle that does not pass blocks the lifecycle:
    its diagnostic lines are recognised by the observation checks. *)

From stdpp Require Import base tactics list strings.
From Stdlib Require Import ZArith NArith Lia Bool Ascii.
From S2P Require Import Prelude PyString PyDecimal PyCalendar PyTime PyJson LifecycleModels.
From S2P Require Import CandleIntegrity CandleProps Observation CandleFreshness.
Open Scope string_scope.
Open Scope py_scope.
Open Scope list_scope.
Open Scope Z_scope.

(** ** The required close *)

(** [close] is the last close on the grid of [delta] at or before [cutoff]. *)
Definition last_scheduled_close (delta cutoff close : Z) : Prop :=
  0 < delta /\ close mod delta = 0 /\ close <= cutoff < close + delta.

Lemma last_scheduled_close_unique delta cutoff a b :
  last_scheduled_close delta cutoff a -> last_scheduled_close delta cutoff b -> a = b.
Proof.
  intros (Hd & Ha & Ha') (_ & Hb & Hb').
  apply Z.mod_divide in Ha as [x ->]; [|lia]. apply Z.mod_divide in Hb as [y ->]; [|lia].
  assert (x = y) as -> by nia. done.
Qed.

Lemma normalize_timeframe_idem tf : normalize_timeframe (normalize_timeframe tf) = normalize_timeframe tf.
Proof. unfold normalize_timeframe. by rewrite py_strip_lower, py_strip_idem, py_lower_idem. Qed.

Lemma required_close_run tf decision allowance required :
  required_scheduled_close_ms tf decision allowance = Ok required ->
  exists duration d ms,
    timeframe_duration (normalize_timeframe tf) = Ok duration /\
    normalize_utc_timestamp decision "decision_timestamp" = Ok d /\ utc_epoch_milliseconds d = Ok ms /\
    last_scheduled_close (timedelta_milliseconds duration) (ms - timedelta_milliseconds allowance) required.
Proof.
  unfold required_scheduled_close_ms. intros H. apply bind_ok in H as (anchored & _ & H).
  destruct (negb anchored); [discriminate|]. apply bind_ok in H as (duration & Hd & H).
  destruct (Z.leb_spec (timedelta_milliseconds duration) 0) as [|Hpos]; [discriminate|].
  apply bind_ok in H as (d & Hdec & H). apply bind_ok in H as (ms & Hms & H).
  destruct (_ <? 0); [discriminate|]. injection H as <-. exists duration, d, ms. split_and!; try done.
  set (x := ms - _) in *. set (delta := timedelta_milliseconds duration) in *.
  unfold last_scheduled_close. pose proof (Z.div_mod x delta ltac:(lia)).
  pose proof (Z.mod_pos_bound x delta Hpos). rewrite Z.mod_mul by lia. lia.
Qed.

Lemma decision_milliseconds d d' ms :
  normalize_utc_timestamp (CDatetime d) "decision_timestamp" = Ok d' -> utc_epoch_milliseconds d' = Ok ms ->
  ms = epoch_milliseconds d.
Proof.
  cbn [normalize_utc_timestamp]. unfold normalize_datetime, utc_epoch_milliseconds, astimezone_utc.
  assert (forall t, instant (as_utc t) = instant t) as Hutc
    by (intros [us [o|]]; unfold as_utc, instant; cbn; lia).
  intros Hd Hms. apply bind_ok in Hms as (u & Hu & Hms). injection Hms as <-.
  rewrite Hutc in Hu. destruct (_ && _)%bool in Hu; [|discriminate]. injection Hu as <-.
  unfold epoch_milliseconds. f_equal. unfold instant at 1. cbn [dt_us dt_offset]. rewrite Z.sub_0_r. f_equal.
  destruct (dt_offset d) eqn:Eo.
  - destruct (_ && _)%bool in Hd; [|discriminate]. injection Hd as <-. unfold instant at 1. cbn. lia.
  - injection Hd as <-. apply Hutc.
Qed.

(** ** Verdicts *)

Lemma datetime_from_epoch_ms_inverse ms t : datetime_from_epoch_ms ms = Ok t -> epoch_milliseconds t = ms.
Proof.
  intros H. apply add_us_instant in H. unfold epoch_milliseconds. rewrite H.
  change (instant (mkDatetime epoch_us (Some 0))) with (epoch_us - 0).
  replace (epoch_us - 0 + ms * 1000 - epoch_us) with (ms * 1000) by lia. by rewrite Z.div_mul.
Qed.

(** The latest candle closed by the decision, with the open its timestamp
    field names, and its scheduled close. *)
Definition latest_closed (candles : list candle) (timeframe : string) (decision : datetime)
    (delta close : Z) : Prop :=
  exists window latest,
    closed_candles_as_of candles timeframe (CDatetime decision) 0 true false true = Ok window /\
    last (cw_timeline window) = Some latest /\
    open_milliseconds (cc_source latest) (cc_open_timestamp latest) = Ok (Some (close - delta)) /\
    close mod delta = 0.

Lemma on_grid_next delta open : 0 < delta -> (open + delta) mod delta = open mod delta.
Proof. intros H. rewrite Z.add_mod, Z.mod_same, Z.add_0_r, Z.mod_mod; lia. Qed.

Lemma assess_latest_cases candles latest window symbol tf role decision required_close required delta allowance a :
  0 < delta -> required mod delta = 0 ->
  closed_candles_as_of candles tf (CDatetime decision) 0 true false true = Ok window ->
  last (cw_timeline window) = Some latest ->
  assess_latest latest symbol tf role decision required_close required delta allowance = Ok a ->
  fa_status a = FRESH_UNVERIFIED \/
  exists close lag,
    fa_decision_cutoff a = Some decision /\ fa_required_close a = Some required_close /\
    latest_closed candles tf decision delta close /\
    option_map epoch_milliseconds (fa_latest_observed_close a) = Some close /\
    fa_lag_intervals a = Some lag /\
    ((fa_status a = FRESH_PASS /\ lag = 0 /\ required <= close) \/
     (fa_status a = FRESH_STALE /\ 1 <= lag /\ close + lag * delta = required)).
Proof.
  intros Hpos Hreq Hwin Hlast H. unfold assess_latest in H. apply bind_ok in H as (open & Hopen & H).
  destruct open as [open|]; [|injection H as <-; by left].
  destruct (Z.leb_spec delta 0) as [|_]; [lia|]. cbn [orb] in H.
  destruct (Z.eqb_spec (open mod delta) 0) as [Hgrid|_]; cbn [negb] in H;
    apply bind_ok in H as (close & Hclose & H); [|injection H as <-; by left].
  apply datetime_from_epoch_ms_inverse in Hclose. right. exists (open + delta).
  assert (latest_closed candles tf decision delta (open + delta)) as Hlatest.
  { exists window, latest. rewrite on_grid_next by done. split_and!; try done. rewrite Hopen. f_equal. f_equal. lia. }
  assert ((required - (open + delta)) mod delta = 0) as Hdiff
    by (rewrite Zminus_mod, Hreq, on_grid_next, Hgrid by done; by rewrite Z.mod_0_l by lia).
  destruct (Z.ltb_spec (open + delta) required) as [Hlt|Hle]; injection H as <-; eexists; cbn;
    rewrite Hclose; split_and!; try done.
  - right. apply Z.mod_divide in Hdiff as [k Hk]; [|lia]. rewrite Hk, Z.div_mul by lia.
    split_and!; [done| |]; nia.
  - left. split_and!; done.
Qed.

(** a freshness verdict is about the grid of scheduled closes: with E the
    last scheduled close at or before the cutoff less the allowance, PASS means
    that the latest candle closed by the decision is on the grid and closes at
    or after E, STALE means that it closes a whole number [lag >= 1] of
    intervals before E, and the assessment records E, that close and the lag. *)
Theorem freshness_verdict_on_grid candles symbol tf role decision allowance a :
  assess_candle_freshness candles symbol tf role decision allowance = Ok a ->
  fa_status a = FRESH_PASS \/ fa_status a = FRESH_STALE ->
  exists d duration required close lag,
    let delta := timedelta_milliseconds duration in
    optional_decision decision = Ok (Some d) /\ fa_decision_cutoff a = Some d /\
    timeframe_duration (normalize_timeframe tf) = Ok duration /\
    last_scheduled_close delta (epoch_milliseconds d - timedelta_milliseconds allowance) required /\
    option_map epoch_milliseconds (fa_required_close a) = Some required /\
    latest_closed candles (normalize_timeframe tf) d delta close /\
    option_map epoch_milliseconds (fa_latest_observed_close a) = Some close /\
    fa_lag_intervals a = Some lag /\
    ((fa_status a = FRESH_PASS /\ lag = 0 /\ required <= close) \/
     (fa_status a = FRESH_STALE /\ 1 <= lag /\ close + lag * delta = required)).
Proof.
  unfold assess_candle_freshness. intros H Hstatus. apply bind_ok in H as (od & Hod & H).
  destruct od as [d|]; [|injection H as <-; by destruct Hstatus].
  destruct (allowance <? 0); [injection H as <-; by destruct Hstatus|].
  destruct (timeframe_duration (normalize_timeframe tf)) as [duration|[]] eqn:Hdur; try discriminate H;
    [|injection H as <-; by destruct Hstatus].
  apply bind_ok in H as (anchored & _ & H). destruct (negb anchored); [injection H as <-; by destruct Hstatus|].
  destruct (required_scheduled_close_ms _ _ _) as [required|e] eqn:Hreq;
    [|destruct (value_error_text e); [injection H as <-; by destruct Hstatus|discriminate]].
  apply required_close_run in Hreq as (duration' & d' & ms & Hdur' & Hd' & Hms & Hlast).
  rewrite normalize_timeframe_idem, Hdur in Hdur'. injection Hdur' as <-.
  unfold assess_series in H. apply bind_ok in H as (required_close & Hrc & H).
  apply datetime_from_epoch_ms_inverse in Hrc.
  destruct (closed_candles_as_of _ _ _ _ _ _ _) as [window|[]] eqn:Hwin; try discriminate H;
    try (injection H as <-; by destruct Hstatus).
  destruct (last (cw_timeline window)) as [latest|] eqn:Hl; [|injection H as <-; by destruct Hstatus].
  pose proof Hlast as (Hpos & Hgrid & _).
  destruct (assess_latest_cases _ _ _ _ _ _ _ _ _ _ _ _ Hpos Hgrid Hwin Hl H)
    as [E|(close & lag & H1 & H2 & H3 & H4 & H5 & H6)]; [rewrite E in Hstatus; by destruct Hstatus|].
  rewrite (decision_milliseconds _ _ _ Hd' Hms) in Hlast.
  exists d, duration, required, close, lag. cbv zeta. rewrite H2. cbn [option_map]. rewrite Hrc.
  split_and!; done.
Qed.

(** Two fifteen-minute candles: the second closes after the decision at 00:20. *)
Definition sample_candle (open_ms : Z) : candle :=
  MappingCandle [("timestamp", CVal (PyInt open_ms)); ("open", CVal (PyStr "100")); ("high", CVal (PyStr "110"));
                 ("low", CVal (PyStr "90")); ("close", CVal (PyStr "105"))].

Lemma freshness_verdict_on_grid_witness :
  exists a close, assess_candle_freshness [sample_candle 1767225600000; sample_candle 1767226500000] "BTCUSDT" "15m"
      "execution" (CVal (PyInt 1767226800000)) 0 = Ok a /\ fa_status a = FRESH_PASS /\
    option_map epoch_milliseconds (fa_latest_observed_close a) = Some close /\ 1767226500000 <= close.
Proof.
  destruct (assess_candle_freshness [sample_candle 1767225600000; sample_candle 1767226500000] "BTCUSDT" "15m"
      "execution" (CVal (PyInt 1767226800000)) 0) as [a|e] eqn:E; [|vm_compute in E; discriminate].
  assert (fa_status a = FRESH_PASS) as Hp by (vm_compute in E; injection E as <-; reflexivity).
  destruct (freshness_verdict_on_grid _ _ _ _ _ _ _ E (or_introl Hp))
    as (d & dur & required & close & lag & Hd & _ & Hdur & (_ & Hmod & Hle) & _ & _ & Hc & _ & Hcase).
  exists a, close. split_and!; [done|done|exact Hc|].
  destruct Hcase as [(_ & _ & H)|(Hs & _)]; [|rewrite Hp in Hs; discriminate].
  vm_compute in Hdur. injection Hdur as <-. vm_compute in Hd. injection Hd as <-.
  change (timedelta_milliseconds 900000000) with 900000 in Hmod, Hle.
  change (timedelta_milliseconds 0) with 0 in Hle.
  match type of Hle with _ <= epoch_milliseconds ?x - _ < _ =>
    assert (epoch_milliseconds x = 1767226800000) as Hx by (vm_compute; reflexivity); rewrite Hx in Hle end.
  apply Z.mod_divide in Hmod as [k ->]; lia.
Defined.

(** ** The bundle *)

Lemma contains_token_prefix sub rest : py_contains sub (sub +:+ rest) = true.
Proof.
  assert (is_prefix sub (sub +:+ rest) = true) as H.
  { induction sub as [|c sub IH]; [by destruct rest|]. cbn. by rewrite Ascii.eqb_refl. }
  destruct (sub +:+ rest) as [|c s] eqn:E; cbn [py_contains]; by rewrite H.
Qed.

Lemma diagnostic_line_cases a line :
  diagnostic_line a = Ok line ->
  (fa_passed a = true /\ line = None) \/
  (fa_passed a = false /\ exists text, line = Some text /\ py_contains FRESHNESS_TOKEN text = true).
Proof.
  unfold diagnostic_line. destruct (fa_passed a); [intros [= <-]; by left|]. intros H. right. split; [done|].
  repeat (apply bind_ok in H as (? & _ & H)). apply ok_inj in H. rewrite <- H. eexists. split; [reflexivity|].
  apply contains_token_prefix.
Qed.

Lemma assessment_lines_spec l missing unverified :
  assessment_lines l = Ok (missing, unverified) ->
  Forall (fun text => py_contains FRESHNESS_TOKEN text = true) (missing ++ unverified) /\
  (missing ++ unverified = [] <-> forallb fa_passed l = true).
Proof.
  revert missing unverified. induction l as [|a l IH]; intros missing unverified H.
  - injection H as <- <-. done.
  - cbn [assessment_lines] in H. apply bind_ok in H as (line & Hline & H). apply bind_ok in H as ([m u] & Hl & H).
    destruct (IH _ _ Hl) as [Hall Hnil]. injection H as H. cbn [forallb].
    apply diagnostic_line_cases in Hline as [[Hp ->]|(Hp & text & -> & Htext)]; rewrite Hp; cbn [andb].
    + injection H as <- <-. done.
    + destruct (bool_decide _); injection H as <- <-.
      * split; [|split; [|discriminate]; intros Hn; apply app_eq_nil in Hn as [_ Hn]; discriminate].
        rewrite Forall_app in *. destruct Hall as [H1 H2]. split; [done|]. by constructor.
      * split; [|done]. cbn. by constructor.
Qed.

Lemma bundle_lines_spec b missing unverified :
  diagnostic_lines b = Ok (missing, unverified) ->
  Forall (fun text => py_contains FRESHNESS_TOKEN text = true) (missing ++ unverified) /\
  (missing ++ unverified = [] <-> fb_passed b = true).
Proof.
  unfold diagnostic_lines, fb_passed. destruct (fb_assessments b) as [|a l] eqn:E.
  - intros H. apply ok_inj, pair_equal_spec in H as [<- <-]. split; [|done]. constructor; [apply contains_token_prefix|constructor].
  - apply assessment_lines_spec.
Qed.

Definition unverified_sample : CandleFreshnessAssessment :=
  unverified "BTCUSDT" "15m" "execution" "off_anchor" None None None ANCHOR_UNIX_EPOCH_UTC.

(** An observation with no required-data line. *)
Inductive no_lines : Type := sample_gate.
#[local] Instance no_lines_view : FreshnessView no_lines := {
  fv_required_data_missing _ := []; fv_required_data_unverified _ := [];
  fv_failed_gate _ := ""; fv_final_failed_gate _ := ""; fv_final_block_reason _ := "" }.

(** a freshness bundle blocks exactly when it does not pass: it passes if
    and only if it writes no diagnostic line; otherwise an observation that
    carries its lines as required data has an essential freshness failure, and
    one that carries nothing else keeps its owned plan on hold. *)
Theorem failed_bundle_is_recognised {A} {view : FreshnessView A} b missing unverified (o : A) :
  diagnostic_lines b = Ok (missing, unverified) ->
  (fb_passed b = true <-> missing = [] /\ unverified = []) /\
  (fb_passed b = false ->
   (incl missing (fv_required_data_missing o) -> incl unverified (fv_required_data_unverified o) ->
    observation_has_essential_freshness_failure o = true) /\
   (fv_required_data_missing o = missing -> fv_required_data_unverified o = unverified ->
    freshness_failure_preserves_owner o = true)).
Proof.
  intros H. apply bundle_lines_spec in H as [Hall Hnil]. split; [|intros Hf].
  { rewrite <- Hnil. split; [apply app_eq_nil|]. by intros [-> ->]. }
  assert (incl missing (fv_required_data_missing o) -> incl unverified (fv_required_data_unverified o) ->
    observation_has_essential_freshness_failure o = true) as Hhas.
  { intros Hm Hu. unfold observation_has_essential_freshness_failure. apply existsb_exists.
    destruct (missing ++ unverified) as [|text rest] eqn:E; [rewrite (proj1 Hnil eq_refl) in Hf; discriminate|].
    exists text. split; [|by inversion Hall]. unfold observation_texts. rewrite !in_app_iff.
    assert (In text (missing ++ unverified)) as Hin by (rewrite E; by left).
    apply in_app_iff in Hin as [Hin|Hin]; auto. }
  split; [done|]. intros Hm Hu. unfold freshness_failure_preserves_owner.
  rewrite Hhas by (rewrite ?Hm, ?Hu; apply incl_refl). cbn [negb]. rewrite Hm, Hu.
  destruct (existsb _ _) eqn:E; [|done]. apply existsb_exists in E as (text & Hin & Hno).
  rewrite Forall_forall in Hall. rewrite (Hall text) in Hno; [done|]. by apply list_elem_of_In.
Qed.

Lemma failed_bundle_is_recognised_witness :
  exists missing unverified,
    diagnostic_lines (mkBundle [unverified_sample] POLICY_VERSION) = Ok (missing, unverified) /\
    (fb_passed (mkBundle [unverified_sample] POLICY_VERSION) = true <-> missing = [] /\ unverified = []).
Proof.
  destruct (diagnostic_lines (mkBundle [unverified_sample] POLICY_VERSION)) as [[m u]|e] eqn:E;
    [|vm_compute in E; discriminate].
  exists m, u. split; [done|]. exact (proj1 (failed_bundle_is_recognised _ m u sample_gate E)).
Defined.
