(* ===== verification/StateMachine.v ===== *)
(** * The setup lifecycle state machine (src/app/lifecycle/state_machine.py)

    The transition table, the target state an observation asks for, the
    confirmation count, confidence decay, cooldown, and the handler
    [evaluate_lifecycle_transition] that runs one scan on a record.  The wall
    clock ([now_utc_iso]) is the argument [clock]. *)

From stdpp Require Import base tactics list strings.
From Stdlib Require Import ZArith NArith Lia Bool Ascii.
From S2P Require Import Prelude PyString PyDecimal PyTime LifecycleModels OutcomePolicy.
From S2P Require Import Identity EconomicIdentity Observation.
Open Scope string_scope.
Open Scope py_scope.

(** ** State sets *)

Definition VALID_STATES : list SetupLifecycleState :=
  [CONFIRMED; ACTIONABLE_A_GRADE; A_GRADE_WATCH; EXECUTING; MANAGING; TP_HIT; SL_HIT; BREAKEVEN].

Definition OUTCOME_STATES : list SetupLifecycleState :=
  [TP_HIT; SL_HIT; BREAKEVEN; INVALIDATED; EXPIRED].

Definition WATCH_PRIORITY_STATES : list SetupLifecycleState :=
  skipn 2 ACTIVE_LIFECYCLE_MONITORING_STATES.

Definition DEFAULT_COOLDOWN_HOURS : Z := 24.
Definition DEFAULT_CONFIRMATION_CYCLES : Z := 2.
Definition DEFAULT_SETUP_MERGE_TOLERANCE_PCT : dec := mkDec false 5 (-1).

Definition CONFIRMATION_GATED_STATES : list SetupLifecycleState := [CONFIRMED; EXECUTING; MANAGING].

Definition DECAYABLE_STATES : list SetupLifecycleState :=
  [WATCHLISTED; STALKING; TRIGGERED; CONFIRMED; ACTIONABLE_A_GRADE; A_GRADE_WATCH].

Definition DECAY_GRADE_PATH : list string := ["a+"; "a"; "a-"; "b+"].

Definition CONFIDENCE_DECAY_TERMINAL_EXEMPT_STATES : list SetupLifecycleState := [CONFIRMED].

Definition ENTRY_TOUCH_MONITOR_STATES : list SetupLifecycleState :=
  [WATCHLISTED; STALKING; ACTIONABLE_A_GRADE; A_GRADE_WATCH].

Definition ENTRY_TOUCH_REASON_REQUIRED_STATES : list SetupLifecycleState :=
  [WATCHLISTED; ACTIONABLE_A_GRADE; A_GRADE_WATCH].

Definition PLAN_LOCK_STATES : list SetupLifecycleState :=
  [WATCHLISTED; STALKING; CONFIRMED; ACTIONABLE_A_GRADE; A_GRADE_WATCH; EXECUTING; MANAGING].

Definition FRESHNESS_OWNER_HOLD_STATES : list SetupLifecycleState :=
  (PLAN_LOCK_STATES ++ [TRIGGERED])%list.

Definition INITIAL_PUBLIC_WATCHLIST_PENDING_GATES : list string :=
  ["below_min_rr"; "challenge_rr_below_3"; "clean_trigger_pending"; "confirmation_pending";
   "limit_zone_hold_pending"; "limit_zone_not_touched"; "entry_zone_not_touched";
   "entry_confirmation_missing"; "missing_confirmation"; "missing_confirmation_structure_shift";
   "pullback_confirmation_pending"; "rr_below_minimum"; "rr_too_low"; "waiting_for_confirmation"].

Definition ALLOWED_TRANSITIONS (s : SetupLifecycleState) : list SetupLifecycleState :=
  match s with
  | DISCOVERED => [WATCHLISTED; ACTIONABLE_A_GRADE; A_GRADE_WATCH; REJECTED]
  | REJECTED => [WATCHLISTED; ACTIONABLE_A_GRADE; A_GRADE_WATCH; ARCHIVED]
  | WATCHLISTED =>
      [STALKING; TRIGGERED; CONFIRMED; ACTIONABLE_A_GRADE; A_GRADE_WATCH; REJECTED; EXPIRED]
  | STALKING =>
      [TRIGGERED; CONFIRMED; WATCHLISTED; ACTIONABLE_A_GRADE; A_GRADE_WATCH; REJECTED; EXPIRED]
  | TRIGGERED => [CONFIRMED; ACTIONABLE_A_GRADE; A_GRADE_WATCH; STALKING; INVALIDATED; EXPIRED]
  | CONFIRMED => [ACTIONABLE_A_GRADE; A_GRADE_WATCH; EXECUTING; INVALIDATED; EXPIRED]
  | A_GRADE_WATCH => [ACTIONABLE_A_GRADE; TRIGGERED; CONFIRMED; INVALIDATED; EXPIRED; COOLDOWN]
  | ACTIONABLE_A_GRADE => [TRIGGERED; CONFIRMED; INVALIDATED; EXPIRED; COOLDOWN]
  | EXECUTING => [MANAGING; INVALIDATED; EXPIRED]
  | MANAGING => [TP_HIT; SL_HIT; BREAKEVEN; INVALIDATED; EXPIRED]
  | TP_HIT | SL_HIT | BREAKEVEN | INVALIDATED | EXPIRED => [COOLDOWN]
  | COOLDOWN => [ARCHIVED; WATCHLISTED]
  | ARCHIVED => [WATCHLISTED]
  | COOLED_DOWN | NO_LONGER_TRACKING | REMOVED | CANCELLED | CANCELED => []
  end.

Definition transition_allowed (from_state : option SetupLifecycleState) (to_state : SetupLifecycleState)
    : bool :=
  match from_state with
  | None => true
  | Some s => state_in to_state (ALLOWED_TRANSITIONS s)
  end.

(** ** Timestamps *)

(** [_parse_timestamp] *)
Definition sm_parse_timestamp (value : string) : option datetime :=
  if String.eqb value NA then None
  else option_map as_utc (fromisoformat (py_replace "Z" "+00:00" value)).

(** [_cooldown_until] *)
Definition cooldown_until (record : SetupLifecycleRecord) (to_state : SetupLifecycleState)
    (timestamp : string) : result (option string) :=
  if negb (state_eqb to_state COOLDOWN) then
    if state_eqb to_state ARCHIVED then Ok (r_cooldown_until record) else Ok None
  else
  match sm_parse_timestamp timestamp with
  | None => Ok (r_cooldown_until record)
  | Some parsed =>
      let! until := add_us parsed (DEFAULT_COOLDOWN_HOURS * 3600 * us_per_second)%Z in
      Ok (Some (isoformat (without_microsecond until)))
  end.

(** [_cooldown_expired] *)
Definition cooldown_expired (until : option string) (timestamp : string) : bool :=
  match until with
  | None => true
  | Some u =>
      match sm_parse_timestamp u, sm_parse_timestamp timestamp with
      | Some expiry, Some current => (instant expiry <=? instant current)%Z
      | _, _ => false
      end
  end.

(** ** Transitions *)

(** [_transition_failed_gate] *)
Definition transition_failed_gate (record : SetupLifecycleRecord) (to_state : SetupLifecycleState)
    (failed_gate : option string) : string :=
  if state_eqb to_state CONFIRMED
     && String.eqb (match failed_gate with None => NA | Some g => sm_text g end) NA
  then NA
  else text_or failed_gate (r_failed_gate record).

(** [_entry_touch_transition_requires_touch_reason] *)
Definition entry_touch_transition_requires_touch_reason (from_state to_state : SetupLifecycleState)
    (reason : SetupTransitionReason) : bool :=
  state_in from_state ENTRY_TOUCH_REASON_REQUIRED_STATES && state_eqb to_state TRIGGERED
  && negb (bool_decide (reason = ENTRY_ZONE_TOUCHED)).

(** [now or now_utc_iso()] *)
Definition timestamp_or (now : option string) (clock : string) : string :=
  match now with
  | Some n => if String.eqb n "" then clock else n
  | None => clock
  end.

Definition refused (record : SetupLifecycleRecord) (to_state : SetupLifecycleState) (notes : string)
    : SetupTransitionResult :=
  {| tr_lifecycle_id := r_lifecycle_id record; tr_symbol := r_symbol record;
     tr_from_state := Some (r_current_state record); tr_to_state := to_state;
     tr_reason := INVALID_TRANSITION; tr_transitioned := false; tr_allowed := false;
     tr_notes := notes; tr_event := None; tr_record := Some record |}.

Record transition_args := {
  ta_reason : SetupTransitionReason;
  ta_now : option string;
  ta_scan_run_id : option string;
  ta_readiness_score : option Z;
  ta_quality_score : option Z;
  ta_failed_gate : option string;
  ta_notes : string
}.

(** the [current_state == to_state] branch of [transition_record] *)
Definition same_state_result (record : SetupLifecycleRecord) (to_state : SetupLifecycleState)
    (a : transition_args) (timestamp event_failed_gate : string) : SetupTransitionResult :=
  let updated := record
    <| r_last_seen_at := timestamp |>
    <| r_readiness_score := bounded_score (ta_readiness_score a) (r_readiness_score record) |>
    <| r_quality_score := bounded_score (ta_quality_score a) (r_quality_score record) |>
    <| r_failed_gate := event_failed_gate |> in
  {| tr_lifecycle_id := r_lifecycle_id record; tr_symbol := r_symbol record;
     tr_from_state := Some (r_current_state record); tr_to_state := to_state;
     tr_reason := NO_CHANGE; tr_transitioned := false; tr_allowed := true;
     tr_notes := reason_value NO_CHANGE; tr_event := None; tr_record := Some updated |}.

(** the tail of [transition_record]: the event and the moved record *)
Definition moved_result (record : SetupLifecycleRecord) (to_state : SetupLifecycleState)
    (a : transition_args) (timestamp event_failed_gate : string) : result SetupTransitionResult :=
  let! event := validate_event
    {| ev_lifecycle_id := r_lifecycle_id record; ev_timestamp := timestamp;
       ev_symbol := r_symbol record; ev_from_state := Some (r_current_state record);
       ev_to_state := to_state; ev_reason := ta_reason a; ev_scan_run_id := ta_scan_run_id a;
       ev_readiness_score := bounded_score (ta_readiness_score a) (r_readiness_score record);
       ev_quality_score := bounded_score (ta_quality_score a) (r_quality_score record);
       ev_failed_gate := event_failed_gate; ev_notes := ta_notes a |} in
  let! cooldown := cooldown_until record to_state timestamp in
  let updated := record
    <| r_current_state := to_state |>
    <| r_previous_state := Some (r_current_state record) |>
    <| r_last_seen_at := timestamp |>
    <| r_last_transition_at := timestamp |>
    <| r_readiness_score := ev_readiness_score event |>
    <| r_quality_score := ev_quality_score event |>
    <| r_failed_gate := ev_failed_gate event |>
    <| r_cooldown_until := cooldown |>
    <| r_archived_at := if state_eqb to_state ARCHIVED then Some timestamp else r_archived_at record |> in
  Ok {| tr_lifecycle_id := r_lifecycle_id record; tr_symbol := r_symbol record;
        tr_from_state := Some (r_current_state record); tr_to_state := to_state;
        tr_reason := ta_reason a; tr_transitioned := true; tr_allowed := true;
        tr_notes := ta_notes a; tr_event := Some event; tr_record := Some updated |}.

Definition transition_record (clock : string) (record : SetupLifecycleRecord)
    (to_state : SetupLifecycleState) (a : transition_args) : result SetupTransitionResult :=
  let timestamp := timestamp_or (ta_now a) clock in
  let event_failed_gate := transition_failed_gate record to_state (ta_failed_gate a) in
  let current := r_current_state record in
  if state_eqb current to_state then
    Ok (same_state_result record to_state a timestamp event_failed_gate)
  else if negb (transition_allowed (Some current) to_state) then
    Ok (refused record to_state
          (state_value current +:+ " cannot move directly to " +:+ state_value to_state +:+ "."))
  else if entry_touch_transition_requires_touch_reason current to_state (ta_reason a) then
    Ok (refused record to_state
          (state_value current +:+ " can move directly to " +:+ state_value to_state
             +:+ " only after entry zone touch."))
  else moved_result record to_state a timestamp event_failed_gate.

(** [_with_economic_identities] *)
Definition with_economic_identities (res : SetupTransitionResult) (o : LifecycleObservation)
    (previous : option SetupLifecycleRecord) : result SetupTransitionResult :=
  match tr_record res with
  | None => Ok res
  | Some record =>
      let! updated := latch_economic_identities record (Some (o_instrument_venue o))
                        (state_in (r_current_state record) PLAN_LOCK_STATES) previous PyNone in
      Ok (res <| tr_record := Some updated |>)
  end.

(** ** The state an observation asks for *)

Definition observed_state (o : LifecycleObservation) : SetupLifecycleState :=
  if o_tp_hit o then TP_HIT
  else if o_sl_hit o then SL_HIT
  else if observation_has_essential_freshness_failure o then REJECTED
  else if o_invalidated o then INVALIDATED
  else if negb (is_na (o_active_invalidation_reason o)) then INVALIDATED
  else if o_expired o then EXPIRED
  else if confirmed_observation_ready o then CONFIRMED
  else if o_actionable_a_grade_candidate o then ACTIONABLE_A_GRADE
  else if o_a_grade_watch_candidate o then A_GRADE_WATCH
  else if o_sweep_detected o && o_structure_shift_detected o then TRIGGERED
  else if o_sweep_detected o then STALKING
  else if is_watch_ready o then WATCHLISTED
  else if negb (is_na (o_failed_gate o)) then REJECTED
  else DISCOVERED.

(** [_target_requires_confirmation] *)
Definition target_requires_confirmation (s : SetupLifecycleState) : bool :=
  state_in s CONFIRMATION_GATED_STATES.

(** [_pre_confirmation_state] *)
Definition pre_confirmation_state (o : LifecycleObservation) : SetupLifecycleState :=
  if o_sweep_detected o && o_structure_shift_detected o then TRIGGERED
  else if o_sweep_detected o then STALKING
  else if is_watch_ready o then WATCHLISTED
  else DISCOVERED.

(** [_confirmation_gated_target] *)
Definition confirmation_gated_target (record : SetupLifecycleRecord) (o : LifecycleObservation)
    (target : SetupLifecycleState) : SetupLifecycleState :=
  if negb (target_requires_confirmation target) then target
  else if (r_required_confirmation_cycles record <=? r_confirmation_count record)%Z
          && confirmed_observation_ready o
  then target
  else pre_confirmation_state o.

(** [_active_setup_invalidated] *)
Definition active_setup_invalidated (current target : SetupLifecycleState) : bool :=
  state_in current [CONFIRMED; ACTIONABLE_A_GRADE; A_GRADE_WATCH; EXECUTING]
  && state_eqb target REJECTED.

Definition watch_or_valid (target : SetupLifecycleState) : bool :=
  state_in target WATCH_PRIORITY_STATES || state_in target VALID_STATES.

(** the branch [current == CONFIRMED] of [next_state_for_observation] *)
Definition next_from_confirmed (o : LifecycleObservation) (target : SetupLifecycleState)
    : SetupLifecycleState :=
  if o_invalidated o || active_setup_invalidated CONFIRMED target
     || confirmed_observation_invalidates_active_signal o then INVALIDATED
  else if o_expired o then EXPIRED
  else if o_actionable_a_grade_candidate o && negb (o_entry_filled o) then
    if confirmed_observation_ready o then CONFIRMED else ACTIONABLE_A_GRADE
  else if o_a_grade_watch_candidate o && negb (o_entry_filled o) then
    if confirmed_observation_ready o then CONFIRMED else A_GRADE_WATCH
  else if o_entry_filled o then EXECUTING
  else if o_valid_trade_idea o then
    if o_limit_fill_required o then CONFIRMED else EXECUTING
  else CONFIRMED.

(** the branches [current == WATCHLISTED] and [current == STALKING] *)
Definition zone_entered (o : LifecycleObservation) (target : SetupLifecycleState) : bool :=
  o_entry_filled o && negb (o_invalidated o) && negb (o_expired o) && negb (state_eqb target REJECTED).

Definition next_from_watchlisted (o : LifecycleObservation) (target : SetupLifecycleState)
    : SetupLifecycleState :=
  if zone_entered o target then TRIGGERED
  else if state_eqb target REJECTED then REJECTED
  else if state_eqb target ACTIONABLE_A_GRADE then ACTIONABLE_A_GRADE
  else if state_eqb target A_GRADE_WATCH then A_GRADE_WATCH
  else if o_sweep_detected o then STALKING
  else WATCHLISTED.

Definition next_from_stalking (o : LifecycleObservation) (target : SetupLifecycleState)
    : SetupLifecycleState :=
  if zone_entered o target then TRIGGERED
  else if state_eqb target REJECTED then REJECTED
  else if state_eqb target ACTIONABLE_A_GRADE then ACTIONABLE_A_GRADE
  else if state_eqb target A_GRADE_WATCH then A_GRADE_WATCH
  else if o_sweep_detected o && o_structure_shift_detected o then TRIGGERED
  else if negb (o_sweep_detected o) && state_eqb target WATCHLISTED then WATCHLISTED
  else STALKING.

(** the branch [current == TRIGGERED] *)
Definition next_from_triggered (o : LifecycleObservation) (target : SetupLifecycleState)
    : SetupLifecycleState :=
  if o_invalidated o || state_eqb target REJECTED then INVALIDATED
  else if state_eqb target ACTIONABLE_A_GRADE then ACTIONABLE_A_GRADE
  else if state_eqb target A_GRADE_WATCH then A_GRADE_WATCH
  else if pullback_and_rr_valid o || o_valid_trade_idea o then
    if state_eqb target CONFIRMED then CONFIRMED else target
  else if o_sweep_detected o && negb (o_structure_shift_detected o) then STALKING
  else TRIGGERED.

Definition next_state_for_observation (record : SetupLifecycleRecord) (o : LifecycleObservation)
    (timestamp : string) : SetupLifecycleState :=
  let current := r_current_state record in
  let target := confirmation_gated_target record o (observed_state o) in
  match current with
  | COOLDOWN =>
      if cooldown_expired (r_cooldown_until record) timestamp then
        if watch_or_valid target then WATCHLISTED else ARCHIVED
      else current
  | ARCHIVED => if watch_or_valid target then WATCHLISTED else current
  | TP_HIT | SL_HIT | BREAKEVEN | INVALIDATED | EXPIRED => COOLDOWN
  | MANAGING =>
      if o_tp_hit o then TP_HIT else if o_sl_hit o then SL_HIT
      else if o_invalidated o then INVALIDATED else if o_expired o then EXPIRED else current
  | EXECUTING =>
      if o_invalidated o then INVALIDATED else if o_expired o then EXPIRED
      else if o_entry_filled o then MANAGING else current
  | CONFIRMED => next_from_confirmed o target
  | A_GRADE_WATCH =>
      if o_invalidated o || state_eqb target REJECTED then INVALIDATED
      else if o_expired o then EXPIRED
      else if state_eqb target ACTIONABLE_A_GRADE then ACTIONABLE_A_GRADE
      else if o_entry_filled o then TRIGGERED
      else if state_eqb target CONFIRMED then CONFIRMED else current
  | ACTIONABLE_A_GRADE =>
      if o_invalidated o || state_eqb target REJECTED then INVALIDATED
      else if o_expired o then EXPIRED
      else if o_entry_filled o then TRIGGERED
      else if state_eqb target CONFIRMED then CONFIRMED else current
  | REJECTED =>
      if state_eqb target ACTIONABLE_A_GRADE then ACTIONABLE_A_GRADE
      else if state_eqb target A_GRADE_WATCH then A_GRADE_WATCH
      else if watch_or_valid target then
        if (r_readiness_score record <? o_readiness_score o)%Z then WATCHLISTED else current
      else current
  | DISCOVERED =>
      if state_eqb target REJECTED then REJECTED
      else if state_eqb target ACTIONABLE_A_GRADE then ACTIONABLE_A_GRADE
      else if state_eqb target A_GRADE_WATCH then A_GRADE_WATCH
      else if watch_or_valid target then WATCHLISTED
      else current
  | WATCHLISTED => next_from_watchlisted o target
  | STALKING => next_from_stalking o target
  | TRIGGERED => next_from_triggered o target
  | COOLED_DOWN | NO_LONGER_TRACKING | REMOVED | CANCELLED | CANCELED => current
  end.

(** ** First observation of a setup *)

(** [_initial_reject_quality] *)
Definition initial_reject_quality (o : LifecycleObservation) : bool :=
  negb (quality_at_least_b_plus (o_quality_grade o) (o_quality_score o)).

(** [_initial_complete_trade_map] *)
Definition initial_complete_trade_map (o : LifecycleObservation) : bool :=
  forallb (fun value => negb (no_number (decimal_or_none value)))
    [o_entry_low o; o_entry_high o; o_stop_loss o; o_tp1 o].

(** [_initial_incomplete_or_rejected_plan] *)
Definition initial_incomplete_or_rejected_plan (o : LifecycleObservation) : bool :=
  no_number (decimal_or_none (o_rr o)) || initial_reject_quality o
  || negb (initial_complete_trade_map o).

(** [_initial_public_watchlist_candidate] *)
Definition initial_public_watchlist_candidate (o : LifecycleObservation) : bool :=
  let failed_gate := status_key (o_failed_gate o) in
  if negb (String.eqb failed_gate "")
     && negb (str_in failed_gate INITIAL_PUBLIC_WATCHLIST_PENDING_GATES) then false
  else if negb (str_in (status_key (o_direction o)) ["long"; "short"]) then false
  else if negb (initial_complete_trade_map o) then false
  else match decimal_or_none (o_rr o) with
       | None => false
       | Some rr =>
           if dltb rr PUBLIC_WATCHLIST_MIN_RR then false
           else if negb (quality_at_least_b_plus (o_quality_grade o) (o_quality_score o)) then false
           else negb (is_na (o_invalidation_reason o))
       end.

(** [_initial_trigger_blocked] *)
Definition initial_trigger_blocked (o : LifecycleObservation) : bool :=
  if o_entry_filled o then false
  else if is_na (o_failed_gate o) && confirmation_countable o then false
  else if negb (is_na (o_failed_gate o)) then true
  else if no_number (decimal_or_none (o_rr o)) then true
  else if initial_reject_quality o then true
  else if negb (initial_complete_trade_map o) then true
  else if negb (o_rr_valid o || o_valid_trade_idea o || pullback_and_rr_valid o) then true
  else false.

(** [_initial_non_trigger_state] *)
Definition initial_non_trigger_state (o : LifecycleObservation) : SetupLifecycleState :=
  if o_invalidated o then INVALIDATED
  else if o_expired o then EXPIRED
  else if initial_public_watchlist_candidate o then
    if o_sweep_detected o then STALKING else WATCHLISTED
  else if negb (is_na (o_failed_gate o)) || initial_incomplete_or_rejected_plan o then REJECTED
  else if o_sweep_detected o then STALKING
  else if is_watch_ready o then WATCHLISTED
  else DISCOVERED.

Definition initial_state_for_observation (o : LifecycleObservation) : SetupLifecycleState :=
  if observation_has_essential_freshness_failure o then REJECTED else
  let target := observed_state o in
  if state_eqb target ACTIONABLE_A_GRADE then ACTIONABLE_A_GRADE
  else if state_eqb target A_GRADE_WATCH then A_GRADE_WATCH
  else if state_in target [EXECUTING; MANAGING] then CONFIRMED
  else if state_eqb target TRIGGERED && initial_trigger_blocked o then initial_non_trigger_state o
  else target.

(** [_initial_pre_confirmation_state] *)
Definition initial_pre_confirmation_state (o : LifecycleObservation) : SetupLifecycleState :=
  let state := pre_confirmation_state o in
  if state_eqb state TRIGGERED && initial_trigger_blocked o then initial_non_trigger_state o
  else state.

(** ** Entry-zone touch *)

Definition entry_zone_touched (latest_high latest_low entry_low entry_high : string) : bool :=
  match decimal_or_none latest_high, decimal_or_none latest_low,
        decimal_or_none entry_low, decimal_or_none entry_high with
  | Some candle_high, Some candle_low, Some zone_low, Some zone_high =>
      dleb (dmin zone_low zone_high) (dmax candle_high candle_low)
      && dleb (dmin candle_high candle_low) (dmax zone_low zone_high)
  | _, _, _, _ => false
  end.

(** [_price_in_zone] *)
Definition price_in_zone (price entry_low entry_high : string) : bool :=
  match decimal_or_none price, decimal_or_none entry_low, decimal_or_none entry_high with
  | Some current, Some zone_low, Some zone_high =>
      dleb (dmin zone_low zone_high) current && dleb current (dmax zone_low zone_high)
  | _, _, _ => false
  end.

(** [_stored_monitoring_entry_zone_touched] *)
Definition stored_monitoring_entry_zone_touched (record : SetupLifecycleRecord)
    (o : LifecycleObservation) : bool :=
  if negb (state_in (r_current_state record) ENTRY_TOUCH_MONITOR_STATES) then false
  else if terminal_observation o then false
  else
  let observed_side := status_key (o_direction o) in
  let side := if str_in observed_side ["long"; "short"] then observed_side
              else status_key (r_direction record) in
  if negb (str_in side ["long"; "short"]) then false
  else if negb (no_number (decimal_or_none (o_current_price o))) then
    price_in_zone (o_current_price o) (r_entry_low record) (r_entry_high record)
  else entry_zone_touched (o_latest_high o) (o_latest_low o) (r_entry_low record) (r_entry_high record).

(** [_observation_with_stored_plan] *)
Definition observation_with_stored_plan (o : LifecycleObservation) (record : SetupLifecycleRecord)
    (entry_filled : bool) : LifecycleObservation :=
  o <| o_entry_low := r_entry_low record |>
    <| o_entry_high := r_entry_high record |>
    <| o_stop_loss := r_stop_loss record |>
    <| o_tp1 := r_tp1 record |>
    <| o_tp2 := r_tp2 record |>
    <| o_tp3 := r_tp3 record |>
    <| o_rr := r_rr record |>
    <| o_invalidation_reason := r_invalidation_reason record |>
    <| o_entry_filled := entry_filled |>
    <| o_limit_fill_required := true |>.

(** the observation a scan works on: the stored plan replaces the observed one
    when the price touched the stored zone *)
Definition effective_observation (record : SetupLifecycleRecord) (o : LifecycleObservation)
    : LifecycleObservation :=
  if negb (o_closed_candle_outcomes_managed o) && stored_monitoring_entry_zone_touched record o
  then observation_with_stored_plan o record true else o.

Definition is_watchable_lifecycle_state (record : SetupLifecycleRecord) : bool :=
  if state_eqb (r_current_state record) ARCHIVED then false
  else if state_eqb (r_current_state record) COOLDOWN then false
  else state_in (r_current_state record) WATCH_PRIORITY_STATES.

(** ** Consistency of consecutive observations *)

(** [_identity_text] of the state machine *)
Definition sm_identity_text (value : string) : string :=
  let text := py_lower (sm_text value) in
  if negb (String.eqb text (py_lower NA)) then text else NA.

(** [_price_similar] *)
Definition price_similar (left right : string) (tolerance_pct : dec) : result bool :=
  match decimal_or_none left, decimal_or_none right with
  | Some l, Some r =>
      let reference := dmax (dmax (dabs l) (dabs r)) (dec_of_Z 1) in
      let! tolerance := ddiv (dmul reference (dmax tolerance_pct dzero)) (dec_of_Z 100) in
      Ok (dleb (dabs (dsub l r)) tolerance)
  | _, _ => Ok true
  end.

(** [re.sub(r"\d+(?:\.\d+)?", "#", value)]: where the scan stands *)
Inductive number_scan : Type := OutsideNumber | InInteger | InFraction.

Definition digit_follows (s : string) : bool :=
  match s with String c _ => is_digit c | EmptyString => false end.

Fixpoint hash_numbers (mode : number_scan) (s : string) : string :=
  match s with
  | EmptyString => EmptyString
  | String c rest =>
      if is_digit c then
        match mode with
        | OutsideNumber => String "#" (hash_numbers InInteger rest)
        | InInteger => hash_numbers InInteger rest
        | InFraction => hash_numbers InFraction rest
        end
      else
        match mode with
        | InInteger =>
            if Ascii.eqb c "." && digit_follows rest then hash_numbers InFraction rest
            else String c (hash_numbers OutsideNumber rest)
        | _ => String c (hash_numbers OutsideNumber rest)
        end
  end.

(** [_numeric_normalized_logic] *)
Definition numeric_normalized_logic (value : string) : string := hash_numbers OutsideNumber value.

(** [_logic_similar] *)
Definition logic_similar (left right : string) : bool :=
  let left_key := status_key left in
  let right_key := status_key right in
  if String.eqb left_key "" || String.eqb right_key "" then true
  else if String.eqb left_key right_key then true
  else String.eqb (numeric_normalized_logic left_key) (numeric_normalized_logic right_key).

(** [_setup_consistent] *)
Definition setup_consistent (record : SetupLifecycleRecord) (o : LifecycleObservation)
    (tolerance_pct : dec) : result bool :=
  if negb (String.eqb (r_symbol record) (py_upper (o_symbol o))) then Ok false
  else if negb (String.eqb (sm_identity_text (r_mode record)) (sm_identity_text (o_mode o))) then Ok false
  else if negb (String.eqb (sm_identity_text (r_direction record)) (sm_identity_text (o_direction o)))
  then Ok false
  else
  let! low := price_similar (r_entry_low record) (o_entry_low o) tolerance_pct in
  if negb low then Ok false else
  let! high := price_similar (r_entry_high record) (o_entry_high o) tolerance_pct in
  if negb high then Ok false else
  let! stop := price_similar (r_stop_loss record) (o_stop_loss o) tolerance_pct in
  if negb stop then Ok false else
  Ok (logic_similar
        (if String.eqb (r_invalidation_logic record) "" then r_invalidation_reason record
         else r_invalidation_logic record)
        (o_invalidation_reason o)).

(** ** Folding an observation into the record *)

(** [_required_confirmation_cycles] *)
Definition required_confirmation_cycles (base_cycles penalty_cycles : Z) : Z :=
  (Z.max 1 base_cycles + Z.max 0 penalty_cycles)%Z.

(** [_next_confirmation_count] *)
Definition next_confirmation_count (record : SetupLifecycleRecord) (o : LifecycleObservation)
    (consistent : bool) (required_cycles : Z) : Z :=
  if terminal_observation o then 0
  else if observation_has_essential_freshness_failure o then
    if state_in (r_current_state record) FRESHNESS_OWNER_HOLD_STATES then r_confirmation_count record
    else 0
  else if negb (confirmation_countable o) then
    if setup_observable o && consistent then r_confirmation_count record else 0
  else if consistent then Z.min (r_confirmation_count record + 1) (Z.max 1 required_cycles)
  else 1.

(** [_current_quality_grade] *)
Definition current_quality_grade (record : SetupLifecycleRecord) (observed_grade : string) : string :=
  if (0 <? r_decay_count record)%Z && negb (is_na (r_quality_grade_current record))
  then r_quality_grade_current record else observed_grade.

(** [_plan_or_observed_value] *)
Definition plan_or_observed_value (record : SetupLifecycleRecord) (stored observed : string) : string :=
  if state_in (r_current_state record) PLAN_LOCK_STATES && negb (is_na stored)
  then sm_text stored else sm_text observed.

Definition stale_fragments : list string :=
  ["technical score"; "opportunity score"; "scanner minimum"; "below scanner"; "below minimum";
   "rr below"; "risk/reward below"; "missing required"; "missing field"; "no valid setup";
   "no setup"; "near miss"; "rejected setup"; "setup rejected"; "failed gate"; "gate failed";
   "hard rejection"].

(** [_stale_rejection_text] *)
Definition stale_rejection_text (value failed_gate : string) : bool :=
  let text := sm_text value in
  if String.eqb text NA then false
  else if negb (is_na failed_gate) && String.eqb (status_key text) (status_key (sm_text failed_gate))
  then true
  else existsb (fun fragment => py_contains fragment (py_lower text)) stale_fragments.

(** [_confirmed_invalidation_value] *)
Definition confirmed_invalidation_value (record : SetupLifecycleRecord) (o : LifecycleObservation)
    (confirmed_snapshot_valid : bool) : string :=
  if confirmed_snapshot_valid
     && stale_rejection_text (r_invalidation_reason record) (r_failed_gate record)
  then sm_text (o_invalidation_reason o)
  else plan_or_observed_value record (r_invalidation_reason record) (invalidation_reason_of o).

(** [_confirmed_invalidation_logic] *)
Definition confirmed_invalidation_logic (record : SetupLifecycleRecord) (o : LifecycleObservation)
    (confirmed_snapshot_valid : bool) : string :=
  if confirmed_snapshot_valid
     && stale_rejection_text (r_invalidation_logic record) (r_failed_gate record)
  then sm_text (o_invalidation_reason o)
  else plan_or_observed_value record (r_invalidation_logic record) (o_invalidation_reason o).

(** [_setup_identity] *)
Definition setup_identity_of (o : LifecycleObservation) : string :=
  setup_geometry_identity (o_symbol o) (o_mode o) (o_direction o) (o_entry_low o) (o_entry_high o)
    (o_stop_loss o) (o_invalidation_reason o).

(** the scan fields [_record_with_observation] copies from the observation *)
Definition record_scan_fields (record : SetupLifecycleRecord) (o : LifecycleObservation)
    (timestamp : string) : SetupLifecycleRecord :=
  record
    <| r_last_seen_at := timestamp |>
    <| r_failed_gate := sm_text (o_failed_gate o) |>
    <| r_candidate_quality_grade := sm_text (o_candidate_quality_grade o) |>
    <| r_final_quality_grade := sm_text (o_final_quality_grade o) |>
    <| r_technical_score := sm_text (o_technical_score o) |>
    <| r_opportunity_score := sm_text (o_opportunity_score o) |>
    <| r_final_failed_gate := sm_text (o_final_failed_gate o) |>
    <| r_final_block_reason := sm_text (o_final_block_reason o) |>
    <| r_target_integrity_status := sm_text (o_target_integrity_status o) |>
    <| r_target_failure := sm_text (o_target_failure o) |>
    <| r_target_failure_severity := sm_text (o_target_failure_severity o) |>
    <| r_target_warning_reason := sm_text (o_target_warning_reason o) |>
    <| r_actionability_state := sm_text (o_actionability_state o) |>
    <| r_readiness_score := bounded_score (Some (o_readiness_score o)) (r_readiness_score record) |>
    <| r_quality_score := bounded_score (Some (o_quality_score o)) (r_quality_score record) |>
    <| r_edge_score := sm_text (o_edge_score o) |>
    <| r_regime_state := sm_text (o_regime_state o) |>
    <| r_action_label := sm_text (o_action_label o) |>.

(** the plan levels, kept while the plan is locked *)
Definition record_plan_fields (record : SetupLifecycleRecord) (o : LifecycleObservation)
    (confirmed_snapshot_valid : bool) (base : SetupLifecycleRecord) : SetupLifecycleRecord :=
  base
    <| r_invalidation_reason := confirmed_invalidation_value record o confirmed_snapshot_valid |>
    <| r_entry_low := plan_or_observed_value record (r_entry_low record) (o_entry_low o) |>
    <| r_entry_high := plan_or_observed_value record (r_entry_high record) (o_entry_high o) |>
    <| r_stop_loss := plan_or_observed_value record (r_stop_loss record) (o_stop_loss o) |>
    <| r_tp1 := plan_or_observed_value record (r_tp1 record) (o_tp1 o) |>
    <| r_tp2 := plan_or_observed_value record (r_tp2 record) (o_tp2 o) |>
    <| r_tp3 := plan_or_observed_value record (r_tp3 record) (o_tp3 o) |>
    <| r_rr := plan_or_observed_value record (r_rr record) (o_rr o) |>
    <| r_invalidation_logic := confirmed_invalidation_logic record o confirmed_snapshot_valid |>.

(** the [model_copy] of [_record_with_observation] *)
Definition folded_record (record : SetupLifecycleRecord) (o : LifecycleObservation)
    (timestamp : string) (consistent : bool) (required_cycles penalty_cycles : Z)
    : SetupLifecycleRecord :=
  let count := next_confirmation_count record o consistent required_cycles in
  let current_grade := current_quality_grade record (quality_grade_or_score o) in
  let confirmed_snapshot_valid := valid_confirmed_observation o in
  let newly_confirmed := (required_cycles <=? count)%Z
                         && (r_confirmation_count record <? required_cycles)%Z
                         && confirmed_snapshot_valid in
  let locked := state_in (r_current_state record) PLAN_LOCK_STATES in
  (record_plan_fields record o confirmed_snapshot_valid (record_scan_fields record o timestamp))
    <| r_confirmation_count := count |>
    <| r_required_confirmation_cycles := required_cycles |>
    <| r_quality_grade_current := current_grade |>
    <| r_quality_grade_confirmed := if newly_confirmed then current_grade
                                    else r_quality_grade_confirmed record |>
    <| r_confirmed_at := if newly_confirmed then Some timestamp else r_confirmed_at record |>
    <| r_symbol_health_penalty_cycles := Z.max (r_symbol_health_penalty_cycles record)
                                               (Z.max 0 penalty_cycles) |>
    <| r_setup_identity := if locked then r_setup_identity record else setup_identity_of o |>
    <| r_structural_anchor := if negb (is_na (r_structural_anchor record)) then r_structural_anchor record
                              else sm_text (o_structural_anchor o) |>.

(** [_record_with_observation] *)
Definition record_with_observation (record : SetupLifecycleRecord) (o : LifecycleObservation)
    (timestamp : string) (setup_tolerance_pct : dec) (required_cycles penalty_cycles : Z)
    : result SetupLifecycleRecord :=
  let! consistent := setup_consistent record o setup_tolerance_pct in
  Ok (folded_record record o timestamp consistent required_cycles penalty_cycles).

(** ** Confidence decay *)

(** [_grade_label] *)
Definition grade_label (key : string) : string :=
  if String.eqb key "a+" then "A+" else if String.eqb key "a" then "A"
  else if String.eqb key "a-" then "A-" else if String.eqb key "b+" then "B+" else NA.

Fixpoint successor_in (key : string) (path : list string) : option (option string) :=
  match path with
  | [] => None
  | x :: rest => if String.eqb key x then Some (hd_error rest) else successor_in key rest
  end.

(** [_decayed_grade] *)
Definition decayed_grade (value : string) : string :=
  match successor_in (grade_key value) DECAY_GRADE_PATH with
  | None => NA
  | Some None => "EXPIRED"
  | Some (Some next) => grade_label next
  end.

Definition decay_reason_text : string := "no price reaction or lifecycle progress".

(** [_apply_decay_if_needed] *)
Definition apply_decay_if_needed (previous updated : SetupLifecycleRecord) (o : LifecycleObservation)
    (next_state : SetupLifecycleState) : SetupLifecycleState * SetupLifecycleRecord * string :=
  if negb (state_eqb next_state (r_current_state previous))
     || negb (state_in next_state DECAYABLE_STATES) then (next_state, updated, NA)
  else if (r_confirmation_count previous <? r_confirmation_count updated)%Z then (next_state, updated, NA)
  else if negb (String.eqb (r_setup_identity updated) (r_setup_identity previous))
  then (next_state, updated, NA)
  else if o_entry_filled o || terminal_observation o then (next_state, updated, NA)
  else
  let next_grade := decayed_grade (r_quality_grade_current updated) in
  if String.eqb next_grade NA then (next_state, updated, NA) else
  let decayed := updated
    <| r_decay_count := (r_decay_count updated + 1)%Z |>
    <| r_decay_reason := decay_reason_text |> in
  if String.eqb next_grade "EXPIRED" then
    if state_in next_state CONFIDENCE_DECAY_TERMINAL_EXEMPT_STATES
    then (next_state, decayed, decay_reason_text)
    else (EXPIRED, decayed <| r_quality_grade_current := "Expired" |>
                           <| r_failed_gate := "confidence_decay" |>
                           <| r_invalidation_reason := decay_reason_text |>, decay_reason_text)
  else (next_state, decayed <| r_quality_grade_current := next_grade |>, decay_reason_text).

(** ** Reasons and notes *)

(** [_reason_for_state] *)
Definition reason_for_state (s : SetupLifecycleState) (o : LifecycleObservation) (initialized : bool)
    : SetupTransitionReason :=
  if initialized then INITIALIZED else
  match s with
  | DISCOVERED => REASON_DISCOVERED
  | REJECTED => REASON_REJECTED
  | WATCHLISTED => READINESS_IMPROVED
  | STALKING => SWEEP_APPEARED
  | TRIGGERED => if o_entry_filled o then ENTRY_ZONE_TOUCHED else STRUCTURE_SHIFT_CONFIRMED
  | CONFIRMED => PULLBACK_RR_VALID
  | ACTIONABLE_A_GRADE => REASON_ACTIONABLE_A_GRADE
  | A_GRADE_WATCH => REASON_A_GRADE_WATCH
  | EXECUTING => if o_entry_filled o then ENTRY_ZONE_TOUCHED else VALID_TRADE_IDEA
  | MANAGING => ENTRY_FILL_SIMULATED
  | TP_HIT => TAKE_PROFIT_HIT
  | BREAKEVEN => BREAKEVEN_STOP_HIT
  | SL_HIT => STOP_LOSS_HIT
  | INVALIDATED => SETUP_INVALIDATED
  | EXPIRED => SETUP_EXPIRED
  | COOLDOWN => COOLDOWN_STARTED
  | ARCHIVED => COOLDOWN_EXPIRED
  | COOLED_DOWN | NO_LONGER_TRACKING | REMOVED | CANCELLED | CANCELED => NO_CHANGE
  end.

(** [_transition_notes] *)
Definition transition_notes (reason : SetupTransitionReason) (o : LifecycleObservation) : string :=
  let timeframe := sm_text (o_confirmation_timeframe o) in
  if bool_decide (reason = STRUCTURE_SHIFT_CONFIRMED) && negb (String.eqb timeframe NA)
  then timeframe +:+ " BOS/CHoCH confirmed after sweep."
  else reason_value reason.

(** ** One scan *)

Record evaluate_args := {
  ea_lifecycle_id : string;
  ea_now : option string;
  ea_scan_run_id : option string;
  ea_required_confirmation_cycles : Z;
  ea_setup_tolerance_pct : dec;
  ea_symbol_health_score : string;
  ea_symbol_health_penalty_cycles : Z
}.

(** initial state and confirmation count of a first observation *)
Definition first_confirmation_count (o : LifecycleObservation) : Z :=
  if observation_has_essential_freshness_failure o then 0
  else if confirmation_countable o then 1 else 0.

Definition first_state (o : LifecycleObservation) (required_cycles : Z) : SetupLifecycleState :=
  let initial_state := if observation_has_essential_freshness_failure o then REJECTED
                       else initial_state_for_observation o in
  if target_requires_confirmation initial_state && (first_confirmation_count o <? required_cycles)%Z
  then initial_pre_confirmation_state o else initial_state.

(** [_text(v).lower() if _text(v) != NA else NA] *)
Definition lower_or_na (value : string) : string :=
  if is_na value then NA else py_lower (sm_text value).

(** the [SetupLifecycleRecord(...)] call of [evaluate_lifecycle_transition] *)
Definition first_record (a : evaluate_args) (o : LifecycleObservation) (timestamp : string)
    (required_cycles : Z) (initial_state : SetupLifecycleState) : result SetupLifecycleRecord :=
  let count := first_confirmation_count o in
  let quality_grade := quality_grade_or_score o in
  let confirmed_at := if state_in initial_state CONFIRMATION_GATED_STATES && (required_cycles <=? count)%Z
                      then Some timestamp else None in
  let confirmed_snapshot_valid :=
    match confirmed_at with Some _ => valid_confirmed_observation o | None => false end in
  validate_record
    {| r_lifecycle_id := ea_lifecycle_id a;
       r_symbol := o_symbol o;
       r_mode := lower_or_na (o_mode o);
       r_direction := lower_or_na (o_direction o);
       r_current_state := initial_state;
       r_previous_state := None;
       r_first_seen_at := timestamp;
       r_last_seen_at := timestamp;
       r_last_transition_at := timestamp;
       r_failed_gate := if confirmed_snapshot_valid then NA else sm_text (o_failed_gate o);
       r_candidate_quality_grade := sm_text (o_candidate_quality_grade o);
       r_final_quality_grade := sm_text (o_final_quality_grade o);
       r_technical_score := sm_text (o_technical_score o);
       r_opportunity_score := sm_text (o_opportunity_score o);
       r_final_failed_gate := sm_text (o_final_failed_gate o);
       r_final_block_reason := sm_text (o_final_block_reason o);
       r_target_integrity_status := sm_text (o_target_integrity_status o);
       r_target_failure := sm_text (o_target_failure o);
       r_target_failure_severity := sm_text (o_target_failure_severity o);
       r_target_warning_reason := sm_text (o_target_warning_reason o);
       r_actionability_state := sm_text (o_actionability_state o);
       r_readiness_score := bounded_score (Some (o_readiness_score o)) 0;
       r_quality_score := bounded_score (Some (o_quality_score o)) 0;
       r_edge_score := sm_text (o_edge_score o);
       r_regime_state := sm_text (o_regime_state o);
       r_action_label := sm_text (o_action_label o);
       r_invalidation_reason := if confirmed_snapshot_valid then sm_text (o_invalidation_reason o)
                                else invalidation_reason_of o;
       r_cooldown_until := None;
       r_archived_at := if state_eqb initial_state ARCHIVED then Some timestamp else None;
       r_entry_low := sm_text (o_entry_low o);
       r_entry_high := sm_text (o_entry_high o);
       r_stop_loss := sm_text (o_stop_loss o);
       r_tp1 := sm_text (o_tp1 o);
       r_tp2 := sm_text (o_tp2 o);
       r_tp3 := sm_text (o_tp3 o);
       r_rr := sm_text (o_rr o);
       r_invalidation_logic := sm_text (o_invalidation_reason o);
       r_confirmation_count := count;
       r_required_confirmation_cycles := required_cycles;
       r_quality_grade_first_seen := quality_grade;
       r_quality_grade_current := quality_grade;
       r_quality_grade_confirmed := if confirmed_snapshot_valid then quality_grade else NA;
       r_confirmed_at := confirmed_at;
       r_decay_count := 0;
       r_decay_reason := NA;
       r_symbol_health_score_at_detection := sm_text (ea_symbol_health_score a);
       r_symbol_health_penalty_cycles := Z.max 0 (ea_symbol_health_penalty_cycles a);
       r_setup_identity := setup_identity_of o;
       r_structural_anchor := sm_text (o_structural_anchor o);
       r_is_current := true;
       r_setup_id := None; r_plan_version_id := None; r_economic_identity_reason := None;
       r_runtime_epoch_id := None; r_creation_origin_id := None |}.

(** [f"{INVALID_STORED_PLAN_GEOMETRY}:{failure}"] *)
Definition geometry_diagnostic (failure : string) : string :=
  INVALID_STORED_PLAN_GEOMETRY +:+ ":" +:+ failure.

(** the [record is None] branch of [evaluate_lifecycle_transition] *)
Definition evaluate_new (clock : string) (a : evaluate_args) (o : LifecycleObservation)
    : result SetupTransitionResult :=
  let timestamp := timestamp_or (ea_now a) clock in
  let required_cycles := required_confirmation_cycles (ea_required_confirmation_cycles a)
                           (ea_symbol_health_penalty_cycles a) in
  let initial := first_state o required_cycles in
  let! new_record := first_record a o timestamp required_cycles initial in
  let! failure := stored_plan_geometry_failure new_record in
  let '(initial, new_record) :=
    match failure with
    | Some f =>
        if state_in initial ACTIVE_LIFECYCLE_MONITORING_STATES then
          (REJECTED, new_record <| r_current_state := REJECTED |>
                                <| r_failed_gate := geometry_diagnostic f |>
                                <| r_confirmed_at := None |>
                                <| r_quality_grade_confirmed := NA |>)
        else (initial, new_record)
    | None => (initial, new_record)
    end in
  let reason := reason_for_state initial o true in
  let! event := validate_event
    {| ev_lifecycle_id := ea_lifecycle_id a; ev_timestamp := timestamp; ev_symbol := o_symbol o;
       ev_from_state := None; ev_to_state := initial; ev_reason := reason;
       ev_scan_run_id := ea_scan_run_id a; ev_readiness_score := r_readiness_score new_record;
       ev_quality_score := r_quality_score new_record; ev_failed_gate := r_failed_gate new_record;
       ev_notes := transition_notes reason o |} in
  with_economic_identities
    {| tr_lifecycle_id := ea_lifecycle_id a; tr_symbol := o_symbol o; tr_from_state := None;
       tr_to_state := initial; tr_reason := ev_reason event; tr_transitioned := true;
       tr_allowed := true; tr_notes := ev_notes event; tr_event := Some event;
       tr_record := Some new_record |} o None.

(** the freshness hold of an owned plan *)
Definition freshness_hold (record : SetupLifecycleRecord) (timestamp : string) : SetupTransitionResult :=
  {| tr_lifecycle_id := r_lifecycle_id record; tr_symbol := r_symbol record;
     tr_from_state := Some (r_current_state record); tr_to_state := r_current_state record;
     tr_reason := NO_CHANGE; tr_transitioned := false; tr_allowed := true;
     tr_notes := "essential_candle_freshness_discovery_hold"; tr_event := None;
     tr_record := Some (record <| r_last_seen_at := timestamp |>) |}.

(** the state, record, decay reason and geometry diagnostic of a scan that is
    not held: fold the observation in, choose the next state, check the stored
    geometry, apply decay *)
Definition scan_target (record : SetupLifecycleRecord) (o : LifecycleObservation) (timestamp : string)
    (a : evaluate_args) (required_cycles : Z)
    : result (SetupLifecycleState * SetupLifecycleRecord * string * string) :=
  let! updated := record_with_observation record o timestamp (ea_setup_tolerance_pct a)
                    required_cycles (ea_symbol_health_penalty_cycles a) in
  let next_state := next_state_for_observation updated o timestamp in
  let! failure := stored_plan_geometry_failure updated in
  let '(next_state, updated, diagnostic) :=
    match failure with
    | Some f =>
        if state_in next_state ACTIVE_LIFECYCLE_MONITORING_STATES then
          (if transition_allowed (Some (r_current_state updated)) REJECTED then REJECTED
           else r_current_state updated,
           updated <| r_failed_gate := geometry_diagnostic f |>,
           geometry_diagnostic f)
        else (next_state, updated, NA)
    | None => (next_state, updated, NA)
    end in
  let '(next_state, updated, decay_reason) := apply_decay_if_needed record updated o next_state in
  Ok (next_state, updated, decay_reason, diagnostic).

(** the reason of the transition *)
Definition scan_reason (record updated : SetupLifecycleRecord) (o : LifecycleObservation)
    (next_state : SetupLifecycleState) (decay_reason diagnostic : string) : SetupTransitionReason :=
  if negb (String.eqb decay_reason NA) then
    if state_eqb next_state EXPIRED then SETUP_EXPIRED else SETUP_DECAYED
  else if state_in next_state CONFIRMATION_GATED_STATES
          && (r_required_confirmation_cycles updated <=? r_confirmation_count updated)%Z
          && (r_confirmation_count record <? r_required_confirmation_cycles updated)%Z
          && state_eqb next_state CONFIRMED
  then MULTI_SCAN_CONFIRMED
  else if negb (String.eqb diagnostic NA) && state_eqb next_state (r_current_state updated)
  then INVALID_TRANSITION
  else reason_for_state next_state o false.

(** the tail of [evaluate_lifecycle_transition] *)
Definition evaluate_scan (clock : string) (a : evaluate_args) (record : SetupLifecycleRecord)
    (o : LifecycleObservation) (timestamp : string) (required_cycles : Z)
    : result SetupTransitionResult :=
  let! (next_state, updated, decay_reason, diagnostic) :=
    scan_target record o timestamp a required_cycles in
  let reason := scan_reason record updated o next_state decay_reason diagnostic in
  let! res := transition_record clock updated next_state
    {| ta_reason := reason; ta_now := Some timestamp; ta_scan_run_id := ea_scan_run_id a;
       ta_readiness_score := Some (o_readiness_score o);
       ta_quality_score := Some (o_quality_score o);
       ta_failed_gate := Some (if negb (String.eqb diagnostic NA) then diagnostic
                               else if negb (String.eqb decay_reason NA) then r_failed_gate updated
                               else o_failed_gate o);
       ta_notes := if negb (String.eqb diagnostic NA) then diagnostic
                   else if negb (state_eqb next_state (r_current_state updated))
                   then transition_notes reason o
                   else reason_value NO_CHANGE |} in
  with_economic_identities res o (Some record).

Definition evaluate_existing (clock : string) (a : evaluate_args) (record : SetupLifecycleRecord)
    (o : LifecycleObservation) : result SetupTransitionResult :=
  let timestamp := timestamp_or (ea_now a) clock in
  let required_cycles := required_confirmation_cycles (ea_required_confirmation_cycles a)
                           (ea_symbol_health_penalty_cycles a) in
  let state := r_current_state record in
  let! failure := stored_plan_geometry_failure record in
  match (if state_in state ACTIVE_LIFECYCLE_MONITORING_STATES then failure else None) with
  | Some f =>
      with_economic_identities (refused record state (geometry_diagnostic f)) o (Some record)
  | None =>
      if o_closed_candle_outcomes_managed o && state_in state [TP_HIT; SL_HIT; BREAKEVEN] then
        let! res := transition_record clock record state
          {| ta_reason := NO_CHANGE; ta_now := Some timestamp; ta_scan_run_id := ea_scan_run_id a;
             ta_readiness_score := Some (r_readiness_score record);
             ta_quality_score := Some (r_quality_score record);
             ta_failed_gate := Some (r_failed_gate record);
             ta_notes := "Canonical terminal lifecycle state is immutable." |} in
        with_economic_identities res o (Some record)
      else
      let o := effective_observation record o in
      if state_in state FRESHNESS_OWNER_HOLD_STATES && freshness_failure_preserves_owner o
         && negb (o_tp_hit o) && negb (o_sl_hit o)
      then with_economic_identities (freshness_hold record timestamp) o (Some record)
      else evaluate_scan clock a record o timestamp required_cycles
  end.

Definition evaluate_lifecycle_transition (clock : string) (record : option SetupLifecycleRecord)
    (o : LifecycleObservation) (a : evaluate_args) : result SetupTransitionResult :=
  match record with
  | None => evaluate_new clock a o
  | Some record => evaluate_existing clock a record o
  end.
