(* ===== verification/StateMachineFacts.v ===== *)
(** * Lemmas on the lifecycle state machine

    The allowed-transition table as an abstract machine, the shape of the
    records a scan returns, totality, and the facts the properties of
    [StateMachineProps] combine. *)

From stdpp Require Import base tactics list strings relations.
From Stdlib Require Import ZArith NArith Lia Bool Ascii.
From S2P Require Import Prelude PyString PyDecimal DecimalFacts PyTime LifecycleModels.
From S2P Require Import OutcomePolicy Identity EconomicIdentity Observation StateMachine.
Open Scope string_scope.
Open Scope py_scope.

(** ** Booleans of states *)

Lemma state_eqb_spec a b : state_eqb a b = true <-> a = b.
Proof. unfold state_eqb. by rewrite bool_decide_eq_true. Qed.

Lemma state_eqb_false a b : state_eqb a b = false <-> a <> b.
Proof. unfold state_eqb. by rewrite bool_decide_eq_false. Qed.

Lemma state_in_spec s l : state_in s l = true <-> In s l.
Proof.
  unfold state_in. rewrite existsb_exists. split.
  - intros (x & Hx & E). apply bool_decide_eq_true in E. by subst.
  - intros H. exists s. by rewrite bool_decide_eq_true.
Qed.

(** ** The abstract machine *)

(** One observable step of a setup: it stays, or follows the table. *)
Definition table_step (s s' : SetupLifecycleState) : Prop :=
  s' = s \/ In s' (ALLOWED_TRANSITIONS s).

(** Case analysis on the conditions of a decision chain. *)
Ltac split_ifs :=
  repeat match goal with
  | |- context [if ?b then _ else _] => let E := fresh "B" in destruct b eqn:E
  | H : context [if ?b then _ else _] |- _ => let E := fresh "B" in destruct b eqn:E
  end.

(** ** Economic identities leave the rest of the record alone *)

(** [b] is [a] up to the economic identity fields. *)
Definition same_but_identity (a b : SetupLifecycleRecord) : Prop :=
  b = a <| r_setup_id := r_setup_id b |> <| r_plan_version_id := r_plan_version_id b |>
        <| r_economic_identity_reason := r_economic_identity_reason b |>.

Lemma latch_same_but_identity record venue locked previous tick out :
  latch_economic_identities record venue locked previous tick = Ok out ->
  same_but_identity record out.
Proof. intros H. apply latch_economic_identities_run in H as [s c p _ _ _ ->]. by destruct record. Qed.

Lemma with_economic_identities_ok res o previous record :
  tr_record res = Some record ->
  exists out, with_economic_identities res o previous = Ok (res <| tr_record := Some out |>) /\
    same_but_identity record out.
Proof.
  intros Hr. unfold with_economic_identities. rewrite Hr.
  destruct (latch_economic_identities_total record (Some (o_instrument_venue o))
    (state_in (r_current_state record) PLAN_LOCK_STATES) previous PyNone) as [out Hout].
  rewrite Hout. cbn [bind_result]. exists out. split; [done|].
  by apply latch_same_but_identity in Hout.
Qed.

(** ** [transition_record] *)

(** What [transition_record] returns, on each of its branches. *)
Inductive transition_outcome (record : SetupLifecycleRecord) (to_state : SetupLifecycleState)
    (a : transition_args) (timestamp gate : string) : SetupTransitionResult -> Prop :=
| outcome_same :
    r_current_state record = to_state ->
    transition_outcome record to_state a timestamp gate
      (same_state_result record to_state a timestamp gate)
| outcome_refused notes :
    r_current_state record <> to_state ->
    (~ In to_state (ALLOWED_TRANSITIONS (r_current_state record)) \/
     entry_touch_transition_requires_touch_reason (r_current_state record) to_state (ta_reason a) = true) ->
    transition_outcome record to_state a timestamp gate (refused record to_state notes)
| outcome_moved res :
    r_current_state record <> to_state ->
    In to_state (ALLOWED_TRANSITIONS (r_current_state record)) ->
    entry_touch_transition_requires_touch_reason (r_current_state record) to_state (ta_reason a) = false ->
    moved_result record to_state a timestamp gate = Ok res ->
    transition_outcome record to_state a timestamp gate res.

Lemma transition_record_outcome clock record to_state a res :
  transition_record clock record to_state a = Ok res ->
  transition_outcome record to_state a (timestamp_or (ta_now a) clock)
    (transition_failed_gate record to_state (ta_failed_gate a)) res.
Proof.
  unfold transition_record. intros H.
  destruct (state_eqb (r_current_state record) to_state) eqn:E1.
  { injection H as <-. constructor. by apply state_eqb_spec. }
  apply state_eqb_false in E1.
  destruct (transition_allowed _ _) eqn:E2; cbn [negb] in H.
  - destruct (entry_touch_transition_requires_touch_reason _ _ _) eqn:E3.
    + injection H as <-. apply outcome_refused; auto.
    + apply outcome_moved; try done. by apply state_in_spec in E2.
  - injection H as <-. apply outcome_refused; [done|]. left.
    intros Hin. apply state_in_spec in Hin. unfold transition_allowed in E2. congruence.
Qed.

Lemma moved_result_shape record to_state a timestamp gate res :
  moved_result record to_state a timestamp gate = Ok res ->
  exists event r', res = {|
      tr_lifecycle_id := r_lifecycle_id record; tr_symbol := r_symbol record;
      tr_from_state := Some (r_current_state record); tr_to_state := to_state;
      tr_reason := ta_reason a; tr_transitioned := true; tr_allowed := true;
      tr_notes := ta_notes a; tr_event := Some event; tr_record := Some r' |} /\
    ev_from_state event = Some (r_current_state record) /\ ev_to_state event = to_state /\
    ev_reason event = ta_reason a /\
    ev_readiness_score event = bounded_score (ta_readiness_score a) (r_readiness_score record) /\
    ev_quality_score event = bounded_score (ta_quality_score a) (r_quality_score record) /\
    exists cooldown, cooldown_until record to_state timestamp = Ok cooldown /\
    r' = record
    <| r_current_state := to_state |>
    <| r_previous_state := Some (r_current_state record) |>
    <| r_last_seen_at := timestamp |>
    <| r_last_transition_at := timestamp |>
    <| r_readiness_score := ev_readiness_score event |>
    <| r_quality_score := ev_quality_score event |>
    <| r_failed_gate := ev_failed_gate event |>
    <| r_cooldown_until := cooldown |>
    <| r_archived_at := if state_eqb to_state ARCHIVED then Some timestamp else r_archived_at record |>.
Proof.
  unfold moved_result. intros H.
  destruct (validate_event _) as [event|] eqn:Ev; cbn [bind_result] in H; [|discriminate].
  destruct (cooldown_until _ _ _) as [cd|] eqn:Ec; cbn [bind_result] in H; [|discriminate].
  injection H as <-. unfold validate_event in Ev. cbn in Ev.
  destruct (normalize_symbol (r_symbol record)) as [sym|]; cbn [bind_result] in Ev; [|discriminate].
  destruct (negb _) in Ev; [discriminate|]. injection Ev as <-.
  eexists _, _. split; [reflexivity|]. repeat (split; [reflexivity|]). by exists cd.
Qed.

(** ** One scan of an existing record *)

Definition scan_timestamp (clock : string) (a : evaluate_args) : string := timestamp_or (ea_now a) clock.

Definition scan_cycles (a : evaluate_args) : Z :=
  required_confirmation_cycles (ea_required_confirmation_cycles a) (ea_symbol_health_penalty_cycles a).

(** the transition arguments [evaluate_scan] builds *)
Definition scan_args (a : evaluate_args) (record updated : SetupLifecycleRecord)
    (o : LifecycleObservation) (timestamp : string) (next_state : SetupLifecycleState)
    (decay_reason diagnostic : string) : transition_args :=
  let reason := scan_reason record updated o next_state decay_reason diagnostic in
  {| ta_reason := reason; ta_now := Some timestamp; ta_scan_run_id := ea_scan_run_id a;
     ta_readiness_score := Some (o_readiness_score o);
     ta_quality_score := Some (o_quality_score o);
     ta_failed_gate := Some (if negb (String.eqb diagnostic NA) then diagnostic
                             else if negb (String.eqb decay_reason NA) then r_failed_gate updated
                             else o_failed_gate o);
     ta_notes := if negb (String.eqb diagnostic NA) then diagnostic
                 else if negb (state_eqb next_state (r_current_state updated))
                 then transition_notes reason o
                 else reason_value NO_CHANGE |}.

(** How a scan of [record] can end: [out] is the stored record before the
    economic identities are latched. *)
Inductive evaluation (clock : string) (a : evaluate_args) (record : SetupLifecycleRecord)
    (o : LifecycleObservation) : SetupTransitionResult -> SetupLifecycleRecord -> Prop :=
| eval_bad_plan f :
    In (r_current_state record) ACTIVE_LIFECYCLE_MONITORING_STATES ->
    stored_plan_geometry_failure record = Ok (Some f) ->
    evaluation clock a record o
      (refused record (r_current_state record) (geometry_diagnostic f)) record
| eval_terminal ta :
    o_closed_candle_outcomes_managed o = true ->
    In (r_current_state record) [TP_HIT; SL_HIT; BREAKEVEN] ->
    ta_readiness_score ta = Some (r_readiness_score record) ->
    ta_quality_score ta = Some (r_quality_score record) ->
    let res := same_state_result record (r_current_state record) ta
                 (timestamp_or (Some (scan_timestamp clock a)) clock)
                 (transition_failed_gate record (r_current_state record) (Some (r_failed_gate record))) in
    forall out, tr_record res = Some out -> evaluation clock a record o res out
| eval_hold :
    In (r_current_state record) FRESHNESS_OWNER_HOLD_STATES ->
    freshness_failure_preserves_owner (effective_observation record o) = true ->
    evaluation clock a record o (freshness_hold record (scan_timestamp clock a))
      (record <| r_last_seen_at := scan_timestamp clock a |>)
| eval_scan next updated decay diagnostic res out :
    (In (r_current_state record) ACTIVE_LIFECYCLE_MONITORING_STATES ->
     stored_plan_geometry_failure record = Ok None) ->
    (In (r_current_state record) [TP_HIT; SL_HIT; BREAKEVEN] ->
     o_closed_candle_outcomes_managed o = false) ->
    scan_target record (effective_observation record o) (scan_timestamp clock a) a (scan_cycles a)
      = Ok (next, updated, decay, diagnostic) ->
    transition_record clock updated next
      (scan_args a record updated (effective_observation record o) (scan_timestamp clock a)
         next decay diagnostic) = Ok res ->
    tr_record res = Some out ->
    evaluation clock a record o res out.

Lemma same_but_identity_fields a b :
  same_but_identity a b ->
  r_current_state b = r_current_state a /\ r_previous_state b = r_previous_state a.
Proof. intros ->. by destruct a. Qed.

Lemma transition_record_some clock record to_state a res :
  transition_record clock record to_state a = Ok res -> exists r', tr_record res = Some r'.
Proof.
  intros H. apply transition_record_outcome in H. destruct H as [| |res' _ _ _ Hm]; [by eexists..|].
  apply moved_result_shape in Hm as (ev & r' & -> & _). by eexists.
Qed.

Lemma evaluate_existing_cases clock a record o res :
  evaluate_existing clock a record o = Ok res ->
  exists pre out r', evaluation clock a record o pre out /\ same_but_identity out r' /\
    res = pre <| tr_record := Some r' |>.
Proof.
  unfold evaluate_existing. fold (scan_timestamp clock a) (scan_cycles a). intros H.
  destruct (stored_plan_geometry_failure record) as [failure|] eqn:Ef; cbn [bind_result] in H; [|discriminate].
  destruct (if state_in _ ACTIVE_LIFECYCLE_MONITORING_STATES then failure else None) as [f|] eqn:Es.
  { destruct (state_in _ ACTIVE_LIFECYCLE_MONITORING_STATES) eqn:Ea; [|discriminate]. subst failure.
    apply state_in_spec in Ea.
    destruct (with_economic_identities_ok (refused record (r_current_state record) (geometry_diagnostic f))
      o (Some record) record eq_refl) as (r' & Hw & Hs). rewrite H in Hw. injection Hw as ->.
    eexists _, _, r'. split; [by apply (eval_bad_plan _ _ _ _ f)|]. by split. }
  assert (In (r_current_state record) ACTIVE_LIFECYCLE_MONITORING_STATES -> failure = None) as Hf.
  { intros Hin. apply state_in_spec in Hin. by rewrite Hin in Es. }
  destruct (o_closed_candle_outcomes_managed o && state_in _ [TP_HIT; SL_HIT; BREAKEVEN]) eqn:Et.
  { apply andb_true_iff in Et as [Et1 Et2]. apply state_in_spec in Et2.
    unfold transition_record in H. cbn [ta_now ta_failed_gate] in H.
    rewrite (proj2 (state_eqb_spec _ _) eq_refl) in H. cbn [bind_result] in H.
    match type of H with with_economic_identities (same_state_result ?r ?s ?ta ?t ?g) _ _ = _ =>
      destruct (with_economic_identities_ok (same_state_result r s ta t g) o (Some record) _ eq_refl)
        as (r' & Hw & Hs);
      exists (same_state_result r s ta t g); eexists _, r';
      split; [exact (eval_terminal clock a record o ta Et1 Et2 eq_refl eq_refl _ eq_refl)|] end.
    rewrite H in Hw. injection Hw as ->. by split. }
  destruct (_ && _ && negb (o_tp_hit _) && negb (o_sl_hit _)) eqn:Eh.
  { rewrite !andb_true_iff in Eh. destruct Eh as [[[E1 E2] _] _]. apply state_in_spec in E1.
    match type of H with with_economic_identities ?r _ _ = _ =>
      destruct (with_economic_identities_ok r (effective_observation record o) (Some record) _ eq_refl)
        as (r' & Hw & Hs) end.
    rewrite H in Hw. injection Hw as ->. eexists _, _, r'. split; [by apply eval_hold|]. by split. }
  unfold evaluate_scan in H.
  destruct (scan_target _ _ _ _ _) as [[[[next updated] decay] diag]|] eqn:Est; cbn [bind_result] in H; [|discriminate].
  fold (scan_args a record updated (effective_observation record o) (scan_timestamp clock a) next decay diag) in H.
  destruct (transition_record _ _ _ _) as [pre|] eqn:Etr; cbn [bind_result] in H; [|discriminate].
  destruct (transition_record_some _ _ _ _ _ Etr) as [out Hout].
  destruct (with_economic_identities_ok pre (effective_observation record o) (Some record) out Hout) as (r' & Hw & Hs).
  rewrite H in Hw. injection Hw as ->. exists pre, out, r'.
  split; [|by split]. eapply eval_scan; try eassumption.
  - intros Hin. by rewrite (Hf Hin) in Ef.
  - intros Hin. apply state_in_spec in Hin. rewrite Hin, andb_true_r in Et. exact Et.
Qed.

(** ** Totality of the pieces of a scan *)

Lemma price_similar_total left right tol : exists b, price_similar left right tol = Ok b.
Proof.
  unfold price_similar. destruct (decimal_or_none left) as [l|]; [|eauto].
  destruct (decimal_or_none right) as [r|]; [|eauto].
  match goal with |- context [ddiv ?x ?y] => destruct (ddiv_value x y) as (q & -> & _) end.
  - rewrite dQ_dec_of_Z. discriminate.
  - cbn [bind_result]. eauto.
Qed.

Lemma setup_consistent_total record o tol : exists b, setup_consistent record o tol = Ok b.
Proof.
  unfold setup_consistent.
  do 3 (match goal with |- context [if negb ?b then Ok false else _] => destruct (negb b); [eauto|] end).
  destruct (price_similar_total (r_entry_low record) (o_entry_low o) tol) as [b1 ->]. cbn [bind_result].
  destruct (negb b1); [eauto|].
  destruct (price_similar_total (r_entry_high record) (o_entry_high o) tol) as [b2 ->]. cbn [bind_result].
  destruct (negb b2); [eauto|].
  destruct (price_similar_total (r_stop_loss record) (o_stop_loss o) tol) as [b3 ->]. cbn [bind_result].
  destruct (negb b3); eauto.
Qed.

Lemma record_with_observation_total record o ts tol rc pen :
  exists c, record_with_observation record o ts tol rc pen = Ok (folded_record record o ts c rc pen).
Proof.
  unfold record_with_observation. destruct (setup_consistent_total record o tol) as [c ->]. by exists c.
Qed.

(** The geometry guard of a scan on the folded record [u0] and wanted state [n0]. *)
Inductive geometry_guard (u0 : SetupLifecycleRecord) (n0 : SetupLifecycleState)
    : SetupLifecycleState -> SetupLifecycleRecord -> string -> Prop :=
| guard_pass :
    (In n0 ACTIVE_LIFECYCLE_MONITORING_STATES -> stored_plan_geometry_failure u0 = Ok None) ->
    geometry_guard u0 n0 n0 u0 NA
| guard_stop f :
    stored_plan_geometry_failure u0 = Ok (Some f) ->
    In n0 ACTIVE_LIFECYCLE_MONITORING_STATES ->
    geometry_guard u0 n0
      (if transition_allowed (Some (r_current_state u0)) REJECTED then REJECTED else r_current_state u0)
      (u0 <| r_failed_gate := geometry_diagnostic f |>) (geometry_diagnostic f).

Lemma scan_target_total record o ts a rc :
  exists next updated decay diag c n1 u1,
    scan_target record o ts a rc = Ok (next, updated, decay, diag) /\
    let u0 := folded_record record o ts c rc (ea_symbol_health_penalty_cycles a) in
    geometry_guard u0 (next_state_for_observation u0 o ts) n1 u1 diag /\
    apply_decay_if_needed record u1 o n1 = (next, updated, decay).
Proof.
  unfold scan_target.
  destruct (record_with_observation_total record o ts (ea_setup_tolerance_pct a) rc
              (ea_symbol_health_penalty_cycles a)) as [c ->]. cbn [bind_result].
  set (u0 := folded_record _ _ _ _ _ _).
  assert (exists failure, stored_plan_geometry_failure u0 = Ok failure) as [failure Hf].
  { destruct (stored_plan_geometry_failure_total u0) as [(? & _ & ->)|(? & _ & ->)]; eauto. }
  rewrite Hf. cbn [bind_result].
  assert (exists n1 u1 diag, geometry_guard u0 (next_state_for_observation u0 o ts) n1 u1 diag /\
    match failure with
    | Some f => if state_in (next_state_for_observation u0 o ts) ACTIVE_LIFECYCLE_MONITORING_STATES
        then (if transition_allowed (Some (r_current_state u0)) REJECTED then REJECTED else r_current_state u0,
              u0 <| r_failed_gate := geometry_diagnostic f |>, geometry_diagnostic f)
        else (next_state_for_observation u0 o ts, u0, NA)
    | None => (next_state_for_observation u0 o ts, u0, NA)
    end = (n1, u1, diag)) as (n1 & u1 & diag & Hg & ->).
  { destruct failure as [f|]; [destruct (state_in _ _) eqn:E|]; eexists _, _, _; (split; [|reflexivity]).
    - apply guard_stop; [done|]. by apply state_in_spec.
    - apply guard_pass. intros Hin. apply state_in_spec in Hin. congruence.
    - by apply guard_pass. }
  destruct (apply_decay_if_needed record u1 o n1) as [[next updated] decay] eqn:Ed.
  exists next, updated, decay, diag, c, n1, u1. auto.
Qed.

Lemma scan_target_inv record o ts a rc next updated decay diag :
  scan_target record o ts a rc = Ok (next, updated, decay, diag) ->
  exists c n1 u1,
    let u0 := folded_record record o ts c rc (ea_symbol_health_penalty_cycles a) in
    geometry_guard u0 (next_state_for_observation u0 o ts) n1 u1 diag /\
    apply_decay_if_needed record u1 o n1 = (next, updated, decay).
Proof.
  intros H. destruct (scan_target_total record o ts a rc) as (n & u & d & g & c & n1 & u1 & H' & Hg & Hd).
  rewrite H in H'. injection H' as -> -> -> ->. exists c, n1, u1. auto.
Qed.

(** ** Confidence decay *)

Definition decayed_record (u : SetupLifecycleRecord) : SetupLifecycleRecord :=
  u <| r_decay_count := (r_decay_count u + 1)%Z |> <| r_decay_reason := decay_reason_text |>.

Definition expired_record (u : SetupLifecycleRecord) : SetupLifecycleRecord :=
  (decayed_record u) <| r_quality_grade_current := "Expired" |>
    <| r_failed_gate := "confidence_decay" |> <| r_invalidation_reason := decay_reason_text |>.

Inductive decay_outcome (previous u : SetupLifecycleRecord) (n : SetupLifecycleState)
    : SetupLifecycleState -> SetupLifecycleRecord -> string -> Prop :=
| decay_none : decay_outcome previous u n n u NA
| decay_graded :
    n = r_current_state previous -> In n DECAYABLE_STATES ->
    decayed_grade (r_quality_grade_current u) <> NA ->
    decayed_grade (r_quality_grade_current u) <> "EXPIRED" ->
    decay_outcome previous u n n
      ((decayed_record u) <| r_quality_grade_current := decayed_grade (r_quality_grade_current u) |>)
      decay_reason_text
| decay_exempt :
    n = r_current_state previous -> n = CONFIRMED ->
    decayed_grade (r_quality_grade_current u) = "EXPIRED" ->
    decay_outcome previous u n n (decayed_record u) decay_reason_text
| decay_expired :
    n = r_current_state previous -> In n DECAYABLE_STATES -> n <> CONFIRMED ->
    decayed_grade (r_quality_grade_current u) = "EXPIRED" ->
    decay_outcome previous u n EXPIRED (expired_record u) decay_reason_text.

Lemma apply_decay_cases previous u o n next updated decay :
  apply_decay_if_needed previous u o n = (next, updated, decay) ->
  decay_outcome previous u n next updated decay.
Proof.
  unfold apply_decay_if_needed. fold (decayed_record u) (expired_record u). intros H.
  destruct (negb (state_eqb n (r_current_state previous)) || negb (state_in n DECAYABLE_STATES)) eqn:E1;
    [injection H as <- <- <-; constructor|].
  apply orb_false_iff in E1 as [E1 E2]. rewrite negb_false_iff, state_eqb_spec in E1.
  rewrite negb_false_iff, state_in_spec in E2.
  destruct (_ <? _)%Z; [injection H as <- <- <-; constructor|].
  destruct (negb _); [injection H as <- <- <-; constructor|].
  destruct (_ || _); [injection H as <- <- <-; constructor|].
  destruct (String.eqb_spec (decayed_grade (r_quality_grade_current u)) NA) as [|E3];
    [injection H as <- <- <-; constructor|].
  destruct (String.eqb_spec (decayed_grade (r_quality_grade_current u)) "EXPIRED") as [E4|E4].
  - destruct (state_in n CONFIDENCE_DECAY_TERMINAL_EXEMPT_STATES) eqn:E5; injection H as <- <- <-.
    + apply state_in_spec in E5 as [<-|[]]. by constructor.
    + constructor; try done. intros ->. by vm_compute in E5.
  - injection H as <- <- <-. by constructor.
Qed.

(** A scan never changes the state of the record it hands to
    [transition_record], nor the state it came from. *)
Lemma scan_target_state record o ts a rc next updated decay diag :
  scan_target record o ts a rc = Ok (next, updated, decay, diag) ->
  r_current_state updated = r_current_state record /\
  r_previous_state updated = r_previous_state record.
Proof.
  intros H. apply scan_target_inv in H as (c & n1 & u1 & Hg & Hd).
  assert (r_current_state u1 = r_current_state record /\ r_previous_state u1 = r_previous_state record) as [<- <-]
    by (destruct Hg; split; reflexivity).
  apply apply_decay_cases in Hd. by destruct Hd.
Qed.

(** ** The states a scan can ask for *)

(** Decide membership in a concrete list of states. *)
Ltac in_states := first [left; reflexivity | right; apply state_in_spec; reflexivity | apply state_in_spec; reflexivity].

Lemma pre_confirmation_range o :
  In (pre_confirmation_state o) [TRIGGERED; STALKING; WATCHLISTED; DISCOVERED].
Proof. unfold pre_confirmation_state. split_ifs; in_states. Qed.

Lemma observed_range o :
  In (observed_state o)
    [TP_HIT; SL_HIT; REJECTED; INVALIDATED; EXPIRED; CONFIRMED; ACTIONABLE_A_GRADE; A_GRADE_WATCH;
     TRIGGERED; STALKING; WATCHLISTED; DISCOVERED].
Proof.
  unfold observed_state.
  repeat match goal with |- context [if ?b then _ else _] => destruct b; [in_states|] end. in_states.
Qed.

Lemma gated_range r o :
  In (confirmation_gated_target r o (observed_state o))
    [TP_HIT; SL_HIT; REJECTED; INVALIDATED; EXPIRED; CONFIRMED; ACTIONABLE_A_GRADE; A_GRADE_WATCH;
     TRIGGERED; STALKING; WATCHLISTED; DISCOVERED].
Proof.
  unfold confirmation_gated_target.
  destruct (negb (target_requires_confirmation (observed_state o))); [apply observed_range|].
  destruct ((r_required_confirmation_cycles r <=? r_confirmation_count r)%Z && confirmed_observation_ready o);
    [apply observed_range|].
  pose proof (pre_confirmation_range o) as H. simpl in H |- *. intuition auto.
Qed.

(** The only way to ask for a state outside the table. *)
Definition triggered_overreach (r : SetupLifecycleRecord) (o : LifecycleObservation)
    (n : SetupLifecycleState) : Prop :=
  r_current_state r = TRIGGERED /\ (pullback_and_rr_valid o || o_valid_trade_idea o) = true /\
  In n [TP_HIT; SL_HIT; WATCHLISTED; DISCOVERED].

Lemma next_from_triggered_table r o :
  let n := next_from_triggered o (confirmation_gated_target r o (observed_state o)) in
  table_step TRIGGERED n \/
  ((pullback_and_rr_valid o || o_valid_trade_idea o) = true /\ In n [TP_HIT; SL_HIT; WATCHLISTED; DISCOVERED]).
Proof.
  pose proof (gated_range r o) as Hr.
  set (t := confirmation_gated_target r o (observed_state o)) in *. clearbody t.
  unfold next_from_triggered, table_step. cbv zeta.
  destruct (o_invalidated o || state_eqb t REJECTED) eqn:E1; [left; in_states|].
  apply orb_false_iff in E1 as [_ E1]. apply state_eqb_false in E1.
  destruct (state_eqb t ACTIONABLE_A_GRADE); [left; in_states|].
  destruct (state_eqb t A_GRADE_WATCH); [left; in_states|].
  destruct (pullback_and_rr_valid o || o_valid_trade_idea o) eqn:E2.
  - simpl in Hr. destruct_or? Hr; try contradiction; subst t; try done;
      first [left; in_states | right; split; [reflexivity|in_states]].
  - left. split_ifs; in_states.
Qed.

Lemma next_state_table r o ts :
  let n := next_state_for_observation r o ts in
  table_step (r_current_state r) n \/ triggered_overreach r o n.
Proof.
  unfold next_state_for_observation, triggered_overreach. cbv zeta.
  destruct (r_current_state r) eqn:Es;
    try (left; unfold table_step, next_from_confirmed, next_from_watchlisted, next_from_stalking;
         split_ifs; in_states).
  destruct (next_from_triggered_table r o) as [H|[H1 H2]]; [by left|]. right. auto.
Qed.

(** ** Scans follow the table *)

Lemma transition_outcome_state record to_state a ts gate res out :
  transition_outcome record to_state a ts gate res -> tr_record res = Some out ->
  (tr_transitioned res = false /\ r_current_state out = r_current_state record /\
   r_previous_state out = r_previous_state record) \/
  (tr_transitioned res = true /\ r_current_state out = to_state /\
   In to_state (ALLOWED_TRANSITIONS (r_current_state record)) /\
   r_current_state record <> to_state /\
   r_previous_state out = Some (r_current_state record)).
Proof.
  intros [He|notes Hn Hd|res' Hn Hin _ Hm] Hout.
  - left. injection Hout as <-. split_and!; reflexivity.
  - left. injection Hout as <-. auto.
  - right. apply moved_result_shape in Hm as (ev & r' & -> & _ & _ & _ & _ & _ & cd & _ & ->).
    injection Hout as <-. auto.
Qed.

Lemma evaluation_record clock a record o pre out :
  evaluation clock a record o pre out -> tr_record pre = Some out.
Proof. by intros [| | |]. Qed.

(** The state part of one evaluation. *)
Lemma evaluation_state clock a record o pre out :
  evaluation clock a record o pre out ->
  (tr_transitioned pre = false /\ r_current_state out = r_current_state record /\
   r_previous_state out = r_previous_state record) \/
  (tr_transitioned pre = true /\ r_current_state out <> r_current_state record /\
   In (r_current_state out) (ALLOWED_TRANSITIONS (r_current_state record)) /\
   r_previous_state out = Some (r_current_state record)).
Proof.
  intros [f _ _|ta _ _ _ _ res r Hr| |next updated decay diag res r _ _ Hs Ht Hr].
  - by left.
  - left. injection Hr as <-. split_and!; reflexivity.
  - left. split_and!; reflexivity.
  - apply scan_target_state in Hs as [Hc Hp]. apply transition_record_outcome in Ht.
    destruct (transition_outcome_state _ _ _ _ _ _ _ Ht Hr) as [(E1 & E2 & E3)|(E1 & E2 & E3 & E4 & E5)].
    + left. rewrite E2, E3, Hc, Hp. auto.
    + right. rewrite Hc in *. rewrite E2. auto.
Qed.

(** A result carries an event exactly when it transitioned, and the event names
    the state left and the state entered. *)
Lemma evaluation_event clock a record o pre out :
  evaluation clock a record o pre out ->
  if tr_transitioned pre
  then exists ev, tr_event pre = Some ev /\ ev_from_state ev = Some (r_current_state record) /\
         ev_to_state ev = r_current_state out
  else tr_event pre = None.
Proof.
  intros [f _ _|ta _ _ _ _ res r Hr| |next updated decay diag res r _ _ Hs Ht Hr]; try reflexivity.
  apply scan_target_state in Hs as [Hc _]. apply transition_record_outcome in Ht.
  destruct Ht as [He|notes Hn Hd|res' Hn Hin _ Hm]; try reflexivity.
  apply moved_result_shape in Hm as (ev & r' & -> & Hf & Ht & _ & _ & _ & cd & _ & Er).
  cbn [tr_transitioned tr_event tr_record] in *. injection Hr as <-. exists ev.
  split; [reflexivity|]. rewrite Hf, Ht, Hc, Er. split; reflexivity.
Qed.

(** ** The first observation of a setup *)

Definition initial_states : list SetupLifecycleState :=
  [DISCOVERED; REJECTED; WATCHLISTED; STALKING; TRIGGERED; CONFIRMED; ACTIONABLE_A_GRADE;
   A_GRADE_WATCH; TP_HIT; SL_HIT; INVALIDATED; EXPIRED].

Lemma initial_non_trigger_range o : In (initial_non_trigger_state o) initial_states.
Proof. unfold initial_non_trigger_state. split_ifs; in_states. Qed.

Lemma pre_confirmation_initial o : In (pre_confirmation_state o) initial_states.
Proof. unfold pre_confirmation_state. split_ifs; in_states. Qed.

Lemma first_state_range o rc : In (first_state o rc) initial_states.
Proof.
  unfold first_state, initial_pre_confirmation_state.
  match goal with |- In (if ?b then _ else _) _ => destruct b end.
  - destruct (_ && _); [apply initial_non_trigger_range|apply pre_confirmation_initial].
  - destruct (observation_has_essential_freshness_failure o) eqn:Ef; [in_states|].
    unfold initial_state_for_observation. rewrite Ef. cbv zeta.
    pose proof (observed_range o) as Hr.
    destruct (state_eqb (observed_state o) ACTIONABLE_A_GRADE); [in_states|].
    destruct (state_eqb (observed_state o) A_GRADE_WATCH); [in_states|].
    destruct (state_in _ _); [in_states|]. destruct (_ && _); [apply initial_non_trigger_range|].
    unfold initial_states. simpl in Hr |- *. intuition auto.
Qed.

(** The constraints pydantic checks on a record, as an invariant. *)
Record record_wf (r : SetupLifecycleRecord) : Prop := {
  wf_symbol : py_upper (py_strip (r_symbol r)) <> "";
  wf_readiness : (0 <= r_readiness_score r <= 100)%Z;
  wf_quality : (0 <= r_quality_score r <= 100)%Z;
  wf_confirmations : (0 <= r_confirmation_count r)%Z;
  wf_cycles : (1 <= r_required_confirmation_cycles r)%Z;
  wf_decay : (0 <= r_decay_count r)%Z;
  wf_penalty : (0 <= r_symbol_health_penalty_cycles r)%Z
}.

Lemma in_range_spec lo hi v : in_range lo hi v = true <-> (lo <= v <= hi)%Z.
Proof. unfold in_range. lia. Qed.

Lemma normalize_symbol_ok s t :
  normalize_symbol s = Ok t <-> t = py_upper (py_strip s) /\ t <> "".
Proof.
  unfold normalize_symbol. destruct (String.eqb_spec (py_upper (py_strip s)) "") as [E|E].
  - rewrite E. split; [done|]. by intros [-> ?].
  - split; [by intros [= <-]|]. by intros [-> _].
Qed.

(** A constructed record is well formed and keeps its non-text fields. *)
Lemma validate_record_ok r r' :
  validate_record r = Ok r' ->
  record_wf r' /\ r_current_state r' = r_current_state r /\
  r_previous_state r' = r_previous_state r /\ r_confirmation_count r' = r_confirmation_count r /\
  r_required_confirmation_cycles r' = r_required_confirmation_cycles r /\
  r_confirmed_at r' = r_confirmed_at r.
Proof.
  unfold validate_record. destruct (normalize_symbol (r_symbol r)) as [sym|] eqn:Es; cbn [bind_result]; [|discriminate].
  destruct (negb _) eqn:E; [discriminate|]. intros [= <-].
  rewrite negb_false_iff, !andb_true_iff, !in_range_spec, !Z.leb_le in E. destruct E as [[[[[E1 E2] E3] E4] E5] E6].
  apply normalize_symbol_ok in Es as [Es1 Es2].
  split; [|split_and!; reflexivity]. constructor; [|assumption..].
  change (py_upper (py_strip sym) <> ""). rewrite Es1, py_strip_upper, py_strip_idem, py_upper_idem. congruence.
Qed.

Lemma validate_record_total r :
  record_wf r -> exists r', validate_record r = Ok r'.
Proof.
  intros [H1 H2 H3 H4 H5 H6 H7]. unfold validate_record.
  rewrite (proj2 (normalize_symbol_ok _ _) (conj eq_refl H1)). cbn [bind_result].
  assert (in_range 0 100 (r_readiness_score r) && in_range 0 100 (r_quality_score r)
    && (0 <=? r_confirmation_count r)%Z && (1 <=? r_required_confirmation_cycles r)%Z
    && (0 <=? r_decay_count r)%Z && (0 <=? r_symbol_health_penalty_cycles r)%Z = true) as ->.
  { rewrite !andb_true_iff, !in_range_spec. lia. }
  cbn [negb]. eauto.
Qed.

Lemma bounded_score_range v d :
  (0 <= d <= 100)%Z -> (0 <= bounded_score v d <= 100)%Z.
Proof. unfold bounded_score. destruct v; lia. Qed.

Lemma validate_event_total e :
  py_upper (py_strip (ev_symbol e)) <> "" -> (0 <= ev_readiness_score e <= 100)%Z ->
  (0 <= ev_quality_score e <= 100)%Z -> exists e', validate_event e = Ok e'.
Proof.
  intros H1 H2 H3. unfold validate_event.
  rewrite (proj2 (normalize_symbol_ok _ _) (conj eq_refl H1)). cbn [bind_result].
  rewrite (proj2 (in_range_spec _ _ _) H2), (proj2 (in_range_spec _ _ _) H3). cbn. eauto.
Qed.

Lemma required_cycles_pos b p : (1 <= required_confirmation_cycles b p)%Z.
Proof. unfold required_confirmation_cycles. lia. Qed.

Lemma same_but_identity_wf a b : same_but_identity a b -> record_wf a -> record_wf b.
Proof. intros -> [H1 H2 H3 H4 H5 H6 H7]. by destruct a. Qed.

(** The record of a first observation, before and after the geometry guard. *)
Lemma evaluate_new_cases clock a o res :
  evaluate_new clock a o = Ok res ->
  exists r0 out r', first_record a o (scan_timestamp clock a) (scan_cycles a) (first_state o (scan_cycles a)) = Ok r0 /\
    same_but_identity out r' /\ tr_record res = Some r' /\ tr_from_state res = None /\
    tr_to_state res = r_current_state out /\
    ((out = r0 /\ (In (r_current_state r0) ACTIVE_LIFECYCLE_MONITORING_STATES ->
                   stored_plan_geometry_failure r0 = Ok None)) \/
     exists f, stored_plan_geometry_failure r0 = Ok (Some f) /\
       In (r_current_state r0) ACTIVE_LIFECYCLE_MONITORING_STATES /\
       out = r0 <| r_current_state := REJECTED |> <| r_failed_gate := geometry_diagnostic f |>
                <| r_confirmed_at := None |> <| r_quality_grade_confirmed := NA |>).
Proof.
  unfold evaluate_new. fold (scan_timestamp clock a) (scan_cycles a). intros H.
  destruct (first_record _ _ _ _ _) as [r0|] eqn:E0; cbn [bind_result] in H; [|discriminate].
  assert (r_current_state r0 = first_state o (scan_cycles a)) as Hst.
  { unfold first_record in E0. by apply validate_record_ok in E0 as (_ & -> & _). }
  destruct (stored_plan_geometry_failure r0) as [failure|] eqn:Ef; cbn [bind_result] in H; [|discriminate].
  match type of H with (let '(_, _) := ?e in _) = _ => destruct e as [init out] eqn:Eo end.
  destruct (validate_event _) as [ev|]; cbn [bind_result] in H; [|discriminate].
  match type of H with with_economic_identities ?r _ _ = _ =>
    destruct (with_economic_identities_ok r o None out eq_refl) as (r' & Hw & Hs) end.
  rewrite H in Hw. injection Hw as ->. exists r0, out, r'.
  assert (In (r_current_state r0) ACTIVE_LIFECYCLE_MONITORING_STATES <->
          state_in (first_state o (scan_cycles a)) ACTIVE_LIFECYCLE_MONITORING_STATES = true) as Hact
    by (rewrite Hst; symmetry; apply state_in_spec).
  do 2 (split; [done|]). split; [reflexivity|]. split; [reflexivity|]. cbn [tr_to_state set_field].
  destruct failure as [f|].
  - destruct (state_in _ _) eqn:E; injection Eo as <- <-.
    + split; [reflexivity|]. right. exists f. tauto.
    + split; [symmetry; exact Hst|]. left. split; [done|]. intros Hin. apply Hact in Hin. discriminate.
  - injection Eo as <- <-. split; [symmetry; exact Hst|]. by left.
Qed.

(** ** The well-formedness invariant *)

Lemma next_confirmation_count_nonneg r o c rc :
  (0 <= r_confirmation_count r)%Z -> (1 <= rc)%Z -> (0 <= next_confirmation_count r o c rc)%Z.
Proof. intros. unfold next_confirmation_count. split_ifs; lia. Qed.

Lemma folded_record_wf r o ts c rc pen :
  record_wf r -> (1 <= rc)%Z -> record_wf (folded_record r o ts c rc pen).
Proof.
  intros [H1 H2 H3 H4 H5 H6 H7] Hrc. constructor; try done.
  - by apply bounded_score_range.
  - by apply bounded_score_range.
  - by apply next_confirmation_count_nonneg.
  - change (0 <= Z.max (r_symbol_health_penalty_cycles r) (Z.max 0 pen))%Z. lia.
Qed.

Lemma failed_gate_wf r g : record_wf r -> record_wf (r <| r_failed_gate := g |>).
Proof. by intros []. Qed.

Lemma decayed_record_wf r : record_wf r -> record_wf (decayed_record r).
Proof.
  intros [H1 H2 H3 H4 H5 H6 H7]. constructor; try done.
  change (0 <= r_decay_count r + 1)%Z. lia.
Qed.

Lemma grade_wf r g : record_wf r -> record_wf (r <| r_quality_grade_current := g |>).
Proof. by intros []. Qed.

Lemma expired_record_wf r : record_wf r -> record_wf (expired_record r).
Proof. intros H. apply decayed_record_wf in H. by destruct H. Qed.

Create HintDb lifecycle.
#[export] Hint Resolve folded_record_wf failed_gate_wf decayed_record_wf grade_wf expired_record_wf
  required_cycles_pos : lifecycle.

Lemma scan_target_wf record o ts a rc next updated decay diag :
  record_wf record -> (1 <= rc)%Z ->
  scan_target record o ts a rc = Ok (next, updated, decay, diag) -> record_wf updated.
Proof.
  intros Hwf Hrc H. apply scan_target_inv in H as (c & n1 & u1 & Hg & Hd).
  assert (record_wf u1) as Hu by (destruct Hg; auto with lifecycle).
  apply apply_decay_cases in Hd. destruct Hd; auto with lifecycle.
Qed.

Lemma same_state_wf r s a ts g :
  record_wf r -> forall out, tr_record (same_state_result r s a ts g) = Some out -> record_wf out.
Proof.
  intros [H1 H2 H3 H4 H5 H6 H7] out [= <-]. constructor; try done; by apply bounded_score_range.
Qed.

Lemma transition_outcome_wf record to_state a ts gate res out :
  record_wf record -> transition_outcome record to_state a ts gate res ->
  tr_record res = Some out -> record_wf out.
Proof.
  intros Hwf [He|notes Hn Hd|res' Hn Hin _ Hm] Hout.
  - by eapply same_state_wf.
  - by injection Hout as <-.
  - apply moved_result_shape in Hm as (ev & r' & -> & _ & _ & _ & Er & Eq & cd & _ & ->).
    injection Hout as <-. rewrite Er, Eq. destruct Hwf as [H1 H2 H3 H4 H5 H6 H7].
    constructor; try done; by apply bounded_score_range.
Qed.

Lemma evaluation_wf clock a record o pre out :
  record_wf record -> evaluation clock a record o pre out -> record_wf out.
Proof.
  intros Hwf [f _ _|ta _ _ _ _ res r Hr| |next updated decay diag res r _ _ Hs Ht Hr].
  - done.
  - by eapply same_state_wf.
  - by destruct Hwf.
  - apply scan_target_wf in Hs; [|done|apply required_cycles_pos].
    apply transition_record_outcome in Ht. by eapply transition_outcome_wf.
Qed.

(** ** Totality of a scan *)

(** [timestamp] is text a cooldown can be computed from: it is unreadable, or
    24 hours later is still a representable date. *)
Definition cooldown_safe (timestamp : string) : Prop :=
  forall t, sm_parse_timestamp timestamp = Some t ->
  exists t', add_us t (DEFAULT_COOLDOWN_HOURS * 3600 * us_per_second)%Z = Ok t'.

Lemma cooldown_until_total r s ts : cooldown_safe ts -> exists c, cooldown_until r s ts = Ok c.
Proof.
  intros Hs. unfold cooldown_until. destruct (negb _); [destruct (state_eqb _ _); eauto|].
  destruct (sm_parse_timestamp ts) as [t|] eqn:E; [|eauto].
  destruct (Hs t E) as [t' ->]. cbn [bind_result]. eauto.
Qed.

Lemma transition_record_total clock record to_state a :
  record_wf record -> cooldown_safe (timestamp_or (ta_now a) clock) ->
  exists res, transition_record clock record to_state a = Ok res.
Proof.
  intros Hwf Hs. unfold transition_record.
  destruct (state_eqb _ _); [eauto|]. destruct (negb _); [eauto|].
  destruct (entry_touch_transition_requires_touch_reason _ _ _); [eauto|]. unfold moved_result.
  match goal with |- context [validate_event ?e] => destruct (validate_event_total e) as [ev ->] end.
  - apply (wf_symbol record Hwf).
  - apply bounded_score_range, (wf_readiness record Hwf).
  - apply bounded_score_range, (wf_quality record Hwf).
  - cbn [bind_result]. destruct (cooldown_until_total record to_state _ Hs) as [c ->].
    cbn [bind_result]. eauto.
Qed.

Lemma timestamp_or_idem now clock : timestamp_or (Some (timestamp_or now clock)) clock = timestamp_or now clock.
Proof.
  unfold timestamp_or. destruct now as [n|].
  - destruct (String.eqb_spec n "") as [->|E].
    + by destruct (String.eqb_spec clock "") as [->|].
    + by destruct (String.eqb_spec n "").
  - by destruct (String.eqb_spec clock "") as [->|].
Qed.

Lemma evaluate_existing_total clock a record o :
  record_wf record -> cooldown_safe (scan_timestamp clock a) ->
  exists res, evaluate_existing clock a record o = Ok res.
Proof.
  intros Hwf Hs. unfold evaluate_existing. fold (scan_timestamp clock a) (scan_cycles a).
  assert (exists failure, stored_plan_geometry_failure record = Ok failure) as [failure ->].
  { destruct (stored_plan_geometry_failure_total record) as [(? & _ & ->)|(? & _ & ->)]; eauto. }
  cbn [bind_result]. destruct (if state_in _ _ then failure else None) as [f|].
  { destruct (with_economic_identities_ok (refused record (r_current_state record) (geometry_diagnostic f))
      o (Some record) record eq_refl) as (r' & -> & _). eauto. }
  destruct (_ && state_in _ [TP_HIT; SL_HIT; BREAKEVEN]).
  { unfold transition_record. rewrite (proj2 (state_eqb_spec _ _) eq_refl). cbn [bind_result].
    match goal with |- context [with_economic_identities ?r o ?p] =>
      destruct (with_economic_identities_ok r o p _ eq_refl) as (r' & -> & _) end. eauto. }
  set (o' := effective_observation record o).
  destruct (_ && _ && _ && _).
  { match goal with |- context [with_economic_identities ?r o' ?p] =>
      destruct (with_economic_identities_ok r o' p _ eq_refl) as (r' & -> & _) end. eauto. }
  unfold evaluate_scan.
  destruct (scan_target_total record o' (scan_timestamp clock a) a (scan_cycles a))
    as (next & updated & decay & diag & c & n1 & u1 & Hst & _ & _).
  rewrite Hst. cbn [bind_result].
  match goal with |- context [transition_record clock updated next ?ta] =>
    destruct (transition_record_total clock updated next ta) as [pre Hpre] end.
  { eapply scan_target_wf; [done|apply required_cycles_pos|exact Hst]. }
  { cbn [ta_now]. unfold scan_timestamp in *. by rewrite timestamp_or_idem. }
  rewrite Hpre. cbn [bind_result]. destruct (transition_record_some _ _ _ _ _ Hpre) as [out Hout].
  destruct (with_economic_identities_ok pre o' (Some record) out Hout) as (r' & -> & _). eauto.
Qed.

Lemma first_record_total a o ts rc s :
  py_upper (py_strip (o_symbol o)) <> "" -> (1 <= rc)%Z -> exists r, first_record a o ts rc s = Ok r.
Proof.
  intros Hs Hrc. unfold first_record. apply validate_record_total. constructor;
    cbn [r_symbol r_readiness_score r_quality_score r_confirmation_count r_required_confirmation_cycles
         r_decay_count r_symbol_health_penalty_cycles]; try done; try lia.
  - apply bounded_score_range. lia.
  - apply bounded_score_range. lia.
  - unfold first_confirmation_count. split_ifs; lia.
Qed.

Lemma evaluate_new_total clock a o :
  py_upper (py_strip (o_symbol o)) <> "" -> exists res, evaluate_new clock a o = Ok res.
Proof.
  intros Hs. unfold evaluate_new. fold (scan_timestamp clock a) (scan_cycles a).
  destruct (first_record_total a o (scan_timestamp clock a) (scan_cycles a)
    (first_state o (scan_cycles a)) Hs (required_cycles_pos _ _)) as [r0 Hr0].
  rewrite Hr0. cbn [bind_result]. unfold first_record in Hr0. apply validate_record_ok in Hr0 as [Hwf _].
  assert (exists failure, stored_plan_geometry_failure r0 = Ok failure) as [failure ->].
  { destruct (stored_plan_geometry_failure_total r0) as [(? & _ & ->)|(? & _ & ->)]; eauto. }
  cbn [bind_result].
  match goal with |- context [let '(_, _) := ?e in _] => destruct e as [init out] eqn:Eo end.
  assert (r_readiness_score out = r_readiness_score r0 /\ r_quality_score out = r_quality_score r0) as [E1 E2].
  { destruct failure; [destruct (state_in _ _)|]; injection Eo as <- <-; split; reflexivity. }
  match goal with |- context [validate_event ?e] => destruct (validate_event_total e) as [ev ->] end;
    [done|rewrite E1; apply (wf_readiness r0 Hwf)|rewrite E2; apply (wf_quality r0 Hwf)|].
  cbn [bind_result].
  match goal with |- context [with_economic_identities ?r o ?p] =>
    destruct (with_economic_identities_ok r o p _ eq_refl) as (r' & -> & _) end. eauto.
Qed.

Lemma evaluate_new_wf clock a o res r' :
  evaluate_new clock a o = Ok res -> tr_record res = Some r' ->
  record_wf r' /\ r_previous_state r' = None /\ In (r_current_state r') initial_states.
Proof.
  intros H Hr. apply evaluate_new_cases in H as (r0 & out & r1 & H0 & Hs & Hr1 & _ & _ & Hout).
  rewrite Hr in Hr1. injection Hr1 as <-. unfold first_record in H0.
  apply validate_record_ok in H0 as (Hwf & Hst & Hprev & _). cbn in Hst, Hprev.
  assert (record_wf out /\ r_previous_state out = None /\ In (r_current_state out) initial_states) as (W & P & I).
  { destruct Hout as [[-> _]|(f & _ & _ & ->)].
    - rewrite Hst. auto using first_state_range.
    - destruct Hwf. split; [by constructor|]. split; [exact Hprev|in_states]. }
  rewrite Hs. split; [by destruct W|]. split; [exact P|exact I].
Qed.

(** ** Reachable records *)

(** A record some sequence of scans can produce. *)
Inductive reachable : SetupLifecycleRecord -> Prop :=
| reach_first clock a o res r :
    evaluate_lifecycle_transition clock None o a = Ok res -> tr_record res = Some r -> reachable r
| reach_scan clock a o res r r' :
    reachable r ->
    evaluate_lifecycle_transition clock (Some r) o a = Ok res -> tr_record res = Some r' ->
    reachable r'.

(** The state and the state it was entered from fit the table. *)
Definition provenance (r : SetupLifecycleRecord) : Prop :=
  match r_previous_state r with
  | None => In (r_current_state r) initial_states
  | Some p => In (r_current_state r) (ALLOWED_TRANSITIONS p)
  end.

Lemma same_but_identity_provenance a b : same_but_identity a b -> provenance a -> provenance b.
Proof. intros ->. by destruct a. Qed.

Lemma evaluation_provenance clock a record o pre out :
  provenance record -> evaluation clock a record o pre out -> provenance out.
Proof.
  intros Hp He. unfold provenance in *.
  destruct (evaluation_state _ _ _ _ _ _ He) as [(_ & -> & ->)|(_ & _ & Hin & ->)]; done.
Qed.

Lemma reachable_invariant r : reachable r -> record_wf r /\ provenance r.
Proof.
  induction 1 as [clock a o res r H Hr|clock a o res r r' _ [Hwf Hp] H Hr].
  - destruct (evaluate_new_wf clock a o res r H Hr) as (Hwf & Hn & Hin). split; [done|].
    unfold provenance. by rewrite Hn.
  - simpl in H. apply evaluate_existing_cases in H as (pre & out & r1 & He & Hs & ->).
    injection Hr as <-. split.
    + eapply same_but_identity_wf; [exact Hs|]. by eapply evaluation_wf.
    + eapply same_but_identity_provenance; [exact Hs|]. by eapply evaluation_provenance.
Qed.
