(* ===== verification/OutcomeEvents.v ===== *)
(** * Outcome events (src/app/lifecycle/outcome_events.py)

    Milestone events, terminal transitions and the progression of a filled
    setup to MANAGING, with their writes to the repository. *)

From stdpp Require Import base tactics list strings.
From Stdlib Require Import ZArith NArith Lia Bool Ascii.
From S2P Require Import Prelude PyString PyDecimal PyTime PyJson LifecycleModels CandleIntegrity JsonText.
From S2P Require Import OutcomePolicy PlanVersionBinding RuntimeEpoch LifecycleRepository Breakeven StateMachine.
Open Scope string_scope.
Open Scope py_scope.
Open Scope tx_scope.

(** What the calls of one pass share: the wall clock of [transition_record],
    [evaluated_at], [scan_run_id] and the plan identity. *)
Record pass := mkPass {
  ps_clock : string;
  ps_evaluated_at : string;
  ps_scan_run_id : option string;
  ps_plan_identity : string
}.

Definition OUTCOME_SOURCE : string := "canonical_lifecycle_closed_execution_candles".

(** [_event_notes] *)
Definition event_notes (event_type : string) (causal : CausalCandle) (plan_identity policy_reason level : string)
    (evidence : list (string * json)) : string :=
  dumps (JObj (dict_merge
    [("candle_close_at", JStr (isoformat (cc_close_timestamp causal)));
     ("candle_open_at", JStr (isoformat (cc_open_timestamp causal)));
     ("event_type", JStr event_type);
     ("level", JStr level);
     ("plan_identity", JStr plan_identity);
     ("policy_reason", JStr policy_reason);
     ("source", JStr OUTCOME_SOURCE)] evidence)).

(** the arguments of [transition_record] that the outcome code passes *)
Definition outcome_args (p : pass) (reason : SetupTransitionReason) (notes : string) : transition_args :=
  {| ta_reason := reason; ta_now := Some (ps_evaluated_at p); ta_scan_run_id := ps_scan_run_id p;
     ta_readiness_score := None; ta_quality_score := None; ta_failed_gate := None; ta_notes := notes |}.

(** [if not transition.allowed or not transition.transitioned or transition.record is None] *)
Definition moved (t : SetupTransitionResult) : option SetupLifecycleRecord :=
  if tr_allowed t && tr_transitioned t then tr_record t else None.

(** the writes of a transition that moved *)
Definition persist_transition (record : SetupLifecycleRecord) (t : SetupTransitionResult) : tx unit :=
  do! _ := upsert_record record in
  match tr_event t with
  | Some event => insert_event event
  | None => ret tt
  end.

Definition next_managing_state (s : SetupLifecycleState) : option SetupLifecycleState :=
  match s with
  | WATCHLISTED | STALKING | ACTIONABLE_A_GRADE | A_GRADE_WATCH => Some TRIGGERED
  | TRIGGERED => Some CONFIRMED
  | CONFIRMED => Some EXECUTING
  | EXECUTING => Some MANAGING
  | _ => None
  end.

Definition entry_progression_reason (target : SetupLifecycleState) : SetupTransitionReason :=
  if state_eqb target TRIGGERED then ENTRY_ZONE_TOUCHED else ENTRY_FILL_SIMULATED.

(** the loop [for _ in range(4)] of [advance_to_managing] *)
Fixpoint advance_loop (rounds : nat) (current : SetupLifecycleRecord) (causal : CausalCandle) (p : pass)
    : tx (SetupLifecycleRecord * list SetupTransitionResult) :=
  match rounds with
  | O => ret (current, [])
  | S rounds' =>
      match next_managing_state (r_current_state current) with
      | None => ret (current, [])
      | Some target =>
          do! transition := lift (transition_record (ps_clock p) current target
            (outcome_args p (entry_progression_reason target)
               (event_notes "entry_state_progression" causal (ps_plan_identity p)
                  "simulated_price_contact; no exchange fill or user execution is verified" NA []))) in
          match moved transition with
          | None => ret (current, [])
          | Some record =>
              do! _ := persist_transition record transition in
              if state_eqb (r_current_state record) MANAGING then ret (record, [transition])
              else
                do! (final, others) := advance_loop rounds' record causal p in
                ret (final, transition :: others)
          end
      end
  end.

Definition advance_to_managing (record : SetupLifecycleRecord) (causal : CausalCandle) (p : pass)
    : tx (SetupLifecycleRecord * option SetupTransitionResult * list SetupTransitionResult) :=
  do! (final, transitions) := advance_loop 4 record causal p in
  ret (final, last transitions, transitions).

Definition record_terminal_transition (record : SetupLifecycleRecord) (to_state : SetupLifecycleState)
    (reason : SetupTransitionReason) (event_type : string) (causal : CausalCandle) (p : pass)
    (policy_reason level : string) : tx (SetupLifecycleRecord * SetupTransitionResult) :=
  do! transition := lift (transition_record (ps_clock p) record to_state
    (outcome_args p reason
       (event_notes event_type causal (ps_plan_identity p) policy_reason level []))) in
  match moved transition with
  | None => lift (Raise (ValueError ("outcome_transition_rejected:"
      +:+ state_value (r_current_state record) +:+ "->" +:+ state_value to_state)))
  | Some updated =>
      do! _ := persist_transition updated transition in
      ret (updated, transition)
  end.

Definition record_stop (record : SetupLifecycleRecord) (progress : SetupLifecycleOutcomeProgress)
    (g : StoredPlanGeometry) (causal : CausalCandle) (p : pass) (ambiguity_reason : string)
    (breakeven : bool) : tx (SetupLifecycleRecord * SetupTransitionResult * SetupLifecycleOutcomeProgress) :=
  let outcome := if breakeven then BREAKEVEN else SL_HIT in
  do! (updated, transition) := record_terminal_transition record outcome
    (if breakeven then BREAKEVEN_STOP_HIT else STOP_LOSS_HIT)
    (if breakeven then "terminal_breakeven" else "terminal_sl_hit") causal p ambiguity_reason
    (dec_to_string (if breakeven then reference_price g else g_stop_loss g)) in
  let candle_close := isoformat (cc_close_timestamp causal) in
  ret (updated, transition,
       progress <| pg_stop_at := Some candle_close |> <| pg_outcome_at := Some candle_close |>
                <| pg_terminal_outcome := state_value outcome |>).

Definition insert_milestone_event (record : SetupLifecycleRecord) (reason : SetupTransitionReason)
    (event_type : string) (causal : CausalCandle) (p : pass) (level : string)
    (evidence : list (string * json)) : tx unit :=
  do! event := lift (validate_event {|
    ev_lifecycle_id := r_lifecycle_id record;
    ev_timestamp := ps_evaluated_at p;
    ev_symbol := r_symbol record;
    ev_from_state := Some (r_current_state record);
    ev_to_state := r_current_state record;
    ev_reason := reason;
    ev_scan_run_id := ps_scan_run_id p;
    ev_readiness_score := r_readiness_score record;
    ev_quality_score := r_quality_score record;
    ev_failed_gate := NA;
    ev_notes := event_notes event_type causal (ps_plan_identity p) NA level evidence |}) in
  insert_event event.

(** [target_reason]; the number is 1, 2 or 3 *)
Definition target_reason (target_number : Z) : SetupTransitionReason :=
  if (target_number =? 1)%Z then TP1_MILESTONE
  else if (target_number =? 2)%Z then TP2_MILESTONE else TP3_MILESTONE.
