(* ===== verification/Outcomes.v ===== *)
(** * Closed-candle outcomes (src/app/lifecycle/outcomes.py)

    One pass over the closed execution candles of a setup: it finds or creates
    the setup's outcome progress, establishes where tracking starts, and runs the
    candles after the cursor through entry, stop, breakeven and targets.  All
    times are UTC datetimes; durations are microseconds. *)

From stdpp Require Import base tactics list strings.
From Stdlib Require Import ZArith NArith Lia Bool Ascii.
From S2P Require Import Prelude PyString PyDecimal PyTime PyJson LifecycleModels CandleIntegrity JsonText.
From S2P Require Import OutcomePolicy EconomicIdentity PlanVersionBinding RuntimeEpoch LifecycleRepository.
From S2P Require Import Breakeven PrefixEvidence StateMachine OutcomeEvents.
Open Scope string_scope.
Open Scope py_scope.
Open Scope tx_scope.

Definition OUTCOME_ELIGIBLE_STATES : list SetupLifecycleState :=
  [WATCHLISTED; STALKING; TRIGGERED; CONFIRMED; ACTIONABLE_A_GRADE; A_GRADE_WATCH; EXECUTING; MANAGING].
Definition TERMINAL_OUTCOME_STATES : list SetupLifecycleState :=
  [TP_HIT; SL_HIT; BREAKEVEN; INVALIDATED; EXPIRED].
Definition INTEGRITY_VERIFIED : string := "Verified".
Definition INTEGRITY_UNVERIFIED : string := "Unverified".
Definition INTEGRITY_FAILED : string := "Failed".
Definition ENTRY_CAUSALITY_CONTRACT : string := "fully_post_boundary_closed_candle_v1".
Definition ENTRY_EVIDENCE_TYPE : string := "fully_post_boundary_closed_execution_candle_range".

Record LifecycleOutcomeEvaluation := mkEvaluation {
  le_record : SetupLifecycleRecord;
  le_progress : option SetupLifecycleOutcomeProgress;
  le_last_transition : option SetupTransitionResult;
  le_transitions : list SetupTransitionResult;
  le_processed_candles : nat
}.

(** a pass that recorded nothing new *)
Definition unprocessed (record : SetupLifecycleRecord) (progress : option SetupLifecycleOutcomeProgress)
    : LifecycleOutcomeEvaluation := mkEvaluation record progress None [] 0.

(** [_text] of a decoded value *)
Definition json_op_text (v : json) : string :=
  match v with JNull => NA | _ => op_text (json_str v) end.

(** the first stored progress of the plan's identities *)
Fixpoint first_progress (db : database) (lifecycle_id : string) (identities : list string)
    : result (option SetupLifecycleOutcomeProgress) :=
  match identities with
  | [] => Ok None
  | identity :: rest =>
      let! candidate := get_outcome_progress db lifecycle_id identity in
      match candidate with Some p => Ok (Some p) | None => first_progress db lifecycle_id rest end
  end.

(** ** Boundaries *)

(** [elapsed // duration] periods after the anchor, or one more *)
Definition aligned_at_or_after (anchor boundary : datetime) (duration : Z) : result datetime :=
  let periods := ((instant boundary - instant anchor) / duration)%Z in
  let! candidate := add_us anchor (duration * periods)%Z in
  if (instant candidate <? instant boundary)%Z then add_us candidate duration else Ok candidate.

(** [_first_fully_post_boundary_open] *)
Definition first_fully_post_boundary_open (boundary earliest_open : datetime) (duration : Z) : result datetime :=
  if (instant boundary <=? instant earliest_open)%Z then Ok earliest_open
  else aligned_at_or_after earliest_open boundary duration.

(** [_first_aligned_open_at_or_after] *)
Definition first_aligned_open_at_or_after (boundary anchor : datetime) (duration : Z) : result datetime :=
  aligned_at_or_after anchor boundary duration.

Definition missing_history (boundary earliest_open : datetime) : exn :=
  ValueError ("missing_execution_candle_history:tracking_boundary_at=" +:+ isoformat boundary
                +:+ " earliest_open=" +:+ isoformat earliest_open).

(** re-raise a [ValueError] with a prefix *)
Definition prefixed {A} (prefix : string) (r : result A) : result A :=
  match r with
  | Ok a => Ok a
  | Raise e => match value_error_text e with Some msg => Raise (ValueError (prefix +:+ msg)) | None => Raise e end
  end.

(** [_entry_tracking_boundary] *)
Definition entry_tracking_boundary (db : database) (record : SetupLifecycleRecord)
    (progress : SetupLifecycleOutcomeProgress) (evaluated_at : string) (compatible_identities : list string)
    : result (datetime * string) :=
  let! (confirmation_value, confirmation_source) :=
    match r_confirmed_at record with
    | Some v => if String.eqb v "" || String.eqb (op_text v) NA then Ok (None, "") else Ok (Some v, "lifecycle_confirmed_at")
    | None => Ok (None, "")
    end in
  let! (confirmation_value, confirmation_source) :=
    match confirmation_value with
    | Some v => Ok (v, confirmation_source)
    | None =>
        let! events := list_events db (r_lifecycle_id record) in
        match find (fun e => state_eqb (ev_to_state e) CONFIRMED) events with
        | None => Raise (ValueError "missing_entry_tracking_confirmation_boundary")
        | Some e => Ok (ev_timestamp e, "lifecycle_confirmed_event")
        end
    end in
  let! confirmation := prefixed "invalid_entry_tracking_confirmation_boundary:"
    (utc (Some confirmation_value) "entry_tracking_confirmation_boundary") in
  let! rows := list_outcome_progress db (r_lifecycle_id record) in
  match List.filter (fun p => negb (str_in (pg_plan_identity p) compatible_identities)) rows with
  | [] => Ok (confirmation, confirmation_source)
  | _ =>
      let material_value := if String.eqb (pg_first_evaluated_at progress) "" then evaluated_at
                            else pg_first_evaluated_at progress in
      let! material := prefixed "invalid_material_plan_tracking_boundary:"
        (utc (Some material_value) "material_plan_first_evaluated_at") in
      Ok (if (instant confirmation <? instant material)%Z
          then (material, "material_plan_first_evaluated_at_after_confirmation")
          else (confirmation, confirmation_source))
  end.

(** where tracking starts, with the description of its boundary *)
Record tracking := mkTracking {
  tk_start : datetime;
  tk_boundary_timestamp : string;
  tk_boundary_source : string;
  tk_eligibility : string;
  tk_diagnostic : string
}.

Definition PARTIAL_BOUNDARY : string := "partial_boundary_candle_not_entry_eligible".

(** [_tracking_start_boundary] *)
Definition tracking_start_boundary (db : database) (record : SetupLifecycleRecord)
    (progress : SetupLifecycleOutcomeProgress) (earliest_open : datetime) (evaluated_at : string)
    (compatible_identities : list string) (execution_timeframe : string) : result tracking :=
  let! (boundary, source) := entry_tracking_boundary db record progress evaluated_at compatible_identities in
  if (instant boundary <? instant earliest_open)%Z then Raise (missing_history boundary earliest_open) else
  let! duration := timeframe_duration execution_timeframe in
  let! start := first_fully_post_boundary_open boundary earliest_open duration in
  let (eligibility, diagnostic) :=
    if (instant earliest_open <=? instant boundary)%Z && (instant boundary <? instant start)%Z
    then ("partially_overlapping_boundary", PARTIAL_BOUNDARY)
    else if (instant start =? instant boundary)%Z then ("boundary_exactly_at_candle_open", NA)
    else ("fully_post_boundary_history_start", NA) in
  Ok (mkTracking start (isoformat boundary) source eligibility diagnostic).

(** the start of tracking of a plan recorded before the entry contract *)
Definition adopted_tracking (db : database) (record : SetupLifecycleRecord)
    (progress : SetupLifecycleOutcomeProgress) (earliest_open : datetime) (evaluated_at : string)
    (compatible_identities : list string) (execution_timeframe : string) : result tracking :=
  let! (boundary, source) := entry_tracking_boundary db record progress evaluated_at compatible_identities in
  let! duration := timeframe_duration execution_timeframe in
  let! (first, start) :=
    match pg_evaluation_cursor_open_at progress with
    | None =>
        if (instant boundary <? instant earliest_open)%Z then Raise (missing_history boundary earliest_open) else
        let! first := first_fully_post_boundary_open boundary earliest_open duration in
        Ok (first, first)
    | Some cursor =>
        let! cursor_open := utc (Some cursor) "evaluation_cursor_open_at" in
        let! first := first_aligned_open_at_or_after boundary cursor_open duration in
        let! next := add_us cursor_open duration in
        Ok (first, later next first)
    end in
  let (eligibility, diagnostic) :=
    if (instant first =? instant boundary)%Z then ("boundary_exactly_at_candle_open", NA)
    else ("partially_overlapping_boundary", PARTIAL_BOUNDARY) in
  Ok (mkTracking start (isoformat boundary) source eligibility diagnostic).

Section Evaluate.
Context `{JsonErrors}.

(** ** Progress updates *)

(** [_new_progress] *)
Definition new_progress (record : SetupLifecycleRecord) (plan_identity execution_timeframe evaluated_at : string)
    : result SetupLifecycleOutcomeProgress :=
  let! binding := initial_plan_version_binding record in
  let! proven := proven_progress_plan_version_id record in
  validate_progress {|
    pg_lifecycle_id := r_lifecycle_id record; pg_plan_identity := plan_identity;
    pg_symbol := r_symbol record; pg_mode := r_mode record; pg_direction := r_direction record;
    pg_execution_timeframe := py_lower (op_text execution_timeframe);
    pg_tracking_start_at := None; pg_evaluation_cursor_open_at := None;
    pg_evaluation_cursor_close_at := None; pg_entry_at := None; pg_tp1_at := None; pg_tp2_at := None;
    pg_tp3_at := None; pg_stop_at := None; pg_invalidated_at := None; pg_outcome_at := None;
    pg_terminal_outcome := NA; pg_integrity_status := NA; pg_diagnostic := NA;
    pg_metadata_json := dumps (JObj
      [("ambiguity_policy", JStr "conservative_stop_wins");
       ("entry_causality_contract", JStr ENTRY_CAUSALITY_CONTRACT);
       ("plan_identity", JStr plan_identity);
       ("plan_version_binding", JStr binding);
       ("processed_candle_count", JInt 0);
       ("source", JStr OUTCOME_SOURCE)]);
    pg_first_evaluated_at := evaluated_at; pg_last_evaluated_at := evaluated_at;
    pg_plan_version_id := proven; pg_last_eligibility_decision_at := None;
    pg_last_eligibility_prefix_evidence_json := None; pg_eligibility_cutoff_observed := false |}.

(** [value or default] of a nullable text *)
Definition text_or (value : option string) (default : string) : string :=
  match value with Some v => if String.eqb v "" then default else v | None => default end.

(** [_terminal_progress_for_record] *)
Definition terminal_progress_for_record (record : SetupLifecycleRecord)
    (progress : option SetupLifecycleOutcomeProgress) (plan_identity execution_timeframe evaluated_at : string)
    : result SetupLifecycleOutcomeProgress :=
  let! progress := match progress with
                   | Some p => Ok p
                   | None => new_progress record plan_identity execution_timeframe evaluated_at
                   end in
  let updated := progress
    <| pg_terminal_outcome := state_value (r_current_state record) |>
    <| pg_outcome_at := Some (text_or (pg_outcome_at progress) (r_last_transition_at record)) |>
    <| pg_last_evaluated_at := evaluated_at |> in
  let updated := if state_eqb (r_current_state record) INVALIDATED
                 then updated <| pg_invalidated_at :=
                        Some (text_or (pg_invalidated_at progress) (r_last_transition_at record)) |>
                 else updated in
  Ok (if String.eqb (pg_integrity_status progress) NA
      then updated <| pg_integrity_status := INTEGRITY_UNVERIFIED |>
                   <| pg_diagnostic := "terminal_state_preceded_canonical_outcome_cursor" |>
      else updated).

(** [_integrity_failure] *)
Definition integrity_failure (progress : SetupLifecycleOutcomeProgress) (status diagnostic evaluated_at : string)
    : result SetupLifecycleOutcomeProgress :=
  let! fields := metadata progress in
  Ok (with_metadata (progress <| pg_integrity_status := status |> <| pg_diagnostic := diagnostic |>
                              <| pg_last_evaluated_at := evaluated_at |>)
        (dict_set "last_integrity_diagnostic" (JStr diagnostic) fields)).

(** [_with_tracking_start] *)
Definition with_tracking_start (progress : SetupLifecycleOutcomeProgress) (t : tracking)
    : result SetupLifecycleOutcomeProgress :=
  let! fields := metadata progress in
  let start := isoformat (tk_start t) in
  Ok (with_metadata (progress <| pg_tracking_start_at := Some start |>)
        (dict_merge fields
           [("tracking_boundary_source", JStr (tk_boundary_source t));
            ("tracking_boundary_timestamp", JStr (tk_boundary_timestamp t));
            ("boundary_candle_eligibility_decision", JStr (tk_eligibility t));
            ("boundary_diagnostic", JStr (tk_diagnostic t));
            ("entry_causality_contract", JStr ENTRY_CAUSALITY_CONTRACT);
            ("tracking_start_at", JStr start)])).

(** [_with_cursor] with the default diagnostic and one candle *)
Definition with_cursor (progress : SetupLifecycleOutcomeProgress) (causal : CausalCandle) (evaluated_at : string)
    : result SetupLifecycleOutcomeProgress :=
  let! fields := metadata progress in
  let! count := if dict_mem "processed_candle_count" fields
                then json_int (json_get "processed_candle_count" fields) else Ok 0%Z in
  let opened := isoformat (cc_open_timestamp causal) in
  let closed := isoformat (cc_close_timestamp causal) in
  let fields := dict_set "processed_candle_count" (JInt (count + 1)) fields in
  let fields := dict_set "last_candle_open_at" (JStr opened) fields in
  let fields := dict_set "last_candle_close_at" (JStr closed) fields in
  Ok (with_metadata (progress <| pg_evaluation_cursor_open_at := Some opened |>
                              <| pg_evaluation_cursor_close_at := Some closed |>
                              <| pg_integrity_status := INTEGRITY_VERIFIED |>
                              <| pg_diagnostic := NA |>
                              <| pg_last_evaluated_at := evaluated_at |>) fields).

(** [_entry_evidence] *)
Definition entry_evidence (record : SetupLifecycleRecord) (progress : SetupLifecycleOutcomeProgress)
    (causal : CausalCandle) (high low : dec) (g : StoredPlanGeometry) (entry_at evaluated_at : string)
    : result (list (string * json)) :=
  let! fields := metadata progress in
  Ok [("lifecycle_id", JStr (r_lifecycle_id record));
      ("symbol", JStr (r_symbol record));
      ("direction", JStr (r_direction record));
      ("entry_low", JStr (op_text (dec_to_string (g_entry_low g))));
      ("entry_high", JStr (op_text (dec_to_string (g_entry_high g))));
      ("tracking_boundary_timestamp", JStr (json_op_text (json_get "tracking_boundary_timestamp" fields)));
      ("tracking_boundary_source", JStr (json_op_text (json_get "tracking_boundary_source" fields)));
      ("causal_candle_open", JStr (isoformat (cc_open_timestamp causal)));
      ("causal_candle_close", JStr (isoformat (cc_close_timestamp causal)));
      ("candle_high", JStr (op_text (dec_to_string high)));
      ("candle_low", JStr (op_text (dec_to_string low)));
      ("entry_evidence_type", JStr ENTRY_EVIDENCE_TYPE);
      ("execution_semantics", JStr "simulated_price_contact");
      ("exchange_fill_verified", JStr "false");
      ("user_execution_confirmed", JStr "false");
      ("structural_confirmation_from_touch", JStr "false");
      ("economic_plan_version_id", JStr (text_or (r_plan_version_id record) NA));
      ("entry_evidence_eligibility_decision", JStr "fully_post_boundary");
      ("entry_at", JStr entry_at);
      ("evaluated_at", JStr evaluated_at)].

(** [_with_entry_evidence] *)
Definition with_entry_evidence (progress : SetupLifecycleOutcomeProgress) (entry_at : string)
    (evidence : list (string * json)) : result SetupLifecycleOutcomeProgress :=
  let! fields := metadata progress in
  Ok (with_metadata (progress <| pg_entry_at := Some entry_at |>) (dict_merge fields evidence)).

(** [_write_progress] *)
Definition write_progress (progress : SetupLifecycleOutcomeProgress) (evidence : option PrefixPassEvidence)
    (disposition : option string) : tx SetupLifecycleOutcomeProgress :=
  do! progress := lift (match evidence with
                        | Some e => bind_prefix_disposition progress e disposition
                        | None => Ok progress
                        end) in
  do! _ := upsert_outcome_progress progress in
  ret progress.

(** [_with_applied_eligibility_cutoff] *)
Definition with_applied_eligibility_cutoff (progress : SetupLifecycleOutcomeProgress)
    (window : ClosedCandleWindow) : SetupLifecycleOutcomeProgress :=
  progress <| pg_last_eligibility_decision_at := Some (isoformat (cw_decision_timestamp window)) |>
           <| pg_eligibility_cutoff_observed := true |>
           <| pg_last_eligibility_prefix_evidence_json := None |>.

(** ** The candle loop *)

Record loop_state := mkLoop {
  ls_record : SetupLifecycleRecord;
  ls_progress : SetupLifecycleOutcomeProgress;
  ls_evidence : PrefixPassEvidence;
  ls_last : option SetupTransitionResult;
  ls_transitions : list SetupTransitionResult;
  ls_processed : nat;
  ls_aborted : bool
}.
#[export] Instance loop_state_eta : RecordEta loop_state := fun s =>
  mkLoop (ls_record s) (ls_progress s) (ls_evidence s) (ls_last s) (ls_transitions s) (ls_processed s)
    (ls_aborted s).

(** advance the cursor past a candle and count it as completed *)
Definition complete_candle (p : pass) (causal : CausalCandle) (s : loop_state) : result loop_state :=
  let! progress := with_cursor (ls_progress s) causal (ps_evaluated_at p) in
  Ok (s <| ls_progress := progress |> <| ls_evidence := record_completed (ls_evidence s) causal |>).

(** the stop of a filled plan *)
Definition stop_candle (p : pass) (g : StoredPlanGeometry) (causal : CausalCandle) (ambiguity : string)
    (breakeven : bool) (s : loop_state) : tx loop_state :=
  do! (record, transition, progress) :=
    record_stop (ls_record s) (ls_progress s) g causal p ambiguity breakeven in
  ret (s <| ls_record := record |> <| ls_progress := progress |> <| ls_last := Some transition |>
         <| ls_transitions := (ls_transitions s ++ [transition])%list |>).

(** a candle before the entry: the fill, its progression to MANAGING, and the
    conservative stop of the same candle *)
Definition entry_candle (p : pass) (g : StoredPlanGeometry) (causal : CausalCandle) (high low : dec)
    (s : loop_state) : tx loop_state :=
  let candle_close := isoformat (cc_close_timestamp causal) in
  do! s :=
    (if negb (entry_touched high low g) then ret s else
     do! evidence := lift (entry_evidence (ls_record s) (ls_progress s) causal high low g candle_close
                             (ps_evaluated_at p)) in
     do! progress := lift (with_entry_evidence (ls_progress s) candle_close evidence) in
     do! _ := insert_milestone_event (ls_record s) ENTRY_ACTIVATED "entry_activated" causal p
                (dec_to_string (g_entry_low g) +:+ ":" +:+ dec_to_string (g_entry_high g)) evidence in
     do! (record, transition, transitions) := advance_to_managing (ls_record s) causal p in
     let s := s <| ls_record := record |> <| ls_progress := progress |>
                <| ls_transitions := (ls_transitions s ++ transitions)%list |>
                <| ls_last := match transition with Some t => Some t | None => ls_last s end |> in
     if negb (state_eqb (r_current_state record) MANAGING) then
       do! failed := lift (integrity_failure progress INTEGRITY_FAILED
         ("entry_state_progression_failed:state=" +:+ state_value (r_current_state record))
         (ps_evaluated_at p)) in
       ret (s <| ls_progress := failed |> <| ls_aborted := true |>)
     else if stop_touched high low g
     then stop_candle p g causal "entry_and_stop_same_candle_stop_wins" false s
     else ret s) in
  if ls_aborted s then ret s else lift (complete_candle p causal s).

(** [progress.model_copy(update={f"tp{target_number}_at": candle_close})] *)
Definition set_target_at (number : Z) (at_ : string) (progress : SetupLifecycleOutcomeProgress)
    : SetupLifecycleOutcomeProgress :=
  if (number =? 1)%Z then progress <| pg_tp1_at := Some at_ |>
  else if (number =? 2)%Z then progress <| pg_tp2_at := Some at_ |>
  else progress <| pg_tp3_at := Some at_ |>.

Fixpoint record_targets (p : pass) (causal : CausalCandle) (touched : list (Z * dec)) (s : loop_state)
    : tx loop_state :=
  match touched with
  | [] => ret s
  | (number, target) :: rest =>
      let s := s <| ls_progress := set_target_at number (isoformat (cc_close_timestamp causal)) (ls_progress s) |> in
      do! _ := insert_milestone_event (ls_record s) (target_reason number)
                 ("tp" +:+ string_of_Z number +:+ "_hit") causal p (dec_to_string target) [] in
      record_targets p causal rest s
  end.

(** the take-profit outcome once the third target is recorded *)
Definition take_profit (p : pass) (causal : CausalCandle) (s : loop_state) : tx loop_state :=
  match pg_tp3_at (ls_progress s) with
  | None => ret s
  | Some _ =>
      do! (record, transition) := record_terminal_transition (ls_record s) TP_HIT TAKE_PROFIT_HIT
                                    "terminal_tp_hit" causal p NA NA in
      ret (s <| ls_record := record |> <| ls_last := Some transition |>
             <| ls_transitions := (ls_transitions s ++ [transition])%list |>
             <| ls_progress := (ls_progress s) <| pg_terminal_outcome := state_value TP_HIT |>
                  <| pg_outcome_at := Some (isoformat (cc_close_timestamp causal)) |> |>)
  end.

(** a candle after the entry: the stop, or the targets it reaches *)
Definition managed_candle (p : pass) (g : StoredPlanGeometry) (causal : CausalCandle) (high low : dec)
    (s : loop_state) : tx loop_state :=
  let touched := newly_touched_targets high low g (ls_progress s) in
  do! active := lift (protection_active (ls_progress s) (CDatetime (cc_open_timestamp causal))) in
  do! s :=
    (if (if active then reference_stop_touched high low g else stop_touched high low g) then
       stop_candle p g causal
         (match touched with [] => NA | _ => "post_entry_stop_and_target_same_candle_stop_wins" end) active s
     else
       do! s := record_targets p causal touched s in
       take_profit p causal s) in
  lift (complete_candle p causal s).

Definition candle_step (p : pass) (g : StoredPlanGeometry) (c : CausalCandle * (dec * dec)) (s : loop_state)
    : tx loop_state :=
  let '(causal, (high, low)) := c in
  let s := s <| ls_processed := S (ls_processed s) |> in
  match pg_entry_at (ls_progress s) with
  | None => entry_candle p g causal high low s
  | Some _ => managed_candle p g causal high low s
  end.

(** the loop ends on an abort or on a terminal outcome *)
Definition loop_done (s : loop_state) : bool :=
  ls_aborted s || negb (String.eqb (pg_terminal_outcome (ls_progress s)) NA).

Fixpoint candle_loop (p : pass) (g : StoredPlanGeometry) (pending : list (CausalCandle * (dec * dec)))
    (s : loop_state) : tx loop_state :=
  match pending with
  | [] => ret s
  | c :: rest =>
      do! s := candle_step p g c s in
      if loop_done s then ret s else candle_loop p g rest s
  end.

Definition loop_disposition (s : loop_state) : string :=
  if ls_aborted s then DISPOSITION_PROCESSING_ABORTED
  else if negb (String.eqb (pg_terminal_outcome (ls_progress s)) NA) then DISPOSITION_POLICY_TERMINAL
  else DISPOSITION_PENDING_SUFFIX_EXHAUSTED.

(** the loop over the pending candles and the writes after it *)
Definition run_pending (p : pass) (g : StoredPlanGeometry) (record : SetupLifecycleRecord)
    (progress : SetupLifecycleOutcomeProgress) (evidence : PrefixPassEvidence)
    (pending : list (CausalCandle * (dec * dec))) : tx LifecycleOutcomeEvaluation :=
  do! s := candle_loop p g pending (mkLoop record progress evidence None [] 0 false) in
  do! _ := upsert_record (ls_record s) in
  do! progress := write_progress (ls_progress s) (Some (ls_evidence s)) (Some (loop_disposition s)) in
  ret (mkEvaluation (ls_record s) (Some progress) (ls_last s) (ls_transitions s) (ls_processed s)).

(** ** The pass *)

(** record an integrity failure and end the pass *)
Definition blocked (record : SetupLifecycleRecord) (progress : SetupLifecycleOutcomeProgress)
    (evidence : option PrefixPassEvidence) (status diagnostic evaluated_at disposition : string)
    : tx LifecycleOutcomeEvaluation :=
  do! progress := lift (integrity_failure progress status diagnostic evaluated_at) in
  do! progress := write_progress progress evidence (Some disposition) in
  ret (unprocessed record (Some progress)).

(** run [k] on the result, or end the pass when it raised a [ValueError] *)
Definition or_blocked {A} (r : result A) (fail : string -> tx LifecycleOutcomeEvaluation)
    (k : A -> tx LifecycleOutcomeEvaluation) : tx LifecycleOutcomeEvaluation :=
  match r with
  | Ok a => k a
  | Raise e => match value_error_text e with Some msg => fail msg | None => lift (Raise e) end
  end.

(** what the pass is about, once its window is known *)
Record pass_input := mkInput {
  in_pass : pass;
  in_record : SetupLifecycleRecord;
  in_geometry : StoredPlanGeometry;
  in_timeframe : string;
  in_identities : list string;
  in_timeline : list CausalCandle;
  in_earliest_open : datetime;
  in_latest_open : datetime;
  in_ranges : list (dec * dec)
}.

(** the candles from [expected_open] on, and what is done with them *)
Definition process_pending (i : pass_input) (progress : SetupLifecycleOutcomeProgress)
    (evidence : PrefixPassEvidence) (fresh_cursor : bool) (tracking_start expected_open : datetime)
    : tx LifecycleOutcomeEvaluation :=
  let record := in_record i in
  let evaluated_at := ps_evaluated_at (in_pass i) in
  let pending := List.filter (fun c => (instant expected_open <=? instant (cc_open_timestamp (fst c)))%Z)
                   (combine (in_timeline i) (in_ranges i)) in
  let evidence := mark_pending evidence (map fst pending) (Some expected_open) in
  let fail diagnostic := blocked record progress (Some evidence) INTEGRITY_UNVERIFIED diagnostic evaluated_at
                           DISPOSITION_POST_FILTER_BLOCKED in
  let verified diagnostic disposition :=
    do! progress := write_progress
      (progress <| pg_integrity_status := INTEGRITY_VERIFIED |> <| pg_diagnostic := diagnostic |>
                <| pg_last_evaluated_at := evaluated_at |>) (Some evidence) (Some disposition) in
    ret (unprocessed record (Some progress)) in
  match pending with
  | [] =>
      if fresh_cursor then
        if (instant (in_latest_open i) <? instant tracking_start)%Z then
          do! fields := lift (metadata progress) in
          verified (if dict_mem "boundary_diagnostic" fields
                    then json_str (json_get "boundary_diagnostic" fields)
                    else "awaiting_first_fully_post_boundary_candle") DISPOSITION_WAITING_FOR_TRACKING_START
        else fail ("missing_execution_candle_history:tracking_start_at=" +:+ isoformat tracking_start
                     +:+ " latest_open=" +:+ isoformat (in_latest_open i))
      else verified NA DISPOSITION_NO_NEW_PENDING_CANDLES
  | (first, _) :: _ =>
      if negb (instant (cc_open_timestamp first) =? instant expected_open)%Z then
        fail ("missing_execution_candle_history:expected_open=" +:+ isoformat expected_open
                +:+ " received_open=" +:+ isoformat (cc_open_timestamp first))
      else run_pending (in_pass i) (in_geometry i) record progress evidence pending
  end.

(** from the tracking start to the pending candles *)
Definition process_tracked (i : pass_input) (progress : SetupLifecycleOutcomeProgress)
    (evidence : PrefixPassEvidence) (fresh_cursor : bool) : tx LifecycleOutcomeEvaluation :=
  let fail status diagnostic :=
    blocked (in_record i) progress (Some evidence) status diagnostic (ps_evaluated_at (in_pass i))
      DISPOSITION_POST_FILTER_BLOCKED in
  or_blocked (utc (pg_tracking_start_at progress) "tracking_start_at")
    (fun msg => fail INTEGRITY_FAILED ("invalid_persisted_tracking_start:" +:+ msg))
    (fun tracking_start =>
  if fresh_cursor then process_pending i progress evidence true tracking_start tracking_start else
  or_blocked (utc (pg_evaluation_cursor_open_at progress) "evaluation_cursor_open_at")
    (fun msg => fail INTEGRITY_FAILED ("invalid_persisted_evaluation_cursor:" +:+ msg))
    (fun cursor_open =>
  if (instant (in_latest_open i) <? instant cursor_open)%Z
  then fail INTEGRITY_UNVERIFIED ("stale_execution_candle_history:latest=" +:+ isoformat (in_latest_open i)
                                    +:+ " cursor=" +:+ isoformat cursor_open)
  else
    do! duration := lift (timeframe_duration (in_timeframe i)) in
    do! next := lift (add_us cursor_open duration) in
    process_pending i progress evidence false tracking_start (later next tracking_start))).

(** establish the tracking start where the progress has none *)
Definition start_tracking (i : pass_input) (progress : SetupLifecycleOutcomeProgress)
    (evidence : PrefixPassEvidence) : tx LifecycleOutcomeEvaluation :=
  let fresh_cursor := match pg_evaluation_cursor_open_at progress with None => true | Some _ => false end in
  let fail status diagnostic :=
    blocked (in_record i) progress (Some evidence) status diagnostic (ps_evaluated_at (in_pass i))
      DISPOSITION_POST_FILTER_BLOCKED in
  match pg_tracking_start_at progress, pg_evaluation_cursor_open_at progress with
  | Some _, _ => process_tracked i progress evidence fresh_cursor
  | None, None => fun db =>
      or_blocked (tracking_start_boundary db (in_record i) progress (in_earliest_open i)
                    (ps_evaluated_at (in_pass i)) (in_identities i) (in_timeframe i))
        (fail INTEGRITY_UNVERIFIED)
        (fun t => do! progress := lift (with_tracking_start progress t) in
                  process_tracked i progress evidence fresh_cursor) db
  | None, Some cursor =>
      or_blocked (utc (Some cursor) "evaluation_cursor_open_at")
        (fun msg => fail INTEGRITY_FAILED ("invalid_persisted_evaluation_cursor:" +:+ msg))
        (fun existing =>
           do! progress := lift (with_tracking_start progress
             (mkTracking existing cursor "existing_cursor_v19_backfill" "legacy_entry_already_persisted" NA)) in
           process_tracked i progress evidence fresh_cursor)
  end.

(** a plan without an entry and without the entry contract adopts it *)
Definition adopt_contract (i : pass_input) (progress : SetupLifecycleOutcomeProgress)
    (evidence : PrefixPassEvidence) : tx LifecycleOutcomeEvaluation :=
  match pg_entry_at progress with
  | Some _ => start_tracking i progress evidence
  | None =>
  do! fields := lift (metadata progress) in
  if json_is_str (json_get "entry_causality_contract" fields) ENTRY_CAUSALITY_CONTRACT
  then start_tracking i progress evidence
  else fun db =>
      or_blocked (adopted_tracking db (in_record i) progress (in_earliest_open i)
                    (ps_evaluated_at (in_pass i)) (in_identities i) (in_timeframe i))
        (fun msg => blocked (in_record i) progress (Some evidence) INTEGRITY_UNVERIFIED msg
                      (ps_evaluated_at (in_pass i)) DISPOSITION_POST_FILTER_BLOCKED)
        (fun t =>
           do! progress := lift (with_tracking_start progress t) in
           do! fields := lift (metadata progress) in
           let fields := dict_merge fields
             [("entry_causality_migration", JStr "legacy_unfilled_cursor_adopted_prospectively");
              ("entry_causality_prospective_start_at", JStr (isoformat (tk_start t)))] in
           let fields := match pg_evaluation_cursor_open_at progress with
                         | Some cursor => dict_set "legacy_evaluation_cursor_open_at_preserved" (JStr cursor) fields
                         | None => fields
                         end in
           start_tracking i (with_metadata progress fields) evidence) db
  end.

(** the closed window of the pass and the ranges of its candles *)
Definition evaluate_window (p : pass) (record : SetupLifecycleRecord) (g : StoredPlanGeometry)
    (identities : list string) (execution_candles : list candle) (timeframe : string) (decision : cval)
    (progress : SetupLifecycleOutcomeProgress) : tx LifecycleOutcomeEvaluation :=
  let fail progress evidence msg :=
    blocked record progress evidence INTEGRITY_UNVERIFIED msg (ps_evaluated_at p)
      DISPOSITION_POST_FILTER_BLOCKED in
  or_blocked (closed_candles_as_of execution_candles timeframe decision 0 true true false)
    (fail progress None)
    (fun window =>
  let progress := with_applied_eligibility_cutoff progress window in
  let evidence := start_prefix_pass_evidence progress window timeframe in
  or_blocked (all_from_rows candle_range (cw_timeline window)) (fail progress (Some evidence))
    (fun ranges =>
  match cw_timeline window with
  | [] => blocked record progress (Some evidence) INTEGRITY_UNVERIFIED
            "no_closed_execution_candles_at_decision_boundary" (ps_evaluated_at p)
            DISPOSITION_NO_ELIGIBLE_CLOSED_CANDLES
  | first :: _ =>
      adopt_contract
        {| in_pass := p; in_record := record; in_geometry := g; in_timeframe := timeframe;
           in_identities := identities; in_timeline := cw_timeline window;
           in_earliest_open := cc_open_timestamp first;
           in_latest_open := cc_open_timestamp (List.last (cw_timeline window) first);
           in_ranges := ranges |} progress evidence
  end)).

(** the text of an exception caught by [except (ValueError, TypeError)] *)
Definition policy_error_text (e : exn) : option string :=
  match e with TypeError msg => Some msg | _ => value_error_text e end.

(** a failure recorded without prefix evidence *)
Definition failed_progress (record : SetupLifecycleRecord) (progress : SetupLifecycleOutcomeProgress)
    (status diagnostic evaluated_at : string) : tx LifecycleOutcomeEvaluation :=
  do! progress := lift (integrity_failure progress status diagnostic evaluated_at) in
  do! _ := upsert_outcome_progress progress in
  ret (unprocessed record (Some progress)).

(** the pass of an eligible setup whose plan is valid *)
Definition evaluate_eligible (p : pass) (record : SetupLifecycleRecord) (identities : list string)
    (execution_candles : list candle) (execution_timeframe : string) (decision : cval)
    (progress : SetupLifecycleOutcomeProgress) : tx LifecycleOutcomeEvaluation :=
  let evaluated_at := ps_evaluated_at p in
  let timeframe := py_lower (op_text execution_timeframe) in
  if String.eqb timeframe (py_lower NA)
  then failed_progress record progress INTEGRITY_UNVERIFIED "missing_execution_timeframe" evaluated_at
  else if negb (String.eqb (pg_execution_timeframe progress) timeframe)
  then failed_progress record progress INTEGRITY_FAILED
         ("execution_timeframe_changed:" +:+ pg_execution_timeframe progress +:+ "->" +:+ timeframe) evaluated_at
  else
  do! g := lift (stored_plan_geometry record) in
  match bind_stop_policy progress g decision evaluated_at with
  | Raise e =>
      match policy_error_text e with
      | Some msg => failed_progress record progress INTEGRITY_FAILED
                      ("stop_management_policy_invalid:" +:+ msg) evaluated_at
      | None => lift (Raise e)
      end
  | Ok progress =>
      do! _ := upsert_outcome_progress progress in
      match execution_candles with
      | [] => failed_progress record progress INTEGRITY_UNVERIFIED "missing_execution_candle_history" evaluated_at
      | _ => evaluate_window p record g identities execution_candles timeframe decision progress
      end
  end.

(** bind a stored progress to the proven plan version *)
Definition bind_loaded (record : SetupLifecycleRecord) (progress : option SetupLifecycleOutcomeProgress)
    : tx (option SetupLifecycleOutcomeProgress) :=
  match progress with
  | None => ret None
  | Some loaded =>
      do! decision := lift (bind_progress_to_proven_plan_version loaded record) in
      let progress := bd_progress decision in
      do! _ := (if opt_string_eqb (pg_plan_version_id progress) (pg_plan_version_id loaded) then ret tt
                else upsert_outcome_progress progress) in
      ret (Some progress)
  end.

Definition terminal_recorded (progress : option SetupLifecycleOutcomeProgress) : bool :=
  match progress with Some p => negb (String.eqb (pg_terminal_outcome p) NA) | None => false end.

(** the pass of an owned lifecycle, from its progress *)
Definition evaluate_bound (clock : string) (record : SetupLifecycleRecord) (execution_candles : list candle)
    (execution_timeframe : string) (decision : cval) (evaluated_at : string) (scan_run_id : option string)
    (progress : option SetupLifecycleOutcomeProgress) : tx LifecycleOutcomeEvaluation :=
  let identities := compatible_plan_identities record in
  let plan_identity := match progress with Some p => pg_plan_identity p | None => List.hd "" identities end in
  let p := mkPass clock evaluated_at scan_run_id plan_identity in
  do! failure := lift (stored_plan_geometry_failure record) in
  match failure with
  | Some _ => ret (unprocessed record progress)
  | None =>
  if terminal_recorded progress then ret (unprocessed record progress)
  else if state_in (r_current_state record) TERMINAL_OUTCOME_STATES then
    do! progress := lift (terminal_progress_for_record record progress plan_identity execution_timeframe
                            evaluated_at) in
    do! _ := upsert_outcome_progress progress in
    ret (unprocessed record (Some progress))
  else if negb (state_in (r_current_state record) OUTCOME_ELIGIBLE_STATES) then ret (unprocessed record progress)
  else
    do! progress := lift (match progress with
                          | Some p => Ok p
                          | None => new_progress record plan_identity execution_timeframe evaluated_at
                          end) in
    evaluate_eligible p record identities execution_candles execution_timeframe decision progress
  end.

(** the pass of an owned lifecycle *)
Definition evaluate_owned (clock : string) (record : SetupLifecycleRecord) (execution_candles : list candle)
    (execution_timeframe : string) (decision : cval) (evaluated_at : string) (scan_run_id : option string)
    : tx LifecycleOutcomeEvaluation :=
  do! loaded := query (fun db => first_progress db (r_lifecycle_id record) (compatible_plan_identities record)) in
  do! progress := bind_loaded record loaded in
  evaluate_bound clock record execution_candles execution_timeframe decision evaluated_at scan_run_id progress.

Definition evaluate_closed_candle_outcomes (clock : string) (record : SetupLifecycleRecord)
    (execution_candles : list candle) (execution_timeframe : string) (decision : cval)
    (evaluated_at : string) (scan_run_id : option string) : tx LifecycleOutcomeEvaluation := fun db =>
  match require_current_epoch_lifecycle_id db (r_lifecycle_id record) with
  | Ok _ => evaluate_owned clock record execution_candles execution_timeframe decision evaluated_at
              scan_run_id db
  | Raise (RuntimeEpochError _ _) =>
      query (fun db =>
        let! progress := first_progress db (r_lifecycle_id record) (compatible_plan_identities record) in
        Ok (unprocessed record progress)) db
  | Raise e => Raise e
  end.

(** ** Evidence gaps *)

Definition record_closed_candle_evidence_gap (record : SetupLifecycleRecord)
    (diagnostic execution_timeframe evaluated_at : string) : tx LifecycleOutcomeEvaluation := fun db =>
  match require_current_epoch_lifecycle_id db (r_lifecycle_id record) with
  | Raise (RuntimeEpochError _ _) => ret (unprocessed record None) db
  | Raise e => Raise e
  | Ok _ =>
  (let identities := compatible_plan_identities record in
   do! loaded := query (fun db => first_progress db (r_lifecycle_id record) identities) in
   do! progress := lift (match loaded with
                         | None => Ok None
                         | Some p => map_result (fun d => Some (bd_progress d))
                                       (bind_progress_to_proven_plan_version p record)
                         end) in
   if terminal_recorded progress || state_in (r_current_state record) TERMINAL_OUTCOME_STATES
   then ret (unprocessed record progress) else
   do! failure := lift (stored_plan_geometry_failure record) in
   match failure with
   | Some _ => ret (unprocessed record progress)
   | None =>
   if negb (state_in (r_current_state record) OUTCOME_ELIGIBLE_STATES) then ret (unprocessed record progress) else
   let plan_identity := match progress with Some p => pg_plan_identity p | None => List.hd "" identities end in
   do! progress := lift (match progress with
                         | Some p => Ok p
                         | None => new_progress record plan_identity execution_timeframe evaluated_at
                         end) in
   do! failed := lift (integrity_failure progress INTEGRITY_UNVERIFIED diagnostic evaluated_at) in
   let failed := failed <| pg_evaluation_cursor_open_at := pg_evaluation_cursor_open_at progress |>
                        <| pg_evaluation_cursor_close_at := pg_evaluation_cursor_close_at progress |> in
   do! written := write_progress failed None None in
   ret (unprocessed record (Some written))
   end) db
  end.
End Evaluate.
