(* ===== verification/OutcomeFacts.v ===== *)
(** * Facts about the outcome pass

    The milestones of a progress and the abstract machine that one closed candle
    drives them through ([outcome_step], [outcome_run]); what every operation of
    the pass keeps; and the triples of the pass, from [transition_record] up to
    [evaluate_closed_candle_outcomes]. *)

From stdpp Require Import base tactics list strings.
From Stdlib Require Import ZArith NArith Lia Bool Ascii.
From S2P Require Import Prelude PyString PyDecimal PyTime PyJson LifecycleModels CandleIntegrity JsonText.
From S2P Require Import OutcomePolicy EconomicIdentity PlanVersionBinding RuntimeEpoch LifecycleRepository RepositoryFacts.
From S2P Require Import Breakeven PrefixEvidence StateMachine StateMachineFacts OutcomeEvents Outcomes.
Open Scope string_scope.
Open Scope py_scope.
Open Scope tx_scope.
Open Scope list_scope.

(** ** The abstract outcome machine *)

(** What has happened to a plan, as the texts of candle closes. *)
Record outcome := mkOutcome {
  oc_entry : option string;
  oc_tp1 : option string;
  oc_tp2 : option string;
  oc_tp3 : option string;
  oc_stop : option string;
  oc_at : option string;
  oc_terminal : string
}.

Definition milestones (p : SetupLifecycleOutcomeProgress) : outcome :=
  mkOutcome (pg_entry_at p) (pg_tp1_at p) (pg_tp2_at p) (pg_tp3_at p) (pg_stop_at p) (pg_outcome_at p)
    (pg_terminal_outcome p).

Definition enter (close : string) (o : outcome) : outcome :=
  mkOutcome (Some close) (oc_tp1 o) (oc_tp2 o) (oc_tp3 o) (oc_stop o) (oc_at o) (oc_terminal o).

Definition stopped (state : SetupLifecycleState) (close : string) (o : outcome) : outcome :=
  mkOutcome (oc_entry o) (oc_tp1 o) (oc_tp2 o) (oc_tp3 o) (Some close) (Some close) (state_value state).

(** Every unrecorded target in range is recorded; the third one ends the plan. *)
Definition reach (g : StoredPlanGeometry) (high low : dec) (close : string) (o : outcome) : outcome :=
  let '(t1, t2, t3) := g_targets g in
  let at_ recorded t := match recorded with
                        | Some x => Some x
                        | None => if target_touched high low g t then Some close else None
                        end in
  let tp3 := at_ (oc_tp3 o) t3 in
  mkOutcome (oc_entry o) (at_ (oc_tp1 o) t1) (at_ (oc_tp2 o) t2) tp3 (oc_stop o)
    (match tp3 with Some _ => Some close | None => oc_at o end)
    (match tp3 with Some _ => state_value TP_HIT | None => oc_terminal o end).

(** The first target was recorded at or before the candle's open. *)
Definition tp1_before (o : outcome) (open : datetime) : Prop :=
  exists text t, oc_tp1 o = Some text /\ utc (Some text) "breakeven_tp1_at" = Ok t /\ (instant t <= instant open)%Z.

Section Machine.
Context (g : StoredPlanGeometry) (causal : CausalCandle) (high low : dec).
Let close := isoformat (cc_close_timestamp causal).

(** One closed candle, with [high] and [low] its range.  Before the entry it can
    only fill the plan, and stop it if it also reaches the stop; after the entry
    the stop is looked at before the targets, at the entry midpoint while
    [protected]. *)
Inductive outcome_step (o : outcome) : outcome -> Prop :=
| step_wait :
    oc_entry o = None -> entry_touched high low g = false -> outcome_step o o
| step_enter :
    oc_entry o = None -> entry_touched high low g = true -> stop_touched high low g = false ->
    outcome_step o (enter close o)
| step_enter_stop :
    oc_entry o = None -> entry_touched high low g = true -> stop_touched high low g = true ->
    outcome_step o (stopped SL_HIT close (enter close o))
| step_stop :
    oc_entry o <> None -> stop_touched high low g = true -> outcome_step o (stopped SL_HIT close o)
| step_breakeven :
    oc_entry o <> None -> tp1_before o (cc_open_timestamp causal) -> reference_stop_touched high low g = true ->
    outcome_step o (stopped BREAKEVEN close o)
| step_targets (protected : bool) :
    oc_entry o <> None -> (protected = true -> tp1_before o (cc_open_timestamp causal)) ->
    (if protected then reference_stop_touched high low g else stop_touched high low g) = false ->
    outcome_step o (reach g high low close o).
End Machine.

(** A run of the machine: each candle is taken while the plan is open. *)
Inductive outcome_run (g : StoredPlanGeometry) : list (CausalCandle * (dec * dec)) -> outcome -> outcome -> Prop :=
| run_nil o : outcome_run g [] o o
| run_cons causal high low rest o o' o'' :
    oc_terminal o = NA -> outcome_step g causal high low o o' -> outcome_run g rest o' o'' ->
    outcome_run g ((causal, (high, low)) :: rest) o o''.

(** ** Transitions *)

Lemma moved_spec clock r to a t r' :
  transition_record clock r to a = Ok t -> moved t = Some r' ->
  r_current_state r' = to /\ r_lifecycle_id r' = r_lifecycle_id r /\
  exists ev, tr_event t = Some ev /\ ev_lifecycle_id ev = r_lifecycle_id r.
Proof.
  intros H Hm. apply transition_record_outcome in H. unfold moved in Hm.
  destruct H as [E|notes E Hr|res E Hin Ht Hmv]; [discriminate Hm|discriminate Hm|].
  unfold moved_result in Hmv. apply bind_ok in Hmv as (ev & Hev & Hmv). apply bind_ok in Hmv as (cd & _ & Hmv).
  injection Hmv as <-. cbn [tr_allowed tr_transitioned tr_record andb] in Hm. injection Hm as <-.
  split; [done|]. split; [done|]. exists ev. split; [done|].
  unfold validate_event in Hev. apply bind_ok in Hev as (sym & _ & Hev).
  destruct (negb _) in Hev; [discriminate|]. by injection Hev as <-.
Qed.

Lemma transition_moves clock r to a t :
  transition_record clock r to a = Ok t ->
  In to (ALLOWED_TRANSITIONS (r_current_state r)) -> r_current_state r <> to ->
  entry_touch_transition_requires_touch_reason (r_current_state r) to (ta_reason a) = false ->
  exists r', moved t = Some r'.
Proof.
  intros H Hin Hne Ht. apply transition_record_outcome in H.
  destruct H as [E|notes E [Hr|Hr]|res E _ _ Hmv]; [done|done|congruence|].
  apply moved_result_shape in Hmv as (ev & r' & -> & _). by exists r'.
Qed.

(** rounds from a state to MANAGING *)
Definition managing_rank (s : SetupLifecycleState) : nat :=
  match s with
  | MANAGING => 0
  | EXECUTING => 1
  | CONFIRMED => 2
  | TRIGGERED => 3
  | _ => 4
  end.

Lemma next_managing_ok s target :
  In s OUTCOME_ELIGIBLE_STATES -> next_managing_state s = Some target ->
  In target (ALLOWED_TRANSITIONS s) /\ s <> target /\
  entry_touch_transition_requires_touch_reason s target (entry_progression_reason target) = false /\
  In target OUTCOME_ELIGIBLE_STATES /\ managing_rank s = S (managing_rank target).
Proof.
  intros Hin Hn. destruct s; cbn in Hn; try discriminate Hn; injection Hn as <-;
    repeat split; try (cbn; tauto); discriminate.
Qed.

Lemma next_managing_none s :
  In s OUTCOME_ELIGIBLE_STATES -> next_managing_state s = None -> s = MANAGING.
Proof. intros Hin Hn. destruct s; cbn in Hn; try discriminate Hn; cbn in Hin; intuition discriminate. Qed.

Definition record_id (r : SetupLifecycleRecord) : string := lifecycle_id_text (r_lifecycle_id r).

Lemma persist_transition_writes clock r to a t r' :
  transition_record clock r to a = Ok t -> moved t = Some r' ->
  writes (record_id r) (persist_transition r' t) (fun _ => True).
Proof.
  intros H Hm. destruct (moved_spec _ _ _ _ _ _ H Hm) as (_ & Hid & ev & Hev & Hevid).
  unfold persist_transition, record_id. eapply writes_bind.
  - rewrite <- Hid. apply upsert_record_writes.
  - intros _ _. rewrite Hev, <- Hevid. apply insert_event_writes.
Qed.

(** From every eligible state the fill reaches MANAGING within four rounds. *)
Lemma advance_loop_writes rounds r causal p :
  In (r_current_state r) OUTCOME_ELIGIBLE_STATES -> (managing_rank (r_current_state r) <= rounds)%nat ->
  writes (record_id r) (advance_loop rounds r causal p)
    (fun '(r', _) => r_current_state r' = MANAGING /\ r_lifecycle_id r' = r_lifecycle_id r).
Proof.
  revert r. induction rounds as [|rounds IH]; intros r Hin Hrank; cbn [advance_loop].
  - apply writes_ret. split; [|done]. destruct (r_current_state r); cbn in Hrank; (lia || done).
  - destruct (next_managing_state (r_current_state r)) as [target|] eqn:En.
    + destruct (next_managing_ok _ _ Hin En) as (Hall & Hne & Ht & Hin' & Hr).
      eapply writes_bind; [apply (writes_lift _ _ (fun t => transition_record (ps_clock p) r target
        (outcome_args p (entry_progression_reason target) (event_notes "entry_state_progression" causal
           (ps_plan_identity p) "simulated_price_contact; no exchange fill or user execution is verified" NA [])) = Ok t)); auto|].
      intros t Htr. destruct (transition_moves _ _ _ _ _ Htr Hall Hne Ht) as [r' Hm]. rewrite Hm.
      destruct (moved_spec _ _ _ _ _ _ Htr Hm) as (Hst & Hid & _).
      eapply writes_bind; [exact (persist_transition_writes _ _ _ _ _ _ Htr Hm)|]. intros _ _.
      destruct (state_eqb (r_current_state r') MANAGING) eqn:Em.
      * apply writes_ret. split; [by apply state_eqb_spec|done].
      * eapply writes_bind.
        -- unfold record_id. rewrite <- Hid. apply IH; rewrite Hst; [done|]. rewrite Hr in Hrank. lia.
        -- intros [final ts] [H1 H2]. apply writes_ret. split; [done|congruence].
    + apply writes_ret. split; [by apply next_managing_none|done].
Qed.

Lemma advance_to_managing_writes r causal p :
  In (r_current_state r) OUTCOME_ELIGIBLE_STATES ->
  writes (record_id r) (advance_to_managing r causal p)
    (fun '(r', _, _) => r_current_state r' = MANAGING /\ r_lifecycle_id r' = r_lifecycle_id r).
Proof.
  intros Hin. unfold advance_to_managing. eapply writes_bind.
  - apply advance_loop_writes; [done|]. destruct (r_current_state r); cbn; lia.
  - intros [r' ts] H. by apply writes_ret.
Qed.

Lemma record_terminal_transition_writes r to reason event_type causal p policy level :
  writes (record_id r) (record_terminal_transition r to reason event_type causal p policy level)
    (fun '(r', _) => r_current_state r' = to /\ r_lifecycle_id r' = r_lifecycle_id r).
Proof.
  unfold record_terminal_transition.
  set (a := outcome_args p reason _). eapply writes_bind.
  - apply (writes_lift _ _ (fun t => transition_record (ps_clock p) r to a = Ok t)). auto.
  - intros t Ht. destruct (moved t) as [r'|] eqn:Hm.
    + eapply writes_bind; [exact (persist_transition_writes _ _ _ _ _ _ Ht Hm)|]. intros _ _. apply writes_ret.
      destruct (moved_spec _ _ _ _ _ _ Ht Hm) as (H1 & H2 & _). done.
    + apply writes_lift. discriminate.
Qed.

Lemma insert_milestone_event_writes r reason event_type causal p level evidence :
  writes (record_id r) (insert_milestone_event r reason event_type causal p level evidence) (fun _ => True).
Proof.
  unfold insert_milestone_event. eapply writes_bind.
  - apply (writes_lift _ _ (fun e => ev_lifecycle_id e = r_lifecycle_id r)). intros e He. unfold validate_event in He.
    apply bind_ok in He as (sym & _ & He). destruct (negb _) in He; [discriminate|]. by injection He as <-.
  - intros e He. unfold record_id. rewrite <- He. apply insert_event_writes.
Qed.

(** ** What the updates of a progress keep *)

Section Progress.
Context `{JsonErrors}.

Definition kept (p q : SetupLifecycleOutcomeProgress) : Prop :=
  progress_key q = progress_key p /\ milestones q = milestones p.

Lemma with_cursor_kept p causal at_ q : with_cursor p causal at_ = Ok q -> kept p q.
Proof. unfold with_cursor. intros E. inv_run E. by injection E as <-. Qed.

Lemma integrity_failure_kept p status diagnostic at_ q : integrity_failure p status diagnostic at_ = Ok q -> kept p q.
Proof. unfold integrity_failure. intros E. inv_run E. by injection E as <-. Qed.

Lemma with_tracking_start_kept p t q : with_tracking_start p t = Ok q -> kept p q.
Proof. unfold with_tracking_start. intros E. inv_run E. by injection E as <-. Qed.

Lemma with_entry_evidence_spec p at_ evidence q :
  with_entry_evidence p at_ evidence = Ok q ->
  progress_key q = progress_key p /\ milestones q = enter at_ (milestones p).
Proof. unfold with_entry_evidence. intros E. inv_run E. by injection E as <-. Qed.

Lemma bind_prefix_disposition_kept p e d q : bind_prefix_disposition p e d = Ok q -> kept p q.
Proof.
  unfold bind_prefix_disposition. intros E. apply bind_ok in E as (payload & _ & E).
  apply bind_ok in E as (text & _ & E). by injection E as <-.
Qed.

Lemma bind_stop_policy_kept p g decision at_ q : bind_stop_policy p g decision at_ = Ok q -> kept p q.
Proof.
  unfold bind_stop_policy. intros E. apply bind_ok in E as (v & _ & E). destruct v; try discriminate E.
  destruct (dict_mem _ _).
  - apply bind_ok in E as ([] & _ & E). by injection E as <-.
  - apply bind_ok in E as (c & _ & E). apply bind_ok in E as (c2 & _ & E). apply bind_ok in E as (c3 & _ & E).
    by injection E as <-.
Qed.

Lemma normalize_datetime_instant t u : normalize_datetime t = Ok u -> instant u = instant t.
Proof.
  unfold normalize_datetime, as_utc, astimezone_utc, instant. destruct (dt_offset t).
  - destruct (_ && _)%bool; [|discriminate]. intros [= <-]. cbn. lia.
  - intros [= <-]. cbn. lia.
Qed.

(** Protection is on only after the first target, and after the adoption. *)
Lemma protection_active_tp1 p t :
  protection_active p (CDatetime t) = Ok true -> tp1_before (milestones p) t.
Proof.
  unfold protection_active. destruct (pg_tp1_at p) as [tp1|] eqn:E1; [|discriminate].
  intros E. apply bind_ok in E as (v & _ & E). destruct v as [| | | | | |fields]; try discriminate E.
  destruct (json_get KEY fields) as [| | | | | |b]; try discriminate E.
  destruct (negb _) in E; [discriminate E|].
  apply bind_ok in E as (o & Ho & E). apply bind_ok in E as (u & Hu & E).
  destruct (instant o <? instant u)%Z eqn:El; [discriminate E|].
  exists tp1, u. split; [exact E1|]. split; [done|]. apply normalize_datetime_instant in Ho. lia.
Qed.

(** ** The candle loop *)

(** what every step of the loop keeps *)
Record framed (s s' : loop_state) : Prop := mkFramed {
  fr_id : r_lifecycle_id (ls_record s') = r_lifecycle_id (ls_record s);
  fr_key : progress_key (ls_progress s') = progress_key (ls_progress s);
  fr_evidence : ls_evidence s' = ls_evidence s;
  fr_processed : ls_processed s' = ls_processed s;
  fr_aborted : ls_aborted s' = ls_aborted s
}.

Lemma framed_refl s : framed s s.
Proof. done. Qed.

Lemma framed_trans s1 s2 s3 : framed s1 s2 -> framed s2 s3 -> framed s1 s3.
Proof. intros [] []. split; congruence. Qed.

Definition loop_milestones (s : loop_state) : outcome := milestones (ls_progress s).
Definition loop_id (s : loop_state) : string := record_id (ls_record s).
Definition loop_at (s : loop_state) : SetupLifecycleState := r_current_state (ls_record s).

Lemma stop_candle_writes p g causal ambiguity (breakeven : bool) s :
  let final := if breakeven then BREAKEVEN else SL_HIT in
  writes (loop_id s) (stop_candle p g causal ambiguity breakeven s)
    (fun s' => framed s s' /\ loop_at s' = final /\
       loop_milestones s' = stopped final (isoformat (cc_close_timestamp causal)) (loop_milestones s)).
Proof.
  intros final. unfold stop_candle, record_stop. eapply writes_bind.
  - eapply writes_bind; [apply record_terminal_transition_writes|].
    intros [r t] [Hs Hid]. apply (writes_ret (A := SetupLifecycleRecord * SetupTransitionResult * SetupLifecycleOutcomeProgress) _ _
      (fun '(r', t', q) => r_current_state r' = final /\
      r_lifecycle_id r' = r_lifecycle_id (ls_record s) /\ progress_key q = progress_key (ls_progress s) /\
      milestones q = stopped final (isoformat (cc_close_timestamp causal)) (loop_milestones s))). done.
  - intros [[r t] q] (Hs & Hid & Hk & Hm). apply writes_ret. split; [by split|done].
Qed.

(** the milestones once the touched targets are recorded *)
Definition with_target (number : Z) (close : string) (o : outcome) : outcome :=
  if (number =? 1)%Z then mkOutcome (oc_entry o) (Some close) (oc_tp2 o) (oc_tp3 o) (oc_stop o) (oc_at o) (oc_terminal o)
  else if (number =? 2)%Z
  then mkOutcome (oc_entry o) (oc_tp1 o) (Some close) (oc_tp3 o) (oc_stop o) (oc_at o) (oc_terminal o)
  else mkOutcome (oc_entry o) (oc_tp1 o) (oc_tp2 o) (Some close) (oc_stop o) (oc_at o) (oc_terminal o).

Lemma set_target_at_spec number close q :
  progress_key (set_target_at number close q) = progress_key q /\
  milestones (set_target_at number close q) = with_target number close (milestones q).
Proof. unfold set_target_at, with_target. by destruct (number =? 1)%Z, (number =? 2)%Z. Qed.

Lemma record_targets_writes p causal touched s :
  writes (loop_id s) (record_targets p causal touched s)
    (fun s' => framed s s' /\ ls_record s' = ls_record s /\
       loop_milestones s' = fold_left (fun o t => with_target (fst t) (isoformat (cc_close_timestamp causal)) o)
                              touched (loop_milestones s)).
Proof.
  revert s. induction touched as [|[number target] touched IH]; intros s; cbn [record_targets].
  - apply writes_ret. split; [apply framed_refl|done].
  - destruct (set_target_at_spec number (isoformat (cc_close_timestamp causal)) (ls_progress s)) as [Hk Hm].
    set (s1 := s <| ls_progress := _ |>). eapply writes_bind; [apply insert_milestone_event_writes|].
    intros _ _. eapply writes_impl; [apply (IH s1)|]. intros s' (Hf & Hr & Hs).
    split; [apply (framed_trans s s1 s'); [by split|done]|]. split; [by rewrite Hr|].
    rewrite Hs. cbn [fold_left fst]. unfold loop_milestones. by rewrite <- Hm.
Qed.

Lemma take_profit_writes p causal s :
  let close := isoformat (cc_close_timestamp causal) in
  let o := loop_milestones s in
  writes (loop_id s) (take_profit p causal s)
    (fun s' => framed s s' /\
       match oc_tp3 o with
       | Some _ => loop_at s' = TP_HIT /\
           loop_milestones s' = mkOutcome (oc_entry o) (oc_tp1 o) (oc_tp2 o) (oc_tp3 o) (oc_stop o) (Some close)
                                  (state_value TP_HIT)
       | None => ls_record s' = ls_record s /\ loop_milestones s' = o
       end).
Proof.
  intros close o. unfold take_profit. subst o. cbn [loop_milestones milestones oc_tp3].
  destruct (pg_tp3_at (ls_progress s)) as [tp3|] eqn:E.
  - eapply writes_bind; [apply record_terminal_transition_writes|]. intros [r t] [Hs Hid]. apply writes_ret.
    split; [by split|]. rewrite <- E. done.
  - apply writes_ret. split; [apply framed_refl|done].
Qed.

(** The touched targets recorded and the plan ended at the third are [reach]. *)
Lemma reach_fold g high low q close o :
  o = fold_left (fun o t => with_target (fst t) close o) (newly_touched_targets high low g q) (milestones q) ->
  reach g high low close (milestones q)
  = mkOutcome (oc_entry o) (oc_tp1 o) (oc_tp2 o) (oc_tp3 o) (oc_stop o)
      (match oc_tp3 o with Some _ => Some close | None => oc_at o end)
      (match oc_tp3 o with Some _ => state_value TP_HIT | None => oc_terminal o end).
Proof.
  intros ->. unfold reach, newly_touched_targets, target_if_new. destruct (g_targets g) as [[t1 t2] t3].
  cbn [milestones oc_tp1 oc_tp2 oc_tp3].
  destruct (pg_tp1_at q) eqn:E1, (pg_tp2_at q) eqn:E2, (pg_tp3_at q) eqn:E3, (target_touched high low g t1),
    (target_touched high low g t2), (target_touched high low g t3); cbn; rewrite ?E1, ?E2, ?E3; done.
Qed.

Lemma with_target_terminal number close o : oc_terminal (with_target number close o) = oc_terminal o.
Proof. unfold with_target. by destruct (number =? 1)%Z, (number =? 2)%Z. Qed.

Lemma fold_target_terminal close touched o :
  oc_terminal (fold_left (fun o (t : Z * dec) => with_target (fst t) close o) touched o) = oc_terminal o.
Proof.
  revert o. induction touched as [|t touched IH]; intros o; [done|]. cbn. by rewrite IH, with_target_terminal.
Qed.

Lemma targets_writes p g causal high low s :
  writes (loop_id s)
    (do! s1 := record_targets p causal (newly_touched_targets high low g (ls_progress s)) s in
     take_profit p causal s1)
    (fun s' => framed s s' /\
       loop_milestones s' = reach g high low (isoformat (cc_close_timestamp causal)) (loop_milestones s) /\
       (loop_at s' = TP_HIT /\ oc_terminal (loop_milestones s') = state_value TP_HIT \/
        loop_at s' = loop_at s /\ oc_terminal (loop_milestones s') = oc_terminal (loop_milestones s))).
Proof.
  eapply writes_bind; [apply record_targets_writes|]. intros s1 (Hf1 & Hr1 & Hm1).
  assert (loop_id s1 = loop_id s) as <- by (unfold loop_id; by rewrite Hr1).
  eapply writes_impl; [apply take_profit_writes|]. cbn beta zeta. intros s2 [Hf2 H2].
  split; [by apply (framed_trans s s1 s2)|].
  pose proof (reach_fold _ _ _ _ _ _ Hm1) as Hreach. fold (loop_milestones s) in Hreach. rewrite Hreach.
  assert (oc_terminal (loop_milestones s1) = oc_terminal (loop_milestones s)) as Ht
    by (rewrite Hm1; apply fold_target_terminal).
  destruct (oc_tp3 (loop_milestones s1)) eqn:E3.
  - destruct H2 as [Hst Hm2]. rewrite Hm2. split; [done|]. left. done.
  - destruct H2 as [Hr2 Hm2]. rewrite Hm2. split; [by destruct (loop_milestones s1); cbn in *; subst|]. right.
    split; [|done]. unfold loop_at. by rewrite Hr2, Hr1.
Qed.

(** the record's state against the milestones; [managed] is what is known of the
    state of a filled plan *)
Definition states_agree (managed : SetupLifecycleState -> Prop) (state : SetupLifecycleState) (o : outcome) : Prop :=
  (oc_terminal o = NA /\ oc_entry o = None /\ In state OUTCOME_ELIGIBLE_STATES) \/
  (oc_terminal o = NA /\ oc_entry o <> None /\ managed state) \/
  (oc_entry o <> None /\ In state [TP_HIT; SL_HIT; BREAKEVEN] /\ oc_terminal o = state_value state).

Lemma states_agree_terminal managed state o :
  oc_entry o <> None -> In state [TP_HIT; SL_HIT; BREAKEVEN] -> oc_terminal o = state_value state ->
  states_agree managed state o.
Proof. right. right. done. Qed.

(** what processing [causal] does besides the milestones *)
Record advanced (causal : CausalCandle) (s s' : loop_state) : Prop := mkAdvanced {
  ad_id : r_lifecycle_id (ls_record s') = r_lifecycle_id (ls_record s);
  ad_key : progress_key (ls_progress s') = progress_key (ls_progress s);
  ad_evidence : ls_evidence s' = record_completed (ls_evidence s) causal;
  ad_processed : ls_processed s' = ls_processed s;
  ad_aborted : ls_aborted s' = ls_aborted s;
  ad_cursor : pg_evaluation_cursor_open_at (ls_progress s') = Some (isoformat (cc_open_timestamp causal)) /\
              pg_evaluation_cursor_close_at (ls_progress s') = Some (isoformat (cc_close_timestamp causal))
}.

Lemma complete_candle_spec p causal s0 s s' :
  framed s0 s -> complete_candle p causal s = Ok s' ->
  advanced causal s0 s' /\ ls_record s' = ls_record s /\ loop_milestones s' = loop_milestones s.
Proof.
  intros [] E. unfold complete_candle in E. apply bind_ok in E as (q & Hq & E). injection E as <-.
  destruct (with_cursor_kept _ _ _ _ Hq) as [Hk Hm]. split; [split; cbn; try congruence|done].
  unfold with_cursor in Hq. inv_run Hq. by injection Hq as <-.
Qed.

Lemma managed_candle_writes managed p g causal high low s :
  managed (loop_at s) -> oc_entry (loop_milestones s) <> None -> oc_terminal (loop_milestones s) = NA ->
  writes (loop_id s) (managed_candle p g causal high low s)
    (fun s' => advanced causal s s' /\ states_agree managed (loop_at s') (loop_milestones s') /\
       outcome_step g causal high low (loop_milestones s) (loop_milestones s')).
Proof.
  intros Hman Hentry Hterm. set (close := isoformat (cc_close_timestamp causal)). unfold managed_candle.
  eapply writes_bind.
  { apply (writes_lift _ _ (fun active => active = true -> tp1_before (loop_milestones s) (cc_open_timestamp causal))).
    intros active E ->. by apply protection_active_tp1 in E. }
  intros active Hactive.
  set (P := fun s' => framed s s' /\ states_agree managed (loop_at s') (loop_milestones s') /\
              outcome_step g causal high low (loop_milestones s) (loop_milestones s')).
  apply (writes_bind _ _ _ P).
  - destruct (if active then _ else _) eqn:Estop.
    + eapply writes_impl; [apply stop_candle_writes|]. cbn. intros s' (Hf & Hst & Hm). split; [done|]. rewrite Hst, Hm.
      split; [apply states_agree_terminal; [done|destruct active; cbn; tauto|done]|].
      destruct active; [by apply step_breakeven; auto|by apply step_stop].
    + eapply writes_impl; [apply targets_writes|]. intros s' (Hf & Hm & Hor). split; [done|].
      assert (oc_entry (loop_milestones s') <> None) as He
        by (rewrite Hm; unfold reach; by destruct (g_targets g) as [[? ?] ?]).
      split.
      * destruct Hor as [[Hst Ht]|[Hst Ht]]; [apply states_agree_terminal; rewrite ?Hst; cbn; tauto|].
        right. left. rewrite Ht, Hst. done.
      * rewrite Hm. by apply step_targets with active.
  - intros s1 (Hf & Ha & Hs). apply writes_lift. intros s' E.
    destruct (complete_candle_spec _ _ _ _ _ Hf E) as (H1 & H2 & H3). unfold loop_at. rewrite H2, H3. done.
Qed.

(** the fill of a candle that touches the entry zone *)
Lemma fill_writes managed p g causal high low s :
  managed MANAGING -> In (loop_at s) OUTCOME_ELIGIBLE_STATES -> ls_aborted s = false ->
  oc_entry (loop_milestones s) = None -> oc_terminal (loop_milestones s) = NA ->
  writes (loop_id s) (entry_candle p g causal high low s)
    (fun s' => advanced causal s s' /\ states_agree managed (loop_at s') (loop_milestones s') /\
       outcome_step g causal high low (loop_milestones s) (loop_milestones s')).
Proof.
  intros Hman Hin Hab Hentry Hterm. set (close := isoformat (cc_close_timestamp causal)). unfold entry_candle.
  apply (writes_bind _ _ _ (fun s' => framed s s' /\ states_agree managed (loop_at s') (loop_milestones s') /\
           outcome_step g causal high low (loop_milestones s) (loop_milestones s'))).
  2: { intros s1 (Hf & Ha & Hs). rewrite (fr_aborted _ _ Hf), Hab. apply writes_lift. intros s' E.
       destruct (complete_candle_spec _ _ _ _ _ Hf E) as (H1 & H2 & H3). unfold loop_at. by rewrite H2, H3. }
  destruct (entry_touched high low g) eqn:Et; cbn [negb].
  2: { apply writes_ret. split; [apply framed_refl|]. split; [by left|by apply step_wait]. }
  eapply writes_bind; [apply (writes_lift _ _ (fun _ => True)); done|]. intros evidence _.
  eapply writes_bind; [apply writes_lift; intros q Hq; exact (with_entry_evidence_spec _ _ _ _ Hq)|].
  intros q [Hk Hm]. eapply writes_bind; [apply insert_milestone_event_writes|]. intros _ _.
  eapply writes_bind; [by apply advance_to_managing_writes|]. intros [[r t] ts] [Hr Hid].
  rewrite Hr. change (state_eqb MANAGING MANAGING) with true. cbn [negb].
  set (s1 := s <| ls_record := r |> <| ls_progress := q |> <| ls_transitions := _ |> <| ls_last := _ |>).
  assert (framed s s1) as Hf1 by (split; cbn; congruence).
  assert (loop_id s1 = loop_id s) as Hid1 by (unfold loop_id, record_id; cbn; by rewrite Hid).
  assert (loop_milestones s1 = enter close (loop_milestones s)) as Hm1 by exact Hm.
  assert (oc_entry (loop_milestones s1) <> None) as He1 by (by rewrite Hm1).
  destruct (stop_touched high low g) eqn:Es.
  - rewrite <- Hid1. eapply writes_impl; [apply stop_candle_writes|]. cbn. intros s' (Hf & Hst & Hm').
    split; [by apply (framed_trans s s1 s')|]. rewrite Hst, Hm'. split.
    + apply states_agree_terminal; [done|cbn; tauto|done].
    + rewrite Hm1. by apply step_enter_stop.
  - apply writes_ret. split; [done|]. split; [|rewrite Hm1; by apply step_enter].
    right. left. split; [by rewrite Hm1|]. split; [done|]. unfold loop_at. cbn. by rewrite Hr.
Qed.

(** One candle is one step of the machine; the pass never aborts. *)
Lemma candle_step_writes managed p g causal high low s :
  managed MANAGING -> ls_aborted s = false ->
  states_agree managed (loop_at s) (loop_milestones s) -> oc_terminal (loop_milestones s) = NA ->
  writes (loop_id s) (candle_step p g (causal, (high, low)) s)
    (fun s' => advanced causal (s <| ls_processed := S (ls_processed s) |>) s' /\
       states_agree managed (loop_at s') (loop_milestones s') /\
       outcome_step g causal high low (loop_milestones s) (loop_milestones s')).
Proof.
  intros Hman Hab Hagree Hterm. cbn [candle_step]. set (s1 := s <| ls_processed := _ |>).
  change (loop_milestones s) with (loop_milestones s1) in *. change (loop_at s) with (loop_at s1) in Hagree.
  change (loop_id s) with (loop_id s1). change (ls_aborted s) with (ls_aborted s1) in Hab.
  destruct (pg_entry_at (ls_progress s1)) as [at_|] eqn:Ee.
  - destruct Hagree as [(_ & Hn & _)|[(_ & Hn & Hm)|(_ & Hin & Hv)]].
    + unfold loop_milestones in Hn. cbn [milestones oc_entry] in Hn. congruence.
    + by apply managed_candle_writes.
    + rewrite Hterm in Hv. cbn in Hin. exfalso. destruct_or! Hin; try done; rewrite <- Hin in Hv; discriminate Hv.
  - apply fill_writes; try done. destruct Hagree as [(_ & _ & Hin)|[(_ & Hn & _)|(Hn & _)]]; [done|done|done].
Qed.

(** The loop over the pending candles runs the machine over a prefix of them,
    all of them unless the plan ended. *)
Record looped (managed : SetupLifecycleState -> Prop) (g : StoredPlanGeometry)
    (pending : list (CausalCandle * (dec * dec))) (s s' : loop_state) : Prop := mkLooped {
  lp_id : r_lifecycle_id (ls_record s') = r_lifecycle_id (ls_record s);
  lp_key : progress_key (ls_progress s') = progress_key (ls_progress s);
  lp_aborted : ls_aborted s' = false;
  lp_agree : states_agree managed (loop_at s') (loop_milestones s');
  lp_run : exists done_ rest, pending = done_ ++ rest /\
    outcome_run g done_ (loop_milestones s) (loop_milestones s') /\
    pe_completed (ls_evidence s') = pe_completed (ls_evidence s) ++ map fst done_ /\
    ls_processed s' = (ls_processed s + length done_)%nat /\
    (rest = [] \/ oc_terminal (loop_milestones s') <> NA) /\
    match last done_ with
    | Some (causal, _) =>
        pg_evaluation_cursor_open_at (ls_progress s') = Some (isoformat (cc_open_timestamp causal)) /\
        pg_evaluation_cursor_close_at (ls_progress s') = Some (isoformat (cc_close_timestamp causal))
    | None => ls_progress s' = ls_progress s
    end
}.

Lemma candle_loop_writes managed p g pending s :
  managed MANAGING -> ls_aborted s = false ->
  states_agree managed (loop_at s) (loop_milestones s) -> oc_terminal (loop_milestones s) = NA ->
  writes (loop_id s) (candle_loop p g pending s) (looped managed g pending s).
Proof.
  intros Hman. revert s. induction pending as [|[causal [high low]] pending IH]; intros s Hab Hagree Hterm; cbn [candle_loop].
  - apply writes_ret. split; try done. exists [], []. split_and!; try (done || lia); [apply run_nil|by rewrite app_nil_r|by left].
  - eapply writes_bind; [by apply candle_step_writes|]. intros s1 (Had & Hag & Hstep).
    assert (loop_id s1 = loop_id s) as Hid by (unfold loop_id, record_id; by rewrite (ad_id _ _ _ Had)).
    destruct Had as [Had1 Had2 Had3 Had4 Had5 Had6]. cbn in Had1, Had2, Had3, Had4, Had5.
    rewrite Hab in Had5. unfold loop_done. rewrite Had5. cbn [orb].
    destruct (String.eqb (pg_terminal_outcome (ls_progress s1)) NA) eqn:Ev; cbn [negb].
    + apply String.eqb_eq in Ev. rewrite <- Hid. eapply writes_impl; [by apply IH|].
      intros s' [H1 H2 H3 H4 (done_ & rest & -> & Hrun & Hc & Hp & Hr & Hcur)].
      split; [congruence|congruence|done|done|]. exists ((causal, (high, low)) :: done_), rest.
      split_and!; try done.
      * by econstructor.
      * rewrite Hc, Had3. cbn. by rewrite <- app_assoc.
      * rewrite Hp, Had4. cbn. lia.
      * destruct done_ as [|x done_]; [cbn in *; by rewrite Hcur|].
        change (last ((causal, (high, low)) :: x :: done_)) with (last (x :: done_)).
        destruct (last (x :: done_)) as [[c r]|] eqn:El; [exact Hcur|by apply last_None in El].
    + apply String.eqb_neq in Ev. apply writes_ret. split; [done..|]. exists [(causal, (high, low))], pending.
      split_and!; try done.
      * econstructor; [done|exact Hstep|apply run_nil].
      * rewrite Had3. done.
      * rewrite Had4. cbn. lia.
      * by right.
Qed.
End Progress.
