(* ===== verification/OutcomePass.v ===== *)
(** * Triples of the outcome pass

    What one pass of [evaluate_closed_candle_outcomes] can change and what it
    returns, from the writes of a progress up to the whole pass. *)

From stdpp Require Import base tactics list strings.
From Stdlib Require Import ZArith NArith Lia Bool Ascii.
From S2P Require Import Prelude PyString PyDecimal PyTime PyJson LifecycleModels CandleIntegrity CandleProps JsonText.
From S2P Require Import OutcomePolicy EconomicIdentity PlanVersionBinding RuntimeEpoch LifecycleRepository RepositoryFacts.
From S2P Require Import Breakeven PrefixEvidence StateMachine StateMachineFacts OutcomeEvents Outcomes OutcomeFacts.
Open Scope string_scope.
Open Scope py_scope.
Open Scope tx_scope.
Open Scope list_scope.

Section Pass.
Context `{JsonErrors}.

(** an update that keeps the key, the milestones and the cursor *)
Definition carried (p q : SetupLifecycleOutcomeProgress) : Prop :=
  kept p q /\ pg_evaluation_cursor_open_at q = pg_evaluation_cursor_open_at p.

Lemma carried_refl p : carried p p.
Proof. done. Qed.

Lemma carried_trans p q r : carried p q -> carried q r -> carried p r.
Proof. intros [[H1 H2] H3] [[H4 H5] H6]. split; [split|]; congruence. Qed.

Lemma carried_metadata p fields : carried p (with_metadata p fields).
Proof. done. Qed.

Lemma integrity_failure_carried p status diagnostic at_ q :
  integrity_failure p status diagnostic at_ = Ok q -> carried p q.
Proof. unfold integrity_failure. intros E. inv_run E. by injection E as <-. Qed.

Lemma with_tracking_start_carried p t q : with_tracking_start p t = Ok q -> carried p q.
Proof. unfold with_tracking_start. intros E. inv_run E. by injection E as <-. Qed.

Lemma bind_stop_policy_carried p g decision at_ q : bind_stop_policy p g decision at_ = Ok q -> carried p q.
Proof.
  unfold bind_stop_policy. intros E. apply bind_ok in E as (v & _ & E). destruct v; try discriminate E.
  destruct (dict_mem _ _).
  - apply bind_ok in E as ([] & _ & E). by injection E as <-.
  - apply bind_ok in E as (c & _ & E). apply bind_ok in E as (c2 & _ & E). apply bind_ok in E as (c3 & _ & E).
    by injection E as <-.
Qed.

Lemma bind_prefix_disposition_carried p e d q : bind_prefix_disposition p e d = Ok q -> carried p q.
Proof.
  unfold bind_prefix_disposition. intros E. apply bind_ok in E as (payload & _ & E).
  apply bind_ok in E as (text & _ & E). by injection E as <-.
Qed.

(** ** Writes of a progress *)

Definition owner (p : SetupLifecycleOutcomeProgress) : string := lifecycle_id_text (pg_lifecycle_id p).

Lemma kept_owner p q : kept p q -> owner q = owner p.
Proof. intros [E _]. injection E as E _. unfold owner. by rewrite E. Qed.

Lemma write_progress_writes q e d : writes (owner q) (write_progress q e d) (carried q).
Proof.
  unfold write_progress. apply (writes_bind _ _ _ (carried q)).
  - apply writes_lift. intros q'. destruct e; [apply bind_prefix_disposition_carried|by intros [= <-]].
  - intros q' Hq. eapply writes_bind; [|intros _ _; by apply writes_ret].
    rewrite <- (kept_owner q q') by apply Hq. apply upsert_outcome_progress_writes.
Qed.

(** a pass that evaluated no candle *)
Definition idle (record : SetupLifecycleRecord) (progress : SetupLifecycleOutcomeProgress)
    (e : LifecycleOutcomeEvaluation) : Prop :=
  le_record e = record /\ le_processed_candles e = 0%nat /\ le_transitions e = [] /\
  exists q, le_progress e = Some q /\ carried progress q.

Lemma write_idle record p progress evidence disposition :
  carried p progress ->
  writes (owner p)
    (do! q := write_progress progress evidence disposition in ret (unprocessed record (Some q))) (idle record p).
Proof.
  intros Hc. rewrite <- (kept_owner p progress) by apply Hc. eapply writes_bind; [apply write_progress_writes|].
  intros q Hq. apply writes_ret. split_and!; [done..|]. exists q. split; [done|]. by eapply carried_trans.
Qed.

Lemma blocked_writes record p progress evidence status diagnostic at_ disposition :
  carried p progress ->
  writes (owner p) (blocked record progress evidence status diagnostic at_ disposition) (idle record p).
Proof.
  intros Hc. unfold blocked. apply (writes_bind _ _ _ (carried p)).
  - apply writes_lift. intros q Hq. eapply carried_trans; [done|by eapply integrity_failure_carried].
  - intros q Hq. by apply write_idle.
Qed.

Lemma failed_progress_writes record p progress status diagnostic at_ :
  carried p progress ->
  writes (owner p) (failed_progress record progress status diagnostic at_) (idle record p).
Proof.
  intros Hc. unfold failed_progress. apply (writes_bind _ _ _ (carried p)).
  - apply writes_lift. intros q Hq. eapply carried_trans; [done|by eapply integrity_failure_carried].
  - intros q Hq. eapply writes_bind; [rewrite <- (kept_owner p q) by apply Hq; apply upsert_outcome_progress_writes|].
    intros _ _. apply writes_ret. split_and!; try done. by exists q.
Qed.

Lemma or_blocked_writes {A} id (r : result A) fail k (Q : LifecycleOutcomeEvaluation -> Prop) :
  (forall a, r = Ok a -> writes id (k a) Q) -> (forall msg, writes id (fail msg) Q) ->
  writes id (or_blocked r fail k) Q.
Proof.
  intros Hk Hf. unfold or_blocked. destruct r as [a|e]; [by apply Hk|].
  destruct (value_error_text e); [apply Hf|]. by apply writes_lift.
Qed.

(** ** The pending candles *)

Definition from_open (t : datetime) (c : CausalCandle * (dec * dec)) : bool :=
  (instant t <=? instant (cc_open_timestamp (fst c)))%Z.

(** the state of a filled plan that the pass has not moved *)
Definition managed_from (record : SetupLifecycleRecord) (s : SetupLifecycleState) : Prop :=
  s = MANAGING \/ s = r_current_state record.

(** The pass evaluated the candles [evaluated], the first of the window's candles
    from [expected] on, and stopped before their end only on a terminal outcome. *)
Record ran (i : pass_input) (progress : SetupLifecycleOutcomeProgress) (expected : datetime)
    (evaluated : list (CausalCandle * (dec * dec))) (e : LifecycleOutcomeEvaluation)
    (q : SetupLifecycleOutcomeProgress) : Prop := mkRan {
  rn_progress : le_progress e = Some q;
  rn_id : r_lifecycle_id (le_record e) = r_lifecycle_id (in_record i);
  rn_key : progress_key q = progress_key progress;
  rn_window : exists rest, List.filter (from_open expected) (combine (in_timeline i) (in_ranges i)) = evaluated ++ rest /\
    (rest = [] \/ pg_terminal_outcome q <> NA);
  rn_run : outcome_run (in_geometry i) evaluated (milestones progress) (milestones q);
  rn_count : le_processed_candles e = length evaluated;
  rn_agree : states_agree (managed_from (in_record i)) (r_current_state (le_record e)) (milestones q);
  rn_cursor : forall text, pg_evaluation_cursor_open_at progress = Some text ->
    exists t, utc (Some text) "evaluation_cursor_open_at" = Ok t /\ exists duration,
      timeframe_duration (in_timeframe i) = Ok duration /\ (instant t + duration <= instant expected)%Z
}.

Definition pass_post (i : pass_input) (progress : SetupLifecycleOutcomeProgress) (e : LifecycleOutcomeEvaluation) : Prop :=
  idle (in_record i) progress e \/ exists expected evaluated q, ran i progress expected evaluated e q.

(** what the pass knows when it reaches the candles *)
Definition ready (i : pass_input) (progress : SetupLifecycleOutcomeProgress) : Prop :=
  owner progress = record_id (in_record i) /\ pg_terminal_outcome progress = NA /\
  In (r_current_state (in_record i)) OUTCOME_ELIGIBLE_STATES.

Lemma ready_carried i p q : carried p q -> ready i p -> ready i q.
Proof.
  intros [Hk _] (H1 & H2 & H3). destruct Hk as [Hk Hm]. split_and!; [|by injection Hm as _ _ _ _ _ _ ->|done].
  rewrite <- H1. by apply kept_owner.
Qed.

Lemma pass_post_carried i p q e : carried p q -> pass_post i q e -> pass_post i p e.
Proof.
  intros Hc [(H1 & H2 & H3 & r & H4 & H5)|(expected & evaluated & r & [])].
  - left. split_and!; try done. exists r. split; [done|]. by eapply carried_trans.
  - right. exists expected, evaluated, r. destruct Hc as [[Hk Hm] Hcur]. split; try done; try congruence.
    intros text. rewrite <- Hcur. auto.
Qed.

Lemma run_pending_writes p g record progress evidence pending :
  owner progress = record_id record -> pg_terminal_outcome progress = NA ->
  In (r_current_state record) OUTCOME_ELIGIBLE_STATES ->
  writes (record_id record) (run_pending p g record progress evidence pending)
    (fun e => exists q evaluated rest, le_progress e = Some q /\
       r_lifecycle_id (le_record e) = r_lifecycle_id record /\ progress_key q = progress_key progress /\
       pending = evaluated ++ rest /\ (rest = [] \/ pg_terminal_outcome q <> NA) /\
       outcome_run g evaluated (milestones progress) (milestones q) /\
       le_processed_candles e = length evaluated /\
       states_agree (managed_from record) (r_current_state (le_record e)) (milestones q)).
Proof.
  intros Hown Hterm Hin. unfold run_pending. set (s0 := mkLoop record progress evidence None [] 0 false).
  eapply writes_bind.
  - apply (candle_loop_writes (managed_from record) p g pending s0); [by left|done| |done].
    destruct (pg_entry_at progress) eqn:Ee; [right; left|left]; split_and!; try done; [|by right].
    unfold loop_milestones. cbn. by rewrite Ee.
  - intros s [Hid Hkey _ Hag (evaluated & rest & Hp & Hrun & Hc & Hn & Hrest & _)].
    eapply writes_bind.
    { change (r_lifecycle_id record) with (r_lifecycle_id (ls_record s0)). unfold record_id.
      replace (r_lifecycle_id record) with (r_lifecycle_id (ls_record s)) by done. apply upsert_record_writes. }
    intros _ _. assert (owner (ls_progress s) = record_id record) as Hs.
    { rewrite <- Hown. injection Hkey as Hk _. unfold owner. by rewrite Hk. }
    rewrite <- Hs. eapply writes_bind; [apply write_progress_writes|]. intros q [[Hk Hm] _]. apply writes_ret.
    exists q, evaluated, rest. cbn [le_progress le_record le_processed_candles]. rewrite Hm.
    split_and!; try done; [by rewrite Hk|]. destruct Hrest as [|Ht]; [by left|right].
    unfold loop_milestones in Ht. rewrite <- Hm in Ht. exact Ht.
Qed.

Lemma process_pending_writes i progress evidence fresh start expected :
  ready i progress ->
  (forall text, pg_evaluation_cursor_open_at progress = Some text ->
    exists t, utc (Some text) "evaluation_cursor_open_at" = Ok t /\ exists duration,
      timeframe_duration (in_timeframe i) = Ok duration /\ (instant t + duration <= instant expected)%Z) ->
  writes (record_id (in_record i)) (process_pending i progress evidence fresh start expected) (pass_post i progress).
Proof.
  intros (Hown & Hterm & Hin) Hcur. rewrite <- Hown. unfold process_pending. fold (from_open expected).
  set (pending := List.filter (from_open expected) (combine (in_timeline i) (in_ranges i))).
  assert (forall c : tx LifecycleOutcomeEvaluation, writes (owner progress) c (idle (in_record i) progress) ->
          writes (owner progress) c (pass_post i progress)) as Hidle.
  { intros c Hc. eapply writes_impl; [exact Hc|]. by left. }
  destruct pending as [|[first r] rest] eqn:Ep.
  - destruct fresh; [destruct (_ <? _)%Z|].
    + eapply writes_bind; [by apply (writes_lift _ _ (fun _ => True))|]. intros fields _.
      apply Hidle. by apply write_idle.
    + apply Hidle. by apply blocked_writes.
    + apply Hidle. by apply write_idle.
  - destruct (negb _); [apply Hidle; by apply blocked_writes|]. rewrite Hown.
    eapply writes_impl; [by apply run_pending_writes|].
    intros e (q & evaluated & rest' & H1 & H2 & H3 & H4 & H5 & H6 & H7 & H8). right.
    exists expected, evaluated, q. split; try done. exists rest'. by rewrite <- H4.
Qed.

Lemma later_ge a b : (instant a <= instant (later a b))%Z.
Proof. unfold later. destruct (_ <? _)%Z eqn:E; lia. Qed.

Lemma process_tracked_writes i progress evidence fresh :
  ready i progress -> fresh = bool_decide (pg_evaluation_cursor_open_at progress = None) ->
  writes (record_id (in_record i)) (process_tracked i progress evidence fresh) (pass_post i progress).
Proof.
  intros Hr Hfresh. unfold process_tracked.
  assert (forall msg status, writes (record_id (in_record i))
    (blocked (in_record i) progress (Some evidence) status msg (ps_evaluated_at (in_pass i)) DISPOSITION_POST_FILTER_BLOCKED)
    (pass_post i progress)) as Hb.
  { intros msg status. destruct Hr as (<- & _). eapply writes_impl; [by apply blocked_writes|]. by left. }
  apply or_blocked_writes; [|intros; apply Hb]. intros start _.
  destruct (pg_evaluation_cursor_open_at progress) as [text|] eqn:Ecur; subst fresh.
  - rewrite bool_decide_eq_false_2 by done. apply or_blocked_writes; [|intros; apply Hb]. intros cursor Hc.
    destruct (_ <? _)%Z; [apply Hb|]. eapply writes_bind; [apply writes_lift; intros d Hd; exact Hd|].
    intros duration Hd. eapply writes_bind; [apply writes_lift; intros n Hn; exact Hn|].
    intros next Hn. apply process_pending_writes; [done|]. intros text' Et. rewrite Ecur in Et. injection Et as <-.
    exists cursor. split; [done|]. exists duration. split; [done|]. rewrite <- (add_us_instant _ _ _ Hn). apply later_ge.
  - rewrite bool_decide_eq_true_2 by done. apply process_pending_writes; [done|]. congruence.
Qed.

Lemma start_tracking_writes i progress evidence :
  ready i progress ->
  writes (record_id (in_record i)) (start_tracking i progress evidence) (pass_post i progress).
Proof.
  intros Hr. unfold start_tracking.
  assert (forall msg status, writes (record_id (in_record i))
    (blocked (in_record i) progress (Some evidence) status msg (ps_evaluated_at (in_pass i)) DISPOSITION_POST_FILTER_BLOCKED)
    (pass_post i progress)) as Hb.
  { intros msg status. destruct Hr as (<- & _). eapply writes_impl; [by apply blocked_writes|]. by left. }
  assert (forall t fresh, fresh = bool_decide (pg_evaluation_cursor_open_at progress = None) ->
    writes (record_id (in_record i))
      (do! progress := lift (with_tracking_start progress t) in process_tracked i progress evidence fresh)
      (pass_post i progress)) as Hstart.
  { intros t fresh Hf. eapply writes_bind; [apply writes_lift; intros q Hq; exact (with_tracking_start_carried _ _ _ Hq)|].
    intros q Hq. eapply writes_impl; [apply process_tracked_writes|].
    - by apply (ready_carried i progress q).
    - by rewrite (proj2 Hq).
    - intros e. by apply pass_post_carried. }
  destruct (pg_tracking_start_at progress) as [start|].
  - apply process_tracked_writes; [done|]. by destruct (pg_evaluation_cursor_open_at progress).
  - destruct (pg_evaluation_cursor_open_at progress) as [text|] eqn:Ecur.
    + apply or_blocked_writes; [|intros; apply Hb]. intros t _. apply Hstart. done.
    + apply (writes_at _ (fun db => or_blocked _ _ _)). intros db. apply or_blocked_writes; [|intros; apply Hb].
      intros t _. by apply Hstart.
Qed.

Lemma adopt_contract_writes i progress evidence :
  ready i progress ->
  writes (record_id (in_record i)) (adopt_contract i progress evidence) (pass_post i progress).
Proof.
  intros Hr. unfold adopt_contract. destruct (pg_entry_at progress); [by apply start_tracking_writes|].
  eapply writes_bind; [by apply (writes_lift _ _ (fun _ => True))|]. intros fields _.
  destruct (json_is_str _ _); [by apply start_tracking_writes|].
  apply (writes_at _ (fun db => or_blocked _ _ _)). intros db. apply or_blocked_writes.
  - intros t _. eapply writes_bind; [apply writes_lift; intros q Hq; exact (with_tracking_start_carried _ _ _ Hq)|].
    intros q Hq. eapply writes_bind; [by apply (writes_lift _ _ (fun _ => True))|]. intros fields' _.
    eapply writes_impl; [apply start_tracking_writes; by eapply ready_carried|].
    intros e He. eapply pass_post_carried; [exact Hq|]. eapply pass_post_carried; [|exact He]. apply carried_metadata.
  - intros msg. destruct Hr as (<- & _). eapply writes_impl; [by apply blocked_writes|]. by left.
Qed.

(** ** The whole pass *)

(** the window, plan and ranges of a pass *)
Definition input_of (record : SetupLifecycleRecord) (candles : list candle) (timeframe : string) (decision : cval)
    (i : pass_input) : Prop :=
  in_record i = record /\ stored_plan_geometry record = Ok (in_geometry i) /\ in_timeframe i = timeframe /\
  exists window, closed_candles_as_of candles timeframe decision 0 true true false = Ok window /\
    in_timeline i = cw_timeline window /\ all_from_rows candle_range (cw_timeline window) = Ok (in_ranges i).

Definition evaluated_post (record : SetupLifecycleRecord) (candles : list candle) (timeframe : string) (decision : cval)
    (progress : SetupLifecycleOutcomeProgress) (e : LifecycleOutcomeEvaluation) : Prop :=
  idle record progress e \/
  exists i expected evaluated q, input_of record candles timeframe decision i /\ ran i progress expected evaluated e q.

Lemma evaluated_post_carried record candles timeframe decision p q e :
  carried p q -> evaluated_post record candles timeframe decision q e -> evaluated_post record candles timeframe decision p e.
Proof.
  intros Hc [(H1 & H2 & H3 & r & H4 & H5)|(i & expected & evaluated & r & Hi & [])].
  - left. split_and!; try done. exists r. split; [done|]. by eapply carried_trans.
  - right. exists i, expected, evaluated, r. split; [done|]. destruct Hc as [[Hk Hm] Hcur].
    split; try done; try congruence. intros text. rewrite <- Hcur. auto.
Qed.

Lemma evaluate_window_writes p record g identities candles timeframe decision progress :
  stored_plan_geometry record = Ok g -> owner progress = record_id record -> pg_terminal_outcome progress = NA ->
  In (r_current_state record) OUTCOME_ELIGIBLE_STATES ->
  writes (record_id record) (evaluate_window p record g identities candles timeframe decision progress)
    (evaluated_post record candles timeframe decision progress).
Proof.
  intros Hg Hown Hterm Hin. unfold evaluate_window.
  assert (forall q evidence msg disposition, carried progress q -> writes (record_id record)
    (blocked record q evidence INTEGRITY_UNVERIFIED msg (ps_evaluated_at p) disposition)
    (evaluated_post record candles timeframe decision progress)) as Hb.
  { intros q evidence msg disposition Hq. rewrite <- Hown. eapply writes_impl; [by apply blocked_writes|]. by left. }
  apply or_blocked_writes; [|intros; by apply Hb]. intros window Hw.
  apply or_blocked_writes; [|intros; by apply Hb]. intros ranges Hranges.
  destruct (cw_timeline window) as [|first rest] eqn:Et; [by apply Hb|].
  set (i := {| in_pass := p |}). set (q := with_applied_eligibility_cutoff progress window).
  change record with (in_record i) at 1. eapply writes_impl; [apply adopt_contract_writes; by split_and!|].
  intros e He. apply (pass_post_carried i progress q) in He; [|done].
  destruct He as [Hidle|(expected & evaluated & r & Hrun)]; [by left|right].
  exists i, expected, evaluated, r. split; [|done]. split_and!; try done. exists window. by rewrite Et.
Qed.

Lemma evaluate_eligible_writes p record identities candles execution_timeframe decision progress :
  owner progress = record_id record -> pg_terminal_outcome progress = NA ->
  In (r_current_state record) OUTCOME_ELIGIBLE_STATES ->
  writes (record_id record) (evaluate_eligible p record identities candles execution_timeframe decision progress)
    (evaluated_post record candles (py_lower (op_text execution_timeframe)) decision progress).
Proof.
  intros Hown Hterm Hin. unfold evaluate_eligible. set (timeframe := py_lower (op_text execution_timeframe)).
  assert (forall q status msg, carried progress q -> writes (record_id record)
    (failed_progress record q status msg (ps_evaluated_at p))
    (evaluated_post record candles timeframe decision progress)) as Hb.
  { intros q status msg Hq. rewrite <- Hown. eapply writes_impl; [by apply failed_progress_writes|]. by left. }
  destruct (String.eqb timeframe _); [by apply Hb|]. destruct (negb _); [by apply Hb|].
  eapply writes_bind; [apply writes_lift; intros g Hg; exact Hg|]. intros g Hg.
  destruct (bind_stop_policy _ _ _ _) as [q|err] eqn:Eb.
  - apply bind_stop_policy_carried in Eb as Hq. destruct (Hq) as [[Hk Hm] Hcur].
    assert (owner q = record_id record) as Hq1 by (rewrite <- Hown; by apply kept_owner).
    eapply writes_bind; [rewrite <- Hq1; apply upsert_outcome_progress_writes|]. intros _ _.
    destruct candles as [|c candles]; [by apply Hb|].
    eapply writes_impl; [apply evaluate_window_writes; try done; by injection Hm as _ _ _ _ _ _ ->|].
    intros e. by apply evaluated_post_carried.
  - destruct (policy_error_text err); [by apply Hb|]. by apply writes_lift.
Qed.

(** ** Loading a progress *)

Lemma lifecycle_id_text_idem x : lifecycle_id_text (lifecycle_id_text x) = lifecycle_id_text x.
Proof.
  unfold lifecycle_id_text. destruct (String.eqb (py_strip x) "") eqn:E; [done|]. by rewrite py_strip_idem, E.
Qed.

Lemma validate_progress_id p q :
  validate_progress p = Ok q -> pg_lifecycle_id q = lifecycle_id_text (pg_lifecycle_id p).
Proof. unfold validate_progress. intros E. apply bind_ok in E as (sym & _ & E). by injection E as <-. Qed.

Lemma first_progress_owner db id identities p :
  first_progress db id identities = Ok (Some p) -> owner p = lifecycle_id_text id.
Proof.
  induction identities as [|identity rest IH]; cbn [first_progress]; [discriminate|]. intros E.
  apply bind_ok in E as ([candidate|] & Hc & E); [|auto]. injection E as <-. unfold get_outcome_progress in Hc.
  destruct (find _ _) as [row|] eqn:Ef; [|discriminate]. apply find_some in Ef as [_ Ef].
  unfold progress_key_eqb in Ef. rewrite andb_true_iff, !String.eqb_eq in Ef. destruct Ef as [Ef _].
  destruct (outcome_progress_from_row row) as [r|] eqn:Er; [|discriminate Hc]. injection Hc as <-.
  unfold outcome_progress_from_row in Er. apply validate_progress_id in Er. cbn in Er.
  unfold owner. by rewrite Er, Ef, !lifecycle_id_text_idem.
Qed.

(** nothing has happened yet *)
Definition no_outcome : outcome := mkOutcome None None None None None None NA.

Lemma new_progress_spec record identity timeframe at_ q :
  new_progress record identity timeframe at_ = Ok q ->
  owner q = record_id record /\ milestones q = no_outcome /\ pg_evaluation_cursor_open_at q = None.
Proof.
  unfold new_progress. intros E. apply bind_ok in E as (b & _ & E). apply bind_ok in E as (v & _ & E).
  unfold owner. rewrite (validate_progress_id _ _ E). cbn [pg_lifecycle_id]. split; [apply lifecycle_id_text_idem|].
  unfold validate_progress in E. apply bind_ok in E as (sym & _ & E). by injection E as <-.
Qed.

Lemma bind_progress_carried p record d :
  bind_progress_to_proven_plan_version p record = Ok d -> carried p (bd_progress d).
Proof.
  unfold bind_progress_to_proven_plan_version. intros E. destruct (negb _) in E; [by injection E as <-|].
  apply bind_ok in E as (proven & _ & E). destruct (pg_plan_version_id p) as [v|], proven as [v'|].
  - destruct (String.eqb v v'); by injection E as <-.
  - by injection E as <-.
  - apply bind_ok in E as (fields & _ & E). destruct (negb _) in E; [by injection E as <-|].
    destruct (negb _) in E; by injection E as <-.
  - by injection E as <-.
Qed.

Lemma bind_loaded_writes record loaded :
  (forall p, loaded = Some p -> owner p = record_id record) ->
  writes (record_id record) (bind_loaded record loaded)
    (fun progress => match loaded, progress with
                     | Some p, Some q => carried p q
                     | None, None => True
                     | _, _ => False
                     end).
Proof.
  intros Hown. unfold bind_loaded. destruct loaded as [p|]; [|by apply writes_ret].
  eapply writes_bind; [apply writes_lift; intros d Hd; exact (bind_progress_carried _ _ _ Hd)|].
  intros d Hd. eapply writes_bind; [|intros _ _; by apply writes_ret].
  destruct (opt_string_eqb _ _); [by apply (writes_ret _ _ (fun _ => True))|].
  rewrite <- (Hown p eq_refl), <- (kept_owner p _ (proj1 Hd)). apply upsert_outcome_progress_writes.
Qed.

Definition start_of (loaded : option SetupLifecycleOutcomeProgress) : outcome :=
  match loaded with Some p => milestones p | None => no_outcome end.

Definition cursor_of (loaded : option SetupLifecycleOutcomeProgress) : option string :=
  match loaded with Some p => pg_evaluation_cursor_open_at p | None => None end.

(** no candle evaluated; the milestones stay, or the plan is closed because the
    record already ended *)
Definition unmoved (record : SetupLifecycleRecord) (loaded : option SetupLifecycleOutcomeProgress)
    (e : LifecycleOutcomeEvaluation) : Prop :=
  le_record e = record /\ le_processed_candles e = 0%nat /\ le_transitions e = [] /\
  match le_progress e with
  | None => loaded = None
  | Some q => milestones q = start_of loaded \/ In (r_current_state record) TERMINAL_OUTCOME_STATES
  end.

Definition owned_post (record : SetupLifecycleRecord) (loaded : option SetupLifecycleOutcomeProgress)
    (candles : list candle) (timeframe : string) (decision : cval) (e : LifecycleOutcomeEvaluation) : Prop :=
  unmoved record loaded e \/
  exists p0 i expected evaluated q,
    milestones p0 = start_of loaded /\ pg_evaluation_cursor_open_at p0 = cursor_of loaded /\
    oc_terminal (start_of loaded) = NA /\ In (r_current_state record) OUTCOME_ELIGIBLE_STATES /\
    input_of record candles timeframe decision i /\ ran i p0 expected evaluated e q.

Lemma state_in_In s l : state_in s l = true <-> In s l.
Proof.
  unfold state_in. rewrite existsb_exists. split.
  - intros (x & Hx & E). apply state_eqb_spec in E. by subst.
  - intros Hs. exists s. split; [done|]. by apply state_eqb_spec.
Qed.

Lemma terminal_progress_owner record progress identity timeframe at_ q :
  terminal_progress_for_record record progress identity timeframe at_ = Ok q ->
  (forall p, progress = Some p -> owner p = record_id record) -> owner q = record_id record.
Proof.
  unfold terminal_progress_for_record. intros E Hown. apply bind_ok in E as (p & Hp & E). injection E as <-.
  assert (owner p = record_id record) as <-.
  { destruct progress as [p'|]; [injection Hp as <-; auto|by apply new_progress_spec in Hp as (-> & _)]. }
  by destruct (String.eqb _ _), (state_eqb _ _).
Qed.

Lemma evaluate_bound_writes clock record candles timeframe decision at_ scan progress :
  (forall q, progress = Some q -> owner q = record_id record) ->
  writes (record_id record) (evaluate_bound clock record candles timeframe decision at_ scan progress)
    (owned_post record progress candles (py_lower (op_text timeframe)) decision).
Proof.
  intros Hown. unfold evaluate_bound.
  assert (writes (record_id record) (ret (unprocessed record progress))
            (owned_post record progress candles (py_lower (op_text timeframe)) decision)) as Hret.
  { apply writes_ret. left. split_and!; try done. cbn. destruct progress as [q|]; [by left|done]. }
  set (identity := match progress with Some p => _ | None => _ end).
  eapply writes_bind; [by apply (writes_lift _ _ (fun _ => True))|]. intros [failure|] _; [done|].
  destruct (terminal_recorded progress) eqn:Eterm; [done|].
  destruct (state_in _ TERMINAL_OUTCOME_STATES) eqn:Et.
  { eapply writes_bind; [apply writes_lift; intros q Hq; exact (terminal_progress_owner _ _ _ _ _ _ Hq Hown)|].
    intros q Hq. eapply writes_bind; [rewrite <- Hq; apply upsert_outcome_progress_writes|]. intros _ _.
    apply writes_ret. left. split_and!; try done. right. by apply state_in_In. }
  destruct (state_in _ OUTCOME_ELIGIBLE_STATES) eqn:Ee; [cbn [negb]|done]. apply state_in_In in Ee.
  eapply writes_bind.
  - apply (writes_lift _ _ (fun q => owner q = record_id record /\ milestones q = start_of progress /\
      pg_evaluation_cursor_open_at q = cursor_of progress)). intros q Hq.
    destruct progress as [p|]; [injection Hq as <-; auto|]. by apply new_progress_spec in Hq.
  - intros q (Hq1 & Hq2 & Hq3).
    assert (oc_terminal (milestones q) = NA) as Hna.
    { rewrite Hq2. destruct progress as [p|]; [|done]. cbn in *. by apply negb_false_iff, String.eqb_eq in Eterm. }
    eapply writes_impl; [by apply evaluate_eligible_writes|].
    intros e [(H1 & H2 & H3 & r & H4 & [[_ Hm] _])|(i & expected & evaluated & r & Hi & Hr)].
    + left. split_and!; try done. rewrite H4. left. congruence.
    + right. exists q, i, expected, evaluated, r. split_and!; try done; congruence.
Qed.

Lemma owned_post_start record p q candles timeframe decision e :
  start_of p = start_of q -> cursor_of p = cursor_of q -> (q = None -> p = None) ->
  owned_post record q candles timeframe decision e -> owned_post record p candles timeframe decision e.
Proof.
  intros Hs Hc Hn [(H1 & H2 & H3 & H4)|Hr].
  - left. split_and!; try done. destruct (le_progress e); [by rewrite Hs|auto].
  - right. by rewrite Hs, Hc.
Qed.

Lemma evaluate_owned_writes clock record candles timeframe decision at_ scan db e db' loaded :
  first_progress db (r_lifecycle_id record) (compatible_plan_identities record) = Ok loaded ->
  evaluate_owned clock record candles timeframe decision at_ scan db = Ok (e, db') ->
  extends (record_id record) db db' /\
  owned_post record loaded candles (py_lower (op_text timeframe)) decision e.
Proof.
  intros Hl E. unfold evaluate_owned in E. apply bind_tx_ok in E as (loaded' & db1 & E1 & E).
  unfold query in E1. rewrite Hl in E1. injection E1 as <- <-.
  assert (forall p, loaded = Some p -> owner p = record_id record) as Hown
    by (intros p ->; by apply first_progress_owner in Hl).
  clear Hl. revert db e db' E.
  change (writes (record_id record) (bind_tx (bind_loaded record loaded)
    (evaluate_bound clock record candles timeframe decision at_ scan))
    (owned_post record loaded candles (py_lower (op_text timeframe)) decision)).
  eapply writes_bind; [by apply bind_loaded_writes|]. intros progress Hp.
  eapply writes_impl; [apply evaluate_bound_writes|intros e; apply owned_post_start].
  - intros q ->. destruct loaded as [p|]; [|done]. rewrite <- (Hown p eq_refl). by apply kept_owner, Hp.
  - destruct loaded, progress; try done. by destruct Hp as [[_ ?] ?].
  - destruct loaded, progress; try done. by destruct Hp as [[_ ?] ?].
  - intros ->. by destruct loaded.
Qed.
End Pass.
