(* ===== verification/OutcomeProps.v ===== *)
(** * Theorems about closed-candle outcomes (src/app/lifecycle/outcomes.py)

    The pass against the abstract outcome machine, what it may write, when it
    does nothing, and how recorded milestones evolve. *)

From stdpp Require Import base tactics list strings.
From Stdlib Require Import ZArith NArith Lia Bool Ascii.
From S2P Require Import Prelude PyString PyDecimal PyTime PyJson LifecycleModels CandleIntegrity CandleProps JsonText JsonFacts.
From S2P Require Import OutcomePolicy EconomicIdentity PlanVersionBinding RuntimeEpoch LifecycleRepository RepositoryFacts.
From S2P Require Import Breakeven PrefixEvidence StateMachine StateMachineFacts OutcomeEvents Outcomes OutcomeFacts OutcomePass.
Open Scope string_scope.
Open Scope py_scope.
Open Scope tx_scope.
Open Scope list_scope.

(** ** The machine *)

(** [later o o']: what [o] records stays recorded in [o']. *)
Record keeps (o o' : outcome) : Prop := mkKeeps {
  ks_entry : forall t, oc_entry o = Some t -> oc_entry o' = Some t;
  ks_tp1 : forall t, oc_tp1 o = Some t -> oc_tp1 o' = Some t;
  ks_tp2 : forall t, oc_tp2 o = Some t -> oc_tp2 o' = Some t;
  ks_tp3 : forall t, oc_tp3 o = Some t -> oc_tp3 o' = Some t
}.

#[export] Instance keeps_preorder : PreOrder keeps.
Proof.
  split; [done|]. intros a b c [] []. split; eauto.
Qed.

Lemma step_keeps g causal high low o o' : outcome_step g causal high low o o' -> keeps o o'.
Proof.
  destruct 1 as [He ?|He ? ?|He ? ?| | |protected]; try done; try (split; cbn; congruence).
  unfold reach. destruct (g_targets g) as [[t1 t2] t3]. split; cbn; [done|by intros t ->..].
Qed.

Lemma step_stop_wins g causal high low o o' :
  outcome_step g causal high low o o' -> stop_touched high low g = true -> oc_tp1 o = None ->
  (oc_entry o <> None \/ entry_touched high low g = true) ->
  let close := isoformat (cc_close_timestamp causal) in
  o' = stopped SL_HIT close (match oc_entry o with Some _ => o | None => enter close o end).
Proof.
  intros Hs Hstop Htp Hentry close.
  assert (~ tp1_before o (cc_open_timestamp causal)) as Hnb by (intros (text & t & Ht & _); congruence).
  destruct Hs as [He Ht|He ? Hns|He ? ?|He ?|He Hb|protected He Hpr Hns].
  - destruct Hentry; congruence.
  - congruence.
  - by rewrite He.
  - by destruct (oc_entry o).
  - done.
  - destruct protected; [by destruct Hnb; auto|congruence].
Qed.

(** How a run ends: open, at the stop, at the protected stop, or at the third
    target. *)
Definition ending (o : outcome) : Prop :=
  oc_terminal o = NA /\ oc_stop o = None /\ oc_tp3 o = None \/
  oc_terminal o = state_value SL_HIT /\ oc_stop o <> None /\ oc_tp3 o = None /\ oc_at o = oc_stop o \/
  oc_terminal o = state_value BREAKEVEN /\ oc_stop o <> None /\ oc_tp3 o = None /\ oc_tp1 o <> None /\ oc_at o = oc_stop o \/
  oc_terminal o = state_value TP_HIT /\ oc_stop o = None /\ oc_tp3 o <> None /\ oc_at o <> None.

Lemma step_ending g causal high low o o' :
  outcome_step g causal high low o o' -> oc_terminal o = NA -> ending o -> ending o'.
Proof.
  intros Hs Ht [(_ & H1 & H2)|[(H1 & _)|[(H1 & _)|(H1 & _)]]]; try (rewrite H1 in Ht; discriminate Ht).
  destruct Hs as [| | | |He (text & t & Htp & _)|protected];
    [unfold ending; cbn [stopped enter oc_terminal oc_stop oc_tp1 oc_tp3 oc_at]..|].
  - left. done.
  - left. done.
  - right. left. done.
  - right. left. done.
  - right. right. left. rewrite Htp. done.
  - unfold reach. destruct (g_targets g) as [[t1 t2] t3]. unfold ending.
    cbn [oc_terminal oc_stop oc_tp1 oc_tp3 oc_at]. rewrite H2.
    destruct (target_touched high low g t3); [right; right; right|left]; done.
Qed.

Lemma run_keeps g l o o' : outcome_run g l o o' -> keeps o o'.
Proof.
  induction 1 as [|causal high low rest o o1 o2 Ht Hs Hr IH]; [done|].
  transitivity o1; [by eapply step_keeps|done].
Qed.

Lemma run_ending g l o o' : outcome_run g l o o' -> ending o -> ending o'.
Proof. induction 1 as [|causal high low rest o o1 o2 Ht Hs Hr IH]; [done|]. intros He. by eapply IH, step_ending. Qed.

(** ** The pass *)

Section Theorems.
Context `{JsonErrors}.

Lemma pass_cases clock record candles timeframe decision at_ scan db e db' :
  evaluate_closed_candle_outcomes clock record candles timeframe decision at_ scan db = Ok (e, db') ->
  (exists loaded, first_progress db (r_lifecycle_id record) (compatible_plan_identities record) = Ok loaded /\
     db' = db /\ e = unprocessed record loaded) \/
  (exists loaded, first_progress db (r_lifecycle_id record) (compatible_plan_identities record) = Ok loaded /\
     evaluate_owned clock record candles timeframe decision at_ scan db = Ok (e, db')).
Proof.
  unfold evaluate_closed_candle_outcomes. intros E.
  destruct (require_current_epoch_lifecycle_id db (r_lifecycle_id record)) as [row|err].
  - right. pose proof E as E'. unfold evaluate_owned in E'. apply bind_tx_ok in E' as (loaded & db1 & E1 & _).
    unfold query in E1. apply bind_ok in E1 as (l & Hl & _). by exists l.
  - left. destruct err; try discriminate E. unfold query in E. apply bind_ok in E as (e1 & E1 & E).
    apply bind_ok in E1 as (loaded & Hl & E1). injection E1 as <-. injection E as <- <-. by exists loaded.
Qed.

Lemma pass_post clock record candles timeframe decision at_ scan db e db' :
  evaluate_closed_candle_outcomes clock record candles timeframe decision at_ scan db = Ok (e, db') ->
  exists loaded, first_progress db (r_lifecycle_id record) (compatible_plan_identities record) = Ok loaded /\
    extends (record_id record) db db' /\
    owned_post record loaded candles (py_lower (op_text timeframe)) decision e.
Proof.
  intros E. destruct (pass_cases _ _ _ _ _ _ _ _ _ _ E) as [(loaded & Hl & -> & ->)|(loaded & Hl & Eo)].
  - exists loaded. split; [done|]. split; [apply extends_refl|]. left. split_and!; try done. destruct loaded; [by left|done].
  - exists loaded. split; [done|]. by eapply evaluate_owned_writes.
Qed.


(** C19: a pass changes the database only on behalf of its own lifecycle: the
    rows of other lifecycles, the epoch tables and the existing events stay as
    they are, new events belong to the lifecycle, no row disappears, and epoch
    membership, creation origin, plan versions already bound and first
    evaluation times are never overwritten. *)
Theorem outcome_pass_extends_database clock record candles timeframe decision at_ scan db e db' :
  evaluate_closed_candle_outcomes clock record candles timeframe decision at_ scan db = Ok (e, db') ->
  extends (lifecycle_id_text (r_lifecycle_id record)) db db'.
Proof. intros E. by destruct (pass_post _ _ _ _ _ _ _ _ _ _ E) as (loaded & _ & He & _). Qed.

(** what a stored progress has recorded is permanent: a pass over a setup
    that has not ended keeps every recorded entry and target time, and a plan
    that has ended by the rules stays in one of the four consistent endings
    (open, stopped, stopped at breakeven after the first target, third target). *)
Theorem recorded_milestones_permanent clock record candles timeframe decision at_ scan db e db' p q :
  evaluate_closed_candle_outcomes clock record candles timeframe decision at_ scan db = Ok (e, db') ->
  first_progress db (r_lifecycle_id record) (compatible_plan_identities record) = Ok (Some p) ->
  le_progress e = Some q -> ~ In (r_current_state record) TERMINAL_OUTCOME_STATES ->
  keeps (milestones p) (milestones q) /\ (ending (milestones p) -> ending (milestones q)).
Proof.
  intros E Hp Hq Hs. destruct (pass_post _ _ _ _ _ _ _ _ _ _ E) as (loaded & Hl & _ & Hpost).
  rewrite Hp in Hl. injection Hl as <-.
  destruct Hpost as [(_ & _ & _ & Hu)|(p0 & i & expected & evaluated & q' & Hm & _ & _ & _ & _ & Hr)].
  - rewrite Hq in Hu. destruct Hu as [->|]; [|done]. split; [apply (reflexivity (R := keeps))|done].
  - rewrite (rn_progress _ _ _ _ _ _ Hr) in Hq. injection Hq as <-. pose proof (rn_run _ _ _ _ _ _ Hr) as Hrun.
    rewrite Hm in Hrun. split; [by eapply run_keeps|by eapply run_ending].
Qed.

(** ** When the pass does nothing *)

Lemma upsert_outcome_progress_tables p db db' :
  upsert_outcome_progress p db = Ok (tt, db') -> db_records db' = db_records db /\ db_events db' = db_events db.
Proof.
  unfold upsert_outcome_progress. intros E. apply bind_ok in E as (row & _ & E). apply bind_ok in E as (ex & _ & E).
  apply bind_ok in E as (record & _ & E). apply bind_ok in E as (q & _ & E).
  destruct (negb _) in E; [discriminate E|]. by injection E as <-.
Qed.

Lemma bind_loaded_tables record p db progress db' :
  bind_loaded record (Some p) db = Ok (progress, db') ->
  db_records db' = db_records db /\ db_events db' = db_events db /\ exists q, progress = Some q /\ carried p q.
Proof.
  unfold bind_loaded. intros E. apply bind_tx_ok in E as (d & db1 & E1 & E). apply lift_ok in E1 as [Hd ->].
  apply bind_tx_ok in E as ([] & db2 & E2 & E). injection E as <- <-.
  assert (db_records db2 = db_records db /\ db_events db2 = db_events db) as [Hr He].
  { destruct (opt_string_eqb _ _); [by injection E2 as <-|by apply upsert_outcome_progress_tables in E2]. }
  split_and!; try done. eexists. split; [done|]. by apply bind_progress_carried in Hd.
Qed.

(** C28: a terminal outcome is final: once a setup's stored progress has one,
    no later pass moves the lifecycle, evaluates a candle, appends an event or
    writes a record, whatever candles it is given, and the milestones returned
    are the stored ones. *)
Theorem terminal_outcome_is_final clock record candles timeframe decision at_ scan db e db' p :
  first_progress db (r_lifecycle_id record) (compatible_plan_identities record) = Ok (Some p) ->
  pg_terminal_outcome p <> NA ->
  evaluate_closed_candle_outcomes clock record candles timeframe decision at_ scan db = Ok (e, db') ->
  le_record e = record /\ le_processed_candles e = 0%nat /\ le_transitions e = [] /\
  db_records db' = db_records db /\ db_events db' = db_events db /\
  exists q, le_progress e = Some q /\ milestones q = milestones p.
Proof.
  intros Hp Ht E. destruct (pass_cases _ _ _ _ _ _ _ _ _ _ E) as [(l & Hl & -> & ->)|(l & Hl & Eo)];
    rewrite Hp in Hl; injection Hl as <-.
  { split_and!; try done. by exists p. }
  unfold evaluate_owned in Eo. apply bind_tx_ok in Eo as (l & db1 & E1 & Eo).
  unfold query in E1. rewrite Hp in E1. injection E1 as <- <-.
  apply bind_tx_ok in Eo as (progress & db1 & E1 & Eo).
  destruct (bind_loaded_tables _ _ _ _ _ E1) as (Hr & He & q & -> & [[_ Hm] _]).
  assert (terminal_recorded (Some q) = true) as Htr.
  { cbn. injection Hm as _ _ _ _ _ _ ->. apply negb_true_iff. by apply String.eqb_neq. }
  unfold evaluate_bound in Eo. rewrite Htr in Eo. apply bind_tx_ok in Eo as (failure & db2 & E2 & Eo).
  apply lift_ok in E2 as [_ ->].
  assert (ret (unprocessed record (Some q)) db1 = Ok (e, db')) as Er by (by destruct failure).
  injection Er as <- <-. split_and!; try done. by exists q.
Qed.

(** a lifecycle the active epoch does not own is evidence only: when the
    ownership guard refuses it, the pass and the recording of an evidence gap
    leave the whole database as it was and return the record unchanged. *)
Theorem unowned_lifecycle_untouched clock record candles timeframe decision at_ scan diagnostic db kind msg e db' :
  require_current_epoch_lifecycle_id db (r_lifecycle_id record) = Raise (RuntimeEpochError kind msg) ->
  (evaluate_closed_candle_outcomes clock record candles timeframe decision at_ scan db = Ok (e, db') \/
   record_closed_candle_evidence_gap record diagnostic timeframe at_ db = Ok (e, db')) ->
  db' = db /\ le_record e = record /\ le_processed_candles e = 0%nat /\ le_transitions e = [].
Proof.
  intros Hg [E|E].
  - unfold evaluate_closed_candle_outcomes in E. rewrite Hg in E. unfold query in E.
    apply bind_ok in E as (e1 & E1 & E). apply bind_ok in E1 as (l & _ & E1). injection E1 as <-. by injection E as <- <-.
  - unfold record_closed_candle_evidence_gap in E. rewrite Hg in E. by injection E as <- <-.
Qed.

(** ** One candle *)

(** C20: ambiguity is resolved against the plan.  A candle that reaches the
    stop of a plan it fills, or of a filled plan whose first target is not
    recorded yet, stops the plan out at that candle's close: no target is
    recorded whatever its range, the lifecycle moves to SL_HIT, and the cursor
    moves past the candle. *)
Theorem same_candle_stop_wins p g causal high low s db s' db' :
  ls_aborted s = false -> states_agree (managed_from (ls_record s)) (loop_at s) (loop_milestones s) ->
  pg_terminal_outcome (ls_progress s) = NA -> pg_tp1_at (ls_progress s) = None ->
  stop_touched high low g = true -> (pg_entry_at (ls_progress s) <> None \/ entry_touched high low g = true) ->
  candle_step p g (causal, (high, low)) s db = Ok (s', db') ->
  let close := Some (isoformat (cc_close_timestamp causal)) in
  r_current_state (ls_record s') = SL_HIT /\ pg_terminal_outcome (ls_progress s') = state_value SL_HIT /\
  pg_stop_at (ls_progress s') = close /\ pg_outcome_at (ls_progress s') = close /\
  pg_entry_at (ls_progress s') = match pg_entry_at (ls_progress s) with Some t => Some t | None => close end /\
  pg_tp1_at (ls_progress s') = None /\ pg_tp2_at (ls_progress s') = pg_tp2_at (ls_progress s) /\
  pg_tp3_at (ls_progress s') = pg_tp3_at (ls_progress s) /\
  pg_evaluation_cursor_close_at (ls_progress s') = close.
Proof.
  intros Hab Hag Hterm Htp Hstop Hentry E close.
  assert (managed_from (ls_record s) MANAGING) as Hman by (by left).
  destruct (candle_step_writes _ p g causal high low s Hman Hab Hag Hterm _ _ _ E) as (_ & Had & Hag' & Hstep).
  pose proof (step_stop_wins _ _ _ _ _ _ Hstep Hstop Htp Hentry) as Hm.
  assert (loop_at s' = SL_HIT) as Hst.
  { destruct Hag' as [(H1 & _)|[(H1 & _)|(_ & Hin & H1)]]; rewrite Hm in H1; [discriminate H1..|].
    cbn in Hin. destruct_or! Hin; try done; rewrite <- Hin in H1; discriminate H1. }
  destruct (ad_cursor _ _ _ Had) as [_ Hcur]. unfold loop_milestones in Hm.
  split; [exact Hst|]. cbn [milestones oc_entry] in Hm. destruct (pg_entry_at (ls_progress s)) eqn:Een;
    injection Hm as -> -> -> -> -> -> ->; cbn; rewrite ?Een; split_and!; done.
Qed.

(** ** Metadata and the breakeven policy *)

Lemma with_metadata_json p fields : pg_metadata_json (with_metadata p fields) = dumps (JObj fields).
Proof. reflexivity. Qed.

(** where the policy of a new binding starts, after it was written and read *)
Lemma binding_start g at_ cutoff :
  exists b, canon (new_binding g at_ cutoff) = JObj b /\
    json_get "effective_from_candle_open_at" b = JStr (isoformat cutoff).
Proof. eexists. split; reflexivity. Qed.

Lemma protection_active_after r t m b cutoff :
  protection_active r (CDatetime t) = Ok true -> loads (pg_metadata_json r) = Ok (JObj m) ->
  json_get KEY m = JObj b -> json_get "effective_from_candle_open_at" b = JStr (isoformat cutoff) ->
  datetime_wf cutoff -> dt_offset cutoff = Some 0%Z -> (instant cutoff <= instant t)%Z.
Proof.
  intros Hact Hl Hb Hg Hwf Hoff. unfold protection_active in Hact. destruct (pg_tp1_at r); [|discriminate].
  rewrite Hl in Hact. cbn [bind_result] in Hact. rewrite Hb in Hact.
  destruct (negb _) in Hact; [discriminate|]. apply bind_ok in Hact as (o & Ho & Hact).
  apply bind_ok in Hact as (x & _ & Hact). destruct (_ <? _)%Z in Hact; [discriminate|].
  rewrite Hg in Hact. cbn [cval_of_json] in Hact. rewrite normalize_isoformat in Hact by done.
  injection Hact as Hact. apply normalize_datetime_instant in Ho. lia.
Qed.

Lemma normalize_datetime_wf d u :
  datetime_wf d -> normalize_datetime d = Ok u -> datetime_wf u /\ dt_offset u = Some 0%Z /\ instant u = instant d.
Proof.
  intros Hwf E. pose proof (normalize_datetime_instant _ _ E) as Hi. unfold normalize_datetime, astimezone_utc in E.
  destruct (dt_offset d) eqn:Eo.
  - destruct (_ && _)%bool eqn:Er in E; [|discriminate E]. injection E as <-. apply andb_true_iff in Er as [H1 H2].
    split; [|done]. split; [cbn; lia|]. done.
  - injection E as <-. unfold as_utc in *. rewrite Eo in *. destruct Hwf as [Hr _]. split; [by split|done].
Qed.

Lemma utc_isoformat c name : datetime_wf c -> dt_offset c = Some 0%Z -> utc (Some (isoformat c)) name = Ok c.
Proof. apply normalize_isoformat. Qed.

Lemma later_spec d u c :
  datetime_wf u -> dt_offset u = Some 0%Z -> instant u = instant d -> datetime_wf c -> dt_offset c = Some 0%Z ->
  datetime_wf (later u c) /\ dt_offset (later u c) = Some 0%Z /\ (instant d <= instant (later u c))%Z /\
  forall x, Some c = Some x -> (instant x <= instant (later u c))%Z.
Proof.
  intros. unfold later. destruct (_ <? _)%Z eqn:E; split_and!; try done; try lia; intros x [= <-]; lia.
Qed.

(** the policy of a first binding starts no earlier than the decision and the
    cursor *)
Lemma bind_stop_policy_new p g d at_ q fields cursor :
  loads (pg_metadata_json p) = Ok (JObj fields) -> dict_mem KEY fields = false ->
  datetime_wf d -> pg_evaluation_cursor_close_at p = option_map isoformat cursor ->
  (forall c, cursor = Some c -> datetime_wf c /\ dt_offset c = Some 0%Z) ->
  bind_stop_policy p g (CDatetime d) at_ = Ok q ->
  exists cutoff, q = with_metadata p (dict_set KEY (new_binding g at_ cutoff) fields) /\
    datetime_wf cutoff /\ dt_offset cutoff = Some 0%Z /\ (instant d <= instant cutoff)%Z /\
    forall c, cursor = Some c -> (instant c <= instant cutoff)%Z.
Proof.
  intros Hl Hmem Hd Hcur Hc Hb. unfold bind_stop_policy in Hb. rewrite Hl in Hb. cbn [bind_result] in Hb. rewrite Hmem in Hb.
  apply bind_ok in Hb as (u & Hu & Hb). apply bind_ok in Hb as (a & _ & Hb). apply bind_ok in Hb as (cutoff & Hcut & Hq).
  apply ok_inj in Hq. destruct (normalize_datetime_wf _ _ Hd Hu) as (Hu1 & Hu2 & Hu3).
  exists cutoff. split; [done|]. destruct (pg_evaluation_cursor_close_at p) as [close|], cursor as [c|]; try discriminate Hcur.
  - cbn [option_map] in Hcur. assert (close = isoformat c) as -> by congruence. destruct (Hc c eq_refl) as [Hc1 Hc2].
    apply bind_ok in Hcut as (prior & Hp & Hcut). rewrite utc_isoformat in Hp by done. apply ok_inj in Hp, Hcut.
    rewrite <- Hcut, <- Hp. by apply later_spec.
  - apply ok_inj in Hcut. rewrite <- Hcut. split_and!; try done. by rewrite Hu3.
Qed.

Lemma new_binding_ok g at_ cutoff : json_ok (new_binding g at_ cutoff).
Proof.
  apply json_ok_obj. split; [|by repeat constructor]. apply (bool_decide_unpack (NoDup BINDING_KEYS)). by vm_compute.
Qed.

Lemma binding_read g at_ cutoff fields :
  dict_mem KEY fields = false -> json_ok (JObj fields) ->
  exists m b, loads (dumps (JObj (dict_set KEY (new_binding g at_ cutoff) fields))) = Ok (JObj m) /\
    json_get KEY m = JObj b /\ json_get "effective_from_candle_open_at" b = JStr (isoformat cutoff).
Proof.
  intros Hmem Hok. destruct (binding_start g at_ cutoff) as (b & Hb & Hg).
  assert (json_ok (JObj (dict_set KEY (new_binding g at_ cutoff) fields))) as Hok'
    by (apply json_ok_set; [by apply dict_mem_keys|done|apply new_binding_ok]).
  eexists (sorted_items (map (fun '(k, w) => (k, canon w)) _)), b. split; [exact (loads_dumps _ Hok')|]. split; [|done].
  apply json_ok_obj in Hok' as [Hn _]. rewrite json_get_read by done. by rewrite json_get_set_same.
Qed.

(** the metadata a progress stores is what is read back from it: writing a
    dictionary and reading it gives, under every key, the value written (inner
    dictionaries in key order), and never the empty dictionary that malformed
    text reads as. *)
Theorem metadata_round_trip p fields :
  json_ok (JObj fields) ->
  exists read, metadata (with_metadata p fields) = Ok read /\ read ≡ₚ map (fun '(k, w) => (k, canon w)) fields /\
    forall key, json_get key read = canon (json_get key fields).
Proof.
  intros Hok. eexists. split.
  - unfold metadata. rewrite with_metadata_json, loads_dumps by done. reflexivity.
  - split; [apply sorted_items_perm|]. intros key. apply json_get_read. by apply json_ok_obj in Hok as [? _].
Qed.

(** the breakeven policy is never applied to the past.  A progress that
    adopts it at decision time [d] is protected, in this pass or any later one
    that keeps the binding, only on candles that open at or after [d], after
    the candle its cursor had reached, and after the recorded first target. *)
Theorem breakeven_protection_is_prospective p g d at_ q r t fields cursor :
  loads (pg_metadata_json p) = Ok (JObj fields) -> json_ok (JObj fields) -> dict_mem KEY fields = false ->
  datetime_wf d -> pg_evaluation_cursor_close_at p = option_map isoformat cursor ->
  (forall c, cursor = Some c -> datetime_wf c /\ dt_offset c = Some 0%Z) ->
  bind_stop_policy p g (CDatetime d) at_ = Ok q -> pg_metadata_json r = pg_metadata_json q ->
  protection_active r (CDatetime t) = Ok true ->
  (instant d <= instant t)%Z /\ (forall c, cursor = Some c -> (instant c <= instant t)%Z) /\
  tp1_before (milestones r) t.
Proof.
  intros Hl Hok Hmem Hd Hcur Hc Hb Hr Hact. pose proof (protection_active_tp1 _ _ Hact) as Htp.
  destruct (bind_stop_policy_new _ _ _ _ _ _ _ Hl Hmem Hd Hcur Hc Hb) as (cutoff & -> & Hwf & Hoff & Hle & Hlec).
  cut (instant cutoff <= instant t)%Z.
  { intros Ht. split_and!; [lia| |done]. intros c Hcc. specialize (Hlec c Hcc). lia. }
  destruct (binding_read g at_ cutoff fields Hmem Hok) as (m & b & Hm & Hb' & Hg).
  apply (protection_active_after r t m b cutoff); try done. by rewrite Hr, with_metadata_json.
Qed.
End Theorems.

(** ** Sample passes

    A confirmed long setup of an owned lifecycle (zone 99 to 100, stop 95,
    targets 110, 120 and 130) over fifteen-minute candles from midnight. *)

#[local] Instance sample_errors : JsonErrors := fun _ => "Expecting value".

Definition owned_record : SetupLifecycleRecord :=
  sample_record <| r_current_state := CONFIRMED |> <| r_confirmed_at := Some "2026-01-01T00:00:00+00:00" |>
    <| r_runtime_epoch_id := Some "E1" |> <| r_creation_origin_id := Some "O1" |>.

Definition sample_db : database :=
  {| db_control := Some [("active", "E1")];
     db_epochs := [{| re_epoch_id := "E1"; re_contract_version := "v1"; re_activated_at := "2026-01-01T00:00:00+00:00";
                      re_cutoff_at := "2026-01-01T00:00:00+00:00"; re_reviewed_release_sha := "sha";
                      re_generation_binding := "g1"; re_created_at := "2026-01-01T00:00:00+00:00" |}];
     db_origins := [{| og_origin_id := "O1"; og_runtime_epoch_id := "E1"; og_symbol := "BTCUSDT"; og_run_id := "R1";
                       og_evaluation_completed_at := Some "2026-01-01T00:02:00Z";
                       og_decision_cutoff_at := Some "2026-01-01T00:02:00Z";
                       og_producer_observed_at := Some "2026-01-01T00:01:00Z"; og_origin_kind := "live_fresh";
                       og_status := "granted"; og_block_reason := None; og_created_at := Some "2026-01-01T00:02:00Z";
                       og_lifecycle_consumption_json := None |}];
     db_runs := [{| run_run_id := "R1"; run_runtime_epoch_id := "E1";
                     run_registered_at := "2026-01-01T00:00:30Z"; run_status := "registered"; run_producer_started_at := None |}];
     db_records := [owned_record]; db_events := []; db_progress := []; db_analytics := [] |}.

Definition bar (n : Z) (high low : string) : candle :=
  MappingCandle [("timestamp", CVal (PyInt (1767225600000 + n * 900000)%Z)); ("high", CVal (PyStr high));
                 ("low", CVal (PyStr low))].

(** the entry on the second candle, the first target on the third *)
Definition first_bars : list candle := [bar 0 "104" "101"; bar 1 "103" "99.5"; bar 2 "112" "98"].
(** back to the middle of the zone after the policy was adopted *)
Definition second_bars : list candle := first_bars ++ [bar 3 "113" "99.7"; bar 4 "113" "99"; bar 5 "131" "90"].

(** notations, so that a run is the call itself *)
Notation sample_pass record candles n :=
  (evaluate_closed_candle_outcomes "2026-01-01T02:00:00+00:00" record candles "15m"
    (CVal (PyInt (1767225600000 + n * 900000)%Z)) "2026-01-01T02:00:00+00:00" (Some "S1")) (only parsing).
Notation first_pass := (sample_pass owned_record first_bars 3 sample_db) (only parsing).
Notation second_pass := (let! (e, db) := first_pass in sample_pass (le_record e) second_bars 6 db) (only parsing).
Notation third_pass := (let! (e, db) := second_pass in
  sample_pass (le_record e) (second_bars ++ [bar 6 "140" "80"]) 7 db) (only parsing).

Definition pass_summary (r : result (LifecycleOutcomeEvaluation * database))
    : option (SetupLifecycleState * option outcome * nat * nat) :=
  match r with
  | Ok (e, db) => Some (r_current_state (le_record e), option_map milestones (le_progress e), le_processed_candles e,
                        length (db_events db))
  | Raise _ => None
  end.

Example first_pass_fills_and_reaches_tp1 :
  pass_summary first_pass = Some (MANAGING, Some (mkOutcome (Some "2026-01-01T00:30:00+00:00")
    (Some "2026-01-01T00:45:00+00:00") None None None None NA), 3%nat, 4%nat).
Proof. vm_compute. reflexivity. Qed.

Example second_pass_ends_at_breakeven :
  pass_summary second_pass = Some (BREAKEVEN, Some (mkOutcome (Some "2026-01-01T00:30:00+00:00")
    (Some "2026-01-01T00:45:00+00:00") None None (Some "2026-01-01T01:15:00+00:00") (Some "2026-01-01T01:15:00+00:00")
    "BREAKEVEN"), 2%nat, 5%nat).
Proof. vm_compute. reflexivity. Qed.

Example third_pass_changes_nothing :
  pass_summary third_pass = Some (BREAKEVEN, Some (mkOutcome (Some "2026-01-01T00:30:00+00:00")
    (Some "2026-01-01T00:45:00+00:00") None None (Some "2026-01-01T01:15:00+00:00") (Some "2026-01-01T01:15:00+00:00")
    "BREAKEVEN"), 0%nat, 5%nat).
Proof. vm_compute. reflexivity. Qed.

(** the run of a sample pass, named *)
Definition returned {A} (r : result A) : bool := match r with Ok _ => true | Raise _ => false end.

Ltac run_pass r e db E :=
  let Hok := fresh in assert (returned r = true) as Hok by (vm_compute; reflexivity);
  destruct r as [[e db]|?] eqn:E; [clear Hok|discriminate Hok].


Lemma outcome_pass_extends_database_witness :
  exists e db', first_pass = Ok (e, db') /\ extends "L1" sample_db db'.
Proof.
  run_pass constr:(first_pass) e db' E. exists e, db'. split; [reflexivity || exact E|].
  exact (outcome_pass_extends_database _ _ _ _ _ _ _ _ _ _ E).
Defined.

Lemma recorded_milestones_permanent_witness :
  exists e1 db1 p e db' q, first_pass = Ok (e1, db1) /\ le_progress e = Some q /\
    sample_pass (le_record e1) second_bars 6 db1 = Ok (e, db') /\ keeps (milestones p) (milestones q).
Proof.
  run_pass constr:(first_pass) e1 db1 E1.
  assert (match first_pass with
          | Ok (x, d) => match first_progress d (r_lifecycle_id (le_record x)) (compatible_plan_identities (le_record x)) with
                         | Ok (Some _) => state_in (r_current_state (le_record x)) TERMINAL_OUTCOME_STATES = false
                         | _ => False end
          | Raise _ => False end) as Hf by (vm_compute; reflexivity).
  assert (match second_pass with Ok (x, _) => le_progress x <> None | Raise _ => False end) as Hs
    by (vm_compute; discriminate).
  rewrite E1 in Hf. rewrite E1 in Hs. cbn [bind_result] in Hs.
  destruct (first_progress db1 _ _) as [[p|]|] eqn:Ep; [|destruct Hf|destruct Hf].
  destruct (sample_pass (le_record e1) second_bars 6 db1) as [[e db']|] eqn:E; [|destruct Hs].
  destruct (le_progress e) as [q|] eqn:Eq; [|destruct Hs; reflexivity]. exists e1, db1, p, e, db', q.
  split; [reflexivity|]. split; [exact Eq|]. split; [exact E|].
  apply (recorded_milestones_permanent _ _ _ _ _ _ _ _ _ _ p q E Ep Eq).
  intros Hin. apply state_in_In in Hin. rewrite Hin in Hf. discriminate Hf.
Defined.

Lemma terminal_outcome_is_final_witness :
  exists e1 db1 e db', second_pass = Ok (e1, db1) /\
    sample_pass (le_record e1) (second_bars ++ [bar 6 "140" "80"]) 7 db1 = Ok (e, db') /\ db_events db' = db_events db1.
Proof.
  run_pass constr:(second_pass) e1 db1 E1.
  assert (match second_pass with
          | Ok (x, d) => match first_progress d (r_lifecycle_id (le_record x)) (compatible_plan_identities (le_record x)) with
                         | Ok (Some p) => String.eqb (pg_terminal_outcome p) NA = false
                         | _ => False end
          | Raise _ => False end) as Hf by (vm_compute; reflexivity).
  assert (match third_pass with Ok _ => True | Raise _ => False end) as Hs by (vm_compute; exact I).
  rewrite E1 in Hf. rewrite E1 in Hs. cbn [bind_result] in Hs.
  destruct (first_progress db1 _ _) as [[p|]|] eqn:Ep; [|destruct Hf|destruct Hf]. apply String.eqb_neq in Hf.
  destruct (sample_pass (le_record e1) (second_bars ++ [bar 6 "140" "80"]) 7 db1) as [[e db']|] eqn:E; [|destruct Hs].
  exists e1, db1, e, db'. split; [reflexivity|]. split; [exact E|].
  destruct (terminal_outcome_is_final _ _ _ _ _ _ _ _ _ _ p Ep Hf E) as (_ & _ & _ & _ & H & _). exact H.
Defined.

Lemma unowned_lifecycle_untouched_witness :
  exists e db', sample_pass owned_record first_bars 3 (sample_db <| db_control := Some [] |>) = Ok (e, db') /\
    db' = sample_db <| db_control := Some [] |>.
Proof.
  run_pass (sample_pass owned_record first_bars 3 (sample_db <| db_control := Some [] |>)) e db' E. exists e, db'. split; [reflexivity || exact E|].
  destruct (unowned_lifecycle_untouched "2026-01-01T02:00:00+00:00" owned_record first_bars "15m"
    (CVal (PyInt (1767225600000 + 3 * 900000)%Z)) "2026-01-01T02:00:00+00:00" (Some "S1") "gap"
    (sample_db <| db_control := Some [] |>) "RuntimeEpochConfigurationError"
    "Operational runtime epoch is missing; refusing to initialize a default boundary." e db') as [H _].
  - vm_compute. reflexivity.
  - left. exact E.
  - exact H.
Defined.

(** a candle from 111 down to 94, through the zone and the stop *)
Definition falling : CausalCandle :=
  mkCausalCandle (bar 0 "111" "94") (mkDatetime 63902822400000000 (Some 0%Z)) (mkDatetime 63902823300000000 (Some 0%Z)) (Some 0%nat).

Definition sample_loop : loop_state :=
  mkLoop owned_record (sample_progress <| pg_tp1_at := None |>)
    {| pe_execution_timeframe := "15m"; pe_applied_cutoff := ""; pe_supplied := [falling]; pe_cursor_before_open_at := None;
       pe_cursor_before_close_at := None; pe_pending := Some [falling]; pe_expected_next_open_at := None;
       pe_pending_unknown_reason := None; pe_disposition := None; pe_completed := [] |} None [] 0 false.

Lemma same_candle_stop_wins_witness :
  exists s' db', candle_step (mkPass "" "2026-01-01T02:00:00+00:00" None "P1") sample_geometry
      (falling, (dec_of_Z 111, dec_of_Z 94)) sample_loop sample_db = Ok (s', db') /\
    r_current_state (ls_record s') = SL_HIT /\ pg_tp1_at (ls_progress s') = None.
Proof.
  run_pass constr:(candle_step (mkPass "" "2026-01-01T02:00:00+00:00" None "P1") sample_geometry
      (falling, (dec_of_Z 111, dec_of_Z 94)) sample_loop sample_db) s' db' E.
  exists s', db'. split; [reflexivity|].
  destruct (same_candle_stop_wins (mkPass "" "2026-01-01T02:00:00+00:00" None "P1") sample_geometry falling
    (dec_of_Z 111) (dec_of_Z 94) sample_loop sample_db s' db' eq_refl
    ltac:(left; split; [reflexivity|split; [reflexivity|cbn; tauto]]) eq_refl eq_refl
    ltac:(vm_compute; reflexivity) ltac:(right; vm_compute; reflexivity) E) as (H1 & _ & _ & _ & _ & H6 & _).
  split; [exact H1|exact H6].
Defined.

Lemma metadata_round_trip_witness :
  exists read, metadata (with_metadata sample_progress
      [("source", JStr OUTCOME_SOURCE); ("processed_candle_count", JInt 3)]) = Ok read /\
    json_get "processed_candle_count" read = JInt 3.
Proof.
  destruct (metadata_round_trip sample_progress [("source", JStr OUTCOME_SOURCE); ("processed_candle_count", JInt 3)])
    as (read & H1 & _ & H3).
  - apply json_ok_obj. split; [|repeat constructor].
    apply (bool_decide_unpack (NoDup ["source"; "processed_candle_count"])). vm_compute. exact I.
  - exists read. split; [exact H1|]. exact (H3 "processed_candle_count").
Defined.

Notation sample_binding :=
  (bind_stop_policy sample_progress sample_geometry (CDatetime (mkDatetime 63902822400000000 (Some 0%Z)))
     "2026-01-01T02:00:00+00:00") (only parsing).

Lemma breakeven_protection_is_prospective_witness :
  exists q, sample_binding = Ok q /\ tp1_before (milestones q) (mkDatetime 63902823300000000 (Some 0%Z)).
Proof.
  assert (match sample_binding with
          | Ok q => protection_active q (CDatetime (mkDatetime 63902823300000000 (Some 0%Z))) = Ok true
          | Raise _ => False end) as Hp by (vm_compute; reflexivity).
  destruct sample_binding as [q|] eqn:E; [|destruct Hp]. exists q. split; [reflexivity|].
  apply (breakeven_protection_is_prospective sample_progress sample_geometry (mkDatetime 63902822400000000 (Some 0%Z))
    "2026-01-01T02:00:00+00:00" q q (mkDatetime 63902823300000000 (Some 0%Z)) [] None).
  - vm_compute. reflexivity.
  - split; [constructor|exact I].
  - reflexivity.
  - vm_compute. repeat split; discriminate.
  - reflexivity.
  - discriminate.
  - exact E.
  - reflexivity.
  - exact Hp.
Defined.
