(* ===== verification/StateMachineProps.v ===== *)
(** * Properties of the lifecycle state machine *)

From stdpp Require Import base tactics list strings relations.
From Stdlib Require Import ZArith NArith QArith Lia Lqa Bool Ascii.
From S2P Require Import Prelude PyString PyDecimal DecimalFacts PyTime LifecycleModels.
From S2P Require Import OutcomePolicy Identity EconomicIdentity Observation StateMachine.
From S2P Require Import StateMachineFacts.
Open Scope string_scope.
Open Scope py_scope.

(** ** Lemmas: normalised level texts *)

Lemma sm_text_idem v : sm_text (sm_text v) = sm_text v.
Proof.
  unfold sm_text. destruct (String.eqb v ""); [done|].
  destruct (String.eqb_spec (py_strip v) "") as [|E]; [done|].
  rewrite py_strip_idem. apply String.eqb_neq in E. by rewrite E.
Qed.

Lemma normalize_text_sm v : normalize_text v = sm_text v.
Proof. unfold normalize_text, sm_text. by destruct (String.eqb_spec v "") as [->|]. Qed.

Definition plan_levels (r : SetupLifecycleRecord) : list string :=
  [r_entry_low r; r_entry_high r; r_stop_loss r; r_tp1 r; r_tp2 r; r_tp3 r].

Definition levels_normal (r : SetupLifecycleRecord) : Prop :=
  Forall (fun t => sm_text t = t) (plan_levels r).

Lemma plan_value_normal r s o : sm_text (plan_or_observed_value r s o) = plan_or_observed_value r s o.
Proof. unfold plan_or_observed_value. destruct (_ && _); apply sm_text_idem. Qed.

Lemma plan_value_locked r s o :
  In (r_current_state r) PLAN_LOCK_STATES -> sm_text s = s -> s <> NA ->
  plan_or_observed_value r s o = s.
Proof.
  intros Hl Hn Hna. unfold plan_or_observed_value, is_na. apply state_in_spec in Hl.
  rewrite Hl, Hn. apply String.eqb_neq in Hna. by rewrite Hna.
Qed.

Lemma folded_levels_normal r o ts c rc pen : levels_normal (folded_record r o ts c rc pen).
Proof. unfold levels_normal, plan_levels. repeat constructor; apply plan_value_normal. Qed.

Lemma folded_levels_locked r o ts c rc pen :
  In (r_current_state r) PLAN_LOCK_STATES -> levels_normal r -> Forall (fun t => t <> NA) (plan_levels r) ->
  plan_levels (folded_record r o ts c rc pen) = plan_levels r.
Proof.
  intros Hl Hn Hna. unfold levels_normal, plan_levels in *. rewrite !Forall_cons in *. destruct_and?.
  cbn -[plan_or_observed_value]. by rewrite !plan_value_locked.
Qed.

Lemma geometry_guard_levels u0 n0 n1 u1 diag :
  geometry_guard u0 n0 n1 u1 diag -> plan_levels u1 = plan_levels u0.
Proof. by intros []. Qed.

Lemma decay_levels previous u n next updated decay :
  decay_outcome previous u n next updated decay -> plan_levels updated = plan_levels u.
Proof. by intros []. Qed.

Lemma scan_target_levels record o ts a rc next updated decay diag :
  scan_target record o ts a rc = Ok (next, updated, decay, diag) ->
  exists c, plan_levels updated =
    plan_levels (folded_record record o ts c rc (ea_symbol_health_penalty_cycles a)).
Proof.
  intros H. apply scan_target_inv in H as (c & n1 & u1 & Hg & Hd). exists c.
  apply apply_decay_cases, decay_levels in Hd. apply geometry_guard_levels in Hg. congruence.
Qed.

Lemma transition_outcome_levels record s a ts g res out :
  transition_outcome record s a ts g res -> tr_record res = Some out -> plan_levels out = plan_levels record.
Proof.
  intros [He|notes Hn Hd|res' Hn Hin _ Hm] Hout.
  - by injection Hout as <-.
  - by injection Hout as <-.
  - apply moved_result_shape in Hm as (ev & r' & -> & _ & _ & _ & _ & _ & cd & _ & ->).
    by injection Hout as <-.
Qed.

(** A valid stored geometry has no level missing. *)
Lemma valid_geometry_levels r :
  stored_plan_geometry_failure r = Ok None -> Forall (fun t => t <> NA) (plan_levels r).
Proof.
  intros H. destruct (stored_plan_geometry_failure_total r) as [(g & Hg & _)|(m & _ & Hm)]; [|congruence].
  apply stored_plan_geometry_iff in Hg. unfold stored_plan_spec, stored_level in Hg.
  destruct (g_targets g) as [[t1 t2] t3]. destruct_and? Hg. unfold plan_levels. by repeat constructor.
Qed.

Lemma lock_states_active s : In s PLAN_LOCK_STATES -> In s ACTIVE_LIFECYCLE_MONITORING_STATES.
Proof. rewrite <- !state_in_spec. by destruct s. Qed.

Lemma evaluation_levels_normal clock a r o pre out :
  levels_normal r -> evaluation clock a r o pre out -> levels_normal out.
Proof.
  intros Hn [f _ _|ta _ _ _ _ res r' Hr| |next updated decay diag res r' _ _ Hs Ht Hr].
  - done.
  - by injection Hr as <-.
  - exact Hn.
  - apply scan_target_levels in Hs as [c Hc]. apply transition_record_outcome in Ht.
    unfold levels_normal. rewrite (transition_outcome_levels _ _ _ _ _ _ _ Ht Hr), Hc.
    apply folded_levels_normal.
Qed.

Lemma validate_record_levels r r' : validate_record r = Ok r' -> levels_normal r'.
Proof.
  unfold validate_record. destruct (normalize_symbol (r_symbol r)); cbn [bind_result]; [|discriminate].
  destruct (negb _); [discriminate|]. intros [= <-]. unfold levels_normal, plan_levels. cbn -[normalize_text].
  repeat constructor; rewrite normalize_text_sm; apply sm_text_idem.
Qed.

Lemma reachable_levels_normal r : reachable r -> levels_normal r.
Proof.
  induction 1 as [clock a o res r H Hr|clock a o res r r' _ Hn H Hr].
  - apply evaluate_new_cases in H as (r0 & out & r1 & H0 & Hs & Hr1 & _ & _ & Hout).
    rewrite Hr in Hr1. injection Hr1 as <-. unfold first_record in H0. apply validate_record_levels in H0.
    rewrite Hs. by destruct Hout as [[-> _]|(f & _ & _ & ->)].
  - apply evaluate_existing_cases in H as (pre & out & r1 & He & Hs & ->). injection Hr as <-.
    rewrite Hs. by eapply evaluation_levels_normal in He.
Qed.

(** ** Lemmas: what a confirmed observation shows *)

Lemma confirmed_ready_blockers o :
  confirmed_observation_ready o = true <->
  status_blockers o = [] /\ plan_blockers o = [] /\ quality_blockers o = [].
Proof.
  unfold confirmed_observation_ready.
  assert (confirmed_observation_blockers o = [] <->
          status_blockers o = [] /\ plan_blockers o = [] /\ quality_blockers o = []) as H.
  { unfold confirmed_observation_blockers. rewrite dict_fromkeys_nil, !app_nil. tauto. }
  rewrite <- H. by destruct (confirmed_observation_blockers o).
Qed.

Lemma score_blockers_nil m b score minimum :
  score_blockers m b score minimum = [] <-> exists s, score = Some s /\ (dQ minimum <= dQ s)%Q.
Proof.
  unfold score_blockers. destruct score as [s|].
  - rewrite when_nil, dltb_false. split; [eauto|]. by intros (? & [= <-] & ?).
  - split; [done|]. by intros (? & [=] & _).
Qed.

(** The evidence behind CONFIRMED: an actionable idea with a side, a zone, a
    stop and an invalidation, RR at least 3, a grade of B+ or better, and no
    failed gate, active rejection or missing required data. *)
Definition confirmation_evidence (o : LifecycleObservation) : Prop :=
  o_valid_trade_idea o = true /\
  str_in (status_key (o_direction o)) ["long"; "short"] = true /\
  (exists lo hi st, decimal_or_none (o_entry_low o) = Some lo /\
     decimal_or_none (o_entry_high o) = Some hi /\ decimal_or_none (o_stop_loss o) = Some st) /\
  (exists rr, decimal_or_none (o_rr o) = Some rr /\ (3 <= dQ rr)%Q) /\
  quality_at_least_b_plus (o_quality_grade o) (o_quality_score o) = true /\
  status_key (o_failed_gate o) = "" /\ is_na (o_active_rejection_reason o) = true /\
  is_na (o_active_invalidation_reason o) = true /\
  o_required_data_missing o = [] /\ o_required_data_unverified o = [].

Lemma nonempty_list_false l : nonempty_list l = false <-> l = [].
Proof. by destruct l. Qed.

Lemma no_number_false x : no_number x = false <-> exists d, x = Some d.
Proof. destruct x; split; eauto; [done|]. by intros (? & [=]). Qed.

Lemma confirmed_ready_evidence o : confirmed_observation_ready o = true -> confirmation_evidence o.
Proof.
  rewrite confirmed_ready_blockers. unfold status_blockers, plan_blockers, quality_blockers.
  rewrite !app_nil, !when_nil, !negb_false_iff, !score_blockers_nil, !nonempty_list_false, !orb_false_iff,
    !no_number_false. intros H. destruct_and? H.
  match goal with H : exists s, decimal_or_none (o_rr o) = Some s /\ _ |- _ => destruct H as (rr & Hrr & Hle) end.
  unfold confirmation_evidence. split_and!; try done.
  - repeat match goal with H : exists d, decimal_or_none _ = Some d |- _ => destruct H end. eauto 10.
  - exists rr. split; [done|]. change (dQ CONFIRMED_MIN_RR) with (3 # 1)%Q in Hle. exact Hle.
  - by apply String.eqb_eq.
Qed.

(** Asking for CONFIRMED from another state means the confirmation gate is open. *)
Lemma gated_confirmed r o :
  confirmation_gated_target r o (observed_state o) = CONFIRMED ->
  (r_required_confirmation_cycles r <= r_confirmation_count r)%Z /\ confirmed_observation_ready o = true.
Proof.
  unfold confirmation_gated_target.
  destruct (target_requires_confirmation (observed_state o)) eqn:E; cbn [negb].
  - destruct (_ && _) eqn:E2; [intros _; apply andb_true_iff in E2 as [? ?]; split; [lia|done]|].
    pose proof (pre_confirmation_range o) as H. intros E3. rewrite E3 in H. exfalso.
    simpl in H. intuition discriminate.
  - intros H. by rewrite H in E.
Qed.

Lemma next_state_confirmed r o ts :
  next_state_for_observation r o ts = CONFIRMED -> r_current_state r <> CONFIRMED ->
  confirmation_gated_target r o (observed_state o) = CONFIRMED.
Proof.
  unfold next_state_for_observation. cbv zeta.
  set (t := confirmation_gated_target r o (observed_state o)). clearbody t.
  destruct (r_current_state r); try done; intros H _; revert H;
    unfold next_from_watchlisted, next_from_stalking, next_from_triggered;
    repeat match goal with |- context [if ?b then _ else _] => destruct b eqn:? end;
    try done; intros _; rewrite ?state_eqb_spec in *; done.
Qed.

(** ** Concrete scans *)

Definition sample_observation : LifecycleObservation :=
  {| o_symbol := "BTCUSDT"; o_mode := "swing"; o_direction := "long"; o_readiness_score := 60;
     o_readiness_label := "WATCH"; o_quality_score := 86; o_quality_grade := "A";
     o_entry_low := "99"; o_entry_high := "100"; o_stop_loss := "95";
     o_tp1 := "110"; o_tp2 := "120"; o_tp3 := "130"; o_rr := "4";
     o_current_price := "104"; o_latest_high := NA; o_latest_low := NA; o_edge_score := NA;
     o_failed_gate := NA; o_candidate_quality_grade := NA; o_final_quality_grade := NA;
     o_final_failed_gate := NA; o_final_block_reason := NA; o_target_integrity_status := NA;
     o_target_failure := NA; o_target_failure_severity := NA; o_target_warning_reason := NA;
     o_actionability_state := NA; o_regime_state := NA; o_action_label := NA;
     o_confirmation_timeframe := NA; o_invalidation_reason := "close below 95";
     o_sweep_detected := true; o_structure_shift_detected := true; o_pullback_valid := true;
     o_rr_valid := true; o_valid_trade_idea := true; o_core_status := NA; o_setup_quality_state := NA;
     o_technical_score := "70"; o_opportunity_score := "90"; o_min_technical_score := "50";
     o_min_opportunity_score := "80"; o_active_rejection_reason := NA;
     o_active_invalidation_reason := NA; o_data_health_failed := false; o_required_data_missing := [];
     o_required_data_unverified := []; o_optional_data_missing := []; o_optional_data_unverified := [];
     o_limit_fill_required := false; o_actionable_a_grade_candidate := false;
     o_a_grade_watch_candidate := false; o_actionable_grade_reason := NA;
     o_confirmation_block_reason := NA; o_lifecycle_promotion_reason := NA; o_entry_filled := false;
     o_tp_hit := false; o_sl_hit := false; o_invalidated := false; o_expired := false;
     o_closed_candle_outcomes_managed := true; o_structural_anchor := "sweep-1";
     o_instrument_venue := "binance" |}.

Definition sample_args : evaluate_args :=
  {| ea_lifecycle_id := "L1"; ea_now := Some "2025-01-02T00:00:00+00:00"; ea_scan_run_id := None;
     ea_required_confirmation_cycles := DEFAULT_CONFIRMATION_CYCLES;
     ea_setup_tolerance_pct := DEFAULT_SETUP_MERGE_TOLERANCE_PCT; ea_symbol_health_score := NA;
     ea_symbol_health_penalty_cycles := 0 |}.

Definition state_after (res : result SetupTransitionResult) : option SetupLifecycleState :=
  match res with
  | Ok r => option_map r_current_state (tr_record r)
  | Raise _ => None
  end.

Definition record_after (res : result SetupTransitionResult) : option SetupLifecycleRecord :=
  match res with Ok r => tr_record r | Raise _ => None end.

(** A first scan only triggers; the second consistent one confirms. *)
Example first_scan_triggers :
  state_after (evaluate_lifecycle_transition "" None sample_observation sample_args) = Some TRIGGERED.
Proof. vm_compute. reflexivity. Qed.

Example second_scan_confirms :
  state_after (evaluate_lifecycle_transition ""
    (record_after (evaluate_lifecycle_transition "" None sample_observation sample_args))
    sample_observation sample_args) = Some CONFIRMED.
Proof. vm_compute. reflexivity. Qed.

(** ** Properties *)

(** C5: every scan of an existing record implements the abstract machine of the
    allowed-transition table: the returned record stays in its state, without a
    transition event, or moves along an edge of the table, remembers the state
    it left, and the emitted event names both states. *)
Theorem scan_refines_table clock record o a res :
  evaluate_lifecycle_transition clock (Some record) o a = Ok res ->
  exists r', tr_record res = Some r' /\
    table_step (r_current_state record) (r_current_state r') /\
    (tr_transitioned res = true <-> r_current_state r' <> r_current_state record) /\
    (tr_transitioned res = false -> r_previous_state r' = r_previous_state record) /\
    (tr_transitioned res = true -> r_previous_state r' = Some (r_current_state record)) /\
    if tr_transitioned res
    then exists ev, tr_event res = Some ev /\ ev_from_state ev = Some (r_current_state record) /\
           ev_to_state ev = r_current_state r'
    else tr_event res = None.
Proof.
  intros H. apply evaluate_existing_cases in H as (pre & out & r' & He & Hs & ->).
  exists r'. split; [reflexivity|]. apply same_but_identity_fields in Hs as [-> ->]. unfold table_step.
  change (tr_transitioned (pre <| tr_record := Some r' |>)) with (tr_transitioned pre).
  change (tr_event (pre <| tr_record := Some r' |>)) with (tr_event pre).
  pose proof (evaluation_event _ _ _ _ _ _ He) as Hev.
  destruct (evaluation_state _ _ _ _ _ _ He) as [(E1 & E2 & E3)|(E1 & E2 & E3 & E4)]; rewrite E1 in Hev |- *.
  - split; [left; exact E2|]. split; [|split; [intros _; exact E3|split; [done|exact Hev]]].
    split; [done|]. intros Hn. exfalso. apply Hn. exact E2.
  - split; [right; exact E3|]. split; [|split; [done|split; [intros _; exact E4|exact Hev]]].
    split; [intros _; exact E2|done].
Qed.

Lemma scan_refines_table_witness :
  exists res r', evaluate_lifecycle_transition "" (Some sample_record) sample_observation sample_args = Ok res /\
    tr_record res = Some r' /\ table_step (r_current_state sample_record) (r_current_state r').
Proof.
  destruct (evaluate_lifecycle_transition "" (Some sample_record) sample_observation sample_args) as [res|] eqn:E.
  - destruct (scan_refines_table "" sample_record sample_observation sample_args res E) as (r' & H1 & H2 & _).
    exists res, r'. auto.
  - exfalso. revert E. vm_compute. discriminate.
Defined.

(** in every record that scans can produce, a setup is managed only after it
    was executing, executes only after it was confirmed, and a recorded
    take-profit or stop-loss was reached from management unless the very first
    observation of the setup already showed it; the numeric fields stay in
    their ranges. *)
Theorem reachable_provenance r :
  reachable r ->
  record_wf r /\
  (r_current_state r = MANAGING -> r_previous_state r = Some EXECUTING) /\
  (r_current_state r = EXECUTING -> r_previous_state r = Some CONFIRMED) /\
  (r_current_state r = BREAKEVEN -> r_previous_state r = Some MANAGING) /\
  (r_current_state r = TP_HIT \/ r_current_state r = SL_HIT ->
   r_previous_state r = Some MANAGING \/ r_previous_state r = None).
Proof.
  intros H. apply reachable_invariant in H as [Hwf Hp]. split; [done|]. unfold provenance in Hp.
  destruct (r_previous_state r) as [p|]; rewrite <- state_in_spec in Hp; split_and!;
    repeat match goal with
    | |- _ \/ _ -> _ => intros [E|E]
    | |- _ -> _ => intros E
    end; rewrite E in Hp; try (destruct p; (discriminate Hp || auto)); try discriminate Hp; auto.
Qed.

Lemma reachable_provenance_witness :
  exists r, reachable r /\ record_wf r.
Proof.
  destruct (evaluate_lifecycle_transition "" None sample_observation sample_args) as [res|] eqn:E.
  - destruct (tr_record res) as [r|] eqn:Er.
    + exists r. assert (reachable r) as H by exact (reach_first "" sample_args sample_observation res r E Er).
      split; [exact H|]. exact (proj1 (reachable_provenance r H)).
    + exfalso. revert E Er. vm_compute. intros E. injection E as <-. discriminate.
  - exfalso. revert E. vm_compute. discriminate.
Defined.



(** C1: the plan is immutable while it is locked: a scan of a reachable record in
    a plan-lock state leaves the entry zone, the stop and the three targets
    exactly as stored, whatever levels the observation carries. *)
Theorem locked_plan_immutable clock record o a res r' :
  reachable record -> In (r_current_state record) PLAN_LOCK_STATES ->
  evaluate_lifecycle_transition clock (Some record) o a = Ok res -> tr_record res = Some r' ->
  plan_levels r' = plan_levels record.
Proof.
  intros Hreach Hl H Hr. apply reachable_levels_normal in Hreach as Hn.
  apply evaluate_existing_cases in H as (pre & out & r1 & He & Hs & ->). injection Hr as <-.
  transitivity (plan_levels out); [by rewrite Hs|].
  destruct He as [f _ _|ta _ _ _ _ res r2 Hr2| |next updated decay diag res r2 Hgeo _ Hst Ht Hr2].
  - done.
  - by injection Hr2 as <-.
  - done.
  - apply transition_record_outcome in Ht. rewrite (transition_outcome_levels _ _ _ _ _ _ _ Ht Hr2).
    apply scan_target_levels in Hst as [c ->].
    apply folded_levels_locked; [done..|]. by apply valid_geometry_levels, Hgeo, lock_states_active.
Qed.

Definition watch_observation : LifecycleObservation :=
  sample_observation <| o_valid_trade_idea := false |> <| o_sweep_detected := false |>
    <| o_structure_shift_detected := false |>.

Definition moved_levels : LifecycleObservation :=
  watch_observation <| o_entry_low := "98" |> <| o_stop_loss := "90" |> <| o_tp3 := "140" |>.

Definition watch_record : result SetupLifecycleRecord :=
  match evaluate_lifecycle_transition "" None watch_observation sample_args with
  | Ok res => match tr_record res with Some r => Ok r | None => Raise (ValueError "") end
  | Raise e => Raise e
  end.

Lemma watch_record_reachable r : watch_record = Ok r -> reachable r.
Proof.
  unfold watch_record. destruct (evaluate_lifecycle_transition _ _ _ _) as [res|] eqn:E; [|discriminate].
  destruct (tr_record res) as [r0|] eqn:Er; [|discriminate]. intros [= <-]. exact (reach_first _ _ _ _ _ E Er).
Qed.

(** Evaluate a closed computation that must succeed, naming its result. *)
Ltac run_ok c r E :=
  destruct c as [r|] eqn:E; [|exfalso; revert E; vm_compute; discriminate].

Lemma locked_plan_immutable_witness :
  exists r res r', watch_record = Ok r /\ r_current_state r = WATCHLISTED /\
    evaluate_lifecycle_transition "" (Some r) moved_levels sample_args = Ok res /\
    tr_record res = Some r' /\ plan_levels r' = plan_levels r.
Proof.
  run_ok watch_record r E.
  assert (r_current_state r = WATCHLISTED) as Hst
    by (revert E; vm_compute; intros E; injection E as <-; reflexivity).
  assert (record_wf r) as Hwf by (apply reachable_invariant, watch_record_reachable; exact E).
  assert (cooldown_safe (scan_timestamp "" sample_args)) as Hc
    by (intros t H; vm_compute in H; injection H as <-; eexists; vm_compute; reflexivity).
  destruct (evaluate_existing_total "" sample_args r moved_levels Hwf Hc) as [res Hres].
  destruct (evaluate_existing_cases _ _ _ _ _ Hres) as (pre & out & r' & _ & _ & Hr').
  exists r, res, r'. assert (tr_record res = Some r') as Hrec by (rewrite Hr'; reflexivity).
  do 3 (split; [first [reflexivity | exact Hst | exact Hres]|]). split; [exact Hrec|].
  apply (locked_plan_immutable "" r moved_levels sample_args res r').
  - exact (watch_record_reachable r E).
  - rewrite Hst. vm_compute. left. reflexivity.
  - exact Hres.
  - exact Hrec.
Defined.

(** The counters and the confirmation time of a scanned record *)
Lemma geometry_guard_counts u0 n0 n1 u1 diag :
  geometry_guard u0 n0 n1 u1 diag ->
  r_confirmation_count u1 = r_confirmation_count u0 /\
  r_required_confirmation_cycles u1 = r_required_confirmation_cycles u0 /\
  r_current_state u1 = r_current_state u0.
Proof. by intros []. Qed.

Lemma decay_counts previous u n next updated decay :
  decay_outcome previous u n next updated decay ->
  r_confirmation_count updated = r_confirmation_count u /\
  r_required_confirmation_cycles updated = r_required_confirmation_cycles u /\
  r_current_state updated = r_current_state u.
Proof. by intros []. Qed.

Lemma moved_counts record s a ts g res r' :
  moved_result record s a ts g = Ok res -> tr_record res = Some r' ->
  r_confirmation_count r' = r_confirmation_count record /\
  r_required_confirmation_cycles r' = r_required_confirmation_cycles record.
Proof.
  intros Hm Hr. apply moved_result_shape in Hm as (ev & r1 & -> & _ & _ & _ & _ & _ & cd & _ & ->).
  by injection Hr as <-.
Qed.

(** A transition into [s] by an evaluation is a scan that wanted [s]. *)
Lemma evaluation_moved clock a record o pre out s :
  evaluation clock a record o pre out ->
  r_current_state record <> s -> r_current_state out = s -> s <> EXPIRED -> s <> REJECTED ->
  exists c, let o' := effective_observation record o in
    let u0 := folded_record record o' (scan_timestamp clock a) c (scan_cycles a)
                (ea_symbol_health_penalty_cycles a) in
    next_state_for_observation u0 o' (scan_timestamp clock a) = s /\
    r_confirmation_count out = r_confirmation_count u0 /\
    r_required_confirmation_cycles out = r_required_confirmation_cycles u0.
Proof.
  intros [f _ _|ta _ _ _ _ res r2 Hr2| |next updated decay diag res r2 _ _ Hst Ht Hr2] Hns Hs He Hj;
    try (exfalso; apply Hns; first [exact Hs | injection Hr2 as <-; exact Hs]).
  apply scan_target_state in Hst as Hcur. destruct Hcur as [Hcur _].
  apply scan_target_inv in Hst as (c & n1 & u1 & Hg & Hd). exists c. cbv zeta.
  set (u0 := folded_record _ _ _ _ _ _) in *. apply apply_decay_cases in Hd.
  apply transition_record_outcome in Ht.
  destruct Ht as [Hsame|notes Hn _|res' Hn _ _ Hm];
    [injection Hr2 as <-; exfalso; apply Hns; rewrite <- Hcur; exact Hs
    |injection Hr2 as <-; exfalso; apply Hns; rewrite <- Hcur; exact Hs|].
  destruct (moved_counts _ _ _ _ _ _ _ Hm Hr2) as [-> ->].
  apply moved_result_shape in Hm as (ev & r1 & -> & _ & _ & _ & _ & _ & cd & _ & ->).
  injection Hr2 as <-. cbn in Hs. subst next.
  destruct (decay_counts _ _ _ _ _ _ Hd) as (-> & -> & _).
  destruct (geometry_guard_counts _ _ _ _ _ Hg) as (-> & -> & _).
  split; [|split; reflexivity].
  assert (n1 = s) as -> by (destruct Hd; congruence).
  inversion Hg as [Hp E1 E2 E3|f Hf Hact E1 E2 E3]; [reflexivity|].
  exfalso. change (r_current_state u0) with (r_current_state record) in E1.
  destruct (transition_allowed _ _); congruence.
Qed.



(** The stored plan does not change what a freshness failure says. *)
Lemma effective_observation_freshness record o :
  observation_has_essential_freshness_failure (effective_observation record o)
    = observation_has_essential_freshness_failure o /\
  freshness_failure_preserves_owner (effective_observation record o)
    = freshness_failure_preserves_owner o /\
  o_tp_hit (effective_observation record o) = o_tp_hit o /\
  o_sl_hit (effective_observation record o) = o_sl_hit o.
Proof. unfold effective_observation. destruct (_ && _); split_and!; reflexivity. Qed.

Lemma hold_state_not_terminal s :
  In s FRESHNESS_OWNER_HOLD_STATES -> state_in s [TP_HIT; SL_HIT; BREAKEVEN] = false.
Proof. rewrite <- state_in_spec. by destruct s. Qed.

(** stale market data never moves an owned plan: when freshness is the only
    required-data failure and no outcome is reported, a record in a hold state
    whose stored plan is valid comes back unchanged, apart from its last-seen
    time and identities; and a setup first seen with stale data is REJECTED
    with no confirmation counted. *)
Theorem freshness_failure_is_inert clock a o :
  (forall record,
     In (r_current_state record) FRESHNESS_OWNER_HOLD_STATES ->
     stored_plan_geometry_failure record = Ok None ->
     freshness_failure_preserves_owner o = true -> o_tp_hit o = false -> o_sl_hit o = false ->
     exists res r', evaluate_lifecycle_transition clock (Some record) o a = Ok res /\
       tr_record res = Some r' /\ tr_transitioned res = false /\ tr_event res = None /\
       same_but_identity (record <| r_last_seen_at := scan_timestamp clock a |>) r') /\
  (observation_has_essential_freshness_failure o = true ->
   forall res, evaluate_lifecycle_transition clock None o a = Ok res ->
   exists r', tr_record res = Some r' /\ r_current_state r' = REJECTED /\ r_confirmation_count r' = 0%Z).
Proof.
  split.
  - intros record Hs Hg Hf Ht Hsl. cbn [evaluate_lifecycle_transition]. unfold evaluate_existing. fold (scan_timestamp clock a).
    rewrite Hg. cbn [bind_result]. apply hold_state_not_terminal in Hs as Hnt.
    assert ((if state_in (r_current_state record) ACTIVE_LIFECYCLE_MONITORING_STATES
             then @None string else None) = None) as ->
      by (destruct (state_in (r_current_state record) ACTIVE_LIFECYCLE_MONITORING_STATES); reflexivity).
    rewrite Hnt, andb_false_r. destruct (effective_observation_freshness record o) as (_ & F2 & F3 & F4).
    apply state_in_spec in Hs. rewrite Hs, F2, F3, F4, Hf, Ht, Hsl. cbn [andb negb].
    destruct (with_economic_identities_ok (freshness_hold record (scan_timestamp clock a))
      (effective_observation record o) (Some record) _ eq_refl) as (r' & -> & Hsame).
    eexists _, r'. split; [reflexivity|]. split_and!; [reflexivity..|exact Hsame].
  - intros Hf res H. apply evaluate_new_cases in H as (r0 & out & r' & H0 & Hs & Hr & _ & _ & Hout).
    assert (first_state o (scan_cycles a) = REJECTED) as Hst by (unfold first_state; by rewrite Hf).
    rewrite Hst in H0. unfold first_record in H0.
    apply validate_record_ok in H0 as (_ & Hcur & _ & Hcnt & _). cbn in Hcur, Hcnt.
    exists r'. split; [done|].
    assert (r_current_state out = REJECTED /\ r_confirmation_count out = 0%Z) as [E1 E2].
    { destruct Hout as [[-> _]|(f & _ & _ & ->)].
      - rewrite Hcur, Hcnt. unfold first_confirmation_count. by rewrite Hf.
      - split; [reflexivity|]. transitivity (r_confirmation_count r0); [reflexivity|].
        rewrite Hcnt. unfold first_confirmation_count. by rewrite Hf. }
    rewrite Hs. auto.
Qed.

Lemma bounded_score_id v d : (0 <= v <= 100)%Z -> bounded_score (Some v) d = v.
Proof. unfold bounded_score. lia. Qed.

(** a recorded take-profit, stop-loss or breakeven outcome is final while
    closed-candle outcomes are managed: scans return it without a transition or
    event, with the same state, plan levels, scores and cooldown. *)
Theorem managed_outcome_immutable clock record o a :
  record_wf record -> o_closed_candle_outcomes_managed o = true ->
  In (r_current_state record) [TP_HIT; SL_HIT; BREAKEVEN] ->
  exists res r', evaluate_lifecycle_transition clock (Some record) o a = Ok res /\
    tr_record res = Some r' /\ tr_transitioned res = false /\ tr_event res = None /\
    r_current_state r' = r_current_state record /\ plan_levels r' = plan_levels record /\
    r_readiness_score r' = r_readiness_score record /\ r_quality_score r' = r_quality_score record /\
    r_cooldown_until r' = r_cooldown_until record /\
    r_last_transition_at r' = r_last_transition_at record.
Proof.
  intros Hwf Hm Hin. cbn [evaluate_lifecycle_transition]. unfold evaluate_existing. fold (scan_timestamp clock a).
  assert (state_in (r_current_state record) ACTIVE_LIFECYCLE_MONITORING_STATES = false) as ->
    by (destruct Hin as [<-|[<-|[<-|[]]]]; reflexivity).
  assert (exists failure, stored_plan_geometry_failure record = Ok failure) as [failure ->].
  { destruct (stored_plan_geometry_failure_total record) as [(? & _ & ->)|(? & _ & ->)]; eauto. }
  cbn [bind_result]. apply state_in_spec in Hin. rewrite Hm, Hin. cbn [andb].
  unfold transition_record. rewrite (proj2 (state_eqb_spec _ _) eq_refl). cbn [bind_result].
  match goal with |- context [with_economic_identities ?r o ?p] =>
    destruct (with_economic_identities_ok r o p _ eq_refl) as (r' & -> & Hs) end.
  eexists _, r'. split; [reflexivity|]. do 3 (split; [reflexivity|]).
  destruct Hwf as [_ Hr Hq _ _ _ _].
  rewrite Hs. do 2 (split; [reflexivity|]).
  split; [exact (bounded_score_id _ _ Hr)|]. split; [exact (bounded_score_id _ _ Hq)|]. split; reflexivity.
Qed.

Lemma managed_outcome_immutable_witness :
  exists res r', evaluate_lifecycle_transition "" (Some (sample_record <| r_current_state := TP_HIT |>))
      (sample_observation <| o_sl_hit := true |>) sample_args = Ok res /\
    tr_record res = Some r' /\ r_current_state r' = TP_HIT.
Proof.
  destruct (managed_outcome_immutable "" (sample_record <| r_current_state := TP_HIT |>)
    (sample_observation <| o_sl_hit := true |>) sample_args) as (res & r' & H1 & H2 & _ & _ & H3 & _).
  - constructor; vm_compute; first [discriminate | split; discriminate].
  - reflexivity.
  - left. reflexivity.
  - exists res, r'. split; [exact H1|]. split; [exact H2|exact H3].
Defined.

(** ** Confidence decay *)

(** Decays left before a grade is exhausted. *)
Definition grade_rank (g : string) : nat :=
  let key := grade_key g in
  if String.eqb key "a+" then 4 else if String.eqb key "a" then 3
  else if String.eqb key "a-" then 2 else if String.eqb key "b+" then 1 else 0.

Lemma decayed_grade_rank g :
  (decayed_grade g = NA /\ grade_rank g = 0%nat) \/
  (decayed_grade g = "EXPIRED" /\ grade_rank g = 1%nat) \/
  (grade_rank (decayed_grade g) < grade_rank g)%nat /\ grade_rank (decayed_grade g) <> 0%nat.
Proof.
  unfold decayed_grade, grade_rank. generalize (grade_key g) as k. intros k. cbn [DECAY_GRADE_PATH successor_in].
  destruct (String.eqb k "a+"); [right; right; vm_compute; split; [lia|discriminate]|].
  destruct (String.eqb k "a"); [right; right; vm_compute; split; [lia|discriminate]|].
  destruct (String.eqb k "a-"); [right; right; vm_compute; split; [lia|discriminate]|].
  destruct (String.eqb k "b+"); [right; left; split; reflexivity|left; split; reflexivity].
Qed.

(** confidence decay is monotone and bounded: it only acts on a setup that
    stays in a decayable state, adds one to the decay count, and either lowers
    the grade along A+ > A > A- > B+, or, from B+, expires the setup; a
    CONFIRMED setup at B+ keeps its state and grade.  So at most four decays
    separate any graded setup from EXPIRED, and CONFIRMED never expires by
    decay. *)
Theorem confidence_decay_contract previous u o n next updated decay :
  apply_decay_if_needed previous u o n = (next, updated, decay) ->
  (decay = NA /\ next = n /\ updated = u) \/
  (n = r_current_state previous /\ In n DECAYABLE_STATES /\
   r_decay_count updated = (r_decay_count u + 1)%Z /\ (1 <= grade_rank (r_quality_grade_current u) <= 4)%nat /\
   ((next = n /\ (grade_rank (r_quality_grade_current updated) < grade_rank (r_quality_grade_current u))%nat) \/
    (next = EXPIRED /\ n <> CONFIRMED /\ grade_rank (r_quality_grade_current u) = 1%nat) \/
    (next = CONFIRMED /\ n = CONFIRMED /\ grade_rank (r_quality_grade_current u) = 1%nat /\
     r_quality_grade_current updated = r_quality_grade_current u))).
Proof.
  intros H. apply apply_decay_cases in H.
  assert (forall g, (grade_rank g <= 4)%nat) as Hb
    by (intros g; unfold grade_rank; split_ifs; lia).
  destruct H as [|Hn Hin Hna Hne|Hn Hc He|Hn Hin Hc He]; [by left|right..].
  - destruct (decayed_grade_rank (r_quality_grade_current u)) as [[? _]|[[? _]|[Hlt Hnz]]]; [done..|].
    split_and!; try done; [lia|].
    left. split; [done|]. exact Hlt.
  - destruct (decayed_grade_rank (r_quality_grade_current u)) as [[E _]|[[_ Hr]|[_ Hnz]]].
    + rewrite He in E. discriminate.
    + rewrite Hr. split_and!; try done; [subst n; rewrite Hc; apply state_in_spec; reflexivity|lia|].
      right; right. split_and!; try done.
    + rewrite He in Hnz. done.
  - destruct (decayed_grade_rank (r_quality_grade_current u)) as [[E _]|[[_ Hr]|[_ Hnz]]].
    + rewrite He in E. discriminate.
    + rewrite Hr. split_and!; try done; [lia|]. right; left. done.
    + rewrite He in Hnz. done.
Qed.

Lemma confidence_decay_contract_witness :
  exists updated, apply_decay_if_needed sample_record sample_record watch_observation WATCHLISTED
      = (WATCHLISTED, updated, decay_reason_text) /\
    (grade_rank (r_quality_grade_current updated) < grade_rank (r_quality_grade_current sample_record))%nat.
Proof.
  eexists. split; [vm_compute; reflexivity|].
  match goal with |- (grade_rank (r_quality_grade_current ?u) < _)%nat =>
    destruct (confidence_decay_contract sample_record sample_record watch_observation WATCHLISTED
      WATCHLISTED u decay_reason_text) as [(H & _)|(_ & _ & _ & _ & [[_ H]|[(H & _)|(H & _)]])] end.
  - vm_compute. reflexivity.
  - discriminate H.
  - exact H.
  - discriminate H.
  - discriminate H.
Defined.

Lemma confirmed_next_expired r o ts :
  r_current_state r = CONFIRMED -> next_state_for_observation r o ts = EXPIRED -> o_expired o = true.
Proof.
  intros Hc. unfold next_state_for_observation. rewrite Hc. unfold next_from_confirmed.
  repeat match goal with |- context [if ?b then _ else _] => destruct b eqn:? end; done.
Qed.

(** A CONFIRMED setup expires only on explicit expiry evidence: whatever its
    age and grade, a scan takes it from CONFIRMED to EXPIRED only when the
    observation itself reports that the entry window expired. *)
Theorem confirmed_expires_only_on_evidence clock record o a res r' :
  evaluate_lifecycle_transition clock (Some record) o a = Ok res -> tr_record res = Some r' ->
  r_current_state record = CONFIRMED -> r_current_state r' = EXPIRED -> o_expired o = true.
Proof.
  intros H Hr Hc Hx. apply evaluate_existing_cases in H as (pre & out & r1 & He & Hs & ->).
  injection Hr as <-. assert (r_current_state out = EXPIRED) as Hout by (rewrite Hs in Hx; exact Hx).
  assert (o_expired (effective_observation record o) = o_expired o) as <-
    by (unfold effective_observation; by destruct (_ && _)).
  destruct He as [f _ _|ta _ _ _ _ res r2 Hr2| |next updated decay diag res r2 _ _ Hst Ht Hr2];
    [congruence|injection Hr2 as <-; cbn in Hout; congruence|cbn in Hout; congruence|].
  apply scan_target_state in Hst as Hcur. destruct Hcur as [Hcur _].
  apply scan_target_inv in Hst as (c & n1 & u1 & Hg & Hd). cbv zeta in Hg.
  set (u0 := folded_record _ _ _ _ _ _) in *. apply apply_decay_cases in Hd.
  apply transition_record_outcome in Ht.
  destruct (transition_outcome_state _ _ _ _ _ _ _ Ht Hr2) as [(_ & E & _)|(_ & E & _)]; [congruence|].
  assert (n1 = EXPIRED) as Hn1 by (destruct Hd; congruence).
  apply (confirmed_next_expired u0 _ (scan_timestamp clock a)); [exact Hc|].
  inversion Hg as [Hp E1 E2 E3|f Hf Hact E1 E2 E3]; [congruence|].
  exfalso. change (r_current_state u0) with (r_current_state record) in E1.
  destruct (transition_allowed _ _); congruence.
Qed.

Lemma confirmed_expires_only_on_evidence_witness :
  exists res r', evaluate_lifecycle_transition "" (Some (sample_record <| r_current_state := CONFIRMED |>))
      (sample_observation <| o_expired := true |>) sample_args = Ok res /\
    tr_record res = Some r' /\ o_expired (sample_observation <| o_expired := true |>) = true.
Proof.
  run_ok (evaluate_lifecycle_transition "" (Some (sample_record <| r_current_state := CONFIRMED |>))
      (sample_observation <| o_expired := true |>) sample_args) res E.
  destruct (tr_record res) as [r'|] eqn:Er.
  - exists res, r'. split; [reflexivity|]. split; [exact Er|].
    apply (confirmed_expires_only_on_evidence _ _ _ _ res r' E Er); [reflexivity|].
    revert E Er. vm_compute. intros E. injection E as <-. intros Er. injection Er as <-. reflexivity.
  - exfalso. revert E Er. vm_compute. intros E. injection E as <-. discriminate.
Defined.

(** ** Status keys *)

(** The [while] loop stops by its own condition within [len(key)] rounds. *)
Lemma collapse_underscores_done fuel key :
  (String.length key <= fuel)%nat -> py_contains "__" (collapse_underscores fuel key) = false.
Proof.
  revert key. induction fuel as [|fuel IH]; intros key H.
  - destruct key; [done|]. simpl in H. lia.
  - cbn [collapse_underscores]. destruct (py_contains "__" key) eqn:E; [|exact E].
    apply IH. apply (replace_pair_shorter _ _ "_"%char) in E. lia.
Qed.

Lemma contains_cons sub c s : py_contains sub s = true -> py_contains sub (String c s) = true.
Proof. intros H. cbn [py_contains]. by rewrite H, orb_true_r. Qed.

Lemma contains_lstrip p sub s : py_contains sub (lstrip_by p s) = true -> py_contains sub s = true.
Proof.
  induction s as [|c s IH]; [done|]. cbn [lstrip_by]. destruct (p c); [|done].
  intros H. apply contains_cons. auto.
Qed.

Lemma prefix_rstrip p sub s : is_prefix sub (rstrip_by p s) = true -> is_prefix sub s = true.
Proof.
  revert sub. induction s as [|c s IH]; intros sub; [done|]. cbn [rstrip_by].
  destruct (p c && _); [by destruct sub|]. destruct sub as [|a sub]; [done|]. simpl.
  rewrite !andb_true_iff. intros [-> H]. auto.
Qed.

Lemma contains_rstrip p sub s : py_contains sub (rstrip_by p s) = true -> py_contains sub s = true.
Proof.
  induction s as [|c s IH]; [done|]. cbn [rstrip_by].
  destruct (p c && String.eqb (rstrip_by p s) "") eqn:E.
  - intros H. destruct sub as [|a sub]; [by cbn|discriminate H].
  - cbn [py_contains]. rewrite !orb_true_iff. intros [H|H]; [left|right; auto].
    apply (prefix_rstrip p sub (String c s)). cbn [rstrip_by]. by rewrite E.
Qed.

(** A status key is in normal form: the collapsing loop terminates within the
    length of the text, so no key ever contains a doubled underscore, and
    stripping its underscores again changes nothing. *)
Theorem status_key_normal value :
  py_contains "__" (status_key value) = false /\
  py_strip_char "_" (status_key value) = status_key value.
Proof.
  unfold status_key. destruct (String.eqb (sm_text value) NA); [split; reflexivity|].
  set (key := py_replace _ _ _). split; [|apply strip_by_idem].
  pose proof (collapse_underscores_done (String.length key) key (Nat.le_refl _)) as H.
  apply not_true_iff_false. intros Hc. apply contains_rstrip, contains_lstrip in Hc. congruence.
Qed.

(** ** Cooldown *)

Definition day_us : Z := (DEFAULT_COOLDOWN_HOURS * 3600 * us_per_second)%Z.

Lemma sm_parse_isoformat t :
  datetime_wf t -> dt_offset t <> None -> sm_parse_timestamp (isoformat t) = Some t.
Proof.
  intros Hwf Ho. pose proof (fromisoformat_isoformat t Hwf) as Hrt. unfold sm_parse_timestamp.
  destruct (String.eqb_spec (isoformat t) NA) as [E|_]; [rewrite E in Hrt; discriminate Hrt|].
  rewrite isoformat_no_Z, Hrt. simpl. unfold as_utc. by destruct (dt_offset t).
Qed.

Lemma sm_parse_aware ts t : sm_parse_timestamp ts = Some t -> dt_offset t <> None.
Proof.
  unfold sm_parse_timestamp. destruct (String.eqb ts NA); [done|].
  destruct (fromisoformat _) as [p|]; [|done]. intros [= <-]. unfold as_utc. by destruct (dt_offset p) eqn:E; rewrite ?E.
Qed.

(** The stored end of a cooldown reads back as 24 hours later, to the second. *)
Lemma cooldown_until_reads record ts t t1 :
  sm_parse_timestamp ts = Some t -> datetime_wf t -> add_us t day_us = Ok t1 ->
  exists u e, cooldown_until record COOLDOWN ts = Ok (Some u) /\ sm_parse_timestamp u = Some e /\
    u = isoformat e /\ datetime_wf e /\ dt_offset e = dt_offset t /\
    (instant t + day_us - us_per_second < instant e <= instant t + day_us)%Z.
Proof.
  intros Ht [Hus Hoff] Hadd. exists (isoformat (without_microsecond t1)), (without_microsecond t1).
  apply sm_parse_aware in Ht as Haw. unfold add_us in Hadd.
  destruct (_ && _) eqn:Eb; [|discriminate]. injection Hadd as <-.
  rewrite andb_true_iff in Eb. destruct Eb as [Eb1 Eb2].
  pose proof (Z.mod_pos_bound (dt_us t + day_us) us_per_second eq_refl) as Hm.
  assert (datetime_wf (without_microsecond (mkDatetime (dt_us t + day_us) (dt_offset t)))) as Hwf.
  { split; [|exact Hoff]. cbn [without_microsecond dt_us].
    pose proof (Z.mod_le (dt_us t + day_us) us_per_second ltac:(lia) eq_refl). lia. }
  repeat split.
  - unfold cooldown_until. cbn [negb state_eqb]. rewrite (proj2 (state_eqb_spec _ _) eq_refl). cbn [negb].
    rewrite Ht. fold day_us. unfold add_us. by rewrite Eb1, Eb2.
  - by apply sm_parse_isoformat.
  - apply Hwf.
  - apply Hwf.
  - exact Hoff.
  - unfold instant, without_microsecond. cbn [dt_us dt_offset]. destruct (dt_offset t); lia.
  - unfold instant, without_microsecond. cbn [dt_us dt_offset]. destruct (dt_offset t); lia.
Qed.

(** a cooldown lasts 24 hours, to the second: the end stored when a record
    enters COOLDOWN reads back exactly, so until 24 hours have passed every
    observation leaves the record in COOLDOWN, and from then on it is archived
    or watched again. *)
Theorem cooldown_lasts_24h record o ts t t1 ts' t' :
  sm_parse_timestamp ts = Some t -> datetime_wf t -> add_us t day_us = Ok t1 ->
  sm_parse_timestamp ts' = Some t' ->
  exists u, cooldown_until record COOLDOWN ts = Ok (Some u) /\
    forall r, r_current_state r = COOLDOWN -> r_cooldown_until r = Some u ->
    ((instant t' <= instant t + day_us - us_per_second)%Z -> next_state_for_observation r o ts' = COOLDOWN) /\
    ((instant t + day_us <= instant t')%Z ->
     In (next_state_for_observation r o ts') [ARCHIVED; WATCHLISTED]).
Proof.
  intros Ht Hwf Hadd Ht'. destruct (cooldown_until_reads record ts t t1 Ht Hwf Hadd) as (u & e & Hu & He & _ & _ & _ & Hb).
  exists u. split; [exact Hu|]. intros r Hs Hc.
  unfold next_state_for_observation. rewrite Hs, Hc. unfold cooldown_expired. rewrite He, Ht'.
  destruct (Z.leb_spec (instant e) (instant t')); split; intros; try lia; try reflexivity.
  destruct (watch_or_valid _); in_states.
Qed.

Lemma cooldown_lasts_24h_witness :
  exists u, cooldown_until sample_record COOLDOWN "2025-01-01T10:00:00+02:00" = Ok (Some u) /\
    next_state_for_observation (sample_record <| r_current_state := COOLDOWN |> <| r_cooldown_until := Some u |>)
      sample_observation "2025-01-02T07:59:59Z" = COOLDOWN.
Proof.
  destruct (cooldown_lasts_24h sample_record sample_observation "2025-01-01T10:00:00+02:00"
    (mkDatetime 63871322400000000 (Some 7200000000%Z)) (mkDatetime 63871408800000000 (Some 7200000000%Z))
    "2025-01-02T07:59:59Z" (mkDatetime 63871401599000000 (Some 0%Z))) as (u & Hu & H).
  - vm_compute. reflexivity.
  - repeat split; vm_compute; first [discriminate | reflexivity].
  - vm_compute. reflexivity.
  - vm_compute. reflexivity.
  - exists u. split; [exact Hu|].
    destruct (H (sample_record <| r_current_state := COOLDOWN |> <| r_cooldown_until := Some u |>)) as [H1 _];
      [reflexivity|reflexivity|].
    apply H1. vm_compute. discriminate.
Defined.

(** ** Refused transitions *)

Lemma next_triggered_filled r o ts :
  In (r_current_state r) ENTRY_TOUCH_REASON_REQUIRED_STATES ->
  next_state_for_observation r o ts = TRIGGERED -> o_entry_filled o = true.
Proof.
  unfold next_state_for_observation, next_from_watchlisted, zone_entered.
  intros [E|[E|[E|[]]]]; rewrite <- E; cbv zeta;
    repeat match goal with |- context [if ?b then _ else _] => destruct b eqn:? end; try done;
    intros _; rewrite ?andb_true_iff in *; tauto.
Qed.

Lemma decayable_can_expire s : In s DECAYABLE_STATES -> In EXPIRED (ALLOWED_TRANSITIONS s).
Proof. rewrite <- !state_in_spec. by destruct s. Qed.

Lemma reason_required_not_self s : In s ENTRY_TOUCH_REASON_REQUIRED_STATES -> s <> TRIGGERED.
Proof. rewrite <- state_in_spec. by destruct s. Qed.

(** Where the state a scan hands to [transition_record] comes from. *)
Lemma scan_target_next record o ts a rc next updated decay diag :
  scan_target record o ts a rc = Ok (next, updated, decay, diag) ->
  next = r_current_state record \/
  (next = EXPIRED /\ In (r_current_state record) DECAYABLE_STATES) \/
  (next = REJECTED /\ In REJECTED (ALLOWED_TRANSITIONS (r_current_state record))) \/
  (decay = NA /\ diag = NA /\ exists c,
     next = next_state_for_observation
              (folded_record record o ts c rc (ea_symbol_health_penalty_cycles a)) o ts).
Proof.
  intros H. apply scan_target_inv in H as (c & n1 & u1 & Hg & Hd). cbv zeta in Hg.
  set (u0 := folded_record _ _ _ _ _ _) in *. apply apply_decay_cases in Hd.
  destruct Hd as [|Hn Hin _ _|Hn _ _|Hn Hin _ _]; [|by left|by left|right; left; split; congruence].
  destruct Hg as [Hp|f Hf Hact].
  - right; right; right. eauto.
  - change (r_current_state u0) with (r_current_state record).
    destruct (transition_allowed _ _) eqn:E; [|by left]. right; right; left.
    split; [done|]. by apply state_in_spec.
Qed.

(** A move the touch guard would stop is always reported as a touch. *)
Lemma touch_reason_present record updated o a ts next decay diag :
  scan_target record o ts a (scan_cycles a) = Ok (next, updated, decay, diag) ->
  entry_touch_transition_requires_touch_reason (r_current_state updated) next
    (scan_reason record updated o next decay diag) = false.
Proof.
  intros H. apply scan_target_state in H as Hcur. destruct Hcur as [Hcur _].
  unfold entry_touch_transition_requires_touch_reason. rewrite Hcur.
  destruct (state_in (r_current_state record) _) eqn:E1; [|done].
  destruct (state_eqb next TRIGGERED) eqn:E2; [|by rewrite andb_false_r].
  apply state_in_spec in E1. apply state_eqb_spec in E2. subst next. apply reason_required_not_self in E1 as Hns.
  destruct (scan_target_next _ _ _ _ _ _ _ _ _ H) as [E|[[E _]|[[E _]|(-> & -> & c & E)]]];
    [congruence|discriminate..|].
  symmetry in E. apply next_triggered_filled in E; [|exact E1].
  unfold scan_reason. cbn [String.eqb negb andb state_in existsb].
  change (state_in TRIGGERED CONFIRMATION_GATED_STATES) with false. cbn [andb].
  rewrite String.eqb_refl. cbn [negb andb reason_for_state]. by rewrite E.
Qed.

(** A scan is refused in exactly two situations: the stored plan of a
    monitored record is invalid, or a TRIGGERED setup with a valid pullback and
    RR (or trade idea) is observed as taken, stopped, merely watchable or merely
    discovered, a move the table does not have.  No other scan is refused, and
    the touch guard never refuses one. *)
Theorem refused_scans clock record o a res :
  evaluate_lifecycle_transition clock (Some record) o a = Ok res -> tr_allowed res = false ->
  (In (r_current_state record) ACTIVE_LIFECYCLE_MONITORING_STATES /\
   exists f, stored_plan_geometry_failure record = Ok (Some f) /\ tr_notes res = geometry_diagnostic f) \/
  (let o' := effective_observation record o in
   r_current_state record = TRIGGERED /\ (pullback_and_rr_valid o' || o_valid_trade_idea o') = true /\
   In (tr_to_state res) [TP_HIT; SL_HIT; WATCHLISTED; DISCOVERED]).
Proof.
  intros H Ha. apply evaluate_existing_cases in H as (pre & out & r1 & He & _ & ->).
  change (tr_allowed pre = false) in Ha.
  destruct He as [f Hact Hf|ta _ _ _ _ res r2 _| |next updated decay diag res r2 _ _ Hst Ht Hr2];
    [left; eauto|discriminate Ha|discriminate Ha|right].
  apply touch_reason_present in Hst as Htouch. apply scan_target_state in Hst as Hcur. destruct Hcur as [Hcur _].
  apply scan_target_next in Hst. apply transition_record_outcome in Ht.
  destruct Ht as [|notes Hn [Hno|Hg]|res' _ _ _ Hm];
    [discriminate Ha| |unfold scan_args in Hg; cbn [ta_reason] in Hg; congruence
    |apply moved_result_shape in Hm as (ev & r' & -> & _); discriminate Ha].
  rewrite Hcur in Hn, Hno. cbv zeta. cbn [tr_to_state refused set_field].
  destruct Hst as [E|[[-> Hin]|[[-> Hin]|(_ & _ & c & ->)]]]; [congruence| |done|].
  - exfalso. by apply Hno, decayable_can_expire.
  - match goal with |- context [next_state_for_observation ?u ?o' ?ts] =>
      destruct (next_state_table u o' ts) as [[E|E]|E] end.
    + exfalso. apply Hn. symmetry. exact E.
    + exfalso. apply Hno. exact E.
    + exact E.
Qed.

Lemma refused_scans_witness :
  exists res, evaluate_lifecycle_transition "" (Some (sample_record <| r_current_state := TRIGGERED |>))
      (sample_observation <| o_tp_hit := true |>) sample_args = Ok res /\
    In (tr_to_state res) [TP_HIT; SL_HIT; WATCHLISTED; DISCOVERED].
Proof.
  run_ok (evaluate_lifecycle_transition "" (Some (sample_record <| r_current_state := TRIGGERED |>))
      (sample_observation <| o_tp_hit := true |>) sample_args) res E.
  exists res. split; [reflexivity|].
  destruct (refused_scans _ _ _ _ res E) as [(_ & f & Hf & _)|(_ & _ & H)].
  - revert E. vm_compute. intros E. injection E as <-. reflexivity.
  - vm_compute in Hf. discriminate Hf.
  - exact H.
Defined.

(** ** Entry-zone touch *)

Local Open Scope Q_scope.

(** [p] lies between two levels, in either order. *)
Definition between (a b : dec) (p : Q) : Prop :=
  Qle (dQ (dmin a b)) p /\ Qle p (dQ (dmax a b)).

Lemma dmin_le_dmax a b : dQ (dmin a b) <= dQ (dmax a b).
Proof. unfold dmin, dmax. destruct (dltb b a) eqn:E1, (dltb a b) eqn:E2; dec_lra. Qed.

(** The entry zone is touched exactly when some price lies both in the
    candle's range and in the planned zone, whichever way round either pair of
    levels is given; an unreadable level never touches. *)
Theorem entry_zone_touched_iff_overlap high low zlow zhigh :
  entry_zone_touched high low zlow zhigh = true <->
  exists h l zl zh p, decimal_or_none high = Some h /\ decimal_or_none low = Some l /\
    decimal_or_none zlow = Some zl /\ decimal_or_none zhigh = Some zh /\
    between h l p /\ between zl zh p.
Proof.
  unfold entry_zone_touched, between.
  destruct (decimal_or_none high) as [h|], (decimal_or_none low) as [l|],
    (decimal_or_none zlow) as [zl|], (decimal_or_none zhigh) as [zh|];
    try (split; [done|]; intros (? & ? & ? & ? & ? & H); destruct_and? H; done).
  rewrite andb_true_iff, !dleb_spec. split.
  - intros [H1 H2]. pose proof (dmin_le_dmax h l). pose proof (dmin_le_dmax zl zh).
    destruct (Qlt_le_dec (dQ (dmin h l)) (dQ (dmin zl zh))).
    + exists h, l, zl, zh, (dQ (dmin zl zh)). do 4 (split; [done|]). split; split; lra.
    + exists h, l, zl, zh, (dQ (dmin h l)). do 4 (split; [done|]). split; split; lra.
  - intros (h' & l' & zl' & zh' & p & [= <-] & [= <-] & [= <-] & [= <-] & ? & ?). lra.
Qed.

Local Close Scope Q_scope.

(** ** What the readers and the REJECTED branch really do *)

Lemma lower_char_not_space c : Ascii.eqb " " c = false -> Ascii.eqb " " (lower_char c) = false.
Proof. by destruct c as [[] [] [] [] [] [] [] []]. Qed.

Lemma sm_text_head v : exists c s, sm_text v = String c s /\ is_space c = false.
Proof.
  unfold sm_text. destruct (String.eqb v ""); [by exists "N"%char, "/A"|].
  destruct (String.eqb_spec (py_strip v) "") as [|E]; [by exists "N"%char, "/A"|].
  destruct (py_strip v) as [|c s] eqn:Es; [done|]. exists c, s. split; [done|].
  pose proof (py_strip_idem v) as Hi. rewrite Es in Hi. unfold py_strip, strip_by in Hi. simpl in Hi.
  destruct (is_space c); [|done]. exfalso. apply (f_equal String.length) in Hi.
  assert (forall t, (String.length (rstrip_by is_space t) <= String.length t)%nat) as Hr.
  { induction t as [|x t IH]; simpl; [lia|]. destruct (_ && _); simpl; lia. }
  assert (forall t, (String.length (lstrip_by is_space t) <= String.length t)%nat) as Hl.
  { induction t as [|x t IH]; simpl; [lia|]. destruct (is_space x); simpl; lia. }
  specialize (Hr (lstrip_by is_space s)). specialize (Hl s). simpl in Hi. lia.
Qed.

Lemma grade_key_nonempty v : grade_key v <> "".
Proof.
  unfold grade_key. destruct (sm_text_head v) as (c & s & -> & Hc).
  unfold py_replace, py_lower. cbn [string_map replace_go]. rewrite is_prefix_char.
  assert (Ascii.eqb " " c = false) as H by (by destruct c as [[] [] [] [] [] [] [] []]).
  by rewrite (lower_char_not_space c H).
Qed.

(** The numeric score never stands in for a missing grade: the key of a grade
    is never empty (a missing grade reads as "n/a"), so the branch that accepts
    a score of 75 or more is unreachable and the B+ gate looks at the grade
    text alone. *)
Theorem quality_gate_ignores_score grade score :
  quality_at_least_b_plus grade score = str_in (grade_key grade) MIN_CONFIRMATION_GRADES.
Proof.
  unfold quality_at_least_b_plus. destruct (str_in _ _); [done|].
  pose proof (grade_key_nonempty grade) as H. apply String.eqb_neq in H. by rewrite H.
Qed.

(** a REJECTED setup is not watched again on readiness: the scan compares the
    observed readiness with the record it has already overwritten with that
    readiness, so for scores in 0..100 no scan moves REJECTED to WATCHLISTED,
    however much readiness improved. *)
Theorem rejected_never_rewatched clock record o a res r' :
  evaluate_lifecycle_transition clock (Some record) o a = Ok res -> tr_record res = Some r' ->
  r_current_state record = REJECTED -> (o_readiness_score o <= 100)%Z ->
  r_current_state r' <> WATCHLISTED.
Proof.
  intros H Hr Hst Hle Hw. apply evaluate_existing_cases in H as (pre & out & r1 & He & Hs & ->).
  injection Hr as <-. apply same_but_identity_fields in Hs as [Hs _]. rewrite Hw in Hs.
  destruct (evaluation_moved _ _ _ _ _ _ WATCHLISTED He) as (c & Hnext & _); [congruence|done..|].
  revert Hnext. cbv zeta. set (u0 := folded_record _ _ _ _ _ _). unfold next_state_for_observation.
  change (r_current_state u0) with (r_current_state record). rewrite Hst.
  change (r_readiness_score u0) with
    (Z.max 0 (Z.min 100 (o_readiness_score (effective_observation record o)))).
  assert (o_readiness_score (effective_observation record o) = o_readiness_score o) as ->
    by (unfold effective_observation; by destruct (_ && _)).
  destruct (Z.ltb_spec (Z.max 0 (Z.min 100 (o_readiness_score o))) (o_readiness_score o)); [lia|].
  split_ifs; discriminate.
Qed.

Lemma rejected_never_rewatched_witness :
  exists res r', evaluate_lifecycle_transition ""
      (Some (sample_record <| r_current_state := REJECTED |> <| r_readiness_score := 10%Z |>))
      (watch_observation <| o_readiness_score := 100%Z |>) sample_args = Ok res /\
    tr_record res = Some r' /\ r_current_state r' <> WATCHLISTED.
Proof.
  run_ok (evaluate_lifecycle_transition ""
      (Some (sample_record <| r_current_state := REJECTED |> <| r_readiness_score := 10%Z |>))
      (watch_observation <| o_readiness_score := 100%Z |>) sample_args) res E.
  destruct (tr_record res) as [r'|] eqn:Er.
  - exists res, r'. split; [reflexivity|]. split; [exact Er|].
    apply (rejected_never_rewatched _ _ _ _ res r' E Er); [reflexivity|].
    vm_compute. discriminate.
  - exfalso. revert E Er. vm_compute. intros E. injection E as <-. discriminate.
Defined.

(** An entry fill alone moves CONFIRMED to EXECUTING, without a trade idea. *)
Theorem executing_without_trade_idea :
  state_after (evaluate_lifecycle_transition "" (Some (sample_record <| r_current_state := CONFIRMED |>))
    (sample_observation <| o_valid_trade_idea := false |> <| o_entry_filled := true |>) sample_args)
  = Some EXECUTING.
Proof. vm_compute. reflexivity. Qed.
