(* ===== verification/IdentityProps.v ===== *)
(** * When a setup starts a new generation (src/app/lifecycle/identity.py)

    The rule of [generation_rotation_reason] as an equivalence, its agreement
    with the cooldown the state machine writes, and what an anchored
    generation id determines. *)

From stdpp Require Import base tactics list strings.
From Stdlib Require Import ZArith NArith Lia Bool Ascii.
From S2P Require Import Prelude PyString PyDecimal PyTime Sha256 LifecycleModels OutcomePolicy.
From S2P Require Import Identity EconomicIdentity Observation StateMachine StateMachineFacts.
From S2P Require Import StateMachineProps.
Open Scope string_scope.
Open Scope py_scope.

(** ** Rotation *)

Lemma timestamp_reached_iff v n :
  timestamp_reached v n = Ok true <->
  exists e c, gid_parse_timestamp v = Ok (Some e) /\ gid_parse_timestamp n = Ok (Some c) /\
    (instant e <= instant c)%Z.
Proof.
  unfold timestamp_reached. destruct (gid_parse_timestamp v) as [[e|]|]; cbn [bind_result];
    destruct (gid_parse_timestamp n) as [[c|]|]; cbn [bind_result];
    (split; [intros [= H]|intros (e' & c' & He & Hc & H)]);
    try discriminate; try congruence.
  - exists e, c. rewrite Z.leb_le in H. auto.
  - injection He as <-. injection Hc as <-. by rewrite (proj2 (Z.leb_le _ _) H).
Qed.

Ltac rotation_case :=
  split;
  [ let H := fresh in intros H; first [discriminate H | injection H as <-; tauto]
  | let H := fresh in intros (_ & _ & [H|[H|H]]); intuition congruence ].

(** A new generation starts exactly when the setup is observable, is not a
    terminal observation, and either both anchors are known and differ, or the
    stored record has no anchor and is archived or in a cooldown whose end has
    been reached; in every other case the generation is kept. *)
Theorem generation_rotation_iff record seen observable terminal now reason :
  generation_rotation_reason (Some record) seen observable terminal now = Ok (Some reason) <->
  observable = true /\ terminal = false /\
  let stored := gid_text (Some (r_structural_anchor record)) in
  (gid_text seen <> NA /\ stored <> NA /\ gid_text seen <> stored /\ reason = "new_structural_anchor")
  \/ (stored = NA /\ r_current_state record = ARCHIVED /\ reason = "archived_lifecycle_new_setup")
  \/ (stored = NA /\ r_current_state record = COOLDOWN /\ reason = "completed_cooldown_new_setup" /\
      exists e c, gid_parse_timestamp (r_cooldown_until record) = Ok (Some e) /\
        gid_parse_timestamp (Some now) = Ok (Some c) /\ (instant e <= instant c)%Z).
Proof.
  cbv zeta. unfold generation_rotation_reason.
  destruct observable, terminal; cbn [negb orb]; try (split; [discriminate|intros (? & ? & _); discriminate]).
  rewrite <- timestamp_reached_iff.
  destruct (String.eqb_spec (gid_text seen) NA) as [E1|E1],
    (String.eqb_spec (gid_text (Some (r_structural_anchor record))) NA) as [E2|E2]; cbn [negb andb].
  2: rotation_case.
  3: { destruct (String.eqb_spec (gid_text seen) (gid_text (Some (r_structural_anchor record))));
       cbn [negb]; rotation_case. }
  all: destruct (state_eqb (r_current_state record) ARCHIVED) eqn:Ea;
    [apply state_eqb_spec in Ea; rotation_case|apply state_eqb_false in Ea].
  all: destruct (state_eqb (r_current_state record) COOLDOWN) eqn:Ec;
    [apply state_eqb_spec in Ec|apply state_eqb_false in Ec; rotation_case].
  all: destruct (timestamp_reached _ _) as [[]|]; cbn [bind_result]; rotation_case.
Qed.

(** ** Agreement with the cooldown of the state machine *)

Lemma gid_text_id s :
  string_forallb (fun c => negb (is_space c)) s = true -> s <> "" -> py_upper s <> NA ->
  gid_text (Some s) = s.
Proof.
  intros Hs Hn Hu. unfold gid_text. rewrite py_strip_id by exact Hs.
  destruct (String.eqb_spec s ""); [done|]. by destruct (String.eqb_spec (py_upper s) NA).
Qed.

Lemma iso_char_not_space c : iso_char c = true -> negb (is_space c) = true.
Proof. by destruct c as [[] [] [] [] [] [] [] []]. Qed.

Lemma iso_char_not_slash c : iso_char c = true -> Ascii.eqb (upper_char c) "/" = false.
Proof. by destruct c as [[] [] [] [] [] [] [] []]. Qed.

Lemma upper_NA_slash s : py_upper s = NA -> exists a b t, s = String a (String b t) /\ upper_char b = "/"%char.
Proof.
  destruct s as [|a [|b t]]; [discriminate..|]. intros H. exists a, b, t. split; [done|].
  by injection H.
Qed.

(** What [isoformat] writes, [_parse_timestamp] of identity.py reads back as
    the same instant. *)
Lemma gid_parse_isoformat t :
  datetime_wf t -> dt_offset t <> None -> (0 <= instant t < max_us)%Z ->
  exists e, gid_parse_timestamp (Some (isoformat t)) = Ok (Some e) /\ instant e = instant t.
Proof.
  intros Hwf Ho Hi. pose proof (fromisoformat_isoformat t Hwf) as Hrt.
  pose proof (isoformat_chars t) as Hch.
  assert (gid_text (Some (isoformat t)) = isoformat t) as Hid.
  { apply gid_text_id.
    - eapply string_forallb_impl; [exact iso_char_not_space|exact Hch].
    - intros E. rewrite E in Hrt. discriminate Hrt.
    - intros (a & b & s & E & Hb)%upper_NA_slash. rewrite E in Hch. cbn [string_forallb] in Hch.
      rewrite !andb_true_iff in Hch. destruct Hch as (_ & Hc & _).
      apply iso_char_not_slash in Hc. rewrite Hb in Hc. discriminate Hc. }
  unfold gid_parse_timestamp. rewrite Hid.
  destruct (String.eqb_spec (isoformat t) NA) as [E|_]; [rewrite E in Hrt; discriminate Hrt|].
  rewrite isoformat_no_Z, Hrt. destruct (dt_offset t) eqn:Eo; [|done].
  unfold astimezone_utc. rewrite (proj2 (Z.leb_le _ _)), (proj2 (Z.ltb_lt _ _)) by lia. cbn [andb bind_result].
  eexists. split; [reflexivity|]. unfold instant at 1. cbn [dt_offset dt_us]. lia.
Qed.

(** the generation rule and the state machine agree on the cooldown: for a
    record without an anchor that entered COOLDOWN at a UTC time, an observable
    setup keeps its generation until 24 hours have passed, to the second, and
    gets a new one from then on. *)
Theorem cooldown_rotation_after_24h record seen ts t t1 ts' c :
  sm_parse_timestamp ts = Some t -> datetime_wf t -> dt_offset t = Some 0%Z ->
  add_us t day_us = Ok t1 -> gid_parse_timestamp (Some ts') = Ok (Some c) ->
  exists u, cooldown_until record COOLDOWN ts = Ok (Some u) /\
    forall r, r_current_state r = COOLDOWN -> r_cooldown_until r = Some u ->
      gid_text (Some (r_structural_anchor r)) = NA ->
      ((instant c <= instant t + day_us - us_per_second)%Z ->
       generation_rotation_reason (Some r) seen true false ts' = Ok None) /\
      ((instant t + day_us <= instant c)%Z ->
       generation_rotation_reason (Some r) seen true false ts' = Ok (Some "completed_cooldown_new_setup")).
Proof.
  intros Ht Hwf Ho Hadd Hc.
  destruct (cooldown_until_reads record ts t t1 Ht Hwf Hadd) as (u & e & Hu & _ & -> & Hwfe & Hoe & Hb).
  assert (0 <= instant e < max_us)%Z as Hin.
  { unfold instant. rewrite Hoe, Ho. destruct Hwfe as [Hus _]. lia. }
  destruct (gid_parse_isoformat e) as (e' & He & Hie); [exact Hwfe|by rewrite Hoe, Ho|exact Hin|].
  exists (isoformat e). split; [exact Hu|]. intros r Hs Hcd Ha.
  unfold generation_rotation_reason. rewrite Ha, Hs, Hcd.
  change (String.eqb NA NA) with true. cbn [negb orb andb]. rewrite andb_false_r.
  change (state_eqb COOLDOWN ARCHIVED) with false. change (state_eqb COOLDOWN COOLDOWN) with true. cbv iota.
  unfold timestamp_reached. rewrite He, Hc. cbn [bind_result]. rewrite Hie.
  destruct (Z.leb_spec (instant e) (instant c)); split; intros; try lia; reflexivity.
Qed.

Lemma cooldown_rotation_after_24h_witness :
  exists u, cooldown_until sample_record COOLDOWN "2025-01-01T10:00:00Z" = Ok (Some u) /\
    generation_rotation_reason
      (Some (sample_record <| r_current_state := COOLDOWN |> <| r_cooldown_until := Some u |>
             <| r_structural_anchor := "n/a" |>))
      None true false "2025-01-02T12:00:00+02:00" = Ok (Some "completed_cooldown_new_setup").
Proof.
  destruct (cooldown_rotation_after_24h sample_record None "2025-01-01T10:00:00Z"
    (mkDatetime 63871322400000000 (Some 0%Z)) (mkDatetime 63871408800000000 (Some 0%Z))
    "2025-01-02T12:00:00+02:00" (mkDatetime 63871408800000000 (Some 0%Z))) as (u & Hu & H).
  - vm_compute. reflexivity.
  - repeat split; vm_compute; first [discriminate | reflexivity].
  - reflexivity.
  - vm_compute. reflexivity.
  - vm_compute. reflexivity.
  - exists u. split; [exact Hu|].
    destruct (H (sample_record <| r_current_state := COOLDOWN |> <| r_cooldown_until := Some u |>
                 <| r_structural_anchor := "n/a" |>)) as [_ H2]; [reflexivity|reflexivity|reflexivity|].
    apply H2. vm_compute. discriminate.
Defined.

(** ** Generation identifiers *)

Lemma char_in_string_map f ch s :
  (forall c, f c = ch -> c = ch) -> char_in ch s = false -> char_in ch (string_map f s) = false.
Proof.
  intros Hf. induction s as [|a s IH]; [done|]. cbn [char_in string_map].
  rewrite !orb_false_iff, !Ascii.eqb_neq. intros [Ha Hs]. split; [|by apply IH].
  intros E. exact (Ha (Hf _ E)).
Qed.

Lemma char_in_lstrip p ch s : char_in ch s = false -> char_in ch (lstrip_by p s) = false.
Proof.
  induction s as [|a s IH]; [done|]. cbn [char_in lstrip_by]. intros H.
  destruct (p a); [|exact H]. apply IH. by apply orb_false_iff in H as [_ H].
Qed.

Lemma char_in_rstrip p ch s : char_in ch s = false -> char_in ch (rstrip_by p s) = false.
Proof.
  induction s as [|a s IH]; [done|]. cbn [char_in rstrip_by]. rewrite orb_false_iff. intros [Ha Hs].
  specialize (IH Hs). destruct (p a && _)%bool; [done|]. cbn [char_in]. by rewrite Ha, IH.
Qed.

(** A text without the seed's separator *)
Definition separator_free (v : option string) : Prop :=
  match v with Some s => char_in unit_separator s = false | None => True end.

Lemma gid_text_separator_free v : separator_free v -> char_in unit_separator (gid_text v) = false.
Proof.
  destruct v as [s|]; [|done]. cbn [separator_free gid_text]. intros H.
  destruct (_ && _); [|done]. unfold py_strip, strip_by. by apply char_in_rstrip, char_in_lstrip.
Qed.

Lemma gid_symbol_separator_free v : separator_free v -> char_in unit_separator (gid_symbol v) = false.
Proof.
  intros H%gid_text_separator_free. unfold gid_symbol. destruct (String.eqb _ _); [done|].
  apply char_in_string_map; [|exact H]. by intros [[] [] [] [] [] [] [] []].
Qed.

Lemma gid_identity_text_separator_free v :
  separator_free v -> char_in unit_separator (gid_identity_text v) = false.
Proof.
  intros H%gid_text_separator_free. unfold gid_identity_text. destruct (String.eqb _ _); [done|].
  apply char_in_string_map; [|exact H]. by intros [[] [] [] [] [] [] [] []].
Qed.

(** An anchored generation id is replay-safe and named after the whole
    setup: the fallback is never used, the id is the first 32 hexadecimal
    digits of the hash of the seed, and, for texts free of the separator, two
    setups have the same seed only if symbol, mode, direction and anchor agree
    after normalisation. *)
Theorem anchored_generation_seed_injective s1 m1 d1 a1 s2 m2 d2 a2 fallback1 fallback2 :
  gid_text a1 <> NA -> gid_text a2 <> NA ->
  Forall separator_free [s1; m1; d1; a1; s2; m2; d2; a2] ->
  (generation_seed s1 m1 d1 (gid_text a1) = generation_seed s2 m2 d2 (gid_text a2) <->
   gid_symbol s1 = gid_symbol s2 /\ gid_identity_text m1 = gid_identity_text m2 /\
   gid_identity_text d1 = gid_identity_text d2 /\ gid_text a1 = gid_text a2) /\
  (generation_seed s1 m1 d1 (gid_text a1) = generation_seed s2 m2 d2 (gid_text a2) ->
   new_setup_generation_id s1 m1 d1 a1 fallback1 = new_setup_generation_id s2 m2 d2 a2 fallback2) /\
  new_setup_generation_id s1 m1 d1 a1 fallback1
  = take_string 32 (sha256_hexdigest (generation_seed s1 m1 d1 (gid_text a1))).
Proof.
  intros Ha1 Ha2 Hsep. rewrite !Forall_cons in Hsep. destruct Hsep as (F1 & F2 & F3 & F4 & F5 & F6 & F7 & F8 & _).
  assert (forall s m d a f, gid_text a <> NA -> new_setup_generation_id s m d a f
    = take_string 32 (sha256_hexdigest (generation_seed s m d (gid_text a)))) as Hid.
  { intros s m d a f Ha. unfold new_setup_generation_id. by destruct (String.eqb_spec (gid_text a) NA). }
  rewrite !Hid by assumption. split; [|split; [congruence|done]]. split.
  - intros E. apply py_join_inj in E; [|done|..].
    { injection E as E1 E2 E3 E4. auto. }
    all: rewrite !Forall_cons; repeat split;
      try first [apply gid_symbol_separator_free | apply gid_identity_text_separator_free
                | apply gid_text_separator_free | apply List.Forall_nil | reflexivity]; try assumption.
  - intros (E1 & E2 & E3 & E4). unfold generation_seed. congruence.
Qed.

Lemma anchored_generation_seed_injective_witness :
  generation_seed (Some "btcusdt") (Some "SWING") (Some "Long") "bos-1h-42"
  = generation_seed (Some " BTCUSDT ") (Some "swing") (Some "long") "bos-1h-42" /\
  new_setup_generation_id (Some "btcusdt") (Some "SWING") (Some "Long") (Some "bos-1h-42") None
  = new_setup_generation_id (Some " BTCUSDT ") (Some "swing") (Some "long") (Some "bos-1h-42 ") (Some "x").
Proof.
  destruct (anchored_generation_seed_injective (Some "btcusdt") (Some "SWING") (Some "Long") (Some "bos-1h-42")
    (Some " BTCUSDT ") (Some "swing") (Some "long") (Some "bos-1h-42 ") None (Some "x")) as (Hiff & Hid & _).
  - discriminate.
  - discriminate.
  - repeat constructor.
  - assert (generation_seed (Some "btcusdt") (Some "SWING") (Some "Long") (gid_text (Some "bos-1h-42"))
      = generation_seed (Some " BTCUSDT ") (Some "swing") (Some "long") (gid_text (Some "bos-1h-42 "))) as E
      by (apply Hiff; repeat split).
    split; [exact E|exact (Hid E)].
Defined.
