(* ===== verification/OrderBook.v ===== *)
(** * The synchronized local order book (src/app/microstructure/order_book.py)

    Depth events and snapshots parsed from venue payloads, and the fail-closed
    local book: it buffers events until a REST snapshot arrives, bridges the
    snapshot with the first overlapping event, then applies only events that
    chain on their predecessor; any gap or crossed book drops it.

    Times are instants in microseconds since the Unix epoch (the values
    [normalize_utc_timestamp] returns); the staleness threshold is a number of
    microseconds.  A Python dict keyed by Decimal is an association list in
    insertion order whose keys are compared by value.  The age of a snapshot is
    kept exact, before the display rounding of [OrderBookLiquiditySnapshot]. *)

From stdpp Require Import base tactics list strings.
From Stdlib Require Import ZArith NArith QArith Lia Lqa Bool Ascii.
From S2P Require Import Prelude PyString PyDecimal DecimalFacts PyTime PyJson.
Open Scope string_scope.
Open Scope py_scope.

(** ** Payloads *)

Definition OrderBookPayloadError (msg : string) : exn := ValueError ("OrderBookPayloadError:" +:+ msg).
Definition WrongOrderBookContractTypeError (msg : string) : exn :=
  ValueError ("WrongOrderBookContractTypeError:" +:+ msg).

Record DepthLevelUpdate := { lv_price : dec; lv_quantity : dec }.

Record BinanceDepthEvent := {
  de_symbol : string;
  de_pair_symbol : string;
  de_event_time : Z;
  de_transaction_time : Z;
  de_first_update_id : Z;
  de_final_update_id : Z;
  de_previous_final_update_id : Z;
  de_bids : list DepthLevelUpdate;
  de_asks : list DepthLevelUpdate
}.

Record BinanceDepthSnapshot := {
  ds_last_update_id : Z;
  ds_event_time : Z;
  ds_transaction_time : Z;
  ds_bids : list DepthLevelUpdate;
  ds_asks : list DepthLevelUpdate
}.

(** [_required_non_negative_int] *)
Definition required_non_negative_int (payload : list (string * json)) (name : string) : result Z :=
  match json_get name payload with
  | JInt z => if (z <? 0)%Z then Raise (OrderBookPayloadError (name +:+ " must be a non-negative integer"))
              else Ok z
  | _ => Raise (OrderBookPayloadError (name +:+ " must be a non-negative integer"))
  end.

(** [_timestamp_from_ms] *)
Definition timestamp_from_ms (value : json) (name : string) : result Z :=
  match value with
  | JInt z =>
      if (z <? 0)%Z
      then Raise (OrderBookPayloadError (name +:+ " must be a non-negative millisecond timestamp"))
      else if (z <? max_epoch_ms)%Z then Ok (fromtimestamp_us z)
      else Raise (OrderBookPayloadError (name +:+ " timestamp is out of range"))
  | _ => Raise (OrderBookPayloadError (name +:+ " must be a non-negative millisecond timestamp"))
  end.

(** the text [Decimal(str(value))] reads; containers have no numeric text *)
Definition json_number_text (value : json) : option string :=
  match value with
  | JInt z => Some (string_of_Z z)
  | JFloat repr => Some repr
  | JStr s => Some s
  | JNull | JBool _ | JArr _ | JObj _ => None
  end.

(** [_decimal] *)
Definition ob_decimal (value : json) (field_name : string) : result dec :=
  match json_number_text value with
  | None => Raise (OrderBookPayloadError (field_name +:+ " must be decimal-compatible"))
  | Some text =>
      match parse_decimal text with
      | None => Raise (OrderBookPayloadError (field_name +:+ " must be decimal-compatible"))
      | Some (Finite d) => Ok d
      | Some _ => Raise (OrderBookPayloadError (field_name +:+ " must be finite"))
      end
  end.

(** the loop of [_parse_levels] *)
Fixpoint parse_levels_from (index : nat) (label : string) (items : list json)
    : result (list DepthLevelUpdate) :=
  match items with
  | [] => Ok []
  | item :: rest =>
      let at_index := label +:+ "[" +:+ string_of_N (N.of_nat index) +:+ "]" in
      match item with
      | JArr [p; q] =>
          let! price := ob_decimal p (at_index +:+ ".price") in
          let! quantity := ob_decimal q (at_index +:+ ".quantity") in
          if dleb price dzero then Raise (OrderBookPayloadError (at_index +:+ " price must be positive"))
          else if dltb quantity dzero
          then Raise (OrderBookPayloadError (at_index +:+ " quantity cannot be negative"))
          else
          let! levels := parse_levels_from (S index) label rest in
          Ok ({| lv_price := price; lv_quantity := quantity |} :: levels)
      | _ => Raise (OrderBookPayloadError (at_index +:+ " must be [price, quantity]"))
      end
  end.

(** [_parse_levels] *)
Definition parse_levels (value : json) (label : string) : result (list DepthLevelUpdate) :=
  match value with
  | JArr items => parse_levels_from 0 label items
  | _ => Raise (OrderBookPayloadError (label +:+ " must be an array"))
  end.

Definition is_alnum (c : ascii) : bool :=
  is_digit c || code_between 65 90 c || code_between 97 122 c.

(** [exact_stream_symbol] (src/app/microstructure/websocket_protocol.py) *)
Definition exact_stream_symbol (value : json) : result string :=
  match value with
  | JStr s =>
      let text := py_replace "_" "" s in
      if String.eqb text "" || negb (string_forallb is_alnum text) || negb (String.eqb s (py_upper s))
      then Raise (ValueError "invalid_literal_contract_identity")
      else Ok s
  | _ => Raise (ValueError "invalid_literal_contract_identity")
  end.

(** [except ValueError] around the two symbols *)
Definition contract_symbol (value : json) : result string :=
  match exact_stream_symbol value with
  | Raise (ValueError _) => Raise (OrderBookPayloadError "depth literal contract identity invalid")
  | r => r
  end.

(** [parse_binance_depth_event] of a decoded object *)
Definition parse_binance_depth_event (payload : list (string * json)) : result BinanceDepthEvent :=
  let decoded := match json_get "data" payload with JObj inner => inner | _ => payload end in
  let is_depth := match json_get "e" decoded with JStr t => String.eqb t "depthUpdate" | _ => false end in
  if negb is_depth then Raise (OrderBookPayloadError "depth event type must be depthUpdate") else
  match json_get "st" decoded with
  | JInt st =>
      if negb (st =? 1)%Z then
        if (st =? 2)%Z then Raise (WrongOrderBookContractTypeError "COIN-M depth event rejected")
        else Raise (OrderBookPayloadError "depth event st must be 1 for USD-M")
      else
      let! symbol := contract_symbol (json_get "s" decoded) in
      let! pair_symbol := contract_symbol (json_get "ps" decoded) in
      let! first_id := required_non_negative_int decoded "U" in
      let! final_id := required_non_negative_int decoded "u" in
      let! previous_id := required_non_negative_int decoded "pu" in
      if (final_id <? first_id)%Z
      then Raise (OrderBookPayloadError "depth event U cannot exceed u") else
      let! event_time := timestamp_from_ms (json_get "E" decoded) "E" in
      let! transaction_time := timestamp_from_ms (json_get "T" decoded) "T" in
      let! bids := parse_levels (json_get "b" decoded) "b" in
      let! asks := parse_levels (json_get "a" decoded) "a" in
      Ok {| de_symbol := symbol; de_pair_symbol := pair_symbol; de_event_time := event_time;
            de_transaction_time := transaction_time; de_first_update_id := first_id;
            de_final_update_id := final_id; de_previous_final_update_id := previous_id;
            de_bids := bids; de_asks := asks |}
  | _ => Raise (OrderBookPayloadError "depth event st must be integer 1 for USD-M")
  end.

Definition parse_binance_depth_snapshot (payload : list (string * json)) : result BinanceDepthSnapshot :=
  let! last_id := required_non_negative_int payload "lastUpdateId" in
  let! event_time := timestamp_from_ms (json_get "E" payload) "E" in
  let! transaction_time := timestamp_from_ms (json_get "T" payload) "T" in
  let! bids := parse_levels (json_get "bids" payload) "bids" in
  let! asks := parse_levels (json_get "asks" payload) "asks" in
  Ok {| ds_last_update_id := last_id; ds_event_time := event_time;
        ds_transaction_time := transaction_time; ds_bids := bids; ds_asks := asks |}.

(** ** One side of the book *)

Definition side := list (dec * dec).

(** [book[price] = quantity]: an equal key keeps its place and its spelling *)
Fixpoint book_set (price quantity : dec) (book : side) : side :=
  match book with
  | [] => [(price, quantity)]
  | (p, q) :: rest =>
      if deqb p price then (p, quantity) :: rest else (p, q) :: book_set price quantity rest
  end.

(** [book.pop(price, None)] *)
Fixpoint book_pop (price : dec) (book : side) : side :=
  match book with
  | [] => []
  | (p, q) :: rest => if deqb p price then rest else (p, q) :: book_pop price rest
  end.

(** one level of [_apply_side] *)
Definition apply_level (book : side) (level : DepthLevelUpdate) : side :=
  if deqb (lv_quantity level) dzero then book_pop (lv_price level) book
  else book_set (lv_price level) (lv_quantity level) book.

(** [_apply_side] *)
Definition apply_side (book : side) (updates : list DepthLevelUpdate) : side :=
  fold_left apply_level updates book.

(** [{level.price: level.quantity for level in levels if level.quantity > 0}] *)
Definition side_of_levels (levels : list DepthLevelUpdate) : side :=
  fold_left (fun book level =>
    if dltb dzero (lv_quantity level) then book_set (lv_price level) (lv_quantity level) book
    else book) levels [].

(** [max(book)] and [min(book)] over the keys *)
Fixpoint best_max (book : side) : option dec :=
  match book with
  | [] => None
  | (p, _) :: rest =>
      Some (match best_max rest with Some m => dmax p m | None => p end)
  end.

Fixpoint best_min (book : side) : option dec :=
  match book with
  | [] => None
  | (p, _) :: rest =>
      Some (match best_min rest with Some m => dmin p m | None => p end)
  end.

(** [not bids or not asks or max(bids) >= min(asks)] *)
Definition unusable (bids asks : side) : bool :=
  match best_max bids, best_min asks with
  | Some b, Some a => dleb a b
  | _, _ => true
  end.

(** ** The local book *)

Inductive BookIngestOutcome : Type :=
| BUFFERED | SYNCHRONIZED | APPLIED | IGNORED_OLD | NEEDS_RESYNC | BUFFER_OVERFLOW.

#[export] Instance BookIngestOutcome_eq_dec : EqDecision BookIngestOutcome.
Proof. solve_decision. Defined.

(** [SynchronizedLocalOrderBook] *)
Record LocalBook := mkLocalBook {
  b_symbol : string;
  b_stale_after : Z;
  b_event_buffer_size : Z;
  b_bands_bps : list Z;
  b_bids : side;
  b_asks : side;
  b_last_update_id : option Z;
  b_last_transaction_time : option Z;
  b_last_event_time : option Z;
  b_snapshot_time : option Z;
  b_last_valid_update : option Z;
  b_synchronized : bool;
  b_stream_connected : bool;
  b_reason : option string;
  b_resync_count : Z;
  b_gap_count : Z;
  b_duplicate_event_count : Z;
  b_out_of_order_event_count : Z;
  b_buffer_overflow_count : Z;
  b_buffer : list (BinanceDepthEvent * Z);
  b_snapshot_installed : bool;
  b_needs_resync : bool;
  b_coverage_bid_floor : option dec;
  b_coverage_ask_ceiling : option dec
}.

#[export] Instance LocalBook_eta : RecordEta LocalBook := fun b =>
  mkLocalBook (b_symbol b) (b_stale_after b) (b_event_buffer_size b) (b_bands_bps b) (b_bids b)
    (b_asks b) (b_last_update_id b) (b_last_transaction_time b) (b_last_event_time b)
    (b_snapshot_time b) (b_last_valid_update b) (b_synchronized b) (b_stream_connected b) (b_reason b)
    (b_resync_count b) (b_gap_count b) (b_duplicate_event_count b) (b_out_of_order_event_count b)
    (b_buffer_overflow_count b) (b_buffer b) (b_snapshot_installed b) (b_needs_resync b)
    (b_coverage_bid_floor b) (b_coverage_ask_ceiling b).

(** [sorted({int(value) for value in bands_bps})] *)
Fixpoint insert_band (v : Z) (l : list Z) : list Z :=
  match l with
  | [] => [v]
  | x :: rest => if (v =? x)%Z then l else if (v <? x)%Z then v :: l else x :: insert_band v rest
  end.

Definition sorted_bands (bands : list Z) : list Z := fold_right insert_band [] bands.

(** [__init__] *)
Definition new_book (symbol : string) (stale_after event_buffer_size : Z) (bands_bps : list Z)
    : result LocalBook :=
  let normalized := py_upper (py_strip symbol) in
  if String.eqb normalized "" then Raise (ValueError "order-book symbol must not be blank")
  else if (stale_after <=? 0)%Z
  then Raise (ValueError "order-book stale threshold must be greater than zero")
  else if (event_buffer_size <? 1)%Z
  then Raise (ValueError "order-book event buffer size must be positive")
  else
  let bands := sorted_bands bands_bps in
  if match bands with [] => true | _ => false end || existsb (fun v => v <=? 0)%Z bands
  then Raise (ValueError "order-book bands must contain positive basis-point values")
  else Ok {| b_symbol := normalized; b_stale_after := stale_after;
             b_event_buffer_size := event_buffer_size; b_bands_bps := bands; b_bids := [];
             b_asks := []; b_last_update_id := None; b_last_transaction_time := None;
             b_last_event_time := None; b_snapshot_time := None; b_last_valid_update := None;
             b_synchronized := false; b_stream_connected := false; b_reason := Some "warming_up";
             b_resync_count := 0; b_gap_count := 0; b_duplicate_event_count := 0;
             b_out_of_order_event_count := 0; b_buffer_overflow_count := 0; b_buffer := [];
             b_snapshot_installed := false; b_needs_resync := true; b_coverage_bid_floor := None;
             b_coverage_ask_ceiling := None |}.

(** [_clear_trusted_book] *)
Definition clear_trusted_book (preserve_observation : bool) (b : LocalBook) : LocalBook :=
  let cleared := b
    <| b_bids := [] |> <| b_asks := [] |> <| b_last_update_id := None |>
    <| b_snapshot_time := None |> <| b_last_valid_update := None |> <| b_synchronized := false |>
    <| b_snapshot_installed := false |> <| b_coverage_bid_floor := None |>
    <| b_coverage_ask_ceiling := None |> in
  if preserve_observation then cleared
  else cleared <| b_last_event_time := None |> <| b_last_transaction_time := None |>.

(** [_invalidate] *)
Definition invalidate (reason : string) (gap : bool) (b : LocalBook) : LocalBook :=
  let b := if gap then b <| b_gap_count := (b_gap_count b + 1)%Z |> else b in
  (clear_trusted_book true b)
    <| b_buffer := [] |> <| b_reason := Some reason |> <| b_needs_resync := true |>.

Definition mark_connected (reconnect : bool) (b : LocalBook) : LocalBook :=
  (clear_trusted_book false (b <| b_stream_connected := true |>))
    <| b_buffer := [] |>
    <| b_reason := Some (if reconnect then "resyncing" else "snapshot_pending") |>
    <| b_needs_resync := true |>.

Definition mark_disconnected (b : LocalBook) : LocalBook :=
  (clear_trusted_book false (b <| b_stream_connected := false |>))
    <| b_buffer := [] |> <| b_reason := Some "stream_disconnected" |> <| b_needs_resync := true |>.

Definition mark_bootstrap_started (b : LocalBook) : LocalBook :=
  let count := (b_resync_count b + 1)%Z in
  b <| b_resync_count := count |>
    <| b_reason := Some (if (count =? 1)%Z then "snapshot_pending" else "resyncing") |>.

Definition mark_snapshot_failed (b : LocalBook) : LocalBook :=
  (clear_trusted_book false b)
    <| b_reason := Some "snapshot_failed" |> <| b_needs_resync := false |>.

(** [_apply_levels] *)
Definition apply_levels (event : BinanceDepthEvent) (received_at : Z) (b : LocalBook) : LocalBook :=
  b <| b_bids := apply_side (b_bids b) (de_bids event) |>
    <| b_asks := apply_side (b_asks b) (de_asks event) |>
    <| b_last_update_id := Some (de_final_update_id event) |>
    <| b_last_event_time := Some (de_event_time event) |>
    <| b_last_transaction_time := Some (de_transaction_time event) |>
    <| b_last_valid_update := Some received_at |>.

(** [_apply_live_event] *)
Definition apply_live_event (event : BinanceDepthEvent) (received_at : Z) (b : LocalBook)
    : LocalBook * BookIngestOutcome :=
  match b_last_update_id b with
  | None => (invalidate "missing_update_id" true b, NEEDS_RESYNC)
  | Some current =>
      if (de_final_update_id event <=? current)%Z then
        if (de_final_update_id event =? current)%Z
        then (b <| b_duplicate_event_count := (b_duplicate_event_count b + 1)%Z |>, IGNORED_OLD)
        else (b <| b_out_of_order_event_count := (b_out_of_order_event_count b + 1)%Z |>, IGNORED_OLD)
      else if negb (de_previous_final_update_id event =? current)%Z
      then (invalidate "sequence_gap" true b, NEEDS_RESYNC)
      else
      let b := apply_levels event received_at b in
      if unusable (b_bids b) (b_asks b)
      then (invalidate "crossed_book" false b, NEEDS_RESYNC)
      else (b, APPLIED)
  end.

(** the loop over [remaining] in [_reconcile_buffer] *)
Fixpoint apply_remaining (items : list (BinanceDepthEvent * Z)) (b : LocalBook)
    : LocalBook * BookIngestOutcome :=
  match items with
  | [] => (b, SYNCHRONIZED)
  | (event, received_at) :: rest =>
      let '(b, outcome) := apply_live_event event received_at b in
      if bool_decide (outcome = NEEDS_RESYNC) then (b, outcome) else apply_remaining rest b
  end.

(** [_reconcile_buffer] *)
Definition reconcile_buffer (b : LocalBook) : LocalBook * BookIngestOutcome :=
  match b_last_update_id b with
  | Some last =>
      if negb (b_snapshot_installed b) then (b, BUFFERED) else
      let b := b <| b_buffer :=
        List.filter (fun item => last <=? de_final_update_id (fst item))%Z (b_buffer b) |> in
      match b_buffer b with
      | [] => (b, BUFFERED)
      | (event, received_at) :: remaining =>
          if negb ((de_first_update_id event <=? last)%Z && (last <=? de_final_update_id event)%Z)
          then (invalidate "invalid_initial_bridge" true b, NEEDS_RESYNC)
          else
          let b := apply_levels event received_at b in
          if unusable (b_bids b) (b_asks b)
          then (invalidate "crossed_book" false b, NEEDS_RESYNC)
          else
          apply_remaining remaining
            (b <| b_synchronized := true |> <| b_reason := None |> <| b_needs_resync := false |>
               <| b_buffer := [] |>)
      end
  | None => (b, BUFFERED)
  end.

Definition ingest (event : BinanceDepthEvent) (received_at : Z) (b : LocalBook)
    : result (LocalBook * BookIngestOutcome) :=
  if negb (String.eqb (de_symbol event) (b_symbol b)) then
    Raise (ValueError ("depth event symbol " +:+ de_symbol event +:+ " does not match " +:+ b_symbol b))
  else if b_synchronized b then Ok (apply_live_event event received_at b)
  else if (b_event_buffer_size b <=? Z.of_nat (length (b_buffer b)))%Z then
    Ok (invalidate "buffer_overflow" false
          (b <| b_buffer_overflow_count := (b_buffer_overflow_count b + 1)%Z |>), BUFFER_OVERFLOW)
  else
  let b := b <| b_buffer := (b_buffer b ++ [(event, received_at)])%list |> in
  if negb (b_snapshot_installed b) then Ok (b, BUFFERED) else Ok (reconcile_buffer b).

Definition install_snapshot (snapshot : BinanceDepthSnapshot) (received_at : Z) (b : LocalBook)
    : LocalBook * BookIngestOutcome :=
  let bids := side_of_levels (ds_bids snapshot) in
  let asks := side_of_levels (ds_asks snapshot) in
  if unusable bids asks then (invalidate "invalid_snapshot_book" false b, NEEDS_RESYNC) else
  reconcile_buffer (b
    <| b_bids := bids |> <| b_asks := asks |>
    <| b_last_update_id := Some (ds_last_update_id snapshot) |>
    <| b_last_transaction_time := Some (ds_transaction_time snapshot) |>
    <| b_last_event_time := Some (ds_event_time snapshot) |>
    <| b_snapshot_time := Some received_at |>
    <| b_last_valid_update := None |>
    <| b_synchronized := false |>
    <| b_snapshot_installed := true |>
    <| b_needs_resync := false |>
    <| b_coverage_bid_floor := best_min bids |>
    <| b_coverage_ask_ceiling := best_max asks |>
    <| b_reason := Some "synchronizing" |>).

(** ** The published view *)

Inductive ContextStatus : Type :=
| VERIFIED | UNVERIFIED | STALE | UNAVAILABLE | CONTEXT_ERROR.

Record LiquidityBandSnapshot := {
  lb_band_bps : Z;
  lb_bid_quote_notional : dec;
  lb_ask_quote_notional : dec;
  lb_depth_imbalance : option dec;
  lb_bid_coverage_complete : bool;
  lb_ask_coverage_complete : bool
}.

Record VisibleLevelConcentration := {
  vl_price : dec;
  vl_quote_notional : dec;
  vl_distance_bps : dec;
  vl_share_of_observed_band : option dec;
  vl_band_bps : Z
}.

Record OrderBookLiquiditySnapshot := {
  os_symbol : string;
  os_status : ContextStatus;
  os_reason : option string;
  os_observed_at : option Z;
  os_age : option Z;
  os_synchronized : bool;
  os_last_update_id : option Z;
  os_best_bid : option dec;
  os_best_ask : option dec;
  os_mid_price : option dec;
  os_spread_absolute : option dec;
  os_spread_bps : option dec;
  os_bands : list LiquidityBandSnapshot;
  os_furthest_bid_distance_bps : option dec;
  os_furthest_ask_distance_bps : option dec;
  os_largest_bid_level : option VisibleLevelConcentration;
  os_largest_ask_level : option VisibleLevelConcentration;
  os_level_count_bid : nat;
  os_level_count_ask : nat;
  os_resync_count : Z;
  os_gap_count : Z;
  os_duplicate_event_count : Z;
  os_out_of_order_event_count : Z;
  os_buffer_overflow_count : Z
}.

Definition TEN_THOUSAND : dec := dec_of_Z 10000.

(** [_money], [_ratio] and [_bps] *)
Definition money (value : dec) : result dec := dquantize value (-8).

Definition optional_quantize (value : option dec) (e : Z) : result (option dec) :=
  match value with
  | None => Ok None
  | Some v => let! q := dquantize v e in Ok (Some q)
  end.

Definition ratio (value : option dec) : result (option dec) := optional_quantize value (-8).
Definition bps (value : option dec) : result (option dec) := optional_quantize value (-4).

(** [a / b if b > 0 else None] *)
Definition ratio_if_positive (a b : dec) : result (option dec) :=
  if dltb dzero b then let! q := ddiv a b in Ok (Some q) else Ok None.

(** [_distance_bps] *)
Definition distance_bps (mid : dec) (boundary : option dec) (bid : bool) : result (option dec) :=
  match boundary with
  | None => Ok None
  | Some edge =>
      if dleb mid dzero then Ok None else
      let distance := if bid then dsub mid edge else dsub edge mid in
      let! fraction := ddiv distance mid in
      Ok (Some (dmax (dmul fraction TEN_THOUSAND) dzero))
  end.

(** the edges of a band around the mid price *)
Definition band_floor (mid : dec) (band : Z) : result dec :=
  let! fraction := ddiv (dec_of_Z band) TEN_THOUSAND in
  Ok (dmul mid (dsub (dec_of_Z 1) fraction)).

Definition band_ceiling (mid : dec) (band : Z) : result dec :=
  let! fraction := ddiv (dec_of_Z band) TEN_THOUSAND in
  Ok (dmul mid (dadd (dec_of_Z 1) fraction)).

(** the levels of a side inside a band, and their quote notional *)
Definition side_within (inside : dec -> bool) (book : side) : side :=
  List.filter (fun level => inside (fst level)) book.

Definition quote_notional (levels : side) : dec :=
  fold_left (fun acc level => dadd acc (dmul (fst level) (snd level))) levels dzero.

(** [x is not None and x >= band] *)
Definition covers (furthest : option dec) (band : Z) : bool :=
  match furthest with Some f => dleb (dec_of_Z band) f | None => false end.

(** one iteration of the band loop, with the observed quotes *)
Definition band_snapshot (b : LocalBook) (mid : dec) (furthest_bid furthest_ask : option dec) (band : Z)
    : result (LiquidityBandSnapshot * (dec * dec)) :=
  let! bid_floor := band_floor mid band in
  let! ask_ceiling := band_ceiling mid band in
  let bid_quote := quote_notional (side_within (fun p => dleb bid_floor p) (b_bids b)) in
  let ask_quote := quote_notional (side_within (fun p => dleb p ask_ceiling) (b_asks b)) in
  let total := dadd bid_quote ask_quote in
  let! imbalance := ratio_if_positive (dsub bid_quote ask_quote) total in
  let! bid_money := money bid_quote in
  let! ask_money := money ask_quote in
  let! depth := ratio imbalance in
  Ok ({| lb_band_bps := band; lb_bid_quote_notional := bid_money;
         lb_ask_quote_notional := ask_money; lb_depth_imbalance := depth;
         lb_bid_coverage_complete := covers furthest_bid band;
         lb_ask_coverage_complete := covers furthest_ask band |}, (bid_quote, ask_quote)).

Fixpoint band_snapshots (b : LocalBook) (mid : dec) (furthest_bid furthest_ask : option dec)
    (bands : list Z) : result (list (LiquidityBandSnapshot * (dec * dec))) :=
  match bands with
  | [] => Ok []
  | band :: rest =>
      let! s := band_snapshot b mid furthest_bid furthest_ask band in
      let! ss := band_snapshots b mid furthest_bid furthest_ask rest in
      Ok (s :: ss)
  end.

(** [max(candidates, key=lambda item: (quote, price))]: the first maximum *)
Definition larger_level (best candidate : dec * dec) : dec * dec :=
  let bq := dmul (fst best) (snd best) in
  let cq := dmul (fst candidate) (snd candidate) in
  if dltb bq cq || (deqb bq cq && dltb (fst best) (fst candidate)) then candidate else best.

(** [_largest_concentration] *)
Definition largest_concentration (levels : side) (mid : dec) (bid : bool) (band : Z)
    (observed_band_quote : dec) : result (option VisibleLevelConcentration) :=
  match levels with
  | [] => Ok None
  | first :: rest =>
      let '(price, quantity) := fold_left larger_level rest first in
      let quote := dmul price quantity in
      let raw_distance := if bid then dsub mid price else dsub price mid in
      let! share := ratio_if_positive quote observed_band_quote in
      let! quote_money := money quote in
      let! fraction := ddiv raw_distance mid in
      let! distance := dquantize (dmul fraction TEN_THOUSAND) (-4) in
      let! share_ratio := ratio share in
      Ok (Some {| vl_price := price; vl_quote_notional := quote_money;
                  vl_distance_bps := if dtruth distance then distance else dzero;
                  vl_share_of_observed_band := share_ratio; vl_band_bps := band |})
  end.

(** age of the last observation, never negative *)
Definition observation_age (b : LocalBook) (now : Z) : option Z :=
  option_map (fun observed => Z.max (now - observed) 0) (b_last_event_time b).

Definition reason_in (reason : option string) (l : list string) : bool :=
  match reason with Some r => str_in r l | None => false end.

(** [OrderBookLiquiditySnapshot.unavailable(...)] of an unsynchronized book *)
Definition unavailable_snapshot (b : LocalBook) (now : Z) : OrderBookLiquiditySnapshot :=
  {| os_symbol := b_symbol b;
     os_status := if reason_in (b_reason b) ["sequence_gap"; "crossed_book"]
                     && match b_last_event_time b with Some _ => true | None => false end
                  then STALE
                  else if reason_in (b_reason b) ["snapshot_failed"; "invalid_snapshot_book"]
                  then CONTEXT_ERROR else UNAVAILABLE;
     os_reason := b_reason b; os_observed_at := b_last_event_time b;
     os_age := observation_age b now; os_synchronized := false; os_last_update_id := None;
     os_best_bid := None; os_best_ask := None; os_mid_price := None; os_spread_absolute := None;
     os_spread_bps := None; os_bands := []; os_furthest_bid_distance_bps := None;
     os_furthest_ask_distance_bps := None; os_largest_bid_level := None;
     os_largest_ask_level := None; os_level_count_bid := 0; os_level_count_ask := 0;
     os_resync_count := b_resync_count b; os_gap_count := b_gap_count b;
     os_duplicate_event_count := b_duplicate_event_count b;
     os_out_of_order_event_count := b_out_of_order_event_count b;
     os_buffer_overflow_count := b_buffer_overflow_count b |}.

(** status of a synchronized view of the given age *)
Definition view_status (b : LocalBook) (age : option Z) : ContextStatus :=
  match age with
  | None => STALE
  | Some a => if (b_stale_after b <? a)%Z then STALE else VERIFIED
  end.

(** the synchronized branch of [snapshot] *)
Definition synchronized_snapshot (b : LocalBook) (now : Z) (best_bid best_ask : dec)
    : result OrderBookLiquiditySnapshot :=
  let age := observation_age b now in
  let! mid := ddiv (dadd best_bid best_ask) (dec_of_Z 2) in
  let spread := dsub best_ask best_bid in
  let! spread_fraction := ddiv spread mid in
  let spread_bps := dmul spread_fraction TEN_THOUSAND in
  let! furthest_bid := distance_bps mid (b_coverage_bid_floor b) true in
  let! furthest_ask := distance_bps mid (b_coverage_ask_ceiling b) false in
  let! bands := band_snapshots b mid furthest_bid furthest_ask (b_bands_bps b) in
  let outer := List.last (b_bands_bps b) 0%Z in
  let '(outer_bid, outer_ask) := snd (List.last bands
    ({| lb_band_bps := 0; lb_bid_quote_notional := dzero; lb_ask_quote_notional := dzero;
        lb_depth_imbalance := None; lb_bid_coverage_complete := false;
        lb_ask_coverage_complete := false |}, (dzero, dzero))) in
  let! bid_floor := band_floor mid outer in
  let! ask_ceiling := band_ceiling mid outer in
  let! largest_bid := largest_concentration (side_within (fun p => dleb bid_floor p) (b_bids b))
                        mid true outer outer_bid in
  let! largest_ask := largest_concentration (side_within (fun p => dleb p ask_ceiling) (b_asks b))
                        mid false outer outer_ask in
  let complete := forallb (fun s => lb_bid_coverage_complete (fst s) && lb_ask_coverage_complete (fst s))
                    bands in
  let status := view_status b age in
  let! spread_q := bps (Some spread_bps) in
  let! furthest_bid_q := bps furthest_bid in
  let! furthest_ask_q := bps furthest_ask in
  Ok {| os_symbol := b_symbol b; os_status := status;
        os_reason := match status with
                     | STALE => Some "stale_book"
                     | _ => if complete then None else Some "insufficient_book_coverage"
                     end;
        os_observed_at := b_last_event_time b; os_age := age; os_synchronized := true;
        os_last_update_id := b_last_update_id b; os_best_bid := Some best_bid;
        os_best_ask := Some best_ask; os_mid_price := Some mid; os_spread_absolute := Some spread;
        os_spread_bps := spread_q; os_bands := map fst bands;
        os_furthest_bid_distance_bps := furthest_bid_q;
        os_furthest_ask_distance_bps := furthest_ask_q;
        os_largest_bid_level := largest_bid; os_largest_ask_level := largest_ask;
        os_level_count_bid := length (b_bids b); os_level_count_ask := length (b_asks b);
        os_resync_count := b_resync_count b; os_gap_count := b_gap_count b;
        os_duplicate_event_count := b_duplicate_event_count b;
        os_out_of_order_event_count := b_out_of_order_event_count b;
        os_buffer_overflow_count := b_buffer_overflow_count b |}.

(** [snapshot]: a crossed book found here is invalidated and reported as such *)
Definition snapshot (b : LocalBook) (now : Z) : result (LocalBook * OrderBookLiquiditySnapshot) :=
  if negb (b_synchronized b) then Ok (b, unavailable_snapshot b now) else
  match best_max (b_bids b), best_min (b_asks b) with
  | Some best_bid, Some best_ask =>
      if dleb best_ask best_bid then
        let b := invalidate "crossed_book" false b in Ok (b, unavailable_snapshot b now)
      else
      let! view := synchronized_snapshot b now best_bid best_ask in Ok (b, view)
  | _, _ => Raise (ValueError "max() arg is an empty sequence")
  end.
