(* ===== verification/OrderBookProps.v ===== *)
(** * Properties of the local order book

    The book is specified by replay: a synchronized book is a REST snapshot
    with a gap-free chain of depth events applied to it, and nothing else. *)

From stdpp Require Import base tactics list strings.
From Stdlib Require Import ZArith NArith QArith Lia Lqa Bool Ascii.
From S2P Require Import Prelude PyString PyDecimal DecimalFacts OrderBook.
From S2P Require Import PyJson.
Open Scope string_scope.
Open Scope py_scope.

(** ** One side as a finite map from price values *)

Fixpoint book_get (price : dec) (book : side) : option dec :=
  match book with
  | [] => None
  | (p, q) :: rest => if deqb p price then Some q else book_get price rest
  end.

(** no two keys are numerically equal *)
Definition distinct_prices (book : side) : Prop :=
  ForallOrdPairs (fun a b => deqb (fst a) (fst b) = false) book.

Definition positive_levels (book : side) : Prop :=
  Forall (fun l => (0 < dQ (fst l))%Q /\ (0 < dQ (snd l))%Q) book.

Definition side_wf (book : side) : Prop := distinct_prices book /\ positive_levels book.

Lemma deqb_sym a b : deqb a b = deqb b a.
Proof.
  destruct (deqb a b) eqn:E; symmetry.
  - rewrite deqb_spec in *. by symmetry.
  - rewrite deqb_false in *. intros H. apply E. by symmetry.
Qed.

Lemma deqb_trans_true a b c : deqb a b = true -> deqb a c = deqb b c.
Proof.
  rewrite deqb_spec. intros E. destruct (deqb b c) eqn:F.
  - rewrite deqb_spec in *. by rewrite E.
  - rewrite deqb_false in *. by rewrite E.
Qed.

Lemma book_get_set price quantity book p :
  book_get p (book_set price quantity book) =
  if deqb price p then Some quantity else book_get p book.
Proof.
  induction book as [|[k q] book IH]; simpl; [done|].
  destruct (deqb k price) eqn:E; simpl.
  - rewrite (deqb_trans_true _ _ p E). by destruct (deqb price p).
  - rewrite IH. destruct (deqb k p) eqn:F; [|done].
    destruct (deqb price p) eqn:G; [|done]. exfalso.
    rewrite deqb_sym in G. rewrite (deqb_trans_true _ _ price F), G in E. discriminate.
Qed.

Lemma book_get_none p book :
  Forall (fun l => deqb p (fst l) = false) book -> book_get p book = None.
Proof.
  induction 1 as [|[k q] book Hk _ IH]; simpl; [done|]. simpl in Hk. by rewrite deqb_sym, Hk.
Qed.

Lemma book_get_pop price book p :
  distinct_prices book ->
  book_get p (book_pop price book) = if deqb price p then None else book_get p book.
Proof.
  induction 1 as [|[k q] book Hk _ IH]; simpl; [by destruct (deqb price p)|].
  destruct (deqb k price) eqn:E; simpl.
  - rewrite (deqb_trans_true _ _ p E). destruct (deqb price p) eqn:F; [|done].
    apply book_get_none. eapply Forall_impl; [exact Hk|]. intros [k' q'] Hd. simpl in *.
    rewrite <- Hd. symmetry. rewrite (deqb_trans_true _ _ k' E). rewrite (deqb_trans_true _ _ k' F). done.
  - rewrite IH. destruct (deqb k p) eqn:F; [|done].
    destruct (deqb price p) eqn:G; [|done]. exfalso.
    rewrite deqb_sym in G. rewrite (deqb_trans_true _ _ price F), G in E. discriminate.
Qed.

Lemma book_pop_incl price book (P : dec * dec -> Prop) : Forall P book -> Forall P (book_pop price book).
Proof.
  induction 1 as [|[k q] book Hk H IH]; simpl; [done|]. destruct (deqb k price); [done|]. by constructor.
Qed.

Lemma book_pop_distinct price book : distinct_prices book -> distinct_prices (book_pop price book).
Proof.
  induction 1 as [|[k q] book Hk H IH]; simpl; [constructor|]. destruct (deqb k price); [done|].
  constructor; [by apply book_pop_incl|done].
Qed.

Lemma book_set_keys price quantity book k :
  deqb k price = false ->
  Forall (fun l => deqb k (fst l) = false) book ->
  Forall (fun l => deqb k (fst l) = false) (book_set price quantity book).
Proof.
  intros Hk. induction 1 as [|[p q] book Hp H IH]; simpl; [by repeat constructor|].
  destruct (deqb p price); by constructor.
Qed.

Lemma book_set_distinct price quantity book :
  distinct_prices book -> distinct_prices (book_set price quantity book).
Proof.
  induction 1 as [|[k q] book Hk H IH]; simpl; [repeat constructor|].
  destruct (deqb k price) eqn:E; constructor; try done. by apply book_set_keys.
Qed.

Lemma book_set_positive price quantity book :
  (0 < dQ price)%Q -> (0 < dQ quantity)%Q -> positive_levels book ->
  positive_levels (book_set price quantity book).
Proof.
  intros Hp Hq. induction 1 as [|[k q] book [Hk Hkq] H IH]; simpl; [by repeat constructor|].
  destruct (deqb k price); by constructor.
Qed.

(** A level as the parser guarantees it. *)
Definition level_wf (l : DepthLevelUpdate) : Prop :=
  (0 < dQ (lv_price l))%Q /\ (0 <= dQ (lv_quantity l))%Q.

Lemma apply_level_wf book l : level_wf l -> side_wf book -> side_wf (apply_level book l).
Proof.
  intros [Hp Hq] [Hd Hpos]. unfold apply_level. destruct (deqb (lv_quantity l) dzero) eqn:E.
  - split; [by apply book_pop_distinct|by apply book_pop_incl].
  - split; [by apply book_set_distinct|]. apply book_set_positive; try done.
    rewrite deqb_false, dQ_zero in E. apply Qle_lteq in Hq. destruct Hq as [H|H]; [done|].
    exfalso. apply E. by symmetry.
Qed.

Lemma apply_side_wf updates book :
  Forall level_wf updates -> side_wf book -> side_wf (apply_side book updates).
Proof.
  unfold apply_side. intros H. revert book.
  induction H as [|l updates Hl _ IH]; intros book Hb; simpl; [done|]. apply IH. by apply apply_level_wf.
Qed.

Lemma side_of_levels_wf levels : Forall level_wf levels -> side_wf (side_of_levels levels).
Proof.
  unfold side_of_levels. intros H.
  assert (side_wf []) as H0 by (split; constructor). revert H0. generalize (@nil (dec * dec)) as book.
  induction H as [|l levels [Hp _] _ IH]; intros book Hb; simpl; [done|]. apply IH.
  destruct (dltb dzero (lv_quantity l)) eqn:E; [|done]. destruct Hb as [Hd Hpos].
  split; [by apply book_set_distinct|]. apply book_set_positive; try done.
  rewrite dltb_spec, dQ_zero in E. exact E.
Qed.

(** ** Best prices *)

Lemma best_max_spec book b :
  best_max book = Some b ->
  (exists q, In (b, q) book) /\ Forall (fun l => (dQ (fst l) <= dQ b)%Q) book.
Proof.
  revert b. induction book as [|[p q] book IH]; intros b H; [done|]. simpl in H. injection H as <-.
  destruct (best_max book) as [m|] eqn:E.
  - destruct (IH m eq_refl) as [[qm Hin] Hall]. unfold dmax. destruct (dltb p m) eqn:F.
    + split; [exists qm; by right|]. constructor; [simpl; dec_lra|done].
    + split; [exists q; by left|]. constructor; [simpl; lra|].
      eapply Forall_impl; [exact Hall|]. intros l Hl. simpl in *. dec_lra.
  - split; [exists q; by left|]. destruct book as [|[? ?] ?]; [|discriminate].
    repeat constructor; simpl; lra.
Qed.

Lemma best_min_spec book a :
  best_min book = Some a ->
  (exists q, In (a, q) book) /\ Forall (fun l => (dQ a <= dQ (fst l))%Q) book.
Proof.
  revert a. induction book as [|[p q] book IH]; intros a H; [done|]. simpl in H. injection H as <-.
  destruct (best_min book) as [m|] eqn:E.
  - destruct (IH m eq_refl) as [[qm Hin] Hall]. unfold dmin. destruct (dltb m p) eqn:F.
    + split; [exists qm; by right|]. constructor; [simpl; dec_lra|done].
    + split; [exists q; by left|]. constructor; [simpl; lra|].
      eapply Forall_impl; [exact Hall|]. intros l Hl. simpl in *. dec_lra.
  - split; [exists q; by left|]. destruct book as [|[? ?] ?]; [|discriminate].
    repeat constructor; simpl; lra.
Qed.

(** Every bid is below every ask. *)
Definition uncrossed (bids asks : side) : Prop :=
  bids <> [] /\ asks <> [] /\
  forall b a, In b bids -> In a asks -> (dQ (fst b) < dQ (fst a))%Q.

Lemma usable_spec bids asks :
  unusable bids asks = false ->
  exists b a, best_max bids = Some b /\ best_min asks = Some a /\ dleb a b = false.
Proof.
  unfold unusable. destruct (best_max bids), (best_min asks); try discriminate. eauto.
Qed.

Lemma usable_uncrossed bids asks : unusable bids asks = false -> uncrossed bids asks.
Proof.
  intros H. apply usable_spec in H as (b & a & Hb & Ha & Hlt). apply dleb_false in Hlt.
  apply best_max_spec in Hb as [[qb Hb] Fb]. apply best_min_spec in Ha as [[qa Ha] Fa].
  split_and!; [by intros ->|by intros ->|]. intros x y Hx Hy. rewrite Forall_forall in Fb, Fa.
  apply list_elem_of_In in Hx, Hy. specialize (Fb _ Hx). specialize (Fa _ Hy). lra.
Qed.

(** ** Replay *)

Definition event_wf (e : BinanceDepthEvent) : Prop :=
  (de_first_update_id e <= de_final_update_id e)%Z /\
  Forall level_wf (de_bids e) /\ Forall level_wf (de_asks e).

Definition snapshot_wf (s : BinanceDepthSnapshot) : Prop :=
  Forall level_wf (ds_bids s) /\ Forall level_wf (ds_asks s).

(** Each event names the final id of the one before it. *)
Fixpoint chained (last : Z) (events : list BinanceDepthEvent) : Prop :=
  match events with
  | [] => True
  | e :: rest =>
      (last < de_final_update_id e)%Z /\ de_previous_final_update_id e = last /\
      chained (de_final_update_id e) rest
  end.

(** The events a snapshot may be extended with: the first overlaps its update
    id, the rest chain. *)
Definition bridged (s : BinanceDepthSnapshot) (events : list BinanceDepthEvent) : Prop :=
  match events with
  | [] => False
  | e :: rest =>
      (de_first_update_id e <= ds_last_update_id s <= de_final_update_id e)%Z /\
      chained (de_final_update_id e) rest
  end.

Definition replay_bids (s : BinanceDepthSnapshot) (events : list BinanceDepthEvent) : side :=
  fold_left (fun book e => apply_side book (de_bids e)) events (side_of_levels (ds_bids s)).

Definition replay_asks (s : BinanceDepthSnapshot) (events : list BinanceDepthEvent) : side :=
  fold_left (fun book e => apply_side book (de_asks e)) events (side_of_levels (ds_asks s)).

(** the update id after the events *)
Fixpoint chain_end (last : Z) (events : list BinanceDepthEvent) : Z :=
  match events with
  | [] => last
  | e :: rest => chain_end (de_final_update_id e) rest
  end.

Definition replay_id (s : BinanceDepthSnapshot) (events : list BinanceDepthEvent) : Z :=
  chain_end (ds_last_update_id s) events.

(** [b] holds exactly the replay of [events] on [s]. *)
Record replays (b : LocalBook) (s : BinanceDepthSnapshot) (events : list BinanceDepthEvent) : Prop := {
  rp_snapshot : snapshot_wf s;
  rp_events : Forall event_wf events;
  rp_bids : b_bids b = replay_bids s events;
  rp_asks : b_asks b = replay_asks s events;
  rp_id : b_last_update_id b = Some (replay_id s events);
  rp_usable : unusable (b_bids b) (b_asks b) = false
}.

(** The invariant of the book. *)
Record book_ok (b : LocalBook) : Prop := {
  ok_size : (1 <= b_event_buffer_size b)%Z;
  ok_buffer : (Z.of_nat (length (b_buffer b)) <= b_event_buffer_size b)%Z;
  ok_buffered : Forall (fun item => event_wf (fst item)) (b_buffer b);
  ok_state :
    if b_snapshot_installed b then
      if b_synchronized b then
        b_buffer b = [] /\ exists s events, replays b s events /\ bridged s events
      else exists s, replays b s []
    else b_synchronized b = false /\ b_bids b = [] /\ b_asks b = [] /\ b_last_update_id b = None
}.

Lemma invalidate_ok reason gap b : (1 <= b_event_buffer_size b)%Z -> book_ok (invalidate reason gap b).
Proof.
  intros H. destruct gap; (constructor;
    [exact H|simpl; change (0 <= b_event_buffer_size b)%Z; lia|constructor|split_and!; reflexivity]).
Qed.

Lemma chain_end_snoc last events e : chain_end last (events ++ [e]) = de_final_update_id e.
Proof. revert last. induction events; intros; simpl; auto. Qed.

Lemma chained_snoc last events e :
  chained last events -> (chain_end last events < de_final_update_id e)%Z ->
  de_previous_final_update_id e = chain_end last events -> chained last (events ++ [e]).
Proof.
  revert last. induction events as [|x events IH]; intros last Hc Hlt Hp; simpl in *; [auto|].
  destruct Hc as (H1 & H2 & H3). auto.
Qed.

Lemma bridged_snoc s events e :
  bridged s events -> (replay_id s events < de_final_update_id e)%Z ->
  de_previous_final_update_id e = replay_id s events -> bridged s (events ++ [e]).
Proof.
  destruct events as [|x events]; [done|]. simpl. intros [H1 H2] Hlt Hp. split; [done|].
  by apply chained_snoc.
Qed.

Lemma replay_snoc s events e :
  replay_bids s (events ++ [e]) = apply_side (replay_bids s events) (de_bids e) /\
  replay_asks s (events ++ [e]) = apply_side (replay_asks s events) (de_asks e) /\
  replay_id s (events ++ [e]) = de_final_update_id e.
Proof.
  unfold replay_bids, replay_asks, replay_id. rewrite !fold_left_app. split_and!; try reflexivity.
  apply chain_end_snoc.
Qed.

(** Applying the next event extends the replay. *)
Lemma apply_levels_replays b s events e received_at :
  replays b s events -> event_wf e ->
  unusable (b_bids (apply_levels e received_at b)) (b_asks (apply_levels e received_at b)) = false ->
  replays (apply_levels e received_at b) s (events ++ [e]).
Proof.
  intros [Hs He Hb Ha Hi _] Hwf Hu. destruct (replay_snoc s events e) as (E1 & E2 & E3).
  constructor; try done.
  - apply Forall_app. auto.
  - rewrite E1, <- Hb. reflexivity.
  - rewrite E2, <- Ha. reflexivity.
  - rewrite E3. reflexivity.
Qed.

Lemma replays_ext b b' s events :
  b_bids b' = b_bids b -> b_asks b' = b_asks b -> b_last_update_id b' = b_last_update_id b ->
  replays b s events -> replays b' s events.
Proof. intros E1 E2 E3 [Hs He Hb Ha Hi Hu]. constructor; congruence. Qed.

(** A synchronized book, or one that was just invalidated. *)
Definition live_ok (b : LocalBook) : Prop :=
  b_snapshot_installed b = true /\ b_synchronized b = true /\ b_buffer b = [] /\
  (1 <= b_event_buffer_size b)%Z /\ exists s events, replays b s events /\ bridged s events.

Lemma live_ok_book_ok b : live_ok b -> book_ok b.
Proof.
  intros (H1 & H2 & H3 & H4 & H5). constructor; [done|rewrite H3; simpl; lia|by rewrite H3|].
  by rewrite H1, H2.
Qed.

Lemma live_ok_counts b b' :
  b_bids b' = b_bids b -> b_asks b' = b_asks b -> b_last_update_id b' = b_last_update_id b ->
  b_snapshot_installed b' = b_snapshot_installed b -> b_synchronized b' = b_synchronized b ->
  b_buffer b' = b_buffer b -> b_event_buffer_size b' = b_event_buffer_size b ->
  live_ok b -> live_ok b'.
Proof.
  intros E1 E2 E3 E4 E5 E6 E7 (H1 & H2 & H3 & H4 & s & es & [Hs He Hb Ha Hi Hu] & Hbr).
  split_and!; try congruence. exists s, es. split; [|done]. by apply (replays_ext b).
Qed.

Lemma apply_live_event_ok e received_at b b' outcome :
  live_ok b -> event_wf e -> apply_live_event e received_at b = (b', outcome) ->
  (outcome = NEEDS_RESYNC /\ book_ok b') \/ (outcome <> NEEDS_RESYNC /\ live_ok b').
Proof.
  intros Hlive Hwf. assert (Hl := Hlive). destruct Hl as (H1 & H2 & H3 & H4 & s & es & Hr & Hbr).
  unfold apply_live_event. rewrite (rp_id _ _ _ Hr).
  destruct (Z.leb_spec (de_final_update_id e) (replay_id s es)) as [Hle|Hgt].
  { destruct (_ =? _)%Z; intros [= <- <-]; right; (split; [done|]);
      (eapply live_ok_counts; [..|exact Hlive]; reflexivity). }
  destruct (Z.eqb_spec (de_previous_final_update_id e) (replay_id s es)) as [Hp|Hp]; cbn [negb].
  2:{ intros [= <- <-]. left. split; [done|]. by apply invalidate_ok. }
  destruct (unusable _ _) eqn:Eu; intros [= <- <-].
  - left. split; [done|]. by apply invalidate_ok.
  - right. split; [done|]. split_and!; try done. exists s, (es ++ [e])%list.
    split; [by apply apply_levels_replays|by apply bridged_snoc].
Qed.

Lemma apply_remaining_ok items b b' outcome :
  live_ok b -> Forall (fun item => event_wf (fst item)) items ->
  apply_remaining items b = (b', outcome) -> book_ok b'.
Proof.
  intros Hb Hi. revert b Hb. induction Hi as [|[e r] items He _ IH]; intros b Hb; simpl.
  - intros [= <- <-]. by apply live_ok_book_ok.
  - destruct (apply_live_event e r b) as [b1 o1] eqn:E.
    destruct (apply_live_event_ok e r b b1 o1 Hb He E) as [[-> Hok]|[Hn Hl]].
    + rewrite bool_decide_eq_true_2 by done. by intros [= <- <-].
    + rewrite bool_decide_eq_false_2 by done. by apply IH.
Qed.

Lemma filter_length_le {A} (f : A -> bool) l : (length (List.filter f l) <= length l)%nat.
Proof. induction l as [|x l IH]; simpl; [lia|]. destruct (f x); simpl; lia. Qed.

Lemma filter_Forall {A} (P : A -> Prop) f l : Forall P l -> Forall P (List.filter f l).
Proof. induction 1 as [|x l Hx _ IH]; simpl; [done|]. destruct (f x); [by constructor|done]. Qed.

Lemma reconcile_buffer_ok b b' outcome :
  book_ok b -> b_synchronized b = false -> reconcile_buffer b = (b', outcome) -> book_ok b'.
Proof.
  intros Hok Hsync. pose proof Hok as [Hsz Hbuf Hwf Hst]. unfold reconcile_buffer.
  destruct (b_last_update_id b) as [last|] eqn:El; [|by intros [= <- <-]].
  destruct (b_snapshot_installed b) eqn:Ei; cbn [negb]; [|destruct_and? Hst; congruence].
  rewrite Hsync in Hst. destruct Hst as [s Hr].
  set (kept := List.filter _ _). set (b1 := b <| b_buffer := kept |>).
  assert (replays b1 s []) as Hr1 by (by apply (replays_ext b)).
  assert (Forall (fun item => event_wf (fst item)) kept) as Hk by (by apply filter_Forall).
  change (b_buffer b1) with kept. destruct kept as [|[e r] rest] eqn:Ek.
  { intros [= <- <-]. constructor; [exact Hsz|simpl; change (0 <= b_event_buffer_size b)%Z; lia|constructor|].
    change (b_snapshot_installed b1) with (b_snapshot_installed b).
    change (b_synchronized b1) with (b_synchronized b). rewrite Ei, Hsync. by exists s. }
  apply Forall_cons in Hk as [He Hrest]. simpl in He.
  destruct (_ && _) eqn:Eb; cbn [negb]; [|intros [= <- <-]; by apply invalidate_ok].
  destruct (unusable _ _) eqn:Eu; [intros [= <- <-]; by apply invalidate_ok|].
  apply apply_remaining_ok; [|done].
  pose proof (apply_levels_replays b1 s [] e r Hr1 He Eu) as Hr2.
  split_and!; try done. exists s, [e]. split; [by apply (replays_ext (apply_levels e r b1))|].
  destruct Hr as [_ _ _ _ Hi _]. rewrite El in Hi. injection Hi as ->. unfold replay_id in Eb.
  simpl in *. split; [lia|done].
Qed.

(** ** Steps of the book *)

(** One call on the book, with well-formed (parsed) events and snapshots. *)
Inductive book_step (b : LocalBook) : LocalBook -> Prop :=
| step_ingest e r b' outcome :
    event_wf e -> ingest e r b = Ok (b', outcome) -> book_step b b'
| step_install s r b' outcome :
    snapshot_wf s -> install_snapshot s r b = (b', outcome) -> book_step b b'
| step_connected reconnect : book_step b (mark_connected reconnect b)
| step_disconnected : book_step b (mark_disconnected b)
| step_bootstrap : book_step b (mark_bootstrap_started b)
| step_snapshot_failed : book_step b (mark_snapshot_failed b)
| step_view now b' view : snapshot b now = Ok (b', view) -> book_step b b'.

Inductive reachable_book : LocalBook -> Prop :=
| book_new symbol stale size bands b :
    new_book symbol stale size bands = Ok b -> reachable_book b
| book_next b b' : reachable_book b -> book_step b b' -> reachable_book b'.

Lemma cleared_ok b :
  (1 <= b_event_buffer_size b)%Z -> (Z.of_nat (length (b_buffer b)) <= b_event_buffer_size b)%Z ->
  Forall (fun item => event_wf (fst item)) (b_buffer b) ->
  b_snapshot_installed b = false -> b_synchronized b = false ->
  b_bids b = [] -> b_asks b = [] -> b_last_update_id b = None -> book_ok b.
Proof. intros. constructor; try done. by rewrite H2. Qed.

Lemma ingest_ok e r b b' outcome :
  event_wf e -> book_ok b -> ingest e r b = Ok (b', outcome) -> book_ok b'.
Proof.
  intros He Hok. pose proof Hok as [Hsz Hbuf Hwf Hst]. unfold ingest.
  destruct (negb _); [discriminate|].
  destruct (b_synchronized b) eqn:Es.
  { intros [= H]. destruct (b_snapshot_installed b) eqn:Ei; [|destruct Hst; congruence].
    destruct Hst as [Hnil Hrep].
    destruct (apply_live_event_ok e r b b' outcome) as [[_ ?]|[_ ?]]; try done.
    by apply live_ok_book_ok. }
  destruct (Z.leb_spec (b_event_buffer_size b) (Z.of_nat (length (b_buffer b)))) as [Hfull|Hroom].
  { intros [= <- <-]. by apply invalidate_ok. }
  set (b1 := b <| b_buffer := (b_buffer b ++ [(e, r)])%list |>).
  assert (book_ok b1) as Hok1.
  { constructor; [exact Hsz|..].
    - change (Z.of_nat (length (b_buffer b ++ [(e, r)])) <= b_event_buffer_size b)%Z.
      rewrite length_app. simpl. lia.
    - change (Forall (fun item => event_wf (fst item)) (b_buffer b ++ [(e, r)])).
      apply Forall_app. split; [done|]. constructor; [exact He|constructor].
    - change (b_snapshot_installed b1) with (b_snapshot_installed b).
      change (b_synchronized b1) with (b_synchronized b). rewrite Es in *.
      destruct (b_snapshot_installed b); [|exact Hst].
      destruct Hst as [s Hr]. exists s. by apply (replays_ext b). }
  change (b_snapshot_installed b1) with (b_snapshot_installed b).
  destruct (negb _); [by intros [= <- <-]|]. intros [= H].
  by apply (reconcile_buffer_ok b1 b' outcome).
Qed.

Lemma install_snapshot_ok s r b b' outcome :
  snapshot_wf s -> book_ok b -> install_snapshot s r b = (b', outcome) -> book_ok b'.
Proof.
  intros Hs [Hsz Hbuf Hwf Hst]. unfold install_snapshot.
  destruct (unusable _ _) eqn:Eu; [intros [= <- <-]; by apply invalidate_ok|].
  intros H. refine (reconcile_buffer_ok _ b' outcome _ _ H); [|reflexivity].
  constructor; [exact Hsz|exact Hbuf|exact Hwf|].
  exists s. constructor; try done.
Qed.

Lemma snapshot_unchanged b now b' view :
  book_ok b -> snapshot b now = Ok (b', view) -> b' = b.
Proof.
  intros [_ _ _ Hst]. unfold snapshot. destruct (b_synchronized b) eqn:Es; cbn [negb]; [|by intros [= <- _]].
  destruct (b_snapshot_installed b); [|destruct Hst; congruence].
  destruct Hst as (_ & s & es & Hr & _). apply rp_usable, usable_spec in Hr as (bb & ba & -> & -> & ->).
  destruct (synchronized_snapshot _ _ _ _); cbn [bind_result]; [by intros [= <- _]|discriminate].
Qed.

Lemma book_step_ok b b' : book_ok b -> book_step b b' -> book_ok b'.
Proof.
  intros Hok Hstep. pose proof Hok as [Hsz Hbuf Hwf Hst].
  destruct Hstep as [e r b' o He H|s r b' o Hs H|rc| | | |now b' v H].
  - by apply (ingest_ok e r b b' o).
  - by apply (install_snapshot_ok s r b b' o).
  - apply cleared_ok; try reflexivity; [exact Hsz|simpl; change (0 <= b_event_buffer_size b)%Z; lia|constructor].
  - apply cleared_ok; try reflexivity; [exact Hsz|simpl; change (0 <= b_event_buffer_size b)%Z; lia|constructor].
  - constructor; [exact Hsz|exact Hbuf|exact Hwf|].
    change (b_snapshot_installed (mark_bootstrap_started b)) with (b_snapshot_installed b).
    change (b_synchronized (mark_bootstrap_started b)) with (b_synchronized b).
    change (b_buffer (mark_bootstrap_started b)) with (b_buffer b).
    destruct (b_snapshot_installed b); [|exact Hst]. destruct (b_synchronized b).
    + destruct Hst as (Hn & s & es & Hr & Hb). split; [done|]. exists s, es. split; [|done]. by apply (replays_ext b).
    + destruct Hst as [s Hr]. exists s. by apply (replays_ext b).
  - apply cleared_ok; try reflexivity; [exact Hsz|exact Hbuf|exact Hwf].
  - by rewrite (snapshot_unchanged b now b' v Hok H).
Qed.

Lemma new_book_ok symbol stale size bands b : new_book symbol stale size bands = Ok b -> book_ok b.
Proof.
  unfold new_book. destruct (String.eqb _ ""); [discriminate|]. destruct (_ <=? 0)%Z; [discriminate|].
  destruct (Z.ltb_spec size 1); [discriminate|]. destruct (_ || _); [discriminate|]. intros [= <-].
  apply cleared_ok; simpl; try done; lia.
Qed.

Lemma reachable_book_ok b : reachable_book b -> book_ok b.
Proof.
  induction 1 as [symbol stale size bands b H|b b' _ IH Hstep]; [by apply new_book_ok in H|].
  by apply (book_step_ok b b').
Qed.

Lemma replay_wf s events :
  snapshot_wf s -> Forall event_wf events -> side_wf (replay_bids s events) /\ side_wf (replay_asks s events).
Proof.
  intros [Hb Ha] He. unfold replay_bids, replay_asks.
  apply side_of_levels_wf in Hb, Ha. revert Hb Ha.
  generalize (side_of_levels (ds_bids s)) (side_of_levels (ds_asks s)).
  induction He as [|e events (_ & H1 & H2) _ IH]; intros bb aa Hb Ha; simpl; [done|].
  apply IH; by apply apply_side_wf.
Qed.

(** ** Properties *)


(** a synchronized book is usable: both sides are non-empty, every bid is
    below every ask, prices and quantities are positive and no price appears
    twice; an unsynchronized book never buffers more events than its limit. *)
Theorem synchronized_book_usable b :
  reachable_book b ->
  (Z.of_nat (length (b_buffer b)) <= b_event_buffer_size b)%Z /\
  (b_synchronized b = true ->
   uncrossed (b_bids b) (b_asks b) /\ side_wf (b_bids b) /\ side_wf (b_asks b)).
Proof.
  intros Hr. apply reachable_book_ok in Hr as [_ Hbuf _ Hst]. split; [done|]. intros Hs. rewrite Hs in Hst.
  destruct (b_snapshot_installed b); [|by destruct Hst].
  destruct Hst as (_ & s & es & [H1 H2 Hb Ha _ Hu] & _). split; [by apply usable_uncrossed|].
  rewrite Hb, Ha. by apply replay_wf.
Qed.

(** Each level update acts on the price as on a finite map: after applying a
    list of updates to a well-formed side, a price holds the quantity of its
    last update, none when that quantity is zero, and its old quantity when no
    update names it. *)
Theorem apply_side_map_semantics book updates p :
  side_wf book -> Forall level_wf updates ->
  book_get p (apply_side book updates) =
  fold_left (fun known l =>
    if deqb (lv_price l) p then (if deqb (lv_quantity l) dzero then None else Some (lv_quantity l))
    else known) updates (book_get p book).
Proof.
  intros Hb Hu. unfold apply_side. revert book Hb.
  induction Hu as [|l updates Hl _ IH]; intros book Hb; simpl; [done|].
  rewrite IH by (by apply apply_level_wf). f_equal. unfold apply_level.
  destruct (deqb (lv_quantity l) dzero); [apply book_get_pop, Hb|apply book_get_set].
Qed.

Definition sample_level (p q : Z) : DepthLevelUpdate :=
  {| lv_price := dec_of_Z p; lv_quantity := dec_of_Z q |}.

Lemma apply_side_map_semantics_witness :
  book_get (dec_of_Z 100) (apply_side [(mkDec false 1000 (-1), dec_of_Z 5)]
    [sample_level 101 2; sample_level 100 7]) = Some (dec_of_Z 7).
Proof.
  rewrite (apply_side_map_semantics [(mkDec false 1000 (-1), dec_of_Z 5)]
    [sample_level 101 2; sample_level 100 7] (dec_of_Z 100)).
  - reflexivity.
  - split; [repeat constructor|]. apply List.Forall_cons; [split; reflexivity|apply List.Forall_nil].
  - apply List.Forall_cons; [split; [reflexivity|discriminate]|].
    apply List.Forall_cons; [split; [reflexivity|discriminate]|apply List.Forall_nil].
Defined.


Definition sample_snapshot : BinanceDepthSnapshot :=
  {| ds_last_update_id := 10; ds_event_time := 1000000; ds_transaction_time := 1000000;
     ds_bids := [sample_level 99 3; sample_level 98 1]; ds_asks := [sample_level 101 2] |}.

Definition sample_event (first final previous : Z) (bids asks : list DepthLevelUpdate) : BinanceDepthEvent :=
  {| de_symbol := "BTCUSDT"; de_pair_symbol := "BTCUSDT"; de_event_time := 2000000;
     de_transaction_time := 2000000; de_first_update_id := first; de_final_update_id := final;
     de_previous_final_update_id := previous; de_bids := bids; de_asks := asks |}.

Definition run_events (b : LocalBook) (events : list BinanceDepthEvent) : LocalBook :=
  fold_left (fun b e => match ingest e 0 b with Ok (b', _) => b' | Raise _ => b end) events b.

(** A connected book with a snapshot and its bridging event. *)
Definition sample_book : LocalBook :=
  match new_book "btcusdt" 5000000 4 [10; 25]%Z with
  | Ok b => run_events (fst (install_snapshot sample_snapshot 0 (mark_connected false b)))
              [sample_event 9 12 8 [sample_level 100 1] [sample_level 101 0; sample_level 102 4]]
  | Raise _ => mkLocalBook "" 0 0 [] [] [] None None None None None false false None 0 0 0 0 0 [] false false None None
  end.

Example sample_book_synchronized :
  b_synchronized sample_book = true /\ b_last_update_id sample_book = Some 12%Z /\
  best_max (b_bids sample_book) = Some (dec_of_Z 100) /\ best_min (b_asks sample_book) = Some (dec_of_Z 102).
Proof. vm_compute. auto. Qed.


Lemma synchronized_snapshot_shape b now bid ask view :
  synchronized_snapshot b now bid ask = Ok view ->
  os_status view = view_status b (observation_age b now) /\ os_synchronized view = true /\
  os_best_bid view = Some bid /\ os_best_ask view = Some ask /\
  os_age view = observation_age b now /\ os_last_update_id view = b_last_update_id b.
Proof.
  unfold synchronized_snapshot. intros H.
  repeat match type of H with
  | bind_result ?c _ = _ => destruct c eqn:?; cbn [bind_result] in H; [|discriminate]
  | (let '(_, _) := ?e in _) = _ => destruct e
  end.
  injection H as <-. split_and!; reflexivity.
Qed.

(** the published view tells the truth about the book: reading never changes
    a reachable book, and a view is VERIFIED only when the book is synchronized
    and its last event is at most the staleness threshold old; the best bid and
    ask it shows are the extreme prices of the two sides, bid strictly below
    ask. *)
Theorem verified_view_is_fresh_and_uncrossed b now b' view :
  reachable_book b -> snapshot b now = Ok (b', view) ->
  b' = b /\ os_synchronized view = b_synchronized b /\
  (os_status view = VERIFIED ->
   b_synchronized b = true /\
   (exists observed, b_last_event_time b = Some observed /\ (now - observed <= b_stale_after b)%Z) /\
   exists bid ask, os_best_bid view = Some bid /\ os_best_ask view = Some ask /\
     best_max (b_bids b) = Some bid /\ best_min (b_asks b) = Some ask /\ (dQ bid < dQ ask)%Q).
Proof.
  intros Hr H. apply reachable_book_ok in Hr as Hok. split; [by eapply snapshot_unchanged|].
  pose proof Hok as [_ _ _ Hst]. unfold snapshot in H.
  destruct (b_synchronized b) eqn:Es; cbn [negb] in H.
  2:{ injection H as <- <-. split; [reflexivity|]. intros Hv. exfalso. revert Hv. cbn.
      destruct (_ && _); [done|]. by destruct (reason_in _ _). }
  destruct (b_snapshot_installed b); [|by destruct Hst].
  destruct Hst as (_ & s & es & Hrep & _). apply rp_usable, usable_spec in Hrep as (bid & ask & Hb & Ha & Hlt).
  rewrite Hb, Ha, Hlt in H. destruct (synchronized_snapshot b now bid ask) as [v|] eqn:Ev;
    cbn [bind_result] in H; [|discriminate].
  injection H as <- <-. apply synchronized_snapshot_shape in Ev as (E1 & E2 & E3 & E4 & _).
  split; [done|]. rewrite E1. intros Hv. split; [done|]. split.
  - unfold view_status, observation_age in Hv. destruct (b_last_event_time b) as [t|]; [|discriminate].
    exists t. split; [done|]. simpl in Hv. destruct (Z.ltb_spec (b_stale_after b) (Z.max (now - t) 0)); [discriminate|lia].
  - exists bid, ask. apply dleb_false in Hlt. auto.
Qed.

(** The concrete book above, as a reachable one. *)
Lemma sample_book_reachable : reachable_book sample_book.
Proof.
  unfold sample_book. destruct (new_book "btcusdt" 5000000 4 [10; 25]%Z) as [b|] eqn:E; [|discriminate E].
  assert (reachable_book (mark_connected false b)) as H1
    by exact (book_next _ _ (book_new _ _ _ _ _ E) (step_connected b false)).
  destruct (install_snapshot sample_snapshot 0 (mark_connected false b)) as [b1 o1] eqn:E1.
  assert (snapshot_wf sample_snapshot) as Hs.
  { split; repeat (apply List.Forall_cons; [split; [reflexivity|discriminate]|]); apply List.Forall_nil. }
  assert (reachable_book b1) as H2 by exact (book_next _ _ H1 (step_install _ _ _ _ _ Hs E1)).
  cbn [fst run_events fold_left]. unfold run_events. cbn [fold_left].
  match goal with |- context [ingest ?e 0 b1] => destruct (ingest e 0 b1) as [[b2 o2]|] eqn:E2;
    [|exact H2]; refine (book_next _ _ H2 (step_ingest _ e 0 b2 o2 _ E2)) end.
  split; [vm_compute; discriminate|].
  split; repeat (apply List.Forall_cons; [split; [reflexivity|discriminate]|]); apply List.Forall_nil.
Qed.

Lemma verified_view_is_fresh_and_uncrossed_witness :
  exists b' view, snapshot sample_book 4000000 = Ok (b', view) /\ os_status view = VERIFIED /\ b' = sample_book.
Proof.
  destruct (snapshot sample_book 4000000) as [[b' view]|] eqn:E.
  - exists b', view. split; [reflexivity|]. split.
    + revert E. vm_compute. intros E. injection E as <- <-. reflexivity.
    + exact (proj1 (verified_view_is_fresh_and_uncrossed _ _ _ _ sample_book_reachable E)).
  - exfalso. revert E. vm_compute. discriminate.
Defined.


Lemma synchronized_book_usable_witness :
  b_synchronized sample_book = true /\ uncrossed (b_bids sample_book) (b_asks sample_book).
Proof.
  assert (b_synchronized sample_book = true) as H by (vm_compute; reflexivity).
  split; [exact H|]. exact (proj1 (proj2 (synchronized_book_usable sample_book sample_book_reachable) H)).
Defined.

(** ** Parsing *)

Lemma parse_levels_from_wf index label items levels :
  parse_levels_from index label items = Ok levels -> Forall level_wf levels.
Proof.
  revert index levels. induction items as [|item items IH]; intros index levels H; cbn [parse_levels_from] in H.
  { injection H as <-. constructor. }
  destruct item as [| | | | |[|p [|q [|]]]|]; try discriminate.
  destruct (ob_decimal p _) as [price|]; cbn [bind_result] in H; [|discriminate].
  destruct (ob_decimal q _) as [quantity|]; cbn [bind_result] in H; [|discriminate].
  destruct (dleb price dzero) eqn:E1; [discriminate|]. destruct (dltb quantity dzero) eqn:E2; [discriminate|].
  destruct (parse_levels_from _ _ items) as [rest|] eqn:Er; cbn [bind_result] in H; [|discriminate].
  injection H as <-. constructor; [|by eapply IH]. split; simpl; pose proof dQ_zero; dec_lra.
Qed.

Lemma parse_levels_wf value label levels : parse_levels value label = Ok levels -> Forall level_wf levels.
Proof. destruct value; try discriminate. apply parse_levels_from_wf. Qed.

(** C40: what the parser lets through is what the book assumes: an accepted depth
    event is a USD-M event with non-negative update ids in order, positive
    prices and non-negative quantities; an accepted snapshot has a non-negative
    update id and such levels. *)
Theorem parsed_payloads_well_formed payload :
  (forall e, parse_binance_depth_event payload = Ok e ->
     event_wf e /\ (0 <= de_first_update_id e)%Z /\ (0 <= de_previous_final_update_id e)%Z /\
     de_symbol e = py_upper (de_symbol e)) /\
  (forall s, parse_binance_depth_snapshot payload = Ok s ->
     snapshot_wf s /\ (0 <= ds_last_update_id s)%Z).
Proof.
  assert (forall p n z, required_non_negative_int p n = Ok z -> (0 <= z)%Z) as Hint.
  { intros p n z. unfold required_non_negative_int. destruct (json_get n p); try discriminate.
    destruct (Z.ltb_spec z0 0); [discriminate|]. by intros [= <-]. }
  assert (forall v s, contract_symbol v = Ok s -> s = py_upper s) as Hsym.
  { intros v s. unfold contract_symbol, exact_stream_symbol. destruct v; try discriminate.
    destruct (_ || _) eqn:E; [discriminate|]. intros [= <-]. apply orb_false_iff in E as [_ E].
    by rewrite negb_false_iff, String.eqb_eq in E. }
  split.
  - intros e. unfold parse_binance_depth_event. cbv zeta. set (d := match json_get "data" payload with JObj i => i | _ => payload end).
    intros H. destruct (negb _); [discriminate|].
    destruct (json_get "st" d) as [| |st| | | |]; try discriminate.
    destruct (st =? 1)%Z; cbn [negb] in H; [|destruct (st =? 2)%Z; discriminate].
    repeat match type of H with
    | bind_result ?c _ = _ => let E := fresh "E" in destruct c eqn:E; cbn [bind_result] in H; [|discriminate]
    | (if ?c then _ else _) = _ => let E := fresh "E" in destruct c eqn:E; [discriminate|]
    end.
    injection H as <-. unfold event_wf. simpl. split_and!; try (by eapply Hint); try (by eapply parse_levels_wf).
    + lia.
    + by eapply Hsym.
  - intros s H. unfold parse_binance_depth_snapshot in H.
    repeat match type of H with
    | bind_result ?c _ = _ => let E := fresh "E" in destruct c eqn:E; cbn [bind_result] in H; [|discriminate]
    end.
    injection H as <-. unfold snapshot_wf. simpl. split_and!; try (by eapply Hint); by eapply parse_levels_wf.
Qed.

(** ** Recovery *)

(** The event handler called on each item in turn *)
Fixpoint ingest_all (items : list (BinanceDepthEvent * Z)) (b : LocalBook) : result LocalBook :=
  match items with
  | [] => Ok b
  | (e, r) :: rest => let! (b1, _) := ingest e r b in ingest_all rest b1
  end.

Lemma buffer_twice b l1 l2 : b <| b_buffer := l1 |> <| b_buffer := l2 |> = b <| b_buffer := l2 |>.
Proof. reflexivity. Qed.

Lemma ingest_all_buffers items b :
  b_synchronized b = false -> b_snapshot_installed b = false ->
  Forall (fun item => de_symbol (fst item) = b_symbol b) items ->
  (Z.of_nat (length (b_buffer b) + length items) <= b_event_buffer_size b)%Z ->
  ingest_all items b = Ok (b <| b_buffer := (b_buffer b ++ items)%list |>).
Proof.
  revert b. induction items as [|[e r] items IH]; intros b Hs Hi Hsym Hlen.
  - rewrite app_nil_r. by destruct b.
  - inversion Hsym as [|? ? He Hrest]; subst. cbn [fst] in He. cbn [ingest_all]. unfold ingest.
    rewrite He, String.eqb_refl, Hs. cbn [negb]. cbn [length] in Hlen.
    rewrite (proj2 (Z.leb_gt _ _)) by lia.
    change (b_snapshot_installed (b <| b_buffer := (b_buffer b ++ [(e, r)])%list |>)) with (b_snapshot_installed b).
    rewrite Hi. cbn [negb bind_result].
    rewrite IH; [|exact Hs|exact Hi|exact Hrest|].
    + rewrite buffer_twice.
      change (b_buffer (b <| b_buffer := (b_buffer b ++ [(e, r)])%list |>)) with (b_buffer b ++ [(e, r)])%list.
      by rewrite <- app_assoc.
    + change (b_buffer (b <| b_buffer := (b_buffer b ++ [(e, r)])%list |>)) with (b_buffer b ++ [(e, r)])%list.
      rewrite length_app. cbn [length].
      change (b_event_buffer_size (b <| b_buffer := (b_buffer b ++ [(e, r)])%list |>)) with (b_event_buffer_size b).
      lia.
Qed.

(** Every book on the way of the replay is usable. *)
Fixpoint usable_replay (bids asks : side) (events : list BinanceDepthEvent) : Prop :=
  match events with
  | [] => True
  | e :: rest =>
      unusable (apply_side bids (de_bids e)) (apply_side asks (de_asks e)) = false /\
      usable_replay (apply_side bids (de_bids e)) (apply_side asks (de_asks e)) rest
  end.

Lemma apply_remaining_chain items b last :
  b_last_update_id b = Some last -> b_synchronized b = true ->
  chained last (map fst items) -> usable_replay (b_bids b) (b_asks b) (map fst items) ->
  exists b', apply_remaining items b = (b', SYNCHRONIZED) /\ b_synchronized b' = true /\
    b_bids b' = fold_left (fun book e => apply_side book (de_bids e)) (map fst items) (b_bids b) /\
    b_asks b' = fold_left (fun book e => apply_side book (de_asks e)) (map fst items) (b_asks b) /\
    b_last_update_id b' = Some (chain_end last (map fst items)).
Proof.
  revert b last. induction items as [|[e r] items IH]; intros b last Hl Hs Hc Hu; [by exists b|].
  cbn [map fst chained usable_replay] in Hc, Hu. destruct Hc as (H1 & H2 & Hc), Hu as [Hu Hrest].
  cbn [apply_remaining]. unfold apply_live_event. rewrite Hl.
  rewrite (proj2 (Z.leb_gt _ _)) by lia. rewrite (proj2 (Z.eqb_eq _ _)) by lia. cbn [negb].
  change (b_bids (apply_levels e r b)) with (apply_side (b_bids b) (de_bids e)).
  change (b_asks (apply_levels e r b)) with (apply_side (b_asks b) (de_asks e)).
  rewrite Hu. change (bool_decide (APPLIED = NEEDS_RESYNC)) with false. cbv iota.
  apply (IH (apply_levels e r b) (de_final_update_id e)); [reflexivity|exact Hs|exact Hc|exact Hrest].
Qed.

Lemma filter_bridge last pre item rest :
  Forall (fun i => (de_final_update_id (fst i) < last)%Z) pre ->
  (last <= de_final_update_id (fst item))%Z ->
  Forall (fun i => (last <= de_final_update_id (fst i))%Z) rest ->
  List.filter (fun i : BinanceDepthEvent * Z => last <=? de_final_update_id (fst i))%Z (pre ++ item :: rest)
  = item :: rest.
Proof.
  intros Hp Hi Hr. induction Hp as [|x pre Hx _ IH].
  - cbn [app List.filter]. rewrite (proj2 (Z.leb_le _ _) Hi). f_equal.
    induction Hr as [|y rest Hy _ IH]; [done|]. cbn [List.filter]. by rewrite (proj2 (Z.leb_le _ _) Hy), IH.
  - cbn [app List.filter]. by rewrite (proj2 (Z.leb_gt _ _) Hx).
Qed.

Lemma chained_after last items :
  chained last (map fst items) ->
  Forall (fun i : BinanceDepthEvent * Z => (last <= de_final_update_id (fst i))%Z) items.
Proof.
  revert last. induction items as [|[e r] items IH]; intros last; [constructor|].
  cbn [map fst chained]. intros (H1 & H2 & H3). constructor; [cbn [fst]; lia|].
  eapply Forall_impl; [exact (IH _ H3)|]. intros i Hi. cbn beta in *. lia.
Qed.

Lemma reconcile_buffer_bridges b last pre e re rest :
  b_last_update_id b = Some last -> b_snapshot_installed b = true ->
  b_buffer b = (pre ++ (e, re) :: rest)%list ->
  Forall (fun i => (de_final_update_id (fst i) < last)%Z) pre ->
  (de_first_update_id e <= last <= de_final_update_id e)%Z ->
  chained (de_final_update_id e) (map fst rest) ->
  usable_replay (b_bids b) (b_asks b) (e :: map fst rest) ->
  exists b', reconcile_buffer b = (b', SYNCHRONIZED) /\ b_synchronized b' = true /\
    b_bids b' = fold_left (fun book e => apply_side book (de_bids e)) (e :: map fst rest) (b_bids b) /\
    b_asks b' = fold_left (fun book e => apply_side book (de_asks e)) (e :: map fst rest) (b_asks b) /\
    b_last_update_id b' = Some (chain_end last (e :: map fst rest)).
Proof.
  intros Hl Hi Hb Hpre He Hc [Hu Hrest].
  assert (Forall (fun i : BinanceDepthEvent * Z => (last <= de_final_update_id (fst i))%Z) rest) as Hafter.
  { eapply Forall_impl; [exact (chained_after _ _ Hc)|]. intros i Hx. cbn beta in *. lia. }
  pose proof (filter_bridge last pre (e, re) rest Hpre (proj2 He) Hafter) as Hf.
  unfold reconcile_buffer. rewrite Hl, Hi, Hb. cbn [negb]. rewrite Hf.
  change (b_buffer (b <| b_buffer := (e, re) :: rest |>)) with ((e, re) :: rest). cbv iota.
  rewrite (proj2 (Z.leb_le _ _) (proj1 He)), (proj2 (Z.leb_le _ _) (proj2 He)). cbn [negb andb].
  set (b1 := apply_levels e re _).
  assert (b_bids b1 = apply_side (b_bids b) (de_bids e)) as E1 by reflexivity.
  assert (b_asks b1 = apply_side (b_asks b) (de_asks e)) as E2 by reflexivity.
  assert (b_last_update_id b1 = Some (de_final_update_id e)) as E3 by reflexivity.
  clearbody b1. rewrite E1, E2, Hu. cbn [fold_left chain_end]. rewrite <- E1, <- E2.
  rewrite <- E1, <- E2 in Hrest.
  set (b2 := b1 <| b_synchronized := true |> <| b_reason := None |>
    <| b_needs_resync := false |> <| b_buffer := [] |>).
  assert (b_synchronized b2 = true) as F by reflexivity.
  exact (apply_remaining_chain rest b2 (de_final_update_id e) E3 F Hc Hrest).
Qed.

(** C38: a reconnect always recovers: whatever state the book was in, after a
    (re)connection it buffers a stream of events that fits the buffer, and
    installing a usable snapshot that one of them overlaps and the later ones
    chain on synchronizes the book: the older events are dropped and the sides
    and the update id are the replay of the others on the snapshot, provided no
    book on the way is empty or crossed. *)
Theorem reconnect_recovers b reconnect s r pre item rest :
  Forall (fun i => de_symbol (fst i) = b_symbol b) (pre ++ item :: rest) ->
  (Z.of_nat (length (pre ++ item :: rest)) <= b_event_buffer_size b)%Z ->
  Forall (fun i => (de_final_update_id (fst i) < ds_last_update_id s)%Z) pre ->
  bridged s (map fst (item :: rest)) ->
  unusable (side_of_levels (ds_bids s)) (side_of_levels (ds_asks s)) = false ->
  usable_replay (side_of_levels (ds_bids s)) (side_of_levels (ds_asks s)) (map fst (item :: rest)) ->
  exists b1 b',
    ingest_all (pre ++ item :: rest) (mark_connected reconnect b) = Ok b1 /\
    install_snapshot s r b1 = (b', SYNCHRONIZED) /\ b_synchronized b' = true /\
    b_bids b' = replay_bids s (map fst (item :: rest)) /\
    b_asks b' = replay_asks s (map fst (item :: rest)) /\
    b_last_update_id b' = Some (replay_id s (map fst (item :: rest))).
Proof.
  intros Hsym Hlen Hpre Hbr Hu Hrep.
  pose proof (ingest_all_buffers (pre ++ item :: rest) (mark_connected reconnect b)
    eq_refl eq_refl Hsym Hlen) as Hing.
  destruct item as [e re]. destruct Hbr as [He Hc].
  eexists. unfold install_snapshot. rewrite Hu.
  edestruct reconcile_buffer_bridges as (b' & H1 & H2 & H3 & H4 & H5); cycle 7;
    [exists b'; split; [exact Hing|]; split; [exact H1|]; split; [exact H2|];
     split; [exact H3|]; split; [exact H4|exact H5]|..].
  - reflexivity.
  - reflexivity.
  - reflexivity.
  - exact Hpre.
  - exact He.
  - exact Hc.
  - exact Hrep.
Qed.

Lemma reconnect_recovers_witness :
  exists b1 b',
    ingest_all [(sample_event 3 5 2 [] [], 0%Z); (sample_event 9 12 8 [sample_level 100 1] [], 0%Z);
                (sample_event 13 14 12 [sample_level 100 0] [], 1%Z)]
      (mark_connected true sample_book) = Ok b1 /\
    install_snapshot sample_snapshot 2 b1 = (b', SYNCHRONIZED) /\ b_last_update_id b' = Some 14%Z.
Proof.
  destruct (reconnect_recovers sample_book true sample_snapshot 2 [(sample_event 3 5 2 [] [], 0%Z)]
    (sample_event 9 12 8 [sample_level 100 1] [], 0%Z)
    [(sample_event 13 14 12 [sample_level 100 0] [], 1%Z)]) as (b1 & b' & H1 & H2 & _ & _ & _ & H3).
  - repeat (apply List.Forall_cons; [vm_compute; reflexivity|]). apply List.Forall_nil.
  - vm_compute. discriminate.
  - repeat (apply List.Forall_cons; [vm_compute; reflexivity|]). apply List.Forall_nil.
  - repeat split; vm_compute; first [discriminate | reflexivity].
  - vm_compute. reflexivity.
  - repeat split; vm_compute; reflexivity.
  - exists b1, b'. split; [exact H1|]. split; [exact H2|exact H3].
Defined.
