(* ===== verification/Blake2b.v ===== *)
(** * [hashlib.blake2b(text, digest_size=16)]

    Liquidation observations are recognised again by the unkeyed BLAKE2b digest
    of their fields.  This is RFC 7693 with 64-bit words kept reduced; a digest
    is its list of bytes. *)

From stdpp Require Import base tactics list strings.
From Stdlib Require Import ZArith NArith Lia Bool Ascii.
From S2P Require Import Prelude PyString Sha256.
Open Scope string_scope.
Local Open Scope N_scope.

Definition mask64 : N := 18446744073709551615.
Definition add64 (a b : N) : N := N.land (a + b) mask64.
Definition rotr64 (n x : N) : N := N.lor (N.shiftr x n) (N.land (N.shiftl x (64 - n)) mask64).

Definition blake_iv : list N :=
  [7640891576956012808; 13503953896175478587; 4354685564936845355; 11912009170470909681; 5840696475078001361; 11170449401992604703; 2270897969802886507; 6620516959819538809].

(** the message permutations of the ten distinct rounds *)
Definition blake_sigma : list (list nat) :=
  [[0; 1; 2; 3; 4; 5; 6; 7; 8; 9; 10; 11; 12; 13; 14; 15];
   [14; 10; 4; 8; 9; 15; 13; 6; 1; 12; 0; 2; 11; 7; 5; 3];
   [11; 8; 12; 0; 5; 2; 15; 13; 10; 14; 3; 6; 7; 1; 9; 4];
   [7; 9; 3; 1; 13; 12; 11; 14; 2; 6; 5; 10; 4; 0; 15; 8];
   [9; 0; 5; 7; 2; 4; 10; 15; 14; 1; 11; 12; 6; 8; 3; 13];
   [2; 12; 6; 10; 0; 11; 8; 3; 4; 13; 7; 5; 15; 14; 1; 9];
   [12; 5; 1; 15; 14; 13; 4; 10; 0; 7; 6; 3; 9; 2; 8; 11];
   [13; 11; 7; 14; 12; 1; 3; 9; 5; 0; 15; 4; 8; 6; 2; 10];
   [6; 15; 14; 9; 11; 3; 0; 8; 12; 2; 13; 7; 1; 4; 10; 5];
   [10; 2; 8; 4; 7; 6; 1; 5; 15; 11; 9; 14; 3; 12; 13; 0]]%nat.

(** the mixing function on four words of the state, addressed by position *)
Definition mix (v : list N) (abcd : nat * nat * nat * nat) (x y : N) : list N :=
  let '(a, b, c, d) := abcd in
  let va := add64 (add64 (nth a v 0) (nth b v 0)) x in
  let vd := rotr64 32 (N.lxor (nth d v 0) va) in
  let vc := add64 (nth c v 0) vd in
  let vb := rotr64 24 (N.lxor (nth b v 0) vc) in
  let va := add64 (add64 va vb) y in
  let vd := rotr64 16 (N.lxor vd va) in
  let vc := add64 vc vd in
  let vb := rotr64 63 (N.lxor vb vc) in
  <[a := va]> (<[b := vb]> (<[c := vc]> (<[d := vd]> v))).

(** the four columns, then the four diagonals *)
Definition mix_positions : list (nat * nat * nat * nat) :=
  [(0, 4, 8, 12); (1, 5, 9, 13); (2, 6, 10, 14); (3, 7, 11, 15);
   (0, 5, 10, 15); (1, 6, 11, 12); (2, 7, 8, 13); (3, 4, 9, 14)]%nat.

Fixpoint blake_mixes (m : list N) (positions : list (nat * nat * nat * nat)) (s : list nat) (v : list N) : list N :=
  match positions, s with
  | p :: positions', i :: j :: s' => blake_mixes m positions' s' (mix v p (nth i m 0) (nth j m 0))
  | _, _ => v
  end.

Definition blake_round (m : list N) (v : list N) (r : nat) : list N :=
  blake_mixes m mix_positions (nth (Nat.modulo r 10) blake_sigma []) v.

(** the compression of one block; [offset] counts the bytes hashed so far *)
Definition blake_compress (h m : list N) (offset : N) (final : bool) : list N :=
  let v := (h ++ blake_iv)%list in
  let v := <[12%nat := N.lxor (nth 12 v 0) (N.land offset mask64)]> v in
  let v := <[13%nat := N.lxor (nth 13 v 0) (N.shiftr offset 64)]> v in
  let v := if final then <[14%nat := N.lxor (nth 14 v 0) mask64]> v else v in
  let v := fold_left (blake_round m) (seq 0 12) v in
  zip_with N.lxor h (zip_with N.lxor (take 8 v) (drop 8 v)).

(** little-endian words of eight bytes *)
Fixpoint le_value (l : list N) : N := match l with [] => 0 | b :: rest => b + 256 * le_value rest end.

Fixpoint le_words (n : nat) (l : list N) : list N :=
  match n with O => [] | S k => le_value (take 8 l) :: le_words k (drop 8 l) end.

Fixpoint le_bytes (k : nat) (n : N) : list N :=
  match k with O => [] | S k' => (n mod 256) :: le_bytes k' (n / 256) end.

(** the last block holds the last 1 to 128 bytes, or none of an empty message *)
Fixpoint blake_blocks (fuel : nat) (bytes : list N) (h : list N) (offset : N) : list N :=
  match fuel with
  | O => h
  | S k =>
      if (length bytes <=? 128)%nat
      then blake_compress h (le_words 16 bytes) (offset + N.of_nat (length bytes)) true
      else blake_blocks k (drop 128 bytes) (blake_compress h (le_words 16 (take 128 bytes)) (offset + 128) false) (offset + 128)
  end.

(** [blake2b(text.encode("utf-8"), digest_size=16).digest()] for ASCII text *)
Definition blake2b_16 (text : string) : list N :=
  let bytes := bytes_of_string text in
  let h := <[0%nat := N.lxor (nth 0 blake_iv 0) 16842768]> blake_iv in
  let h := blake_blocks (S (length bytes)) bytes h 0 in
  take 16 (mbind (le_bytes 8) h).
#[global] Arguments blake2b_16 : simpl never.

Definition hex_of_bytes (l : list N) : string := fold_right (fun b acc => hex_word 2 b +:+ acc) "" l.

(** Digests of the reference implementation. *)
Example blake2b_empty : hex_of_bytes (blake2b_16 "") = "cae66941d9efbd404e4d88758ea67670".
Proof. vm_compute. reflexivity. Qed.

Example blake2b_abc : hex_of_bytes (blake2b_16 "abc") = "cf4ab791c62b8d2b2109c90275287816".
Proof. vm_compute. reflexivity. Qed.

Example blake2b_two_blocks : hex_of_bytes (blake2b_16 (string_repeat "x" 200)) = "a838c58b985551205df88cdbb16ec53d".
Proof. vm_compute. reflexivity. Qed.

Example blake2b_full_block : hex_of_bytes (blake2b_16 (string_repeat "y" 128)) = "ecaaf4a7e55c8dacadb2769cf8264a31".
Proof. vm_compute. reflexivity. Qed.
