(* ===== verification/MinuteBuckets.v ===== *)
(** * Minute buckets

    The dictionaries [_buckets] of src/app/microstructure/aggregator.py and
    liquidation_aggregator.py: one accumulator per minute, of which only the
    latest ones are retained.  Both aggregators share this file; it is generic in
    the accumulator, the event and the key of an event, and proves that a
    retained bucket is what replaying every accepted event of its minute gives. *)

From stdpp Require Import base tactics list sorting gmap sets.
From Stdlib Require Import ZArith Lia.

Definition minute_us : Z := 60000000.

(** [value.replace(second=0, microsecond=0)] of an instant in microseconds *)
Definition minute_start (t : Z) : Z := (t - t mod minute_us)%Z.

(** [_minute_range] *)
Definition minute_range (start : Z) (count : nat) : list Z := (fun i => start + i * minute_us)%Z <$> seqZ 0 (Z.of_nat count).

Section Buckets.
Context {B : Type}.

(** [sorted(self._buckets)] *)
Definition sorted_keys (m : gmap Z B) : list Z := merge_sort Z.le (map fst (map_to_list m)).

(** [_prune_buckets] *)
Definition prune_buckets (max_retained : nat) (m : gmap Z B) : gmap Z B :=
  if (size m <=? max_retained)%nat then m
  else foldr (fun start acc => delete start acc) m (take (size m - max_retained) (sorted_keys m)).

(** [[buckets[start] for start in sorted(buckets) if window_start <= start < window_end]] *)
Definition buckets_between (window_start window_end : Z) (m : gmap Z B) : list B :=
  omap (fun start => if (window_start <=? start)%Z && (start <? window_end)%Z then m !! start else None) (sorted_keys m).

Lemma sorted_keys_perm m : sorted_keys m ≡ₚ map fst (map_to_list m).
Proof. apply merge_sort_Permutation. Qed.

Lemma sorted_keys_sorted m : StronglySorted Z.le (sorted_keys m).
Proof. apply (StronglySorted_merge_sort Z.le). Qed.

Lemma elem_of_sorted_keys m k : k ∈ sorted_keys m <-> is_Some (m !! k).
Proof.
  rewrite sorted_keys_perm. split.
  - intros ([k' b] & -> & Hin)%list_elem_of_fmap. apply elem_of_map_to_list in Hin. by exists b.
  - intros [b Hb]. apply list_elem_of_fmap. exists (k, b). split; [done|]. by apply elem_of_map_to_list.
Qed.

Lemma sorted_keys_nodup m : NoDup (sorted_keys m).
Proof. rewrite sorted_keys_perm. apply NoDup_fst_map_to_list. Qed.

Lemma length_sorted_keys m : length (sorted_keys m) = size m.
Proof. rewrite sorted_keys_perm, length_map. apply length_map_to_list. Qed.

Lemma lookup_foldr_delete (l : list Z) (m : gmap Z B) k :
  foldr (fun start acc => delete start acc) m l !! k = if decide (k ∈ l) then None else m !! k.
Proof.
  induction l as [|x l IH]; cbn [foldr].
  - destruct (decide (k ∈ [])) as [Hin|]; [by apply not_elem_of_nil in Hin|done].
  - destruct (decide (k = x)) as [->|Hne].
    + rewrite lookup_delete_eq. destruct (decide (x ∈ x :: l)) as [|H]; [done|]. destruct H. apply list_elem_of_here.
    + rewrite lookup_delete_ne by done. rewrite IH.
      destruct (decide (k ∈ l)), (decide (k ∈ x :: l)) as [H'|H']; try done.
      * destruct H'. by apply list_elem_of_further.
      * by apply elem_of_cons in H' as [->|].
Qed.

(** ** Pruning *)

Definition dropped_keys (max_retained : nat) (m : gmap Z B) : list Z := take (size m - max_retained) (sorted_keys m).
Definition kept_keys (max_retained : nat) (m : gmap Z B) : list Z := drop (size m - max_retained) (sorted_keys m).

Lemma dropped_kept n m : dropped_keys n m ++ kept_keys n m = sorted_keys m.
Proof. apply take_drop. Qed.

Lemma lookup_prune n m k : prune_buckets n m !! k = if decide (k ∈ dropped_keys n m) then None else m !! k.
Proof.
  unfold prune_buckets. destruct (Nat.leb_spec (size m) n) as [Hle|Hgt].
  - assert (dropped_keys n m = []) as ->
      by (unfold dropped_keys; replace (size m - n)%nat with 0%nat by lia; apply take_0).
    destruct (decide (k ∈ [])) as [Hin|]; [by apply not_elem_of_nil in Hin|done].
  - apply lookup_foldr_delete.
Qed.

Lemma dom_prune n m : dom (prune_buckets n m) = list_to_set (C := gset Z) (kept_keys n m).
Proof.
  pose proof (sorted_keys_nodup m) as Hnd. rewrite <- (dropped_kept n m) in Hnd. apply NoDup_app in Hnd as (_ & Hdis & _).
  apply set_eq. intros k. rewrite elem_of_dom, lookup_prune, elem_of_list_to_set.
  destruct (decide (k ∈ dropped_keys n m)) as [Hd|Hd].
  - split; [by intros []|]. intros Hk. by destruct (Hdis k Hd).
  - rewrite <- elem_of_sorted_keys, <- (dropped_kept n m), elem_of_app. tauto.
Qed.

Lemma size_prune n m : size (prune_buckets n m) = Nat.min n (size m).
Proof.
  rewrite <- size_dom, dom_prune. pose proof (sorted_keys_nodup m) as Hnd. rewrite <- (dropped_kept n m) in Hnd.
  apply NoDup_app in Hnd as (_ & _ & Hnd). rewrite size_list_to_set by done.
  unfold kept_keys. rewrite length_drop, length_sorted_keys. lia.
Qed.

Lemma prune_sub n m k b : prune_buckets n m !! k = Some b -> m !! k = Some b.
Proof. rewrite lookup_prune. by destruct (decide _). Qed.

Lemma sorted_app_lt l1 l2 x y :
  StronglySorted Z.le (l1 ++ l2) -> NoDup (l1 ++ l2) -> x ∈ l1 -> y ∈ l2 -> (x < y)%Z.
Proof.
  intros Hs Hn Hx Hy. assert (x <> y) as Hne by (intros ->; apply NoDup_app in Hn as (_ & Hd & _); by apply (Hd y)).
  pose proof (StronglySorted_app_1_elem_of _ _ _ _ _ Hs Hx Hy). lia.
Qed.

(** What is dropped lies before everything that is kept. *)
Lemma prune_dropped n m k k' b :
  m !! k = Some b -> prune_buckets n m !! k = None -> is_Some (prune_buckets n m !! k') -> (k < k')%Z.
Proof.
  intros Hk Hn Hk'. rewrite lookup_prune, Hk in Hn. destruct (decide (k ∈ dropped_keys n m)) as [Hd|]; [|done].
  apply elem_of_dom in Hk'. rewrite dom_prune, elem_of_list_to_set in Hk'.
  pose proof (sorted_keys_sorted m) as Hs. pose proof (sorted_keys_nodup m) as Hnd. rewrite <- (dropped_kept n m) in Hs, Hnd.
  by eapply sorted_app_lt.
Qed.

Lemma prune_drops_one n m : (n < size m)%nat -> exists k b, m !! k = Some b /\ prune_buckets n m !! k = None.
Proof.
  intros Hlt. pose proof (length_sorted_keys m) as Hlen. destruct (sorted_keys m) as [|k l] eqn:Es; [cbn in Hlen; lia|].
  assert (k ∈ dropped_keys n m) as Hd.
  { unfold dropped_keys. rewrite Es. destruct (size m - n)%nat eqn:Ed; [lia|]. apply list_elem_of_here. }
  assert (is_Some (m !! k)) as [b Hb] by (apply elem_of_sorted_keys; rewrite Es; apply list_elem_of_here).
  exists k, b. split; [done|]. rewrite lookup_prune. by destruct (decide _).
Qed.

Lemma prune_dropped_size n m k b : m !! k = Some b -> prune_buckets n m !! k = None -> (n < size m)%nat.
Proof.
  intros Hk Hp. unfold prune_buckets in Hp. destruct (Nat.leb_spec (size m) n); [congruence|done].
Qed.
End Buckets.

(** ** Windows *)

Section Windows.
Context {B : Type}.
Implicit Types m : gmap Z B.

Definition in_window (lo hi k : Z) : Prop := (lo <= k < hi)%Z.
#[local] Instance in_window_dec lo hi k : Decision (in_window lo hi k) := _.

Lemma omap_filter_lookup lo hi m (l : list Z) :
  omap (fun start => if (lo <=? start)%Z && (start <? hi)%Z then m !! start else None) l
  = omap (fun start => m !! start) (filter (in_window lo hi) l).
Proof.
  induction l as [|k l IH]; [done|]. rewrite filter_cons. cbn [omap list_omap]. unfold in_window at 1.
  destruct (decide (lo <= k < hi)%Z) as [Hin|Hin].
  - rewrite (proj2 (Z.leb_le _ _)), (proj2 (Z.ltb_lt _ _)) by lia. cbn [andb omap list_omap]. by rewrite <- IH.
  - destruct (Z.leb_spec lo k), (Z.ltb_spec k hi); cbn [andb]; try exact IH. lia.
Qed.

Lemma omap_filter_some m (l : list Z) : omap (fun start => m !! start) (filter (fun k => is_Some (m !! k)) l) = omap (fun start => m !! start) l.
Proof.
  induction l as [|k l IH]; [done|]. rewrite filter_cons. cbn [omap list_omap].
  destruct (decide (is_Some (m !! k))) as [Hs|Hs].
  - cbn [omap list_omap]. by rewrite IH.
  - apply eq_None_not_Some in Hs. by rewrite Hs.
Qed.

Lemma filter_sorted (P : Z -> Prop) `{forall k, Decision (P k)} (l : list Z) :
  StronglySorted Z.le l -> StronglySorted Z.le (filter P l).
Proof.
  induction 1 as [|k l Hs IH Hk]; [constructor|]. rewrite filter_cons. destruct (decide (P k)); [|done].
  constructor; [done|]. apply Forall_forall. intros x [_ Hx]%list_elem_of_filter. rewrite Forall_forall in Hk. auto.
Qed.

Lemma minute_range_sorted lo n : StronglySorted Z.le (minute_range lo n).
Proof.
  unfold minute_range. generalize 0%Z. induction n as [|n IH]; intros i; [constructor|].
  rewrite Nat2Z.inj_succ, seqZ_cons by lia. cbn [fmap list_fmap]. constructor.
  - replace (Z.pred (Z.succ (Z.of_nat n))) with (Z.of_nat n) by lia. apply IH.
  - apply Forall_forall. intros k (j & -> & Hj)%list_elem_of_fmap. apply elem_of_seqZ in Hj. unfold minute_us. lia.
Qed.

Lemma minute_range_nodup lo n : NoDup (minute_range lo n).
Proof. apply NoDup_fmap_2; [|apply NoDup_seqZ]. intros i j. unfold minute_us. lia. Qed.

Lemma elem_of_minute_range lo n k :
  (lo mod minute_us = 0)%Z ->
  k ∈ minute_range lo n <-> in_window lo (lo + minute_us * Z.of_nat n) k /\ (k mod minute_us = 0)%Z.
Proof.
  intros Hlo. unfold minute_range, in_window, minute_us in *. rewrite list_elem_of_fmap. split.
  - intros (i & -> & Hi). apply elem_of_seqZ in Hi. rewrite Z.mod_add by lia. lia.
  - intros [Hw Hk]. exists ((k - lo) / 60000000)%Z. rewrite elem_of_seqZ.
    pose proof (Z.div_mod k 60000000 ltac:(lia)). pose proof (Z.div_mod lo 60000000 ltac:(lia)).
    assert (k - lo = (k / 60000000 - lo / 60000000) * 60000000)%Z as -> by lia. rewrite Z.div_mul by lia. lia.
Qed.

(** A window reads the buckets of its minutes in order. *)
Lemma buckets_between_range m lo n :
  (lo mod minute_us = 0)%Z -> (forall k, is_Some (m !! k) -> (k mod minute_us = 0)%Z) ->
  buckets_between lo (lo + minute_us * Z.of_nat n) m = omap (fun start => m !! start) (minute_range lo n).
Proof.
  intros Hlo Hkeys. unfold buckets_between. rewrite omap_filter_lookup, <- (omap_filter_some m (minute_range lo n)).
  f_equal. apply (StronglySorted_unique Z.le).
  - apply filter_sorted, sorted_keys_sorted.
  - apply filter_sorted, minute_range_sorted.
  - apply NoDup_Permutation; [apply NoDup_filter, sorted_keys_nodup|apply NoDup_filter, minute_range_nodup|].
    intros k. rewrite !list_elem_of_filter, elem_of_sorted_keys, elem_of_minute_range by done. naive_solver.
Qed.
End Windows.

(** ** Windows of whole minutes *)

Lemma minute_start_mod t : (minute_start t mod minute_us = 0)%Z.
Proof.
  unfold minute_start, minute_us. pose proof (Z.div_mod t 60000000 ltac:(lia)) as H.
  replace (t - t mod 60000000)%Z with ((t / 60000000) * 60000000)%Z by lia. by apply Z.mod_mul.
Qed.

Lemma minute_start_bounds t : (minute_start t <= t < minute_start t + minute_us)%Z.
Proof. unfold minute_start, minute_us. pose proof (Z.mod_pos_bound t 60000000 ltac:(lia)). lia. Qed.

Lemma minute_start_window t lo n :
  (lo mod minute_us = 0)%Z -> (lo <= minute_start t < lo + minute_us * n <-> lo <= t < lo + minute_us * n)%Z.
Proof.
  intros Hlo. pose proof (minute_start_bounds t). pose proof (minute_start_mod t) as Hm. unfold minute_us in *.
  pose proof (Z.div_mod (minute_start t) 60000000 ltac:(lia)). pose proof (Z.div_mod lo 60000000 ltac:(lia)). lia.
Qed.

Lemma minute_start_mono t u : (t <= u -> minute_start t <= minute_start u)%Z.
Proof.
  intros Hle. pose proof (minute_start_bounds t). pose proof (minute_start_bounds u).
  pose proof (minute_start_mod t). pose proof (minute_start_mod u). unfold minute_us in *.
  pose proof (Z.div_mod (minute_start t) 60000000 ltac:(lia)). pose proof (Z.div_mod (minute_start u) 60000000 ltac:(lia)). lia.
Qed.

(** the start of a window of whole minutes that ends with the minute of [as_of] *)
Definition window_start (n : nat) (as_of : Z) : Z := (minute_start as_of - minute_us * Z.of_nat n)%Z.

Lemma window_start_mod n as_of : (window_start n as_of mod minute_us = 0)%Z.
Proof.
  unfold window_start. pose proof (minute_start_mod as_of). unfold minute_us in *.
  pose proof (Z.div_mod (minute_start as_of) 60000000 ltac:(lia)).
  replace (minute_start as_of - 60000000 * Z.of_nat n)%Z with ((minute_start as_of / 60000000 - Z.of_nat n) * 60000000)%Z by lia.
  by apply Z.mod_mul.
Qed.

Lemma window_end_eq n as_of : minute_start as_of = (window_start n as_of + minute_us * Z.of_nat n)%Z.
Proof. unfold window_start. lia. Qed.

(** ** Replaying the accepted events *)

Lemma size_list_to_set_le (l : list Z) : (size (list_to_set (C := gset Z) l) <= length l)%nat.
Proof.
  induction l as [|x l IH]; cbn [list_to_set length]; [by rewrite size_empty|].
  rewrite size_union_alt, size_singleton.
  assert (size (list_to_set (C := gset Z) l ∖ {[x]}) <= size (list_to_set (C := gset Z) l))%nat; [|lia].
  apply subseteq_size. set_solver.
Qed.

Section Replay.
Context {E B : Type} (key : E -> Z) (fresh : Z -> B) (apply_event : B -> E -> B) (max_retained : nat).

(** the bucket update of [ingest] *)
Definition add_event (m : gmap Z B) (e : E) : gmap Z B :=
  let start := key e in
  let bucket := match m !! start with Some b => b | None => fresh start end in
  prune_buckets max_retained (<[start := apply_event bucket e]> m).

(** what the accepted events of one minute add up to *)
Definition replay_bucket (log : list E) (start : Z) : option B :=
  match filter (fun e => key e = start) log with
  | [] => None
  | events => Some (fold_left apply_event events (fresh start))
  end.

Lemma replay_none log start : replay_bucket log start = None <-> forall e, e ∈ log -> key e <> start.
Proof.
  unfold replay_bucket. destruct (filter _ log) as [|e l] eqn:Ef.
  - split; [|done]. intros _ e He Hk. assert (e ∈ filter (fun e => key e = start) log) as Hin
      by (by apply list_elem_of_filter). rewrite Ef in Hin. by apply not_elem_of_nil in Hin.
  - split; [done|]. intros Hn. assert (e ∈ filter (fun e => key e = start) log) as Hin by (rewrite Ef; apply list_elem_of_here).
    apply list_elem_of_filter in Hin as [Hk Hin]. by destruct (Hn e Hin).
Qed.

Lemma replay_bucket_snoc log e start :
  replay_bucket (log ++ [e]) start
  = if decide (key e = start)
    then Some (apply_event (match replay_bucket log start with Some b => b | None => fresh start end) e)
    else replay_bucket log start.
Proof.
  unfold replay_bucket. rewrite filter_app, filter_cons, filter_nil. destruct (decide (key e = start)) as [Hk|Hk].
  - destruct (filter _ log) as [|x l]; [done|]. cbn [app]. by rewrite app_comm_cons, fold_left_app.
  - by rewrite app_nil_r.
Qed.

(** The retained buckets are the replays of the latest minutes: nothing retained
    is partial, and a minute with accepted events is missing only when the full
    number of later minutes is retained. *)
Record retains (m : gmap Z B) (log : list E) : Prop := mkRetains {
  rt_exact : forall k b, m !! k = Some b -> replay_bucket log k = Some b;
  rt_missing : forall k, m !! k = None -> replay_bucket log k <> None ->
    size m = max_retained /\ forall k', is_Some (m !! k') -> (k < k')%Z;
  rt_size : (size m <= max_retained)%nat
}.

Lemma retains_empty : retains ∅ [].
Proof. split; [done|done|]. rewrite map_size_empty. lia. Qed.

Lemma add_event_retains m log e :
  (0 < max_retained)%nat -> retains m log -> retains (add_event m e) (log ++ [e]).
Proof.
  intros Hpos [Hex Hmiss Hsize]. unfold add_event. set (start := key e).
  set (bucket := match m !! start with Some b => b | None => fresh start end).
  set (m1 := <[start := apply_event bucket e]> m).
  assert (forall k b, k <> start -> m1 !! k = Some b -> m !! k = Some b) as Hother
    by (intros k b Hne Hk; unfold m1 in Hk; by rewrite lookup_insert_ne in Hk by done).
  assert (m !! start = None -> size m = max_retained -> is_Some (prune_buckets max_retained m1 !! start) ->
    exists d b, m !! d = Some b /\ (d < start)%Z) as Hdrop.
  { intros Hn Hs Hk. destruct (prune_drops_one max_retained m1) as (d & b & Hd & Hp).
    { unfold m1. rewrite map_size_insert_None by done. lia. }
    exists d, b. split; [|by eapply prune_dropped]. apply Hother; [|done]. intros ->. destruct Hk. congruence. }
  split.
  - intros k b Hk. apply prune_sub in Hk as Hk1. rewrite replay_bucket_snoc. destruct (decide (key e = k)) as [<-|Hne].
    + fold start in Hk, Hk1 |- *. unfold m1 in Hk1. rewrite lookup_insert_eq in Hk1. injection Hk1 as <-. f_equal. f_equal.
      unfold bucket. destruct (m !! start) as [b0|] eqn:Eb; [by rewrite (Hex _ _ Eb)|].
      destruct (replay_bucket log start) as [b0|] eqn:Er; [|done]. exfalso.
      destruct (Hmiss start Eb) as [Hs Hlt]; [congruence|]. destruct Hdrop as (d & b' & Hd & Hds); [done|done|by eexists|].
      specialize (Hlt d (ex_intro _ b' Hd)). lia.
    + apply Hex, Hother; [|done]. intros ->. by apply Hne.
  - intros k Hk Hr. destruct (m1 !! k) as [b|] eqn:Ek.
    + pose proof (prune_dropped_size _ _ _ _ Ek Hk). rewrite size_prune. split; [lia|]. intros k' Hk'. by eapply prune_dropped.
    + unfold m1 in Ek. apply lookup_insert_None in Ek as [Ek Hne]. rewrite replay_bucket_snoc, decide_False in Hr by done.
      destruct (Hmiss k Ek Hr) as [Hs Hlt]. rewrite size_prune. split.
      { assert (size m <= size m1)%nat; [|lia]. unfold m1. rewrite map_size_insert. destruct (m !! start); cbn; lia. }
      intros k' [b Hk']. destruct (decide (k' = start)) as [->|Hne'].
      * destruct (m !! start) as [b0|] eqn:Eb; [by apply Hlt; rewrite Eb|].
        destruct Hdrop as (d & b' & Hd & Hds); [done|done|by eexists|]. specialize (Hlt d (ex_intro _ b' Hd)). lia.
      * apply Hlt. exists b. apply Hother; [done|]. by eapply prune_sub.
  - rewrite size_prune. lia.
Qed.

(** Within any run of [max_retained] minutes up to the latest event, nothing is
    missing. *)
Lemma retains_window m log last_key k :
  (0 < max_retained)%nat -> retains m log -> (forall e, e ∈ log -> (key e <= last_key)%Z /\ (key e mod minute_us = 0)%Z) ->
  (k mod minute_us = 0)%Z -> (last_key - minute_us * Z.of_nat max_retained < k)%Z -> (last_key mod minute_us = 0)%Z ->
  m !! k = replay_bucket log k.
Proof.
  intros Hpos [Hex Hmiss _] Hkeys Hk Hlo Hlast. destruct (m !! k) as [b|] eqn:Ek; [by rewrite (Hex _ _ Ek)|].
  destruct (replay_bucket log k) as [b|] eqn:Er; [|done]. exfalso.
  destruct (Hmiss k Ek) as [Hsize Hlt]; [congruence|].
  set (span := seqZ 1 ((last_key - k) / minute_us)).
  assert (dom m ⊆ list_to_set (C := gset Z) ((fun i => k + i * minute_us)%Z <$> span)) as Hsub.
  { intros k' [b' Hb']%elem_of_dom. rewrite elem_of_list_to_set, list_elem_of_fmap.
    specialize (Hlt k' (ex_intro _ b' Hb')).
    assert (exists e, e ∈ log /\ key e = k') as (e & He & <-).
    { apply Hex in Hb'. unfold replay_bucket in Hb'. destruct (filter _ log) as [|e l] eqn:Ef; [done|].
      assert (e ∈ filter (fun e => key e = k') log) as Hin by (rewrite Ef; apply list_elem_of_here).
      apply list_elem_of_filter in Hin as [He Hin]. by exists e. }
    destruct (Hkeys e He) as [Hle Hmod]. unfold minute_us in *.
    exists ((key e - k) / 60000000)%Z. unfold span. rewrite elem_of_seqZ. split.
    - pose proof (Z.div_mod (key e) 60000000 ltac:(lia)). pose proof (Z.div_mod k 60000000 ltac:(lia)).
      assert (key e - k = (key e / 60000000 - k / 60000000) * 60000000)%Z as -> by lia. rewrite Z.div_mul by lia. lia.
    - pose proof (Z.div_mod (key e) 60000000 ltac:(lia)). pose proof (Z.div_mod k 60000000 ltac:(lia)).
      assert (key e - k = (key e / 60000000 - k / 60000000) * 60000000)%Z as Hd by lia. rewrite Hd, Z.div_mul by lia.
      assert (key e / 60000000 - k / 60000000 <= (last_key - k) / 60000000)%Z; [|lia].
      apply Z.div_le_lower_bound; lia. }
  apply subseteq_size in Hsub. rewrite size_dom, Hsize in Hsub.
  assert (size (list_to_set (C := gset Z) ((fun i => k + i * minute_us)%Z <$> span)) <= length span)%nat as Hle
    by (rewrite <- (length_fmap (fun i => k + i * minute_us)%Z span); apply size_list_to_set_le).
  pose proof (Nat.le_trans _ _ _ Hsub Hle) as Hn. unfold span in Hn. rewrite length_seqZ in Hn.
  assert ((last_key - k) / minute_us < Z.of_nat max_retained)%Z as Hd; [|lia].
  apply Z.div_lt_upper_bound; unfold minute_us in *; lia.
Qed.

(** Events at most [max_retained - 1] whole minutes before [as_of] are retained. *)
Lemma retained_minute (time : E -> Z) m log as_of k :
  (0 < max_retained)%nat -> retains m log -> (forall e, e ∈ log -> key e = minute_start (time e) /\ (time e <= as_of)%Z) ->
  (k mod minute_us = 0)%Z -> (window_start (pred max_retained) as_of <= k)%Z -> m !! k = replay_bucket log k.
Proof.
  intros Hpos Hr Htimes Hk Hlo. eapply (retains_window m log (minute_start as_of)); [done|done| |done| |apply minute_start_mod].
  - intros e He. destruct (Htimes e He) as [-> Hle]. split; [by apply minute_start_mono|apply minute_start_mod].
  - unfold window_start, minute_us in *. lia.
Qed.

Lemma replay_keys (time : E -> Z) log k b :
  (forall e, e ∈ log -> key e = minute_start (time e)) -> replay_bucket log k = Some b -> (k mod minute_us = 0)%Z.
Proof.
  intros Hkeys Hb. destruct (decide (Exists (fun e => key e = k) log)) as [He|He].
  - apply Exists_exists in He as (e & Hin & <-). rewrite (Hkeys e Hin). apply minute_start_mod.
  - assert (replay_bucket log k = None) as Hn; [|congruence]. apply replay_none. intros e Hin Heq. apply He, Exists_exists. eauto.
Qed.

(** A window that starts there reads the replays of its minutes. *)
Lemma retained_window (time : E -> Z) m log as_of lo n :
  (0 < max_retained)%nat -> retains m log -> (forall e, e ∈ log -> key e = minute_start (time e) /\ (time e <= as_of)%Z) ->
  (lo mod minute_us = 0)%Z -> (window_start (pred max_retained) as_of <= lo)%Z ->
  buckets_between lo (lo + minute_us * Z.of_nat n) m = omap (replay_bucket log) (minute_range lo n).
Proof.
  intros Hpos Hr Htimes Hmod Hlo. rewrite buckets_between_range; [|done|].
  - assert (forall k, k ∈ minute_range lo n -> m !! k = replay_bucket log k) as Hk.
    { intros k [[Hle _] Hkm]%elem_of_minute_range; [|done]. eapply retained_minute; [done|done|exact Htimes|done|lia]. }
    revert Hk. generalize (minute_range lo n). intros l Hk.
    induction l as [|k l IH]; [done|]. cbn [omap list_omap]. rewrite Hk by apply list_elem_of_here.
    destruct (replay_bucket log k); [f_equal|]; apply IH; intros; apply Hk; by apply list_elem_of_further.
  - intros k [b Hb%(rt_exact _ _ Hr)]. eapply replay_keys; [|exact Hb]. intros e He. by apply Htimes.
Qed.

(** the same buckets when nothing is ever dropped *)
Definition add_unpruned (m : gmap Z B) (e : E) : gmap Z B :=
  <[key e := apply_event (match m !! key e with Some b => b | None => fresh (key e) end) e]> m.

Definition unpruned (log : list E) : gmap Z B := fold_left add_unpruned log ∅.

Lemma lookup_unpruned log k : unpruned log !! k = replay_bucket log k.
Proof.
  revert k. induction log as [|e log IH] using rev_ind; intros k; [done|].
  unfold unpruned. rewrite fold_left_app. cbn [fold_left]. fold (unpruned log). rewrite replay_bucket_snoc. unfold add_unpruned.
  destruct (decide (key e = k)) as [<-|Hne]; [by rewrite lookup_insert_eq, IH|by rewrite lookup_insert_ne].
Qed.

Lemma unpruned_window (time : E -> Z) log lo n :
  (forall e, e ∈ log -> key e = minute_start (time e)) -> (lo mod minute_us = 0)%Z ->
  buckets_between lo (lo + minute_us * Z.of_nat n) (unpruned log) = omap (replay_bucket log) (minute_range lo n).
Proof.
  intros Hkeys Hmod. rewrite buckets_between_range; [|done|].
  - induction (minute_range lo n) as [|k l IH]; [done|]. cbn [omap list_omap]. rewrite lookup_unpruned.
    destruct (replay_bucket log k); by rewrite IH.
  - intros k [b Hb]. rewrite lookup_unpruned in Hb. by eapply replay_keys.
Qed.

(** the events of a window, by key or by time *)
Lemma filter_minutes (time : E -> Z) (log : list E) lo n :
  (forall e, e ∈ log -> key e = minute_start (time e)) -> (lo mod minute_us = 0)%Z ->
  filter (fun e => key e ∈ minute_range lo n) log = filter (fun e => lo <= time e < lo + minute_us * Z.of_nat n)%Z log.
Proof.
  intros Hkeys Hlo. induction log as [|e log IH]; [done|]. rewrite !filter_cons, IH by (intros; apply Hkeys; by apply list_elem_of_further).
  assert (key e ∈ minute_range lo n <-> (lo <= time e < lo + minute_us * Z.of_nat n)%Z) as Hiff.
  { rewrite elem_of_minute_range by done. unfold in_window. rewrite Hkeys by apply list_elem_of_here.
    rewrite minute_start_window by done. pose proof (minute_start_mod (time e)). tauto. }
  destruct (decide (key e ∈ minute_range lo n)), (decide (lo <= time e < lo + minute_us * Z.of_nat n)%Z); try done; tauto.
Qed.

(** A counter that every event raises by a fixed amount adds up over a window. *)
Section Counting.
Context (count : B -> Z) (step : E -> Z).
Context (count_fresh : forall k, count (fresh k) = 0%Z) (count_apply : forall b e, count (apply_event b e) = (count b + step e)%Z).

Fixpoint steps_total (l : list E) : Z := match l with [] => 0%Z | e :: rest => (step e + steps_total rest)%Z end.

Lemma count_fold (l : list E) b : count (fold_left apply_event l b) = (count b + steps_total l)%Z.
Proof.
  revert b. induction l as [|e l IH]; intros b; cbn [fold_left steps_total]; [lia|]. rewrite IH, count_apply. lia.
Qed.

Lemma replay_counter (log : list E) k :
  from_option count 0%Z (replay_bucket log k) = steps_total (filter (fun e => key e = k) log).
Proof.
  unfold replay_bucket. destruct (filter _ log) as [|e l]; [done|]. cbn [from_option]. by rewrite count_fold, count_fresh.
Qed.

Lemma steps_total_filter k ks (log : list E) :
  k ∉ ks ->
  steps_total (filter (fun e => key e ∈ k :: ks) log)
  = (steps_total (filter (fun e => key e = k) log) + steps_total (filter (fun e => key e ∈ ks) log))%Z.
Proof.
  intros Hk. induction log as [|e log IH]; [done|]. rewrite !filter_cons.
  destruct (decide (key e ∈ k :: ks)) as [H|H], (decide (key e = k)) as [H1|H1],
    (decide (key e ∈ ks)) as [H2|H2]; cbn [steps_total]; rewrite ?IH; try lia; exfalso; set_solver.
Qed.

Lemma steps_total_keys (log : list E) ks :
  NoDup ks ->
  foldr Z.add 0%Z (count <$> omap (replay_bucket log) ks) = steps_total (filter (fun e => key e ∈ ks) log).
Proof.
  induction 1 as [|k ks Hk Hnd IH].
  - assert (filter (fun e => key e ∈ []) log = []) as ->; [|done].
    induction log as [|e log IH]; [done|]. rewrite filter_cons_False by apply not_elem_of_nil. exact IH.
  - rewrite steps_total_filter, <- IH, <- replay_counter by done. cbn [omap list_omap].
    by destruct (replay_bucket log k).
Qed.
End Counting.
End Replay.

Lemma steps_total_ones {E} (l : list E) : steps_total (fun _ => 1%Z) l = Z.of_nat (length l).
Proof. induction l as [|e l IH]; cbn [steps_total length]; lia. Qed.

(** [sum] of integers *)
Definition zsum (values : list Z) : Z := fold_left Z.add values 0%Z.

Lemma zsum_foldr l : zsum l = foldr Z.add 0%Z l.
Proof.
  unfold zsum. assert (forall z, fold_left Z.add l z = (z + foldr Z.add 0 l)%Z) as H; [|by rewrite H].
  induction l as [|y l IH]; intros z; cbn [fold_left foldr]; [lia|]. rewrite IH. lia.
Qed.
