(* ===== verification/TradeFlow.v ===== *)
(** * Aggregate trades and trade flow (src/app/microstructure/agg_trade.py,
    aggregator.py and models.py)

    One symbol's aggressive trade flow from the venue's aggregate trades: parsing
    of a payload, the accumulator of one minute, the aggregator with its
    coverage bookkeeping, and the published windows.

    Times are instants in microseconds since the Unix epoch (the values
    [normalize_utc_timestamp] returns), the staleness threshold is a number of
    microseconds, and the age of a snapshot is kept exact, before its display
    rounding. *)

From stdpp Require Import base tactics list strings gmap.
From Stdlib Require Import ZArith NArith Lia Bool Ascii.
From S2P Require Import Prelude PyString PyDecimal PyTime PyJson JsonText MinuteBuckets OrderBook.
Open Scope string_scope.
Open Scope py_scope.

(** ** Payloads *)

Definition AggTradePayloadError (msg : string) : exn := ValueError ("AggTradePayloadError:" +:+ msg).
Definition WrongContractTypeError (msg : string) : exn := ValueError ("WrongContractTypeError:" +:+ msg).

Definition UM_STREAM_TYPE : Z := 1.
Definition CM_STREAM_TYPE : Z := 2.

Record BinanceAggTrade := mkAggTrade {
  at_symbol : string;
  at_aggregate_trade_id : Z;
  at_price : dec;
  at_quantity : dec;
  at_normal_quantity : option dec;
  at_first_trade_id : Z;
  at_last_trade_id : Z;
  at_event_time : Z;
  at_trade_time : Z;
  at_buyer_is_maker : bool;
  at_stream_type : option Z
}.

(** [aggressive_side == "BUY"]: the buyer is the taker *)
Definition aggressive_buy (t : BinanceAggTrade) : bool := negb (at_buyer_is_maker t).

Definition trade_quote_notional (t : BinanceAggTrade) : dec := dmul (at_price t) (at_quantity t).

Definition normal_quote_notional (t : BinanceAggTrade) : option dec :=
  option_map (dmul (at_price t)) (at_normal_quantity t).

Definition underlying_trade_count (t : BinanceAggTrade) : Z := (at_last_trade_id t - at_first_trade_id t + 1)%Z.

(** A payload as it arrives: JSON text, also the text of UTF-8 bytes, or a decoded
    object.  Other bytes and other values, which are refused, are left out. *)
Inductive raw_payload :=
| RawText (text : string)
| RawObject (fields : list (string * json)).

(** [key not in payload or payload[key] is None or payload[key] == ""] *)
Definition blank_field (v : json) : bool :=
  match v with JNull => true | JStr s => String.eqb s "" | _ => false end.

(** [_decimal] *)
Definition at_decimal (payload : list (string * json)) (key : string) (positive : bool) : result dec :=
  let value := json_get key payload in
  match value with
  | JNull | JBool _ => Raise (AggTradePayloadError ("aggTrade " +:+ key +:+ " is missing"))
  | _ =>
      match json_number_text value with
      | None => Raise (AggTradePayloadError ("aggTrade " +:+ key +:+ " is not numeric"))
      | Some text =>
          match parse_decimal text with
          | None => Raise (AggTradePayloadError ("aggTrade " +:+ key +:+ " is not numeric"))
          | Some (Finite d) =>
              if positive && dleb d dzero
              then Raise (AggTradePayloadError ("aggTrade " +:+ key +:+ " must be positive and finite"))
              else Ok d
          | Some _ => Raise (AggTradePayloadError ("aggTrade " +:+ key +:+ " must be "
              +:+ (if positive then "positive and finite" else "finite")))
          end
      end
  end.

(** [_optional_decimal] *)
Definition at_optional_decimal (payload : list (string * json)) (key : string) : result (option dec) :=
  if blank_field (json_get key payload) then Ok None
  else let! d := at_decimal payload key false in Ok (Some d).

(** [_int] *)
Definition at_int (payload : list (string * json)) (key : string) : result Z :=
  let not_int := AggTradePayloadError ("aggTrade " +:+ key +:+ " must be an integer") in
  let! normalized := match json_get key payload with
                     | JBool _ => Raise not_int
                     | value => match json_int value with
                                | Ok z => Ok z
                                | Raise (TypeError _) => Raise not_int
                                | Raise e => match value_error_text e with
                                             | Some _ => Raise not_int
                                             | None => Raise e
                                             end
                                end
                     end in
  if (normalized <? 0)%Z then Raise (AggTradePayloadError ("aggTrade " +:+ key +:+ " must not be negative"))
  else Ok normalized.

(** [_optional_int] *)
Definition at_optional_int (payload : list (string * json)) (key : string) : result (option Z) :=
  if blank_field (json_get key payload) then Ok None
  else let! z := at_int payload key in Ok (Some z).

(** [_milliseconds_datetime] *)
Definition at_milliseconds (payload : list (string * json)) (key : string) : result Z :=
  let! value := at_int payload key in
  if (value <? max_epoch_ms)%Z then Ok (fromtimestamp_us value)
  else Raise (AggTradePayloadError ("aggTrade " +:+ key +:+ " is outside the timestamp range")).

Section Parse.
Context `{JsonErrors}.

(** [_mapping_payload] *)
Definition at_mapping_payload (raw : raw_payload) : result (list (string * json)) :=
  match raw with
  | RawObject fields => Ok fields
  | RawText text =>
      match loads text with
      | Ok (JObj fields) => Ok fields
      | Ok _ => Raise (AggTradePayloadError "aggTrade JSON payload must be an object")
      | Raise (JSONDecodeError _) => Raise (AggTradePayloadError "aggTrade payload is malformed JSON")
      | Raise e => Raise e
      end
  end.

(** the checks of [st] *)
Definition check_stream_type (stream_type : option Z) (allow_legacy_missing : bool) : result unit :=
  match stream_type with
  | None => if allow_legacy_missing then Ok tt
            else Raise (AggTradePayloadError "aggTrade payload is missing required UM stream type st=1")
  | Some st =>
      if (st =? CM_STREAM_TYPE)%Z
      then Raise (WrongContractTypeError "COIN-M aggTrade payload st=2 is not valid for CCI UM flow")
      else if negb (st =? UM_STREAM_TYPE)%Z
      then Raise (WrongContractTypeError ("unsupported aggTrade stream type st=" +:+ string_of_Z st))
      else Ok tt
  end.

(** the checks of [nq] *)
Definition check_normal_quantity (normal_quantity : option dec) (quantity : dec) : result unit :=
  match normal_quantity with
  | None => Ok tt
  | Some nq =>
      if dltb nq dzero then Raise (AggTradePayloadError "aggTrade nq must not be negative")
      else if dltb quantity nq then Raise (AggTradePayloadError "aggTrade nq must not exceed q")
      else Ok tt
  end.

Definition parse_binance_agg_trade (raw : raw_payload) (allow_legacy_missing_stream_type : bool)
    : result BinanceAggTrade :=
  let! outer := at_mapping_payload raw in
  let payload := match json_get "data" outer with JObj inner => inner | _ => outer end in
  let is_trade := match json_get "e" payload with JStr t => String.eqb t "aggTrade" | _ => false end in
  if negb is_trade then Raise (AggTradePayloadError "payload is not an aggTrade event") else
  let! stream_type := at_optional_int payload "st" in
  let! _ := check_stream_type stream_type allow_legacy_missing_stream_type in
  let! symbol := match exact_stream_symbol (json_get "s" payload) with
                 | Raise (ValueError _) => Raise (AggTradePayloadError "aggTrade literal contract identity invalid")
                 | r => r
                 end in
  let! price := at_decimal payload "p" true in
  let! quantity := at_decimal payload "q" true in
  let! normal_quantity := at_optional_decimal payload "nq" in
  let! _ := check_normal_quantity normal_quantity quantity in
  let! first_trade_id := at_int payload "f" in
  let! last_trade_id := at_int payload "l" in
  if (last_trade_id <? first_trade_id)%Z
  then Raise (AggTradePayloadError "aggTrade last trade ID precedes first trade ID") else
  match json_get "m" payload with
  | JBool buyer_is_maker =>
      let! aggregate_trade_id := at_int payload "a" in
      let! event_time := at_milliseconds payload "E" in
      let! trade_time := at_milliseconds payload "T" in
      Ok {| at_symbol := symbol; at_aggregate_trade_id := aggregate_trade_id; at_price := price;
            at_quantity := quantity; at_normal_quantity := normal_quantity;
            at_first_trade_id := first_trade_id; at_last_trade_id := last_trade_id;
            at_event_time := event_time; at_trade_time := trade_time;
            at_buyer_is_maker := buyer_is_maker; at_stream_type := stream_type |}
  | _ => Raise (AggTradePayloadError "aggTrade m must be a boolean")
  end.
End Parse.

(** ** One minute *)

Record MinuteFlowBucket := mkFlowBucket {
  fb_bucket_start : Z;
  fb_aggressive_buy_base : dec;
  fb_aggressive_sell_base : dec;
  fb_aggressive_buy_quote : dec;
  fb_aggressive_sell_quote : dec;
  fb_normal_quote_notional : dec;
  fb_normal_quantity_missing_events : Z;
  fb_aggregate_event_count : Z;
  fb_underlying_trade_count : Z;
  fb_first_aggregate_trade_id : option Z;
  fb_last_aggregate_trade_id : option Z;
  fb_first_trade_time : option Z;
  fb_last_trade_time : option Z;
  fb_first_price : option dec;
  fb_last_price : option dec;
  fb_rpi_event_count : Z
}.
#[export] Instance MinuteFlowBucket_eta : RecordEta MinuteFlowBucket := fun b =>
  mkFlowBucket (fb_bucket_start b) (fb_aggressive_buy_base b) (fb_aggressive_sell_base b)
    (fb_aggressive_buy_quote b) (fb_aggressive_sell_quote b) (fb_normal_quote_notional b)
    (fb_normal_quantity_missing_events b) (fb_aggregate_event_count b) (fb_underlying_trade_count b)
    (fb_first_aggregate_trade_id b) (fb_last_aggregate_trade_id b) (fb_first_trade_time b)
    (fb_last_trade_time b) (fb_first_price b) (fb_last_price b) (fb_rpi_event_count b).

(** [MinuteFlowBucket(bucket_start=...)] *)
Definition new_flow_bucket (start : Z) : MinuteFlowBucket :=
  mkFlowBucket start dzero dzero dzero dzero dzero 0 0 0 None None None None None None 0.

Definition delta_quote (b : MinuteFlowBucket) : dec := dsub (fb_aggressive_buy_quote b) (fb_aggressive_sell_quote b).

(** [event.normal_quantity is not None and event.normal_quantity != event.quantity] *)
Definition is_rpi (event : BinanceAggTrade) : bool :=
  match at_normal_quantity event with Some nq => negb (deqb nq (at_quantity event)) | None => false end.

(** [MinuteFlowBucket.apply] *)
Definition apply_trade (b : MinuteFlowBucket) (event : BinanceAggTrade) : MinuteFlowBucket :=
  let notional := trade_quote_notional event in
  let b := if aggressive_buy event
           then b <| fb_aggressive_buy_base := dadd (fb_aggressive_buy_base b) (at_quantity event) |>
                  <| fb_aggressive_buy_quote := dadd (fb_aggressive_buy_quote b) notional |>
           else b <| fb_aggressive_sell_base := dadd (fb_aggressive_sell_base b) (at_quantity event) |>
                  <| fb_aggressive_sell_quote := dadd (fb_aggressive_sell_quote b) notional |> in
  let b := match normal_quote_notional event with
           | None => b <| fb_normal_quantity_missing_events := (fb_normal_quantity_missing_events b + 1)%Z |>
           | Some normal =>
               b <| fb_normal_quote_notional := dadd (fb_normal_quote_notional b) normal |>
                 <| fb_rpi_event_count := (fb_rpi_event_count b + if is_rpi event then 1 else 0)%Z |>
           end in
  let b := b <| fb_aggregate_event_count := (fb_aggregate_event_count b + 1)%Z |>
             <| fb_underlying_trade_count := (fb_underlying_trade_count b + underlying_trade_count event)%Z |> in
  let b := match fb_first_aggregate_trade_id b with
           | None => b <| fb_first_aggregate_trade_id := Some (at_aggregate_trade_id event) |>
                       <| fb_first_trade_time := Some (at_trade_time event) |>
                       <| fb_first_price := Some (at_price event) |>
           | Some _ => b
           end in
  b <| fb_last_aggregate_trade_id := Some (at_aggregate_trade_id event) |>
    <| fb_last_trade_time := Some (at_trade_time event) |>
    <| fb_last_price := Some (at_price event) |>.

(** ** The aggregator *)

Definition FLOW_WINDOWS_MINUTES : list nat := [1; 5; 15]%nat.
Definition MAX_RETAINED_MINUTE_BUCKETS : Z := 16.

Record SymbolFlowAggregator := mkFlow {
  fl_symbol : string;
  fl_stale_after : Z;
  fl_max_retained_buckets : nat;
  fl_buckets : gmap Z MinuteFlowBucket;
  fl_connected : bool;
  fl_coverage_start : option Z;
  fl_coverage_reason : string;
  fl_last_aggregate_trade_id : option Z;
  fl_last_trade_time : option Z;
  fl_last_event_time : option Z;
  fl_accepted_event_count : Z;
  fl_duplicate_event_count : Z;
  fl_out_of_order_event_count : Z;
  fl_gap_count : Z;
  fl_reconnect_count : Z;
  fl_rpi_event_count : Z
}.
#[export] Instance SymbolFlowAggregator_eta : RecordEta SymbolFlowAggregator := fun a =>
  mkFlow (fl_symbol a) (fl_stale_after a) (fl_max_retained_buckets a) (fl_buckets a) (fl_connected a)
    (fl_coverage_start a) (fl_coverage_reason a) (fl_last_aggregate_trade_id a) (fl_last_trade_time a)
    (fl_last_event_time a) (fl_accepted_event_count a) (fl_duplicate_event_count a)
    (fl_out_of_order_event_count a) (fl_gap_count a) (fl_reconnect_count a) (fl_rpi_event_count a).

(** [SymbolFlowAggregator.__init__] *)
Definition new_flow (symbol : string) (stale_after max_retained_buckets : Z) : result SymbolFlowAggregator :=
  let normalized := py_upper (py_strip symbol) in
  if String.eqb normalized "" then Raise (ValueError "flow symbol must not be blank")
  else if (stale_after <=? 0)%Z then Raise (ValueError "flow stale threshold must be greater than zero")
  else if (max_retained_buckets <? MAX_RETAINED_MINUTE_BUCKETS)%Z
  then Raise (ValueError "max_retained_buckets must be at least 16")
  else Ok {| fl_symbol := normalized; fl_stale_after := stale_after;
             fl_max_retained_buckets := Z.to_nat max_retained_buckets; fl_buckets := ∅;
             fl_connected := false; fl_coverage_start := None;
             fl_coverage_reason := "insufficient_window_coverage"; fl_last_aggregate_trade_id := None;
             fl_last_trade_time := None; fl_last_event_time := None; fl_accepted_event_count := 0;
             fl_duplicate_event_count := 0; fl_out_of_order_event_count := 0; fl_gap_count := 0;
             fl_reconnect_count := 0; fl_rpi_event_count := 0 |}.

(** [mark_connected] *)
Definition flow_connected (at_ : Z) (reconnect : bool) (a : SymbolFlowAggregator) : SymbolFlowAggregator :=
  let a := if reconnect
           then a <| fl_reconnect_count := (fl_reconnect_count a + 1)%Z |>
                  <| fl_coverage_reason := "connection_reconnect_in_window" |>
           else match fl_coverage_start a with
                | None => a <| fl_coverage_reason := "insufficient_window_coverage" |>
                | Some _ => a
                end in
  a <| fl_coverage_start := Some at_ |> <| fl_connected := true |>.

(** [mark_disconnected] *)
Definition flow_disconnected (a : SymbolFlowAggregator) : SymbolFlowAggregator :=
  let a := if fl_connected a then a <| fl_gap_count := (fl_gap_count a + 1)%Z |> else a in
  a <| fl_connected := false |> <| fl_coverage_start := None |>
    <| fl_coverage_reason := "connection_gap_in_window" |>.

(** [_mark_uncertain_coverage] *)
Definition mark_uncertain_coverage (at_ : Z) (reason : string) (a : SymbolFlowAggregator) : SymbolFlowAggregator :=
  a <| fl_coverage_start := Some at_ |> <| fl_coverage_reason := reason |>.

Definition trade_minute (event : BinanceAggTrade) : Z := minute_start (at_trade_time event).

(** the part of [ingest] after its guards *)
Definition accept_trade (event : BinanceAggTrade) (a : SymbolFlowAggregator) : SymbolFlowAggregator :=
  a <| fl_buckets := add_event trade_minute new_flow_bucket apply_trade (fl_max_retained_buckets a) (fl_buckets a) event |>
    <| fl_last_aggregate_trade_id := Some (at_aggregate_trade_id event) |>
    <| fl_last_trade_time := Some (at_trade_time event) |>
    <| fl_last_event_time := Some (at_event_time event) |>
    <| fl_accepted_event_count := (fl_accepted_event_count a + 1)%Z |>
    <| fl_rpi_event_count := (fl_rpi_event_count a + if is_rpi event then 1 else 0)%Z |>.

(** [ingest] *)
Definition flow_ingest (event : BinanceAggTrade) (a : SymbolFlowAggregator) : result (bool * SymbolFlowAggregator) :=
  if negb (String.eqb (at_symbol event) (fl_symbol a))
  then Raise (ValueError ("aggTrade symbol " +:+ at_symbol event +:+ " does not match aggregator " +:+ fl_symbol a))
  else
  let id := at_aggregate_trade_id event in
  match fl_last_aggregate_trade_id a with
  | Some previous =>
      if (id <=? previous)%Z then
        Ok (false, if (id =? previous)%Z
                   then a <| fl_duplicate_event_count := (fl_duplicate_event_count a + 1)%Z |>
                   else a <| fl_out_of_order_event_count := (fl_out_of_order_event_count a + 1)%Z |>)
      else
      match fl_last_trade_time a with
      | Some last =>
          if (at_trade_time event <? last)%Z
          then Ok (false, mark_uncertain_coverage last "trade_time_regression_in_window"
                            (a <| fl_out_of_order_event_count := (fl_out_of_order_event_count a + 1)%Z |>))
          else
          Ok (true, accept_trade event
            (if (previous + 1 <? id)%Z
             then mark_uncertain_coverage (at_trade_time event) "aggregate_trade_id_gap_in_window"
                    (a <| fl_gap_count := (fl_gap_count a + 1)%Z |>)
             else a))
      | None =>
          Ok (true, accept_trade event
            (if (previous + 1 <? id)%Z
             then mark_uncertain_coverage (at_trade_time event) "aggregate_trade_id_gap_in_window"
                    (a <| fl_gap_count := (fl_gap_count a + 1)%Z |>)
             else a))
      end
  | None =>
      match fl_last_trade_time a with
      | Some last =>
          if (at_trade_time event <? last)%Z
          then Ok (false, mark_uncertain_coverage last "trade_time_regression_in_window"
                            (a <| fl_out_of_order_event_count := (fl_out_of_order_event_count a + 1)%Z |>))
          else Ok (true, accept_trade event a)
      | None => Ok (true, accept_trade event a)
      end
  end.
