(* ===== verification/FlowSnapshot.v ===== *)
(** * Published trade-flow windows (src/app/microstructure/aggregator.py and
    models.py)

    What a [SymbolFlowAggregator] publishes at an instant: the three windows with
    their sums, cumulative delta and slope, the status of the whole view, and
    the research contexts derived from a verified one.

    [(x - mean_x) ** 2] is written as a product: the paths have 2, 6 or 16
    points, so the deviations are halves of small integers and both are exact. *)

From stdpp Require Import base tactics list strings gmap.
From Stdlib Require Import ZArith NArith Lia Bool Ascii.
From S2P Require Import Prelude PyString PyDecimal PyTime PyJson JsonText MinuteBuckets OrderBook TradeFlow.
Open Scope string_scope.
Open Scope py_scope.

Inductive PriceCvdAlignment : Type :=
| ALIGNED_UP | ALIGNED_DOWN | PRICE_UP_CVD_DOWN | PRICE_DOWN_CVD_UP | MIXED_FLAT.

Definition alignment_value (a : PriceCvdAlignment) : string :=
  match a with
  | ALIGNED_UP => "ALIGNED_UP"
  | ALIGNED_DOWN => "ALIGNED_DOWN"
  | PRICE_UP_CVD_DOWN => "PRICE_UP_CVD_DOWN"
  | PRICE_DOWN_CVD_UP => "PRICE_DOWN_CVD_UP"
  | MIXED_FLAT => "MIXED_FLAT"
  end.

(** The figures of a window; a window without events has none of them. *)
Record FlowFigures := mkFlowFigures {
  ff_aggressive_buy_base : dec;
  ff_aggressive_sell_base : dec;
  ff_aggressive_buy_quote : dec;
  ff_aggressive_sell_quote : dec;
  ff_delta_base : dec;
  ff_delta_quote : dec;
  ff_total_quote : dec;
  ff_flow_imbalance_ratio : option dec;
  ff_buyer_aggression_pct : option dec;
  ff_rolling_cvd_quote : dec;
  ff_cvd_slope_quote_per_min : dec;
  ff_price_return_pct : option dec;
  ff_price_cvd_alignment : option PriceCvdAlignment;
  ff_normal_quote_notional : option dec;
  ff_rpi_quote_notional : option dec;
  ff_underlying_trade_count : Z
}.

Record FlowWindowSnapshot := mkFlowWindow {
  fw_window_minutes : Z;
  fw_window_start : Z;
  fw_window_end : Z;
  fw_coverage_seconds : Z;
  fw_coverage_complete : bool;
  fw_reason : option string;
  fw_aggregate_event_count : Z;
  fw_figures : option FlowFigures
}.

Record MicrostructureFlowSnapshot := mkFlowSnapshot {
  ms_symbol : string;
  ms_source : string;
  ms_observed_at : option Z;
  ms_age : option Z;
  ms_status : ContextStatus;
  ms_reason : option string;
  ms_windows : list (string * FlowWindowSnapshot);
  ms_orderflow_summary : string;
  ms_retained_bucket_count : Z;
  ms_max_retained_bucket_count : Z;
  ms_last_aggregate_trade_id : option Z;
  ms_accepted_event_count : Z;
  ms_duplicate_event_count : Z;
  ms_out_of_order_event_count : Z;
  ms_gap_count : Z;
  ms_reconnect_count : Z;
  ms_rpi_event_count : Z
}.

(** [sum(values, ZERO)] *)
Definition dsum (values : list dec) : dec := fold_left dadd values dzero.

(** [_coverage_seconds]: [int] of the seconds truncates towards zero *)
Definition coverage_seconds (coverage_start : option Z) (window_start window_end : Z) : Z :=
  match coverage_start with
  | None => 0
  | Some start =>
      let covered_start := Z.max window_start start in
      Z.max 0 (Z.min (Z.quot (window_end - covered_start) us_per_second)
                     (Z.quot (window_end - window_start) us_per_second))
  end.

(** [self._connected and self._coverage_start is not None and self._coverage_start <= window_start] *)
Definition covered_from (connected : bool) (coverage_start : option Z) (window_start : Z) : bool :=
  connected && match coverage_start with Some start => (start <=? window_start)%Z | None => false end.

Definition classify_price_cvd_alignment (price_return_pct rolling_cvd_quote : option dec) : option PriceCvdAlignment :=
  match price_return_pct, rolling_cvd_quote with
  | Some price, Some cvd =>
      if dltb dzero price && dltb dzero cvd then Some ALIGNED_UP
      else if dltb price dzero && dltb cvd dzero then Some ALIGNED_DOWN
      else if dltb dzero price && dltb cvd dzero then Some PRICE_UP_CVD_DOWN
      else if dltb price dzero && dltb dzero cvd then Some PRICE_DOWN_CVD_UP
      else Some MIXED_FLAT
  | _, _ => None
  end.

(** the running sums of the loop of [_cumulative_path_slope] *)
Fixpoint cumulative_path (cumulative : dec) (minute_deltas : list dec) : list dec :=
  match minute_deltas with
  | [] => []
  | delta :: rest => let cumulative := dadd cumulative delta in cumulative :: cumulative_path cumulative rest
  end.

(** [_cumulative_path_slope] *)
Definition cumulative_path_slope (minute_deltas : list dec) : result dec :=
  let path := dzero :: cumulative_path dzero minute_deltas in
  let count := dec_of_Z (Z.of_nat (length path)) in
  let xs := dec_of_Z <$> seqZ 0 (Z.of_nat (length path)) in
  let! mean_x := ddiv (dsum xs) count in
  let! mean_y := ddiv (dsum path) count in
  let numerator := dsum (zip_with (fun x y => dmul (dsub x mean_x) (dsub y mean_y)) xs path) in
  let denominator := dsum ((fun x => dmul (dsub x mean_x) (dsub x mean_x)) <$> xs) in
  if dltb dzero denominator then ddiv numerator denominator else Ok dzero.

(** [_price_return_pct] *)
Definition flow_price_return_pct (first_price last_price : option dec) : result (option dec) :=
  match first_price, last_price with
  | Some first, Some last =>
      if dleb first dzero then Ok None
      else let! fraction := ddiv (dsub last first) first in Ok (Some (dmul fraction (dec_of_Z 100)))
  | _, _ => Ok None
  end.

(** [_percent] *)
Definition percent (value : option dec) : result (option dec) := optional_quantize value (-4).

(** [buy_quote / total_quote * 100 if total_quote > 0 else None] *)
Definition percent_of_total (part total : dec) : result (option dec) :=
  let! share := ratio_if_positive part total in Ok ((fun s => dmul s (dec_of_Z 100)) <$> share).

(** the quote deltas of the minutes of a window, zero where there is no bucket *)
Definition minute_deltas (buckets : gmap Z MinuteFlowBucket) (window_start : Z) (minutes : nat) : list dec :=
  (fun start => match buckets !! start with Some b => delta_quote b | None => dzero end) <$> minute_range window_start minutes.

(** the normal quote notional of a window, when every event of it has one *)
Definition window_normal_quote (selected : list MinuteFlowBucket) : option dec :=
  if forallb (fun b => (fb_normal_quantity_missing_events b =? 0)%Z) selected
  then Some (dsum (fb_normal_quote_notional <$> selected)) else None.

(** the figures of [_window_snapshot]; [selected] is not empty *)
Definition flow_figures (selected : list MinuteFlowBucket) (deltas : list dec) : result FlowFigures :=
  let buy_base := dsum (fb_aggressive_buy_base <$> selected) in
  let sell_base := dsum (fb_aggressive_sell_base <$> selected) in
  let buy_quote := dsum (fb_aggressive_buy_quote <$> selected) in
  let sell_quote := dsum (fb_aggressive_sell_quote <$> selected) in
  let delta_base := dsub buy_base sell_base in
  let delta_quote := dsub buy_quote sell_quote in
  let total_quote := dadd buy_quote sell_quote in
  let! flow_imbalance := ratio_if_positive delta_quote total_quote in
  let! buyer_aggression := percent_of_total buy_quote total_quote in
  let normal_quote := window_normal_quote selected in
  let rpi_quote := dsub total_quote <$> normal_quote in
  let! price_return := flow_price_return_pct (head selected ≫= fb_first_price) (last selected ≫= fb_last_price) in
  let rolling_cvd := dsum deltas in
  let! cvd_slope := cumulative_path_slope deltas in
  let! m_buy_base := money buy_base in
  let! m_sell_base := money sell_base in
  let! m_buy_quote := money buy_quote in
  let! m_sell_quote := money sell_quote in
  let! m_delta_base := money delta_base in
  let! m_delta_quote := money delta_quote in
  let! m_total_quote := money total_quote in
  let! r_imbalance := ratio flow_imbalance in
  let! p_aggression := percent buyer_aggression in
  let! m_rolling := money rolling_cvd in
  let! m_slope := money cvd_slope in
  let! p_return := percent price_return in
  let! m_normal := optional_quantize normal_quote (-8) in
  let! m_rpi := optional_quantize rpi_quote (-8) in
  Ok {| ff_aggressive_buy_base := m_buy_base; ff_aggressive_sell_base := m_sell_base;
        ff_aggressive_buy_quote := m_buy_quote; ff_aggressive_sell_quote := m_sell_quote;
        ff_delta_base := m_delta_base; ff_delta_quote := m_delta_quote; ff_total_quote := m_total_quote;
        ff_flow_imbalance_ratio := r_imbalance; ff_buyer_aggression_pct := p_aggression;
        ff_rolling_cvd_quote := m_rolling; ff_cvd_slope_quote_per_min := m_slope;
        ff_price_return_pct := p_return;
        ff_price_cvd_alignment := classify_price_cvd_alignment price_return (Some rolling_cvd);
        ff_normal_quote_notional := m_normal; ff_rpi_quote_notional := m_rpi;
        ff_underlying_trade_count := zsum (fb_underlying_trade_count <$> selected) |}.

(** the [reason] of a window *)
Definition flow_window_reason (a : SymbolFlowAggregator) (coverage_complete : bool) (event_count : Z) : option string :=
  if negb coverage_complete then Some (fl_coverage_reason a)
  else if (event_count =? 0)%Z then Some "no_valid_events_in_window" else None.

(** [_window_snapshot] *)
Definition flow_window_snapshot (minutes : nat) (as_of : Z) (a : SymbolFlowAggregator) : result FlowWindowSnapshot :=
  let window_end := minute_start as_of in
  let window_start := (window_end - minute_us * Z.of_nat minutes)%Z in
  let coverage_complete := covered_from (fl_connected a) (fl_coverage_start a) window_start in
  let selected := buckets_between window_start window_end (fl_buckets a) in
  let event_count := zsum (fb_aggregate_event_count <$> selected) in
  let! figures := if (event_count =? 0)%Z then Ok None
                  else let! f := flow_figures selected (minute_deltas (fl_buckets a) window_start minutes) in Ok (Some f) in
  Ok {| fw_window_minutes := Z.of_nat minutes; fw_window_start := window_start; fw_window_end := window_end;
        fw_coverage_seconds := coverage_seconds (fl_coverage_start a) window_start window_end;
        fw_coverage_complete := coverage_complete;
        fw_reason := flow_window_reason a coverage_complete event_count;
        fw_aggregate_event_count := event_count; fw_figures := figures |}.

(** [reason or default] *)
Definition reason_or (reason : option string) (default : string) : string :=
  match reason with Some r => if String.eqb r "" then default else r | None => default end.

(** [_snapshot_status], on the fifteen-minute window *)
Definition flow_snapshot_status (a : SymbolFlowAggregator) (canonical : FlowWindowSnapshot) (age : option Z)
    : ContextStatus * option string :=
  if negb (fl_connected a) then (UNAVAILABLE, Some "stream_disconnected")
  else match fl_last_trade_time a with
       | None => (UNAVAILABLE, Some "no_valid_events")
       | Some _ =>
           if match age with Some s => (fl_stale_after a <? s)%Z | None => false end
           then (STALE, Some "last_valid_event_stale")
           else if negb (fw_coverage_complete canonical)
           then (UNAVAILABLE, Some (reason_or (fw_reason canonical) "insufficient_window_coverage"))
           else if (fw_aggregate_event_count canonical =? 0)%Z
           then (UNAVAILABLE, Some "no_valid_events_in_window")
           else (VERIFIED, None)
       end.

(** the divisor and the suffix of [_signed_compact] and of [_compact] *)
Definition compact_scale (absolute : dec) : dec * string :=
  if dleb (dec_of_Z 1000000000) absolute then (dec_of_Z 1000000000, "B")
  else if dleb (dec_of_Z 1000000) absolute then (dec_of_Z 1000000, "M")
  else if dleb (dec_of_Z 1000) absolute then (dec_of_Z 1000, "K")
  else (dec_of_Z 1, "").

(** [_signed_compact] *)
Definition signed_compact (value : dec) : result string :=
  let absolute := dabs value in
  let (divisor, suffix) := compact_scale absolute in
  let! quotient := ddiv absolute divisor in
  let! scaled := dquantize quotient (-2) in
  Ok ((if dleb dzero value then "+" else "-") +:+ dec_to_string scaled +:+ suffix).

(** the sign of the slope in words *)
Definition slope_label (slope : dec) : string :=
  if dltb dzero slope then "positive" else if dltb slope dzero then "negative" else "flat".

(** [_orderflow_summary] *)
Definition orderflow_summary (window : FlowWindowSnapshot) (status : ContextStatus) (reason : option string) : result string :=
  match status, fw_figures window with
  | VERIFIED, Some f =>
      let! aggression := match ff_buyer_aggression_pct f with
                         | Some p => let! q := dquantize p (-1) in Ok (dec_to_string q +:+ "%")
                         | None => Ok "N/A"
                         end in
      let alignment := match ff_price_cvd_alignment f with Some a => alignment_value a | None => "N/A" end in
      let! delta := signed_compact (ff_delta_quote f) in
      Ok ("15m delta " +:+ delta +:+ " USDT; buyer aggression " +:+ aggression +:+ "; CVD slope "
          +:+ slope_label (ff_cvd_slope_quote_per_min f) +:+ "; price/CVD " +:+ alignment +:+ ".")
  | _, _ => Ok ("Orderflow unavailable: " +:+ reason_or reason (reason_or (fw_reason window) "unknown_reason") +:+ ".")
  end.

(** [MICROSTRUCTURE_SOURCE.format(symbol=symbol.lower())] *)
Definition flow_source (symbol : string) : string := "binance_usdm:" +:+ py_lower symbol +:+ "@aggTrade".

(** the validator of [symbol] *)
Definition flow_snapshot_symbol (value : string) : result string :=
  let normalized := py_upper (py_strip value) in
  if String.eqb normalized "" then Raise (ValueError "microstructure symbol must not be blank") else Ok normalized.

(** [max((now - last_trade_time).total_seconds(), 0.0)] *)
Definition flow_age (a : SymbolFlowAggregator) (now : Z) : option Z :=
  (fun last => Z.max (now - last) 0) <$> fl_last_trade_time a.

(** [snapshot] *)
Definition flow_snapshot (now : Z) (a : SymbolFlowAggregator) : result MicrostructureFlowSnapshot :=
  let! one := flow_window_snapshot 1 now a in
  let! five := flow_window_snapshot 5 now a in
  let! canonical := flow_window_snapshot 15 now a in
  let age := flow_age a now in
  let (status, reason) := flow_snapshot_status a canonical age in
  let! summary := orderflow_summary canonical status reason in
  let! symbol := flow_snapshot_symbol (fl_symbol a) in
  Ok {| ms_symbol := symbol; ms_source := py_strip (flow_source (fl_symbol a));
        ms_observed_at := fl_last_trade_time a; ms_age := age; ms_status := status; ms_reason := reason;
        ms_windows := [("1m", one); ("5m", five); ("15m", canonical)]; ms_orderflow_summary := summary;
        ms_retained_bucket_count := Z.of_nat (size (fl_buckets a));
        ms_max_retained_bucket_count := Z.of_nat (fl_max_retained_buckets a);
        ms_last_aggregate_trade_id := fl_last_aggregate_trade_id a;
        ms_accepted_event_count := fl_accepted_event_count a;
        ms_duplicate_event_count := fl_duplicate_event_count a;
        ms_out_of_order_event_count := fl_out_of_order_event_count a; ms_gap_count := fl_gap_count a;
        ms_reconnect_count := fl_reconnect_count a; ms_rpi_event_count := fl_rpi_event_count a |}.

(** [MicrostructureFlowSnapshot.unavailable] *)
Definition flow_unavailable (symbol reason : string) (status : ContextStatus) (observed_at age : option Z)
    : result MicrostructureFlowSnapshot :=
  let normalized := py_upper (py_strip symbol) in
  let! symbol := flow_snapshot_symbol normalized in
  Ok {| ms_symbol := symbol; ms_source := py_strip (flow_source normalized); ms_observed_at := observed_at;
        ms_age := (fun a => Z.max a 0) <$> age; ms_status := status; ms_reason := Some reason; ms_windows := [];
        ms_orderflow_summary := "Orderflow unavailable: " +:+ reason +:+ "."; ms_retained_bucket_count := 0;
        ms_max_retained_bucket_count := 0; ms_last_aggregate_trade_id := None; ms_accepted_event_count := 0;
        ms_duplicate_event_count := 0; ms_out_of_order_event_count := 0; ms_gap_count := 0;
        ms_reconnect_count := 0; ms_rpi_event_count := 0 |}.

(** [verified] *)
Definition flow_verified (s : MicrostructureFlowSnapshot) : bool :=
  match ms_status s with VERIFIED => true | _ => false end.

(** the value of [orderflow_strategy_context]: the summary, for a verified view only *)
Definition orderflow_strategy_context (s : MicrostructureFlowSnapshot) : option (string * option Z * string) :=
  if flow_verified s then Some (ms_source s, ms_observed_at s, ms_orderflow_summary s) else None.
