(* ===== verification/TradeFlowProps.v ===== *)
(** * Properties of the trade-flow aggregator

    The aggregator retains no trades.  Its reachable states are paired with the
    list of the trades it accepted, and the published windows are proved to be
    what that list gives. *)

From stdpp Require Import base tactics list strings sorting gmap.
From Stdlib Require Import ZArith NArith Lia Bool Ascii.
From S2P Require Import Prelude PyString PyDecimal PyTime PyJson JsonText MinuteBuckets OrderBook TradeFlow FlowSnapshot.
Open Scope string_scope.
Open Scope py_scope.

(** ** Histories *)

(** A run of the aggregator with the trades accepted so far.  A connection is
    marked at an instant that is not before the last accepted trade. *)
Inductive flow_history : SymbolFlowAggregator -> list BinanceAggTrade -> Prop :=
| fh_new symbol stale_after max_retained a :
    new_flow symbol stale_after max_retained = Ok a -> flow_history a []
| fh_connected a log at_ reconnect :
    flow_history a log -> (forall t, fl_last_trade_time a = Some t -> (t <= at_)%Z) ->
    flow_history (flow_connected at_ reconnect a) log
| fh_disconnected a log : flow_history a log -> flow_history (flow_disconnected a) log
| fh_accepted a log event a' :
    flow_history a log -> flow_ingest event a = Ok (true, a') -> flow_history a' (log ++ [event])
| fh_ignored a log event a' :
    flow_history a log -> flow_ingest event a = Ok (false, a') -> flow_history a' log.

Abbreviation flow_retains := (retains trade_minute new_flow_bucket apply_trade).

(** two neighbours of a list *)
Definition neighbours {A} (l : list A) (x y : A) : Prop := exists i, l !! i = Some x /\ l !! S i = Some y.

(** between two trades at least one aggregate id is missing *)
Definition id_gap (e1 e2 : BinanceAggTrade) : Prop := (at_aggregate_trade_id e1 + 1 < at_aggregate_trade_id e2)%Z.

Record flow_inv (a : SymbolFlowAggregator) (log : list BinanceAggTrade) : Prop := mkFlowInv {
  fi_retains : flow_retains (fl_max_retained_buckets a) (fl_buckets a) log;
  fi_max : (16 <= fl_max_retained_buckets a)%nat;
  fi_symbol : Forall (fun e => at_symbol e = fl_symbol a) log;
  fi_last_id : fl_last_aggregate_trade_id a = at_aggregate_trade_id <$> last log;
  fi_last_time : fl_last_trade_time a = at_trade_time <$> last log;
  fi_ids : StronglySorted Z.lt (at_aggregate_trade_id <$> log);
  fi_times : StronglySorted Z.le (at_trade_time <$> log);
  fi_accepted : fl_accepted_event_count a = Z.of_nat (length log);
  fi_gaps : forall e1 e2 start, neighbours log e1 e2 -> id_gap e1 e2 ->
    fl_coverage_start a = Some start -> (at_trade_time e2 <= start)%Z;
  fi_connected : fl_connected a = true -> is_Some (fl_coverage_start a)
}.

(** ** Lists in order *)

Lemma sorted_snoc (R : Z -> Z -> Prop) `{!Transitive R} l x :
  StronglySorted R l -> (forall y, last l = Some y -> R y x) -> StronglySorted R (l ++ [x]).
Proof.
  intros Hs Hl. apply StronglySorted_app. split_and!; [|done|repeat constructor]. intros y z Hy ->%list_elem_of_singleton.
  destruct (last l) as [m|] eqn:El; [|apply last_None in El as ->; by apply not_elem_of_nil in Hy].
  specialize (Hl m eq_refl). apply last_Some in El as [l' ->]. apply elem_of_app in Hy as [Hy|Hy].
  - transitivity m; [|done]. eapply StronglySorted_app_1_elem_of; [exact Hs|done|apply list_elem_of_here].
  - by apply list_elem_of_singleton in Hy as ->.
Qed.

Lemma sorted_last (R : Z -> Z -> Prop) l x y :
  StronglySorted R l -> last l = Some y -> x ∈ l -> R x y \/ x = y.
Proof.
  intros Hs [l' ->]%last_Some [Hx|Hx]%elem_of_app.
  - left. eapply StronglySorted_app_1_elem_of; [exact Hs|done|apply list_elem_of_here].
  - right. by apply list_elem_of_singleton in Hx.
Qed.

Lemma neighbours_snoc {A} (l : list A) x e1 e2 :
  neighbours (l ++ [x]) e1 e2 -> neighbours l e1 e2 \/ (last l = Some e1 /\ e2 = x).
Proof.
  intros (i & H1 & H2). destruct (decide (S i < length l)%nat) as [Hi|Hi].
  - left. exists i. rewrite lookup_app_l in H1, H2 by lia. done.
  - right. rewrite lookup_app_r in H2 by lia. apply list_lookup_singleton_Some in H2 as [Hz <-].
    rewrite lookup_app_l in H1 by lia. split; [|done]. rewrite last_lookup. by replace (pred (length l)) with i by lia.
Qed.

Lemma neighbours_sorted {A} (R : Z -> Z -> Prop) (f : A -> Z) (l : list A) x y :
  StronglySorted R (f <$> l) -> neighbours l x y -> R (f x) (f y).
Proof.
  intros Hs (i & Hx & Hy). rewrite <- (take_drop (S i) l), fmap_app in Hs.
  eapply StronglySorted_app_1_elem_of; [exact Hs|apply list_elem_of_fmap_2..].
  - eapply (list_elem_of_lookup_2 _ i). rewrite lookup_take_lt by lia. done.
  - eapply (list_elem_of_lookup_2 _ 0). rewrite lookup_drop, Nat.add_0_r. done.
Qed.

(** ** The invariant *)

Lemma times_before_last a log e t :
  flow_inv a log -> e ∈ log -> fl_last_trade_time a = Some t -> (at_trade_time e <= t)%Z.
Proof.
  intros Hi He Ht. rewrite (fi_last_time _ _ Hi) in Ht. rewrite <- fmap_last in Ht.
  destruct (sorted_last _ _ (at_trade_time e) _ (fi_times _ _ Hi) Ht) as [|Heq]; [|done|lia].
  by apply list_elem_of_fmap_2.
Qed.

Lemma neighbours_elem {A} (l : list A) e1 e2 : neighbours l e1 e2 -> e2 ∈ l.
Proof. intros (i & _ & H2). by eapply list_elem_of_lookup_2. Qed.

Lemma last_time_some a log : flow_inv a log -> log <> [] -> is_Some (fl_last_trade_time a).
Proof.
  intros Hi Hn. rewrite (fi_last_time _ _ Hi). destruct (last log) eqn:El; [by eexists|]. by apply last_None in El.
Qed.

(** Moving the coverage start to an instant not before the last accepted trade
    keeps the invariant, whatever else changes besides buckets and trade
    bookkeeping. *)
Lemma flow_inv_coverage a a' log :
  flow_inv a log -> fl_buckets a' = fl_buckets a -> fl_max_retained_buckets a' = fl_max_retained_buckets a ->
  fl_symbol a' = fl_symbol a -> fl_last_aggregate_trade_id a' = fl_last_aggregate_trade_id a ->
  fl_last_trade_time a' = fl_last_trade_time a -> fl_accepted_event_count a' = fl_accepted_event_count a ->
  (fl_connected a' = true -> is_Some (fl_coverage_start a')) ->
  (fl_coverage_start a' = fl_coverage_start a \/
   forall t start, fl_last_trade_time a = Some t -> fl_coverage_start a' = Some start -> (t <= start)%Z) ->
  flow_inv a' log.
Proof.
  intros Hi Hb Hm Hs Hid Ht Hacc Hconn Hcov. destruct Hi as [? ? ? ? ? ? ? ? Hg ?] eqn:Ei. clear Ei.
  split; rewrite ?Hb, ?Hm, ?Hs, ?Hid, ?Ht, ?Hacc; try done.
  intros e1 e2 start Hn Hgap Hstart. destruct Hcov as [Heq|Hle]; [by apply (Hg e1 e2 start); rewrite <- ?Heq|].
  destruct (last_time_some _ _ Hi) as [t Hlast]; [intros ->; by destruct Hn as (? & ? & ?)|].
  pose proof (times_before_last _ _ _ _ Hi (neighbours_elem _ _ _ Hn) Hlast). specialize (Hle _ _ Hlast Hstart). lia.
Qed.

(** Accepting a trade that is newer than the last one. *)
Lemma flow_inv_accept a log event a0 :
  flow_inv a log -> at_symbol event = fl_symbol a ->
  (forall previous, fl_last_aggregate_trade_id a = Some previous -> (previous < at_aggregate_trade_id event)%Z) ->
  (forall t, fl_last_trade_time a = Some t -> (t <= at_trade_time event)%Z) ->
  (a0 = a /\ (forall previous, fl_last_aggregate_trade_id a = Some previous -> at_aggregate_trade_id event = previous + 1)%Z
   \/ exists reason n, a0 = mark_uncertain_coverage (at_trade_time event) reason (a <| fl_gap_count := n |>)) ->
  flow_inv (accept_trade event a0) (log ++ [event]).
Proof.
  intros Hi Hsym Hid Htime Ha0.
  assert (flow_inv a0 log) as Hi0.
  { destruct Ha0 as [[-> _]|(reason & n & ->)]; [done|]. eapply flow_inv_coverage; [exact Hi|done..|by eexists|].
    right. intros t start Ht [= <-]. by apply Htime. }
  assert (fl_last_aggregate_trade_id a0 = fl_last_aggregate_trade_id a /\ fl_last_trade_time a0 = fl_last_trade_time a
          /\ fl_symbol a0 = fl_symbol a) as (Ei & Et & Es) by (by destruct Ha0 as [[-> _]|(? & ? & ->)]).
  split; cbn.
  - apply add_event_retains; [|exact (fi_retains _ _ Hi0)]. pose proof (fi_max _ _ Hi0). lia.
  - exact (fi_max _ _ Hi0).
  - apply Forall_app. split; [exact (fi_symbol _ _ Hi0)|]. repeat constructor. by rewrite Es.
  - by rewrite last_snoc.
  - by rewrite last_snoc.
  - rewrite fmap_app. apply sorted_snoc; [apply _|exact (fi_ids _ _ Hi0)|].
    intros y Hy. apply Hid. by rewrite (fi_last_id _ _ Hi), <- fmap_last.
  - rewrite fmap_app. apply sorted_snoc; [apply _|exact (fi_times _ _ Hi0)|].
    intros y Hy. apply Htime. by rewrite (fi_last_time _ _ Hi), <- fmap_last.
  - rewrite length_app, (fi_accepted _ _ Hi0). cbn. lia.
  - intros e1 e2 start [Hn|[Hl ->]]%neighbours_snoc Hgap Hstart; [by apply (fi_gaps _ _ Hi0 e1 e2)|].
    destruct Ha0 as [[-> Hnext]|(reason & n & ->)]; [|injection Hstart as <-; lia].
    exfalso. unfold id_gap in Hgap. rewrite (fi_last_id _ _ Hi), Hl in Hnext. specialize (Hnext _ eq_refl). lia.
  - exact (fi_connected _ _ Hi0).
Qed.

(** The decision of [ingest]. *)
Inductive ingest_case (event : BinanceAggTrade) (a : SymbolFlowAggregator) : bool -> SymbolFlowAggregator -> Prop :=
| ic_seen previous a' :
    fl_last_aggregate_trade_id a = Some previous -> (at_aggregate_trade_id event <= previous)%Z ->
    a' = (if (at_aggregate_trade_id event =? previous)%Z
          then a <| fl_duplicate_event_count := (fl_duplicate_event_count a + 1)%Z |>
          else a <| fl_out_of_order_event_count := (fl_out_of_order_event_count a + 1)%Z |>) ->
    ingest_case event a false a'
| ic_regression last :
    (forall previous, fl_last_aggregate_trade_id a = Some previous -> (previous < at_aggregate_trade_id event)%Z) ->
    fl_last_trade_time a = Some last -> (at_trade_time event < last)%Z ->
    ingest_case event a false (mark_uncertain_coverage last "trade_time_regression_in_window"
      (a <| fl_out_of_order_event_count := (fl_out_of_order_event_count a + 1)%Z |>))
| ic_next :
    (forall previous, fl_last_aggregate_trade_id a = Some previous -> at_aggregate_trade_id event = (previous + 1)%Z) ->
    (forall last, fl_last_trade_time a = Some last -> (last <= at_trade_time event)%Z) ->
    ingest_case event a true (accept_trade event a)
| ic_gap previous :
    fl_last_aggregate_trade_id a = Some previous -> (previous + 1 < at_aggregate_trade_id event)%Z ->
    (forall last, fl_last_trade_time a = Some last -> (last <= at_trade_time event)%Z) ->
    ingest_case event a true (accept_trade event
      (mark_uncertain_coverage (at_trade_time event) "aggregate_trade_id_gap_in_window"
        (a <| fl_gap_count := (fl_gap_count a + 1)%Z |>))).

Lemma flow_ingest_cases event a ok a' :
  flow_ingest event a = Ok (ok, a') -> at_symbol event = fl_symbol a /\ ingest_case event a ok a'.
Proof.
  unfold flow_ingest. destruct (String.eqb_spec (at_symbol event) (fl_symbol a)) as [Hs|]; cbn [negb]; [|done].
  intros H. split; [done|]. destruct (fl_last_aggregate_trade_id a) as [previous|] eqn:Ep.
  - destruct (Z.leb_spec (at_aggregate_trade_id event) previous).
    { apply ok_inj in H. injection H as <- <-. by eapply ic_seen. }
    destruct (fl_last_trade_time a) as [last|] eqn:El.
    + destruct (Z.ltb_spec (at_trade_time event) last); apply ok_inj in H; injection H as <- <-.
      * apply ic_regression; [intros ? [= <-]%(eq_trans (eq_sym Ep)); lia|done|lia].
      * destruct (Z.ltb_spec (previous + 1) (at_aggregate_trade_id event)).
        -- eapply ic_gap; [done|lia|]. intros ? [= <-]%(eq_trans (eq_sym El)). lia.
        -- apply ic_next; [intros ? [= <-]%(eq_trans (eq_sym Ep)); lia|intros ? [= <-]%(eq_trans (eq_sym El)); lia].
    + apply ok_inj in H; injection H as <- <-. destruct (Z.ltb_spec (previous + 1) (at_aggregate_trade_id event)).
      * eapply ic_gap; [done|lia|]. intros ? Hl. by rewrite El in Hl.
      * apply ic_next; [intros ? [= <-]%(eq_trans (eq_sym Ep)); lia|intros ? Hl; by rewrite El in Hl].
  - destruct (fl_last_trade_time a) as [last|] eqn:El.
    + destruct (Z.ltb_spec (at_trade_time event) last); apply ok_inj in H; injection H as <- <-.
      * apply ic_regression; [intros ? Hp; by rewrite Ep in Hp|done|lia].
      * apply ic_next; [intros ? Hp; by rewrite Ep in Hp|intros ? [= <-]%(eq_trans (eq_sym El)); lia].
    + apply ok_inj in H; injection H as <- <-.
      apply ic_next; [intros ? Hp; by rewrite Ep in Hp|intros ? Hl; by rewrite El in Hl].
Qed.

Lemma flow_history_inv a log : flow_history a log -> flow_inv a log.
Proof.
  induction 1 as [symbol stale_after max_retained a Hnew|a log at_ reconnect _ IH Hat|a log _ IH|a log event a' _ IH Hin|a log event a' _ IH Hin].
  - unfold new_flow in Hnew. destruct (String.eqb _ _); [done|]. destruct (_ <=? _)%Z; [done|].
    destruct (Z.ltb_spec max_retained MAX_RETAINED_MINUTE_BUCKETS); [done|]. apply ok_inj in Hnew as <-. cbn.
    unfold MAX_RETAINED_MINUTE_BUCKETS in *.
    split; cbn; [apply retains_empty|lia|constructor|done|done|constructor|constructor|done| |done].
    by intros ? ? ? (? & ? & ?).
  - eapply flow_inv_coverage; [exact IH|by destruct reconnect; cbn; destruct (fl_coverage_start a)..| |].
    + intros _. cbn. by eexists.
    + right. intros t start Ht [= <-]. by apply Hat.
  - eapply flow_inv_coverage; [exact IH|by cbn; destruct (fl_connected a)..|by cbn|]. right. by cbn.
  - apply flow_ingest_cases in Hin as [Hs Hc]. inversion Hc as [| |Hn Ht|p Hp Hgap Ht]; subst.
    + apply (flow_inv_accept a); [done..| |done|by left]. intros p Hp. rewrite (Hn p Hp). lia.
    + apply (flow_inv_accept a); [done..| |done|right; by do 2 eexists].
      intros p' Hp'. rewrite Hp in Hp'. injection Hp' as <-. lia.
  - apply flow_ingest_cases in Hin as [Hs Hc]. inversion Hc as [p a'' Hp Hle Heq|l Hp Hl Hlt| |]; subst.
    + eapply flow_inv_coverage; [exact IH|by destruct (_ =? _)%Z..|by destruct (_ =? _)%Z; apply (fi_connected _ _ IH)|].
      left. by destruct (_ =? _)%Z.
    + eapply flow_inv_coverage; [exact IH|done..|by eexists|]. right. intros t start Ht [= <-].
      rewrite Hl in Ht. injection Ht as <-. lia.
Qed.

(** ** The windows as the accepted trades give them *)

Abbreviation trade_replay := (replay_bucket trade_minute new_flow_bucket apply_trade).

Definition trades_between (lo hi : Z) (log : list BinanceAggTrade) : list BinanceAggTrade :=
  filter (fun e => lo <= at_trade_time e < hi)%Z log.

(** the buckets of the minutes of a window, from the trades *)
Definition replayed_buckets (log : list BinanceAggTrade) (lo : Z) (n : nat) : list MinuteFlowBucket :=
  omap (trade_replay log) (minute_range lo n).

Definition replayed_deltas (log : list BinanceAggTrade) (lo : Z) (n : nat) : list dec :=
  (fun start => match trade_replay log start with Some b => delta_quote b | None => dzero end) <$> minute_range lo n.

(** Reference definition of a published window, from the list of trades. *)
Definition flow_window_of_trades (n : nat) (as_of : Z) (a : SymbolFlowAggregator) (log : list BinanceAggTrade)
    : result FlowWindowSnapshot :=
  let lo := window_start n as_of in
  let trades := trades_between lo (minute_start as_of) log in
  let complete := covered_from (fl_connected a) (fl_coverage_start a) lo in
  let count := Z.of_nat (length trades) in
  let! figures := match trades with
                  | [] => Ok None
                  | _ => let! f := flow_figures (replayed_buckets log lo n) (replayed_deltas log lo n) in Ok (Some f)
                  end in
  Ok {| fw_window_minutes := Z.of_nat n; fw_window_start := lo; fw_window_end := minute_start as_of;
        fw_coverage_seconds := coverage_seconds (fl_coverage_start a) lo (minute_start as_of);
        fw_coverage_complete := complete; fw_reason := flow_window_reason a complete count;
        fw_aggregate_event_count := count; fw_figures := figures |}.

Lemma apply_trade_count b e : fb_aggregate_event_count (apply_trade b e) = (fb_aggregate_event_count b + 1)%Z.
Proof.
  unfold apply_trade. destruct (aggressive_buy e), (normal_quote_notional e); cbn; by destruct (fb_first_aggregate_trade_id b).
Qed.

Lemma replayed_count log n as_of :
  zsum (fb_aggregate_event_count <$> replayed_buckets log (window_start n as_of) n)
  = Z.of_nat (length (trades_between (window_start n as_of) (minute_start as_of) log)).
Proof.
  unfold replayed_buckets, trades_between. rewrite zsum_foldr.
  rewrite (steps_total_keys trade_minute new_flow_bucket apply_trade fb_aggregate_event_count (fun _ => 1%Z) ltac:(done) apply_trade_count)
    by apply minute_range_nodup.
  rewrite (filter_minutes trade_minute new_flow_bucket apply_trade at_trade_time) by (done || apply window_start_mod).
  by rewrite steps_total_ones, <- window_end_eq.
Qed.

Lemma times_before a log e as_of :
  flow_inv a log -> (forall t, fl_last_trade_time a = Some t -> (t <= as_of)%Z) -> e ∈ log -> (at_trade_time e <= as_of)%Z.
Proof.
  intros Hi Has He. destruct (last_time_some a log Hi) as [t Ht]; [intros ->; by apply not_elem_of_nil in He|].
  specialize (Has t Ht). pose proof (times_before_last _ _ _ _ Hi He Ht). lia.
Qed.

Lemma window_buckets a log n as_of :
  flow_inv a log -> (forall t, fl_last_trade_time a = Some t -> (t <= as_of)%Z) -> (n <= 15)%nat ->
  buckets_between (window_start n as_of) (minute_start as_of) (fl_buckets a) = replayed_buckets log (window_start n as_of) n
  /\ minute_deltas (fl_buckets a) (window_start n as_of) n = replayed_deltas log (window_start n as_of) n.
Proof.
  intros Hi Has Hn. pose proof (fi_max _ _ Hi) as Hmax.
  assert (forall e, e ∈ log -> trade_minute e = minute_start (at_trade_time e) /\ (at_trade_time e <= as_of)%Z) as Htimes
    by (intros e He; split; [done|by eapply times_before]).
  assert (window_start (pred (fl_max_retained_buckets a)) as_of <= window_start n as_of)%Z as Hlo
    by (unfold window_start, minute_us; lia).
  split.
  - rewrite (window_end_eq n as_of) at 1.
    eapply retained_window; [|exact (fi_retains _ _ Hi)|exact Htimes|apply window_start_mod|done]; lia.
  - unfold minute_deltas, replayed_deltas. apply list_fmap_ext. intros i k Hik%list_elem_of_lookup_2.
    apply elem_of_minute_range in Hik as [[Hk _] Hmod]; [|apply window_start_mod].
    erewrite (retained_minute trade_minute new_flow_bucket apply_trade); [done| |apply Hi|exact Htimes|done|]; lia.
Qed.

Lemma window_of_history a log n as_of :
  flow_history a log -> (forall t, fl_last_trade_time a = Some t -> (t <= as_of)%Z) -> (n <= 15)%nat ->
  flow_window_snapshot n as_of a = flow_window_of_trades n as_of a log.
Proof.
  intros Hi%flow_history_inv Has Hn. destruct (window_buckets _ _ _ _ Hi Has Hn) as [Hb Hd].
  unfold flow_window_snapshot, flow_window_of_trades. fold (window_start n as_of). rewrite Hb, Hd.
  rewrite replayed_count.
  by destruct (trades_between (window_start n as_of) (minute_start as_of) log).
Qed.

(** C21: A published window is computed from the accepted trades alone: although the
    aggregator keeps no trades and drops old minutes, for every history and every
    instant not before the last accepted trade, each window of up to fifteen
    minutes, its error behaviour included, equals the reference window that
    filters and replays the complete list of accepted trades. *)
Theorem flow_window_is_replay a log n as_of :
  flow_history a log -> (forall t, fl_last_trade_time a = Some t -> (t <= as_of)%Z) -> (n <= 15)%nat ->
  flow_window_snapshot n as_of a = flow_window_of_trades n as_of a log.
Proof. exact (window_of_history a log n as_of). Qed.

(** ** A sample history *)

Definition sample_trade (id at_us price : Z) (buyer_is_maker : bool) : BinanceAggTrade :=
  {| at_symbol := "BTCUSDT"; at_aggregate_trade_id := id; at_price := dec_of_Z price; at_quantity := dec_of_Z 2;
     at_normal_quantity := Some (dec_of_Z 2); at_first_trade_id := (10 * id)%Z; at_last_trade_id := (10 * id + 3)%Z;
     at_event_time := at_us; at_trade_time := at_us; at_buyer_is_maker := buyer_is_maker; at_stream_type := Some 1%Z |}.

Definition sample_trades : list BinanceAggTrade :=
  [sample_trade 100 30000000 50000 false; sample_trade 101 300000000 50100 false; sample_trade 102 959000000 50200 true].

Definition ingest_or_keep (a : SymbolFlowAggregator) (event : BinanceAggTrade) : SymbolFlowAggregator :=
  match flow_ingest event a with Ok (_, a') => a' | Raise _ => a end.

Lemma ingest_or_keep_history a log event :
  match flow_ingest event a with Ok (ok, _) => ok | Raise _ => false end = true ->
  flow_history a log -> flow_history (ingest_or_keep a event) (log ++ [event]).
Proof.
  unfold ingest_or_keep. destruct (flow_ingest event a) as [[ok a']|] eqn:Ei; [|done]. intros -> Hh. by eapply fh_accepted.
Qed.

Definition sample_empty : SymbolFlowAggregator :=
  match new_flow "btcusdt" 60000000 16 with
  | Ok a => flow_connected 0 false a
  | Raise _ => mkFlow "" 0 0 ∅ false None "" None None None 0 0 0 0 0 0
  end.

Definition sample_flow : SymbolFlowAggregator := fold_left ingest_or_keep sample_trades sample_empty.

Definition sample_as_of : Z := 965000000.

Lemma sample_history : flow_history sample_flow sample_trades.
Proof.
  unfold sample_flow, sample_trades. cbn [fold_left].
  apply (ingest_or_keep_history _ [_; _]); [vm_compute; reflexivity|].
  apply (ingest_or_keep_history _ [_]); [vm_compute; reflexivity|].
  apply (ingest_or_keep_history _ []); [vm_compute; reflexivity|].
  change sample_empty with (flow_connected 0 false (match new_flow "btcusdt" 60000000 16 with
    | Ok a => a | Raise _ => sample_empty end)).
  apply fh_connected; [by apply (fh_new "btcusdt" 60000000 16)|]. intros t Ht. by vm_compute in Ht.
Qed.

Lemma flow_window_is_replay_witness :
  flow_window_snapshot 15 sample_as_of sample_flow = flow_window_of_trades 15 sample_as_of sample_flow sample_trades
  /\ (exists w, flow_window_snapshot 15 sample_as_of sample_flow = Ok w /\ fw_aggregate_event_count w = 2%Z).
Proof.
  split.
  - apply flow_window_is_replay; [exact sample_history| |lia]. intros t Ht.
    assert (fl_last_trade_time sample_flow = Some 959000000%Z) as Hl by (vm_compute; reflexivity).
    rewrite Hl in Ht. injection Ht as <-. unfold sample_as_of. lia.
  - eexists. split; vm_compute; reflexivity.
Defined.

(** ** The accepted trades *)

(** Accepted trades of every history belong to the aggregator's symbol, have
    strictly increasing aggregate ids and non-decreasing times, are counted
    exactly, and are retained in at most [max_retained_buckets] minutes, each
    retained minute being the complete replay of its trades. *)
Theorem accepted_trades_ordered a log :
  flow_history a log ->
  Forall (fun e => at_symbol e = fl_symbol a) log /\
  StronglySorted Z.lt (at_aggregate_trade_id <$> log) /\ StronglySorted Z.le (at_trade_time <$> log) /\
  fl_accepted_event_count a = Z.of_nat (length log) /\
  (size (fl_buckets a) <= fl_max_retained_buckets a)%nat /\
  (forall k b, fl_buckets a !! k = Some b -> trade_replay log k = Some b).
Proof.
  intros Hi%flow_history_inv. destruct (fi_retains _ _ Hi) as [Hex _ Hsize].
  split_and!; [apply Hi..|done|done].
Qed.

Lemma accepted_trades_ordered_witness :
  StronglySorted Z.lt (at_aggregate_trade_id <$> sample_trades) /\ fl_accepted_event_count sample_flow = 3%Z
  /\ (size (fl_buckets sample_flow) <= fl_max_retained_buckets sample_flow)%nat.
Proof. destruct (accepted_trades_ordered _ _ sample_history) as (_ & Hs & _ & Hc & Hb & _). by rewrite Hc. Defined.

Lemma ingest_case_total event a :
  at_symbol event = fl_symbol a -> exists ok a', flow_ingest event a = Ok (ok, a').
Proof.
  intros Hs. unfold flow_ingest. rewrite Hs, String.eqb_refl. cbn [negb].
  destruct (fl_last_aggregate_trade_id a), (fl_last_trade_time a); repeat case_match; eauto.
Qed.

(** A trade of the symbol is never refused with an error; it is accepted exactly
    when its aggregate id is above and its time not before those of every trade
    accepted so far.  A trade that is not accepted leaves the retained minutes,
    the last id, the last time and the accepted count unchanged, and can only
    move the coverage start to the last accepted trade. *)
Theorem ingest_accepts_exactly_newer a log event :
  flow_history a log -> at_symbol event = fl_symbol a ->
  exists ok a', flow_ingest event a = Ok (ok, a') /\
    (ok = true <-> forall e, e ∈ log -> (at_aggregate_trade_id e < at_aggregate_trade_id event)%Z
                                   /\ (at_trade_time e <= at_trade_time event)%Z) /\
    (ok = false -> fl_buckets a' = fl_buckets a /\ fl_last_aggregate_trade_id a' = fl_last_aggregate_trade_id a /\
       fl_last_trade_time a' = fl_last_trade_time a /\ fl_accepted_event_count a' = fl_accepted_event_count a /\
       (fl_coverage_start a' = fl_coverage_start a \/ fl_coverage_start a' = fl_last_trade_time a)).
Proof.
  intros Hi%flow_history_inv Hs. destruct (ingest_case_total event a Hs) as (ok & a' & Hin).
  exists ok, a'. split; [done|]. apply flow_ingest_cases in Hin as [_ Hc].
  assert (forall e last_e, last log = Some last_e -> e ∈ log ->
    (at_aggregate_trade_id e <= at_aggregate_trade_id last_e)%Z /\ (at_trade_time e <= at_trade_time last_e)%Z) as Hle.
  { intros e le Hl He. split.
    - destruct (sorted_last Z.lt (at_aggregate_trade_id <$> log) (at_aggregate_trade_id e) (at_aggregate_trade_id le));
        [apply Hi|by rewrite fmap_last, Hl|by apply list_elem_of_fmap_2|lia|lia].
    - destruct (sorted_last Z.le (at_trade_time <$> log) (at_trade_time e) (at_trade_time le));
        [apply Hi|by rewrite fmap_last, Hl|by apply list_elem_of_fmap_2|lia|lia]. }
  pose proof (fi_last_id _ _ Hi) as Eid. pose proof (fi_last_time _ _ Hi) as Et.
  assert (forall le, last log = Some le -> le ∈ log) as Hmem
    by (intros le (l & ->)%last_Some; apply elem_of_app; right; apply list_elem_of_here).
  destruct Hc as [p a' Hp Hpe ->|l Hp Hl Hlt|Hp Hl|p Hp Hgap Hl]; (split; [split; try done|]); try done.
  - intros Hall. destruct (last log) as [le|] eqn:El; [|by rewrite Eid in Hp]. cbn in Eid. specialize (Hall le (Hmem _ eq_refl)).
    rewrite Eid in Hp. injection Hp as <-. lia.
  - intros _. destruct (_ =? _)%Z; cbn; eauto 8.
  - intros Hall. destruct (last log) as [le|] eqn:El; [|by rewrite Et in Hl]. cbn in Et. specialize (Hall le (Hmem _ eq_refl)).
    rewrite Et in Hl. injection Hl as <-. lia.
  - intros _. cbn. split_and!; eauto.
  - intros _ e He. destruct (last log) as [le|] eqn:El; [|apply last_None in El as ->; by apply not_elem_of_nil in He].
    destruct (Hle e le eq_refl He). specialize (Hp _ Eid). specialize (Hl _ Et). lia.
  - intros _ e He. destruct (last log) as [le|] eqn:El; [|apply last_None in El as ->; by apply not_elem_of_nil in He].
    destruct (Hle e le eq_refl He). specialize (Hl _ Et). cbn in Eid. rewrite Eid in Hp. injection Hp as <-. lia.
Qed.

Lemma ingest_accepts_exactly_newer_witness :
  exists a', flow_ingest (sample_trade 102 960000000 50300 true) sample_flow = Ok (false, a') /\
             fl_buckets a' = fl_buckets sample_flow.
Proof.
  destruct (ingest_accepts_exactly_newer _ _ (sample_trade 102 960000000 50300 true) sample_history)
    as (ok & a' & Hin & Hiff & Hno); [vm_compute; reflexivity|].
  exists a'. destruct ok; [|split; [exact Hin|apply Hno; reflexivity]]. exfalso.
  destruct (proj1 Hiff eq_refl (sample_trade 102 959000000 50200 true)) as [Hlt _]; [|exact (Z.lt_irrefl _ Hlt)].
  apply (proj2 (list_elem_of_In _ _)). cbn. auto.
Defined.

(** ** Verified views *)

Lemma verified_status a canonical age :
  fst (flow_snapshot_status a canonical age) = VERIFIED ->
  fl_connected a = true /\ fw_coverage_complete canonical = true /\ fw_aggregate_event_count canonical <> 0%Z /\
  is_Some (fl_last_trade_time a) /\ (forall s, age = Some s -> (s <= fl_stale_after a)%Z).
Proof.
  unfold flow_snapshot_status. destruct (fl_connected a); [|done]. destruct (fl_last_trade_time a) as [t|]; [|done].
  cbn [negb]. destruct (match age with Some s => _ | None => _ end) eqn:Ea; [done|].
  destruct (fw_coverage_complete canonical); [|done]. cbn [negb].
  destruct (Z.eqb_spec (fw_aggregate_event_count canonical) 0); [done|]. intros _.
  split_and!; [done|done|done|by eexists|]. intros s ->. apply Z.ltb_ge in Ea. lia.
Qed.

Lemma verified_view_facts a log now s :
  flow_history a log -> flow_snapshot now a = Ok s -> ms_status s = VERIFIED ->
  fl_connected a = true /\
  (exists start, fl_coverage_start a = Some start /\ (start <= window_start 15 now)%Z) /\
  (exists t, fl_last_trade_time a = Some t /\ (now - t <= fl_stale_after a)%Z) /\
  ((forall t, fl_last_trade_time a = Some t -> (t <= now)%Z) ->
     trades_between (window_start 15 now) (minute_start now) log <> []) /\
  (forall e1 e2, neighbours log e1 e2 -> (window_start 15 now < at_trade_time e2)%Z ->
     at_aggregate_trade_id e2 = (at_aggregate_trade_id e1 + 1)%Z).
Proof.
  intros Hh Hsnap Hv. pose proof (flow_history_inv _ _ Hh) as Hi. unfold flow_snapshot in Hsnap.
  destruct (flow_window_snapshot 1 now a) as [one|]; [|done]. destruct (flow_window_snapshot 5 now a) as [five|]; [|done].
  destruct (flow_window_snapshot 15 now a) as [w|] eqn:Ew; [|done]. cbn [bind_result] in Hsnap.
  destruct (flow_snapshot_status a w (flow_age a now)) as [status reason] eqn:Es.
  destruct (orderflow_summary w status reason); [|done]. cbn [bind_result] in Hsnap.
  destruct (flow_snapshot_symbol (fl_symbol a)); [|done]. cbn [bind_result] in Hsnap. apply ok_inj in Hsnap as <-.
  cbn in Hv. subst status. destruct (verified_status a w (flow_age a now)) as (Hconn & Hcov & Hcount & [t Ht] & Hage);
    [by rewrite Es|].
  assert (exists start, fl_coverage_start a = Some start /\ (start <= window_start 15 now)%Z) as (start & Hstart & Hle).
  { unfold flow_window_snapshot in Ew. destruct (if (_ =? 0)%Z then _ else _); [|done]. cbn [bind_result] in Ew.
    apply ok_inj in Ew as <-. cbn [fw_coverage_complete] in Hcov. unfold covered_from in Hcov. rewrite Hconn in Hcov.
    destruct (fl_coverage_start a) as [start|]; [|done]. exists start. split; [done|]. by apply Z.leb_le in Hcov. }
  split_and!; [done|by exists start| | |].
  - exists t. split; [done|]. unfold flow_age in Hage. rewrite Ht in Hage. specialize (Hage _ eq_refl). lia.
  - intros Has Hnil. rewrite (window_of_history a log) in Ew by (done || lia).
    unfold flow_window_of_trades in Ew. rewrite Hnil in Ew. apply ok_inj in Ew as <-. done.
  - intros e1 e2 Hn Hlate. destruct (Z.lt_trichotomy (at_aggregate_trade_id e1 + 1) (at_aggregate_trade_id e2)) as [Hgap|[Heq|Hlt]]; [|lia|].
    + pose proof (fi_gaps _ _ Hi _ _ _ Hn Hgap Hstart). lia.
    + pose proof (neighbours_sorted _ _ _ _ _ (fi_ids _ _ Hi) Hn). cbn in *. lia.
Qed.

(** A verified view rests on fresh and gap-free evidence: the stream is
    connected since the start of the fifteen-minute window, the last accepted
    trade is at most [stale_after] old, at least one trade lies in the window,
    and between any two successive accepted trades of which the second is later
    than the window start no aggregate id is missing. *)
Theorem verified_flow_gap_free a log now s :
  flow_history a log -> flow_snapshot now a = Ok s -> ms_status s = VERIFIED ->
  fl_connected a = true /\
  (exists start, fl_coverage_start a = Some start /\ (start <= window_start 15 now)%Z) /\
  (exists t, fl_last_trade_time a = Some t /\ (now - t <= fl_stale_after a)%Z) /\
  ((forall t, fl_last_trade_time a = Some t -> (t <= now)%Z) ->
     trades_between (window_start 15 now) (minute_start now) log <> []) /\
  (forall e1 e2, neighbours log e1 e2 -> (window_start 15 now < at_trade_time e2)%Z ->
     at_aggregate_trade_id e2 = (at_aggregate_trade_id e1 + 1)%Z).
Proof. exact (verified_view_facts a log now s). Qed.

Lemma verified_flow_gap_free_witness :
  exists s, flow_snapshot sample_as_of sample_flow = Ok s /\ ms_status s = VERIFIED /\
    (forall e1 e2, neighbours sample_trades e1 e2 -> (window_start 15 sample_as_of < at_trade_time e2)%Z ->
       at_aggregate_trade_id e2 = (at_aggregate_trade_id e1 + 1)%Z).
Proof.
  destruct (flow_snapshot sample_as_of sample_flow) as [s|] eqn:Es.
  - exists s. assert (ms_status s = VERIFIED) as Hv.
    { assert (map_result ms_status (flow_snapshot sample_as_of sample_flow) = Ok VERIFIED) as H by (vm_compute; reflexivity).
      rewrite Es in H. by apply ok_inj in H. }
    destruct (verified_flow_gap_free _ _ _ _ sample_history Es Hv) as (_ & _ & _ & _ & H). auto.
  - exfalso. assert (map_result ms_status (flow_snapshot sample_as_of sample_flow) = Ok VERIFIED) as H by (vm_compute; reflexivity).
    rewrite Es in H. discriminate H.
Defined.
