(* ===== verification/Liquidation.v ===== *)
(** * Liquidation observations (src/app/microstructure/liquidation.py,
    liquidation_aggregator.py and liquidation_models.py)

    Force-order payloads, their fingerprints, the aggregator of one symbol with
    its bounded duplicate memory, and the published windows.

    Times are instants in microseconds since the Unix epoch, thresholds numbers
    of microseconds, and ages are kept exact, before their display rounding. *)

From stdpp Require Import base tactics list strings gmap.
From Stdlib Require Import ZArith NArith Lia Bool Ascii.
From S2P Require Import Prelude PyString PyDecimal PyCalendar PyTime PyJson JsonText Blake2b MinuteBuckets OrderBook TradeFlow FlowSnapshot.
Open Scope string_scope.
Open Scope py_scope.

(** ** Payloads *)

Definition LiquidationPayloadError (msg : string) : exn := ValueError ("LiquidationPayloadError:" +:+ msg).
Definition WrongLiquidationContractTypeError (msg : string) : exn :=
  ValueError ("WrongLiquidationContractTypeError:" +:+ msg).

Inductive LiquidatedPositionSide : Type := LONG | SHORT.

Record BinanceLiquidationOrder := mkLiquidation {
  lo_symbol : string;
  lo_pair_symbol : string;
  lo_order_side : string;
  lo_liquidated_position_side : LiquidatedPositionSide;
  lo_order_type : string;
  lo_time_in_force : string;
  lo_original_quantity : dec;
  lo_order_price : dec;
  lo_average_price : dec;
  lo_order_status : string;
  lo_last_filled_quantity : dec;
  lo_accumulated_filled_quantity : dec;
  lo_event_time : Z;
  lo_trade_time : Z;
  lo_stream_type : Z
}.

(** [BinanceLiquidationOrder.quote_notional] *)
Definition liquidation_notional (o : BinanceLiquidationOrder) : dec :=
  dmul (lo_accumulated_filled_quantity o) (lo_average_price o).

(** [_text] *)
Definition lq_text (payload : list (string * json)) (key : string) : result string :=
  let normalized := match json_get key payload with JNull => "" | v => py_strip (json_str v) end in
  if String.eqb normalized "" then Raise (LiquidationPayloadError ("forceOrder " +:+ key +:+ " is missing"))
  else Ok normalized.

(** [_decimal] with [positive=True], with [non_negative=True] otherwise *)
Definition lq_decimal (payload : list (string * json)) (key : string) (positive : bool) : result dec :=
  let error (what : string) := Raise (A := dec) (LiquidationPayloadError ("forceOrder " +:+ key +:+ what)) in
  let value := json_get key payload in
  match value with
  | JNull | JBool _ | JStr "" => error " is missing"
  | _ =>
      match json_number_text value with
      | None => error " is not numeric"
      | Some text =>
          match parse_decimal text with
          | None => error " is not numeric"
          | Some (Finite d) =>
              if positive then if dleb d dzero then error " must be positive" else Ok d
              else if dltb d dzero then error " must not be negative" else Ok d
          | Some _ => error " must be finite"
          end
      end
  end.

(** [_int] *)
Definition lq_int (payload : list (string * json)) (key : string) : result Z :=
  let not_int := LiquidationPayloadError ("forceOrder " +:+ key +:+ " must be an integer") in
  let! normalized := match json_get key payload with
                     | JBool _ => Raise not_int
                     | value => match json_int value with
                                | Ok z => Ok z
                                | Raise (TypeError _) => Raise not_int
                                | Raise e => match value_error_text e with
                                             | Some _ => Raise not_int
                                             | None => Raise e
                                             end
                                end
                     end in
  if (normalized <? 0)%Z then Raise (LiquidationPayloadError ("forceOrder " +:+ key +:+ " must not be negative"))
  else Ok normalized.

(** [_milliseconds_datetime] *)
Definition lq_milliseconds (payload : list (string * json)) (key : string) : result Z :=
  let! value := lq_int payload key in
  if (value <? max_epoch_ms)%Z then Ok (fromtimestamp_us value)
  else Raise (LiquidationPayloadError ("forceOrder " +:+ key +:+ " is outside the timestamp range")).

(** [type(identity["st"]) in (int, str)] when the field is there *)
Definition st_field_ok (identity : list (string * json)) : bool :=
  if dict_mem "st" identity
  then match json_get "st" identity with JInt _ | JStr _ => true | _ => false end
  else true.

(** the checks of [st] in the order object and in the event *)
Definition lq_stream_type (payload order : list (string * json)) : result Z :=
  if negb (st_field_ok payload && st_field_ok order)
  then Raise (LiquidationPayloadError "forceOrder st must be an integer") else
  let! stream_type := lq_int (if dict_mem "st" order then order else payload) "st" in
  let! _ := if dict_mem "st" order && dict_mem "st" payload
            then let! outer := lq_int payload "st" in
                 if (outer =? stream_type)%Z then Ok tt
                 else Raise (LiquidationPayloadError "forceOrder conflicting st identity fields")
            else Ok tt in
  if (stream_type =? CM_STREAM_TYPE)%Z
  then Raise (WrongLiquidationContractTypeError "COIN-M forceOrder payload st=2 is not valid for CCI USDⓈ-M liquidation flow")
  else if negb (stream_type =? UM_STREAM_TYPE)%Z
  then Raise (WrongLiquidationContractTypeError ("unsupported forceOrder stream type st=" +:+ string_of_Z stream_type))
  else Ok stream_type.

(** [except ValueError] around the two symbols *)
Definition lq_contract_symbol (value : json) : result string :=
  match exact_stream_symbol value with
  | Raise (ValueError _) => Raise (LiquidationPayloadError "forceOrder literal contract identity invalid")
  | r => r
  end.

(** the symbol and the pair, which must not contradict each other *)
Definition lq_identity (payload order : list (string * json)) : result (string * string) :=
  let! symbol := lq_contract_symbol (json_get "s" order) in
  let! pair_symbol := lq_contract_symbol (json_get "ps" (if dict_mem "ps" order then order else payload)) in
  let! _ := if dict_mem "ps" order && dict_mem "ps" payload
            then let! outer := lq_text payload "ps" in
                 if String.eqb (py_upper outer) pair_symbol then Ok tt
                 else Raise (LiquidationPayloadError "forceOrder conflicting ps identity fields")
            else Ok tt in
  Ok (symbol, pair_symbol).

(** the side of the position that an order of side [S] liquidates *)
Definition liquidated_side (order_side : string) : result LiquidatedPositionSide :=
  if String.eqb order_side "SELL" then Ok LONG
  else if String.eqb order_side "BUY" then Ok SHORT
  else Raise (LiquidationPayloadError "forceOrder S must be BUY or SELL").

Section Parse.
Context `{JsonErrors}.

(** [_mapping_payload] *)
Definition lq_mapping_payload (raw : raw_payload) : result (list (string * json)) :=
  match raw with
  | RawObject fields => Ok fields
  | RawText text =>
      match loads text with
      | Ok (JObj fields) => Ok fields
      | Ok _ => Raise (LiquidationPayloadError "forceOrder JSON payload must be an object")
      | Raise (JSONDecodeError _) => Raise (LiquidationPayloadError "forceOrder payload is malformed JSON")
      | Raise e => Raise e
      end
  end.

Definition parse_binance_liquidation (raw : raw_payload) : result BinanceLiquidationOrder :=
  let! outer := lq_mapping_payload raw in
  let payload := match json_get "data" outer with JObj inner => inner | _ => outer end in
  let is_force_order := match json_get "e" payload with JStr t => String.eqb t "forceOrder" | _ => false end in
  if negb is_force_order then Raise (LiquidationPayloadError "payload is not a forceOrder event") else
  match json_get "o" payload with
  | JObj order =>
      let! stream_type := lq_stream_type payload order in
      let! (symbol, pair_symbol) := lq_identity payload order in
      let! side_text := lq_text order "S" in
      let order_side := py_upper side_text in
      let! position_side := liquidated_side order_side in
      let! original_quantity := lq_decimal order "q" true in
      let! order_price := lq_decimal order "p" false in
      let! average_price := lq_decimal order "ap" true in
      let! last_filled_quantity := lq_decimal order "l" false in
      let! accumulated_filled_quantity := lq_decimal order "z" true in
      if dltb original_quantity accumulated_filled_quantity
      then Raise (LiquidationPayloadError "forceOrder accumulated fill z exceeds original q")
      else if dltb accumulated_filled_quantity last_filled_quantity
      then Raise (LiquidationPayloadError "forceOrder last fill l exceeds accumulated fill z") else
      let! order_type := lq_text order "o" in
      let! time_in_force := lq_text order "f" in
      let! order_status := lq_text order "X" in
      let! event_time := lq_milliseconds payload "E" in
      let! trade_time := lq_milliseconds order "T" in
      Ok {| lo_symbol := symbol; lo_pair_symbol := pair_symbol; lo_order_side := order_side;
            lo_liquidated_position_side := position_side; lo_order_type := py_upper order_type;
            lo_time_in_force := py_upper time_in_force; lo_original_quantity := original_quantity;
            lo_order_price := order_price; lo_average_price := average_price;
            lo_order_status := py_upper order_status; lo_last_filled_quantity := last_filled_quantity;
            lo_accumulated_filled_quantity := accumulated_filled_quantity; lo_event_time := event_time;
            lo_trade_time := trade_time; lo_stream_type := stream_type |}
  | _ => Raise (LiquidationPayloadError "forceOrder order object o is missing")
  end.
End Parse.

(** ** One minute *)

Record MinuteLiquidationBucket := mkLiquidationBucket {
  mb_bucket_start : Z;
  mb_long_quote : dec;
  mb_short_quote : dec;
  mb_event_count : Z;
  mb_long_event_count : Z;
  mb_short_event_count : Z;
  mb_largest_long : dec;
  mb_largest_short : dec
}.
#[export] Instance MinuteLiquidationBucket_eta : RecordEta MinuteLiquidationBucket := fun b =>
  mkLiquidationBucket (mb_bucket_start b) (mb_long_quote b) (mb_short_quote b) (mb_event_count b)
    (mb_long_event_count b) (mb_short_event_count b) (mb_largest_long b) (mb_largest_short b).

(** [MinuteLiquidationBucket(bucket_start=...)] *)
Definition new_liquidation_bucket (start : Z) : MinuteLiquidationBucket :=
  mkLiquidationBucket start dzero dzero 0 0 0 dzero dzero.

(** [MinuteLiquidationBucket.total_quote] *)
Definition bucket_total_quote (b : MinuteLiquidationBucket) : dec := dadd (mb_long_quote b) (mb_short_quote b).

(** [MinuteLiquidationBucket.apply] *)
Definition apply_liquidation (b : MinuteLiquidationBucket) (event : BinanceLiquidationOrder) : MinuteLiquidationBucket :=
  let notional := liquidation_notional event in
  let b := match lo_liquidated_position_side event with
           | LONG => b <| mb_long_quote := dadd (mb_long_quote b) notional |>
                       <| mb_long_event_count := (mb_long_event_count b + 1)%Z |>
                       <| mb_largest_long := dmax (mb_largest_long b) notional |>
           | SHORT => b <| mb_short_quote := dadd (mb_short_quote b) notional |>
                        <| mb_short_event_count := (mb_short_event_count b + 1)%Z |>
                        <| mb_largest_short := dmax (mb_largest_short b) notional |>
           end in
  b <| mb_event_count := (mb_event_count b + 1)%Z |>.

(** ** The aggregator *)

Definition MAX_RETAINED_LIQUIDATION_BUCKETS : Z := 16.
Definition DEFAULT_MAX_DEDUPE_FINGERPRINTS : Z := 128.

Record SymbolLiquidationAggregator := mkLiquidationAggregator {
  la_symbol : string;
  la_stale_after : Z;
  la_max_retained_buckets : nat;
  la_max_dedupe_fingerprints : nat;
  la_buckets : gmap Z MinuteLiquidationBucket;
  la_dedupe_order : list (list N);
  la_dedupe_seen : gset (list N);
  la_connected : bool;
  la_coverage_start : option Z;
  la_coverage_reason : string;
  la_last_state_change : option Z;
  la_accepted_event_count : Z;
  la_duplicate_event_count : Z;
  la_stale_event_count : Z;
  la_gap_count : Z;
  la_reconnect_count : Z
}.
#[export] Instance SymbolLiquidationAggregator_eta : RecordEta SymbolLiquidationAggregator := fun a =>
  mkLiquidationAggregator (la_symbol a) (la_stale_after a) (la_max_retained_buckets a)
    (la_max_dedupe_fingerprints a) (la_buckets a) (la_dedupe_order a) (la_dedupe_seen a) (la_connected a)
    (la_coverage_start a) (la_coverage_reason a) (la_last_state_change a) (la_accepted_event_count a)
    (la_duplicate_event_count a) (la_stale_event_count a) (la_gap_count a) (la_reconnect_count a).

(** [SymbolLiquidationAggregator.__init__] *)
Definition new_liquidations (symbol : string) (stale_after max_retained_buckets max_dedupe_fingerprints : Z)
    : result SymbolLiquidationAggregator :=
  let normalized := py_upper (py_strip symbol) in
  if String.eqb normalized "" then Raise (ValueError "liquidation symbol must not be blank")
  else if (stale_after <=? 0)%Z then Raise (ValueError "liquidation stale threshold must be greater than zero")
  else if (max_retained_buckets <? MAX_RETAINED_LIQUIDATION_BUCKETS)%Z
  then Raise (ValueError "max_retained_buckets must be at least 16")
  else if (max_dedupe_fingerprints <? 1)%Z then Raise (ValueError "max_dedupe_fingerprints must be positive")
  else Ok {| la_symbol := normalized; la_stale_after := stale_after;
             la_max_retained_buckets := Z.to_nat max_retained_buckets;
             la_max_dedupe_fingerprints := Z.to_nat max_dedupe_fingerprints; la_buckets := ∅;
             la_dedupe_order := []; la_dedupe_seen := ∅; la_connected := false; la_coverage_start := None;
             la_coverage_reason := "insufficient_window_coverage"; la_last_state_change := None;
             la_accepted_event_count := 0; la_duplicate_event_count := 0; la_stale_event_count := 0;
             la_gap_count := 0; la_reconnect_count := 0 |}.

(** [mark_connected] *)
Definition liquidations_connected (at_ : Z) (reconnect : bool) (a : SymbolLiquidationAggregator) : SymbolLiquidationAggregator :=
  let a := if reconnect
           then a <| la_reconnect_count := (la_reconnect_count a + 1)%Z |>
                  <| la_coverage_reason := "connection_reconnect_in_window" |>
           else match la_coverage_start a with
                | None => a <| la_coverage_reason := "insufficient_window_coverage" |>
                | Some _ => a
                end in
  a <| la_coverage_start := Some at_ |> <| la_last_state_change := Some at_ |> <| la_connected := true |>.

(** [mark_disconnected] *)
Definition liquidations_disconnected (at_ : Z) (a : SymbolLiquidationAggregator) : SymbolLiquidationAggregator :=
  let a := if la_connected a then a <| la_gap_count := (la_gap_count a + 1)%Z |> else a in
  a <| la_connected := false |> <| la_coverage_start := None |>
    <| la_coverage_reason := "connection_gap_in_window" |> <| la_last_state_change := Some at_ |>.

(** [isoformat] of an instant, with offset +00:00 *)
Definition iso_utc (t : Z) : string := isoformat (mkDatetime (epoch_us + t) (Some 0%Z)).

(** the joined fields of [_event_fingerprint] *)
Definition fingerprint_fields (event : BinanceLiquidationOrder) : list string :=
  [string_of_Z (lo_stream_type event); lo_symbol event; lo_pair_symbol event; lo_order_side event;
   lo_order_type event; lo_time_in_force event; dec_to_string (lo_original_quantity event);
   dec_to_string (lo_order_price event); dec_to_string (lo_average_price event); lo_order_status event;
   dec_to_string (lo_last_filled_quantity event); dec_to_string (lo_accumulated_filled_quantity event);
   iso_utc (lo_event_time event); iso_utc (lo_trade_time event)].

(** [_event_fingerprint]; the separator is the unit separator 0x1f *)
Definition event_fingerprint (event : BinanceLiquidationOrder) : list N :=
  blake2b_16 (py_join (String "031" "") (fingerprint_fields event)).

(** [_remember_fingerprint] *)
Definition remember_fingerprint (fingerprint : list N) (a : SymbolLiquidationAggregator) : SymbolLiquidationAggregator :=
  let a := if (la_max_dedupe_fingerprints a <=? length (la_dedupe_order a))%nat
           then match la_dedupe_order a with
                | expired :: rest => a <| la_dedupe_order := rest |> <| la_dedupe_seen := la_dedupe_seen a ∖ {[expired]} |>
                | [] => a
                end
           else a in
  a <| la_dedupe_order := (la_dedupe_order a ++ [fingerprint])%list |>
    <| la_dedupe_seen := {[fingerprint]} ∪ la_dedupe_seen a |>.

Definition liquidation_minute (event : BinanceLiquidationOrder) : Z := minute_start (lo_trade_time event).

(** the part of [ingest] after its guards *)
Definition accept_liquidation (event : BinanceLiquidationOrder) (fingerprint : list N) (a : SymbolLiquidationAggregator)
    : SymbolLiquidationAggregator :=
  let a := remember_fingerprint fingerprint a in
  a <| la_buckets := add_event liquidation_minute new_liquidation_bucket apply_liquidation
                       (la_max_retained_buckets a) (la_buckets a) event |>
    <| la_accepted_event_count := (la_accepted_event_count a + 1)%Z |>.

(** [ingest] *)
Definition liquidation_ingest (event : BinanceLiquidationOrder) (received : Z) (a : SymbolLiquidationAggregator)
    : result (bool * SymbolLiquidationAggregator) :=
  if negb (String.eqb (lo_symbol event) (la_symbol a))
  then Raise (ValueError ("forceOrder symbol " +:+ lo_symbol event +:+ " does not match aggregator " +:+ la_symbol a))
  else
  let fingerprint := event_fingerprint event in
  if decide (fingerprint ∈ la_dedupe_seen a)
  then Ok (false, a <| la_duplicate_event_count := (la_duplicate_event_count a + 1)%Z |>)
  else if (la_stale_after a <? received - lo_trade_time event)%Z
  then Ok (false, a <| la_stale_event_count := (la_stale_event_count a + 1)%Z |>
                    <| la_coverage_start := Some received |> <| la_coverage_reason := "stale_event_lag" |>
                    <| la_last_state_change := Some received |>)
  else Ok (true, accept_liquidation event fingerprint a).
