(* ===== verification/LiquidationSnapshot.v ===== *)
(** * Published liquidation windows (src/app/microstructure/liquidation_aggregator.py
    and liquidation_models.py)

    What a [SymbolLiquidationAggregator] publishes at an instant. *)

From stdpp Require Import base tactics list strings gmap.
From Stdlib Require Import ZArith NArith Lia Bool Ascii.
From S2P Require Import Prelude PyString PyDecimal PyTime MinuteBuckets OrderBook FlowSnapshot Liquidation.
Open Scope string_scope.
Open Scope py_scope.

Definition LIQUIDATION_SOURCE : string := "binance_futures:!forceOrder@arr[st=1]".

Inductive LiquidationAcceleration : Type := INCREASING | DECREASING | STABLE | INSUFFICIENT_DATA.

Definition acceleration_value (a : LiquidationAcceleration) : string :=
  match a with
  | INCREASING => "INCREASING"
  | DECREASING => "DECREASING"
  | STABLE => "STABLE"
  | INSUFFICIENT_DATA => "INSUFFICIENT_DATA"
  end.

Record LiquidationAccelerationSnapshot := mkAcceleration {
  ac_status : LiquidationAcceleration;
  ac_recent_minutes : Z;
  ac_prior_minutes : Z;
  ac_recent_quote_per_minute : option dec;
  ac_prior_quote_per_minute : option dec;
  ac_recent_vs_prior_ratio : option dec;
  ac_reason : option string
}.

(** The figures of a covered window; an uncovered one has none of them. *)
Record LiquidationFigures := mkLiquidationFigures {
  lf_long_liquidation_quote : dec;
  lf_short_liquidation_quote : dec;
  lf_total_liquidation_quote : dec;
  lf_event_count : Z;
  lf_long_event_count : Z;
  lf_short_event_count : Z;
  lf_largest_long_liquidation : option dec;
  lf_largest_short_liquidation : option dec;
  lf_liquidation_imbalance : option dec;
  lf_liquidation_quote_per_minute : dec;
  lf_liquidation_event_count_per_minute : dec;
  lf_largest_event_share_of_total : option dec
}.

Record LiquidationWindowSnapshot := mkLiquidationWindow {
  lw_window_minutes : Z;
  lw_window_start : Z;
  lw_window_end : Z;
  lw_coverage_seconds : Z;
  lw_coverage_complete : bool;
  lw_status : ContextStatus;
  lw_reason : option string;
  lw_figures : option LiquidationFigures;
  lw_acceleration : option LiquidationAccelerationSnapshot
}.

Record LiquidationFlowSnapshot := mkLiquidationSnapshot {
  ls_symbol : string;
  ls_source : string;
  ls_observed_at : option Z;
  ls_age : option Z;
  ls_status : ContextStatus;
  ls_reason : option string;
  ls_windows : list (string * LiquidationWindowSnapshot);
  ls_liquidation_summary : string;
  ls_retained_bucket_count : Z;
  ls_max_retained_bucket_count : Z;
  ls_dedupe_fingerprint_count : Z;
  ls_max_dedupe_fingerprint_count : Z;
  ls_accepted_event_count : Z;
  ls_duplicate_event_count : Z;
  ls_malformed_event_count : Z;
  ls_stale_event_count : Z;
  ls_wrong_contract_event_count : Z;
  ls_untracked_symbol_event_count : Z;
  ls_connection_count : Z;
  ls_disconnect_count : Z;
  ls_reconnect_count : Z
}.

(** [max(values, default=ZERO)] *)
Definition dmaximum (values : list dec) : dec :=
  match values with [] => dzero | v :: rest => fold_left dmax rest v end.

(** [{1: 4, 5: 10}.get(minutes)] *)
Definition prior_minutes_of (minutes : nat) : option nat :=
  match minutes with 1 => Some 4 | 5 => Some 10 | _ => None end%nat.

(** the comparison of the two rates *)
Definition acceleration_label (recent_rate prior_rate : dec) : LiquidationAcceleration :=
  if dltb prior_rate recent_rate then INCREASING
  else if dltb recent_rate prior_rate then DECREASING else STABLE.

(** [_acceleration_snapshot] *)
Definition acceleration_snapshot (a : SymbolLiquidationAggregator) (minutes : nat) (window_start : Z) (recent_quote : option dec)
    : result (option LiquidationAccelerationSnapshot) :=
  match prior_minutes_of minutes with
  | None => Ok None
  | Some prior_minutes =>
      let prior_start := (window_start - minute_us * Z.of_nat prior_minutes)%Z in
      let history_complete := covered_from (la_connected a) (la_coverage_start a) prior_start in
      match recent_quote, history_complete with
      | Some recent, true =>
          let prior_quote := dsum (bucket_total_quote <$> buckets_between prior_start window_start (la_buckets a)) in
          let! recent_rate := ddiv recent (dec_of_Z (Z.of_nat minutes)) in
          let! prior_rate := ddiv prior_quote (dec_of_Z (Z.of_nat prior_minutes)) in
          let! vs_prior := ratio_if_positive recent_rate prior_rate in
          let reason := if deqb prior_rate dzero && dltb dzero recent_rate then Some "prior_rate_zero" else None in
          let! q_recent := dquantize recent_rate (-8) in
          let! q_prior := dquantize prior_rate (-8) in
          let! q_ratio := ratio vs_prior in
          Ok (Some {| ac_status := acceleration_label recent_rate prior_rate;
                      ac_recent_minutes := Z.of_nat minutes; ac_prior_minutes := Z.of_nat prior_minutes;
                      ac_recent_quote_per_minute := Some q_recent; ac_prior_quote_per_minute := Some q_prior;
                      ac_recent_vs_prior_ratio := q_ratio; ac_reason := reason |})
      | _, _ =>
          Ok (Some {| ac_status := INSUFFICIENT_DATA; ac_recent_minutes := Z.of_nat minutes;
                      ac_prior_minutes := Z.of_nat prior_minutes; ac_recent_quote_per_minute := None;
                      ac_prior_quote_per_minute := None; ac_recent_vs_prior_ratio := None;
                      ac_reason := Some "insufficient_prior_window_coverage" |})
      end
  end.

(** [_money(value) if value > 0 else None] *)
Definition money_if_positive (value : dec) : result (option dec) :=
  if dltb dzero value then let! m := money value in Ok (Some m) else Ok None.

(** the total quote of the selected buckets *)
Definition window_total_quote (selected : list MinuteLiquidationBucket) : dec :=
  dadd (dsum (mb_long_quote <$> selected)) (dsum (mb_short_quote <$> selected)).

(** the figures of a covered window *)
Definition liquidation_figures (selected : list MinuteLiquidationBucket) (minutes : nat) : result LiquidationFigures :=
  let long_quote := dsum (mb_long_quote <$> selected) in
  let short_quote := dsum (mb_short_quote <$> selected) in
  let total_quote := window_total_quote selected in
  let event_count := zsum (mb_event_count <$> selected) in
  let largest_long := dmaximum (mb_largest_long <$> selected) in
  let largest_short := dmaximum (mb_largest_short <$> selected) in
  let largest := dmax largest_long largest_short in
  let! imbalance := ratio_if_positive (dsub short_quote long_quote) total_quote in
  let! m_long := money long_quote in
  let! m_short := money short_quote in
  let! m_total := money total_quote in
  let! m_largest_long := money_if_positive largest_long in
  let! m_largest_short := money_if_positive largest_short in
  let! r_imbalance := ratio imbalance in
  let! per_minute := ddiv total_quote (dec_of_Z (Z.of_nat minutes)) in
  let! q_per_minute := dquantize per_minute (-8) in
  let! count_per_minute := ddiv (dec_of_Z event_count) (dec_of_Z (Z.of_nat minutes)) in
  let! q_count_per_minute := dquantize count_per_minute (-8) in
  let! share := ratio_if_positive largest total_quote in
  let! r_share := ratio share in
  Ok {| lf_long_liquidation_quote := m_long; lf_short_liquidation_quote := m_short;
        lf_total_liquidation_quote := m_total; lf_event_count := event_count;
        lf_long_event_count := zsum (mb_long_event_count <$> selected);
        lf_short_event_count := zsum (mb_short_event_count <$> selected);
        lf_largest_long_liquidation := m_largest_long; lf_largest_short_liquidation := m_largest_short;
        lf_liquidation_imbalance := r_imbalance; lf_liquidation_quote_per_minute := q_per_minute;
        lf_liquidation_event_count_per_minute := q_count_per_minute;
        lf_largest_event_share_of_total := r_share |}.

(** the status and the reason of a window *)
Definition liquidation_window_status (a : SymbolLiquidationAggregator) (coverage_complete : bool)
    : ContextStatus * option string :=
  if negb (la_connected a) then (UNAVAILABLE, Some "stream_disconnected")
  else if negb coverage_complete
  then (if String.eqb (la_coverage_reason a) "stale_event_lag" then STALE else UNAVAILABLE, Some (la_coverage_reason a))
  else (VERIFIED, None).

(** [_window_snapshot] *)
Definition liquidation_window_snapshot (minutes : nat) (as_of : Z) (a : SymbolLiquidationAggregator)
    : result LiquidationWindowSnapshot :=
  let window_end := minute_start as_of in
  let window_start := (window_end - minute_us * Z.of_nat minutes)%Z in
  let coverage_complete := covered_from (la_connected a) (la_coverage_start a) window_start in
  let (status, reason) := liquidation_window_status a coverage_complete in
  let selected := buckets_between window_start window_end (la_buckets a) in
  let! figures := if coverage_complete then let! f := liquidation_figures selected minutes in Ok (Some f) else Ok None in
  let! acceleration := acceleration_snapshot a minutes window_start
                         (if coverage_complete then Some (window_total_quote selected) else None) in
  Ok {| lw_window_minutes := Z.of_nat minutes; lw_window_start := window_start; lw_window_end := window_end;
        lw_coverage_seconds := coverage_seconds (la_coverage_start a) window_start window_end;
        lw_coverage_complete := coverage_complete; lw_status := status; lw_reason := reason;
        lw_figures := figures; lw_acceleration := acceleration |}.

(** [f"{value:+.4f}"] *)
Definition format_signed_4f (value : dec) : string :=
  let r := drescale value (-4) in
  (if d_neg r then "-" else "+") +:+ dec_format_f (mkDec false (d_coef r) (d_exp r)).

(** [_compact] *)
Definition compact (value : option dec) : result string :=
  match value with
  | None => Ok "N/A"
  | Some v =>
      let (divisor, suffix) := compact_scale (dabs v) in
      let! quotient := ddiv v divisor in
      let! scaled := dquantize quotient (-2) in
      Ok (dec_to_string scaled +:+ suffix)
  end.

(** [_liquidation_summary] *)
Definition liquidation_summary (one five canonical : LiquidationWindowSnapshot) (status : ContextStatus) (reason : option string)
    : result string :=
  match status, lw_figures canonical with
  | VERIFIED, Some f =>
      let imbalance := match lf_liquidation_imbalance f with Some i => format_signed_4f i | None => "N/A" end in
      let acceleration := match lw_acceleration five with
                          | Some s => acceleration_value (ac_status s)
                          | None => acceleration_value INSUFFICIENT_DATA
                          end in
      let! long := compact (Some (lf_long_liquidation_quote f)) in
      let! short := compact (Some (lf_short_liquidation_quote f)) in
      let! rate := compact (lf_liquidation_quote_per_minute <$> lw_figures one) in
      Ok ("15m observed liquidations: long " +:+ long +:+ " USDT; short " +:+ short +:+ " USDT; imbalance "
          +:+ imbalance +:+ "; 1m rate " +:+ rate +:+ " USDT/min; 5m activity " +:+ acceleration +:+ ".")
  | _, _ => Ok ("Liquidation flow unavailable: " +:+ reason_or reason (reason_or (lw_reason canonical) "unknown_reason") +:+ ".")
  end.

(** the validator of [symbol] *)
Definition liquidation_snapshot_symbol (value : string) : result string :=
  let normalized := py_upper (py_strip value) in
  if String.eqb normalized "" then Raise (ValueError "liquidation symbol must not be blank") else Ok normalized.

(** [observed_at] and the age of a view *)
Definition liquidation_observed (a : SymbolLiquidationAggregator) (now : Z) : option Z * option Z :=
  if la_connected a then (Some now, Some 0%Z)
  else (la_last_state_change a, (fun t => Z.max (now - t) 0) <$> la_last_state_change a).

(** [snapshot] *)
Definition liquidation_snapshot (now : Z) (a : SymbolLiquidationAggregator) : result LiquidationFlowSnapshot :=
  let! one := liquidation_window_snapshot 1 now a in
  let! five := liquidation_window_snapshot 5 now a in
  let! canonical := liquidation_window_snapshot 15 now a in
  let (observed_at, age) := liquidation_observed a now in
  let! summary := liquidation_summary one five canonical (lw_status canonical) (lw_reason canonical) in
  let! symbol := liquidation_snapshot_symbol (la_symbol a) in
  Ok {| ls_symbol := symbol; ls_source := LIQUIDATION_SOURCE; ls_observed_at := observed_at; ls_age := age;
        ls_status := lw_status canonical; ls_reason := lw_reason canonical;
        ls_windows := [("1m", one); ("5m", five); ("15m", canonical)]; ls_liquidation_summary := summary;
        ls_retained_bucket_count := Z.of_nat (size (la_buckets a));
        ls_max_retained_bucket_count := Z.of_nat (la_max_retained_buckets a);
        ls_dedupe_fingerprint_count := Z.of_nat (length (la_dedupe_order a));
        ls_max_dedupe_fingerprint_count := Z.of_nat (la_max_dedupe_fingerprints a);
        ls_accepted_event_count := la_accepted_event_count a;
        ls_duplicate_event_count := la_duplicate_event_count a; ls_malformed_event_count := 0;
        ls_stale_event_count := la_stale_event_count a; ls_wrong_contract_event_count := 0;
        ls_untracked_symbol_event_count := 0; ls_connection_count := 0;
        ls_disconnect_count := la_gap_count a; ls_reconnect_count := la_reconnect_count a |}.

(** [LiquidationFlowSnapshot.unavailable] *)
Definition liquidation_unavailable (symbol reason : string) (status : ContextStatus) (observed_at age : option Z)
    : result LiquidationFlowSnapshot :=
  let! symbol := liquidation_snapshot_symbol (py_upper (py_strip symbol)) in
  Ok {| ls_symbol := symbol; ls_source := LIQUIDATION_SOURCE; ls_observed_at := observed_at;
        ls_age := (fun a => Z.max a 0) <$> age; ls_status := status; ls_reason := Some reason; ls_windows := [];
        ls_liquidation_summary := "Liquidation flow unavailable: " +:+ reason +:+ "."; ls_retained_bucket_count := 0;
        ls_max_retained_bucket_count := 0; ls_dedupe_fingerprint_count := 0; ls_max_dedupe_fingerprint_count := 0;
        ls_accepted_event_count := 0; ls_duplicate_event_count := 0; ls_malformed_event_count := 0;
        ls_stale_event_count := 0; ls_wrong_contract_event_count := 0; ls_untracked_symbol_event_count := 0;
        ls_connection_count := 0; ls_disconnect_count := 0; ls_reconnect_count := 0 |}.

(** the value of [strategy_context]: published for a verified or stale view only *)
Definition liquidation_strategy_context (s : LiquidationFlowSnapshot) : option (ContextStatus * string * option Z * string) :=
  match ls_status s with
  | VERIFIED | STALE => Some (ls_status s, ls_source s, ls_observed_at s, ls_liquidation_summary s)
  | _ => None
  end.
