(* ===== verification/LiquidationProps.v ===== *)
(** * Properties of the liquidation aggregator

    Reachable states are paired with the accepted observations, the instants at
    which coverage was interrupted, and the clock. *)

From stdpp Require Import base tactics list strings sorting gmap sets.
From Stdlib Require Import ZArith NArith Lia Bool Ascii.
From S2P Require Import Prelude PyString PyDecimal PyTime MinuteBuckets OrderBook FlowSnapshot Liquidation LiquidationSnapshot.
Open Scope string_scope.
Open Scope py_scope.

(** ** Histories *)

(** A run with the accepted observations, the interruptions of coverage (a
    connection, a loss of it, a stale observation) and the clock, which does not
    run backwards. *)
Inductive liquidation_history : SymbolLiquidationAggregator -> list BinanceLiquidationOrder -> list Z -> Z -> Prop :=
| lh_new symbol stale_after max_retained max_dedupe a now :
    new_liquidations symbol stale_after max_retained max_dedupe = Ok a -> liquidation_history a [] [] now
| lh_connected a log breaks now at_ reconnect :
    liquidation_history a log breaks now -> (now <= at_)%Z ->
    liquidation_history (liquidations_connected at_ reconnect a) log (at_ :: breaks) at_
| lh_disconnected a log breaks now at_ :
    liquidation_history a log breaks now -> (now <= at_)%Z ->
    liquidation_history (liquidations_disconnected at_ a) log (at_ :: breaks) at_
| lh_accepted a log breaks now event received a' :
    liquidation_history a log breaks now -> (now <= received)%Z ->
    liquidation_ingest event received a = Ok (true, a') ->
    liquidation_history a' (log ++ [event]) breaks received
| lh_duplicate a log breaks now event received a' :
    liquidation_history a log breaks now -> (now <= received)%Z -> event_fingerprint event ∈ la_dedupe_seen a ->
    liquidation_ingest event received a = Ok (false, a') ->
    liquidation_history a' log breaks received
| lh_stale a log breaks now event received a' :
    liquidation_history a log breaks now -> (now <= received)%Z -> event_fingerprint event ∉ la_dedupe_seen a ->
    liquidation_ingest event received a = Ok (false, a') ->
    liquidation_history a' log (received :: breaks) received.

Abbreviation liquidation_replay := (replay_bucket liquidation_minute new_liquidation_bucket apply_liquidation).
Abbreviation liquidation_retains := (retains liquidation_minute new_liquidation_bucket apply_liquidation).

(** the last [n] elements *)
Definition lastn {A} (n : nat) (l : list A) : list A := drop (length l - n) l.

Record liquidation_inv (a : SymbolLiquidationAggregator) (log : list BinanceLiquidationOrder) (breaks : list Z) (now : Z) : Prop := mkLiquidationInv {
  li_retains : liquidation_retains (la_max_retained_buckets a) (la_buckets a) log;
  li_max : (16 <= la_max_retained_buckets a)%nat;
  li_symbol : Forall (fun e => lo_symbol e = la_symbol a) log;
  li_dedupe_max : (1 <= la_max_dedupe_fingerprints a)%nat;
  li_queue : la_dedupe_order a = lastn (la_max_dedupe_fingerprints a) (event_fingerprint <$> log);
  li_distinct : NoDup (la_dedupe_order a);
  li_seen : la_dedupe_seen a = list_to_set (la_dedupe_order a);
  li_accepted : la_accepted_event_count a = Z.of_nat (length log);
  li_clock : Forall (fun t => t <= now)%Z breaks;
  li_coverage : forall start, la_coverage_start a = Some start -> Forall (fun t => t <= start)%Z breaks
}.

(** ** The duplicate memory *)

Lemma lastn_short {A} n (l : list A) : (length l <= n)%nat -> lastn n l = l.
Proof. intros Hle. unfold lastn. by replace (length l - n)%nat with 0%nat by lia. Qed.

Lemma length_lastn {A} n (l : list A) : length (lastn n l) = Nat.min n (length l).
Proof. unfold lastn. rewrite length_drop. lia. Qed.

(** forgetting the oldest of a full memory and appending *)
Lemma lastn_snoc {A} n (l : list A) x :
  (1 <= n)%nat ->
  lastn n (l ++ [x]) = ((if (n <=? length (lastn n l))%nat then tail (lastn n l) else lastn n l) ++ [x])%list.
Proof.
  intros Hn. rewrite length_lastn. destruct (Nat.leb_spec n (Nat.min n (length l))) as [Hle|Hlt].
  - unfold lastn. rewrite length_app. cbn [length]. rewrite drop_app_le by lia. f_equal.
    assert (forall k : list A, tail k = drop 1 k) as -> by (by intros []). rewrite drop_drop. f_equal. lia.
  - rewrite !lastn_short; [done|lia|]. rewrite length_app. cbn. lia.
Qed.

Lemma remember_fingerprint_queue f a :
  (1 <= la_max_dedupe_fingerprints a)%nat -> NoDup (la_dedupe_order a) -> la_dedupe_seen a = list_to_set (la_dedupe_order a) ->
  f ∉ la_dedupe_seen a ->
  let a' := remember_fingerprint f a in
  la_dedupe_order a' = ((if (la_max_dedupe_fingerprints a <=? length (la_dedupe_order a))%nat
                        then tail (la_dedupe_order a) else la_dedupe_order a) ++ [f])%list /\
  NoDup (la_dedupe_order a') /\ la_dedupe_seen a' = list_to_set (la_dedupe_order a').
Proof.
  intros Hmax Hnd Hseen Hf. unfold remember_fingerprint. rewrite Hseen, elem_of_list_to_set in Hf.
  destruct (Nat.leb_spec (la_max_dedupe_fingerprints a) (length (la_dedupe_order a))) as [Hle|Hlt]; cbn.
  - destruct (la_dedupe_order a) as [|old rest] eqn:Eo; [cbn in Hle; lia|]. cbn.
    apply NoDup_cons in Hnd as [Hold Hnd]. apply not_elem_of_cons in Hf as [Hne Hf].
    split_and!; [done| |].
    + apply NoDup_app. split_and!; [done| |apply NoDup_singleton]. intros x Hx ->%list_elem_of_singleton. done.
    + rewrite Hseen, list_to_set_app_L. cbn. set_solver.
  - split_and!; [done| |].
    + apply NoDup_app. split_and!; [done| |apply NoDup_singleton]. intros x Hx ->%list_elem_of_singleton. done.
    + rewrite Hseen, list_to_set_app_L. cbn. set_solver.
Qed.

(** ** The invariant *)

(** The decision of [ingest]. *)
Lemma liquidation_ingest_cases event received a ok a' :
  liquidation_ingest event received a = Ok (ok, a') ->
  lo_symbol event = la_symbol a /\
  ((event_fingerprint event ∈ la_dedupe_seen a /\ ok = false /\
      a' = (a <| la_duplicate_event_count := (la_duplicate_event_count a + 1)%Z |>)) \/
   (~ event_fingerprint event ∈ la_dedupe_seen a /\ (la_stale_after a < received - lo_trade_time event)%Z /\ ok = false /\
      a' = (a <| la_stale_event_count := (la_stale_event_count a + 1)%Z |> <| la_coverage_start := Some received |>
              <| la_coverage_reason := "stale_event_lag" |> <| la_last_state_change := Some received |>)) \/
   (~ event_fingerprint event ∈ la_dedupe_seen a /\ (received - lo_trade_time event <= la_stale_after a)%Z /\ ok = true /\
      a' = accept_liquidation event (event_fingerprint event) a)).
Proof.
  unfold liquidation_ingest. destruct (String.eqb_spec (lo_symbol event) (la_symbol a)) as [Hs|]; cbn [negb]; [|done].
  intros H. split; [done|]. destruct (decide (event_fingerprint event ∈ la_dedupe_seen a)) as [Hin|Hin].
  - apply ok_inj in H. injection H as <- <-. auto.
  - destruct (Z.ltb_spec (la_stale_after a) (received - lo_trade_time event)); apply ok_inj in H; injection H as <- <-; auto 8.
Qed.

Lemma remember_fingerprint_frame f a :
  let a' := remember_fingerprint f a in
  la_buckets a' = la_buckets a /\ la_max_retained_buckets a' = la_max_retained_buckets a /\
  la_max_dedupe_fingerprints a' = la_max_dedupe_fingerprints a /\ la_symbol a' = la_symbol a /\
  la_coverage_start a' = la_coverage_start a /\ la_accepted_event_count a' = la_accepted_event_count a.
Proof. unfold remember_fingerprint. destruct (_ <=? _)%nat, (la_dedupe_order a); done. Qed.

Lemma liquidation_inv_accept a log breaks now event received :
  liquidation_inv a log breaks now -> (now <= received)%Z -> lo_symbol event = la_symbol a ->
  event_fingerprint event ∉ la_dedupe_seen a ->
  liquidation_inv (accept_liquidation event (event_fingerprint event) a) (log ++ [event]) breaks received.
Proof.
  intros [Hret Hmax Hsym Hdm Hq Hnd Hseen Hacc Hclock Hcov] Hnow Hs Hf.
  destruct (remember_fingerprint_frame (event_fingerprint event) a) as (Eb & Em & Ed & Es & Ec & Ea).
  destruct (remember_fingerprint_queue (event_fingerprint event) a Hdm Hnd Hseen Hf) as (Hq' & Hnd' & Hseen').
  unfold accept_liquidation. set (a1 := remember_fingerprint (event_fingerprint event) a) in *. clearbody a1.
  split; cbn; rewrite ?Eb, ?Em, ?Ed, ?Es, ?Ec, ?Ea; try done.
  - apply add_event_retains; [lia|done].
  - apply Forall_app. split; [done|]. by constructor.
  - rewrite Hq', fmap_app. change (event_fingerprint <$> [event]) with [event_fingerprint event].
    rewrite lastn_snoc by done. by rewrite <- Hq.
  - rewrite length_app, Hacc. cbn. lia.
  - eapply Forall_impl; [exact Hclock|]. cbn. lia.
Qed.

Lemma Forall_le_trans (l : list Z) (a b : Z) : Forall (fun t => t <= a)%Z l -> (a <= b)%Z -> Forall (fun t => t <= b)%Z l.
Proof. intros H Hab. eapply Forall_impl; [exact H|]. cbn. lia. Qed.

(** Steps that touch only counters, the connection and the coverage. *)
Lemma liquidation_inv_frame a a' log breaks breaks' now now' :
  liquidation_inv a log breaks now -> (now <= now')%Z ->
  la_buckets a' = la_buckets a -> la_max_retained_buckets a' = la_max_retained_buckets a -> la_symbol a' = la_symbol a ->
  la_max_dedupe_fingerprints a' = la_max_dedupe_fingerprints a -> la_dedupe_order a' = la_dedupe_order a ->
  la_dedupe_seen a' = la_dedupe_seen a -> la_accepted_event_count a' = la_accepted_event_count a ->
  (breaks' = breaks /\ la_coverage_start a' = la_coverage_start a \/
   breaks' = now' :: breaks /\ (la_coverage_start a' = Some now' \/ la_coverage_start a' = None)) ->
  liquidation_inv a' log breaks' now'.
Proof.
  intros [Hret Hmax Hsym Hdm Hq Hnd Hseen Hacc Hclock Hcov] Hnow Eb Em Es Ed Eo Ee Ea Hbr.
  pose proof (Forall_le_trans _ _ _ Hclock Hnow) as Hclock'.
  split; rewrite ?Eb, ?Em, ?Es, ?Ed, ?Eo, ?Ee, ?Ea; try done.
  - destruct Hbr as [[-> _]|[-> _]]; [done|]. constructor; [lia|done].
  - intros start Hstart. destruct Hbr as [[-> Hc]|[-> [Hc|Hc]]]; rewrite Hc in Hstart; [by apply Hcov| |done].
    injection Hstart as <-. constructor; [lia|done].
Qed.

Lemma liquidation_history_inv a log breaks now :
  liquidation_history a log breaks now -> liquidation_inv a log breaks now.
Proof.
  induction 1 as [symbol stale_after max_retained max_dedupe a now Hnew|a log breaks now at_ reconnect _ IH Hat
    |a log breaks now at_ _ IH Hat|a log breaks now event received a' _ IH Hat Hin
    |a log breaks now event received a' _ IH Hat Hf Hin|a log breaks now event received a' _ IH Hat Hf Hin].
  - unfold new_liquidations in Hnew. destruct (String.eqb _ _); [done|]. destruct (_ <=? _)%Z; [done|].
    destruct (Z.ltb_spec max_retained MAX_RETAINED_LIQUIDATION_BUCKETS); [done|].
    destruct (Z.ltb_spec max_dedupe 1); [done|]. apply ok_inj in Hnew as <-. unfold MAX_RETAINED_LIQUIDATION_BUCKETS in *.
    split; cbn; [apply retains_empty|lia|constructor|lia| |constructor|done|done|constructor|done].
    unfold lastn. by rewrite drop_nil.
  - eapply liquidation_inv_frame; [exact IH|exact Hat|by destruct reconnect; cbn; destruct (la_coverage_start a)..|].
    right. split; [done|]. by left.
  - eapply liquidation_inv_frame; [exact IH|exact Hat|by cbn; destruct (la_connected a)..|]. right. split; [done|]. by right.
  - apply liquidation_ingest_cases in Hin as [Hs [(_ & [=] & _)|[(_ & _ & [=] & _)|(Hf & _ & _ & ->)]]].
    by eapply liquidation_inv_accept.
  - apply liquidation_ingest_cases in Hin as [Hs [(_ & _ & ->)|[(Hn & _)|(Hn & _)]]]; [|done|done].
    eapply liquidation_inv_frame; [exact IH|exact Hat|done..|]. by left.
  - apply liquidation_ingest_cases in Hin as [Hs [(Hn & _)|[(_ & _ & _ & ->)|(_ & _ & [=] & _)]]]; [done|].
    eapply liquidation_inv_frame; [exact IH|exact Hat|done..|]. right. split; [done|]. by left.
Qed.

(** ** Duplicates *)

(** No observation is counted twice while it is remembered: the memory holds
    the fingerprints of exactly the last [max_dedupe_fingerprints] accepted
    observations, all distinct, and offering again an observation with one of
    these fingerprints, at any time and whatever its lag, is refused and changes
    nothing but the duplicate counter. *)
Theorem recent_liquidation_not_counted_twice a log breaks now event received :
  liquidation_history a log breaks now -> lo_symbol event = la_symbol a ->
  event_fingerprint event ∈ lastn (la_max_dedupe_fingerprints a) (event_fingerprint <$> log) ->
  NoDup (lastn (la_max_dedupe_fingerprints a) (event_fingerprint <$> log)) /\
  (length (la_dedupe_order a) <= la_max_dedupe_fingerprints a)%nat /\
  liquidation_ingest event received a
  = Ok (false, a <| la_duplicate_event_count := (la_duplicate_event_count a + 1)%Z |>).
Proof.
  intros Hi%liquidation_history_inv Hs Hin. rewrite <- (li_queue _ _ _ _ Hi) in *. split_and!; [apply Hi| |].
  - rewrite (li_queue _ _ _ _ Hi), length_lastn. lia.
  - unfold liquidation_ingest. rewrite Hs, String.eqb_refl. cbn [negb]. rewrite decide_True; [done|].
    by rewrite (li_seen _ _ _ _ Hi), elem_of_list_to_set.
Qed.

(** ** The windows as the accepted observations give them *)

Definition liquidations_between (lo hi : Z) (log : list BinanceLiquidationOrder) : list BinanceLiquidationOrder :=
  filter (fun e => lo <= lo_trade_time e < hi)%Z log.

(** the aggregator, had it kept every minute of its accepted observations *)
Definition with_all_minutes (log : list BinanceLiquidationOrder) (a : SymbolLiquidationAggregator) : SymbolLiquidationAggregator :=
  a <| la_buckets := unpruned liquidation_minute new_liquidation_bucket apply_liquidation log |>.

Lemma retained_liquidations a log breaks now as_of lo n :
  liquidation_inv a log breaks now -> (forall e, e ∈ log -> (lo_trade_time e <= as_of)%Z) ->
  (lo mod minute_us = 0)%Z -> (window_start 15 as_of <= lo)%Z ->
  buckets_between lo (lo + minute_us * Z.of_nat n) (la_buckets a)
  = buckets_between lo (lo + minute_us * Z.of_nat n) (la_buckets (with_all_minutes log a)).
Proof.
  intros Hi Htimes Hmod Hlo. pose proof (li_max _ _ _ _ Hi) as Hmax.   transitivity (omap (liquidation_replay log) (minute_range lo n)).
  - eapply (retained_window _ _ _ _ lo_trade_time); [|exact (li_retains _ _ _ _ Hi)|by intros e He; split; [|apply Htimes]|done|].
    + lia.
    + unfold window_start, minute_us in *. lia.
  - symmetry. by apply (unpruned_window _ _ _ lo_trade_time).
Qed.

Lemma liquidation_window_buckets a log breaks now as_of n prior :
  liquidation_inv a log breaks now -> (forall e, e ∈ log -> (lo_trade_time e <= as_of)%Z) -> (n + prior <= 15)%nat ->
  let lo := window_start n as_of in
  buckets_between lo (minute_start as_of) (la_buckets a)
  = buckets_between lo (minute_start as_of) (la_buckets (with_all_minutes log a)) /\
  buckets_between (lo - minute_us * Z.of_nat prior) lo (la_buckets a)
  = buckets_between (lo - minute_us * Z.of_nat prior) lo (la_buckets (with_all_minutes log a)).
Proof.
  intros Hi Htimes Hn lo. split.
  - rewrite (window_end_eq n as_of). fold lo. eapply retained_liquidations; [done|done|apply window_start_mod|].
    unfold lo, window_start, minute_us. lia.
  - assert (lo - minute_us * Z.of_nat prior = window_start (n + prior) as_of)%Z as Heq
      by (unfold lo, window_start, minute_us; lia).
    assert (lo = window_start (n + prior) as_of + minute_us * Z.of_nat prior)%Z as Hlo by lia.
    rewrite Heq, Hlo. eapply retained_liquidations; [done|done|apply window_start_mod|]. unfold window_start, minute_us. lia.
Qed.

Definition counted_side (side : LiquidatedPositionSide) (e : BinanceLiquidationOrder) : Z :=
  match side, lo_liquidated_position_side e with LONG, LONG | SHORT, SHORT => 1%Z | _, _ => 0%Z end.

Lemma apply_liquidation_counts b e :
  mb_event_count (apply_liquidation b e) = (mb_event_count b + 1)%Z /\
  mb_long_event_count (apply_liquidation b e) = (mb_long_event_count b + counted_side LONG e)%Z /\
  mb_short_event_count (apply_liquidation b e) = (mb_short_event_count b + counted_side SHORT e)%Z.
Proof. unfold apply_liquidation, counted_side. destruct (lo_liquidated_position_side e); cbn; lia. Qed.

(** a counter of the buckets, summed over the minutes of a window *)
Lemma window_counter log n as_of (count : MinuteLiquidationBucket -> Z) (step : BinanceLiquidationOrder -> Z) :
  (forall k, count (new_liquidation_bucket k) = 0%Z) ->
  (forall b e, count (apply_liquidation b e) = (count b + step e)%Z) ->
  zsum (count <$> buckets_between (window_start n as_of) (minute_start as_of)
                    (unpruned liquidation_minute new_liquidation_bucket apply_liquidation log))
  = steps_total step (liquidations_between (window_start n as_of) (minute_start as_of) log).
Proof.
  intros H0 Hstep. rewrite (window_end_eq n as_of), (unpruned_window _ _ _ lo_trade_time) by (done || apply window_start_mod).
  rewrite zsum_foldr, (steps_total_keys liquidation_minute new_liquidation_bucket apply_liquidation count step H0 Hstep)
    by apply minute_range_nodup.
  by rewrite (filter_minutes liquidation_minute new_liquidation_bucket apply_liquidation lo_trade_time) by (done || apply window_start_mod).
Qed.

Lemma figures_counts selected n f :
  liquidation_figures selected n = Ok f ->
  lf_event_count f = zsum (mb_event_count <$> selected) /\ lf_long_event_count f = zsum (mb_long_event_count <$> selected) /\
  lf_short_event_count f = zsum (mb_short_event_count <$> selected).
Proof.
  unfold liquidation_figures. intros H. repeat (apply bind_ok in H as (? & _ & H)). by apply ok_inj in H as <-.
Qed.

(** Dropping old minutes is never visible: at every instant not before the
    accepted observations, each published window, its acceleration against the
    earlier minutes and its errors included, is the one the aggregator would
    publish had it kept every minute of every accepted observation; and the
    event counts of a covered window are the numbers of accepted observations,
    of long and of short liquidations, that lie in it. *)
Theorem liquidation_window_is_replay a log breaks now as_of n :
  liquidation_history a log breaks now -> (forall e, e ∈ log -> (lo_trade_time e <= as_of)%Z) -> (n = 1 \/ n = 5 \/ n = 15)%nat ->
  let events := liquidations_between (window_start n as_of) (minute_start as_of) log in
  liquidation_window_snapshot n as_of a = liquidation_window_snapshot n as_of (with_all_minutes log a) /\
  (forall w f, liquidation_window_snapshot n as_of a = Ok w -> lw_figures w = Some f ->
     lf_event_count f = Z.of_nat (length events) /\
     lf_long_event_count f = steps_total (counted_side LONG) events /\
     lf_short_event_count f = steps_total (counted_side SHORT) events).
Proof.
  intros Hi%liquidation_history_inv Htimes Hn events.
  assert (liquidation_window_snapshot n as_of a = liquidation_window_snapshot n as_of (with_all_minutes log a)) as Heq.
  { unfold liquidation_window_snapshot, acceleration_snapshot.
    change (la_connected (with_all_minutes log a)) with (la_connected a).
    change (la_coverage_start (with_all_minutes log a)) with (la_coverage_start a).
    change (liquidation_window_status (with_all_minutes log a)) with (liquidation_window_status a).
    fold (window_start n as_of).
    destruct Hn as [-> | [-> | ->]]; cbn [prior_minutes_of].
    - destruct (liquidation_window_buckets a log breaks now as_of 1 4 Hi Htimes ltac:(lia)) as [-> ->]. done.
    - destruct (liquidation_window_buckets a log breaks now as_of 5 10 Hi Htimes ltac:(lia)) as [-> ->]. done.
    - destruct (liquidation_window_buckets a log breaks now as_of 15 0 Hi Htimes ltac:(lia)) as [-> _]. done. }
  split; [done|]. intros w f Hw Hf. rewrite Heq in Hw. unfold liquidation_window_snapshot in Hw.
  destruct (liquidation_window_status _ _) as [status reason]. fold (window_start n as_of) in Hw.
  apply bind_ok in Hw as (figures & Hfig & Hw). apply bind_ok in Hw as (acc & _ & Hw). apply ok_inj in Hw as <-.
  cbn in Hf. subst figures. destruct (covered_from _ _ _); [|done]. apply bind_ok in Hfig as (f' & Hfig & [= ->]).
  apply figures_counts in Hfig as (-> & -> & ->).
  change (la_buckets (with_all_minutes log a)) with (unpruned liquidation_minute new_liquidation_bucket apply_liquidation log).
  split_and!.
  - rewrite (window_counter _ _ _ _ (fun _ => 1%Z)); [apply steps_total_ones|done|]. intros b e. apply apply_liquidation_counts.
  - apply window_counter; [done|]. intros b e. apply apply_liquidation_counts.
  - apply window_counter; [done|]. intros b e. apply apply_liquidation_counts.
Qed.

(** ** Verified views *)

Lemma covered_from_spec connected coverage lo :
  covered_from connected coverage lo = true <-> connected = true /\ exists start, coverage = Some start /\ (start <= lo)%Z.
Proof.
  unfold covered_from. destruct connected, coverage as [start|]; cbn; rewrite ?Z.leb_le; split; try done; try naive_solver.
Qed.

Lemma covered_window n as_of a w start :
  la_connected a = true -> la_coverage_start a = Some start -> (start <= window_start 15 as_of)%Z -> (n = 1 \/ n = 5 \/ n = 15)%nat ->
  liquidation_window_snapshot n as_of a = Ok w ->
  lw_coverage_complete w = true /\ lw_status w = VERIFIED /\ is_Some (lw_figures w) /\
  (forall s, lw_acceleration w = Some s -> ac_status s <> INSUFFICIENT_DATA).
Proof.
  intros Hc Hs Hle Hn Hw. unfold liquidation_window_snapshot in Hw. fold (window_start n as_of) in Hw.
  assert (forall m, (m <= 15)%nat -> covered_from (la_connected a) (la_coverage_start a) (window_start m as_of) = true) as Hcov.
  { intros m Hm. apply covered_from_spec. split; [done|]. exists start. split; [done|].
    unfold window_start, minute_us in *. lia. }
  rewrite (Hcov n) in Hw by lia. unfold liquidation_window_status in Hw. rewrite Hc in Hw. cbn [negb] in Hw.
  apply bind_ok in Hw as (figures & Hfig & Hw). apply bind_ok in Hw as (acc & Hacc & Hw). apply ok_inj in Hw as <-. cbn.
  apply bind_ok in Hfig as (f & _ & [= <-]). split_and!; [done|done|by eexists|]. intros s ->.
  assert (forall prior, (n + prior <= 15)%nat ->
    covered_from true (la_coverage_start a) (window_start n as_of - minute_us * Z.of_nat prior) = true) as Hprior.
  { intros prior Hp. pose proof (Hcov (n + prior)%nat Hp) as H. rewrite Hc in H.
    by replace (window_start n as_of - minute_us * Z.of_nat prior)%Z with (window_start (n + prior) as_of)
      by (unfold window_start, minute_us; lia). }
  unfold acceleration_snapshot in Hacc.
  destruct Hn as [-> | [-> | ->]]; cbn [prior_minutes_of] in Hacc; [rewrite Hc, Hprior in Hacc by lia..|done];
    repeat (apply bind_ok in Hacc as (? & _ & Hacc)); apply ok_inj in Hacc; injection Hacc as <-; cbn;
    unfold acceleration_label; destruct (dltb _ _); [done| |done|]; by destruct (dltb _ _).
Qed.

Lemma liquidation_snapshot_windows as_of a s :
  liquidation_snapshot as_of a = Ok s ->
  exists one five canonical,
    liquidation_window_snapshot 1 as_of a = Ok one /\ liquidation_window_snapshot 5 as_of a = Ok five /\
    liquidation_window_snapshot 15 as_of a = Ok canonical /\
    ls_windows s = [("1m", one); ("5m", five); ("15m", canonical)] /\ ls_status s = lw_status canonical /\
    ls_observed_at s = fst (liquidation_observed a as_of).
Proof.
  unfold liquidation_snapshot. intros H. apply bind_ok in H as (one & H1 & H). apply bind_ok in H as (five & H5 & H).
  apply bind_ok in H as (canonical & H15 & H). destruct (liquidation_observed a as_of) as [observed age] eqn:Eo.
  apply bind_ok in H as (summary & _ & H). apply bind_ok in H as (symbol & _ & H). apply ok_inj in H as <-.
  by exists one, five, canonical.
Qed.

(** A verified view covers an uninterrupted window: no connection, loss of
    connection or stale observation happened after the start of its fifteen
    minutes, the view is dated at the instant asked for, and all three windows
    are themselves verified with their figures, each with an acceleration, where
    it has one, that had the data it needs. *)
Theorem verified_liquidations_uninterrupted a log breaks now as_of s :
  liquidation_history a log breaks now -> liquidation_snapshot as_of a = Ok s -> ls_status s = VERIFIED ->
  la_connected a = true /\ Forall (fun t => t <= window_start 15 as_of)%Z breaks /\ ls_observed_at s = Some as_of /\
  Forall (fun kw => lw_coverage_complete (snd kw) = true /\ lw_status (snd kw) = VERIFIED /\ is_Some (lw_figures (snd kw)) /\
                    (forall acc, lw_acceleration (snd kw) = Some acc -> ac_status acc <> INSUFFICIENT_DATA)) (ls_windows s).
Proof.
  intros Hi%liquidation_history_inv Hsnap Hv.
  destruct (liquidation_snapshot_windows _ _ _ Hsnap) as (one & five & canonical & H1 & H5 & H15 & Hw & Hst & Hobs).
  assert (la_connected a = true /\ exists start, la_coverage_start a = Some start /\ (start <= window_start 15 as_of)%Z)
    as [Hc (start & Hs & Hle)].
  { apply covered_from_spec. rewrite Hst in Hv. unfold liquidation_window_snapshot in H15. fold (window_start 15 as_of) in H15.
    destruct (covered_from (la_connected a) (la_coverage_start a) (window_start 15 as_of)) eqn:Ec; [done|].
    unfold liquidation_window_status in H15. cbn [negb] in H15.
    destruct (la_connected a), (String.eqb (la_coverage_reason a) "stale_event_lag"); cbn [negb bind_result] in H15;
      apply bind_ok in H15 as (acc & _ & H15); apply ok_inj in H15 as <-; done. }
  split_and!; [done| | |].
  - eapply Forall_le_trans; [|exact Hle]. by apply (li_coverage _ _ _ _ Hi).
  - rewrite Hobs. unfold liquidation_observed. by rewrite Hc.
  - rewrite Hw. repeat constructor; cbn [snd]; eapply covered_window; try done; auto.
Qed.

(** ** A sample history *)

Definition sample_liquidation (at_us price : Z) (side : LiquidatedPositionSide) : BinanceLiquidationOrder :=
  {| lo_symbol := "BTCUSDT"; lo_pair_symbol := "BTCUSDT";
     lo_order_side := match side with LONG => "SELL" | SHORT => "BUY" end; lo_liquidated_position_side := side;
     lo_order_type := "LIMIT"; lo_time_in_force := "IOC"; lo_original_quantity := dec_of_Z 3;
     lo_order_price := dec_of_Z price; lo_average_price := dec_of_Z price; lo_order_status := "FILLED";
     lo_last_filled_quantity := dec_of_Z 1; lo_accumulated_filled_quantity := dec_of_Z 3;
     lo_event_time := at_us; lo_trade_time := at_us; lo_stream_type := 1 |}.

Definition sample_liquidations : list BinanceLiquidationOrder :=
  [sample_liquidation 300000000 50000 LONG; sample_liquidation 950000000 49000 SHORT].

Definition liquidation_or_keep (a : SymbolLiquidationAggregator) (event : BinanceLiquidationOrder) : SymbolLiquidationAggregator :=
  match liquidation_ingest event (lo_trade_time event + 1000000) a with Ok (_, a') => a' | Raise _ => a end.

Definition sample_fresh_liquidations : SymbolLiquidationAggregator :=
  match new_liquidations " btcusdt" 30000000 16 128 with
  | Ok a => a
  | Raise _ => mkLiquidationAggregator "" 0 0 0 ∅ [] ∅ false None "" None 0 0 0 0 0
  end.

Definition sample_aggregator : SymbolLiquidationAggregator :=
  fold_left liquidation_or_keep sample_liquidations (liquidations_connected 0 false sample_fresh_liquidations).

Lemma liquidation_or_keep_history a log breaks now event :
  match liquidation_ingest event (lo_trade_time event + 1000000) a with Ok (ok, _) => ok | Raise _ => false end = true ->
  (now <= lo_trade_time event + 1000000)%Z -> liquidation_history a log breaks now ->
  liquidation_history (liquidation_or_keep a event) (log ++ [event]) breaks (lo_trade_time event + 1000000).
Proof.
  unfold liquidation_or_keep. destruct (liquidation_ingest event _ a) as [[ok a']|] eqn:Ei; [|done].
  intros -> Hnow Hh. by eapply lh_accepted.
Qed.

Lemma sample_liquidation_history : liquidation_history sample_aggregator sample_liquidations [0%Z] 951000000.
Proof.
  unfold sample_aggregator, sample_liquidations. cbn [fold_left].
  apply (liquidation_or_keep_history _ [_] _ 301000000 (sample_liquidation 950000000 49000 SHORT)); [vm_compute; reflexivity|by vm_compute|].
  apply (liquidation_or_keep_history _ [] _ 0 (sample_liquidation 300000000 50000 LONG)); [vm_compute; reflexivity|by vm_compute|].
  apply (lh_connected _ [] [] 0); [|lia]. by apply (lh_new " btcusdt" 30000000 16 128).
Qed.

Lemma recent_liquidation_not_counted_twice_witness :
  liquidation_ingest (sample_liquidation 300000000 50000 LONG) 960000000 sample_aggregator
  = Ok (false, sample_aggregator <| la_duplicate_event_count := (la_duplicate_event_count sample_aggregator + 1)%Z |>).
Proof.
  apply (recent_liquidation_not_counted_twice _ _ _ _ (sample_liquidation 300000000 50000 LONG) 960000000
    sample_liquidation_history); [vm_compute; reflexivity|].
  replace (la_max_dedupe_fingerprints sample_aggregator) with 128%nat by (vm_compute; reflexivity).
  apply (proj2 (list_elem_of_In _ _)). left. reflexivity.
Defined.

Lemma sample_liquidations_before e : e ∈ sample_liquidations -> (lo_trade_time e <= 965000000)%Z.
Proof. intros H%list_elem_of_In. destruct H as [<-|[<-|[]]]; by vm_compute. Qed.

Lemma liquidation_window_is_replay_witness :
  exists w f, liquidation_window_snapshot 15 965000000 sample_aggregator = Ok w /\ lw_figures w = Some f /\
    lf_event_count f = 2%Z /\ lf_long_event_count f = 1%Z.
Proof.
  destruct (liquidation_window_is_replay _ _ _ _ 965000000 15 sample_liquidation_history sample_liquidations_before) as [_ Hc];
    [auto|].
  assert (match liquidation_window_snapshot 15 965000000 sample_aggregator with
          | Ok w => match lw_figures w with Some _ => true | None => false end
          | Raise _ => false end = true) as Hok by (vm_compute; reflexivity).
  destruct (liquidation_window_snapshot 15 965000000 sample_aggregator) as [w|]; [|discriminate Hok].
  destruct (lw_figures w) as [f|] eqn:Ef; [|discriminate Hok].
  destruct (Hc w f eq_refl Ef) as (H1 & H2 & _). exists w, f. rewrite H1, H2. split; [reflexivity|].
  split; [exact Ef|]. split; vm_compute; reflexivity.
Defined.

Lemma verified_liquidations_uninterrupted_witness :
  exists s, liquidation_snapshot 965000000 sample_aggregator = Ok s /\ ls_status s = VERIFIED /\
    ls_observed_at s = Some 965000000%Z.
Proof.
  assert (map_result ls_status (liquidation_snapshot 965000000 sample_aggregator) = Ok VERIFIED) as Hv by (vm_compute; reflexivity).
  destruct (liquidation_snapshot 965000000 sample_aggregator) as [s|] eqn:Es; [|discriminate Hv].
  apply ok_inj in Hv. exists s. split; [reflexivity|]. split; [exact Hv|].
  apply (verified_liquidations_uninterrupted _ _ _ _ _ _ sample_liquidation_history Es Hv).
Defined.
