(* ===== verification/StreamEvidence.v ===== *)
(** * Stream identity and acknowledgements (src/app/microstructure/stream_evidence.py
    and websocket_protocol.py)

    Which contracts a stream may be trusted for: exchange metadata with its
    lease, admission of the tracked symbols, subscription requests and their
    acknowledgements, and the control messages of the provider.

    The callback [on_admission_change] is the list of changes an operation
    reports, in order; its owner applies them (FlowService.v).  The clock is read
    once per operation.  An acquisition time that is not an aware datetime is
    [None].  The comparison key of a symbol is [unicodedata]'s; it is the class
    [UnicodeData], of which only the value on ASCII text is assumed. *)

From stdpp Require Import base tactics list strings gmap.
From Stdlib Require Import ZArith NArith Lia Bool Ascii.
From S2P Require Import Prelude PyString PyJson JsonText OrderBook TradeFlow.
Open Scope string_scope.
Open Scope py_scope.

(** [unicodedata.normalize("NFKC", text).casefold()] *)
Definition is_ascii (c : ascii) : bool := (ascii_code c <? 128)%N.

Class UnicodeData := {
  nfkc_casefold : string -> string;
  nfkc_casefold_ascii s : string_forallb is_ascii s = true -> nfkc_casefold s = py_lower s
}.

(** ** Messages of the provider *)

(** the decoded mapping of a payload, if it is one *)
Definition decoded_mapping `{JsonErrors} (payload : raw_payload) : option (list (string * json)) :=
  match payload with
  | RawObject fields => Some fields
  | RawText text => match loads text with Ok (JObj fields) => Some fields | _ => None end
  end.

Fixpoint ends_with (suffix s : string) : bool :=
  String.eqb s suffix || match s with EmptyString => false | String _ rest => ends_with suffix rest end.

Definition matches_usdt_perpetual (symbol : string) (pair_symbol : option string) : bool :=
  negb (String.eqb symbol "") && string_forallb is_alnum symbol && (4 <? String.length symbol)%nat
  && String.eqb symbol (py_upper symbol) && ends_with "USDT" symbol
  && match pair_symbol with None => true | Some other => String.eqb other symbol end.

Definition is_subscription_ack `{JsonErrors} (payload : raw_payload) (request_id : Z) : bool :=
  match decoded_mapping payload with
  | None => false
  | Some decoded =>
      match json_get "id" decoded with JInt id => (id =? request_id)%Z | _ => false end
      && dict_mem "result" decoded && match json_get "result" decoded with JNull => true | _ => false end
      && negb (dict_mem "code" decoded) && negb (dict_mem "error" decoded)
  end.

Definition ProviderShutdownError (msg : string) : exn := ConnectionError ("ProviderShutdownError:" +:+ msg).
Definition SubscriptionRejectedError (msg : string) : exn := ConnectionError ("SubscriptionRejectedError:" +:+ msg).

(** the code a rejection shows *)
Definition safe_code (decoded : list (string * json)) : string :=
  let code := match json_get "error" decoded with
              | JObj error => json_get "code" error
              | _ => json_get "code" decoded
              end in
  match code with JInt z => string_of_Z z | _ => "invalid" end.

Definition is_control_message `{JsonErrors} (payload : raw_payload) : result bool :=
  match decoded_mapping payload with
  | None => Ok false
  | Some decoded =>
      let event := if dict_mem "data" decoded then json_get "data" decoded else JObj decoded in
      let shutdown := match event with
                      | JObj fields => match json_get "e" fields with JStr e => String.eqb e "serverShutdown" | _ => false end
                      | _ => false
                      end in
      if shutdown then Raise (ProviderShutdownError "binance_server_shutdown")
      else if negb (dict_mem "e" decoded) && negb (dict_mem "data" decoded) then
        if dict_mem "code" decoded || dict_mem "error" decoded
        then Raise (SubscriptionRejectedError ("binance_subscription_rejected:code=" +:+ safe_code decoded))
        else Ok (dict_mem "id" decoded)
      else Ok false
  end.

(** ** State *)

Definition METADATA_MAX_AGE : Z := 300000000.

Inductive SubscriptionMethod : Type := SUBSCRIBE | UNSUBSCRIBE.

(** the counters of one symbol *)
Record SymbolEvidence := mkSymbolEvidence {
  sy_decoded_events : Z;
  sy_accepted_events : Z;
  sy_source_at : option Z;
  sy_received_at : option Z
}.

(** an entry of the bounded history *)
Record ServiceEvent := mkServiceEvent {
  sv_event : string;
  sv_request_id : option Z;
  sv_symbols : option Z;
  sv_at : Z
}.

Record StreamEvidence := mkStreamEvidence {
  ev_desired : gset string;
  ev_admission : gmap string bool;
  ev_latest_metadata_at : option Z;
  ev_latest_identity : option (gset string * gmap string string);
  ev_rejected_event_time_count : Z;
  ev_contracts : option (gset string);
  ev_metadata_at : option Z;
  ev_metadata_issue : option string;
  ev_rejections : gmap string string;
  ev_pending : list (Z * (SubscriptionMethod * gset string));
  ev_subscription_versions : gmap string Z;
  ev_acknowledged : gset string;
  ev_ack_count : Z;
  ev_request_count : Z;
  ev_decoded_count : Z;
  ev_symbols : gmap string SymbolEvidence;
  ev_history : list ServiceEvent
}.
#[export] Instance StreamEvidence_eta : RecordEta StreamEvidence := fun e =>
  mkStreamEvidence (ev_desired e) (ev_admission e) (ev_latest_metadata_at e) (ev_latest_identity e)
    (ev_rejected_event_time_count e) (ev_contracts e) (ev_metadata_at e) (ev_metadata_issue e)
    (ev_rejections e) (ev_pending e) (ev_subscription_versions e) (ev_acknowledged e) (ev_ack_count e)
    (ev_request_count e) (ev_decoded_count e) (ev_symbols e) (ev_history e).

(** [StreamEvidence.__init__] *)
Definition new_evidence : StreamEvidence :=
  {| ev_desired := ∅; ev_admission := ∅; ev_latest_metadata_at := None; ev_latest_identity := None;
     ev_rejected_event_time_count := 0; ev_contracts := None; ev_metadata_at := None;
     ev_metadata_issue := None; ev_rejections := ∅; ev_pending := []; ev_subscription_versions := ∅;
     ev_acknowledged := ∅; ev_ack_count := 0; ev_request_count := 0; ev_decoded_count := 0;
     ev_symbols := ∅; ev_history := [] |}.

(** [deque(maxlen=32).append] *)
Definition history_append (event : ServiceEvent) (history : list ServiceEvent) : list ServiceEvent :=
  let grown := (history ++ [event])%list in drop (length grown - 32) grown.

(** ** Admission *)

(** [_identity_reason] *)
Definition identity_reason_of (symbol : string) (now : Z) (e : StreamEvidence) : option string :=
  match ev_contracts e with
  | None => None
  | Some contracts =>
      match ev_metadata_issue e with
      | Some issue => Some issue
      | None =>
          if negb (bool_decide (symbol ∈ contracts))
          then Some (default "not_verified_binance_usdm_contract" (ev_rejections e !! symbol))
          else match ev_metadata_at e with
               | None => Some "metadata_acquisition_unverified"
               | Some acquired =>
                   let age := (now - acquired)%Z in
                   if (0 <=? age)%Z && (age <=? METADATA_MAX_AGE)%Z then None
                   else Some "exchange_metadata_stale_or_future"
               end
      end
  end.

Definition AdmissionChange : Type := string * bool.

(** [identity_reason]: the reason, and the admission change it reports *)
Definition identity_reason (symbol : string) (now : Z) (e : StreamEvidence)
    : StreamEvidence * list AdmissionChange * option string :=
  let reason := identity_reason_of symbol now e in
  let valid := match reason with None => true | Some _ => false end in
  if bool_decide (ev_contracts e <> None) && bool_decide (symbol ∈ ev_desired e)
     && negb (bool_decide (ev_admission e !! symbol = Some valid))
  then (e <| ev_admission := <[symbol := valid]> (ev_admission e) |>, [(symbol, valid)], reason)
  else (e, [], reason).

(** [for symbol in symbols: self.identity_reason(symbol)] *)
Fixpoint refresh_admission (symbols : list string) (now : Z) (e : StreamEvidence) : StreamEvidence * list AdmissionChange :=
  match symbols with
  | [] => (e, [])
  | symbol :: rest =>
      let '(e, change, _) := identity_reason symbol now e in
      let '(e, changes) := refresh_admission rest now e in
      (e, (change ++ changes)%list)
  end.

(** ** Exchange metadata *)

Definition json_is (value : json) (text : string) : bool :=
  match value with JStr s => String.eqb s text | _ => false end.

(** the test that a row describes a trading USDT perpetual *)
Definition trading_perpetual (row : list (string * json)) (symbol : string) : bool :=
  matches_usdt_perpetual symbol None
  && json_is (json_get "pair" row) symbol
  && json_is (json_get "baseAsset" row) (String.substring 0 (String.length symbol - 4) symbol)
  && json_is (json_get "quoteAsset" row) "USDT" && json_is (json_get "marginAsset" row) "USDT"
  && json_is (json_get "contractType" row) "PERPETUAL" && json_is (json_get "status" row) "TRADING".

(** the rows with a textual symbol *)
Definition metadata_rows (rows : list json) : list (list (string * json) * string) :=
  omap (fun row => match row with
                   | JObj fields => match json_get "symbol" fields with JStr symbol => Some (fields, symbol) | _ => None end
                   | _ => None
                   end) rows.

(** the symbols whose comparison key another row shares *)
Definition colliding `{UnicodeData} (symbols : list string) : list string :=
  filter (fun s => (1 < length (filter (fun t => nfkc_casefold t = nfkc_casefold s) symbols))%nat) symbols.

(** the loop of [set_metadata] and the removal of collisions *)
Definition metadata_contracts `{UnicodeData} (rows : list json) : gset string * gmap string string :=
  let rows := metadata_rows rows in
  let collisions := colliding (snd <$> rows) in
  let listed := list_to_set (C := gset string)
                  (snd <$> List.filter (fun row => trading_perpetual (fst row) (snd row)) rows) in
  (listed ∖ list_to_set collisions,
   list_to_map ((fun s => (s, "exchange_metadata_normalization_collision")) <$> collisions)).

(** [payload.get("symbols", []) if isinstance(payload, dict) else []], refused unless a list of 1 to 10000 rows *)
Definition metadata_payload_rows (payload : json) : option (list json) :=
  match payload with
  | JObj fields => match json_get "symbols" fields with
                   | JArr [] => None
                   | JArr rows => if (10000 <? Z.of_nat (length rows))%Z then None else Some rows
                   | _ => None
                   end
  | _ => None
  end.

(** the issue of an acquisition time against the clock and the latest one *)
Definition acquisition_issue (acquired now : Z) (identity : gset string * gmap string string) (e : StreamEvidence)
    : option string :=
  if (now <? acquired)%Z then Some "exchange_metadata_stale_or_future"
  else match ev_latest_metadata_at e with
       | Some latest =>
           if (acquired <? latest)%Z then Some "metadata_acquisition_regressed"
           else if (acquired =? latest)%Z && negb (bool_decide (Some identity = ev_latest_identity e))
           then Some "conflicting_metadata_acquisition" else None
       | None => None
       end.

(** [set_metadata] *)
Definition set_metadata `{UnicodeData} (payload : json) (acquired_at : option Z) (now : Z) (e : StreamEvidence)
    : StreamEvidence * list AdmissionChange :=
  let '(e, before) := refresh_admission (elements (ev_desired e)) now e in
  let parsed := metadata_payload_rows payload in
  let rows := default [] parsed in
  let issue := match acquired_at, parsed with
               | None, _ => Some "metadata_acquisition_unverified"
               | Some _, None => Some "malformed_or_empty_exchange_metadata"
               | Some _, Some _ => None
               end in
  let identity := metadata_contracts rows in
  let e := e <| ev_contracts := Some (fst identity) |> <| ev_rejections := snd identity |> <| ev_metadata_at := acquired_at |> in
  let e := match acquired_at with
           | None => e <| ev_metadata_issue := issue |>
           | Some acquired =>
               match acquisition_issue acquired now identity e with
               | Some late => e <| ev_metadata_issue := Some late |>
               | None =>
                   match issue with
                   | Some _ => e <| ev_metadata_issue := issue |>
                   | None => e <| ev_metadata_issue := None |> <| ev_latest_metadata_at := Some acquired |>
                               <| ev_latest_identity := Some identity |>
                   end
               end
           end in
  let '(e, after) := refresh_admission (elements (ev_desired e)) now e in
  (e, (before ++ after)%list).

(** ** Events and subscriptions *)

(** [accepts_event_times] *)
Definition accepts_event_times (symbol : string) (timestamps : list Z) (max_age now : Z) (e : StreamEvidence)
    : StreamEvidence * list AdmissionChange * bool :=
  if forallb (fun at_ => (0 <=? now - at_)%Z && (now - at_ <=? max_age)%Z) timestamps then (e, [], true)
  else (e <| ev_rejected_event_time_count := (ev_rejected_event_time_count e + 1)%Z |>,
        [(symbol, false); (symbol, true)], false).

(** [matches] *)
Definition evidence_matches (symbol : string) (pair_symbol : option string) (now : Z) (e : StreamEvidence)
    : StreamEvidence * list AdmissionChange * bool :=
  if matches_usdt_perpetual symbol pair_symbol
  then let '(e, changes, reason) := identity_reason symbol now e in
       (e, changes, match reason with None => true | Some _ => false end)
  else (e, [], false).

(** [reset] *)
Definition evidence_reset (now : Z) (e : StreamEvidence) : StreamEvidence :=
  e <| ev_pending := [] |> <| ev_subscription_versions := ∅ |> <| ev_acknowledged := ∅ |>
    <| ev_history := history_append (mkServiceEvent "connection_invalidated" None None now) (ev_history e) |>.

Definition method_value (m : SubscriptionMethod) : string :=
  match m with SUBSCRIBE => "SUBSCRIBE" | UNSUBSCRIBE => "UNSUBSCRIBE" end.

(** [pending[request_id] = value] of a dictionary in insertion order *)
Fixpoint pending_set (request_id : Z) (value : SubscriptionMethod * gset string)
    (pending : list (Z * (SubscriptionMethod * gset string))) : list (Z * (SubscriptionMethod * gset string)) :=
  match pending with
  | [] => [(request_id, value)]
  | (id, v) :: rest => if (id =? request_id)%Z then (id, value) :: rest else (id, v) :: pending_set request_id value rest
  end.

(** [requested] *)
Definition evidence_requested (request_id : Z) (method : SubscriptionMethod) (symbols : gset string) (now : Z)
    (e : StreamEvidence) : StreamEvidence :=
  let pending := if (128 <=? length (ev_pending e))%nat then tail (ev_pending e) else ev_pending e in
  e <| ev_pending := pending_set request_id (method, symbols) pending |>
    <| ev_subscription_versions := set_fold (fun s versions => <[s := request_id]> versions) (ev_subscription_versions e) symbols |>
    <| ev_request_count := (ev_request_count e + 1)%Z |>
    <| ev_history := history_append (mkServiceEvent (method_value method) (Some request_id) (Some (Z.of_nat (size symbols))) now)
                       (ev_history e) |>.

(** [control]: the first pending request the payload acknowledges *)
Definition evidence_control `{JsonErrors} (payload : raw_payload) (now : Z) (e : StreamEvidence) : StreamEvidence * bool :=
  match List.find (fun p => is_subscription_ack payload (fst p)) (ev_pending e) with
  | None => (e, false)
  | Some (request_id, (method, symbols)) =>
      let current := filter (fun s => ev_subscription_versions e !! s = Some request_id) symbols in
      (e <| ev_pending := List.filter (fun p => negb (fst p =? request_id)%Z) (ev_pending e) |>
         <| ev_acknowledged := match method with
                               | SUBSCRIBE => ev_acknowledged e ∪ current
                               | UNSUBSCRIBE => ev_acknowledged e ∖ current
                               end |>
         <| ev_ack_count := (ev_ack_count e + 1)%Z |>
         <| ev_history := history_append (mkServiceEvent "acknowledged" (Some request_id) None now) (ev_history e) |>, true)
  end.

(** [retain] *)
Definition evidence_retain (desired : gset string) (now : Z) (e : StreamEvidence) : StreamEvidence * list AdmissionChange :=
  let e := e <| ev_desired := desired |>
             <| ev_admission := filter (fun kv => kv.1 ∈ desired) (ev_admission e) |>
             <| ev_symbols := filter (fun kv => kv.1 ∈ desired) (ev_symbols e) |>
             <| ev_subscription_versions := filter (fun kv => kv.1 ∈ desired) (ev_subscription_versions e) |>
             <| ev_acknowledged := ev_acknowledged e ∩ desired |> in
  refresh_admission (elements desired) now e.

(** [decoded] *)
Definition evidence_decoded (symbol : string) (event_at now : Z) (accepted : bool) (e : StreamEvidence) : StreamEvidence :=
  let record := default (mkSymbolEvidence 0 0 None None) (ev_symbols e !! symbol) in
  e <| ev_symbols := <[symbol := mkSymbolEvidence (sy_decoded_events record + 1)
                                   (sy_accepted_events record + if accepted then 1 else 0)
                                   (Some event_at) (Some now)]> (ev_symbols e) |>
    <| ev_decoded_count := (ev_decoded_count e + 1)%Z |>.
