(* ===== verification/FlowService.v ===== *)
(** * The aggregate-trade flow service (src/app/microstructure/service.py)

    One aggregator per tracked symbol behind one stream.  The service is a state
    and one operation per atomic stretch of its coroutines: reconciling the
    tracked symbols, sending a subscription difference, a connection, a received
    payload, a failure, new exchange metadata, and a snapshot.  Awaiting the
    transport happens between these operations.

    A connection is the number the service gave it; [Some n] is the connection
    object of the [n]-th successful connect.  The clock is read once per
    operation.  Pacing of reconnects (reconnect.py), logging and [health] are
    left out. *)

From stdpp Require Import base tactics list strings gmap.
From Stdlib Require Import ZArith NArith Lia Bool Ascii.
From S2P Require Import Prelude PyString PyJson JsonText OrderBook TradeFlow FlowSnapshot StreamEvidence.
Open Scope string_scope.
Open Scope py_scope.

Definition BTC_FLOW_SYMBOL : string := "BTCUSDT".

Record FlowService := mkFlowService {
  sv_stale_after : Z;
  sv_max_symbols : nat;
  sv_allow_legacy_missing_stream_type : bool;
  sv_evidence : StreamEvidence;
  sv_aggregators : gmap string SymbolFlowAggregator;
  sv_desired_symbols : gset string;
  sv_active_symbols : gset string;
  sv_overflow_symbols : gmap string string;
  sv_connection : option Z;
  sv_request_id : Z;
  sv_ever_connected : bool;
  sv_connection_count : Z;
  sv_disconnect_count : Z;
  sv_malformed_event_count : Z;
  sv_wrong_contract_event_count : Z;
  sv_ignored_message_count : Z;
  sv_last_error : option string;
  sv_payload_failure : bool
}.
#[export] Instance FlowService_eta : RecordEta FlowService := fun s =>
  mkFlowService (sv_stale_after s) (sv_max_symbols s) (sv_allow_legacy_missing_stream_type s) (sv_evidence s)
    (sv_aggregators s) (sv_desired_symbols s) (sv_active_symbols s) (sv_overflow_symbols s) (sv_connection s)
    (sv_request_id s) (sv_ever_connected s) (sv_connection_count s) (sv_disconnect_count s)
    (sv_malformed_event_count s) (sv_wrong_contract_event_count s) (sv_ignored_message_count s)
    (sv_last_error s) (sv_payload_failure s).

(** [MicrostructureFlowService.__init__] *)
Definition new_flow_service (stale_after max_symbols reconnect_base reconnect_max : Z) (allow_legacy : bool) : result FlowService :=
  if (stale_after <=? 0)%Z then Raise (ValueError "microstructure stale threshold must be greater than zero")
  else if (max_symbols <? 1)%Z || (1024 <? max_symbols)%Z
  then Raise (ValueError "microstructure max_symbols must be between 1 and 1024")
  else if (reconnect_base <? 0)%Z || (reconnect_max <? reconnect_base)%Z
  then Raise (ValueError "microstructure reconnect delays are invalid")
  else Ok {| sv_stale_after := stale_after; sv_max_symbols := Z.to_nat max_symbols;
             sv_allow_legacy_missing_stream_type := allow_legacy; sv_evidence := new_evidence;
             sv_aggregators := ∅; sv_desired_symbols := ∅; sv_active_symbols := ∅; sv_overflow_symbols := ∅;
             sv_connection := None; sv_request_id := 0; sv_ever_connected := false; sv_connection_count := 0;
             sv_disconnect_count := 0; sv_malformed_event_count := 0; sv_wrong_contract_event_count := 0;
             sv_ignored_message_count := 0; sv_last_error := None; sv_payload_failure := false |}.

(** ** The callback of the evidence *)

(** [_metadata_admission_changed] *)
Definition admission_changed (now : Z) (s : FlowService) (change : AdmissionChange) : FlowService :=
  let '(symbol, valid) := change in
  match sv_aggregators s !! symbol with
  | None => s
  | Some aggregator =>
      if negb valid
      then s <| sv_aggregators := <[symbol := flow_disconnected aggregator]> (sv_aggregators s) |>
      else match sv_connection s with
           | Some _ => s <| sv_aggregators := <[symbol := flow_connected now false aggregator]> (sv_aggregators s) |>
           | None => s
           end
  end.

(** an operation of the evidence with the changes it reports *)
Definition with_evidence (now : Z) (e : StreamEvidence) (changes : list AdmissionChange) (s : FlowService) : FlowService :=
  fold_left (admission_changed now) changes (s <| sv_evidence := e |>).

(** ** Tracked symbols *)

(** [_normalize_symbol] *)
Definition normalize_flow_symbol (value : string) : result string :=
  let normalized := py_upper (py_strip value) in
  if String.eqb normalized "" then Raise (ValueError "microstructure subscription symbol must not be blank") else Ok normalized.

Fixpoint normalize_flow_symbols (values : list string) : result (list string) :=
  match values with
  | [] => Ok []
  | value :: rest =>
      let! symbol := normalize_flow_symbol value in
      let! symbols := normalize_flow_symbols rest in
      Ok (symbol :: symbols)
  end.

(** [sorted] of distinct strings *)
Fixpoint insert_symbol (s : string) (l : list string) : list string :=
  match l with
  | [] => [s]
  | t :: rest => if String.ltb t s then t :: insert_symbol s rest else s :: l
  end.

Definition sorted_symbols (l : list string) : list string := fold_right insert_symbol [] l.

(** [_bounded_symbols] *)
Definition bounded_symbols (symbols : gset string) (maximum : nat) : gset string * gset string :=
  let ordered := BTC_FLOW_SYMBOL :: sorted_symbols (elements (symbols ∖ {[BTC_FLOW_SYMBOL]})) in
  (list_to_set (take maximum ordered), list_to_set (drop maximum ordered)).

(** [for symbol in additions: ...]: fresh aggregators, marked connected on a live connection *)
Definition add_aggregator (stale_after : Z) (connected : bool) (now : Z) (symbol : string)
    (acc : result (gmap string SymbolFlowAggregator)) : result (gmap string SymbolFlowAggregator) :=
  let! aggregators := acc in
  let! aggregator := new_flow symbol stale_after MAX_RETAINED_MINUTE_BUCKETS in
  Ok (<[symbol := if connected then flow_connected now false aggregator else aggregator]> aggregators).

Definition is_connected (s : FlowService) : bool := match sv_connection s with Some _ => true | None => false end.

(** [reconcile_symbols] up to the subscription difference, which it returns *)
Definition reconcile_symbols (symbols : list string) (now : Z) (s : FlowService)
    : result (FlowService * (gset string * gset string)) :=
  let! requested := normalize_flow_symbols symbols in
  let '(selected, overflow) := bounded_symbols ({[BTC_FLOW_SYMBOL]} ∪ list_to_set requested) (sv_max_symbols s) in
  let '(e, changes) := evidence_retain selected now (sv_evidence s) in
  let s := with_evidence now e changes s in
  let reason := "subscription_limit_exceeded:max_symbols=" +:+ string_of_Z (Z.of_nat (sv_max_symbols s)) in
  let additions := selected ∖ sv_desired_symbols s in
  let removals := sv_desired_symbols s ∖ selected in
  let! added := fold_right (add_aggregator (sv_stale_after s) (is_connected s) now) (Ok (sv_aggregators s)) (elements additions) in
  Ok (s <| sv_desired_symbols := selected |>
        <| sv_overflow_symbols := set_to_map (fun symbol => (symbol, reason)) overflow |>
        <| sv_aggregators := filter (fun kv => kv.1 ∉ removals) added |>, (additions, removals)).

(** ** Subscriptions *)

(** the requested names of [_subscription_message] *)
Definition subscription_params (symbols : gset string) : list string :=
  (fun symbol => py_lower symbol +:+ "@aggTrade") <$> sorted_symbols (elements symbols).

Definition subscription_text (method : SubscriptionMethod) (symbols : gset string) (id : Z) : string :=
  dumps (JObj [("method", JStr (method_value method)); ("params", JArr (JStr <$> subscription_params symbols)); ("id", JInt id)]).

(** [_subscription_message] *)
Definition subscription_message (method : SubscriptionMethod) (symbols : gset string) (now : Z) (s : FlowService) : FlowService * string :=
  let id := (sv_request_id s + 1)%Z in
  (s <| sv_request_id := id |> <| sv_evidence := evidence_requested id method symbols now (sv_evidence s) |>,
   subscription_text method symbols id).

(** [_send_subscription_diff]: the messages sent on [connection], if it is still the current one *)
Definition send_subscription_diff (connection : Z) (additions removals : gset string) (now : Z) (s : FlowService)
    : FlowService * list string :=
  if negb (bool_decide (sv_connection s = Some connection)) then (s, [])
  else
  let '(s, sent) := if decide (removals = ∅) then (s, [])
                    else let '(s, message) := subscription_message UNSUBSCRIBE removals now s in
                         (s <| sv_active_symbols := sv_active_symbols s ∖ removals |>, [message]) in
  if decide (additions = ∅) then (s, sent)
  else let '(s, message) := subscription_message SUBSCRIBE additions now s in
       (s <| sv_active_symbols := sv_active_symbols s ∪ additions |>, (sent ++ [message])%list).

(** ** The stream *)

(** [_invalidate_stream] *)
Definition invalidate_stream (now : Z) (s : FlowService) : FlowService :=
  s <| sv_evidence := evidence_reset now (sv_evidence s) |> <| sv_connection := None |>
    <| sv_active_symbols := ∅ |> <| sv_aggregators := flow_disconnected <$> sv_aggregators s |>.

(** the part of [_run_forever] from a successful connect to the first receive *)
Definition stream_connected (now : Z) (s : FlowService) : FlowService * list string :=
  let reconnect := sv_ever_connected s in
  let connection := (sv_connection_count s + 1)%Z in
  let s := s <| sv_ever_connected := true |> <| sv_connection_count := connection |>
             <| sv_connection := Some connection |> <| sv_payload_failure := false |>
             <| sv_aggregators := flow_connected now reconnect <$> sv_aggregators s |>
             <| sv_active_symbols := ∅ |> in
  let '(s, sent) := send_subscription_diff connection (sv_desired_symbols s) ∅ now s in
  (s <| sv_last_error := None |>, sent).

(** the handler and the [finally] of [_run_forever] *)
Definition stream_failed (error : string) (now : Z) (s : FlowService) : FlowService :=
  invalidate_stream now
    (invalidate_stream now (s <| sv_disconnect_count := (sv_disconnect_count s + 1)%Z |> <| sv_last_error := Some error |>)).

(** the text of an exception that leaves [_handle_payload] *)
Definition exn_text (e : exn) : string :=
  match e with
  | ConnectionError msg => msg
  | OverflowError msg => "OverflowError:" +:+ msg
  | e => "Exception:" +:+ default "" (value_error_text e)
  end.

(** [_reject_unverified_payload] *)
Definition reject_unverified_payload (now : Z) (s : FlowService) : FlowService :=
  match sv_connection s with
  | Some _ => invalidate_stream now (s <| sv_payload_failure := true |>)
  | None => s
  end.

(** which handler of [_handle_payload] catches the exception of the parser *)
Definition is_wrong_contract (e : exn) : bool :=
  match e with ValueError msg => is_prefix "WrongContractTypeError:" msg | _ => false end.
Definition is_payload_error (e : exn) : bool :=
  match e with ValueError msg => is_prefix "AggTradePayloadError:" msg | _ => false end.

(** the part of [_handle_payload] for a trade of a tracked symbol *)
Definition handle_trade (event : BinanceAggTrade) (aggregator : SymbolFlowAggregator) (now : Z) (s : FlowService)
    : result (FlowService * bool) :=
  let '(e, changes, timely) := accepts_event_times (at_symbol event) [at_event_time event; at_trade_time event]
                                 (sv_stale_after s) now (sv_evidence s) in
  let s := with_evidence now e changes s in
  if negb timely
  then Ok (s <| sv_evidence := evidence_decoded (at_symbol event) (at_event_time event) now false (sv_evidence s) |>, false)
  else
  let! (accepted, aggregator) := flow_ingest event aggregator in
  Ok (s <| sv_aggregators := <[at_symbol event := aggregator]> (sv_aggregators s) |>
        <| sv_evidence := evidence_decoded (at_symbol event) (at_event_time event) now accepted (sv_evidence s) |>,
      accepted && (0 <=? now - at_event_time event)%Z && (now - at_event_time event <=? sv_stale_after s)%Z).

Section Payloads.
Context `{JsonErrors}.

(** [_handle_payload] *)
Definition handle_payload (payload : raw_payload) (now : Z) (s : FlowService) : result (FlowService * bool) :=
  let! control := is_control_message payload in
  if control
  then Ok (s <| sv_evidence := fst (evidence_control payload now (sv_evidence s)) |>
             <| sv_ignored_message_count := (sv_ignored_message_count s + 1)%Z |>, false)
  else
  match parse_binance_agg_trade payload (sv_allow_legacy_missing_stream_type s) with
  | Raise error =>
      if is_wrong_contract error
      then Ok (s <| sv_wrong_contract_event_count := (sv_wrong_contract_event_count s + 1)%Z |>, false)
      else if is_payload_error error
      then Ok (reject_unverified_payload now (s <| sv_malformed_event_count := (sv_malformed_event_count s + 1)%Z |>), false)
      else Raise error
  | Ok event =>
      let '(e, changes, matched) := evidence_matches (at_symbol event) None now (sv_evidence s) in
      let s := with_evidence now e changes s in
      if negb matched
      then Ok (s <| sv_wrong_contract_event_count := (sv_wrong_contract_event_count s + 1)%Z |>, false)
      else
      match sv_aggregators s !! at_symbol event, bool_decide (at_symbol event ∈ sv_desired_symbols s) with
      | Some aggregator, true => handle_trade event aggregator now s
      | _, _ => Ok (s <| sv_ignored_message_count := (sv_ignored_message_count s + 1)%Z |>, false)
      end
  end.
End Payloads.

(** one turn of the receive loop of [_run_forever]: a payload failure or an
    exception of the handler ends in its handler *)
Definition receive_payload `{JsonErrors} (payload : raw_payload) (now : Z) (s : FlowService) : FlowService :=
  match handle_payload payload now s with
  | Ok (s', _) => if sv_payload_failure s'
                  then stream_failed "UnverifiedPayloadError:public_stream_payload_unverified" now s' else s'
  | Raise error => stream_failed (exn_text error) now s
  end.

(** exchange metadata handed to the evidence of the service *)
Definition service_metadata `{UnicodeData} (payload : json) (acquired_at : option Z) (now : Z) (s : FlowService) : FlowService :=
  let '(e, changes) := set_metadata payload acquired_at now (sv_evidence s) in with_evidence now e changes s.

(** ** Snapshots *)

(** [type(exc).__name__]; [aggregator.snapshot] raises only the exceptions of
    decimal arithmetic, whose text here is their name *)
Definition exn_type_name (e : exn) : string :=
  match e with DecimalError kind => kind | ValueError _ => "ValueError" | _ => "Exception" end.

(** [snapshot]; [running] tells whether the task of the service is alive *)
Definition service_snapshot (symbol : string) (running : bool) (now : Z) (s : FlowService)
    : result (FlowService * MicrostructureFlowSnapshot) :=
  let! normalized := normalize_flow_symbol symbol in
  let '(e, changes, reason) := identity_reason normalized now (sv_evidence s) in
  let s := with_evidence now e changes s in
  let! view :=
    match reason with
    | Some reason => flow_unavailable normalized reason UNVERIFIED None None
    | None =>
        match sv_overflow_symbols s !! normalized with
        | Some reason => flow_unavailable normalized reason UNAVAILABLE None None
        | None =>
            match sv_aggregators s !! normalized with
            | None => flow_unavailable normalized (if running then "symbol_not_subscribed" else "service_not_started")
                        UNAVAILABLE None None
            | Some aggregator =>
                match flow_snapshot now aggregator with
                | Ok view => Ok view
                | Raise error => flow_unavailable normalized ("snapshot_error:" +:+ exn_type_name error) CONTEXT_ERROR None None
                end
            end
        end
    end in
  Ok (s, view).
