(* ===== verification/FlowServiceProps.v ===== *)
(** * Properties of the flow service

    Every state the service can reach keeps one correct aggregator per tracked
    symbol, so a verified view of the service carries the guarantees of
    TradeFlowProps.v together with those of the stream and of the exchange
    metadata. *)

From stdpp Require Import base tactics list strings sorting gmap sets.
From Stdlib Require Import ZArith NArith Lia Bool Ascii.
From S2P Require Import Prelude PyString PyDecimal PyJson JsonText MinuteBuckets OrderBook TradeFlow FlowSnapshot TradeFlowProps StreamEvidence FlowService.
Open Scope string_scope.
Open Scope py_scope.

(** ** Histories *)

Section Histories.
Context `{JsonErrors} `{UnicodeData}.

(** The operations of the service in any order, at clock readings that do not
    run backwards. *)
Inductive service_step (now : Z) (s : FlowService) : FlowService -> Prop :=
| st_reconcile symbols s' diff : reconcile_symbols symbols now s = Ok (s', diff) -> service_step now s s'
| st_diff connection additions removals :
    service_step now s (fst (send_subscription_diff connection additions removals now s))
| st_connected : service_step now s (fst (stream_connected now s))
| st_received payload : service_step now s (receive_payload payload now s)
| st_failed error : service_step now s (stream_failed error now s)
| st_metadata payload acquired_at : service_step now s (service_metadata payload acquired_at now s)
| st_snapshot symbol running s' view : service_snapshot symbol running now s = Ok (s', view) -> service_step now s s'.

Inductive service_history : FlowService -> Z -> Prop :=
| sh_new stale_after max_symbols base maximum legacy s now :
    new_flow_service stale_after max_symbols base maximum legacy = Ok s -> service_history s now
| sh_step s now now' s' :
    service_history s now -> (now <= now')%Z -> service_step now' s s' -> service_history s' now'.
End Histories.

(** ** One aggregator *)

(** An aggregator as the service keeps it under [symbol]. *)
Record agg_ok (stale : Z) (connected : bool) (now : Z) (symbol : string) (a : SymbolFlowAggregator) : Prop := mkAggOk {
  ao_symbol : fl_symbol a = symbol;
  ao_stale : fl_stale_after a = stale;
  ao_history : exists log, flow_history a log;
  ao_clock : forall t, fl_last_trade_time a = Some t -> (t <= now)%Z;
  ao_connected : fl_connected a = true -> connected = true
}.

Lemma agg_ok_later stale c now now' symbol a : agg_ok stale c now symbol a -> (now <= now')%Z -> agg_ok stale c now' symbol a.
Proof. intros [Hs Hst Hh Hc Hcon] Hle. split; try done. intros t Ht. specialize (Hc t Ht). lia. Qed.

Lemma flow_connected_frame at_ reconnect a :
  fl_symbol (flow_connected at_ reconnect a) = fl_symbol a /\ fl_stale_after (flow_connected at_ reconnect a) = fl_stale_after a /\
  fl_last_trade_time (flow_connected at_ reconnect a) = fl_last_trade_time a.
Proof. unfold flow_connected. by destruct reconnect, (fl_coverage_start a). Qed.

Lemma flow_disconnected_frame a :
  fl_symbol (flow_disconnected a) = fl_symbol a /\ fl_stale_after (flow_disconnected a) = fl_stale_after a /\
  fl_last_trade_time (flow_disconnected a) = fl_last_trade_time a /\ fl_connected (flow_disconnected a) = false.
Proof. unfold flow_disconnected. by destruct (fl_connected a). Qed.

Lemma agg_ok_connected stale c now symbol reconnect a :
  agg_ok stale c now symbol a -> agg_ok stale true now symbol (flow_connected now reconnect a).
Proof.
  intros [Hs Hst [log Hh] Hc Hcon]. destruct (flow_connected_frame now reconnect a) as (E1 & E2 & E3).
  split; rewrite ?E1, ?E2, ?E3; try done. exists log. by apply fh_connected.
Qed.

Lemma agg_ok_disconnected stale c c' now symbol a :
  agg_ok stale c now symbol a -> agg_ok stale c' now symbol (flow_disconnected a).
Proof.
  intros [Hs Hst [log Hh] Hc Hcon]. destruct (flow_disconnected_frame a) as (E1 & E2 & E3 & E4).
  split; rewrite ?E1, ?E2, ?E3, ?E4; try done. exists log. by apply fh_disconnected.
Qed.

Lemma agg_ok_ingest stale c now symbol event a ok a' :
  agg_ok stale c now symbol a -> flow_ingest event a = Ok (ok, a') -> (at_trade_time event <= now)%Z -> agg_ok stale c now symbol a'.
Proof.
  intros [Hs Hst [log Hh] Hc Hcon] Hin Ht. pose proof (flow_ingest_cases _ _ _ _ Hin) as [_ Hcase].
  assert (exists log', flow_history a' log') as Hh'.
  { destruct ok; [exists (log ++ [event])%list; by eapply fh_accepted|exists log; by eapply fh_ignored]. }
  assert (fl_symbol a' = fl_symbol a /\ fl_stale_after a' = fl_stale_after a /\ fl_connected a' = fl_connected a /\
          (fl_last_trade_time a' = fl_last_trade_time a \/ fl_last_trade_time a' = Some (at_trade_time event)))
    as (E1 & E2 & E3 & E4).
  { destruct Hcase as [p a' _ _ ->|l _ _ _|_ _|p _ _ _]; cbn; [|by auto..]. destruct (_ =? _)%Z; cbn; auto. }
  split; rewrite ?E1, ?E2, ?E3; try done. intros t Htime. destruct E4 as [E|E]; rewrite E in Htime; [by apply Hc|].
  injection Htime as <-. done.
Qed.

Lemma agg_ok_new stale c now symbol a :
  py_upper (py_strip symbol) = symbol -> new_flow symbol stale MAX_RETAINED_MINUTE_BUCKETS = Ok a -> agg_ok stale c now symbol a.
Proof.
  intros Hnorm Hnew. assert (flow_history a []) as Hh by (by eapply fh_new). revert Hnew. unfold new_flow. rewrite Hnorm.
  destruct (String.eqb symbol ""); [done|]. destruct (stale <=? 0)%Z; [done|]. destruct (_ <? _)%Z; [done|].
  intros <-%ok_inj. split; try done. by exists [].
Qed.

(** ** The invariant *)

Record service_inv (s : FlowService) (now : Z) : Prop := mkServiceInv {
  si_dom : dom (sv_aggregators s) = sv_desired_symbols s;
  si_evidence : ev_desired (sv_evidence s) = sv_desired_symbols s;
  si_max : (1 <= sv_max_symbols s)%nat;
  si_size : (size (sv_desired_symbols s) <= sv_max_symbols s)%nat;
  si_btc : sv_desired_symbols s = ∅ \/ BTC_FLOW_SYMBOL ∈ sv_desired_symbols s;
  si_aggs : map_Forall (agg_ok (sv_stale_after s) (is_connected s) now) (sv_aggregators s)
}.

Lemma service_inv_later s now now' : service_inv s now -> (now <= now')%Z -> service_inv s now'.
Proof.
  intros [Hd He Hm Hs Hb Ha] Hle. split; try done. eapply map_Forall_impl; [exact Ha|].
  intros k a Hk. by eapply agg_ok_later.
Qed.

(** the fields the callback leaves alone *)
Definition same_tracking (s s' : FlowService) : Prop :=
  sv_desired_symbols s' = sv_desired_symbols s /\ sv_max_symbols s' = sv_max_symbols s /\
  sv_stale_after s' = sv_stale_after s /\ sv_connection s' = sv_connection s /\ sv_overflow_symbols s' = sv_overflow_symbols s.

#[export] Instance same_tracking_preorder : PreOrder same_tracking.
Proof.
  split.
  - by intros s.
  - intros s1 s2 s3 (? & ? & ? & ? & ?) (? & ? & ? & ? & ?). split_and!; congruence.
Qed.

Lemma admission_changed_frame now s change :
  same_tracking s (admission_changed now s change) /\ sv_evidence (admission_changed now s change) = sv_evidence s /\
  sv_payload_failure (admission_changed now s change) = sv_payload_failure s.
Proof.
  destruct change as [symbol valid]. unfold admission_changed. destruct (sv_aggregators s !! symbol); [|done].
  destruct valid; cbn [negb]; [|done]. by destruct (sv_connection s).
Qed.

Lemma is_connected_same s s' : sv_connection s' = sv_connection s -> is_connected s' = is_connected s.
Proof. unfold is_connected. by intros ->. Qed.

Lemma admission_changed_inv now s change : service_inv s now -> service_inv (admission_changed now s change) now.
Proof.
  intros [Hd He Hm Hs Hb Ha]. destruct (admission_changed_frame now s change) as ((E1 & E2 & E3 & E4 & _) & E5 & _).
  assert (dom (sv_aggregators (admission_changed now s change)) = dom (sv_aggregators s) /\
    map_Forall (agg_ok (sv_stale_after s) (is_connected s) now) (sv_aggregators (admission_changed now s change))) as [Hdom Hall].
  { destruct change as [symbol valid]. unfold admission_changed. destruct (sv_aggregators s !! symbol) as [a|] eqn:Ea; [|done].
    pose proof (Ha symbol a Ea) as Hok. destruct valid; cbn [negb].
    - destruct (sv_connection s) as [n|] eqn:Ec; [|done]. split; [cbn; apply dom_insert_lookup_L; by eexists|].
      apply map_Forall_insert_2; [|done]. replace (is_connected s) with true by (unfold is_connected; by rewrite Ec).
      by eapply agg_ok_connected.
    - split; [cbn; apply dom_insert_lookup_L; by eexists|].
      apply map_Forall_insert_2; [|done]. by eapply agg_ok_disconnected. }
  split; rewrite ?E1, ?E2, ?E3, ?E5, ?(is_connected_same _ _ E4); try done. by rewrite Hdom.
Qed.

(** what every change preserves holds after all of them *)
Lemma fold_changes_ind (P : FlowService -> Prop) now changes s :
  (forall s c, P s -> P (admission_changed now s c)) -> P s -> P (fold_left (admission_changed now) changes s).
Proof.
  intros Hstep. revert s. induction changes as [|c changes IH]; intros s0 H0; [done|]. cbn [fold_left]. apply IH. by apply Hstep.
Qed.

Lemma with_evidence_ind (P : FlowService -> Prop) now e changes s :
  (forall s c, P s -> P (admission_changed now s c)) -> P (s <| sv_evidence := e |>) -> P (with_evidence now e changes s).
Proof. intros Hstep H0. unfold with_evidence. by apply fold_changes_ind. Qed.

Lemma with_evidence_frame now e changes s :
  same_tracking s (with_evidence now e changes s) /\ sv_evidence (with_evidence now e changes s) = e /\
  sv_payload_failure (with_evidence now e changes s) = sv_payload_failure s.
Proof.
  apply (with_evidence_ind (fun s' => same_tracking s s' /\ sv_evidence s' = e /\ sv_payload_failure s' = sv_payload_failure s)).
  - intros s0 c (H1 & H2 & H3). destruct (admission_changed_frame now s0 c) as (F1 & F2 & F3).
    split_and!; [by transitivity s0|by rewrite F2|by rewrite F3].
  - done.
Qed.

Lemma with_evidence_inv now e changes s :
  service_inv s now -> ev_desired e = sv_desired_symbols s -> service_inv (with_evidence now e changes s) now.
Proof.
  intros Hi He. apply (with_evidence_ind (fun s' => service_inv s' now)).
  - intros s0 c. apply admission_changed_inv.
  - destruct Hi. by split.
Qed.

(** the callback reads nothing of the evidence *)
Lemma with_evidence_aggregators now e e' changes s :
  sv_aggregators (with_evidence now e changes s) = sv_aggregators (with_evidence now e' changes s).
Proof.
  assert (forall s1 s2, sv_aggregators s1 = sv_aggregators s2 -> sv_connection s1 = sv_connection s2 ->
    sv_aggregators (fold_left (admission_changed now) changes s1) = sv_aggregators (fold_left (admission_changed now) changes s2)) as Hfold.
  { induction changes as [|[symbol valid] changes IH]; intros s1 s2 H1 H2; [done|]. cbn [fold_left]. apply IH.
    - unfold admission_changed. rewrite H1, H2. destruct (sv_aggregators s2 !! symbol); [|done].
      destruct valid; cbn [negb]; [|done]. by destruct (sv_connection s2).
    - destruct (admission_changed_frame now s1 (symbol, valid)) as ((_ & _ & _ & -> & _) & _).
      by destruct (admission_changed_frame now s2 (symbol, valid)) as ((_ & _ & _ & -> & _) & _). }
  unfold with_evidence. by apply Hfold.
Qed.

(** ** The evidence keeps its tracked symbols *)

Lemma identity_reason_desired symbol now e : ev_desired (identity_reason symbol now e).1.1 = ev_desired e.
Proof. unfold identity_reason. by destruct (_ && _ && _). Qed.

Lemma refresh_admission_desired symbols now e : ev_desired (refresh_admission symbols now e).1 = ev_desired e.
Proof.
  revert e. induction symbols as [|symbol symbols IH]; intros e; [done|]. cbn [refresh_admission].
  pose proof (identity_reason_desired symbol now e) as H1. destruct (identity_reason symbol now e) as [[e1 change] reason].
  specialize (IH e1). destruct (refresh_admission symbols now e1) as [e2 changes]. cbn in *. by rewrite IH.
Qed.

Lemma set_metadata_desired `{UnicodeData} payload acquired_at now e :
  ev_desired (set_metadata payload acquired_at now e).1 = ev_desired e.
Proof.
  unfold set_metadata. pose proof (refresh_admission_desired (elements (ev_desired e)) now e) as H1.
  destruct (refresh_admission (elements (ev_desired e)) now e) as [e1 before]. cbn [fst] in H1.
  match goal with |- context [refresh_admission (elements (ev_desired ?e2)) now ?e2] =>
    pose proof (refresh_admission_desired (elements (ev_desired e2)) now e2) as H2;
    assert (ev_desired e2 = ev_desired e1) as H3 end.
  { destruct acquired_at; [|done]. destruct (acquisition_issue _ _ _ _); [done|]. by destruct (metadata_payload_rows payload). }
  destruct (refresh_admission _ _ _) as [e3 after]. cbn [fst] in *. congruence.
Qed.

Lemma evidence_retain_desired desired now e : ev_desired (evidence_retain desired now e).1 = desired.
Proof. unfold evidence_retain. by rewrite refresh_admission_desired. Qed.

Lemma accepts_event_times_desired symbol ts age now e : ev_desired (accepts_event_times symbol ts age now e).1.1 = ev_desired e.
Proof. unfold accepts_event_times. by destruct (forallb _ _). Qed.

Lemma evidence_matches_desired symbol p now e : ev_desired (evidence_matches symbol p now e).1.1 = ev_desired e.
Proof.
  unfold evidence_matches. destruct (matches_usdt_perpetual symbol p); [|done].
  pose proof (identity_reason_desired symbol now e) as H. by destruct (identity_reason symbol now e) as [[e1 c] r].
Qed.

Lemma evidence_control_desired `{JsonErrors} payload now e : ev_desired (evidence_control payload now e).1 = ev_desired e.
Proof. unfold evidence_control. by destruct (List.find _ _) as [[id [m symbols]]|]. Qed.

(** ** Steps *)

(** steps that touch neither the tracked symbols nor the aggregators *)
Lemma service_inv_frame s s' now :
  service_inv s now -> sv_aggregators s' = sv_aggregators s -> ev_desired (sv_evidence s') = ev_desired (sv_evidence s) ->
  sv_desired_symbols s' = sv_desired_symbols s -> sv_max_symbols s' = sv_max_symbols s ->
  sv_stale_after s' = sv_stale_after s -> sv_connection s' = sv_connection s -> service_inv s' now.
Proof.
  intros [Hd He Hm Hs Hb Ha] E1 E2 E3 E4 E5 E6. split; rewrite ?E1, ?E2, ?E3, ?E4, ?E5, ?(is_connected_same _ _ E6); done.
Qed.

Lemma invalidate_stream_inv now s : service_inv s now -> service_inv (invalidate_stream now s) now.
Proof.
  intros [Hd He Hm Hs Hb Ha]. split; cbn; try done; [by rewrite dom_fmap_L|].
  apply map_Forall_fmap. eapply map_Forall_impl; [exact Ha|]. intros k a. apply agg_ok_disconnected.
Qed.

Lemma stream_failed_inv error now s : service_inv s now -> service_inv (stream_failed error now s) now.
Proof.
  intros Hi. unfold stream_failed. do 2 apply invalidate_stream_inv. by eapply service_inv_frame.
Qed.

Lemma subscription_message_frame method symbols now s :
  let s' := (subscription_message method symbols now s).1 in
  sv_aggregators s' = sv_aggregators s /\ ev_desired (sv_evidence s') = ev_desired (sv_evidence s) /\ same_tracking s s'.
Proof. done. Qed.

Lemma send_subscription_diff_inv connection additions removals now s :
  service_inv s now -> service_inv (send_subscription_diff connection additions removals now s).1 now.
Proof.
  intros Hi. unfold send_subscription_diff. destruct (negb _); [done|].
  destruct (decide (removals = ∅)); destruct (decide (additions = ∅)); cbn [fst]; by eapply service_inv_frame.
Qed.

Lemma stream_connected_inv now s : service_inv s now -> service_inv (stream_connected now s).1 now.
Proof.
  intros [Hd He Hm Hs Hb Ha]. unfold stream_connected.
  match goal with |- context [send_subscription_diff ?c ?x ?y now ?s0] =>
    assert (service_inv s0 now) as H0; [|pose proof (send_subscription_diff_inv c x y now s0 H0) as H1] end.
  { split; cbn; try done; [by rewrite dom_fmap_L|]. apply map_Forall_fmap. eapply map_Forall_impl; [exact Ha|].
    intros k a. apply agg_ok_connected. }
  destruct (send_subscription_diff _ _ _ _ _) as [s1 sent]. by eapply service_inv_frame.
Qed.

Lemma handle_trade_inv event aggregator now s s' accepted :
  service_inv s now -> sv_aggregators s !! at_symbol event = Some aggregator ->
  handle_trade event aggregator now s = Ok (s', accepted) -> service_inv s' now.
Proof.
  intros Hi Ha. unfold handle_trade.
  pose proof (accepts_event_times_desired (at_symbol event) [at_event_time event; at_trade_time event] (sv_stale_after s) now (sv_evidence s)) as Hd.
  destruct (accepts_event_times _ _ _ _ _) as [[e changes] timely] eqn:Et. cbn [fst] in Hd.
  assert (service_inv (with_evidence now e changes s) now) as Hi1 by (apply with_evidence_inv; [done|by rewrite Hd, (si_evidence _ _ Hi)]).
  destruct timely; cbn [negb].
  - assert (changes = [] /\ (at_trade_time event <= now)%Z) as [-> Hle].
    { unfold accepts_event_times in Et. destruct (forallb _ _) eqn:Ef; [|done]. injection Et as <- <-. split; [done|].
      cbn in Ef. apply andb_true_iff in Ef as [_ Ef]. apply andb_true_iff in Ef as [Ef _].
      apply andb_true_iff in Ef as [Ef _]. apply Z.leb_le in Ef. lia. }
    intros H. apply bind_ok in H as ([ok a'] & Hin & H). apply ok_inj in H as H. injection H as <- <-.
    destruct Hi1 as [Hdm He Hm Hs Hb Hall]. unfold with_evidence in *. cbn [fold_left] in *.
    change (sv_aggregators (s <| sv_evidence := e |>)) with (sv_aggregators s) in *.
    split; cbn; try done.
    + etransitivity; [apply dom_insert_lookup_L; by eexists|exact Hdm].
    + apply map_Forall_insert_2; [|done]. eapply agg_ok_ingest; [exact (Hall _ _ Ha)|exact Hin|done].
  - intros H. apply ok_inj in H. injection H as <- <-. by eapply service_inv_frame.
Qed.

Lemma handle_payload_inv `{JsonErrors} payload now s s' accepted :
  service_inv s now -> handle_payload payload now s = Ok (s', accepted) -> service_inv s' now.
Proof.
  intros Hi H0. unfold handle_payload in H0. apply bind_ok in H0 as (control & _ & H0). destruct control.
  { apply ok_inj in H0. injection H0 as <- <-. eapply service_inv_frame; [exact Hi|done| |done..]. apply evidence_control_desired. }
  destruct (parse_binance_agg_trade payload _) as [event|error].
  - pose proof (evidence_matches_desired (at_symbol event) None now (sv_evidence s)) as Hd.
    destruct (evidence_matches _ _ _ _) as [[e changes] matched]. cbn [fst] in Hd.
    assert (service_inv (with_evidence now e changes s) now) as Hi1 by (apply with_evidence_inv; [done|by rewrite Hd, (si_evidence _ _ Hi)]).
    destruct matched; cbn [negb] in H0.
    + destruct (sv_aggregators (with_evidence now e changes s) !! at_symbol event) as [a|] eqn:Ea;
        [destruct (bool_decide _)|]; [by eapply handle_trade_inv|..];
        apply ok_inj in H0; injection H0 as <- <-; by eapply service_inv_frame.
    + apply ok_inj in H0. injection H0 as <- <-. by eapply service_inv_frame.
  - destruct (is_wrong_contract error); [apply ok_inj in H0; injection H0 as <- <-; by eapply service_inv_frame|].
    destruct (is_payload_error error); [|done]. apply ok_inj in H0. injection H0 as <- <-.
    unfold reject_unverified_payload. destruct (sv_connection _); [apply invalidate_stream_inv|]; by eapply service_inv_frame.
Qed.

Lemma receive_payload_inv `{JsonErrors} payload now s : service_inv s now -> service_inv (receive_payload payload now s) now.
Proof.
  intros Hi. unfold receive_payload. destruct (handle_payload payload now s) as [[s' ok]|error] eqn:Eh; [|by apply stream_failed_inv].
  pose proof (handle_payload_inv _ _ _ _ _ Hi Eh) as Hi'. destruct (sv_payload_failure s'); [by apply stream_failed_inv|done].
Qed.

(** ** Tracked symbols *)

Lemma insert_symbol_perm s l : insert_symbol s l ≡ₚ s :: l.
Proof.
  induction l as [|t l IH]; [done|]. cbn [insert_symbol]. destruct (String.ltb t s); [|done]. rewrite IH. apply Permutation_swap.
Qed.

Lemma sorted_symbols_perm l : sorted_symbols l ≡ₚ l.
Proof. induction l as [|s l IH]; [done|]. cbn [sorted_symbols fold_right]. rewrite insert_symbol_perm. by rewrite IH. Qed.

Lemma size_list_to_set_string (l : list string) : (size (list_to_set (C := gset string) l) <= length l)%nat.
Proof.
  induction l as [|x l IH]; cbn [list_to_set length]; [by rewrite size_empty|].
  rewrite size_union_alt, size_singleton.
  assert (size (list_to_set (C := gset string) l ∖ {[x]}) <= size (list_to_set (C := gset string) l))%nat; [|lia].
  apply subseteq_size. set_solver.
Qed.

Lemma bounded_symbols_spec symbols maximum selected overflow :
  (1 <= maximum)%nat -> BTC_FLOW_SYMBOL ∈ symbols -> bounded_symbols symbols maximum = (selected, overflow) ->
  BTC_FLOW_SYMBOL ∈ selected /\ (size selected <= maximum)%nat /\ selected ∪ overflow = symbols /\ selected ## overflow.
Proof.
  intros Hmax Hbtc [= <- <-]. set (ordered := BTC_FLOW_SYMBOL :: sorted_symbols (elements (symbols ∖ {[BTC_FLOW_SYMBOL]}))).
  assert (NoDup ordered) as Hnd.
  { apply NoDup_cons. split; [|by rewrite sorted_symbols_perm; apply NoDup_elements].
    rewrite sorted_symbols_perm, elem_of_elements. set_solver. }
  split_and!.
  - apply elem_of_list_to_set. destruct maximum; [lia|]. cbn. apply list_elem_of_here.
  - pose proof (size_list_to_set_string (take maximum ordered)) as Hs. rewrite length_take in Hs. lia.
  - rewrite <- list_to_set_app_L, take_drop. unfold ordered. cbn [list_to_set]. rewrite sorted_symbols_perm, list_to_set_elements_L.
    rewrite <- union_difference_singleton_L; done.
  - intros x Hx%elem_of_list_to_set Hy%elem_of_list_to_set. rewrite <- (take_drop maximum ordered) in Hnd.
    apply NoDup_app in Hnd as (_ & Hd & _). by apply (Hd x).
Qed.

Lemma normalize_flow_symbols_spec values symbols :
  normalize_flow_symbols values = Ok symbols -> Forall (fun s => py_upper (py_strip s) = s) symbols.
Proof.
  revert symbols. induction values as [|value values IH]; intros symbols H; [by apply ok_inj in H as <-|].
  cbn [normalize_flow_symbols] in H. apply bind_ok in H as (symbol & Hsym & H). apply bind_ok in H as (rest & Hrest & H).
  apply ok_inj in H as <-. constructor; [|by apply IH]. unfold normalize_flow_symbol in Hsym.
  destruct (String.eqb _ _); [done|]. apply ok_inj in Hsym as <-. by rewrite py_strip_upper, py_strip_idem, py_upper_idem.
Qed.

Lemma add_aggregators_spec stale (connected : bool) now l m0 m (P : string -> SymbolFlowAggregator -> Prop) :
  fold_right (add_aggregator stale connected now) (Ok m0) l = Ok m ->
  map_Forall P m0 ->
  (forall symbol a, symbol ∈ l -> new_flow symbol stale MAX_RETAINED_MINUTE_BUCKETS = Ok a ->
     P symbol (if connected then flow_connected now false a else a)) ->
  dom m = dom m0 ∪ list_to_set l /\ map_Forall P m.
Proof.
  revert m. induction l as [|symbol l IH]; intros m H Hm0 Hnew.
  - apply ok_inj in H as <-. cbn. split; [set_solver|done].
  - cbn [fold_right] in H. unfold add_aggregator at 1 in H. apply bind_ok in H as (m1 & H1 & H). apply bind_ok in H as (a & Ha & H).
    apply ok_inj in H as <-. destruct (IH m1 H1 Hm0) as [Hd Hall]; [intros; apply Hnew; [by apply list_elem_of_further|done]|].
    split; [rewrite dom_insert_L, Hd; cbn; set_solver|]. apply map_Forall_insert_2; [|done]. apply Hnew; [apply list_elem_of_here|done].
Qed.

Lemma dom_filter_not (R : gset string) (m : gmap string SymbolFlowAggregator) :
  dom (filter (fun kv => kv.1 ∉ R) m) = dom m ∖ R.
Proof.
  apply set_eq. intros k. rewrite elem_of_difference, !elem_of_dom. split.
  - intros [a Ha]. apply map_lookup_filter_Some in Ha as [Ha Hk]. split; [by eexists|done].
  - intros [[a Ha] Hk]. exists a. by apply map_lookup_filter_Some.
Qed.

Lemma reconcile_symbols_inv symbols now s s' diff :
  service_inv s now -> reconcile_symbols symbols now s = Ok (s', diff) -> service_inv s' now.
Proof.
  intros Hi H. unfold reconcile_symbols in H. apply bind_ok in H as (requested & Hreq & H).
  destruct (bounded_symbols _ _) as [selected overflow] eqn:Eb.
  apply bounded_symbols_spec in Eb as (Hbtc & Hsize & Hsel & _); [|apply Hi|set_solver].
  pose proof (evidence_retain_desired selected now (sv_evidence s)) as Hd.
  destruct (evidence_retain selected now (sv_evidence s)) as [e changes]. cbn [fst] in Hd.
  destruct (with_evidence_frame now e changes s) as ((F1 & F2 & F3 & F4 & _) & F5 & _).
  (* the callback acts on the aggregators before the tracked symbols change *)
  assert (dom (sv_aggregators (with_evidence now e changes s)) = sv_desired_symbols s /\
    map_Forall (agg_ok (sv_stale_after s) (is_connected s) now) (sv_aggregators (with_evidence now e changes s))) as [Hdom Hall].
  { rewrite (with_evidence_aggregators now e (sv_evidence s)).
    pose proof (with_evidence_inv now (sv_evidence s) changes s Hi (si_evidence _ _ Hi)) as Hi1.
    destruct (with_evidence_frame now (sv_evidence s) changes s) as ((G1 & _ & G3 & G4 & _) & _).
    split; [by rewrite (si_dom _ _ Hi1), G1|]. pose proof (si_aggs _ _ Hi1) as Ha. by rewrite G3, (is_connected_same _ _ G4) in Ha. }
  apply bind_ok in H as (added & Hadd & H). apply ok_inj in H. injection H as <- <-.
  rewrite F3, (is_connected_same _ _ F4), F1 in Hadd.
  eapply (add_aggregators_spec _ _ _ _ _ _ (agg_ok (sv_stale_after s) (is_connected s) now)) in Hadd as [Hdm Hall']; [|exact Hall|].
  - split; cbn; rewrite ?F1, ?F2, ?F3, ?F5; try done; [|by apply Hi|by right|].
    + rewrite dom_filter_not, Hdm, Hdom, list_to_set_elements_L. apply set_eq. intros k. set_unfold.
      destruct (decide (k ∈ selected)), (decide (k ∈ sv_desired_symbols s)); tauto.
    + apply map_Forall_lookup. intros k a [Ha _]%map_lookup_filter_Some. unfold is_connected. cbn. rewrite F4.
      by apply Hall'.
  - intros symbol a Hin Hnew. apply elem_of_elements in Hin.
    assert (py_upper (py_strip symbol) = symbol) as Hnorm.
    { assert (symbol ∈ ({[BTC_FLOW_SYMBOL]} ∪ list_to_set requested : gset string)) as Hu by (rewrite <- Hsel; set_solver).
      apply elem_of_union in Hu as [Hu|Hu]; [apply elem_of_singleton in Hu as ->; reflexivity|].
      apply elem_of_list_to_set in Hu. apply normalize_flow_symbols_spec in Hreq. rewrite Forall_forall in Hreq. by apply Hreq. }
    destruct (is_connected s); [apply (agg_ok_connected _ false)|]; by apply agg_ok_new.
Qed.

Lemma service_snapshot_inv symbol running now s s' view :
  service_inv s now -> service_snapshot symbol running now s = Ok (s', view) -> service_inv s' now.
Proof.
  intros Hi H. unfold service_snapshot in H. apply bind_ok in H as (normalized & _ & H).
  pose proof (identity_reason_desired normalized now (sv_evidence s)) as Hd.
  destruct (identity_reason normalized now (sv_evidence s)) as [[e changes] reason]. cbn [fst] in Hd.
  apply bind_ok in H as (view' & _ & H). apply ok_inj in H. injection H as <- <-.
  apply with_evidence_inv; [done|]. by rewrite Hd, (si_evidence _ _ Hi).
Qed.

Lemma service_metadata_inv `{UnicodeData} payload acquired_at now s :
  service_inv s now -> service_inv (service_metadata payload acquired_at now s) now.
Proof.
  intros Hi. unfold service_metadata. pose proof (set_metadata_desired payload acquired_at now (sv_evidence s)) as Hd.
  destruct (set_metadata payload acquired_at now (sv_evidence s)) as [e changes]. cbn [fst] in Hd.
  apply with_evidence_inv; [done|]. by rewrite Hd, (si_evidence _ _ Hi).
Qed.

Lemma service_history_inv `{JsonErrors} `{UnicodeData} s now : service_history s now -> service_inv s now.
Proof.
  induction 1 as [stale max_symbols base maximum legacy s now Hnew|s now now' s' _ IH Hle Hstep].
  - unfold new_flow_service in Hnew. destruct (stale <=? 0)%Z; [done|].
    destruct (Z.ltb_spec max_symbols 1), (1024 <? max_symbols)%Z; cbn [orb] in Hnew; try done.
    destruct (_ || _); [done|]. apply ok_inj in Hnew as <-. split; cbn; try done; [lia|rewrite size_empty; lia|by left].
  - apply (service_inv_later _ _ now') in IH; [|done]. destruct Hstep.
    + by eapply reconcile_symbols_inv.
    + by apply send_subscription_diff_inv.
    + by apply stream_connected_inv.
    + by apply receive_payload_inv.
    + by apply stream_failed_inv.
    + by apply service_metadata_inv.
    + by eapply service_snapshot_inv.
Qed.

(** ** Views *)

Lemma flow_unavailable_status symbol reason status observed age view :
  flow_unavailable symbol reason status observed age = Ok view -> ms_status view = status.
Proof. unfold flow_unavailable. intros H. apply bind_ok in H as (sym & _ & H). by apply ok_inj in H as <-. Qed.

(** what the callback of a snapshot does to the aggregator it reads *)
Lemma snapshot_aggregator symbol now s e changes reason a' :
  service_inv s now -> identity_reason symbol now (sv_evidence s) = (e, changes, reason) -> reason = None ->
  sv_aggregators (with_evidence now e changes s) !! symbol = Some a' ->
  exists a, sv_aggregators s !! symbol = Some a /\
    (changes = [] /\ a' = a \/
     is_Some (sv_connection s) /\ a' = flow_connected now false a \/ sv_connection s = None /\ a' = a).
Proof.
  intros Hi Er -> Ha'. unfold identity_reason in Er. destruct (identity_reason_of symbol now (sv_evidence s)); [by destruct (_ && _ && _)|].
  destruct (_ && _ && _); injection Er as <- <-; [|exists a'; by auto].
  unfold with_evidence in Ha'. cbn [fold_left admission_changed] in Ha'.
  change (sv_aggregators (s <| sv_evidence := _ |>)) with (sv_aggregators s) in Ha'.
  change (sv_connection (s <| sv_evidence := _ |>)) with (sv_connection s) in Ha'.
  destruct (sv_aggregators s !! symbol) as [a|] eqn:Ea; [|exfalso; cbn in Ha'; congruence].
  exists a. split; [done|]. right. cbn [negb] in Ha'. destruct (sv_connection s).
  - left. split; [by eexists|]. cbn in Ha'. rewrite lookup_insert_eq in Ha'. by injection Ha' as <-.
  - right. split; [done|]. cbn in Ha'. congruence.
Qed.

(** no window covers minutes before a connection made now *)
Lemma window_start_lt now : (window_start 15 now < now)%Z.
Proof. unfold window_start, minute_us. pose proof (minute_start_bounds now). unfold minute_us in *. lia. Qed.

Lemma admitted_identity symbol now e e' changes reason contracts :
  identity_reason symbol now e = (e', changes, reason) -> reason = None -> changes = [] ->
  ev_contracts e = Some contracts -> symbol ∈ ev_desired e ->
  ev_metadata_issue e = None /\ symbol ∈ contracts /\
  (exists acquired, ev_metadata_at e = Some acquired /\ (0 <= now - acquired <= METADATA_MAX_AGE)%Z) /\
  ev_admission e !! symbol = Some true.
Proof.
  intros Er -> -> Hc Hd. unfold identity_reason in Er.
  destruct (identity_reason_of symbol now e) eqn:Eo; [by destruct (_ && _ && _)|].
  rewrite Hc, (bool_decide_eq_true_2 (Some contracts <> None)), (bool_decide_eq_true_2 (symbol ∈ ev_desired e)) in Er by done.
  cbn [andb] in Er. destruct (bool_decide (ev_admission e !! symbol = Some true)) eqn:Ea; cbn [negb] in Er; [|done].
  apply bool_decide_eq_true_1 in Ea. unfold identity_reason_of in Eo. rewrite Hc in Eo.
  destruct (ev_metadata_issue e); [done|]. destruct (bool_decide (symbol ∈ contracts)) eqn:Em; cbn [negb] in Eo; [|done].
  apply bool_decide_eq_true_1 in Em. destruct (ev_metadata_at e) as [acquired|]; [|done].
  destruct ((0 <=? now - acquired)%Z && (now - acquired <=? METADATA_MAX_AGE)%Z) eqn:Eage; [|done].
  apply andb_true_iff in Eage as [H1%Z.leb_le H2%Z.leb_le]. split_and!; try done. by exists acquired.
Qed.

(** ** Tracking *)

Section Service.
Context `{JsonErrors} `{UnicodeData}.

(** In every reachable state the service keeps exactly one aggregator for each
    tracked symbol and none else, tracks at most its configured maximum with
    BTCUSDT always among them, holds in each aggregator a history of accepted
    trades of that very symbol, none of them in the future, and shows an
    aggregator as connected only while the stream has a connection. *)
Theorem service_tracking_invariant s now :
  service_history s now ->
  dom (sv_aggregators s) = sv_desired_symbols s /\
  (size (sv_desired_symbols s) <= sv_max_symbols s)%nat /\
  (sv_desired_symbols s = ∅ \/ BTC_FLOW_SYMBOL ∈ sv_desired_symbols s) /\
  (forall symbol a, sv_aggregators s !! symbol = Some a ->
     (exists log, flow_history a log /\ Forall (fun e => at_symbol e = symbol /\ (at_trade_time e <= now)%Z) log) /\
     (fl_connected a = true -> is_Some (sv_connection s))).
Proof.
  intros Hi%service_history_inv. split_and!; [apply Hi..|]. intros symbol a Ha.
  destruct (si_aggs _ _ Hi symbol a Ha) as [Hs _ [log Hh] Hc Hcon]. split.
  - exists log. split; [done|]. pose proof (flow_history_inv _ _ Hh) as Hf. apply Forall_forall. intros e He. split.
    + rewrite <- Hs. pose proof (fi_symbol _ _ Hf) as Hsym. rewrite Forall_forall in Hsym. by apply Hsym.
    + by eapply times_before.
  - intros Hconn. specialize (Hcon Hconn). unfold is_connected in Hcon. by destruct (sv_connection s).
Qed.

End Service.

(** ** A sample history *)

#[local] Instance sample_errors : JsonErrors := fun _ => "Expecting value".
#[local] Instance ascii_data : UnicodeData := {| nfkc_casefold := py_lower; nfkc_casefold_ascii _ _ := eq_refl |}.

Definition sample_metadata : json :=
  JObj [("symbols", JArr [JObj [("symbol", JStr "BTCUSDT"); ("pair", JStr "BTCUSDT"); ("baseAsset", JStr "BTC");
     ("quoteAsset", JStr "USDT"); ("marginAsset", JStr "USDT"); ("contractType", JStr "PERPETUAL"); ("status", JStr "TRADING")]])].

Definition sample_payload : raw_payload :=
  RawObject [("e", JStr "aggTrade"); ("st", JInt 1); ("s", JStr "BTCUSDT"); ("p", JStr "50000.5"); ("q", JStr "2");
    ("f", JInt 10); ("l", JInt 12); ("m", JBool false); ("a", JInt 100); ("E", JInt 955000); ("T", JInt 955000)].

Definition sample_start : FlowService :=
  match new_flow_service 60000000 100 1000000 30000000 false with
  | Ok s => match reconcile_symbols ["btcusdt "; "ethusdt"] 0 s with Ok (s', _) => s' | Raise _ => s end
  | Raise _ => mkFlowService 0 0 false new_evidence ∅ ∅ ∅ ∅ None 0 false 0 0 0 0 0 None false
  end.

(** the sample metadata acquired at [now] *)
Definition sample_lease (now : Z) (s : FlowService) : FlowService := service_metadata sample_metadata (Some now) now s.

Definition sample_leased : FlowService :=
  sample_lease 900000000 (sample_lease 600000000 (sample_lease 300000000 (fst (stream_connected 0 (sample_lease 0 sample_start))))).

Definition sample_service : FlowService := receive_payload sample_payload 955500000 sample_leased.

Lemma sample_start_history : service_history sample_start 0.
Proof.
  unfold sample_start. destruct (new_flow_service 60000000 100 1000000 30000000 false) as [s|] eqn:En; [|by vm_compute in En].
  assert (service_history s 0) as Hh by (by eapply sh_new).
  destruct (reconcile_symbols ["btcusdt "; "ethusdt"] 0 s) as [[s' diff]|] eqn:Er; [|done].
  eapply sh_step; [exact Hh|lia|]. by eapply st_reconcile.
Qed.

Lemma sample_lease_history s now now' : service_history s now -> (now <= now')%Z -> service_history (sample_lease now' s) now'.
Proof. intros Hh Hle. eapply sh_step; [exact Hh|exact Hle|]. apply st_metadata. Qed.

Lemma sample_service_history : service_history sample_service 955500000.
Proof.
  unfold sample_service. eapply (sh_step _ 900000000); [|lia|apply st_received]. unfold sample_leased.
  apply (sample_lease_history _ 600000000); [|lia]. apply (sample_lease_history _ 300000000); [|lia].
  apply (sample_lease_history _ 0); [|lia]. eapply (sh_step _ 0); [|lia|apply st_connected].
  apply (sample_lease_history _ 0); [|lia]. exact sample_start_history.
Qed.

Lemma service_tracking_invariant_witness :
  dom (sv_aggregators sample_service) = sv_desired_symbols sample_service /\
  (size (sv_desired_symbols sample_service) = 2)%nat /\ BTC_FLOW_SYMBOL ∈ sv_desired_symbols sample_service.
Proof.
  destruct (service_tracking_invariant _ _ sample_service_history) as (Hd & _ & Hb & _). split; [exact Hd|].
  assert (size (sv_desired_symbols sample_service) = 2%nat) as Hs by (vm_compute; reflexivity). split; [exact Hs|].
  destruct Hb as [Hb|Hb]; [|exact Hb]. rewrite Hb in Hs. discriminate Hs.
Defined.

