(* ===== verification/DynRecord.v ===== *)
(** * Duck-typed records (the readers of src/app/lifecycle/eligibility.py)

    The eligibility predicates take [Any]: a scanner result, a lifecycle
    record, an ORM row or a plain mapping.  A Python value is here a scalar of
    [PyDecimal], a member of a [(str, Enum)] class (the only enums of the
    repository), a list or tuple, a mapping with string keys in insertion
    order, or any other object with its attributes.  [str(value)] of the last
    three is part of the value.  The attribute names the module reads are not
    attributes of the built-in scalars and sequences, so reading them there
    gives the default; attributes are plain data ([getattr] does not raise). *)

From stdpp Require Import base tactics list strings.
From Stdlib Require Import ZArith NArith Lia Bool Ascii.
From S2P Require Import Prelude PyString PyDecimal LifecycleModels CandleIntegrity Observation.
Open Scope string_scope.
Open Scope py_scope.

Inductive pyval : Type :=
| VAtom (o : pyobj)
| VEnum (shown value : string)
| VSeq (shown : string) (items : list pyval)
| VMap (shown : string) (fields : list (string * pyval))
| VObj (shown : string) (attrs : list (string * pyval)).

Abbreviation VNone := (VAtom PyNone).
Abbreviation VBool b := (VAtom (PyBool b)).
Abbreviation VInt z := (VAtom (PyInt z)).
Abbreviation VFloat r := (VAtom (PyFloat r)).
Abbreviation VDec d := (VAtom (PyDec d)).
Abbreviation VStr s := (VAtom (PyStr s)).
Abbreviation VNA := (VStr NA).

(** [str(value)] *)
Definition val_str (v : pyval) : string :=
  match v with
  | VAtom o => py_str o
  | VEnum shown _ | VSeq shown _ | VMap shown _ | VObj shown _ => shown
  end.

Definition is_mapping (v : pyval) : bool := match v with VMap _ _ => true | _ => false end.

(** [value == text] for a text *)
Definition equals_text (v : pyval) (text : string) : bool :=
  match v with
  | VStr s => String.eqb s text
  | VEnum _ s => String.eqb s text
  | _ => false
  end.

Definition is_none (v : pyval) : bool := match v with VNone => true | _ => false end.

(** ** Text *)

(** [" ".join(text.split())] *)
Fixpoint join_split (s : string) : string :=
  match s with
  | EmptyString => EmptyString
  | String c s' =>
      if is_space c then join_split s'
      else String c
             match s' with
             | EmptyString => EmptyString
             | String d _ =>
                 let tail := join_split s' in
                 if is_space d && negb (String.eqb tail "") then String " " tail else tail
             end
  end.

(** [text.rstrip("0").rstrip(".") if "." in text else text] *)
Definition trim_fraction (text : string) : string :=
  if char_in "." text then rstrip_by (Ascii.eqb ".") (rstrip_by (Ascii.eqb "0") text) else text.

(** [format(d, "f")] of any Decimal *)
Definition pydec_format_f (p : pydec) : string :=
  match p with Finite d => dec_format_f d | _ => pydec_to_string p end.

(** the [.value] of an object that has one and is not a scalar *)
Definition unwrap_value (v : pyval) : pyval :=
  match v with
  | VObj _ attrs => default v (assoc "value" attrs)
  | _ => v
  end.

Definition NA_TEXTS : list string := ["NA"; "N/A"; "NAN"; "NONE"; "NULL"].

(** the tail of [_display]: the text of what is neither a bool, a Decimal,
    a mapping nor a sequence *)
Definition display_text (raw : string) : string :=
  let text := join_split raw in
  if String.eqb text "" || str_in (py_upper text) NA_TEXTS then NA else text.

(** [_display] *)
Definition val_display (v : pyval) : string :=
  if is_none v || equals_text v "" || equals_text v NA then NA else
  let v := match v with VEnum _ value => VStr value | _ => v end in
  match unwrap_value v with
  | VBool b => if b then "true" else "false"
  | VDec d => trim_fraction (pydec_format_f d)
  | VMap _ _ | VSeq _ _ => NA
  | v => display_text (val_str v)
  end.

Definition shows_na (v : pyval) : bool := String.eqb (val_display v) NA.

(** [_status_key] *)
Definition key_of_text (text : string) : string :=
  let key := py_replace " " "_" (py_replace "-" "_" (py_strip (py_lower text))) in
  py_strip_char "_" (collapse_underscores (String.length key) key).

Definition val_status_key (v : pyval) : string :=
  let text := val_display v in
  if String.eqb text NA then "" else key_of_text text.

(** [_decimal_or_none] *)
Definition val_decimal_or_none (v : pyval) : option dec :=
  match v with
  | VBool _ => None
  | _ =>
      let text := val_display (unwrap_value v) in
      if String.eqb text NA then None else
      match parse_decimal (py_replace "," "" text) with
      | Some (Finite number) => Some number
      | _ => None
      end
  end.

(** [_boolish] *)
Definition boolish (v : pyval) : bool :=
  negb (str_in (val_status_key v)
          [""; "na"; "n_a"; "none"; "false"; "0"; "no"; "passed"; "pass"]).

(** ** Fields *)

Inductive segment : Type := Key (name : string) | Index (i : nat).
Inductive field_name : Type := Name (name : string) | Path (segments : list segment).
Coercion Name : string >-> field_name.

(** [_field] *)
Definition val_field (record : pyval) (name : string) : pyval :=
  match record with
  | VMap _ fields => default VNA (assoc name fields)
  | VObj _ attrs => default VNA (assoc name attrs)
  | _ => VNA
  end.

(** [_nested_field] *)
Fixpoint nested_field (current : pyval) (path : list segment) : pyval :=
  match path with
  | [] => current
  | seg :: rest =>
      let next := match seg with
                  | Index i => match current with VSeq _ items => items !! i | _ => None end
                  | Key name => Some (val_field current name)
                  end in
      match next with
      | None => VNA
      | Some v => if is_none v then VNA else nested_field v rest
      end
  end.

Definition read_field (record : pyval) (name : field_name) : pyval :=
  match name with Name n => val_field record n | Path p => nested_field record p end.

(** [_existing_field] *)
Definition existing_field (record : pyval) (name : string) : option pyval :=
  match record with
  | VMap _ fields => assoc name fields
  | VObj _ attrs => assoc name attrs
  | _ => None
  end.

(** [_existing_nested_field] *)
Fixpoint existing_nested_field (current : pyval) (path : list segment) : option pyval :=
  match path with
  | [] => Some current
  | seg :: rest =>
      let next := match seg with
                  | Index i => match current with VSeq _ items => items !! i | _ => None end
                  | Key name => existing_field current name
                  end in
      match next with
      | None => None
      | Some v => if is_none v then Some VNA else existing_nested_field v rest
      end
  end.

(** [_first_existing_field]: [None] is the sentinel [_MISSING] *)
Fixpoint first_existing_field (record : pyval) (names : list field_name) : option pyval :=
  match names with
  | [] => None
  | name :: rest =>
      let found := match name with
                   | Name n => existing_field record n
                   | Path p => existing_nested_field record p
                   end in
      match found with Some v => Some v | None => first_existing_field record rest end
  end.

(** [_representative_diagnostics]: the fields of the mapping it returns *)
Definition no_diagnostics (v : pyval) : bool := negb (is_mapping v) && shows_na v.

Definition representative_diagnostics (record : pyval) : list (string * pyval) :=
  let d := val_field record "strategy_diagnostics" in
  let d := if no_diagnostics d then val_field (val_field record "lifecycle_state") "strategy_diagnostics" else d in
  let d := if no_diagnostics d then val_field (val_field record "trade_idea") "strategy_diagnostics" else d in
  match d with
  | VMap _ fields =>
      match List.find is_mapping (map snd fields) with
      | Some (VMap _ inner) => inner
      | _ => fields
      end
  | _ => match val_field record "raw_result" with VMap _ raw => raw | _ => [] end
  end.

(** [diagnostics.get(name, NA)] *)
Definition diagnostic (diagnostics : list (string * pyval)) (name : string) : pyval :=
  default VNA (assoc name diagnostics).

(** [_sequence_fields] *)
Definition sequence_fields (record : pyval) (names : list string) : list pyval :=
  flat_map (fun name =>
    match val_field record name with
    | VStr s => [VStr s]
    | VEnum shown value => [VEnum shown value]
    | VSeq _ items => items
    | _ => []
    end) names.

(** one loop of [_first_field] over the names: the first value that shows
    something or is a mapping *)
Definition shown_or_mapping (v : pyval) : bool := negb (shows_na v) || is_mapping v.

Definition first_shown (record : pyval) (names : list field_name) : option pyval :=
  List.find shown_or_mapping (map (read_field record) names).

(** the last loop of [_first_field], over the diagnostics *)
Definition first_diagnostic (diagnostics : list (string * pyval)) (names : list field_name) : option pyval :=
  List.find (fun v => negb (shows_na v))
    (flat_map (fun name => match name with Name n => [diagnostic diagnostics n] | Path _ => [] end) names).

(** [a or else b] on optional values *)
Definition or_else {A} (a b : option A) : option A := match a with Some x => Some x | None => b end.

(** [_first_field].  The tests [lifecycle is not record] and
    [trade_idea is not record] skip a loop that would repeat the first one,
    which found nothing. *)
Definition first_field (record : pyval) (names : list field_name) : pyval :=
  default VNA
    (or_else (first_shown record names)
    (or_else (first_shown (val_field record "lifecycle_state") names)
    (or_else (first_shown (val_field record "trade_idea") names)
             (first_diagnostic (representative_diagnostics record) names)))).

(** [_preferred_field] *)
Definition preferred_field (record : pyval) (names : list field_name) : pyval :=
  default (first_field record names)
    (or_else (first_existing_field record names)
    (or_else (first_existing_field (val_field record "lifecycle_state") names)
             (first_existing_field (val_field record "trade_idea") names))).
