(* ===== verification/DisplayFacts.v ===== *)
(** * Reading back displayed decimals

    [format(d, "f")], with the trailing zeros of its fraction removed, parses
    to a Decimal of the same value.  The texts are split as sign, integer
    digits and fraction digits. *)

From stdpp Require Import base tactics list strings.
From Stdlib Require Import ZArith NArith QArith Lia Lqa Bool Ascii ZifyN ZifyNat.
From S2P Require Import Prelude PyString PyDecimal DecimalFacts EconomicIdentity LifecycleModels DynRecord.
Open Scope string_scope.

(** ** The number a digit text denotes *)

Fixpoint digits_acc (acc : N) (s : string) : N :=
  match s with
  | EmptyString => acc
  | String c s' => digits_acc (10 * acc + digit_value c) s'
  end.

Abbreviation all_digits s := (string_forallb is_digit s = true).

Lemma digits_acc_app a b acc : digits_acc acc (a +:+ b) = digits_acc (digits_acc acc a) b.
Proof. revert acc. induction a as [|c a IH]; intros acc; simpl; [done|]. apply IH. Qed.

Lemma digits_acc_linear s acc :
  digits_acc acc s = (acc * pow10 (String.length s) + digits_acc 0 s)%N.
Proof.
  revert acc. induction s as [|c s IH]; intros acc; cbn [digits_acc String.length].
  - unfold pow10. simpl. lia.
  - rewrite IH, (IH (10 * 0 + digit_value c)%N), pow10_succ. lia.
Qed.

Lemma digits_acc_zeros k acc : digits_acc acc (string_repeat "0" k) = (acc * pow10 k)%N.
Proof.
  revert acc. induction k as [|k IH]; intros acc; cbn [string_repeat digits_acc]; [unfold pow10; simpl; lia|].
  rewrite IH, pow10_succ. change (digit_value "0") with 0%N. lia.
Qed.

Lemma string_repeat_length c k : String.length (string_repeat c k) = k.
Proof. induction k as [|k IH]; simpl; [done|by rewrite IH]. Qed.

Lemma digits_go_value fuel n acc :
  (n < pow10 fuel)%N -> (0 < fuel)%nat ->
  digits_acc 0 (digits_go fuel n acc) = (n * pow10 (String.length acc) + digits_acc 0 acc)%N.
Proof.
  revert n acc. induction fuel as [|fuel IH]; intros n acc Hn Hf; [lia|]. cbn [digits_go].
  set (acc' := String _ acc).
  assert (digits_acc 0 acc' = (n mod 10 * pow10 (String.length acc) + digits_acc 0 acc)%N) as Ha.
  { unfold acc'. cbn [digits_acc]. rewrite digits_acc_linear, (proj2 (digit_char_value n)). lia. }
  pose proof (N.div_mod n 10 ltac:(lia)) as Hdm.
  destruct (N.eqb_spec (n / 10) 0) as [E|E].
  - rewrite Ha. do 2 f_equal. lia.
  - rewrite pow10_succ in Hn. destruct fuel as [|fuel].
    { exfalso. unfold pow10 in Hn. simpl in Hn. apply E. apply N.div_small. lia. }
    rewrite IH; [|apply N.Div0.div_lt_upper_bound; lia|lia].
    rewrite Ha. change (String.length acc') with (S (String.length acc)). rewrite pow10_succ. nia.
Qed.

Lemma digits_acc_string_of_N n : digits_acc 0 (string_of_N n) = n.
Proof.
  unfold string_of_N. rewrite digits_go_value; [unfold pow10; simpl; lia| |lia].
  pose proof (N_size_nat_bound n) as H. unfold pow10.
  assert (2 ^ N.of_nat (N.size_nat n) <= 10 ^ N.of_nat (N.size_nat n))%N by (apply N.pow_le_mono_l; lia).
  assert (10 ^ N.of_nat (N.size_nat n) <= 10 ^ N.of_nat (S (N.size_nat n)))%N by (apply N.pow_le_mono_r; lia).
  lia.
Qed.

Lemma read_digits_all s rest : all_digits s ->
  match rest with String c _ => is_digit c | _ => false end = false ->
  forall acc n, read_digits (s +:+ rest) acc n = (digits_acc acc s, (n + String.length s)%nat, rest).
Proof.
  intros Hs Hr. induction s as [|c s IH]; intros acc n; cbn [String.append digits_acc String.length].
  - rewrite Nat.add_0_r. destruct rest as [|c r]; [done|]. cbn [read_digits]. by rewrite Hr.
  - cbn [string_forallb] in Hs. apply andb_true_iff in Hs as [Hc Hs]. cbn [read_digits]. rewrite Hc, IH by done.
    by replace (n + S (String.length s))%nat with (S n + String.length s)%nat by lia.
Qed.

(** ** Plain decimal texts *)

Definition sign_text (neg : bool) : string := if neg then "-" else "".

Definition plain_text (neg : bool) (i f : string) : string :=
  sign_text neg +:+ i +:+ (if String.eqb f "" then "" else "." +:+ f).

Definition plain_dec (neg : bool) (i f : string) : dec :=
  mkDec neg (digits_acc 0 (i +:+ f)) (- Z.of_nat (String.length f)).

Lemma plain_text_chars neg i f : all_digits i -> all_digits f -> string_forallb price_char (plain_text neg i f) = true.
Proof.
  intros Hi Hf. unfold plain_text. rewrite !string_forallb_app.
  rewrite (string_forallb_impl is_digit _ i price_char_digit Hi).
  destruct neg, (String.eqb f ""); try done; cbn; by rewrite (string_forallb_impl is_digit _ f price_char_digit Hf).
Qed.

Lemma price_char_no_space c : price_char c = true -> negb (is_space c) = true.
Proof. by destruct c as [[] [] [] [] [] [] [] []]. Qed.

Lemma parse_plain neg i f : all_digits i -> all_digits f -> i <> "" ->
  parse_decimal (plain_text neg i f) = Some (Finite (plain_dec neg i f)).
Proof.
  intros Hi Hf Hne. pose proof (plain_text_chars neg i f Hi Hf) as Hc. unfold parse_decimal.
  rewrite py_strip_id by exact (string_forallb_impl _ _ _ price_char_no_space Hc).
  rewrite py_replace_absent by (by apply (char_in_forallb _ price_char)).
  assert (read_sign (plain_text neg i f) = (neg, i +:+ (if String.eqb f "" then "" else "." +:+ f))) as ->.
  { unfold plain_text. destruct neg; [done|]. destruct i as [|c i]; [done|]. cbn in Hi.
    apply andb_true_iff in Hi as [Hi _]. revert Hi. by destruct c as [[] [] [] [] [] [] [] []]. }
  rewrite read_digits_all by (done || by destruct (String.eqb f "")).
  destruct i as [|c i]; [done|].
  destruct (String.eqb_spec f "") as [->|Ef].
  - cbn -[digits_acc]. unfold plain_dec. by rewrite string_app_nil_r.
  - cbn [String.append]. change ("." +:+ f) with (String "." f). cbv iota beta.
    rewrite <- (string_app_nil_r f) at 1. rewrite read_digits_all by done.
    cbn -[digits_acc]. unfold plain_dec. by rewrite digits_acc_app.
Qed.

(** ** The text of [format(d, "f")] *)

Lemma take_drop_string n s : take_string n s +:+ drop_string n s = s.
Proof. revert n. induction s as [|c s IH]; intros [|n]; simpl; try done. by rewrite IH. Qed.

Lemma drop_string_length n s : String.length (drop_string n s) = (String.length s - n)%nat.
Proof. revert n. induction s as [|c s IH]; intros [|n]; simpl; try done. Qed.

Lemma plain_dec_value neg i f c e :
  (Z.of_N (digits_acc 0 (i +:+ f)) * 10 ^ Z.max 0 (- (e + Z.of_nat (String.length f)))
   = Z.of_N c * 10 ^ Z.max 0 (e + Z.of_nat (String.length f)))%Z ->
  dQ (plain_dec neg i f) == dQ (mkDec neg c e).
Proof.
  intros H. rewrite !dQ_sgn. cbn [d_neg d_coef d_exp plain_dec]. apply Qmult_comp; [reflexivity|].
  set (n := Z.of_nat (String.length f)) in *. set (v := Z.of_N (digits_acc 0 (i +:+ f))) in *.
  destruct (Z.le_ge_cases 0 (e + n)) as [Hle|Hle].
  - rewrite Z.max_l, Z.pow_0_r, Z.mul_1_r, Z.max_r in H by lia. rewrite H, inject_Z_mult.
    rewrite <- ten_pow_nonneg by lia. rewrite <- Qmult_assoc, <- ten_pow_add.
    by replace (e + n + - n)%Z with e by lia.
  - rewrite (Z.max_l 0 (e + n)), Z.pow_0_r, Z.mul_1_r, Z.max_r in H by lia. rewrite <- H, inject_Z_mult.
    rewrite <- ten_pow_nonneg by lia. rewrite <- Qmult_assoc, <- ten_pow_add.
    by replace (- (e + n) + e)%Z with (- n)%Z by lia.
Qed.

Lemma zeros_value acc n : digits_acc acc (zeros n) = (acc * pow10 (Z.to_nat n))%N.
Proof. apply digits_acc_zeros. Qed.

Lemma zeros_length n : String.length (zeros n) = Z.to_nat n.
Proof. apply string_repeat_length. Qed.

(** [format(d, "f")] is a plain text of the value of [d]. *)
Lemma format_f_plain d : exists i f,
  dec_format_f d = plain_text (d_neg d) i f /\ all_digits i /\ all_digits f /\ i <> "" /\
  dQ (plain_dec (d_neg d) i f) == dQ d.
Proof.
  unfold dec_format_f.
  set (d' := if ((d_coef d =? 0)%N && (0 <? d_exp d)%Z)%bool then mkDec (d_neg d) 0 0 else d).
  assert (d_neg d' = d_neg d /\ dQ d' == dQ d /\ (d_coef d' = 0%N -> (d_exp d' <= 0)%Z)) as (Hn & HQ & Hz).
  { unfold d'. destruct ((d_coef d =? 0)%N && (0 <? d_exp d)%Z)%bool eqn:E.
    - apply andb_true_iff in E as [E _]. apply N.eqb_eq in E. split; [done|]. split; [|done].
      rewrite (proj1 (coef_zero_dQ d) E). by apply coef_zero_dQ.
    - split; [done|]. split; [done|]. intros E0. rewrite E0 in E. simpl in E. apply Z.ltb_ge in E. lia. }
  clearbody d'. destruct d' as [neg c e]. cbn [d_neg d_coef d_exp] in *. subst neg.
  pose proof (string_of_N_digits c) as Hd. pose proof (digits_acc_string_of_N c) as Hv.
  destruct (string_of_N_head c) as (h & t & Eh & _).
  assert (1 <= Z.of_nat (String.length (string_of_N c)))%Z as Hlen by (rewrite Eh; simpl; lia).
  set (ds := string_of_N c) in *. set (len := Z.of_nat (String.length ds)) in *.
  assert (forall i f, all_digits i -> all_digits f -> i <> "" ->
    (Z.of_N (digits_acc 0 (i +:+ f)) * 10 ^ Z.max 0 (- (e + Z.of_nat (String.length f)))
      = Z.of_N c * 10 ^ Z.max 0 (e + Z.of_nat (String.length f)))%Z ->
    exists i' f', plain_text (d_neg d) i f = plain_text (d_neg d) i' f' /\ all_digits i' /\ all_digits f'
      /\ i' <> "" /\ dQ (plain_dec (d_neg d) i' f') == dQ d) as Hgo.
  { intros i f Hi Hf Hne H. exists i, f. repeat (split; [done|]). rewrite <- HQ. by apply plain_dec_value. }
  destruct (Z.ltb_spec (e + len) 0) as [Hneg|Hpos].
  - apply Hgo; [done|rewrite string_forallb_app, zeros_digits; exact Hd|done|].
    rewrite string_length_app, zeros_length.
    rewrite Z.max_l, Z.max_l by lia. rewrite digits_acc_app, (digits_acc_app (zeros _)), zeros_value.
    change (digits_acc 0 "0") with 0%N. rewrite N.mul_0_l, Hv. lia.
  - destruct (Z.ltb_spec len (e + len)) as [He|He].
    + apply Hgo; [rewrite string_forallb_app, zeros_digits, Hd; done|done|rewrite Eh; done|].
      rewrite string_app_nil_r, digits_acc_app, zeros_value, Hv. cbn [String.length].
      rewrite Z.max_l, Z.max_r by lia. rewrite N2Z.inj_mul. unfold pow10.
      rewrite N2Z.inj_pow, nat_N_Z, Z2Nat.id by lia. change (Z.of_N 10) with 10%Z.
      replace (e + len - len)%Z with (e + Z.of_nat 0)%Z by lia. lia.
    + set (k := Z.to_nat (e + len)).
      apply Hgo; [|by apply drop_string_forallb| |].
      * destruct (String.eqb _ ""); [done|by apply take_string_forallb].
      * destruct (String.eqb_spec (take_string k ds) ""); done.
      * assert (digits_acc 0 ((if String.eqb (take_string k ds) "" then "0" else take_string k ds)
                 +:+ drop_string k ds) = c) as ->.
        { destruct (String.eqb_spec (take_string k ds) "") as [E|E]; [|by rewrite take_drop_string].
          rewrite <- (take_drop_string k ds), E in Hv. exact Hv. }
        rewrite drop_string_length. unfold k. rewrite !Z.max_l by lia. lia.
Qed.

(** ** Removing the trailing zeros of the fraction *)

Lemma rstrip_by_app p a b :
  rstrip_by p (a +:+ b) = if String.eqb (rstrip_by p b) "" then rstrip_by p a else a +:+ rstrip_by p b.
Proof.
  induction a as [|c a IH]; cbn [String.append rstrip_by].
  - destruct (String.eqb_spec (rstrip_by p b) "") as [E|E]; [by rewrite E|done].
  - rewrite IH. destruct (String.eqb_spec (rstrip_by p b) "") as [E|E]; [done|].
    destruct (rstrip_by p b) as [|x y]; [done|].
    assert (String.eqb (a +:+ String x y) "" = false) as -> by (by destruct a). by rewrite andb_false_r.
Qed.

Lemma rstrip_zeros_split s : exists k, s = rstrip_by (Ascii.eqb "0") s +:+ string_repeat "0" k.
Proof.
  induction s as [|c s (k & IH)]; [by exists 0%nat|]. cbn [rstrip_by].
  destruct (Ascii.eqb_spec "0" c) as [<-|E]; cbn [andb].
  - destruct (String.eqb_spec (rstrip_by (Ascii.eqb "0") s) "") as [E|E]; [|exists k; cbn; by rewrite <- IH].
    exists (S k). cbn. f_equal. rewrite IH at 1. by rewrite E.
  - exists k. cbn. by rewrite <- IH.
Qed.

Lemma no_dots s : all_digits s -> rstrip_by (Ascii.eqb ".") s = s.
Proof.
  intros Hs. apply rstrip_by_none. apply (string_forallb_impl is_digit); [|done].
  intros c. by destruct c as [[] [] [] [] [] [] [] []].
Qed.

Lemma digits_no_dot s : all_digits s -> char_in "." s = false.
Proof. by apply char_in_forallb. Qed.

(** Trimming keeps a plain text plain and drops only zeros of the fraction. *)
Lemma trim_plain neg i f : all_digits i -> all_digits f -> i <> "" ->
  exists f' k, f = f' +:+ string_repeat "0" k /\ all_digits f' /\
    trim_fraction (plain_text neg i f) = plain_text neg i f'.
Proof.
  intros Hi Hf Hne. unfold trim_fraction. destruct (String.eqb_spec f "") as [->|Ef].
  { exists "", 0%nat. repeat (split; [done|]). unfold plain_text. cbn [String.eqb].
    rewrite string_app_nil_r, char_in_app, (digits_no_dot i Hi). by destruct neg. }
  set (f' := rstrip_by (Ascii.eqb "0") f). destruct (rstrip_zeros_split f) as (k & Hk). fold f' in Hk.
  assert (all_digits f') as Hf' by (rewrite Hk, string_forallb_app, andb_true_iff in Hf; tauto).
  exists f', k. split; [done|]. split; [done|].
  unfold plain_text. rewrite (proj2 (String.eqb_neq f "") Ef), <- !(string_app_assoc (sign_text neg) i).
  set (a := sign_text neg +:+ i).
  assert (rstrip_by (Ascii.eqb ".") a = a) as Ha.
  { unfold a. rewrite rstrip_by_app, no_dots by done. by rewrite (proj2 (String.eqb_neq i "") Hne). }
  assert (char_in "." (a +:+ "." +:+ f) = true) as -> by (rewrite char_in_app; apply orb_true_r).
  rewrite rstrip_by_app. change (rstrip_by (Ascii.eqb "0") ("." +:+ f)) with (String "." f'). cbn [String.eqb].
  rewrite rstrip_by_app. change (rstrip_by (Ascii.eqb ".") (String "." f'))
    with (if String.eqb (rstrip_by (Ascii.eqb ".") f') "" then "" else String "." (rstrip_by (Ascii.eqb ".") f')).
  rewrite (no_dots f' Hf'). destruct (String.eqb_spec f' "") as [E|E]; cbn [String.eqb]; [|done].
  by rewrite Ha, string_app_nil_r.
Qed.

Lemma plain_dec_trim neg i f k : dQ (plain_dec neg i (f +:+ string_repeat "0" k)) == dQ (plain_dec neg i f).
Proof.
  rewrite !dQ_sgn. cbn [d_neg d_coef d_exp plain_dec]. apply Qmult_comp; [reflexivity|].
  rewrite <- string_app_assoc, digits_acc_app, digits_acc_zeros, string_length_app, string_repeat_length.
  rewrite N2Z.inj_mul, inject_Z_mult, <- ten_pow_nat, <- Qmult_assoc, <- ten_pow_add.
  by replace (Z.of_nat k + - Z.of_nat (String.length f + k))%Z with (- Z.of_nat (String.length f))%Z by lia.
Qed.

(** A displayed Decimal is a plain text of the same value. *)
Lemma display_dec_plain d : exists i f,
  val_display (VDec (Finite d)) = plain_text (d_neg d) i f /\ all_digits i /\ all_digits f /\ i <> "" /\
  dQ (plain_dec (d_neg d) i f) == dQ d.
Proof.
  destruct (format_f_plain d) as (i & f & E & Hi & Hf & Hne & HQ).
  destruct (trim_plain (d_neg d) i f Hi Hf Hne) as (f' & k & Ef & Hf' & Et).
  exists i, f'. split; [by cbn -[trim_fraction dec_format_f]; rewrite E|].
  repeat (split; [done|]). by rewrite <- HQ, Ef, plain_dec_trim.
Qed.

Lemma plain_text_not_na neg i f : all_digits i -> all_digits f -> String.eqb (plain_text neg i f) NA = false.
Proof.
  intros Hi Hf. apply String.eqb_neq. intros E. pose proof (plain_text_chars neg i f Hi Hf) as H.
  by rewrite E in H.
Qed.

(** [_decimal_or_none] of a finite Decimal is a Decimal of the same value. *)
Lemma val_decimal_of_dec d : exists d', val_decimal_or_none (VDec (Finite d)) = Some d' /\ dQ d' == dQ d.
Proof.
  destruct (display_dec_plain d) as (i & f & E & Hi & Hf & Hne & HQ).
  exists (plain_dec (d_neg d) i f). split; [|done].
  unfold val_decimal_or_none. cbn [unwrap_value]. rewrite E, plain_text_not_na by done.
  rewrite py_replace_absent by (apply (char_in_forallb _ price_char); [done|by apply plain_text_chars]).
  by rewrite parse_plain.
Qed.

(** ** Text that is its own display *)

Lemma join_split_id s : string_forallb (fun c => negb (is_space c)) s = true -> join_split s = s.
Proof.
  induction s as [|c s IH]; [done|]. cbn [string_forallb join_split]. intros H.
  apply andb_true_iff in H as [Hc Hs]. apply negb_true_iff in Hc. rewrite Hc. f_equal.
  destruct s as [|d s]; [done|]. rewrite IH by done. cbn [string_forallb] in Hs.
  apply andb_true_iff in Hs as [Hd _]. apply negb_true_iff in Hd. by rewrite Hd.
Qed.

Lemma price_char_upper c : price_char c = true -> upper_char c = c.
Proof. by destruct c as [[] [] [] [] [] [] [] []]. Qed.

Lemma price_text_upper s : string_forallb price_char s = true -> py_upper s = s.
Proof.
  induction s as [|c s IH]; [done|]. cbn [string_forallb]. intros H. apply andb_true_iff in H as [Hc Hs].
  change (py_upper (String c s)) with (String (upper_char c) (py_upper s)). by rewrite price_char_upper, IH.
Qed.

Lemma price_text_not_na s : string_forallb price_char s = true -> str_in s NA_TEXTS = false.
Proof.
  intros H. apply str_in_false. intros Hin. cbn in Hin.
  repeat (destruct Hin as [<-|Hin]; [done|]). done.
Qed.

(** A plain text is displayed as it is. *)
Lemma display_plain neg i f : all_digits i -> all_digits f -> i <> "" ->
  val_display (VStr (plain_text neg i f)) = plain_text neg i f.
Proof.
  intros Hi Hf Hne. pose proof (plain_text_chars neg i f Hi Hf) as Hc.
  assert (String.eqb (plain_text neg i f) "" = false) as He.
  { apply String.eqb_neq. unfold plain_text, sign_text. destruct neg; [done|]. by destruct i. }
  unfold val_display. cbn [is_none equals_text]. rewrite He, plain_text_not_na by done. cbn [orb unwrap_value val_str py_str].
  unfold display_text. rewrite join_split_id by exact (string_forallb_impl _ _ _ price_char_no_space Hc).
  by rewrite He, price_text_upper, price_text_not_na.
Qed.

Lemma val_decimal_of_display d :
  exists d', val_decimal_or_none (VStr (val_display (VDec (Finite d)))) = Some d' /\ dQ d' == dQ d.
Proof.
  destruct (display_dec_plain d) as (i & f & E & Hi & Hf & Hne & HQ).
  exists (plain_dec (d_neg d) i f). split; [|done].
  unfold val_decimal_or_none. cbn [unwrap_value]. rewrite E, display_plain, plain_text_not_na by done.
  rewrite py_replace_absent by (apply (char_in_forallb _ price_char); [done|by apply plain_text_chars]).
  by rewrite parse_plain.
Qed.
