(* ===== verification/PublicQuality.v ===== *)
(** * Public signal quality (src/app/analytics/public_signal_quality.py)

    Grades are ranked; a candidate is public when its first recognised grade,
    or failing that the grade of its first readable score, reaches the minimum
    grade.  The canonical decision reads the evaluated setup quality only. *)

From stdpp Require Import base tactics list strings.
From Stdlib Require Import ZArith NArith QArith Qminmax Lia Lqa Bool Ascii.
From S2P Require Import Prelude PyString PyDecimal DecimalFacts LifecycleModels CandleIntegrity DynRecord.
Open Scope string_scope.
Open Scope py_scope.

Definition MIN_PUBLIC_SIGNAL_GRADE : string := "A".
Definition MIN_PUBLIC_SETUP_QUALITY_SCORE : dec := dec_of_Z 88.

Definition GRADE_RANKS : list (string * Z) :=
  [("no_trade", 0); ("no trade", 0); ("reject", 1); ("rejected", 1); ("c", 2); ("b-", 3);
   ("b", 4); ("b+", 5); ("a-", 6); ("a", 7); ("a+", 8)]%Z.

Definition SCORE_GRADE_BANDS : list (dec * string) :=
  [(dec_of_Z 90, "A+"); (dec_of_Z 85, "A"); (dec_of_Z 80, "A-"); (dec_of_Z 75, "B+");
   (dec_of_Z 65, "B"); (dec_of_Z 55, "B-"); (dec_of_Z 50, "C"); (dec_of_Z 0, "Reject")].

Definition GRADE_LABELS : list (string * string) :=
  [("a+", "A+"); ("a", "A"); ("a-", "A-"); ("b+", "B+"); ("b", "B"); ("b-", "B-"); ("c", "C");
   ("reject", "Reject"); ("rejected", "Reject"); ("no_trade", "No trade"); ("no trade", "No trade")].

Record PublicSignalQualityDecision := {
  pq_passed : bool;
  pq_reason : string;
  pq_grade : string;
  pq_rank : option Z;
  pq_source : string
}.

Record CanonicalPublicSetupQualityDecision := {
  cq_passed : bool;
  cq_blockers : list string;
  cq_score : option dec;
  cq_grade : string;
  cq_min_score : dec;
  cq_min_grade : string
}.

(** [_display]: a member of a [(str, Enum)] class is a [str], so it is shown
    by [str(member)] and not by its value *)
Definition pq_display (v : pyval) : string :=
  if is_none v || equals_text v "" || equals_text v NA then NA else
  match unwrap_value v with
  | VBool _ => NA
  | VDec d => trim_fraction (pydec_format_f d)
  | v => let text := join_split (val_str v) in if String.eqb text "" then NA else text
  end.

(** [_decimal_or_none] *)
Definition pq_decimal_or_none (v : pyval) : option dec :=
  let text := pq_display v in
  if String.eqb text NA then None else
  match parse_decimal text with
  | Some (Finite number) => Some number
  | _ => None
  end.

(** [_grade_key] *)
Definition pq_grade_key (v : pyval) : string :=
  let text := pq_display v in
  if String.eqb text NA then "" else py_replace "-" "-" (py_replace "_" " " (py_strip (py_lower text))).

Definition normalize_grade (v : pyval) : string :=
  let text := pq_display v in
  if String.eqb text NA then NA else
  default NA (assoc (pq_grade_key (VStr text)) GRADE_LABELS).

Definition public_grade_rank (v : pyval) : option Z :=
  let grade := normalize_grade v in
  if String.eqb grade NA then None else assoc (pq_grade_key (VStr grade)) GRADE_RANKS.

(** the loop of [grade_from_score] over the bands *)
Fixpoint band_of (score : dec) (bands : list (dec * string)) : string :=
  match bands with
  | [] => "Reject"
  | (threshold, grade) :: rest => if dleb threshold score then grade else band_of score rest
  end.

Definition grade_of_score (score : dec) : string :=
  band_of (dmin (dec_of_Z 100) (dmax (dec_of_Z 0) score)) SCORE_GRADE_BANDS.

Definition grade_from_score (v : pyval) : string :=
  match pq_decimal_or_none v with
  | None => NA
  | Some score => grade_of_score score
  end.

Definition decide_rank (min_rank : Z) (passed_reason source grade : string) (rank : Z)
    : PublicSignalQualityDecision :=
  if (min_rank <=? rank)%Z
  then {| pq_passed := true; pq_reason := passed_reason; pq_grade := grade;
          pq_rank := Some rank; pq_source := source |}
  else {| pq_passed := false; pq_reason := "below_min_public_grade"; pq_grade := grade;
          pq_rank := Some rank; pq_source := source |}.

(** one of the two loops of [public_quality_decision]: the first candidate
    whose grade has a rank decides *)
Fixpoint first_ranked (grade_of : pyval -> string) (min_rank : Z) (passed_reason source : string)
    (candidates : list pyval) : option PublicSignalQualityDecision :=
  match candidates with
  | [] => None
  | candidate :: rest =>
      let grade := grade_of candidate in
      match public_grade_rank (VStr grade) with
      | None => first_ranked grade_of min_rank passed_reason source rest
      | Some rank => Some (decide_rank min_rank passed_reason source grade rank)
      end
  end.

Definition public_quality_decision (grade_candidates score_candidates : list pyval) (min_grade : string)
    : result PublicSignalQualityDecision :=
  match public_grade_rank (VStr min_grade) with
  | None => Raise (ValueError ("Unsupported minimum public signal grade: " +:+ py_repr min_grade))
  | Some min_rank =>
      match first_ranked normalize_grade min_rank "public_grade_passed" "grade" grade_candidates with
      | Some d => Ok d
      | None =>
          match first_ranked grade_from_score min_rank "public_score_passed" "score" score_candidates with
          | Some d => Ok d
          | None => Ok {| pq_passed := false; pq_reason := "below_min_public_grade"; pq_grade := NA;
                          pq_rank := None; pq_source := NA |}
          end
      end
  end.

Definition public_quality_passes (grade_candidates score_candidates : list pyval) (min_grade : string)
    : result bool :=
  let! d := public_quality_decision grade_candidates score_candidates min_grade in Ok (pq_passed d).

(** ** The canonical setup quality *)

(** the members of [SetupQualityGrade] (setup_quality.py), a [(str, Enum)] class *)
Definition SETUP_QUALITY_GRADES : list (string * string) :=
  [("A_PLUS", "A+"); ("A", "A"); ("A_MINUS", "A-"); ("B_PLUS", "B+"); ("B", "B"); ("B_MINUS", "B-");
   ("C", "C"); ("REJECT", "Reject"); ("NO_TRADE", "No trade"); ("NA", "N/A")].

Definition grade_member (member : string * string) : pyval :=
  VEnum ("SetupQualityGrade." +:+ fst member) (snd member).

(** [getattr(value, name, None)] *)
Definition getattr_none (v : pyval) (name : string) : pyval :=
  match v with VObj _ attrs => default VNone (assoc name attrs) | _ => VNone end.

(** [quality.is_evaluated is True] of the record's [setup_quality], if any *)
Definition evaluated_quality (record : pyval) : option pyval :=
  let quality := getattr_none record "setup_quality" in
  if is_none quality then None else
  match getattr_none quality "is_evaluated" with
  | VBool true => Some quality
  | _ => None
  end.

Definition canonical_public_setup_quality_score (record : pyval) : option dec :=
  match evaluated_quality record with
  | None => None
  | Some quality => pq_decimal_or_none (getattr_none quality "quality_score")
  end.

Definition canonical_public_setup_quality_grade (record : pyval) : string :=
  match evaluated_quality record with
  | None => NA
  | Some quality =>
      let grade := getattr_none quality "quality_grade" in
      let grade := match grade with VEnum _ value => VStr value | _ => unwrap_value grade end in
      normalize_grade grade
  end.

(** [repr(value)] of a scalar *)
Definition atom_repr (o : pyobj) : string :=
  match o with
  | PyStr s => py_repr s
  | PyDec d => "Decimal('" +:+ pydec_to_string d +:+ "')"
  | _ => py_str o
  end.

Definition canonical_score_blockers (score : option dec) (minimum : dec) : list string :=
  match score with
  | None => ["public_setup_quality_score_missing"]
  | Some s =>
      if dltb s minimum
      then ["public_setup_quality_score_below_min:" +:+ pq_display (VDec (Finite s)) +:+ "<"
            +:+ pq_display (VDec (Finite minimum))]
      else []
  end.

Definition canonical_grade_blockers (grade : string) (minimum_rank : Z) (min_grade : string) : list string :=
  match public_grade_rank (VStr grade) with
  | None => ["public_setup_quality_grade_missing"]
  | Some rank =>
      if (rank <? minimum_rank)%Z
      then ["public_setup_quality_grade_below_min:" +:+ grade +:+ "<" +:+ normalize_grade (VStr min_grade)]
      else []
  end.

Definition canonical_public_setup_quality_decision (record : pyval) (min_score : pyobj) (min_grade : string)
    : result CanonicalPublicSetupQualityDecision :=
  match pq_decimal_or_none (VAtom min_score) with
  | None => Raise (ValueError ("Unsupported minimum public setup-quality score: " +:+ atom_repr min_score))
  | Some minimum_score =>
  match public_grade_rank (VStr min_grade) with
  | None => Raise (ValueError ("Unsupported minimum public setup-quality grade: " +:+ py_repr min_grade))
  | Some minimum_rank =>
      let score := canonical_public_setup_quality_score record in
      let grade := canonical_public_setup_quality_grade record in
      let blockers := (canonical_score_blockers score minimum_score
                       ++ canonical_grade_blockers grade minimum_rank min_grade)%list in
      Ok {| cq_passed := match blockers with [] => true | _ => false end;
            cq_blockers := blockers; cq_score := score; cq_grade := grade;
            cq_min_score := minimum_score; cq_min_grade := normalize_grade (VStr min_grade) |}
  end
  end.
