(* ===== verification/DynPlan.v ===== *)
(** * Stored plan geometry of any record (src/app/lifecycle/outcome_policy.py)

    [stored_plan_geometry] takes [Any]: [OutcomePolicy] models it on lifecycle
    records, this file on the values of [DynRecord], and shows that both agree
    on a lifecycle record seen as an object. *)

From stdpp Require Import base tactics list strings.
From Stdlib Require Import ZArith NArith Lia Bool Ascii.
From S2P Require Import Prelude PyString PyDecimal TradePlan LifecycleModels CandleIntegrity OutcomePolicy DynRecord.
Open Scope string_scope.
Open Scope py_scope.

(** [_field] of outcome_policy *)
Definition plan_field (v : pyval) (name : string) : pyval :=
  match v with
  | VMap _ fields => default VNone (assoc name fields)
  | VObj _ attrs => default VNone (assoc name attrs)
  | _ => VNone
  end.

(** [_text] of outcome_policy *)
Definition plan_text (v : pyval) : string :=
  if is_none v || equals_text v "" then NA else
  let text := py_strip (val_str v) in
  if String.eqb text "" then NA else text.

(** [_stored_invalidation] *)
Definition plan_invalidation (record : pyval) : string :=
  let logic := plan_text (plan_field record "invalidation_logic") in
  if negb (String.eqb logic NA) then logic else
  let reason := plan_text (plan_field record "invalidation_reason") in
  if negb (String.eqb reason NA) then reason else NA.

(** [_required_decimal] *)
Definition plan_decimal (v : pyval) (name : string) : result dec :=
  match v with
  | VAtom o => stored_decimal o name
  | _ =>
      if equals_text v "" || equals_text v NA then Raise (ValueError ("missing_" +:+ name)) else
      match parse_decimal (val_str v) with
      | None => Raise (ValueError ("invalid_" +:+ name))
      | Some (Finite d) => Ok d
      | Some _ => Raise (ValueError ("non_finite_" +:+ name))
      end
  end.

Definition plan_level (record : pyval) (name : string) : result dec :=
  plan_decimal (plan_field record name) name.

(** [stored_plan_geometry] *)
Definition plan_geometry_of (record : pyval) : result StoredPlanGeometry :=
  let direction_value := plan_field record "direction" in
  let direction := py_lower (plan_text direction_value) in
  if negb (str_in direction ["long"; "short"])
  then Raise (ValueError ("unsupported_direction:" +:+ val_str direction_value)) else
  let! low := plan_level record "entry_low" in
  let! high := plan_level record "entry_high" in
  let! stop := plan_level record "stop_loss" in
  let! t1 := plan_level record "tp1" in
  let! t2 := plan_level record "tp2" in
  let! t3 := plan_level record "tp3" in
  if String.eqb (plan_invalidation record) NA
  then Raise (ValueError "missing_invalidation") else
  if dltb high low then Raise (ValueError "entry_low_above_entry_high") else
  let! integrity := validate_trade_plan (stored_plan_args direction low high stop t1 t2 t3) in
  if negb (tp_valid integrity) then
    Raise (ValueError (if String.eqb direction "long" then "invalid_long_level_order"
                       else "invalid_short_level_order"))
  else Ok {| g_direction := direction; g_entry_low := low; g_entry_high := high;
             g_stop_loss := stop; g_targets := (t1, t2, t3) |}.

(** [has_valid_stored_plan_geometry]: only [ValueError] is caught *)
Definition val_has_valid_stored_plan_geometry (record : pyval) : result bool :=
  match plan_geometry_of record with
  | Ok _ => Ok true
  | Raise (ValueError _) => Ok false
  | Raise e => Raise e
  end.

(** ** A lifecycle record as an object *)

Definition state_member (s : SetupLifecycleState) : pyval :=
  VEnum ("SetupLifecycleState." +:+ state_value s) (state_value s).

Definition optional {A} (f : A -> pyval) (o : option A) : pyval :=
  match o with None => VNone | Some x => f x end.

Definition optional_text_value (o : option string) : pyval := optional (fun s => VStr s) o.

Definition record_attrs (r : SetupLifecycleRecord) : list (string * pyval) :=
  [("lifecycle_id", VStr (r_lifecycle_id r)); ("symbol", VStr (r_symbol r));
   ("mode", VStr (r_mode r)); ("direction", VStr (r_direction r));
   ("current_state", state_member (r_current_state r));
   ("previous_state", optional state_member (r_previous_state r));
   ("first_seen_at", VStr (r_first_seen_at r)); ("last_seen_at", VStr (r_last_seen_at r));
   ("last_transition_at", VStr (r_last_transition_at r)); ("failed_gate", VStr (r_failed_gate r));
   ("candidate_quality_grade", VStr (r_candidate_quality_grade r));
   ("final_quality_grade", VStr (r_final_quality_grade r));
   ("technical_score", VStr (r_technical_score r)); ("opportunity_score", VStr (r_opportunity_score r));
   ("final_failed_gate", VStr (r_final_failed_gate r)); ("final_block_reason", VStr (r_final_block_reason r));
   ("target_integrity_status", VStr (r_target_integrity_status r));
   ("target_failure", VStr (r_target_failure r));
   ("target_failure_severity", VStr (r_target_failure_severity r));
   ("target_warning_reason", VStr (r_target_warning_reason r));
   ("actionability_state", VStr (r_actionability_state r));
   ("readiness_score", VInt (r_readiness_score r)); ("quality_score", VInt (r_quality_score r));
   ("edge_score", VStr (r_edge_score r)); ("regime_state", VStr (r_regime_state r));
   ("action_label", VStr (r_action_label r)); ("invalidation_reason", VStr (r_invalidation_reason r));
   ("cooldown_until", optional_text_value (r_cooldown_until r)); ("archived_at", optional_text_value (r_archived_at r));
   ("entry_low", VStr (r_entry_low r)); ("entry_high", VStr (r_entry_high r));
   ("stop_loss", VStr (r_stop_loss r)); ("tp1", VStr (r_tp1 r)); ("tp2", VStr (r_tp2 r));
   ("tp3", VStr (r_tp3 r)); ("rr", VStr (r_rr r)); ("invalidation_logic", VStr (r_invalidation_logic r));
   ("confirmation_count", VInt (r_confirmation_count r));
   ("required_confirmation_cycles", VInt (r_required_confirmation_cycles r));
   ("quality_grade_first_seen", VStr (r_quality_grade_first_seen r));
   ("quality_grade_current", VStr (r_quality_grade_current r));
   ("quality_grade_confirmed", VStr (r_quality_grade_confirmed r));
   ("confirmed_at", optional_text_value (r_confirmed_at r)); ("decay_count", VInt (r_decay_count r));
   ("decay_reason", VStr (r_decay_reason r));
   ("symbol_health_score_at_detection", VStr (r_symbol_health_score_at_detection r));
   ("symbol_health_penalty_cycles", VInt (r_symbol_health_penalty_cycles r));
   ("setup_identity", VStr (r_setup_identity r)); ("structural_anchor", VStr (r_structural_anchor r));
   ("is_current", VBool (r_is_current r)); ("setup_id", optional_text_value (r_setup_id r));
   ("plan_version_id", optional_text_value (r_plan_version_id r));
   ("economic_identity_reason", optional_text_value (r_economic_identity_reason r));
   ("runtime_epoch_id", optional_text_value (r_runtime_epoch_id r));
   ("creation_origin_id", optional_text_value (r_creation_origin_id r))].

(** a lifecycle record as the readers see it; [shown] is its [str()] *)
Definition record_value (shown : string) (r : SetupLifecycleRecord) : pyval := VObj shown (record_attrs r).

(** ** Both readings agree *)

Lemma plan_text_str s : plan_text (VStr s) = op_text s.
Proof. reflexivity. Qed.

Lemma plan_invalidation_record shown r : plan_invalidation (record_value shown r) = stored_invalidation r.
Proof. reflexivity. Qed.

Lemma plan_geometry_record shown r : plan_geometry_of (record_value shown r) = stored_plan_geometry r.
Proof. reflexivity. Qed.

Lemma val_geometry_record shown r :
  val_has_valid_stored_plan_geometry (record_value shown r) = has_valid_stored_plan_geometry r.
Proof.
  unfold val_has_valid_stored_plan_geometry, has_valid_stored_plan_geometry, stored_plan_geometry_failure.
  rewrite plan_geometry_record. by destruct (stored_plan_geometry r) as [|[]].
Qed.
