(* ===== verification/Eligibility.v ===== *)
(** * Lifecycle eligibility (src/app/lifecycle/eligibility.py)

    Which records may be shown as a public watchlist candidate, as an active
    signal, or as research.  A record is any value of [DynRecord]; the clock of
    [_cooldown_active] ([datetime.now(UTC)]) is the argument [now], in
    microseconds. *)

From stdpp Require Import base tactics list strings.
From Stdlib Require Import ZArith NArith Lia Bool Ascii.
From S2P Require Import Prelude PyString PyDecimal PyTime TradePlan LifecycleModels OutcomePolicy Observation.
From S2P Require Import CandleIntegrity DynRecord DynPlan PublicQuality.
Open Scope string_scope.
Open Scope py_scope.

Definition EL_PUBLIC_WATCHLIST_MIN_RR : dec := dec_of_Z 3.

Definition WATCH_STATE_KEYS : list string :=
  ["actionable_a_grade"; "a_grade_actionable"; "a_grade_actionable_target_caution"].

Definition FIRST_SEEN_TRIGGERED_STATE_KEY : string := "triggered".

Definition INTERNAL_TOUCH_STATE_KEYS : list string :=
  ["entry_hit"; "entry_touch"; "entry_touched"; "entry_zone_hit"; "entry_zone_touch";
   "entry_zone_touched"; "limit_hit"; "limit_touch"; "limit_touched"; "limit_zone_hit";
   "limit_zone_touch"; "limit_zone_touched"].

Definition PUBLIC_SIGNAL_ELIGIBLE_STATE_KEYS : list string :=
  ["confirmed"].

Definition PUBLIC_ACTIVE_STATE_KEYS : list string :=
  ["confirmed"; "executing"; "managing"; "active"].

Definition PUBLIC_WATCHLIST_ACTIONABLE_STATE_KEYS : list string :=
  ["actionable_a_grade"; "a_grade_actionable"; "a_grade_actionable_target_caution"].

Definition ACTIVE_SIGNAL_STATE_KEYS : list string := PUBLIC_ACTIVE_STATE_KEYS.

Definition TERMINAL_STATE_KEYS : list string :=
  ["invalidated"; "cooldown"; "cooled_down"; "archived"; "rejected"; "expired"; "sl_hit"; "breakeven";
   "stop_hit"; "tp_hit"; "tp1_hit"; "tp2_hit"; "tp3_hit"; "no_longer_tracking"; "completed"; "closed";
   "cancelled"; "canceled"; "removed"].

Definition PUBLIC_BLOCKER_KEYS : list string :=
  ["a_grade_blocked_by_entry_window"; "a_grade_blocked_by_final_gates"; "a_grade_blocked_by_scoring";
   "a_grade_blocked_by_target"; "a_grade_blocked_by_trust"; "below_min_public_grade"; "blocked";
   "body_acceptance_failure"; "core_status_blocked"; "data_issue"; "derivatives_conflict"; "error";
   "failed"; "failed_quality_gates"; "funding_oi_guard"; "invalid"; "invalid_scanner_result";
   "invalid_target_fields"; "missing_confirmation_structure_shift"; "missing_confirmed_sweep";
   "no_edge"; "no_setup"; "no_trade"; "no_valid_liquidity_grab_pullback_setup"; "no_valid_setup";
   "quality_gate_failed"; "quality_gates_failed"; "reject"; "rejected"; "rejected_by_derivatives";
   "rejected_by_regime"; "rejected_by_risk"; "rejected_by_scoring"; "rejected_by_technical";
   "rejected_no_edge"; "regime_blocked"; "weak_regime_fit"; "hard_regime_block"; "rr_expansion_needed";
   "wait_for_rr_expansion_above_minimum"; "invalid_rr"; "below_min_rr"; "missing_stop"; "missing_sl";
   "missing_target"; "missing_entry"; "missing_entry_zone"; "missing_limit_zone";
   "missing_invalidation"; "no_trade_plan"; "trade_map_na"; "rr_below_minimum"; "rr_too_low";
   "scan_error"; "scanned_no_setup"; "scanner_error"; "setup_quality_blocked"; "strategy_rejected";
   "target_integrity_failed"; "technical_score_below_min"; "watchlist_not_public_ready"].

Definition PUBLIC_WATCHLIST_ALLOWED_PENDING_BLOCKER_KEYS : list string :=
  ["below_min_rr"; "challenge_rr_below_3"; "clean_confirmation_pending"; "confirmation_pending";
   "entry_zone_not_hit"; "entry_zone_not_touched"; "first_seen_triggered_pre_confirmation";
   "limit_zone_not_hit"; "limit_zone_not_touched"; "missing_confirmation";
   "missing_confirmation_structure_shift"; "no_setup"; "pullback_pending"; "rejected_by_scoring";
   "rr_below_minimum"; "rr_too_low"; "scanned_no_setup"; "trigger_not_hit"].

Definition PUBLIC_BLOCKER_TEXT : list string :=
  ["a-grade candidate, but blocked"; "below_min_public_grade"; "blocked by final scoring";
   "blocked by target integrity"; "blocked by trust meter"; "blocked by expired entry window";
   "core_status_blocked"; "failed quality gates"; "invalid target"; "no edge";
   "no valid liquidity-grab pullback setup"; "no valid liquidity grab pullback setup";
   "no valid setup"; "quality gate failed"; "rejected_by_regime"; "rejected_by_technical";
   "rejected_no_edge"; "regime blocked"; "regime fit: weak"; "trade map: n/a"; "wait for rr expansion";
   "scanned_no_setup"; "setup_quality_blocked"; "target_integrity_failed";
   "watchlist_not_public_ready"].

Record LifecycleEligibilityConfig := {
  ec_min_rr : pyobj;
  ec_public_watchlist_min_rr : pyobj;
  ec_min_public_grade : string
}.

Definition default_eligibility_config : LifecycleEligibilityConfig :=
  {| ec_min_rr := PyDec (Finite (dec_of_Z 3));
     ec_public_watchlist_min_rr := PyDec (Finite EL_PUBLIC_WATCHLIST_MIN_RR);
     ec_min_public_grade := MIN_PUBLIC_SIGNAL_GRADE |}.

Record ResearchWatchEligibilityConfig := { rc_min_quality : Z; rc_min_readiness : Z }.

Definition default_research_config : ResearchWatchEligibilityConfig :=
  {| rc_min_quality := 60; rc_min_readiness := 50 |}.

Definition is_numeric_trade_value (v : pyval) : bool :=
  match val_decimal_or_none v with Some _ => true | None => false end.

(** ** Direction, levels and state of a record *)

(** [_direction] *)
Definition record_direction (record : pyval) : string :=
  val_status_key (preferred_field record ["direction" : field_name; "bias" : field_name]).

Definition is_side (direction : string) : bool := str_in direction ["long"; "short"].

Record TradeLevels := {
  l_entry_low : option dec;
  l_entry_high : option dec;
  l_stop_loss : option dec;
  l_tp1 : option dec;
  l_tp2 : option dec;
  l_tp3 : option dec
}.

(** [_trade_levels] *)
Definition trade_levels (record : pyval) : TradeLevels :=
  let level names := val_decimal_or_none (preferred_field record names) in
  {| l_entry_low := level [Name "entry_low"; Name "entry_zone_low"; Path [Key "entry_zone"; Key "low"]];
     l_entry_high := level [Name "entry_high"; Name "entry_zone_high"; Path [Key "entry_zone"; Key "high"]];
     l_stop_loss := level [Name "stop_loss"; Name "stop"; Name "stop_price"; Path [Key "stop_loss"; Key "price"]];
     l_tp1 := level [Name "tp1"; Name "take_profit_1"; Name "target_1"; Path [Key "take_profits"; Index 0; Key "price"]];
     l_tp2 := level [Name "tp2"; Name "take_profit_2"; Name "target_2"; Path [Key "take_profits"; Index 1; Key "price"]];
     l_tp3 := level [Name "tp3"; Name "take_profit_3"; Name "target_3"; Path [Key "take_profits"; Index 2; Key "price"]] |}.

(** [_current_state] *)
Definition current_state (record : pyval) : pyval :=
  first_field record
    [Name "current_state"; Name "lifecycle_current_state"; Path [Key "lifecycle_state"; Key "current_state"];
     Path [Key "lifecycle_state"; Key "state"]; Name "new_state"; Name "state"].

(** [_has_archived_at] *)
Definition has_archived_at (record : pyval) : bool := negb (shows_na (first_field record [Name "archived_at"])).

(** [_cooldown_active] *)
Definition cooldown_active (now : Z) (record : pyval) : result bool :=
  let value := val_display (first_field record [Name "cooldown_until"]) in
  if String.eqb value NA then Ok false else
  match fromisoformat (py_replace "Z" "+00:00" value) with
  | None => Ok true
  | Some parsed =>
      let! utc := astimezone_utc (as_utc parsed) in
      Ok (now <? instant utc)%Z
  end.

(** ** Plans *)

Definition has_valid_direction (record : pyval) : bool := is_side (record_direction record).

(** [_long_optional_target_order] and [_short_optional_target_order]: [before a b]
    is the order of the direction *)
Definition optional_target_order (before : dec -> dec -> bool) (tp1 : dec) (tp2 tp3 : option dec) : bool :=
  if match tp2 with Some t2 => negb (before tp1 t2) | None => false end then false else
  match tp3 with
  | None => true
  | Some t3 => match tp2 with None => false | Some t2 => before t2 t3 end
  end.

Definition long_optional_target_order : dec -> option dec -> option dec -> bool := optional_target_order dltb.
Definition short_optional_target_order : dec -> option dec -> option dec -> bool :=
  optional_target_order (fun a b => dltb b a).

Definition has_valid_trade_map (record : pyval) : bool :=
  let levels := trade_levels record in
  let direction := record_direction record in
  if negb (is_side direction) then false else
  match l_entry_low levels, l_entry_high levels, l_stop_loss levels, l_tp1 levels with
  | Some low, Some high, Some stop, Some tp1 =>
      if dltb high low then false else
      if String.eqb direction "long" then
        if dleb low stop || dleb tp1 high then false
        else long_optional_target_order tp1 (l_tp2 levels) (l_tp3 levels)
      else
        if dleb stop high || dleb low tp1 then false
        else short_optional_target_order tp1 (l_tp2 levels) (l_tp3 levels)
  | _, _, _, _ => false
  end.

(** [_has_public_watchlist_plan] *)
Definition has_public_watchlist_plan (record : pyval) : bool :=
  let levels := trade_levels record in
  let direction := record_direction record in
  if negb (is_side direction) then false else
  match l_entry_low levels, l_entry_high levels, l_tp1 levels with
  | Some low, Some high, Some _ =>
      if dltb high low then false else
      match l_stop_loss levels with
      | None =>
          negb (shows_na (first_field record
                  [Name "invalidation_level"; Name "invalid_below"; Name "invalid_above";
                   Name "invalidation"; Name "invalidation_reason"]))
      | Some stop => if String.eqb direction "long" then dltb stop low else dltb high stop
      end
  | _, _, _ => false
  end.

(** ** Risk and reward *)

Definition dec_arg (o : option dec) : pyobj := match o with Some d => PyDec (Finite d) | None => PyNone end.

(** [_decimal_or_none(value) or default] *)
Definition decimal_or (o : option dec) (default : dec) : dec :=
  match o with Some d => if dtruth d then d else default | None => default end.

(** the [execution_cost] argument of [_computed_rr_to_tp2] *)
Definition execution_cost (record : pyval) : dec :=
  decimal_or (val_decimal_or_none (first_field record [Name "execution_cost"])) dzero.

(** [_computed_rr_to_tp2] *)
Definition computed_rr_to_tp2 (record : pyval) : result (option dec) :=
  let levels := trade_levels record in
  let direction := record_direction record in
  if negb (is_side direction) then Ok None else
  let! plan := validate_public_trade_plan direction
                 (dec_arg (l_entry_low levels)) (dec_arg (l_entry_high levels)) (dec_arg (l_stop_loss levels))
                 (dec_arg (l_tp1 levels)) (dec_arg (l_tp2 levels)) (dec_arg (l_tp3 levels))
                 (PyDec (Finite PUBLIC_TP2_MINIMUM_RR))
                 (PyDec (Finite (execution_cost record))) in
  Ok (tp_rr plan).

(** the RR the record reports *)
Definition reported_rr (record : pyval) : option dec :=
  val_decimal_or_none
    (first_field record [Name "rr"; Name "rr_planned"; Name "planned_rr"; Name "best_rr"; Name "rr_to_tp2";
                         Path [Key "setup_quality"; Key "best_rr"]]).

(** [_trusted_rr] *)
Definition trusted_rr (record : pyval) : result (option dec) :=
  let reported := reported_rr record in
  let! computed := computed_rr_to_tp2 record in
  Ok match computed with
     | None => None
     | Some c => Some match reported with Some r => dmin r c | None => c end
     end.

(** the [rr_value] of [has_valid_rr] and [is_public_watchlist_candidate] *)
Definition effective_rr (record : pyval) : result (option dec) :=
  let! trusted := trusted_rr record in
  match trusted with
  | Some rr => Ok (Some rr)
  | None => computed_rr_to_tp2 record
  end.

Definition has_valid_rr (record : pyval) (min_rr : pyobj) : result bool :=
  let minimum := default (dec_of_Z 3) (val_decimal_or_none (VAtom min_rr)) in
  let! rr_value := effective_rr record in
  Ok match rr_value with
     | None => false
     | Some rr => dleb (dmax (dec_of_Z 3) minimum) rr
     end.

(** ** Quality *)

(** [_grade_candidates] *)
Definition grade_candidates (record : pyval) : list pyval :=
  map (fun name => first_field record [name])
    [Name "candidate_quality_grade"; Path [Key "lifecycle_state"; Key "candidate_quality_grade"];
     Name "final_quality_grade"; Path [Key "lifecycle_state"; Key "final_quality_grade"];
     Name "quality_grade_current"; Name "quality_grade_confirmed"; Name "setup_quality_score";
     Name "quality_grade"; Name "grade"; Name "trust_grade";
     Path [Key "setup_quality"; Key "quality_grade"]; Path [Key "trade_idea"; Key "grade"]].

(** [_score_candidates] *)
Definition score_candidates (record : pyval) : list pyval :=
  map (fun name => first_field record [name])
    [Name "quality_score"; Name "setup_quality_score"; Name "opportunity_score"; Name "confidence_score";
     Name "trust_percentage"; Path [Key "setup_quality"; Key "quality_score"];
     Path [Key "trade_idea"; Key "confidence_score"]].

Definition has_public_quality (record : pyval) (min_public_grade : string) : result bool :=
  let! decision := public_quality_decision (grade_candidates record) (score_candidates record) min_public_grade in
  Ok (pq_passed decision).

(** ** Blockers *)

(** [_blocker_values] *)
Definition blocker_values (record : pyval) : list pyval :=
  let diagnostics := representative_diagnostics record in
  (map (fun name => first_field record [name])
     [Name "actionability_state"; Path [Key "lifecycle_state"; Key "actionability_state"];
      Name "final_failed_gate"; Path [Key "lifecycle_state"; Key "final_failed_gate"];
      Name "final_block_reason"; Path [Key "lifecycle_state"; Key "final_block_reason"];
      Name "public_block_reason"; Name "failed_gate"; Name "rejection_reason"; Name "blocked_reason";
      Name "error_message"; Name "last_error_message"; Name "status"; Name "display_status";
      Name "display_bucket"; Name "quality_state"; Path [Key "setup_quality"; Key "quality_state"];
      Path [Key "setup_quality"; Key "decision_reason"]; Path [Key "trade_idea"; Key "status"]]
   ++ map (diagnostic diagnostics)
     ["actionability_state"; "final_failed_gate"; "final_block_reason"; "public_block_reason";
      "first_failed_gate"; "failed_gate"; "rejection_reason"; "core_status_blocked"; "setup_quality_blocked";
      "watchlist_not_public_ready"; "target_integrity_failed"; "status"; "display_status"; "display_bucket"]
   ++ sequence_fields record ["rejection_reasons"; "hard_rejection_reasons"; "gates_failed"])%list.

(** the body of the loop of [_public_blocker_reasons] *)
Definition value_reasons (allowed : list string) (v : pyval) : list string :=
  let key := val_status_key v in
  if str_in key allowed then [] else
  let text := py_lower (val_display v) in
  ((if negb (String.eqb key "") && (str_in key PUBLIC_BLOCKER_KEYS || str_in key TERMINAL_STATE_KEYS)
    then [key] else [])
   ++ (if negb (String.eqb text (py_lower NA)) && existsb (fun fragment => py_contains fragment text) PUBLIC_BLOCKER_TEXT
       then [if String.eqb key "" then text else key] else []))%list.

(** [_public_blocker_reasons] *)
Definition public_blocker_reasons (record : pyval) (reject_invalidation_reason : bool)
    (allowed_keys : list string) : list string :=
  let allowed := map (fun k => val_status_key (VStr k)) allowed_keys in
  dict_fromkeys
    ((if boolish (first_field record [Name "target_integrity_failed"]) then ["target_integrity_failed"] else [])
     ++ (if boolish (first_field record [Name "regime_blocked"]) then ["regime_blocked"] else [])
     ++ (if reject_invalidation_reason && negb (shows_na (first_field record [Name "invalidation_reason"]))
         then ["invalidation_reason_present"] else [])
     ++ flat_map (value_reasons allowed) (blocker_values record))%list.

Definition no_reasons (reasons : list string) : bool := match reasons with [] => true | _ => false end.

(** [_has_no_public_blockers] *)
Definition has_no_public_blockers_with (record : pyval) (reject_invalidation_reason : bool) : bool :=
  no_reasons (public_blocker_reasons record reject_invalidation_reason []).

Definition has_no_public_blockers (record : pyval) : bool := has_no_public_blockers_with record true.

(** ** States *)

Definition is_terminal_state (state : pyval) : bool := str_in (val_status_key state) TERMINAL_STATE_KEYS.

(** membership in a set of state keys that excludes the terminal ones *)
Definition live_state_in (keys : list string) (state : pyval) : bool :=
  let key := val_status_key state in str_in key keys && negb (str_in key TERMINAL_STATE_KEYS).

Definition is_watch_state (state : pyval) : bool := live_state_in WATCH_STATE_KEYS state.
Definition is_active_signal_state (state : pyval) : bool := live_state_in ACTIVE_SIGNAL_STATE_KEYS state.
Definition is_public_signal_eligible_state (state : pyval) : bool := live_state_in PUBLIC_SIGNAL_ELIGIBLE_STATE_KEYS state.
Definition is_public_active_state (state : pyval) : bool := live_state_in PUBLIC_ACTIVE_STATE_KEYS state.
Definition is_internal_touch_state (state : pyval) : bool := str_in (val_status_key state) INTERNAL_TOUCH_STATE_KEYS.

Definition requires_existing_public_signal_for_update (state : pyval) : bool :=
  let key := val_status_key state in
  str_in key TERMINAL_STATE_KEYS || (str_in key PUBLIC_ACTIVE_STATE_KEYS || str_in key INTERNAL_TOUCH_STATE_KEYS).

(** [_first_seen_triggered_pre_confirmation].  The default [_MISSING] of the
    [diagnostics.get] calls is a plain object, shown as [sentinel]
    ("<object object at 0x...>"). *)
Fixpoint first_key (values : list pyval) : string :=
  match values with
  | [] => ""
  | v :: rest => let key := val_status_key v in if String.eqb key "" then first_key rest else key
  end.

Definition first_seen_triggered_pre_confirmation (sentinel : string) (record : pyval) : bool :=
  if negb (String.eqb (val_status_key (current_state record)) FIRST_SEEN_TRIGGERED_STATE_KEY) then false else
  let failed_gate := val_status_key (first_field record [Name "failed_gate"]) in
  let diagnostics := representative_diagnostics record in
  let pending := val_status_key (first_field record
                   [Name "pending_confirmation_reason"; Name "confirmation_needed"; Name "next_trigger_needed"]) in
  let diagnostic_pending :=
    first_key (map (fun name => default (VObj sentinel []) (assoc name diagnostics))
                 ["first_failed_gate"; "failed_gate"; "confirmation_needed"; "next_trigger_needed"]) in
  existsb (fun value => negb (String.eqb value "")
             && (str_in value PUBLIC_WATCHLIST_ALLOWED_PENDING_BLOCKER_KEYS || py_contains "confirm" value))
    [failed_gate; pending; diagnostic_pending].

(** ** The canonical stored plan *)

(** [_has_valid_canonical_lifecycle_plan] *)
Definition has_valid_canonical_lifecycle_plan (record : pyval) : result bool :=
  let stored := match record with VMap _ fields => assoc "_stored_lifecycle_record" fields | _ => None end in
  match stored with
  | Some lifecycle =>
      if is_none lifecycle || equals_text lifecycle NA then Ok true
      else val_has_valid_stored_plan_geometry lifecycle
  | None =>
      let lifecycle := val_field record "lifecycle_state" in
      let text := match lifecycle with VStr _ => true | VEnum _ _ => true | _ => false end in
      if negb (is_none lifecycle) && negb (equals_text lifecycle NA) && negb text
      then val_has_valid_stored_plan_geometry lifecycle
      else val_has_valid_stored_plan_geometry record
  end.

(** ** The public predicates *)

(** the state test of [is_public_watchlist_candidate] *)
Definition watchlist_state_blocked (candidate : pyval) : bool :=
  let state := current_state candidate in
  let state_key := val_status_key state in
  let actionability_key := val_status_key
    (first_field candidate [Name "actionability_state"; Path [Key "lifecycle_state"; Key "actionability_state"]]) in
  (str_in state_key PUBLIC_ACTIVE_STATE_KEYS
   || str_in state_key INTERNAL_TOUCH_STATE_KEYS
   || (negb (str_in state_key PUBLIC_WATCHLIST_ACTIONABLE_STATE_KEYS)
       && negb (str_in actionability_key PUBLIC_WATCHLIST_ACTIONABLE_STATE_KEYS)))
  || is_terminal_state state.

Definition watchlist_minimum_rr (config : LifecycleEligibilityConfig) : dec :=
  dmax EL_PUBLIC_WATCHLIST_MIN_RR
    (decimal_or (val_decimal_or_none (VAtom (ec_public_watchlist_min_rr config))) EL_PUBLIC_WATCHLIST_MIN_RR).

Definition rr_reasons (rr_value : option dec) (minimum_rr : dec) : list string :=
  match rr_value with
  | None => ["missing_rr"]
  | Some rr =>
      when (dltb rr minimum_rr)
        ("below_min_rr:" +:+ val_display (VDec (Finite rr)) +:+ "<" +:+ val_display (VDec (Finite minimum_rr)))
  end.

Definition is_public_watchlist_candidate (config : LifecycleEligibilityConfig) (now : Z) (candidate : pyval)
    : result (bool * list string) :=
  let state_key := val_status_key (current_state candidate) in
  let! cooldown := cooldown_active now candidate in
  let! canonical := has_valid_canonical_lifecycle_plan candidate in
  let! rr_value := effective_rr candidate in
  let! quality := public_quality_decision (grade_candidates candidate) (score_candidates candidate)
                    (ec_min_public_grade config) in
  let reasons :=
    (when (has_archived_at candidate) "archived"
     ++ when (watchlist_state_blocked candidate)
          ("lifecycle_state_not_eligible:" +:+ (if String.eqb state_key "" then "missing" else state_key))
     ++ when cooldown "cooldown"
     ++ when (negb (has_valid_direction candidate)) "missing_direction"
     ++ when (negb (has_public_watchlist_plan candidate)) "invalid_or_missing_public_watchlist_plan"
     ++ when (negb canonical) "invalid_stored_plan_geometry"
     ++ rr_reasons rr_value (watchlist_minimum_rr config)
     ++ when (negb (pq_passed quality)) (pq_reason quality)
     ++ public_blocker_reasons candidate false [])%list in
  Ok (no_reasons reasons, dict_fromkeys reasons).

Definition public_watchlist_eligible (config : LifecycleEligibilityConfig) (now : Z) (record : pyval) : result bool :=
  let! decision := is_public_watchlist_candidate config now record in Ok (fst decision).

(** [a and b] where evaluating [b] may raise *)
Definition and_also (a : bool) (b : result bool) : result bool := if a then b else Ok false.

Definition active_signal_eligible (config : LifecycleEligibilityConfig) (now : Z) (record : pyval) : result bool :=
  if has_archived_at record then Ok false else
  let state := current_state record in
  if negb (is_active_signal_state state) || is_terminal_state state then Ok false else
  let! cooldown := cooldown_active now record in
  if cooldown then Ok false else
  and_also (has_valid_direction record && has_valid_trade_map record)
    (let! canonical := has_valid_canonical_lifecycle_plan record in
     and_also canonical
       (let! rr_ok := has_valid_rr record (ec_min_rr config) in
        and_also rr_ok
          (let! quality := has_public_quality record (ec_min_public_grade config) in
           and_also quality (Ok (has_no_public_blockers_with record false))))).

(** ** Research *)

(** [int(number)] *)
Definition dec_trunc (d : dec) : Z :=
  if (0 <=? d_exp d)%Z then (d_sc d * 10 ^ d_exp d)%Z else Z.quot (d_sc d) (10 ^ (- d_exp d)).

(** [_integer_score] *)
Definition integer_score (v : pyval) : Z :=
  match val_decimal_or_none v with Some number => dec_trunc number | None => 0%Z end.

(** [_symbol_text] *)
Definition symbol_text (v : pyval) : string :=
  let text := val_display v in if String.eqb text NA then NA else py_upper text.

(** the loop of [_research_regime_block_reason_present] *)
Definition regime_reason (v : pyval) : bool :=
  let text := py_lower (val_display v) in
  str_in (val_status_key v) ["rejected_by_regime"; "regime_compatibility"; "regime_blocked"]
  || (negb (String.eqb text (py_lower NA))
      && (py_contains "hostile" text
          || (py_contains "regime" text
              && existsb (fun fragment => py_contains fragment text)
                   ["block"; "weak"; "hostile"; "compatib"; "reject"]))).

(** [_research_regime_block_reason_present] *)
Definition research_regime_block_reason_present (record : pyval) : bool :=
  existsb regime_reason
    ([first_field record [Name "rejection_reason"]; first_field record [Name "failed_gate"];
      first_field record [Name "blocked_reason"];
      first_field record [Path [Key "setup_quality"; Key "decision_reason"]]]
     ++ sequence_fields record ["rejection_reasons"; "regime_notes"; "environment_notes"])%list.

Definition research_watch_eligible (config : ResearchWatchEligibilityConfig) (now : Z) (record : pyval) : result bool :=
  if has_archived_at record then Ok false else
  let! cooldown := cooldown_active now record in
  if cooldown then Ok false else
  let state := current_state record in
  if negb (shows_na (first_field record [Name "invalidated_at"; Name "no_longer_tracking_at"])) then Ok false else
  if negb (shows_na state) && is_terminal_state state then Ok false else
  if negb (String.eqb (val_status_key (first_field record [Name "status"])) "rejected_by_regime") then Ok false else
  if negb (String.eqb (val_status_key (first_field record [Name "display_bucket"; Name "display_status"])) "near_miss")
  then Ok false else
  if String.eqb (symbol_text (first_field record [Name "symbol"])) NA then Ok false else
  if shows_na (first_field record [Name "next_trigger_needed"; Name "action_label";
                                   Path [Key "setup_quality"; Key "action_label"]]) then Ok false else
  if shows_na (first_field record [Name "regime_state"]) then Ok false else
  if shows_na (first_field record [Name "regime_compatibility_label"]) then Ok false else
  let quality := integer_score (first_field record [Name "setup_quality_score"; Name "quality_score";
                                                    Path [Key "setup_quality"; Key "quality_score"]]) in
  let readiness := integer_score (first_field record [Name "readiness_score"]) in
  if (quality <? rc_min_quality config)%Z || (readiness <? rc_min_readiness config)%Z then Ok false else
  Ok (research_regime_block_reason_present record).

Definition admin_research_visible (record : pyval) : bool :=
  let state := val_status_key (current_state record) in
  let display_key := val_status_key (first_field record [Name "display_status"; Name "display_bucket"]) in
  let quality := val_status_key (first_field record [Name "quality_grade_current"; Name "setup_quality_score";
                                                     Name "quality_grade"]) in
  str_in state TERMINAL_STATE_KEYS || str_in display_key ["near_miss"; "rejected"; "no_setup"]
  || str_in quality ["reject"; "rejected"].
