(* ===== verification/EligibilityProps.v ===== *)
(** * Properties of public quality and lifecycle eligibility

    Which records may become public, proved on [Eligibility] and composed with
    the trade plan validator and the stored plan policy. *)

From stdpp Require Import base tactics list strings.
From Stdlib Require Import ZArith NArith QArith Qminmax Lia Lqa Bool Ascii Sorting.Sorted.
From S2P Require Import Prelude PyString PyDecimal DecimalFacts PyTime TradePlan LifecycleModels OutcomePolicy Observation.
From S2P Require Import CandleIntegrity DynRecord DynPlan PublicQuality Eligibility.
Open Scope string_scope.
Open Scope py_scope.

(** ** The computed risk/reward *)

(** A plan result that carries an RR is valid unless the RR is below the minimum. *)
Lemma check_plan_rr side low high entry stop targets minimum cost ert r rr :
  check_plan side low high entry stop targets minimum cost ert = Ok r -> tp_rr r = Some rr ->
  tp_valid r = true \/ exists m, minimum = Some m /\ dQ rr < dQ m.
Proof.
  unfold check_plan, check_targets.
  repeat match goal with
  | |- (if ?b then _ else _) = _ -> _ => destruct b; [by intros [= <-]|]
  | |- match first_non_positive ?l with _ => _ end = _ -> _ =>
      destruct (first_non_positive l); [by intros [= <-]|]
  | |- match target_side_failure ?a ?b ?c ?d with _ => _ end = _ -> _ =>
      destruct (target_side_failure a b c d); [by intros [= <-]|]
  end.
  destruct (nth 1 targets None) as [t|].
  - destruct (ddiv _ _) as [q|]; cbn [bind_result]; [|done].
    destruct minimum as [m|]; [|intros [= <-]; by left].
    destruct (dltb q m) eqn:E; intros [= <-]; [|by left].
    intros [= <-]. right. exists m. split; [done|]. by apply dltb_spec.
  - destruct minimum; intros [= <-]; [done|by left].
Qed.

(** What a public plan of parsed levels with an RR of at least three is. *)
Definition paying_plan (long : bool) (low high stop t1 t2 t3 cost rr : dec) : Prop :=
  let entry := if long then high else low in
  0 <= dQ cost /\
  plan_geometry long low high entry stop [t1; t2; t3] /\
  0 < dQ (plan_reward long entry t2 cost) /\
  ddiv (plan_reward long entry t2 cost) (plan_risk long entry stop cost) = Ok rr.

Lemma public_plan_of_levels direction lo hi st o1 o2 o3 cost r rr :
  validate_public_trade_plan direction (dec_arg lo) (dec_arg hi) (dec_arg st) (dec_arg o1) (dec_arg o2)
    (dec_arg o3) (PyDec (Finite PUBLIC_TP2_MINIMUM_RR)) (PyDec (Finite cost)) = Ok r ->
  tp_rr r = Some rr -> 3 <= dQ rr ->
  exists low high stop t1 t2 t3,
    lo = Some low /\ hi = Some high /\ st = Some stop /\ o1 = Some t1 /\ o2 = Some t2 /\ o3 = Some t3 /\
    paying_plan (String.eqb (py_lower (py_strip direction)) "long") low high stop t1 t2 t3 cost rr.
Proof.
  unfold validate_public_trade_plan.
  destruct lo as [low|]; [|by intros [= <-]].
  destruct hi as [high|]; cbn [dec_arg]; rewrite !required_decimal_finite; cbn [bind_result]; [|by intros [= <-]].
  unfold validate_trade_plan. rewrite public_plan_side.
  set (side := py_lower (py_strip direction)).
  destruct (str_in side ["long"; "short"]) eqn:Es; cbn [negb]; [|by intros [= <-]].
  unfold parse_plan, public_plan_args. cbn -[dmax required_decimal optional_decimal check_plan].
  rewrite !required_decimal_finite. cbn [bind_result].
  destruct st as [stop|]; cbn [dec_arg]; [rewrite required_decimal_finite; cbn [bind_result]|by intros [= <-]].
  destruct o1 as [t1|]; cbn [dec_arg]; [rewrite optional_decimal_finite; cbn [bind_result]|by intros [= <-]].
  destruct o2 as [t2|]; cbn [dec_arg]; [rewrite optional_decimal_finite; cbn [bind_result]|by intros [= <-]].
  destruct o3 as [t3|]; cbn [dec_arg]; [rewrite !optional_decimal_finite; cbn [bind_result]|by intros [= <-]].
  cbn -[dmax check_plan]. intros Hr Hrr Hge.
  destruct (check_plan_rr _ _ _ _ _ _ _ _ _ _ _ Hr Hrr) as [Hv|(m & [= <-] & Hlt)].
  2:{ exfalso. assert (dQ (dmax PUBLIC_TP2_MINIMUM_RR PUBLIC_TP2_MINIMUM_RR) == 3) by reflexivity. lra. }
  destruct (check_plan_valid_result _ _ _ _ _ _ _ _ _ _ _ _ Hr Hv) as (rw & q & -> & _ & q' & -> & Hq).
  injection Hrr as ->.
  edestruct (check_plan_valid_iff side) as (r' & Hr' & Hiff). rewrite Hr in Hr'. injection Hr' as <-.
  destruct (proj1 Hiff Hv) as (Hc & Hg & Hpos & _).
  exists low, high, stop, t1, t2, t3. repeat (split; [done|]). unfold paying_plan. fold side. done.
Qed.

Lemma is_side_cases d : is_side d = true -> d = "long" \/ d = "short".
Proof. unfold is_side. rewrite str_in_spec. simpl. intuition. Qed.

Lemma is_side_normal d : is_side d = true -> py_lower (py_strip d) = d.
Proof. intros H. by destruct (is_side_cases d H) as [-> | ->]. Qed.

(** The validator always returns a verdict. *)
Lemma validate_public_total direction lo hi st t1 t2 t3 m cost :
  exists r, validate_public_trade_plan direction lo hi st t1 t2 t3 m cost = Ok r.
Proof.
  unfold validate_public_trade_plan.
  destruct (required_decimal lo _) as [low|e] eqn:E1; cbn [bind_result];
    [|destruct (required_decimal_error _ _ _ E1) as (msg & ->); by eexists].
  destruct (required_decimal hi _) as [high|e] eqn:E2; cbn [bind_result];
    [|destruct (required_decimal_error _ _ _ E2) as (msg & ->); by eexists].
  destruct (required_decimal m _) as [mn|e] eqn:E3; cbn [bind_result];
    [|destruct (required_decimal_error _ _ _ E3) as (msg & ->); by eexists].
  destruct (validate_trade_plan_iff (public_plan_args direction low high mn st t1 t2 t3 cost)) as (r & -> & _).
  by eexists.
Qed.

Lemma computed_rr_total r : exists o, computed_rr_to_tp2 r = Ok o.
Proof.
  unfold computed_rr_to_tp2. destruct (negb _); [by eexists|].
  match goal with |- context [validate_public_trade_plan ?a ?b ?c ?d ?e ?f ?g ?h ?i] =>
    destruct (validate_public_total a b c d e f g h i) as (v & ->) end. by eexists.
Qed.

(** the levels of a record, all present *)
Definition levels_present (record : pyval) (low high stop t1 t2 t3 : dec) : Prop :=
  trade_levels record =
    {| l_entry_low := Some low; l_entry_high := Some high; l_stop_loss := Some stop;
       l_tp1 := Some t1; l_tp2 := Some t2; l_tp3 := Some t3 |}.

Lemma computed_rr_paying r rr :
  computed_rr_to_tp2 r = Ok (Some rr) -> 3 <= dQ rr ->
  exists low high stop t1 t2 t3,
    levels_present r low high stop t1 t2 t3 /\
    paying_plan (String.eqb (record_direction r) "long") low high stop t1 t2 t3 (execution_cost r) rr.
Proof.
  unfold computed_rr_to_tp2. destruct (is_side (record_direction r)) eqn:Es; cbn [negb]; [|done].
  destruct (validate_public_trade_plan _ _ _ _ _ _ _ _ _) as [plan|] eqn:E; cbn [bind_result]; [|done].
  intros [= Hrr] Hge.
  destruct (public_plan_of_levels _ _ _ _ _ _ _ _ _ _ E Hrr Hge)
    as (low & high & stop & t1 & t2 & t3 & H1 & H2 & H3 & H4 & H5 & H6 & Hp).
  rewrite (is_side_normal _ Es) in Hp. exists low, high, stop, t1, t2, t3. split; [|exact Hp].
  unfold levels_present. destruct (trade_levels r). cbn in *. by subst.
Qed.

(** The RR an eligibility test uses is the computed one, capped by the report. *)
Lemma effective_rr_capped r rr :
  effective_rr r = Ok (Some rr) ->
  exists computed, computed_rr_to_tp2 r = Ok (Some computed) /\ dQ rr <= dQ computed /\
    (forall q, reported_rr r = Some q -> dQ rr <= dQ q) /\
    (rr = computed \/ reported_rr r = Some rr).
Proof.
  unfold effective_rr, trusted_rr. destruct (computed_rr_to_tp2 r) as [[c|]|] eqn:E; cbn [bind_result]; [|congruence|done].
  intros [= <-]. exists c. split; [done|].
  destruct (reported_rr r) as [q|]; [|split; [lra|]; split; [done|by left]].
  pose proof (dmin_Q q c) as Hm. pose proof (Q.le_min_l (dQ q) (dQ c)). pose proof (Q.le_min_r (dQ q) (dQ c)).
  split; [lra|]. split; [intros ? [= <-]; lra|]. unfold dmin. destruct (dltb c q); auto.
Qed.

Lemma effective_rr_total r : exists o, effective_rr r = Ok o.
Proof.
  unfold effective_rr, trusted_rr. destruct (computed_rr_total r) as (o & E). rewrite E. cbn [bind_result].
  destruct o; cbn; eauto.
Qed.

Lemma dmax_floor d : 3 <= dQ (dmax (dec_of_Z 3) d).
Proof.
  pose proof (dmax_Q (dec_of_Z 3) d) as H. pose proof (Q.le_max_l (dQ (dec_of_Z 3)) (dQ d)).
  assert (dQ (dec_of_Z 3) == 3) by reflexivity. lra.
Qed.

Lemma has_valid_rr_floor r m : has_valid_rr r m = Ok true ->
  exists rr, effective_rr r = Ok (Some rr) /\ 3 <= dQ rr.
Proof.
  unfold has_valid_rr. destruct (effective_rr r) as [[rr|]|]; cbn [bind_result]; [|done..].
  intros [= H]. exists rr. split; [done|]. apply dleb_spec in H.
  eapply Qle_trans; [apply dmax_floor|exact H].
Qed.

(** ** Active signals *)

Lemma and_then_true a b : and_also a b = Ok true -> a = true /\ b = Ok true.
Proof. by destruct a. Qed.

Lemma live_state_spec keys s :
  live_state_in keys s = true -> In (val_status_key s) keys /\ ~ In (val_status_key s) TERMINAL_STATE_KEYS.
Proof.
  unfold live_state_in. rewrite andb_true_iff, negb_true_iff, str_in_spec. intros [H1 H2]. split; [done|].
  rewrite <- str_in_spec, H2. done.
Qed.

Lemma no_reasons_nil l : no_reasons l = true <-> l = [].
Proof. by destruct l. Qed.

(** The conjunction [active_signal_eligible] computes. *)
Lemma active_signal_facts config now r :
  active_signal_eligible config now r = Ok true ->
  has_archived_at r = false /\
  In (val_status_key (current_state r)) PUBLIC_ACTIVE_STATE_KEYS /\
  ~ In (val_status_key (current_state r)) TERMINAL_STATE_KEYS /\
  cooldown_active now r = Ok false /\
  has_valid_direction r = true /\ has_valid_trade_map r = true /\
  has_valid_canonical_lifecycle_plan r = Ok true /\
  has_valid_rr r (ec_min_rr config) = Ok true /\
  has_public_quality r (ec_min_public_grade config) = Ok true /\
  public_blocker_reasons r false [] = [].
Proof.
  unfold active_signal_eligible. destruct (has_archived_at r); [done|].
  destruct (is_active_signal_state (current_state r)) eqn:Ea; cbn [negb orb]; [|done].
  destruct (is_terminal_state (current_state r)); [done|]. apply live_state_spec in Ea as [Ea Et].
  destruct (cooldown_active now r) as [[]|]; cbn [bind_result]; [done| |done].
  intros H. apply and_then_true in H as [H1 H]. apply andb_true_iff in H1 as [H1 H2].
  destruct (has_valid_canonical_lifecycle_plan r) as [b|]; cbn [bind_result] in H; [|done].
  apply and_then_true in H as [-> H].
  destruct (has_valid_rr r _) as [b|]; cbn [bind_result] in H; [|done]. apply and_then_true in H as [-> H].
  destruct (has_public_quality r _) as [b|]; cbn [bind_result] in H; [|done]. apply and_then_true in H as [-> H].
  injection H as H. unfold has_no_public_blockers_with in H. apply no_reasons_nil in H. tauto.
Qed.

(** ** Watchlist candidates *)

Lemma rr_reasons_nil o m : rr_reasons o m = [] <-> exists rr, o = Some rr /\ dQ m <= dQ rr.
Proof.
  destruct o as [rr|]; cbn; [|split; [done|by intros (? & ? & _)]].
  rewrite when_nil, dltb_false. split; [eauto|]. by intros (? & [= <-] & ?).
Qed.

Definition actionability (r : pyval) : pyval :=
  first_field r [Name "actionability_state"; Path [Key "lifecycle_state"; Key "actionability_state"]].

(** a state that is announced and neither live, touched nor over *)
Definition watchlist_state (r : pyval) : Prop :=
  let key := val_status_key (current_state r) in
  ~ In key PUBLIC_ACTIVE_STATE_KEYS /\ ~ In key INTERNAL_TOUCH_STATE_KEYS /\ ~ In key TERMINAL_STATE_KEYS /\
  (In key PUBLIC_WATCHLIST_ACTIONABLE_STATE_KEYS \/
   In (val_status_key (actionability r)) PUBLIC_WATCHLIST_ACTIONABLE_STATE_KEYS).

Lemma watchlist_state_iff r : watchlist_state_blocked r = false <-> watchlist_state r.
Proof.
  unfold watchlist_state_blocked, watchlist_state, is_terminal_state. fold (actionability r).
  rewrite !orb_false_iff, andb_false_iff, !negb_false_iff, !str_in_false, !str_in_spec. tauto.
Qed.

(** what a public watchlist candidate is *)
Definition watchlist_spec (config : LifecycleEligibilityConfig) (now : Z) (r : pyval) : Prop :=
  has_archived_at r = false /\ watchlist_state r /\ cooldown_active now r = Ok false /\
  has_valid_direction r = true /\ has_public_watchlist_plan r = true /\
  has_valid_canonical_lifecycle_plan r = Ok true /\
  (exists rr, effective_rr r = Ok (Some rr) /\ dQ (watchlist_minimum_rr config) <= dQ rr) /\
  has_public_quality r (ec_min_public_grade config) = Ok true /\
  public_blocker_reasons r false [] = [].

Lemma watchlist_candidate_facts config now r b reasons :
  is_public_watchlist_candidate config now r = Ok (b, reasons) ->
  (b = true <-> reasons = []) /\ (b = true <-> watchlist_spec config now r).
Proof.
  unfold is_public_watchlist_candidate, watchlist_spec, has_public_quality.
  destruct (cooldown_active now r) as [cd|]; cbn [bind_result]; [|done].
  destruct (has_valid_canonical_lifecycle_plan r) as [canon|]; cbn [bind_result]; [|done].
  destruct (effective_rr r) as [rr|]; cbn [bind_result]; [|done].
  destruct (public_quality_decision _ _ _) as [q|]; cbn [bind_result]; [|done].
  intros H. apply ok_inj in H. apply (f_equal fst) in H as Hb. apply (f_equal snd) in H as Hr.
  cbn [fst snd] in Hb, Hr. subst b reasons. clear H. split; [by rewrite no_reasons_nil, dict_fromkeys_nil|].
  rewrite no_reasons_nil, !app_nil, !when_nil, !negb_false_iff, watchlist_state_iff, rr_reasons_nil.
  split.
  - intros (H1 & H2 & -> & H4 & H5 & -> & (v & -> & H7) & -> & H9). eauto 15.
  - intros (H1 & H2 & [= ->] & H4 & H5 & [= ->] & (v & [= ->] & H7) & [= ->] & H9). eauto 15.
Qed.

Lemma watchlist_eligible_spec config now r :
  public_watchlist_eligible config now r = Ok true -> watchlist_spec config now r.
Proof.
  unfold public_watchlist_eligible. destruct (is_public_watchlist_candidate config now r) as [[b l]|] eqn:E; [|done].
  cbn. intros [= ->]. by apply (watchlist_candidate_facts _ _ _ _ _ E).
Qed.

(** ** Blockers *)

(** A blocking key anywhere among the blocker values is a reason. *)
Lemma blocking_value_blocks r b v :
  In v (blocker_values r) -> In (val_status_key v) (PUBLIC_BLOCKER_KEYS ++ TERMINAL_STATE_KEYS)%list ->
  public_blocker_reasons r b [] <> [].
Proof.
  intros Hv Hk. unfold public_blocker_reasons. rewrite dict_fromkeys_nil, !app_nil. intros (_ & _ & _ & H).
  assert (In (val_status_key v) (flat_map (value_reasons (map (fun k => val_status_key (VStr k)) [])) (blocker_values r))) as Hin.
  { apply in_flat_map. exists v. split; [done|]. unfold value_reasons. cbn [map str_in existsb].
    assert (String.eqb (val_status_key v) "" = false) as ->.
    { apply String.eqb_neq. intros E. rewrite E in Hk. vm_compute in Hk. intuition discriminate. }
    apply in_app_or in Hk. rewrite <- !str_in_spec in Hk.
    assert (str_in (val_status_key v) PUBLIC_BLOCKER_KEYS || str_in (val_status_key v) TERMINAL_STATE_KEYS = true)
      as -> by (apply orb_true_iff; tauto).
    apply in_or_app. left. by left. }
  by rewrite H in Hin.
Qed.

Lemma research_status config now r : research_watch_eligible config now r = Ok true ->
  val_status_key (first_field r [Name "status"]) = "rejected_by_regime".
Proof.
  unfold research_watch_eligible. destruct (has_archived_at r); [done|].
  destruct (cooldown_active now r) as [[]|]; cbn [bind_result]; [done| |done].
  destruct (negb _); [done|]. destruct (negb (shows_na (current_state r)) && _); [done|].
  destruct (String.eqb_spec (val_status_key (first_field r [Name "status"])) "rejected_by_regime"); [done|].
  by cbn [negb].
Qed.

Lemma research_blocked config now r : research_watch_eligible config now r = Ok true ->
  public_blocker_reasons r false [] <> [].
Proof.
  intros H. apply (blocking_value_blocks r false (first_field r [Name "status"])).
  - unfold blocker_values. apply in_or_app. left. cbn [map]. do 12 right. by left.
  - rewrite (research_status _ _ _ H). apply str_in_spec. by vm_compute.
Qed.

(** ** Lifecycle records *)

Lemma record_current_state shown r : current_state (record_value shown r) = state_member (r_current_state r).
Proof. unfold current_state, first_field, first_shown. cbn. by destruct (r_current_state r). Qed.

Lemma record_state_key shown r :
  val_status_key (current_state (record_value shown r)) = py_lower (state_value (r_current_state r)).
Proof. rewrite record_current_state. by destruct (r_current_state r). Qed.

Lemma record_archived shown r :
  has_archived_at (record_value shown r) = match r_archived_at r with Some s => negb (shows_na (VStr s)) | None => false end.
Proof.
  unfold has_archived_at, first_field, first_shown. cbn -[shows_na].
  destruct (r_archived_at r) as [s|]; cbn -[shows_na]; [|done].
  unfold shown_or_mapping. cbn [is_mapping]. rewrite orb_false_r.
  destruct (shows_na (VStr s)) eqn:E; cbn -[shows_na]; [done|by rewrite E].
Qed.

Lemma record_canonical_plan shown r :
  has_valid_canonical_lifecycle_plan (record_value shown r) = has_valid_stored_plan_geometry r.
Proof. rewrite <- (val_geometry_record shown). reflexivity. Qed.

Lemma has_valid_stored_geometry_true r :
  has_valid_stored_plan_geometry r = Ok true -> exists g, stored_plan_geometry r = Ok g.
Proof.
  unfold has_valid_stored_plan_geometry, stored_plan_geometry_failure.
  destruct (stored_plan_geometry r) as [g|[]]; cbn; try done. eauto.
Qed.

(** ** Claims *)

(** C14: an active signal is only published from a live, non-terminal state,
    not archived, not cooling down, with no blocker and a valid stored plan;
    its six levels are present and in the strict order of its direction, and the RR it
    is published with is at least three, at most what its second target pays after
    execution cost from the worst entry edge, and at most what it reports. *)
Theorem active_signal_contract config now r :
  active_signal_eligible config now r = Ok true ->
  In (val_status_key (current_state r)) PUBLIC_ACTIVE_STATE_KEYS /\
  ~ In (val_status_key (current_state r)) TERMINAL_STATE_KEYS /\
  has_archived_at r = false /\ cooldown_active now r = Ok false /\
  has_valid_canonical_lifecycle_plan r = Ok true /\
  public_blocker_reasons r false [] = [] /\
  exists low high stop t1 t2 t3 computed rr,
    levels_present r low high stop t1 t2 t3 /\
    paying_plan (String.eqb (record_direction r) "long") low high stop t1 t2 t3 (execution_cost r) computed /\
    effective_rr r = Ok (Some rr) /\ 3 <= dQ rr <= dQ computed /\
    (forall q, reported_rr r = Some q -> dQ rr <= dQ q).
Proof.
  intros H. destruct (active_signal_facts _ _ _ H) as (H1 & H2 & H3 & H4 & _ & _ & H5 & H6 & _ & H7).
  do 6 (split; [done|]). destruct (has_valid_rr_floor _ _ H6) as (rr & Hrr & Hge).
  destruct (effective_rr_capped _ _ Hrr) as (c & Hc & Hle & Hq & _).
  destruct (computed_rr_paying r c Hc) as (low & high & stop & t1 & t2 & t3 & Hl & Hp); [lra|].
  exists low, high, stop, t1, t2, t3, c, rr. eauto 10.
Qed.

Definition sample_signal : pyval :=
  VMap "{'current_state': 'Confirmed', ...}"
    [("current_state", VStr "Confirmed"); ("direction", VStr "LONG"); ("entry_low", VStr "99");
     ("entry_high", VDec (Finite (mkDec false 1000 (-1)))); ("stop_loss", VStr "95"); ("tp1", VInt 110);
     ("tp2", VStr "120"); ("tp3", VFloat "130.0"); ("rr", VStr "9.5"); ("quality_grade", VStr "A+");
     ("invalidation_logic", VStr "close below 95")].

Lemma active_signal_contract_witness :
  active_signal_eligible default_eligibility_config 0 sample_signal = Ok true /\
  exists rr, effective_rr sample_signal = Ok (Some rr) /\ 3 <= dQ rr.
Proof.
  assert (active_signal_eligible default_eligibility_config 0 sample_signal = Ok true) as H
    by (vm_compute; reflexivity).
  destruct (active_signal_contract _ _ _ H) as (_ & _ & _ & _ & _ & _ & low & high & stop & t1 & t2 & t3 & c & rr & _ & _ & Hrr & Hge & _).
  split; [exact H|]. exists rr. split; [exact Hrr|apply Hge].
Defined.


Definition sample_candidate : pyval :=
  VMap "{'state': 'A-Grade Actionable', ...}"
    [("state", VStr "A-Grade Actionable"); ("bias", VStr "Short");
     ("entry_zone", VMap "{'low': 100, 'high': 101}" [("low", VInt 100); ("high", VInt 101)]);
     ("stop_loss", VStr "105");
     ("take_profits", VSeq "[...]" [VMap "{'price': 90}" [("price", VInt 90)]; VMap "{'price': 80}" [("price", VInt 80)];
                                    VMap "{'price': 70}" [("price", VInt 70)]]);
     ("_stored_lifecycle_record", VNA); ("quality_score", VFloat "91.5")].


(** C22: at any time, a record is shown on at most one of the three surfaces:
    as an active signal, as a public watchlist candidate, or as research. *)
Theorem public_surfaces_exclusive ca cw cr t1 t2 t3 r :
  ~ (active_signal_eligible ca t1 r = Ok true /\ public_watchlist_eligible cw t2 r = Ok true) /\
  ~ (active_signal_eligible ca t1 r = Ok true /\ research_watch_eligible cr t3 r = Ok true) /\
  ~ (public_watchlist_eligible cw t2 r = Ok true /\ research_watch_eligible cr t3 r = Ok true).
Proof.
  repeat split; intros [H1 H2].
  - apply active_signal_facts in H1. apply watchlist_eligible_spec in H2 as (_ & (H2 & _) & _). tauto.
  - apply active_signal_facts in H1. apply research_blocked in H2. tauto.
  - apply watchlist_eligible_spec in H1. unfold watchlist_spec in H1. apply research_blocked in H2. tauto.
Qed.

(** C30: a stored lifecycle record published as an active signal is in one of
    the states CONFIRMED, EXECUTING or MANAGING of the state machine, is not
    archived, and stores a plan whose levels are ordered. *)
Theorem active_lifecycle_record config now shown r :
  active_signal_eligible config now (record_value shown r) = Ok true ->
  In (r_current_state r) [CONFIRMED; EXECUTING; MANAGING] /\
  (forall s, r_archived_at r = Some s -> val_display (VStr s) = NA) /\
  exists g, stored_plan_geometry r = Ok g /\ stored_plan_spec r g.
Proof.
  intros H. apply active_signal_facts in H as (Ha & Hs & _ & _ & _ & _ & Hp & _).
  rewrite record_archived in Ha. rewrite record_state_key in Hs. rewrite record_canonical_plan in Hp.
  split; [|split].
  - destruct (r_current_state r);
      first [by vm_compute; tauto | exfalso; vm_compute in Hs; by repeat destruct Hs as [Hs|Hs]].
  - intros s Es. rewrite Es in Ha. apply negb_false_iff, String.eqb_eq in Ha. exact Ha.
  - destruct (has_valid_stored_geometry_true _ Hp) as (g & Hg). exists g. split; [done|].
    by apply stored_plan_geometry_iff.
Qed.

Definition confirmed_record : SetupLifecycleRecord := sample_record <| r_current_state := CONFIRMED |>.

Lemma active_lifecycle_record_witness :
  active_signal_eligible default_eligibility_config 0 (record_value "SetupLifecycleRecord(...)" confirmed_record) = Ok true /\
  exists g, stored_plan_geometry confirmed_record = Ok g /\ stored_plan_spec confirmed_record g.
Proof.
  assert (active_signal_eligible default_eligibility_config 0
            (record_value "SetupLifecycleRecord(...)" confirmed_record) = Ok true) as H by (vm_compute; reflexivity).
  split; [exact H|]. apply (active_lifecycle_record _ _ _ _ H).
Defined.
