(* ===== verification/QualityProps.v ===== *)
(** * Properties of the public quality decision

    Scores given as Decimals are read by value through the display text; the
    grade bands are monotone, and the decision is the comparison of the first
    recognised grade with the minimum. *)

From stdpp Require Import base tactics list strings.
From Stdlib Require Import ZArith NArith QArith Qminmax Lia Lqa Bool Ascii.
From S2P Require Import Prelude PyString PyDecimal DecimalFacts LifecycleModels DynRecord DisplayFacts PublicQuality.
Open Scope string_scope.
Open Scope py_scope.

(** ** Reading a score *)

Lemma pq_display_dec d : pq_display (VDec (Finite d)) = val_display (VDec (Finite d)).
Proof. reflexivity. Qed.

Lemma pq_decimal_of_dec d : exists d', pq_decimal_or_none (VDec (Finite d)) = Some d' /\ dQ d' == dQ d.
Proof.
  destruct (display_dec_plain d) as (i & f & E & Hi & Hf & Hne & HQ).
  exists (plain_dec (d_neg d) i f). split; [|done].
  unfold pq_decimal_or_none. rewrite pq_display_dec, E, plain_text_not_na by done. by rewrite parse_plain.
Qed.

(** ** Bands *)

(** the rank of a band's grade *)
Definition band_rank (q : Q) : Z :=
  if Qle_bool 90 q then 8 else if Qle_bool 85 q then 7 else if Qle_bool 80 q then 6 else
  if Qle_bool 75 q then 5 else if Qle_bool 65 q then 4 else if Qle_bool 55 q then 3 else
  if Qle_bool 50 q then 2 else 1.

Lemma clamp_le_iff t s : (0 <= t <= 100)%Z ->
  dleb (dec_of_Z t) (dmin (dec_of_Z 100) (dmax (dec_of_Z 0) s)) = true <-> (t = 0%Z \/ inject_Z t <= dQ s).
Proof.
  intros Ht. rewrite dleb_spec, dmin_Q, dmax_Q, !dQ_dec_of_Z.
  assert (inject_Z 0 <= inject_Z t) by (rewrite <- Zle_Qle; lia).
  assert (inject_Z t <= inject_Z 100) by (rewrite <- Zle_Qle; lia).
  rewrite Q.min_glb_iff, Q.max_le_iff. split.
  - intros [_ [H2|H2]]; [left|by right]. rewrite <- Zle_Qle in H2. lia.
  - intros [-> |H2]; (split; [done|]); [left; apply Qle_refl|by right].
Qed.

Lemma clamp_leb t s : (0 < t <= 100)%Z ->
  dleb (dec_of_Z t) (dmin (dec_of_Z 100) (dmax (dec_of_Z 0) s)) = Qle_bool (inject_Z t) (dQ s).
Proof.
  intros Ht. apply eq_true_iff_eq. rewrite clamp_le_iff, Qle_bool_iff by lia. split; [|tauto].
  intros [->|H]; [lia|done].
Qed.

Lemma grade_of_score_rank s : public_grade_rank (VStr (grade_of_score s)) = Some (band_rank (dQ s)).
Proof.
  unfold grade_of_score, SCORE_GRADE_BANDS, band_rank. cbn [band_of]. rewrite !clamp_leb by lia.
  change (inject_Z 90) with 90. change (inject_Z 85) with 85. change (inject_Z 80) with 80.
  change (inject_Z 75) with 75. change (inject_Z 65) with 65. change (inject_Z 55) with 55.
  change (inject_Z 50) with 50.
  repeat (destruct (Qle_bool _ (dQ s)); [vm_compute; reflexivity|]).
  rewrite (proj2 (clamp_le_iff 0 s ltac:(lia))) by (by left). vm_compute. reflexivity.
Qed.

Lemma band_rank_range q : (1 <= band_rank q <= 8)%Z.
Proof. unfold band_rank. repeat (destruct (Qle_bool _ q); [lia|]). lia. Qed.

Lemma band_rank_mono a b : a <= b -> (band_rank a <= band_rank b)%Z.
Proof.
  intros H. pose proof (band_rank_range b).
  assert (forall t, Qle_bool t a = true -> Qle_bool t b = true) as Hm
    by (intros t; rewrite !Qle_bool_iff; lra).
  unfold band_rank in *.
  repeat match goal with
  | |- context [Qle_bool ?t a] => destruct (Qle_bool t a) eqn:?
  end;
  repeat match goal with
  | E : Qle_bool ?t a = true |- _ => rewrite (Hm t E)
  | |- context [if Qle_bool ?t b then _ else _] => destruct (Qle_bool t b) eqn:?
  end; lia.
Qed.

Lemma band_rank_A q : (7 <= band_rank q)%Z <-> 85 <= q.
Proof.
  unfold band_rank. destruct (Qle_bool 90 q) eqn:E1.
  { apply Qle_bool_iff in E1. split; [lra|lia]. }
  destruct (Qle_bool 85 q) eqn:E2; [apply Qle_bool_iff in E2; split; [done|lia]|].
  assert (~ 85 <= q) by (intros H; apply Qle_bool_iff in H; congruence).
  split; [|done]. repeat (destruct (Qle_bool _ q); [lia|]). lia.
Qed.

(** ** The decision *)

(** the ranks of the candidates that have one, grades first *)
Definition candidate_ranks (grades scores : list pyval) : list Z :=
  (omap (fun c => public_grade_rank (VStr (normalize_grade c))) grades
   ++ omap (fun c => public_grade_rank (VStr (grade_from_score c))) scores)%list.

Lemma decide_rank_passed m reason source g k : pq_passed (decide_rank m reason source g k) = (m <=? k)%Z.
Proof. unfold decide_rank. by destruct (m <=? k)%Z. Qed.

Lemma first_ranked_head grade_of m reason source l :
  pq_passed <$> first_ranked grade_of m reason source l
  = (fun k => (m <=? k)%Z) <$> head (omap (fun c => public_grade_rank (VStr (grade_of c))) l).
Proof.
  induction l as [|c l IH]; [done|]. cbn [first_ranked omap list_omap].
  destruct (public_grade_rank (VStr (grade_of c))) as [k|]; [|exact IH]. cbn. by rewrite decide_rank_passed.
Qed.

(** ** The canonical decision *)

Lemma app_nil_bool {A} (a b : list A) :
  match (a ++ b)%list with [] => true | _ => false end = true <-> a = [] /\ b = [].
Proof. destruct a, b; simpl; intuition discriminate. Qed.

(** The canonical decision passes exactly when the setup quality was evaluated
    and both its score and its grade reach the minimum; no other metric of the
    record can pass it. *)
Lemma canonical_decision_iff record min_score min_grade d :
  canonical_public_setup_quality_decision record min_score min_grade = Ok d ->
  (cq_passed d = true <->
   exists quality s k m,
     evaluated_quality record = Some quality /\
     pq_decimal_or_none (getattr_none quality "quality_score") = Some s /\ dQ (cq_min_score d) <= dQ s /\
     public_grade_rank (VStr min_grade) = Some m /\ public_grade_rank (VStr (cq_grade d)) = Some k /\ (m <= k)%Z).
Proof.
  unfold canonical_public_setup_quality_decision.
  destruct (pq_decimal_or_none (VAtom min_score)) as [ms|]; [|done].
  destruct (public_grade_rank (VStr min_grade)) as [m|]; [|done].
  intros H. apply ok_inj in H. subst d. cbn [cq_passed cq_min_score cq_grade]. rewrite app_nil_bool.
  unfold canonical_score_blockers, canonical_grade_blockers, canonical_public_setup_quality_score.
  set (g := canonical_public_setup_quality_grade record).
  destruct (evaluated_quality record) as [q|]; [|split; [by intros [? _]|by intros (? & ? & ? & ? & ? & _)]].
  destruct (pq_decimal_or_none (getattr_none q "quality_score")) as [s|] eqn:Es;
    [|split; [by intros [? _]|intros (? & ? & ? & ? & [= <-] & E & _); congruence]].
  destruct (dltb s ms) eqn:El; destruct (public_grade_rank (VStr g)) as [k|] eqn:Ek;
    [|..|split; [by intros [_ ?]|intros (? & ? & ? & ? & _ & _ & _ & _ & E & _); congruence]].
  1,2: split; [by intros [? _]|intros (? & s' & ? & ? & [= <-] & E & Hle & _)];
    rewrite Es in E; injection E as <-; apply dltb_spec in El; lra.
  apply dltb_false in El. destruct (Z.ltb_spec k m); split.
  - by intros [_ ?].
  - intros (? & ? & ? & ? & _ & _ & _ & [= <-] & [= <-] & ?). lia.
  - intros _. exists q, s, k, m. done.
  - done.
Qed.

(** ** Claims *)

(** the public quality test is the comparison of one rank with the
    minimum: the first candidate with a recognised grade decides, then the
    first readable score, and no candidate means no. *)
Theorem public_quality_reference grades scores min_grade m :
  public_grade_rank (VStr min_grade) = Some m ->
  public_quality_passes grades scores min_grade
  = Ok (match head (candidate_ranks grades scores) with Some k => (m <=? k)%Z | None => false end).
Proof.
  intros Hm. unfold public_quality_passes, public_quality_decision, candidate_ranks. rewrite Hm.
  pose proof (first_ranked_head normalize_grade m "public_grade_passed" "grade" grades) as Hg.
  pose proof (first_ranked_head grade_from_score m "public_score_passed" "score" scores) as Hs.
  destruct (first_ranked normalize_grade _ _ _ grades) as [d|].
  { destruct (omap _ grades) as [|k ks]; [done|]. cbn in *. by injection Hg as ->. }
  destruct (omap _ grades) as [|k ks]; [|done]. cbn [app].
  destruct (first_ranked grade_from_score _ _ _ scores) as [d|];
    destruct (omap _ scores) as [|k ks]; try done. cbn in *. by injection Hs as ->.
Qed.

Lemma public_quality_reference_witness :
  public_quality_passes [VNA; VStr "pending"; VStr "b+"; VStr "A+"] [VInt 99] "a-" = Ok false.
Proof.
  exact (eq_trans (public_quality_reference [VNA; VStr "pending"; VStr "b+"; VStr "A+"] [VInt 99] "a-" 6 eq_refl) eq_refl).
Defined.

(** a record with no grade and a Decimal score is public at grade A
    exactly when the score is at least 85, whatever its scale or size, and a
    higher score never has a lower rank. *)
Theorem score_passes_iff d e :
  (public_quality_passes [] [VDec (Finite d)] "A" = Ok true <-> 85 <= dQ d) /\
  (dQ d <= dQ e -> exists a b,
     public_grade_rank (VStr (grade_from_score (VDec (Finite d)))) = Some a /\
     public_grade_rank (VStr (grade_from_score (VDec (Finite e)))) = Some b /\ (a <= b)%Z).
Proof.
  assert (forall x, exists q, public_grade_rank (VStr (grade_from_score (VDec (Finite x)))) = Some (band_rank q) /\ q == dQ x) as Hr.
  { intros x. destruct (pq_decimal_of_dec x) as (x' & E & HQ). exists (dQ x'). split; [|done].
    unfold grade_from_score. rewrite E. apply grade_of_score_rank. }
  destruct (Hr d) as (qd & Hd & Ed). split.
  - unfold public_quality_passes, public_quality_decision.
    change (public_grade_rank (VStr "A")) with (Some 7%Z). cbv iota. cbn [first_ranked]. rewrite Hd.
    cbn [bind_result]. rewrite decide_rank_passed. rewrite <- Ed, <- band_rank_A, <- Z.leb_le.
    split; [by intros [= ->]|by intros ->].
  - intros H. destruct (Hr e) as (qe & He & Ee). exists (band_rank qd), (band_rank qe).
    repeat (split; [done|]). apply band_rank_mono. lra.
Qed.

Lemma score_passes_iff_witness :
  public_quality_passes [] [VDec (Finite (mkDec false 8500 (-2)))] "A" = Ok true /\
  exists a b,
     public_grade_rank (VStr (grade_from_score (VDec (Finite (mkDec false 849 (-1)))))) = Some a /\
     public_grade_rank (VStr (grade_from_score (VDec (Finite (mkDec false 85 0))))) = Some b /\ (a <= b)%Z.
Proof.
  split; [apply (score_passes_iff (mkDec false 8500 (-2)) dzero); vm_compute; discriminate|].
  apply (score_passes_iff (mkDec false 849 (-1)) (mkDec false 85 0)). vm_compute. discriminate.
Defined.

(** displaying a finite Decimal and reading the text back gives a Decimal
    of the same value. *)
Theorem decimal_display_round_trip d :
  exists d', val_decimal_or_none (VStr (val_display (VDec (Finite d)))) = Some d' /\ dQ d' == dQ d.
Proof. apply val_decimal_of_display. Qed.

(** a grade given as a member of [SetupQualityGrade] is not recognised:
    the decision is the one taken without that candidate, so a record graded
    "Reject" by its evaluated setup quality is judged by its score. *)
Theorem enum_grade_candidate_ignored member scores min_grade :
  In member SETUP_QUALITY_GRADES ->
  public_quality_decision [grade_member member] scores min_grade = public_quality_decision [] scores min_grade.
Proof.
  intros Hin. unfold public_quality_decision. destruct (public_grade_rank (VStr min_grade)) as [m|]; [|done].
  cbn [first_ranked]. assert (public_grade_rank (VStr (normalize_grade (grade_member member))) = None) as ->; [|done].
  cbn in Hin. repeat (destruct Hin as [<-|Hin]; [by vm_compute|]). done.
Qed.

Lemma enum_grade_candidate_ignored_witness :
  public_quality_passes [grade_member ("REJECT", "Reject")] [VInt 95] "A" = Ok true.
Proof.
  unfold public_quality_passes.
  rewrite (enum_grade_candidate_ignored ("REJECT", "Reject") [VInt 95] "A"); [vm_compute; reflexivity|].
  do 7 right. by left.
Defined.
