(* ===== verification/OpportunityScoring.v ===== *)
(** * Opportunity scoring (src/app/scoring/opportunity_scoring.py)

    Six component scores are weighted into a total out of 100; hard filters
    reject a setup whatever its total.  Decimals are computed in the default
    28-digit context, points are quantized to eight places.  The raw request
    holds the values once pydantic has coerced the numbers to [Decimal]; the
    field validators of the model are [validate_input], whose error carries the
    message of the first failing validator. *)

From stdpp Require Import base tactics list strings.
From Stdlib Require Import ZArith NArith Lia Bool Ascii.
From S2P Require Import Prelude PyString PyDecimal LifecycleModels.
Open Scope string_scope.
Open Scope py_scope.

(** [OUTPUT_QUANT] is [Decimal("0.00000001")] *)
Definition OUTPUT_EXP : Z := -8.
Definition MAX_COMPONENT_SCORE : dec := dec_of_Z 100.
Definition MIN_RISK_REWARD_RATIO : dec := mkDec false 20 (-1).
Definition MIN_DATA_QUALITY_SCORE : dec := dec_of_Z 60.
Definition OS_MIN_TECHNICAL_SCORE : dec := dec_of_Z 50.
Definition MIN_DERIVATIVES_SCORE : dec := dec_of_Z 40.

Definition TECHNICAL_WEIGHT : dec := dec_of_Z 30.
Definition DERIVATIVES_WEIGHT : dec := dec_of_Z 20.
Definition LIQUIDITY_WEIGHT : dec := dec_of_Z 15.
Definition CATALYST_WEIGHT : dec := dec_of_Z 15.
Definition RISK_REWARD_WEIGHT : dec := dec_of_Z 15.
Definition DATA_QUALITY_WEIGHT : dec := dec_of_Z 5.

Definition DEFAULT_LIQUIDITY_SCORE : dec := dec_of_Z 50.
Definition DEFAULT_CATALYST_SCORE : dec := dec_of_Z 0.
Definition DEFAULT_DATA_QUALITY_SCORE : dec := dec_of_Z 50.

Definition SAFETY_NOTE : string :=
  "Opportunity scoring only; no trade idea, order, or execution is created.".

Inductive ScoreGrade : Type := GradeAPlus | GradeA | GradeB | GradeC | GradeReject.
Inductive DecisionLabel : Type := WatchlistOnly | AlertCandidate | HighQualityCandidate | RejectDecision.
Inductive SetupLocation : Type := LocEdge | LocMiddle | LocBreakoutRetest | LocUnknown.
Inductive DataStatus : Type := Verified | Unverified | StatusNA.
Inductive RiskRewardTier : Type := TierRejected | TierModerate | TierStrong | TierExcellent.

#[export] Instance ScoreGrade_eq_dec : EqDecision ScoreGrade.
Proof. solve_decision. Defined.

#[export] Instance DecisionLabel_eq_dec : EqDecision DecisionLabel.
Proof. solve_decision. Defined.

Definition tier_text (t : RiskRewardTier) : string :=
  match t with
  | TierRejected => "rejected" | TierModerate => "moderate"
  | TierStrong => "strong" | TierExcellent => "excellent"
  end.

(** ** Input *)

Record OpportunityRequest := {
  q_technical_score : pydec;
  q_derivatives_score : pydec;
  q_risk_approved : bool;
  q_best_rr : pydec;
  q_liquidity_score : option pydec;
  q_catalyst_score : option pydec;
  q_data_quality_score : option pydec;
  q_invalidation_present : bool;
  q_setup_location : SetupLocation;
  q_risk_rejection_reasons : list string;
  q_missing_data : list string;
  q_unverified_data : list string
}.

Record OpportunityScoringInput := {
  i_technical_score : dec;
  i_derivatives_score : dec;
  i_risk_approved : bool;
  i_best_rr : dec;
  i_liquidity_score : option dec;
  i_catalyst_score : option dec;
  i_data_quality_score : option dec;
  i_invalidation_present : bool;
  i_setup_location : SetupLocation;
  i_risk_rejection_reasons : list string;
  i_missing_data : list string;
  i_unverified_data : list string
}.

(** [_score_is_in_range] *)
Definition score_is_in_range (value : pydec) : result dec :=
  match value with
  | Finite d =>
      if dltb d dzero || dltb MAX_COMPONENT_SCORE d
      then Raise (ValueError "score must be between 0 and 100") else Ok d
  | _ => Raise (ValueError "score must be a finite decimal")
  end.

Definition optional_score_is_in_range (value : option pydec) : result (option dec) :=
  match value with
  | None => Ok None
  | Some v => let! d := score_is_in_range v in Ok (Some d)
  end.

(** [_risk_reward_is_finite] *)
Definition risk_reward_is_finite (value : pydec) : result dec :=
  match value with
  | Finite d => Ok d
  | _ => Raise (ValueError "best_rr must be a finite decimal")
  end.

(** the validators of [OpportunityScoringInput], in the order of the fields *)
Definition validate_input (q : OpportunityRequest) : result OpportunityScoringInput :=
  let! technical := score_is_in_range (q_technical_score q) in
  let! derivatives := score_is_in_range (q_derivatives_score q) in
  let! rr := risk_reward_is_finite (q_best_rr q) in
  let! liquidity := optional_score_is_in_range (q_liquidity_score q) in
  let! catalyst := optional_score_is_in_range (q_catalyst_score q) in
  let! data_quality := optional_score_is_in_range (q_data_quality_score q) in
  Ok {| i_technical_score := technical; i_derivatives_score := derivatives;
        i_risk_approved := q_risk_approved q; i_best_rr := rr; i_liquidity_score := liquidity;
        i_catalyst_score := catalyst; i_data_quality_score := data_quality;
        i_invalidation_present := q_invalidation_present q; i_setup_location := q_setup_location q;
        i_risk_rejection_reasons := q_risk_rejection_reasons q;
        i_missing_data := q_missing_data q; i_unverified_data := q_unverified_data q |}.

(** ** Output *)

Record ScoringRuleViolation := { v_code : string; v_message : string }.

Record HardFilterResult := { hf_passed : bool; hf_violations : list ScoringRuleViolation }.

Record ScoreBreakdown := {
  sb_technical_score : dec; sb_technical_points : dec; sb_technical_status : DataStatus;
  sb_derivatives_score : dec; sb_derivatives_points : dec; sb_derivatives_status : DataStatus;
  sb_liquidity_score : option dec; sb_liquidity_effective_score : dec;
  sb_liquidity_points : dec; sb_liquidity_status : DataStatus;
  sb_catalyst_score : option dec; sb_catalyst_effective_score : dec;
  sb_catalyst_points : dec; sb_catalyst_status : DataStatus;
  sb_best_rr : dec; sb_risk_reward_score : dec; sb_risk_reward_points : dec;
  sb_risk_reward_tier : RiskRewardTier;
  sb_data_quality_score : option dec; sb_data_quality_effective_score : dec;
  sb_data_quality_points : dec; sb_data_quality_status : DataStatus
}.

Record OpportunityScoreResult := {
  os_total_score : dec;
  os_grade : ScoreGrade;
  os_decision : DecisionLabel;
  os_score_breakdown : ScoreBreakdown;
  os_hard_filter_result : HardFilterResult;
  os_rejection_reasons : list string;
  os_missing_data : list string;
  os_unverified_data : list string;
  os_notes : list string
}.

(** ** Helpers *)

(** [_clean_strings] *)
Definition clean_strings (values : list string) : list string :=
  List.filter (fun s => negb (String.eqb s "")) (map py_strip values).

(** [_unique]: first occurrences, in order *)
Definition unique (values : list string) : list string := dict_fromkeys values.

Definition absent {A} (o : option A) : bool := match o with None => true | Some _ => false end.

(** [_missing_data] *)
Definition missing_data (i : OpportunityScoringInput) : list string :=
  unique (clean_strings (i_missing_data i)
          ++ (if absent (i_liquidity_score i) then ["liquidity"] else [])
          ++ (if absent (i_catalyst_score i) then ["catalyst"] else [])
          ++ (if absent (i_data_quality_score i) then ["data_quality"] else []))%list.

(** [_unverified_data] *)
Definition unverified_data (i : OpportunityScoringInput) : list string :=
  unique (clean_strings (i_unverified_data i)
          ++ (if match i_data_quality_score i with Some d => dltb d MIN_DATA_QUALITY_SCORE | None => false end
              then ["data_quality"] else []))%list.

(** [_risk_reward_score] *)
Definition risk_reward_score (best_rr : dec) : dec * RiskRewardTier :=
  if dltb best_rr MIN_RISK_REWARD_RATIO then (mkDec false 0 (-8), TierRejected) else
  if dltb best_rr (mkDec false 30 (-1)) then (mkDec false 6000000000 (-8), TierModerate) else
  if dltb best_rr (mkDec false 50 (-1)) then (mkDec false 8000000000 (-8), TierStrong) else
  (mkDec false 10000000000 (-8), TierExcellent).

(** [_quantize] *)
Definition os_quantize (value : dec) : result dec := dquantize value OUTPUT_EXP.

Definition os_optional_quantize (value : option dec) : result (option dec) :=
  match value with None => Ok None | Some v => let! q := os_quantize v in Ok (Some q) end.

(** [_weighted_points] *)
Definition weighted_points (score weight : dec) : result dec :=
  let! ratio := ddiv score MAX_COMPONENT_SCORE in
  os_quantize (dmul ratio weight).

(** [_status_for] *)
Definition status_for (component : string) (missing unverified : list string) : DataStatus :=
  if str_in component missing then StatusNA else
  if str_in component unverified then Unverified else Verified.

(** [_hard_filter_result] *)
Definition violation (b : bool) (code message : string) : list ScoringRuleViolation :=
  if b then [{| v_code := code; v_message := message |}] else [].

Definition hard_filter_result (i : OpportunityScoringInput) (data_quality_effective_score : dec) : HardFilterResult :=
  let violations :=
    (violation (negb (i_risk_approved i)) "risk_not_approved" "Risk manager did not approve the setup."
     ++ violation (negb (i_invalidation_present i)) "missing_invalidation"
          "Setup is missing a clear invalidation condition."
     ++ violation (dltb (i_best_rr i) MIN_RISK_REWARD_RATIO) "risk_reward_below_minimum"
          "Best risk/reward ratio is below 2.0."
     ++ violation (dltb data_quality_effective_score MIN_DATA_QUALITY_SCORE) "low_data_quality"
          (if absent (i_data_quality_score i)
           then "Data quality score is N/A; default score 50 is below the minimum 60."
           else "Data quality score is below 60 and should be treated as Unverified.")
     ++ violation (match i_setup_location i with LocMiddle => true | _ => false end) "middle_of_range_setup"
          "Setup location is in the middle of the range."
     ++ violation (dltb (i_technical_score i) OS_MIN_TECHNICAL_SCORE) "weak_technical_score"
          "Technical score is below 50."
     ++ violation (dltb (i_derivatives_score i) MIN_DERIVATIVES_SCORE) "weak_derivatives_score"
          "Derivatives/orderflow score is below 40."
     ++ map (fun reason => {| v_code := "risk_manager_rejection";
                              v_message := "Risk manager rejection reason: " +:+ reason |})
          (clean_strings (i_risk_rejection_reasons i)))%list in
  {| hf_passed := match violations with [] => true | _ => false end; hf_violations := violations |}.

(** [_grade] *)
Definition score_grade (total : dec) (filters : HardFilterResult) : ScoreGrade :=
  if negb (hf_passed filters) || dltb total (dec_of_Z 60) then GradeReject else
  if dleb (dec_of_Z 90) total then GradeAPlus else
  if dleb (dec_of_Z 80) total then GradeA else
  if dleb (dec_of_Z 70) total then GradeB else GradeC.

(** [_decision] *)
Definition score_decision (total : dec) (filters : HardFilterResult) : DecisionLabel :=
  if negb (hf_passed filters) then RejectDecision else
  if dleb (dec_of_Z 90) total then HighQualityCandidate else
  if dleb (dec_of_Z 80) total then AlertCandidate else
  if dleb (dec_of_Z 70) total then WatchlistOnly else RejectDecision.

(** [_rejection_reasons] *)
Definition rejection_reasons (total : dec) (filters : HardFilterResult) (decision : DecisionLabel) : list string :=
  (map v_message (hf_violations filters)
   ++ match decision with
      | RejectDecision =>
          if hf_passed filters then
            [if dltb total (dec_of_Z 60) then "Total score is below 60."
             else "Total score is below the watchlist threshold of 70."]
          else []
      | _ => []
      end)%list.

(** [_notes] *)
Definition score_notes (i : OpportunityScoringInput) (tier : RiskRewardTier) (missing unverified : list string) : list string :=
  ([SAFETY_NOTE; "Risk/reward tier: " +:+ tier_text tier +:+ "."]
   ++ (match i_setup_location i with LocUnknown => ["Setup location is unknown."] | _ => [] end)
   ++ (if str_in "liquidity" missing then ["Liquidity is N/A; default score 50 was used for weighting."] else [])
   ++ (if str_in "catalyst" missing then ["Catalyst is N/A; default score 0 was used for weighting."] else [])
   ++ (if str_in "data_quality" missing then ["Data quality is N/A; default score 50 was used for weighting."] else [])
   ++ (match unverified with [] => [] | _ => ["Unverified data was preserved in the scoring output."] end))%list.

(** ** The engine *)

(** the [ScoreBreakdown] of [OpportunityScoringEngine.score] *)
Definition score_breakdown (i : OpportunityScoringInput) : result ScoreBreakdown :=
  let missing := missing_data i in
  let unverified := unverified_data i in
  let '(rr_score, tier) := risk_reward_score (i_best_rr i) in
  let liquidity := default DEFAULT_LIQUIDITY_SCORE (i_liquidity_score i) in
  let catalyst := default DEFAULT_CATALYST_SCORE (i_catalyst_score i) in
  let data_quality := default DEFAULT_DATA_QUALITY_SCORE (i_data_quality_score i) in
  let! technical_q := os_quantize (i_technical_score i) in
  let! technical_points := weighted_points (i_technical_score i) TECHNICAL_WEIGHT in
  let! derivatives_q := os_quantize (i_derivatives_score i) in
  let! derivatives_points := weighted_points (i_derivatives_score i) DERIVATIVES_WEIGHT in
  let! liquidity_raw := os_optional_quantize (i_liquidity_score i) in
  let! liquidity_q := os_quantize liquidity in
  let! liquidity_points := weighted_points liquidity LIQUIDITY_WEIGHT in
  let! catalyst_raw := os_optional_quantize (i_catalyst_score i) in
  let! catalyst_q := os_quantize catalyst in
  let! catalyst_points := weighted_points catalyst CATALYST_WEIGHT in
  let! rr_q := os_quantize (i_best_rr i) in
  let! rr_points := weighted_points rr_score RISK_REWARD_WEIGHT in
  let! data_quality_raw := os_optional_quantize (i_data_quality_score i) in
  let! data_quality_q := os_quantize data_quality in
  let! data_quality_points := weighted_points data_quality DATA_QUALITY_WEIGHT in
  Ok {| sb_technical_score := technical_q; sb_technical_points := technical_points;
        sb_technical_status := status_for "technical" missing unverified;
        sb_derivatives_score := derivatives_q; sb_derivatives_points := derivatives_points;
        sb_derivatives_status := status_for "derivatives" missing unverified;
        sb_liquidity_score := liquidity_raw; sb_liquidity_effective_score := liquidity_q;
        sb_liquidity_points := liquidity_points; sb_liquidity_status := status_for "liquidity" missing unverified;
        sb_catalyst_score := catalyst_raw; sb_catalyst_effective_score := catalyst_q;
        sb_catalyst_points := catalyst_points; sb_catalyst_status := status_for "catalyst" missing unverified;
        sb_best_rr := rr_q; sb_risk_reward_score := rr_score; sb_risk_reward_points := rr_points;
        sb_risk_reward_tier := tier;
        sb_data_quality_score := data_quality_raw; sb_data_quality_effective_score := data_quality_q;
        sb_data_quality_points := data_quality_points;
        sb_data_quality_status := status_for "data_quality" missing unverified |}.

(** [total_score]: the sum of the six points, left to right *)
Definition total_points (b : ScoreBreakdown) : dec :=
  dadd (dadd (dadd (dadd (dadd (sb_technical_points b) (sb_derivatives_points b)) (sb_liquidity_points b))
                   (sb_catalyst_points b)) (sb_risk_reward_points b)) (sb_data_quality_points b).

(** [OpportunityScoringEngine.score] of a validated input *)
Definition score_input (i : OpportunityScoringInput) : result OpportunityScoreResult :=
  let missing := missing_data i in
  let unverified := unverified_data i in
  let! breakdown := score_breakdown i in
  let! total := os_quantize (total_points breakdown) in
  let filters := hard_filter_result i (default DEFAULT_DATA_QUALITY_SCORE (i_data_quality_score i)) in
  let decision := score_decision total filters in
  Ok {| os_total_score := total; os_grade := score_grade total filters; os_decision := decision;
        os_score_breakdown := breakdown; os_hard_filter_result := filters;
        os_rejection_reasons := rejection_reasons total filters decision;
        os_missing_data := missing; os_unverified_data := unverified;
        os_notes := score_notes i (sb_risk_reward_tier breakdown) missing unverified |}.

Definition score_opportunity (q : OpportunityRequest) : result OpportunityScoreResult :=
  let! i := validate_input q in score_input i.
