(* ===== verification/OpportunityProps.v ===== *)
(** * Properties of opportunity scoring

    Points and totals stay in range although they are computed with rounded
    decimals: a quantized value is the nearest multiple of 1e-8, and the sum of
    the six points is exact. *)

From stdpp Require Import base tactics list strings.
From Stdlib Require Import ZArith NArith QArith Qabs Qminmax Lia Lqa ZifyN ZifyNat Bool Ascii.
From S2P Require Import Prelude PyString PyDecimal DecimalFacts LifecycleModels OpportunityScoring.
Open Scope string_scope.
Open Scope py_scope.
Local Open Scope Q_scope.

(** ** Quantizing *)

Definition ulp8 : Q := ten_pow (-8).

Lemma ulp8_value : ulp8 == 1 # 100000000.
Proof. reflexivity. Qed.

(** a value at eight places, with [k] units *)
Definition units8 (d : dec) (k : Z) : Prop := d_exp d = (-8)%Z /\ d_sc d = k.

Lemma units8_Q d k : units8 d k -> dQ d == inject_Z k * ulp8.
Proof. intros [He Hk]. unfold dQ, ulp8. by rewrite He, Hk. Qed.

Lemma Qabs_diff_zero a b : a == b -> Qabs (a - b) == 0.
Proof. intros H. setoid_replace (a - b) with 0 using relation Qeq by (rewrite H; ring). reflexivity. Qed.

Lemma rescale_error d e :
  d_exp (drescale d e) = e /\ Qabs (dQ (drescale d e) - dQ d) <= (1 # 2) * ten_pow e.
Proof.
  pose proof (ten_pow_pos e) as Hp. unfold drescale.
  destruct (N.eqb_spec (d_coef d) 0) as [E|E].
  { split; [done|]. rewrite Qabs_diff_zero; [lra|]. apply coef_zero_dQ in E. rewrite E. by apply coef_zero_dQ. }
  destruct (Z.leb_spec e (d_exp d)) as [Hle|Hgt].
  { split; [done|]. rewrite Qabs_diff_zero; [lra|].
    rewrite !dQ_sgn. cbn [d_neg d_coef d_exp]. rewrite N2Z.inj_mul, inject_Z_mult, <- ten_pow_nat.
    rewrite Z2Nat.id by lia. rewrite <- Qmult_assoc, <- ten_pow_add.
    by replace (d_exp d - e + e)%Z with (d_exp d) by lia. }
  split; [done|]. rewrite !dQ_sgn. cbn [d_neg d_coef d_exp].
  set (k := Z.to_nat (e - d_exp d)). set (q := div_half_even (d_coef d) (pow10 k)).
  pose proof (div_half_even_bound (d_coef d) (pow10 k) (pow10_pos k)) as [B1 B2]. fold q in B1, B2.
  pose proof (ten_pow_pos (d_exp d)) as H0.
  assert (ten_pow e == inject_Z (Z.of_N (pow10 k)) * ten_pow (d_exp d)) as Ee.
  { rewrite <- ten_pow_nat, <- ten_pow_add. unfold k. rewrite Z2Nat.id by lia.
    by replace (e - d_exp d + d_exp d)%Z with e by lia. }
  setoid_replace (sgnQ (d_neg d) * (inject_Z (Z.of_N q) * ten_pow e))
    with (sgnQ (d_neg d) * (inject_Z (Z.of_N q * Z.of_N (pow10 k)) * ten_pow (d_exp d))) using relation Qeq
    by (rewrite Ee, inject_Z_mult; ring).
  rewrite Qabs_scaled_diff, Ee, Qmult_assoc by done. apply Qmult_le_compat_r; [|lra].
  unfold Qminus. rewrite <- inject_Z_opp, <- inject_Z_plus.
  unfold inject_Z, Qabs, Qle, Qmult. cbn [Qnum Qden]. lia.
Qed.

(** Quantizing a value below 10^19 succeeds, to the nearest unit. *)
Lemma quantize8 d : Qabs (dQ d) <= inject_Z (10 ^ 19) ->
  exists q k, os_quantize d = Ok q /\ units8 q k /\ Qabs (inject_Z k * ulp8 - dQ d) <= (1 # 2) * ulp8.
Proof.
  intros Hd. destruct (rescale_error d (-8)) as [He Herr]. fold ulp8 in Herr.
  set (q := drescale d (-8)) in *. exists q, (d_sc q).
  assert (units8 q (d_sc q)) as Hu by (by split).
  rewrite (units8_Q _ _ Hu) in Herr. split; [|done].
  unfold os_quantize, dquantize, OUTPUT_EXP. fold q.
  destruct (Nat.ltb_spec prec (ndigits (d_coef q))) as [Hlt|]; [|done]. exfalso.
  pose proof (Qabs_triangle_reverse (inject_Z (d_sc q) * ulp8) (dQ d)) as T.
  assert (Qabs (inject_Z (d_sc q) * ulp8) == inject_Z (Z.of_N (d_coef q)) * ulp8) as Ea.
  { rewrite Qabs_Qmult, (Qabs_pos ulp8) by (vm_compute; discriminate).
    unfold d_sc. destruct (d_neg q); rewrite ?inject_Z_opp, ?Qabs_opp; rewrite Qabs_pos; try reflexivity;
      change 0 with (inject_Z 0); rewrite <- Zle_Qle; lia. }
  assert (d_coef q <> 0%N) as Hnz by (intros E; rewrite E in Hlt; cbn in Hlt; unfold prec in Hlt; lia).
  pose proof (ndigits_lower (d_coef q) ltac:(lia)) as Hl.
  pose proof (pow10_le 28 (ndigits (d_coef q) - 1) ltac:(unfold prec in *; lia)) as H28.
  assert (pow10 28 = 10000000000000000000000000000%N) as E28 by (by vm_compute). rewrite E28 in H28.
  assert (inject_Z 10000000000000000000000000000 <= inject_Z (Z.of_N (d_coef q))) as Hbig
    by (rewrite <- Zle_Qle; lia).
  rewrite Ea in T. change (inject_Z (10 ^ 19)) with (10000000000000000000 # 1) in Hd.
  change (inject_Z 10000000000000000000000000000) with (10000000000000000000000000000 # 1) in Hbig.
  rewrite ulp8_value in *. lra.
Qed.

Lemma units_bound k a b : a <= inject_Z k * ulp8 -> inject_Z k * ulp8 <= b ->
  forall lo hi, inject_Z (lo - 1) * ulp8 < a -> b < inject_Z (hi + 1) * ulp8 -> (lo <= k <= hi)%Z.
Proof.
  intros Ha Hb lo hi Hlo Hhi. assert (0 < ulp8) as Hp by (vm_compute; reflexivity).
  assert (inject_Z (lo - 1) < inject_Z k) as H1 by (apply (Qmult_lt_r _ _ ulp8); [done|lra]).
  assert (inject_Z k < inject_Z (hi + 1)) as H2 by (apply (Qmult_lt_r _ _ ulp8); [done|lra]).
  rewrite <- Zlt_Qlt in H1, H2. lia.
Qed.

(** ** Weighted points *)

(** the value computed before quantizing is the exact one up to 1e-20 *)
Lemma weighted_close score n : 0 <= dQ score <= 100 -> (0 <= n <= 100)%Z ->
  exists ratio, ddiv score MAX_COMPONENT_SCORE = Ok ratio /\
    0 <= dQ (dmul ratio (dec_of_Z n)) /\
    Qabs (dQ (dmul ratio (dec_of_Z n)) - dQ score / 100 * inject_Z n) <= 1 # 100000000000000000000.
Proof.
  intros Hs Hn. assert (dQ MAX_COMPONENT_SCORE == 100) as H100 by reflexivity.
  destruct (ddiv_value score MAX_COMPONENT_SCORE) as (r & Hr & Herr); [rewrite H100; lra|].
  exists r. split; [done|]. rewrite H100 in Herr.
  set (x := dQ score / 100) in *.
  assert (0 <= x <= 1) as Hx by (unfold x; change (dQ score / 100) with (dQ score * (1 # 100)); lra).
  rewrite (Qabs_pos x) in Herr by lra. apply Qabs_Qle_condition in Herr.
  destruct (dmul_value r (dec_of_Z n)) as (m & Hm & HmQ). rewrite Hm.
  pose proof (dfix_error m) as Hf.
  assert (0 <= inject_Z n <= 100) as HnQ.
  { split; [change 0 with (inject_Z 0)|change 100 with (inject_Z 100)]; rewrite <- Zle_Qle; lia. }
  rewrite dQ_dec_of_Z in HmQ.
  assert (0 <= dQ r) as Hr0 by (unfold div_eps in Herr; lra).
  assert (0 <= dQ m) as Hm0 by (rewrite HmQ; apply Qmult_le_0_compat; lra).
  assert (dQ m <= 101) as Hm1.
  { rewrite HmQ. apply (Qle_trans _ (dQ r * 100)); [|unfold div_eps in Herr; lra].
    rewrite !(Qmult_comm (dQ r)). apply Qmult_le_compat_r; lra. }
  rewrite (Qabs_pos (dQ m)) in Hf by done. apply Qabs_Qle_condition in Hf.
  assert (Qabs (dQ m - x * inject_Z n) <= div_eps * 100) as Hd.
  { setoid_replace (dQ m - x * inject_Z n) with ((dQ r - x) * inject_Z n) using relation Qeq by (rewrite HmQ; ring).
    rewrite Qabs_Qmult, (Qabs_pos (inject_Z n)) by lra.
    apply (Qle_trans _ (div_eps * inject_Z n)).
    - apply Qmult_le_compat_r; [|lra]. apply Qabs_Qle_condition. unfold div_eps in *. lra.
    - rewrite !(Qmult_comm div_eps). apply Qmult_le_compat_r; [lra|vm_compute; discriminate]. }
  apply Qabs_Qle_condition in Hd. unfold half_ulp, div_eps in *. split; [lra|].
  apply Qabs_Qle_condition. lra.
Qed.

(** Points are between zero and the weight, and within one unit of exact. *)
Lemma weighted_points_range score n : 0 <= dQ score <= 100 -> (0 <= n <= 100)%Z ->
  exists p k, weighted_points score (dec_of_Z n) = Ok p /\ units8 p k /\ (0 <= k <= n * 10 ^ 8)%Z /\
    Qabs (dQ p - dQ score / 100 * inject_Z n) <= ulp8.
Proof.
  intros Hs Hn. destruct (weighted_close score n Hs Hn) as (r & Hr & H0 & Hc).
  apply Qabs_Qle_condition in Hc.
  assert (0 <= dQ score / 100 * inject_Z n <= inject_Z n) as Hx.
  { assert (0 <= inject_Z n) by (change 0 with (inject_Z 0); rewrite <- Zle_Qle; lia).
    assert (0 <= dQ score / 100 <= 1) by (change (dQ score / 100) with (dQ score * (1 # 100)); lra). split; [apply Qmult_le_0_compat; lra|].
    rewrite <- (Qmult_1_l (inject_Z n)) at 2. apply Qmult_le_compat_r; lra. }
  assert (inject_Z n <= 100) as Hn100 by (change 100 with (inject_Z 100); rewrite <- Zle_Qle; lia).
  set (y := dQ score / 100 * inject_Z n) in *. set (m := dmul r (dec_of_Z n)) in *.
  destruct (quantize8 m) as (p & k & Hp & Hu & Hk).
  { rewrite Qabs_pos by done. change (inject_Z (10 ^ 19)) with (10000000000000000000 # 1). lra. }
  exists p, k. unfold weighted_points. rewrite Hr. cbn [bind_result]. fold m. split; [done|]. split; [done|].
  apply Qabs_Qle_condition in Hk.
  assert (inject_Z (n * 10 ^ 8 + 1) * ulp8 == inject_Z n + ulp8) as En.
  { rewrite inject_Z_plus, inject_Z_mult, ulp8_value. change (inject_Z (10 ^ 8)) with (100000000 # 1).
    change (inject_Z 1) with 1. ring. }
  split.
  - apply (units_bound k (dQ m - (1 # 2) * ulp8) (dQ m + (1 # 2) * ulp8)); try lra.
    + rewrite ulp8_value. change (inject_Z (0 - 1)) with (-1 # 1). lra.
    + rewrite En, ulp8_value. lra.
  - rewrite (units8_Q _ _ Hu). apply Qabs_Qle_condition. rewrite ulp8_value in *. lra.
Qed.

(** ** The total *)

Lemma dadd_units8 a b ka kb : units8 a ka -> units8 b kb -> (0 <= ka + kb < 10 ^ 28)%Z ->
  units8 (dadd a b) (ka + kb).
Proof.
  intros [Ea Ka] [Eb Kb] Hr. unfold dadd. rewrite Ea, Eb, Z.min_id.
  assert (forall d, d_exp d = (-8)%Z -> scaled d (-8) = d_sc d) as Hs.
  { intros d He. unfold scaled. rewrite He. change (-8 - -8)%Z with 0%Z. rewrite Z.pow_0_r. lia. }
  rewrite !Hs, Ka, Kb by done. rewrite dfix_small.
  - split; [done|]. apply d_sc_of_Z. destruct (Z.eqb_spec (ka + kb) 0); [by right|by left].
  - cbn [d_coef]. apply ndigits_le; [|unfold prec; lia]. unfold pow10, prec. change (N.of_nat 28) with 28%N. lia.
Qed.

Lemma quantize_units8 d k : units8 d k -> (0 <= k <= 10 ^ 20)%Z -> exists q, os_quantize d = Ok q /\ units8 q k.
Proof.
  intros Hu Hk. pose proof (units8_Q _ _ Hu) as HQ. assert (0 < ulp8) as Hp by (vm_compute; reflexivity).
  assert (0 <= inject_Z k <= inject_Z (10 ^ 20)) as Hkq
    by (split; [change 0 with (inject_Z 0)|]; rewrite <- Zle_Qle; lia).
  change (inject_Z (10 ^ 20)) with (100000000000000000000 # 1) in Hkq.
  destruct (quantize8 d) as (q & k' & Hq & Hu' & He).
  { rewrite HQ, Qabs_pos by (apply Qmult_le_0_compat; lra).
    change (inject_Z (10 ^ 19)) with (10000000000000000000 # 1). rewrite ulp8_value. lra. }
  exists q. split; [done|]. rewrite HQ in He. apply Qabs_Qle_condition in He.
  assert (k <= k' <= k)%Z as H.
  { apply (units_bound k' (inject_Z k * ulp8 - (1 # 2) * ulp8) (inject_Z k * ulp8 + (1 # 2) * ulp8)); try lra.
    - unfold Z.sub. rewrite inject_Z_plus. change (inject_Z (- (1))) with (-1 # 1). rewrite ulp8_value. lra.
    - rewrite inject_Z_plus. change (inject_Z 1) with 1. rewrite ulp8_value. lra. }
  by replace k with k' by lia.
Qed.

Definition in_score_range (d : dec) : Prop := 0 <= dQ d <= 100.

(** what [validate_input] guarantees *)
Definition scores_ok (i : OpportunityScoringInput) : Prop :=
  in_score_range (i_technical_score i) /\ in_score_range (i_derivatives_score i) /\
  in_score_range (default DEFAULT_LIQUIDITY_SCORE (i_liquidity_score i)) /\
  in_score_range (default DEFAULT_CATALYST_SCORE (i_catalyst_score i)) /\
  in_score_range (default DEFAULT_DATA_QUALITY_SCORE (i_data_quality_score i)).

(** the points a component should have *)
Definition exact_points (score : dec) (n : Z) : Q := dQ score / 100 * inject_Z n.

(** the total the six components should have *)
Definition exact_total (i : OpportunityScoringInput) : Q :=
  exact_points (i_technical_score i) 30 + exact_points (i_derivatives_score i) 20
  + exact_points (default DEFAULT_LIQUIDITY_SCORE (i_liquidity_score i)) 15
  + exact_points (default DEFAULT_CATALYST_SCORE (i_catalyst_score i)) 15
  + exact_points (fst (risk_reward_score (i_best_rr i))) 15
  + exact_points (default DEFAULT_DATA_QUALITY_SCORE (i_data_quality_score i)) 5.

Definition points_ok (p : dec) (score : dec) (n : Z) : Prop :=
  exists k, units8 p k /\ (0 <= k <= n * 10 ^ 8)%Z /\ Qabs (dQ p - exact_points score n) <= ulp8.

Lemma points_run score n : in_score_range score -> (0 <= n <= 100)%Z ->
  exists p, weighted_points score (dec_of_Z n) = Ok p /\ points_ok p score n.
Proof.
  intros Hs Hn. destruct (weighted_points_range score n Hs Hn) as (p & k & Hp & Hk). exists p. split; [done|].
  by exists k.
Qed.

Lemma quantize_score d : in_score_range d -> exists q, os_quantize d = Ok q.
Proof.
  intros H. destruct (quantize8 d) as (q & k & Hq & _); [|eauto].
  unfold in_score_range in H. rewrite Qabs_pos by lra. change (inject_Z (10 ^ 19)) with (10000000000000000000 # 1). lra.
Qed.

Lemma optional_quantize_score o dflt : in_score_range (default dflt o) -> exists q, os_optional_quantize o = Ok q.
Proof.
  intros H. destruct o as [d|]; cbn; [|eauto]. destruct (quantize_score d H) as (q & ->). cbn. eauto.
Qed.

Lemma rr_score_range rr : in_score_range (fst (risk_reward_score rr)).
Proof.
  unfold risk_reward_score, in_score_range.
  repeat match goal with |- context [if ?b then _ else _] => destruct b end; split; vm_compute; discriminate.
Qed.

(** Only the quantization of the risk/reward ratio can fail. *)
Lemma score_breakdown_cases i : scores_ok i ->
  match os_quantize (i_best_rr i) with
  | Raise e => score_breakdown i = Raise e
  | Ok _ => exists b, score_breakdown i = Ok b /\
      points_ok (sb_technical_points b) (i_technical_score i) 30 /\
      points_ok (sb_derivatives_points b) (i_derivatives_score i) 20 /\
      points_ok (sb_liquidity_points b) (default DEFAULT_LIQUIDITY_SCORE (i_liquidity_score i)) 15 /\
      points_ok (sb_catalyst_points b) (default DEFAULT_CATALYST_SCORE (i_catalyst_score i)) 15 /\
      points_ok (sb_risk_reward_points b) (fst (risk_reward_score (i_best_rr i))) 15 /\
      points_ok (sb_data_quality_points b) (default DEFAULT_DATA_QUALITY_SCORE (i_data_quality_score i)) 5
  end.
Proof.
  intros (Ht & Hd & Hl & Hc & Hq). unfold score_breakdown.
  pose proof (rr_score_range (i_best_rr i)) as Hr. destruct (risk_reward_score (i_best_rr i)) as [rs tier].
  cbn [fst] in *.
  destruct (quantize_score _ Ht) as (a1 & ->), (quantize_score _ Hd) as (a2 & ->), (quantize_score _ Hl) as (a3 & ->),
    (quantize_score _ Hc) as (a4 & ->), (quantize_score _ Hq) as (a5 & ->).
  destruct (optional_quantize_score _ _ Hl) as (o1 & ->), (optional_quantize_score _ _ Hc) as (o2 & ->),
    (optional_quantize_score _ _ Hq) as (o3 & ->).
  destruct (points_run _ 30 Ht ltac:(lia)) as (p1 & E1 & P1), (points_run _ 20 Hd ltac:(lia)) as (p2 & E2 & P2),
    (points_run _ 15 Hl ltac:(lia)) as (p3 & E3 & P3), (points_run _ 15 Hc ltac:(lia)) as (p4 & E4 & P4),
    (points_run _ 15 Hr ltac:(lia)) as (p5 & E5 & P5), (points_run _ 5 Hq ltac:(lia)) as (p6 & E6 & P6).
  unfold TECHNICAL_WEIGHT, DERIVATIVES_WEIGHT, LIQUIDITY_WEIGHT, CATALYST_WEIGHT, RISK_REWARD_WEIGHT, DATA_QUALITY_WEIGHT.
  rewrite E1, E2, E3, E4, E5, E6. cbn [bind_result].
  destruct (os_quantize (i_best_rr i)); cbn [bind_result]; [|done]. eexists. split; [reflexivity|]. cbn. tauto.
Qed.

Lemma score_in_range_ok v d : score_is_in_range v = Ok d -> in_score_range d.
Proof.
  destruct v as [d'| |]; cbn; try done. destruct (dltb d' dzero) eqn:E1; [done|].
  destruct (dltb MAX_COMPONENT_SCORE d') eqn:E2; [done|]. intros [= <-]. apply dltb_false in E1, E2.
  assert (dQ MAX_COMPONENT_SCORE == 100) by reflexivity. rewrite dQ_zero in E1. unfold in_score_range. lra.
Qed.

Lemma optional_in_range_ok v o dflt :
  optional_score_is_in_range v = Ok o -> in_score_range dflt -> in_score_range (default dflt o).
Proof.
  destruct v as [v|]; cbn; [|by intros [= <-]].
  destruct (score_is_in_range v) as [d|] eqn:E; cbn; [|done]. intros [= <-] _. by eapply score_in_range_ok.
Qed.

Lemma validate_input_scores q i : validate_input q = Ok i -> scores_ok i.
Proof.
  unfold validate_input. intros H.
  destruct (score_is_in_range (q_technical_score q)) eqn:E1; cbn [bind_result] in H; [|done].
  destruct (score_is_in_range (q_derivatives_score q)) eqn:E2; cbn [bind_result] in H; [|done].
  destruct (risk_reward_is_finite _); cbn [bind_result] in H; [|done].
  destruct (optional_score_is_in_range (q_liquidity_score q)) eqn:E3; cbn [bind_result] in H; [|done].
  destruct (optional_score_is_in_range (q_catalyst_score q)) eqn:E4; cbn [bind_result] in H; [|done].
  destruct (optional_score_is_in_range (q_data_quality_score q)) eqn:E5; cbn [bind_result] in H; [|done].
  apply ok_inj in H. subst i. unfold scores_ok. cbn.
  split; [by eapply score_in_range_ok|]. split; [by eapply score_in_range_ok|].
  repeat split; (eapply optional_in_range_ok; [eassumption|]); split; vm_compute; discriminate.
Qed.

Lemma Qabs_sum6 a b c d e f a' b' c' d' e' f' t :
  Qabs (a - a') <= t -> Qabs (b - b') <= t -> Qabs (c - c') <= t ->
  Qabs (d - d') <= t -> Qabs (e - e') <= t -> Qabs (f - f') <= t ->
  Qabs (a + b + c + d + e + f - (a' + b' + c' + d' + e' + f')) <= 6 * t.
Proof.
  intros H1 H2 H3 H4 H5 H6. apply Qabs_Qle_condition in H1, H2, H3, H4, H5, H6. apply Qabs_Qle_condition. lra.
Qed.

Lemma total_run b s1 s2 s3 s4 s5 s6 :
  points_ok (sb_technical_points b) s1 30 -> points_ok (sb_derivatives_points b) s2 20 ->
  points_ok (sb_liquidity_points b) s3 15 -> points_ok (sb_catalyst_points b) s4 15 ->
  points_ok (sb_risk_reward_points b) s5 15 -> points_ok (sb_data_quality_points b) s6 5 ->
  exists total, os_quantize (total_points b) = Ok total /\ 0 <= dQ total <= 100 /\
    Qabs (dQ total - (exact_points s1 30 + exact_points s2 20 + exact_points s3 15 + exact_points s4 15
                      + exact_points s5 15 + exact_points s6 5)) <= 6 * ulp8.
Proof.
  intros (k1 & U1 & R1 & A1) (k2 & U2 & R2 & A2) (k3 & U3 & R3 & A3) (k4 & U4 & R4 & A4) (k5 & U5 & R5 & A5) (k6 & U6 & R6 & A6).
  assert (units8 (total_points b) (k1 + k2 + k3 + k4 + k5 + k6)) as Hu.
  { unfold total_points. repeat (apply dadd_units8; [|done|lia]). done. }
  destruct (quantize_units8 _ _ Hu) as (total & Ht & Hut); [lia|]. exists total. split; [done|].
  set (k := (k1 + k2 + k3 + k4 + k5 + k6)%Z) in *. pose proof (units8_Q _ _ Hut) as HQ. split.
  - assert (0 <= inject_Z k <= inject_Z (10 ^ 10)) as Hk
      by (split; [change 0 with (inject_Z 0)|]; rewrite <- Zle_Qle; unfold k; lia).
    change (inject_Z (10 ^ 10)) with (10000000000 # 1) in Hk. rewrite HQ, ulp8_value. lra.
  - assert (dQ total == dQ (sb_technical_points b) + dQ (sb_derivatives_points b) + dQ (sb_liquidity_points b)
              + dQ (sb_catalyst_points b) + dQ (sb_risk_reward_points b) + dQ (sb_data_quality_points b)) as ->.
    { rewrite HQ, (units8_Q _ _ U1), (units8_Q _ _ U2), (units8_Q _ _ U3), (units8_Q _ _ U4), (units8_Q _ _ U5), (units8_Q _ _ U6).
      unfold k. rewrite !inject_Z_plus. ring. }
    by apply Qabs_sum6.
Qed.

(** A validated input is scored, unless its ratio is too large to quantize. *)
Lemma score_input_cases i : scores_ok i ->
  match os_quantize (i_best_rr i) with
  | Raise e => score_input i = Raise e
  | Ok _ => exists r, score_input i = Ok r /\ 0 <= dQ (os_total_score r) <= 100 /\
      Qabs (dQ (os_total_score r) - exact_total i) <= 6 * ulp8
  end.
Proof.
  intros H. pose proof (score_breakdown_cases i H) as Hb. unfold score_input.
  destruct (os_quantize (i_best_rr i)) as [q|e]; [|by rewrite Hb].
  destruct Hb as (b & -> & P1 & P2 & P3 & P4 & P5 & P6). cbn [bind_result].
  destruct (total_run b _ _ _ _ _ _ P1 P2 P3 P4 P5 P6) as (total & -> & Hr & He). cbn [bind_result].
  eexists. split; [reflexivity|]. split; [exact Hr|exact He].
Qed.

(** ** Decisions *)

Lemma violation_nil b code message : violation b code message = [] <-> b = false.
Proof. by destruct b. Qed.

(** what passing the hard filters means *)
Definition gates_passed (i : OpportunityScoringInput) : Prop :=
  i_risk_approved i = true /\ i_invalidation_present i = true /\ 2 <= dQ (i_best_rr i) /\
  (exists d, i_data_quality_score i = Some d /\ 60 <= dQ d) /\
  i_setup_location i <> LocMiddle /\ 50 <= dQ (i_technical_score i) /\ 40 <= dQ (i_derivatives_score i) /\
  clean_strings (i_risk_rejection_reasons i) = [].

Lemma data_quality_gate (o : option dec) :
  dltb (default DEFAULT_DATA_QUALITY_SCORE o) MIN_DATA_QUALITY_SCORE = false <-> exists d, o = Some d /\ 60 <= dQ d.
Proof.
  rewrite dltb_false. assert (dQ MIN_DATA_QUALITY_SCORE == 60) as -> by reflexivity.
  destruct o as [d|]; cbn [default]; [split; [eauto|by intros (? & [= <-] & ?)]|].
  split; [|by intros (? & ? & _)]. assert (dQ DEFAULT_DATA_QUALITY_SCORE == 50) as -> by reflexivity. intros; lra.
Qed.

Lemma hard_filters_iff i :
  hf_passed (hard_filter_result i (default DEFAULT_DATA_QUALITY_SCORE (i_data_quality_score i))) = true
  <-> gates_passed i.
Proof.
  unfold hard_filter_result, gates_passed. cbn [hf_passed].
  set (l := (_ ++ _)%list). assert (match l with [] => true | _ => false end = true <-> l = []) as -> by (by destruct l).
  unfold l. rewrite !app_nil, !violation_nil, !negb_false_iff, data_quality_gate, !dltb_false.
  assert (dQ MIN_RISK_REWARD_RATIO == 2) as -> by reflexivity.
  assert (dQ OS_MIN_TECHNICAL_SCORE == 50) as -> by reflexivity.
  assert (dQ MIN_DERIVATIVES_SCORE == 40) as -> by reflexivity.
  assert ((match i_setup_location i with LocMiddle => true | _ => false end) = false <-> i_setup_location i <> LocMiddle)
    as -> by (by destruct (i_setup_location i)).
  assert (forall f : string -> ScoringRuleViolation, map f (clean_strings (i_risk_rejection_reasons i)) = []
            <-> clean_strings (i_risk_rejection_reasons i) = []) as ->
    by (intros f; by destruct (clean_strings (i_risk_rejection_reasons i))).
  tauto.
Qed.

(** the grade and the decision of a total that passed the filters *)
Definition band_of_total (t : Q) : ScoreGrade * DecisionLabel :=
  if Qle_bool 90 t then (GradeAPlus, HighQualityCandidate) else
  if Qle_bool 80 t then (GradeA, AlertCandidate) else
  if Qle_bool 70 t then (GradeB, WatchlistOnly) else
  if Qle_bool 60 t then (GradeC, RejectDecision) else (GradeReject, RejectDecision).

Lemma dleb_Q n d : dleb (dec_of_Z n) d = Qle_bool (inject_Z n) (dQ d).
Proof. apply eq_true_iff_eq. by rewrite dleb_spec, Qle_bool_iff, dQ_dec_of_Z. Qed.

Lemma dltb_Q n d : dltb d (dec_of_Z n) = negb (Qle_bool (inject_Z n) (dQ d)).
Proof.
  apply eq_true_iff_eq. rewrite dltb_spec, negb_true_iff, dQ_dec_of_Z.
  destruct (Qle_bool (inject_Z n) (dQ d)) eqn:E.
  - apply Qle_bool_iff in E. split; [lra|done].
  - split; [done|]. intros _. apply Qnot_le_lt. rewrite <- Qle_bool_iff. congruence.
Qed.

Lemma grade_decision_table total filters :
  (score_grade total filters, score_decision total filters)
  = if hf_passed filters then band_of_total (dQ total) else (GradeReject, RejectDecision).
Proof.
  unfold score_grade, score_decision, band_of_total. destruct (hf_passed filters); cbn [negb orb]; [|done].
  rewrite !dleb_Q, dltb_Q. change (inject_Z 90) with 90. change (inject_Z 80) with 80.
  change (inject_Z 70) with 70. change (inject_Z 60) with 60.
  destruct (Qle_bool 60 (dQ total)) eqn:E60; cbn [negb]; [by repeat destruct (Qle_bool _ (dQ total))|].
  assert (forall t, 60 <= t -> Qle_bool t (dQ total) = false) as Hf.
  { intros t Ht. destruct (Qle_bool t (dQ total)) eqn:E; [|done]. apply Qle_bool_iff in E.
    assert (Qle_bool 60 (dQ total) = true) by (apply Qle_bool_iff; lra). congruence. }
  by rewrite !Hf by lra.
Qed.

Lemma score_opportunity_run q r : score_opportunity q = Ok r ->
  exists i, validate_input q = Ok i /\ score_input i = Ok r /\ scores_ok i.
Proof.
  unfold score_opportunity. destruct (validate_input q) as [i|] eqn:E; cbn; [|done]. intros H. exists i.
  split; [done|]. split; [done|]. by eapply validate_input_scores.
Qed.

Lemma score_input_result i r : score_input i = Ok r ->
  os_hard_filter_result r = hard_filter_result i (default DEFAULT_DATA_QUALITY_SCORE (i_data_quality_score i)) /\
  os_grade r = score_grade (os_total_score r) (os_hard_filter_result r) /\
  os_decision r = score_decision (os_total_score r) (os_hard_filter_result r) /\
  os_rejection_reasons r = rejection_reasons (os_total_score r) (os_hard_filter_result r) (os_decision r).
Proof.
  unfold score_input. destruct (score_breakdown i); cbn [bind_result]; [|done].
  destruct (os_quantize _); cbn [bind_result]; [|done]. intros H. apply ok_inj in H. by subst r.
Qed.

Lemma rejection_reasons_nil total filters :
  (hf_passed filters = true <-> hf_violations filters = []) ->
  rejection_reasons total filters (score_decision total filters) = [] <-> score_decision total filters <> RejectDecision.
Proof.
  intros Hv. unfold rejection_reasons. rewrite app_nil.
  assert (map v_message (hf_violations filters) = [] <-> hf_passed filters = true) as ->
    by (rewrite Hv; by destruct (hf_violations filters)).
  unfold score_decision. destruct (hf_passed filters); cbn [negb]; [|naive_solver].
  destruct (dleb (dec_of_Z 90) total), (dleb (dec_of_Z 80) total), (dleb (dec_of_Z 70) total); naive_solver.
Qed.

(** ** Claims *)

(** C36: a validated setup is always scored when its risk/reward ratio is below
    10^19, and every score given is a total between 0 and 100 within 6e-8 of
    the exact weighted sum of the component scores. *)
Theorem opportunity_score_bounds q i :
  validate_input q = Ok i ->
  (Qabs (dQ (i_best_rr i)) <= inject_Z (10 ^ 19) -> exists r, score_opportunity q = Ok r) /\
  forall r, score_opportunity q = Ok r ->
    0 <= dQ (os_total_score r) <= 100 /\ Qabs (dQ (os_total_score r) - exact_total i) <= 6 * ulp8.
Proof.
  intros Hv. pose proof (score_input_cases i (validate_input_scores q i Hv)) as Hc.
  unfold score_opportunity. rewrite Hv. cbn [bind_result]. split.
  - intros Hr. destruct (quantize8 _ Hr) as (x & k & E & _). rewrite E in Hc. destruct Hc as (r & Hr' & _). eauto.
  - intros r Hr. destruct (os_quantize (i_best_rr i)); [|congruence].
    destruct Hc as (r' & Hr' & Hb). rewrite Hr in Hr'. apply ok_inj in Hr'. by subst r'.
Qed.

Definition sample_request : OpportunityRequest :=
  {| q_technical_score := Finite (dec_of_Z 90); q_derivatives_score := Finite (mkDec false 805 (-1));
     q_risk_approved := true; q_best_rr := Finite (dec_of_Z 4); q_liquidity_score := Some (Finite (dec_of_Z 80));
     q_catalyst_score := None; q_data_quality_score := Some (Finite (dec_of_Z 95)); q_invalidation_present := true;
     q_setup_location := LocEdge; q_risk_rejection_reasons := ["  "]; q_missing_data := []; q_unverified_data := [] |}.

Lemma opportunity_score_bounds_witness :
  exists i r, validate_input sample_request = Ok i /\ score_opportunity sample_request = Ok r /\
    0 <= dQ (os_total_score r) <= 100.
Proof.
  destruct (validate_input sample_request) as [i|] eqn:Hv; [|vm_compute in Hv; discriminate].
  destruct (opportunity_score_bounds sample_request i Hv) as [H1 H2].
  destruct H1 as (r & Hr); [vm_compute in Hv; injection Hv as <-; vm_compute; discriminate|].
  exists i, r. split; [reflexivity|]. split; [exact Hr|]. apply (H2 r Hr).
Defined.

(** a scored setup is proposed only when every hard gate passed (risk
    approval, invalidation, RR of at least two, measured data quality of at least
    60, location, technical and derivatives minimums, no risk rejection); its
    grade and decision then follow the total's band together, and a setup has
    rejection reasons exactly when it is rejected. *)
Theorem opportunity_decision_contract q r :
  score_opportunity q = Ok r ->
  exists i, validate_input q = Ok i /\
    (os_decision r <> RejectDecision -> gates_passed i /\ 70 <= dQ (os_total_score r)) /\
    (gates_passed i -> (os_grade r, os_decision r) = band_of_total (dQ (os_total_score r))) /\
    (os_rejection_reasons r <> [] <-> os_decision r = RejectDecision).
Proof.
  intros H. destruct (score_opportunity_run _ _ H) as (i & Hv & Hi & _). exists i. split; [done|].
  destruct (score_input_result _ _ Hi) as (Hf & Hg & Hd & Hr).
  pose proof (hard_filters_iff i) as Hp. rewrite <- Hf in Hp.
  pose proof (grade_decision_table (os_total_score r) (os_hard_filter_result r)) as Ht. rewrite <- Hg, <- Hd in Ht.
  split; [|split].
  - intros Hn. destruct (hf_passed (os_hard_filter_result r)); [|congruence]. split; [by apply Hp|].
    unfold band_of_total in Ht.
    destruct (Qle_bool 90 _) eqn:E1; [apply Qle_bool_iff in E1; lra|].
    destruct (Qle_bool 80 _) eqn:E2; [apply Qle_bool_iff in E2; lra|].
    destruct (Qle_bool 70 _) eqn:E3; [by apply Qle_bool_iff in E3|]. destruct (Qle_bool 60 _); congruence.
  - intros Hgate. apply Hp in Hgate. by rewrite Hgate in Ht.
  - rewrite Hr, Hd. pose proof (rejection_reasons_nil (os_total_score r) (os_hard_filter_result r)) as Hn.
    assert (hf_passed (os_hard_filter_result r) = true <-> hf_violations (os_hard_filter_result r) = []) as Hv'
      by (rewrite Hf; unfold hard_filter_result; cbn [hf_passed hf_violations]; by destruct (_ ++ _)%list).
    specialize (Hn Hv'). destruct (decide (score_decision (os_total_score r) (os_hard_filter_result r) = RejectDecision));
      split; intros; try tauto; intros E; tauto.
Qed.

Lemma opportunity_decision_contract_witness :
  exists r i, score_opportunity sample_request = Ok r /\ validate_input sample_request = Ok i /\
    os_decision r = WatchlistOnly /\ gates_passed i.
Proof.
  destruct (score_opportunity sample_request) as [r|] eqn:H; [|vm_compute in H; discriminate].
  destruct (opportunity_decision_contract sample_request r H) as (i & Hi & Hg & _).
  assert (os_decision r = WatchlistOnly) as Hd by (vm_compute in H; injection H as <-; reflexivity).
  exists r, i. split; [reflexivity|]. split; [exact Hi|]. split; [exact Hd|]. apply Hg. rewrite Hd. discriminate.
Defined.
