(* ===== verification/Regime.v ===== *)
(** * Market regime: models and scoring (src/app/regime/models.py, scoring.py)

    The regime result is built from evidence about BTC and ETH candles and the
    scan: a confidence score, the compatibility of each trading mode and an
    adjustment.  The evidence mapping has fixed keys and is a record here; its
    numbers are finite Decimals, on which the reader [_decimal]
    ([Decimal(str(value))]) is the identity.  The metrics payload of a result,
    which nothing reads back, is left out. *)

From stdpp Require Import base tactics list strings.
From Stdlib Require Import ZArith NArith Lia Bool Ascii.
From S2P Require Import Prelude PyString PyDecimal LifecycleModels CandleIntegrity DynRecord.
Open Scope string_scope.
Open Scope py_scope.

Inductive RegimeState : Type :=
| TREND_EXPANSION | TREND_PULLBACK | RANGE_COMPRESSION | HIGH_VOLATILITY | LOW_VOLATILITY
| CHOP | RISK_OFF | RISK_ON | MIXED | TRANSITION.

#[export] Instance RegimeState_eq_dec : EqDecision RegimeState.
Proof. solve_decision. Defined.

Definition regime_value (s : RegimeState) : string :=
  match s with
  | TREND_EXPANSION => "TREND_EXPANSION" | TREND_PULLBACK => "TREND_PULLBACK"
  | RANGE_COMPRESSION => "RANGE_COMPRESSION" | HIGH_VOLATILITY => "HIGH_VOLATILITY"
  | LOW_VOLATILITY => "LOW_VOLATILITY" | CHOP => "CHOP" | RISK_OFF => "RISK_OFF"
  | RISK_ON => "RISK_ON" | MIXED => "MIXED" | TRANSITION => "TRANSITION"
  end.

Inductive RegimeRiskLevel : Type := RiskLow | RiskMedium | RiskHigh | RiskExtreme | RiskNA.

Definition risk_value (r : RegimeRiskLevel) : string :=
  match r with
  | RiskLow => "LOW" | RiskMedium => "MEDIUM" | RiskHigh => "HIGH" | RiskExtreme => "EXTREME" | RiskNA => NA
  end.

Inductive RegimeStrictness : Type := StrictLow | StrictNormal | StrictHigh.

Inductive RegimeConfidenceBand : Type := Hostile | Weak | Acceptable | Favorable | Exceptional.

Definition band_value (b : RegimeConfidenceBand) : string :=
  match b with
  | Hostile => "hostile" | Weak => "weak" | Acceptable => "acceptable"
  | Favorable => "favorable" | Exceptional => "exceptional"
  end.

Inductive TradeMode : Type := Challenge | Swing | Scalp.

Definition mode_value (m : TradeMode) : string :=
  match m with Challenge => "challenge" | Swing => "swing" | Scalp => "scalp" end.

Definition MODE_ORDER : list TradeMode := [Challenge; Swing; Scalp].

Record RegimeCompatibility := {
  rc_mode : TradeMode;
  rc_score : Z;
  rc_label : string;
  rc_allowed : bool;
  rc_regime_compatibility : Z;
  rc_volatility_suitability : Z;
  rc_trend_suitability : Z;
  rc_execution_quality_suitability : Z;
  rc_risk_multiplier : dec;
  rc_confidence_adjustment : Z;
  rc_notes : list string
}.

Record RegimeAdjustment := {
  ra_allow_scalps : bool;
  ra_allow_swings : bool;
  ra_allow_challenge : bool;
  ra_min_quality_score_adjustment : Z;
  ra_min_rr_adjustment : dec;
  ra_risk_multiplier : dec;
  ra_readiness_score_adjustment : Z;
  ra_edge_score_adjustment : Z;
  ra_trust_score_adjustment : Z;
  ra_portfolio_confidence_adjustment : Z;
  ra_regime_penalty : Z;
  ra_compatibility_scores : list (TradeMode * Z);
  ra_explanation : string
}.

Record MarketRegimeResult := {
  mr_enabled : bool;
  mr_state : RegimeState;
  mr_risk_level : RegimeRiskLevel;
  mr_confidence_score : Z;
  mr_confidence_band : RegimeConfidenceBand;
  mr_strictness : RegimeStrictness;
  mr_compatibility_scores : list (TradeMode * RegimeCompatibility);
  mr_adjustment : RegimeAdjustment;
  mr_missing_data : list string;
  mr_unverified_data : list string;
  mr_warnings : list string;
  mr_environment_notes : list string;
  mr_boosts : list string;
  mr_penalties : list string
}.

(** [confidence_band] *)
Definition confidence_band (score : Z) : RegimeConfidenceBand :=
  if (score <=? 30)%Z then Hostile else if (score <=? 50)%Z then Weak else
  if (score <=? 70)%Z then Acceptable else if (score <=? 85)%Z then Favorable else Exceptional.

Definition compatibility_label (score : Z) : string :=
  if (score <=? 30)%Z then "Hostile" else if (score <=? 50)%Z then "Weak" else
  if (score <=? 70)%Z then "Moderate" else if (score <=? 85)%Z then "Strong" else "Exceptional".

(** ** Validators *)

(** [_is_missing] of a scalar *)
Definition rg_is_missing (v : pyobj) : bool :=
  match v with PyNone => true | PyStr s => String.eqb s "" || String.eqb s NA | _ => false end.

(** [repr(value)] in the message is the text of a number or quoted text *)
Definition rg_repr (v : pyobj) : string :=
  match v with
  | PyStr s => py_repr s
  | PyDec d => "Decimal('" +:+ pydec_to_string d +:+ "')"
  | _ => py_str v
  end.

(** [_decimal_from] *)
Definition rg_decimal_from (v : pyobj) (path : string) : result dec :=
  match parse_decimal (py_str v) with
  | Some (Finite d) => Ok d
  | _ => Raise (ValueError ("Invalid decimal at " +:+ path +:+ ": " +:+ rg_repr v))
  end.

(** [_quantize] *)
Definition rg_quantize (d : dec) : result dec := dquantize d (-8).

(** [MarketRegimeInput._normalize_maybe_decimal]: [None] is NA *)
Definition normalize_maybe_decimal (v : pyobj) : result (option dec) :=
  if rg_is_missing v then Ok None else
  let! d := rg_decimal_from v "market climate input" in
  let! q := rg_quantize d in
  Ok (Some q).

(** [MarketRegimeInput._normalize_strictness] of a text *)
Definition normalize_strictness (v : pyobj) : result RegimeStrictness :=
  if rg_is_missing v then Ok StrictNormal else
  let text := py_lower (py_strip (py_str v)) in
  if str_in text ["aggressive"; "low"] then Ok StrictLow else
  if str_in text ["balanced"; "normal"] then Ok StrictNormal else
  if str_in text ["conservative"; "high"] then Ok StrictHigh else
  Raise (ValueError (py_repr text +:+ " is not a valid RegimeStrictness")).

(** [_display] of text *)
Definition rg_display (s : string) : string :=
  if String.eqb s "" || String.eqb s NA then NA else
  let text := py_strip s in if String.eqb text "" then NA else text.

(** [_sequence_values] of a sequence of texts *)
Definition sequence_values (values : list string) : list string :=
  dict_fromkeys (List.filter (fun s => negb (String.eqb s NA)) (map rg_display values)).

(** the bounds [Field(ge=0, le=100)] *)
Definition percent_field (z : Z) : result Z :=
  if ((0 <=? z) && (z <=? 100))%Z then Ok z
  else Raise (ValueError "Input should be between 0 and 100").

(** [RegimeCompatibility(...)] *)
Definition new_compatibility (c : RegimeCompatibility) : result RegimeCompatibility :=
  let! _ := percent_field (rc_score c) in
  let! _ := percent_field (rc_regime_compatibility c) in
  let! _ := percent_field (rc_volatility_suitability c) in
  let! _ := percent_field (rc_trend_suitability c) in
  let! _ := percent_field (rc_execution_quality_suitability c) in
  let! m := rg_quantize (rc_risk_multiplier c) in
  Ok {| rc_mode := rc_mode c; rc_score := rc_score c; rc_label := rc_label c; rc_allowed := rc_allowed c;
        rc_regime_compatibility := rc_regime_compatibility c;
        rc_volatility_suitability := rc_volatility_suitability c;
        rc_trend_suitability := rc_trend_suitability c;
        rc_execution_quality_suitability := rc_execution_quality_suitability c;
        rc_risk_multiplier := m; rc_confidence_adjustment := rc_confidence_adjustment c;
        rc_notes := sequence_values (rc_notes c) |}.

(** ** Scoring tables *)

Definition strictness_allowed_threshold (s : RegimeStrictness) : Z :=
  match s with StrictLow => 36 | StrictNormal => 46 | StrictHigh => 58 end.

Definition strictness_penalty_multiplier (s : RegimeStrictness) : dec :=
  match s with
  | StrictLow => mkDec false 75 (-2) | StrictNormal => mkDec false 10 (-1) | StrictHigh => mkDec false 125 (-2)
  end.

Definition state_risk (s : RegimeState) : RegimeRiskLevel :=
  match s with
  | TREND_EXPANSION | RISK_ON => RiskLow
  | HIGH_VOLATILITY => RiskExtreme
  | CHOP | RISK_OFF => RiskHigh
  | _ => RiskMedium
  end.

(** a table {challenge, swing, scalp} *)
Definition by_mode (challenge swing scalp : Z) (m : TradeMode) : Z :=
  match m with Challenge => challenge | Swing => swing | Scalp => scalp end.

Definition state_mode_base (s : RegimeState) : TradeMode -> Z :=
  match s with
  | TREND_EXPANSION => by_mode 78 86 70
  | TREND_PULLBACK => by_mode 66 78 64
  | RANGE_COMPRESSION => by_mode 38 58 50
  | HIGH_VOLATILITY => by_mode 28 54 34
  | LOW_VOLATILITY => by_mode 52 62 42
  | CHOP => by_mode 24 46 32
  | RISK_OFF => by_mode 34 56 38
  | RISK_ON => by_mode 68 76 64
  | MIXED => by_mode 40 54 44
  | TRANSITION => by_mode 42 58 46
  end.

Definition risk_level_for_state (s : RegimeState) (required_data_missing : bool) : RegimeRiskLevel :=
  if required_data_missing then RiskNA else state_risk s.

(** ** Evidence *)

Record Evidence := {
  e_volatility_ratio : dec;
  e_range_pct : dec;
  e_atr_pct : dec;
  e_volatility_profile : string;
  e_directional_alignment : string;
  e_drift_alignment : string;
  e_breadth_side : string;
  e_breadth_strength_pct : dec;
  e_valid_sweep_pct : dec;
  e_follow_through_pct : dec;
  e_failed_confirmation_pct : dec;
  e_htf_agreement_pct : dec;
  e_htf_conflict_pct : dec;
  e_average_rr : dec;
  e_setup_density_pct : dec;
  e_rejection_clustering_pct : dec;
  e_btc_d_context : string;
  e_usdt_d_context : string;
  e_missing_optional_count : Z
}.

(** [Decimal(n)] comparisons with an integer threshold *)
Definition at_least (d : dec) (n : Z) : bool := dleb (dec_of_Z n) d.

Definition nonzero (d : dec) : bool := negb (deqb d (dec_of_Z 0)).

(** [int(value.to_integral_value(rounding="ROUND_HALF_UP"))] *)
Definition round_half_up (d : dec) : Z :=
  if (0 <=? d_exp d)%Z then (d_sc d * 10 ^ d_exp d)%Z else
  let p := (10 ^ (- d_exp d))%Z in
  let q := ((2 * Z.of_N (d_coef d) + p) / (2 * p))%Z in
  if d_neg d then (- q)%Z else q.

(** [_bounded_int] *)
Definition bounded_int (d : dec) : Z :=
  round_half_up (dmax (dec_of_Z 0) (dmin (dec_of_Z 100) d)).

(** [_unique] *)
Definition unique_texts (values : list string) : list string :=
  dict_fromkeys (List.filter (fun s => negb (String.eqb s "" || String.eqb s NA)) (map py_strip values)).

(** ** Confidence *)

(** the running score with the boosts and penalties so far *)
Record scored := { sc_score : dec; sc_boosts : list string; sc_penalties : list string }.

Definition boost (n : Z) (label : string) (s : scored) : scored :=
  {| sc_score := dadd (sc_score s) (dec_of_Z n); sc_boosts := (sc_boosts s ++ [label])%list;
     sc_penalties := sc_penalties s |}.

Definition penalise (n : Z) (multiplier : dec) (label : string) (s : scored) : scored :=
  {| sc_score := dsub (sc_score s) (dmul (dec_of_Z n) multiplier); sc_boosts := sc_boosts s;
     sc_penalties := (sc_penalties s ++ [label])%list |}.

Definition score_alignment (e : Evidence) (m : dec) (s : scored) : scored :=
  if str_in (e_directional_alignment e) ["bullish"; "bearish"] then boost 8 "directional alignment boost" s else
  if String.eqb (e_directional_alignment e) "mixed" then penalise 12 m "mixed directional penalty" s else s.

Definition score_volatility (e : Evidence) (m : dec) (s : scored) : scored :=
  let v := e_volatility_profile e in
  if String.eqb v "stable_expansion" then boost 8 "stable volatility expansion boost" s else
  if String.eqb v "compressed" then penalise 8 m "compressed volatility penalty" s else
  if String.eqb v "unstable" then penalise 16 m "unstable volatility penalty" s else s.

Definition score_htf (e : Evidence) (m : dec) (s : scored) : scored :=
  if at_least (e_htf_agreement_pct e) 65 then boost 8 "HTF alignment boost" s else
  if at_least (e_htf_conflict_pct e) 35 then penalise 10 m "HTF conflict penalty" s else s.

Definition score_breadth (e : Evidence) (m : dec) (s : scored) : scored :=
  let b := e_breadth_strength_pct e in
  if at_least b 60 then boost 7 "broad participation boost" s else
  if dltb (dec_of_Z 0) b && dltb b (dec_of_Z 45) then penalise 5 m "weak participation penalty" s else s.

Definition score_rr (e : Evidence) (m : dec) (s : scored) : scored :=
  let rr := e_average_rr e in
  if at_least rr 3 then boost 6 "RR expansion boost" s else
  if nonzero rr && dltb rr (mkDec false 25 (-1)) then penalise 7 m "low-quality RR expansion penalty" s else s.

Definition score_follow_through (e : Evidence) (m : dec) (s : scored) : scored :=
  if at_least (e_follow_through_pct e) 55 then boost 5 "follow-through boost" s else
  if at_least (e_failed_confirmation_pct e) 45 then penalise 10 m "weak follow-through penalty" s else s.

Definition score_rejections (e : Evidence) (m : dec) (s : scored) : scored :=
  if at_least (e_rejection_clustering_pct e) 45 then penalise 10 m "excessive rejection clustering penalty" s else s.

Definition score_density (e : Evidence) (m : dec) (s : scored) : scored :=
  let d := e_setup_density_pct e in
  if at_least d 25 then boost 3 "setup density support" s else
  if nonzero d && dltb d (dec_of_Z 8) then penalise 4 m "low setup density penalty" s else s.

Definition state_bias (s : RegimeState) : Z :=
  match s with
  | TREND_EXPANSION => 10 | RISK_ON => 8 | TREND_PULLBACK => 2 | RANGE_COMPRESSION => -2
  | LOW_VOLATILITY => -4 | TRANSITION => -5 | MIXED => -8 | RISK_OFF => -12 | CHOP => -18
  | HIGH_VOLATILITY => -20
  end.

Definition score_bias (state : RegimeState) (m : dec) (s : scored) : scored :=
  let bias := dec_of_Z (state_bias state) in
  {| sc_score := dadd (sc_score s) (if dltb bias (dec_of_Z 0) then dmul bias m else bias);
     sc_boosts := sc_boosts s; sc_penalties := sc_penalties s |}.

Definition score_missing (e : Evidence) (s : scored) : scored :=
  let n := e_missing_optional_count e in
  if (n =? 0)%Z then s else
  {| sc_score := dsub (sc_score s) (dec_of_Z (Z.min 10 (n * 2))); sc_boosts := sc_boosts s;
     sc_penalties := (sc_penalties s ++ ["optional regime context unavailable"])%list |}.

(** the caps on the rounded score *)
Definition cap_confidence (state : RegimeState) (e : Evidence) (score : Z) : Z :=
  let score := if negb (e_missing_optional_count e =? 0)%Z && (70 <? score)%Z then 70%Z else score in
  let score := match state with
               | CHOP | HIGH_VOLATILITY => if (50 <? score)%Z then 50%Z else score
               | _ => score
               end in
  match state with RANGE_COMPRESSION => if (68 <? score)%Z then 68%Z else score | _ => score end.

(** [_state_notes] *)
Definition state_notes (s : RegimeState) : list string :=
  match s with
  | TREND_EXPANSION => ["Trend expansion favors continuation when setup gates already pass."]
  | TREND_PULLBACK => ["Trend pullback is acceptable but needs clean execution follow-through."]
  | RANGE_COMPRESSION => ["Compressed volatility can reduce follow-through until expansion returns."]
  | HIGH_VOLATILITY => ["High volatility increases execution risk and reduces allowed risk."]
  | LOW_VOLATILITY => ["Low volatility can starve RR expansion and scalp follow-through."]
  | CHOP => ["Choppy conditions increase sweep failure and false-positive risk."]
  | RISK_OFF => ["Risk-off context requires defensive sizing and cleaner confirmation."]
  | RISK_ON => ["Risk-on context supports participation when structure confirms."]
  | MIXED => ["Mixed context remains cautious/neutral."]
  | TRANSITION => ["Transition context needs confirmation before high-confidence classification."]
  end.

(** [_evidence_notes] *)
Definition evidence_notes (e : Evidence) : list string :=
  let note (b : bool) (s : string) := if b then [s] else [] in
  (note (String.eqb (e_directional_alignment e) "mixed") "BTC/ETH directional conflict"
   ++ note (String.eqb (e_volatility_profile e) "compressed") "compressed volatility"
   ++ note (String.eqb (e_volatility_profile e) "unstable") "unstable volatility"
   ++ note (at_least (e_failed_confirmation_pct e) 45) "weak follow-through"
   ++ note (nonzero (e_average_rr e) && dltb (e_average_rr e) (mkDec false 25 (-1))) "low-quality RR expansion"
   ++ note (at_least (e_rejection_clustering_pct e) 45) "excessive rejection clustering")%list.

Record confidence := {
  cf_score : Z; cf_notes : list string; cf_boosts : list string; cf_penalties : list string
}.

Definition score_confidence (state : RegimeState) (e : Evidence) (strictness : RegimeStrictness)
    (required_data_missing : bool) : confidence :=
  if required_data_missing then
    {| cf_score := 45;
       cf_notes := ["Required BTC/ETH candle data is incomplete; regime stays cautious/neutral."];
       cf_boosts := []; cf_penalties := ["required BTC/ETH context missing"] |}
  else
    let m := strictness_penalty_multiplier strictness in
    let s := {| sc_score := dec_of_Z 50; sc_boosts := []; sc_penalties := [] |} in
    let s := score_alignment e m s in
    let s := score_volatility e m s in
    let s := score_htf e m s in
    let s := score_breadth e m s in
    let s := score_rr e m s in
    let s := score_follow_through e m s in
    let s := score_rejections e m s in
    let s := score_density e m s in
    let s := score_bias state m s in
    let s := score_missing e s in
    {| cf_score := cap_confidence state e (bounded_int (sc_score s));
       cf_notes := unique_texts (state_notes state ++ evidence_notes e)%list;
       cf_boosts := unique_texts (sc_boosts s); cf_penalties := unique_texts (sc_penalties s) |}.

(** ** Compatibility *)

(** [_volatility_suitability] *)
Definition volatility_suitability (state : RegimeState) (e : Evidence) : TradeMode -> Z :=
  let profile := e_volatility_profile e in
  if bool_decide (state = HIGH_VOLATILITY) || String.eqb profile "unstable" then by_mode 25 58 32 else
  if bool_decide (state = RANGE_COMPRESSION) || String.eqb profile "compressed" then by_mode 42 60 44 else
  if bool_decide (state = LOW_VOLATILITY) then by_mode 52 62 38 else
  if String.eqb profile "stable_expansion" then by_mode 75 82 68 else by_mode 58 64 56.

(** [_trend_suitability] *)
Definition trend_suitability (state : RegimeState) (e : Evidence) : TradeMode -> Z :=
  let alignment := e_directional_alignment e in
  if match state with TREND_EXPANSION | RISK_ON => str_in alignment ["bullish"; "bearish"] | _ => false end
  then by_mode 78 86 68 else
  if bool_decide (state = TREND_PULLBACK) then by_mode 66 78 62 else
  if String.eqb alignment "mixed" || at_least (e_htf_conflict_pct e) 35 then by_mode 28 48 36 else
  if bool_decide (state = RISK_OFF) then by_mode 38 58 42 else by_mode 54 58 52.

(** one conditional step of [_execution_suitability] *)
Definition shift_modes (b : bool) (challenge swing scalp : Z) (base : TradeMode -> Z) (m : TradeMode) : Z :=
  if b then (base m + by_mode challenge swing scalp m)%Z else base m.

(** [_execution_suitability] *)
Definition execution_suitability (state : RegimeState) (e : Evidence) (m : TradeMode) : Z :=
  let base := by_mode 58 62 56 in
  let base := shift_modes (at_least (e_follow_through_pct e) 55) 12 12 12 base in
  let base := shift_modes (at_least (e_average_rr e) 3) 6 6 6 base in
  let base := shift_modes (at_least (e_failed_confirmation_pct e) 45) (-18) (-10) (-15) base in
  let base := shift_modes (at_least (e_rejection_clustering_pct e) 45) (-18) (-12) (-18) base in
  let base := shift_modes (match state with CHOP | HIGH_VOLATILITY => true | _ => false end) (-12) (-5) (-10) base in
  bounded_int (dec_of_Z (base m)).

(** [_mode_risk_multiplier] *)
Definition mode_risk_multiplier (score : Z) (state : RegimeState) (strictness : RegimeStrictness) : result dec :=
  let value := if (score <=? 30)%Z then mkDec false 35 (-2) else
               if (score <=? 50)%Z then mkDec false 60 (-2) else
               if (score <=? 70)%Z then mkDec false 80 (-2) else dec_of_Z 1 in
  let value := match strictness with
               | StrictHigh => if dltb value (dec_of_Z 1) then dsub value (mkDec false 10 (-2)) else value
               | _ => value
               end in
  let value := if bool_decide (state = HIGH_VOLATILITY) then dmin value (mkDec false 50 (-2)) else value in
  rg_quantize (dmax (dec_of_Z 0) value).

(** [_confidence_adjustment] *)
Definition confidence_adjustment (score : Z) : Z :=
  if (86 <=? score)%Z then 8 else if (71 <=? score)%Z then 4 else if (51 <=? score)%Z then 0 else
  if (31 <=? score)%Z then -6 else -12.

(** [_compatibility_notes] *)
Definition compatibility_notes (mode : TradeMode) (state : RegimeState) (e : Evidence)
    (volatility trend execution : Z) : list string :=
  let note (b : bool) (s : string) := if b then [s] else [] in
  unique_texts
    (note (volatility <=? 45)%Z (mode_value mode +:+ " volatility suitability is weak")
     ++ note (trend <=? 45)%Z (mode_value mode +:+ " trend suitability is weak")
     ++ note (execution <=? 45)%Z (mode_value mode +:+ " execution quality suitability is weak")
     ++ note (match state, mode with CHOP, Challenge => true | _, _ => false end)
          "challenge mode is least compatible with chop"
     ++ note (match state, mode with RANGE_COMPRESSION, Scalp => true | _, _ => false end)
          "range compression reduces scalp follow-through"
     ++ note (match state, mode with TREND_EXPANSION, Swing => true | _, _ => false end)
          "trend expansion favors swing continuation"
     ++ note (String.eqb (e_directional_alignment e) "mixed") "directional inputs are mixed")%list.

(** the weighted score of a mode *)
Definition compatibility_score (base volatility trend execution : Z) : Z :=
  bounded_int
    (dadd (dadd (dadd (dmul (dec_of_Z base) (mkDec false 35 (-2))) (dmul (dec_of_Z volatility) (mkDec false 20 (-2))))
                (dmul (dec_of_Z trend) (mkDec false 25 (-2))))
          (dmul (dec_of_Z execution) (mkDec false 20 (-2)))).

(** the loop body of [score_compatibility] *)
Definition mode_compatibility (state : RegimeState) (e : Evidence) (strictness : RegimeStrictness) (mode : TradeMode)
    : result RegimeCompatibility :=
  let base := state_mode_base state mode in
  let volatility := volatility_suitability state e mode in
  let trend := trend_suitability state e mode in
  let execution := execution_suitability state e mode in
  let score := compatibility_score base volatility trend execution in
  let! multiplier := mode_risk_multiplier score state strictness in
  new_compatibility
    {| rc_mode := mode; rc_score := score; rc_label := compatibility_label score;
       rc_allowed := (strictness_allowed_threshold strictness <=? score)%Z;
       rc_regime_compatibility := base; rc_volatility_suitability := volatility; rc_trend_suitability := trend;
       rc_execution_quality_suitability := execution; rc_risk_multiplier := multiplier;
       rc_confidence_adjustment := confidence_adjustment score;
       rc_notes := compatibility_notes mode state e volatility trend execution |}.

Fixpoint score_modes (state : RegimeState) (e : Evidence) (strictness : RegimeStrictness) (modes : list TradeMode)
    : result (list (TradeMode * RegimeCompatibility)) :=
  match modes with
  | [] => Ok []
  | mode :: rest =>
      let! c := mode_compatibility state e strictness mode in
      let! others := score_modes state e strictness rest in
      Ok ((mode, c) :: others)
  end.

Definition score_compatibility (state : RegimeState) (e : Evidence) (strictness : RegimeStrictness)
    : result (list (TradeMode * RegimeCompatibility)) :=
  score_modes state e strictness MODE_ORDER.

(** ** Adjustment *)

Definition mode_eqb (a b : TradeMode) : bool :=
  match a, b with Challenge, Challenge | Swing, Swing | Scalp, Scalp => true | _, _ => false end.

(** [_allowed] *)
Definition mode_allowed (compatibility : list (TradeMode * RegimeCompatibility)) (mode : TradeMode) : bool :=
  match List.find (fun item => mode_eqb (fst item) mode) compatibility with
  | Some (_, c) => rc_allowed c
  | None => true
  end.

(** [_adjustment_explanation] *)
Definition adjustment_explanation (state : RegimeState) (confidence_score : Z) (notes : list string) : string :=
  let note := match List.find (fun s => negb (String.eqb s "")) notes with Some s => s | None => NA end in
  let note := if String.eqb note NA then "Weighted regime context applied." else note in
  let prefix := match state with
                | HIGH_VOLATILITY => "Panic volatility detected"
                | CHOP => "Choppy regime"
                | RANGE_COMPRESSION => "Compression detected"
                | LOW_VOLATILITY => "Low-volatility drift detected"
                | MIXED => "Mixed BTC/ETH or breadth context"
                | s => regime_value s +:+ " environment"
                end in
  prefix +:+ " is " +:+ band_value (confidence_band confidence_score) +:+ " (" +:+ string_of_Z confidence_score
    +:+ "/100). " +:+ note.

(** [RegimeAdjustment._normalize_decimal] and [_normalize_compatibility_scores] *)
Definition adjustment_decimal (d : dec) : result dec := rg_quantize d.

Definition adjustment_scores (compatibility : list (TradeMode * RegimeCompatibility)) : list (TradeMode * Z) :=
  map (fun item => (fst item, Z.max 0 (Z.min 100 (rc_score (snd item))))) compatibility.

Definition build_adjustment (state : RegimeState) (confidence_score : Z)
    (compatibility : list (TradeMode * RegimeCompatibility)) (notes : list string) : result RegimeAdjustment :=
  let! multiplier := rg_quantize (dec_of_Z 1) in
  let! min_rr := adjustment_decimal (dec_of_Z 0) in
  let! multiplier := adjustment_decimal multiplier in
  Ok {| ra_allow_scalps := mode_allowed compatibility Scalp; ra_allow_swings := mode_allowed compatibility Swing;
        ra_allow_challenge := mode_allowed compatibility Challenge;
        ra_min_quality_score_adjustment := Z.min 30 0; ra_min_rr_adjustment := min_rr;
        ra_risk_multiplier := multiplier; ra_readiness_score_adjustment := 0; ra_edge_score_adjustment := 0;
        ra_trust_score_adjustment := 0; ra_portfolio_confidence_adjustment := 0; ra_regime_penalty := 0;
        ra_compatibility_scores := adjustment_scores compatibility;
        ra_explanation := adjustment_explanation state confidence_score notes |}.

(** an adjustment with the defaults of the model *)
Definition neutral_adjustment (min_rr multiplier : dec) (explanation : string) : RegimeAdjustment :=
  {| ra_allow_scalps := true; ra_allow_swings := true; ra_allow_challenge := true;
     ra_min_quality_score_adjustment := 0; ra_min_rr_adjustment := min_rr; ra_risk_multiplier := multiplier;
     ra_readiness_score_adjustment := 0; ra_edge_score_adjustment := 0; ra_trust_score_adjustment := 0;
     ra_portfolio_confidence_adjustment := 0; ra_regime_penalty := 0; ra_compatibility_scores := [];
     ra_explanation := explanation |}.

Definition default_adjustment : RegimeAdjustment :=
  neutral_adjustment (dec_of_Z 0) (dec_of_Z 1) "Market climate is N/A because required candle data is incomplete.".

Definition disabled_adjustment : result RegimeAdjustment :=
  let! min_rr := adjustment_decimal (dec_of_Z 0) in
  let! multiplier := adjustment_decimal (dec_of_Z 1) in
  Ok (neutral_adjustment min_rr multiplier "Market climate filter disabled.").

(** a result that was not evaluated *)
Definition unevaluated_result (enabled : bool) (score : Z) (adjustment : RegimeAdjustment) (warning note : string)
    : MarketRegimeResult :=
  {| mr_enabled := enabled; mr_state := MIXED; mr_risk_level := RiskNA; mr_confidence_score := score;
     mr_confidence_band := confidence_band score; mr_strictness := StrictNormal; mr_compatibility_scores := [];
     mr_adjustment := adjustment; mr_missing_data := ["market_regime: N/A"]; mr_unverified_data := [];
     mr_warnings := [warning]; mr_environment_notes := [note]; mr_boosts := []; mr_penalties := [] |}.

Definition default_result : MarketRegimeResult :=
  unevaluated_result true 45 default_adjustment "Market climate has not been evaluated."
    "Missing regime context remains cautious/neutral.".

Definition disabled_result : result MarketRegimeResult :=
  let! adjustment := disabled_adjustment in
  Ok (unevaluated_result false 50 adjustment "Market climate filter disabled." "Market climate filter disabled.").
