(* ===== verification/RegimeClassifier.v ===== *)
(** * Market regime: the classifier (src/app/regime/classifier.py)

    Closed BTC and ETH candles give metrics (EMA slope, ATR, realized ranges),
    the metrics and the scan breadth give evidence, and the evidence scores
    each regime state.  A [MaybeDecimal] is an [option dec], [None] for NA.
    The state scores are sums of whole Decimals and are integers here. *)

From stdpp Require Import base tactics list strings.
From Stdlib Require Import ZArith NArith Lia Bool Ascii.
From S2P Require Import Prelude PyString PyDecimal PyTime LifecycleModels CandleIntegrity ShadowDiagnostics DynRecord Regime.
Open Scope string_scope.
Open Scope py_scope.

Definition MIN_REQUIRED_CANDLES : nat := 40.
Definition RECENT_RANGE_WINDOW : nat := 20.
Definition BASELINE_RANGE_WINDOW : nat := 60.
Definition ATR_WINDOW : nat := 14.
Definition EMA_FAST_PERIOD : Z := 21.
Definition EMA_SLOW_PERIOD : Z := 50.

(** ** Input *)

Record MarketRegimeInput := {
  ri_btc_candles : list candle;
  ri_eth_candles : list candle;
  ri_total_proxy_candles : list candle;
  ri_total2_proxy_candles : list candle;
  ri_btc_d_context : string;
  ri_usdt_d_context : string;
  ri_scanned_symbols : Z;
  ri_bullish_bias_pct : option dec;
  ri_bearish_bias_pct : option dec;
  ri_valid_sweep_pct : option dec;
  ri_confirmation_pct : option dec;
  ri_failed_confirmation_pct : option dec;
  ri_volatility_expansion_vs_average : option dec;
  ri_htf_agreement_pct : option dec;
  ri_htf_conflict_pct : option dec;
  ri_average_rr : option dec;
  ri_setup_density_pct : option dec;
  ri_rejection_clustering_pct : option dec;
  ri_broad_participation_pct : option dec;
  ri_strictness : RegimeStrictness;
  ri_candle_timeframe : string;
  ri_decision_timestamp : option datetime;
  ri_missing_data : list string;
  ri_unverified_data : list string
}.

#[export] Instance eta_MarketRegimeInput : RecordEta MarketRegimeInput :=
  fun r => Build_MarketRegimeInput (ri_btc_candles r) (ri_eth_candles r) (ri_total_proxy_candles r)
    (ri_total2_proxy_candles r) (ri_btc_d_context r) (ri_usdt_d_context r) (ri_scanned_symbols r)
    (ri_bullish_bias_pct r) (ri_bearish_bias_pct r) (ri_valid_sweep_pct r) (ri_confirmation_pct r)
    (ri_failed_confirmation_pct r) (ri_volatility_expansion_vs_average r) (ri_htf_agreement_pct r)
    (ri_htf_conflict_pct r) (ri_average_rr r) (ri_setup_density_pct r) (ri_rejection_clustering_pct r)
    (ri_broad_participation_pct r) (ri_strictness r) (ri_candle_timeframe r) (ri_decision_timestamp r)
    (ri_missing_data r) (ri_unverified_data r).

(** [MarketRegimeInput.model_validate(raw)] as [_normalize_input] calls it: the
    numbers and the strictness of the mapping [raw]; the other fields are
    those of [typed], whose texts are normalised. *)
Definition normalize_input (typed : MarketRegimeInput) (raw : list (string * pyobj)) : result MarketRegimeInput :=
  let number name := normalize_maybe_decimal (default PyNone (assoc name raw)) in
  let risk_mode := assoc "risk_mode" raw in
  let! _ := match risk_mode with
            | None => Ok tt
            | Some (PyStr s) => if str_in s ["conservative"; "balanced"; "aggressive"] then Ok tt
                                else Raise (ValueError "Input should be 'conservative', 'balanced' or 'aggressive'")
            | Some _ => Raise (ValueError "Input should be 'conservative', 'balanced' or 'aggressive'")
            end in
  let! strictness := normalize_strictness (match assoc "strictness" raw with
                                           | Some v => v
                                           | None => default PyNone risk_mode
                                           end) in
  let! bullish := number "bullish_bias_pct" in
  let! bearish := number "bearish_bias_pct" in
  let! sweeps := number "valid_sweep_pct" in
  let! confirmation := number "confirmation_pct" in
  let! failed := number "failed_confirmation_pct" in
  let! volatility := number "volatility_expansion_vs_average" in
  let! agreement := number "htf_agreement_pct" in
  let! conflict := number "htf_conflict_pct" in
  let! rr := number "average_rr" in
  let! density := number "setup_density_pct" in
  let! clustering := number "rejection_clustering_pct" in
  let! broad := number "broad_participation_pct" in
  Ok {| ri_btc_candles := ri_btc_candles typed; ri_eth_candles := ri_eth_candles typed;
        ri_total_proxy_candles := ri_total_proxy_candles typed;
        ri_total2_proxy_candles := ri_total2_proxy_candles typed;
        ri_btc_d_context := rg_display (ri_btc_d_context typed);
        ri_usdt_d_context := rg_display (ri_usdt_d_context typed);
        ri_scanned_symbols := ri_scanned_symbols typed; ri_bullish_bias_pct := bullish;
        ri_bearish_bias_pct := bearish; ri_valid_sweep_pct := sweeps; ri_confirmation_pct := confirmation;
        ri_failed_confirmation_pct := failed; ri_volatility_expansion_vs_average := volatility;
        ri_htf_agreement_pct := agreement; ri_htf_conflict_pct := conflict; ri_average_rr := rr;
        ri_setup_density_pct := density; ri_rejection_clustering_pct := clustering;
        ri_broad_participation_pct := broad; ri_strictness := strictness;
        ri_candle_timeframe := ri_candle_timeframe typed; ri_decision_timestamp := ri_decision_timestamp typed;
        ri_missing_data := sequence_values (ri_missing_data typed);
        ri_unverified_data := sequence_values (ri_unverified_data typed) |}.

(** ** Numbers *)

Definition q2 (n : Z) : dec := mkDec (n <? 0)%Z (Z.abs_N n) (-2).

(** [_decimal_from]: [None] is [ValueError], which every caller catches *)
Definition cl_decimal_from (v : cval) : option dec :=
  match v with
  | CVal (PyBool _) => None
  | _ => match parse_decimal (cval_text v) with Some (Finite d) => Some d | _ => None end
  end.

(** [_decimal_or_zero] of a [MaybeDecimal] *)
Definition decimal_or_zero (v : option dec) : dec := default (dec_of_Z 0) v.

(** [_quantize] *)
Definition cl_quantize (d : dec) : result dec := dquantize d (-8).

(** [_average] *)
Definition average (values : list dec) : result (option dec) :=
  match values with
  | [] => Ok None
  | _ =>
      let! mean := ddiv (fold_left dadd values (dec_of_Z 0)) (dec_of_Z (Z.of_nat (length values))) in
      let! q := cl_quantize mean in
      Ok (Some q)
  end.

(** [_ratio_or_na] *)
Definition ratio_or_na (numerator denominator : option dec) : result (option dec) :=
  match numerator, denominator with
  | Some n, Some d =>
      if deqb d (dec_of_Z 0) then Ok None else
      let! r := ddiv n d in
      let! q := cl_quantize r in
      Ok (Some q)
  | _, _ => Ok None
  end.

(** [_first_decimal] of two values *)
Definition first_decimal (value : option dec) (derived : dec) : dec := default derived value.

(** [_max_decimal] *)
Definition max_decimal (values : list (option dec)) : dec :=
  match omap id values with
  | [] => dec_of_Z 0
  | d :: rest => fold_left dmax rest d
  end.

(** ** Candles *)

Record RegimeCandle := { rk_open : dec; rk_high : dec; rk_low : dec; rk_close : dec }.

(** [_causal_regime_candles] *)
Definition causal_regime_candles (symbol : string) (candles : list candle) (timeframe : string) (decision : datetime)
    : result (list candle * list string) :=
  match candles with
  | [] => Ok ([], [])
  | _ =>
      match closed_candles_as_of candles timeframe (CDatetime decision) 0 true false true with
      | Ok window => Ok (cw_candles window, [])
      | Raise (IntegrityError _ msg) => Ok ([], [symbol +:+ "_candles: N/A (" +:+ msg +:+ ")"])
      | Raise e => Raise e
      end
  end.

(** the loop body of [_normalized_candles]: [Ok None] returns no candles *)
Definition normalized_candle (item : candle) : result (option RegimeCandle) :=
  match cl_decimal_from (field item "open"), cl_decimal_from (field item "high"),
        cl_decimal_from (field item "low"), cl_decimal_from (field item "close") with
  | Some open, Some high, Some low, Some close =>
      if dleb low (dec_of_Z 0) || dltb high low || negb (dleb low open && dleb open high)
         || negb (dleb low close && dleb close high) then Ok None else
      let raw_volume := field item "volume" in
      let volume_ok := if is_missing raw_volume then true else
        match cl_decimal_from raw_volume with Some v => negb (dltb v (dec_of_Z 0)) | None => false end in
      if negb volume_ok then Ok None else
      let checked :=
        let! _ := normalize_optional_timestamp_ms (field item "timestamp") "candle.timestamp" in
        validate_optional_candle_metadata item "candle" in
      match checked with
      | Ok _ => Ok (Some {| rk_open := open; rk_high := high; rk_low := low; rk_close := close |})
      | Raise e => match value_error_text e with Some _ => Ok None | None => Raise e end
      end
  | _, _, _, _ => Ok None
  end.

(** the loop of [_normalized_candles]: [Ok None] is its early [return ()] *)
Fixpoint normalize_from (raw : list candle) : result (option (list RegimeCandle)) :=
  match raw with
  | [] => Ok (Some [])
  | item :: rest =>
      let! candle := normalized_candle item in
      match candle with
      | None => Ok None
      | Some c => let! others := normalize_from rest in Ok (option_map (cons c) others)
      end
  end.

Definition normalized_candles (raw : list candle) : result (list RegimeCandle) :=
  map_result (default []) (normalize_from raw).

(** [_true_ranges] *)
Fixpoint true_ranges_from (previous_close : dec) (candles : list RegimeCandle) : list dec :=
  match candles with
  | [] => []
  | c :: rest =>
      dmax (dmax (dmax (dsub (rk_high c) (rk_low c)) (dabs (dsub (rk_high c) previous_close)))
                 (dabs (dsub (rk_low c) previous_close))) (dec_of_Z 0)
      :: true_ranges_from (rk_close c) rest
  end.

Definition true_ranges (candles : list RegimeCandle) : list dec :=
  match candles with
  | [] => []
  | c :: rest => dmax (dsub (rk_high c) (rk_low c)) (dec_of_Z 0) :: true_ranges_from (rk_close c) rest
  end.

(** [values[-n:]] and [values[:-n]] for a positive [n] *)
Definition last_n {A} (n : nat) (l : list A) : list A := drop (length l - n) l.
Definition but_last_n {A} (n : nat) (l : list A) : list A := take (length l - n) l.

(** [_recent_range_pct] *)
Definition recent_range_pct (candles : list RegimeCandle) (latest_close : dec) : result (option dec) :=
  match candles with
  | [] => Ok None
  | c :: rest =>
      if deqb latest_close (dec_of_Z 0) then Ok None else
      let high := fold_left dmax (map rk_high rest) (rk_high c) in
      let low := fold_left dmin (map rk_low rest) (rk_low c) in
      let! share := ddiv (dsub high low) (dabs latest_close) in
      let! q := cl_quantize (dmul share (dec_of_Z 100)) in
      Ok (Some q)
  end.

(** [range(0, len(baseline) - 20 + 1, 10)] *)
Definition window_starts (len : nat) : list nat :=
  map (fun k => 10 * k)%nat (seq 0 ((len + 1 - RECENT_RANGE_WINDOW + 9) / 10)).

Fixpoint window_ranges (baseline : list RegimeCandle) (latest_close : dec) (starts : list nat) : result (list dec) :=
  match starts with
  | [] => Ok []
  | index :: rest =>
      let! value := recent_range_pct (take RECENT_RANGE_WINDOW (drop index baseline)) latest_close in
      let! others := window_ranges baseline latest_close rest in
      Ok (match value with Some v => v :: others | None => others end)
  end.

(** [_baseline_range_pct] *)
Definition baseline_range_pct (candles : list RegimeCandle) (latest_close : dec) : result (option dec) :=
  if (length candles <=? RECENT_RANGE_WINDOW)%nat || deqb latest_close (dec_of_Z 0) then Ok None else
  let baseline := but_last_n RECENT_RANGE_WINDOW candles in
  let recent := drop (length candles - (BASELINE_RANGE_WINDOW + RECENT_RANGE_WINDOW)) baseline in
  let baseline := if (length recent <? RECENT_RANGE_WINDOW)%nat then baseline else recent in
  let! windows := window_ranges baseline latest_close (window_starts (length baseline)) in
  average windows.

(** [_ema_series] *)
Fixpoint ema_from (multiplier ema : dec) (values : list dec) : list dec :=
  match values with
  | [] => []
  | value :: rest =>
      let ema := dadd (dmul (dsub value ema) multiplier) ema in
      ema :: ema_from multiplier ema rest
  end.

Definition ema_series (values : list dec) (period : Z) : result (list dec) :=
  match values with
  | [] => Ok []
  | v :: rest => let! multiplier := ddiv (dec_of_Z 2) (dec_of_Z (period + 1)) in Ok (v :: ema_from multiplier v rest)
  end.

(** ** Metrics *)

Inductive Direction : Type := Bullish | Bearish | Neutral.

Record MarketMetrics := {
  mm_symbol : string;
  mm_candle_count : nat;
  mm_latest_close : option dec;
  mm_ema_slope_pct : option dec;
  mm_trend_direction : Direction;
  mm_drift_direction : Direction;
  mm_atr_pct : option dec;
  mm_atr_vs_average : option dec;
  mm_realized_range_pct : option dec;
  mm_range_vs_average : option dec;
  mm_missing_data : list string
}.

(** [_trend_direction] *)
Definition trend_direction (close ema_fast ema_slow : dec) (ema_slope_pct : option dec) : Direction :=
  let slope := decimal_or_zero ema_slope_pct in
  if dltb ema_slow close && dltb ema_slow ema_fast && dleb (q2 12) slope then Bullish else
  if dltb close ema_slow && dltb ema_fast ema_slow && dleb slope (q2 (-12)) then Bearish else Neutral.

(** [_drift_direction] *)
Definition drift_direction (close ema_slow : dec) (ema_slope_pct : option dec) : Direction :=
  let slope := decimal_or_zero ema_slope_pct in
  if dleb ema_slow close && dleb (q2 3) slope then Bullish else
  if dleb close ema_slow && dleb slope (q2 (-3)) then Bearish else Neutral.

(** [_quantize(value / abs(latest_close) * 100)], NA for a zero close *)
Definition percent_of_close (value latest_close : dec) : result (option dec) :=
  if deqb latest_close (dec_of_Z 0) then Ok None else
  let! share := ddiv value (dabs latest_close) in
  let! q := cl_quantize (dmul share (dec_of_Z 100)) in
  Ok (Some q).

(** [_average(...) or _average(...)]: a zero average is falsy *)
Definition baseline_atr_of (ranges : list dec) : result (option dec) :=
  let! recent := average (drop (length ranges - BASELINE_RANGE_WINDOW) (but_last_n ATR_WINDOW ranges)) in
  match recent with
  | Some d => if dtruth d then Ok (Some d) else average (but_last_n ATR_WINDOW ranges)
  | None => Ok None
  end.

(** [recent_atr / ...] of a text raises *)
Definition number_of (v : option dec) : result dec :=
  match v with
  | Some d => Ok d
  | None => Raise (TypeError "unsupported operand type(s) for /: 'str' and 'decimal.Decimal'")
  end.

(** [values[-1]] of a list that is not empty *)
Definition last_value (l : list dec) : dec := List.last l (dec_of_Z 0).

Definition incomplete_metrics (symbol : string) (count : nat) : MarketMetrics :=
  {| mm_symbol := symbol; mm_candle_count := count; mm_latest_close := None; mm_ema_slope_pct := None;
     mm_trend_direction := Neutral; mm_drift_direction := Neutral; mm_atr_pct := None; mm_atr_vs_average := None;
     mm_realized_range_pct := None; mm_range_vs_average := None; mm_missing_data := [symbol +:+ "_candles: N/A"] |}.

(** [_market_metrics] *)
Definition market_metrics (symbol : string) (raw_candles : list candle) : result MarketMetrics :=
  let! candles := normalized_candles raw_candles in
  if (length candles <? MIN_REQUIRED_CANDLES)%nat then Ok (incomplete_metrics symbol (length candles)) else
  let closes := map rk_close candles in
  let ranges := true_ranges candles in
  let latest_close := last_value closes in
  let! recent_atr := average (last_n ATR_WINDOW ranges) in
  let! baseline_atr := baseline_atr_of ranges in
  let! recent_range := recent_range_pct (last_n RECENT_RANGE_WINDOW candles) latest_close in
  let! baseline_range := baseline_range_pct candles latest_close in
  let! ema_fast := ema_series closes EMA_FAST_PERIOD in
  let! ema_slow := ema_series closes EMA_SLOW_PERIOD in
  let anchor := nth (length ema_fast - 11) ema_fast (dec_of_Z 0) in
  let! slope := percent_of_close (dsub (last_value ema_fast) anchor) latest_close in
  let! atr_pct := if deqb latest_close (dec_of_Z 0) then Ok None
                  else let! atr := number_of recent_atr in percent_of_close atr latest_close in
  let! close := cl_quantize latest_close in
  let! atr_ratio := ratio_or_na recent_atr baseline_atr in
  let! range_ratio := ratio_or_na recent_range baseline_range in
  Ok {| mm_symbol := symbol; mm_candle_count := length candles; mm_latest_close := Some close;
        mm_ema_slope_pct := slope;
        mm_trend_direction := trend_direction latest_close (last_value ema_fast) (last_value ema_slow) slope;
        mm_drift_direction := drift_direction latest_close (last_value ema_slow) slope;
        mm_atr_pct := atr_pct; mm_atr_vs_average := atr_ratio; mm_realized_range_pct := recent_range;
        mm_range_vs_average := range_ratio; mm_missing_data := [] |}.

(** ** Evidence *)

Definition direction_text (d : Direction) : string :=
  match d with Bullish => "bullish" | Bearish => "bearish" | Neutral => "neutral" end.

(** [_market_alignment] and [_market_drift_alignment] of the two directions *)
Definition alignment_of (btc eth : Direction) : string :=
  match btc, eth with
  | Bullish, Bullish => "bullish"
  | Bearish, Bearish => "bearish"
  | Bullish, Bearish | Bearish, Bullish => "mixed"
  | _, _ => "neutral"
  end.

Definition market_alignment (btc eth : MarketMetrics) : string :=
  alignment_of (mm_trend_direction btc) (mm_trend_direction eth).

Definition market_drift_alignment (btc eth : MarketMetrics) : string :=
  alignment_of (mm_drift_direction btc) (mm_drift_direction eth).

(** [_volatility_profile] *)
Definition volatility_profile (volatility_ratio atr_pct range_pct : dec) : string :=
  if dleb (mkDec false 20 (-1)) volatility_ratio || (dleb (q2 165) volatility_ratio && at_least range_pct 7)
  then "unstable" else
  if dleb volatility_ratio (q2 70) && dleb atr_pct (q2 135) && dleb range_pct (q2 425) then "compressed" else
  if dleb (q2 80) volatility_ratio && dleb volatility_ratio (q2 185) then "stable_expansion" else
  if dltb volatility_ratio (q2 95) then "low" else "neutral".

(** [_breadth_state] *)
Definition breadth_state (data : MarketRegimeInput) : string * dec :=
  let bullish := decimal_or_zero (ri_bullish_bias_pct data) in
  let bearish := decimal_or_zero (ri_bearish_bias_pct data) in
  let broad := decimal_or_zero (ri_broad_participation_pct data) in
  if dltb (dec_of_Z 0) broad then ("broad", broad) else
  if at_least bullish 55 && at_least (dsub bullish bearish) 15 then ("bullish", bullish) else
  if at_least bearish 55 && at_least (dsub bearish bullish) 15 then ("bearish", bearish) else
  if at_least bullish 30 && at_least bearish 30 && dleb (dabs (dsub bullish bearish)) (dec_of_Z 20)
  then ("mixed", dmax bullish bearish) else (NA, dec_of_Z 0).

(** [alignment in ("bullish", "bearish")] *)
Definition directional (alignment : string) : bool := str_in alignment ["bullish"; "bearish"].

(** [_derived_htf_agreement] *)
Definition derived_htf_agreement (alignment breadth_side : string) : dec :=
  if directional alignment && str_in breadth_side [alignment; NA; "broad"] then dec_of_Z 60 else
  if directional alignment then dec_of_Z 45 else dec_of_Z 0.

(** [_derived_htf_conflict] *)
Definition derived_htf_conflict (alignment breadth_side : string) : dec :=
  if String.eqb alignment "mixed" then dec_of_Z 60 else
  if directional alignment && negb (str_in breadth_side [alignment; NA; "broad"]) then dec_of_Z 45 else dec_of_Z 0.

(** the optional values that display as NA *)
Definition missing_optional (data : MarketRegimeInput) : Z :=
  let count (b : bool) : Z := if b then 1%Z else 0%Z in
  let absent (v : option dec) : bool := match v with None => true | Some _ => false end in
  (count (String.eqb (rg_display (ri_btc_d_context data)) NA) + count (String.eqb (rg_display (ri_usdt_d_context data)) NA)
   + count (absent (ri_average_rr data)) + count (absent (ri_setup_density_pct data))
   + count (absent (ri_rejection_clustering_pct data)))%Z.

(** [_evidence] *)
Definition evidence (data : MarketRegimeInput) (btc eth : MarketMetrics) : Evidence :=
  let volatility_ratio := max_decimal [mm_range_vs_average btc; mm_range_vs_average eth; mm_atr_vs_average btc;
                                       mm_atr_vs_average eth; ri_volatility_expansion_vs_average data] in
  let range_pct := max_decimal [mm_realized_range_pct btc; mm_realized_range_pct eth] in
  let atr_pct := max_decimal [mm_atr_pct btc; mm_atr_pct eth] in
  let alignment := market_alignment btc eth in
  let breadth := breadth_state data in
  let confirmation := decimal_or_zero (ri_confirmation_pct data) in
  let failed_confirmation := decimal_or_zero (ri_failed_confirmation_pct data) in
  let setup_density := decimal_or_zero (ri_setup_density_pct data) in
  let rejection_clustering := decimal_or_zero (ri_rejection_clustering_pct data) in
  {| e_volatility_ratio := volatility_ratio; e_range_pct := range_pct; e_atr_pct := atr_pct;
     e_volatility_profile := volatility_profile volatility_ratio atr_pct range_pct;
     e_directional_alignment := alignment; e_drift_alignment := market_drift_alignment btc eth;
     e_breadth_side := fst breadth; e_breadth_strength_pct := snd breadth;
     e_valid_sweep_pct := decimal_or_zero (ri_valid_sweep_pct data);
     e_follow_through_pct := confirmation; e_failed_confirmation_pct := failed_confirmation;
     e_htf_agreement_pct := first_decimal (ri_htf_agreement_pct data) (derived_htf_agreement alignment (fst breadth));
     e_htf_conflict_pct := first_decimal (ri_htf_conflict_pct data) (derived_htf_conflict alignment (fst breadth));
     e_average_rr := decimal_or_zero (ri_average_rr data);
     e_setup_density_pct :=
       if deqb setup_density (dec_of_Z 0) && (0 <? ri_scanned_symbols data)%Z then confirmation else setup_density;
     e_rejection_clustering_pct :=
       if deqb rejection_clustering (dec_of_Z 0) && dltb (dec_of_Z 0) failed_confirmation
       then failed_confirmation else rejection_clustering;
     e_btc_d_context := ri_btc_d_context data; e_usdt_d_context := ri_usdt_d_context data;
     e_missing_optional_count := missing_optional data |}.

(** ** Classification *)

Definition all_regimes : list RegimeState :=
  [TREND_EXPANSION; TREND_PULLBACK; RANGE_COMPRESSION; HIGH_VOLATILITY; LOW_VOLATILITY; CHOP; RISK_OFF; RISK_ON;
   MIXED; TRANSITION].

(** [scores[state] += points] under a condition *)
Definition award (b : bool) (points : list (RegimeState * Z)) : list (RegimeState * Z) := if b then points else [].

(** the increments of [_classify_state], in the order of the code *)
Definition awards (e : Evidence) : list (RegimeState * Z) :=
  let v := e_volatility_ratio e in
  let alignment := e_directional_alignment e in
  let drifting := directional (e_drift_alignment e) in
  let trend (b : bool) := award (directional alignment && b) in
  (award (dleb (q2 225) v || (dleb (q2 190) v && at_least (e_range_pct e) 7)) [(HIGH_VOLATILITY, 80)]
   ++ award (dleb v (q2 65) && dleb (e_atr_pct e) (q2 125) && dleb (e_range_pct e) (dec_of_Z 4)) [(RANGE_COMPRESSION, 78)]
   ++ trend true [(TREND_EXPANSION, 35); (TREND_PULLBACK, 24)]
   ++ trend (at_least (e_htf_agreement_pct e) 60) [(TREND_EXPANSION, 20)]
   ++ trend (dleb (q2 75) v && dleb v (q2 185)) [(TREND_EXPANSION, 18)]
   ++ trend (at_least (e_follow_through_pct e) 50) [(TREND_EXPANSION, 12)]
   ++ trend (at_least (e_average_rr e) 3) [(TREND_EXPANSION, 8)]
   ++ trend (at_least (e_valid_sweep_pct e) 20 && dltb (e_follow_through_pct e) (dec_of_Z 55)) [(TREND_PULLBACK, 18)]
   ++ trend (dleb v (q2 110)) [(TREND_PULLBACK, 10)]
   ++ award (String.eqb alignment "bullish" && String.eqb (e_breadth_side e) "bullish"
             && at_least (e_breadth_strength_pct e) 60) [(RISK_ON, 58)]
   ++ award (String.eqb alignment "bearish" && String.eqb (e_breadth_side e) "bearish"
             && at_least (e_breadth_strength_pct e) 60) [(RISK_OFF, 58)]
   ++ award (String.eqb alignment "mixed" || at_least (e_htf_conflict_pct e) 35) [(CHOP, 42); (MIXED, 20)]
   ++ award (at_least (e_valid_sweep_pct e) 20
             && (at_least (e_failed_confirmation_pct e) 45 || dleb (e_follow_through_pct e) (dec_of_Z 35))) [(CHOP, 35)]
   ++ award (at_least (e_rejection_clustering_pct e) 45) [(CHOP, 20)]
   ++ award (String.eqb (e_breadth_side e) "mixed") [(CHOP, 20); (MIXED, 18)]
   ++ award (dleb v (q2 90) && drifting) [(LOW_VOLATILITY, 45)]
   ++ award (String.eqb alignment "neutral" && drifting) [(TRANSITION, 35)]
   ++ award (dltb (dec_of_Z 20) (e_htf_conflict_pct e) && dltb (dec_of_Z 20) (e_htf_agreement_pct e)) [(TRANSITION, 25)]
   ++ [(MIXED, 10)])%list%Z.

(** [scores[state]] *)
Definition points_of (state : RegimeState) (l : list (RegimeState * Z)) : Z :=
  fold_right (fun item acc => if bool_decide (fst item = state) then snd item + acc else acc)%Z 0%Z l.

Definition regime_scores (e : Evidence) : list (RegimeState * Z) :=
  map (fun s => (s, points_of s (awards e))) all_regimes.

(** [sorted(scores.items(), key=score, reverse=True)], which is stable *)
Fixpoint insert_score (x : RegimeState * Z) (l : list (RegimeState * Z)) : list (RegimeState * Z) :=
  match l with
  | [] => [x]
  | y :: rest => if (snd x <? snd y)%Z then y :: insert_score x rest else x :: l
  end.

Definition sorted_scores (l : list (RegimeState * Z)) : list (RegimeState * Z) := fold_right insert_score [] l.

(** [_classify_state] *)
Definition classify_state (e : Evidence) : RegimeState :=
  match sorted_scores (regime_scores e) with
  | [] => MIXED
  | (top_state, top_score) :: rest =>
      let runner_up_score := match rest with (_, s) :: _ => s | [] => 0%Z end in
      if (top_score <? 35)%Z then MIXED else
      if bool_decide (top_state = RISK_ON) && (70 <=? points_of TREND_EXPANSION (awards e))%Z then TREND_EXPANSION else
      if bool_decide (top_state = RISK_OFF) && dleb (q2 170) (e_volatility_ratio e) then RISK_OFF else
      if (top_score - runner_up_score <=? 8)%Z
         && negb (match top_state with HIGH_VOLATILITY | RANGE_COMPRESSION | CHOP => true | _ => false end)
      then TRANSITION else top_state
  end.

(** ** The result *)

(** [_warnings_for_state] *)
Definition warnings_for_state (state : RegimeState) (risk_level : RegimeRiskLevel) (explanation : string)
    (required_data_missing : bool) : list string :=
  if required_data_missing
  then ["Required BTC/ETH candle data is incomplete; market climate is cautious/neutral."] else
  match risk_level with
  | RiskHigh | RiskExtreme =>
      [regime_value state +:+ " regime risk is " +:+ risk_value risk_level +:+ ": " +:+ explanation]
  | _ => match state with RANGE_COMPRESSION | MIXED | LOW_VOLATILITY | TRANSITION => [explanation] | _ => [] end
  end.

(** [_proxy_missing_data] *)
Definition proxy_missing_data (data : MarketRegimeInput) : list string :=
  let absent {A} (l : list A) (s : string) := match l with [] => [s] | _ => [] end in
  (absent (ri_total_proxy_candles data) "TOTAL_proxy: N/A" ++ absent (ri_total2_proxy_candles data) "TOTAL2_proxy: N/A"
   ++ (if String.eqb (ri_btc_d_context data) NA then ["BTC.D_context: N/A"] else [])
   ++ (if String.eqb (ri_usdt_d_context data) NA then ["USDT.D_context: N/A"] else []))%list.

(** [MarketRegimeResult(...)] *)
Definition new_regime_result (r : MarketRegimeResult) : result MarketRegimeResult :=
  let! _ := percent_field (mr_confidence_score r) in
  Ok {| mr_enabled := mr_enabled r; mr_state := mr_state r; mr_risk_level := mr_risk_level r;
        mr_confidence_score := mr_confidence_score r; mr_confidence_band := mr_confidence_band r;
        mr_strictness := mr_strictness r; mr_compatibility_scores := mr_compatibility_scores r;
        mr_adjustment := mr_adjustment r; mr_missing_data := sequence_values (mr_missing_data r);
        mr_unverified_data := sequence_values (mr_unverified_data r); mr_warnings := sequence_values (mr_warnings r);
        mr_environment_notes := sequence_values (mr_environment_notes r); mr_boosts := sequence_values (mr_boosts r);
        mr_penalties := sequence_values (mr_penalties r) |}.

(** what [evaluate_market_regime] does with the causal candles *)
Definition regime_of_candles (data : MarketRegimeInput) (btc_causal eth_causal : list candle * list string)
    : result MarketRegimeResult :=
  let! btc := market_metrics "BTCUSDT" (fst btc_causal) in
  let! eth := market_metrics "ETHUSDT" (fst eth_causal) in
  let missing_data := sequence_values (ri_missing_data data ++ snd btc_causal ++ snd eth_causal
                        ++ mm_missing_data btc ++ mm_missing_data eth ++ proxy_missing_data data)%list in
  let required_data_missing := match (mm_missing_data btc ++ mm_missing_data eth)%list with [] => false | _ => true end in
  let e := evidence data btc eth in
  let state := if required_data_missing then MIXED else classify_state e in
  let confidence := score_confidence state e (ri_strictness data) required_data_missing in
  let! compatibility := score_compatibility state e (ri_strictness data) in
  let! adjustment := build_adjustment state (cf_score confidence) compatibility (cf_notes confidence) in
  let risk_level := risk_level_for_state state required_data_missing in
  new_regime_result
    {| mr_enabled := true; mr_state := state; mr_risk_level := risk_level; mr_confidence_score := cf_score confidence;
       mr_confidence_band := confidence_band (cf_score confidence); mr_strictness := ri_strictness data;
       mr_compatibility_scores := compatibility; mr_adjustment := adjustment; mr_missing_data := missing_data;
       mr_unverified_data := ri_unverified_data data;
       mr_warnings := warnings_for_state state risk_level (ra_explanation adjustment) required_data_missing;
       mr_environment_notes := cf_notes confidence; mr_boosts := cf_boosts confidence;
       mr_penalties := cf_penalties confidence |}.

(** [evaluate_market_regime] of a model at the clock [now] *)
Definition evaluate_market_regime (data : MarketRegimeInput) (now : datetime) : result MarketRegimeResult :=
  let decision := default now (ri_decision_timestamp data) in
  let! btc := causal_regime_candles "BTCUSDT" (ri_btc_candles data) (ri_candle_timeframe data) decision in
  let! eth := causal_regime_candles "ETHUSDT" (ri_eth_candles data) (ri_candle_timeframe data) decision in
  regime_of_candles data btc eth.
