(* ===== verification/RegimeProps.v ===== *)
(** * Properties of the market regime

    Scores stay in range and under their caps, the adjustment never touches
    risk or risk/reward, extreme volatility is never classified as benign, and
    candles that have not closed do not count. *)

From stdpp Require Import base tactics list strings.
From Stdlib Require Import ZArith NArith QArith Lia ZifyN ZifyNat ZifyBool Bool Ascii.
From S2P Require Import Prelude PyString PyDecimal DecimalFacts PyTime LifecycleModels CandleIntegrity CandleProps DynRecord Regime RegimeClassifier.
Open Scope string_scope.
Open Scope py_scope.

(** ** Scores in range *)

Lemma dltb_scaled a b : dltb a b = true ->
  (scaled a (Z.min (d_exp a) (d_exp b)) < scaled b (Z.min (d_exp a) (d_exp b)))%Z.
Proof.
  unfold dltb, dcmp. intros H.
  by destruct (Z.compare_spec (scaled a (Z.min (d_exp a) (d_exp b))) (scaled b (Z.min (d_exp a) (d_exp b)))).
Qed.

(** a Decimal between 0 and 100 has a rounded value between them *)
Lemma round_half_up_range d :
  dltb (dec_of_Z 0) d = true -> dltb d (dec_of_Z 100) = true -> (0 <= round_half_up d <= 100)%Z.
Proof.
  intros Hlo%dltb_scaled Hhi%dltb_scaled. destruct d as [neg c e].
  unfold round_half_up, scaled, d_sc, dec_of_Z in *. cbn [d_exp d_neg d_coef] in *.
  change (if (0 <? 0)%Z then _ else _) with 0%Z in Hlo. change (if (100 <? 0)%Z then _ else _) with 100%Z in Hhi.
  rewrite (Z.min_comm 0 e) in Hlo. destruct (Z.leb_spec 0 e) as [He|He].
  - assert (Z.min e 0 = 0)%Z as Hm by (clear - He; lia). rewrite Hm, ?Z.sub_0_r, Z.pow_0_r in Hlo, Hhi. revert Hlo Hhi. generalize ((if neg then - Z.of_N c else Z.of_N c) * 10 ^ e)%Z. lia.
  - assert (Z.min e 0 = e) as Hm by (clear - He; lia). rewrite Hm, Z.sub_diag, Z.pow_0_r in Hlo, Hhi. change (0 - e)%Z with (- e)%Z in *.
    assert (0 < 10 ^ (- e))%Z as Hp by (apply Z.pow_pos_nonneg; lia).
    set (p := (10 ^ (- e))%Z) in *. clearbody p. destruct neg; [lia|].
    split; [apply Z.div_pos; lia|]. apply Z.lt_succ_r, Z.div_lt_upper_bound; lia.
Qed.

Lemma bounded_int_range d : (0 <= bounded_int d <= 100)%Z.
Proof.
  unfold bounded_int, dmax, dmin. destruct (dltb d (dec_of_Z 100)) eqn:Eh; [|by vm_compute].
  destruct (dltb (dec_of_Z 0) d) eqn:El; [by apply round_half_up_range|by vm_compute].
Qed.

Lemma cap_confidence_range state e score : (0 <= score <= 100)%Z ->
  (0 <= cap_confidence state e score <= 100)%Z.
Proof. unfold cap_confidence. intros. repeat case_match; lia. Qed.

(** the most a regime state can be trusted *)
Definition confidence_cap (state : RegimeState) (missing_optional : Z) : Z :=
  let cap := if (missing_optional =? 0)%Z then 100%Z else 70%Z in
  match state with
  | CHOP | HIGH_VOLATILITY => 50
  | RANGE_COMPRESSION => Z.min 68 cap
  | _ => cap
  end.

Lemma cap_confidence_cap state e score : (0 <= score <= 100)%Z ->
  (cap_confidence state e score <= confidence_cap state (e_missing_optional_count e))%Z.
Proof. unfold cap_confidence, confidence_cap. intros. destruct state; repeat case_match; lia. Qed.

Lemma score_confidence_range state e strictness missing :
  (0 <= cf_score (score_confidence state e strictness missing) <= 100)%Z.
Proof. destruct missing; [by cbn|]. apply cap_confidence_range, bounded_int_range. Qed.

Lemma percent_field_ok z : (0 <= z <= 100)%Z -> percent_field z = Ok z.
Proof. intros. unfold percent_field. by rewrite (proj2 (Z.leb_le _ _)), (proj2 (Z.leb_le _ _)) by lia. Qed.

(** ** Compatibility *)

Lemma by_mode_range a b c m : (0 <= a <= 100)%Z -> (0 <= b <= 100)%Z -> (0 <= c <= 100)%Z ->
  (0 <= by_mode a b c m <= 100)%Z.
Proof. by destruct m. Qed.

Lemma state_mode_base_range s m : (0 <= state_mode_base s m <= 100)%Z.
Proof. destruct s; apply by_mode_range; lia. Qed.

Lemma volatility_suitability_range s e m : (0 <= volatility_suitability s e m <= 100)%Z.
Proof. unfold volatility_suitability. repeat case_match; apply by_mode_range; lia. Qed.

Lemma trend_suitability_range s e m : (0 <= trend_suitability s e m <= 100)%Z.
Proof. unfold trend_suitability. repeat case_match; apply by_mode_range; lia. Qed.

Lemma execution_suitability_range s e m : (0 <= execution_suitability s e m <= 100)%Z.
Proof. apply bounded_int_range. Qed.

(** the multiplier of a mode is one of a few quantized values in 0..1 *)
Lemma mode_risk_multiplier_run score state strictness :
  exists m, mode_risk_multiplier score state strictness = Ok m /\ rg_quantize m = Ok m /\
    dltb (dec_of_Z 0) m = true /\ dleb m (dec_of_Z 1) = true /\
    (state = HIGH_VOLATILITY -> dleb m (mkDec false 50 (-2)) = true).
Proof.
  unfold mode_risk_multiplier.
  destruct (score <=? 30)%Z, (score <=? 50)%Z, (score <=? 70)%Z, strictness, (decide (state = HIGH_VOLATILITY)) as [->|Hn];
    try rewrite (bool_decide_eq_false_2 _ Hn); eexists; (split; [vm_compute; reflexivity|]); by repeat split.
Qed.

(** what the compatibility of a mode promises *)
Definition compatibility_spec (state : RegimeState) (strictness : RegimeStrictness) (mode : TradeMode)
    (c : RegimeCompatibility) : Prop :=
  rc_mode c = mode /\ (0 <= rc_score c <= 100)%Z /\ rc_label c = compatibility_label (rc_score c) /\
  rc_allowed c = (strictness_allowed_threshold strictness <=? rc_score c)%Z /\
  dltb (dec_of_Z 0) (rc_risk_multiplier c) = true /\ dleb (rc_risk_multiplier c) (dec_of_Z 1) = true /\
  (state = HIGH_VOLATILITY -> dleb (rc_risk_multiplier c) (mkDec false 50 (-2)) = true).

Lemma new_compatibility_run c :
  (0 <= rc_score c <= 100)%Z -> (0 <= rc_regime_compatibility c <= 100)%Z ->
  (0 <= rc_volatility_suitability c <= 100)%Z -> (0 <= rc_trend_suitability c <= 100)%Z ->
  (0 <= rc_execution_quality_suitability c <= 100)%Z -> rg_quantize (rc_risk_multiplier c) = Ok (rc_risk_multiplier c) ->
  exists c', new_compatibility c = Ok c' /\ rc_mode c' = rc_mode c /\ rc_score c' = rc_score c /\
    rc_label c' = rc_label c /\ rc_allowed c' = rc_allowed c /\ rc_risk_multiplier c' = rc_risk_multiplier c.
Proof. intros. unfold new_compatibility. rewrite !percent_field_ok, H4 by done. cbn [bind_result]. by eexists. Qed.

Lemma mode_compatibility_run state e strictness mode :
  exists c, mode_compatibility state e strictness mode = Ok c /\ compatibility_spec state strictness mode c.
Proof.
  unfold mode_compatibility.
  assert (0 <= compatibility_score (state_mode_base state mode) (volatility_suitability state e mode)
                 (trend_suitability state e mode) (execution_suitability state e mode) <= 100)%Z as Hs
    by apply bounded_int_range.
  pose proof (state_mode_base_range state mode). pose proof (volatility_suitability_range state e mode).
  pose proof (trend_suitability_range state e mode). pose proof (execution_suitability_range state e mode).
  generalize dependent (compatibility_score (state_mode_base state mode) (volatility_suitability state e mode)
                 (trend_suitability state e mode) (execution_suitability state e mode)). intros score Hs.
  destruct (mode_risk_multiplier_run score state strictness) as (m & -> & Hq & Hlo & Hhi & Hv). cbn [bind_result].
  match goal with |- context [new_compatibility ?x] =>
    destruct (new_compatibility_run x) as (c & -> & Hmode & Hscore & Hlabel & Hallowed & Hm);
      cbn [rc_score rc_regime_compatibility rc_volatility_suitability rc_trend_suitability
           rc_execution_quality_suitability rc_risk_multiplier]; try assumption end.
  cbn [rc_mode rc_score rc_label rc_allowed rc_risk_multiplier] in *. exists c. unfold compatibility_spec. rewrite Hmode, Hscore, Hlabel, Hallowed, Hm. split_and!; auto; lia.
Qed.

Lemma score_modes_run state e strictness modes :
  exists l, score_modes state e strictness modes = Ok l /\
    Forall2 (fun mode item => fst item = mode /\ compatibility_spec state strictness mode (snd item)) modes l.
Proof.
  induction modes as [|mode modes IH]; [by exists []|].
  cbn [score_modes]. destruct (mode_compatibility_run state e strictness mode) as (c & -> & Hc).
  destruct IH as (l & -> & Hl). cbn [bind_result]. eexists. split; [done|]. by constructor.
Qed.

Lemma score_compatibility_run state e strictness :
  exists c s p, score_compatibility state e strictness = Ok [(Challenge, c); (Swing, s); (Scalp, p)] /\
    compatibility_spec state strictness Challenge c /\ compatibility_spec state strictness Swing s /\
    compatibility_spec state strictness Scalp p.
Proof.
  destruct (score_modes_run state e strictness MODE_ORDER) as (l & Hr & Hl). unfold score_compatibility. rewrite Hr.
  unfold MODE_ORDER in Hl. decompose_Forall_hyps.
  repeat match goal with x : TradeMode * RegimeCompatibility |- _ => destruct x end. cbn in *. destruct_and!. subst. eauto 10.
Qed.

(** ** Adjustment *)

(** the adjustment changes no live threshold: nothing is added to quality, risk/reward or any score, and risk is
    multiplied by one *)
Definition inert (a : RegimeAdjustment) : Prop :=
  ra_min_quality_score_adjustment a = 0%Z /\ deqb (ra_min_rr_adjustment a) (dec_of_Z 0) = true /\
  deqb (ra_risk_multiplier a) (dec_of_Z 1) = true /\ ra_readiness_score_adjustment a = 0%Z /\
  ra_edge_score_adjustment a = 0%Z /\ ra_trust_score_adjustment a = 0%Z /\
  ra_portfolio_confidence_adjustment a = 0%Z /\ ra_regime_penalty a = 0%Z.

Lemma build_adjustment_run state score c s p notes :
  exists a, build_adjustment state score [(Challenge, c); (Swing, s); (Scalp, p)] notes = Ok a /\ inert a /\
    ra_allow_challenge a = rc_allowed c /\ ra_allow_swings a = rc_allowed s /\ ra_allow_scalps a = rc_allowed p.
Proof. eexists. split; [reflexivity|]. by repeat split. Qed.

(** ** Classification *)

Lemma insert_score_elem x y l : In y (insert_score x l) <-> y = x \/ In y l.
Proof.
  induction l as [|z l IH]; cbn [insert_score]; [cbn; naive_solver|].
  destruct (snd x <? snd z)%Z; cbn [In]; [rewrite IH|]; naive_solver.
Qed.

Lemma sorted_scores_elem y l : In y (sorted_scores l) <-> In y l.
Proof. induction l as [|x l IH]; [done|]. cbn. rewrite insert_score_elem, IH. naive_solver. Qed.

Definition descending_head (l : list (RegimeState * Z)) : Prop :=
  match l with [] => True | x :: rest => Forall (fun y => (snd y <= snd x)%Z) rest end.

Lemma sorted_scores_head l : descending_head (sorted_scores l).
Proof.
  induction l as [|x l IH]; [done|]. cbn [sorted_scores fold_right]. fold (sorted_scores l). destruct (sorted_scores l) as [|z s]; [constructor|].
  cbn [insert_score]. destruct (Z.ltb_spec (snd x) (snd z)); cbn in *.
  - apply List.Forall_forall. intros y Hy%insert_score_elem. rewrite List.Forall_forall in IH.
    destruct Hy as [->|Hy]; [lia|]. by apply IH.
  - constructor; [lia|]. eapply Forall_impl; [exact IH|]. cbn. lia.
Qed.

Lemma all_regimes_complete s : In s all_regimes.
Proof. destruct s; cbn; tauto. Qed.

(** the state on top of the ranking has the greatest score *)
Lemma top_score e t score rest : sorted_scores (regime_scores e) = (t, score) :: rest ->
  score = points_of t (awards e) /\ forall s, (points_of s (awards e) <= points_of t (awards e))%Z.
Proof.
  intros H. assert (In (t, score) (regime_scores e)) as (t' & Heq & _)%in_map_iff
    by (apply sorted_scores_elem; rewrite H; by left).
  injection Heq as -> <-. split; [done|]. intros s.
  assert (In (s, points_of s (awards e)) (sorted_scores (regime_scores e))) as Hin
    by (apply sorted_scores_elem, in_map_iff; eauto using all_regimes_complete).
  pose proof (sorted_scores_head (regime_scores e)) as Hd. rewrite H in Hin, Hd. cbn in Hd. rewrite List.Forall_forall in Hd.
  destruct Hin as [Heq|Hin]; [injection Heq as ->; lia|]. exact (Hd _ Hin).
Qed.

(** a classified state is MIXED, TRANSITION, or has the greatest score, at least 35; TREND_EXPANSION may also stand
    in for RISK_ON with a score of at least 70 *)
Lemma classify_state_supported e : let s := classify_state e in
  s = MIXED \/ s = TRANSITION \/
  (35 <= points_of s (awards e) /\ forall s', points_of s' (awards e) <= points_of s (awards e))%Z \/
  (s = TREND_EXPANSION /\ (70 <= points_of s (awards e))%Z).
Proof.
  cbn zeta. unfold classify_state. destruct (sorted_scores (regime_scores e)) as [|[t score] rest] eqn:E; [by left|].
  apply top_score in E as [-> Hmax].
  destruct (Z.ltb_spec (points_of t (awards e)) 35) as [|Hge]; [by left|].
  case_match eqn:Eon; [apply andb_true_iff in Eon as [_ ?%Z.leb_le]; by do 3 right|].
  case_match eqn:Eoff.
  { apply andb_true_iff in Eoff as [->%bool_decide_eq_true _]. right; right; left; split; auto. }
  case_match; auto 6.
Qed.

Lemma points_of_app s l1 l2 : points_of s (l1 ++ l2) = (points_of s l1 + points_of s l2)%Z.
Proof.
  unfold points_of. induction l1 as [|x l1 IH]; [done|]. cbn. destruct (bool_decide (fst x = s)); rewrite IH; lia.
Qed.

Lemma points_of_award s b l : points_of s (award b l) = if b then points_of s l else 0%Z.
Proof. by destruct b. Qed.

(** the points of a given state, as a sum of conditional awards *)
Ltac eval_points :=
  cbn [points_of fold_right fst snd];
  repeat match goal with
  | |- context [bool_decide (?a = ?b)] =>
      let r := eval vm_compute in (bool_decide (a = b)) in change (bool_decide (a = b)) with r; cbn iota
  | |- context [if ?b then 0%Z else 0%Z] => replace (if b then 0%Z else 0%Z) with 0%Z by (by destruct b)
  end.

(** extreme volatility against its average *)
Definition panic_ratio (v : dec) : Prop := dleb (q2 225) v = true.

Lemma panic_above v d : panic_ratio v -> (dQ d < dQ (q2 225))%Q -> dleb v d = false.
Proof. intros Hv%dleb_spec Hd. apply dleb_false. by eapply Qlt_le_trans. Qed.

Lemma panic_above_points v n : panic_ratio v -> (0 <= n < 225)%Z -> dleb v (q2 n) = false.
Proof.
  intros Hv Hn. apply panic_above; [done|]. unfold dQ. apply Qmult_lt_compat_r; [apply ten_pow_pos|].
  rewrite <- Zlt_Qlt. unfold q2, d_sc. cbn [d_neg d_coef]. rewrite (proj2 (Z.ltb_ge n 0)) by lia. cbn. lia.
Qed.

(** under extreme volatility only HIGH_VOLATILITY and CHOP reach 80 points *)
Lemma panic_points e s : panic_ratio (e_volatility_ratio e) -> s <> HIGH_VOLATILITY -> s <> CHOP ->
  (points_of s (awards e) < 80)%Z.
Proof.
  intros Hv Hh Hc. unfold awards. rewrite !points_of_app, !points_of_award.
  rewrite !(panic_above_points _ _ Hv), !andb_false_r by lia. cbn [andb].
  destruct s; try done; eval_points; repeat case_match; lia.
Qed.

Lemma panic_classified e : panic_ratio (e_volatility_ratio e) ->
  classify_state e = HIGH_VOLATILITY \/ classify_state e = CHOP.
Proof.
  intros Hv. unfold classify_state. destruct (sorted_scores (regime_scores e)) as [|[t score] rest] eqn:E.
  { exfalso. assert (In (MIXED, points_of MIXED (awards e)) (sorted_scores (regime_scores e))) as Hin
      by (apply sorted_scores_elem, in_map_iff; eauto using all_regimes_complete).
    by rewrite E in Hin. }
  apply top_score in E as [-> Hmax].
  assert (80 <= points_of HIGH_VOLATILITY (awards e))%Z as Hhv.
  { unfold awards. rewrite !points_of_app, !points_of_award. rewrite Hv. cbn [orb]. eval_points. lia. }
  pose proof (Hmax HIGH_VOLATILITY) as Hge. rewrite (proj2 (Z.ltb_ge _ _)) by lia.
  destruct (decide (t = HIGH_VOLATILITY)) as [->|Hh]; [left; by rewrite andb_false_r|].
  destruct (decide (t = CHOP)) as [->|Hc]; [right; by rewrite andb_false_r|].
  pose proof (panic_points e t Hv Hh Hc). lia.
Qed.

(** ** The result *)

Definition missing_of (btc eth : MarketMetrics) : bool :=
  match (mm_missing_data btc ++ mm_missing_data eth)%list with [] => false | _ => true end.

(** what a result promises of the metrics it was computed from *)
Definition result_spec (data : MarketRegimeInput) (btc eth : MarketMetrics) (r : MarketRegimeResult) : Prop :=
  let e := evidence data btc eth in
  mr_enabled r = true /\
  mr_state r = (if missing_of btc eth then MIXED else classify_state e) /\
  mr_risk_level r = risk_level_for_state (mr_state r) (missing_of btc eth) /\
  mr_confidence_score r = cf_score (score_confidence (mr_state r) e (ri_strictness data) (missing_of btc eth)) /\
  mr_confidence_band r = confidence_band (mr_confidence_score r) /\
  (exists c s p, mr_compatibility_scores r = [(Challenge, c); (Swing, s); (Scalp, p)] /\
     compatibility_spec (mr_state r) (ri_strictness data) Challenge c /\
     compatibility_spec (mr_state r) (ri_strictness data) Swing s /\
     compatibility_spec (mr_state r) (ri_strictness data) Scalp p /\
     ra_allow_challenge (mr_adjustment r) = rc_allowed c /\ ra_allow_swings (mr_adjustment r) = rc_allowed s /\
     ra_allow_scalps (mr_adjustment r) = rc_allowed p) /\
  inert (mr_adjustment r).

(** once both metrics are there, the result is *)
Lemma regime_of_candles_run data bc ec btc eth :
  market_metrics "BTCUSDT" (fst bc) = Ok btc -> market_metrics "ETHUSDT" (fst ec) = Ok eth ->
  exists r, regime_of_candles data bc ec = Ok r /\ result_spec data btc eth r.
Proof.
  intros Hb He. unfold regime_of_candles. rewrite Hb, He. cbn [bind_result]. fold (missing_of btc eth).
  set (e := evidence data btc eth). set (missing := missing_of btc eth).
  set (state := if missing then MIXED else classify_state e).
  set (confidence := score_confidence state e (ri_strictness data) missing).
  destruct (score_compatibility_run state e (ri_strictness data)) as (c & s & p & -> & Hc & Hs & Hp). cbn [bind_result].
  destruct (build_adjustment_run state (cf_score confidence) c s p (cf_notes confidence)) as (a & -> & Ha & Hac & Has & Hap).
  cbn [bind_result]. unfold new_regime_result. cbn [mr_confidence_score].
  rewrite percent_field_ok by apply score_confidence_range. cbn [bind_result]. eexists. split; [reflexivity|].
  unfold result_spec.
  cbn [mr_enabled mr_state mr_risk_level mr_confidence_score mr_confidence_band mr_compatibility_scores mr_adjustment].
  split_and!; try done. eauto 12.
Qed.

Lemma evaluate_run data now r : evaluate_market_regime data now = Ok r ->
  exists bc ec btc eth,
    causal_regime_candles "BTCUSDT" (ri_btc_candles data) (ri_candle_timeframe data)
      (default now (ri_decision_timestamp data)) = Ok bc /\
    causal_regime_candles "ETHUSDT" (ri_eth_candles data) (ri_candle_timeframe data)
      (default now (ri_decision_timestamp data)) = Ok ec /\
    market_metrics "BTCUSDT" (fst bc) = Ok btc /\ market_metrics "ETHUSDT" (fst ec) = Ok eth /\
    result_spec data btc eth r.
Proof.
  unfold evaluate_market_regime. intros H. apply bind_ok in H as (bc & Hb & H). apply bind_ok in H as (ec & He & H).
  assert (Hr := H). unfold regime_of_candles in Hr. apply bind_ok in Hr as (btc & Hbm & Hr). apply bind_ok in Hr as (eth & Hem & _).
  destruct (regime_of_candles_run data bc ec btc eth Hbm Hem) as (r' & Hr' & Hs).
  rewrite H in Hr'. injection Hr' as <-. eauto 10.
Qed.

(** metrics are missing exactly when fewer than 40 candles are usable *)
Lemma market_metrics_missing symbol raw m : market_metrics symbol raw = Ok m ->
  exists candles, normalized_candles raw = Ok candles /\
    (mm_missing_data m = [] <-> (MIN_REQUIRED_CANDLES <= length candles)%nat).
Proof.
  unfold market_metrics. intros H. apply bind_ok in H as (candles & Hc & H). exists candles. split; [done|].
  destruct (Nat.ltb_spec (length candles) MIN_REQUIRED_CANDLES) as [Hl|Hl].
  - injection H as <-. cbn. split; [done|lia].
  - inv_run H. injection H as <-. by cbn.
Qed.

Lemma missing_of_lengths btc eth (nb ne : nat) :
  (mm_missing_data btc = [] <-> (MIN_REQUIRED_CANDLES <= nb)%nat) ->
  (mm_missing_data eth = [] <-> (MIN_REQUIRED_CANDLES <= ne)%nat) ->
  missing_of btc eth = true <-> (nb < 40 \/ ne < 40)%nat.
Proof.
  unfold missing_of, MIN_REQUIRED_CANDLES. intros Hb He.
  destruct (Nat.le_gt_cases 40 nb) as [Hnb|Hnb].
  - rewrite (proj2 Hb Hnb). destruct (Nat.le_gt_cases 40 ne) as [Hne|Hne].
    + rewrite (proj2 He Hne). cbn. lia.
    + cbn. destruct (mm_missing_data eth); [pose proof (proj1 He eq_refl); lia|]. split; auto.
  - destruct (mm_missing_data btc); [pose proof (proj1 Hb eq_refl); lia|]. cbn. split; auto.
Qed.

Lemma evidence_missing_optional data btc eth : e_missing_optional_count (evidence data btc eth) = missing_optional data.
Proof. done. Qed.

Lemma result_confidence_cap data btc eth r : result_spec data btc eth r ->
  (0 <= mr_confidence_score r <= 100)%Z /\
  (mr_confidence_score r <= confidence_cap (mr_state r) (missing_optional data))%Z.
Proof.
  intros (_ & Hst & _ & Hc & _). rewrite Hc. split; [apply score_confidence_range|].
  destruct (missing_of btc eth).
  - rewrite Hst. cbn. destruct (missing_optional data =? 0)%Z; lia.
  - rewrite <- (evidence_missing_optional data btc eth). apply cap_confidence_cap, bounded_int_range.
Qed.

Lemma fold_dmax_ge l : forall d, (dQ d <= dQ (fold_left dmax l d))%Q /\ Forall (fun x => (dQ x <= dQ (fold_left dmax l d))%Q) l.
Proof.
  induction l as [|x l IH]; intros d; cbn [fold_left]; [split; [apply Qle_refl|done]|].
  destruct (IH (dmax d x)) as [Hd Hl]. unfold dmax in Hd, Hl |- *.
  destruct (dltb d x) eqn:E.
  - apply dltb_spec, Qlt_le_weak in E. split; [by eapply Qle_trans|by constructor].
  - apply dltb_false in E. split; [done|]. constructor; [by eapply Qle_trans|done].
Qed.

Lemma max_decimal_ge values v : In (Some v) values -> (dQ v <= dQ (max_decimal values))%Q.
Proof.
  intros Hin. unfold max_decimal. assert (In v (omap id values)) as Hv.
  { apply list_elem_of_In, list_elem_of_omap. exists (Some v). split; [by apply list_elem_of_In|done]. }
  destruct (omap id values) as [|d rest]; [done|]. destruct (fold_dmax_ge rest d) as [Hd Hr].
  destruct Hv as [->|Hv]; [done|]. rewrite List.Forall_forall in Hr. by apply Hr.
Qed.

(** closed candles first: dropping the candles after them gives the same window *)
Lemma causal_ignores_unclosed symbol closed future tf decision w :
  closed_candles_as_of (closed ++ future) tf (CDatetime decision) 0 true false true = Ok w ->
  length (cw_timeline w) = length closed ->
  causal_regime_candles symbol (closed ++ future) tf decision = causal_regime_candles symbol closed tf decision.
Proof.
  intros Hw Hlen. pose proof (closed_window_ignores_the_future _ _ _ _ _ _ _ _ _ Hw Hlen) as Hc.
  assert (causal_regime_candles symbol (closed ++ future) tf decision = Ok (cw_candles w, [])) as ->.
  { unfold causal_regime_candles. destruct (closed ++ future)%list eqn:E; [|by rewrite Hw].
    apply closed_candles_run in Hw as (duration & timeline & Hdec & Ht & Hd & Hw & Hc' & _).
    apply app_eq_nil in E as [-> _]. apply nil_length_inv in Hlen. by rewrite Hc', Hlen. }
  unfold causal_regime_candles. destruct closed as [|c closed]; [|by rewrite Hc].
  apply nil_length_inv in Hlen. apply closed_candles_run in Hw as (duration & timeline & _ & _ & _ & _ & Hc' & _).
  by rewrite Hc', Hlen.
Qed.

(** ** Claims *)


(** extreme volatility is never classified as a benign regime: when the scan reports a range of at least 2.25 times
    its average, the result is HIGH_VOLATILITY or CHOP with a HIGH or EXTREME risk level, or the candles are missing and it
    is the cautious MIXED result without a risk level; in each case the confidence is at most 50 ("weak" or "hostile"). *)
Theorem panic_volatility_is_defensive data now r v :
  evaluate_market_regime data now = Ok r ->
  ri_volatility_expansion_vs_average data = Some v -> dleb (q2 225) v = true ->
  (mr_state r = HIGH_VOLATILITY /\ mr_risk_level r = RiskExtreme \/ mr_state r = CHOP /\ mr_risk_level r = RiskHigh \/
   mr_state r = MIXED /\ mr_risk_level r = RiskNA) /\
  (mr_confidence_score r <= 50)%Z /\
  (mr_confidence_band r = Weak \/ mr_confidence_band r = Hostile).
Proof.
  intros H Hv Hp. apply evaluate_run in H as (bc & ec & btc & eth & _ & _ & _ & _ & Hs).
  destruct (result_confidence_cap _ _ _ _ Hs) as [_ Hcap].
  destruct Hs as (_ & Hst & Hrisk & Hconf & Hband & _).
  assert (panic_ratio (e_volatility_ratio (evidence data btc eth))) as Hpanic.
  { apply dleb_true_of. apply dleb_spec in Hp. eapply Qle_trans; [exact Hp|]. apply max_decimal_ge. rewrite <- Hv. cbn. tauto. }
  assert (forall z, z <= 50 -> confidence_band z = Weak \/ confidence_band z = Hostile)%Z as Hb
    by (intros z Hz; unfold confidence_band; repeat case_match; auto; lia).
  rewrite Hband. destruct (missing_of btc eth).
  - rewrite Hrisk, Hst. rewrite Hst in Hconf. cbn in Hconf. rewrite Hconf. split; [auto|]. split; [done|by left].
  - destruct (panic_classified _ Hpanic) as [Hc|Hc]; rewrite Hc in Hst; rewrite Hst in Hrisk, Hcap; cbn in Hcap;
      rewrite Hst, Hrisk; (split; [auto|]); auto.
Qed.

(** candles that have not closed at the decision time do not influence the regime: with well-formed candles whose
    first part is closed and whose rest is not, the evaluation is that of the closed part alone, for both markets, whatever
    prices the open candles show. *)
Theorem regime_ignores_unclosed_candles data now btc btc_future eth eth_future wb we :
  let decision := CDatetime (default now (ri_decision_timestamp data)) in
  closed_candles_as_of (btc ++ btc_future) (ri_candle_timeframe data) decision 0 true false true = Ok wb ->
  length (cw_timeline wb) = length btc ->
  closed_candles_as_of (eth ++ eth_future) (ri_candle_timeframe data) decision 0 true false true = Ok we ->
  length (cw_timeline we) = length eth ->
  evaluate_market_regime (data <| ri_btc_candles := (btc ++ btc_future)%list |> <| ri_eth_candles := (eth ++ eth_future)%list |>) now
  = evaluate_market_regime (data <| ri_btc_candles := btc |> <| ri_eth_candles := eth |>) now.
Proof.
  cbn zeta. intros Hb Hlb He Hle. unfold evaluate_market_regime.
  cbn [set_field ri_btc_candles ri_eth_candles ri_candle_timeframe ri_decision_timestamp].
  by rewrite (causal_ignores_unclosed _ _ _ _ _ _ Hb Hlb), (causal_ignores_unclosed _ _ _ _ _ _ He Hle).
Qed.

(** *** Witnesses *)

(** rising 12h candles from 2026-01-01 *)
Definition sample_regime_candle (k : nat) : candle :=
  let p := (100 + Z.of_nat k)%Z in
  MappingCandle [("timestamp", CVal (PyInt (1767225600000 + Z.of_nat k * 43200000)));
                 ("open", CVal (PyInt p)); ("high", CVal (PyInt (p + 2))); ("low", CVal (PyInt (p - 2)));
                 ("close", CVal (PyInt (p + 1)))].

Definition sample_regime_candles (n : nat) : list candle := map sample_regime_candle (seq 0 n).

Definition sample_regime_input (n : nat) (volatility : option dec) : MarketRegimeInput :=
  {| ri_btc_candles := sample_regime_candles n; ri_eth_candles := sample_regime_candles n; ri_total_proxy_candles := [];
     ri_total2_proxy_candles := []; ri_btc_d_context := NA; ri_usdt_d_context := NA; ri_scanned_symbols := 10;
     ri_bullish_bias_pct := None; ri_bearish_bias_pct := None; ri_valid_sweep_pct := None; ri_confirmation_pct := None;
     ri_failed_confirmation_pct := None; ri_volatility_expansion_vs_average := volatility; ri_htf_agreement_pct := None;
     ri_htf_conflict_pct := None; ri_average_rr := None; ri_setup_density_pct := None;
     ri_rejection_clustering_pct := None; ri_broad_participation_pct := None; ri_strictness := StrictNormal;
     ri_candle_timeframe := "12h"; ri_decision_timestamp := None; ri_missing_data := []; ri_unverified_data := [] |}.

(** the time at which [n] of the candles are closed *)
Definition sample_regime_clock (n : nat) : datetime :=
  mkDatetime (epoch_us + (1767225600000 + Z.of_nat n * 43200000) * 1000) (Some 0%Z).

Lemma sample_regime_trend :
  match evaluate_market_regime (sample_regime_input 50 None) (sample_regime_clock 45) with
  | Ok r => mr_state r = TREND_EXPANSION /\ mr_risk_level r = RiskLow /\ mr_confidence_score r = 66%Z
  | Raise _ => False
  end.
Proof. vm_compute. auto. Qed.

Lemma sample_regime_panic :
  match evaluate_market_regime (sample_regime_input 50 (Some (q2 250))) (sample_regime_clock 45) with
  | Ok r => mr_state r = HIGH_VOLATILITY
  | Raise _ => False
  end.
Proof. vm_compute. reflexivity. Qed.


Lemma panic_volatility_is_defensive_witness :
  exists r, evaluate_market_regime (sample_regime_input 50 (Some (q2 250))) (sample_regime_clock 45) = Ok r /\
    (mr_confidence_score r <= 50)%Z.
Proof.
  destruct (evaluate_market_regime (sample_regime_input 50 (Some (q2 250))) (sample_regime_clock 45)) as [r|e] eqn:E;
    [|exfalso; pose proof sample_regime_panic as H; by rewrite E in H].
  exists r. split; [reflexivity|]. apply (panic_volatility_is_defensive _ _ _ (q2 250) E); reflexivity.
Defined.

Lemma regime_ignores_unclosed_candles_witness :
  let data := sample_regime_input 0 None in
  let future := [sample_regime_candle 2] in
  evaluate_market_regime (data <| ri_btc_candles := (sample_regime_candles 2 ++ future)%list |>
                               <| ri_eth_candles := (sample_regime_candles 2 ++ future)%list |>) (sample_regime_clock 2)
  = evaluate_market_regime (data <| ri_btc_candles := sample_regime_candles 2 |>
                                 <| ri_eth_candles := sample_regime_candles 2 |>) (sample_regime_clock 2).
Proof.
  cbn zeta.
  destruct (closed_candles_as_of (sample_regime_candles 2 ++ [sample_regime_candle 2]) "12h"
              (CDatetime (sample_regime_clock 2)) 0 true false true) as [w|e] eqn:E; [|vm_compute in E; discriminate].
  assert (length (cw_timeline w) = 2%nat) as Hl by (vm_compute in E; injection E as <-; reflexivity).
  exact (regime_ignores_unclosed_candles (sample_regime_input 0 None) (sample_regime_clock 2) (sample_regime_candles 2)
    [sample_regime_candle 2] (sample_regime_candles 2) [sample_regime_candle 2] w w E Hl E Hl).
Defined.
