(* ===== verification/Hygiene.v ===== *)
(** * Quarantine of invalid stored plans (src/app/lifecycle/hygiene.py)

    An audit finds the lifecycle records whose stored plan is malformed and
    classifies each from its state, its outcome progress and its public
    deliveries; records that are safe to quarantine are moved to a rejected or
    invalidated state, all of them in one transaction, when a manifest approves
    exactly that set.

    The store is the lifecycle database with the three alert tables.  The
    answers of SQLite about a store (schema version, names in sqlite_master and
    the integrity pragmas) are a parameter, as are its rows' rowids: rows are
    lists in the order of their ids.  The preflight payload of a plan, which is
    the same for every plan that exists, is left out. *)

From stdpp Require Import base tactics list strings.
From Stdlib Require Import ZArith NArith Lia Bool Ascii.
From S2P Require Import Prelude PyString PyDecimal PyFloat Sha256 PyJson JsonText LifecycleModels CandleIntegrity OutcomePolicy DynRecord Observation StateMachine RuntimeEpoch LifecycleRepository.
Open Scope string_scope.
Open Scope py_scope.

Definition SCHEMA_VERSION : Z := 27.
Definition QUARANTINE_REASON_CODE : string := reason_value LEGACY_INVALID_STORED_PLAN_GEOMETRY.
Definition FAILED_GEOMETRY_DIAGNOSTIC : string := "invalid_stored_plan_geometry".

Definition OUTCOME_ELIGIBLE_STATES : list string :=
  map state_value [WATCHLISTED; STALKING; TRIGGERED; CONFIRMED; ACTIONABLE_A_GRADE; A_GRADE_WATCH; EXECUTING; MANAGING].

Definition DEPENDENCY_BLOCKING_STATES : list string :=
  map state_value [EXECUTING; MANAGING; TP_HIT; SL_HIT; BREAKEVEN].

(** [SAFE_QUARANTINE_TRANSITIONS.get(current_state)] *)
Definition SAFE_QUARANTINE_TRANSITIONS (current_state : string) : option SetupLifecycleState :=
  if str_in current_state (map state_value [WATCHLISTED; STALKING]) then Some REJECTED else
  if str_in current_state (map state_value [TRIGGERED; CONFIRMED; ACTIONABLE_A_GRADE; A_GRADE_WATCH])
  then Some INVALIDATED else None.

Definition REQUIRED_TABLES : list string :=
  ["setup_lifecycle_records"; "setup_lifecycle_events"; "setup_lifecycle_outcome_progress"; "telegram_alert_attempts";
   "public_alert_events"; "public_alert_delivery_parts"].

Definition REQUIRED_INDEXES : list string :=
  ["ix_lifecycle_records_symbol_mode_direction"; "ix_lifecycle_events_lifecycle_id";
   "ix_lifecycle_outcome_progress_active_plan"; "ix_telegram_alert_attempts_signal"; "ix_public_alert_events_status";
   "ix_public_alert_delivery_parts_event"].

Definition UNRESOLVED_DELIVERY_STATES : list string :=
  ["reserved"; "claimed"; "pending"; "in_flight"; "retryable"; "uncertain"].

Definition RESOLVED_NO_DELIVERY_STATES : list string :=
  ["blocked"; "cancelled"; "canceled"; "duplicate"; "failed"; "failed_final"; "ineligible"; "policy_disabled"; "skipped";
   "skipped_dry_run"].

Definition LifecycleHygieneError (msg : string) : exn := RuntimeError msg.

(** ** The store *)

(** a row of [telegram_alert_attempts] *)
Record alert_attempt := {
  al_signal_id : string;
  al_symbol : string;
  al_telegram_status : string;
  al_sent_at : option string;
  al_delivery_state : string;
  al_plan_id : string;
  al_event_key : string;
  al_event_type : string
}.

(** a row of [public_alert_events] *)
Record public_event := {
  pe_id : Z;
  pe_plan_id : string;
  pe_event_type : string;
  pe_event_key : string;
  pe_symbol : string;
  pe_setup_family : string;
  pe_status : string;
  pe_sent_at : option string;
  pe_delivery_state : string
}.

(** a row of [public_alert_delivery_parts], in the order of part_index *)
Record delivery_part := {
  dp_event_id : Z;
  dp_event_key : string;
  dp_delivery_state : string;
  dp_sent_at : option string
}.

Record hygiene_store := mkStore {
  hs_db : database;
  hs_attempts : list alert_attempt;
  hs_public_events : list public_event;
  hs_parts : list delivery_part
}.
#[export] Instance hygiene_store_eta : RecordEta hygiene_store := fun s =>
  mkStore (hs_db s) (hs_attempts s) (hs_public_events s) (hs_parts s).

(** what SQLite answers about a store *)
Record sqlite_answers := {
  sq_user_version : option Z;
  sq_tables : list string;
  sq_indexes : list string;
  sq_quick_check : list string;
  sq_integrity_check : list string;
  sq_foreign_key_check : nat
}.

(** ** Text *)

(** [_text] of a nullable column *)
Definition hy_text (value : option string) : string :=
  match value with
  | None => NA
  | Some s =>
      let text := py_strip s in
      if negb (String.eqb text "") && negb (String.eqb (py_upper text) NA) then text else NA
  end.

(** [_status_key] *)
Definition hy_status_key (value : option string) : string :=
  let text := py_lower (hy_text value) in
  if String.eqb text (py_lower NA) then "" else
  let key := py_replace " " "_" (py_replace "-" "_" text) in
  py_strip_char "_" (collapse_underscores (String.length key) key).

(** [_text] of alerts/telegram_lifecycle.py on text *)
Definition tl_text (value : string) : string :=
  if String.eqb value "" || String.eqb value NA then NA else
  let text := join_split value in if String.eqb text "" then NA else text.

(** [_status_key] of alerts/telegram_lifecycle.py *)
Definition tl_status_key (value : string) : string :=
  let text := tl_text value in
  if String.eqb text NA then "" else
  let key := py_replace " " "_" (py_replace "-" "_" (py_strip (py_lower text))) in
  py_strip_char "_" (collapse_underscores (String.length key) key).

(** [canonical_public_event_key] with [_public_watchlist_event_key] *)
Definition canonical_public_event_key (plan_id event_type : string) : string :=
  let plan := tl_text plan_id in
  let key := tl_status_key event_type in
  let key := if String.eqb key "" then "initial_watchlist" else key in
  if String.eqb plan NA then NA else plan +:+ "|" +:+ key.

(** [plan-[0-9a-f]{64}] *)
Definition is_canonical_outcome_plan_identity (value : string) : bool :=
  let text := hy_text (Some value) in
  is_prefix "plan-" text && (String.length text =? 69)%nat && string_forallb is_hex (drop_string 5 text).

Definition is_upper_alnum (c : ascii) : bool := is_digit c || code_between 65 90 c.

(** [[A-Z0-9]+[|](?:long|short)[|][0-9a-f]{20}] *)
Definition is_canonical_public_plan_id (text : string) : bool :=
  let symbol := split_head "|" text in
  let rest := drop_string (String.length symbol) text in
  let side (s : string) :=
    is_prefix s rest && (String.length rest =? String.length s + 20)%nat
    && string_forallb is_hex (drop_string (String.length s) rest) in
  negb (String.eqb symbol "") && string_forallb is_upper_alnum symbol && (side "|long|" || side "|short|").

Definition is_canonical_public_or_outcome_plan_identity (value : string) : bool :=
  is_canonical_outcome_plan_identity value || is_canonical_public_plan_id (hy_text (Some value)).

(** [column LIKE 'prefix%']: SQLite's LIKE ignores the case of ASCII letters; a plan identity has no wildcard *)
Definition like_prefix (prefix value : string) : bool := is_prefix (py_lower prefix) (py_lower value).

(** ** Ownership of dependencies *)

Inductive DependencyOwnership : Type :=
| CURRENT_PLAN_IDENTITY
| HISTORICAL_NON_CURRENT_PLAN_IDENTITY
| DIRECT_CURRENT_PLAN_PUBLIC_DELIVERY
| AMBIGUOUS_UNPROVEN.

#[export] Instance DependencyOwnership_eq_dec : EqDecision DependencyOwnership.
Proof. solve_decision. Defined.

Definition ownership_value (o : DependencyOwnership) : string :=
  match o with
  | CURRENT_PLAN_IDENTITY => "current_plan_identity"
  | HISTORICAL_NON_CURRENT_PLAN_IDENTITY => "historical_non_current_plan_identity"
  | DIRECT_CURRENT_PLAN_PUBLIC_DELIVERY => "direct_current_plan_public_delivery"
  | AMBIGUOUS_UNPROVEN => "ambiguous_unproven_ownership"
  end.

Record DependencyAssessment := { da_ownership : list DependencyOwnership; da_reasons : list string }.

(** [_ordered_ownership] *)
Definition ordered_ownership (values : list DependencyOwnership) : list DependencyOwnership :=
  List.filter (fun o => bool_decide (o ∈ values))
    [CURRENT_PLAN_IDENTITY; HISTORICAL_NON_CURRENT_PLAN_IDENTITY; DIRECT_CURRENT_PLAN_PUBLIC_DELIVERY; AMBIGUOUS_UNPROVEN].

(** a list of findings, each an owner with its reasons, as an assessment *)
Definition assessment (found : list (list DependencyOwnership * list string)) : DependencyAssessment :=
  {| da_ownership := ordered_ownership (concat (map fst found)); da_reasons := dict_fromkeys (concat (map snd found)) |}.

(** [_merge_assessments] *)
Definition merge_assessments (assessments : list DependencyAssessment) : DependencyAssessment :=
  assessment (map (fun a => (da_ownership a, da_reasons a)) assessments).

(** [_current_progress_reasons] *)
Definition current_progress_reasons (record : SetupLifecycleRecord) (progress : SetupLifecycleOutcomeProgress)
    (geometry_failure : string) : list string :=
  let text s := hy_text (Some s) in
  let timestamps := [pg_entry_at progress; pg_tp1_at progress; pg_tp2_at progress; pg_tp3_at progress;
                     pg_stop_at progress; pg_invalidated_at progress; pg_outcome_at progress] in
  (when (negb (String.eqb (py_upper (text (pg_symbol progress))) (py_upper (text (r_symbol record))))
         || negb (String.eqb (py_lower (text (pg_mode progress))) (py_lower (text (r_mode record))))
         || negb (String.eqb (hy_status_key (Some (pg_direction progress))) (hy_status_key (Some (r_direction record)))))
     "current_plan_progress_metadata_mismatch"
   ++ when (negb (String.eqb (text (pg_diagnostic progress)) (FAILED_GEOMETRY_DIAGNOSTIC +:+ ":" +:+ geometry_failure)))
        "current_plan_progress_not_failed_geometry_only"
   ++ when (existsb (fun t => negb (String.eqb (hy_text t) NA)) timestamps) "current_plan_market_progress"
   ++ when (negb (String.eqb (text (pg_terminal_outcome progress)) NA)) "current_plan_terminal_outcome"
   ++ when (String.eqb (hy_status_key (Some (pg_integrity_status progress))) "verified")
        "current_plan_verified_integrity")%list.

(** one row of the loop of [_outcome_progress_assessment] *)
Definition assess_progress (record : SetupLifecycleRecord) (plan_identity geometry_failure : string)
    (progress : SetupLifecycleOutcomeProgress) : list DependencyOwnership * list string :=
  let identity := hy_text (Some (pg_plan_identity progress)) in
  if String.eqb identity plan_identity
  then ([CURRENT_PLAN_IDENTITY], current_progress_reasons record progress geometry_failure) else
  if is_canonical_outcome_plan_identity identity then ([HISTORICAL_NON_CURRENT_PLAN_IDENTITY], [])
  else ([AMBIGUOUS_UNPROVEN], ["ambiguous_or_malformed_outcome_plan_identity"]).

(** [_outcome_progress_assessment] *)
Definition outcome_progress_assessment (db : database) (record : SetupLifecycleRecord)
    (plan_identity geometry_failure : string) : DependencyAssessment :=
  let lifecycle_id := hy_text (Some (r_lifecycle_id record)) in
  let rows := List.filter (fun p => String.eqb (pg_lifecycle_id p) lifecycle_id) (db_progress db) in
  let current := List.filter (fun p => String.eqb (hy_text (Some (pg_plan_identity p))) plan_identity) rows in
  assessment
    (map (assess_progress record plan_identity geometry_failure) rows
     ++ match length current with
        | O => [([AMBIGUOUS_UNPROVEN], ["missing_current_plan_outcome_progress"])]
        | S O => []
        | _ => [([AMBIGUOUS_UNPROVEN], ["ambiguous_current_plan_outcome_progress"])]
        end)%list.

(** [_public_identity_ownership] *)
Definition public_identity_ownership (plan_identity candidate_plan_id event_type event_key : string)
    (direct_lifecycle require_setup_identity : bool) (setup_identity : string) : option DependencyOwnership :=
  let candidate_plan := hy_text (Some candidate_plan_id) in
  let candidate_event_type := hy_status_key (Some event_type) in
  let candidate_event_key := hy_text (Some event_key) in
  let expected := if String.eqb candidate_event_type "" then NA
                  else canonical_public_event_key plan_identity candidate_event_type in
  let plan_matches := String.eqb candidate_plan plan_identity in
  let event_matches := negb (String.eqb expected NA) && String.eqb candidate_event_key expected in
  let setup_present := negb require_setup_identity || negb (String.eqb (hy_text (Some setup_identity)) NA) in
  if plan_matches && event_matches && setup_present then Some DIRECT_CURRENT_PLAN_PUBLIC_DELIVERY else
  if plan_matches || event_matches then Some AMBIGUOUS_UNPROVEN else
  if is_canonical_public_or_outcome_plan_identity candidate_plan && negb (String.eqb candidate_event_type "")
     && String.eqb candidate_event_key (canonical_public_event_key candidate_plan candidate_event_type) && setup_present
  then Some HISTORICAL_NON_CURRENT_PLAN_IDENTITY else
  if direct_lifecycle then Some AMBIGUOUS_UNPROVEN else None.

(** [_delivery_state_reasons] *)
Definition delivery_state_reasons (status delivery_state : string) (sent_at : option string) : list string :=
  let status := hy_status_key (Some status) in
  let delivery := hy_status_key (Some delivery_state) in
  if String.eqb status "sent" || String.eqb delivery "sent" || negb (String.eqb (hy_text sent_at) NA)
  then ["confirmed_public_delivery"] else
  if str_in status UNRESOLVED_DELIVERY_STATES || str_in delivery UNRESOLVED_DELIVERY_STATES
  then ["public_delivery_reservation_or_uncertainty"] else
  let states := List.filter (fun s => negb (String.eqb s "")) [status; delivery] in
  if negb (nonempty_list states) || negb (forallb (fun s => str_in s RESOLVED_NO_DELIVERY_STATES) states)
  then ["unresolved_public_delivery_state"] else [].

(** one attempt of the first loop of [_public_delivery_assessment] *)
Definition assess_attempt (lifecycle_id plan_identity : string) (a : alert_attempt)
    : list (list DependencyOwnership * list string) :=
  match public_identity_ownership plan_identity (al_plan_id a) (al_event_type a) (al_event_key a)
          (String.eqb (hy_text (Some (al_signal_id a))) lifecycle_id) false NA with
  | None => []
  | Some DIRECT_CURRENT_PLAN_PUBLIC_DELIVERY =>
      [([DIRECT_CURRENT_PLAN_PUBLIC_DELIVERY],
        delivery_state_reasons (al_telegram_status a) (al_delivery_state a) (al_sent_at a))]
  | Some AMBIGUOUS_UNPROVEN => [([AMBIGUOUS_UNPROVEN], ["ambiguous_public_delivery_identity"])]
  | Some owner => [([owner], [])]
  end.

(** a part of a delivery of the current plan *)
Definition assess_part (event : public_event) (part : delivery_part) : list DependencyOwnership * list string :=
  if negb (String.eqb (hy_text (Some (dp_event_key part))) (hy_text (Some (pe_event_key event))))
  then ([AMBIGUOUS_UNPROVEN], ["ambiguous_public_delivery_part_identity"])
  else ([], delivery_state_reasons NA (dp_delivery_state part) (dp_sent_at part)).

(** one event of the second loop *)
Definition assess_event (plan_identity : string) (parts : list delivery_part) (event : public_event)
    : list (list DependencyOwnership * list string) :=
  match public_identity_ownership plan_identity (pe_plan_id event) (pe_event_type event) (pe_event_key event)
          false true (pe_setup_family event) with
  | None => []
  | Some DIRECT_CURRENT_PLAN_PUBLIC_DELIVERY =>
      ([DIRECT_CURRENT_PLAN_PUBLIC_DELIVERY],
       delivery_state_reasons (pe_status event) (pe_delivery_state event) (pe_sent_at event))
      :: map (assess_part event) (List.filter (fun p => (dp_event_id p =? pe_id event)%Z) parts)
  | Some AMBIGUOUS_UNPROVEN => [([AMBIGUOUS_UNPROVEN], ["ambiguous_public_delivery_identity"])]
  | Some owner => [([owner], [])]
  end.

(** the attempts the query selects *)
Definition selected_attempts (s : hygiene_store) (lifecycle_id plan_identity symbol : string) : list alert_attempt :=
  List.filter (fun a => String.eqb (al_signal_id a) lifecycle_id || String.eqb (al_plan_id a) plan_identity
                        || like_prefix (plan_identity +:+ "|") (al_event_key a) || String.eqb (al_symbol a) symbol)
    (hs_attempts s).

(** the events the query selects *)
Definition selected_events (s : hygiene_store) (plan_identity symbol : string) : list public_event :=
  List.filter (fun e => String.eqb (pe_plan_id e) plan_identity || like_prefix (plan_identity +:+ "|") (pe_event_key e)
                        || String.eqb (pe_symbol e) symbol) (hs_public_events s).

(** [_public_delivery_assessment] *)
Definition public_delivery_assessment (s : hygiene_store) (record : SetupLifecycleRecord) (plan_identity : string)
    : DependencyAssessment :=
  let lifecycle_id := hy_text (Some (r_lifecycle_id record)) in
  let symbol := py_upper (hy_text (Some (r_symbol record))) in
  assessment
    (concat (map (assess_attempt lifecycle_id plan_identity) (selected_attempts s lifecycle_id plan_identity symbol))
     ++ concat (map (assess_event plan_identity (hs_parts s)) (selected_events s plan_identity symbol)))%list.

(** ** The audit *)

Record GeometryHygieneItem := {
  gi_lifecycle_id : string;
  gi_symbol : string;
  gi_mode : string;
  gi_current_state : string;
  gi_geometry_failure : string;
  gi_plan_identity : string;
  gi_setup_identity : string;
  gi_classification : string;
  gi_proposed_state : string;
  gi_reasons : list string;
  gi_dependency_ownership : list string
}.

#[export] Instance GeometryHygieneItem_eq_dec : EqDecision GeometryHygieneItem.
Proof. solve_decision. Defined.

Definition SAFE : string := "safe_to_quarantine".
Definition MANUAL : string := "requires_manual_review".
Definition PRESERVE : string := "historical_preserve".

(** a [GeometryHygieneItem] with the base fields of the record *)
Definition hygiene_item (record : SetupLifecycleRecord) (failure classification proposed : string)
    (reasons ownership : list string) : GeometryHygieneItem :=
  {| gi_lifecycle_id := hy_text (Some (r_lifecycle_id record));
     gi_symbol := py_upper (hy_text (Some (r_symbol record)));
     gi_mode := py_lower (hy_text (Some (r_mode record)));
     gi_current_state := py_upper (hy_text (Some (state_value (r_current_state record))));
     gi_geometry_failure := failure; gi_plan_identity := canonical_plan_identity record;
     gi_setup_identity := hy_text (Some (r_setup_identity record)); gi_classification := classification;
     gi_proposed_state := proposed; gi_reasons := reasons; gi_dependency_ownership := ownership |}.

(** what the tables say about a record *)
Definition record_assessment (s : hygiene_store) (record : SetupLifecycleRecord) (failure : string) : DependencyAssessment :=
  let plan_identity := canonical_plan_identity record in
  merge_assessments [outcome_progress_assessment (hs_db s) record plan_identity failure;
                     public_delivery_assessment s record plan_identity].

(** [_classify_record] *)
Definition classify_record (s : hygiene_store) (record : SetupLifecycleRecord) (failure : string) : GeometryHygieneItem :=
  let current_state := py_upper (hy_text (Some (state_value (r_current_state record)))) in
  let item := hygiene_item record failure in
  if str_in current_state DEPENDENCY_BLOCKING_STATES
  then item MANUAL NA ["execution_or_terminal_market_state"] [] else
  if negb (str_in current_state OUTCOME_ELIGIBLE_STATES)
  then item PRESERVE NA ("non_outcome_eligible_preserve_unchanged"
         :: when (String.eqb (hy_text (Some (r_failed_gate record))) QUARANTINE_REASON_CODE) "already_quarantined") [] else
  let assessed := record_assessment s record failure in
  let proposed := SAFE_QUARANTINE_TRANSITIONS current_state in
  let reasons :=
    (da_reasons assessed
     ++ when (match proposed with None => true | Some _ => false end) "execution_or_terminal_market_state"
     ++ when (negb (String.eqb (hy_status_key (Some (r_actionability_state record))) "not_a_grade_candidate"))
          "not_pre_public_not_a_grade_candidate")%list in
  let ownership := map ownership_value (da_ownership assessed) in
  let proposed_text := match proposed with Some p => state_value p | None => NA end in
  if nonempty_list reasons then item MANUAL proposed_text (dict_fromkeys reasons) ownership else
  match proposed, state_of_text current_state with
  | Some p, Some current =>
      if negb (transition_allowed (Some current) p)
      then item MANUAL proposed_text ["unexpected_illegal_quarantine_transition"] ownership
      else item SAFE proposed_text [] ownership
  | _, _ => item MANUAL proposed_text [] ownership
  end.

(** [GeometryHygieneItem.as_dict] *)
Definition item_json (i : GeometryHygieneItem) : json :=
  JObj [("lifecycle_id", JStr (gi_lifecycle_id i)); ("symbol", JStr (gi_symbol i)); ("mode", JStr (gi_mode i));
        ("current_state", JStr (gi_current_state i)); ("geometry_failure", JStr (gi_geometry_failure i));
        ("plan_identity", JStr (gi_plan_identity i)); ("setup_identity", JStr (gi_setup_identity i));
        ("classification", JStr (gi_classification i)); ("proposed_state", JStr (gi_proposed_state i));
        ("reasons", JArr (map JStr (gi_reasons i))); ("dependency_ownership", JArr (map JStr (gi_dependency_ownership i)))].

(** [_plan_fingerprint] *)
Definition plan_fingerprint (items : list GeometryHygieneItem) : string :=
  sha256_hexdigest (dumps (JArr (map item_json items))).

Record GeometryHygienePlan := {
  gp_schema_version : Z;
  gp_items : list GeometryHygieneItem;
  gp_fingerprint : string;
  gp_applied_count : nat
}.

Definition safe_to_quarantine (plan : GeometryHygienePlan) : list GeometryHygieneItem :=
  List.filter (fun i => String.eqb (gi_classification i) SAFE) (gp_items plan).

(** [ORDER BY lifecycle_id ASC] *)
Fixpoint insert_record_row (r : SetupLifecycleRecord) (l : list SetupLifecycleRecord) : list SetupLifecycleRecord :=
  match l with
  | [] => [r]
  | x :: rest => if String.leb (r_lifecycle_id r) (r_lifecycle_id x) then r :: l else x :: insert_record_row r rest
  end.

Definition records_by_id (l : list SetupLifecycleRecord) : list SetupLifecycleRecord := fold_right insert_record_row [] l.

(** the loop of the audit *)
Fixpoint audit_rows (s : hygiene_store) (rows : list SetupLifecycleRecord) : result (list GeometryHygieneItem) :=
  match rows with
  | [] => Ok []
  | row :: rest =>
      let! failure := stored_plan_geometry_failure row in
      let! others := audit_rows s rest in
      Ok (match failure with None => others | Some f => classify_record s row f :: others end)
  end.

(** ** Manifests *)

Record GeometryHygieneManifestItem := {
  gm_lifecycle_id : string;
  gm_current_plan_identity : string;
  gm_expected_state : string;
  gm_approved_transition : string
}.

Record GeometryHygieneManifest := {
  gm_schema_version : Z;
  gm_plan_fingerprint : string;
  gm_items : list GeometryHygieneManifestItem
}.

Definition manifest_item (item : GeometryHygieneItem) : GeometryHygieneManifestItem :=
  {| gm_lifecycle_id := gi_lifecycle_id item; gm_current_plan_identity := gi_plan_identity item;
     gm_expected_state := gi_current_state item; gm_approved_transition := gi_proposed_state item |}.

Definition build_geometry_hygiene_manifest (plan : GeometryHygienePlan) : GeometryHygieneManifest :=
  {| gm_schema_version := gp_schema_version plan; gm_plan_fingerprint := gp_fingerprint plan;
     gm_items := map manifest_item (safe_to_quarantine plan) |}.

Definition malformed_manifest : exn := LifecycleHygieneError "Lifecycle hygiene manifest is malformed.".

(** [int(value)] with the handler of [from_dict]; [OverflowError] is not handled *)
Definition manifest_int (value : json) : result Z :=
  match value with
  | JInt z => Ok z
  | JBool b => Ok (if b then 1 else 0)%Z
  | JStr s => match py_int s with Some z => Ok z | None => Raise malformed_manifest end
  | JFloat literal =>
      match parse_decimal literal with
      | Some (Finite d) => float_int d
      | Some (Infinity _) => Raise (OverflowError "cannot convert float infinity to integer")
      | _ => Raise malformed_manifest
      end
  | JNull | JArr _ | JObj _ => Raise malformed_manifest
  end.

(** [_text] of a decoded value *)
Definition json_text (value : json) : string :=
  match value with JNull => NA | _ => hy_text (Some (json_str value)) end.

(** [_required_manifest_text] *)
Definition required_manifest_text (value : list (string * json)) (key : string) : result string :=
  if negb (dict_mem key value)
  then Raise (LifecycleHygieneError ("Lifecycle hygiene manifest is missing " +:+ key +:+ ".")) else
  let normalized := json_text (json_get key value) in
  if String.eqb normalized NA
  then Raise (LifecycleHygieneError ("Lifecycle hygiene manifest " +:+ key +:+ " must not be N/A."))
  else Ok normalized.

(** [GeometryHygieneManifestItem.from_dict] with the handler of its caller: what is not an object has no items by name *)
Definition manifest_item_from (value : json) : result GeometryHygieneManifestItem :=
  match value with
  | JObj fields =>
      let! lifecycle_id := required_manifest_text fields "lifecycle_id" in
      let! identity := required_manifest_text fields "current_plan_identity" in
      let! expected := required_manifest_text fields "expected_state" in
      let! approved := required_manifest_text fields "approved_transition" in
      Ok {| gm_lifecycle_id := lifecycle_id; gm_current_plan_identity := identity;
            gm_expected_state := py_upper expected; gm_approved_transition := py_upper approved |}
  | _ => Raise (LifecycleHygieneError "Lifecycle hygiene manifest item is malformed.")
  end.

Fixpoint manifest_items_from (values : list json) : result (list GeometryHygieneManifestItem) :=
  match values with
  | [] => Ok []
  | value :: rest =>
      let! item := manifest_item_from value in
      let! items := manifest_items_from rest in
      Ok (item :: items)
  end.

(** [GeometryHygieneManifest.from_dict] *)
Definition manifest_from_dict (value : list (string * json)) : result GeometryHygieneManifest :=
  if negb (dict_mem "schema_version" value) then Raise malformed_manifest else
  let! schema_version := manifest_int (json_get "schema_version" value) in
  let! fingerprint := required_manifest_text value "plan_fingerprint" in
  if negb (dict_mem "items" value) then Raise malformed_manifest else
  match json_get "items" value with
  | JArr values =>
      let! items := manifest_items_from values in
      Ok {| gm_schema_version := schema_version; gm_plan_fingerprint := fingerprint; gm_items := items |}
  | _ => Raise (LifecycleHygieneError "Lifecycle hygiene manifest items must be a JSON list.")
  end.

(** [as_dict] of a manifest item and of a manifest *)
Definition manifest_item_json (i : GeometryHygieneManifestItem) : json :=
  JObj [("lifecycle_id", JStr (gm_lifecycle_id i)); ("current_plan_identity", JStr (gm_current_plan_identity i));
        ("expected_state", JStr (gm_expected_state i)); ("approved_transition", JStr (gm_approved_transition i))].

Definition manifest_json (m : GeometryHygieneManifest) : json :=
  JObj [("schema_version", JInt (gm_schema_version m)); ("plan_fingerprint", JStr (gm_plan_fingerprint m));
        ("items", JArr (map manifest_item_json (gm_items m)))].

(** [_load_manifest] of the repair script, on the text of the file *)
Definition load_manifest `{JsonErrors} (path text : string) : result GeometryHygieneManifest :=
  match loads text with
  | Raise _ => Raise (LifecycleHygieneError ("Unable to read lifecycle hygiene manifest: " +:+ path))
  | Ok (JObj fields) => manifest_from_dict fields
  | Ok _ => Raise (LifecycleHygieneError "Lifecycle hygiene manifest must be a JSON object.")
  end.

(** the first lifecycle a manifest repeats *)
Fixpoint repeated_lifecycle (seen : list string) (items : list GeometryHygieneManifestItem) : option string :=
  match items with
  | [] => None
  | item :: rest =>
      if str_in (gm_lifecycle_id item) seen then Some (gm_lifecycle_id item)
      else repeated_lifecycle (gm_lifecycle_id item :: seen) rest
  end.

(** [safe_by_lifecycle[id]]: the last item of that lifecycle *)
Definition safe_item (plan : GeometryHygienePlan) (id : string) : option GeometryHygieneItem :=
  List.find (fun i => String.eqb (gi_lifecycle_id i) id) (rev (safe_to_quarantine plan)).

(** the body of the loop over the approvals *)
Definition check_approval (plan : GeometryHygienePlan) (approved : GeometryHygieneManifestItem) : result unit :=
  let id := gm_lifecycle_id approved in
  let mismatch := Raise (LifecycleHygieneError
    ("Lifecycle hygiene manifest identity or transition mismatch for " +:+ id +:+ ".")) in
  match safe_item plan id with
  | None => mismatch
  | Some item =>
      if negb (String.eqb (gm_current_plan_identity approved) (gi_plan_identity item))
         || negb (String.eqb (gm_expected_state approved) (gi_current_state item))
         || negb (String.eqb (gm_approved_transition approved) (gi_proposed_state item))
      then mismatch else
      match state_of_text (gm_expected_state approved), state_of_text (gm_approved_transition approved) with
      | Some current, Some proposed =>
          if transition_allowed (Some current) proposed then Ok tt
          else Raise (LifecycleHygieneError ("Lifecycle hygiene manifest transition is illegal for " +:+ id +:+ "."))
      | _, _ =>
          Raise (LifecycleHygieneError ("Lifecycle hygiene manifest contains an unknown state for " +:+ id +:+ "."))
      end
  end.

Fixpoint check_approvals (plan : GeometryHygienePlan) (items : list GeometryHygieneManifestItem) : result unit :=
  match items with
  | [] => Ok tt
  | item :: rest => let! _ := check_approval plan item in check_approvals plan rest
  end.

Definition validate_geometry_hygiene_manifest (plan : GeometryHygienePlan) (manifest : GeometryHygieneManifest)
    : result GeometryHygieneManifest :=
  if negb (gm_schema_version manifest =? gp_schema_version plan)%Z
  then Raise (LifecycleHygieneError "Lifecycle hygiene manifest schema version does not match the audit.") else
  if negb (String.eqb (gm_plan_fingerprint manifest) (gp_fingerprint plan))
  then Raise (LifecycleHygieneError "Lifecycle hygiene manifest fingerprint does not match the audit.") else
  match repeated_lifecycle [] (gm_items manifest) with
  | Some id => Raise (LifecycleHygieneError ("Lifecycle hygiene manifest repeats lifecycle " +:+ id +:+ "."))
  | None =>
      if negb (same_texts (map gm_lifecycle_id (gm_items manifest)) (map gi_lifecycle_id (safe_to_quarantine plan)))
      then Raise (LifecycleHygieneError "Lifecycle hygiene manifest must exactly cover the audited safe quarantine set.")
      else let! _ := check_approvals plan (gm_items manifest) in Ok manifest
  end.

(** ** The quarantine *)

(** the [IS ?] predicates of the conditional update *)
Definition plan_columns (r : SetupLifecycleRecord) : list string :=
  [r_symbol r; r_mode r; r_direction r; r_entry_low r; r_entry_high r; r_stop_loss r; r_tp1 r; r_tp2 r; r_tp3 r;
   r_invalidation_logic r; r_invalidation_reason r; r_setup_identity r].

Definition update_matches (item : GeometryHygieneItem) (record row : SetupLifecycleRecord) : bool :=
  String.eqb (r_lifecycle_id row) (gi_lifecycle_id item)
  && String.eqb (state_value (r_current_state row)) (gi_current_state item)
  && bool_decide (plan_columns row = plan_columns record).

(** the [SET] clause *)
Definition quarantine_row (updated row : SetupLifecycleRecord) : SetupLifecycleRecord :=
  row <| r_current_state := r_current_state updated |> <| r_previous_state := r_previous_state updated |>
      <| r_last_seen_at := r_last_seen_at updated |> <| r_last_transition_at := r_last_transition_at updated |>
      <| r_failed_gate := r_failed_gate updated |> <| r_cooldown_until := r_cooldown_until updated |>
      <| r_archived_at := r_archived_at updated |>.

(** [value in (None, "", "N/A")] *)
Definition unattributed (epoch : option string) : bool :=
  match epoch with None => true | Some e => String.eqb e "" || String.eqb e NA end.

(** the arguments of [transition_record] *)
Definition quarantine_args (timestamp failure : string) : transition_args :=
  {| ta_reason := LEGACY_INVALID_STORED_PLAN_GEOMETRY; ta_now := Some timestamp; ta_scan_run_id := None;
     ta_readiness_score := None; ta_quality_score := None; ta_failed_gate := Some QUARANTINE_REASON_CODE;
     ta_notes := QUARANTINE_REASON_CODE +:+ ":" +:+ failure |}.

(** the write of [_apply_item]: the conditional update and the event *)
Definition write_quarantine (item : GeometryHygieneItem) (record updated : SetupLifecycleRecord)
    (event : SetupLifecycleEvent) (s : hygiene_store) : result hygiene_store :=
  let db := hs_db s in
  if negb (length (List.filter (update_matches item record) (db_records db)) =? 1)%nat
  then Raise (LifecycleHygieneError ("Lifecycle " +:+ gi_lifecycle_id item +:+ " conditional update was not applied.")) else
  let db := db <| db_records := update_row (update_matches item record) (quarantine_row updated) (db_records db) |> in
  let! (_, db) := insert_event event db in
  Ok (s <| hs_db := db |>).

(** [_apply_item] *)
Definition apply_item (clock timestamp : string) (item : GeometryHygieneItem) (approved : GeometryHygieneManifestItem)
    (s : hygiene_store) : result hygiene_store :=
  let id := gi_lifecycle_id item in
  let error (text : string) := LifecycleHygieneError ("Lifecycle " +:+ id +:+ text) in
  match record_row_of (hs_db s) id with
  | None => Raise (error " no longer exists.")
  | Some row =>
      if unattributed (r_runtime_epoch_id row)
      then Raise (error " is legacy or unattributed and cannot be mutated by hygiene.") else
      let! failure := stored_plan_geometry_failure row in
      match failure with
      | None => Raise (error " geometry is no longer malformed.")
      | Some failure =>
          let fresh := classify_record s row failure in
          if negb (bool_decide (fresh = item)) || negb (String.eqb (gi_classification fresh) SAFE)
          then Raise (error " preconditions changed immediately before write.") else
          if negb (String.eqb (gm_lifecycle_id approved) (gi_lifecycle_id fresh))
             || negb (String.eqb (gm_current_plan_identity approved) (gi_plan_identity fresh))
             || negb (String.eqb (gm_expected_state approved) (gi_current_state fresh))
             || negb (String.eqb (gm_approved_transition approved) (gi_proposed_state fresh))
          then Raise (error " is not approved by the manifest.") else
          let! record := get_record_by_lifecycle_id (hs_db s) id in
          match record, state_of_text (gi_proposed_state item) with
          | None, _ => Raise (error " no longer exists.")
          | _, None => Raise (ValueError (gi_proposed_state item +:+ " is not a valid SetupLifecycleState"))
          | Some record, Some proposed =>
              if negb (transition_allowed (Some (r_current_state record)) proposed)
              then Raise (error " transition is no longer legal.") else
              let! transition := transition_record clock record proposed (quarantine_args timestamp failure) in
              match tr_transitioned transition, tr_event transition, tr_record transition with
              | true, Some event, Some updated => write_quarantine item record updated event s
              | _, _, _ => Raise (error " could not make the planned legal transition.")
              end
          end
      end
  end.

(** [approvals[item.lifecycle_id]]: the last approval of that lifecycle *)
Definition approval_of (manifest : GeometryHygieneManifest) (id : string) : option GeometryHygieneManifestItem :=
  List.find (fun a => String.eqb (gm_lifecycle_id a) id) (rev (gm_items manifest)).

Fixpoint apply_items (clock timestamp : string) (manifest : GeometryHygieneManifest) (items : list GeometryHygieneItem)
    (s : hygiene_store) : result hygiene_store :=
  match items with
  | [] => Ok s
  | item :: rest =>
      match approval_of manifest (gi_lifecycle_id item) with
      | None => Raise (RuntimeError ("KeyError: " +:+ gi_lifecycle_id item))
      | Some approved =>
          let! s := apply_item clock timestamp item approved s in
          apply_items clock timestamp manifest rest s
      end
  end.

Section Sqlite.
Variable sqlite : hygiene_store -> sqlite_answers.

(** [sorted(required - present)] is not empty *)
Definition missing_names (required present : list string) : bool := negb (forallb (fun n => str_in n present) required).

(** [validate_lifecycle_hygiene_preflight] *)
Definition validate_lifecycle_hygiene_preflight (s : hygiene_store) : result unit :=
  let answers := sqlite s in
  let version := default (-1)%Z (sq_user_version answers) in
  if negb (version =? SCHEMA_VERSION)%Z
  then Raise (LifecycleHygieneError ("Lifecycle hygiene requires schema v" +:+ string_of_Z SCHEMA_VERSION +:+ "; found v"
                                       +:+ string_of_Z version +:+ ".")) else
  let missing present := List.filter (fun n => negb (str_in n present)) in
  if missing_names REQUIRED_TABLES (sq_tables answers)
  then Raise (LifecycleHygieneError ("Lifecycle hygiene required tables are missing: "
                +:+ py_join ", " (map fst (sorted_items (map (fun n => (n, tt)) (missing (sq_tables answers) REQUIRED_TABLES)))))) else
  if missing_names REQUIRED_INDEXES (sq_indexes answers)
  then Raise (LifecycleHygieneError ("Lifecycle hygiene required indexes are missing: "
                +:+ py_join ", " (map fst (sorted_items (map (fun n => (n, tt)) (missing (sq_indexes answers) REQUIRED_INDEXES)))))) else
  if negb (bool_decide (sq_quick_check answers = ["ok"])) || negb (bool_decide (sq_integrity_check answers = ["ok"]))
     || negb (sq_foreign_key_check answers =? 0)%nat
  then Raise (LifecycleHygieneError "SQLite preflight failed; no lifecycle changes were applied.")
  else Ok tt.

Definition audit_invalid_lifecycle_geometry (s : hygiene_store) : result GeometryHygienePlan :=
  let! _ := validate_lifecycle_hygiene_preflight s in
  let! items := audit_rows s (records_by_id (db_records (hs_db s))) in
  Ok {| gp_schema_version := SCHEMA_VERSION; gp_items := items; gp_fingerprint := plan_fingerprint items;
        gp_applied_count := 0 |}.

(** a raised exception rolls the transaction back; the check after the commit sees the store of the check before it *)
Definition apply_invalid_lifecycle_geometry_quarantine (in_transaction : bool) (plan : GeometryHygienePlan)
    (manifest : GeometryHygieneManifest) (now : option string) (clock : string) (s : hygiene_store)
    : result (GeometryHygienePlan * hygiene_store) :=
  let timestamp := timestamp_or now clock in
  let! approved := validate_geometry_hygiene_manifest plan manifest in
  if in_transaction then Raise (LifecycleHygieneError "Lifecycle hygiene apply requires a clean connection.") else
  let! current := audit_invalid_lifecycle_geometry s in
  if negb (String.eqb (gp_fingerprint current) (gp_fingerprint plan))
  then Raise (LifecycleHygieneError "Lifecycle hygiene plan is stale; audit again before applying any quarantine.") else
  let! approved := validate_geometry_hygiene_manifest current approved in
  let! s' := apply_items clock timestamp approved (safe_to_quarantine current) s in
  let! _ := validate_lifecycle_hygiene_preflight s' in
  let! _ := validate_lifecycle_hygiene_preflight s' in
  Ok ({| gp_schema_version := gp_schema_version current; gp_items := gp_items current;
         gp_fingerprint := gp_fingerprint current; gp_applied_count := length (safe_to_quarantine current) |}, s').

(** [repair_database] of the repair script; a manifest is an object or a decoded mapping *)
Definition repair_database (in_transaction apply : bool) (manifest : option (GeometryHygieneManifest + list (string * json)))
    (limit : option Z) (clock : string) (s : hygiene_store) : result (GeometryHygienePlan * hygiene_store) :=
  match limit with
  | Some _ => Raise (LifecycleHygieneError "Lifecycle geometry quarantine always audits the complete database.")
  | None =>
      let! plan := audit_invalid_lifecycle_geometry s in
      if negb apply then Ok (plan, s) else
      match manifest with
      | None =>
          Raise (LifecycleHygieneError "Lifecycle geometry quarantine apply requires an explicit reviewed manifest.")
      | Some given =>
          let! manifest := match given with inl m => Ok m | inr fields => manifest_from_dict fields end in
          apply_invalid_lifecycle_geometry_quarantine in_transaction plan manifest None clock s
      end
  end.
End Sqlite.
