(* ===== verification/HygieneProps.v ===== *)
(** * Properties of the quarantine

    What a record that is safe to quarantine may not have, what an applied
    quarantine changes, that a second audit finds nothing left, and which
    manifests are accepted. *)

From stdpp Require Import base tactics list strings.
From Stdlib Require Import ZArith NArith Lia ZifyN ZifyNat Bool Ascii.
From S2P Require Import Prelude PyString PyDecimal Sha256 PyJson JsonText LifecycleModels OutcomePolicy DynRecord Observation StateMachine StateMachineFacts JsonFacts RuntimeEpoch LifecycleRepository Hygiene.
Open Scope string_scope.
Open Scope py_scope.

(** ** Text *)

Lemma state_text st : py_upper (hy_text (Some (state_value st))) = state_value st.
Proof. by destruct st. Qed.

Lemma state_of_value st : state_of_text (state_value st) = Some st.
Proof. by destruct st. Qed.

Lemma hy_text_strip v : py_strip (hy_text v) = hy_text v.
Proof. destruct v as [s|]; [|done]. unfold hy_text. case_match; [apply py_strip_idem|done]. Qed.

Lemma hy_text_nonempty v : hy_text v <> "".
Proof.
  destruct v as [s|]; [|done]. unfold hy_text. case_match eqn:E; [|done].
  apply andb_true_iff in E as [E _]. by destruct (String.eqb_spec (py_strip s) "").
Qed.

Lemma hy_text_fix s : py_strip s = s -> s <> "" -> py_upper s <> NA -> hy_text (Some s) = s.
Proof.
  intros Hs H0 Hn. unfold hy_text. rewrite Hs. by rewrite (proj2 (String.eqb_neq _ _) H0), (proj2 (String.eqb_neq _ _) Hn).
Qed.

(** ** Safe records *)

Lemma concat_nil {A} (l : list (list A)) : concat l = [] <-> Forall (fun x => x = []) l.
Proof.
  induction l as [|x l IH]; [done|]. cbn [concat]. split.
  - intros [-> Hl]%app_eq_nil. constructor; [done|]. by apply IH.
  - intros [-> Hl]%Forall_cons. by apply IH.
Qed.

(** an assessment without reasons has findings without reasons *)
Lemma assessment_clean found : da_reasons (assessment found) = [] -> Forall (fun f => snd f = []) found.
Proof.
  unfold assessment. cbn [da_reasons]. intros H%dict_fromkeys_nil%concat_nil. by apply Forall_map in H.
Qed.

Lemma record_assessment_clean s row f : da_reasons (record_assessment s row f) = [] ->
  da_reasons (outcome_progress_assessment (hs_db s) row (canonical_plan_identity row) f) = [] /\
  da_reasons (public_delivery_assessment s row (canonical_plan_identity row)) = [].
Proof. intros H%assessment_clean. cbn [map] in H. decompose_Forall_hyps. done. Qed.

(** the states a record can be quarantined from, and where it goes *)
Definition quarantine_target (st : SetupLifecycleState) : option SetupLifecycleState :=
  SAFE_QUARANTINE_TRANSITIONS (state_value st).

Lemma quarantine_target_allowed st p : quarantine_target st = Some p -> transition_allowed (Some st) p = true.
Proof. by destruct st; intros [= <-]. Qed.

Lemma quarantine_target_once st p : quarantine_target st = Some p -> quarantine_target p = None.
Proof. by destruct st; intros [= <-]. Qed.

Lemma classify_safe s row f : gi_classification (classify_record s row f) = SAFE ->
  exists p, quarantine_target (r_current_state row) = Some p /\
    gi_proposed_state (classify_record s row f) = state_value p /\
    da_reasons (record_assessment s row f) = [] /\
    hy_status_key (Some (r_actionability_state row)) = "not_a_grade_candidate".
Proof.
  unfold classify_record. rewrite state_text, state_of_value.
  destruct (str_in (state_value (r_current_state row)) DEPENDENCY_BLOCKING_STATES); [done|].
  destruct (negb (str_in (state_value (r_current_state row)) OUTCOME_ELIGIBLE_STATES)); [done|].
  case_match eqn:Hn; [done|]. fold (quarantine_target (r_current_state row)) in *.
  unfold nonempty_list in Hn. case_match eqn:Hr; [|done]. apply app_eq_nil in Hr as [Hr [Hp Ha]%app_eq_nil].
  destruct (quarantine_target (r_current_state row)) as [p|]; [|done].
  case_match; [done|]. intros _. exists p. split_and!; try done.
  apply when_nil in Ha. by destruct (String.eqb_spec (hy_status_key (Some (r_actionability_state row))) "not_a_grade_candidate").
Qed.

Lemma classify_fields s row f :
  gi_lifecycle_id (classify_record s row f) = hy_text (Some (r_lifecycle_id row)) /\
  gi_current_state (classify_record s row f) = state_value (r_current_state row) /\
  gi_plan_identity (classify_record s row f) = canonical_plan_identity row.
Proof. unfold classify_record. repeat case_match; (split_and!; [reflexivity|apply state_text|reflexivity]). Qed.

(** the classification reads only the progress and the alert tables *)
Definition same_dependencies (s s' : hygiene_store) : Prop :=
  db_progress (hs_db s') = db_progress (hs_db s) /\ hs_attempts s' = hs_attempts s /\
  hs_public_events s' = hs_public_events s /\ hs_parts s' = hs_parts s.

Lemma classify_same s s' row f : same_dependencies s s' -> classify_record s' row f = classify_record s row f.
Proof.
  intros (Hp & Ha & He & Hd). unfold classify_record.
  assert (record_assessment s' row f = record_assessment s row f) as ->; [|done].
  unfold record_assessment, outcome_progress_assessment, public_delivery_assessment, selected_attempts, selected_events.
  by rewrite Hp, Ha, He, Hd.
Qed.

(** ** One quarantined record *)

(** a record moved to its quarantine state at [timestamp]; nothing of its plan changes *)
Definition quarantined (timestamp : string) (row : SetupLifecycleRecord) : SetupLifecycleRecord :=
  match quarantine_target (r_current_state row) with
  | None => row
  | Some p => row <| r_current_state := p |> <| r_previous_state := Some (r_current_state row) |>
                  <| r_last_seen_at := timestamp |> <| r_last_transition_at := timestamp |>
                  <| r_failed_gate := QUARANTINE_REASON_CODE |> <| r_cooldown_until := None |>
  end.

Lemma quarantined_id t row : r_lifecycle_id (quarantined t row) = r_lifecycle_id row.
Proof. unfold quarantined. by case_match. Qed.

Lemma quarantined_once t row : quarantine_target (r_current_state (quarantined t row)) = None.
Proof. unfold quarantined. case_match eqn:E; [|done]. cbn. by apply quarantine_target_once in E. Qed.

Lemma quarantined_idem t row : quarantined t (quarantined t row) = quarantined t row.
Proof. unfold quarantined at 1. by rewrite quarantined_once. Qed.

(** the records after the quarantine of some lifecycles *)
Definition quarantine_ids (t : string) (ids : list string) (row : SetupLifecycleRecord) : SetupLifecycleRecord :=
  if str_in (r_lifecycle_id row) ids then quarantined t row else row.

Lemma quarantine_ids_id t ids row : r_lifecycle_id (quarantine_ids t ids row) = r_lifecycle_id row.
Proof. unfold quarantine_ids. case_match; [apply quarantined_id|done]. Qed.

Lemma quarantine_ids_cons t id ids row :
  quarantine_ids t ids (quarantine_ids t [id] row) = quarantine_ids t (id :: ids) row.
Proof.
  unfold quarantine_ids at 1. rewrite quarantine_ids_id. unfold quarantine_ids, str_in. cbn [existsb]. rewrite orb_false_r.
  destruct (String.eqb (r_lifecycle_id row) id), (existsb (String.eqb (r_lifecycle_id row)) ids); cbn [orb]; try done.
  apply quarantined_idem.
Qed.

(** the event of a quarantine *)
Definition quarantine_event (item : GeometryHygieneItem) (e : SetupLifecycleEvent) : Prop :=
  ev_lifecycle_id e = gi_lifecycle_id item /\ option_map state_value (ev_from_state e) = Some (gi_current_state item) /\
  state_value (ev_to_state e) = gi_proposed_state item /\ ev_reason e = LEGACY_INVALID_STORED_PLAN_GEOMETRY /\
  ev_failed_gate e = QUARANTINE_REASON_CODE.

Lemma record_from_row_keeps row record : record_from_row row = Ok record ->
  r_lifecycle_id record = r_lifecycle_id row /\ r_current_state record = r_current_state row /\
  r_archived_at record = r_archived_at row.
Proof.
  intros Hrec. unfold record_from_row, validate_record in Hrec. apply bind_ok in Hrec as (sym & _ & Hrec).
  destruct (negb _) in Hrec; [discriminate Hrec|]. apply ok_inj in Hrec as <-. split_and!; reflexivity.
Qed.

Lemma quarantine_row_eq t updated row p : quarantine_target (r_current_state row) = Some p ->
  r_current_state updated = p -> r_previous_state updated = Some (r_current_state row) -> r_last_seen_at updated = t ->
  r_last_transition_at updated = t -> r_failed_gate updated = QUARANTINE_REASON_CODE -> r_cooldown_until updated = None ->
  r_archived_at updated = r_archived_at row -> quarantine_row updated row = quarantined t row.
Proof.
  intros Hp H1 H2 H3 H4 H5 H6 H7. unfold quarantine_row, quarantined. rewrite Hp, H1, H2, H3, H4, H5, H6, H7.
  by destruct row.
Qed.

Lemma quarantine_cooldown record st p t : quarantine_target st = Some p -> cooldown_until record p t = Ok None.
Proof. by destruct st; intros [= <-]. Qed.

Lemma quarantine_gate record st p : quarantine_target st = Some p ->
  transition_failed_gate record p (Some QUARANTINE_REASON_CODE) = QUARANTINE_REASON_CODE.
Proof. by destruct st; intros [= <-]. Qed.

Lemma quarantine_not_archived st p : quarantine_target st = Some p -> state_eqb p ARCHIVED = false.
Proof. by destruct st; intros [= <-]. Qed.

(** the transition of a validated record *)
Lemma quarantine_transition clock t row record p failure res :
  record_from_row row = Ok record -> quarantine_target (r_current_state row) = Some p ->
  transition_record clock record p (quarantine_args t failure) = Ok res -> tr_transitioned res = true ->
  exists event updated, tr_event res = Some event /\ tr_record res = Some updated /\
    quarantine_row updated row = quarantined (timestamp_or (Some t) clock) row /\
    ev_lifecycle_id event = r_lifecycle_id row /\ ev_from_state event = Some (r_current_state row) /\
    ev_to_state event = p /\ ev_reason event = LEGACY_INVALID_STORED_PLAN_GEOMETRY /\
    ev_failed_gate event = QUARANTINE_REASON_CODE.
Proof.
  intros (Hid & Hcur & Harch)%record_from_row_keeps Hp Htr Hmoved.
  apply transition_record_outcome in Htr. destruct Htr as [| |res _ _ _ Hres]; [discriminate Hmoved..|].
  unfold moved_result in Hres. apply bind_ok in Hres as (event & Hev & Hres). apply bind_ok in Hres as (cooldown & Hcd & Hres).
  rewrite (quarantine_cooldown _ _ _ _ Hp) in Hcd. apply ok_inj in Hcd as <-.
  rewrite (quarantine_not_archived _ _ Hp) in Hres. apply ok_inj in Hres as <-.
  unfold validate_event in Hev. apply bind_ok in Hev as (sym & _ & Hev).
  destruct (negb _) in Hev; [discriminate Hev|]. apply ok_inj in Hev as <-.
  cbn [tr_event tr_record ta_failed_gate quarantine_args]. rewrite (quarantine_gate _ _ _ Hp).
  eexists _, _. split; [reflexivity|]. split; [reflexivity|].
  split; [apply (quarantine_row_eq _ _ _ p Hp); try reflexivity; cbn; congruence|].
  cbn. by rewrite Hid, Hcur.
Qed.

(** ** The transaction *)

Definition record_ids (s : hygiene_store) : list string := map r_lifecycle_id (db_records (hs_db s)).

(** [find] by primary key *)
Lemma record_row_unique s id row r : NoDup (record_ids s) -> record_row_of (hs_db s) id = Some row ->
  In r (db_records (hs_db s)) -> r_lifecycle_id r = id -> r = row.
Proof.
  unfold record_ids, record_row_of. induction (db_records (hs_db s)) as [|x l IH]; [done|]. cbn [map find].
  intros [Hx Hnd]%NoDup_cons Hf Hin Hid. destruct (String.eqb_spec (r_lifecycle_id x) id) as [Hxid|Hxid].
  - injection Hf as <-. destruct Hin as [->|Hin]; [done|]. destruct Hx. rewrite Hxid, <- Hid.
    by apply list_elem_of_In, in_map.
  - destruct Hin as [->|Hin]; [done|]. by apply IH.
Qed.

Lemma record_row_in db id row : record_row_of db id = Some row -> In row (db_records db) /\ r_lifecycle_id row = id.
Proof. intros [Hin Hid%String.eqb_eq]%find_some. done. Qed.

(** a write touches one record and the events *)
Record written (t : string) (item : GeometryHygieneItem) (s s' : hygiene_store) : Prop := {
  w_deps : same_dependencies s s';
  w_control : db_control (hs_db s') = db_control (hs_db s);
  w_epochs : db_epochs (hs_db s') = db_epochs (hs_db s);
  w_origins : db_origins (hs_db s') = db_origins (hs_db s);
  w_runs : db_runs (hs_db s') = db_runs (hs_db s);
  w_analytics : db_analytics (hs_db s') = db_analytics (hs_db s);
  w_records : db_records (hs_db s') = map (quarantine_ids t [gi_lifecycle_id item]) (db_records (hs_db s));
  w_events : exists event, db_events (hs_db s') = (db_events (hs_db s) ++ [event])%list /\ quarantine_event item event
}.

Lemma update_matches_unique s item record row : NoDup (record_ids s) ->
  record_row_of (hs_db s) (gi_lifecycle_id item) = Some row ->
  length (List.filter (update_matches item record) (db_records (hs_db s))) = 1%nat ->
  forall r, In r (db_records (hs_db s)) ->
    update_matches item record r = String.eqb (r_lifecycle_id r) (gi_lifecycle_id item) /\
    (update_matches item record r = true -> r = row).
Proof.
  intros Hnd Hrow Hlen. assert (forall r, In r (db_records (hs_db s)) -> update_matches item record r = true -> r = row) as Hu.
  { intros r Hin Hm. unfold update_matches in Hm. apply andb_true_iff in Hm as [[Hm%String.eqb_eq _]%andb_true_iff _].
    eapply record_row_unique; eauto. }
  assert (update_matches item record row = true) as Hmatch.
  { destruct (List.filter (update_matches item record) (db_records (hs_db s))) as [|x l] eqn:E; [done|].
    assert (In x (List.filter (update_matches item record) (db_records (hs_db s)))) as [Hin Hm]%filter_In
      by (rewrite E; by left). by rewrite <- (Hu x Hin Hm). }
  intros r Hin. split; [|by apply Hu]. destruct (String.eqb_spec (r_lifecycle_id r) (gi_lifecycle_id item)) as [He|He].
  - by rewrite (record_row_unique s _ row r Hnd Hrow Hin He).
  - unfold update_matches. by rewrite (proj2 (String.eqb_neq _ _) He).
Qed.

Lemma insert_event_run event db u db' : insert_event event db = Ok (u, db') ->
  db' = db <| db_events := (db_events db ++ [event])%list |>.
Proof.
  unfold insert_event. intros H. apply bind_ok in H as (r & _ & H). destruct (negb _) in H; [discriminate|].
  by apply ok_inj in H as [= _ <-].
Qed.

Lemma hy_text_lookup v : hy_text v <> NA -> lifecycle_id_text (hy_text v) = hy_text v.
Proof.
  intros. unfold lifecycle_id_text. rewrite hy_text_strip.
  by rewrite (proj2 (String.eqb_neq _ _) (hy_text_nonempty v)).
Qed.

Lemma apply_item_run clock t item approved s s' : NoDup (record_ids s) ->
  apply_item clock t item approved s = Ok s' ->
  exists row failure, In row (db_records (hs_db s)) /\ r_lifecycle_id row = gi_lifecycle_id item /\
    stored_plan_geometry_failure row = Ok (Some failure) /\ classify_record s row failure = item /\
    gi_classification item = SAFE /\ written (timestamp_or (Some t) clock) item s s'.
Proof.
  intros Hnd. unfold apply_item.
  destruct (record_row_of (hs_db s) (gi_lifecycle_id item)) as [row|] eqn:Hrow; [|discriminate].
  destruct (unattributed (r_runtime_epoch_id row)); [discriminate|]. intros H. apply bind_ok in H as (failure & Hf & H).
  destruct failure as [failure|]; [|discriminate].
  destruct (negb (bool_decide (classify_record s row failure = item)) || _) eqn:Hfresh; [discriminate|].
  apply orb_false_iff in Hfresh as [Hitem%negb_false_iff%bool_decide_eq_true Hsafe%negb_false_iff%String.eqb_eq].
  destruct (_ || _) in H; [discriminate|]. apply bind_ok in H as (record & Hrec & H).
  destruct record as [record|]; [|discriminate].
  destruct (state_of_text (gi_proposed_state item)) as [proposed|] eqn:Hprop; [|discriminate].
  destruct (negb _) in H; [discriminate|]. apply bind_ok in H as (res & Htr & H).
  destruct (tr_transitioned res) eqn:Hmoved; [|discriminate].
  destruct (record_row_in _ _ _ Hrow) as [Hin Hid].
  destruct (classify_safe _ _ _ Hsafe) as (p & Hp & Hpt & _). destruct (classify_fields s row failure) as (Hcid & Hcst & _).
  rewrite Hitem in Hsafe, Hpt, Hcid, Hcst. rewrite Hpt, state_of_value in Hprop. injection Hprop as <-.
  assert (record_from_row row = Ok record) as Hfrom.
  { unfold get_record_by_lifecycle_id in Hrec. destruct (String.eqb_spec (lifecycle_id_text (gi_lifecycle_id item)) NA) as [|Hna];
      [discriminate|].
    rewrite Hcid in Hna, Hrow, Hrec. rewrite hy_text_lookup in Hrec, Hna.
    - rewrite Hrow in Hrec. apply bind_ok in Hrec as (r & Hr & [= ->]). done.
    - intros Hn. by rewrite Hn in Hna.
    - intros Hn. by rewrite Hn in Hna. }
  destruct (quarantine_transition _ _ _ _ _ _ _ Hfrom Hp Htr Hmoved) as
    (event & updated & Hev & Hup & Hq & He1 & He2 & He3 & He4 & He5). rewrite Hev, Hup in H.
  exists row, failure. split_and!; try done.
  unfold write_quarantine in H. destruct (Nat.eqb_spec (length (List.filter (update_matches item record) (db_records (hs_db s)))) 1)
    as [Hlen|]; [|discriminate]. cbn [negb] in H.
  apply bind_ok in H as ([u db'] & Hins & H). apply ok_inj in H as <-. apply insert_event_run in Hins as ->.
  pose proof (update_matches_unique s item record row Hnd Hrow Hlen) as Hm.
  split; try reflexivity; [by repeat split| |].
  - change (update_row (update_matches item record) (quarantine_row updated) (db_records (hs_db s))
            = map (quarantine_ids (timestamp_or (Some t) clock) [gi_lifecycle_id item]) (db_records (hs_db s))).
    apply map_ext_in. intros r Hr. destruct (Hm r Hr) as [Hmr Hrr]. unfold quarantine_ids, str_in. cbn [existsb].
    rewrite orb_false_r, <- Hmr. destruct (update_matches item record r); [|done]. by rewrite (Hrr eq_refl).
  - exists event. split; [reflexivity|]. unfold quarantine_event. rewrite He1, He2, He3. cbn [option_map].
    rewrite Hid, Hcst, Hpt. done.
Qed.

(** the record an item was made from *)
Definition classified (s : hygiene_store) (item : GeometryHygieneItem) : Prop :=
  exists row failure, In row (db_records (hs_db s)) /\ r_lifecycle_id row = gi_lifecycle_id item /\
    stored_plan_geometry_failure row = Ok (Some failure) /\ classify_record s row failure = item /\
    gi_classification item = SAFE.

(** what the quarantine of some items does to a store *)
Record quarantine_effect (t : string) (items : list GeometryHygieneItem) (s s' : hygiene_store) : Prop := {
  q_deps : same_dependencies s s';
  q_control : db_control (hs_db s') = db_control (hs_db s);
  q_epochs : db_epochs (hs_db s') = db_epochs (hs_db s);
  q_origins : db_origins (hs_db s') = db_origins (hs_db s);
  q_runs : db_runs (hs_db s') = db_runs (hs_db s);
  q_analytics : db_analytics (hs_db s') = db_analytics (hs_db s);
  q_records : db_records (hs_db s') = map (quarantine_ids t (map gi_lifecycle_id items)) (db_records (hs_db s));
  q_items : Forall (classified s) items;
  q_events : exists new, db_events (hs_db s') = (db_events (hs_db s) ++ new)%list /\ Forall2 quarantine_event items new
}.

Lemma quarantine_ids_nil t l : map (quarantine_ids t []) l = l.
Proof. induction l as [|x l IH]; [done|]. cbn [map]. by rewrite IH. Qed.

Lemma record_ids_written t item s s' : written t item s s' -> record_ids s' = record_ids s.
Proof.
  intros Hw. unfold record_ids. rewrite (w_records _ _ _ _ Hw), map_map.
  apply map_ext. intros. apply quarantine_ids_id.
Qed.

Lemma same_dependencies_trans s1 s2 s3 : same_dependencies s1 s2 -> same_dependencies s2 s3 -> same_dependencies s1 s3.
Proof. unfold same_dependencies. naive_solver congruence. Qed.

(** a record that is safe after a write was safe, and the same, before it *)
Lemma classified_before t item s s' x : written t item s s' -> classified s' x -> classified s x.
Proof.
  intros Hw (row & f & Hin & Hid & Hf & Hc & Hs). rewrite (w_records _ _ _ _ Hw) in Hin.
  apply in_map_iff in Hin as (r & Hr & Hin).
  assert (row = r) as ->.
  { rewrite <- Hc in Hs. destruct (classify_safe _ _ _ Hs) as (p & Hp & _).
    unfold quarantine_ids in Hr. destruct (str_in (r_lifecycle_id r) [gi_lifecycle_id item]); [|done].
    by rewrite <- Hr, quarantined_once in Hp. }
  exists r, f. split_and!; try done. rewrite <- Hc. symmetry. apply classify_same, (w_deps _ _ _ _ Hw).
Qed.

Lemma apply_items_run clock t manifest items : forall s s', NoDup (record_ids s) ->
  apply_items clock t manifest items s = Ok s' -> quarantine_effect (timestamp_or (Some t) clock) items s s'.
Proof.
  induction items as [|item items IH]; intros s s' Hnd; cbn [apply_items].
  { intros [= <-]. split; try done; [by rewrite quarantine_ids_nil|]. exists []. by rewrite app_nil_r. }
  destruct (approval_of manifest (gi_lifecycle_id item)) as [approved|]; [|discriminate].
  intros H. apply bind_ok in H as (s1 & H1 & H).
  apply apply_item_run in H1 as (row & f & Hin & Hid & Hf & Hc & Hs & Hw); [|done].
  apply IH in H; [|by rewrite (record_ids_written _ _ _ _ Hw)].
  destruct Hw as [Wd Wc We Wo Wr Wa Wrec (e & Wev & We')] eqn:Ew. destruct H as [Qd Qc Qe Qo Qr Qa Qrec Qi (new & Qev & Qnew)].
  split; try congruence.
  - by eapply same_dependencies_trans.
  - rewrite Qrec, Wrec, map_map. apply map_ext. intros r. apply quarantine_ids_cons.
  - constructor; [by exists row, f|]. eapply Forall_impl; [exact Qi|]. intros x. exact (classified_before _ _ _ _ x Hw).
  - exists (e :: new). split; [by rewrite Qev, Wev, <- app_assoc|by constructor].
Qed.

(** ** The audit *)

Lemma insert_record_row_elem r x l : In x (insert_record_row r l) <-> x = r \/ In x l.
Proof.
  induction l as [|y l IH]; cbn [insert_record_row]; [cbn; naive_solver|].
  case_match; cbn [In]; [naive_solver|]. rewrite IH. naive_solver.
Qed.

Lemma records_by_id_elem x l : In x (records_by_id l) <-> In x l.
Proof. induction l as [|y l IH]; [done|]. cbn [records_by_id fold_right In]. rewrite insert_record_row_elem. fold (records_by_id l). rewrite IH. naive_solver. Qed.

(** the audit classifies every malformed record and nothing else *)
Lemma audit_rows_elem s rows items : audit_rows s rows = Ok items ->
  forall item, In item items <-> exists row f, In row rows /\ stored_plan_geometry_failure row = Ok (Some f) /\
    item = classify_record s row f.
Proof.
  revert items. induction rows as [|row rows IH]; intros items; cbn [audit_rows].
  { intros [= <-] item. cbn. naive_solver. }
  intros H. apply bind_ok in H as (failure & Hf & H). apply bind_ok in H as (others & Ho & H). apply ok_inj in H as <-.
  intros item. specialize (IH _ Ho item). split.
  - intros Hin. destruct failure as [f|]; [destruct Hin as [<-|Hin]|]; [exists row, f; cbn; auto|..];
      apply IH in Hin as (r & f' & Hr & Hf' & ->); exists r, f'; cbn; auto.
  - intros (r & f' & [->|Hr] & Hf' & ->); [rewrite Hf in Hf'; injection Hf' as ->; by left|].
    assert (In (classify_record s r f') others) as Hin by (apply IH; eauto). destruct failure; [by right|done].
Qed.

Lemma audit_rows_total s rows : exists items, audit_rows s rows = Ok items.
Proof.
  induction rows as [|row rows (items & Hi)]; cbn [audit_rows]; [eauto|].
  destruct (stored_plan_geometry_failure_total row) as [(g & _ & ->)|(msg & _ & ->)]; cbn [bind_result]; rewrite Hi; cbn; eauto.
Qed.

Lemma safe_elem plan item : In item (safe_to_quarantine plan) <-> In item (gp_items plan) /\ gi_classification item = SAFE.
Proof. unfold safe_to_quarantine. rewrite filter_In. by rewrite String.eqb_eq. Qed.

(** ** Manifests *)

Lemma validate_manifest_run plan m m' : validate_geometry_hygiene_manifest plan m = Ok m' ->
  m' = m /\ gm_schema_version m = gp_schema_version plan /\ gm_plan_fingerprint m = gp_fingerprint plan /\
  repeated_lifecycle [] (gm_items m) = None /\
  same_texts (map gm_lifecycle_id (gm_items m)) (map gi_lifecycle_id (safe_to_quarantine plan)) = true /\
  check_approvals plan (gm_items m) = Ok tt.
Proof.
  unfold validate_geometry_hygiene_manifest. intros H.
  destruct (Z.eqb_spec (gm_schema_version m) (gp_schema_version plan)); [|discriminate].
  destruct (String.eqb_spec (gm_plan_fingerprint m) (gp_fingerprint plan)); [|discriminate]. cbn [negb] in H.
  destruct (repeated_lifecycle [] (gm_items m)); [discriminate|].
  destruct (same_texts _ _); [|discriminate]. cbn [negb] in H. apply bind_ok in H as ([] & Hc & H).
  by apply ok_inj in H as <-.
Qed.

Section Claims.
Variable sqlite : hygiene_store -> sqlite_answers.

Lemma apply_run in_tx plan manifest now clock s plan' s' :
  apply_invalid_lifecycle_geometry_quarantine sqlite in_tx plan manifest now clock s = Ok (plan', s') ->
  exists current approved, validate_geometry_hygiene_manifest plan manifest = Ok approved /\ in_tx = false /\
    audit_invalid_lifecycle_geometry sqlite s = Ok current /\ gp_fingerprint current = gp_fingerprint plan /\
    gp_items plan' = gp_items current /\ gp_fingerprint plan' = gp_fingerprint current /\
    gp_applied_count plan' = length (safe_to_quarantine plan') /\
    apply_items clock (timestamp_or now clock) approved (safe_to_quarantine plan') s = Ok s' /\
    validate_lifecycle_hygiene_preflight sqlite s' = Ok tt.
Proof.
  unfold apply_invalid_lifecycle_geometry_quarantine. intros H. apply bind_ok in H as (approved & Ha & H).
  destruct in_tx; [discriminate|]. apply bind_ok in H as (current & Hc & H).
  destruct (String.eqb_spec (gp_fingerprint current) (gp_fingerprint plan)) as [Hfp|]; [|discriminate]. cbn [negb] in H.
  apply bind_ok in H as (approved' & Ha' & H). apply bind_ok in H as (s1 & Happ & H).
  apply bind_ok in H as ([] & Hpre & H). apply bind_ok in H as (u & _ & H). apply ok_inj in H as [= <- <-].
  assert (approved' = approved) as ->.
  { by apply validate_manifest_run in Ha' as (-> & _). }
  exists current, approved. split_and!; try done.
Qed.
End Claims.

(** ** Deliveries *)

Lemma plan_identity_text row : hy_text (Some (canonical_plan_identity row)) = canonical_plan_identity row.
Proof.
  unfold canonical_plan_identity, plan_identity.
  generalize (py_join (String unit_separator "") (map op_text (plan_identity_values row true))). intros text.
  apply hy_text_fix; [|done|by intros H].
  apply py_strip_id. rewrite string_forallb_app. cbn. eapply string_forallb_impl; [|apply sha256_is_hex].
  by intros [[] [] [] [] [] [] [] []].
Qed.

(** a delivery that was not sent and is not under way *)
Definition undelivered (status delivery_state : string) (sent_at : option string) : Prop :=
  hy_status_key (Some status) <> "sent" /\ hy_status_key (Some delivery_state) <> "sent" /\ hy_text sent_at = NA /\
  ~ In (hy_status_key (Some status)) UNRESOLVED_DELIVERY_STATES /\
  ~ In (hy_status_key (Some delivery_state)) UNRESOLVED_DELIVERY_STATES.

Lemma delivery_state_reasons_nil status delivery sent_at :
  delivery_state_reasons status delivery sent_at = [] -> undelivered status delivery sent_at.
Proof.
  unfold delivery_state_reasons. destruct (_ || _) eqn:E; [done|].
  apply orb_false_iff in E as [[E1%String.eqb_neq E2%String.eqb_neq]%orb_false_iff E3%negb_false_iff%String.eqb_eq].
  destruct (_ || _) eqn:E in |- *; [done|]. apply orb_false_iff in E as [E4%str_in_false E5%str_in_false]. by repeat split.
Qed.

(** what carries the current plan is its delivery, or ambiguous *)
Lemma current_plan_ownership plan event_type event_key direct need setup : hy_text (Some plan) = plan ->
  public_identity_ownership plan plan event_type event_key direct need setup = Some DIRECT_CURRENT_PLAN_PUBLIC_DELIVERY \/
  public_identity_ownership plan plan event_type event_key direct need setup = Some AMBIGUOUS_UNPROVEN.
Proof.
  intros Hp. unfold public_identity_ownership. rewrite Hp, String.eqb_refl. cbn [andb orb].
  destruct (_ && _ && _); auto.
Qed.

Lemma forall_concat_map {A B} (P : B -> Prop) (f : A -> list B) l : Forall P (concat (map f l)) ->
  forall x y, In x l -> In y (f x) -> P y.
Proof.
  intros H x y Hx Hy. rewrite List.Forall_forall in H. apply H, in_concat. exists (f x). split; [by apply in_map|done].
Qed.

Lemma assessed_attempts s row : let plan := canonical_plan_identity row in
  da_reasons (public_delivery_assessment s row plan) = [] ->
  forall a, In a (hs_attempts s) -> al_plan_id a = plan ->
    undelivered (al_telegram_status a) (al_delivery_state a) (al_sent_at a).
Proof.
  cbn zeta. intros H%assessment_clean a Ha Hplan. apply Forall_app in H as [H _].
  assert (In a (selected_attempts s (hy_text (Some (r_lifecycle_id row))) (canonical_plan_identity row)
            (py_upper (hy_text (Some (r_symbol row)))))) as Hin.
  { apply filter_In. split; [done|]. rewrite Hplan, String.eqb_refl. by rewrite orb_true_r. }
  pose proof (forall_concat_map _ _ _ H a) as Hf. unfold assess_attempt in Hf. rewrite Hplan in Hf.
  destruct (current_plan_ownership (canonical_plan_identity row) (al_event_type a) (al_event_key a)
    (String.eqb (hy_text (Some (al_signal_id a))) (hy_text (Some (r_lifecycle_id row)))) false NA (plan_identity_text row)) as [E|E];
    rewrite E in Hf; specialize (Hf _ Hin (or_introl eq_refl)); cbn in Hf; [|done]. by apply delivery_state_reasons_nil.
Qed.

Lemma assessed_events s row : let plan := canonical_plan_identity row in
  da_reasons (public_delivery_assessment s row plan) = [] ->
  forall e, In e (hs_public_events s) -> pe_plan_id e = plan ->
    undelivered (pe_status e) (pe_delivery_state e) (pe_sent_at e) /\
    forall part, In part (hs_parts s) -> dp_event_id part = pe_id e ->
      undelivered NA (dp_delivery_state part) (dp_sent_at part).
Proof.
  cbn zeta. intros H%assessment_clean e He Hplan. apply Forall_app in H as [_ H].
  assert (In e (selected_events s (canonical_plan_identity row) (py_upper (hy_text (Some (r_symbol row)))))) as Hin.
  { apply filter_In. split; [done|]. by rewrite Hplan, String.eqb_refl. }
  pose proof (forall_concat_map _ _ _ H e) as Hf. unfold assess_event in Hf. rewrite Hplan in Hf.
  destruct (current_plan_ownership (canonical_plan_identity row) (pe_event_type e) (pe_event_key e)
    false true (pe_setup_family e) (plan_identity_text row)) as [E|E]; rewrite E in Hf;
    [|specialize (Hf _ Hin (or_introl eq_refl)); done].
  split; [apply delivery_state_reasons_nil; exact (Hf _ Hin (or_introl eq_refl))|].
  intros part Hpart Hid. specialize (Hf (assess_part e part) Hin).
  assert (snd (assess_part e part) = []) as Hn.
  { apply Hf. right. apply in_map, filter_In. split; [done|]. by apply Z.eqb_eq. }
  unfold assess_part in Hn. destruct (negb _) in Hn; [done|]. by apply delivery_state_reasons_nil.
Qed.

(** an outcome progress that saw no market event *)
Definition untouched_progress (p : SetupLifecycleOutcomeProgress) (failure : string) : Prop :=
  Forall (fun t => hy_text t = NA) [pg_entry_at p; pg_tp1_at p; pg_tp2_at p; pg_tp3_at p; pg_stop_at p;
                                    pg_invalidated_at p; pg_outcome_at p] /\
  hy_text (Some (pg_terminal_outcome p)) = NA /\ hy_status_key (Some (pg_integrity_status p)) <> "verified" /\
  hy_text (Some (pg_diagnostic p)) = FAILED_GEOMETRY_DIAGNOSTIC +:+ ":" +:+ failure.

Lemma current_progress_reasons_nil record p failure :
  current_progress_reasons record p failure = [] -> untouched_progress p failure.
Proof.
  unfold current_progress_reasons. intros [_ H]%app_eq_nil. apply app_eq_nil in H as [Hd H].
  apply app_eq_nil in H as [Ht H]. apply app_eq_nil in H as [Ho Hv].
  apply when_nil in Hd as Hd%negb_false_iff%String.eqb_eq. apply when_nil in Ht, Ho as Ho%negb_false_iff%String.eqb_eq, Hv as Hv%String.eqb_neq.
  split_and!; try done. apply List.Forall_forall. intros t Hin.
  destruct (String.eqb_spec (hy_text t) NA) as [|Hne]; [done|]. exfalso.
  assert (existsb (fun t => negb (String.eqb (hy_text t) NA)) [pg_entry_at p; pg_tp1_at p; pg_tp2_at p; pg_tp3_at p;
    pg_stop_at p; pg_invalidated_at p; pg_outcome_at p] = true) as Hx; [|congruence].
  apply existsb_exists. exists t. split; [done|]. by rewrite (proj2 (String.eqb_neq _ _) Hne).
Qed.

(** the progress rows of the current plan of a record *)
Definition current_progress (s : hygiene_store) (row : SetupLifecycleRecord) : list SetupLifecycleOutcomeProgress :=
  List.filter (fun p => String.eqb (hy_text (Some (pg_plan_identity p))) (canonical_plan_identity row))
    (List.filter (fun p => String.eqb (pg_lifecycle_id p) (hy_text (Some (r_lifecycle_id row)))) (db_progress (hs_db s))).

Lemma assessed_progress s row f :
  da_reasons (outcome_progress_assessment (hs_db s) row (canonical_plan_identity row) f) = [] ->
  exists p, current_progress s row = [p] /\ untouched_progress p f.
Proof.
  unfold outcome_progress_assessment. fold (current_progress s row). intros H%assessment_clean. apply Forall_app in H as [Hr Hc].
  destruct (current_progress s row) as [|p [|p' l]] eqn:E; cbn [length] in Hc; [by inversion Hc| |by inversion Hc].
  exists p. split; [done|].
  assert (In p (current_progress s row)) as [Hin Hp]%filter_In by (rewrite E; by left).
  rewrite Forall_map, List.Forall_forall in Hr. specialize (Hr p Hin). unfold assess_progress in Hr. rewrite Hp in Hr.
  by eapply current_progress_reasons_nil.
Qed.

(** ** Manifests and audits *)

Lemma repeated_lifecycle_none seen items : repeated_lifecycle seen items = None <->
  NoDup (map gm_lifecycle_id items) /\ Forall (fun i => ~ In (gm_lifecycle_id i) seen) items.
Proof.
  revert seen. induction items as [|i items IH]; intros seen; cbn [repeated_lifecycle map].
  { split; [intros _; split; constructor|done]. }
  destruct (str_in (gm_lifecycle_id i) seen) eqn:E.
  - apply str_in_spec in E. split; [done|]. intros [_ [Hn _]%Forall_cons]. done.
  - apply str_in_false in E. rewrite IH, NoDup_cons, Forall_cons, !List.Forall_forall.
    setoid_rewrite list_elem_of_In. setoid_rewrite in_map_iff. cbn [In]. split.
    + intros [Hnd Hf]. split_and!; [|done|done|]; [intros (x & Hx & Hin); apply (Hf x Hin); by left|].
      intros x Hin Hx. apply (Hf x Hin). by right.
    + intros [[Hni Hnd] [_ Hf]]. split; [done|]. intros x Hin [Hx|Hx]; [apply Hni; by exists x|by apply (Hf x Hin)].
Qed.

Lemma check_approvals_ok plan items : check_approvals plan items = Ok tt <->
  Forall (fun a => check_approval plan a = Ok tt) items.
Proof.
  induction items as [|a items IH]; cbn [check_approvals]; [by split; [constructor|]|]. rewrite Forall_cons, <- IH.
  destruct (check_approval plan a) as [[]|e]; cbn [bind_result]; [tauto|]. split; [done|by intros []].
Qed.

Lemma find_key {A} (key : A -> string) l x : NoDup (map key l) -> In x l ->
  List.find (fun y => String.eqb (key y) (key x)) l = Some x.
Proof.
  induction l as [|y l IH]; [done|]. cbn [map find]. intros [Hy Hnd]%NoDup_cons Hin.
  destruct (String.eqb_spec (key y) (key x)) as [He|He].
  - destruct Hin as [->|Hin]; [done|]. destruct Hy. rewrite He. by apply list_elem_of_In, in_map.
  - destruct Hin as [->|Hin]; [done|]. by apply IH.
Qed.

Lemma key_inj {A} (key : A -> string) l x y : NoDup (map key l) -> In x l -> In y l -> key x = key y -> x = y.
Proof.
  intros Hnd Hx Hy He. apply (find_key key l y Hnd) in Hy. rewrite <- He, (find_key key l x Hnd Hx) in Hy. congruence.
Qed.

Lemma safe_item_unique plan item : NoDup (map gi_lifecycle_id (safe_to_quarantine plan)) ->
  In item (safe_to_quarantine plan) -> safe_item plan (gi_lifecycle_id item) = Some item.
Proof.
  intros Hnd Hin. apply (find_key gi_lifecycle_id); [|by apply in_rev in Hin].
  rewrite map_rev. by rewrite <- Permutation_rev.
Qed.

(** the approvals a plan accepts are those of its manifest *)
Lemma check_approval_ok plan a : NoDup (map gi_lifecycle_id (safe_to_quarantine plan)) ->
  check_approval plan a = Ok tt -> exists item, In item (safe_to_quarantine plan) /\ a = manifest_item item.
Proof.
  intros Hnd. unfold check_approval. destruct (safe_item plan (gm_lifecycle_id a)) as [item|] eqn:E; [|discriminate].
  destruct (_ || _) eqn:Hm; [discriminate|]. intros _.
  apply orb_false_iff in Hm as [[H1%negb_false_iff%String.eqb_eq H2%negb_false_iff%String.eqb_eq]%orb_false_iff
    H3%negb_false_iff%String.eqb_eq].
  apply find_some in E as [Hin%in_rev Hid%String.eqb_eq]. exists item. split; [done|].
  destruct a; unfold manifest_item; cbn in *. by rewrite Hid, H1, H2, H3.
Qed.

Lemma manifest_permutation plan m m' : NoDup (map gi_lifecycle_id (safe_to_quarantine plan)) ->
  validate_geometry_hygiene_manifest plan m = Ok m' -> Permutation (gm_items m) (map manifest_item (safe_to_quarantine plan)).
Proof.
  intros Hnd (_ & _ & _ & [Hm _]%repeated_lifecycle_none & Hs & Hc%check_approvals_ok)%validate_manifest_run.
  rewrite List.Forall_forall in Hc. rewrite same_texts_spec in Hs.
  apply NoDup_Permutation.
  - by apply (NoDup_fmap_1 gm_lifecycle_id).
  - apply (NoDup_fmap_1 gm_lifecycle_id). change (NoDup (map gm_lifecycle_id (map manifest_item (safe_to_quarantine plan)))).
    by rewrite map_map.
  - intros a. rewrite !list_elem_of_In, in_map_iff. split.
    + intros Ha. destruct (check_approval_ok plan a Hnd (Hc a Ha)) as (item & Hi & ->). eauto.
    + intros (item & <- & Hi). assert (In (gi_lifecycle_id item) (map gm_lifecycle_id (gm_items m))) as (a & Ha & Hin)%in_map_iff
        by (apply Hs, in_map, Hi).
      destruct (check_approval_ok plan a Hnd (Hc a Hin)) as (item' & Hi' & ->). cbn in Ha.
      by rewrite <- (key_inj gi_lifecycle_id _ _ _ Hnd Hi' Hi Ha).
Qed.

(** stored ids without surrounding blanks *)
Definition canonical_ids (s : hygiene_store) : Prop := Forall (fun id => hy_text (Some id) = id) (record_ids s).

Lemma insert_record_row_perm r l : Permutation (insert_record_row r l) (r :: l).
Proof. induction l as [|x l IH]; cbn [insert_record_row]; [done|]. case_match; [done|]. rewrite IH. apply Permutation_swap. Qed.

Lemma records_by_id_perm l : Permutation (records_by_id l) l.
Proof. induction l as [|x l IH]; [done|]. cbn [records_by_id fold_right]. rewrite insert_record_row_perm. by constructor. Qed.

Lemma audit_rows_ids s rows items : NoDup (map r_lifecycle_id rows) ->
  Forall (fun r => hy_text (Some (r_lifecycle_id r)) = r_lifecycle_id r) rows ->
  audit_rows s rows = Ok items -> NoDup (map gi_lifecycle_id items).
Proof.
  revert items. induction rows as [|row rows IH]; intros items; cbn [audit_rows map].
  { intros _ _ [= <-]. constructor. }
  intros [Hr Hnd]%NoDup_cons [Hid Hids]%Forall_cons H.
  apply bind_ok in H as (failure & Hf & H). apply bind_ok in H as (others & Ho & H). apply ok_inj in H as <-.
  destruct failure as [f|]; [|by apply IH]. cbn [map]. constructor; [|by apply IH].
  destruct (classify_fields s row f) as (-> & _). rewrite Hid. intros Hin.
  apply list_elem_of_In, in_map_iff in Hin as (item & Hi & Hin).
  apply (audit_rows_elem _ _ _ Ho) in Hin as (r & f' & Hrin & _ & ->). destruct (classify_fields s r f') as (Hc & _).
  rewrite Hc in Hi. rewrite List.Forall_forall in Hids. rewrite (Hids r Hrin) in Hi. destruct Hr. rewrite <- Hi.
  by apply list_elem_of_In, in_map.
Qed.

Lemma NoDup_filter_map {A} (f : A -> string) (p : A -> bool) l : NoDup (map f l) -> NoDup (map f (List.filter p l)).
Proof.
  induction l as [|x l IH]; [done|]. cbn [map List.filter]. intros [Hx Hnd]%NoDup_cons. destruct (p x); [|by apply IH].
  cbn [map]. constructor; [|by apply IH]. intros Hin. destruct Hx.
  apply list_elem_of_In, in_map_iff in Hin as (y & <- & [Hy _]%filter_In). by apply list_elem_of_In, in_map.
Qed.

Lemma audit_safe_ids sqlite s plan : NoDup (record_ids s) -> canonical_ids s ->
  audit_invalid_lifecycle_geometry sqlite s = Ok plan -> NoDup (map gi_lifecycle_id (safe_to_quarantine plan)).
Proof.
  intros Hnd Hc H. unfold audit_invalid_lifecycle_geometry in H. apply bind_ok in H as (u & _ & H).
  apply bind_ok in H as (items & Hi & H). apply ok_inj in H as <-. apply NoDup_filter_map. cbn [gp_items].
  apply audit_rows_ids in Hi; [done|..].
  - by rewrite records_by_id_perm.
  - unfold canonical_ids, record_ids in Hc. rewrite Forall_map in Hc. by rewrite records_by_id_perm.
Qed.

Lemma audit_run sqlite s plan : audit_invalid_lifecycle_geometry sqlite s = Ok plan ->
  gp_schema_version plan = SCHEMA_VERSION /\ gp_fingerprint plan = plan_fingerprint (gp_items plan) /\
  forall item, In item (gp_items plan) <-> exists row f, In row (db_records (hs_db s)) /\
    stored_plan_geometry_failure row = Ok (Some f) /\ item = classify_record s row f.
Proof.
  unfold audit_invalid_lifecycle_geometry. intros H. apply bind_ok in H as (u & _ & H).
  apply bind_ok in H as (items & Hi & H). apply ok_inj in H as <-. split_and!; [done..|]. cbn [gp_items].
  intros item. rewrite (audit_rows_elem _ _ _ Hi item). by setoid_rewrite records_by_id_elem.
Qed.

Lemma audit_total sqlite s : validate_lifecycle_hygiene_preflight sqlite s = Ok tt ->
  exists plan, audit_invalid_lifecycle_geometry sqlite s = Ok plan.
Proof.
  intros Hp. unfold audit_invalid_lifecycle_geometry. rewrite Hp. cbn [bind_result].
  destruct (audit_rows_total s (records_by_id (db_records (hs_db s)))) as (items & ->). cbn. eauto.
Qed.

(** the template of an audit is approved item by item *)
Lemma template_approved sqlite s plan item : NoDup (record_ids s) -> canonical_ids s ->
  audit_invalid_lifecycle_geometry sqlite s = Ok plan -> In item (safe_to_quarantine plan) ->
  check_approval plan (manifest_item item) = Ok tt.
Proof.
  intros Hnd Hc Ha Hin. pose proof (audit_safe_ids _ _ _ Hnd Hc Ha) as Hids.
  apply audit_run in Ha as (_ & _ & Hitems). unfold check_approval. cbn [manifest_item gm_lifecycle_id].
  rewrite (safe_item_unique _ _ Hids Hin). cbn [manifest_item gm_current_plan_identity gm_expected_state gm_approved_transition].
  rewrite !String.eqb_refl. cbn [negb orb]. apply safe_elem in Hin as [Hin Hs].
  apply Hitems in Hin as (row & f & _ & _ & ->). destruct (classify_fields s row f) as (_ & -> & _).
  destruct (classify_safe _ _ _ Hs) as (p & Hp & -> & _). rewrite !state_of_value. by rewrite (quarantine_target_allowed _ _ Hp).
Qed.

(** *** Manifest files *)

(** text a manifest carries unchanged *)
Definition manifest_text (s : string) : Prop := hy_text (Some s) = s /\ s <> NA.

Definition plain_item (i : GeometryHygieneManifestItem) : Prop :=
  manifest_text (gm_lifecycle_id i) /\ manifest_text (gm_current_plan_identity i) /\
  (manifest_text (gm_expected_state i) /\ py_upper (gm_expected_state i) = gm_expected_state i) /\
  (manifest_text (gm_approved_transition i) /\ py_upper (gm_approved_transition i) = gm_approved_transition i).

Lemma required_text_read fields key s : dict_mem key fields = true -> json_get key fields = JStr s -> manifest_text s ->
  required_manifest_text fields key = Ok s.
Proof.
  intros Hm Hg [Hs Hn]. unfold required_manifest_text. rewrite Hm, Hg. cbn [negb json_text json_str]. rewrite Hs.
  by rewrite (proj2 (String.eqb_neq _ _) Hn).
Qed.

Lemma manifest_item_read i : plain_item i -> manifest_item_from (canon (manifest_item_json i)) = Ok i.
Proof.
  intros (H1 & H2 & (H3 & U3) & (H4 & U4)). change (canon (manifest_item_json i)) with
    (JObj [("approved_transition", JStr (gm_approved_transition i)); ("current_plan_identity", JStr (gm_current_plan_identity i));
           ("expected_state", JStr (gm_expected_state i)); ("lifecycle_id", JStr (gm_lifecycle_id i))]).
  cbn [manifest_item_from].
  erewrite !required_text_read by (reflexivity || eassumption). cbn [bind_result]. rewrite U3, U4. by destruct i.
Qed.

Lemma manifest_items_read items : Forall plain_item items ->
  manifest_items_from (map canon (map manifest_item_json items)) = Ok items.
Proof.
  induction 1 as [|i items Hi _ IH]; [done|]. cbn [map manifest_items_from]. rewrite manifest_item_read by done.
  cbn [bind_result]. by rewrite IH.
Qed.

Lemma manifest_json_ok m : (Z.abs (gm_schema_version m) < 2 ^ 64)%Z -> json_ok (manifest_json m).
Proof.
  intros Hz. apply json_ok_obj. split; [by apply (bool_decide_unpack _)|]. repeat constructor; [done|]. apply json_ok_arr.
  apply Forall_map, List.Forall_forall. intros i _. apply json_ok_obj. split; [by apply (bool_decide_unpack _)|]. by repeat constructor.
Qed.

Lemma load_manifest_dumps `{JsonErrors} path m : (Z.abs (gm_schema_version m) < 2 ^ 64)%Z ->
  manifest_text (gm_plan_fingerprint m) -> Forall plain_item (gm_items m) ->
  load_manifest path (dumps (manifest_json m)) = Ok m.
Proof.
  intros Hz Hf Hi. unfold load_manifest. rewrite loads_dumps by by apply manifest_json_ok.
  change (canon (manifest_json m)) with
    (JObj [("items", JArr (map canon (map manifest_item_json (gm_items m)))); ("plan_fingerprint", JStr (gm_plan_fingerprint m));
           ("schema_version", JInt (gm_schema_version m))]).
  unfold manifest_from_dict. erewrite !required_text_read by (reflexivity || eassumption). cbn.
  rewrite manifest_items_read by done. by destruct m.
Qed.

(** what [sha256] gives is such a text *)
Lemma hex_manifest_text text : string_forallb is_hex text = true -> text <> "" -> manifest_text text.
Proof.
  intros Hx H0. assert (py_upper text <> NA /\ text <> NA) as [Hu Hn].
  { destruct text as [|c text]; [done|]. cbn in Hx. apply andb_true_iff in Hx as [Hx _].
    split; intros [= E _]; subst; [|done]. by revert E Hx; destruct c as [[] [] [] [] [] [] [] []]. }
  split; [|done]. apply hy_text_fix; [|done..]. apply py_strip_id. eapply string_forallb_impl; [|exact Hx].
  by intros [[] [] [] [] [] [] [] []].
Qed.

(** the template of an audit is carried unchanged *)
Lemma template_plain sqlite s plan : canonical_ids s -> ~ In NA (record_ids s) ->
  audit_invalid_lifecycle_geometry sqlite s = Ok plan ->
  Forall plain_item (gm_items (build_geometry_hygiene_manifest plan)).
Proof.
  intros Hc Hna Ha. apply audit_run in Ha as (_ & _ & Hitems). apply Forall_map, List.Forall_forall. intros item Hin.
  apply safe_elem in Hin as [Hin Hs]. apply Hitems in Hin as (row & f & Hrow & _ & ->).
  destruct (classify_fields s row f) as (Hid & Hst & Hpl). destruct (classify_safe _ _ _ Hs) as (p & Hp & Hpr & _).
  unfold canonical_ids in Hc. rewrite List.Forall_forall in Hc.
  assert (In (r_lifecycle_id row) (record_ids s)) as Hin by (by apply in_map).
  assert (manifest_text (r_lifecycle_id row)) as Hm by (split; [auto|congruence]).
  unfold plain_item. cbn [manifest_item gm_lifecycle_id gm_current_plan_identity gm_expected_state gm_approved_transition].
  rewrite Hid, Hst, Hpl, Hpr, (Hc _ Hin). split; [done|]. split; [split; [apply plan_identity_text|done]|].
  assert (forall st, manifest_text (state_value st) /\ py_upper (state_value st) = state_value st) as Hstate by (by intros []).
  by split.
Qed.

(** ** Claims *)

(** C12: an applied quarantine changes only what its fresh audit found safe. The plan applied has the fingerprint of the
    approved one; the records it names are moved to REJECTED or INVALIDATED with their plan, scores and identities
    untouched and every other record is left as it was; one event per record is appended, naming both states and the
    reason; and outcome progress, analytics, runtime epochs, origins, runs and alert tables are unchanged. *)
Theorem quarantine_changes_only_safe_records sqlite in_tx plan manifest now clock s plan' s' :
  NoDup (record_ids s) ->
  apply_invalid_lifecycle_geometry_quarantine sqlite in_tx plan manifest now clock s = Ok (plan', s') ->
  (exists current, audit_invalid_lifecycle_geometry sqlite s = Ok current /\ gp_items plan' = gp_items current /\
     gp_fingerprint current = gp_fingerprint plan) /\
  gp_applied_count plan' = length (safe_to_quarantine plan') /\
  quarantine_effect (timestamp_or (Some (timestamp_or now clock)) clock) (safe_to_quarantine plan') s s'.
Proof.
  intros Hnd H. apply apply_run in H as (current & approved & _ & _ & Hc & Hfp & Hi & _ & Hn & Ha & _).
  split; [eauto|]. split; [done|]. by eapply apply_items_run.
Qed.

(** a quarantine is complete and does not need to be repeated: after it the audit still runs, and it finds no record
    that is safe to quarantine (what was quarantined is preserved as history, what needed a review still does). *)
Theorem quarantine_leaves_nothing sqlite in_tx plan manifest now clock s plan' s' :
  NoDup (record_ids s) -> canonical_ids s ->
  apply_invalid_lifecycle_geometry_quarantine sqlite in_tx plan manifest now clock s = Ok (plan', s') ->
  exists again, audit_invalid_lifecycle_geometry sqlite s' = Ok again /\ safe_to_quarantine again = [].
Proof.
  intros Hnd Hcan H. apply apply_run in H as (current & approved & _ & _ & Hc & Hfp & Hi & _ & Hn & Ha & Hpre).
  apply apply_items_run in Ha; [|done]. destruct (audit_total _ _ Hpre) as (again & Hagain). exists again. split; [done|].
  apply audit_run in Hagain as (_ & _ & Hitems). apply audit_run in Hc as (_ & _ & Hcur).
  destruct (safe_to_quarantine again) as [|item l] eqn:E; [done|]. exfalso.
  assert (In item (safe_to_quarantine again)) as [Hin Hs]%safe_elem by (rewrite E; by left).
  apply Hitems in Hin as (row' & f & Hrow & Hf & ->).
  destruct (classify_safe _ _ _ Hs) as (p & Hp & _). rewrite (classify_same _ _ _ _ (q_deps _ _ _ _ Ha)) in Hs.
  rewrite (q_records _ _ _ _ Ha) in Hrow. apply in_map_iff in Hrow as (row & Hq & Hin).
  unfold quarantine_ids in Hq. destruct (str_in (r_lifecycle_id row) _) eqn:Eid;
    [by rewrite <- Hq, quarantined_once in Hp|]. subst row'. apply str_in_false in Eid. destruct Eid.
  apply in_map_iff. exists (classify_record s row f). destruct (classify_fields s row f) as (-> & _).
  unfold canonical_ids, record_ids in Hcan. rewrite Forall_map, List.Forall_forall in Hcan.
  split; [by apply Hcan|]. apply safe_elem. split; [|done]. rewrite Hi. apply Hcur. eauto.
Qed.

(** C13: a record the audit calls safe to quarantine was never acted on: it is in a state before execution, its current
    plan has exactly one outcome progress, which recorded no entry, target, stop or outcome and only the geometry failure,
    and no alert attempt, public event or delivery part of that plan was sent or is still under way. *)
Theorem safe_record_contract s row f :
  gi_classification (classify_record s row f) = SAFE ->
  let plan := canonical_plan_identity row in
  In (r_current_state row) [WATCHLISTED; STALKING; TRIGGERED; CONFIRMED; ACTIONABLE_A_GRADE; A_GRADE_WATCH] /\
  hy_status_key (Some (r_actionability_state row)) = "not_a_grade_candidate" /\
  (exists p, current_progress s row = [p] /\ untouched_progress p f) /\
  (forall a, In a (hs_attempts s) -> al_plan_id a = plan ->
     undelivered (al_telegram_status a) (al_delivery_state a) (al_sent_at a)) /\
  (forall e, In e (hs_public_events s) -> pe_plan_id e = plan ->
     undelivered (pe_status e) (pe_delivery_state e) (pe_sent_at e) /\
     forall part, In part (hs_parts s) -> dp_event_id part = pe_id e ->
       undelivered NA (dp_delivery_state part) (dp_sent_at part)).
Proof.
  intros (p & Hp & _ & Hr & Hact)%classify_safe. apply record_assessment_clean in Hr as [Hprog Hdel].
  split; [by destruct (r_current_state row); try discriminate Hp; cbn; tauto|]. split; [done|].
  split; [by apply assessed_progress|]. split; [by apply assessed_attempts|by apply assessed_events].
Qed.

(** C34: the manifests an audit accepts are exactly approvals of its safe set: the template it builds is accepted as it
    is and read back unchanged from its JSON text, and an accepted manifest has the same schema and fingerprint and its
    approvals are a reordering of the template's, each with the same plan identity, state and transition. *)
Theorem accepted_manifest_is_template `{JsonErrors} sqlite s plan m path :
  NoDup (record_ids s) -> canonical_ids s -> ~ In NA (record_ids s) -> audit_invalid_lifecycle_geometry sqlite s = Ok plan ->
  let template := build_geometry_hygiene_manifest plan in
  load_manifest path (dumps (manifest_json template)) = Ok template /\
  validate_geometry_hygiene_manifest plan template = Ok template /\
  (forall m', validate_geometry_hygiene_manifest plan m = Ok m' ->
     m' = m /\ gm_schema_version m = gm_schema_version template /\ gm_plan_fingerprint m = gm_plan_fingerprint template /\
     Permutation (gm_items m) (gm_items template)).
Proof.
  intros Hnd Hc Hna Ha. cbn zeta. pose proof (audit_safe_ids _ _ _ Hnd Hc Ha) as Hids. split; [|split].
  - pose proof (audit_run _ _ _ Ha) as (Hsv & Hfp & _). apply load_manifest_dumps; cbn [gm_schema_version gm_plan_fingerprint build_geometry_hygiene_manifest].
    + by rewrite Hsv.
    + rewrite Hfp. apply hex_manifest_text; [apply sha256_is_hex|]. intros E. unfold plan_fingerprint in E.
      match type of E with sha256_hexdigest ?t = _ => pose proof (sha256_length t) as Hl end. by rewrite E in Hl.
    + by eapply template_plain.
  - unfold validate_geometry_hygiene_manifest. cbn [gm_schema_version gm_plan_fingerprint gm_items build_geometry_hygiene_manifest].
    rewrite Z.eqb_refl, String.eqb_refl. cbn [negb].
    rewrite (proj2 (repeated_lifecycle_none [] _)); [|split; [by rewrite map_map|by apply List.Forall_forall; intros ? _ []]].
    rewrite (proj2 (same_texts_spec _ _)); [|by intros x; rewrite map_map]. cbn [negb].
    rewrite (proj2 (check_approvals_ok _ _)); [done|]. apply Forall_map, List.Forall_forall. intros item Hin.
    by eapply template_approved.
  - intros m' Hv. pose proof (manifest_permutation _ _ _ Hids Hv) as Hperm. by apply validate_manifest_run in Hv as (-> & -> & -> & _).
Qed.

(** *** Witnesses *)

(** a watched record whose stop is on the wrong side *)
Definition malformed_record : SetupLifecycleRecord :=
  sample_record <| r_current_state := WATCHLISTED |> <| r_stop_loss := "120" |> <| r_actionability_state := "NOT_A_GRADE_CANDIDATE" |>
                <| r_mode := "swing" |> <| r_direction := "long" |>
                <| r_runtime_epoch_id := Some "E1" |> <| r_creation_origin_id := Some "O1" |>.

Definition malformed_progress : SetupLifecycleOutcomeProgress :=
  {| pg_lifecycle_id := r_lifecycle_id malformed_record; pg_plan_identity := canonical_plan_identity malformed_record;
     pg_symbol := r_symbol malformed_record; pg_mode := r_mode malformed_record; pg_direction := r_direction malformed_record;
     pg_execution_timeframe := "15m"; pg_tracking_start_at := None; pg_evaluation_cursor_open_at := None;
     pg_evaluation_cursor_close_at := None; pg_entry_at := None; pg_tp1_at := None; pg_tp2_at := None; pg_tp3_at := None;
     pg_stop_at := None; pg_invalidated_at := None; pg_outcome_at := None; pg_terminal_outcome := NA;
     pg_integrity_status := "unverified"; pg_diagnostic := "invalid_stored_plan_geometry:invalid_long_level_order";
     pg_metadata_json := "{}"; pg_first_evaluated_at := "2026-01-01T00:00:00+00:00";
     pg_last_evaluated_at := "2026-01-01T00:00:00+00:00"; pg_plan_version_id := None;
     pg_last_eligibility_decision_at := None; pg_last_eligibility_prefix_evidence_json := None;
     pg_eligibility_cutoff_observed := false |}.

Definition hygiene_sample : hygiene_store :=
  {| hs_db := {| db_control := Some [("active", "E1")];
                 db_epochs := [{| re_epoch_id := "E1"; re_contract_version := "v1";
                                  re_activated_at := "2026-01-01T00:00:00+00:00";
                                  re_cutoff_at := "2026-01-01T00:00:00+00:00"; re_reviewed_release_sha := "sha";
                                  re_generation_binding := "g1"; re_created_at := "2026-01-01T00:00:00+00:00" |}];
                 db_origins := [{| og_origin_id := "O1"; og_runtime_epoch_id := "E1"; og_symbol := r_symbol malformed_record;
                                   og_run_id := "R1"; og_evaluation_completed_at := Some "2026-01-01T00:02:00Z";
                       og_decision_cutoff_at := Some "2026-01-01T00:02:00Z";
                       og_producer_observed_at := Some "2026-01-01T00:01:00Z"; og_origin_kind := "live_fresh";
                       og_status := "granted"; og_block_reason := None; og_created_at := Some "2026-01-01T00:02:00Z";
                       og_lifecycle_consumption_json := None |}];
                 db_runs := [{| run_run_id := "R1"; run_runtime_epoch_id := "E1";
                     run_registered_at := "2026-01-01T00:00:30Z"; run_status := "registered"; run_producer_started_at := None |}];
                 db_records := [malformed_record; sample_record <| r_lifecycle_id := "L0" |>]; db_events := [];
                 db_progress := [malformed_progress]; db_analytics := [] |};
     hs_attempts := [{| al_signal_id := r_lifecycle_id malformed_record; al_symbol := r_symbol malformed_record;
                        al_telegram_status := "skipped_dry_run"; al_sent_at := None; al_delivery_state := NA;
                        al_plan_id := canonical_plan_identity malformed_record;
                        al_event_key := canonical_plan_identity malformed_record +:+ "|initial_watchlist";
                        al_event_type := "initial_watchlist" |}];
     hs_public_events := []; hs_parts := [] |}.

(** a healthy database *)
Definition healthy (_ : hygiene_store) : sqlite_answers :=
  {| sq_user_version := Some SCHEMA_VERSION; sq_tables := REQUIRED_TABLES; sq_indexes := REQUIRED_INDEXES;
     sq_quick_check := ["ok"]; sq_integrity_check := ["ok"]; sq_foreign_key_check := 0 |}.

Definition sample_plan : GeometryHygienePlan :=
  match audit_invalid_lifecycle_geometry healthy hygiene_sample with
  | Ok plan => plan
  | Raise _ => {| gp_schema_version := 0; gp_items := []; gp_fingerprint := ""; gp_applied_count := 0 |}
  end.

Notation sample_quarantine :=
  (apply_invalid_lifecycle_geometry_quarantine healthy false sample_plan (build_geometry_hygiene_manifest sample_plan)
     (Some "2026-01-02T00:00:00+00:00") "2026-01-02T00:00:00+00:00" hygiene_sample) (only parsing).

(** the malformed record is rejected, the other one is left alone *)
Lemma sample_quarantine_run :
  match sample_quarantine with
  | Ok (plan', s') => gp_applied_count plan' = 1%nat /\ map r_current_state (db_records (hs_db s')) = [REJECTED; WATCHLISTED]
  | Raise _ => False
  end.
Proof. vm_compute. auto. Qed.

Lemma hygiene_sample_ids : NoDup (record_ids hygiene_sample) /\ canonical_ids hygiene_sample.
Proof.
  split; [|by repeat constructor]. change (NoDup ["L1"; "L0"]). by apply (bool_decide_unpack _).
Qed.

Lemma quarantine_changes_only_safe_records_witness : exists plan' s',
  sample_quarantine = Ok (plan', s') /\
  quarantine_effect "2026-01-02T00:00:00+00:00" (safe_to_quarantine plan') hygiene_sample s'.
Proof.
  destruct sample_quarantine as [[plan' s']|e] eqn:E; [|exfalso; pose proof sample_quarantine_run as H; by rewrite E in H].
  exists plan', s'. split; [reflexivity|].
  apply (quarantine_changes_only_safe_records _ _ _ _ _ _ _ _ _ (proj1 hygiene_sample_ids) E).
Defined.

Lemma quarantine_leaves_nothing_witness : exists plan' s' again,
  sample_quarantine = Ok (plan', s') /\ audit_invalid_lifecycle_geometry healthy s' = Ok again /\ safe_to_quarantine again = [].
Proof.
  destruct sample_quarantine as [[plan' s']|e] eqn:E; [|exfalso; pose proof sample_quarantine_run as H; by rewrite E in H].
  destruct (quarantine_leaves_nothing _ _ _ _ _ _ _ _ _ (proj1 hygiene_sample_ids) (proj2 hygiene_sample_ids) E) as (again & Ha & Hs).
  exists plan', s', again. split; [reflexivity|]. split; assumption.
Defined.

Lemma safe_record_contract_witness :
  exists p, current_progress hygiene_sample malformed_record = [p] /\ untouched_progress p "invalid_long_level_order".
Proof.
  apply (safe_record_contract hygiene_sample malformed_record "invalid_long_level_order"). vm_compute. reflexivity.
Defined.

Lemma accepted_manifest_is_template_witness :
  let template := build_geometry_hygiene_manifest sample_plan in
  @load_manifest (fun _ => "error") "manifest.json" (dumps (manifest_json template)) = Ok template /\
  validate_geometry_hygiene_manifest sample_plan template = Ok template.
Proof.
  assert (~ In NA (record_ids hygiene_sample)) as Hna by (vm_compute; intros [[=]|[[=]|[]]]).
  assert (audit_invalid_lifecycle_geometry healthy hygiene_sample = Ok sample_plan) as Ha by (vm_compute; reflexivity).
  destruct (@accepted_manifest_is_template (fun _ => "error") healthy hygiene_sample sample_plan
    (build_geometry_hygiene_manifest sample_plan) "manifest.json"
    (proj1 hygiene_sample_ids) (proj2 hygiene_sample_ids) Hna Ha) as (Hl & Hv & _).
  split; assumption.
Defined.
