(* ===== verification/EpochOrigin.v ===== *)
(** * The operational boundary (src/app/runtime_epoch: time_contract, authority, origin, startup, cohort, watch_state)

    One runtime epoch is activated once; a run is registered after its cutoff;
    a symbol of a run gets at most one origin, granted only to a live evaluation
    after the cutoff.  Lifecycle records are created under a granted origin.

    Functions that write take the database and return it.  [uuid4().hex] and the
    clock are arguments.  A row that breaks a key of the schema raises.  Of the
    opening of a database file the identity checks are modelled, and of the watch
    state file its decoded payload. *)

From stdpp Require Import base tactics list strings.
From Stdlib Require Import ZArith NArith Lia Bool Ascii.
From S2P Require Import Prelude PyString PyDecimal PyTime PyJson JsonText LifecycleModels RuntimeEpoch.
Open Scope string_scope.
Open Scope py_scope.

Definition RUNTIME_EPOCH_CONTRACT_VERSION : string := "cci-runtime-epoch-isolation-v1".
Definition ORIGIN_KIND_LIVE_FRESH : string := "live_fresh".
Definition ORIGIN_STATUS_BLOCKED : string := "blocked".
Definition RUN_STATUS_REGISTERED : string := "registered".
Definition COHORT_LEGACY_OR_UNATTRIBUTED : string := "LEGACY_OR_UNATTRIBUTED".
Definition COHORT_CURRENT_EPOCH_OPERATIONAL : string := "CURRENT_EPOCH_OPERATIONAL".
Definition LIVE_SCAN_EVALUATION : string := "live_scan".
Definition UNSPECIFIED_EVALUATION : string := "unspecified".
Definition LIVE_ORIGIN_KINDS : list string := [LIVE_SCAN_EVALUATION].

(** ** Times (time_contract.py) *)

(** [_text] *)
Definition time_text (value : option string) : string :=
  match value with
  | None => NA
  | Some s =>
      let text := py_strip s in
      if negb (String.eqb text "") && negb (String.eqb (py_upper text) NA) then text else NA
  end.

(** [parse_utc] of text; [astimezone] raises outside the years of a datetime *)
Definition parse_utc (value : option string) : result (option datetime) :=
  let text := time_text value in
  if String.eqb text NA then Ok None else
  match fromisoformat (py_replace "Z" "+00:00" text) with
  | None => Ok None
  | Some parsed => let! t := astimezone_utc (as_utc parsed) in Ok (Some t)
  end.

(** [iso_utc] of a datetime in UTC *)
Definition iso_utc (t : datetime) : string := py_replace "+00:00" "Z" (isoformat (without_microsecond t)).

Definition strictly_after (value cutoff : option string) : result bool :=
  let! at_value := parse_utc value in
  let! at_cutoff := parse_utc cutoff in
  Ok (match at_value, at_cutoff with Some l, Some r => (instant r <? instant l)%Z | _, _ => false end).

Definition comparable_utc (value : option string) : result (option string) :=
  let! parsed := parse_utc value in Ok (option_map iso_utc parsed).

(** ** The epoch (authority.py) *)

Record RuntimeEpochIdentity := {
  ri_epoch_id : string;
  ri_cutoff_at : string;
  ri_contract_version : string;
  ri_reviewed_release_sha : string;
  ri_generation_binding : string
}.

#[export] Instance RuntimeEpochIdentity_eq_dec : EqDecision RuntimeEpochIdentity.
Proof. solve_decision. Defined.

(** [RuntimeEpochRecord.identity] *)
Definition epoch_identity (e : RuntimeEpochRecord) : RuntimeEpochIdentity :=
  {| ri_epoch_id := re_epoch_id e; ri_cutoff_at := re_cutoff_at e; ri_contract_version := re_contract_version e;
     ri_reviewed_release_sha := re_reviewed_release_sha e; ri_generation_binding := re_generation_binding e |}.

(** [_required_text] of authority.py and startup.py *)
Definition required_epoch_text (value : string) (field_name : string) : result string :=
  let text := py_strip value in
  if String.eqb text "" || String.eqb (py_upper text) NA
  then Raise (configuration_error ("Runtime epoch " +:+ field_name +:+ " is required.")) else Ok text.

Definition unsupported_contract (contract : string) : exn :=
  configuration_error ("Unsupported runtime epoch contract " +:+ contract +:+ "; expected "
                         +:+ RUNTIME_EPOCH_CONTRACT_VERSION +:+ ".").

(** [_validated_identity] *)
Definition validated_identity (identity : RuntimeEpochIdentity) : result RuntimeEpochIdentity :=
  let! epoch_id := required_epoch_text (ri_epoch_id identity) "epoch_id" in
  let! cutoff := comparable_utc (Some (ri_cutoff_at identity)) in
  match cutoff with
  | None => Raise (configuration_error "Runtime epoch cutoff_at must be a parseable UTC timestamp.")
  | Some cutoff =>
      let! contract := required_epoch_text (ri_contract_version identity) "contract_version" in
      if negb (String.eqb contract RUNTIME_EPOCH_CONTRACT_VERSION) then Raise (unsupported_contract contract) else
      let! release := required_epoch_text (ri_reviewed_release_sha identity) "reviewed_release_sha" in
      let! binding := required_epoch_text (ri_generation_binding identity) "generation_binding" in
      Ok {| ri_epoch_id := epoch_id; ri_cutoff_at := cutoff; ri_contract_version := contract;
            ri_reviewed_release_sha := release; ri_generation_binding := binding |}
  end.

Definition same_identity (left right : RuntimeEpochIdentity) : bool := bool_decide (left = right).

(** [_activation_timestamp]; the text of a parsed datetime is never empty *)
Definition activation_timestamp (value : option string) (clock : datetime) : result string :=
  match value with
  | None => Ok (iso_utc clock)
  | Some v =>
      let! parsed := parse_utc (Some v) in
      match parsed with
      | None => Raise (configuration_error "Runtime epoch activated_at must be a parseable UTC timestamp.")
      | Some t => Ok (iso_utc t)
      end
  end.

(** a loaded epoch, if it has the identity *)
Definition epoch_with_identity (existing : RuntimeEpochRecord) (identity : RuntimeEpochIdentity) : result RuntimeEpochRecord :=
  if same_identity (epoch_identity existing) identity then Ok existing
  else Raise (configuration_error "Active runtime epoch already exists with a different identity, cutoff, or binding.").

(** the two inserts, under the primary keys of their tables *)
Definition insert_epoch (identity : RuntimeEpochIdentity) (timestamp : string) (db : database) : result database :=
  if existsb (fun e => String.eqb (re_epoch_id e) (ri_epoch_id identity)) (db_epochs db)
  then Raise (DatabaseError "UNIQUE constraint failed: runtime_epochs.epoch_id") else
  let epoch := {| re_epoch_id := ri_epoch_id identity; re_contract_version := ri_contract_version identity;
                  re_activated_at := timestamp; re_cutoff_at := ri_cutoff_at identity;
                  re_reviewed_release_sha := ri_reviewed_release_sha identity;
                  re_generation_binding := ri_generation_binding identity; re_created_at := timestamp |} in
  let control := default [] (db_control db) in
  if existsb (fun kv => String.eqb (fst kv) ACTIVE_EPOCH_CONTROL_KEY) control
  then Raise (DatabaseError "UNIQUE constraint failed: runtime_epoch_control.control_key") else
  Ok (db <| db_epochs := (db_epochs db ++ [epoch])%list |>
         <| db_control := Some (control ++ [(ACTIVE_EPOCH_CONTROL_KEY, ri_epoch_id identity)])%list |>).

(** [initialize_runtime_epoch].  [others] is what other connections commit
    between the first read and the write lock; within a transaction there is
    nothing.  A raised exception leaves the database as the others left it. *)
Definition initialize_runtime_epoch (identity : RuntimeEpochIdentity) (activated_at : option string) (clock : datetime)
    (others : database -> database) (db : database) : result (RuntimeEpochRecord * database) :=
  let! normalized := validated_identity identity in
  match load_active_runtime_epoch db with
  | Some existing => let! epoch := epoch_with_identity existing normalized in Ok (epoch, db)
  | None =>
      let! timestamp := activation_timestamp activated_at clock in
      match db_control db with
      | None => Raise (configuration_error
          "Runtime epoch tables are missing; explicit schema migration is required first.")
      | Some _ =>
          let db := others db in
          match load_active_runtime_epoch db with
          | Some raced => let! epoch := epoch_with_identity raced normalized in Ok (epoch, db)
          | None =>
              let! db := insert_epoch normalized timestamp db in
              match load_active_runtime_epoch db with
              | None => Raise (configuration_error "Runtime epoch initialization did not persist an active epoch.")
              | Some loaded => Ok (loaded, db)
              end
          end
      end
  end.

(** [require_expected_runtime_epoch] of a complete identity *)
Definition require_expected_runtime_epoch (db : database) (expected : RuntimeEpochIdentity) : result RuntimeEpochRecord :=
  let! epoch := require_active_runtime_epoch db in
  if negb (same_identity (epoch_identity epoch) expected)
  then Raise (configuration_error
    "Selected runtime identity does not match the durable epoch, release, or generation binding.")
  else Ok epoch.

(** ** The expected identity (startup.py) *)

(** [_complete_identity] *)
Definition complete_identity (identity : RuntimeEpochIdentity) : result RuntimeEpochIdentity :=
  let! epoch_id := required_epoch_text (ri_epoch_id identity) "epoch_id" in
  let! cutoff := required_epoch_text (ri_cutoff_at identity) "cutoff_at" in
  let! contract := required_epoch_text (ri_contract_version identity) "contract_version" in
  if negb (String.eqb contract RUNTIME_EPOCH_CONTRACT_VERSION) then Raise (unsupported_contract contract) else
  let! release := required_epoch_text (ri_reviewed_release_sha identity) "reviewed_release_sha" in
  let! binding := required_epoch_text (ri_generation_binding identity) "generation_binding" in
  Ok {| ri_epoch_id := epoch_id; ri_cutoff_at := cutoff; ri_contract_version := contract;
        ri_reviewed_release_sha := release; ri_generation_binding := binding |}.

(** the truth of an optional text *)
Definition given (value : option string) : bool := match value with Some s => negb (String.eqb s "") | None => false end.

Definition require_expected_operational_identity (expected_identity : option RuntimeEpochIdentity)
    (epoch_id cutoff_at reviewed_release_sha generation_binding contract_version : option string)
    : result RuntimeEpochIdentity :=
  match expected_identity with
  | Some identity => complete_identity identity
  | None =>
      if given epoch_id && negb (given cutoff_at && given reviewed_release_sha && given generation_binding)
      then Raise (configuration_error
        "Operational open requires the complete expected runtime identity, not epoch id alone.") else
      if negb (given epoch_id) || negb (given cutoff_at) || negb (given reviewed_release_sha) || negb (given generation_binding)
      then Raise (configuration_error "Operational open requires an explicit expected runtime identity.") else
      complete_identity
        {| ri_epoch_id := column_text epoch_id; ri_cutoff_at := column_text cutoff_at;
           ri_contract_version :=
             py_strip (if given contract_version then default "" contract_version else RUNTIME_EPOCH_CONTRACT_VERSION);
           ri_reviewed_release_sha := column_text reviewed_release_sha;
           ri_generation_binding := column_text generation_binding |}
  end.

(** ** Runs and origins (origin.py) *)

Record OperationalRunRegistration := {
  rr_run_id : string;
  rr_runtime_epoch_id : string;
  rr_registered_at : string;
  rr_status : string;
  rr_producer_started_at : option string
}.

Record SymbolOriginDecision := {
  sd_granted : bool;
  sd_origin_id : option string;
  sd_run_id : string;
  sd_symbol : string;
  sd_reason : string;
  sd_evaluation_completed_at : option string;
  sd_decision_cutoff_at : option string;
  sd_producer_observed_at : option string;
  sd_origin_kind : string
}.

(** [_required_text] of origin.py *)
Definition required_origin_text (value : option string) (field_name : string) : result string :=
  let text := column_text value in
  if String.eqb text "" || String.eqb (py_upper text) NA
  then Raise (origin_error ("Operational origin " +:+ field_name +:+ " is required.")) else Ok text.

(** [_required_utc] *)
Definition required_utc (value : option string) (field_name : string) : result string :=
  let! parsed := comparable_utc value in
  match parsed with
  | None => Raise (origin_error ("Operational origin " +:+ field_name +:+ " must be a parseable UTC timestamp."))
  | Some text => Ok text
  end.

(** [epoch or require_active_runtime_epoch(connection)] *)
Definition epoch_or_active (epoch : option RuntimeEpochRecord) (db : database) : result RuntimeEpochRecord :=
  match epoch with Some e => Ok e | None => require_active_runtime_epoch db end.

Definition run_row_of (db : database) (run_id : string) : option run_row :=
  find (fun r => String.eqb (run_run_id r) run_id) (db_runs db).

Definition registration_of (row : run_row) : OperationalRunRegistration :=
  {| rr_run_id := run_run_id row; rr_runtime_epoch_id := run_runtime_epoch_id row; rr_registered_at := run_registered_at row;
     rr_status := run_status row; rr_producer_started_at := run_producer_started_at row |}.

Definition bound_elsewhere : exn := origin_error "Run registration is bound to a different runtime epoch.".

(** [register_operational_run] *)
Definition register_operational_run (run_id registered_at producer_started_at : option string)
    (epoch : option RuntimeEpochRecord) (db : database) : result (OperationalRunRegistration * database) :=
  let! epoch := epoch_or_active epoch db in
  let! normalized_run_id := required_origin_text run_id "run_id" in
  let! registered := required_utc registered_at "registered_at" in
  let! after := strictly_after (Some registered) (Some (re_cutoff_at epoch)) in
  if negb after
  then Raise (origin_error "Operational run registration must be strictly after the epoch UTC cutoff.") else
  let! producer := comparable_utc producer_started_at in
  let! late := match producer with None => Ok false | Some p => strictly_after (Some p) (Some registered) end in
  if (late : bool) then Raise (origin_error "Producer start cannot be after run registration.") else
  match run_row_of db normalized_run_id with
  | Some existing =>
      if negb (String.eqb (run_runtime_epoch_id existing) (re_epoch_id epoch)) then Raise bound_elsewhere
      else Ok (registration_of existing, db)
  | None =>
      let row := {| run_run_id := normalized_run_id; run_runtime_epoch_id := re_epoch_id epoch;
                    run_registered_at := registered; run_status := RUN_STATUS_REGISTERED;
                    run_producer_started_at := producer |} in
      Ok (registration_of row, db <| db_runs := (db_runs db ++ [row])%list |>)
  end.

(** [require_registered_operational_run] *)
Definition require_registered_operational_run (run_id : option string) (epoch : option RuntimeEpochRecord) (db : database)
    : result OperationalRunRegistration :=
  let! epoch := epoch_or_active epoch db in
  let! normalized_run_id := required_origin_text run_id "run_id" in
  match run_row_of db normalized_run_id with
  | None => Raise (origin_error "Operational run is not registered.")
  | Some existing =>
      if negb (String.eqb (run_runtime_epoch_id existing) (re_epoch_id epoch)) then Raise bound_elsewhere
      else Ok (registration_of existing)
  end.

(** [_blocked] *)
Definition blocked (run_id symbol reason : string) : SymbolOriginDecision :=
  {| sd_granted := false; sd_origin_id := None; sd_run_id := run_id; sd_symbol := symbol; sd_reason := reason;
     sd_evaluation_completed_at := None; sd_decision_cutoff_at := None; sd_producer_observed_at := None;
     sd_origin_kind := UNSPECIFIED_EVALUATION |}.

Definition origin_of (db : database) (run_id symbol : string) : option origin_row :=
  find (fun o => String.eqb (og_run_id o) run_id && String.eqb (og_symbol o) symbol) (db_origins db).

(** a stored granted origin as a decision *)
Definition granted_decision (o : origin_row) (run_id symbol : string) : SymbolOriginDecision :=
  let text (c : option string) := Some (default "None" c) in
  {| sd_granted := true; sd_origin_id := Some (og_origin_id o); sd_run_id := run_id; sd_symbol := symbol; sd_reason := NA;
     sd_evaluation_completed_at := text (og_evaluation_completed_at o);
     sd_decision_cutoff_at := text (og_decision_cutoff_at o);
     sd_producer_observed_at := text (og_producer_observed_at o); sd_origin_kind := og_origin_kind o |}.

(** the insert, under the keys of the table *)
Definition insert_origin (o : origin_row) (db : database) : result database :=
  if existsb (fun x => String.eqb (og_origin_id x) (og_origin_id o)) (db_origins db)
  then Raise (DatabaseError "UNIQUE constraint failed: runtime_operational_origins.origin_id") else
  Ok (db <| db_origins := (db_origins db ++ [o])%list |>).

(** the times of an evaluation: [inl] is the reason to block it *)
Definition evaluation_times (epoch : RuntimeEpochRecord) (registered_at : string)
    (evaluation_completed_at decision_cutoff_at producer_observed_at : option string)
    : result (string + string * string * string) :=
  let! evaluation_at := comparable_utc evaluation_completed_at in
  let! cutoff_at := comparable_utc decision_cutoff_at in
  let! producer_at := comparable_utc producer_observed_at in
  match evaluation_at, cutoff_at, producer_at with
  | None, _, _ => Ok (inl "evaluation_completed_at_missing")
  | _, None, _ => Ok (inl "decision_cutoff_at_missing")
  | _, _, None => Ok (inl "producer_observed_at_missing")
  | Some e, Some c, Some p =>
      let epoch_cutoff := Some (re_cutoff_at epoch) in
      let! e_after := strictly_after (Some e) epoch_cutoff in
      if negb e_after then Ok (inl "evaluation_not_after_epoch_cutoff") else
      let! c_after := strictly_after (Some c) epoch_cutoff in
      if negb c_after then Ok (inl "decision_cutoff_not_after_epoch_cutoff") else
      let! p_after := strictly_after (Some p) epoch_cutoff in
      if negb p_after then Ok (inl "producer_observation_not_after_epoch_cutoff") else
      let! early := strictly_after (Some registered_at) (Some e) in
      if (early : bool) then Ok (inl "evaluation_before_run_registration") else
      let! late := strictly_after (Some c) (Some e) in
      if (late : bool) then Ok (inl "decision_cutoff_after_evaluation") else Ok (inr (e, c, p))
  end.

(** [str(evaluation_kind or UNSPECIFIED_EVALUATION).strip().lower() or UNSPECIFIED_EVALUATION] *)
Definition normalized_kind (evaluation_kind : option string) : string :=
  let kind := py_lower (py_strip (if given evaluation_kind then default "" evaluation_kind else UNSPECIFIED_EVALUATION)) in
  if String.eqb kind "" then UNSPECIFIED_EVALUATION else kind.

(** the literal document of a new origin, with its quotes *)
Definition EMPTY_CONSUMPTION : string := py_replace "'" (String (ascii_of_nat 34) "") "{'version':1,'modes':{}}".

(** [evaluate_symbol_origin]; [origin_id] is the fresh [uuid4().hex] *)
Definition evaluate_symbol_origin (origin_id : string) (run_id symbol evaluation_kind evaluation_completed_at
    decision_cutoff_at producer_observed_at : option string) (epoch : option RuntimeEpochRecord) (db : database)
    : result (SymbolOriginDecision * database) :=
  let! epoch := epoch_or_active epoch db in
  let! run := required_origin_text run_id "run_id" in
  let normalized_symbol := py_upper (column_text symbol) in
  if String.eqb normalized_symbol "" then Ok (blocked run "UNKNOWN" "missing_symbol", db) else
  let block (reason : string) := Ok (blocked run normalized_symbol reason, db) in
  match run_row_of db run with
  | None => block "run_not_registered"
  | Some run_row =>
      if negb (String.eqb (run_runtime_epoch_id run_row) (re_epoch_id epoch)) then block "run_epoch_mismatch" else
      let kind := normalized_kind evaluation_kind in
      if negb (str_in kind LIVE_ORIGIN_KINDS) then block ("evaluation_kind_not_live:" +:+ kind) else
      let! times := evaluation_times epoch (run_registered_at run_row) evaluation_completed_at decision_cutoff_at
                      producer_observed_at in
      match times with
      | inl reason => block reason
      | inr (evaluation_at, cutoff_at, producer_at) =>
          match origin_of db run normalized_symbol with
          | Some existing =>
              if String.eqb (og_status existing) ORIGIN_STATUS_GRANTED
              then Ok (granted_decision existing run normalized_symbol, db)
              else block (if given (og_block_reason existing) then default "" (og_block_reason existing)
                          else "origin_previously_blocked")
          | None =>
              let row := {| og_origin_id := origin_id; og_runtime_epoch_id := re_epoch_id epoch;
                            og_symbol := normalized_symbol; og_run_id := run;
                            og_evaluation_completed_at := Some evaluation_at; og_decision_cutoff_at := Some cutoff_at;
                            og_producer_observed_at := Some producer_at; og_origin_kind := ORIGIN_KIND_LIVE_FRESH;
                            og_status := ORIGIN_STATUS_GRANTED; og_block_reason := None;
                            og_created_at := Some evaluation_at;
                            og_lifecycle_consumption_json := Some EMPTY_CONSUMPTION |} in
              let! db := insert_origin row db in
              Ok (granted_decision row run normalized_symbol, db)
          end
      end
  end.

(** [persist_blocked_symbol_origin] *)
Definition persist_blocked_symbol_origin (origin_id : string) (decision : SymbolOriginDecision)
    (epoch : option RuntimeEpochRecord) (db : database) : result database :=
  if sd_granted decision || (match sd_origin_id decision with Some _ => true | None => false end) then Ok db else
  let! epoch := epoch_or_active epoch db in
  match origin_of db (sd_run_id decision) (sd_symbol decision) with
  | Some _ => Ok db
  | None =>
      insert_origin {| og_origin_id := origin_id; og_runtime_epoch_id := re_epoch_id epoch;
                       og_symbol := sd_symbol decision; og_run_id := sd_run_id decision;
                       og_evaluation_completed_at := sd_evaluation_completed_at decision;
                       og_decision_cutoff_at := sd_decision_cutoff_at decision;
                       og_producer_observed_at := sd_producer_observed_at decision;
                       og_origin_kind := sd_origin_kind decision; og_status := ORIGIN_STATUS_BLOCKED;
                       og_block_reason := Some (sd_reason decision); og_created_at := sd_evaluation_completed_at decision;
                       og_lifecycle_consumption_json := None |} db
  end.

(** ** Cohorts (cohort.py) *)

Definition cohort_of (db : database) (row_epoch : option string) : string :=
  match load_active_runtime_epoch db with
  | Some epoch => if bool_decide (row_epoch = Some (re_epoch_id epoch)) then COHORT_CURRENT_EPOCH_OPERATIONAL
                  else COHORT_LEGACY_OR_UNATTRIBUTED
  | None => COHORT_LEGACY_OR_UNATTRIBUTED
  end.

Definition classify_lifecycle_cohort (db : database) (row : SetupLifecycleRecord) : string :=
  cohort_of db (lifecycle_row_epoch_id row).

Definition classify_run_cohort (db : database) (run_id : string) : string :=
  cohort_of db (option_map run_runtime_epoch_id (run_row_of db run_id)).

(** ** The watch state (watch_state.py) *)

(** [require_operational_watch_payload] *)
Definition require_operational_watch_payload (payload : json) (epoch_id : string) : result (list (string * json)) :=
  match payload with
  | JObj fields =>
      match json_get "runtime_epoch_id" fields with
      | JNull => Raise (configuration_error
          "Operational watch state is missing runtime_epoch_id; refusing to adopt untagged state.")
      | raw_epoch =>
          let payload_epoch := py_strip (json_str raw_epoch) in
          if String.eqb payload_epoch ""
          then Raise (configuration_error
            "Operational watch state runtime_epoch_id is empty; refusing to adopt untagged state.") else
          if negb (String.eqb payload_epoch epoch_id)
          then Raise (configuration_error "Operational watch state epoch does not match the active runtime epoch.")
          else Ok fields
      end
  | _ => Raise (configuration_error "Operational watch state must be a JSON object.")
  end.

(** [stamp_watch_payload] *)
Definition stamp_watch_payload (payload : list (string * json)) (epoch_id : string) : list (string * json) :=
  dict_set "runtime_epoch_id" (JStr epoch_id) payload.
