(* ===== verification/ObservationConsumption.v ===== *)
(** * Receipts of scan decisions (src/app/lifecycle/observation_consumption.py)

    The column [lifecycle_consumption_json] of a granted origin holds a document
    with one receipt per mode: the digest of the observation that was consumed
    with its lineage, and the lifecycle, or the lifecycles, that own it.  A scan
    decision is consumed once: a retry finds its receipt, and other content of
    the same mode is refused.

    A document is a decoded JSON object; a float in one keeps its literal.  The
    decoded document is a shared object: [persist_consumption] changes the one
    its argument holds, so it returns the argument as it is afterwards. *)

From stdpp Require Import base tactics list strings.
From Stdlib Require Import ZArith NArith Lia Bool Ascii.
From S2P Require Import Prelude PyString PyDecimal PyFloat PyTime Sha256 PyJson LifecycleModels JsonText Observation RuntimeEpoch LifecycleRepository EpochOrigin.
Open Scope string_scope.
Open Scope py_scope.

Definition SINGLE_OWNER_KEYS : list string := ["lifecycle_id"; "digest"; "consumed_at"].
Definition SOURCE_OWNER_KEYS : list string := ["digest"; "consumed_at"; "owners"].
Definition BINDING_KEYS : list string := ["lifecycle_id"; "mode"; "direction"].

Record ObservationConsumption := mkConsumption {
  oc_origin_id : string;
  oc_mode : string;
  oc_digest : string;
  oc_document : option (list (string * json));
  oc_owner_id : option json;
  oc_bound_owners : list (string * string * string)
}.
#[export] Instance ObservationConsumption_eta : RecordEta ObservationConsumption := fun c =>
  mkConsumption (oc_origin_id c) (oc_mode c) (oc_digest c) (oc_document c) (oc_owner_id c) (oc_bound_owners c).

Definition legacy (c : ObservationConsumption) : bool := match oc_document c with None => true | Some _ => false end.

(** ** The digest *)

(** [asdict(observation)] *)
Definition observation_json (o : LifecycleObservation) : json :=
  JObj [("symbol", JStr (o_symbol o)); ("mode", JStr (o_mode o)); ("direction", JStr (o_direction o));
        ("readiness_score", JInt (o_readiness_score o)); ("readiness_label", JStr (o_readiness_label o));
        ("quality_score", JInt (o_quality_score o)); ("quality_grade", JStr (o_quality_grade o));
        ("entry_low", JStr (o_entry_low o)); ("entry_high", JStr (o_entry_high o));
        ("stop_loss", JStr (o_stop_loss o)); ("tp1", JStr (o_tp1 o)); ("tp2", JStr (o_tp2 o));
        ("tp3", JStr (o_tp3 o)); ("rr", JStr (o_rr o)); ("current_price", JStr (o_current_price o));
        ("latest_high", JStr (o_latest_high o)); ("latest_low", JStr (o_latest_low o));
        ("edge_score", JStr (o_edge_score o)); ("failed_gate", JStr (o_failed_gate o));
        ("candidate_quality_grade", JStr (o_candidate_quality_grade o));
        ("final_quality_grade", JStr (o_final_quality_grade o)); ("final_failed_gate", JStr (o_final_failed_gate o));
        ("final_block_reason", JStr (o_final_block_reason o));
        ("target_integrity_status", JStr (o_target_integrity_status o));
        ("target_failure", JStr (o_target_failure o));
        ("target_failure_severity", JStr (o_target_failure_severity o));
        ("target_warning_reason", JStr (o_target_warning_reason o));
        ("actionability_state", JStr (o_actionability_state o)); ("regime_state", JStr (o_regime_state o));
        ("action_label", JStr (o_action_label o)); ("confirmation_timeframe", JStr (o_confirmation_timeframe o));
        ("invalidation_reason", JStr (o_invalidation_reason o)); ("sweep_detected", JBool (o_sweep_detected o));
        ("structure_shift_detected", JBool (o_structure_shift_detected o));
        ("pullback_valid", JBool (o_pullback_valid o)); ("rr_valid", JBool (o_rr_valid o));
        ("valid_trade_idea", JBool (o_valid_trade_idea o)); ("core_status", JStr (o_core_status o));
        ("setup_quality_state", JStr (o_setup_quality_state o)); ("technical_score", JStr (o_technical_score o));
        ("opportunity_score", JStr (o_opportunity_score o)); ("min_technical_score", JStr (o_min_technical_score o));
        ("min_opportunity_score", JStr (o_min_opportunity_score o));
        ("active_rejection_reason", JStr (o_active_rejection_reason o));
        ("active_invalidation_reason", JStr (o_active_invalidation_reason o));
        ("data_health_failed", JBool (o_data_health_failed o));
        ("required_data_missing", JArr (map JStr (o_required_data_missing o)));
        ("required_data_unverified", JArr (map JStr (o_required_data_unverified o)));
        ("optional_data_missing", JArr (map JStr (o_optional_data_missing o)));
        ("optional_data_unverified", JArr (map JStr (o_optional_data_unverified o)));
        ("limit_fill_required", JBool (o_limit_fill_required o));
        ("actionable_a_grade_candidate", JBool (o_actionable_a_grade_candidate o));
        ("a_grade_watch_candidate", JBool (o_a_grade_watch_candidate o));
        ("actionable_grade_reason", JStr (o_actionable_grade_reason o));
        ("confirmation_block_reason", JStr (o_confirmation_block_reason o));
        ("lifecycle_promotion_reason", JStr (o_lifecycle_promotion_reason o));
        ("entry_filled", JBool (o_entry_filled o)); ("tp_hit", JBool (o_tp_hit o)); ("sl_hit", JBool (o_sl_hit o));
        ("invalidated", JBool (o_invalidated o)); ("expired", JBool (o_expired o));
        ("closed_candle_outcomes_managed", JBool (o_closed_candle_outcomes_managed o));
        ("structural_anchor", JStr (o_structural_anchor o)); ("instrument_venue", JStr (o_instrument_venue o))].

Definition optional_json (value : option string) : json := match value with Some s => JStr s | None => JNull end.

(** the payload of the digest *)
Definition decision_payload (observation : LifecycleObservation) (lineage : list (string * option string)) : json :=
  JObj [("version", JInt 1); ("observation", observation_json observation);
        ("lineage", JObj (map (fun '(k, v) => (k, optional_json v)) lineage))].

Definition decision_digest (observation : LifecycleObservation) (lineage : list (string * option string)) : string :=
  sha256_hexdigest (dumps (decision_payload observation lineage)).

(** ** Documents *)

(** [version == n] for a small positive [n] *)
Definition json_is_number (n : Z) (v : json) : bool :=
  match v with
  | JInt z => (z =? n)%Z
  | JBool b => ((if b then 1 else 0) =? n)%Z
  | JFloat literal => float_equals literal n
  | _ => false
  end.

(** [v != digest] *)
Definition json_is_text (text : string) (v : json) : bool := match v with JStr s => String.eqb s text | _ => false end.

(** [bool(value)] *)
Definition json_truth (v : json) : bool :=
  match v with
  | JNull => false
  | JBool b => b
  | JInt z => negb (z =? 0)%Z
  | JFloat literal =>
      match parse_decimal literal with
      | Some (Finite d) => negb (d_coef d =? 0)%N && negb (fst (float_size d) =? 0)%Z
      | _ => true
      end
  | JStr s => negb (String.eqb s "")
  | JArr l => match l with [] => false | _ => true end
  | JObj fields => match fields with [] => false | _ => true end
  end.

(** [str(lifecycle_id or "")] *)
Definition owner_text (v : json) : string := if json_truth v then json_str v else "".

(** [not isinstance(v, dict)] or its fields *)
Definition json_fields (v : json) : option (list (string * json)) := match v with JObj fields => Some fields | _ => None end.

Definition has_keys (fields : list (string * json)) (names : list string) : bool := same_texts (map fst fields) names.

(** [json.dumps(allow_nan=False)] refuses what JSON cannot write *)
Fixpoint json_compliant (v : json) : bool :=
  match v with
  | JFloat literal => negb (str_in literal ["nan"; "inf"; "-inf"])
  | JArr l => forallb json_compliant l
  | JObj fields => forallb (fun '(_, w) => json_compliant w) fields
  | _ => true
  end.

(** [_json] *)
Definition consumption_json (fields : list (string * json)) : result string :=
  if json_compliant (JObj fields) then Ok (dumps (JObj fields))
  else Raise (ValueError "Out of range float values are not JSON compliant").

Definition unsupported {A} : result A := Raise (ValueError "unsupported receipt document").
Definition conflicting_content {A} : result A := Raise (ValueError "conflicting decision content").
Definition conflicting_owner {A} : result A := Raise (ValueError "conflicting lifecycle owner").

(** [except (KeyError, TypeError, ValueError)]; epoch errors pass *)
Definition as_integrity_exception {A} (c : result A) : result A :=
  match c with
  | Ok a => Ok a
  | Raise e =>
      match value_error_text e with
      | Some text => Raise (collision_error ("Observation consumption integrity exception: " +:+ text))
      | None => Raise e
      end
  end.

(** the key of a mode and of a direction, and of a symbol *)
Definition key_text (s : string) : string := py_lower (py_strip s).
Definition symbol_key (s : string) : string := py_upper (py_strip s).

(** ** Owners *)

(** [_require_mode_owner] *)
Definition require_mode_owner (db : database) (owner_id : json) (mode : string) (observation : LifecycleObservation)
    : result SetupLifecycleRecord :=
  let! owner := require_current_epoch_lifecycle_id db (owner_text owner_id) in
  if negb (String.eqb (r_mode owner) mode) || negb (String.eqb (r_direction owner) (key_text (o_direction observation)))
  then conflicting_owner else
  if negb (String.eqb (r_symbol owner) (symbol_key (o_symbol observation)))
  then Raise (ValueError "conflicting lifecycle symbol") else Ok owner.

(** [_require_single_owner_list] *)
Definition require_single_owner_list (owners lifecycle_id : json) (mode direction : string) : result unit :=
  match owners with
  | JArr [JObj item] =>
      if negb (has_keys item BINDING_KEYS) then unsupported else
      if negb (String.eqb (json_str (json_get "lifecycle_id" item)) (json_str lifecycle_id))
         || negb (String.eqb (key_text (json_str (json_get "mode" item))) mode) then conflicting_owner else
      if negb (String.eqb (key_text (json_str (json_get "direction" item))) (key_text direction))
      then conflicting_owner else Ok tt
  | _ => unsupported
  end.

(** the texts of a binding, and whether it can be used after the ones [seen] *)
Definition binding_texts (item : list (string * json)) : string * string * string :=
  (py_strip (json_str (json_get "lifecycle_id" item)), key_text (json_str (json_get "mode" item)),
   key_text (json_str (json_get "direction" item))).

Definition binding_usable (seen : list string) (b : string * string * string) : bool :=
  let '(lifecycle_id, mode, direction) := b in
  negb (String.eqb lifecycle_id "") && negb (str_in lifecycle_id seen) && negb (String.eqb mode "")
  && negb (String.eqb direction "").

(** the loop of [_source_bindings] *)
Fixpoint source_bindings_from (db : database) (symbol : string) (seen : list string) (owners : list json)
    : result (list (string * string * string)) :=
  match owners with
  | [] => Ok []
  | owner :: rest =>
      match json_fields owner with
      | None => unsupported
      | Some item =>
          if negb (has_keys item BINDING_KEYS) then unsupported else
          let b := binding_texts item in
          let '(lifecycle_id, mode, direction) := b in
          if negb (binding_usable seen b) then unsupported else
          let! row := require_current_epoch_lifecycle_id db lifecycle_id in
          if negb (String.eqb (r_mode row) mode) || negb (String.eqb (r_direction row) direction)
          then conflicting_owner else
          if negb (String.eqb (r_symbol row) symbol) then Raise (ValueError "conflicting lifecycle symbol") else
          let! bindings := source_bindings_from db symbol (lifecycle_id :: seen) rest in
          Ok (b :: bindings)
      end
  end.

(** [_source_bindings] *)
Definition source_bindings (db : database) (owners : json) (observation : LifecycleObservation)
    : result (list (string * string * string)) :=
  match owners with
  | JArr (owner :: rest) => source_bindings_from db (symbol_key (o_symbol observation)) [] (owner :: rest)
  | _ => unsupported
  end.

(** ** Inspection *)

(** [_inspect_version_one] *)
Definition inspect_version_one (db : database) (document modes : list (string * json)) (origin_id mode digest : string)
    (observation : LifecycleObservation) : result ObservationConsumption :=
  let found owner := {| oc_origin_id := origin_id; oc_mode := mode; oc_digest := digest; oc_document := Some document;
                        oc_owner_id := owner; oc_bound_owners := [] |} in
  if negb (dict_mem mode modes) then Ok (found None) else
  match json_fields (json_get mode modes) with
  | None => conflicting_content
  | Some receipt =>
      if negb (json_is_text digest (json_get "digest" receipt)) then conflicting_content else
      if negb (has_keys receipt SINGLE_OWNER_KEYS) then unsupported else
      let owner_id := json_get "lifecycle_id" receipt in
      let! _ := require_mode_owner db owner_id mode observation in
      Ok (found (match owner_id with JNull => None | v => Some v end))
  end.

(** [_inspect_version_two] *)
Definition inspect_version_two (db : database) (document modes : list (string * json)) (origin_id mode digest : string)
    (observation : LifecycleObservation) : result ObservationConsumption :=
  let found owner bindings :=
    {| oc_origin_id := origin_id; oc_mode := mode; oc_digest := digest; oc_document := Some document;
       oc_owner_id := owner; oc_bound_owners := bindings |} in
  if negb (dict_mem mode modes) then Ok (found None []) else
  match json_fields (json_get mode modes) with
  | None => conflicting_content
  | Some receipt =>
      if negb (json_is_text digest (json_get "digest" receipt)) then conflicting_content else
      if dict_mem "lifecycle_id" receipt then
        if negb (has_keys receipt SINGLE_OWNER_KEYS) && negb (has_keys receipt ("owners" :: SINGLE_OWNER_KEYS))
        then unsupported else
        let owner_id := json_get "lifecycle_id" receipt in
        let! owner := require_mode_owner db owner_id mode observation in
        let! _ := if dict_mem "owners" receipt
                  then require_single_owner_list (json_get "owners" receipt) owner_id mode (r_direction owner) else Ok tt in
        Ok (found (Some (JStr (json_str owner_id))) [])
      else if negb (has_keys receipt SOURCE_OWNER_KEYS) then unsupported else
      let! bindings := source_bindings db (json_get "owners" receipt) observation in
      Ok (found None bindings)
  end.

(** the [modes] of a document of the two known keys *)
Definition document_modes (v : json) : option (list (string * json) * list (string * json)) :=
  match v with
  | JObj document =>
      if has_keys document ["version"; "modes"]
      then option_map (fun modes => (document, modes)) (json_fields (json_get "modes" document)) else None
  | _ => None
  end.

(** the stored document *)
Definition inspect_document `{JsonErrors} (db : database) (raw origin_id mode digest : string)
    (observation : LifecycleObservation) : result ObservationConsumption :=
  let! decoded := loads raw in
  match document_modes decoded with
  | None => unsupported
  | Some (document, modes) =>
      let version := json_get "version" document in
      if json_is_number 1 version then inspect_version_one db document modes origin_id mode digest observation else
      if json_is_number 2 version then inspect_version_two db document modes origin_id mode digest observation
      else unsupported
  end.

(** [inspect_consumption] *)
Definition inspect_consumption `{JsonErrors} (in_transaction : bool) (origin : SymbolOriginDecision)
    (observation : LifecycleObservation) (lineage : list (string * option string)) (db : database)
    : result ObservationConsumption :=
  if negb in_transaction
  then Raise (origin_error "Observation consumption requires an enclosing transaction.") else
  let! epoch := require_active_runtime_epoch db in
  let unmatched := Raise (origin_error "Observation consumption requires matching granted lineage.") in
  match load_granted_origin db (default "" (sd_origin_id origin)) with
  | None => unmatched
  | Some row =>
      if negb (sd_granted origin) || negb (String.eqb (og_runtime_epoch_id row) (re_epoch_id epoch))
         || negb (String.eqb (og_run_id row) (sd_run_id origin))
         || negb (String.eqb (og_symbol row) (symbol_key (o_symbol observation)))
      then unmatched else
      let mode := key_text (o_mode observation) in
      let digest := decision_digest observation lineage in
      match og_lifecycle_consumption_json row with
      | None => Ok {| oc_origin_id := og_origin_id row; oc_mode := mode; oc_digest := digest; oc_document := None;
                      oc_owner_id := None; oc_bound_owners := [] |}
      | Some raw => as_integrity_exception (inspect_document db raw (og_origin_id row) mode digest observation)
      end
  end.

(** ** Receipts *)

(** [UPDATE runtime_operational_origins SET lifecycle_consumption_json = ? WHERE origin_id = ?] *)
Definition store_consumption (origin_id text : string) (db : database) : database :=
  db <| db_origins := update_row (fun o => String.eqb (og_origin_id o) origin_id)
          (fun o => o <| og_lifecycle_consumption_json := Some text |>) (db_origins db) |>.

Definition unowned_or_repeated {A} : result A :=
  Raise (origin_error "Cannot persist an unowned or repeated consumption.").

(** the document of a consumption that nothing owns yet *)
Definition open_document (in_transaction : bool) (c : ObservationConsumption) : option (list (string * json)) :=
  match oc_document c, oc_owner_id c, oc_bound_owners c with
  | Some document, None, [] => if in_transaction then Some document else None
  | _, _, _ => None
  end.

(** [document["modes"][mode] = receipt] *)
Definition set_receipt (mode : string) (receipt : json) (modes document : list (string * json)) : list (string * json) :=
  dict_set "modes" (JObj (dict_set mode receipt modes)) document.

(** the receipt of one owner *)
Definition receipt_json (lifecycle_id digest consumed_at : string) : json :=
  JObj [("lifecycle_id", JStr lifecycle_id); ("digest", JStr digest); ("consumed_at", JStr consumed_at)].

(** [persist_consumption] *)
Definition persist_consumption (in_transaction : bool) (c : ObservationConsumption) (lifecycle_id consumed_at : string)
    (db : database) : result (ObservationConsumption * database) :=
  match open_document in_transaction c with
  | None => unowned_or_repeated
  | Some document =>
      let modes := default [] (json_fields (json_get "modes" document)) in
      if dict_mem (oc_mode c) modes then unowned_or_repeated else
      let document := set_receipt (oc_mode c) (receipt_json lifecycle_id (oc_digest c) consumed_at) modes document in
      let! text := consumption_json document in
      Ok (c <| oc_document := Some document |>, store_consumption (oc_origin_id c) text db)
  end.

(** a binding as an object *)
Definition binding_json (b : string * string * string) : json :=
  let '(lifecycle_id, mode, direction) := b in
  JObj [("lifecycle_id", JStr lifecycle_id); ("mode", JStr mode); ("direction", JStr direction)].

(** the loop of [_validated_owner_bindings], on mappings of texts *)
Fixpoint validated_bindings_from (db : database) (seen : list string) (owners : list (list (string * string)))
    : result (list (string * string * string)) :=
  match owners with
  | [] => Ok []
  | owner :: rest =>
      let item := map (fun '(k, v) => (k, JStr v)) owner in
      if negb (has_keys item BINDING_KEYS) then unsupported else
      let b := binding_texts item in
      let '(lifecycle_id, mode, direction) := b in
      if negb (binding_usable seen b) then unsupported else
      let! row := require_current_epoch_lifecycle_id db lifecycle_id in
      if negb (String.eqb (r_mode row) mode) || negb (String.eqb (r_direction row) direction) then conflicting_owner else
      let! bindings := validated_bindings_from db (lifecycle_id :: seen) rest in
      Ok (b :: bindings)
  end.

(** [key=lambda item: (item["mode"], item["direction"], item["lifecycle_id"])] *)
Definition binding_leb (a b : string * string * string) : bool :=
  let '(ia, ma, da) := a in
  let '(ib, mb, db) := b in
  match String.compare ma mb with
  | Lt => true
  | Gt => false
  | Eq => match String.compare da db with Lt => true | Gt => false | Eq => String.leb ia ib end
  end.

Fixpoint insert_binding (b : string * string * string) (l : list (string * string * string)) :=
  match l with
  | [] => [b]
  | x :: rest => if binding_leb b x then b :: l else x :: insert_binding b rest
  end.

(** [_validated_owner_bindings] *)
Definition validated_owner_bindings (db : database) (owners : list (list (string * string))) : result json :=
  let! bindings := validated_bindings_from db [] owners in
  Ok (JArr (map binding_json (fold_right insert_binding [] bindings))).

(** a slot of version one as a slot of version two *)
Definition upgrade_slot (db : database) (mode : string) (slot : json) : result (string * json) :=
  let slot_mode := key_text mode in
  match json_fields slot with
  | None => unsupported
  | Some fields =>
      if negb (has_keys fields SINGLE_OWNER_KEYS) then unsupported else
      let lifecycle_id := json_get "lifecycle_id" fields in
      let! owner := require_current_epoch_lifecycle_id db (owner_text lifecycle_id) in
      if negb (String.eqb (r_mode owner) slot_mode) then conflicting_owner else
      Ok (slot_mode,
          JObj [("lifecycle_id", JStr (json_str lifecycle_id)); ("digest", json_get "digest" fields);
                ("consumed_at", json_get "consumed_at" fields);
                ("owners", JArr [binding_json (json_str lifecycle_id, r_mode owner, r_direction owner)])])
  end.

Fixpoint upgrade_slots (db : database) (slots modes : list (string * json)) : result (list (string * json)) :=
  match slots with
  | [] => Ok modes
  | (mode, slot) :: rest =>
      let! (key, upgraded) := upgrade_slot db mode slot in
      upgrade_slots db rest (dict_set key upgraded modes)
  end.

(** [_upgrade_source_document]: the modes of the document of version two *)
Definition upgrade_source_document (db : database) (document : list (string * json)) : result (list (string * json)) :=
  match document_modes (JObj document) with
  | None => unsupported
  | Some (_, modes) =>
      let version := json_get "version" document in
      if json_is_number 2 version then Ok modes else
      if negb (json_is_number 1 version) then unsupported else upgrade_slots db modes []
  end.

(** [persist_source_owner_bindings] *)
Definition persist_source_owner_bindings (in_transaction : bool) (c : ObservationConsumption)
    (owners : list (list (string * string))) (consumed_at : string) (db : database) : result database :=
  match open_document in_transaction c with
  | None => unowned_or_repeated
  | Some document =>
      match owners with [] => unowned_or_repeated | _ =>
      let! modes := as_integrity_exception (upgrade_source_document db document) in
      if dict_mem (oc_mode c) modes
      then Raise (collision_error "Observation consumption integrity exception: conflicting decision content") else
      let! bindings := validated_owner_bindings db owners in
      let receipt := JObj [("digest", JStr (oc_digest c)); ("consumed_at", JStr consumed_at); ("owners", bindings)] in
      let! text := consumption_json [("version", JInt 2); ("modes", JObj (dict_set (oc_mode c) receipt modes))] in
      Ok (store_consumption (oc_origin_id c) text db)
      end
  end.
