(* ===== verification/TerminalAnalytics.v ===== *)
(** * Terminal analytics (src/app/lifecycle/service.py)

    The row of [setup_outcome_analytics] a lifecycle gets when it has ended, and
    when it is written: [_persist_terminal_analytics], called by the handler of a
    symbol and by the monitoring of owners ([account_monitored_outcome]). *)

From stdpp Require Import base tactics list strings.
From Stdlib Require Import ZArith NArith Lia Bool Ascii.
From S2P Require Import Prelude PyString PyDecimal PyTime PyJson LifecycleModels CandleIntegrity JsonText OutcomePolicy RuntimeEpoch LifecycleRepository RepositoryFacts StateMachineFacts Outcomes ObservationConsumption.
Open Scope string_scope.
Open Scope py_scope.
Open Scope tx_scope.

(** ** The row *)

(** [_display] of text *)
Definition sv_display (value : string) : string := if String.eqb value "" then NA else value.

(** [_first_non_na] *)
Fixpoint first_non_na (values : list string) : string :=
  match values with
  | [] => NA
  | v :: rest => let text := sv_display v in if String.eqb text NA then first_non_na rest else text
  end.

(** [_final_outcome_for_state] *)
Definition final_outcome_for_state (state : SetupLifecycleState) : string :=
  match state with
  | TP_HIT => "TP3_HIT"
  | BREAKEVEN => "BREAKEVEN"
  | SL_HIT => "SL_HIT"
  | INVALIDATED => "INVALIDATED"
  | EXPIRED => "EXPIRED"
  | REJECTED => "REJECTED"
  | COOLDOWN => "COOLDOWN"
  | _ => NA
  end.

(** [_failure_reason] *)
Definition failure_reason (record : SetupLifecycleRecord) : string :=
  if state_in (r_current_state record) [INVALIDATED; EXPIRED; REJECTED; SL_HIT]
  then first_non_na [r_invalidation_reason record; r_failed_gate record; r_decay_reason record] else NA.

(** [_zone_text] *)
Definition zone_text (low high : string) : string :=
  let low_text := sv_display low in
  let high_text := sv_display high in
  if String.eqb low_text NA && String.eqb high_text NA then NA else
  if String.eqb high_text NA || String.eqb high_text low_text then low_text else
  if String.eqb low_text NA then high_text else low_text +:+ "-" +:+ high_text.

(** [progress.model_dump(mode="json")], without the fields it excludes *)
Definition progress_dump (p : SetupLifecycleOutcomeProgress) : json :=
  JObj [("lifecycle_id", JStr (pg_lifecycle_id p)); ("plan_identity", JStr (pg_plan_identity p));
        ("symbol", JStr (pg_symbol p)); ("mode", JStr (pg_mode p));
        ("direction", JStr (pg_direction p)); ("execution_timeframe", JStr (pg_execution_timeframe p));
        ("tracking_start_at", optional_json (pg_tracking_start_at p)); ("evaluation_cursor_open_at", optional_json (pg_evaluation_cursor_open_at p));
        ("evaluation_cursor_close_at", optional_json (pg_evaluation_cursor_close_at p)); ("entry_at", optional_json (pg_entry_at p));
        ("tp1_at", optional_json (pg_tp1_at p)); ("tp2_at", optional_json (pg_tp2_at p));
        ("tp3_at", optional_json (pg_tp3_at p)); ("stop_at", optional_json (pg_stop_at p));
        ("invalidated_at", optional_json (pg_invalidated_at p)); ("outcome_at", optional_json (pg_outcome_at p));
        ("terminal_outcome", JStr (pg_terminal_outcome p)); ("integrity_status", JStr (pg_integrity_status p));
        ("diagnostic", JStr (pg_diagnostic p)); ("metadata_json", JStr (pg_metadata_json p));
        ("first_evaluated_at", JStr (pg_first_evaluated_at p)); ("last_evaluated_at", JStr (pg_last_evaluated_at p))].

(** the payload of [_outcome_analytics_record] *)
Definition analytics_payload (record : SetupLifecycleRecord) (reason : SetupTransitionReason)
    (progress : option SetupLifecycleOutcomeProgress) : json :=
  JObj [("lifecycle_id", JStr (r_lifecycle_id record)); ("state", JStr (state_value (r_current_state record)));
        ("reason", JStr (reason_value reason)); ("confirmation_count", JInt (r_confirmation_count record));
        ("required_confirmation_cycles", JInt (r_required_confirmation_cycles record));
        ("decay_count", JInt (r_decay_count record)); ("decay_reason", JStr (r_decay_reason record));
        ("outcome_progress", match progress with Some p => progress_dump p | None => JNull end)].

(** [" > ".join(...)] of the events, or the state *)
Definition lifecycle_path (record : SetupLifecycleRecord) (events : list SetupLifecycleEvent) : string :=
  let path := py_join " > " (map (fun e => state_value (ev_to_state e)) events) in
  if String.eqb path "" then state_value (r_current_state record) else path.

(** [_outcome_analytics_record] *)
Definition outcome_analytics_record (transition : SetupTransitionResult) (progress : option SetupLifecycleOutcomeProgress)
    (db : database) : result (option SetupOutcomeAnalyticsRecord) :=
  match tr_record transition with
  | None => Ok None
  | Some record =>
      let! failure := stored_plan_geometry_failure record in
      let final_outcome := final_outcome_for_state (r_current_state record) in
      if match failure with Some _ => true | None => false end then Ok None else
      if String.eqb final_outcome NA then Ok None else
      let! events := list_events db (r_lifecycle_id record) in
      map_result Some (validate_analytics
        {| an_lifecycle_id := r_lifecycle_id record; an_symbol := r_symbol record; an_bias := r_direction record;
           an_first_seen_at := r_first_seen_at record;
           an_confirmed_at := match r_confirmed_at record with Some c => if String.eqb c "" then NA else c | None => NA end;
           an_entry_zone := zone_text (r_entry_low record) (r_entry_high record); an_stop_loss := r_stop_loss record;
           an_tp1 := r_tp1 record; an_tp2 := r_tp2 record; an_tp3 := r_tp3 record;
           an_quality_at_first_detection := r_quality_grade_first_seen record;
           an_quality_at_confirmation := r_quality_grade_confirmed record; an_rr := r_rr record;
           an_lifecycle_path := lifecycle_path record events; an_final_outcome := final_outcome;
           an_failure_reason := failure_reason record; an_outcome_reason := reason_value (tr_reason transition);
           an_regime_context := r_regime_state record;
           an_symbol_health_at_detection := r_symbol_health_score_at_detection record;
           an_raw_payload_json := dumps (analytics_payload record (tr_reason transition) progress) |})
  end.

(** [_persist_terminal_analytics] *)
Definition persist_terminal_analytics (transition : SetupTransitionResult) (progress : option SetupLifecycleOutcomeProgress)
    : tx unit :=
  do! outcome := query (outcome_analytics_record transition progress) in
  match outcome with
  | None => ret tt
  | Some outcome =>
      do! stored := query (fun db => list_outcome_analytics db (an_symbol outcome)) in
      if tr_transitioned transition || negb (existsb (analytics_key_eqb outcome) stored)
      then upsert_outcome_analytics outcome else ret tt
  end.

(** ** Its writes *)

Lemma outcome_analytics_id transition progress db record a : tr_record transition = Some record ->
  outcome_analytics_record transition progress db = Ok (Some a) ->
  an_lifecycle_id a = r_lifecycle_id record /\ an_final_outcome a = final_outcome_for_state (r_current_state record) /\
  an_symbol a = py_upper (py_strip (r_symbol record)).
Proof.
  unfold outcome_analytics_record. intros -> H. apply bind_ok in H as (failure & _ & H).
  destruct failure; [done|]. destruct (String.eqb _ NA); [done|]. apply bind_ok in H as (events & _ & H).
  unfold map_result, validate_analytics in H. apply bind_ok in H as (x & H & E). apply ok_inj in E as [= <-].
  apply bind_ok in H as (sym & Hs & H). apply ok_inj in H as <-. cbn in Hs.
  by apply normalize_symbol_ok in Hs as [-> _].
Qed.

(** it writes for the lifecycle of its record only *)
Lemma persist_terminal_analytics_writes transition progress record : tr_record transition = Some record ->
  writes (lifecycle_id_text (r_lifecycle_id record)) (persist_terminal_analytics transition progress) (fun _ => True).
Proof.
  intros Hr db [] db' E. unfold persist_terminal_analytics in E. apply bind_tx_ok in E as (outcome & db1 & Hq & E).
  unfold query in Hq. apply bind_ok in Hq as (a & Ha & Hq). injection Hq as -> ->.
  destruct outcome as [a|]; [|injection E as <-; split; [apply extends_refl|done]].
  apply bind_tx_ok in E as (stored & db2 & Hq & E). unfold query in Hq. apply bind_ok in Hq as (l & _ & Hq). injection Hq as -> ->.
  destruct (_ || _); [|injection E as <-; split; [apply extends_refl|done]].
  apply (outcome_analytics_id _ _ _ _ _ Hr) in Ha as (<- & _ & _). by eapply upsert_outcome_analytics_writes.
Qed.

(** [SetupTransitionResult] of a record that stays where it is *)
Definition unmoved_transition (record : SetupLifecycleRecord) (notes : string) : SetupTransitionResult :=
  {| tr_lifecycle_id := r_lifecycle_id record; tr_symbol := r_symbol record; tr_from_state := Some (r_current_state record);
     tr_to_state := r_current_state record; tr_reason := NO_CHANGE; tr_transitioned := false; tr_allowed := true;
     tr_notes := notes; tr_event := None; tr_record := Some record |}.

(** [account_monitored_outcome] *)
Definition account_monitored_outcome (evaluation : LifecycleOutcomeEvaluation) : tx unit :=
  let record := le_record evaluation in
  let transition := match le_last_transition evaluation with
                    | Some t => match tr_record t with
                                | Some _ => t <| tr_record := Some record |>
                                | None => unmoved_transition record NA
                                end
                    | None => unmoved_transition record NA
                    end in
  persist_terminal_analytics transition (le_progress evaluation).

Lemma account_monitored_outcome_writes evaluation :
  writes (lifecycle_id_text (r_lifecycle_id (le_record evaluation))) (account_monitored_outcome evaluation) (fun _ => True).
Proof.
  unfold account_monitored_outcome. apply persist_terminal_analytics_writes.
  destruct (le_last_transition evaluation) as [t|]; [|done]. by destruct (tr_record t).
Qed.

(** ** A plan that is read back *)

Lemma op_text_normalize s : op_text s = normalize_text s.
Proof. unfold op_text, normalize_text. by destruct (String.eqb_spec s "") as [->|]. Qed.

Lemma normalize_text_idem s : normalize_text (normalize_text s) = normalize_text s.
Proof.
  unfold normalize_text. destruct (String.eqb_spec (py_strip s) "") as [|E]; [done|].
  rewrite py_strip_idem. by rewrite (proj2 (String.eqb_neq _ _) E).
Qed.

Lemma op_text_normalized s : op_text (normalize_text s) = op_text s.
Proof. rewrite !op_text_normalize. apply normalize_text_idem. Qed.

Lemma parse_decimal_strip s : parse_decimal (py_strip s) = parse_decimal s.
Proof. unfold parse_decimal. by rewrite py_strip_idem. Qed.

Lemma stored_level_normalized s d : stored_level (normalize_text s) d <-> stored_level s d.
Proof.
  pose proof (parse_decimal_strip s) as Hp. unfold stored_level, normalize_text.
  destruct (String.eqb_spec (py_strip s) "") as [E|E].
  - rewrite E in Hp. change (parse_decimal "") with (@None pydec) in Hp. rewrite <- Hp. split; intros (? & ? & ?); done.
  - rewrite Hp. split; intros (H1 & H2 & H3); split_and!; try done.
    + by intros ->.
    + by intros ->.
    + intros En. by rewrite <- Hp, En in H3.
Qed.

(** two records with the same plan up to blanks *)
Record same_plan (a b : SetupLifecycleRecord) : Prop := {
  sp_direction : py_lower (op_text (r_direction b)) = py_lower (op_text (r_direction a));
  sp_levels : map (fun f => f b) [r_entry_low; r_entry_high; r_stop_loss; r_tp1; r_tp2; r_tp3]
              = map (fun f => normalize_text (f a)) [r_entry_low; r_entry_high; r_stop_loss; r_tp1; r_tp2; r_tp3];
  sp_invalidation : r_invalidation_logic b = normalize_text (r_invalidation_logic a) /\ r_invalidation_reason b = normalize_text (r_invalidation_reason a)
}.

Lemma same_plan_spec a b g : same_plan a b -> stored_plan_spec b g <-> stored_plan_spec a g.
Proof.
  intros [Hd Hl [Hi1 Hi2]]. cbn in Hl. injection Hl as L1 L2 L3 L4 L5 L6. unfold stored_plan_spec, stored_invalidation.
  destruct (g_targets g) as [[t1 t2] t3]. by rewrite Hd, L1, L2, L3, L4, L5, L6, Hi1, Hi2, !stored_level_normalized, !op_text_normalized.
Qed.

(** whether a stored plan fails does not depend on blanks *)
Lemma same_plan_failure a b fa : same_plan a b -> stored_plan_geometry_failure a = Ok fa ->
  exists fb, stored_plan_geometry_failure b = Ok fb /\ (fb = None <-> fa = None).
Proof.
  intros Hs Ha.
  assert (forall g, stored_plan_geometry b = Ok g <-> stored_plan_geometry a = Ok g) as Hg
    by (intros g; rewrite !stored_plan_geometry_iff; by apply same_plan_spec).
  destruct (stored_plan_geometry_failure_total a) as [(g & E & F)|(m & E & F)],
    (stored_plan_geometry_failure_total b) as [(g' & E' & F')|(m' & E' & F')];
    rewrite F in Ha; apply ok_inj in Ha as <-; rewrite F'; eexists; (split; [reflexivity|]); try done.
  - apply Hg in E. congruence.
  - apply Hg in E'. congruence.
Qed.

(** ** Written once *)

Lemma all_from_rows_in {A B} (f : A -> result B) rows l b : all_from_rows f rows = Ok l -> In b l ->
  exists row, In row rows /\ f row = Ok b.
Proof.
  revert l. induction rows as [|row rows IH]; intros l H Hin; cbn [all_from_rows] in H.
  - apply ok_inj in H as <-. destruct Hin.
  - apply bind_ok in H as (x & Hx & H). apply bind_ok in H as (others & Ho & H). apply ok_inj in H as <-.
    destruct Hin as [->|Hin]; [exists row; split; [by left|done]|].
    destruct (IH _ Ho Hin) as (r & Hr & Hf). exists r. split; [by right|done].
Qed.

Lemma all_from_rows_total {A B} (f : A -> result B) rows : (forall row, In row rows -> exists b, f row = Ok b) ->
  exists l, all_from_rows f rows = Ok l /\ forall row b, In row rows -> f row = Ok b -> In b l.
Proof.
  induction rows as [|row rows IH]; intros H; cbn [all_from_rows]; [exists []; split; [done|by intros ? ? []]|].
  destruct (H row (or_introl eq_refl)) as (b & Hb). destruct IH as (l & Hl & Hin); [intros r Hr; apply H; by right|].
  exists (b :: l). rewrite Hb. cbn [bind_result]. rewrite Hl. split; [done|].
  intros r b' [->|Hr] Hf; [left; congruence|right; by eapply Hin].
Qed.

Lemma validate_analytics_run a : symbol_key (an_symbol a) <> "" ->
  exists b, validate_analytics a = Ok b /\ an_lifecycle_id b = an_lifecycle_id a /\ an_final_outcome b = an_final_outcome a /\
    an_symbol b = symbol_key (an_symbol a).
Proof.
  intros H. unfold validate_analytics. rewrite (proj2 (normalize_symbol_ok _ _) (conj eq_refl H)). by eexists.
Qed.

Lemma validate_analytics_keeps a b : validate_analytics a = Ok b ->
  an_lifecycle_id b = an_lifecycle_id a /\ an_final_outcome b = an_final_outcome a /\ symbol_key (an_symbol a) <> "".
Proof.
  unfold validate_analytics. intros H. apply bind_ok in H as (sym & Hs & H). apply ok_inj in H as <-.
  apply normalize_symbol_ok in Hs as [-> Hs]. done.
Qed.

Lemma symbol_key_idem s : symbol_key (symbol_key s) = symbol_key s.
Proof. unfold symbol_key. by rewrite py_strip_upper, py_strip_idem, py_upper_idem. Qed.

Lemma repository_symbol_same s : symbol_key s <> "" -> repository_symbol s = symbol_key s.
Proof. intros H. unfold repository_symbol, symbol_key in *. by rewrite (proj2 (String.eqb_neq _ _) H). Qed.

(** the row of a lifecycle's end *)
Definition analytics_row (record : SetupLifecycleRecord) (a : SetupOutcomeAnalyticsRecord) : Prop :=
  an_lifecycle_id a = r_lifecycle_id record /\ an_final_outcome a = final_outcome_for_state (r_current_state record) /\
  an_symbol a = symbol_key (r_symbol record).

(** what has to be there for nothing to be left to write *)
Definition analytics_complete (record : SetupLifecycleRecord) (db : database) : Prop :=
  stored_plan_geometry_failure record = Ok None -> final_outcome_for_state (r_current_state record) <> NA ->
  (exists events, list_events db (r_lifecycle_id record) = Ok events) /\
  exists row, In row (db_analytics db) /\ analytics_row record row.

Lemma outcome_analytics_run t p record db outcome : tr_record t = Some record ->
  outcome_analytics_record t p db = Ok outcome -> stored_plan_geometry_failure record = Ok None ->
  final_outcome_for_state (r_current_state record) <> NA ->
  (exists events, list_events db (r_lifecycle_id record) = Ok events) /\ exists a, outcome = Some a /\ symbol_key (r_symbol record) <> "".
Proof.
  unfold outcome_analytics_record. intros -> H Hg Hf. rewrite Hg in H. cbn [bind_result] in H.
  rewrite (proj2 (String.eqb_neq _ _) Hf) in H. apply bind_ok in H as (events & He & H). split; [by exists events|].
  unfold map_result in H. apply bind_ok in H as (a & Ha & H). apply ok_inj in H as <-. exists a.
  by apply validate_analytics_keeps in Ha as (_ & _ & Ha).
Qed.

Lemma upserted_analytics a db u db' : upsert_outcome_analytics a db = Ok (u, db') ->
  (exists rows, db' = db <| db_analytics := rows |>) /\ In a (db_analytics db').
Proof.
  unfold upsert_outcome_analytics. intros H. apply bind_ok in H as (row & _ & H). apply ok_inj in H. injection H as _ <-.
  split; [by eexists|]. cbn [db_analytics set_field]. destruct (existsb _ _) eqn:E; [|apply in_or_app; right; by left].
  apply existsb_exists in E as (x & Hin & Hx). unfold update_row. apply in_map_iff. exists x. by rewrite Hx.
Qed.

(** writing them writes nothing else, and leaves nothing to write *)
Lemma persist_terminal_run t p record db u db' : tr_record t = Some record -> persist_terminal_analytics t p db = Ok (u, db') ->
  (exists rows, db' = db <| db_analytics := rows |>) /\ analytics_complete record db'.
Proof.
  intros Hr H. unfold persist_terminal_analytics in H. apply bind_tx_ok in H as (outcome & db1 & Hq & H).
  unfold query in Hq. apply bind_ok in Hq as (x & Ho & Hq). injection Hq as -> ->.
  assert (db1 <| db_analytics := db_analytics db1 |> = db1) as Hself by (by destruct db1).
  assert (forall d, db_events d = db_events db1 -> (forall a, outcome = Some a -> exists row, In row (db_analytics d) /\ analytics_row record row) ->
    analytics_complete record d) as Hcomplete.
  { intros d Hev Hrow Hg Hf. destruct (outcome_analytics_run _ _ _ _ _ Hr Ho Hg Hf) as ((events & He) & a & Ha & _).
    split; [exists events; unfold list_events in *; by rewrite Hev|]. by eapply Hrow. }
  destruct outcome as [a|]; [|apply ok_inj in H; injection H as _ <-; split; [eexists; symmetry; exact Hself|by apply Hcomplete]].
  destruct (outcome_analytics_id _ _ _ _ _ Hr Ho) as (Hid & Hfo & Hsym).
  apply bind_tx_ok in H as (stored & db2 & Hq & H). unfold query in Hq. apply bind_ok in Hq as (l & Hl & Hq). injection Hq as -> ->.
  destruct (_ || _) eqn:Hw.
  - apply upserted_analytics in H as ((rows & ->) & Hin). split; [by exists rows|]. apply Hcomplete; [done|].
    intros a' [= <-]. exists a. by split.
  - apply ok_inj in H. injection H as _ <-. split; [eexists; symmetry; exact Hself|]. apply Hcomplete; [done|].
    intros a' _. apply orb_false_iff in Hw as [_ Hw]. apply negb_false_iff, existsb_exists in Hw as (item & Hitem & Hk).
    unfold list_outcome_analytics in Hl. destruct (all_from_rows_in _ _ _ _ Hl Hitem) as (row & Hin & Hv).
    apply filter_In in Hin as [Hin Hs%String.eqb_eq]. apply validate_analytics_keeps in Hv as (Hv1 & Hv2 & Hv3).
    apply andb_true_iff in Hk as [H1%String.eqb_eq H2%String.eqb_eq]. exists row. split; [done|]. split_and!; try congruence.
    rewrite Hs in Hv3 |- *. rewrite Hsym in Hv3 |- *. fold (symbol_key (r_symbol record)) in *.
    unfold repository_symbol in *. fold (symbol_key (symbol_key (r_symbol record))) in *. rewrite symbol_key_idem in *.
    destruct (String.eqb_spec (symbol_key (r_symbol record)) "") as [E|]; [|done]. exfalso.
    unfold outcome_analytics_record in Ho. rewrite Hr in Ho. apply bind_ok in Ho as (fl & _ & Ho).
    destruct fl; [done|]. destruct (String.eqb _ NA); [done|]. apply bind_ok in Ho as (ev & _ & Ho).
    unfold map_result in Ho. apply bind_ok in Ho as (y & Hy & Ho). by apply validate_analytics_keeps in Hy as (_ & _ & ?).
Qed.

Lemma persist_terminal_again t p record f db : tr_record t = Some record -> tr_transitioned t = false ->
  symbol_key (r_symbol record) <> "" -> stored_plan_geometry_failure record = Ok f -> analytics_complete record db ->
  persist_terminal_analytics t p db = Ok (tt, db).
Proof.
  intros Hr Ht Hsym Hf Hc. unfold persist_terminal_analytics, bind_tx, query.
  destruct (outcome_analytics_record t p db) as [outcome|e] eqn:Ho.
  2:{ exfalso. unfold outcome_analytics_record in Ho. rewrite Hr, Hf in Ho. cbn [bind_result] in Ho. destruct f; [done|].
      destruct (String.eqb_spec (final_outcome_for_state (r_current_state record)) NA) as [|Hn]; [done|].
      destruct (Hc Hf Hn) as ((events & He) & _). rewrite He in Ho. cbn [bind_result] in Ho. unfold map_result in Ho.
      match type of Ho with context [validate_analytics ?a] => destruct (validate_analytics_run a Hsym) as (b & Hb & _) end.
      by rewrite Hb in Ho. }
  cbn [bind_result]. destruct outcome as [a|]; [|done]. destruct (outcome_analytics_id _ _ _ _ _ Hr Ho) as (Hid & Hfo & Hs).
  fold (symbol_key (r_symbol record)) in Hs.
  assert (stored_plan_geometry_failure record = Ok None /\ final_outcome_for_state (r_current_state record) <> NA) as [Hg Hn].
  { unfold outcome_analytics_record in Ho. rewrite Hr, Hf in Ho. cbn [bind_result] in Ho. destruct f; [done|].
    destruct (String.eqb_spec (final_outcome_for_state (r_current_state record)) NA); [done|]. by rewrite Hf. }
  destruct (Hc Hg Hn) as (_ & row & Hin & R1 & R2 & R3).
  assert (repository_symbol (an_symbol a) = symbol_key (r_symbol record)) as Hrs
    by (rewrite Hs, repository_symbol_same; rewrite symbol_key_idem; done).
  unfold list_outcome_analytics. rewrite Hrs.
  destruct (all_from_rows_total outcome_from_row (List.filter (fun a => String.eqb (an_symbol a) (symbol_key (r_symbol record))) (db_analytics db)))
    as (l & Hl & Hall).
  { intros x Hx. apply filter_In in Hx as [_ Hx%String.eqb_eq].
    destruct (validate_analytics_run x) as (b & Hb & _); [by rewrite Hx, symbol_key_idem|by exists b]. }
  rewrite Hl, Ht. cbn [bind_result orb].
  destruct (validate_analytics_run row) as (b & Hb & B1 & B2 & _); [by rewrite R3, symbol_key_idem|].
  assert (existsb (analytics_key_eqb a) l = true) as ->; [|done].
  apply existsb_exists. exists b. split.
  - eapply Hall; [|exact Hb]. apply filter_In. split; [done|]. by apply String.eqb_eq.
  - unfold analytics_key_eqb. by rewrite B1, B2, R1, R2, Hid, Hfo, !String.eqb_refl.
Qed.
