(* ===== verification/OwnerMonitoring.v ===== *)
(** * Monitoring of owned plans (src/app/lifecycle/owner_monitoring.py, monitoring_diagnostics.py)

    Every plan that was locked or is being followed stays an obligation until it
    has ended, whatever the scanner selects.  [select_tracking_obligations] finds
    the obligations, [monitor_tracking_obligations] runs the outcome pass on each
    of them in a savepoint of its own, and
    [monitor_obligations_with_market_data] reads the obligations, fetches candles
    without holding the database, and writes after checking what has changed.

    The candle fetcher, the clock and what other connections commit between the
    two stages are arguments.  The class and the text of an exception are the
    class [ExnText]; no theorem depends on them. *)

From stdpp Require Import base tactics list strings.
From Stdlib Require Import ZArith NArith Lia Bool Ascii.
From S2P Require Import Prelude PyString PyDecimal PyFloat PyTime PyJson LifecycleModels CandleIntegrity JsonText OutcomePolicy RuntimeEpoch LifecycleRepository Outcomes EpochOrigin TerminalAnalytics.
Open Scope string_scope.
Open Scope py_scope.
Open Scope tx_scope.

Definition GAP_REQUIRED_CLOSED_CANDLE : string := "required_closed_candle_unavailable".
Definition GAP_EXCHANGE_MARKET_DATA : string := "exchange_market_data_unavailable".
Definition GAP_MARKET_UNSUPPORTED : string := "market_unsupported_or_delisted".
Definition GAP_CURSOR_INTERVAL : string := "irrecoverable_cursor_interval".

(** [type(exc).__name__] and [str(exc)] *)
Class ExnText := { exn_name : exn -> string; exn_text : exn -> string }.

(** ** Data *)

Record SymbolMonitoringEvidence := mkEvidence {
  me_candles : list candle;
  me_execution_timeframe : string;
  me_decision_timestamp : string;
  me_gap_reason : option string
}.

Record TrackingCursorLag := {
  tl_lifecycle_id : string;
  tl_symbol : string;
  tl_mode : string;
  tl_direction : string;
  tl_plan_version_id : option string;
  tl_current_state : string;
  tl_is_current : bool;
  tl_last_processed_close_at : option string;
  tl_latest_available_close_at : option string;
  tl_lag_seconds : option Z;
  tl_gap_reason : option string
}.

(** an entry of [errors] *)
Record MonitoringError := { err_lifecycle_id : string; err_symbol : string; err_detail : string }.

#[export] Instance MonitoringError_eq_dec : EqDecision MonitoringError.
Proof. solve_decision. Defined.

Record OwnerMonitoringResult := mkMonitoring {
  om_evaluated_lifecycle_ids : list string;
  om_uncovered_symbols : list string;
  om_gap_lifecycle_ids : list string;
  om_errors : list MonitoringError;
  om_lags : list TrackingCursorLag;
  om_covered_keys : list string;
  om_obligation_lifecycle_ids : list string;
  om_skipped_lifecycle_ids : list string;
  om_verified_lifecycle_ids : list string
}.
#[export] Instance OwnerMonitoringResult_eta : RecordEta OwnerMonitoringResult := fun r =>
  mkMonitoring (om_evaluated_lifecycle_ids r) (om_uncovered_symbols r) (om_gap_lifecycle_ids r) (om_errors r) (om_lags r)
    (om_covered_keys r) (om_obligation_lifecycle_ids r) (om_skipped_lifecycle_ids r) (om_verified_lifecycle_ids r).

(** ** Texts *)

(** [_text] *)
Definition mo_text (value : string) : string := normalize_text value.

(** [_progress_is_terminal] *)
Definition progress_is_terminal (p : SetupLifecycleOutcomeProgress) : bool :=
  let text := py_strip (pg_terminal_outcome p) in
  negb (String.eqb text "") && negb (String.eqb (py_upper text) NA).

(** [_obligation_timeframe] *)
Fixpoint obligation_timeframe (rows : list SetupLifecycleOutcomeProgress) (default_timeframe : string) : string :=
  match rows with
  | [] =>
      let fallback := py_lower (mo_text default_timeframe) in
      if String.eqb fallback (py_lower NA) then "15m" else fallback
  | row :: rest =>
      let timeframe := py_lower (mo_text (pg_execution_timeframe row)) in
      if String.eqb timeframe (py_lower NA) then obligation_timeframe rest default_timeframe else timeframe
  end.

Definition evidence_key (symbol execution_timeframe : string) : string :=
  py_upper (py_strip symbol) +:+ "|" +:+ py_lower (py_strip execution_timeframe).

(** [mapping.get(key)] *)
Definition evidence_for {A} (key : string) (d : list (string * A)) : option A :=
  option_map snd (find (fun kv => String.eqb (fst kv) key) d).

(** [{row["lifecycle_id"]: row for row in rows}] *)
Definition by_id {A} (id : A -> string) (rows : list A) : list (string * A) :=
  fold_left (fun d row => dict_set (id row) row d) rows [].

(** [max(a, b)] of texts *)
Definition text_max (a b : string) : string := if String.ltb a b then b else a.

(** [_last_processed_close] *)
Definition last_processed_close (rows : list SetupLifecycleOutcomeProgress) : option string :=
  match List.filter given (map pg_evaluation_cursor_close_at rows) with
  | [] => None
  | first :: rest => Some (fold_left text_max (map (default "") rest) (default "" first))
  end.

(** [_gap_reason_from_progress] *)
Definition gap_reason_from_progress (progress : option SetupLifecycleOutcomeProgress) : option string :=
  match progress with
  | None => None
  | Some p =>
      let status := mo_text (pg_integrity_status p) in
      let diagnostic := mo_text (pg_diagnostic p) in
      if String.eqb (py_lower status) "verified" || String.eqb diagnostic NA then None else Some diagnostic
  end.

(** [_lag_seconds]: [total_seconds] is a float, [int] truncates it *)
Definition truncated_seconds (microseconds : Z) : Z :=
  if (microseconds =? 0)%Z then 0%Z else
  let (m, e) := binary64 (Z.abs microseconds) 1000000 in
  (Z.sgn microseconds * (m * 2 ^ Z.max 0 e / 2 ^ Z.max 0 (- e)))%Z.

Definition lag_seconds (last_processed_close_at latest_available_close_at : option string) : result (option Z) :=
  if negb (given last_processed_close_at) || negb (given latest_available_close_at) then Ok None else
  let parse (value : option string) (name : string) := normalize_utc_timestamp (CVal (PyStr (default "" value))) name in
  match (let! last_close := parse last_processed_close_at "last_processed_close_at" in
         let! latest_close := parse latest_available_close_at "latest_available_close_at" in
         Ok (truncated_seconds (instant latest_close - instant last_close))) with
  | Ok seconds => Ok (Some seconds)
  | Raise e => match value_error_text e with Some _ => Ok None | None => Raise e end
  end.

(** [_latest_close] *)
Definition latest_close (candles : list candle) (timeframe decision_timestamp : string) : result (option string) :=
  match candles with
  | [] => Ok None
  | _ =>
      match closed_candles_as_of candles timeframe (CVal (PyStr decision_timestamp)) 0 false false true with
      | Ok window => Ok (option_map (fun c => isoformat (cc_close_timestamp c)) (last (cw_timeline window)))
      | Raise (TypeError _) => Ok None
      | Raise e => match value_error_text e with Some _ => Ok None | None => Raise e end
      end
  end.

(** [diagnose_tracking_cursor_lag] *)
Definition diagnose_tracking_cursor_lag (record : SetupLifecycleRecord) (last_processed latest_available gap_reason : option string)
    : result TrackingCursorLag :=
  let! seconds := lag_seconds last_processed latest_available in
  Ok {| tl_lifecycle_id := r_lifecycle_id record; tl_symbol := r_symbol record; tl_mode := r_mode record;
        tl_direction := r_direction record; tl_plan_version_id := r_plan_version_id record;
        tl_current_state := state_value (r_current_state record); tl_is_current := r_is_current record;
        tl_last_processed_close_at := last_processed; tl_latest_available_close_at := latest_available;
        tl_lag_seconds := seconds; tl_gap_reason := gap_reason |}.

(** ** Obligations *)

(** [p.terminal_outcome = '' OR UPPER(p.terminal_outcome) = 'N/A'] *)
Definition open_progress (p : SetupLifecycleOutcomeProgress) : bool :=
  String.eqb (pg_terminal_outcome p) "" || String.eqb (py_upper (pg_terminal_outcome p)) NA.

(** [ORDER BY symbol ASC, lifecycle_id ASC] *)
Definition candidate_leb (a b : SetupLifecycleRecord) : bool :=
  String.ltb (r_symbol a) (r_symbol b)
  || (String.eqb (r_symbol a) (r_symbol b) && String.leb (r_lifecycle_id a) (r_lifecycle_id b)).

Fixpoint insert_candidate (r : SetupLifecycleRecord) (l : list SetupLifecycleRecord) : list SetupLifecycleRecord :=
  match l with
  | [] => [r]
  | x :: rest => if candidate_leb r x then r :: l else x :: insert_candidate r rest
  end.

(** a row of [list_economic_tracking_candidates]: the two branches of its UNION *)
Definition tracking_candidate (db : database) (epoch_id : string) (states : list SetupLifecycleState)
    (r : SetupLifecycleRecord) : bool :=
  bool_decide (r_runtime_epoch_id r = Some epoch_id) && state_in (r_current_state r) states
  && match r_plan_version_id r with
     | Some _ => true
     | None => existsb (fun p => String.eqb (pg_lifecycle_id p) (r_lifecycle_id r) && open_progress p) (db_progress db)
     end.

(** [list_economic_tracking_candidates] *)
Definition list_economic_tracking_candidates (db : database) (states : list SetupLifecycleState)
    : result (list SetupLifecycleRecord) :=
  match load_active_runtime_epoch db with
  | None => Ok []
  | Some epoch =>
      all_from_rows record_from_row
        (fold_right insert_candidate [] (List.filter (tracking_candidate db (re_epoch_id epoch) states) (db_records db)))
  end.

(** [ORDER BY lifecycle_id ASC, id ASC] *)
Fixpoint insert_progress (p : SetupLifecycleOutcomeProgress) (l : list SetupLifecycleOutcomeProgress)
    : list SetupLifecycleOutcomeProgress :=
  match l with
  | [] => [p]
  | x :: rest => if String.leb (pg_lifecycle_id p) (pg_lifecycle_id x) then p :: l else x :: insert_progress p rest
  end.

(** [list_outcome_progress_for_lifecycles] *)
Definition list_outcome_progress_for_lifecycles (db : database) (lifecycle_ids : list string)
    : result (list SetupLifecycleOutcomeProgress) :=
  let normalized := List.filter (fun id => negb (String.eqb id NA)) (map lifecycle_id_text lifecycle_ids) in
  all_from_rows outcome_progress_from_row
    (fold_right insert_progress [] (List.filter (fun p => str_in (pg_lifecycle_id p) normalized) (db_progress db))).

(** [grouped.get(lifecycle_id, ())] *)
Definition rows_of (rows : list SetupLifecycleOutcomeProgress) (lifecycle_id : string) : list SetupLifecycleOutcomeProgress :=
  List.filter (fun p => String.eqb (pg_lifecycle_id p) lifecycle_id) rows.

(** [_obligation_is_open] *)
Definition obligation_is_open (record : SetupLifecycleRecord) (rows : list SetupLifecycleOutcomeProgress) : bool :=
  if state_in (r_current_state record) TERMINAL_OUTCOME_STATES then false else
  if negb (state_in (r_current_state record) OUTCOME_ELIGIBLE_STATES) then false else
  let relevant := List.filter (fun p => str_in (pg_plan_identity p) (compatible_plan_identities record)) rows in
  if match relevant with [] => false | _ => forallb progress_is_terminal relevant end then false else
  if given (r_plan_version_id record) then true else existsb (fun p => negb (progress_is_terminal p)) rows.

(** [select_tracking_obligations] *)
Definition select_tracking_obligations (db : database) : result (list SetupLifecycleRecord) :=
  let! candidates := list_economic_tracking_candidates db OUTCOME_ELIGIBLE_STATES in
  let! rows := list_outcome_progress_for_lifecycles db (map r_lifecycle_id candidates) in
  Ok (List.filter (fun r => obligation_is_open r (rows_of rows (r_lifecycle_id r))) candidates).

(** ** One owner *)

(** what an iteration of the loop adds to the lists of the result *)
Record owner_report := {
  ow_lifecycle_id : string;
  ow_evaluation : option LifecycleOutcomeEvaluation;
  ow_uncovered : option string;
  ow_gap : bool;
  ow_error : option MonitoringError;
  ow_covered : option string;
  ow_lag : TrackingCursorLag
}.

Section Monitoring.
Context `{JsonErrors} `{ExnText}.

Definition monitoring_error (record : SetupLifecycleRecord) (e : exn) : MonitoringError :=
  {| err_lifecycle_id := r_lifecycle_id record; err_symbol := r_symbol record; err_detail := exn_name e +:+ ":" +:+ exn_text e |}.

(** a savepoint that is rolled back when its body raises *)
Definition savepoint {A} (body : tx A) (db : database) : result A * database :=
  match body db with
  | Ok (a, db') => (Ok a, db')
  | Raise e => (Raise e, db)
  end.

(** [_persist_gap] *)
Definition persist_gap (record : SetupLifecycleRecord) (diagnostic execution_timeframe evaluated_at : string)
    : tx (option MonitoringError) := fun db =>
  match savepoint (record_closed_candle_evidence_gap record diagnostic execution_timeframe evaluated_at) db with
  | (Ok _, db) => Ok (None, db)
  | (Raise e, db) => Ok (Some (monitoring_error record e), db)
  end.

(** an owner whose candles are missing, or whose acquisition failed *)
Definition monitor_gap (record : SetupLifecycleRecord) (rows : list SetupLifecycleOutcomeProgress)
    (diagnostic timeframe evaluated_at : string) : tx owner_report :=
  do! error := persist_gap record diagnostic timeframe evaluated_at in
  do! lag := lift (diagnose_tracking_cursor_lag record (last_processed_close rows) None (Some diagnostic)) in
  ret {| ow_lifecycle_id := r_lifecycle_id record; ow_evaluation := None; ow_uncovered := None; ow_gap := true;
         ow_error := error; ow_covered := None; ow_lag := lag |}.

(** an owner without evidence whose absence is not recorded *)
Definition monitor_uncovered (record : SetupLifecycleRecord) (rows : list SetupLifecycleOutcomeProgress) : tx owner_report :=
  do! lag := lift (diagnose_tracking_cursor_lag record (last_processed_close rows) None None) in
  ret {| ow_lifecycle_id := r_lifecycle_id record; ow_evaluation := None; ow_uncovered := Some (r_symbol record);
         ow_gap := false; ow_error := None; ow_covered := None; ow_lag := lag |}.

(** the body of the savepoint [owner_monitor] *)
Definition evaluate_owner (clock : string) (record : SetupLifecycleRecord) (candles : list candle)
    (timeframe decision evaluated_at : string) (scan_run_id : option string) : tx LifecycleOutcomeEvaluation :=
  do! evaluation := evaluate_closed_candle_outcomes clock record candles timeframe (CVal (PyStr decision)) evaluated_at scan_run_id in
  do! _ := account_monitored_outcome evaluation in
  ret evaluation.

(** [a or b] of texts *)
Definition or_text (a b : string) : string := if String.eqb a "" then b else a.

(** an owner with evidence *)
Definition monitor_candles (clock : string) (record : SetupLifecycleRecord) (rows : list SetupLifecycleOutcomeProgress)
    (key timeframe evaluated_at : string) (scan_run_id : option string) (evidence : SymbolMonitoringEvidence)
    : tx owner_report := fun db =>
  let used := or_text (me_execution_timeframe evidence) timeframe in
  let decision := or_text (me_decision_timestamp evidence) evaluated_at in
  match savepoint (evaluate_owner clock record (me_candles evidence) used decision evaluated_at scan_run_id) db with
  | (Raise e, db) =>
      let! latest := latest_close (me_candles evidence) used decision in
      let! lag := diagnose_tracking_cursor_lag record (last_processed_close rows) latest
                    (Some ("evaluation_error:" +:+ exn_name e)) in
      Ok ({| ow_lifecycle_id := r_lifecycle_id record; ow_evaluation := None; ow_uncovered := None; ow_gap := false;
             ow_error := Some (monitoring_error record e); ow_covered := None; ow_lag := lag |}, db)
  | (Ok evaluation, db) =>
      let progress := le_progress evaluation in
      let gap := gap_reason_from_progress progress in
      let! latest := latest_close (me_candles evidence) used decision in
      let last_close := match progress with Some p => pg_evaluation_cursor_close_at p | None => last_processed_close rows end in
      let! lag := diagnose_tracking_cursor_lag (le_record evaluation) last_close latest gap in
      Ok ({| ow_lifecycle_id := r_lifecycle_id record; ow_evaluation := Some evaluation; ow_uncovered := None;
             ow_gap := match gap with Some _ => true | None => false end; ow_error := None; ow_covered := Some key;
             ow_lag := lag |}, db)
  end.

(** the diagnostic of a classified gap *)
Definition gap_diagnostic (reason : string) : string :=
  if is_prefix "expected open" reason || py_contains "continuity" reason then GAP_CURSOR_INTERVAL +:+ ":" +:+ reason else reason.

(** an iteration of the loop of [monitor_tracking_obligations] *)
Definition monitor_owner (clock : string) (evidence_by_key : list (string * SymbolMonitoringEvidence)) (evaluated_at : string)
    (scan_run_id : option string) (default_timeframe : string) (record_missing_evidence : bool)
    (rows : list SetupLifecycleOutcomeProgress) (record : SetupLifecycleRecord) : tx owner_report :=
  let timeframe := obligation_timeframe rows default_timeframe in
  let key := evidence_key (r_symbol record) timeframe in
  let missing := if record_missing_evidence then monitor_gap record rows GAP_REQUIRED_CLOSED_CANDLE timeframe evaluated_at
                 else monitor_uncovered record rows in
  match evidence_for key evidence_by_key with
  | None => missing
  | Some evidence =>
      match me_candles evidence, me_gap_reason evidence with
      | [], None => missing
      | _, Some reason =>
          if String.eqb reason "" then monitor_candles clock record rows key timeframe evaluated_at scan_run_id evidence
          else monitor_gap record rows (gap_diagnostic reason) timeframe evaluated_at
      | _, None => monitor_candles clock record rows key timeframe evaluated_at scan_run_id evidence
      end
  end.

(** ** All owners *)

Fixpoint monitor_owners (clock : string) (evidence_by_key : list (string * SymbolMonitoringEvidence)) (evaluated_at : string)
    (scan_run_id : option string) (default_timeframe : string) (record_missing_evidence : bool) (skip : list string)
    (rows : list SetupLifecycleOutcomeProgress) (obligations : list SetupLifecycleRecord) : tx (list owner_report) :=
  match obligations with
  | [] => ret []
  | record :: rest =>
      let others := monitor_owners clock evidence_by_key evaluated_at scan_run_id default_timeframe record_missing_evidence skip rows rest in
      if str_in (r_lifecycle_id record) skip then others else
      do! report := monitor_owner clock evidence_by_key evaluated_at scan_run_id default_timeframe record_missing_evidence
                      (rows_of rows (r_lifecycle_id record)) record in
      do! reports := others in
      ret (report :: reports)
  end.

(** the progress of an evaluation is verified *)
Definition report_verified (r : owner_report) : bool :=
  match ow_evaluation r with
  | Some e => match le_progress e with Some p => String.eqb (pg_integrity_status p) INTEGRITY_VERIFIED | None => false end
  | None => false
  end.

Definition some_list {A} (o : option A) : list A := match o with Some a => [a] | None => [] end.

(** the result of the loop *)
Definition collect_reports (obligations : list SetupLifecycleRecord) (skip : list string) (reports : list owner_report)
    : OwnerMonitoringResult :=
  let ids (p : owner_report -> bool) := map ow_lifecycle_id (List.filter p reports) in
  {| om_evaluated_lifecycle_ids := ids (fun r => match ow_evaluation r with Some _ => true | None => false end);
     om_uncovered_symbols := dict_fromkeys (flat_map (fun r => some_list (ow_uncovered r)) reports);
     om_gap_lifecycle_ids := dict_fromkeys (ids ow_gap);
     om_errors := flat_map (fun r => some_list (ow_error r)) reports;
     om_lags := map ow_lag reports;
     om_covered_keys := dict_fromkeys (flat_map (fun r => some_list (ow_covered r)) reports);
     om_obligation_lifecycle_ids := map r_lifecycle_id obligations;
     om_skipped_lifecycle_ids := List.filter (fun id => str_in id skip) (map r_lifecycle_id obligations);
     om_verified_lifecycle_ids := ids report_verified |}.

(** [monitor_tracking_obligations], with the evaluations its callback saw *)
Definition monitor_tracking_obligations (clock : string) (evidence_by_key : list (string * SymbolMonitoringEvidence))
    (evaluated_at : string) (scan_run_id : option string) (default_timeframe : string) (record_missing_evidence : bool)
    (skip : list string) : tx (OwnerMonitoringResult * list LifecycleOutcomeEvaluation) :=
  do! obligations := query select_tracking_obligations in
  do! rows := query (fun db => list_outcome_progress_for_lifecycles db (map r_lifecycle_id obligations)) in
  do! reports := monitor_owners clock evidence_by_key evaluated_at scan_run_id default_timeframe record_missing_evidence skip rows
                   obligations in
  ret (collect_reports obligations skip reports, flat_map (fun r => some_list (ow_evaluation r)) reports).

(** ** Stage 1 *)

(** [stage_1_continuation_read]: the obligations, their progress rows and the candles to fetch *)
Definition stage_1_continuation_read (db : database) (execution_timeframe : string) (skip_keys covered_keys : list string)
    : result (list SetupLifecycleRecord * list SetupLifecycleOutcomeProgress * list (string * (string * string))) :=
  let! _ := require_active_runtime_epoch db in
  let! obligations := select_tracking_obligations db in
  let! rows := list_outcome_progress_for_lifecycles db (map r_lifecycle_id obligations) in
  let need (needed : list (string * (string * string))) (record : SetupLifecycleRecord) :=
    let timeframe := obligation_timeframe (rows_of rows (r_lifecycle_id record)) execution_timeframe in
    let key := evidence_key (r_symbol record) timeframe in
    if str_in key skip_keys || str_in key covered_keys then needed else dict_set key (r_symbol record, timeframe) needed in
  Ok (obligations, rows, fold_left need obligations []).

(** ** Stage 2: the network *)

(** what a fetch that failed raised: its class, and its cause when that is an exception *)
Inductive fetch_class : Type := SetupFailure | LocalSetupError | ExpectedMarketDataError | OtherError.

Record fetch_error := {
  fe_class : fetch_class;
  fe_name : string;
  fe_text : string;
  fe_cause : option (string * string * bool)
}.

(** a fetch returns candles or fails; cancellation and failed assertions pass through *)
Inductive fetch_result : Type :=
| Fetched (candles : list candle)
| FetchFailed (error : fetch_error)
| FetchInterrupted (e : exn).

(** [_is_unsupported_market] *)
Definition is_unsupported_market (e : fetch_error) : bool :=
  existsb (fun token => py_contains token (py_lower (fe_text e))) ["invalid symbol"; "unknown symbol"; "delist"; "not listed"].

(** [classify_market_data_failure] *)
Definition classify_market_data_failure (e : fetch_error) : string :=
  if is_unsupported_market e then GAP_MARKET_UNSUPPORTED else GAP_EXCHANGE_MARKET_DATA +:+ ":" +:+ fe_name e.

(** [_is_local_setup_failure] *)
Definition is_local_setup_failure (e : fetch_error) : bool :=
  match fe_class e with
  | SetupFailure | LocalSetupError => true
  | _ => match fe_cause e with Some (_, _, local) => local | None => false end
  end.

(** [_failure_detail] *)
Definition failure_detail (e : fetch_error) : string :=
  match fe_class e, fe_cause e with
  | SetupFailure, Some (name, text, _) => name +:+ ":" +:+ text
  | _, _ => fe_name e +:+ ":" +:+ fe_text e
  end.

(** [_evidence_covers] of evidence that is there *)
Definition evidence_covers (evidence : SymbolMonitoringEvidence) : bool :=
  match me_candles evidence, me_gap_reason evidence with [], None => false | _, _ => true end.

Definition gap_evidence (timeframe evaluated_at reason : string) : SymbolMonitoringEvidence :=
  mkEvidence [] timeframe evaluated_at (Some reason).

(** one key of the loop over [needed]: evidence, or the failure of the market-data subsystem *)
Definition fetch_evidence (fetch_candles : option (string -> string -> Z -> fetch_result)) (candle_limit : Z)
    (evaluated_at symbol timeframe : string) : result (SymbolMonitoringEvidence + string) :=
  match fetch_candles with
  | None => Ok (inl (gap_evidence timeframe evaluated_at GAP_REQUIRED_CLOSED_CANDLE))
  | Some fetch =>
      match fetch symbol timeframe candle_limit with
      | FetchInterrupted e => Raise e
      | FetchFailed e =>
          if is_local_setup_failure e then Ok (inr (failure_detail e)) else
          if match fe_class e with ExpectedMarketDataError => true | _ => is_unsupported_market e end
          then Ok (inl (gap_evidence timeframe evaluated_at (classify_market_data_failure e)))
          else Ok (inr (failure_detail e))
      | Fetched [] => Ok (inl (gap_evidence timeframe evaluated_at GAP_REQUIRED_CLOSED_CANDLE))
      | Fetched candles => Ok (inl (mkEvidence candles timeframe evaluated_at None))
      end
  end.

Fixpoint fetch_needed (fetch_candles : option (string -> string -> Z -> fetch_result)) (candle_limit : Z) (evaluated_at : string)
    (needed : list (string * (string * string))) (merged : list (string * SymbolMonitoringEvidence)) (failures : list (string * string))
    : result (list (string * SymbolMonitoringEvidence) * list (string * string)) :=
  match needed with
  | [] => Ok (merged, failures)
  | (key, (symbol, timeframe)) :: rest =>
      let! fetched := fetch_evidence fetch_candles candle_limit evaluated_at symbol timeframe in
      match fetched with
      | inl evidence => fetch_needed fetch_candles candle_limit evaluated_at rest (dict_set key evidence merged) failures
      | inr detail => fetch_needed fetch_candles candle_limit evaluated_at rest merged (dict_set key detail failures)
      end
  end.

(** ** Stage 3 *)

(** the run a write belongs to *)
Definition check_scan_run (scan_run_id : option string) (require_registered_run : bool) (db : database) : result unit :=
  let! epoch := require_active_runtime_epoch db in
  let run_id := column_text scan_run_id in
  if String.eqb run_id "" then Ok tt else
  if require_registered_run
  then let! _ := require_registered_operational_run (Some run_id) (Some epoch) db in Ok tt
  else match run_row_of db run_id with
       | Some run => if String.eqb (run_runtime_epoch_id run) (re_epoch_id epoch) then Ok tt else Raise bound_elsewhere
       | None => Ok tt
       end.

(** [stage3_by_id.get(lifecycle_id)] *)
Definition obligation_by_id (obligations : list SetupLifecycleRecord) (lifecycle_id : string) : option SetupLifecycleRecord :=
  evidence_for lifecycle_id (by_id r_lifecycle_id obligations).

(** what must not be evaluated: skipped, new since stage 1, gone, or under another plan version *)
Definition blocked_obligations (skip : list string) (stage1 stage3 : list SetupLifecycleRecord) : list string :=
  (skip
   ++ map r_lifecycle_id (List.filter (fun r => negb (str_in (r_lifecycle_id r) (map r_lifecycle_id stage1))) stage3)
   ++ map r_lifecycle_id (List.filter (fun r => match obligation_by_id stage3 (r_lifecycle_id r) with
                                                | None => true
                                                | Some current => negb (bool_decide (r_plan_version_id current = r_plan_version_id r))
                                                end) stage1))%list.

(** the owners whose candles the subsystem failed to fetch *)
Fixpoint subsystem_errors (failures : list (string * string)) (rows : list SetupLifecycleOutcomeProgress)
    (execution_timeframe : string) (blocked : list string) (stage1 : list SetupLifecycleRecord) : list MonitoringError :=
  match stage1 with
  | [] => []
  | record :: rest =>
      let id := r_lifecycle_id record in
      if str_in id blocked then subsystem_errors failures rows execution_timeframe blocked rest else
      let timeframe := obligation_timeframe (rows_of rows id) execution_timeframe in
      match evidence_for (evidence_key (r_symbol record) timeframe) failures with
      | None => subsystem_errors failures rows execution_timeframe blocked rest
      | Some detail =>
          {| err_lifecycle_id := id; err_symbol := r_symbol record; err_detail := detail |}
          :: subsystem_errors failures rows execution_timeframe (id :: blocked) rest
      end
  end.

(** the lags of failed owners *)
Definition failed_lags (rows : list SetupLifecycleOutcomeProgress) (failed : list string) (stage1 : list SetupLifecycleRecord)
    : result (list TrackingCursorLag) :=
  all_from_rows (fun r => diagnose_tracking_cursor_lag r (last_processed_close (rows_of rows (r_lifecycle_id r))) None
                            (Some "market_data_subsystem_error"))
    (List.filter (fun r => str_in (r_lifecycle_id r) failed) stage1).

(** [stage_3_continuation_write] *)
Definition stage_3_continuation_write (clock : string) (scan_run_id : option string) (evaluated_at execution_timeframe : string)
    (record_missing_evidence : bool) (merged : list (string * SymbolMonitoringEvidence)) (failures : list (string * string))
    (skip : list string) (stage1 : list SetupLifecycleRecord) (stage1_rows : list SetupLifecycleOutcomeProgress)
    (require_registered_run : bool) : tx OwnerMonitoringResult :=
  do! _ := query (check_scan_run scan_run_id require_registered_run) in
  do! stage3 := query select_tracking_obligations in
  let blocked := blocked_obligations skip stage1 stage3 in
  let errors := subsystem_errors failures stage1_rows execution_timeframe blocked stage1 in
  let failed := map err_lifecycle_id errors in
  do! (result, _) := monitor_tracking_obligations clock merged evaluated_at scan_run_id execution_timeframe record_missing_evidence
                       (failed ++ blocked)%list in
  match errors with
  | [] => ret result
  | _ =>
      do! lags := lift (failed_lags stage1_rows failed stage1) in
      ret (result <| om_errors := (om_errors result ++ errors)%list |> <| om_lags := (om_lags result ++ lags)%list |>
                  <| om_skipped_lifecycle_ids := List.filter (fun id => negb (str_in id failed)) (om_skipped_lifecycle_ids result) |>)
  end.

(** [monitor_obligations_with_market_data]; [others] is what other connections commit while the candles are fetched *)
Definition monitor_obligations_with_market_data (clock : string) (others : database -> database)
    (evidence_by_key : list (string * SymbolMonitoringEvidence)) (fetch_candles : option (string -> string -> Z -> fetch_result))
    (execution_timeframe : string) (candle_limit : Z) (evaluated_at : string) (scan_run_id : option string)
    (skip_keys skip : list string) (record_missing_evidence require_registered_run : bool) : tx OwnerMonitoringResult := fun db =>
  let covered := map fst (List.filter (fun kv => evidence_covers (snd kv)) evidence_by_key) in
  let! (stage1, rows, needed) := stage_1_continuation_read db execution_timeframe skip_keys covered in
  let! (merged, failures) := fetch_needed fetch_candles candle_limit evaluated_at needed evidence_by_key [] in
  stage_3_continuation_write clock scan_run_id evaluated_at execution_timeframe record_missing_evidence merged failures skip stage1
    rows require_registered_run (others db).
End Monitoring.

(** ** Discovery *)

(** what a symbol result offers as evidence *)
Record evidence_source := {
  es_symbol : string;
  es_candles : option (list candle);
  es_execution_timeframe : string;
  es_decision : option datetime
}.

(** [evidence_from_symbol_results] *)
Fixpoint evidence_from_symbol_results (results : list evidence_source) (decision_fallback : string)
    (evidence : list (string * SymbolMonitoringEvidence)) : list (string * SymbolMonitoringEvidence) :=
  match results with
  | [] => evidence
  | r :: rest =>
      evidence_from_symbol_results rest decision_fallback
        (match es_candles r with
         | None => evidence
         | Some candles =>
             let timeframe := mo_text (es_execution_timeframe r) in
             let timeframe := if String.eqb timeframe NA then "15m" else timeframe in
             let symbol := py_upper (mo_text (es_symbol r)) in
             if String.eqb symbol NA then evidence
             else dict_set (evidence_key symbol timeframe)
                    (mkEvidence candles (py_lower timeframe)
                       (match es_decision r with Some t => isoformat t | None => decision_fallback end) None) evidence
         end)
  end.

(** an exception with its [__cause__] and [__context__]; the chain of a raised exception is finite *)
Inductive raised : Type := Raised (universe_resolution : bool) (cause context : option raised).

(** [discovery_failure_continues_owner_monitoring] *)
Fixpoint discovery_failure_continues_owner_monitoring (exc : raised) : bool :=
  match exc with
  | Raised true _ _ => true
  | Raised false (Some cause) _ => discovery_failure_continues_owner_monitoring cause
  | Raised false None (Some context) => discovery_failure_continues_owner_monitoring context
  | Raised false None None => false
  end.

(** ** The summary (monitoring_diagnostics.py) *)

(** the keys of a pass that [summarize_monitoring_passes] reads *)
Record monitoring_pass := {
  mp_obligations : list string;
  mp_evaluated : list string;
  mp_verified : list string;
  mp_gaps : list string;
  mp_skipped : list string;
  mp_errors : list MonitoringError;
  mp_lags : list TrackingCursorLag;
  mp_covered : list string
}.

Inductive disposition : Type :=
| D_ERROR | D_EVIDENCE_GAP | D_EVALUATED_VERIFIED | D_EVALUATED_UNVERIFIED | D_SKIPPED_PREVIOUS_PASS | D_UNCOVERED.

#[export] Instance disposition_eq_dec : EqDecision disposition.
Proof. solve_decision. Defined.

Definition disposition_text (d : disposition) : string :=
  match d with
  | D_ERROR => "ERROR"
  | D_EVIDENCE_GAP => "EVIDENCE_GAP"
  | D_EVALUATED_VERIFIED => "EVALUATED_VERIFIED"
  | D_EVALUATED_UNVERIFIED => "EVALUATED_UNVERIFIED"
  | D_SKIPPED_PREVIOUS_PASS => "SKIPPED_PREVIOUS_PASS"
  | D_UNCOVERED => "UNCOVERED"
  end.

Record owner_disposition := {
  od_lifecycle_id : string;
  od_symbol : string;
  od_plan_version_id : string;
  od_disposition : disposition;
  od_diagnostic : string
}.

(** [x or NA] *)
Definition or_na (value : option string) : string := if given value then default "" value else NA.

(** the disposition of a lifecycle in a pass *)
Definition pass_disposition (p : monitoring_pass) (lifecycle_id : string) : disposition :=
  match evidence_for lifecycle_id (by_id err_lifecycle_id (mp_errors p)) with
  | Some _ => D_ERROR
  | None =>
      if str_in lifecycle_id (mp_gaps p) then D_EVIDENCE_GAP else
      if str_in lifecycle_id (mp_verified p) then D_EVALUATED_VERIFIED else
      if str_in lifecycle_id (mp_evaluated p) then D_EVALUATED_UNVERIFIED else
      if str_in lifecycle_id (mp_skipped p) then D_SKIPPED_PREVIOUS_PASS else D_UNCOVERED
  end.

Definition disposition_row (p : monitoring_pass) (lifecycle_id : string) : owner_disposition :=
  let lag := evidence_for lifecycle_id (by_id tl_lifecycle_id (mp_lags p)) in
  let error := evidence_for lifecycle_id (by_id err_lifecycle_id (mp_errors p)) in
  {| od_lifecycle_id := lifecycle_id;
     od_symbol := match lag, error with
                  | Some l, _ => tl_symbol l
                  | None, Some e => err_symbol e
                  | None, None => NA
                  end;
     od_plan_version_id := or_na (match lag with Some l => tl_plan_version_id l | None => None end);
     od_disposition := pass_disposition p lifecycle_id;
     od_diagnostic := if given (option_map err_detail error) then default "" (option_map err_detail error)
                      else or_na (match lag with Some l => tl_gap_reason l | None => None end) |}.

(** the owners and the lags after one more lifecycle of a pass *)
Definition account_lifecycle (p : monitoring_pass)
    (acc : list (string * owner_disposition) * list (string * TrackingCursorLag)) (lifecycle_id : string)
    : list (string * owner_disposition) * list (string * TrackingCursorLag) :=
  let (owners, lags) := acc in
  let errors := by_id err_lifecycle_id (mp_errors p) in
  if str_in lifecycle_id (mp_skipped p) && negb (dict_mem lifecycle_id errors) && dict_mem lifecycle_id owners then acc else
  (dict_set lifecycle_id (disposition_row p lifecycle_id) owners,
   match evidence_for lifecycle_id (by_id tl_lifecycle_id (mp_lags p)) with
   | Some lag => dict_set lifecycle_id lag lags
   | None => lags
   end).

(** the lifecycles of a pass, in order *)
Definition pass_lifecycles (p : monitoring_pass) : list string :=
  dict_fromkeys (mp_obligations p ++ map fst (by_id tl_lifecycle_id (mp_lags p)) ++ map fst (by_id err_lifecycle_id (mp_errors p))).

Definition account_pass (acc : list (string * owner_disposition) * list (string * TrackingCursorLag)) (p : monitoring_pass)
    : list (string * owner_disposition) * list (string * TrackingCursorLag) :=
  fold_left (account_lifecycle p) (pass_lifecycles p) acc.

Record monitoring_summary := {
  ms_owner_dispositions : list owner_disposition;
  ms_disposition_counts : list (string * Z);
  ms_verified_lifecycle_ids : list string;
  ms_all_obligations_verified : option bool;
  ms_evaluated_lifecycle_ids : list string;
  ms_gap_lifecycle_ids : list string;
  ms_skipped_lifecycle_ids : list string;
  ms_uncovered_symbols : list string;
  ms_errors : list MonitoringError;
  ms_lags : list TrackingCursorLag;
  ms_covered_keys : list string
}.

(** [if error not in errors: errors.append(error)] *)
Definition add_error (errors : list MonitoringError) (e : MonitoringError) : list MonitoringError :=
  if bool_decide (e ∈ errors) then errors else (errors ++ [e])%list.

(** [summarize_monitoring_passes] *)
Definition summarize_monitoring_passes (passes : list monitoring_pass) : monitoring_summary :=
  let (owners, lags) := fold_left account_pass passes ([], []) in
  let rows := map snd owners in
  let errors := fold_left add_error (flat_map mp_errors passes) [] in
  let with_disposition (l : list disposition) := List.filter (fun r => bool_decide (od_disposition r ∈ l)) rows in
  let verified := map od_lifecycle_id (with_disposition [D_EVALUATED_VERIFIED]) in
  {| ms_owner_dispositions := rows;
     ms_disposition_counts :=
       fold_left (fun d r => dict_update (disposition_text (od_disposition r)) 0%Z Z.succ d) rows [];
     ms_verified_lifecycle_ids := verified;
     ms_all_obligations_verified :=
       match rows with
       | [] => None
       | _ => Some ((length verified =? length rows)%nat && match errors with [] => true | _ => false end)
       end;
     ms_evaluated_lifecycle_ids := dict_fromkeys (flat_map mp_evaluated passes);
     ms_gap_lifecycle_ids := map od_lifecycle_id (with_disposition [D_EVIDENCE_GAP]);
     ms_skipped_lifecycle_ids := map od_lifecycle_id (with_disposition [D_SKIPPED_PREVIOUS_PASS]);
     ms_uncovered_symbols := dict_fromkeys (map od_symbol (with_disposition [D_UNCOVERED; D_SKIPPED_PREVIOUS_PASS]));
     ms_errors := errors;
     ms_lags := map snd lags;
     ms_covered_keys := dict_fromkeys (flat_map mp_covered passes) |}.

(** [OwnerMonitoringResult.as_dict] *)
Definition pass_of_result (r : OwnerMonitoringResult) : monitoring_pass :=
  {| mp_obligations := om_obligation_lifecycle_ids r; mp_evaluated := om_evaluated_lifecycle_ids r;
     mp_verified := om_verified_lifecycle_ids r; mp_gaps := om_gap_lifecycle_ids r; mp_skipped := om_skipped_lifecycle_ids r;
     mp_errors := om_errors r; mp_lags := om_lags r; mp_covered := om_covered_keys r |}.

Definition result_summary (r : OwnerMonitoringResult) : monitoring_summary := summarize_monitoring_passes [pass_of_result r].

(** a summary is read back as a pass *)
Definition pass_of_summary (s : monitoring_summary) : monitoring_pass :=
  {| mp_obligations := map od_lifecycle_id (ms_owner_dispositions s); mp_evaluated := ms_evaluated_lifecycle_ids s;
     mp_verified := ms_verified_lifecycle_ids s; mp_gaps := ms_gap_lifecycle_ids s; mp_skipped := ms_skipped_lifecycle_ids s;
     mp_errors := ms_errors s; mp_lags := ms_lags s; mp_covered := ms_covered_keys s |}.
