(* ===== verification/MonitoringProps.v ===== *)
(** * What monitoring may change, and what it accounts for (facts about [OwnerMonitoring])

    The effect of one owner on the database, composed over the owners of a pass;
    which records are obligations; the summary of a pass; and the check between
    the two stages of a pass with market data. *)

From stdpp Require Import base tactics list strings.
From Stdlib Require Import ZArith NArith Lia Bool Ascii.
From S2P Require Import Prelude PyString PyDecimal PyTime PyJson LifecycleModels CandleIntegrity JsonText JsonFacts OutcomePolicy RuntimeEpoch LifecycleRepository RepositoryFacts Outcomes OutcomeFacts OutcomePass OutcomeProps EpochOrigin TerminalAnalytics OwnerMonitoring.
Open Scope string_scope.
Open Scope py_scope.
Open Scope list_scope.

(** ** Rows of a lifecycle *)

Definition of_id (x id : string) : bool := String.eqb (lifecycle_id_text id) x.
Definition records_of (x : string) (db : database) := List.filter (fun r => of_id x (r_lifecycle_id r)) (db_records db).
Definition events_of (x : string) (db : database) := List.filter (fun e => of_id x (ev_lifecycle_id e)) (db_events db).
Definition progress_of (x : string) (db : database) := List.filter (fun p => of_id x (pg_lifecycle_id p)) (db_progress db).
Definition analytics_of (x : string) (db : database) := List.filter (fun a => of_id x (an_lifecycle_id a)) (db_analytics db).

Lemma filter_within {A} (p q : A -> bool) l : (forall x, p x = true -> q x = true) ->
  List.filter p (List.filter q l) = List.filter p l.
Proof.
  intros H. induction l as [|x l IH]; [done|]. cbn [List.filter]. destruct (q x) eqn:Eq; cbn [List.filter].
  - by rewrite IH.
  - destruct (p x) eqn:Ep; [|done]. by rewrite (H x Ep) in Eq.
Qed.

Lemma of_id_other x id y : x <> id -> of_id x y = true -> other_id id y = true.
Proof.
  unfold of_id, other_id. intros Hne ->%String.eqb_eq. apply negb_true_iff. by apply String.eqb_neq.
Qed.

(** a lifecycle's rows are untouched by the writes of another *)
Lemma extends_other id db db' x : extends id db db' -> x <> id ->
  records_of x db' = records_of x db /\ events_of x db' = events_of x db /\ progress_of x db' = progress_of x db /\
  analytics_of x db' = analytics_of x db.
Proof.
  intros He Hne. unfold records_of, events_of, progress_of, analytics_of.
  assert (forall (A : Type) (key : A -> string) (l l' : list A),
    List.filter (fun a => other_id id (key a)) l' = List.filter (fun a => other_id id (key a)) l ->
    List.filter (fun a => of_id x (key a)) l' = List.filter (fun a => of_id x (key a)) l) as Hf.
  { intros A key l l' E. rewrite <- (filter_within (fun a => of_id x (key a)) (fun a => other_id id (key a)) l'),
      <- (filter_within (fun a => of_id x (key a)) (fun a => other_id id (key a)) l); [by rewrite E|..];
      intros a; by apply of_id_other. }
  split; [apply (Hf _ r_lifecycle_id), (ex_records _ _ _ He)|]. split; [|split;
    [apply (Hf _ pg_lifecycle_id), (ex_progress _ _ _ He)|apply (Hf _ an_lifecycle_id), (ex_analytics _ _ _ He)]].
  destruct (ex_events _ _ _ He) as (added & -> & Ha). rewrite List.filter_app.
  replace (List.filter _ added) with (@nil SetupLifecycleEvent); [by rewrite app_nil_r|]. symmetry.
  induction Ha as [|e added E Ha IH]; [done|]. cbn [List.filter]. unfold of_id at 1. rewrite E.
  by rewrite (proj2 (String.eqb_neq _ _)).
Qed.

(** ** A recorded gap *)

Section Monitoring.
Context `{JsonErrors} `{ExnText}.

Lemma upsert_progress_only p db u db' : upsert_outcome_progress p db = Ok (u, db') ->
  exists rows, db' = db <| db_progress := rows |>.
Proof.
  unfold upsert_outcome_progress. intros E. apply bind_ok in E as (row & _ & E). apply bind_ok in E as (ex & _ & E).
  apply bind_ok in E as (record & _ & E). apply bind_ok in E as (q & _ & E).
  destruct (negb _) in E; [discriminate E|]. apply ok_inj in E. injection E as _ <-. by eexists.
Qed.

Lemma same_progress db : db = db <| db_progress := db_progress db |>.
Proof. by destruct db. Qed.

(** a gap writes progress of its lifecycle, and nothing else *)
Lemma gap_run record diagnostic timeframe at_ db e db' :
  record_closed_candle_evidence_gap record diagnostic timeframe at_ db = Ok (e, db') ->
  extends (record_id record) db db' /\ exists rows, db' = db <| db_progress := rows |>.
Proof.
  unfold record_closed_candle_evidence_gap. intros E.
  assert (forall q, ret (unprocessed record q) db = Ok (e, db') ->
    extends (record_id record) db db' /\ exists rows, db' = db <| db_progress := rows |>) as Hret.
  { intros q Eq. injection Eq as _ <-. split; [apply extends_refl|]. eexists. apply same_progress. }
  destruct (require_current_epoch_lifecycle_id db _) as [row|ex]; [|destruct ex; try discriminate E; by eapply Hret].
  apply bind_tx_ok in E as (loaded & db1 & Hq & E). unfold query in Hq. apply bind_ok in Hq as (l & Hl & Hq). injection Hq as -> ->.
  apply bind_tx_ok in E as (progress & db2 & Hb & E). apply lift_ok in Hb as [Hb ->].
  assert (forall p, progress = Some p -> owner p = record_id record) as Hown.
  { intros p ->. destruct loaded as [p0|]; [|done]. apply bind_ok in Hb as (d & Hd & Hb). apply ok_inj in Hb as [= <-].
    apply bind_progress_carried in Hd as [Hk _]. rewrite (kept_owner _ _ Hk). by apply first_progress_owner in Hl. }
  destruct (_ || _); [by eapply Hret|].
  apply bind_tx_ok in E as (failure & db2 & Hf & E). apply lift_ok in Hf as [_ ->]. destruct failure; [by eapply Hret|].
  destruct (negb _); [by eapply Hret|].
  apply bind_tx_ok in E as (p & db2 & Hp & E). apply lift_ok in Hp as [Hp ->].
  assert (owner p = record_id record) as Hpo.
  { destruct progress as [q|]; [apply ok_inj in Hp as <-; auto|by apply new_progress_spec in Hp as (? & _)]. }
  apply bind_tx_ok in E as (failed & db2 & Hfail & E). apply lift_ok in Hfail as [Hfail ->].
  apply integrity_failure_carried in Hfail as [Hkept _]. rewrite <- Hpo, <- (kept_owner _ _ Hkept).
  apply bind_tx_ok in E as (written & db2 & Hw & E). injection E as _ <-. split.
  - by apply write_progress_writes in Hw as [Hw _].
  - unfold write_progress in Hw. apply bind_tx_ok in Hw as (q & db3 & Hq & Hw). apply lift_ok in Hq as [_ ->].
    apply bind_tx_ok in Hw as (u & db3 & Hu & Hw). injection Hw as _ <-. by eapply upsert_progress_only.
Qed.

(** ** One owner *)

(** the four ways an owner is reported *)
Inductive reported : owner_report -> Prop :=
| reported_evaluated r e : ow_evaluation r = Some e -> ow_uncovered r = None -> ow_error r = None -> reported r
| reported_gap r : ow_evaluation r = None -> ow_uncovered r = None -> ow_gap r = true -> reported r
| reported_uncovered r s : ow_evaluation r = None -> ow_uncovered r = Some s -> ow_gap r = false -> ow_error r = None -> reported r
| reported_failed r e : ow_evaluation r = None -> ow_uncovered r = None -> ow_gap r = false -> ow_error r = Some e -> reported r.

(** what an owner leaves *)
Record owner_step (record : SetupLifecycleRecord) (report : owner_report) (db db' : database) : Prop := {
  os_id : ow_lifecycle_id report = r_lifecycle_id record;
  os_lag : tl_lifecycle_id (ow_lag report) = r_lifecycle_id record;
  os_error : forall e, ow_error report = Some e -> err_lifecycle_id e = r_lifecycle_id record;
  os_reported : reported report;
  os_extends : extends (record_id record) db db';
  os_progress_only : ow_evaluation report = None -> exists rows, db' = db <| db_progress := rows |>;
  os_nothing : ow_evaluation report = None -> ow_gap report = false -> db' = db
}.

Lemma diagnosed_id record last latest gap lag : diagnose_tracking_cursor_lag record last latest gap = Ok lag ->
  tl_lifecycle_id lag = r_lifecycle_id record.
Proof. unfold diagnose_tracking_cursor_lag. intros E. apply bind_ok in E as (s & _ & E). by apply ok_inj in E as <-. Qed.

Lemma evaluate_owner_run clock record candles timeframe decision at_ scan db e db' :
  evaluate_owner clock record candles timeframe decision at_ scan db = Ok (e, db') ->
  extends (record_id record) db db' /\ r_lifecycle_id (le_record e) = r_lifecycle_id record.
Proof.
  unfold evaluate_owner. intros E. apply bind_tx_ok in E as (e1 & db1 & Hp & E). apply bind_tx_ok in E as (u & db2 & Ha & E).
  injection E as <- <-. destruct (pass_post _ _ _ _ _ _ _ _ _ _ Hp) as (loaded & _ & Hx & Hpost).
  assert (r_lifecycle_id (le_record e1) = r_lifecycle_id record) as Hid.
  { destruct Hpost as [(-> & _)|(p0 & i & expected & evaluated & q & _ & _ & _ & _ & Hi & Hr)]; [done|].
    rewrite (rn_id _ _ _ _ _ _ Hr). by destruct Hi as (-> & _). }
  split; [|done]. apply account_monitored_outcome_writes in Ha as [Ha _]. rewrite Hid in Ha. by eapply extends_trans.
Qed.

Lemma monitor_gap_run record rows diagnostic timeframe at_ db report db' :
  monitor_gap record rows diagnostic timeframe at_ db = Ok (report, db') -> owner_step record report db db'.
Proof.
  unfold monitor_gap. intros E. apply bind_tx_ok in E as (error & db1 & Hp & E). apply bind_tx_ok in E as (lag & db2 & Hl & E).
  apply lift_ok in Hl as [Hl ->]. apply diagnosed_id in Hl. injection E as <- <-. unfold persist_gap, savepoint in Hp.
  destruct (record_closed_candle_evidence_gap _ _ _ _ db) as [[e dbg]|e] eqn:Hg; injection Hp as <- <-.
  - apply gap_run in Hg as [Hx Hrows]. split; cbn; try done. by apply reported_gap.
  - split; cbn; try done; [by intros ? [= <-]|by apply reported_gap|apply extends_refl|].
    intros _. eexists. apply same_progress.
Qed.

Lemma monitor_uncovered_run record rows db report db' :
  monitor_uncovered record rows db = Ok (report, db') -> owner_step record report db db'.
Proof.
  unfold monitor_uncovered. intros E. apply bind_tx_ok in E as (lag & db1 & Hl & E). apply lift_ok in Hl as [Hl ->].
  apply diagnosed_id in Hl. injection E as <- <-. split; cbn; try done; [by eapply reported_uncovered|apply extends_refl|].
  intros _. eexists. apply same_progress.
Qed.

Lemma monitor_candles_run clock record rows key timeframe at_ scan evidence db report db' :
  monitor_candles clock record rows key timeframe at_ scan evidence db = Ok (report, db') -> owner_step record report db db'.
Proof.
  unfold monitor_candles, savepoint. intros E. destruct (evaluate_owner _ _ _ _ _ _ _ db) as [[e dbe]|e] eqn:Hev.
  - apply evaluate_owner_run in Hev as [Hx Hid]. apply bind_ok in E as (latest & _ & E). apply bind_ok in E as (lag & Hl & E).
    apply diagnosed_id in Hl. rewrite Hid in Hl. apply ok_inj in E. injection E as <- <-.
    split; cbn; try done. by eapply reported_evaluated.
  - apply bind_ok in E as (latest & _ & E). apply bind_ok in E as (lag & Hl & E). apply diagnosed_id in Hl.
    apply ok_inj in E. injection E as <- <-.
    split; cbn; try done; [by intros ? [= <-]|by eapply reported_failed|apply extends_refl|].
    intros _. eexists. apply same_progress.
Qed.

Lemma monitor_owner_run clock evidence at_ scan default_tf missing rows record db report db' :
  monitor_owner clock evidence at_ scan default_tf missing rows record db = Ok (report, db') -> owner_step record report db db'.
Proof.
  unfold monitor_owner. intros E.
  assert (forall d t, (if missing then monitor_gap record rows d t at_ else monitor_uncovered record rows) db = Ok (report, db') ->
    owner_step record report db db') as Hmissing.
  { intros d t Em. destruct missing; [by eapply monitor_gap_run|by eapply monitor_uncovered_run]. }
  destruct (evidence_for _ evidence) as [ev|]; [|by eapply Hmissing].
  destruct (me_candles ev), (me_gap_reason ev) as [reason|]; [| by eapply Hmissing| |by eapply monitor_candles_run];
    destruct (String.eqb reason ""); [by eapply monitor_candles_run|by eapply monitor_gap_run|by eapply monitor_candles_run|by eapply monitor_gap_run].
Qed.

(** ** All owners *)

Inductive monitored : list SetupLifecycleRecord -> list owner_report -> database -> database -> Prop :=
| monitored_nil db : monitored [] [] db db
| monitored_cons record report records reports db db1 db' :
    owner_step record report db db1 -> monitored records reports db1 db' -> monitored (record :: records) (report :: reports) db db'.

Definition not_skipped (skip : list string) (r : SetupLifecycleRecord) : bool := negb (str_in (r_lifecycle_id r) skip).

Lemma monitor_owners_run clock evidence at_ scan default_tf missing skip rows obligations : forall db reports db',
  monitor_owners clock evidence at_ scan default_tf missing skip rows obligations db = Ok (reports, db') ->
  monitored (List.filter (not_skipped skip) obligations) reports db db'.
Proof.
  induction obligations as [|record rest IH]; intros db reports db' E; cbn [monitor_owners List.filter] in *.
  - injection E as <- <-. constructor.
  - unfold not_skipped at 1. destruct (str_in _ skip); cbn [negb]; [by apply IH|].
    apply bind_tx_ok in E as (report & db1 & Hr & E). apply bind_tx_ok in E as (reports' & db2 & Hrs & E).
    injection E as <- <-. econstructor; [by eapply monitor_owner_run|by apply IH].
Qed.

(** what a pass leaves: epochs stay, membership and bound plan versions are permanent, records, events and analytics
    change for evaluated lifecycles only, and progress for those and for recorded gaps *)
Record monitoring_effect (evaluated gaps : list string) (db db' : database) : Prop := {
  fx_epochs : db_control db' = db_control db /\ db_epochs db' = db_epochs db /\ db_origins db' = db_origins db /\
    db_runs db' = db_runs db;
  fx_ownership : forall x row, record_row_of db x = Some row -> exists row', record_row_of db' x = Some row' /\
    r_runtime_epoch_id row' = r_runtime_epoch_id row /\ r_creation_origin_id row' = r_creation_origin_id row;
  fx_plan_version : forall lid pid row, find (progress_key_eqb lid pid) (db_progress db) = Some row ->
    exists row', find (progress_key_eqb lid pid) (db_progress db') = Some row' /\
      (has_plan_version row = true -> pg_plan_version_id row' = pg_plan_version_id row);
  fx_unevaluated : forall x, ~ In x (map lifecycle_id_text evaluated) ->
    records_of x db' = records_of x db /\ events_of x db' = events_of x db /\ analytics_of x db' = analytics_of x db;
  fx_untouched : forall x, ~ In x (map lifecycle_id_text (evaluated ++ gaps)) -> progress_of x db' = progress_of x db
}.

Definition is_evaluated (r : owner_report) : bool := match ow_evaluation r with Some _ => true | None => false end.

Lemma step_unevaluated record report db db' x : owner_step record report db db' ->
  (is_evaluated report = true -> x <> record_id record) ->
  records_of x db' = records_of x db /\ events_of x db' = events_of x db /\ analytics_of x db' = analytics_of x db.
Proof.
  intros Hs Hx. unfold is_evaluated in Hx. destruct (ow_evaluation report) eqn:Ev.
  - by destruct (extends_other _ _ _ x (os_extends _ _ _ _ Hs) (Hx eq_refl)) as (H1 & H2 & _ & H4).
  - by destruct (os_progress_only _ _ _ _ Hs Ev) as (rows & ->).
Qed.

Lemma step_untouched record report db db' x : owner_step record report db db' ->
  (is_evaluated report = true \/ ow_gap report = true -> x <> record_id record) -> progress_of x db' = progress_of x db.
Proof.
  intros Hs Hx. unfold is_evaluated in Hx. destruct (ow_evaluation report) eqn:Ev; [|destruct (ow_gap report) eqn:Eg].
  - by destruct (extends_other _ _ _ x (os_extends _ _ _ _ Hs) (Hx (or_introl eq_refl))) as (_ & _ & H3 & _).
  - by destruct (extends_other _ _ _ x (os_extends _ _ _ _ Hs) (Hx (or_intror eq_refl))) as (_ & _ & H3 & _).
  - by rewrite (os_nothing _ _ _ _ Hs Ev Eg).
Qed.

Lemma monitored_effect records reports db db' : monitored records reports db db' ->
  monitoring_effect (map ow_lifecycle_id (List.filter is_evaluated reports)) (map ow_lifecycle_id (List.filter ow_gap reports)) db db'.
Proof.
  induction 1 as [db|record report records reports db db1 db' Hs _ [(E1 & E2 & E3 & E4) Ho Hp Hu Hn]].
  { split; try done; eauto. }
  pose proof (os_extends _ _ _ _ Hs) as Hx. split.
  - rewrite E1, E2, E3, E4. by destruct Hx.
  - intros x row Hr. destruct (ex_ownership _ _ _ Hx x row Hr) as (row1 & Hr1 & A1 & A2).
    destruct (Ho x row1 Hr1) as (row2 & Hr2 & B1 & B2). exists row2. split_and!; congruence.
  - intros lid pid row Hr. destruct (ex_plan_version _ _ _ Hx lid pid row Hr) as (row1 & Hr1 & A1 & _).
    destruct (Hp lid pid row1 Hr1) as (row2 & Hr2 & B1). exists row2. split; [done|]. intros Hv.
    rewrite <- (A1 Hv). apply B1. unfold has_plan_version in *. by rewrite (A1 Hv).
  - intros x Hx'. cbn [List.filter] in Hx'.
    destruct (Hu x) as (-> & -> & ->); [intros Hin; apply Hx'; destruct (is_evaluated report); [by right|done]|].
    eapply step_unevaluated; [exact Hs|]. intros Hev ->. apply Hx'. rewrite Hev. left. by rewrite (os_id _ _ _ _ Hs).
  - intros x Hx'. rewrite map_app, in_app_iff in Hx'. cbn [List.filter] in Hx'.
    rewrite (Hn x).
    + eapply step_untouched; [exact Hs|]. intros Hev ->. apply Hx'. unfold record_id. rewrite <- (os_id _ _ _ _ Hs).
      destruct Hev as [->| ->]; [left|right]; by left.
    + rewrite map_app, in_app_iff. intros [Hin|Hin]; apply Hx'; [left|right];
        [destruct (is_evaluated report)|destruct (ow_gap report)]; (by right) || done.
Qed.

(** the run of a pass *)
Record pass_run (skip : list string) (result : OwnerMonitoringResult) (db db' : database) : Prop := {
  ps_run : exists obligations reports, select_tracking_obligations db = Ok obligations /\
    monitored (List.filter (not_skipped skip) obligations) reports db db' /\ result = collect_reports obligations skip reports
}.

Lemma monitor_run clock evidence at_ scan default_tf missing skip db result evaluations db' :
  monitor_tracking_obligations clock evidence at_ scan default_tf missing skip db = Ok ((result, evaluations), db') ->
  pass_run skip result db db'.
Proof.
  unfold monitor_tracking_obligations. intros E. apply bind_tx_ok in E as (obligations & db1 & Hq & E).
  unfold query in Hq. apply bind_ok in Hq as (l & Hl & Hq). injection Hq as -> ->.
  apply bind_tx_ok in E as (rows & db2 & Hq & E). unfold query in Hq. apply bind_ok in Hq as (l & _ & Hq). injection Hq as -> ->.
  apply bind_tx_ok in E as (reports & db3 & Hm & E). injection E as <- <- <-. split. exists obligations, reports.
  split; [done|]. split; [by eapply monitor_owners_run|done].
Qed.

Lemma monitored_ids records reports db db' : monitored records reports db db' ->
  map ow_lifecycle_id reports = map r_lifecycle_id records /\ map (fun r => tl_lifecycle_id (ow_lag r)) reports = map r_lifecycle_id records /\
  Forall reported reports /\ Forall (fun r => forall e, ow_error r = Some e -> err_lifecycle_id e = ow_lifecycle_id r) reports.
Proof.
  induction 1 as [|record report records reports db db1 db' Hs _ (I1 & I2 & I3 & I4)]; [done|]. cbn [map].
  rewrite I1, I2, (os_id _ _ _ _ Hs), (os_lag _ _ _ _ Hs). split_and!; try done; constructor; try done.
  - apply (os_reported _ _ _ _ Hs).
  - intros e He. rewrite (os_id _ _ _ _ Hs). by eapply os_error.
Qed.

Lemma dict_fromkeys_go_in x l : forall seen, In x (dict_fromkeys_go seen l) <-> In x l /\ ~ In x seen.
Proof.
  induction l as [|y l IH]; intros seen; cbn [dict_fromkeys_go In]; [tauto|].
  destruct (str_in y seen) eqn:E; cbn [In]; rewrite IH; cbn [In].
  - apply str_in_spec in E. destruct (String.eqb_spec y x) as [->|]; tauto.
  - apply str_in_false in E. destruct (String.eqb_spec y x) as [->|]; tauto.
Qed.

Lemma dict_fromkeys_in x l : In x (dict_fromkeys l) <-> In x l.
Proof. unfold dict_fromkeys. rewrite dict_fromkeys_go_in. cbn. tauto. Qed.

Lemma filter_ids_in {A} (key : A -> string) p l x : In x (map key (List.filter p l)) -> In x (map key l).
Proof. intros Hin. apply in_map_iff in Hin as (a & <- & Ha). apply filter_In in Ha as [Ha _]. by apply in_map. Qed.

(** what a pass reports as evaluated or as a gap is an obligation that was not skipped *)
Lemma pass_handled skip obligations reports db db' id p : monitored (List.filter (not_skipped skip) obligations) reports db db' ->
  In id (map ow_lifecycle_id (List.filter p reports)) -> In id (map r_lifecycle_id obligations) /\ ~ In id skip.
Proof.
  intros Hm Hin. apply filter_ids_in in Hin. destruct (monitored_ids _ _ _ _ Hm) as (E & _). rewrite E in Hin.
  apply in_map_iff in Hin as (r & <- & Hr). apply filter_In in Hr as [Hr Hs]. split; [by apply in_map|].
  unfold not_skipped in Hs. apply negb_true_iff in Hs. by apply str_in_false.
Qed.

Lemma pass_effect skip result db db' : pass_run skip result db db' ->
  monitoring_effect (om_evaluated_lifecycle_ids result) (om_gap_lifecycle_ids result) db db' /\
  forall id, In id (om_evaluated_lifecycle_ids result ++ om_gap_lifecycle_ids result) ->
    In id (om_obligation_lifecycle_ids result) /\ ~ In id skip.
Proof.
  intros [(obligations & reports & _ & Hm & ->)]. cbn [om_evaluated_lifecycle_ids om_gap_lifecycle_ids om_obligation_lifecycle_ids collect_reports].
  split.
  - destruct (monitored_effect _ _ _ _ Hm) as [He Ho Hp Hu Hn]. split; try done.
    intros x Hx. apply Hn. intros Hin. apply Hx. rewrite map_app, in_app_iff in *. destruct Hin as [Hin|Hin]; [by left|right].
    apply in_map_iff in Hin as (id & <- & Hin). apply in_map. by apply dict_fromkeys_in.
  - intros id Hin. apply in_app_or in Hin as [Hin|Hin]; [|apply (proj1 (dict_fromkeys_in _ _)) in Hin]; by eapply pass_handled.
Qed.

End Monitoring.

(** ** Obligations *)

Lemma insert_candidate_in x r l : In x (insert_candidate r l) <-> x = r \/ In x l.
Proof.
  induction l as [|y l IH]; cbn [insert_candidate]; [cbn; naive_solver|].
  destruct (candidate_leb r y); cbn [In]; [naive_solver|]. rewrite IH. naive_solver.
Qed.

Lemma sorted_candidates_in x l : In x (fold_right insert_candidate [] l) <-> In x l.
Proof. induction l as [|y l IH]; [done|]. cbn [fold_right In]. rewrite insert_candidate_in, IH. naive_solver. Qed.

Lemma insert_progress_in x p l : In x (insert_progress p l) <-> x = p \/ In x l.
Proof.
  induction l as [|y l IH]; cbn [insert_progress]; [cbn; naive_solver|].
  destruct (String.leb _ _); cbn [In]; [naive_solver|]. rewrite IH. naive_solver.
Qed.

Lemma sorted_progress_in x l : In x (fold_right insert_progress [] l) <-> In x l.
Proof. induction l as [|y l IH]; [done|]. cbn [fold_right In]. rewrite insert_progress_in, IH. naive_solver. Qed.

Lemma all_from_rows_same {A} (f : A -> result A) l : (forall x, In x l -> f x = Ok x) -> all_from_rows f l = Ok l.
Proof.
  induction l as [|x l IH]; intros Hf; [done|]. cbn [all_from_rows]. rewrite (Hf x) by (by left). cbn [bind_result].
  rewrite IH by (intros y Hy; apply Hf; by right). done.
Qed.

(** what is stored reads back unchanged, as what the repository writes does; no lifecycle is called N/A *)
Record readable (db : database) : Prop := {
  rd_records : forall r, In r (db_records db) -> record_from_row r = Ok r /\ r_lifecycle_id r <> NA;
  rd_progress : forall p, In p (db_progress db) -> outcome_progress_from_row p = Ok p
}.

Definition ended (p : SetupLifecycleOutcomeProgress) : Prop := progress_is_terminal p = true.

Lemma readable_progress p : outcome_progress_from_row p = Ok p ->
  normalize_text (pg_lifecycle_id p) = pg_lifecycle_id p /\ open_progress p = negb (progress_is_terminal p).
Proof.
  unfold outcome_progress_from_row, validate_progress. intros E. apply bind_ok in E as (sym & _ & E). apply ok_inj in E.
  assert (forall (A : Type) (f : SetupLifecycleOutcomeProgress -> A) q, q = p -> f q = f p) as Hf by (by intros A f q ->).
  pose proof (Hf _ pg_lifecycle_id _ E) as E1. pose proof (Hf _ pg_terminal_outcome _ E) as E2. clear Hf E. cbn in E1, E2.
  split; [done|]. unfold open_progress, progress_is_terminal. unfold normalize_text in E2.
  destruct (String.eqb_spec (py_strip (pg_terminal_outcome p)) "") as [Es|Es].
  - by rewrite <- E2.
  - rewrite E2. rewrite E2 in Es. rewrite (proj2 (String.eqb_neq _ _) Es). cbn [negb orb andb].
    by rewrite negb_involutive.
Qed.

Lemma readable_plan_version r : record_from_row r = Ok r -> given (r_plan_version_id r) = true <-> r_plan_version_id r <> None.
Proof.
  unfold record_from_row, validate_record. intros E. apply bind_ok in E as (sym & _ & E). destruct (negb _); [done|].
  apply ok_inj in E. assert (forall (A : Type) (f : SetupLifecycleRecord -> A) q, q = r -> f q = f r) as Hf by (by intros A f q ->).
  pose proof (Hf _ r_plan_version_id _ E) as Ev. clear Hf E. cbn in Ev. destruct (r_plan_version_id r) as [s|]; [|done].
  unfold given. destruct (String.eqb_spec s "") as [->|]; [done|]. by split.
Qed.

Lemma existsb_not_terminal rows : existsb (fun p => negb (progress_is_terminal p)) rows = true <->
  exists p, In p rows /\ ~ ended p.
Proof.
  rewrite existsb_exists. unfold ended. split; intros (p & Hp & Ht); exists p; (split; [done|]).
  - apply negb_true_iff in Ht. by rewrite Ht.
  - apply negb_true_iff. by apply not_true_iff_false.
Qed.

(** progress of one of the plan's identities *)
Definition relevant (r : SetupLifecycleRecord) (p : SetupLifecycleOutcomeProgress) : Prop :=
  In (pg_plan_identity p) (compatible_plan_identities r).

Lemma obligation_is_open_spec r rows : obligation_is_open r rows = true <->
  In (r_current_state r) OUTCOME_ELIGIBLE_STATES /\
  ((exists p, In p rows /\ relevant r p) -> exists p, In p rows /\ relevant r p /\ ~ ended p) /\
  (given (r_plan_version_id r) = true \/ exists p, In p rows /\ ~ ended p).
Proof.
  unfold obligation_is_open. rewrite <- existsb_not_terminal.
  destruct (state_in (r_current_state r) OUTCOME_ELIGIBLE_STATES) eqn:Ee; cbn [negb].
  2:{ assert (~ In (r_current_state r) OUTCOME_ELIGIBLE_STATES) as Hn by (rewrite <- state_in_In, Ee; done).
      destruct (state_in _ TERMINAL_OUTCOME_STATES); (split; [discriminate|]); by intros (? & _). }
  assert (state_in (r_current_state r) TERMINAL_OUTCOME_STATES = false) as -> by (by destruct (r_current_state r)).
  apply state_in_In in Ee.
  set (l := List.filter (fun p => str_in (pg_plan_identity p) (compatible_plan_identities r)) rows).
  assert (forall p, In p l <-> In p rows /\ relevant r p) as Hl
    by (intros p; unfold l, relevant; by rewrite filter_In, str_in_spec).
  assert ((match l with [] => false | _ => forallb progress_is_terminal l end) = true <->
    (exists p, In p rows /\ relevant r p) /\ forall p, In p rows -> relevant r p -> ended p) as Hall.
  { destruct l as [|q l'] eqn:El.
    - split; [done|]. intros ((p & Hp & Hr) & _). destruct (proj2 (Hl p) (conj Hp Hr)).
    - rewrite forallb_forall. split.
      + intros Hf. split; [exists q; apply Hl; by left|]. intros p Hp Hr. apply Hf, Hl. done.
      + intros (_ & Hf) p Hp. apply Hl in Hp as [Hp Hr]. by apply Hf. }
  destruct (match l with [] => false | _ => forallb progress_is_terminal l end).
  - destruct (proj1 Hall eq_refl) as ((p & Hp & Hr) & Hf). split; [done|]. intros (_ & Hopen & _).
    destruct (Hopen (ex_intro _ p (conj Hp Hr))) as (q & Hq & Hrq & Hnq). destruct Hnq. by apply Hf.
  - assert ((exists p, In p rows /\ relevant r p) -> exists p, In p rows /\ relevant r p /\ ~ ended p) as Hopen.
    { intros (p & Hp & Hr). destruct (existsb (fun p => negb (progress_is_terminal p)) l) eqn:Ex.
      - apply existsb_not_terminal in Ex as (q & Hq & Hn). apply Hl in Hq as [Hq Hrq]. by exists q.
      - assert (false = true) as Hbad; [|discriminate Hbad]. apply Hall. split; [by exists p|]. intros q Hq Hrq. unfold ended.
        destruct (progress_is_terminal q) eqn:Et; [done|]. apply not_true_iff_false in Ex. destruct Ex.
        apply existsb_exists. exists q. rewrite Et. split; [|done]. by apply Hl. }
    destruct (given _); (split; [intros Hx; split; [done|]; split; [done|]; auto|]); [done|]. by intros (_ & _ & [|]).
Qed.

(** an owned plan that has not ended *)
Definition open_plan (db : database) (epoch_id : string) (r : SetupLifecycleRecord) : Prop :=
  r_runtime_epoch_id r = Some epoch_id /\ In (r_current_state r) OUTCOME_ELIGIBLE_STATES /\
  let own p := In p (db_progress db) /\ pg_lifecycle_id p = r_lifecycle_id r in
  (r_plan_version_id r <> None \/ exists p, own p /\ ~ ended p) /\
  ((exists p, own p /\ relevant r p) -> exists p, own p /\ relevant r p /\ ~ ended p).

Lemma tracking_candidate_spec db epoch_id r : readable db ->
  tracking_candidate db epoch_id OUTCOME_ELIGIBLE_STATES r = true <->
  r_runtime_epoch_id r = Some epoch_id /\ In (r_current_state r) OUTCOME_ELIGIBLE_STATES /\
  (r_plan_version_id r <> None \/ exists p, In p (db_progress db) /\ pg_lifecycle_id p = r_lifecycle_id r /\ ~ ended p).
Proof.
  intros Hr. unfold tracking_candidate. rewrite !andb_true_iff, bool_decide_eq_true, state_in_In.
  assert (forall A B C D : Prop, (C <-> D) -> ((A /\ B) /\ C <-> A /\ B /\ D)) as Hand by tauto. apply Hand. destruct (r_plan_version_id r) as [v|]; [split; [by left|done]|].
  rewrite existsb_exists. split.
  - intros (p & Hp & Ht). apply andb_true_iff in Ht as [Hid%String.eqb_eq Ho]. right. exists p. split_and!; try done.
    rewrite (proj2 (readable_progress _ (rd_progress _ Hr p Hp))) in Ho. unfold ended. apply negb_true_iff in Ho. by rewrite Ho.
  - intros [|(p & Hp & Hid & Hn)]; [done|]. exists p. split; [done|]. rewrite Hid, String.eqb_refl.
    rewrite (proj2 (readable_progress _ (rd_progress _ Hr p Hp))). cbn [andb]. apply negb_true_iff. by apply not_true_iff_false.
Qed.

Lemma rows_of_lifecycle db ids rows r : readable db -> list_outcome_progress_for_lifecycles db ids = Ok rows ->
  In (r_lifecycle_id r) ids -> r_lifecycle_id r <> NA ->
  forall p, In p (rows_of rows (r_lifecycle_id r)) <-> In p (db_progress db) /\ pg_lifecycle_id p = r_lifecycle_id r.
Proof.
  intros Hr Hrows Hid Hna p. unfold list_outcome_progress_for_lifecycles in Hrows. rewrite all_from_rows_same in Hrows.
  2:{ intros q Hq. apply sorted_progress_in, filter_In in Hq as [Hq _]. by apply (rd_progress _ Hr). }
  apply ok_inj in Hrows as <-. unfold rows_of. rewrite filter_In, sorted_progress_in, filter_In, String.eqb_eq, str_in_spec.
  split; [tauto|]. intros [Hp E]. split_and!; try done. apply filter_In. destruct (readable_progress _ (rd_progress _ Hr p Hp)) as [Hn _].
  rewrite E in Hn |- *. split; [|apply negb_true_iff; by apply String.eqb_neq].
  apply in_map_iff. exists (r_lifecycle_id r). by split.
Qed.

(** C9: no owned plan is forgotten. When what is stored reads back, the selection succeeds and finds exactly the
    lifecycles of the active epoch in a trackable state that have a locked plan or progress that has not ended, and whose
    progress under the plan's identities, if there is any, has not all ended; neither [is_current] nor what the scanner
    selects plays a role. *)
Theorem no_owned_plan_forgotten db epoch : readable db -> load_active_runtime_epoch db = Some epoch ->
  exists l, select_tracking_obligations db = Ok l /\
    forall r, In r l <-> In r (db_records db) /\ open_plan db (re_epoch_id epoch) r.
Proof.
  intros Hr He. unfold select_tracking_obligations, list_economic_tracking_candidates. rewrite He.
  set (candidates := fold_right insert_candidate [] _).
  assert (forall r, In r candidates <-> In r (db_records db) /\ tracking_candidate db (re_epoch_id epoch) OUTCOME_ELIGIBLE_STATES r = true) as Hc
    by (intros r; unfold candidates; by rewrite sorted_candidates_in, filter_In).
  rewrite all_from_rows_same by (intros r Hin; apply Hc in Hin as [Hin _]; by apply (rd_records _ Hr)). cbn [bind_result].
  destruct (list_outcome_progress_for_lifecycles db (map r_lifecycle_id candidates)) as [rows|e] eqn:Hrows.
  2:{ exfalso. unfold list_outcome_progress_for_lifecycles in Hrows. rewrite all_from_rows_same in Hrows; [done|].
      intros q Hq. apply sorted_progress_in, filter_In in Hq as [Hq _]. by apply (rd_progress _ Hr). }
  cbn [bind_result]. eexists. split; [reflexivity|]. intros r. rewrite filter_In, Hc, obligation_is_open_spec.
  rewrite (tracking_candidate_spec _ _ _ Hr). unfold open_plan. cbn zeta. split.
  - intros ((Hin & Hep & Hst & Hlive) & _ & Hrel & _).
    assert (In r candidates) as Hcand by (apply Hc; split; [done|]; by apply tracking_candidate_spec).
    pose proof (rows_of_lifecycle _ _ _ _ Hr Hrows (in_map _ _ _ Hcand) (proj2 (rd_records _ Hr _ Hin))) as Hrow.
    split_and!; try done.
    + destruct Hlive as [|(p & Hp & Hid & Hn)]; [by left|]. right. by exists p.
    + intros (p & Hp & Hrp). destruct Hrel as (q & Hq & Hrq & Hn); [exists p; by rewrite Hrow|]. rewrite Hrow in Hq. by exists q.
  - intros (Hin & Hep & Hst & Hlive & Hrel).
    assert (r_plan_version_id r <> None \/ exists p, In p (db_progress db) /\ pg_lifecycle_id p = r_lifecycle_id r /\ ~ ended p) as Hlive'.
    { destruct Hlive as [|(p & [Hp Hid] & Hn)]; [by left|]. right. by exists p. }
    assert (In r candidates) as Hcand by (apply Hc; split; [done|]; by apply tracking_candidate_spec).
    pose proof (rows_of_lifecycle _ _ _ _ Hr Hrows (in_map _ _ _ Hcand) (proj2 (rd_records _ Hr _ Hin))) as Hrow.
    split_and!; try done.
    + intros (p & Hp & Hrp). rewrite Hrow in Hp. destruct Hrel as (q & Hq & Hrq & Hn); [by exists p|]. exists q. by rewrite Hrow.
    + rewrite (readable_plan_version _ (proj1 (rd_records _ Hr _ Hin))). destruct Hlive as [|(p & Hp & Hn)]; [by left|].
      right. exists p. by rewrite Hrow.
Qed.

(** ** Between the stages *)

Lemma dict_update_in {A} key (dft : A) f d k v : In (k, v) (dict_update key dft f d) ->
  In (k, v) d \/ k = key.
Proof.
  induction d as [|[k' v'] d IH]; cbn [dict_update]; [intros [[= <- <-]|[]]; by right|].
  destruct (String.eqb_spec k' key) as [->|]; intros [[= <- <-]|Hin]; auto; [left; by right|left; by left|].
  destruct (IH Hin); [left; by right|by right].
Qed.

Lemma evidence_for_set {A} key (v : A) d x : evidence_for x (dict_set key v d) = if String.eqb key x then Some v else evidence_for x d.
Proof.
  unfold evidence_for, dict_set. induction d as [|[k w] d IH]; cbn [dict_update find fst].
  - by destruct (String.eqb key x).
  - destruct (String.eqb_spec k key) as [->|Hne]; cbn [find fst].
    + by destruct (String.eqb key x).
    + destruct (String.eqb_spec k x) as [->|]; [|exact IH]. cbn [option_map snd].
      by rewrite (proj2 (String.eqb_neq _ _) (not_eq_sym Hne)).
Qed.

Lemma by_id_find {A} (id : A -> string) rows x a : evidence_for x (by_id id rows) = Some a -> In a rows /\ id a = x.
Proof.
  unfold by_id. assert (forall d, (forall a, evidence_for x d = Some a -> In a rows /\ id a = x) ->
    forall l, incl l rows -> forall a, evidence_for x (fold_left (fun d row => dict_set (id row) row d) l d) = Some a -> In a rows /\ id a = x) as Hgen.
  { intros d Hd l. revert d Hd. induction l as [|y l IH]; intros d Hd Hl b; cbn [fold_left]; [apply Hd|].
    apply IH; [|intros z Hz; apply Hl; by right]. intros c. rewrite evidence_for_set.
    destruct (String.eqb_spec (id y) x) as [E|]; [intros [= <-]; split; [apply Hl; by left|done]|apply Hd]. }
  apply (Hgen []); [done|by intros ?].
Qed.

Lemma not_blocked skip stage1 stage3 id : In id (map r_lifecycle_id stage3) -> ~ In id (blocked_obligations skip stage1 stage3) ->
  ~ In id skip /\ exists r1 r3, In r1 stage1 /\ In r3 stage3 /\ r_lifecycle_id r1 = id /\ r_lifecycle_id r3 = id /\
    r_plan_version_id r3 = r_plan_version_id r1.
Proof.
  unfold blocked_obligations. rewrite !in_app_iff. intros Hin Hb. split; [tauto|].
  apply in_map_iff in Hin as (r & <- & Hr).
  destruct (str_in (r_lifecycle_id r) (map r_lifecycle_id stage1)) eqn:E1.
  2:{ destruct Hb. right. left. apply in_map_iff. exists r. split; [done|]. apply filter_In. by rewrite E1. }
  apply str_in_spec, in_map_iff in E1 as (r1 & Hid & Hr1).
  destruct (obligation_by_id stage3 (r_lifecycle_id r1)) as [r3|] eqn:E3.
  2:{ destruct Hb. right. right. apply in_map_iff. exists r1. split; [done|]. apply filter_In. by rewrite E3. }
  destruct (bool_decide_reflect (r_plan_version_id r3 = r_plan_version_id r1)) as [Hv|Hv].
  2:{ destruct Hb. right. right. apply in_map_iff. exists r1. split; [done|]. apply filter_In. split; [done|].
      rewrite E3. by rewrite bool_decide_eq_false_2. }
  apply by_id_find in E3 as [Hin3 Hid3]. exists r1, r3. split_and!; try done. by rewrite Hid3.
Qed.

Section Stages.
Context `{JsonErrors} `{ExnText}.

Lemma stage_3_run clock scan at_ tf missing merged failures skip stage1 rows reg db result db' :
  stage_3_continuation_write clock scan at_ tf missing merged failures skip stage1 rows reg db = Ok (result, db') ->
  exists stage3 r0 failed, select_tracking_obligations db = Ok stage3 /\
    pass_run (failed ++ blocked_obligations skip stage1 stage3) r0 db db' /\
    om_evaluated_lifecycle_ids result = om_evaluated_lifecycle_ids r0 /\ om_gap_lifecycle_ids result = om_gap_lifecycle_ids r0.
Proof.
  unfold stage_3_continuation_write. intros E. apply bind_tx_ok in E as ([] & db1 & Hq & E).
  unfold query in Hq. apply bind_ok in Hq as ([] & _ & Hq). injection Hq as ->.
  apply bind_tx_ok in E as (stage3 & db2 & Hq & E). unfold query in Hq. apply bind_ok in Hq as (l & Hl & Hq). injection Hq as -> ->.
  apply bind_tx_ok in E as ([r0 evals] & dbm & Hm & E). apply monitor_run in Hm.
  exists stage3, r0, (map err_lifecycle_id (subsystem_errors failures rows tf (blocked_obligations skip stage1 stage3) stage1)).
  split; [done|]. destruct (subsystem_errors _ _ _ _ _) as [|e errors].
  - injection E as <- <-. by split.
  - apply bind_tx_ok in E as (lags & db3 & Hlag & E). apply lift_ok in Hlag as [_ ->]. injection E as <- <-. by split.
Qed.

Lemma market_data_run clock others evidence fetch tf limit at_ scan skip_keys skip missing reg db result db' :
  monitor_obligations_with_market_data clock others evidence fetch tf limit at_ scan skip_keys skip missing reg db = Ok (result, db') ->
  exists stage1 merged failures rows, select_tracking_obligations db = Ok stage1 /\
    stage_3_continuation_write clock scan at_ tf missing merged failures skip stage1 rows reg (others db) = Ok (result, db').
Proof.
  unfold monitor_obligations_with_market_data. intros E. apply bind_ok in E as ([[stage1 rows] needed] & H1 & E).
  apply bind_ok in E as ([merged failures] & _ & E). exists stage1, merged, failures, rows. split; [|done].
  unfold stage_1_continuation_read in H1. apply bind_ok in H1 as (ep & _ & H1). apply bind_ok in H1 as (obs & Ho & H1).
  apply bind_ok in H1 as (rs & _ & H1). apply ok_inj in H1. by injection H1 as <- _ _.
Qed.

(** C10: a plan that changed while candles were fetched is not evaluated. Whatever other connections commit between the
    reading and the writing stage, what is evaluated or recorded as a gap was an obligation at both stages, under the
    same plan version and not excluded by the caller; and relative to the database they left, records, events and
    analytics change for evaluated lifecycles only, progress for those and for recorded gaps only, and membership,
    creation origins and bound plan versions not at all. *)
Theorem stale_plans_not_monitored clock others evidence fetch tf limit at_ scan skip_keys skip missing reg db result db' :
  monitor_obligations_with_market_data clock others evidence fetch tf limit at_ scan skip_keys skip missing reg db = Ok (result, db') ->
  exists stage1 stage3, select_tracking_obligations db = Ok stage1 /\ select_tracking_obligations (others db) = Ok stage3 /\
    monitoring_effect (om_evaluated_lifecycle_ids result) (om_gap_lifecycle_ids result) (others db) db' /\
    forall id, In id (om_evaluated_lifecycle_ids result ++ om_gap_lifecycle_ids result) ->
      ~ In id skip /\ exists r1 r3, In r1 stage1 /\ In r3 stage3 /\ r_lifecycle_id r1 = id /\ r_lifecycle_id r3 = id /\
        r_plan_version_id r3 = r_plan_version_id r1.
Proof.
  intros E. apply market_data_run in E as (stage1 & merged & failures & rows & Hs1 & E).
  apply stage_3_run in E as (stage3 & r0 & failed & Hs3 & Hp & -> & ->). exists stage1, stage3. split_and!; try done.
  - by apply pass_effect in Hp as [Hp _].
  - intros id Hid. pose proof (proj2 (pass_effect _ _ _ _ Hp) id Hid) as [Hob Hns].
    destruct Hp as [(obligations & reports & Hsel & _ & ->)]. rewrite Hs3 in Hsel. apply ok_inj in Hsel as <-. cbn in Hob.
    apply not_blocked; [done|]. intros Hb. apply Hns, in_or_app. by right.
Qed.

End Stages.

(** ** The account of a pass *)

Lemma nodup_filter_ids {A} (key : A -> string) p l : NoDup (map key l) -> NoDup (map key (List.filter p l)).
Proof.
  induction l as [|x l IH]; cbn [map List.filter]; [done|]. intros [Hx Hl]%NoDup_cons. destruct (p x); [|by apply IH].
  cbn [map]. apply NoDup_cons. split; [|by apply IH]. rewrite list_elem_of_In. intros Hin. apply Hx, list_elem_of_In.
  by eapply filter_ids_in.
Qed.

Lemma insert_candidate_perm r l : Permutation (insert_candidate r l) (r :: l).
Proof.
  induction l as [|x l IH]; cbn [insert_candidate]; [done|]. destruct (candidate_leb r x); [done|].
  rewrite IH. apply perm_swap.
Qed.

Lemma sorted_candidates_perm l : Permutation (fold_right insert_candidate [] l) l.
Proof. induction l as [|x l IH]; [done|]. cbn [fold_right]. by rewrite insert_candidate_perm, IH. Qed.

Lemma all_from_rows_ids {A B} (f : A -> result B) (ka : A -> string) (kb : B -> string) l l' :
  (forall a b, f a = Ok b -> kb b = ka a) -> all_from_rows f l = Ok l' -> map kb l' = map ka l.
Proof.
  intros Hk. revert l'. induction l as [|a l IH]; intros l' E; cbn [all_from_rows] in E; [by apply ok_inj in E as <-|].
  apply bind_ok in E as (b & Hb & E). apply bind_ok in E as (others & Ho & E). apply ok_inj in E as <-. cbn [map].
  by rewrite (Hk _ _ Hb), (IH _ Ho).
Qed.

Lemma selected_ids_nodup db l : NoDup (map r_lifecycle_id (db_records db)) -> select_tracking_obligations db = Ok l ->
  NoDup (map r_lifecycle_id l).
Proof.
  intros Hnd E. unfold select_tracking_obligations in E. apply bind_ok in E as (candidates & Hc & E).
  apply bind_ok in E as (rows & _ & E). apply ok_inj in E as <-. apply nodup_filter_ids.
  unfold list_economic_tracking_candidates in Hc. destruct (load_active_runtime_epoch db); [|apply ok_inj in Hc as <-; constructor].
  apply (all_from_rows_ids _ r_lifecycle_id r_lifecycle_id) in Hc.
  - rewrite Hc. rewrite sorted_candidates_perm. by apply nodup_filter_ids.
  - intros a b Hab. unfold record_from_row, validate_record in Hab. apply bind_ok in Hab as (sym & _ & Hab).
    destruct (negb _); [done|]. by apply ok_inj in Hab as <-.
Qed.

Lemma dict_fromkeys_go_known l' : forall l seen, NoDup l -> (forall x, In x l -> ~ In x seen) ->
  (forall x, In x l' -> In x l \/ In x seen) -> dict_fromkeys_go seen (l ++ l') = l.
Proof.
  induction l as [|x l IH]; intros seen Hnd Hl Hl'; cbn [app dict_fromkeys_go].
  - induction l' as [|y l' IH']; [done|]. cbn [dict_fromkeys_go].
    destruct (Hl' y (or_introl eq_refl)) as [[]|Hy]. apply str_in_spec in Hy. rewrite Hy. apply IH'. intros z Hz. apply Hl'. by right.
  - apply NoDup_cons in Hnd as [Hx Hnd]. rewrite list_elem_of_In in Hx.
    rewrite (proj2 (str_in_false _ _)) by (apply Hl; by left). f_equal. apply IH; [done|..].
    + intros y Hy [->|Hs]; [done|]. by apply (Hl y); [right|].
    + intros y Hy. destruct (Hl' y Hy) as [[->|Hin]|Hs]; [right; by left|by left|right; by right].
Qed.

Lemma dict_fromkeys_known l l' : NoDup l -> (forall x, In x l' -> In x l) -> dict_fromkeys (l ++ l') = l.
Proof. intros Hnd Hl. apply dict_fromkeys_go_known; [done|by intros x _ []|auto]. Qed.

Lemma dict_update_keys {A} key (dft : A) f d k : In k (map fst (dict_update key dft f d)) -> k = key \/ In k (map fst d).
Proof.
  induction d as [|[k' v'] d IH]; cbn [dict_update map fst In]; [by intros [->|[]]; left|].
  destruct (String.eqb_spec k' key) as [->|]; cbn [map fst In]; [intros [->|]; auto|]. intros [->|Hin]; [auto|].
  destruct (IH Hin); auto.
Qed.

Lemma by_id_keys {A} (id : A -> string) rows k : In k (map fst (by_id id rows)) -> In k (map id rows).
Proof.
  unfold by_id. assert (forall l d, In k (map fst (fold_left (fun d row => dict_set (id row) row d) l d)) ->
    In k (map id l) \/ In k (map fst d)) as Hgen.
  { induction l as [|x l IH]; intros d Hin; cbn [fold_left map In] in *; [by right|].
    destruct (IH _ Hin) as [|Hd]; [auto|]. apply dict_update_keys in Hd as [->|]; auto. }
  intros Hin. by destruct (Hgen rows [] Hin).
Qed.

(** the owners of a single pass are its lifecycles, each with its disposition *)
Lemma account_distinct p l : forall owners lags, NoDup l -> (forall id, In id l -> ~ In id (map fst owners)) ->
  fst (fold_left (account_lifecycle p) l (owners, lags)) = owners ++ map (fun id => (id, disposition_row p id)) l.
Proof.
  induction l as [|id l IH]; intros owners lags Hnd Hl; cbn [fold_left map]; [by rewrite app_nil_r|].
  apply NoDup_cons in Hnd as [Hid Hnd]. rewrite list_elem_of_In in Hid.
  assert (dict_mem id owners = false) as Hm.
  { apply not_true_iff_false. intros Hm. apply existsb_exists in Hm as ([k v] & Hin & Hk%String.eqb_eq). cbn in Hk. subst k.
    apply (Hl id (or_introl eq_refl)). by apply (in_map fst) in Hin. }
  unfold account_lifecycle at 2. rewrite Hm, andb_false_r. unfold dict_set at 1. rewrite dict_update_absent by (apply Hl; by left).
  rewrite IH; [by rewrite <- app_assoc|done|]. intros k Hk. rewrite map_app, in_app_iff. intros [Hin|[<-|[]]]; [|done].
  by apply (Hl k); [right|].
Qed.

Lemma counted_once rows : forall d, fold_right Z.add 0%Z (map snd (fold_left
  (fun d r => dict_update (disposition_text (od_disposition r)) 0%Z Z.succ d) rows d))
  = (fold_right Z.add 0%Z (map snd d) + Z.of_nat (length rows))%Z.
Proof.
  assert (forall key d, fold_right Z.add 0%Z (map snd (dict_update key 0%Z Z.succ d)) = (fold_right Z.add 0%Z (map snd d) + 1)%Z) as Hstep.
  { intros key. induction d as [|[k v] d IH]; [done|]. cbn [dict_update]. destruct (String.eqb k key); cbn [map snd fold_right]; lia. }
  induction rows as [|r rows IH]; intros d; cbn [fold_left length]; [lia|]. rewrite IH, Hstep. lia.
Qed.

Lemma filter_all {A} (p : A -> bool) l : length (List.filter p l) = length l <-> forall x, In x l -> p x = true.
Proof.
  induction l as [|x l IH]; [done|]. cbn [List.filter]. pose proof (List.filter_length_le p l) as Hle. destruct (p x) eqn:E; cbn [length].
  - rewrite Nat.succ_inj_wd, IH. split; [intros H y [<-|]; auto|intros H y Hy; apply H; by right].
  - split; [lia|]. intros H. rewrite (H x (or_introl eq_refl)) in E. done.
Qed.

Lemma by_id_some {A} (id : A -> string) rows a : In a rows -> evidence_for (id a) (by_id id rows) <> None.
Proof.
  unfold by_id. assert (forall l d, evidence_for (id a) d <> None \/ In a l ->
    evidence_for (id a) (fold_left (fun d row => dict_set (id row) row d) l d) <> None) as Hgen.
  { induction l as [|x l IH]; intros d Hd; cbn [fold_left]; [by destruct Hd|]. apply IH. rewrite evidence_for_set.
    destruct Hd as [Hd|[->|Hd]]; [left; by destruct (String.eqb _ _)|left; by rewrite String.eqb_refl|by right]. }
  intros Hin. apply Hgen. by right.
Qed.

Lemma no_error_for errors id : evidence_for id (by_id err_lifecycle_id errors) = None ->
  forall e, In e errors -> err_lifecycle_id e <> id.
Proof. intros Hn e He <-. by apply (by_id_some err_lifecycle_id errors e). Qed.

Lemma single_pass_rows p : ms_owner_dispositions (summarize_monitoring_passes [p]) = map (disposition_row p) (dict_fromkeys (pass_lifecycles p)).
Proof.
  assert (forall l, NoDup (dict_fromkeys l)) as Hnd.
  { intros l. unfold dict_fromkeys. generalize (@nil string). induction l as [|x l IH]; intros seen; cbn [dict_fromkeys_go]; [constructor|].
    destruct (str_in x seen); [apply IH|]. apply NoDup_cons. split; [|apply IH]. rewrite list_elem_of_In, dict_fromkeys_go_in.
    cbn. tauto. }
  assert (dict_fromkeys (pass_lifecycles p) = pass_lifecycles p) as ->.
  { unfold pass_lifecycles. pose proof (Hnd (mp_obligations p ++ map fst (by_id tl_lifecycle_id (mp_lags p)) ++ map fst (by_id err_lifecycle_id (mp_errors p)))) as Hd.
    rewrite <- (app_nil_r (dict_fromkeys (_ ++ _))) at 1. apply dict_fromkeys_known; [done|by intros x []]. }
  unfold summarize_monitoring_passes. cbn [fold_left]. unfold account_pass.
  pose proof (account_distinct p (pass_lifecycles p) [] [] (Hnd _)) as Ha.
  destruct (fold_left (account_lifecycle p) (pass_lifecycles p) ([], [])) as [owners lags]. cbn [fst app] in Ha.
  rewrite Ha by (by intros id _ []). cbn [ms_owner_dispositions]. rewrite map_map. done.
Qed.

(** what a reported disposition stands for *)
Definition accounted (result : OwnerMonitoringResult) (skip : list string) (row : owner_disposition) : Prop :=
  let id := od_lifecycle_id row in
  match od_disposition row with
  | D_ERROR => exists e, In e (om_errors result) /\ err_lifecycle_id e = id
  | D_EVIDENCE_GAP => In id (om_gap_lifecycle_ids result)
  | D_EVALUATED_VERIFIED => In id (om_verified_lifecycle_ids result) /\ ~ In id (om_gap_lifecycle_ids result)
  | D_EVALUATED_UNVERIFIED => In id (om_evaluated_lifecycle_ids result) /\ ~ In id (om_verified_lifecycle_ids result)
  | D_SKIPPED_PREVIOUS_PASS => In id skip
  | D_UNCOVERED => ~ In id skip /\ exists symbol, In symbol (om_uncovered_symbols result)
  end.

Section Account.
Context `{JsonErrors} `{ExnText}.

Lemma pass_rows_accounted skip obligations reports db db' id :
  monitored (List.filter (not_skipped skip) obligations) reports db db' -> In id (map r_lifecycle_id obligations) ->
  accounted (collect_reports obligations skip reports) skip (disposition_row (pass_of_result (collect_reports obligations skip reports)) id).
Proof.
  intros Hm Hid. unfold accounted. cbn [od_lifecycle_id od_disposition disposition_row]. unfold pass_disposition.
  cbn [mp_errors mp_gaps mp_verified mp_evaluated mp_skipped pass_of_result].
  destruct (evidence_for id _) as [e|] eqn:Ee; [exists e; by apply by_id_find in Ee|].
  destruct (str_in id (om_gap_lifecycle_ids _)) eqn:Eg; [by apply str_in_spec|]. apply str_in_false in Eg.
  destruct (str_in id (om_verified_lifecycle_ids _)) eqn:Ev; [apply str_in_spec in Ev; by split|]. apply str_in_false in Ev.
  destruct (str_in id (om_evaluated_lifecycle_ids _)) eqn:Eev; [apply str_in_spec in Eev; by split|]. apply str_in_false in Eev.
  destruct (str_in id (om_skipped_lifecycle_ids _)) eqn:Es; [apply str_in_spec, filter_In in Es as [_ Es]; by apply str_in_spec|].
  apply str_in_false in Es. cbn in Es. rewrite filter_In in Es.
  assert (~ In id skip) as Hskip by (intros Hin; apply Es; split; [done|]; by apply str_in_spec). split; [done|].
  destruct (monitored_ids _ _ _ _ Hm) as (Hids & _ & Hrep & Herr).
  assert (In id (map ow_lifecycle_id reports)) as Hin.
  { rewrite Hids. apply in_map_iff in Hid as (r & <- & Hr). apply in_map. apply filter_In. split; [done|].
    unfold not_skipped. apply negb_true_iff. by apply str_in_false. }
  apply in_map_iff in Hin as (report & Hrid & Hin). rewrite List.Forall_forall in Hrep, Herr.
  cbn [om_gap_lifecycle_ids om_evaluated_lifecycle_ids om_errors om_uncovered_symbols collect_reports] in *.
  destruct (Hrep report Hin) as [r e He _ _|r Hn _ Hg|r s Hn Hu _ _|r e Hn _ _ Hf].
  - destruct Eev. apply in_map_iff. exists r. split; [done|]. apply filter_In. by rewrite He.
  - destruct Eg. apply dict_fromkeys_in, in_map_iff. exists r. split; [done|]. by apply filter_In.
  - exists s. apply dict_fromkeys_in, in_flat_map. exists r. split; [done|]. rewrite Hu. by left.
  - exfalso. apply (no_error_for _ _ Ee e); [|by rewrite (Herr _ Hin _ Hf)].
    apply in_flat_map. exists r. split; [done|]. rewrite Hf. by left.
Qed.

Lemma collected_lifecycles skip obligations reports db db' : NoDup (map r_lifecycle_id obligations) ->
  monitored (List.filter (not_skipped skip) obligations) reports db db' ->
  dict_fromkeys (pass_lifecycles (pass_of_result (collect_reports obligations skip reports))) = map r_lifecycle_id obligations.
Proof.
  intros Hnd Hm. destruct (monitored_ids _ _ _ _ Hm) as (Hids & Hlags & _ & Herr). rewrite List.Forall_forall in Herr.
  assert (forall id, In id (map ow_lifecycle_id reports) -> In id (map r_lifecycle_id obligations)) as Hsub
    by (intros id; rewrite Hids; apply filter_ids_in).
  unfold pass_lifecycles. cbn [mp_obligations mp_lags mp_errors pass_of_result om_obligation_lifecycle_ids om_lags om_errors collect_reports].
  rewrite (dict_fromkeys_known (map r_lifecycle_id obligations)); [|done|].
  - rewrite <- (app_nil_r (map r_lifecycle_id obligations)) at 1. apply dict_fromkeys_known; [done|by intros x []].
  - intros id Hin. apply in_app_or in Hin as [Hin|Hin]; apply by_id_keys in Hin.
    + rewrite map_map, Hlags, <- Hids in Hin. by apply Hsub.
    + apply in_map_iff in Hin as (e & <- & He). apply in_flat_map in He as (r & Hr & He). apply Hsub.
      destruct (ow_error r) as [e'|] eqn:E; [|done]. destruct He as [<-|[]]. rewrite (Herr _ Hr _ E). by apply in_map.
Qed.

Lemma errors_collected errors : fold_left add_error errors [] = [] <-> errors = [].
Proof.
  split; [|by intros ->]. destruct errors as [|e errors]; [done|]. cbn [fold_left]. unfold add_error at 2. cbn.
  assert (forall l d, d <> [] -> fold_left add_error l d <> []) as Hne.
  { induction l as [|x l IH]; intros d Hd; [done|]. cbn [fold_left]. apply IH. unfold add_error. destruct (bool_decide _); [done|].
    by destruct d. }
  intros E. by apply Hne in E.
Qed.

Lemma verified_disposition p id : pass_disposition p id = D_EVALUATED_VERIFIED <->
  evidence_for id (by_id err_lifecycle_id (mp_errors p)) = None /\ In id (mp_verified p) /\ ~ In id (mp_gaps p).
Proof.
  unfold pass_disposition. destruct (evidence_for id _); [split; [done|by intros [? _]]|].
  destruct (str_in id (mp_gaps p)) eqn:Eg; [apply str_in_spec in Eg; split; [done|tauto]|apply str_in_false in Eg].
  destruct (str_in id (mp_verified p)) eqn:Ev; [apply str_in_spec in Ev; tauto|apply str_in_false in Ev].
  split; [by repeat case_match|tauto].
Qed.

(** when a single pass claims that all obligations are verified *)
Lemma all_verified_spec p : ms_all_obligations_verified (summarize_monitoring_passes [p]) = Some true <->
  dict_fromkeys (pass_lifecycles p) <> [] /\ mp_errors p = [] /\
  forall id, In id (dict_fromkeys (pass_lifecycles p)) -> In id (mp_verified p) /\ ~ In id (mp_gaps p).
Proof.
  pose proof (single_pass_rows p) as Hrows. set (ids := dict_fromkeys (pass_lifecycles p)) in *.
  set (verified := fun r => bool_decide (od_disposition r ∈ [D_EVALUATED_VERIFIED])).
  assert (ms_all_obligations_verified (summarize_monitoring_passes [p]) = match map (disposition_row p) ids with
    | [] => None
    | rows => Some ((length (List.filter verified rows) =? length rows)%nat
                    && match fold_left add_error (mp_errors p) [] with [] => true | _ => false end) end) as ->.
  { rewrite <- Hrows. unfold summarize_monitoring_passes. destruct (fold_left account_pass [p] ([], [])) as [owners lags].
    cbn [ms_all_obligations_verified ms_owner_dispositions flat_map]. rewrite app_nil_r.
    destruct (map snd owners); [done|]. by rewrite length_map. }
  assert (forall id, verified (disposition_row p id) = true <-> pass_disposition p id = D_EVALUATED_VERIFIED) as Hv
    by (intros id; unfold verified; by rewrite bool_decide_eq_true, list_elem_of_singleton).
  assert (length (List.filter verified (map (disposition_row p) ids)) = length (map (disposition_row p) ids) <->
    forall id, In id ids -> pass_disposition p id = D_EVALUATED_VERIFIED) as Hall.
  { rewrite filter_all. split; [intros Hf id Hin; apply Hv, Hf; by apply in_map|].
    intros Hf row Hin. apply in_map_iff in Hin as (id & <- & Hin). by apply Hv, Hf. }
  pose proof (errors_collected (mp_errors p)) as Herr. destruct ids as [|i0 ids]; [split; [done|by intros [? _]]|].
  cbn [map] in *. destruct (fold_left add_error _ []) as [|e0 errors]; rewrite ?andb_true_r, ?andb_false_r.
  2:{ split; [done|]. intros (_ & E & _). by apply Herr in E. }
  rewrite (proj1 Herr eq_refl). split.
  - intros [= Hl%Nat.eqb_eq]. split_and!; try done. intros id Hin. apply (proj1 Hall Hl), verified_disposition in Hin. tauto.
  - intros (_ & _ & Hf). f_equal. apply Nat.eqb_eq, Hall. intros id Hin. apply verified_disposition.
    rewrite (proj1 Herr eq_refl). split; [done|by apply Hf].
Qed.

(** C23: every obligation is accounted for, once. The summary of a pass lists exactly the obligations, each with one
    disposition that is what happened to it (an error, a recorded gap, an evaluation, a skip, or no evidence); the
    dispositions are counted to the number of obligations, each obligation that was not skipped has a lag row, and the
    pass claims that all obligations are verified only when there are some, nothing failed and each was evaluated with
    verified integrity and no gap. *)
Theorem every_obligation_accounted clock evidence at_ scan tf missing skip db result evaluations db' :
  NoDup (map r_lifecycle_id (db_records db)) ->
  monitor_tracking_obligations clock evidence at_ scan tf missing skip db = Ok ((result, evaluations), db') ->
  let s := result_summary result in
  let ids := om_obligation_lifecycle_ids result in
  map od_lifecycle_id (ms_owner_dispositions s) = ids /\
  fold_right Z.add 0%Z (map snd (ms_disposition_counts s)) = Z.of_nat (length ids) /\
  map tl_lifecycle_id (om_lags result) = List.filter (fun id => negb (str_in id skip)) ids /\
  (forall row, In row (ms_owner_dispositions s) -> accounted result skip row) /\
  (ms_all_obligations_verified s = Some true <-> ids <> [] /\ om_errors result = [] /\
     forall id, In id ids -> In id (om_verified_lifecycle_ids result) /\ ~ In id (om_gap_lifecycle_ids result)).
Proof.
  intros Hnd E. apply monitor_run in E as [(obligations & reports & Hsel & Hm & ->)]. cbn zeta.
  pose proof (selected_ids_nodup _ _ Hnd Hsel) as Hob. unfold result_summary.
  set (result := collect_reports obligations skip reports). set (p := pass_of_result result).
  pose proof (single_pass_rows p) as Hrows. unfold p, result in Hrows. rewrite (collected_lifecycles _ _ _ _ _ Hob Hm) in Hrows.
  fold result in Hrows. fold p in Hrows. change (om_obligation_lifecycle_ids result) with (map r_lifecycle_id obligations).
  split; [rewrite Hrows, map_map; apply map_id|]. split.
  { transitivity (Z.of_nat (length (ms_owner_dispositions (summarize_monitoring_passes [p]))));
      [|by rewrite Hrows, length_map].
    unfold summarize_monitoring_passes. destruct (fold_left account_pass [p] ([], [])) as [owners lags]. cbn [ms_disposition_counts ms_owner_dispositions].
    by rewrite counted_once. }
  split.
  { destruct (monitored_ids _ _ _ _ Hm) as (_ & Hlags & _). change (om_lags result) with (map ow_lag reports). rewrite map_map, Hlags.
    unfold not_skipped. clear. induction obligations as [|r l IH]; [done|]. cbn [List.filter map]. destruct (negb _); cbn [map]; by rewrite IH. }
  split.
  { intros row. rewrite Hrows. intros Hin. apply in_map_iff in Hin as (id & <- & Hin). by eapply pass_rows_accounted. }
  rewrite all_verified_spec. unfold p, result. by rewrite (collected_lifecycles _ _ _ _ _ Hob Hm).
Qed.
End Account.

(** ** Sample passes

    The owned lifecycle of the sample outcome passes, under a locked plan. *)

#[local] Instance monitoring_json : JsonErrors := fun _ => "Expecting value".
#[local] Instance monitoring_text : ExnText := {| exn_name _ := "ValueError"; exn_text _ := "failed" |}.

Definition tracked_record : SetupLifecycleRecord := owned_record <| r_plan_version_id := Some "V1" |>.
Definition tracked_db : database := sample_db <| db_records := [tracked_record] |>.

Definition tracked_evidence : list (string * SymbolMonitoringEvidence) :=
  [("BTCUSDT|15m", mkEvidence first_bars "15m" "2026-01-01T00:45:00+00:00" None)].

Notation sample_monitoring db := (monitor_tracking_obligations "2026-01-01T02:00:00+00:00" tracked_evidence
  "2026-01-01T02:00:00+00:00" (Some "R1") "15m" false [] db) (only parsing).

(** the candles are fetched, and [others] commit while they are *)
Notation sample_market_data others := (monitor_obligations_with_market_data "2026-01-01T02:00:00+00:00" others []
  (Some (fun _ _ _ => Fetched first_bars)) "15m" 500 "2026-01-01T00:45:00+00:00" (Some "R1") [] [] true false tracked_db) (only parsing).

(** another process locks a new plan *)
Definition replan (db : database) : database := db <| db_records := map (fun r => r <| r_plan_version_id := Some "V2" |>) (db_records db) |>.

Example undisturbed_plan_evaluated :
  match sample_market_data (fun db => db) with
  | Ok (r, _) => (om_evaluated_lifecycle_ids r, om_verified_lifecycle_ids r, om_skipped_lifecycle_ids r) = (["L1"], ["L1"], [])
  | Raise _ => False
  end.
Proof. vm_compute. reflexivity. Qed.

Example replanned_lifecycle_skipped :
  match sample_market_data replan with
  | Ok (r, db) => (om_evaluated_lifecycle_ids r, om_gap_lifecycle_ids r, om_skipped_lifecycle_ids r, db) = ([], [], ["L1"], replan tracked_db)
  | Raise _ => False
  end.
Proof. vm_compute. reflexivity. Qed.

Lemma no_owned_plan_forgotten_witness :
  exists l, select_tracking_obligations tracked_db = Ok l /\ In tracked_record l.
Proof.
  assert (readable tracked_db) as Hr.
  { split; [|intros p []]. intros r [<-|[]]. split; [vm_compute; reflexivity|discriminate]. }
  destruct (load_active_runtime_epoch tracked_db) as [epoch|] eqn:He; [|vm_compute in He; discriminate He].
  destruct (no_owned_plan_forgotten tracked_db epoch Hr He) as (l & Hl & Hin). exists l. split; [exact Hl|].
  apply Hin. split; [left; reflexivity|]. vm_compute in He. injection He as <-.
  split; [reflexivity|]. split; [apply state_in_In; vm_compute; reflexivity|].
  split; [left; discriminate|]. intros (p & [[] _] & _).
Defined.

Lemma stale_plans_not_monitored_witness :
  exists res db' stage1, sample_market_data (fun db => db) = Ok (res, db') /\
    select_tracking_obligations tracked_db = Ok stage1 /\ om_evaluated_lifecycle_ids res = ["L1"] /\
    exists r, In r stage1 /\ r_lifecycle_id r = "L1".
Proof.
  run_pass constr:(sample_market_data (fun db => db)) res db' E.
  assert (match sample_market_data (fun db => db) with Ok (r, _) => om_evaluated_lifecycle_ids r | Raise _ => [] end = ["L1"]) as Hid
    by (vm_compute; reflexivity).
  rewrite E in Hid. exists res, db'.
  destruct (stale_plans_not_monitored _ _ _ _ _ _ _ _ _ _ _ _ _ _ _ E) as (stage1 & stage3 & Hs1 & _ & _ & Hall).
  exists stage1. split; [reflexivity || exact E|]. split; [exact Hs1|]. split; [exact Hid|].
  destruct (Hall "L1") as (_ & r1 & r3 & Hin & _ & Hr & _); [rewrite Hid; left; reflexivity|]. exists r1. split; assumption.
Defined.

Lemma every_obligation_accounted_witness :
  exists result evaluations db', sample_monitoring tracked_db = Ok ((result, evaluations), db') /\
    map od_lifecycle_id (ms_owner_dispositions (result_summary result)) = om_obligation_lifecycle_ids result.
Proof.
  run_pass constr:(sample_monitoring tracked_db) re db' E. destruct re as [result evaluations].
  assert (NoDup (map r_lifecycle_id (db_records tracked_db))) as Hnd by (apply NoDup_singleton).
  exists result, evaluations, db'. split; [reflexivity || exact E|].
  destruct (every_obligation_accounted _ _ _ _ _ _ _ _ _ _ _ Hnd E) as [H _]. exact H.
Defined.
