(* ===== verification/EpochOriginProps.v ===== *)
(** * The operational boundary holds (facts about [EpochOrigin])

    In every database the boundary operations can produce there is at most one
    epoch, and every granted origin is of a registered run and of an evaluation
    after the cutoff; a granted origin is granted once. *)

From stdpp Require Import base tactics list relations strings.
From Stdlib Require Import ZArith NArith Lia Bool Ascii.
From S2P Require Import Prelude PyString PyDecimal PyCalendar PyTime PyJson LifecycleModels RuntimeEpoch LifecycleRepository EpochOrigin ObservationConsumption.
Open Scope string_scope.
Open Scope py_scope.

(** ** Times *)

Definition reads (value : option string) (t : datetime) : Prop := parse_utc value = Ok (Some t).

Lemma strictly_after_spec value cutoff : strictly_after value cutoff = Ok true ->
  exists t c, reads value t /\ reads cutoff c /\ (instant c < instant t)%Z.
Proof.
  unfold strictly_after, reads. intros H. apply bind_ok in H as (t & Ht & H). apply bind_ok in H as (c & Hc & H).
  apply ok_inj in H. destruct t as [t|], c as [c|]; try done. exists t, c. split_and!; try done. lia.
Qed.

Lemma not_after_spec value cutoff t c : strictly_after value cutoff = Ok false -> reads value t -> reads cutoff c ->
  (instant t <= instant c)%Z.
Proof. unfold strictly_after, reads. intros H Ht Hc. rewrite Ht, Hc in H. apply ok_inj in H. lia. Qed.

(** ** The boundary *)

(** a run was registered after the cutoff of its epoch *)
Definition run_after_cutoff (db : database) (run : run_row) : Prop :=
  exists epoch registered cutoff, In epoch (db_epochs db) /\ re_epoch_id epoch = run_runtime_epoch_id run /\
    reads (Some (run_registered_at run)) registered /\ reads (Some (re_cutoff_at epoch)) cutoff /\
    (instant cutoff < instant registered)%Z.

(** an origin is of an evaluation after the cutoff, made in a registered run and not before it *)
Definition after_boundary (db : database) (o : origin_row) : Prop :=
  exists epoch run registered cutoff evaluation decision producer,
    In epoch (db_epochs db) /\ re_epoch_id epoch = og_runtime_epoch_id o /\
    In run (db_runs db) /\ run_run_id run = og_run_id o /\ run_runtime_epoch_id run = og_runtime_epoch_id o /\
    reads (Some (re_cutoff_at epoch)) cutoff /\ reads (Some (run_registered_at run)) registered /\
    reads (og_evaluation_completed_at o) evaluation /\ reads (og_decision_cutoff_at o) decision /\
    reads (og_producer_observed_at o) producer /\
    (instant cutoff < instant evaluation)%Z /\ (instant cutoff < instant decision)%Z /\
    (instant cutoff < instant producer)%Z /\ (instant registered <= instant evaluation)%Z /\
    (instant decision <= instant evaluation)%Z.

(** no epoch, or one, which is active *)
Definition one_epoch (db : database) : Prop :=
  (db_control db = Some [] /\ db_epochs db = []) \/
  exists e, db_control db = Some [(ACTIVE_EPOCH_CONTROL_KEY, re_epoch_id e)] /\ db_epochs db = [e].

Definition run_symbol (o : origin_row) : string * string := (og_run_id o, og_symbol o).

Record boundary (db : database) : Prop := {
  b_epoch : one_epoch db;
  b_runs : NoDup (map run_run_id (db_runs db));
  b_registered : Forall (run_after_cutoff db) (db_runs db);
  b_origin_ids : NoDup (map og_origin_id (db_origins db));
  b_origins : NoDup (map run_symbol (db_origins db));
  b_granted : Forall (fun o => og_status o = ORIGIN_STATUS_GRANTED -> after_boundary db o) (db_origins db)
}.

(** the operations that write the boundary tables; the other writes are of other tables *)
Inductive boundary_step : database -> database -> Prop :=
| step_initialize identity activated_at clock db epoch db' :
    initialize_runtime_epoch identity activated_at clock (fun d => d) db = Ok (epoch, db') -> boundary_step db db'
| step_register run_id registered_at producer db registration db' :
    register_operational_run run_id registered_at producer None db = Ok (registration, db') -> boundary_step db db'
| step_evaluate id run_id symbol kind evaluation decision producer db d db' :
    evaluate_symbol_origin id run_id symbol kind evaluation decision producer None db = Ok (d, db') -> boundary_step db db'
| step_block id decision db db' :
    persist_blocked_symbol_origin id decision None db = Ok db' -> boundary_step db db'
| step_receipt origin_id text db : boundary_step db (store_consumption origin_id text db)
| step_other db db' :
    db_control db' = db_control db -> db_epochs db' = db_epochs db -> db_runs db' = db_runs db ->
    db_origins db' = db_origins db -> boundary_step db db'.

(** *** Runs *)

Lemma active_epoch_in db epoch : require_active_runtime_epoch db = Ok epoch -> In epoch (db_epochs db).
Proof.
  unfold require_active_runtime_epoch, load_active_runtime_epoch. destruct (db_control db) as [control|]; [|done].
  destruct (find _ control) as [kv|]; [|done]. destruct (find _ (db_epochs db)) as [e|] eqn:He; [|done].
  intros H. apply ok_inj in H as <-. by apply find_some in He as [He _].
Qed.

Lemma run_row_of_spec db id run : run_row_of db id = Some run -> In run (db_runs db) /\ run_run_id run = id.
Proof. intros [Hin Hid]%find_some. split; [done|]. by apply String.eqb_eq in Hid. Qed.

Lemma run_row_of_none db id : run_row_of db id = None -> ~ In id (map run_run_id (db_runs db)).
Proof.
  intros Hn Hin. apply in_map_iff in Hin as (run & <- & Hin). unfold run_row_of in Hn.
  apply (find_none _ _ Hn) in Hin. by rewrite String.eqb_refl in Hin.
Qed.

(** what a registration does *)
Lemma register_run run_id registered_at producer db registration db' :
  register_operational_run run_id registered_at producer None db = Ok (registration, db') ->
  db' = db \/ exists row, db' = db <| db_runs := (db_runs db ++ [row])%list |> /\ run_after_cutoff db row /\
    ~ In (run_run_id row) (map run_run_id (db_runs db)).
Proof.
  unfold register_operational_run. intros H. apply bind_ok in H as (epoch & He & H). apply bind_ok in H as (id & _ & H).
  apply bind_ok in H as (registered & _ & H). apply bind_ok in H as (after & Ha & H). destruct after; [|done]. cbn [negb] in H.
  apply bind_ok in H as (started & _ & H). apply bind_ok in H as (late & _ & H). destruct late; [done|].
  destruct (run_row_of db id) as [existing|] eqn:Hr.
  - destruct (negb _); [done|]. apply ok_inj in H. left. congruence.
  - apply ok_inj in H. right. injection H as _ <-. eexists. split; [reflexivity|]. split; [|by apply run_row_of_none].
    apply strictly_after_spec in Ha as (t & c & Ht & Hc & Hlt). exists epoch, t, c. split_and!; try done. by apply active_epoch_in.
Qed.

(** *** Origins *)

Lemma origin_of_none db run symbol : origin_of db run symbol = None -> ~ In (run, symbol) (map run_symbol (db_origins db)).
Proof.
  intros Hn Hin. apply in_map_iff in Hin as (o & Ho & Hin). unfold origin_of in Hn. apply (find_none _ _ Hn) in Hin.
  injection Ho as <- <-. by rewrite !String.eqb_refl in Hin.
Qed.

Lemma insert_origin_run o db db' : insert_origin o db = Ok db' ->
  db' = db <| db_origins := (db_origins db ++ [o])%list |> /\ ~ In (og_origin_id o) (map og_origin_id (db_origins db)).
Proof.
  unfold insert_origin. destruct (existsb _ _) eqn:E; [done|]. intros H. apply ok_inj in H as <-. split; [done|].
  intros Hin. apply in_map_iff in Hin as (x & Hx & Hin). apply not_true_iff_false in E. apply E. apply existsb_exists.
  exists x. split; [done|]. by apply String.eqb_eq.
Qed.

(** the times of an admitted evaluation *)
Lemma evaluation_times_run epoch registered_at evaluation decision producer e c p :
  evaluation_times epoch registered_at evaluation decision producer = Ok (inr (e, c, p)) ->
  exists te tc tp cutoff, reads (Some e) te /\ reads (Some c) tc /\ reads (Some p) tp /\ reads (Some (re_cutoff_at epoch)) cutoff /\
    (instant cutoff < instant te)%Z /\ (instant cutoff < instant tc)%Z /\ (instant cutoff < instant tp)%Z /\
    (instant tc <= instant te)%Z /\
    (forall registered, reads (Some registered_at) registered -> (instant registered <= instant te)%Z).
Proof.
  unfold evaluation_times. intros H. apply bind_ok in H as (e' & _ & H). apply bind_ok in H as (c' & _ & H).
  apply bind_ok in H as (p' & _ & H). destruct e' as [e'|], c' as [c'|], p' as [p'|]; try done.
  apply bind_ok in H as (a1 & H1 & H). destruct a1; [|done]. apply bind_ok in H as (a2 & H2 & H). destruct a2; [|done].
  apply bind_ok in H as (a3 & H3 & H). destruct a3; [|done]. apply bind_ok in H as (a4 & H4 & H). destruct a4; [done|].
  apply bind_ok in H as (a5 & H5 & H). destruct a5; [done|]. apply ok_inj in H. injection H as -> -> ->.
  apply strictly_after_spec in H1 as (te & cutoff & He & Hcut & ?), H2 as (tc & cut2 & Hc & Hcut2 & ?), H3 as (tp & cut3 & Hp & Hcut3 & ?).
  assert (cut2 = cutoff) as -> by (unfold reads in *; congruence). assert (cut3 = cutoff) as -> by (unfold reads in *; congruence).
  exists te, tc, tp, cutoff. do 7 (split; [done|]). split; [exact (not_after_spec _ _ _ _ H5 Hc He)|].
  intros registered Hr. exact (not_after_spec _ _ _ _ H4 Hr He).
Qed.

(** what an evaluation does: it decides from a stored origin, or stores the one it grants *)
Definition evaluated (db : database) (d : SymbolOriginDecision) (db' : database) : Prop :=
  (db' = db /\ (sd_granted d = true -> exists o, In o (db_origins db) /\ og_status o = ORIGIN_STATUS_GRANTED /\
     run_symbol o = (sd_run_id d, sd_symbol d) /\ sd_origin_id d = Some (og_origin_id o))) \/
  exists o, insert_origin o db = Ok db' /\ og_status o = ORIGIN_STATUS_GRANTED /\ sd_granted d = true /\
    run_symbol o = (sd_run_id d, sd_symbol d) /\ sd_origin_id d = Some (og_origin_id o) /\
    og_lifecycle_consumption_json o = Some EMPTY_CONSUMPTION /\
    origin_of db (og_run_id o) (og_symbol o) = None /\
    (Forall (run_after_cutoff db) (db_runs db) -> after_boundary db o).

Lemma origin_evaluation_run id run_id symbol kind evaluation decision producer db d db' :
  evaluate_symbol_origin id run_id symbol kind evaluation decision producer None db = Ok (d, db') -> evaluated db d db'.
Proof.
  unfold evaluate_symbol_origin. intros H. apply bind_ok in H as (epoch & He & H). apply bind_ok in H as (run & _ & H).
  assert (forall u v r, Ok (blocked u v r, db) = Ok (d, db') -> evaluated db d db') as Hblock.
  { intros u v r E. apply ok_inj in E. injection E as <- <-. left. by split. }
  destruct (String.eqb _ ""); [exact (Hblock _ _ _ H)|]. destruct (run_row_of db run) as [row|] eqn:Hrun; [|exact (Hblock _ _ _ H)].
  destruct (String.eqb_spec (run_runtime_epoch_id row) (re_epoch_id epoch)) as [Hepoch|]; [|exact (Hblock _ _ _ H)]. cbn [negb] in H.
  destruct (negb _); [exact (Hblock _ _ _ H)|]. apply bind_ok in H as (times & Ht & H).
  destruct times as [reason|[[e c] p]]; [exact (Hblock _ _ _ H)|].
  destruct (origin_of db run _) as [existing|] eqn:Ho.
  - destruct (String.eqb_spec (og_status existing) ORIGIN_STATUS_GRANTED) as [Hs|]; [|exact (Hblock _ _ _ H)].
    apply ok_inj in H. injection H as <- <-. left. split; [done|]. intros _. exists existing.
    apply find_some in Ho as [Hin Heq]. apply andb_true_iff in Heq as [H1%String.eqb_eq H2%String.eqb_eq].
    split_and!; try done. unfold run_symbol. by rewrite H1, H2.
  - apply bind_ok in H as (db2 & Hi & H). apply ok_inj in H. injection H as <- <-. right. eexists. split; [exact Hi|].
    do 5 (split; [done|]). split; [exact Ho|]. intros Hregs.
    apply evaluation_times_run in Ht as (te & tc & tp & cutoff & H1 & H2 & H3 & H4 & L1 & L2 & L3 & L4 & Hr).
    apply run_row_of_spec in Hrun as [Hin Hid]. rewrite List.Forall_forall in Hregs.
    destruct (Hregs _ Hin) as (_ & registered & _ & _ & _ & Hreg & _).
    exists epoch, row, registered, cutoff, te, tc, tp. apply active_epoch_in in He. do 13 (split; [done|]). split; [|done]. by apply Hr.
Qed.

(** *** The invariant *)

(** the tables the invariant reads from the database *)
Lemma after_boundary_mono db db' o : (forall e, In e (db_epochs db) -> In e (db_epochs db')) ->
  (forall r, In r (db_runs db) -> In r (db_runs db')) -> after_boundary db o -> after_boundary db' o.
Proof. intros He Hr (epoch & run & ? & ? & ? & ? & ? & H1 & H2 & H3 & H). exists epoch, run. eauto 12. Qed.

Lemma run_after_cutoff_mono db db' r : (forall e, In e (db_epochs db) -> In e (db_epochs db')) ->
  run_after_cutoff db r -> run_after_cutoff db' r.
Proof. intros He (epoch & ? & ? & H1 & H). exists epoch. eauto. Qed.

Lemma NoDup_snoc {A} (l : list A) x : NoDup l -> ~ In x l -> NoDup (l ++ [x]).
Proof.
  intros Hl Hx. apply NoDup_app. split; [done|]. split; [|apply NoDup_singleton].
  intros y Hy Hy'%list_elem_of_singleton. subst. by apply Hx, list_elem_of_In.
Qed.

Lemma find_snoc {A} (f : A -> bool) l x : find f l = None -> find f (l ++ [x]) = if f x then Some x else None.
Proof. induction l as [|y l IH]; [done|]. cbn. by destruct (f y). Qed.

Lemma boundary_add_origin db db' o : boundary db -> insert_origin o db = Ok db' ->
  ~ In (run_symbol o) (map run_symbol (db_origins db)) -> (og_status o = ORIGIN_STATUS_GRANTED -> after_boundary db o) ->
  boundary db'.
Proof.
  intros [He Hr Hreg Hi Ho Hg] Hins Hnew Hafter. apply insert_origin_run in Hins as [-> Hid].
  split; cbn [db_control db_epochs db_runs db_origins set_field]; try done.
  - rewrite map_app. by apply NoDup_snoc.
  - rewrite map_app. by apply NoDup_snoc.
  - apply Forall_app. split; [exact Hg|]. by constructor.
Qed.

Lemma insert_epoch_run identity timestamp db db' : one_epoch db -> insert_epoch identity timestamp db = Ok db' ->
  one_epoch db' /\ db_runs db' = db_runs db /\ db_origins db' = db_origins db /\ db_epochs db = [].
Proof.
  intros [[Hc He]|(e & Hc & He)] H; unfold insert_epoch in H; rewrite Hc, He in H; cbn in H.
  - apply ok_inj in H as <-. split; [|done]. right. eexists (Build_RuntimeEpochRecord _ _ _ _ _ _ _). split; reflexivity.
  - by destruct (String.eqb (re_epoch_id e) (ri_epoch_id identity)).
Qed.

Lemma initialize_run identity activated_at clock db epoch db' : one_epoch db ->
  initialize_runtime_epoch identity activated_at clock (fun d => d) db = Ok (epoch, db') ->
  db' = db \/ (one_epoch db' /\ db_runs db' = db_runs db /\ db_origins db' = db_origins db /\ db_epochs db = []).
Proof.
  intros Hone. unfold initialize_runtime_epoch. intros H. apply bind_ok in H as (normalized & _ & H).
  destruct (load_active_runtime_epoch db) as [existing|] eqn:Hl.
  - apply bind_ok in H as (e & _ & H). apply ok_inj in H. left. congruence.
  - apply bind_ok in H as (timestamp & _ & H). destruct (db_control db); [|done]. rewrite ?Hl in H.
    apply bind_ok in H as (db2 & Hi & H). destruct (load_active_runtime_epoch db2); [|done]. apply ok_inj in H. injection H as _ <-.
    right. by eapply insert_epoch_run.
Qed.

Lemma store_consumption_fields {A} (f : origin_row -> A) origin_id text db :
  (forall o, f (o <| og_lifecycle_consumption_json := Some text |>) = f o) ->
  map f (db_origins (store_consumption origin_id text db)) = map f (db_origins db).
Proof.
  intros Hf. cbn [store_consumption db_origins set_field]. unfold update_row. rewrite map_map. apply map_ext. intros o.
  destruct (String.eqb _ _); [apply Hf|done].
Qed.

Lemma boundary_preserved db db' : boundary_step db db' -> boundary db -> boundary db'.
Proof.
  intros Hstep Hb. pose proof Hb as [He Hr Hreg Hi Ho Hg].
  destruct Hstep as [identity at_ clock db epoch db' H|run_id reg prod db r db' H|id run_id symbol kind e c p db d db' H
    |id decision db db' H|origin_id text db|db db' H1 H2 H3 H4].
  - apply (initialize_run _ _ _ _ _ _ He) in H as [->|(Hone & Hruns & Horigins & Hnone)]; [done|].
    assert (db_runs db = []) as Hempty.
    { destruct (db_runs db) as [|x l]; [done|]. apply Forall_cons in Hreg as [(e & ? & ? & Hin & _) _]. by rewrite Hnone in Hin. }
    split; rewrite ?Hruns, ?Horigins, ?Hempty; try done; [constructor..|].
    eapply Forall_impl; [exact Hg|]. intros o Hoo Hs. destruct (Hoo Hs) as (e & ? & ? & ? & ? & ? & ? & Hin & _). by rewrite Hnone in Hin.
  - apply register_run in H as [->|(row & -> & Hrow & Hnew)]; [done|].
    split; cbn [db_control db_epochs db_runs db_origins set_field]; try done.
    + rewrite map_app. by apply NoDup_snoc.
    + apply Forall_app. split; [|by constructor]. exact Hreg.
    + eapply Forall_impl; [exact Hg|]. intros o Hoo Hs. apply (after_boundary_mono db); [done| |exact (Hoo Hs)].
      intros x Hx. apply in_or_app. by left.
  - apply origin_evaluation_run in H as [[-> _]|(o & Hins & Hs & _ & _ & _ & _ & Hno & Hafter)]; [done|].
    eapply boundary_add_origin; [done|done|by apply origin_of_none|auto].
  - unfold persist_blocked_symbol_origin in H. destruct (_ || _); [by apply ok_inj in H as <-|].
    apply bind_ok in H as (epoch & _ & H). destruct (origin_of db _ _) eqn:Hno; [by apply ok_inj in H as <-|].
    eapply boundary_add_origin; [done|done|by apply origin_of_none|done].
  - split; try done.
    + rewrite store_consumption_fields; done.
    + rewrite store_consumption_fields; done.
    + cbn [store_consumption db_origins set_field]. unfold update_row. apply Forall_map. eapply Forall_impl; [exact Hg|].
      intros o Hoo. destruct (String.eqb _ _); exact Hoo.
  - split; rewrite ?H1, ?H3, ?H4; try done.
    + unfold one_epoch. by rewrite H1, H2.
    + eapply Forall_impl; [exact Hreg|]. intros r. apply run_after_cutoff_mono. by rewrite H2.
    + eapply Forall_impl; [exact Hg|]. intros o Hoo Hs. apply (after_boundary_mono db); [..|exact (Hoo Hs)]; by rewrite ?H2, ?H3.
Qed.

(** *** Evaluating again *)

(** an origin without its receipts *)
Definition erase_receipts (o : origin_row) : origin_row := o <| og_lifecycle_consumption_json := None |>.

(** the tables an evaluation reads, up to receipts *)
Definition same_origins (db db' : database) : Prop :=
  db_control db' = db_control db /\ db_epochs db' = db_epochs db /\ db_runs db' = db_runs db /\
  map erase_receipts (db_origins db') = map erase_receipts (db_origins db).

Lemma find_erased f l : (forall o, f (erase_receipts o) = f o) -> forall l', map erase_receipts l' = map erase_receipts l ->
  option_map erase_receipts (find f l') = option_map erase_receipts (find f l).
Proof.
  intros Hf. induction l as [|o l IH]; intros [|o' l']; try done. cbn [map]. intros H.
  assert (erase_receipts o' = erase_receipts o) as Ho by congruence. assert (map erase_receipts l' = map erase_receipts l) as Hl by congruence.
  cbn [find]. rewrite <- (Hf o'), Ho, (Hf o). destruct (f o); [cbn; by rewrite Ho|by apply IH].
Qed.

(** a stored granted origin answers an admitted evaluation *)
Lemma evaluate_stored id run_id symbol kind evaluation decision producer db epoch run row times o :
  require_active_runtime_epoch db = Ok epoch -> required_origin_text run_id "run_id" = Ok run ->
  String.eqb (py_upper (column_text symbol)) "" = false -> run_row_of db run = Some row ->
  String.eqb (run_runtime_epoch_id row) (re_epoch_id epoch) = true -> str_in (normalized_kind kind) LIVE_ORIGIN_KINDS = true ->
  evaluation_times epoch (run_registered_at row) evaluation decision producer = Ok (inr times) ->
  origin_of db run (py_upper (column_text symbol)) = Some o -> og_status o = ORIGIN_STATUS_GRANTED ->
  evaluate_symbol_origin id run_id symbol kind evaluation decision producer None db
  = Ok (granted_decision o run (py_upper (column_text symbol)), db).
Proof.
  intros He Hr Hs Hrow Hepoch Hk Ht Ho Hg. unfold evaluate_symbol_origin. cbn [epoch_or_active]. rewrite He. cbn [bind_result].
  rewrite Hr. cbn [bind_result]. cbn zeta. rewrite Hs, Hrow, Hepoch, Hk. cbn [negb]. rewrite Ht. cbn [bind_result].
  destruct times as [[e c] p]. by rewrite Ho, Hg, String.eqb_refl.
Qed.

Lemma evaluate_again id id' run_id symbol kind evaluation decision producer db d db' db2 :
  evaluate_symbol_origin id run_id symbol kind evaluation decision producer None db = Ok (d, db') -> sd_granted d = true ->
  same_origins db' db2 ->
  evaluate_symbol_origin id' run_id symbol kind evaluation decision producer None db2 = Ok (d, db2).
Proof.
  intros H Hg (Hc & He2 & Hr2 & Ho2). unfold evaluate_symbol_origin in H. cbn [epoch_or_active] in H.
  apply bind_ok in H as (epoch & He & H). apply bind_ok in H as (run & Hrun & H). cbn zeta in H.
  assert (forall u v r, Ok (blocked u v r, db) = Ok (d, db') -> False) as Hblock.
  { intros u v r E. apply ok_inj in E. by injection E as <- <-. }
  destruct (String.eqb _ "") eqn:Hsym; [destruct (Hblock _ _ _ H)|].
  destruct (run_row_of db run) as [row|] eqn:Hrow; [|destruct (Hblock _ _ _ H)].
  destruct (String.eqb (run_runtime_epoch_id row) _) eqn:Hepoch; [|destruct (Hblock _ _ _ H)]. cbn [negb] in H.
  destruct (str_in _ _) eqn:Hkind; [|destruct (Hblock _ _ _ H)]. apply bind_ok in H as (times & Ht & H).
  destruct times as [reason|[[e c] p]]; [destruct (Hblock _ _ _ H)|].
  assert (exists o, origin_of db' run (py_upper (column_text symbol)) = Some o /\ og_status o = ORIGIN_STATUS_GRANTED /\
    d = granted_decision o run (py_upper (column_text symbol)) /\ require_active_runtime_epoch db' = Ok epoch /\ run_row_of db' run = Some row)
    as (o & Ho & Hs & -> & He' & Hrow').
  { destruct (origin_of db run _) as [existing|] eqn:Ho.
    - destruct (String.eqb_spec (og_status existing) ORIGIN_STATUS_GRANTED) as [Hs|]; [|destruct (Hblock _ _ _ H)].
      apply ok_inj in H. injection H as <- <-. by exists existing.
    - apply bind_ok in H as (db3 & Hi & H). apply ok_inj in H. injection H as <- <-.
      match type of Hi with insert_origin ?r _ = _ => exists r end. apply insert_origin_run in Hi as [-> _].
      split; [|by split_and!]. unfold origin_of in Ho |- *. cbn [db_origins set_field]. rewrite (find_snoc _ _ _ Ho).
      cbn. by rewrite !String.eqb_refl. }
  unfold require_active_runtime_epoch, load_active_runtime_epoch, run_row_of, origin_of in *.
  pose proof (find_erased (fun o => String.eqb (og_run_id o) run && String.eqb (og_symbol o) (py_upper (column_text symbol)))
    (db_origins db') ltac:(done) _ Ho2) as Hf. rewrite Ho in Hf.
  destruct (find _ (db_origins db2)) as [o2|] eqn:Hfind; [|done]. cbn [option_map] in Hf.
  assert (erase_receipts o2 = erase_receipts o) as Hsame by congruence.
  assert (granted_decision o run (py_upper (column_text symbol)) = granted_decision o2 run (py_upper (column_text symbol)) /\
    og_status o2 = ORIGIN_STATUS_GRANTED) as [-> Hs2].
  { clear - Hsame Hs. destruct o, o2. injection Hsame. cbn in Hs. intros. by subst. }
  eapply evaluate_stored; try done; unfold require_active_runtime_epoch, load_active_runtime_epoch, run_row_of; rewrite ?Hc, ?He2, ?Hr2; done.
Qed.

(** ** Claims *)

(** a migrated database without an epoch *)
Definition no_boundary (db : database) : Prop :=
  db_control db = Some [] /\ db_epochs db = [] /\ db_runs db = [] /\ db_origins db = [].

(** C8: in every database the boundary operations produce there is at most one epoch and it is the active one, every run
    was registered strictly after its cutoff, every origin id and every (run, symbol) pair occurs once, and every granted
    origin is bound to a stored epoch and to a run of it, with evaluation, decision and market data strictly after the
    cutoff, the evaluation not before the run's registration and the decision not after the evaluation. *)
Theorem reachable_boundary db0 db : no_boundary db0 -> rtc boundary_step db0 db -> boundary db.
Proof.
  intros (Hc & He & Hr & Ho) Hsteps.
  assert (boundary db0) as Hb.
  { split; [by left|..]; rewrite ?Hr, ?Ho; constructor. }
  clear - Hsteps Hb. induction Hsteps as [|x y z Hxy _ IH]; [done|]. apply IH. by eapply boundary_preserved.
Qed.

(** an origin is granted once. A granted decision names an origin that is stored as granted for its run and symbol,
    nothing but that origin is added, and evaluating the symbol again, whatever fresh id is drawn, gives the same decision
    and writes nothing. *)
Theorem origin_granted_once id run_id symbol kind evaluation decision producer db d db' :
  evaluate_symbol_origin id run_id symbol kind evaluation decision producer None db = Ok (d, db') -> sd_granted d = true ->
  (exists o, In o (db_origins db') /\ og_status o = ORIGIN_STATUS_GRANTED /\ sd_origin_id d = Some (og_origin_id o) /\
     run_symbol o = (sd_run_id d, sd_symbol d) /\
     (db' = db \/ db' = db <| db_origins := (db_origins db ++ [o])%list |>)) /\
  forall id', evaluate_symbol_origin id' run_id symbol kind evaluation decision producer None db' = Ok (d, db').
Proof.
  intros H Hg. split.
  { apply origin_evaluation_run in H as [[-> Ho]|(o & Hi & Hs & _ & Hrs & Hid & _)].
    - destruct (Ho Hg) as (o & Hin & Hs & Hrs & Hid). exists o. split_and!; try done. by left.
    - apply insert_origin_run in Hi as [-> _]. exists o. split_and!; try done; [|by right]. apply in_or_app. right. by left. }
  intros id'. eapply evaluate_again; [exact H|done|]. by repeat split.
Qed.

(** *** Witnesses *)

Definition empty_database : database :=
  {| db_control := Some []; db_epochs := []; db_origins := []; db_runs := []; db_records := []; db_events := [];
     db_progress := []; db_analytics := [] |}.

Definition sample_identity : RuntimeEpochIdentity :=
  {| ri_epoch_id := "E1"; ri_cutoff_at := "2026-01-01T00:00:00+00:00"; ri_contract_version := RUNTIME_EPOCH_CONTRACT_VERSION;
     ri_reviewed_release_sha := "abc"; ri_generation_binding := "gen" |}.

(** the database of a run, the second part of a result *)
Definition database_of {A} (r : result (A * database)) : database :=
  match r with Ok (_, db) => db | Raise _ => empty_database end.

Definition sample_initialize := initialize_runtime_epoch sample_identity (Some "2026-01-01T00:00:00Z") (mkDatetime 0 (Some 0%Z)) (fun d => d).
Definition sample_register :=
  register_operational_run (Some "R1") (Some "2026-01-01T00:05:00Z") (Some "2026-01-01T00:04:00Z") None.
Definition sample_evaluate (id : string) :=
  evaluate_symbol_origin id (Some "R1") (Some "btcusdt ") (Some "live_scan") (Some "2026-01-01T00:06:00+00:00")
    (Some "2026-01-01T00:06:00Z") (Some "2026-01-01T00:05:30.5Z") None.

Definition registered_database : database := database_of (sample_register (database_of (sample_initialize empty_database))).
Definition granted_database : database := database_of (sample_evaluate "O1" registered_database).

Lemma sample_granted : match sample_evaluate "O1" registered_database with Ok (d, db') => sd_granted d = true /\ db' = granted_database | Raise _ => False end.
Proof. vm_compute. auto. Qed.

Lemma reachable_boundary_witness : boundary granted_database /\ length (db_origins granted_database) = 1%nat.
Proof.
  split; [|vm_compute; reflexivity]. apply (reachable_boundary empty_database); [by repeat split|].
  eapply rtc_l; [eapply (step_initialize sample_identity (Some "2026-01-01T00:00:00Z") (mkDatetime 0 (Some 0%Z))); vm_compute; reflexivity|].
  eapply rtc_l; [eapply (step_register (Some "R1") (Some "2026-01-01T00:05:00Z") (Some "2026-01-01T00:04:00Z")); vm_compute; reflexivity|].
  apply rtc_once. eapply (step_evaluate "O1" (Some "R1") (Some "btcusdt ") (Some "live_scan") (Some "2026-01-01T00:06:00+00:00")
    (Some "2026-01-01T00:06:00Z") (Some "2026-01-01T00:05:30.5Z")). vm_compute. reflexivity.
Defined.

Lemma origin_granted_once_witness : exists d, sd_origin_id d = Some "O1" /\ sample_evaluate "O2" granted_database = Ok (d, granted_database).
Proof.
  pose proof sample_granted as H. unfold sample_evaluate in *.
  destruct (evaluate_symbol_origin "O1" _ _ _ _ _ _ _ registered_database) as [[d db']|e] eqn:E; [|destruct H].
  destruct H as [Hg Hdb]. subst db'. exists d. split; [|exact (proj2 (origin_granted_once _ _ _ _ _ _ _ _ _ _ E Hg) "O2")].
  clear Hg. revert E. vm_compute. intros [= <-]. reflexivity.
Defined.
