(* ===== verification/ConsumptionProps.v ===== *)
(** * A scan decision is consumed once (facts about [ObservationConsumption])

    What a receipt says when it is read back, and the theorems about retries and
    conflicting content. *)

From stdpp Require Import base tactics list strings.
From Stdlib Require Import ZArith NArith Lia Bool Ascii.
From S2P Require Import Prelude PyString PyDecimal PyTime Sha256 PyJson LifecycleModels JsonText JsonFacts Observation StateMachineFacts OutcomePolicy RuntimeEpoch LifecycleRepository StateMachineProps EpochOrigin ObservationConsumption EpochOriginProps.
Open Scope string_scope.
Open Scope py_scope.

(** ** Dictionaries that were written and read back *)

Definition read_back (d : list (string * json)) : list (string * json) :=
  sorted_items (map (fun '(k, w) => (k, canon w)) d).

Lemma keys_read_back d : Permutation (keys (read_back d)) (keys d).
Proof.
  rewrite <- (keys_canon d). unfold read_back, keys. apply (fmap_Permutation fst). apply sorted_items_perm.
Qed.

Lemma dict_mem_in {A} name (d : list (string * A)) : dict_mem name d = true <-> In name (keys d).
Proof.
  unfold dict_mem, keys. rewrite existsb_exists, in_map_iff. setoid_rewrite String.eqb_eq. naive_solver.
Qed.

Lemma dict_mem_read_back name d : dict_mem name (read_back d) = dict_mem name d.
Proof. apply eq_true_iff_eq. rewrite !dict_mem_in. by rewrite keys_read_back. Qed.

Lemma has_keys_read_back d names : has_keys (read_back d) names = has_keys d names.
Proof.
  apply eq_true_iff_eq. unfold has_keys. rewrite !same_texts_spec. fold (keys d) (keys (read_back d)).
  by setoid_rewrite keys_read_back.
Qed.

Lemma json_get_read_back name d : NoDup (keys d) -> json_get name (read_back d) = canon (json_get name d).
Proof. apply json_get_read. Qed.

Lemma json_get_set_other name key v d : name <> key -> json_get name (dict_set key v d) = json_get name d.
Proof.
  intros Hn. unfold dict_set. induction d as [|[k w] d IH]; cbn [dict_update json_get].
  - by rewrite (proj2 (String.eqb_neq key name)) by congruence.
  - destruct (String.eqb_spec k key) as [->|]; cbn [json_get]; [|by rewrite IH].
    by rewrite (proj2 (String.eqb_neq key name)) by congruence.
Qed.

Lemma keys_set_present {A} key (v : A) d : In key (keys d) -> keys (dict_set key v d) = keys d.
Proof.
  unfold dict_set. induction d as [|[k w] d IH]; [done|]. cbn [keys map In dict_update fst].
  destruct (String.eqb_spec k key) as [->|Hk]; [done|]. intros [?|Hin]; [done|]. cbn [map fst]. f_equal. by apply IH.
Qed.

Lemma dict_set_forall {A} (P : A -> Prop) key v (d : list (string * A)) :
  P v -> Forall (fun kv => P (snd kv)) d -> Forall (fun kv => P (snd kv)) (dict_set key v d).
Proof.
  intros Hv. unfold dict_set. induction 1 as [|[k w] d Hw Hd IH]; cbn [dict_update]; [by repeat constructor|].
  destruct (String.eqb k key); by constructor.
Qed.

Lemma json_is_number_canon n v : json_is_number n (canon v) = json_is_number n v.
Proof. by destruct v. Qed.

Lemma canon_json_ok : forall v, json_ok v -> json_ok (canon v).
Proof.
  fix IH 1. intros v. destruct v as [|b|z|literal|s|l|fields]; try done.
  - rewrite json_ok_arr. cbn [canon]. rewrite json_ok_arr, Forall_map. induction l as [|w l IHl]; [constructor|].
    intros [Hw Hl]%Forall_cons. constructor; [by apply IH|by apply IHl].
  - rewrite json_ok_obj. cbn [canon]. fold (read_back fields). rewrite json_ok_obj, keys_read_back. intros [Hk Hf]. split; [done|].
    unfold read_back. rewrite sorted_items_perm, Forall_map. clear Hk.
    induction fields as [|[k w] fields IHf]; [constructor|].
    apply Forall_cons in Hf as [Hw Hf]. constructor; [by apply IH|by apply IHf].
Qed.

Lemma json_ok_compliant : forall v, json_ok v -> json_compliant v = true.
Proof.
  fix IH 1. intros v. destruct v as [|b|z|literal|s|l|fields]; try done.
  - rewrite json_ok_arr. cbn [json_compliant]. induction l as [|w l IHl]; [done|].
    intros [Hw Hl]%Forall_cons. cbn [forallb]. rewrite (IH w) by done. by apply IHl.
  - rewrite json_ok_obj. intros [_ Hf]. cbn [json_compliant]. induction fields as [|[k w] fields IHf]; [done|].
    apply Forall_cons in Hf as [Hw Hf]. cbn [forallb]. rewrite (IH w) by done. by apply IHf.
Qed.

(** ** Reading a receipt *)

Section Reading.
Context `{JsonErrors}.

(** a stored document that is read back as it was written *)
Definition well_formed_document (document modes : list (string * json)) : Prop :=
  json_ok (JObj document) /\ document_modes (JObj document) = Some (document, modes) /\
  (json_is_number 1 (json_get "version" document) || json_is_number 2 (json_get "version" document)) = true.

Lemma document_modes_inv document modes : document_modes (JObj document) = Some (document, modes) ->
  has_keys document ["version"; "modes"] = true /\ json_get "modes" document = JObj modes.
Proof.
  cbn [document_modes]. destruct (has_keys _ _); [|done]. destruct (json_get "modes" document); cbn; try done.
  by intros [= ->].
Qed.

(** a document with its modes replaced is read back with those modes *)
Lemma read_replaced_modes document modes modes' : well_formed_document document modes -> json_ok (JObj modes') ->
  let document' := dict_set "modes" (JObj modes') document in
  json_ok (JObj document') /\ loads (dumps (JObj document')) = Ok (JObj (read_back document')) /\
  well_formed_document (read_back document') (read_back modes') /\
  json_get "version" (read_back document') = canon (json_get "version" document).
Proof.
  intros (Hok & Hm & Hv) Hok' document'. apply document_modes_inv in Hm as [Hk Hm].
  assert (keys document' = keys document) as Hkeys.
  { apply keys_set_present. apply dict_mem_in. unfold has_keys in Hk. rewrite same_texts_spec in Hk.
    apply dict_mem_in. apply Hk. cbn. tauto. }
  apply json_ok_obj in Hok as [Hnd Hf].
  assert (json_ok (JObj document')) as Hok2.
  { apply json_ok_obj. rewrite Hkeys. split; [done|]. by apply dict_set_forall. }
  assert (json_get "version" (read_back document') = canon (json_get "version" document)) as Hversion.
  { rewrite json_get_read_back by by rewrite Hkeys. unfold document'. by rewrite json_get_set_other. }
  split; [done|]. split; [by rewrite loads_dumps|]. split; [|done]. split_and!.
  - apply (canon_json_ok (JObj document')). done.
  - cbn [document_modes]. rewrite has_keys_read_back. unfold has_keys in *. fold (keys document'). rewrite Hkeys.
    fold (keys document) in Hk. rewrite Hk. rewrite json_get_read_back by by rewrite Hkeys.
    unfold document'. by rewrite json_get_set_same.
  - by rewrite Hversion, !json_is_number_canon.
Qed.

(** the inspection of a well-formed document *)
Definition inspect_modes (db : database) (document modes : list (string * json)) (origin_id mode digest : string)
    (o : LifecycleObservation) : result ObservationConsumption :=
  if json_is_number 1 (json_get "version" document) then inspect_version_one db document modes origin_id mode digest o
  else inspect_version_two db document modes origin_id mode digest o.

Lemma inspect_well_formed db raw document modes origin_id mode digest o :
  loads raw = Ok (JObj document) -> well_formed_document document modes ->
  inspect_document db raw origin_id mode digest o = inspect_modes db document modes origin_id mode digest o.
Proof.
  intros Hl (_ & Hm & Hv). unfold inspect_document, inspect_modes. rewrite Hl. cbn [bind_result]. rewrite Hm.
  destruct (json_is_number 1 _); [done|]. cbn [orb] in Hv. by rewrite Hv.
Qed.

Lemma inspect_absent db document modes origin_id mode digest o : dict_mem mode modes = false ->
  inspect_modes db document modes origin_id mode digest o =
  Ok {| oc_origin_id := origin_id; oc_mode := mode; oc_digest := digest; oc_document := Some document;
        oc_owner_id := None; oc_bound_owners := [] |}.
Proof. intros Hm. unfold inspect_modes, inspect_version_one, inspect_version_two. rewrite Hm. by destruct (json_is_number 1 _). Qed.

(** a consumption without owners has no receipt of its mode *)
Lemma inspect_open_absent db document modes origin_id mode digest o c :
  inspect_modes db document modes origin_id mode digest o = Ok c -> oc_owner_id c = None -> oc_bound_owners c = [] ->
  dict_mem mode modes = false.
Proof.
  unfold inspect_modes, inspect_version_one, inspect_version_two. destruct (dict_mem mode modes); [|done]. cbn [negb].
  destruct (json_fields (json_get mode modes)) as [receipt|]; [|by destruct (json_is_number 1 _)].
  destruct (negb (json_is_text digest _)); [by destruct (json_is_number 1 _)|].
  destruct (json_is_number 1 _).
  - destruct (negb _); [done|]. intros Hr. apply bind_ok in Hr as (owner & Ho & Hr). apply ok_inj in Hr as <-. cbn.
    destruct (json_get "lifecycle_id" receipt); try done. unfold require_mode_owner in Ho. inv_run Ho.
    unfold require_current_epoch_lifecycle_id in Hx. inv_run Hx. done.
  - destruct (dict_mem "lifecycle_id" receipt).
    + destruct (_ && _); [done|]. intros Hr. inv_run Hr. by apply ok_inj in Hr as <-.
    + destruct (negb _); [done|]. intros Hr. apply bind_ok in Hr as (bindings & Hb & Hr). apply ok_inj in Hr as <-. cbn.
      intros _ ->. destruct (json_get "owners" receipt) as [| | | | |[|owner owners]|]; try done.
      cbn [source_bindings source_bindings_from] in Hb. destruct (json_fields owner); [|done].
      destruct (negb (has_keys _ _)); [done|]. destruct (binding_texts _) as [[i m] d]. destruct (negb (binding_usable _ _)); [done|].
      apply bind_ok in Hb as (row & _ & Hb). destruct (_ || _); [done|]. destruct (negb _); [done|]. by inv_run Hb.
Qed.

(** a receipt that was just written is found by its decision, and refused to any other *)
Lemma inspect_receipt db document modes origin_id mode digest o lifecycle_id digest' consumed_at :
  json_ok (JObj modes) -> dict_mem mode modes = false ->
  let modes' := read_back (dict_set mode (receipt_json lifecycle_id digest' consumed_at) modes) in
  (digest <> digest' ->
   inspect_modes db document modes' origin_id mode digest o = Raise (ValueError "conflicting decision content")) /\
  (forall owner, digest = digest' -> require_mode_owner db (JStr lifecycle_id) mode o = Ok owner ->
   inspect_modes db document modes' origin_id mode digest o =
   Ok {| oc_origin_id := origin_id; oc_mode := mode; oc_digest := digest; oc_document := Some document;
         oc_owner_id := Some (JStr lifecycle_id); oc_bound_owners := [] |}).
Proof.
  intros Hok Hm modes'. apply dict_mem_keys in Hm as Hn.
  assert (json_ok (JObj (dict_set mode (receipt_json lifecycle_id digest' consumed_at) modes))) as [Hnd _]%json_ok_obj.
  { apply json_ok_set; [done|done|]. apply json_ok_obj. split; [by apply (bool_decide_unpack _)|]. by repeat constructor. }
  assert (dict_mem mode modes' = true) as Hmem.
  { unfold modes'. rewrite dict_mem_read_back. apply dict_mem_in. unfold dict_set, keys. rewrite dict_update_absent by done.
    rewrite map_app. apply in_or_app. right. by left. }
  assert (json_get mode modes' = JObj [("consumed_at", JStr consumed_at); ("digest", JStr digest'); ("lifecycle_id", JStr lifecycle_id)]) as Hget.
  { unfold modes'. by rewrite json_get_read_back, json_get_set_same by done. }
  unfold inspect_modes, inspect_version_one, inspect_version_two. rewrite Hmem, Hget. cbn [negb json_fields].
  cbn [json_get String.eqb Ascii.eqb Bool.eqb dict_mem existsb fst]. cbn [json_is_text]. split.
  - intros Hd. rewrite (proj2 (String.eqb_neq digest' digest)) by congruence. by destruct (json_is_number 1 _).
  - intros owner -> Ho. rewrite String.eqb_refl. destruct (json_is_number 1 _); cbn; by rewrite Ho.
Qed.
End Reading.

(** ** The digest names the decision *)

(** dictionaries with the same keys that read back alike have the same values *)
Lemma read_back_values f : forall g, keys f = keys g -> NoDup (keys f) ->
  (forall name, canon (json_get name f) = canon (json_get name g)) ->
  map (fun kv => canon (snd kv)) f = map (fun kv => canon (snd kv)) g.
Proof.
  induction f as [|[k v] f IH]; intros [|[k' w] g] Hk Hnd Hg; try done. cbn [keys map fst] in Hk, Hnd.
  injection Hk as -> Hk. apply NoDup_cons in Hnd as [Hin Hnd]. cbn [map snd]. f_equal.
  - specialize (Hg k'). cbn [json_get] in Hg. by rewrite String.eqb_refl in Hg.
  - apply IH; [done|done|]. intros name. specialize (Hg name). cbn [json_get] in Hg.
    destruct (String.eqb_spec k' name) as [E|]; [|done]. rewrite <- E.
    assert (~ In k' (keys f)) as Hf by (intros Hf; by apply Hin, list_elem_of_In).
    rewrite !json_get_absent; [done| |done]. intros Hg'. apply Hf. unfold keys. by rewrite Hk.
Qed.

Lemma canon_obj_values f g : keys f = keys g -> NoDup (keys f) -> canon (JObj f) = canon (JObj g) ->
  map (fun kv => canon (snd kv)) f = map (fun kv => canon (snd kv)) g.
Proof.
  intros Hk Hnd [= Hc]. apply read_back_values; [done|done|]. intros name.
  rewrite <- (json_get_read_back name f), <- (json_get_read_back name g) by (done || by rewrite <- Hk).
  unfold read_back. by rewrite Hc.
Qed.

Definition bounded_scores (o : LifecycleObservation) : Prop :=
  (Z.abs (o_readiness_score o) < 2 ^ 64)%Z /\ (Z.abs (o_quality_score o) < 2 ^ 64)%Z.

Lemma map_str_inj l : forall l', map canon (map JStr l) = map canon (map JStr l') -> l = l'.
Proof. induction l as [|s l IH]; intros [|s' l']; try done. cbn [map canon]. intros [= -> Hl]. f_equal. by apply IH. Qed.

Definition observation_fields (o : LifecycleObservation) : list (string * json) :=
  match observation_json o with JObj fields => fields | _ => [] end.

Lemma observation_keys_distinct o : NoDup (keys (observation_fields o)).
Proof. apply (bool_decide_eq_true_1 (NoDup _)). vm_compute. reflexivity. Qed.

Lemma observation_json_inj o o' : canon (observation_json o) = canon (observation_json o') -> o = o'.
Proof.
  intros Hc. apply canon_obj_values in Hc; [|reflexivity|apply observation_keys_distinct].
  destruct o, o'. cbn in Hc. injection Hc. clear Hc. intros.
  repeat match goal with E : map canon (map JStr _) = _ |- _ => apply map_str_inj in E end. by subst.
Qed.

Lemma observation_json_ok o : bounded_scores o -> json_ok (observation_json o).
Proof.
  intros [Hr Hq]. apply json_ok_obj. split; [apply observation_keys_distinct|].
  assert (forall l, json_ok (JArr (map JStr l))) as Hl by (intros l; apply json_ok_arr, Forall_map, List.Forall_forall; done).
  repeat constructor; (exact Hr || exact Hq || apply Hl).
Qed.

Lemma decision_payload_ok o lineage : bounded_scores o -> NoDup (map fst lineage) -> json_ok (decision_payload o lineage).
Proof.
  intros Ho Hl. apply json_ok_obj. split; [by apply (bool_decide_unpack _)|].
  apply Forall_cons; split; [done|]. apply Forall_cons; split; [by apply observation_json_ok|].
  apply Forall_singleton, json_ok_obj. split.
  - unfold keys. rewrite map_map. erewrite map_ext; [exact Hl|]. by intros [].
  - apply Forall_map, List.Forall_forall. by intros [k [v|]] _.
Qed.

(** equal texts are of equal decisions *)
Lemma decision_payload_inj `{JsonErrors} o o' lineage lineage' : bounded_scores o -> bounded_scores o' ->
  NoDup (map fst lineage) -> NoDup (map fst lineage') ->
  dumps (decision_payload o lineage) = dumps (decision_payload o' lineage') -> o = o' /\ Permutation lineage lineage'.
Proof.
  intros Ho Ho' Hl Hl' Hd. apply (f_equal loads) in Hd. rewrite !loads_dumps in Hd by by apply decision_payload_ok.
  apply ok_inj in Hd. apply canon_obj_values in Hd; [|reflexivity|by apply (bool_decide_unpack _)].
  pose proof (f_equal (fun l => nth 1 l JNull) Hd) as Hobs. pose proof (f_equal (fun l => nth 2 l JNull) Hd) as Hlin.
  cbn [map snd nth] in Hobs, Hlin. clear Hd. split; [exact (observation_json_inj _ _ Hobs)|]. clear Hobs. injection Hlin as Hlin.
  assert (forall l : list (string * option string),
    Permutation (sorted_items (map (fun '(k, w) => (k, canon w)) (map (fun '(k, v) => (k, optional_json v)) l)))
      (map (fun '(k, v) => (k, optional_json v)) l)) as Hp.
  { intros l. rewrite sorted_items_perm, map_map. erewrite map_ext; [done|]. by intros [k [v|]]. }
  assert (Permutation (map (fun '(k, v) => (k, optional_json v)) lineage) (map (fun '(k, v) => (k, optional_json v)) lineage')) as Hm
    by (by rewrite <- (Hp lineage), <- (Hp lineage'), Hlin).
  assert (forall l : list (string * option string),
    (fun '(k, v) => (k, match v with JStr s => Some s | _ => None end)) <$> map (fun '(k, v) => (k, optional_json v)) l = l) as Hi
    by (induction l as [|[k [v|]] l IH]; cbn in *; by rewrite ?IH).
  apply (fmap_Permutation (fun '(k, v) => (k, match v with JStr s => Some s | _ => None end))) in Hm. by rewrite !Hi in Hm.
Qed.

(** ** Consumption of a decision *)

Section Once.
Context `{JsonErrors}.

(** the granted origin of a decision on a symbol *)
Definition matched (db : database) (origin : SymbolOriginDecision) (symbol : string) (row : origin_row) : Prop :=
  exists epoch, require_active_runtime_epoch db = Ok epoch /\
    load_granted_origin db (default "" (sd_origin_id origin)) = Some row /\ sd_granted origin = true /\
    og_runtime_epoch_id row = re_epoch_id epoch /\ og_run_id row = sd_run_id origin /\ og_symbol row = symbol.

Lemma inspect_matched db origin row o lineage : matched db origin (symbol_key (o_symbol o)) row ->
  inspect_consumption true origin o lineage db =
  match og_lifecycle_consumption_json row with
  | None => Ok {| oc_origin_id := og_origin_id row; oc_mode := key_text (o_mode o); oc_digest := decision_digest o lineage;
                  oc_document := None; oc_owner_id := None; oc_bound_owners := [] |}
  | Some raw => as_integrity_exception
      (inspect_document db raw (og_origin_id row) (key_text (o_mode o)) (decision_digest o lineage) o)
  end.
Proof.
  intros (epoch & He & Hr & Hg & H1 & H2 & H3). unfold inspect_consumption. cbn [negb]. rewrite He. cbn [bind_result].
  by rewrite Hr, Hg, H1, H2, H3, !String.eqb_refl.
Qed.

Lemma inspect_run db origin o lineage c : inspect_consumption true origin o lineage db = Ok c ->
  exists row, matched db origin (symbol_key (o_symbol o)) row.
Proof.
  unfold inspect_consumption. cbn [negb]. intros Hi. apply bind_ok in Hi as (epoch & He & Hi).
  destruct (load_granted_origin db _) as [row|] eqn:Hr; [|done]. exists row, epoch. revert Hi.
  destruct (sd_granted origin); [|done].
  destruct (String.eqb_spec (og_runtime_epoch_id row) (re_epoch_id epoch)); [|done].
  destruct (String.eqb_spec (og_run_id row) (sd_run_id origin)); [|done].
  destruct (String.eqb_spec (og_symbol row) (symbol_key (o_symbol o))); [|done]. done.
Qed.

(** a document that was inspected *)
Lemma inspect_document_loads db raw origin_id mode digest o c document :
  inspect_document db raw origin_id mode digest o = Ok c -> oc_document c = Some document ->
  exists modes, loads raw = Ok (JObj document) /\ document_modes (JObj document) = Some (document, modes) /\
    (json_is_number 1 (json_get "version" document) || json_is_number 2 (json_get "version" document)) = true /\
    inspect_modes db document modes origin_id mode digest o = Ok c /\
    oc_origin_id c = origin_id /\ oc_mode c = mode /\ oc_digest c = digest.
Proof.
  unfold inspect_document. intros Hi Hd. apply bind_ok in Hi as (decoded & Hl & Hi).
  destruct (document_modes decoded) as [[d modes]|] eqn:Hm; [|done].
  assert (decoded = JObj d /\ document_modes (JObj d) = Some (d, modes)) as [-> Hm'].
  { destruct decoded as [| | | | | |fields]; try done. cbn [document_modes] in Hm |- *. destruct (has_keys fields _) eqn:Hk; [|done].
    destruct (json_fields _) eqn:Hj; [|done]. injection Hm as -> ->. by rewrite Hk, Hj. }
  assert (d = document /\ oc_origin_id c = origin_id /\ oc_mode c = mode /\ oc_digest c = digest) as (-> & H1 & H2 & H3).
  { clear - Hi Hd. unfold inspect_version_one, inspect_version_two in Hi.
    repeat case_match; try done; inv_run Hi; apply ok_inj in Hi as <-; cbn in Hd; by injection Hd as ->. }
  exists modes. split; [done|]. split; [done|]. unfold inspect_modes.
  destruct (json_is_number 1 _) eqn:E1; [done|]. destruct (json_is_number 2 _) eqn:E2; done.
Qed.

Lemma inspect_document_run db raw origin_id mode digest o c document :
  inspect_document db raw origin_id mode digest o = Ok c -> oc_document c = Some document -> json_ok (JObj document) ->
  exists modes, loads raw = Ok (JObj document) /\ well_formed_document document modes /\
    inspect_modes db document modes origin_id mode digest o = Ok c /\
    oc_origin_id c = origin_id /\ oc_mode c = mode /\ oc_digest c = digest.
Proof.
  intros Hi Hd Hok. destruct (inspect_document_loads _ _ _ _ _ _ _ _ Hi Hd) as (modes & Hl & Hm & Hv & Hrest).
  exists modes. split; [done|]. split; [by split|done].
Qed.

(** *** Writing *)

Lemma load_store db origin_id text id :
  load_granted_origin (store_consumption origin_id text db) id =
  option_map (fun o => if String.eqb (og_origin_id o) origin_id then o <| og_lifecycle_consumption_json := Some text |> else o)
    (load_granted_origin db id).
Proof.
  unfold load_granted_origin, store_consumption. destruct (String.eqb _ ""); [done|]. unfold update_row. cbn [db_origins set_field].
  induction (db_origins db) as [|x l IH]; [done|]. cbn [map find].
  destruct (String.eqb (og_origin_id x) origin_id) eqn:E; cbn; [|destruct (_ && _); [by cbn; rewrite E|done]].
  destruct (_ && _); [cbn; by rewrite E|done].
Qed.

(** what later readers see: the boundary of [db] *)
Definition same_boundary (db db2 : database) : Prop :=
  db_control db2 = db_control db /\ db_epochs db2 = db_epochs db /\ db_origins db2 = db_origins db.

Lemma matched_boundary db db2 origin symbol row : same_boundary db db2 -> matched db origin symbol row ->
  matched db2 origin symbol row.
Proof.
  intros (Hc & He & Ho) (epoch & Ha & Hl & Hrest). exists epoch.
  unfold require_active_runtime_epoch, load_active_runtime_epoch, load_granted_origin in *. rewrite Hc, He, Ho.
  split; [exact Ha|]. split; [exact Hl|exact Hrest].
Qed.

Lemma matched_store db origin symbol row text : matched db origin symbol row ->
  matched (store_consumption (og_origin_id row) text db) origin symbol (row <| og_lifecycle_consumption_json := Some text |>).
Proof.
  intros (epoch & Ha & Hl & Hrest). exists epoch. split; [exact Ha|]. split; [|exact Hrest].
  rewrite load_store, Hl. cbn [option_map]. by rewrite String.eqb_refl.
Qed.

(** a consumption that can be persisted: a document of its own, no owner yet *)
Definition unclaimed (c : ObservationConsumption) (document : list (string * json)) : Prop :=
  oc_document c = Some document /\ json_ok (JObj document) /\ oc_owner_id c = None /\ oc_bound_owners c = [].

Lemma unclaimed_run db origin o lineage c document : inspect_consumption true origin o lineage db = Ok c ->
  unclaimed c document -> exists row modes, matched db origin (symbol_key (o_symbol o)) row /\
    well_formed_document document modes /\ json_ok (JObj modes) /\ dict_mem (key_text (o_mode o)) modes = false /\
    (exists raw, og_lifecycle_consumption_json row = Some raw /\ loads raw = Ok (JObj document)) /\
    oc_origin_id c = og_origin_id row /\ oc_mode c = key_text (o_mode o) /\ oc_digest c = decision_digest o lineage.
Proof.
  intros Hi (Hd & Hok & Ho & Hb). destruct (inspect_run _ _ _ _ _ Hi) as (row & Hm). rewrite (inspect_matched _ _ _ _ _ Hm) in Hi.
  destruct (og_lifecycle_consumption_json row) as [raw|] eqn:Hraw; [|by apply ok_inj in Hi as <-].
  destruct (inspect_document _ _ _ _ _ _) as [c0|e] eqn:Hdoc; cbn [as_integrity_exception] in Hi;
    [|by destruct (value_error_text e)]. apply ok_inj in Hi as ->.
  destruct (inspect_document_run _ _ _ _ _ _ _ _ Hdoc Hd Hok) as (modes & Hl & Hw & Hmo & H1 & H2 & H3).
  exists row, modes. split; [done|]. split; [done|]. split; [|split; [by eapply inspect_open_absent|split; [by exists raw|by split_and!]]].
  destruct Hw as (_ & Hw & _). apply document_modes_inv in Hw as [_ Hw]. apply json_ok_obj in Hok as [Hnd Hf].
  rewrite List.Forall_forall in Hf. rewrite <- Hw.
  destruct (in_dec String.string_dec "modes" (keys document)) as [Hin|Hin]; [|by rewrite json_get_absent].
  apply in_map_iff in Hin as ([k v] & Hk & Hin). cbn [fst] in Hk. subst k. rewrite (json_get_in _ _ _ Hnd Hin). by apply (Hf _ Hin).
Qed.

(** the written document, as a reader decodes it *)
Lemma persist_run db c document modes lifecycle_id consumed_at : unclaimed c document -> well_formed_document document modes ->
  json_ok (JObj modes) -> dict_mem (oc_mode c) modes = false ->
  let modes' := dict_set (oc_mode c) (receipt_json lifecycle_id (oc_digest c) consumed_at) modes in
  let document' := dict_set "modes" (JObj modes') document in
  persist_consumption true c lifecycle_id consumed_at db =
    Ok (c <| oc_document := Some document' |>, store_consumption (oc_origin_id c) (dumps (JObj document')) db) /\
  json_ok (JObj modes') /\
  loads (dumps (JObj document')) = Ok (JObj (read_back document')) /\
  well_formed_document (read_back document') (read_back modes').
Proof.
  intros (Hd & Hok & Ho & Hb) Hw Hmo Hm modes' document'.
  assert (json_ok (JObj modes')) as Hok'.
  { apply json_ok_set; [by apply dict_mem_keys|done|]. apply json_ok_obj. split; [by apply (bool_decide_unpack _)|]. by repeat constructor. }
  destruct (read_replaced_modes _ _ _ Hw Hok') as (Hdok & Hl & Hw' & _). split_and!; try done.
  destruct Hw as (_ & Hw & _). apply document_modes_inv in Hw as [_ Hget].
  unfold persist_consumption, open_document. rewrite Hd, Ho, Hb, Hget. cbn [json_fields from_option id]. rewrite Hm.
  unfold set_receipt, consumption_json. fold modes'. fold document'. fold document' in Hdok. by rewrite (json_ok_compliant _ Hdok).
Qed.

Lemma dict_mem_set_other {A} name key (v : A) d : name <> key -> dict_mem name (dict_set key v d) = dict_mem name d.
Proof.
  intros Hn. unfold dict_mem, dict_set. induction d as [|[k w] d IH]; cbn [dict_update existsb fst].
  - by rewrite (proj2 (String.eqb_neq key name)) by congruence.
  - destruct (String.eqb_spec k key) as [->|]; cbn [existsb fst]; [done|]. by rewrite IH.
Qed.

Lemma not_unclaimed_refused c lifecycle_id consumed_at db : oc_owner_id c <> None ->
  persist_consumption true c lifecycle_id consumed_at db = unowned_or_repeated.
Proof. intros Ho. unfold persist_consumption, open_document. by destruct (oc_document c), (oc_owner_id c). Qed.

Lemma repeated_refused c document modes lifecycle_id consumed_at db : oc_document c = Some document ->
  json_get "modes" document = JObj modes -> dict_mem (oc_mode c) modes = true ->
  persist_consumption true c lifecycle_id consumed_at db = unowned_or_repeated.
Proof.
  intros Hd Hm Hk. unfold persist_consumption, open_document. rewrite Hd. destruct (oc_owner_id c), (oc_bound_owners c); try done.
  rewrite Hm. cbn [json_fields from_option id]. by rewrite Hk.
Qed.

(** a written decision is found again *)
Lemma retry_finds_owner origin o lineage db c document lifecycle_id consumed_at c' db' db2 owner :
  inspect_consumption true origin o lineage db = Ok c -> unclaimed c document ->
  persist_consumption true c lifecycle_id consumed_at db = Ok (c', db') -> same_boundary db' db2 ->
  require_mode_owner db2 (JStr lifecycle_id) (key_text (o_mode o)) o = Ok owner ->
  exists r, inspect_consumption true origin o lineage db2 = Ok r /\ oc_owner_id r = Some (JStr lifecycle_id) /\
    oc_bound_owners r = [] /\ legacy r = false.
Proof.
  intros Hi Hc Hp Hdb2 Howner.
  destruct (unclaimed_run _ _ _ _ _ _ Hi Hc) as (row & modes & Hrow & Hw & Hmo & Hm & _ & H1 & H2 & H3). rewrite <- H2 in Hm.
  destruct (persist_run db _ _ _ lifecycle_id consumed_at Hc Hw Hmo Hm) as (Hp' & _ & Hl' & Hw'). rewrite Hp in Hp'.
  apply ok_inj in Hp'. injection Hp' as _ ->. rewrite H1 in Hdb2. rewrite H2 in Hm. rewrite H2, H3 in Hl', Hw', Hdb2.
  pose proof (matched_boundary _ _ _ _ _ Hdb2 (matched_store _ _ _ _ _ Hrow)) as Hrow2.
  rewrite (inspect_matched _ _ _ _ _ Hrow2). cbn [og_lifecycle_consumption_json set_field og_origin_id].
  rewrite (inspect_well_formed _ _ _ _ _ _ _ _ Hl' Hw').
  match type of Hw' with well_formed_document ?document' _ =>
    destruct (inspect_receipt db2 document' modes (og_origin_id row) (key_text (o_mode o)) (decision_digest o lineage) o
      lifecycle_id (decision_digest o lineage) consumed_at Hmo Hm) as [_ Hfound] end.
  rewrite (Hfound owner) by done. eexists. by split.
Qed.

(** two decisions that differ, and whose texts SHA-256 tells apart *)
Definition different_decision (o : LifecycleObservation) (lineage : list (string * option string))
    (o' : LifecycleObservation) (lineage' : list (string * option string)) : Prop :=
  bounded_scores o /\ bounded_scores o' /\ NoDup (map fst lineage) /\ NoDup (map fst lineage') /\
  (o <> o' \/ ~ Permutation lineage lineage') /\
  let text := dumps (decision_payload o lineage) in
  let text' := dumps (decision_payload o' lineage') in
  (sha256_hexdigest text = sha256_hexdigest text' -> text = text').

Lemma different_digest o lineage o' lineage' : different_decision o lineage o' lineage' ->
  decision_digest o' lineage' <> decision_digest o lineage.
Proof.
  intros (Ho & Ho' & Hl & Hl' & Hne & Hinj) Hd. apply eq_sym, Hinj in Hd.
  apply decision_payload_inj in Hd as [He Hp]; [|done..]. by destruct Hne.
Qed.

(** documents that are read back as they were written *)
Definition receipts_ok (db : database) : Prop :=
  forall o raw v, In o (db_origins db) -> og_lifecycle_consumption_json o = Some raw -> loads raw = Ok v -> json_ok v.

Lemma receipts_unclaimed db origin o lineage c : receipts_ok db -> inspect_consumption true origin o lineage db = Ok c ->
  legacy c = false -> oc_owner_id c = None -> oc_bound_owners c = [] -> exists document, unclaimed c document.
Proof.
  intros Hok Hi Hl Ho Hb. unfold legacy in Hl. destruct (oc_document c) as [document|] eqn:Hd; [|done]. exists document.
  split; [done|]. split; [|done]. destruct (inspect_run _ _ _ _ _ Hi) as (row & Hm). rewrite (inspect_matched _ _ _ _ _ Hm) in Hi.
  destruct (og_lifecycle_consumption_json row) as [raw|] eqn:Hraw; [|apply ok_inj in Hi as <-; by cbn in Hd].
  destruct (inspect_document _ _ _ _ _ _) as [c0|e] eqn:Hdoc; cbn [as_integrity_exception] in Hi;
    [|by destruct (value_error_text e)]. apply ok_inj in Hi as ->.
  destruct (inspect_document_loads _ _ _ _ _ _ _ _ Hdoc Hd) as (modes & Hload & _).
  destruct Hm as (epoch & _ & Hrow & _). eapply Hok; [|exact Hraw|exact Hload]. unfold load_granted_origin in Hrow.
  destruct (String.eqb _ ""); [done|]. by apply find_some in Hrow as [Hin _].
Qed.

(** *** Claims *)

(** C7: a scan decision is consumed exactly once. A decision whose mode has no receipt yet can be given to a lifecycle;
    this changes nothing but the receipt column of its origin, and the same receipt cannot be written again. As long as
    the origin is not written again, a retry of the decision finds that lifecycle as its owner and cannot be given to
    another, a decision of the mode that differs in any field of the observation or of its lineage is refused as
    conflicting (unless SHA-256 collides on the two texts), and a decision of another mode can still be consumed if it
    could before. *)
Theorem observation_consumed_once origin o lineage db c document lifecycle_id consumed_at :
  inspect_consumption true origin o lineage db = Ok c -> unclaimed c document ->
  exists c' db', persist_consumption true c lifecycle_id consumed_at db = Ok (c', db') /\
    (exists text, db' = store_consumption (oc_origin_id c) text db) /\
    (forall other at_other db2, persist_consumption true c' other at_other db2 = unowned_or_repeated) /\
    forall db2, same_boundary db' db2 ->
      (forall owner, require_mode_owner db2 (JStr lifecycle_id) (key_text (o_mode o)) o = Ok owner ->
         exists r, inspect_consumption true origin o lineage db2 = Ok r /\ oc_owner_id r = Some (JStr lifecycle_id) /\
           forall other at_other, persist_consumption true r other at_other db2 = unowned_or_repeated) /\
      (forall o' lineage', symbol_key (o_symbol o') = symbol_key (o_symbol o) -> key_text (o_mode o') = key_text (o_mode o) ->
         different_decision o lineage o' lineage' ->
         inspect_consumption true origin o' lineage' db2
         = Raise (collision_error "Observation consumption integrity exception: conflicting decision content")) /\
      (forall o' lineage' c2 document2, symbol_key (o_symbol o') = symbol_key (o_symbol o) ->
         key_text (o_mode o') <> key_text (o_mode o) ->
         inspect_consumption true origin o' lineage' db = Ok c2 -> unclaimed c2 document2 ->
         exists c3 document3, inspect_consumption true origin o' lineage' db2 = Ok c3 /\ unclaimed c3 document3).
Proof.
  intros Hi Hc. destruct (unclaimed_run _ _ _ _ _ _ Hi Hc) as (row & modes & Hrow & Hw & Hmo & Hm & (raw & Hraw & Hl) & H1 & H2 & H3).
  rewrite <- H2 in Hm.
  destruct (persist_run db _ _ _ lifecycle_id consumed_at Hc Hw Hmo Hm) as (Hp & Hmo' & Hl' & Hw').
  rewrite H2, H3 in Hp, Hmo', Hl', Hw'. rewrite H2 in Hm.
  set (modes' := dict_set (key_text (o_mode o)) _ modes) in *. set (document' := dict_set "modes" _ document) in *.
  eexists _, _. split; [exact Hp|]. split; [by eexists|]. split.
  { intros. apply repeated_refused with document' modes'; [done|by apply json_get_set_same|].
    apply dict_mem_in. unfold modes', dict_set, keys. rewrite dict_update_absent by by apply dict_mem_keys.
    rewrite map_app. apply in_or_app. right. left. by rewrite <- H2. }
  intros db2 Hdb2. rewrite H1 in Hdb2. pose proof (matched_boundary _ _ _ _ _ Hdb2 (matched_store _ _ _ _ (dumps (JObj document')) Hrow)) as Hrow2.
  split_and!.
  - intros owner Howner. rewrite <- H1 in Hdb2. destruct (retry_finds_owner _ _ _ _ _ _ _ _ _ _ _ _ Hi Hc Hp Hdb2 Howner) as (r & Hr & Hid & _).
    exists r. split; [done|]. split; [done|]. intros. apply not_unclaimed_refused. by rewrite Hid.
  - intros o' lineage' Hs Hmode Hd%different_digest. rewrite <- Hs in Hrow2. rewrite (inspect_matched _ _ _ _ _ Hrow2). cbn [og_lifecycle_consumption_json set_field og_origin_id].
    rewrite (inspect_well_formed _ _ _ _ _ _ _ _ Hl' Hw'), Hmode.
    destruct (inspect_receipt db2 (read_back document') modes (og_origin_id row) (key_text (o_mode o)) (decision_digest o' lineage') o'
      lifecycle_id (decision_digest o lineage) consumed_at Hmo Hm) as [Hfound _]. fold modes' in Hfound. by rewrite Hfound.
  - intros o' lineage' c2 document2 Hs Hmode Hi2 Hc2. rewrite <- Hs in Hrow2, Hrow. rewrite (inspect_matched _ _ _ _ _ Hrow2). cbn [og_lifecycle_consumption_json set_field og_origin_id].
    rewrite (inspect_well_formed _ _ _ _ _ _ _ _ Hl' Hw'), inspect_absent.
    { eexists _, (read_back document'). split; [reflexivity|]. split; [done|]. split; [apply Hw'|done]. }
    rewrite dict_mem_read_back. unfold modes'. rewrite dict_mem_set_other by done.
    rewrite (inspect_matched _ _ _ _ _ Hrow), Hraw, (inspect_well_formed _ _ _ _ _ _ _ _ Hl Hw) in Hi2.
    destruct (inspect_modes _ _ _ _ _ _ _) as [c0|e] eqn:Hq; cbn [as_integrity_exception] in Hi2; [|by destruct (value_error_text e)].
    apply ok_inj in Hi2 as ->. destruct Hc2 as (_ & _ & Ho2 & Hb2). by eapply inspect_open_absent.
Qed.
End Once.

(** *** Witnesses *)

Definition sample_origin : SymbolOriginDecision :=
  match sample_evaluate "O1" registered_database with Ok (d, _) => d | Raise _ => blocked "" "" "" end.

Definition sample_lineage : list (string * option string) :=
  [("evaluation_kind", Some "live_scan"); ("evaluation_completed_at", Some "2026-01-01T00:06:00Z"); ("execution_timeframe", None)].

Definition sample_owner : SetupLifecycleRecord :=
  sample_record <| r_runtime_epoch_id := Some "E1" |> <| r_creation_origin_id := Some "O1" |> <| r_mode := key_text (o_mode sample_observation) |>
                <| r_direction := key_text (o_direction sample_observation) |>.

#[local] Instance sample_errors : JsonErrors := fun _ => "Expecting value".

Definition sample_consumption : ObservationConsumption :=
  match inspect_consumption true sample_origin sample_observation sample_lineage granted_database with
  | Ok c => c
  | Raise _ => mkConsumption "" "" "" None None []
  end.

Definition sample_document : list (string * json) := default [] (oc_document sample_consumption).

(** the first scan of a new origin is consumed, and its retry finds the owner *)
Lemma observation_consumed_once_witness : exists c' db' r,
  persist_consumption true sample_consumption "L1" "2026-01-01T00:06:00Z" granted_database = Ok (c', db') /\
  inspect_consumption true sample_origin sample_observation sample_lineage (db' <| db_records := [sample_owner] |>) = Ok r /\
  oc_owner_id r = Some (JStr "L1").
Proof.
  assert (inspect_consumption true sample_origin sample_observation sample_lineage granted_database = Ok sample_consumption) as Hi
    by (vm_compute; reflexivity).
  assert (unclaimed sample_consumption sample_document) as Hc.
  { assert (sample_document = [("version", JInt 1); ("modes", JObj [])]) as Hd by (vm_compute; reflexivity).
    split; [vm_compute; reflexivity|]. split; [|vm_compute; split; reflexivity]. rewrite Hd. apply json_ok_obj.
    split; [by apply (bool_decide_unpack _)|]. constructor; [done|]. constructor; [|done]. by apply json_ok_obj; repeat constructor. }
  destruct (observation_consumed_once sample_origin sample_observation sample_lineage granted_database sample_consumption
    sample_document "L1" "2026-01-01T00:06:00Z" Hi Hc) as (c' & db' & Hp & Hs & _ & Hlater).
  assert (same_boundary db' (db' <| db_records := [sample_owner] |>)) as Hb by (repeat split).
  destruct (Hlater _ Hb) as (Hretry & _).
  assert (require_mode_owner (db' <| db_records := [sample_owner] |>) (JStr "L1") (key_text (o_mode sample_observation)) sample_observation
    = Ok sample_owner) as Ho.
  { destruct Hs as (text & ->). vm_compute. reflexivity. }
  destruct (Hretry _ Ho) as (r & Hr & Hid & _). exists c', db', r. split; [exact Hp|]. split; assumption.
Defined.
