(* ===== verification/LifecycleService.v ===== *)
(** * The lifecycle service (src/app/lifecycle/service.py, one symbol of a run)

    [_apply_to_symbol_result_isolated] and what it calls: the origin of the
    symbol, the receipt of the observation, the owner it belongs to, the scan of
    the state machine, the writes and the outcome pass over closed candles.

    The observation is an argument ([observation_from_symbol_result] reads the
    scanner's result), as are the times, the candles and the timeframe of the
    result.  [uuid4().hex] values and the clock are arguments.  Left out are the
    audit log and the research capture, which do not touch these tables. *)

From stdpp Require Import base tactics list strings.
From Stdlib Require Import ZArith NArith Lia Bool Ascii.
From S2P Require Import Prelude PyString PyDecimal PyTime PyJson LifecycleModels CandleIntegrity JsonText Observation OutcomePolicy Identity DynRecord StateMachine RuntimeEpoch LifecycleRepository Outcomes EpochOrigin ObservationConsumption TerminalAnalytics.
Open Scope string_scope.
Open Scope py_scope.
Open Scope tx_scope.

(** ** Queries *)

(** [get_record] *)
Definition get_record (db : database) (symbol mode direction : string) : result (option SetupLifecycleRecord) :=
  let epoch_id := option_map re_epoch_id (load_active_runtime_epoch db) in
  match find (fun r => String.eqb (r_symbol r) (repository_symbol symbol) && String.eqb (r_mode r) (identity_text mode)
                       && String.eqb (r_direction r) (identity_text direction) && r_is_current r
                       && bool_decide (r_runtime_epoch_id r = epoch_id)) (db_records db) with
  | Some row => map_result Some (record_from_row row)
  | None => Ok None
  end.

(** [list_records_for_symbol] of every direction; the order of its rows does not reach the caller *)
Definition list_records_for_symbol (db : database) (symbol : string) : result (list SetupLifecycleRecord) :=
  let normalized := repository_symbol symbol in
  if String.eqb normalized NA then Ok []
  else all_from_rows record_from_row (List.filter (fun r => String.eqb (r_symbol r) normalized) (db_records db)).

(** [legacy_cooldown_veto] *)
Definition legacy_cooldown_veto (db : database) (symbol mode direction now : string) : result (option string) :=
  match find (fun r => String.eqb (r_symbol r) (py_upper symbol) && String.eqb (r_mode r) (py_lower mode)
                       && String.eqb (r_direction r) (py_lower direction) && r_is_current r
                       && bool_decide (r_runtime_epoch_id r = None)) (db_records db) with
  | None => Ok None
  | Some row =>
      match r_cooldown_until row with
      | None => Ok None
      | Some until =>
          if String.eqb until "" || String.eqb until NA then Ok None else
          let! expiry := parse_utc (Some until) in
          let! current := parse_utc (Some now) in
          match expiry, current with
          | Some e, Some c => Ok (if (instant c <? instant e)%Z then Some "legacy_cooldown_active" else None)
          | _, _ => Ok (Some "legacy_cooldown_unparseable")
          end
      end
  end.

(** ** The observation *)

(** [_generation_setup_observable] *)
Definition generation_setup_observable (o : LifecycleObservation) : bool :=
  if observation_has_essential_freshness_failure o then false else
  o_valid_trade_idea o || (o_pullback_valid o && o_rr_valid o) || o_actionable_a_grade_candidate o
  || o_a_grade_watch_candidate o || o_sweep_detected o || (50 <=? o_readiness_score o)%Z
  || str_in (py_upper (sv_display (o_readiness_label o))) ["WATCH"; "HOT WATCH"; "VALID SETUP"].

(** [_generation_terminal_observation] *)
Definition generation_terminal_observation (o : LifecycleObservation) : bool :=
  o_tp_hit o || o_sl_hit o || o_invalidated o || o_expired o.

(** the health record of a symbol, with the seven counters of bad events *)
Record SymbolHealth := { sh_current_health_score : Z; sh_bad_events : list Z }.

(** [_symbol_health_penalty_cycles] *)
Definition symbol_health_penalty_cycles (record : option SymbolHealth) : Z :=
  match record with
  | None => 0
  | Some r => if (sh_current_health_score r <? 40)%Z || (3 <=? fold_right Z.add 0 (sh_bad_events r))%Z then 1 else 0
  end.

(** what the handler reads of a symbol's result, of its run and of its service *)
Record symbol_input := {
  si_observation : LifecycleObservation;
  si_evaluation_kind : string;
  si_evaluation_completed_at : option string;
  si_decision_cutoff_at : option string;
  si_producer_observed_at : option string;
  si_execution_timeframe : string;
  si_execution_candles : option (list candle);
  si_decision_timestamp : option cval;
  si_scan_run_id : option string;
  si_now : string;
  si_health : option SymbolHealth;
  si_confirmation_cycles : Z;
  si_setup_tolerance_pct : dec
}.

(** [_consumption_lineage] *)
Definition consumption_lineage (i : symbol_input) : list (string * option string) :=
  [("evaluation_kind", Some (si_evaluation_kind i)); ("evaluation_completed_at", si_evaluation_completed_at i);
   ("decision_cutoff_at", si_decision_cutoff_at i); ("producer_observed_at", si_producer_observed_at i);
   ("execution_timeframe", Some (si_execution_timeframe i))].

(** the fresh values of one call: the ids and the clock *)
Record fresh_values := { fv_origin_id : string; fv_blocked_id : string; fv_generation_id : string; fv_clock : string }.

(** what a call returns beside its writes *)
Inductive service_outcome : Type :=
| OriginBlocked (reason : string)
| UnverifiedObservation
| OwnersHeld (transitions : list SetupTransitionResult) (owners duplicates : nat)
| Processed (existing record : option SetupLifecycleRecord) (transition : SetupTransitionResult)
    (transitions : list SetupTransitionResult) (progress : option SetupLifecycleOutcomeProgress)
    (duplicate unverified : bool).

(** ** Candles *)

(** [_matching_execution_candles] *)
Definition matching_execution_candles (record : SetupLifecycleRecord) (i : symbol_input) (db : database)
    : result (option (list candle)) :=
  match si_execution_candles i with
  | None => Ok None
  | Some candles =>
      let! stored := list_outcome_progress db (r_lifecycle_id record) in
      match stored with
      | [] => Ok (Some candles)
      | progress :: _ =>
          let required := py_lower (py_strip (pg_execution_timeframe progress)) in
          if negb (String.eqb required "") && negb (String.eqb required (py_lower NA))
             && negb (String.eqb required (py_lower (py_strip (si_execution_timeframe i))))
          then Ok None else Ok (Some candles)
      end
  end.

(** ** The state machine's part *)

(** the arguments of the scan *)
Definition scan_arguments (i : symbol_input) (lifecycle_id health_score : string) (penalty_cycles : Z) : evaluate_args :=
  {| ea_lifecycle_id := lifecycle_id; ea_now := Some (si_now i); ea_scan_run_id := si_scan_run_id i;
     ea_required_confirmation_cycles := si_confirmation_cycles i; ea_setup_tolerance_pct := si_setup_tolerance_pct i;
     ea_symbol_health_score := health_score; ea_symbol_health_penalty_cycles := penalty_cycles |}.

(** [record.model_copy(update={"runtime_epoch_id": ..., "creation_origin_id": ...})] *)
Definition owned_by (record : SetupLifecycleRecord) (epoch_id : string) (origin_id : option string) : SetupLifecycleRecord :=
  record <| r_runtime_epoch_id := Some epoch_id |> <| r_creation_origin_id := origin_id |>.

(** [record.creation_origin_id or origin.origin_id] *)
Definition creation_origin (record : option SetupLifecycleRecord) (origin : SymbolOriginDecision) : option string :=
  match record with
  | Some r => if given (r_creation_origin_id r) then r_creation_origin_id r else sd_origin_id origin
  | None => sd_origin_id origin
  end.

Section Service.
Context `{JsonErrors}.

(** the outcome pass of a record, when there are candles for it *)
Definition outcome_pass (clock : string) (i : symbol_input) (record : SetupLifecycleRecord)
    : tx (option LifecycleOutcomeEvaluation) :=
  do! candles := query (matching_execution_candles record i) in
  match candles with
  | None => ret None
  | Some candles =>
      let decision := match si_decision_timestamp i with Some d => d | None => CVal (PyStr (si_now i)) end in
      do! evaluation := evaluate_closed_candle_outcomes clock record candles (si_execution_timeframe i) decision
                          (si_now i) (si_scan_run_id i) in
      ret (Some evaluation)
  end.

(** [transition.model_copy(update={"record": record})] *)
Definition with_record (record : SetupLifecycleRecord) (t : SetupTransitionResult) : SetupTransitionResult :=
  t <| tr_record := Some record |>.

(** the transition a pass leaves *)
Definition effective_transition (e : LifecycleOutcomeEvaluation) (t : SetupTransitionResult) : SetupTransitionResult :=
  with_record (le_record e) (default t (le_last_transition e)).

Definition write_event (t : SetupTransitionResult) : tx unit :=
  match tr_event t with Some event => insert_event event | None => ret tt end.

(** ** Held owners *)

(** [_active_epoch_hold_owners] *)
Definition owner_leb (a b : SetupLifecycleRecord) : bool :=
  binding_leb (r_lifecycle_id a, r_mode a, r_direction a) (r_lifecycle_id b, r_mode b, r_direction b).

Fixpoint insert_owner (r : SetupLifecycleRecord) (l : list SetupLifecycleRecord) : list SetupLifecycleRecord :=
  match l with
  | [] => [r]
  | x :: rest => if owner_leb r x then r :: l else x :: insert_owner r rest
  end.

Definition active_epoch_hold_owners (db : database) (symbol epoch_id : string) : result (list SetupLifecycleRecord) :=
  let! records := list_records_for_symbol db symbol in
  Ok (fold_right insert_owner []
        (List.filter (fun r => r_is_current r && bool_decide (r_runtime_epoch_id r = Some epoch_id)
                               && state_in (r_current_state r) FRESHNESS_OWNER_HOLD_STATES) records)).

(** [_records_for_source_bindings] *)
Fixpoint records_for_source_bindings (db : database) (symbol epoch_id : string) (bindings : list (string * string * string))
    : result (list SetupLifecycleRecord) :=
  match bindings with
  | [] => Ok []
  | (lifecycle_id, mode, direction) :: rest =>
      let! record := get_record_by_lifecycle_id db lifecycle_id in
      let conflicting :=
        Raise (collision_error "Observation consumption integrity exception: conflicting lifecycle owner") in
      match record with
      | None => conflicting
      | Some r =>
          if negb (String.eqb (r_symbol r) symbol) || negb (bool_decide (r_runtime_epoch_id r = Some epoch_id))
             || negb (String.eqb (r_mode r) mode) || negb (String.eqb (r_direction r) direction)
          then conflicting else
          let! records := records_for_source_bindings db symbol epoch_id rest in
          Ok (r :: records)
      end
  end.

(** one owner of the loop of [_account_source_bound_owners] *)
Definition account_owner (clock : string) (i : symbol_input) (epoch_id : string) (origin : SymbolOriginDecision) (replay : bool)
    (owner : SetupLifecycleRecord) : tx (list SetupTransitionResult) :=
  do! (record, transition) :=
    (if replay then ret (owner, unmoved_transition owner "observation_already_consumed") else
     let bound := (si_observation i) <| o_mode := r_mode owner |> <| o_direction := r_direction owner |> in
     do! transition := lift (evaluate_lifecycle_transition clock (Some owner) bound
                               (scan_arguments i (r_lifecycle_id owner) NA 0)) in
     let record := owned_by (default owner (tr_record transition)) epoch_id (creation_origin (Some owner) origin) in
     do! _ := write_event transition in
     do! _ := upsert_record record in
     ret (record, with_record record transition)) in
  do! evaluation := outcome_pass clock i record in
  do! _ := (match evaluation with
            | Some e => persist_terminal_analytics (effective_transition e transition) (le_progress e)
            | None => persist_terminal_analytics transition None
            end) in
  ret (match evaluation with Some e => le_transitions e | None => [] end).

Fixpoint account_owners (clock : string) (i : symbol_input) (epoch_id : string) (origin : SymbolOriginDecision) (replay : bool)
    (owners : list SetupLifecycleRecord) : tx (list SetupTransitionResult) :=
  match owners with
  | [] => ret []
  | owner :: rest =>
      do! transitions := account_owner clock i epoch_id origin replay owner in
      do! others := account_owners clock i epoch_id origin replay rest in
      ret (transitions ++ others)%list
  end.

(** [_account_source_bound_owners] *)
Definition account_source_bound_owners (clock : string) (i : symbol_input) (epoch_id : string) (origin : SymbolOriginDecision)
    (consumption : ObservationConsumption) (replay : bool) (owners : list SetupLifecycleRecord) : tx service_outcome :=
  let binding r := [("lifecycle_id", r_lifecycle_id r); ("mode", r_mode r); ("direction", r_direction r)] in
  do! _ := (if replay then ret tt else fun db =>
              let! db := persist_source_owner_bindings true consumption (map binding owners) (si_now i) db in Ok (tt, db)) in
  do! transitions := account_owners clock i epoch_id origin replay owners in
  ret (OwnersHeld transitions (length owners) (if replay then length owners else 0)).

(** ** The decision *)

(** the scan of the record, or the answer to a retry *)
Definition decide_transition (clock : string) (i : symbol_input) (replayed : bool) (notes lifecycle_id : string)
    (existing : option SetupLifecycleRecord) : result SetupTransitionResult :=
  if replayed
  then match existing with
       | Some record => Ok (unmoved_transition record notes)
       | None => Raise (RuntimeError "AssertionError")
       end
  else evaluate_lifecycle_transition clock existing (si_observation i)
         (scan_arguments i lifecycle_id
            (match si_health i with Some h => string_of_Z (sh_current_health_score h) | None => NA end)
            (symbol_health_penalty_cycles (si_health i))).

(** the writes of a decision, in their order *)
Definition write_decision (i : symbol_input) (consumption : ObservationConsumption) (rotation : option string)
    (prior : option SetupLifecycleRecord) (blocked_write : bool) (final : option SetupLifecycleRecord)
    (transition : SetupTransitionResult) : tx unit :=
  if blocked_write then ret tt else
  do! _ := (match final with
            | None => ret tt
            | Some record =>
                do! _ := persist_consumption true consumption (r_lifecycle_id record) (si_now i) in
                do! _ := (match rotation, prior with
                          | Some _, Some prior => supersede_record (r_lifecycle_id prior)
                          | _, _ => ret tt
                          end) in
                upsert_record record
            end) in
  write_event transition.

(** the outcome pass and the result *)
Definition finish_decision (clock : string) (i : symbol_input) (consumption : ObservationConsumption)
    (existing final : option SetupLifecycleRecord) (transition : SetupTransitionResult)
    (direct : list SetupTransitionResult) : tx service_outcome :=
  let duplicate := match oc_owner_id consumption with Some _ => true | None => false end in
  match final with
  | None => ret (Processed existing None transition direct None duplicate (legacy consumption))
  | Some record =>
      do! evaluation := outcome_pass clock i record in
      match evaluation with
      | Some e =>
          let transition := effective_transition e transition in
          do! _ := persist_terminal_analytics transition (le_progress e) in
          ret (Processed existing (Some (le_record e)) transition (direct ++ le_transitions e)%list (le_progress e) duplicate
                 (legacy consumption))
      | None =>
          do! _ := persist_terminal_analytics transition None in
          ret (Processed existing final transition direct None duplicate (legacy consumption))
      end
  end.

(** the transition, its writes and its outcomes *)
Definition decide (f : fresh_values) (i : symbol_input) (epoch_id : string) (origin : SymbolOriginDecision)
    (consumption : ObservationConsumption) (replayed : bool) (lifecycle_id : string) (rotation : option string)
    (prior existing : option SetupLifecycleRecord) : tx service_outcome :=
  let notes := if legacy consumption then "confirmation_consumption_Unverified" else "observation_already_consumed" in
  do! transition := lift (decide_transition (fv_clock f) i replayed notes lifecycle_id existing) in
  let blocked_write := replayed || (negb (tr_allowed transition) && is_prefix "invalid_stored_plan_geometry:" (tr_notes transition)) in
  let final := option_map (fun r => owned_by r epoch_id (creation_origin existing origin)) (tr_record transition) in
  let direct := if tr_transitioned transition then [transition] else [] in
  let transition := match final with Some r => with_record r transition | None => transition end in
  do! _ := write_decision i consumption rotation prior blocked_write final transition in
  finish_decision (fv_clock f) i consumption existing final transition direct.

(** the part of [_apply_to_symbol_result_with_meta] after the owner of the observation is known *)
Definition apply_decision (f : fresh_values) (i : symbol_input) (epoch_id : string) (origin : SymbolOriginDecision)
    (consumption : ObservationConsumption) (existing : option SetupLifecycleRecord) : tx service_outcome :=
  let o := si_observation i in
  let replayed := legacy consumption || match oc_owner_id consumption with Some _ => true | None => false end in
  do! rotation := lift (if replayed then Ok None else
    generation_rotation_reason existing (Some (o_structural_anchor o)) (generation_setup_observable o)
      (generation_terminal_observation o) (si_now i)) in
  let prior := existing in
  let existing := match rotation with Some _ => None | None => existing end in
  let lifecycle_id := match existing with
    | Some r => r_lifecycle_id r
    | None => new_setup_generation_id (Some (o_symbol o)) (Some (o_mode o)) (Some (o_direction o))
                (Some (o_structural_anchor o)) (Some (fv_generation_id f))
    end in
  do! collision := (match existing with Some _ => ret None | None => query (fun db => get_record_by_lifecycle_id db lifecycle_id) end) in
  match collision with
  | Some record =>
      if bool_decide (r_runtime_epoch_id record = None) then ret (OriginBlocked "legacy_lifecycle_identity_collision")
      else decide f i epoch_id origin consumption replayed lifecycle_id rotation prior existing
  | None => decide f i epoch_id origin consumption replayed lifecycle_id rotation prior existing
  end.

(** ** The handler *)

(** [_apply_to_symbol_result_with_meta] *)
Definition apply_to_symbol_result_with_meta (f : fresh_values) (i : symbol_input) (epoch_id : string) : tx service_outcome :=
  let o := si_observation i in
  let veto (db : database) := legacy_cooldown_veto db (o_symbol o) (o_mode o) (o_direction o) (si_now i) in
  do! origin := evaluate_symbol_origin (fv_origin_id f) (Some (default "" (si_scan_run_id i))) (Some (o_symbol o))
                  (Some (si_evaluation_kind i)) (si_evaluation_completed_at i) (si_decision_cutoff_at i)
                  (si_producer_observed_at i) None in
  if negb (sd_granted origin) then
    fun db => let! db := persist_blocked_symbol_origin (fv_blocked_id f) origin None db in
              Ok (OriginBlocked (sd_reason origin), db)
  else
  do! consumption := query (inspect_consumption true origin o (consumption_lineage i)) in
  if match oc_bound_owners consumption with [] => false | _ => true end then
    do! owners := query (fun db => records_for_source_bindings db (o_symbol o) epoch_id (oc_bound_owners consumption)) in
    account_source_bound_owners (fv_clock f) i epoch_id origin consumption true owners
  else
  let unowned := observation_has_essential_freshness_failure o && negb (legacy consumption)
                 && match oc_owner_id consumption with None => true | Some _ => false end in
  do! owners := query (fun db =>
    if negb unowned then Ok [] else
    let! record := get_record db (o_symbol o) (o_mode o) (o_direction o) in
    match record with Some _ => Ok [] | None => active_epoch_hold_owners db (o_symbol o) epoch_id end) in
  match owners with
  | _ :: _ =>
      do! vetoed := query veto in
      match vetoed with
      | Some reason => ret (OriginBlocked reason)
      | None => account_source_bound_owners (fv_clock f) i epoch_id origin consumption false owners
      end
  | [] =>
      let replayed := legacy consumption || match oc_owner_id consumption with Some _ => true | None => false end in
      do! vetoed := query veto in
      match vetoed, replayed with
      | Some reason, false => ret (OriginBlocked reason)
      | _, _ =>
          do! existing := query (fun db => get_record db (o_symbol o) (o_mode o) (o_direction o)) in
          do! existing := (match oc_owner_id consumption with
                           | Some owner => query (fun db => get_record_by_lifecycle_id db (json_str owner))
                           | None => ret existing
                           end) in
          match legacy consumption, existing with
          | true, None => ret UnverifiedObservation
          | _, _ => apply_decision f i epoch_id origin consumption existing
          end
      end
  end.

(** [_apply_to_symbol_result_isolated]: the savepoint is rolled back when the handler raises; the errors it does not
    name propagate *)
Inductive isolated : Type :=
| Applied (outcome : service_outcome)
| Failed (error : exn) (blocked_reason : option string).

Definition epoch_error_kinds : list string :=
  ["RuntimeEpochOriginError"; "RuntimeEpochIdentityCollisionError"; "RuntimeEpochOwnershipError"].

Definition apply_to_symbol_result_isolated (f : fresh_values) (i : symbol_input) (epoch_id : string) (db : database)
    : result (isolated * database) :=
  match apply_to_symbol_result_with_meta f i epoch_id db with
  | Ok (outcome, db') => Ok (Applied outcome, db')
  | Raise (RuntimeEpochError kind msg) =>
      if str_in kind epoch_error_kinds then Ok (Failed (RuntimeEpochError kind msg) (Some msg), db)
      else Raise (RuntimeEpochError kind msg)
  | Raise e =>
      match e with
      | ValueError _ | IntegrityError _ _ | JSONDecodeError _ | TypeError _ | DecimalError _ => Ok (Failed e None, db)
      | _ => Raise e
      end
  end.
End Service.
