(* ===== verification/LifecycleRun.v ===== *)
(** * A run of the lifecycle service (src/app/lifecycle/service.py, [apply_to_run_result])

    The symbols of a scan, each in its own savepoint, then the monitoring of every
    obligation with the candles of the scan, in one transaction: it commits at the
    end and is rolled back when something raises.  What monitoring commits is
    delivered with the symbol it belongs to, and the run is accounted for in its
    summary.

    Reading an observation from a scanner's result is an input: a symbol comes with
    its observation, or with the error that reading it raised. *)

From stdpp Require Import base tactics list strings.
From Stdlib Require Import ZArith NArith Lia Bool Ascii.
From S2P Require Import Prelude PyString PyDecimal PyTime PyJson LifecycleModels CandleIntegrity JsonText Observation OutcomePolicy Identity StateMachine RuntimeEpoch LifecycleRepository Outcomes EpochOrigin ObservationConsumption TerminalAnalytics OwnerMonitoring LifecycleService.
Open Scope string_scope.
Open Scope py_scope.
Open Scope tx_scope.

(** ** Symbols *)

(** what the first loop prepares *)
Inductive prepared : Type :=
| NotRun
| Unread (error : exn)
| Observed (f : fresh_values) (i : symbol_input).

(** a symbol's result: its name and candles, the transitions it carries, and what was prepared *)
Record run_symbol := { rs_source : evidence_source; rs_transitions : list SetupTransitionResult; rs_prepared : prepared }.

(** the arguments of the handler that the run and the symbol's result fix *)
Definition in_run (timestamp venue run_id : string) (source : evidence_source) (i : symbol_input) : symbol_input :=
  {| si_observation := (si_observation i) <| o_instrument_venue := sv_display venue |>;
     si_evaluation_kind := si_evaluation_kind i; si_evaluation_completed_at := si_evaluation_completed_at i;
     si_decision_cutoff_at := si_decision_cutoff_at i; si_producer_observed_at := si_producer_observed_at i;
     si_execution_timeframe := es_execution_timeframe source; si_execution_candles := es_candles source;
     si_decision_timestamp := option_map CDatetime (es_decision source); si_scan_run_id := Some run_id; si_now := timestamp;
     si_health := si_health i; si_confirmation_cycles := si_confirmation_cycles i;
     si_setup_tolerance_pct := si_setup_tolerance_pct i |}.

(** what became of a symbol *)
Inductive symbol_disposition : Type :=
| SkippedNotRun
| ReadFailed (error : exn)
| Handled (i : symbol_input) (outcome : isolated).

(** ** Transitions *)

(** [_transition_event_identity]: the fifth part is a flag without an event and a timestamp with one *)
Definition event_identity : Type := string * option string * string * string * (bool + string) * string.

Definition transition_event_identity (t : SetupTransitionResult) : event_identity :=
  match tr_event t with
  | None => (tr_lifecycle_id t, option_map state_value (tr_from_state t), state_value (tr_to_state t),
             reason_value (tr_reason t), inl (tr_transitioned t), tr_notes t)
  | Some e => (ev_lifecycle_id e, option_map state_value (ev_from_state e), state_value (ev_to_state e),
               reason_value (ev_reason e), inr (ev_timestamp e), ev_notes e)
  end.

(** the loop of [_with_committed_monitoring_transitions] *)
Fixpoint unseen_transitions (seen : list event_identity) (monitored : list SetupTransitionResult)
    : list SetupTransitionResult :=
  match monitored with
  | [] => []
  | item :: rest =>
      let identity := transition_event_identity item in
      if bool_decide (identity ∈ seen) then unseen_transitions seen rest
      else item :: unseen_transitions (identity :: seen) rest
  end.

(** [_with_committed_monitoring_transitions] *)
Definition with_committed_monitoring_transitions (direct monitored : list SetupTransitionResult) : list SetupTransitionResult :=
  (direct ++ unseen_transitions (map transition_event_identity direct) monitored)%list.

(** [_collect_monitored_transitions], and [monitored_transitions.get(symbol, ())] *)
Definition monitored_for (evaluations : list LifecycleOutcomeEvaluation) (symbol : string) : list SetupTransitionResult :=
  flat_map (fun e => if String.eqb (r_symbol (le_record e)) symbol then le_transitions e else []) evaluations.

(** the transitions of an updated result *)
Definition direct_transitions (s : run_symbol) (d : symbol_disposition) : list SetupTransitionResult :=
  match d with
  | Handled _ (Applied (OwnersHeld transitions _ _)) => transitions
  | Handled _ (Applied (Processed _ _ _ transitions _ _ _)) => transitions
  | _ => rs_transitions s
  end.

(** ** The summary of the process *)

Definition process_keys : list string :=
  ["new_candidates"; "merged_duplicates"; "confirmation_pending"; "confirmed_after_multi_scan"; "decayed"; "expired";
   "actionable_a_grade"; "symbol_health_penalties_applied"; "duplicate_confirmation_observations";
   "unverified_confirmation_observations"].

(** [_process_meta] *)
Definition process_meta (existing : option SetupLifecycleRecord) (transition : SetupTransitionResult) (penalty_cycles : Z)
    : list (string * Z) :=
  let flag (b : bool) : Z := if b then 1%Z else 0%Z in
  let record := tr_record transition in
  let holds (p : SetupLifecycleRecord -> bool) : Z := flag (match record with Some r => p r | None => false end) in
  let previous_decay := match existing with Some e => r_decay_count e | None => 0%Z end in
  let is_state (s : SetupLifecycleState) (r : SetupLifecycleRecord) := bool_decide (r_current_state r = s) in
  [("new_candidates", holds (fun _ => match existing with None => true | Some _ => false end));
   ("merged_duplicates", holds (fun _ => match existing with None => false | Some _ => true end));
   ("confirmation_pending", holds (fun r => negb (r_confirmation_count r =? 0)%Z
                                            && (r_confirmation_count r <? r_required_confirmation_cycles r)%Z));
   ("confirmed_after_multi_scan", flag (bool_decide (tr_reason transition = MULTI_SCAN_CONFIRMED)));
   ("decayed", holds (fun r => (previous_decay <? r_decay_count r)%Z));
   ("expired", holds (fun r => is_state EXPIRED r && match existing with None => true | Some e => negb (is_state EXPIRED e) end));
   ("actionable_a_grade", holds (is_state ACTIONABLE_A_GRADE));
   ("symbol_health_penalties_applied", flag (0 <? penalty_cycles)%Z)].

(** the meta of an outcome; the keys that are not counters are left out *)
Definition outcome_meta (i : symbol_input) (outcome : service_outcome) : list (string * Z) :=
  match outcome with
  | OriginBlocked _ => []
  | UnverifiedObservation => [("unverified_confirmation_observations", 1%Z)]
  | OwnersHeld _ _ duplicates => [("duplicate_confirmation_observations", Z.of_nat duplicates)]
  | Processed existing _ transition _ _ duplicate unverified =>
      (process_meta existing transition (symbol_health_penalty_cycles (si_health i))
       ++ [("duplicate_confirmation_observations", if duplicate then 1%Z else 0%Z);
           ("unverified_confirmation_observations", if unverified then 1%Z else 0%Z)])%list
  end.

(** [_add_process_meta] *)
Definition add_process_meta (counts meta : list (string * Z)) : list (string * Z) :=
  fold_left (fun d key => dict_update key 0%Z (Z.add (default 0%Z (evidence_for key meta))) d) process_keys counts.

(** an entry of [errors]: symbol, type and detail *)
Record symbol_error := { se_symbol : string; se_type : string; se_detail : string }.

Record process_summary := mkSummary {
  ps_scanned_symbols : Z;
  ps_processed_symbols : Z;
  ps_failed_symbols : Z;
  ps_skipped_not_run_symbols : Z;
  ps_status : string;
  ps_errors : list symbol_error;
  ps_counts : list (string * Z)
}.
#[export] Instance process_summary_eta : RecordEta process_summary := fun s =>
  mkSummary (ps_scanned_symbols s) (ps_processed_symbols s) (ps_failed_symbols s) (ps_skipped_not_run_symbols s) (ps_status s)
    (ps_errors s) (ps_counts s).

(** [_empty_process_summary] *)
Definition empty_process_summary (scanned_symbols : Z) : process_summary :=
  mkSummary scanned_symbols 0 0 0 "SUCCESS" [] (map (fun key => (key, 0%Z)) process_keys).

Section Run.
Context `{JsonErrors} `{ExnText}.

(** [_record_lifecycle_symbol_error] *)
Definition record_lifecycle_symbol_error (s : process_summary) (symbol : string) (e : exn) : process_summary :=
  s <| ps_failed_symbols := (ps_failed_symbols s + 1)%Z |>
    <| ps_errors := (ps_errors s ++ [{| se_symbol := symbol; se_type := exn_name e;
                                        se_detail := or_text (py_strip (exn_text e)) (exn_name e) |}])%list |>.

(** the summary of the first loop *)
Definition account_prepared (s : process_summary) (symbol : run_symbol) : process_summary :=
  match rs_prepared symbol with
  | NotRun => s <| ps_skipped_not_run_symbols := (ps_skipped_not_run_symbols s + 1)%Z |>
  | Unread e => record_lifecycle_symbol_error s (es_symbol (rs_source symbol)) e
  | Observed _ _ => s
  end.

(** the summary of the second loop *)
Definition account_handled (s : process_summary) (symbol : run_symbol * symbol_disposition) : process_summary :=
  match snd symbol with
  | Handled i (Applied outcome) => s <| ps_counts := add_process_meta (ps_counts s) (outcome_meta i outcome) |>
  | Handled _ (Failed e _) => record_lifecycle_symbol_error s (es_symbol (rs_source (fst symbol))) e
  | _ => s
  end.

(** the counts at the end of the run *)
Definition close_summary (s : process_summary) (results : nat) : process_summary :=
  s <| ps_processed_symbols := (Z.of_nat results - ps_failed_symbols s - ps_skipped_not_run_symbols s)%Z |>
    <| ps_status := if (ps_failed_symbols s =? 0)%Z then "SUCCESS" else "PARTIAL" |>.

(** ** The run *)

(** the second loop, over the prepared symbols *)
Fixpoint apply_symbols (timestamp venue run_id epoch_id : string) (symbols : list run_symbol) : tx (list symbol_disposition) :=
  match symbols with
  | [] => ret []
  | s :: rest =>
      do! first := (match rs_prepared s with
                    | NotRun => ret SkippedNotRun
                    | Unread e => ret (ReadFailed e)
                    | Observed f i =>
                        let i := in_run timestamp venue run_id (rs_source s) i in
                        do! outcome := apply_to_symbol_result_isolated f i epoch_id in
                        ret (Handled i outcome)
                    end) in
      do! others := apply_symbols timestamp venue run_id epoch_id rest in
      ret (first :: others)
  end.

(** a result that is returned *)
Record run_row := { rr_symbol : string; rr_disposition : symbol_disposition; rr_transitions : list SetupTransitionResult }.

Record run_result := {
  ru_rows : list run_row;
  ru_summary : process_summary;
  ru_owner_monitoring : OwnerMonitoringResult
}.

Definition deliver (evaluations : list LifecycleOutcomeEvaluation) (s : run_symbol) (d : symbol_disposition) : run_row :=
  {| rr_symbol := es_symbol (rs_source s); rr_disposition := d;
     rr_transitions := with_committed_monitoring_transitions (direct_transitions s d)
                         (monitored_for evaluations (es_symbol (rs_source s))) |}.

(** the evidence of a run *)
Definition run_evidence (timestamp : string) (symbols : list run_symbol) : list (string * SymbolMonitoringEvidence) :=
  evidence_from_symbol_results (map rs_source symbols) timestamp [].

(** [apply_to_run_result] *)
Definition apply_to_run_result (clock timestamp venue execution_timeframe : string) (scan_run_id : option string)
    (symbols : list run_symbol) : tx run_result :=
  let summary := fold_left account_prepared symbols (empty_process_summary (Z.of_nat (length symbols))) in
  let run_id := column_text scan_run_id in
  if String.eqb run_id "" then lift (Raise (origin_error "Lifecycle consumption requires a persisted operational run_id.")) else
  do! epoch := query require_active_runtime_epoch in
  do! _ := query (require_registered_operational_run (Some run_id) (Some epoch)) in
  do! dispositions := apply_symbols timestamp venue run_id (re_epoch_id epoch) symbols in
  do! (monitoring, evaluations) :=
    monitor_tracking_obligations clock (run_evidence timestamp symbols) timestamp (Some run_id)
      (or_text execution_timeframe "15m") false [] in
  let rows := zip_with (deliver evaluations) symbols dispositions in
  ret {| ru_rows := rows;
         ru_summary := close_summary (fold_left account_handled (zip symbols dispositions) summary) (length rows);
         ru_owner_monitoring := monitoring |}.

(** [apply_to_symbol_result]: one symbol, in the transaction of the caller *)
Definition apply_to_symbol_result (f : fresh_values) (i : symbol_input) : tx service_outcome :=
  do! epoch := query require_active_runtime_epoch in
  let run_id := column_text (si_scan_run_id i) in
  if String.eqb run_id "" then lift (Raise (origin_error "Lifecycle consumption requires a persisted operational run_id.")) else
  do! _ := query (require_registered_operational_run (Some run_id) (Some epoch)) in
  let i := {| si_observation := si_observation i; si_evaluation_kind := si_evaluation_kind i;
              si_evaluation_completed_at := si_evaluation_completed_at i; si_decision_cutoff_at := si_decision_cutoff_at i;
              si_producer_observed_at := si_producer_observed_at i; si_execution_timeframe := si_execution_timeframe i;
              si_execution_candles := si_execution_candles i; si_decision_timestamp := si_decision_timestamp i;
              si_scan_run_id := Some run_id; si_now := si_now i; si_health := None;
              si_confirmation_cycles := si_confirmation_cycles i; si_setup_tolerance_pct := si_setup_tolerance_pct i |} in
  do! outcome := apply_to_symbol_result_isolated f i (re_epoch_id epoch) in
  match outcome with
  | Applied outcome => ret outcome
  | Failed e _ => lift (Raise e)
  end.
End Run.
