(* ===== verification/ServiceProps.v ===== *)
(** * An observation is applied once (facts about [LifecycleService])

    What the state machine keeps of a lifecycle's key, what a written lifecycle
    looks like to the ownership guards, and the theorem that applying the same
    observation again writes nothing. *)

From stdpp Require Import base tactics list relations strings.
From Stdlib Require Import ZArith NArith Lia Bool Ascii.
From S2P Require Import Prelude PyString PyDecimal PyTime Sha256 PyJson LifecycleModels CandleIntegrity JsonText JsonFacts Observation OutcomePolicy Identity EconomicIdentity DynRecord StateMachine StateMachineFacts RuntimeEpoch LifecycleRepository RepositoryFacts Outcomes StateMachineProps EpochOrigin ObservationConsumption EpochOriginProps ConsumptionProps TerminalAnalytics LifecycleService.
Open Scope string_scope.
Open Scope py_scope.

(** ** The key of a lifecycle *)

Definition slot (r : SetupLifecycleRecord) : string * string * string * string :=
  (r_lifecycle_id r, r_symbol r, r_mode r, r_direction r).

Lemma same_but_identity_slot a b : same_but_identity a b -> slot b = slot a.
Proof. intros ->. by destruct a. Qed.

Lemma scan_target_slot record o ts a rc next updated decay diag :
  scan_target record o ts a rc = Ok (next, updated, decay, diag) -> slot updated = slot record.
Proof.
  intros H. apply scan_target_inv in H as (c & n1 & u1 & Hg & Hd).
  assert (slot u1 = slot record) as <- by (by destruct Hg).
  apply apply_decay_cases in Hd. by destruct Hd.
Qed.

Lemma transition_outcome_slot record to_state a ts gate res out :
  transition_outcome record to_state a ts gate res -> tr_record res = Some out -> slot out = slot record.
Proof.
  intros [He|notes Hn Hd|res' Hn Hin _ Hm] Hout; [by injection Hout as <-..|].
  apply moved_result_shape in Hm as (ev & r' & -> & _ & _ & _ & _ & _ & cd & _ & ->). by injection Hout as <-.
Qed.

(** a scan of a stored lifecycle keeps its key *)
Lemma evaluate_existing_slot clock a record o res out :
  evaluate_existing clock a record o = Ok res -> tr_record res = Some out -> slot out = slot record.
Proof.
  intros H Hout. apply evaluate_existing_cases in H as (pre & mid & r' & He & Hs & ->). injection Hout as <-.
  rewrite (same_but_identity_slot _ _ Hs). destruct He as [f _ _|ta _ _ _ _ res r Hr| |next updated decay diag res r _ _ Ht Htr Hr].
  - done.
  - by injection Hr as <-.
  - done.
  - apply transition_record_outcome in Htr. rewrite (transition_outcome_slot _ _ _ _ _ _ _ Htr Hr). by eapply scan_target_slot.
Qed.

Lemma validate_record_slot r r' : validate_record r = Ok r' ->
  slot r' = (r_lifecycle_id r, py_upper (py_strip (r_symbol r)), normalize_text (r_mode r), normalize_text (r_direction r)).
Proof.
  unfold validate_record. destruct (normalize_symbol (r_symbol r)) as [sym|] eqn:Es; cbn [bind_result]; [|discriminate].
  destruct (negb _); [discriminate|]. intros H. apply ok_inj in H as <-. apply normalize_symbol_ok in Es as [-> _]. reflexivity.
Qed.

(** a new lifecycle has the key of its observation *)
Lemma evaluate_new_slot clock a o res out : evaluate_new clock a o = Ok res -> tr_record res = Some out ->
  slot out = (ea_lifecycle_id a, py_upper (py_strip (o_symbol o)), normalize_text (lower_or_na (o_mode o)),
              normalize_text (lower_or_na (o_direction o))).
Proof.
  intros H Hout. apply evaluate_new_cases in H as (r0 & mid & r1 & H0 & Hs & Hr1 & _ & _ & Hm).
  rewrite Hout in Hr1. injection Hr1 as <-. rewrite (same_but_identity_slot _ _ Hs).
  unfold first_record in H0. apply validate_record_slot in H0.
  transitivity (slot r0); [by destruct Hm as [[-> _]|(f & _ & _ & ->)]|exact H0].
Qed.

(** ** Texts *)

Lemma lower_nonempty s : py_lower s = "" -> s = "".
Proof. by destruct s. Qed.

Lemma key_text_normalized s : key_text s <> "" -> identity_text (normalize_text s) = key_text s.
Proof.
  intros H. unfold identity_text, normalize_text, key_text in *.
  destruct (String.eqb_spec (py_strip s) "") as [E|]; [by rewrite E in H|]. rewrite py_strip_idem.
  by rewrite (proj2 (String.eqb_neq _ _) H).
Qed.

Lemma key_text_new s : key_text s <> "" -> identity_text (normalize_text (lower_or_na s)) = key_text s.
Proof.
  intros H. assert (key_text (lower_or_na s) = key_text s) as E.
  { unfold lower_or_na, is_na, sm_text, key_text in *. destruct (String.eqb_spec s "") as [->|]; [done|].
    destruct (String.eqb_spec (py_strip s) "") as [E|]; [by rewrite E in H|].
    destruct (String.eqb_spec (py_strip s) NA) as [->|]; [done|]. by rewrite py_strip_lower, py_strip_idem, py_lower_idem. }
  rewrite key_text_normalized; by rewrite E.
Qed.

Lemma identity_text_key s : key_text s <> "" -> identity_text s = key_text s.
Proof. intros H. unfold identity_text, key_text in *. by rewrite (proj2 (String.eqb_neq _ _) H). Qed.

Lemma identity_text_named a b : identity_text a = key_text b -> key_text a <> "".
Proof.
  unfold identity_text. intros E Ha. fold (key_text a) in E. rewrite Ha in E. cbn in E.
  assert (py_lower (key_text b) = key_text b) as Hb by apply py_lower_idem. by rewrite <- E in Hb.
Qed.

Lemma repository_symbol_key s : symbol_key s <> "" -> repository_symbol s = symbol_key s.
Proof. intros H. unfold repository_symbol, symbol_key in *. by rewrite (proj2 (String.eqb_neq _ _) H). Qed.

(** ** Ownership of a written lifecycle *)

(** the tables the guards read *)
Definition same_ownership (db db' : database) : Prop :=
  db_control db' = db_control db /\ db_epochs db' = db_epochs db /\ db_origins db' = db_origins db /\ db_runs db' = db_runs db.

Lemma origin_owns_same db db' id symbol epoch : same_ownership db db' ->
  require_origin_owns_symbol db' id symbol epoch = require_origin_owns_symbol db id symbol epoch.
Proof. intros (Hc & He & Ho & Hr). unfold require_origin_owns_symbol, load_granted_origin. by rewrite Ho, Hr. Qed.

Lemma active_epoch_same db db' : same_ownership db db' -> require_active_runtime_epoch db' = require_active_runtime_epoch db.
Proof. intros (Hc & He & _). unfold require_active_runtime_epoch, load_active_runtime_epoch. by rewrite Hc, He. Qed.

Lemma require_current_same db db' id : same_ownership db db' -> db_records db' = db_records db ->
  require_current_epoch_lifecycle_id db' id = require_current_epoch_lifecycle_id db id.
Proof.
  intros Hs Hr. unfold require_current_epoch_lifecycle_id, record_row_of. rewrite (active_epoch_same _ _ Hs), Hr.
  destruct (require_active_runtime_epoch db); [|done]. cbn [bind_result].
  repeat (case_match; try done). by rewrite (origin_owns_same _ _ _ _ _ Hs).
Qed.

(** the row an upsert stores *)
Definition stored_row (db : database) (record : SetupLifecycleRecord) : SetupLifecycleRecord :=
  match record_row_of db (r_lifecycle_id record) with
  | Some row => (record_params record) <| r_runtime_epoch_id := r_runtime_epoch_id row |>
                  <| r_creation_origin_id := r_creation_origin_id row |>
  | None => record_params record
  end.

Lemma stored_row_slot db record : slot (stored_row db record) =
  (r_lifecycle_id record, r_symbol record, identity_text (r_mode record), identity_text (r_direction record)).
Proof. unfold stored_row. by destruct (record_row_of db _). Qed.

Lemma upsert_run record db db' : upsert_record record db = Ok (tt, db') ->
  (exists inserting epoch, require_current_epoch_lifecycle_write db record inserting = Ok epoch) /\
  same_ownership db db' /\ record_row_of db' (r_lifecycle_id record) = Some (stored_row db record).
Proof.
  unfold upsert_record. intros H. apply bind_ok in H as (existing & _ & H). apply bind_ok in H as (epoch & Hw & H).
  split; [by eauto|]. change (r_lifecycle_id (record_params record)) with (r_lifecycle_id record) in H. fold (stored_row db record) in H.
  destruct (existsb _ (db_records db)); [done|]. apply ok_inj in H. injection H as <-. split; [done|].
  assert (String.eqb (r_lifecycle_id (stored_row db record)) (r_lifecycle_id record) = true) as Hid.
  { pose proof (stored_row_slot db record) as Hs. injection Hs as -> _ _ _. apply String.eqb_refl. }
  unfold record_row_of at 1. cbn [db_records set_field].
  destruct (existsb _ (db_records db)) eqn:E.
  - rewrite find_update_row by (intros x Hx; by rewrite Hx, Hid).
    apply existsb_exists in E as (x & Hin & Hx). destruct (find _ (db_records db)) as [y|] eqn:Hf.
    + apply find_some in Hf as [_ Hy]. cbn [option_map]. by rewrite Hy.
    + apply (find_none _ _ Hf) in Hin. by rewrite Hin in Hx.
  - rewrite RepositoryFacts.find_app. destruct (find _ (db_records db)) as [y|] eqn:Hf.
    + apply find_some in Hf as [Hin Hy]. apply not_true_iff_false in E. destruct E. apply existsb_exists. by exists y.
    + cbn [find]. by rewrite Hid.
Qed.

Lemma require_current_intro db id row active o : require_active_runtime_epoch db = Ok active -> py_strip id = id ->
  (String.eqb id "" || String.eqb (py_upper id) NA) = false -> record_row_of db id = Some row ->
  lifecycle_row_epoch_id row = Some (re_epoch_id active) -> column_text (r_creation_origin_id row) <> "" ->
  require_origin_owns_symbol db (column_text (r_creation_origin_id row)) (canonical_operational_symbol (r_symbol row))
    (re_epoch_id active) = Ok o ->
  require_current_epoch_lifecycle_id db id = Ok row.
Proof.
  intros Ha Hid Hn Hrow He Ho Hown. unfold require_current_epoch_lifecycle_id. rewrite Ha. cbn [bind_result].
  rewrite Hid, Hn, Hrow, He, String.eqb_refl. cbn [negb]. by rewrite (proj2 (String.eqb_neq _ _) Ho), Hown.
Qed.

(** what the write guard lets through is owned afterwards *)
Lemma upsert_owned record db db' : py_strip (r_lifecycle_id record) = r_lifecycle_id record ->
  (forall e, r_runtime_epoch_id record = Some e -> py_strip e = e /\ e <> "") ->
  canonical_operational_symbol (r_symbol record) <> "" -> upsert_record record db = Ok (tt, db') ->
  require_current_epoch_lifecycle_id db' (r_lifecycle_id record) = Ok (stored_row db record).
Proof.
  intros Hid Hepoch Hsym H. apply upsert_run in H as ((inserting & epoch & Hw) & Hs & Hrow).
  unfold require_current_epoch_lifecycle_write in Hw. apply bind_ok in Hw as (active & Ha & Hw). cbn zeta in Hw. rewrite Hid in Hw.
  destruct (String.eqb (r_lifecycle_id record) "" || _) eqn:Hn; [done|]. rewrite <- (active_epoch_same _ _ Hs) in Ha.
  destruct (record_row_of db (r_lifecycle_id record)) as [row|] eqn:Hr.
  - assert (lifecycle_row_epoch_id (stored_row db record) = lifecycle_row_epoch_id row /\
      r_creation_origin_id (stored_row db record) = r_creation_origin_id row /\ r_symbol (stored_row db record) = r_symbol record)
      as (E1 & E2 & E3) by (unfold stored_row; by rewrite Hr).
    destruct (lifecycle_row_epoch_id row) as [e|]; [|done].
    destruct (String.eqb_spec e (re_epoch_id active)) as [Ee|]; [|done]. rewrite Ee in E1. cbn [negb] in Hw. destruct (negb _); [done|].
    destruct (String.eqb_spec (column_text (r_creation_origin_id row)) "") as [|Hne]; [done|]. destruct (origin_changed _ _); [done|].
    rewrite (proj2 (String.eqb_neq _ _) Hsym) in Hw. apply bind_ok in Hw as (o & Ho & _).
    eapply require_current_intro; rewrite ?E2, ?E3; try done. by rewrite (origin_owns_same _ _ _ _ _ Hs).
  - assert (stored_row db record = record_params record) as E by (unfold stored_row; by rewrite Hr). rewrite E in *.
    destruct inserting; [|done]. cbn [negb] in Hw.
    destruct (bool_decide_reflect (r_runtime_epoch_id record = Some (re_epoch_id active))) as [He|]; [|done]. cbn [negb] in Hw.
    destruct (String.eqb_spec (column_text (r_creation_origin_id record)) "") as [|Hne]; [done|].
    apply bind_ok in Hw as (o & Ho & _). destruct (Hepoch _ He) as [Hstrip Hnonempty].
    eapply require_current_intro; try done; [|by rewrite (origin_owns_same _ _ _ _ _ Hs)].
    unfold lifecycle_row_epoch_id. change (r_runtime_epoch_id (record_params record)) with (r_runtime_epoch_id record).
    rewrite He. cbn [column_text]. rewrite Hstrip. by rewrite (proj2 (String.eqb_neq _ _) Hnonempty).
Qed.

Lemma write_event_run t db u db' : write_event t db = Ok (u, db') ->
  same_ownership db db' /\ db_records db' = db_records db.
Proof.
  unfold write_event. destruct (tr_event t) as [event|]; [|by intros [= _ <-]].
  unfold insert_event. intros H. apply bind_ok in H as (row & _ & H). destruct (negb _); [done|]. apply ok_inj in H. by injection H as _ <-.
Qed.

Lemma supersede_run id db u db' : supersede_record id db = Ok (u, db') -> same_ownership db db'.
Proof. unfold supersede_record. intros H. apply bind_ok in H as (row & _ & H). apply ok_inj in H. by injection H as _ <-. Qed.

(** ** The first application *)

Lemma query_ok {A} (q : database -> result A) db a db' : query q db = Ok (a, db') -> q db = Ok a /\ db' = db.
Proof. unfold query. destruct (q db); [|discriminate]. by intros [= <- <-]. Qed.

Lemma ret_ok {A} (a b : A) db db' : ret a db = Ok (b, db') -> b = a /\ db' = db.
Proof. by intros [= <- <-]. Qed.

Section Service.
Context `{JsonErrors}.

Lemma outcome_pass_none clock i record db e db' : si_execution_candles i = None ->
  outcome_pass clock i record db = Ok (e, db') -> e = None /\ db' = db.
Proof.
  intros Hc Hp. unfold outcome_pass in Hp. apply bind_tx_ok in Hp as (candles & db1 & Hq & Hp). apply query_ok in Hq as [Hq ->].
  unfold matching_execution_candles in Hq. rewrite Hc in Hq. apply ok_inj in Hq as <-. by apply ret_ok in Hp.
Qed.

Lemma outcome_pass_skipped clock i record db : si_execution_candles i = None -> outcome_pass clock i record db = Ok (None, db).
Proof. intros Hc. unfold outcome_pass, bind_tx, query, matching_execution_candles. by rewrite Hc. Qed.

(** the writes of a decision that is not a retry *)
Record written (i : symbol_input) (c : ObservationConsumption) (record : SetupLifecycleRecord) (tr : SetupTransitionResult)
    (db db1 : database) : Prop := {
  wr_receipt : exists c' dbA dbB dbC dbW, persist_consumption true c (r_lifecycle_id record) (si_now i) db = Ok (c', dbA) /\
    same_ownership dbA dbB /\ upsert_record record dbB = Ok (tt, dbC) /\ write_event tr dbC = Ok (tt, dbW) /\
    tr_record tr = Some record /\ persist_terminal_analytics tr None dbW = Ok (tt, db1)
}.

Lemma write_decision_run i c rotation prior record tr db dbW db1 :
  write_decision i c rotation prior false (Some record) tr db = Ok (tt, dbW) -> tr_record tr = Some record ->
  persist_terminal_analytics tr None dbW = Ok (tt, db1) -> written i c record tr db db1.
Proof.
  unfold write_decision. intros Hw Hrec Han. apply bind_tx_ok in Hw as ([] & dbC & Hw & He).
  apply bind_tx_ok in Hw as (c' & dbA & Hp & Hw). apply bind_tx_ok in Hw as ([] & dbB & Hs & Hu).
  split. exists c', dbA, dbB, dbC, dbW. split; [done|]. split; [|done].
  destruct rotation, prior; try (by apply ret_ok in Hs as [_ ->]). by eapply supersede_run.
Qed.

(** the tables the writes leave *)
Lemma written_tables i c record tr db db1 : written i c record tr db db1 ->
  (exists c' dbA dbB dbC, persist_consumption true c (r_lifecycle_id record) (si_now i) db = Ok (c', dbA) /\
    same_ownership dbA dbB /\ upsert_record record dbB = Ok (tt, dbC) /\
    same_ownership dbC db1 /\ db_records db1 = db_records dbC) /\
  analytics_complete record db1.
Proof.
  intros [(c' & dbA & dbB & dbC & dbW & Hp & Hs & Hu & He & Hrec & Han)].
  apply (persist_terminal_run _ _ _ _ _ _ Hrec) in Han as ((rows & ->) & Hcomplete). split; [|done].
  apply write_event_run in He as [Hown Hrecs]. exists c', dbA, dbB, dbC. by split_and!.
Qed.

(** the scan of a decision that is not a retry *)
Definition scanned (f : fresh_values) (i : symbol_input) (epoch_id : string) (d : SymbolOriginDecision)
    (existing : option SetupLifecycleRecord) (record : SetupLifecycleRecord) : Prop :=
  exists lifecycle_id score penalty t0 r0,
    lifecycle_id = match existing with
                   | Some r => r_lifecycle_id r
                   | None => new_setup_generation_id (Some (o_symbol (si_observation i))) (Some (o_mode (si_observation i)))
                               (Some (o_direction (si_observation i))) (Some (o_structural_anchor (si_observation i)))
                               (Some (fv_generation_id f))
                   end /\
    evaluate_lifecycle_transition (fv_clock f) existing (si_observation i) (scan_arguments i lifecycle_id score penalty) = Ok t0 /\
    tr_record t0 = Some r0 /\ record = owned_by r0 epoch_id (creation_origin existing d).

Lemma decide_run f i epoch_id d c lifecycle_id rotation prior existing ex record tr trs p dup unv db db1 :
  si_execution_candles i = None ->
  lifecycle_id = match existing with
                 | Some r => r_lifecycle_id r
                 | None => new_setup_generation_id (Some (o_symbol (si_observation i))) (Some (o_mode (si_observation i)))
                             (Some (o_direction (si_observation i))) (Some (o_structural_anchor (si_observation i)))
                             (Some (fv_generation_id f))
                 end ->
  decide f i epoch_id d c false lifecycle_id rotation prior existing db = Ok (Processed ex (Some record) tr trs p dup unv, db1) ->
  tr_allowed tr = true ->
  ex = existing /\ scanned f i epoch_id d existing record /\ written i c record tr db db1 /\
  dup = (match oc_owner_id c with Some _ => true | None => false end) /\ unv = legacy c.
Proof.
  intros Hcandles Hid Hd Hallowed. unfold decide in Hd. apply bind_tx_ok in Hd as (t0 & db2 & Ht & Hd). apply lift_ok in Ht as [Ht ->].
  unfold decide_transition in Ht. cbn [orb] in Hd. apply bind_tx_ok in Hd as ([] & db3 & Hw & Hd).
  unfold finish_decision in Hd.
  destruct (tr_record t0) as [r0|] eqn:Hr0; cbn [option_map] in Hw, Hd.
  - apply bind_tx_ok in Hd as (e & db4 & Hp & Hd). apply (outcome_pass_none _ _ _ _ _ _ Hcandles) in Hp as [-> ->].
    apply bind_tx_ok in Hd as ([] & db4 & Han & Hd). apply ret_ok in Hd as [Hd ->]. injection Hd as -> -> -> -> -> -> ->.
    change (tr_allowed (with_record (owned_by r0 epoch_id (creation_origin existing d)) t0)) with (tr_allowed t0) in Hallowed.
    rewrite Hallowed in Hw. cbn [negb andb] in Hw. split; [done|]. split.
    + eexists _, _, _, t0, r0. split; [exact Hid|]. split; [exact Ht|done].
    + split; [by eapply write_decision_run|done].
  - apply ret_ok in Hd as [Hd _]. discriminate Hd.
Qed.

(** what a processed observation did *)
Record processed (f : fresh_values) (i : symbol_input) (epoch_id : string) (ex : option SetupLifecycleRecord)
    (record : SetupLifecycleRecord) (tr : SetupTransitionResult) (db db1 : database) : Prop := {
  pr_run : exists d db0 c,
    evaluate_symbol_origin (fv_origin_id f) (Some (default "" (si_scan_run_id i))) (Some (o_symbol (si_observation i)))
      (Some (si_evaluation_kind i)) (si_evaluation_completed_at i) (si_decision_cutoff_at i) (si_producer_observed_at i) None db
      = Ok (d, db0) /\
    sd_granted d = true /\ inspect_consumption true d (si_observation i) (consumption_lineage i) db0 = Ok c /\
    oc_owner_id c = None /\ oc_bound_owners c = [] /\ legacy c = false /\
    (ex = None \/ get_record db0 (o_symbol (si_observation i)) (o_mode (si_observation i)) (o_direction (si_observation i)) = Ok ex) /\
    scanned f i epoch_id d ex record /\ written i c record tr db0 db1
}.

Lemma apply_decision_run f i epoch_id d c existing ex record tr trs p db db1 :
  si_execution_candles i = None -> oc_owner_id c = None -> legacy c = false ->
  apply_decision f i epoch_id d c existing db = Ok (Processed ex (Some record) tr trs p false false, db1) ->
  tr_allowed tr = true ->
  (ex = None \/ ex = existing) /\ scanned f i epoch_id d ex record /\ written i c record tr db db1.
Proof.
  intros Hcandles Ho Hl Ha Hallowed. unfold apply_decision in Ha. rewrite Hl, Ho in Ha. cbn [orb] in Ha.
  apply bind_tx_ok in Ha as (rotation & db2 & Hr & Ha). apply lift_ok in Hr as [_ ->].
  apply bind_tx_ok in Ha as (collision & db2 & Hc & Ha).
  set (kept := match rotation with Some _ => None | None => existing end) in *.
  assert (db2 = db) as ->.
  { destruct kept; [by apply ret_ok in Hc as [_ ->]|by apply query_ok in Hc as [_ ->]]. }
  destruct (match collision with Some r => bool_decide (r_runtime_epoch_id r = None) | None => false end) eqn:Hcol.
  { destruct collision as [r|]; [|done]. rewrite Hcol in Ha. by apply ret_ok in Ha as [Ha _]. }
  assert (decide f i epoch_id d c false (match kept with
    | Some r => r_lifecycle_id r
    | None => new_setup_generation_id (Some (o_symbol (si_observation i))) (Some (o_mode (si_observation i)))
                (Some (o_direction (si_observation i))) (Some (o_structural_anchor (si_observation i))) (Some (fv_generation_id f))
    end) rotation existing kept db = Ok (Processed ex (Some record) tr trs p false false, db1)) as Hd
    by (destruct collision; [by rewrite Hcol in Ha|done]).
  apply decide_run in Hd as (-> & Hs & Hw & _); [|done..]. split; [|done]. unfold kept. destruct rotation; auto.
Qed.

Lemma finish_decision_flags clock i c existing final t direct ex r t' ts p dup unv db db1 :
  finish_decision clock i c existing final t direct db = Ok (Processed ex r t' ts p dup unv, db1) ->
  dup = (match oc_owner_id c with Some _ => true | None => false end) /\ unv = legacy c.
Proof.
  unfold finish_decision. intros E. destruct final as [record|]; [|apply ret_ok in E as [E _]; by injection E].
  apply bind_tx_ok in E as (e & ? & _ & E).
  destruct e; apply bind_tx_ok in E as (? & ? & _ & E); apply ret_ok in E as [E _]; by injection E.
Qed.

(** a retry is reported as one *)
Lemma retry_not_first f i epoch_id ex record tr trs p c d db0 db1 : si_execution_candles i = None ->
  (legacy c || match oc_owner_id c with Some _ => true | None => false end) = true ->
  (bind_tx (query (fun db => get_record db (o_symbol (si_observation i)) (o_mode (si_observation i)) (o_direction (si_observation i))))
     (fun existing => bind_tx (match oc_owner_id c with
                               | Some owner => query (fun db => get_record_by_lifecycle_id db (json_str owner))
                               | None => ret existing
                               end)
       (fun existing => match legacy c, existing with
                        | true, None => ret UnverifiedObservation
                        | _, _ => apply_decision f i epoch_id d c existing
                        end))) db0 <> Ok (Processed ex (Some record) tr trs p false false, db1).
Proof.
  intros Hcandles Hrep Ha. apply bind_tx_ok in Ha as (x & dbx & _ & Ha). apply bind_tx_ok in Ha as (y & dby & _ & Ha).
  assert (apply_decision f i epoch_id d c y dby = Ok (Processed ex (Some record) tr trs p false false, db1)) as Hap.
  { by destruct (legacy c), y. }
  unfold apply_decision in Hap. rewrite Hrep in Hap. apply bind_tx_ok in Hap as (rot & ? & _ & Hap).
  apply bind_tx_ok in Hap as (col & ? & _ & Hap).
  assert (forall lid own db', decide f i epoch_id d c true lid rot own (match rot with Some _ => None | None => own end) db'
    <> Ok (Processed ex (Some record) tr trs p false false, db1)) as Hdec.
  { intros lid own db' E. unfold decide in E. apply bind_tx_ok in E as (t & ? & _ & E). apply bind_tx_ok in E as (? & ? & _ & E).
    apply finish_decision_flags in E as [E1 E2]. destruct (legacy c), (oc_owner_id c); done. }
  destruct col as [r|]; [destruct (bool_decide _); [by apply ret_ok in Hap as [Hap _]|]|]; by destruct (Hdec _ _ _ Hap).
Qed.

Lemma apply_run_processed f i epoch_id ex record tr trs p db db1 : si_execution_candles i = None -> tr_allowed tr = true ->
  apply_to_symbol_result_with_meta f i epoch_id db = Ok (Processed ex (Some record) tr trs p false false, db1) ->
  processed f i epoch_id ex record tr db db1.
Proof.
  intros Hcandles Hallowed Ha. unfold apply_to_symbol_result_with_meta in Ha.
  apply bind_tx_ok in Ha as (d & db0 & Hd & Ha). destruct (sd_granted d) eqn:Hg; cbn [negb] in Ha.
  2:{ apply bind_ok in Ha as (x & _ & Ha). apply ok_inj in Ha. by injection Ha. }
  apply bind_tx_ok in Ha as (c & db2 & Hc & Ha). apply query_ok in Hc as [Hc ->].
  assert (forall o q r own, account_source_bound_owners (fv_clock f) i epoch_id d c r own o
    <> Ok (Processed ex (Some record) tr trs p false false, q)) as Hheld.
  { intros o q r own E. unfold account_source_bound_owners in E. apply bind_tx_ok in E as (? & ? & _ & E).
    apply bind_tx_ok in E as (? & ? & _ & E). by apply ret_ok in E as [E _]. }
  destruct (oc_bound_owners c) eqn:Hb.
  2:{ apply bind_tx_ok in Ha as (own & db2 & _ & Ha). by destruct (Hheld _ _ _ _ Ha). }
  apply bind_tx_ok in Ha as (owners & db2 & Ho & Ha). apply query_ok in Ho as [_ ->].
  destruct owners as [|w owners].
  2:{ apply bind_tx_ok in Ha as (v & db2 & _ & Ha). destruct v as [reason|]; [by apply ret_ok in Ha as [Ha _]|]. by destruct (Hheld _ _ _ _ Ha). }
  apply bind_tx_ok in Ha as (v & db2 & Hv & Ha). apply query_ok in Hv as [_ ->].
  assert (exists existing, get_record db0 (o_symbol (si_observation i)) (o_mode (si_observation i)) (o_direction (si_observation i)) = Ok existing /\
    oc_owner_id c = None /\ legacy c = false /\
    apply_decision f i epoch_id d c existing db0 = Ok (Processed ex (Some record) tr trs p false false, db1)) as (existing & Hex & Hown & Hl & Hap).
  { destruct (legacy c || _) eqn:Hrep in Ha.
    - exfalso. apply (retry_not_first f i epoch_id ex record tr trs p c d db0 db1 Hcandles Hrep). destruct v; exact Ha.
    - apply orb_false_iff in Hrep as [Hl Hown]. destruct (oc_owner_id c) eqn:Hid; [done|].
      destruct v as [reason|]; [by apply ret_ok in Ha as [Ha _]|].
      apply bind_tx_ok in Ha as (existing & db2 & Hex & Ha). apply query_ok in Hex as [Hex ->].
      apply bind_tx_ok in Ha as (existing' & db2 & He & Ha). apply ret_ok in He as [-> ->]. rewrite Hl in Ha. by exists existing. }
  apply apply_decision_run in Hap as (Hexx & Hs & Hw); [|done..]. split. exists d, db0, c. split_and!; try done.
  destruct Hexx as [->| ->]; auto.
Qed.

(** ** The retry *)

(** the writes change no table of the boundary but the receipts *)
Lemma written_boundary i c record tr db db1 : written i c record tr db db1 ->
  same_origins db db1 /\ exists c' dbA, persist_consumption true c (r_lifecycle_id record) (si_now i) db = Ok (c', dbA) /\
    same_boundary dbA db1.
Proof.
  intros [(c' & dbA & dbB & dbC & Hp & (B1 & B2 & B3 & B4) & Hu & (D1 & D2 & D3 & D4) & _) _]%written_tables.
  apply upsert_run in Hu as (_ & (C1 & C2 & C3 & C4) & _).
  assert (same_boundary dbA db1) as Hb by (split_and!; congruence).
  split; [|by exists c', dbA]. unfold persist_consumption in Hp. destruct (open_document _ _); [|done].
  destruct (dict_mem _ _); [done|]. apply bind_ok in Hp as (text & _ & Hp). apply ok_inj in Hp. injection Hp as _ <-.
  cbn [store_consumption db_control db_epochs db_runs db_origins set_field] in *.
  split_and!; try congruence. rewrite D3, C3, B3. unfold update_row. rewrite map_map. apply map_ext. intros o.
  by destruct (String.eqb _ _).
Qed.

Lemma gid_text_stripped v : py_strip (gid_text v) = gid_text v.
Proof. unfold gid_text. repeat case_match; try done. apply py_strip_idem. Qed.

Lemma generation_id_stripped symbol mode direction anchor fallback :
  py_strip (new_setup_generation_id symbol mode direction anchor fallback)
  = new_setup_generation_id symbol mode direction anchor fallback.
Proof.
  unfold new_setup_generation_id. destruct (negb _); [|apply gid_text_stripped]. apply py_strip_id, take_string_forallb.
  eapply string_forallb_impl; [|apply sha256_is_hex]. by intros [[] [] [] [] [] [] [] []].
Qed.

Lemma get_record_run db symbol mode direction r : get_record db symbol mode direction = Ok (Some r) ->
  exists row, In row (db_records db) /\ record_from_row row = Ok r /\ r_symbol row = repository_symbol symbol /\
    r_mode row = identity_text mode /\ r_direction row = identity_text direction.
Proof.
  unfold get_record. destruct (find _ (db_records db)) as [row|] eqn:Hf; [|done]. intros Hr. apply find_some in Hf as [Hin Hf].
  rewrite !andb_true_iff in Hf. destruct Hf as ((((H1%String.eqb_eq & H2%String.eqb_eq) & H3%String.eqb_eq) & _) & _).
  exists row. split; [done|]. split; [|done]. unfold map_result in Hr. apply bind_ok in Hr as (x & Hx & Hr). apply ok_inj in Hr. congruence.
Qed.

(** an observation that names its symbol, mode and direction *)
Definition named (o : LifecycleObservation) : Prop :=
  key_text (o_mode o) <> "" /\ key_text (o_direction o) <> "" /\ symbol_key (o_symbol o) <> "" /\ symbol_key (o_symbol o) <> NA.

Definition stripped_ids (db : database) : Prop := Forall (fun r => py_strip (r_lifecycle_id r) = r_lifecycle_id r) (db_records db).

(** the written record has the key of the observation *)
Lemma scanned_record f i epoch_id d ex record db : named (si_observation i) -> stripped_ids db ->
  (ex = None \/ get_record db (o_symbol (si_observation i)) (o_mode (si_observation i)) (o_direction (si_observation i)) = Ok ex) ->
  scanned f i epoch_id d ex record ->
  py_strip (r_lifecycle_id record) = r_lifecycle_id record /\ r_symbol record = symbol_key (o_symbol (si_observation i)) /\
  identity_text (r_mode record) = key_text (o_mode (si_observation i)) /\
  identity_text (r_direction record) = key_text (o_direction (si_observation i)) /\
  r_runtime_epoch_id record = Some epoch_id /\ record_wf record.
Proof.
  intros (Hm & Hd & Hsym & Hna) Hids Hex (lid & score & penalty & t0 & r0 & Hlid & Ht & Hr0 & ->). cbn in Hlid.
  assert (record_wf r0 -> record_wf (owned_by r0 epoch_id (creation_origin ex d))) as Hwf' by (intros [H1 H2 H3 H4 H5 H6 H7]; by split).
  change (py_strip (r_lifecycle_id r0) = r_lifecycle_id r0 /\ r_symbol r0 = symbol_key (o_symbol (si_observation i)) /\
    identity_text (r_mode r0) = key_text (o_mode (si_observation i)) /\
    identity_text (r_direction r0) = key_text (o_direction (si_observation i)) /\ Some epoch_id = Some epoch_id /\
    record_wf (owned_by r0 epoch_id (creation_origin ex d))).
  destruct ex as [ex|]; cbn [evaluate_lifecycle_transition] in Ht.
  - destruct Hex as [?|Hget]; [done|]. apply get_record_run in Hget as (row & Hin & Hrow & R1 & R2 & R3).
    unfold record_from_row in Hrow. pose proof (validate_record_ok _ _ Hrow) as (Hwf & _). apply validate_record_slot in Hrow.
    change (slot ex = (r_lifecycle_id row, py_upper (py_strip (r_symbol row)), normalize_text (r_mode row), normalize_text (r_direction row))) in Hrow.
    pose proof (evaluate_existing_slot _ _ _ _ _ _ Ht Hr0) as Hs. rewrite Hrow in Hs.
    injection Hs as E1 E2 E3 E4. rewrite E1, E2, E3, E4, R1, R2, R3, (repository_symbol_key _ Hsym), (identity_text_key _ Hm), (identity_text_key _ Hd).
    unfold stripped_ids in Hids. rewrite List.Forall_forall in Hids. split; [by apply Hids|]. split.
    { unfold symbol_key. by rewrite py_strip_upper, py_strip_idem, py_upper_idem. }
    assert (forall s, key_text (key_text s) = key_text s) as Hkk by (intros s; unfold key_text; by rewrite py_strip_lower, py_strip_idem, py_lower_idem).
    split; [rewrite key_text_normalized; by rewrite Hkk|]. split; [rewrite key_text_normalized; by rewrite Hkk|]. split; [done|].
    apply evaluate_existing_cases in Ht as (pre & mid & r' & He & Hsame & ->). injection Hr0 as <-. apply Hwf'.
    eapply same_but_identity_wf; [exact Hsame|]. by eapply evaluation_wf.
  - pose proof (evaluate_new_slot _ _ _ _ _ Ht Hr0) as Hs. injection Hs as E1 E2 E3 E4.
    rewrite E1, E2, E3, E4, !key_text_new by done. split; [|split; [done|]].
    + cbn. rewrite Hlid. apply generation_id_stripped.
    + split; [done|]. split; [done|]. split; [done|]. apply Hwf'. by apply (evaluate_new_wf _ _ _ _ _ Ht Hr0).
Qed.

Lemma evaluated_records db d db' : evaluated db d db' -> db_records db' = db_records db.
Proof. intros [[-> _]|(o & Hi & _)]; [done|]. by apply insert_origin_run in Hi as [-> _]. Qed.

Lemma empty_consumption_loads : loads EMPTY_CONSUMPTION = Ok (JObj [("version", JInt 1); ("modes", JObj [])]).
Proof. reflexivity. Qed.

Lemma evaluated_receipts db d db' : evaluated db d db' -> receipts_ok db -> receipts_ok db'.
Proof.
  intros [[-> _]|(o & Hi & _ & _ & _ & _ & Hdoc & _)] Hok; [done|]. apply insert_origin_run in Hi as [-> _].
  intros x raw v Hin Hraw Hl. apply in_app_or in Hin as [Hin|[->|[]]]; [by eapply Hok|]. rewrite Hdoc in Hraw. injection Hraw as <-.
  rewrite empty_consumption_loads in Hl. apply ok_inj in Hl as <-. apply json_ok_obj.
  split; [by apply (bool_decide_unpack _)|]. constructor; [done|]. constructor; [|done]. apply json_ok_obj. by repeat constructor.
Qed.

(** a well-formed stored row is readable *)
Lemma stored_row_readable db record : record_wf record -> exists r, record_from_row (stored_row db record) = Ok r.
Proof.
  intros [H1 H2 H3 H4 H5 H6 H7]. apply validate_record_total.
  assert (cycles_of_column (r_required_confirmation_cycles record) = r_required_confirmation_cycles record) as Hc
    by (unfold cycles_of_column; destruct (Z.eqb_spec (r_required_confirmation_cycles record) 0); lia).
  unfold stored_row. destruct (record_row_of db _); split; try done; cbn; rewrite ?Hc; lia.
Qed.

(** the lifecycle a decision was given to *)
Lemma written_owner i c record tr db db1 epoch_id : named (si_observation i) -> py_strip epoch_id = epoch_id -> epoch_id <> "" ->
  py_strip (r_lifecycle_id record) = r_lifecycle_id record -> r_symbol record = symbol_key (o_symbol (si_observation i)) ->
  identity_text (r_mode record) = key_text (o_mode (si_observation i)) ->
  identity_text (r_direction record) = key_text (o_direction (si_observation i)) ->
  r_runtime_epoch_id record = Some epoch_id -> record_wf record -> written i c record tr db db1 ->
  (exists owner, require_mode_owner db1 (JStr (r_lifecycle_id record)) (key_text (o_mode (si_observation i))) (si_observation i) = Ok owner) /\
  exists r dbB, get_record_by_lifecycle_id db1 (r_lifecycle_id record) = Ok (Some r) /\ record_from_row (stored_row dbB record) = Ok r.
Proof.
  intros (Hm & Hd & Hsym & Hna) Hep Hep0 Hid Hs Hmode Hdir Hepoch Hwf
    [(c' & dbA & dbB & dbC & Hp & Hown & Hu & Hsame & Hrec) _]%written_tables.
  assert (canonical_operational_symbol (r_symbol record) <> "") as Hcanon.
  { rewrite Hs. unfold canonical_operational_symbol, symbol_key in *. rewrite py_strip_upper, py_strip_idem, py_upper_idem.
    by rewrite (proj2 (String.eqb_neq _ _) Hsym), (proj2 (String.eqb_neq _ _) Hna). }
  pose proof (upsert_owned record dbB dbC Hid ltac:(intros e; rewrite Hepoch; by intros [= <-]) Hcanon Hu) as Hcur.
  rewrite <- (require_current_same _ _ _ Hsame Hrec) in Hcur. apply upsert_run in Hu as (_ & _ & Hrow).
  pose proof (stored_row_slot dbB record) as Hslot. injection Hslot as S1 S2 S3 S4. split.
  - exists (stored_row dbB record). unfold require_mode_owner.
    assert (owner_text (JStr (r_lifecycle_id record)) = r_lifecycle_id record) as ->.
    { unfold owner_text. cbn. by destruct (String.eqb_spec (r_lifecycle_id record) "") as [->|]. }
    rewrite Hcur. cbn [bind_result]. by rewrite S2, S3, S4, Hmode, Hdir, Hs, !String.eqb_refl.
  - destruct (stored_row_readable dbB record Hwf) as (r & Hr). exists r, dbB. split; [|done]. unfold get_record_by_lifecycle_id, lifecycle_id_text. rewrite Hid.
    unfold require_current_epoch_lifecycle_id in Hcur. apply bind_ok in Hcur as (active & _ & Hcur). cbn zeta in Hcur. rewrite Hid in Hcur.
    destruct (String.eqb (r_lifecycle_id record) "") eqn:E0; [done|]. cbn [orb] in Hcur.
    destruct (String.eqb_spec (r_lifecycle_id record) NA) as [E|]; [by rewrite E in Hcur|].
    unfold record_row_of in *. rewrite Hrec, Hrow, Hr. done.
Qed.

(** what is read back has the plan and the state that were written *)
Lemma read_back_same db record r : key_text (r_direction record) <> "" -> record_from_row (stored_row db record) = Ok r ->
  same_plan record r /\ r_current_state r = r_current_state record /\ r_lifecycle_id r = r_lifecycle_id record /\
  r_symbol r = symbol_key (r_symbol record).
Proof.
  intros Hd Hrow. unfold record_from_row, validate_record in Hrow. apply bind_ok in Hrow as (sym & Hsym & Hrow).
  destruct (negb _); [done|]. apply ok_inj in Hrow as <-. apply normalize_symbol_ok in Hsym as [-> _].
  pose proof (stored_row_slot db record) as Hslot. injection Hslot as S1 S2 S3 S4.
  assert (forall (A : Type) (f : SetupLifecycleRecord -> A), (forall x e o, f ((record_params x) <| r_runtime_epoch_id := e |> <| r_creation_origin_id := o |>) = f x) ->
    (forall x, f (record_params x) = f x) -> f (stored_row db record) = f record) as Hf.
  { intros A f H1 H2. unfold stored_row. destruct (record_row_of db _); [apply H1|apply H2]. }
  cbn -[stored_row normalize_text symbol_key]. split; [split; cbn -[stored_row normalize_text]|].
  - rewrite S4, op_text_normalized, !op_text_normalize. unfold normalize_text, identity_text, key_text in *.
    rewrite (proj2 (String.eqb_neq _ _) Hd), py_strip_lower, py_strip_idem. rewrite (proj2 (String.eqb_neq _ _) Hd), py_lower_idem.
    destruct (String.eqb_spec (py_strip (r_direction record)) "") as [E|]; [by rewrite E in Hd|done].
  - by rewrite (Hf _ r_entry_low), (Hf _ r_entry_high), (Hf _ r_stop_loss), (Hf _ r_tp1), (Hf _ r_tp2), (Hf _ r_tp3) by done.
  - by rewrite (Hf _ r_invalidation_logic), (Hf _ r_invalidation_reason) by done.
  - rewrite (Hf _ r_current_state) by done. split; [done|]. split; [exact S1|]. by rewrite S2.
Qed.

Lemma has_failure r : exists f, stored_plan_geometry_failure r = Ok f.
Proof. destruct (stored_plan_geometry_failure_total r) as [(? & _ & E)|(? & _ & E)]; eauto. Qed.

Lemma analytics_complete_read_back a b db : same_plan a b -> r_current_state b = r_current_state a ->
  r_lifecycle_id b = r_lifecycle_id a -> r_symbol b = symbol_key (r_symbol a) -> analytics_complete a db -> analytics_complete b db.
Proof.
  intros Hp Hst Hid Hsym Ha Hf Hn. rewrite Hst in Hn. destruct (has_failure a) as (fa & Hfa).
  destruct (same_plan_failure _ _ _ Hp Hfa) as (fb & Hfb & Hiff). rewrite Hf in Hfb. apply ok_inj in Hfb as <-.
  rewrite (proj1 Hiff eq_refl) in Hfa. destruct (Ha Hfa Hn) as (He & row & Hin & R1 & R2 & R3).
  rewrite Hid. split; [done|]. exists row. split; [done|]. split_and!; [congruence..|]. by rewrite R3, Hsym, symbol_key_idem.
Qed.

(** two readings of the same decision *)
Definition same_decision (i i2 : symbol_input) : Prop :=
  si_observation i2 = si_observation i /\ si_evaluation_kind i2 = si_evaluation_kind i /\
  si_evaluation_completed_at i2 = si_evaluation_completed_at i /\ si_decision_cutoff_at i2 = si_decision_cutoff_at i /\
  si_producer_observed_at i2 = si_producer_observed_at i /\ si_execution_timeframe i2 = si_execution_timeframe i /\
  si_scan_run_id i2 = si_scan_run_id i.

(** a decision that has an owner is answered from the owner's row *)
Lemma apply_replayed f i epoch_id d c db owner v cur r : si_execution_candles i = None ->
  evaluate_symbol_origin (fv_origin_id f) (Some (default "" (si_scan_run_id i))) (Some (o_symbol (si_observation i)))
    (Some (si_evaluation_kind i)) (si_evaluation_completed_at i) (si_decision_cutoff_at i) (si_producer_observed_at i) None db
    = Ok (d, db) ->
  sd_granted d = true -> inspect_consumption true d (si_observation i) (consumption_lineage i) db = Ok c ->
  oc_owner_id c = Some (JStr owner) -> oc_bound_owners c = [] -> legacy c = false ->
  legacy_cooldown_veto db (o_symbol (si_observation i)) (o_mode (si_observation i)) (o_direction (si_observation i)) (si_now i) = Ok v ->
  get_record db (o_symbol (si_observation i)) (o_mode (si_observation i)) (o_direction (si_observation i)) = Ok cur ->
  get_record_by_lifecycle_id db owner = Ok (Some r) -> symbol_key (r_symbol r) <> "" -> analytics_complete r db ->
  let final := owned_by r epoch_id (creation_origin (Some r) d) in
  apply_to_symbol_result_with_meta f i epoch_id db =
  Ok (Processed (Some r) (Some final) (with_record final (unmoved_transition r "observation_already_consumed")) [] None true false, db).
Proof.
  intros Hcandles He Hg Hc Ho Hb Hl Hv Hcur Hr Hsym Han final. unfold apply_to_symbol_result_with_meta. unfold bind_tx at 1. rewrite He.
  cbn [bind_result]. rewrite Hg. cbn [negb]. unfold bind_tx at 1, query at 1. rewrite Hc. cbn [bind_result]. rewrite Hb, Ho, Hl.
  cbn [negb andb]. rewrite andb_false_r. cbn [negb orb]. unfold bind_tx at 1, query at 1. cbn [bind_result].
  unfold bind_tx at 1, query at 1. rewrite Hv. cbn [bind_result].
  assert (bind_tx (query (fun db => get_record db (o_symbol (si_observation i)) (o_mode (si_observation i)) (o_direction (si_observation i))))
    (fun existing => bind_tx (query (fun db => get_record_by_lifecycle_id db (json_str (JStr owner))))
       (fun existing => apply_decision f i epoch_id d c existing)) db =
    Ok (Processed (Some r) (Some final) (with_record final (unmoved_transition r "observation_already_consumed")) [] None true false, db)) as Hrest.
  { unfold bind_tx at 1, query at 1. rewrite Hcur. cbn [bind_result]. unfold bind_tx at 1, query at 1. cbn [json_str]. rewrite Hr.
    cbn [bind_result]. unfold apply_decision. rewrite Hl, Ho. cbn [orb]. unfold bind_tx at 1, lift at 1. cbn [bind_result].
    unfold bind_tx at 1, ret at 1. cbn [bind_result]. unfold decide. rewrite Hl. unfold decide_transition, bind_tx at 1, lift at 1. cbn [bind_result].
    cbn [orb tr_record unmoved_transition option_map]. fold final. unfold write_decision, bind_tx at 1, ret at 1. cbn [bind_result].
    unfold finish_decision. unfold bind_tx at 1. rewrite outcome_pass_skipped by done. cbn [bind_result]. unfold bind_tx at 1.
    destruct (has_failure r) as (fl & Hfl).
    rewrite (persist_terminal_again _ None final fl) by done. cbn [bind_result]. unfold ret. by rewrite Ho, Hl. }
  destruct v; exact Hrest.
Qed.

(** ** Claims *)

End Service.

(** *** Witnesses *)

#[local] Instance service_errors : JsonErrors := fun _ => "Expecting value".

Definition scan_input (now : string) : symbol_input :=
  {| si_observation := sample_observation; si_evaluation_kind := "live_scan";
     si_evaluation_completed_at := Some "2026-01-01T00:06:00Z"; si_decision_cutoff_at := Some "2026-01-01T00:06:00Z";
     si_producer_observed_at := Some "2026-01-01T00:05:30Z"; si_execution_timeframe := "15m"; si_execution_candles := None;
     si_decision_timestamp := None; si_scan_run_id := Some "R1"; si_now := now; si_health := None;
     si_confirmation_cycles := 2; si_setup_tolerance_pct := mkDec false 5 (-1) |}.

Definition fresh_sample (k : string) : fresh_values :=
  {| fv_origin_id := "O" +:+ k; fv_blocked_id := "B" +:+ k; fv_generation_id := "G" +:+ k; fv_clock := "2026-01-01T00:06:00+00:00" |}.

Notation sample_application f now db := (apply_to_symbol_result_with_meta (fresh_sample f) (scan_input now) "E1" db) (only parsing).

Definition applied_database : database := database_of (sample_application "1" "2026-01-01T00:06:10+00:00" registered_database).

(** a first scan writes a lifecycle with its event and its receipt *)
Lemma sample_applied : exists ex record tr trs p,
  sample_application "1" "2026-01-01T00:06:10+00:00" registered_database
  = Ok (Processed ex (Some record) tr trs p false false, applied_database) /\ tr_allowed tr = true.
Proof.
  assert (match sample_application "1" "2026-01-01T00:06:10+00:00" registered_database with
          | Ok (Processed ex (Some record) tr trs p false false, db1) => tr_allowed tr = true
          | _ => False
          end) as H by (vm_compute; reflexivity).
  unfold applied_database. destruct (sample_application "1" "2026-01-01T00:06:10+00:00" registered_database) as [[out db1]|e]; [|destruct H].
  destruct out as [| | |ex [record|] tr trs p [] []]; try destruct H. exists ex, record, tr, trs, p. by split.
Qed.

Lemma sample_readable :
  let o := si_observation (scan_input "2026-01-01T00:06:10+00:00") in
  named o /\ stripped_ids registered_database /\ receipts_ok registered_database /\
  legacy_cooldown_veto applied_database (o_symbol o) (o_mode o) (o_direction o) (si_now (scan_input "2026-01-01T00:09:00+00:00")) = Ok None /\
  exists cur, get_record applied_database (o_symbol o) (o_mode o) (o_direction o) = Ok cur.
Proof.
  cbn zeta. assert (db_origins registered_database = [] /\ db_records registered_database = []) as [Hor Hre] by (vm_compute; split; reflexivity).
  split; [vm_compute; split_and!; discriminate|]. split; [unfold stripped_ids; rewrite Hre; constructor|].
  split; [unfold receipts_ok; rewrite Hor; intros o raw v []|]. split; [vm_compute; reflexivity|]. eexists. vm_compute. reflexivity.
Qed.

