(* ===== verification/RunProps.v ===== *)
(** * What a run does (facts about [LifecycleRun]) *)

From stdpp Require Import base tactics list strings.
From Stdlib Require Import ZArith NArith Lia Bool Ascii.
From S2P Require Import Prelude PyString PyTime PyJson LifecycleModels JsonText RuntimeEpoch LifecycleRepository RepositoryFacts Outcomes OutcomeProps EpochOrigin EpochOriginProps ObservationConsumption ConsumptionProps TerminalAnalytics OwnerMonitoring MonitoringProps LifecycleService ServiceProps LifecycleRun.
Open Scope string_scope.
Open Scope list_scope.

(** ** Dispositions *)

Definition applied (d : symbol_disposition) : bool := match d with Handled _ (Applied _) => true | _ => false end.
Definition skipped (d : symbol_disposition) : bool := match d with SkippedNotRun => true | _ => false end.
Definition failed (d : symbol_disposition) : bool :=
  match d with ReadFailed _ | Handled _ (Failed _ _) => true | _ => false end.
Definition count (p : symbol_disposition -> bool) (l : list symbol_disposition) : Z := Z.of_nat (length (List.filter p l)).

(** the symbols that were applied *)
Definition survivors (symbols : list run_symbol) (dispositions : list symbol_disposition) : list run_symbol :=
  map fst (List.filter (fun sd => applied (snd sd)) (zip symbols dispositions)).

Lemma every_disposition l : (count applied l + count failed l + count skipped l = Z.of_nat (length l))%Z.
Proof. unfold count. induction l as [|d l IH]; [done|]. destruct d as [| |i []]; cbn [List.filter applied failed skipped length]; lia. Qed.

Lemma count_cons p d l : count p (d :: l) = ((if p d then 1 else 0) + count p l)%Z.
Proof. unfold count. cbn [List.filter]. destruct (p d); cbn [length]; lia. Qed.

Section Run.
Context `{JsonErrors} `{ExnText}.

Lemma isolated_failed f i epoch_id db e reason db' :
  apply_to_symbol_result_isolated f i epoch_id db = Ok (Failed e reason, db') -> db' = db.
Proof.
  unfold apply_to_symbol_result_isolated. destruct (apply_to_symbol_result_with_meta _ _ _ _) as [[o db1]|x]; [done|].
  destruct x; intros E; try discriminate E; [..|destruct (str_in _ _); [|discriminate E]]; by injection E.
Qed.

(** a disposition of the second loop was prepared for it *)
Definition disposition_of (s : run_symbol) (d : symbol_disposition) : Prop :=
  match rs_prepared s, d with
  | NotRun, SkippedNotRun => True
  | Unread e, ReadFailed e' => e = e'
  | Observed _ _, Handled _ _ => True
  | _, _ => False
  end.

Lemma apply_symbols_run timestamp venue run_id epoch_id symbols : forall db ds db',
  apply_symbols timestamp venue run_id epoch_id symbols db = Ok (ds, db') ->
  Forall2 disposition_of symbols ds /\
  apply_symbols timestamp venue run_id epoch_id (survivors symbols ds) db = Ok (List.filter applied ds, db').
Proof.
  induction symbols as [|s symbols IH]; intros db ds db' E; cbn [apply_symbols] in E.
  - injection E as <- <-. by split.
  - apply bind_tx_ok in E as (d & db1 & Hd & E). apply bind_tx_ok in E as (ds' & db2 & Hr & E). injection E as <- <-.
    apply IH in Hr as [Hf Hs]. unfold survivors in *. cbn [zip zip_with List.filter snd]. unfold disposition_of at 1.
    destruct (rs_prepared s) as [|e|f i] eqn:Ep; [injection Hd as <- <-; split; [constructor; [unfold disposition_of; by rewrite Ep|done]|done]..|].
    apply bind_tx_ok in Hd as (o & db3 & Ho & Hd). injection Hd as <- <-.
    split; [constructor; [unfold disposition_of; by rewrite Ep|done]|]. destruct o as [outcome|e reason]; cbn [applied map fst apply_symbols].
    + rewrite Ep. unfold bind_tx. rewrite Ho. cbn. unfold bind_tx in *. by rewrite Hs.
    + apply isolated_failed in Ho as <-. done.
Qed.

(** ** The parts of a run *)

Record run_parts (clock timestamp venue tf : string) (scan_run_id : option string) (symbols : list run_symbol) (db : database)
    (run : run_result) (db' : database) (epoch : RuntimeEpochRecord) (ds : list symbol_disposition)
    (evaluations : list LifecycleOutcomeEvaluation) (db1 : database) : Prop := {
  rp_epoch : require_active_runtime_epoch db = Ok epoch;
  rp_applied : apply_symbols timestamp venue (column_text scan_run_id) (re_epoch_id epoch) symbols db = Ok (ds, db1);
  rp_monitored : monitor_tracking_obligations clock (run_evidence timestamp symbols) timestamp (Some (column_text scan_run_id))
                   (or_text tf "15m") false [] db1 = Ok ((ru_owner_monitoring run, evaluations), db');
  rp_rows : ru_rows run = zip_with (deliver evaluations) symbols ds;
  rp_summary : ru_summary run = close_summary
    (fold_left account_handled (zip symbols ds) (fold_left account_prepared symbols (empty_process_summary (Z.of_nat (length symbols)))))
    (length (ru_rows run))
}.

Lemma apply_to_run_result_run clock timestamp venue tf scan_run_id symbols db run db' :
  apply_to_run_result clock timestamp venue tf scan_run_id symbols db = Ok (run, db') ->
  exists epoch ds evaluations db1, run_parts clock timestamp venue tf scan_run_id symbols db run db' epoch ds evaluations db1.
Proof.
  unfold apply_to_run_result. destruct (String.eqb _ ""); [by intros [=]|]. intros E.
  apply bind_tx_ok in E as (epoch & db0 & He & E). unfold query in He. apply bind_ok in He as (ep & He & Hq). injection Hq as -> ->.
  apply bind_tx_ok in E as (u & db0' & Hq & E). unfold query in Hq. apply bind_ok in Hq as (row & _ & Hq). injection Hq as _ ->.
  apply bind_tx_ok in E as (ds & db1 & Hs & E). apply bind_tx_ok in E as ([monitoring evaluations] & db2 & Hm & E).
  injection E as <- <-. by exists epoch, ds, evaluations, db1.
Qed.

Lemma run_dispositions clock timestamp venue tf scan_run_id symbols db run db' epoch ds evaluations db1 :
  run_parts clock timestamp venue tf scan_run_id symbols db run db' epoch ds evaluations db1 ->
  map rr_disposition (ru_rows run) = ds /\ map rr_symbol (ru_rows run) = map (fun s => es_symbol (rs_source s)) symbols /\
  length (ru_rows run) = length symbols /\ Forall2 disposition_of symbols ds.
Proof.
  intros Hp. destruct (apply_symbols_run _ _ _ _ _ _ _ _ (rp_applied _ _ _ _ _ _ _ _ _ _ _ _ _ Hp)) as [Hf _].
  rewrite (rp_rows _ _ _ _ _ _ _ _ _ _ _ _ _ Hp). clear Hp. split_and!; [..|done];
    induction Hf as [|s d symbols ds _ Hf IH]; cbn [zip_with map deliver length rr_disposition rr_symbol]; congruence.
Qed.


(** ** The summary *)

Lemma prepared_summary symbols ds s0 : Forall2 disposition_of symbols ds ->
  let s := fold_left account_prepared symbols s0 in
  ps_skipped_not_run_symbols s = (ps_skipped_not_run_symbols s0 + count skipped ds)%Z /\
  ps_failed_symbols s = (ps_failed_symbols s0 + count (fun d => match d with ReadFailed _ => true | _ => false end) ds)%Z /\
  length (ps_errors s) = (length (ps_errors s0) + length (List.filter (fun d => match d with ReadFailed _ => true | _ => false end) ds))%nat /\
  ps_scanned_symbols s = ps_scanned_symbols s0.
Proof.
  intros Hf. revert s0. induction Hf as [|x d symbols ds Hd Hf IH]; intros s0; cbn [fold_left List.filter length].
  - unfold count. cbn. rewrite !Z.add_0_r, Nat.add_0_r. done.
  - destruct (IH (account_prepared s0 x)) as (-> & -> & -> & ->). rewrite !count_cons. unfold account_prepared, disposition_of in *.
    destruct (rs_prepared x) as [|e|f i], d as [|e0|i0 o]; try done; cbn; rewrite ?length_app; cbn [length]; split_and!; try done; lia.
Qed.

Lemma handled_summary symbols ds s0 : Forall2 disposition_of symbols ds ->
  let handled := fun d => match d with Handled _ (Failed _ _) => true | _ => false end in
  let s := fold_left account_handled (zip symbols ds) s0 in
  ps_skipped_not_run_symbols s = ps_skipped_not_run_symbols s0 /\
  ps_failed_symbols s = (ps_failed_symbols s0 + count handled ds)%Z /\
  length (ps_errors s) = (length (ps_errors s0) + length (List.filter handled ds))%nat /\
  ps_scanned_symbols s = ps_scanned_symbols s0.
Proof.
  intros Hf handled. revert s0. induction Hf as [|x d symbols ds _ Hf IH]; intros s0; cbn [zip zip_with fold_left List.filter length].
  - unfold count. cbn. rewrite !Z.add_0_r, Nat.add_0_r. done.
  - destruct (IH (account_handled s0 (x, d))) as (-> & -> & -> & ->). rewrite !count_cons. unfold account_handled.
    destruct d as [| |i [|]]; cbn; rewrite ?length_app; cbn [length]; split_and!; try done; lia.
Qed.

Lemma failed_split ds :
  count failed ds = (count (fun d => match d with ReadFailed _ => true | _ => false end) ds
                     + count (fun d => match d with Handled _ (Failed _ _) => true | _ => false end) ds)%Z.
Proof. induction ds as [|d ds IH]; [done|]. rewrite !count_cons, IH. destruct d as [| |i []]; cbn; lia. Qed.

Lemma closed_summary symbols ds : Forall2 disposition_of symbols ds ->
  let s := close_summary (fold_left account_handled (zip symbols ds)
    (fold_left account_prepared symbols (empty_process_summary (Z.of_nat (length symbols))))) (length symbols) in
  ps_scanned_symbols s = Z.of_nat (length symbols) /\ ps_processed_symbols s = count applied ds /\
  ps_failed_symbols s = count failed ds /\ ps_skipped_not_run_symbols s = count skipped ds /\
  Z.of_nat (length (ps_errors s)) = count failed ds /\ (ps_status s = "SUCCESS" <-> count failed ds = 0%Z).
Proof.
  intros Hf. cbn zeta.
  pose proof (handled_summary symbols ds (fold_left account_prepared symbols (empty_process_summary (Z.of_nat (length symbols)))) Hf) as (H1 & H2 & H3 & H4).
  pose proof (prepared_summary symbols ds (empty_process_summary (Z.of_nat (length symbols))) Hf) as (P1 & P2 & P3 & P4).
  set (s := fold_left account_handled _ _) in *. rewrite P1 in H1. rewrite P2 in H2. rewrite P3 in H3. rewrite P4 in H4. cbn in H1, H2, H3, H4.
  pose proof (failed_split ds) as Hs. pose proof (every_disposition ds) as He. apply Forall2_length in Hf. unfold count in *.
  unfold close_summary. cbn. split_and!; try lia. destruct (Z.eqb_spec (ps_failed_symbols s) 0); split; intros; try done; lia.
Qed.

(** ** Delivery *)

Notation identity := transition_event_identity.

(** what is added is monitored, new and without repetition, and nothing monitored is missing *)
Lemma unseen_spec monitored : forall seen,
  (forall t, In t (unseen_transitions seen monitored) -> In t monitored) /\
  NoDup (map identity (unseen_transitions seen monitored)) /\
  (forall t, In t (unseen_transitions seen monitored) -> identity t ∉ seen) /\
  (forall t, In t monitored -> identity t ∈ seen \/ identity t ∈ map identity (unseen_transitions seen monitored)).
Proof.
  induction monitored as [|x monitored IH]; intros seen; cbn [unseen_transitions].
  - split_and!; try done. constructor.
  - destruct (bool_decide_reflect (identity x ∈ seen)) as [Hx|Hx].
    + destruct (IH seen) as (H1 & H2 & H3 & H4). split_and!; try done; [intros t Ht; right; by apply H1|].
      intros t [<-|Ht]; [by left|by apply H4].
    + destruct (IH (identity x :: seen)) as (H1 & H2 & H3 & H4). cbn [map In]. split_and!.
      * intros t [<-|Ht]; [by left|right; by apply H1].
      * apply NoDup_cons. split; [|done]. intros Hin. apply list_elem_of_In, in_map_iff in Hin as (t & Et & Ht).
        apply (H3 t Ht). rewrite Et. by left.
      * intros t [<-|Ht]; [done|]. intros Hs. apply (H3 t Ht). by right.
      * intros t [<-|Ht]; [right; by left|]. destruct (H4 t Ht) as [Hs|Hs]; [|right; by right].
        apply elem_of_cons in Hs as [->|Hs]; [right; by left|by left].
Qed.

(** the transitions of a row: the direct ones, then the monitored ones that are new *)
Record delivered (direct monitored result : list SetupTransitionResult) : Prop := {
  dl_direct : exists added, result = direct ++ added /\ NoDup (map identity added) /\
    (forall t, In t added -> In t monitored /\ identity t ∉ map identity direct);
  dl_complete : forall t, In t monitored -> identity t ∈ map identity result
}.

Lemma committed_transitions_delivered direct monitored :
  delivered direct monitored (with_committed_monitoring_transitions direct monitored).
Proof.
  destruct (unseen_spec monitored (map identity direct)) as (H1 & H2 & H3 & H4). split.
  - eexists. split; [reflexivity|]. split; [done|]. intros t Ht. split; [by apply H1|by apply H3].
  - intros t Ht. unfold with_committed_monitoring_transitions. rewrite map_app. apply elem_of_app. by apply H4.
Qed.

(** C24: a run accounts for every symbol and delivers what it committed. There is a row for each symbol, in order; the
    counts of processed, failed and skipped symbols are those of the rows, each failure has an error, and the status says
    whether one failed; and a row carries the transitions its symbol made, followed by each transition that monitoring
    committed for the symbol and that it did not carry already, once. *)
Theorem run_accounts_and_delivers clock timestamp venue tf scan_run_id symbols db run db' :
  apply_to_run_result clock timestamp venue tf scan_run_id symbols db = Ok (run, db') ->
  let ds := map rr_disposition (ru_rows run) in
  let s := ru_summary run in
  (map rr_symbol (ru_rows run) = map (fun x => es_symbol (rs_source x)) symbols /\ Forall2 disposition_of symbols ds) /\
  (ps_scanned_symbols s = Z.of_nat (length symbols) /\ ps_processed_symbols s = count applied ds /\
   ps_failed_symbols s = count failed ds /\ ps_skipped_not_run_symbols s = count skipped ds /\
   Z.of_nat (length (ps_errors s)) = count failed ds /\ (ps_status s = "SUCCESS" <-> count failed ds = 0%Z)) /\
  exists db1 evaluations,
    monitor_tracking_obligations clock (run_evidence timestamp symbols) timestamp (Some (column_text scan_run_id))
      (or_text tf "15m") false [] db1 = Ok ((ru_owner_monitoring run, evaluations), db') /\
    Forall2 (fun x row => delivered (direct_transitions x (rr_disposition row)) (monitored_for evaluations (rr_symbol row))
                            (rr_transitions row)) symbols (ru_rows run).
Proof.
  intros E. apply apply_to_run_result_run in E as (epoch & ds & evaluations & db1 & Hp).
  destruct (run_dispositions _ _ _ _ _ _ _ _ _ _ _ _ _ Hp) as (-> & Hsym & Hlen & Hf). cbn zeta.
  split; [by split|]. split.
  { rewrite (rp_summary _ _ _ _ _ _ _ _ _ _ _ _ _ Hp), Hlen. by apply closed_summary. }
  exists db1, evaluations. split; [apply Hp|]. rewrite (rp_rows _ _ _ _ _ _ _ _ _ _ _ _ _ Hp). clear -Hf.
  induction Hf as [|x d symbols ds _ Hf IH]; cbn [zip_with]; constructor; [|done]. apply committed_transitions_delivered.
Qed.
End Run.

(** ** A sample run

    The scan that writes a lifecycle, beside a symbol whose result could not be read and one that was not run. *)

#[local] Instance run_json : JsonErrors := fun _ => "Expecting value".
#[local] Instance run_text : ExnText := {| exn_name _ := "ValueError"; exn_text _ := "failed" |}.

Definition source_of (symbol : string) : evidence_source :=
  {| es_symbol := symbol; es_candles := None; es_execution_timeframe := "15m"; es_decision := None |}.

Definition run_symbols : list run_symbol :=
  [{| rs_source := source_of "BTCUSDT"; rs_transitions := [];
      rs_prepared := Observed (fresh_sample "1") (scan_input "2026-01-01T00:06:10+00:00") |};
   {| rs_source := source_of "ETHUSDT"; rs_transitions := []; rs_prepared := Unread (ValueError "unreadable") |};
   {| rs_source := source_of "XRPUSDT"; rs_transitions := []; rs_prepared := NotRun |}].

Notation sample_run := (apply_to_run_result "2026-01-01T00:06:10+00:00" "2026-01-01T00:06:10+00:00" "binance" "15m" (Some "R1")
  run_symbols registered_database) (only parsing).

Example sample_run_summary :
  match sample_run with
  | Ok (run, db) => (ps_processed_symbols (ru_summary run), ps_failed_symbols (ru_summary run),
                     ps_skipped_not_run_symbols (ru_summary run), ps_status (ru_summary run), length (db_records db))
                    = (1%Z, 1%Z, 1%Z, "PARTIAL", 1%nat)
  | Raise _ => False
  end.
Proof. vm_compute. reflexivity. Qed.


Lemma run_accounts_and_delivers_witness :
  exists run db', sample_run = Ok (run, db') /\ map rr_symbol (ru_rows run) = ["BTCUSDT"; "ETHUSDT"; "XRPUSDT"].
Proof.
  run_pass constr:(sample_run) run db' E. exists run, db'. split; [reflexivity || exact E|].
  destruct (run_accounts_and_delivers _ _ _ _ _ _ _ _ _ E) as [[H _] _]. exact H.
Defined.
