(* ===== verification/RiskManager.v ===== *)
(** * Risk validation of a proposed setup (src/app/agents/risk_manager.py)

    The agent checks the hard rules, sizes the position from the stop distance,
    computes the risk/reward of every target and approves a setup that broke no
    rule.  An input holds what pydantic admits: finite Decimals and one of the two
    directions.  A [MaybeDecimal] is an [option dec], [None] for NA. *)

From stdpp Require Import base tactics list strings.
From Stdlib Require Import ZArith NArith QArith Qabs Qminmax Lia Lqa ZifyN ZifyNat Bool Ascii Sorted.
From S2P Require Import Prelude PyString PyDecimal DecimalFacts LifecycleModels TradePlan OpportunityScoring OpportunityProps.
Open Scope string_scope.
Open Scope py_scope.

Inductive Direction : Type := LONG | SHORT.

Definition direction_text (d : Direction) : string := match d with LONG => "long" | SHORT => "short" end.
Definition is_long (d : Direction) : bool := match d with LONG => true | SHORT => false end.

Definition MAX_RISK_PER_TRADE_PCT : dec := dec_of_Z 2.
Definition RM_MIN_RISK_REWARD_RATIO : dec := mkDec false 20 (-1).
Definition RM_MIN_DATA_QUALITY_SCORE : dec := dec_of_Z 60.
Definition POSITION_SIZING_MESSAGE : string := "Position size should be based on stop-loss risk, not desired profit.".

(** [_quantize] *)
Definition rm_quantize (value : dec) : result dec := dquantize value (-8).

(** [_optional_quantize] *)
Definition rm_optional_quantize (value : option dec) : result (option dec) :=
  match value with None => Ok None | Some v => map_result Some (rm_quantize v) end.

(** ** Data *)

Record RiskManagerInput := {
  rk_account_equity : dec;
  rk_risk_per_trade_pct : dec;
  rk_entry_price : dec;
  rk_stop_loss : dec;
  rk_take_profit_targets : list dec;
  rk_direction : Direction;
  rk_leverage : option dec;
  rk_max_daily_risk_pct : option dec;
  rk_current_daily_loss_pct : option dec;
  rk_data_quality_score : option dec;
  rk_invalidation_reason : option string;
  rk_execution_cost : dec;
  rk_minimum_tp2_rr : option dec
}.

Record RiskRuleViolation := { rv_code : string; rv_message : string }.

Record PositionSizingResult := {
  sz_risk_amount : option dec;
  sz_risk_per_unit : option dec;
  sz_position_size : option dec;
  sz_notional_value : option dec
}.

Record RiskRewardResult := {
  rw_take_profit : dec;
  rw_reward : option dec;
  rw_risk_reward_ratio : option dec;
  rw_is_valid : bool;
  rw_reason : string
}.

Inductive LeverageRiskLevel : Type := LevelStandard | LevelHigh | LevelExtreme | LevelDangerous | LevelNA.

Record LeverageRiskResult := { lr_leverage : option dec; lr_risk_level : LeverageRiskLevel; lr_warning : string }.

Inductive DataReliability : Type := ReliabilityVerified | ReliabilityUnverified | ReliabilityNA.

Record RiskDecision := {
  rd_approved : bool;
  rd_decision : string;
  rd_violations : list RiskRuleViolation;
  rd_position_sizing : PositionSizingResult;
  rd_risk_reward : list RiskRewardResult;
  rd_best_risk_reward_ratio : option dec;
  rd_leverage_risk : LeverageRiskResult;
  rd_invalidation_reason : string;
  rd_data_quality_score : option dec;
  rd_data_reliability : DataReliability;
  rd_max_daily_risk_pct : option dec;
  rd_current_daily_loss_pct : option dec
}.

(** ** Rules *)

(** [_normalized_invalidation] *)
Definition normalized_invalidation (setup : RiskManagerInput) : string :=
  match rk_invalidation_reason setup with
  | None => NA
  | Some reason => if String.eqb (py_strip reason) "" then NA else py_strip reason
  end.

(** [if broken: violations.append(RiskRuleViolation(code, message))] *)
Definition rule (broken : bool) (code message : string) : list RiskRuleViolation :=
  if broken then [{| rv_code := code; rv_message := message |}] else [].

(** the rules on the targets *)
Definition target_violations (setup : RiskManagerInput) : list RiskRuleViolation :=
  let targets := rk_take_profit_targets setup in
  let entry := rk_entry_price setup in
  let long := is_long (rk_direction setup) in
  match targets with
  | [] => rule true "missing_take_profit_targets" "At least one take profit target is required."
  | _ =>
      if existsb (fun t => dleb t dzero) targets
      then rule true "invalid_take_profit_target" "Every take profit target must be greater than zero."
      else
        (rule (existsb (fun t => if long then dleb t entry else dleb entry t) targets) "wrong_side_take_profit"
           "Every take profit target must have positive directional reward."
         ++ rule (has_duplicate targets) "duplicate_take_profit_targets" "Take profit targets must be unique."
         ++ rule (negb (targets_ordered long targets)) "take_profit_order_invalid"
              "Take profit targets must be strictly ordered by direction.")%list
  end.

(** the rules on the side of the stop *)
Definition stop_violations (setup : RiskManagerInput) : list RiskRuleViolation :=
  let entry := rk_entry_price setup in
  let stop := rk_stop_loss setup in
  if dltb dzero entry && dltb dzero stop then
    match rk_direction setup with
    | LONG => rule (dleb entry stop) "wrong_side_stop_loss" "Long setup stop loss must be below entry."
    | SHORT => rule (dleb stop entry) "wrong_side_stop_loss" "Short setup stop loss must be above entry."
    end
  else [].

(** [_hard_rule_violations]; the cost is finite *)
Definition hard_rule_violations (setup : RiskManagerInput) : list RiskRuleViolation :=
  (rule (dltb (rk_execution_cost setup) dzero) "unverified_execution_cost" "Execution cost must be finite and nonnegative."
   ++ rule (dleb (rk_account_equity setup) dzero) "invalid_account_equity" "Account equity must be greater than zero."
   ++ rule (dleb (rk_risk_per_trade_pct setup) dzero) "invalid_risk_per_trade"
        "Risk per trade percentage must be greater than zero."
   ++ rule (dltb MAX_RISK_PER_TRADE_PCT (rk_risk_per_trade_pct setup)) "risk_per_trade_too_high"
        "Risk per trade percentage must not exceed 2%."
   ++ rule (dleb (rk_entry_price setup) dzero) "invalid_entry_price" "Entry price must be greater than zero."
   ++ rule (dleb (rk_stop_loss setup) dzero) "invalid_stop_loss" "Stop loss must be greater than zero."
   ++ target_violations setup
   ++ rule (String.eqb (normalized_invalidation setup) NA) "missing_invalidation" "A clear invalidation reason is required."
   ++ stop_violations setup
   ++ rule (match rk_data_quality_score setup with Some s => dltb s RM_MIN_DATA_QUALITY_SCORE | None => false end)
        "low_data_quality" "Data quality score is below 60 and should be treated as Unverified."
   ++ rule (match rk_max_daily_risk_pct setup, rk_current_daily_loss_pct setup with
            | Some limit, Some loss => dltb limit loss
            | _, _ => false
            end)
        "daily_risk_exceeded" "Current daily loss percentage exceeds max daily risk percentage.")%list.

(** ** Sizing *)

(** [_risk_per_unit] *)
Definition risk_per_unit (setup : RiskManagerInput) : option dec :=
  let entry := rk_entry_price setup in
  let stop := rk_stop_loss setup in
  if dltb (rk_execution_cost setup) dzero then None else
  if dleb entry dzero || dleb stop dzero then None else
  let risk := if is_long (rk_direction setup) then dsub entry stop else dsub stop entry in
  if dleb risk dzero then None else Some (dadd risk (rk_execution_cost setup)).

(** [_calculate_position_sizing] *)
Definition calculate_position_sizing (setup : RiskManagerInput) : result PositionSizingResult :=
  let per_unit := risk_per_unit setup in
  let! risk_amount :=
    if dltb dzero (rk_account_equity setup) && dltb dzero (rk_risk_per_trade_pct setup)
    then let! share := ddiv (dmul (rk_account_equity setup) (rk_risk_per_trade_pct setup)) (dec_of_Z 100) in
         map_result Some (rm_quantize share)
    else Ok None in
  let! (size, notional) :=
    match risk_amount, per_unit with
    | Some amount, Some unit =>
        if dltb dzero unit then
          let! raw := ddiv amount unit in
          let! size := dquantize_down raw (-8) in
          let! notional := rm_quantize (dmul raw (rk_entry_price setup)) in
          Ok (Some size, Some notional)
        else Ok (None, None)
    | _, _ => Ok (None, None)
    end in
  let! shown := rm_optional_quantize per_unit in
  Ok {| sz_risk_amount := risk_amount; sz_risk_per_unit := shown; sz_position_size := size; sz_notional_value := notional |}.

(** ** Risk/reward *)

(** one target of [_calculate_risk_reward] *)
Definition target_risk_reward (setup : RiskManagerInput) (per_unit : option dec) (target : dec) : result RiskRewardResult :=
  let! shown := rm_quantize target in
  let unavailable :=
    {| rw_take_profit := shown; rw_reward := None; rw_risk_reward_ratio := None; rw_is_valid := false;
       rw_reason := "Risk/reward is N/A because stop loss is not on the valid side of entry." |} in
  match per_unit with
  | None => Ok unavailable
  | Some unit =>
      if dleb unit dzero then Ok unavailable else
      let reward := dsub (if is_long (rk_direction setup) then dsub target (rk_entry_price setup)
                          else dsub (rk_entry_price setup) target) (rk_execution_cost setup) in
      let! ratio := ddiv reward unit in
      let! shown_ratio := rm_quantize ratio in
      let! shown_reward := rm_quantize reward in
      Ok {| rw_take_profit := shown; rw_reward := Some shown_reward; rw_risk_reward_ratio := Some shown_ratio;
            rw_is_valid := dleb RM_MIN_RISK_REWARD_RATIO ratio;
            rw_reason := "Risk/reward was calculated from target reward divided by stop-loss risk per unit." |}
  end.

(** the loop of [_calculate_risk_reward] *)
Fixpoint calculate_risk_reward (setup : RiskManagerInput) (per_unit : option dec) (targets : list dec)
    : result (list RiskRewardResult) :=
  match targets with
  | [] => Ok []
  | target :: rest =>
      let! first := target_risk_reward setup per_unit target in
      let! others := calculate_risk_reward setup per_unit rest in
      Ok (first :: others)
  end.

(** [_best_risk_reward] *)
Definition best_risk_reward (results : list RiskRewardResult) : option dec :=
  match omap rw_risk_reward_ratio results with
  | [] => None
  | first :: rest => Some (fold_left dmax rest first)
  end.

(** ** Leverage and data *)

(** [_classify_leverage] *)
Definition classify_leverage (leverage : option dec) : result LeverageRiskResult :=
  match leverage with
  | None =>
      Ok {| lr_leverage := None; lr_risk_level := LevelNA;
            lr_warning := "Leverage is N/A because no leverage value was provided. " +:+ POSITION_SIZING_MESSAGE |}
  | Some value =>
      let! shown := rm_quantize value in
      let (level, text) :=
        if dltb (dec_of_Z 50) value
        then (LevelDangerous, "Dangerous leverage risk: small price moves can cause severe losses or liquidation.")
        else if dltb (dec_of_Z 25) value
        then (LevelExtreme, "Extreme leverage risk: liquidation risk and loss acceleration are very high.")
        else if dltb (dec_of_Z 10) value
        then (LevelHigh, "High leverage risk: losses and liquidation risk are amplified.")
        else (LevelStandard, "Leverage increases losses and liquidation risk even at lower levels.") in
      Ok {| lr_leverage := Some shown; lr_risk_level := level; lr_warning := text +:+ " " +:+ POSITION_SIZING_MESSAGE |}
  end.

(** [_data_reliability] *)
Definition data_reliability (score : option dec) : DataReliability :=
  match score with
  | None => ReliabilityNA
  | Some s => if dltb s RM_MIN_DATA_QUALITY_SCORE then ReliabilityUnverified else ReliabilityVerified
  end.

(** ** The decision *)

Definition level_argument (level : option dec) : pyobj :=
  match level with Some d => PyDec (Finite d) | None => PyNone end.

(** the public plan, when a minimum is required for the second target *)
Definition public_plan_violations (setup : RiskManagerInput) : result (list RiskRuleViolation) :=
  match rk_minimum_tp2_rr setup with
  | None => Ok []
  | Some minimum =>
      let target (n : nat) := level_argument (rk_take_profit_targets setup !! n) in
      let level (d : dec) := PyDec (Finite d) in
      let! plan := validate_public_trade_plan (direction_text (rk_direction setup)) (level (rk_entry_price setup))
                     (level (rk_entry_price setup)) (level (rk_stop_loss setup)) (target 0%nat) (target 1%nat) (target 2%nat)
                     (level minimum) (level (rk_execution_cost setup)) in
      Ok (rule (negb (tp_valid plan)) "tp2_rr_below_minimum" ("Final public plan rejected: " +:+ tp_reason plan +:+ "."))
  end.

(** [RiskManagerAgent.analyze] *)
Definition analyze_risk (setup : RiskManagerInput) : result RiskDecision :=
  let! sizing := calculate_position_sizing setup in
  let! rewards := calculate_risk_reward setup (sz_risk_per_unit sizing) (rk_take_profit_targets setup) in
  let best := best_risk_reward rewards in
  let! public := public_plan_violations setup in
  let violations :=
    (hard_rule_violations setup ++ public
     ++ rule (match best with Some b => dltb b RM_MIN_RISK_REWARD_RATIO | None => false end) "risk_reward_below_minimum"
          "Best risk/reward ratio is below 2.0.")%list in
  let! leverage := classify_leverage (rk_leverage setup) in
  let approved := match violations with [] => true | _ => false end in
  let! score := rm_optional_quantize (rk_data_quality_score setup) in
  let! max_daily := rm_optional_quantize (rk_max_daily_risk_pct setup) in
  let! current_daily := rm_optional_quantize (rk_current_daily_loss_pct setup) in
  Ok {| rd_approved := approved; rd_decision := if approved then "approved" else "rejected"; rd_violations := violations;
        rd_position_sizing := sizing; rd_risk_reward := rewards; rd_best_risk_reward_ratio := best; rd_leverage_risk := leverage;
        rd_invalidation_reason := normalized_invalidation setup; rd_data_quality_score := score;
        rd_data_reliability := data_reliability (rk_data_quality_score setup); rd_max_daily_risk_pct := max_daily;
        rd_current_daily_loss_pct := current_daily |}.

(** * What an approved setup guarantees *)

Local Open Scope Q_scope.

(** ** Rules *)

Lemma rule_nil b code message : rule b code message = [] <-> b = false.
Proof. unfold rule. by destruct b. Qed.

Lemma app_nil_iff {A} (l l' : list A) : (l ++ l')%list = [] <-> l = [] /\ l' = [].
Proof. split; [apply app_eq_nil|by intros [-> ->]]. Qed.

(** the levels of a setup, as a plan whose entry zone is the entry price *)
Definition setup_geometry (i : RiskManagerInput) : Prop :=
  plan_geometry (is_long (rk_direction i)) (rk_entry_price i) (rk_entry_price i) (rk_entry_price i) (rk_stop_loss i)
    (rk_take_profit_targets i).

(** what the hard rules ask for *)
Record sound_setup (i : RiskManagerInput) : Prop := {
  so_cost : 0 <= dQ (rk_execution_cost i);
  so_equity : 0 < dQ (rk_account_equity i);
  so_share : 0 < dQ (rk_risk_per_trade_pct i) <= 2;
  so_targets : rk_take_profit_targets i <> [];
  so_geometry : setup_geometry i;
  so_invalidation : exists reason, rk_invalidation_reason i = Some reason /\ py_strip reason <> "" /\ py_strip reason <> NA;
  so_quality : forall s, rk_data_quality_score i = Some s -> 60 <= dQ s;
  so_daily : forall limit loss, rk_max_daily_risk_pct i = Some limit -> rk_current_daily_loss_pct i = Some loss -> dQ loss <= dQ limit
}.

Lemma existsb_none {A} (p : A -> bool) l : existsb p l = false <-> Forall (fun x => p x = false) l.
Proof.
  induction l as [|x l IH]; cbn [existsb]; [by split; [constructor|]|]. rewrite orb_false_iff, IH, Forall_cons. tauto.
Qed.

Lemma target_violations_nil i : target_violations i = [] <->
  rk_take_profit_targets i <> [] /\ Forall (fun t => 0 < dQ t) (rk_take_profit_targets i) /\
  Forall (fun t => if is_long (rk_direction i) then dQ (rk_entry_price i) < dQ t else dQ t < dQ (rk_entry_price i))
    (rk_take_profit_targets i) /\
  StronglySorted (fun a b => if is_long (rk_direction i) then dQ a < dQ b else dQ b < dQ a) (rk_take_profit_targets i).
Proof.
  unfold target_violations. set (targets := rk_take_profit_targets i). set (entry := rk_entry_price i).
  set (long := is_long (rk_direction i)). pose proof dQ_zero as Hz.
  assert (existsb (fun t => dleb t dzero) targets = false <-> Forall (fun t => 0 < dQ t) targets) as Hpos.
  { rewrite existsb_none. apply Forall_iff. intros t. rewrite dleb_false. by rewrite Hz. }
  assert (existsb (fun t => if long then dleb t entry else dleb entry t) targets = false <->
    Forall (fun t => if long then dQ entry < dQ t else dQ t < dQ entry) targets) as Hside.
  { rewrite existsb_none. apply Forall_iff. intros t. destruct long; apply dleb_false. }
  pose proof (targets_ordered_iff long targets) as Hord. pose proof (sorted_no_duplicate long targets) as Hdup.
  destruct targets as [|t0 targets]; [split; [done|by intros [? _]]|].
  destruct (existsb (fun t => dleb t dzero) (t0 :: targets)) eqn:Ep.
  - split; [done|]. intros (_ & H & _). by apply Hpos in H.
  - rewrite !app_nil_iff, !rule_nil, Hside, negb_false_iff, Hord. split.
    + intros (H1 & _ & H3). split_and!; try done. by apply Hpos.
    + intros (_ & _ & H1 & H2). split_and!; auto.
Qed.

Lemma hard_rules_sound i : hard_rule_violations i = [] <-> sound_setup i.
Proof.
  unfold hard_rule_violations. rewrite !app_nil_iff, !rule_nil, target_violations_nil. pose proof dQ_zero as Hz.
  assert (dQ MAX_RISK_PER_TRADE_PCT == 2 /\ dQ RM_MIN_DATA_QUALITY_SCORE == 60) as [E2 E60] by (split; reflexivity).
  rewrite !dleb_false, !dltb_false, Hz, E2.
  assert (String.eqb (normalized_invalidation i) NA = false <->
    exists reason, rk_invalidation_reason i = Some reason /\ py_strip reason <> "" /\ py_strip reason <> NA) as Hinv.
  { unfold normalized_invalidation. rewrite String.eqb_neq. destruct (rk_invalidation_reason i) as [reason|].
    - destruct (String.eqb_spec (py_strip reason) "") as [E|E].
      + split; [done|]. by intros (r & [= <-] & ? & _).
      + split; [intros H; by exists reason|]. by intros (r & [= <-] & _ & H).
    - split; [done|]. by intros (r & [=] & _). }
  rewrite Hinv. split.
  - intros (Hc & He & Hs0 & Hs2 & Hp & Hst & (Hn & Ht0 & Ht & Hts) & Hi & Hstop & Hq & Hd).
    unfold stop_violations in Hstop. rewrite !(proj2 (dltb_spec _ _)) in Hstop by (rewrite Hz; lra). cbn [andb] in Hstop.
    split; try done.
    + unfold setup_geometry, plan_geometry. split_and!; try done; try lra.
      destruct (rk_direction i); cbn [is_long] in *; apply rule_nil, dleb_false in Hstop; split_and!; done || lra.
    + intros s Es. rewrite Es in Hq. apply dltb_false in Hq. by rewrite E60 in Hq.
    + intros limit loss El Eo. rewrite El, Eo in Hd. by apply dltb_false in Hd.
  - intros [Hc He Hs Hn Hg Hi Hq Hd]. unfold setup_geometry, plan_geometry in Hg. destruct Hg as (Hp & _ & Hst & Ht0 & Hg).
    split_and!; try done; try lra.
    + by destruct (is_long (rk_direction i)); destruct Hg as (_ & ? & _).
    + by destruct (is_long (rk_direction i)); destruct Hg as (_ & _ & ?).
    + unfold stop_violations. destruct (dltb dzero _ && dltb dzero _); [|done].
      destruct (rk_direction i); cbn [is_long] in Hg; apply rule_nil, dleb_false; lra.
    + destruct (rk_data_quality_score i) as [s|]; [|done]. apply dltb_false. rewrite E60. by apply Hq.
    + destruct (rk_max_daily_risk_pct i) as [limit|], (rk_current_daily_loss_pct i) as [loss|]; try done.
      apply dltb_false. by apply Hd.
Qed.

(** ** The public plan *)

(** the second target pays at least [m] after costs, up to one rounded division *)
Definition pays (i : RiskManagerInput) (target : dec) (m : Q) : Prop :=
  let long := is_long (rk_direction i) in
  m * (1 - div_eps) * dQ (plan_risk long (rk_entry_price i) (rk_stop_loss i) (rk_execution_cost i))
  <= dQ (plan_reward long (rk_entry_price i) target (rk_execution_cost i)).

Lemma direction_long d : String.eqb (direction_text d) "long" = is_long d.
Proof. by destruct d. Qed.

Lemma level_argument_required level name d :
  optional_decimal (level_argument level) name true = Ok (Some d) -> level = Some d.
Proof.
  destruct level as [x|]; cbn [level_argument]; [|done]. rewrite optional_decimal_finite. by intros [= ->].
Qed.

Lemma public_plan_pays i m : rk_minimum_tp2_rr i = Some m -> sound_setup i -> public_plan_violations i = Ok [] ->
  exists target, rk_take_profit_targets i !! 1%nat = Some target /\ pays i target (Qmax 3 (dQ m)).
Proof.
  unfold public_plan_violations. intros -> Hs E. apply bind_ok in E as (r & Hr & E). apply ok_inj, rule_nil, negb_false_iff in E.
  unfold validate_public_trade_plan in Hr. rewrite !required_decimal_finite in Hr. cbn [bind_result] in Hr.
  set (a := public_plan_args _ _ _ _ _ _ _ _ _) in Hr.
  destruct (accepted_plan_parsed a r eq_refl Hr E) as (p & T1 & target & T3 & (_ & p' & Hp' & Hc & Hg & He) & Hp & Et & _).
  rewrite Hp in Hp'. injection Hp' as <-. unfold parse_plan in Hp. cbn [a public_plan_args pa_entry_low pa_entry_high pa_entry_reference
    pa_stop_loss pa_tp1 pa_tp2 pa_tp3 pa_minimum_rr pa_require_all_targets pa_execution_cost] in Hp.
  rewrite !required_decimal_finite, !optional_decimal_finite in Hp. cbn [bind_result] in Hp.
  apply bind_ok in Hp as (t1 & _ & Hp). apply bind_ok in Hp as (t2 & H2 & Hp). apply bind_ok in Hp as (t3 & _ & Hp).
  cbn [bind_result] in Hp. apply ok_inj in Hp as <-. unfold second_target in He. cbn [pp_targets pp_entry pp_stop pp_cost pp_minimum nth] in Et, He, Hc. injection Et as _ -> _.
  apply level_argument_required in H2. exists target. split; [done|].
  assert (String.eqb (plan_side a) "long" = is_long (rk_direction i)) as El by (by destruct (rk_direction i)). rewrite El in He.
  assert ((if String.eqb (py_lower (py_strip (direction_text (rk_direction i)))) "long" then rk_entry_price i else rk_entry_price i)
          = rk_entry_price i) as Ee by (by destruct (rk_direction i)). rewrite Ee in He.
  destruct He as [Hpos Hm]. destruct (Hm _ eq_refl) as (q & Hq & Hle). rewrite dmax_Q in Hle.
  assert (dQ PUBLIC_TP2_MINIMUM_RR == 3) as E3 by reflexivity. rewrite E3 in Hle.
  pose proof (so_geometry _ Hs) as (_ & Hz & _ & _ & Hgs). unfold pays. eapply ddiv_lower; [|by eapply plan_risk_pos; [apply Hs|exact Hz|destruct (is_long (rk_direction i)); tauto]|done|exact Hq|done].
  pose proof (Q.le_max_l 3 (dQ m)). lra.
Qed.

(** ** The decision *)

Record decided (i : RiskManagerInput) (d : RiskDecision) (public : list RiskRuleViolation) : Prop := {
  de_sizing : calculate_position_sizing i = Ok (rd_position_sizing d);
  de_rewards : calculate_risk_reward i (sz_risk_per_unit (rd_position_sizing d)) (rk_take_profit_targets i) = Ok (rd_risk_reward d);
  de_best : rd_best_risk_reward_ratio d = best_risk_reward (rd_risk_reward d);
  de_public : public_plan_violations i = Ok public;
  de_violations : rd_violations d = (hard_rule_violations i ++ public ++
    rule (match rd_best_risk_reward_ratio d with Some b => dltb b RM_MIN_RISK_REWARD_RATIO | None => false end)
      "risk_reward_below_minimum" "Best risk/reward ratio is below 2.0.")%list;
  de_approved : rd_approved d = true <-> rd_violations d = []
}.

Lemma analyze_risk_decided i d : analyze_risk i = Ok d -> exists public, decided i d public.
Proof.
  unfold analyze_risk. intros E. apply bind_ok in E as (sizing & Hs & E). apply bind_ok in E as (rewards & Hr & E).
  apply bind_ok in E as (public & Hp & E). apply bind_ok in E as (lev & _ & E). apply bind_ok in E as (score & _ & E).
  apply bind_ok in E as (md & _ & E). apply bind_ok in E as (cd & _ & E). apply ok_inj in E as <-. exists public. split; cbn; try done.
  by destruct (hard_rule_violations i ++ _)%list.
Qed.

(** ** Sizing *)

Lemma rescale_down_error d e : 0 <= dQ d ->
  0 <= dQ (drescale_down d e) <= dQ d /\ dQ d < dQ (drescale_down d e) + ten_pow e.
Proof.
  intros Hd. pose proof (ten_pow_pos e) as Hp. unfold drescale_down. destruct (N.eqb_spec (d_coef d) 0) as [E|E].
  { assert (dQ (mkDec (d_neg d) 0 e) == 0) as -> by (by apply coef_zero_dQ). apply coef_zero_dQ in E. rewrite E. lra. }
  destruct (Z.leb_spec e (d_exp d)) as [Hle|Hgt].
  { assert (dQ (mkDec (d_neg d) (d_coef d * pow10 (Z.to_nat (d_exp d - e))) e) == dQ d) as ->; [|lra].
    rewrite !dQ_sgn. cbn [d_neg d_coef d_exp]. rewrite N2Z.inj_mul, inject_Z_mult, <- ten_pow_nat.
    rewrite Z2Nat.id by lia. rewrite <- Qmult_assoc, <- ten_pow_add. by replace (d_exp d - e + e)%Z with (d_exp d) by lia. }
  assert (d_neg d = false) as Hneg.
  { destruct (d_neg d) eqn:En; [|done]. exfalso. assert (dQ d < 0); [|lra]. apply dQ_sgn_neg. unfold d_sc. rewrite En. lia. }
  set (k := Z.to_nat (e - d_exp d)). set (q := (d_coef d / pow10 k)%N). pose proof (ten_pow_pos (d_exp d)) as H0.
  assert (ten_pow e == inject_Z (Z.of_N (pow10 k)) * ten_pow (d_exp d)) as Ee.
  { rewrite <- ten_pow_nat, <- ten_pow_add. unfold k. rewrite Z2Nat.id by lia. by replace (e - d_exp d + d_exp d)%Z with e by lia. }
  assert (dQ (mkDec (d_neg d) q e) == inject_Z (Z.of_N (q * pow10 k)) * ten_pow (d_exp d)) as Eq.
  { rewrite dQ_sgn, Hneg. cbn [d_neg d_coef d_exp sgnQ]. rewrite N2Z.inj_mul, inject_Z_mult, Ee. ring. }
  assert (dQ d == inject_Z (Z.of_N (d_coef d)) * ten_pow (d_exp d)) as Edd by (rewrite dQ_sgn, Hneg; cbn [sgnQ]; ring).
  rewrite Eq, Edd, Ee. pose proof (N.Div0.div_mod (d_coef d) (pow10 k)) as Hdm. pose proof (N.mod_lt (d_coef d) (pow10 k) ltac:(pose proof (pow10_pos k); lia)) as Hml.
  fold q in Hdm. split; [split|].
  - apply Qmult_le_0_compat; [|lra]. change 0 with (inject_Z 0). rewrite <- Zle_Qle. lia.
  - apply Qmult_le_compat_r; [|lra]. rewrite <- Zle_Qle. lia.
  - rewrite <- Qmult_plus_distr_l, <- inject_Z_plus. apply Qmult_lt_r; [done|]. rewrite <- Zlt_Qlt. lia.
Qed.

Lemma quantize_error d q : rm_quantize d = Ok q -> Qabs (dQ q - dQ d) <= (1 # 2) * ulp8.
Proof.
  unfold rm_quantize, dquantize. destruct (_ <? _)%nat; [done|]. intros H. apply ok_inj in H as <-. apply rescale_error.
Qed.

(** the share of the equity that is risked *)
Definition risked_share (i : RiskManagerInput) : Q := dQ (rk_account_equity i) * dQ (rk_risk_per_trade_pct i) / 100.

Lemma risk_amount_bound i share amount : 0 < dQ (rk_account_equity i) -> 0 < dQ (rk_risk_per_trade_pct i) ->
  ddiv (dmul (rk_account_equity i) (rk_risk_per_trade_pct i)) (dec_of_Z 100) = Ok share -> rm_quantize share = Ok amount ->
  Qabs (dQ amount - risked_share i) <= 2 * div_eps * risked_share i + (1 # 2) * ulp8.
Proof.
  intros He Hp Hs Ha. apply quantize_error in Ha. unfold risked_share.
  set (m := dmul _ _) in Hs. assert (dQ (dec_of_Z 100) == 100) as E100 by reflexivity.
  destruct (ddiv_value m (dec_of_Z 100)) as (s' & Hs' & Herr); [rewrite E100; lra|]. rewrite Hs in Hs'. apply ok_inj in Hs' as <-.
  destruct (dmul_value (rk_account_equity i) (rk_risk_per_trade_pct i)) as (x & Em & Ex). pose proof (dfix_error x) as Hx.
  fold m in Em. rewrite <- Em, Ex in Hx. set (xy := dQ (rk_account_equity i) * dQ (rk_risk_per_trade_pct i)) in *.
  assert (0 < xy) as Hxy by (by apply Qmult_lt_0_compat). rewrite (Qabs_pos xy) in Hx by lra.
  apply Qabs_Qle_condition in Hx. rewrite E100 in Herr. unfold half_ulp in Hx.
  assert (0 < dQ m) as Hm by lra. rewrite (Qabs_pos (dQ m / 100)) in Herr by (apply Qle_shift_div_l; lra).
  apply Qabs_Qle_condition in Herr, Ha. apply Qabs_Qle_condition. unfold div_eps, Qdiv in *. change (/ 100) with (1 # 100) in *. split; lra.
Qed.

(** what the sizing of a sound setup holds *)
Record sized (i : RiskManagerInput) (s : PositionSizingResult) (unit amount size : dec) : Prop := {
  sd_unit : risk_per_unit i = Some unit;
  sd_amount : sz_risk_amount s = Some amount;
  sd_size : sz_position_size s = Some size;
  sd_positive : 0 < dQ unit /\ 0 <= dQ size;
  sd_loss : dQ size * dQ unit <= risked_share i * (1 + 4 * div_eps) + ulp8;
  sd_largest : risked_share i * (1 - 4 * div_eps) - ulp8 < (dQ size + ulp8) * dQ unit
}.

Lemma sound_risk_per_unit i : sound_setup i ->
  risk_per_unit i = Some (plan_risk (is_long (rk_direction i)) (rk_entry_price i) (rk_stop_loss i) (rk_execution_cost i)) /\
  0 < dQ (plan_risk (is_long (rk_direction i)) (rk_entry_price i) (rk_stop_loss i) (rk_execution_cost i)).
Proof.
  intros Hs. pose proof (so_geometry _ Hs) as (Hp & Hz & Hst & _ & Hg). pose proof (so_cost _ Hs) as Hc. pose proof dQ_zero as H0.
  split.
  - unfold risk_per_unit, plan_risk. rewrite (proj2 (dltb_false _ _)) by (rewrite H0; done).
    rewrite !(proj2 (dleb_false _ _)) by (rewrite H0; done). cbn [orb].
    rewrite (proj2 (dleb_false _ _)); [done|]. rewrite H0. destruct (is_long _); apply dsub_pos; tauto.
  - eapply plan_risk_pos; [done|exact Hz|]. destruct (is_long _); tauto.
Qed.

Lemma quotient_units raw a u : 0 < u -> 0 <= a -> Qabs (raw - a / u) <= div_eps * Qabs (a / u) ->
  a * (1 - div_eps) <= raw * u <= a * (1 + div_eps).
Proof.
  intros Hu Ha Herr. assert (0 <= a / u) as Hq by (apply Qle_shift_div_l; [done|lra]). rewrite (Qabs_pos (a / u)) in Herr by done.
  apply Qabs_Qle_condition in Herr. assert (a == a / u * u) as Ea by (field; lra). set (q := a / u) in *.
  assert (q * (1 - div_eps) * u <= raw * u) as H1 by (apply Qmult_le_compat_r; lra).
  assert (raw * u <= q * (1 + div_eps) * u) as H2 by (apply Qmult_le_compat_r; lra). rewrite Ea. split; lra.
Qed.

Lemma sizing_sized i s : sound_setup i -> calculate_position_sizing i = Ok s -> exists unit amount size, sized i s unit amount size.
Proof.
  intros Hs E. destruct (sound_risk_per_unit i Hs) as [Hu Hpos]. unfold calculate_position_sizing in E. rewrite Hu in E.
  set (unit := plan_risk _ _ _ _) in *. pose proof (so_equity _ Hs) as He. pose proof (so_share _ Hs) as [Hp _]. pose proof dQ_zero as H0.
  rewrite !(proj2 (dltb_spec dzero _)) in E by (rewrite H0; done). cbn [andb bind_result] in E.
  apply bind_ok in E as (ra & Hra & E). apply bind_ok in Hra as (share & Hsh & Hra). unfold map_result in Hra.
  destruct (rm_quantize share) as [amount|] eqn:Ha; [|done]. apply ok_inj in Hra as <-.
  apply bind_ok in E as ([sz nv] & Hb & E). apply bind_ok in Hb as (raw & Hraw & Hb). apply bind_ok in Hb as (size & Hsz & Hb).
  apply bind_ok in Hb as (nt & _ & Hb). apply ok_inj in Hb. injection Hb as <- <-. apply bind_ok in E as (shown & _ & E). apply ok_inj in E as <-.
  pose proof (risk_amount_bound i share amount He Hp Hsh Ha) as Hb. apply Qabs_Qle_condition in Hb.
  assert (0 <= dQ amount) as Ha0.
  { assert (0 < dQ share) as Hsp by (eapply (ddiv_pos _ (dec_of_Z 100)); [|reflexivity|exact Hsh]; by apply dmul_pos).
    unfold rm_quantize, dquantize in Ha. destruct (_ <? _)%nat; [done|]. apply ok_inj in Ha as <-.
    assert (d_neg share = false) as Hn by (destruct (d_neg share) eqn:En; [|done]; exfalso; apply dQ_sgn_pos in Hsp; unfold d_sc in Hsp; rewrite En in Hsp; lia).
    unfold drescale. rewrite Hn. destruct (_ =? _)%N; [|destruct (_ <=? _)%Z];
      rewrite dQ_sgn; cbn [d_neg d_coef d_exp sgnQ]; apply Qmult_le_0_compat; try lra;
      apply Qmult_le_0_compat; try (apply Qlt_le_weak, ten_pow_pos); change 0 with (inject_Z 0); rewrite <- Zle_Qle; lia. }
  destruct (ddiv_value amount unit) as (raw' & Hraw' & Herr); [lra|]. rewrite Hraw in Hraw'. apply ok_inj in Hraw' as <-.
  pose proof (quotient_units _ _ _ Hpos Ha0 Herr) as [Hlo Hhi].
  unfold dquantize_down in Hsz. destruct (_ <? _)%nat; [done|]. apply ok_inj in Hsz as <-.
  assert (0 <= dQ raw) as Hr0.
  { destruct (Qlt_le_dec (dQ raw) 0) as [Hneg|]; [|done]. exfalso. assert (dQ raw * dQ unit < 0); [|unfold div_eps in *; lra].
    setoid_replace 0 with (0 * dQ unit) using relation Qeq by ring. by apply Qmult_lt_r. }
  destruct (rescale_down_error raw (-8) Hr0) as [[Hs0 Hs1] Hs2]. fold ulp8 in Hs2. set (size := drescale_down raw (-8)) in *.
  exists unit, amount, size. split; try done.
  - assert (dQ size * dQ unit <= dQ raw * dQ unit) by (apply Qmult_le_compat_r; lra). rewrite ulp8_value in *. unfold div_eps in *.
    assert (0 < risked_share i) by (unfold risked_share, Qdiv; change (/ 100) with (1 # 100); apply Qmult_lt_0_compat; [by apply Qmult_lt_0_compat|reflexivity]). lra.
  - assert (dQ raw * dQ unit < (dQ size + ulp8) * dQ unit) by (by apply Qmult_lt_r). rewrite ulp8_value in *. unfold div_eps in *.
    assert (0 < risked_share i) by (unfold risked_share, Qdiv; change (/ 100) with (1 # 100); apply Qmult_lt_0_compat; [by apply Qmult_lt_0_compat|reflexivity]). lra.
Qed.

(** ** Theorems *)

(** C15: an approved setup is sound: the equity is positive, at most two percent of it is risked, the stop is on the losing
    side of the entry and the targets are on the winning side in strict order, an invalidation is given, data quality is
    at least 60 and the daily loss is within its limit when known; the best ratio, when one was computed, is at least
    two, and when a minimum is required for the second target that target pays three times the risk, and the minimum,
    after costs.  A setup is rejected exactly when it broke a rule. *)
Theorem approved_setup_sound i d : analyze_risk i = Ok d ->
  (rd_approved d = true <-> rd_violations d = []) /\
  (rd_approved d = true -> sound_setup i /\
     (forall b, rd_best_risk_reward_ratio d = Some b -> 2 <= dQ b) /\
     forall m, rk_minimum_tp2_rr i = Some m ->
       exists target, rk_take_profit_targets i !! 1%nat = Some target /\ pays i target (Qmax 3 (dQ m))).
Proof.
  intros E. apply analyze_risk_decided in E as (public & Hd). split; [apply Hd|]. intros Ha. apply (de_approved _ _ _ Hd) in Ha.
  rewrite (de_violations _ _ _ Hd), !app_nil_iff, rule_nil in Ha. destruct Ha as (Hh & Hp & Hb). apply hard_rules_sound in Hh.
  split; [done|]. split.
  - intros b Eb. rewrite Eb in Hb. apply dltb_false in Hb. by assert (dQ RM_MIN_RISK_REWARD_RATIO == 2) as E2 by reflexivity; rewrite E2 in Hb.
  - intros m Hm. apply public_plan_pays; [done..|]. rewrite (de_public _ _ _ Hd). by rewrite Hp.
Qed.

(** C16: the size of an approved position follows from its stop. If the stop is hit, the position loses at most the
    permitted share of the equity, costs included, up to the 1e-8 of the units and the rounding of the arithmetic; and no
    position that is one unit of 1e-8 larger would. *)
Theorem position_loss_bounded i d : analyze_risk i = Ok d -> rd_approved d = true ->
  exists unit amount size, sized i (rd_position_sizing d) unit amount size /\
    unit = plan_risk (is_long (rk_direction i)) (rk_entry_price i) (rk_stop_loss i) (rk_execution_cost i).
Proof.
  intros E Ha. apply analyze_risk_decided in E as (public & Hd). apply (de_approved _ _ _ Hd) in Ha.
  rewrite (de_violations _ _ _ Hd), app_nil_iff in Ha. destruct Ha as [Hh _]. apply hard_rules_sound in Hh.
  destruct (sizing_sized i _ Hh (de_sizing _ _ _ Hd)) as (unit & amount & size & Hs). exists unit, amount, size. split; [done|].
  pose proof (sd_unit _ _ _ _ _ Hs) as Hu. rewrite (proj1 (sound_risk_per_unit i Hh)) in Hu. by injection Hu.
Qed.

(** ** Samples *)

Definition sample_setup : RiskManagerInput :=
  {| rk_account_equity := dec_of_Z 10000; rk_risk_per_trade_pct := dec_of_Z 1; rk_entry_price := dec_of_Z 100;
     rk_stop_loss := dec_of_Z 95; rk_take_profit_targets := [dec_of_Z 110; dec_of_Z 120; dec_of_Z 130]; rk_direction := LONG;
     rk_leverage := Some (dec_of_Z 20); rk_max_daily_risk_pct := None; rk_current_daily_loss_pct := None;
     rk_data_quality_score := Some (dec_of_Z 90); rk_invalidation_reason := Some "close below 95";
     rk_execution_cost := mkDec false 1 (-1); rk_minimum_tp2_rr := Some (dec_of_Z 3) |}.

Example sample_setup_sized :
  match analyze_risk sample_setup with
  | Ok d => (rd_approved d, option_map dec_to_string (sz_position_size (rd_position_sizing d)),
             option_map dec_to_string (rd_best_risk_reward_ratio d), lr_risk_level (rd_leverage_risk d))
            = (true, Some "19.60784313", Some "5.86274510", LevelHigh)
  | Raise _ => False
  end.
Proof. vm_compute. reflexivity. Qed.

Lemma sample_approved : exists d, analyze_risk sample_setup = Ok d /\ rd_approved d = true.
Proof.
  assert (match analyze_risk sample_setup with Ok d => rd_approved d = true | Raise _ => False end) as H by (vm_compute; reflexivity).
  destruct (analyze_risk sample_setup) as [d|]; [|done]. by exists d.
Qed.

Lemma approved_setup_sound_witness : exists d, analyze_risk sample_setup = Ok d /\ sound_setup sample_setup /\
  exists target, pays sample_setup target (Qmax 3 3).
Proof.
  destruct sample_approved as (d & E & Ha). exists d. split; [exact E|].
  destruct (approved_setup_sound sample_setup d E) as [_ H]. destruct (H Ha) as (Hs & _ & Hm). split; [exact Hs|].
  destruct (Hm (dec_of_Z 3) eq_refl) as (target & _ & Hp). exists target. exact Hp.
Defined.

Lemma position_loss_bounded_witness : exists unit size,
  dQ size * dQ unit <= risked_share sample_setup * (1 + 4 * div_eps) + ulp8.
Proof.
  destruct sample_approved as (d & E & Ha).
  destruct (position_loss_bounded sample_setup d E Ha) as (unit & amount & size & Hs & _). exists unit, size. exact (sd_loss _ _ _ _ _ Hs).
Defined.

(** ** Prices of eight places

    The ratios divide by the risk per unit as it is displayed, at eight places.  For prices whose stop distance is a few
    units of 1e-8 that is far from the risk the position is sized with, and at less than half a unit it is zero, which
    leaves the ratios out. *)

Definition low_price_setup (stop target : dec) : RiskManagerInput :=
  {| rk_account_equity := dec_of_Z 10000; rk_risk_per_trade_pct := dec_of_Z 1; rk_entry_price := mkDec false 1000 (-9);
     rk_stop_loss := stop; rk_take_profit_targets := [target]; rk_direction := LONG; rk_leverage := None;
     rk_max_daily_risk_pct := None; rk_current_daily_loss_pct := None; rk_data_quality_score := None;
     rk_invalidation_reason := Some "close below the stop"; rk_execution_cost := dzero; rk_minimum_tp2_rr := None |}.

(** a target that pays 20 for a risk of 14 is approved at a ratio of 2 *)
Theorem displayed_risk_overstates_ratio :
  let i := low_price_setup (mkDec false 986 (-9)) (mkDec false 1020 (-9)) in
  exists d b, analyze_risk i = Ok d /\ rd_approved d = true /\ rd_best_risk_reward_ratio d = Some b /\ dQ b == 2 /\
    dQ (plan_reward true (rk_entry_price i) (mkDec false 1020 (-9)) dzero)
    == (20 # 14) * dQ (plan_risk true (rk_entry_price i) (rk_stop_loss i) dzero).
Proof.
  cbn zeta. assert (match analyze_risk (low_price_setup (mkDec false 986 (-9)) (mkDec false 1020 (-9))) with
          | Ok d => rd_approved d = true /\ exists b, rd_best_risk_reward_ratio d = Some b /\ dQ b == 2 | Raise _ => False end) as H
    by (vm_compute; split; [reflexivity|eexists; split; reflexivity]).
  destruct (analyze_risk _) as [d|]; [|done]. destruct H as (Ha & b & Hb & E2). exists d, b. by split_and!.
Qed.

(** a target that pays less than its risk is approved without a ratio *)
Theorem approved_without_ratio :
  let i := low_price_setup (mkDec false 996 (-9)) (mkDec false 1001 (-9)) in
  exists d, analyze_risk i = Ok d /\ rd_approved d = true /\ rd_best_risk_reward_ratio d = None /\
    4 * dQ (plan_reward true (rk_entry_price i) (mkDec false 1001 (-9)) dzero)
    == dQ (plan_risk true (rk_entry_price i) (rk_stop_loss i) dzero).
Proof.
  cbn zeta. assert (match analyze_risk (low_price_setup (mkDec false 996 (-9)) (mkDec false 1001 (-9))) with
          | Ok d => rd_approved d = true /\ rd_best_risk_reward_ratio d = None | Raise _ => False end) as H
    by (vm_compute; split; reflexivity).
  destruct (analyze_risk _) as [d|]; [|done]. destruct H as (Ha & Hb). exists d. by split_and!.
Qed.
