(* ===== verification/TradeIdea.v ===== *)
(** * Trade ideas (src/app/agents/trade_idea.py)

    A scored and risk-checked candidate becomes a structured idea, with a quality
    gate that decides whether it is rejected.  An input holds what pydantic admits:
    finite Decimals, a non-negative cost and one of the two directions; absent lists
    are empty. *)

From stdpp Require Import base tactics list strings.
From Stdlib Require Import ZArith NArith QArith Lqa Lia Bool Ascii Sorted.
From S2P Require Import Prelude PyString PyDecimal DecimalFacts LifecycleModels CandleIntegrity TradePlan RiskManager.
Open Scope string_scope.
Open Scope py_scope.

Definition MIN_OPPORTUNITY_SCORE : dec := dec_of_Z 80.
Definition TI_MIN_RISK_REWARD_RATIO : dec := mkDec false 20 (-1).
Definition BASE_RISK_WARNING : string :=
  "This is not financial advice. Position size must be based on stop-loss risk, not desired profit.".
Definition LEVERAGE_RISK_WARNING : string :=
  "Leverage increases liquidation risk. Exact liquidation price requires exchange-specific margin model and position settings.".

Inductive OpportunityDecision : Type := OD_WATCHLIST_ONLY | OD_ALERT_CANDIDATE | OD_HIGH_QUALITY_CANDIDATE | OD_REJECT.
Inductive TradeIdeaStatus : Type := CONDITIONAL | ACTIVE_IDEA | REJECTED_IDEA.

#[export] Instance OpportunityDecision_eq_dec : EqDecision OpportunityDecision.
Proof. solve_decision. Defined.

Record TradeIdeaInput := {
  ti_symbol : string;
  ti_exchange : option string;
  ti_market_type : option string;
  ti_direction : Direction;
  ti_timeframe : string;
  ti_setup_type : string;
  ti_entry_low : option dec;
  ti_entry_high : option dec;
  ti_entry_reference : option dec;
  ti_stop_loss : option dec;
  ti_take_profit_targets : list dec;
  ti_invalidation : option string;
  ti_opportunity_score : dec;
  ti_opportunity_grade : string;
  ti_opportunity_decision : OpportunityDecision;
  ti_risk_approved : bool;
  ti_best_rr : dec;
  ti_execution_cost : dec;
  ti_technical_summary : option string;
  ti_derivatives_summary : option string;
  ti_confirmed_facts : list string;
  ti_missing_data : list string;
  ti_unverified_data : list string;
  ti_cancel_condition : option string;
  ti_leverage : option dec;
  ti_entry_triggered : bool
}.

Record TradeIdeaLevel := { lv_label : string; lv_price : option dec; lv_low : option dec; lv_high : option dec }.
Record TakeProfitLevel := { tk_target_number : nat; tk_price : dec }.
Record TradeIdeaQualityGateViolation := { gv_code : string; gv_message : string }.
Record TradeIdeaQualityGate := { qg_passed : bool; qg_violations : list TradeIdeaQualityGateViolation }.
Record TradeIdeaContext := { cx_technical_summary : string; cx_derivatives_summary : string }.

Record TradeIdeaResult := {
  idea_symbol : string;
  idea_exchange : string;
  idea_market_type : string;
  idea_direction : Direction;
  idea_timeframe : string;
  idea_setup_type : string;
  idea_status : TradeIdeaStatus;
  idea_entry_zone : TradeIdeaLevel;
  idea_stop_loss : TradeIdeaLevel;
  idea_invalidation : string;
  idea_take_profits : list TakeProfitLevel;
  idea_best_rr : dec;
  idea_execution_cost : dec;
  idea_confidence_score : dec;
  idea_grade : string;
  idea_reason_for_trade : string;
  idea_confirmed_facts : list string;
  idea_missing_data : list string;
  idea_unverified_data : list string;
  idea_cancel_condition : string;
  idea_risk_warning : string;
  idea_quality_gate_result : TradeIdeaQualityGate;
  idea_context : TradeIdeaContext
}.

(** ** Texts *)

(** [_optional_text], which [_summary_or_na] is *)
Definition optional_text (value : option string) : string :=
  match value with
  | None => NA
  | Some text => if String.eqb (py_strip text) "" then NA else py_strip text
  end.

(** [_sentence_fragment] *)
Definition sentence_fragment (value : string) : string :=
  match split_last value with
  | Some (_, c) => if Ascii.eqb c "." || Ascii.eqb c "!" || Ascii.eqb c "?" then value else value +:+ "."
  | None => value +:+ "."
  end.

(** [_clean_strings] *)
Definition clean_strings (values : list string) : list string :=
  List.filter (fun text => negb (String.eqb text "")) (map py_strip values).

(** [_unique] *)
Definition unique (values : list string) : list string :=
  fold_left (fun output value => if str_in value output then output else (output ++ [value])%list) values [].

(** [_reason_for_trade] *)
Definition reason_for_trade (context : TradeIdeaContext) : string :=
  "Technical context: " +:+ sentence_fragment (cx_technical_summary context) +:+ " Derivatives context: "
  +:+ sentence_fragment (cx_derivatives_summary context).

(** [_risk_warning] *)
Definition risk_warning (leverage : option dec) : string :=
  match leverage with
  | None => BASE_RISK_WARNING
  | Some l =>
      py_join " " ([BASE_RISK_WARNING; LEVERAGE_RISK_WARNING]
                   ++ (if dltb (dec_of_Z 10) l then ["High leverage risk."] else [])
                   ++ (if dltb (dec_of_Z 25) l then ["Extreme leverage risk."] else [])
                   ++ (if dltb (dec_of_Z 50) l then ["Dangerous leverage risk."] else []))%list
  end.

(** [_missing_data] *)
Definition missing_data (i : TradeIdeaInput) : list string :=
  let when (b : bool) (text : string) := if b then [text] else [] in
  let absent (o : option dec) := match o with None => true | Some _ => false end in
  unique (clean_strings (ti_missing_data i)
          ++ when (String.eqb (optional_text (ti_technical_summary i)) NA) "technical_summary: N/A"
          ++ when (String.eqb (optional_text (ti_derivatives_summary i)) NA) "derivatives_summary: N/A"
          ++ when (absent (ti_entry_low i) || absent (ti_entry_high i)) "entry_zone: N/A"
          ++ when (absent (ti_stop_loss i)) "stop_loss: N/A"
          ++ when (match ti_take_profit_targets i with [] => true | _ => false end) "take_profit_targets: N/A"
          ++ when (String.eqb (optional_text (ti_invalidation i)) NA) "invalidation: N/A")%list.

(** ** Levels *)

(** [_quantize] *)
Definition ti_quantize (value : dec) : result dec := dquantize value (-8).

Definition ti_optional_quantize (value : option dec) : result (option dec) :=
  match value with None => Ok None | Some v => map_result Some (ti_quantize v) end.

(** [_entry_zone] *)
Definition entry_zone (i : TradeIdeaInput) : result TradeIdeaLevel :=
  let! low := ti_optional_quantize (ti_entry_low i) in
  let! high := ti_optional_quantize (ti_entry_high i) in
  Ok {| lv_label := "entry_zone"; lv_price := None; lv_low := low; lv_high := high |}.

(** [_stop_loss_level] *)
Definition stop_loss_level (i : TradeIdeaInput) : result TradeIdeaLevel :=
  let! price := ti_optional_quantize (ti_stop_loss i) in
  Ok {| lv_label := "stop_loss"; lv_price := price; lv_low := None; lv_high := None |}.

(** [_take_profits] *)
Fixpoint take_profits (index : nat) (targets : list dec) : result (list TakeProfitLevel) :=
  match targets with
  | [] => Ok []
  | target :: rest =>
      let! price := ti_quantize target in
      let! others := take_profits (S index) rest in
      Ok ({| tk_target_number := index; tk_price := price |} :: others)
  end.

(** ** The gate *)

Definition gate (broken : bool) (code message : string) : list TradeIdeaQualityGateViolation :=
  if broken then [{| gv_code := code; gv_message := message |}] else [].

(** the arguments of [validate_trade_plan] *)
Definition idea_plan (i : TradeIdeaInput) (low high stop : dec) : plan_args :=
  let level (d : dec) := PyDec (Finite d) in
  let target (n : nat) := level_argument (ti_take_profit_targets i !! n) in
  {| pa_direction := direction_text (ti_direction i); pa_entry_low := level low; pa_entry_high := level high;
     pa_entry_reference := level (match ti_entry_reference i with
                                  | Some reference => reference
                                  | None => if is_long (ti_direction i) then low else high
                                  end);
     pa_stop_loss := level stop; pa_tp1 := target 0%nat; pa_tp2 := target 1%nat; pa_tp3 := target 2%nat; pa_minimum_rr := PyNone;
     pa_require_all_targets := false;
     pa_entry_reference_type := match ti_entry_reference i with Some _ => "explicit_entry" | None => "favorable_zone_edge" end;
     pa_execution_cost := level dzero |}.

(** the gate on the plan *)
Definition plan_gate (i : TradeIdeaInput) : result (list TradeIdeaQualityGateViolation) :=
  match ti_take_profit_targets i with
  | [] => Ok (gate true "missing_take_profit_targets" "At least one take profit target is required.")
  | _ =>
      match ti_entry_low i, ti_entry_high i, ti_stop_loss i with
      | Some low, Some high, Some stop =>
          let! integrity := validate_trade_plan (idea_plan i low high stop) in
          Ok (gate (negb (tp_valid integrity)) "trade_plan_integrity_failed"
                ("Trade plan integrity failed: " +:+ tp_reason integrity +:+ "."))
      | _, _, _ => Ok []
      end
  end.

(** the gate on the entry zone *)
Definition zone_gate (i : TradeIdeaInput) : list TradeIdeaQualityGateViolation :=
  match ti_entry_low i, ti_entry_high i with
  | Some low, Some high => gate (dltb high low) "invalid_entry_zone" "Entry zone low must not be above entry zone high."
  | _, _ => gate true "missing_entry_zone" "Entry zone low and high are required."
  end.

(** [_quality_gate_result] *)
Definition quality_gate_result (i : TradeIdeaInput) : result TradeIdeaQualityGate :=
  let! plan := plan_gate i in
  let violations :=
    (gate (bool_decide (ti_opportunity_decision i = OD_REJECT)) "opportunity_rejected"
       "Opportunity scoring rejected the candidate."
     ++ gate (dltb (ti_opportunity_score i) MIN_OPPORTUNITY_SCORE) "score_below_minimum" "Opportunity score is below 80."
     ++ gate (negb (ti_risk_approved i)) "risk_not_approved" "Risk manager did not approve the setup."
     ++ gate (String.eqb (optional_text (ti_invalidation i)) NA) "missing_invalidation"
          "A clear invalidation condition is required."
     ++ gate (match ti_stop_loss i with None => true | Some _ => false end) "missing_stop_loss" "Stop loss is required."
     ++ zone_gate i ++ plan
     ++ gate (dltb (ti_best_rr i) TI_MIN_RISK_REWARD_RATIO) "risk_reward_below_minimum"
          "Best risk/reward ratio is below 2.0.")%list in
  Ok {| qg_passed := match violations with [] => true | _ => false end; qg_violations := violations |}.

(** [_status] *)
Definition idea_status_of (i : TradeIdeaInput) (g : TradeIdeaQualityGate) : TradeIdeaStatus :=
  if negb (qg_passed g) then REJECTED_IDEA else if ti_entry_triggered i then ACTIVE_IDEA else CONDITIONAL.

(** [TradeIdeaAgent.create] *)
Definition create_trade_idea (i : TradeIdeaInput) : result TradeIdeaResult :=
  let! quality_gate := quality_gate_result i in
  let context := {| cx_technical_summary := optional_text (ti_technical_summary i);
                    cx_derivatives_summary := optional_text (ti_derivatives_summary i) |} in
  let! zone := entry_zone i in
  let! stop := stop_loss_level i in
  let! targets := take_profits 1 (ti_take_profit_targets i) in
  let! best := ti_quantize (ti_best_rr i) in
  let! confidence := ti_quantize (ti_opportunity_score i) in
  Ok {| idea_symbol := ti_symbol i; idea_exchange := optional_text (ti_exchange i);
        idea_market_type := optional_text (ti_market_type i); idea_direction := ti_direction i; idea_timeframe := ti_timeframe i;
        idea_setup_type := ti_setup_type i; idea_status := idea_status_of i quality_gate; idea_entry_zone := zone;
        idea_stop_loss := stop; idea_invalidation := optional_text (ti_invalidation i); idea_take_profits := targets;
        idea_best_rr := best; idea_execution_cost := ti_execution_cost i; idea_confidence_score := confidence;
        idea_grade := ti_opportunity_grade i; idea_reason_for_trade := reason_for_trade context;
        idea_confirmed_facts := clean_strings (ti_confirmed_facts i); idea_missing_data := missing_data i;
        idea_unverified_data := clean_strings (ti_unverified_data i);
        idea_cancel_condition := optional_text (ti_cancel_condition i); idea_risk_warning := risk_warning (ti_leverage i);
        idea_quality_gate_result := quality_gate; idea_context := context |}.

(** ** What an accepted idea guarantees *)

Local Open Scope Q_scope.

Lemma gate_nil b code message : gate b code message = [] <-> b = false.
Proof. unfold gate. by destruct b. Qed.

(** the entry the plan is measured from *)
Definition reference_entry (i : TradeIdeaInput) (low high : dec) : dec :=
  match ti_entry_reference i with Some reference => reference | None => if is_long (ti_direction i) then low else high end.

(** the levels of the idea are an executable plan, whose second target pays *)
Record executable (i : TradeIdeaInput) (low high stop : dec) : Prop := {
  xp_zone : ti_entry_low i = Some low /\ ti_entry_high i = Some high;
  xp_stop : ti_stop_loss i = Some stop;
  xp_targets : ti_take_profit_targets i <> [];
  xp_geometry : plan_geometry (is_long (ti_direction i)) low high (reference_entry i low high) stop (take 3 (ti_take_profit_targets i));
  xp_reward : forall t, ti_take_profit_targets i !! 1%nat = Some t ->
    0 < dQ (plan_reward (is_long (ti_direction i)) (reference_entry i low high) t dzero)
}.

Lemma optional_level level name : optional_decimal (level_argument level) name false = Ok level.
Proof. destruct level as [d|]; [apply optional_decimal_finite|done]. Qed.

Lemma first_targets l :
  map snd (present_targets [l !! 0%nat; l !! 1%nat; l !! 2%nat]) = take 3 l.
Proof. by destruct l as [|a [|b [|c l]]]. Qed.

Lemma idea_plan_accepted i low high stop : acceptable_plan (idea_plan i low high stop) ->
  plan_geometry (is_long (ti_direction i)) low high (reference_entry i low high) stop (take 3 (ti_take_profit_targets i)) /\
  forall t, ti_take_profit_targets i !! 1%nat = Some t ->
    0 < dQ (plan_reward (is_long (ti_direction i)) (reference_entry i low high) t dzero).
Proof.
  intros (_ & p & Hp & _ & Hg & He). unfold parse_plan, idea_plan in Hp.
  cbn [pa_entry_low pa_entry_high pa_entry_reference pa_stop_loss pa_tp1 pa_tp2 pa_tp3 pa_minimum_rr pa_require_all_targets
    pa_execution_cost] in Hp.
  rewrite !required_decimal_finite, !optional_level in Hp. cbn [bind_result optional_decimal] in Hp. apply ok_inj in Hp as <-.
  assert (String.eqb (plan_side (idea_plan i low high stop)) "long" = is_long (ti_direction i)) as El by (unfold plan_side, idea_plan; cbn [pa_direction]; by destruct (ti_direction i)).
  rewrite El in Hg, He. unfold second_target in He. cbn [pp_low pp_high pp_entry pp_stop pp_targets pp_cost pp_minimum nth] in Hg, He.
  rewrite first_targets in Hg. split; [exact Hg|]. intros t Ht. rewrite Ht in He. exact (proj1 He).
Qed.


Definition sample_idea : TradeIdeaInput :=
  {| ti_symbol := "BTCUSDT"; ti_exchange := Some "binance"; ti_market_type := None; ti_direction := SHORT; ti_timeframe := "15m";
     ti_setup_type := "liquidity grab"; ti_entry_low := Some (dec_of_Z 99); ti_entry_high := Some (dec_of_Z 100);
     ti_entry_reference := None; ti_stop_loss := Some (dec_of_Z 105); ti_take_profit_targets := [dec_of_Z 90; dec_of_Z 80];
     ti_invalidation := Some " close above 105 "; ti_opportunity_score := dec_of_Z 85; ti_opportunity_grade := "A";
     ti_opportunity_decision := OD_ALERT_CANDIDATE; ti_risk_approved := true; ti_best_rr := dec_of_Z 4; ti_execution_cost := dzero;
     ti_technical_summary := Some "sweep of the high"; ti_derivatives_summary := None; ti_confirmed_facts := []; ti_missing_data := [];
     ti_unverified_data := []; ti_cancel_condition := None; ti_leverage := Some (dec_of_Z 30); ti_entry_triggered := false |}.

Example sample_idea_created :
  match create_trade_idea sample_idea with
  | Ok r => (idea_status r, idea_invalidation r, idea_missing_data r, idea_reason_for_trade r)
            = (CONDITIONAL, "close above 105", ["derivatives_summary: N/A"],
               "Technical context: sweep of the high. Derivatives context: N/A.")
  | Raise _ => False
  end.
Proof. vm_compute. reflexivity. Qed.

