(* ===== verification/TechnicalStructure.v ===== *)
(** * Technical structure (src/app/agents/technical_structure.py)

    Swings, liquidity sweeps, breaks of structure, changes of character, moving
    averages, true range and volume anomalies of one candle series.  A [MaybeDecimal]
    or [MaybeInt] is an [option], [None] for NA.  The [repr] of values other than
    scalars, which only error texts contain, is the class [ObjectRepr]. *)

From stdpp Require Import base tactics list strings.
From Stdlib Require Import ZArith NArith QArith Lia Bool Ascii.
From S2P Require Import Prelude PyString PyDecimal DecimalFacts LifecycleModels CandleIntegrity ShadowDiagnostics FlowSnapshot.
Open Scope string_scope.
Open Scope py_scope.

Class ObjectRepr := object_repr : cval -> string.

Inductive SwingKind : Type := SwingHigh | SwingLow.
Inductive SignalDirection : Type := BullishSignal | BearishSignal | SignalNA.
Inductive TrendContext : Type := BullishTrend | BearishTrend | NeutralTrend | TrendNA.
Inductive RangePosition : Type := RangeLower | RangeMiddle | RangeUpper | RangeNA.

#[export] Instance SwingKind_eq_dec : EqDecision SwingKind.
Proof. solve_decision. Defined.
#[export] Instance TrendContext_eq_dec : EqDecision TrendContext.
Proof. solve_decision. Defined.

(** [_Candle] *)
Record normalized_candle := {
  tc_index : nat;
  tc_timestamp : option Z;
  tc_open : dec;
  tc_high : dec;
  tc_low : dec;
  tc_close : dec;
  tc_volume : option dec
}.

Record SwingPoint := {
  sw_kind : SwingKind;
  sw_index : nat;
  sw_confirmed_at_index : nat;
  sw_timestamp : option Z;
  sw_price : dec
}.

(** the fields the three structure signals share *)
Record structure_signal := {
  sg_is_present : bool;
  sg_direction : SignalDirection;
  sg_candle_index : option nat;
  sg_swing_index : option nat;
  sg_level : option dec;
  sg_reason : string
}.

Definition SweepSignal : Type := structure_signal.
Definition BosSignal : Type := structure_signal.
Record ChochSignal := { ch_signal : structure_signal; ch_prior_context : TrendContext }.

Record VolumeAnomalySignal := {
  va_is_present : bool;
  va_status : string;
  va_z_score : option dec;
  va_threshold : dec;
  va_reason : string
}.

Inductive TechnicalAnalysisStatus : Type := TA_VALID | TA_INSUFFICIENT_DATA | TA_DATA_ERROR.
Inductive TechnicalComponentStatus : Type := ComponentAvailable | ComponentUnavailable | ComponentInvalid.

Record TechnicalComponentAvailability := {
  ca_component : string;
  ca_timeframe : string;
  ca_required_bars : nat;
  ca_available_bars : nat;
  ca_required : bool;
  ca_status : TechnicalComponentStatus
}.

Record TechnicalStructureResult := {
  ts_is_valid : bool;
  ts_analysis_status : TechnicalAnalysisStatus;
  ts_data_quality : string;
  ts_errors : list string;
  ts_candle_count : nat;
  ts_required_candles : nat;
  ts_available_candles : nat;
  ts_timeframe : string;
  ts_component_availability : list TechnicalComponentAvailability;
  ts_lookback : nat;
  ts_atr : option dec;
  ts_ema_50 : option dec;
  ts_ema_200 : option dec;
  ts_volume_z_score : option dec;
  ts_trend_context : TrendContext;
  ts_recent_range_high : option dec;
  ts_recent_range_low : option dec;
  ts_nearest_support : option dec;
  ts_nearest_resistance : option dec;
  ts_range_position : RangePosition;
  ts_swing_points : list SwingPoint;
  ts_swing_highs : list SwingPoint;
  ts_swing_lows : list SwingPoint;
  ts_sweep : SweepSignal;
  ts_bos : BosSignal;
  ts_choch : ChochSignal;
  ts_volume_anomaly : VolumeAnomalySignal;
  ts_structure_score : option Z
}.

(** ** The default signals *)

Definition no_signal (reason : string) : structure_signal :=
  {| sg_is_present := false; sg_direction := SignalNA; sg_candle_index := None; sg_swing_index := None; sg_level := None;
     sg_reason := reason |}.

Definition no_sweep : SweepSignal := no_signal "No liquidity sweep detected.".
Definition no_bos : BosSignal := no_signal "No break of structure detected.".
Definition no_choch (prior : TrendContext) : ChochSignal :=
  {| ch_signal := no_signal "No change of character detected."; ch_prior_context := prior |}.
Definition no_volume_anomaly (threshold : dec) : VolumeAnomalySignal :=
  {| va_is_present := false; va_status := NA; va_z_score := None; va_threshold := threshold;
     va_reason := "Volume anomaly is N/A because volume data is missing." |}.

(** ** Numbers *)

(** [_quantize] *)
Definition ts_quantize (value : dec) : result dec := dquantize value (-8).

Section Values.
Context `{ObjectRepr}.

(** [repr(value)] *)
Definition cval_repr (v : cval) : string :=
  match v with
  | CVal (PyStr s) => py_repr s
  | CVal (PyDec p) => "Decimal('" +:+ pydec_to_string p +:+ "')"
  | CVal o => py_str o
  | _ => object_repr v
  end.

(** [_decimal_from] *)
Definition ts_decimal_from (value : cval) (path : string) : result dec :=
  let invalid := Raise (ValueError ("Malformed candle data at " +:+ path +:+ ": invalid decimal " +:+ cval_repr value +:+ ".")) in
  match value with
  | CVal (PyBool _) => invalid
  | _ => match parse_decimal (cval_text value) with Some (Finite d) => Ok d | _ => invalid end
  end.

(** [_is_missing] *)
Definition ts_is_missing (v : cval) : bool :=
  match v with CVal PyNone => true | CVal (PyStr s) => String.eqb s "" | _ => false end.

(** ** Candles *)

Definition candle_path (index : nat) : string := "candles[" +:+ string_of_N (N.of_nat index) +:+ "]".

(** one of the four prices: the price, or the error *)
Definition required_price (c : candle) (index : nat) (name : string) : dec + string :=
  let value := field c name in
  if ts_is_missing value
  then inr ("Missing required OHLC field " +:+ candle_path index +:+ "." +:+ name +:+ ".")
  else match ts_decimal_from value (candle_path index +:+ "." +:+ name) with
       | Ok d => inl d
       | Raise (ValueError message) => inr message
       | Raise _ => inr ""
       end.

(** the geometry of the prices *)
Definition price_error (index : nat) (o h l c : dec) : option string :=
  let malformed (what : string) := Some ("Malformed candle " +:+ candle_path index +:+ ": " +:+ what) in
  if existsb (fun p => dleb p dzero) [o; h; l; c] then malformed "OHLC prices must be positive." else
  if dltb h l then malformed "high is lower than low." else
  if dltb h (dmax o c) then malformed "high is below open or close." else
  if dltb (dmin o c) l then malformed "low is above open or close." else None.

(** timestamp, metadata and volume *)
Definition candle_extras (c : candle) (index : nat) : result (option Z * option dec) :=
  let! timestamp := normalize_optional_timestamp_ms (field c "timestamp") (candle_path index +:+ ".timestamp") in
  let! _ := validate_optional_candle_metadata c (candle_path index) in
  let raw := field c "volume" in
  let! volume := if ts_is_missing raw || match raw with CVal (PyStr s) => String.eqb s NA | _ => false end then Ok None
                 else map_result Some (ts_decimal_from raw (candle_path index +:+ ".volume")) in
  match volume with
  | Some v => if dltb v dzero
              then Raise (ValueError ("Malformed candle " +:+ candle_path index +:+ ".volume: volume cannot be negative."))
              else Ok (timestamp, volume)
  | None => Ok (timestamp, volume)
  end.

(** one iteration of [_normalize_candles]: the candle, or its errors *)
Definition normalize_candle (index : nat) (c : candle) : result (normalized_candle + list string) :=
  match map (required_price c index) ["open"; "high"; "low"; "close"] with
  | [inl o; inl h; inl l; inl cl] =>
      match price_error index o h l cl with
      | Some e => Ok (inr [e])
      | None =>
          match candle_extras c index with
          | Ok (timestamp, volume) =>
              Ok (inl {| tc_index := index; tc_timestamp := timestamp; tc_open := o; tc_high := h; tc_low := l; tc_close := cl;
                         tc_volume := volume |})
          | Raise e => match value_error_text e with Some message => Ok (inr [message]) | None => Raise e end
          end
      end
  | prices => Ok (inr (omap (fun p => match p with inr e => Some e | inl _ => None end) prices))
  end.

(** [_normalize_candles] *)
Fixpoint normalize_candles (index : nat) (candles : list candle) : result (list normalized_candle * list string) :=
  match candles with
  | [] => Ok ([], [])
  | c :: rest =>
      let! first := normalize_candle index c in
      let! (normalized, errors) := normalize_candles (S index) rest in
      Ok (match first with
          | inl x => (x :: normalized, errors)
          | inr found => (normalized, found ++ errors)
          end)%list
  end.
End Values.

(** ** Indicators *)

(** [values[-n:]] of at least [n] values *)
Definition last_values {A} (n : nat) (l : list A) : list A := drop (length l - n) l.

(** the loop of [calculate_ema_series] *)
Fixpoint ema_steps (multiplier ema : dec) (values : list dec) : result (list (option dec)) :=
  match values with
  | [] => Ok []
  | value :: rest =>
      let ema := dadd (dmul (dsub value ema) multiplier) ema in
      let! shown := ts_quantize ema in
      let! others := ema_steps multiplier ema rest in
      Ok (Some shown :: others)
  end.

(** [calculate_ema_series] *)
Definition calculate_ema_series (values : list dec) (period : nat) : result (list (option dec)) :=
  if (period <? 1)%nat then Raise (ValueError "period must be at least 1") else
  if (length values <? period)%nat then Ok (map (fun _ => None) values) else
  let! multiplier := ddiv (dec_of_Z 2) (dec_of_Z (Z.of_nat period + 1)) in
  let! ema := ddiv (dsum (take period values)) (dec_of_Z (Z.of_nat period)) in
  let! shown := ts_quantize ema in
  let! others := ema_steps multiplier ema (drop period values) in
  Ok (replicate (period - 1) None ++ Some shown :: others)%list.

(** the true range of a candle after another *)
Definition true_range (previous current : normalized_candle) : dec :=
  dmax (dmax (dsub (tc_high current) (tc_low current)) (dabs (dsub (tc_high current) (tc_close previous))))
    (dabs (dsub (tc_low current) (tc_close previous))).

Definition true_ranges (candles : list normalized_candle) : list dec := zip_with true_range candles (tail candles).

(** [calculate_atr] *)
Definition calculate_atr (candles : list normalized_candle) (period : nat) : result (option dec) :=
  if (period <? 1)%nat then Raise (ValueError "period must be at least 1") else
  if (length candles <? period + 1)%nat then Ok None else
  let! average := ddiv (dsum (last_values period (true_ranges candles))) (dec_of_Z (Z.of_nat period)) in
  map_result Some (ts_quantize average).

(** all of a list of options *)
Fixpoint all_some {A} (l : list (option A)) : option (list A) :=
  match l with
  | [] => Some []
  | Some x :: rest => option_map (cons x) (all_some rest)
  | None :: _ => None
  end.

(** [calculate_volume_z_score] *)
Definition calculate_volume_z_score (volumes : list (option dec)) (window : nat) : result (option dec) :=
  if (window <? 2)%nat then Raise (ValueError "window must be at least 2") else
  if (length volumes <? window)%nat then Ok None else
  match all_some (last_values window volumes) with
  | None => Ok None
  | Some sample =>
      let count := dec_of_Z (Z.of_nat window) in
      let! mean := ddiv (dsum sample) count in
      let! variance := ddiv (dsum (map (fun v => dsquare (dsub v mean)) sample)) count in
      if deqb variance dzero then Ok (Some (mkDec false 0 (-8))) else
      let! deviation := dsqrt variance in
      let! z := ddiv (dsub (default dzero (last sample)) mean) deviation in
      map_result Some (ts_quantize z)
  end.

(** [_trend_context] *)
Definition trend_context (close : dec) (ema_fast ema_slow : option dec) : TrendContext :=
  match ema_fast, ema_slow with
  | Some fast, Some slow =>
      if dltb fast close && dltb slow fast then BullishTrend else
      if dltb close fast && dltb fast slow then BearishTrend else NeutralTrend
  | _, _ => TrendNA
  end.

(** ** Swings *)

(** an iteration of [_detect_swings] *)
Definition swings_at (candles : list normalized_candle) (lookback index : nat) : list SwingPoint :=
  match candles !! index with
  | None => []
  | Some current =>
      let around := (take lookback (drop (index - lookback) candles) ++ take lookback (drop (S index) candles))%list in
      let point (kind : SwingKind) (price : dec) :=
        {| sw_kind := kind; sw_index := tc_index current; sw_confirmed_at_index := tc_index current + lookback;
           sw_timestamp := tc_timestamp current; sw_price := price |} in
      ((if forallb (fun c => dltb (tc_high c) (tc_high current)) around then [point SwingHigh (tc_high current)] else [])
       ++ (if forallb (fun c => dltb (tc_low current) (tc_low c)) around then [point SwingLow (tc_low current)] else []))%list
  end.

(** [_detect_swings] *)
Definition detect_swings (candles : list normalized_candle) (lookback : nat) : list SwingPoint :=
  flat_map (swings_at candles lookback) (seq lookback (length candles - 2 * lookback)).

Definition swings_of (kind : SwingKind) (points : list SwingPoint) : list SwingPoint :=
  List.filter (fun p => bool_decide (sw_kind p = kind)) points.

Definition confirmed_before (latest_index : nat) (p : SwingPoint) : bool := (sw_confirmed_at_index p <? latest_index)%nat.

(** [_last_confirmed_before] *)
Definition last_confirmed_before (points : list SwingPoint) (latest_index : nat) : option SwingPoint :=
  last (List.filter (confirmed_before latest_index) points).

(** ** Levels *)

Definition fold_dec (f : dec -> dec -> dec) (l : list dec) : option dec :=
  match l with [] => None | x :: rest => Some (fold_left f rest x) end.

(** [_detect_recent_range] *)
Definition detect_recent_range (candles : list normalized_candle) (window : nat)
    : result (option dec * option dec * RangePosition) :=
  let sample := last_values window candles in
  match fold_dec dmax (map tc_high sample), fold_dec dmin (map tc_low sample), last candles with
  | Some high, Some low, Some latest =>
      let! shown_high := ts_quantize high in
      let! shown_low := ts_quantize low in
      if deqb high low then Ok (Some shown_high, Some shown_low, RangeNA) else
      let! position := ddiv (dsub (tc_close latest) low) (dsub high low) in
      Ok (Some shown_high, Some shown_low,
          if dleb position (mkDec false 25 (-2)) then RangeLower
          else if dleb (mkDec false 75 (-2)) position then RangeUpper else RangeMiddle)
  | _, _, _ => Raise (ValueError "max() iterable argument is empty")
  end.

(** [_nearest_levels] *)
Definition nearest_levels (highs lows : list SwingPoint) (close : dec) (latest_index : nat) : result (option dec * option dec) :=
  let confirmed := List.filter (confirmed_before latest_index) in
  let supports := List.filter (fun p => dleb p close) (map sw_price (confirmed lows)) in
  let resistances := List.filter (fun p => dleb close p) (map sw_price (confirmed highs)) in
  let shown (level : option dec) := match level with None => Ok None | Some d => map_result Some (ts_quantize d) end in
  let! support := shown (fold_dec dmax supports) in
  let! resistance := shown (fold_dec dmin resistances) in
  Ok (support, resistance).

(** ** Signals *)

Definition signal_at (direction : SignalDirection) (latest : normalized_candle) (swing : SwingPoint) (reason : string)
    : structure_signal :=
  {| sg_is_present := true; sg_direction := direction; sg_candle_index := Some (tc_index latest);
     sg_swing_index := Some (sw_index swing); sg_level := Some (sw_price swing); sg_reason := reason |}.

(** [previous is not None and test(previous)] *)
Definition swing_if (test : SwingPoint -> bool) (swing : option SwingPoint) : option SwingPoint :=
  match swing with Some p => if test p then Some p else None | None => None end.

(** [_detect_sweep] *)
Definition detect_sweep (latest : normalized_candle) (previous_high previous_low : option SwingPoint) : SweepSignal :=
  match swing_if (fun p => dltb (tc_low latest) (sw_price p) && dltb (sw_price p) (tc_close latest)) previous_low with
  | Some p => signal_at BullishSignal latest p "Latest candle took a previous swing low and closed back above it."
  | None =>
      match swing_if (fun p => dltb (sw_price p) (tc_high latest) && dltb (tc_close latest) (sw_price p)) previous_high with
      | Some p => signal_at BearishSignal latest p "Latest candle took a previous swing high and closed back below it."
      | None => no_sweep
      end
  end.

(** [_detect_bos] *)
Definition detect_bos (latest : normalized_candle) (previous_high previous_low : option SwingPoint) : BosSignal :=
  match swing_if (fun p => dltb (sw_price p) (tc_close latest)) previous_high with
  | Some p => signal_at BullishSignal latest p "Latest candle closed above a previously confirmed swing high."
  | None =>
      match swing_if (fun p => dltb (tc_close latest) (sw_price p)) previous_low with
      | Some p => signal_at BearishSignal latest p "Latest candle closed below a previously confirmed swing low."
      | None => no_bos
      end
  end.

(** [_detect_choch] *)
Definition detect_choch (latest : normalized_candle) (previous_high previous_low : option SwingPoint) (prior : TrendContext)
    : ChochSignal :=
  let found (s : structure_signal) := {| ch_signal := s; ch_prior_context := prior |} in
  match swing_if (fun p => bool_decide (prior = BearishTrend) && dltb (sw_price p) (tc_close latest)) previous_high with
  | Some p => found (signal_at BullishSignal latest p "Prior context was bearish and latest close broke a previous structure high.")
  | None =>
      match swing_if (fun p => bool_decide (prior = BullishTrend) && dltb (tc_close latest) (sw_price p)) previous_low with
      | Some p => found (signal_at BearishSignal latest p "Prior context was bullish and latest close broke a previous structure low.")
      | None => no_choch prior
      end
  end.

(** [_detect_volume_anomaly] *)
Definition detect_volume_anomaly (z_score : option dec) (threshold : dec) : VolumeAnomalySignal :=
  match z_score with
  | None => no_volume_anomaly threshold
  | Some z =>
      if dleb threshold z
      then {| va_is_present := true; va_status := "confirmed"; va_z_score := z_score; va_threshold := threshold;
              va_reason := "Latest volume z-score met or exceeded the anomaly threshold." |}
      else {| va_is_present := false; va_status := "none"; va_z_score := z_score; va_threshold := threshold;
              va_reason := "Latest volume z-score did not meet the anomaly threshold." |}
  end.

(** [_score_structure] *)
Definition score_structure (trend : TrendContext) (sweep : SweepSignal) (bos : BosSignal) (choch : ChochSignal)
    (volume : VolumeAnomalySignal) (position : RangePosition) : Z :=
  let points (b : bool) (n : Z) := if b then n else 0%Z in
  (Z.min 100 (10 + points (match trend with BullishTrend | BearishTrend => true | _ => false end) 20
             + points (sg_is_present sweep) 20 + points (sg_is_present bos || sg_is_present (ch_signal choch)) 25
             + points (va_is_present volume) 15
             + points (match position with RangeLower | RangeUpper => true | _ => false end) 10))%Z.

(** ** The agent *)

Record TechnicalStructureAgent := {
  ag_lookback : nat;
  ag_atr_period : nat;
  ag_ema_fast_period : nat;
  ag_ema_slow_period : nat;
  ag_range_window : nat;
  ag_volume_zscore_window : nat;
  ag_volume_zscore_threshold : dec
}.

(** [__init__] *)
Definition new_agent `{ObjectRepr} (lookback atr fast slow range volume_window : Z) (threshold : cval)
    : result TechnicalStructureAgent :=
  if (lookback <? 1)%Z then Raise (ValueError "lookback must be at least 1") else
  if (atr <? 1)%Z then Raise (ValueError "atr_period must be at least 1") else
  if (fast <? 1)%Z then Raise (ValueError "ema_fast_period must be at least 1") else
  if (slow <? fast)%Z then Raise (ValueError "ema_slow_period must be greater than or equal to ema_fast_period") else
  if (range <? 1)%Z then Raise (ValueError "range_window must be at least 1") else
  if (volume_window <? 2)%Z then Raise (ValueError "volume_zscore_window must be at least 2") else
  let! parsed := ts_decimal_from threshold "volume_zscore_threshold" in
  Ok {| ag_lookback := Z.to_nat lookback; ag_atr_period := Z.to_nat atr; ag_ema_fast_period := Z.to_nat fast;
        ag_ema_slow_period := Z.to_nat slow; ag_range_window := Z.to_nat range;
        ag_volume_zscore_window := Z.to_nat volume_window; ag_volume_zscore_threshold := parsed |}.

(** [min_required_candles] *)
Definition min_required_candles (a : TechnicalStructureAgent) : nat :=
  Nat.max (ag_atr_period a + 1) (Nat.max (ag_ema_slow_period a) (Nat.max (ag_lookback a * 2 + 2) (ag_range_window a))).

(** [_component_availability] *)
Definition component_availability (a : TechnicalStructureAgent) (candle_count : nat) (timeframe : string) (invalid : bool)
    (volume_available : option bool) : list TechnicalComponentAvailability :=
  let number (n : nat) := string_of_N (N.of_nat n) in
  map (fun r => match r with (component, bars, required) =>
         {| ca_component := component; ca_timeframe := timeframe; ca_required_bars := bars; ca_available_bars := candle_count;
            ca_required := required;
            ca_status := if invalid then ComponentInvalid
                         else if String.eqb component "volume_anomaly" && match volume_available with Some false => true | _ => false end
                         then ComponentUnavailable
                         else if (bars <=? candle_count)%nat then ComponentAvailable else ComponentUnavailable |} end)
    [("atr", (ag_atr_period a + 1)%nat, true); ("ema_" +:+ number (ag_ema_fast_period a), ag_ema_fast_period a, true);
     ("ema_" +:+ number (ag_ema_slow_period a), ag_ema_slow_period a, true);
     ("pivot_structure", (ag_lookback a * 2 + 2)%nat, true); ("recent_range", ag_range_window a, true);
     ("volume_anomaly", ag_volume_zscore_window a, false)].

(** [_volume_window_available] *)
Definition volume_window_available (candles : list normalized_candle) (window : nat) : bool :=
  (window <=? length candles)%nat
  && forallb (fun c => match tc_volume c with Some _ => true | None => false end) (last_values window candles).

(** [_unavailable_result] *)
Definition unavailable_result (a : TechnicalStructureAgent) (status : TechnicalAnalysisStatus) (candle_count : nat)
    (errors : list string) (timeframe : string) (volume_available : option bool) : TechnicalStructureResult :=
  {| ts_is_valid := false; ts_analysis_status := status;
     ts_data_quality := match status with TA_INSUFFICIENT_DATA => "insufficient_data" | _ => "data_error" end;
     ts_errors := errors; ts_candle_count := candle_count; ts_required_candles := min_required_candles a;
     ts_available_candles := candle_count; ts_timeframe := timeframe;
     ts_component_availability := component_availability a candle_count timeframe
       (match status with TA_DATA_ERROR => true | _ => false end) volume_available;
     ts_lookback := ag_lookback a; ts_atr := None; ts_ema_50 := None; ts_ema_200 := None; ts_volume_z_score := None;
     ts_trend_context := TrendNA; ts_recent_range_high := None; ts_recent_range_low := None; ts_nearest_support := None;
     ts_nearest_resistance := None; ts_range_position := RangeNA; ts_swing_points := []; ts_swing_highs := []; ts_swing_lows := []; ts_sweep := no_sweep; ts_bos := no_bos;
     ts_choch := no_choch TrendNA; ts_volume_anomaly := no_volume_anomaly (mkDec false 20 (-1)); ts_structure_score := None |}.

(** [series[-1]] and [series[-2]] *)
Definition from_end {A} (n : nat) (l : list A) : option A := l !! (length l - n)%nat.

(** the analysis of enough well-formed candles *)
Definition analyze_structure (a : TechnicalStructureAgent) (candles : list normalized_candle) (timeframe : string)
    (latest previous : normalized_candle) : result TechnicalStructureResult :=
  let closes := map tc_close candles in
  let count := length candles in
  let latest_index := (count - 1)%nat in
  let! atr := calculate_atr candles (ag_atr_period a) in
  let! fast := calculate_ema_series closes (ag_ema_fast_period a) in
  let! slow := calculate_ema_series closes (ag_ema_slow_period a) in
  let ema (n : nat) (series : list (option dec)) := default None (from_end n series) in
  let trend := trend_context (tc_close latest) (ema 1%nat fast) (ema 1%nat slow) in
  let prior := trend_context (tc_close previous) (ema 2%nat fast) (ema 2%nat slow) in
  let! z_score := calculate_volume_z_score (map tc_volume candles) (ag_volume_zscore_window a) in
  let volume := detect_volume_anomaly z_score (ag_volume_zscore_threshold a) in
  let points := detect_swings candles (ag_lookback a) in
  let highs := swings_of SwingHigh points in
  let lows := swings_of SwingLow points in
  let high := last_confirmed_before highs latest_index in
  let low := last_confirmed_before lows latest_index in
  let! (range_high, range_low, position) := detect_recent_range candles (ag_range_window a) in
  let! (support, resistance) := nearest_levels highs lows (tc_close latest) latest_index in
  let sweep := detect_sweep latest high low in
  let bos := detect_bos latest high low in
  let choch := detect_choch latest high low prior in
  Ok {| ts_is_valid := true; ts_analysis_status := TA_VALID; ts_data_quality := "valid"; ts_errors := []; ts_candle_count := count;
        ts_required_candles := min_required_candles a; ts_available_candles := count; ts_timeframe := timeframe;
        ts_component_availability := component_availability a count timeframe false
          (Some (match z_score with Some _ => true | None => false end));
        ts_lookback := ag_lookback a; ts_atr := atr; ts_ema_50 := ema 1%nat fast; ts_ema_200 := ema 1%nat slow;
        ts_volume_z_score := z_score; ts_trend_context := trend; ts_recent_range_high := range_high; ts_recent_range_low := range_low;
        ts_nearest_support := support; ts_nearest_resistance := resistance; ts_range_position := position; ts_swing_points := points;
        ts_swing_highs := highs; ts_swing_lows := lows; ts_sweep := sweep; ts_bos := bos; ts_choch := choch; ts_volume_anomaly := volume;
        ts_structure_score := Some (score_structure trend sweep bos choch volume position) |}.

(** [analyze] *)
Definition analyze `{ObjectRepr} (a : TechnicalStructureAgent) (candles : list candle) (timeframe : string)
    : result TechnicalStructureResult :=
  let! (normalized, errors) := normalize_candles 0 candles in
  match errors with
  | _ :: _ => Ok (unavailable_result a TA_DATA_ERROR (length candles) errors timeframe None)
  | [] =>
      let count := length normalized in
      match last normalized, from_end 2 normalized with
      | None, _ =>
          Ok (unavailable_result a TA_DATA_ERROR 0 ["No candle data was supplied for technical analysis."] timeframe None)
      | Some latest, before =>
          let short := Ok (unavailable_result a TA_INSUFFICIENT_DATA count
                             ["Not enough candles: received " +:+ string_of_N (N.of_nat count) +:+ ", required at least "
                              +:+ string_of_N (N.of_nat (min_required_candles a)) +:+ "."] timeframe
                             (Some (volume_window_available normalized (ag_volume_zscore_window a)))) in
          if (count <? min_required_candles a)%nat then short else
          match before with
          | Some previous => analyze_structure a normalized timeframe latest previous
          | None => short
          end
      end
  end.

(** * Swings are not repainted and signals rest on confirmed swings *)

Open Scope list_scope.

(** ** Normalized candles *)

(** candles carry their positions *)
Definition indexed (candles : list normalized_candle) : Prop := forall n c, candles !! n = Some c -> tc_index c = n.

Section Normalize.
Context `{ObjectRepr}.

Lemma normalize_candle_index index c x : normalize_candle index c = Ok (inl x) -> tc_index x = index.
Proof.
  unfold normalize_candle. cbn [map].
  destruct (required_price c index "open"), (required_price c index "high"), (required_price c index "low"),
    (required_price c index "close"); try done.
  destruct (price_error _ _ _ _ _); [done|]. destruct (candle_extras c index) as [[t v]|e].
  - by intros [= <-].
  - by destruct (value_error_text e).
Qed.

Lemma normalize_candles_app index l m : forall all,
  normalize_candles index (l ++ m) = Ok (all, []) ->
  exists xs ys, normalize_candles index l = Ok (xs, []) /\ normalize_candles (index + length l) m = Ok (ys, []) /\ all = xs ++ ys.
Proof.
  revert index. induction l as [|c l IH]; intros index all E; cbn [app normalize_candles length] in *.
  - rewrite Nat.add_0_r. by exists [], all.
  - apply bind_ok in E as (first & Hf & E). apply bind_ok in E as ([rest errors] & Hr & E). apply ok_inj in E.
    destruct first as [x|found]; [|destruct found; [|done]]; injection E as <- ->;
      destruct (IH _ _ Hr) as (xs & ys & Hx & Hy & ->); rewrite Hf, Hx; cbn [bind_result];
      replace (index + S (length l))%nat with (S index + length l)%nat by lia.
    + by exists (x :: xs), ys.
    + by exists xs, ys.
Qed.

Lemma normalize_candle_error index c found : normalize_candle index c = Ok (inr found) -> found <> [].
Proof.
  unfold normalize_candle. cbn [map].
  destruct (required_price c index "open") as [o|eo], (required_price c index "high") as [h|eh],
    (required_price c index "low") as [l|el], (required_price c index "close") as [cl|ec]; cbn; try (intros [= <-]; done).
  destruct (price_error _ _ _ _ _); [by intros [= <-]|]. destruct (candle_extras c index) as [[t v]|e]; [done|].
  destruct (value_error_text e); [by intros [= <-]|done].
Qed.

Lemma normalize_candles_indices l : forall index xs, normalize_candles index l = Ok (xs, []) ->
  length xs = length l /\ forall n c, xs !! n = Some c -> tc_index c = (index + n)%nat.
Proof.
  induction l as [|c l IH]; intros index xs E; cbn [normalize_candles length] in *.
  - apply ok_inj in E. injection E as <-. by split.
  - apply bind_ok in E as (first & Hf & E). apply bind_ok in E as ([rest errors] & Hr & E). apply ok_inj in E.
    destruct first as [x|found]; [|apply normalize_candle_error in Hf; by destruct found]. injection E as <- ->.
    destruct (IH _ _ Hr) as [Hl Hi]. split; [cbn; lia|]. intros [|n] y Hy; cbn in Hy.
    + injection Hy as <-. rewrite (normalize_candle_index _ _ _ Hf). lia.
    + rewrite (Hi n y Hy). lia.
Qed.
End Normalize.

(** ** Swings of a prefix *)

Lemma swings_at_prefix l m lookback i : (lookback <= i)%nat -> (i + lookback < length l)%nat ->
  swings_at (l ++ m) lookback i = swings_at l lookback i.
Proof.
  intros Hk Hi. unfold swings_at. rewrite lookup_app_l by lia. destruct (l !! i) as [c|]; [|done].
  rewrite !drop_app_le by lia. rewrite !take_app_le; [done|rewrite length_drop; lia..].
Qed.

Lemma swings_at_index l lookback i p : indexed l -> In p (swings_at l lookback i) ->
  sw_index p = i /\ sw_confirmed_at_index p = (i + lookback)%nat.
Proof.
  unfold swings_at. intros Hix Hin. destruct (l !! i) as [c|] eqn:Ei; [|done]. apply Hix in Ei. apply in_app_iff in Hin.
  destruct Hin as [Hin|Hin]; destruct (forallb _ _); try done; destruct Hin as [<-|[]]; cbn; by rewrite Ei.
Qed.

Lemma filter_flat_map_none {A B} (f : A -> list B) (p : B -> bool) l :
  (forall x y, In x l -> In y (f x) -> p y = false) -> List.filter p (flat_map f l) = [].
Proof.
  induction l as [|x l IH]; intros Hf; [done|]. cbn [flat_map]. rewrite List.filter_app, IH by (intros; eapply Hf; [by right|done]).
  rewrite app_nil_r. assert (forall y, In y (f x) -> p y = false) as Hx by (intros; eapply Hf; [by left|done]). clear -Hx.
  induction (f x) as [|y ys IH]; [done|]. cbn [List.filter]. rewrite (Hx y) by (by left). apply IH. intros z Hz. apply Hx. by right.
Qed.

Lemma filter_flat_map_all {A B} (f : A -> list B) (p : B -> bool) l :
  (forall x y, In x l -> In y (f x) -> p y = true) -> List.filter p (flat_map f l) = flat_map f l.
Proof.
  induction l as [|x l IH]; intros Hf; [done|]. cbn [flat_map]. rewrite List.filter_app, IH by (intros; eapply Hf; [by right|done]).
  f_equal. assert (forall y, In y (f x) -> p y = true) as Hx by (intros; eapply Hf; [by left|done]). clear -Hx.
  induction (f x) as [|y ys IH]; [done|]. cbn [List.filter]. rewrite (Hx y) by (by left). f_equal. apply IH. intros z Hz. apply Hx. by right.
Qed.

Lemma flat_map_ext_in {A B} (f g : A -> list B) l : (forall x, In x l -> f x = g x) -> flat_map f l = flat_map g l.
Proof. induction l as [|x l IH]; intros Hf; [done|]. cbn. rewrite (Hf x) by (by left). by rewrite IH by (intros; apply Hf; by right). Qed.

Lemma detect_swings_prefix l m lookback : indexed (l ++ m) ->
  detect_swings l lookback = List.filter (confirmed_before (length l)) (detect_swings (l ++ m) lookback).
Proof.
  intros Hix. unfold detect_swings. rewrite length_app.
  set (a := (length l - 2 * lookback)%nat). set (b := (length l + length m - 2 * lookback - a)%nat).
  replace (length l + length m - 2 * lookback)%nat with (a + b)%nat by (unfold a, b; lia).
  rewrite seq_app, flat_map_app, List.filter_app. rewrite filter_flat_map_all, filter_flat_map_none; [rewrite app_nil_r|..].
  - apply flat_map_ext_in. intros i Hi%in_seq. symmetry. apply swings_at_prefix; unfold a in *; lia.
  - intros i p Hi%in_seq Hp. apply swings_at_index in Hp as [_ Hc]; [|done]. unfold confirmed_before. rewrite Hc.
    apply Nat.ltb_ge. unfold a in *. lia.
  - intros i p Hi%in_seq Hp. apply swings_at_index in Hp as [_ Hc]; [|done]. unfold confirmed_before. rewrite Hc.
    apply Nat.ltb_lt. unfold a in *. lia.
Qed.

(** ** One analysis *)

Section Analyze.
Context `{ObjectRepr}.

(** what an analysis that succeeded computed *)
Record analysed (a : TechnicalStructureAgent) (candles : list candle) (r : TechnicalStructureResult)
    (normalized : list normalized_candle) (latest previous : normalized_candle) (prior : TrendContext) : Prop := {
  an_normalized : normalize_candles 0 candles = Ok (normalized, []);
  an_latest : last normalized = Some latest;
  an_enough : (min_required_candles a <= length normalized)%nat;
  an_points : ts_swing_points r = detect_swings normalized (ag_lookback a);
  an_count : ts_candle_count r = length normalized;
  an_signals : let high := last_confirmed_before (swings_of SwingHigh (ts_swing_points r)) (length normalized - 1) in
    let low := last_confirmed_before (swings_of SwingLow (ts_swing_points r)) (length normalized - 1) in
    ts_sweep r = detect_sweep latest high low /\ ts_bos r = detect_bos latest high low /\ ts_choch r = detect_choch latest high low prior;
  an_score : ts_structure_score r
    = Some (score_structure (ts_trend_context r) (ts_sweep r) (ts_bos r) (ts_choch r) (ts_volume_anomaly r) (ts_range_position r))
}.

(** an analysis without candles it can use says so and nothing else *)
Record failed_closed (r : TechnicalStructureResult) : Prop := {
  fc_errors : ts_errors r <> [];
  fc_signals : sg_is_present (ts_sweep r) = false /\ sg_is_present (ts_bos r) = false /\ sg_is_present (ch_signal (ts_choch r)) = false /\
    va_is_present (ts_volume_anomaly r) = false;
  fc_values : ts_structure_score r = None /\ ts_swing_points r = [] /\ ts_atr r = None /\ ts_trend_context r = TrendNA
}.

Lemma analyze_cases a candles tf r : analyze a candles tf = Ok r ->
  (ts_is_valid r = true /\ exists normalized latest previous prior, analysed a candles r normalized latest previous prior) \/
  (ts_is_valid r = false /\ failed_closed r).
Proof.
  unfold analyze. intros E. apply bind_ok in E as ([normalized errors] & Hn & E).
  assert (forall status n es v, es <> [] -> ts_is_valid (unavailable_result a status n es tf v) = false /\ failed_closed (unavailable_result a status n es tf v)) as Hun
    by (intros; split; [done|by split]).
  destruct errors as [|e0 errors]; [|apply ok_inj in E as <-; right; by apply Hun].
  destruct (last normalized) as [latest|] eqn:Hl; [|apply ok_inj in E as <-; right; by apply Hun].
  destruct (Nat.ltb_spec (length normalized) (min_required_candles a)) as [Hlt|Hge]; [apply ok_inj in E as <-; right; by apply Hun|].
  destruct (from_end 2 normalized) as [previous|] eqn:Hb; [|apply ok_inj in E as <-; right; by apply Hun].
  unfold analyze_structure in E. apply bind_ok in E as (atr & _ & E). apply bind_ok in E as (fast & _ & E).
  apply bind_ok in E as (slow & _ & E). apply bind_ok in E as (z & _ & E). apply bind_ok in E as ([[rh rl] pos] & _ & E).
  apply bind_ok in E as ([sup res] & _ & E). apply ok_inj in E as <-. left. split; [done|].
  eexists normalized, latest, previous, _. by split.
Qed.

(** C26: swings are not repainted. If a series and an extension of it are both analysed, the swings of the series are
    exactly those swings of the extension that had been confirmed within the series: later candles neither change nor
    remove a confirmed swing, nor add one earlier than its confirmation. *)
Theorem swings_never_repaint a candles more tf r r' :
  analyze a candles tf = Ok r -> analyze a (candles ++ more) tf = Ok r' -> ts_is_valid r = true -> ts_is_valid r' = true ->
  ts_swing_points r = List.filter (confirmed_before (ts_candle_count r)) (ts_swing_points r').
Proof.
  intros E E' Hv Hv'. apply analyze_cases in E as [(_ & ns & l & p & prior & Ha)|[Hf _]]; [|congruence].
  apply analyze_cases in E' as [(_ & ns' & l' & p' & prior' & Ha')|[Hf _]]; [|congruence].
  pose proof (an_normalized _ _ _ _ _ _ _ Ha') as Hn'. destruct (normalize_candles_indices _ _ _ Hn') as [_ Hix].
  destruct (normalize_candles_app _ _ _ _ Hn') as (xs & ys & Hx & _ & ->). rewrite (an_normalized _ _ _ _ _ _ _ Ha) in Hx.
  apply ok_inj in Hx. injection Hx as <-.
  rewrite (an_points _ _ _ _ _ _ _ Ha), (an_points _ _ _ _ _ _ _ Ha'), (an_count _ _ _ _ _ _ _ Ha).
  apply detect_swings_prefix. intros n c Hc. by apply Hix in Hc.
Qed.
End Analyze.

(** ** Confirmed swings *)

Definition price_of (kind : SwingKind) (c : normalized_candle) : dec :=
  match kind with SwingHigh => tc_high c | SwingLow => tc_low c end.

Definition beyond (kind : SwingKind) (a b : dec) : Prop :=
  match kind with SwingHigh => (dQ b < dQ a)%Q | SwingLow => (dQ a < dQ b)%Q end.

(** a strict extreme among its neighbours, which had all closed before the latest candle *)
Record confirmed_swing (lookback : nat) (candles : list normalized_candle) (p : SwingPoint) : Prop := {
  cs_candle : exists c, candles !! sw_index p = Some c /\ sw_price p = price_of (sw_kind p) c /\ sw_timestamp p = tc_timestamp c;
  cs_window : (lookback <= sw_index p /\ sw_index p + lookback < length candles - 1)%nat;
  cs_extreme : forall j c, candles !! j = Some c -> j <> sw_index p ->
    (sw_index p - lookback <= j <= sw_index p + lookback)%nat -> beyond (sw_kind p) (sw_price p) (price_of (sw_kind p) c)
}.

Lemma around_in l lookback i j (c : normalized_candle) : (lookback <= i)%nat -> l !! j = Some c -> j <> i ->
  (i - lookback <= j <= i + lookback)%nat -> In c (take lookback (drop (i - lookback) l) ++ take lookback (drop (S i) l)).
Proof.
  intros Hk Hj Hne Hr. apply in_app_iff. destruct (decide (j < i)%nat); [left|right]; apply list_elem_of_In, list_elem_of_lookup.
  - exists (j - (i - lookback))%nat. rewrite lookup_take_lt, lookup_drop by lia. by replace (i - lookback + (j - (i - lookback)))%nat with j by lia.
  - exists (j - S i)%nat. rewrite lookup_take_lt, lookup_drop by lia. by replace (S i + (j - S i))%nat with j by lia.
Qed.

Lemma detected_swing l lookback p : indexed l -> In p (detect_swings l lookback) -> confirmed_before (length l - 1) p = true ->
  confirmed_swing lookback l p.
Proof.
  unfold detect_swings. intros Hix Hin Hc. apply in_flat_map in Hin as (i & Hi%in_seq & Hp).
  destruct (swings_at_index l lookback i p Hix Hp) as [Ei Ec]. unfold confirmed_before in Hc. apply Nat.ltb_lt in Hc.
  rewrite Ec in Hc. unfold swings_at in Hp. destruct (l !! i) as [c|] eqn:El; [|done]. apply in_app_iff in Hp.
  split; rewrite Ei.
  - exists c. split; [done|]. destruct Hp as [Hp|Hp]; destruct (forallb _ _); try done; by destruct Hp as [<-|[]].
  - lia.
  - intros j c' Hj Hne Hr. pose proof (around_in l lookback i j c' ltac:(lia) Hj Hne Hr) as Ha.
    destruct Hp as [Hp|Hp]; destruct (forallb _ _) eqn:Ef; try done; destruct Hp as [<-|[]]; cbn;
      rewrite forallb_forall in Ef; by apply Ef, dltb_spec in Ha.
Qed.

(** ** The most recent swing *)

Definition earlier (p q : SwingPoint) : Prop := (sw_index p <= sw_index q)%nat.

Lemma filter_strongly_sorted {A} (R : A -> A -> Prop) p (l : list A) : Sorted.StronglySorted R l -> Sorted.StronglySorted R (List.filter p l).
Proof.
  induction 1 as [|x l Hs IH Hf]; cbn [List.filter]; [constructor|]. destruct (p x); [|done]. constructor; [done|].
  rewrite Forall_forall in *. intros y Hy%list_elem_of_In. apply Hf. apply list_elem_of_In. by apply filter_In in Hy as [? _].
Qed.

Lemma sorted_app {A} (R : A -> A -> Prop) (l m : list A) : Sorted.StronglySorted R l -> Sorted.StronglySorted R m ->
  (forall x y, In x l -> In y m -> R x y) -> Sorted.StronglySorted R (l ++ m).
Proof.
  intros Hl Hm Hlm. induction Hl as [|x l Hs IH Hf]; [done|]. cbn [app]. constructor; [apply IH; intros; apply Hlm; [by right|done]|].
  apply Forall_app. split; [done|]. rewrite Forall_forall. intros y Hy%list_elem_of_In. apply Hlm; [by left|done].
Qed.

Lemma detect_swings_sorted l lookback : indexed l -> Sorted.StronglySorted earlier (detect_swings l lookback).
Proof.
  intros Hix. unfold detect_swings. generalize (length l - 2 * lookback)%nat. generalize lookback at 2. intros start n. revert start.
  induction n as [|n IH]; intros start; cbn [seq flat_map]; [constructor|]. apply sorted_app; [|apply IH|].
  - assert (forall p, In p (swings_at l lookback start) -> sw_index p = start) as Hi by (intros p Hp; by apply swings_at_index in Hp as [? _]).
    revert Hi. induction (swings_at l lookback start) as [|x xs IHx]; intros Hi; [constructor|]. constructor; [apply IHx; intros; apply Hi; by right|].
    rewrite Forall_forall. intros y Hy%list_elem_of_In. unfold earlier. rewrite (Hi x), (Hi y); [lia|by right|by left].
  - intros x y Hx Hy. apply swings_at_index in Hx as [Hx _]; [|done]. apply in_flat_map in Hy as (i & Hi%in_seq & Hy).
    apply swings_at_index in Hy as [Hy _]; [|done]. unfold earlier. lia.
Qed.

Lemma last_greatest {A} (R : A -> A -> Prop) (l : list A) x y : Sorted.StronglySorted R l -> last l = Some x -> In y l -> R y x \/ y = x.
Proof.
  induction 1 as [|z l Hs IH Hf]; [done|]. destruct l as [|z' l].
  - cbn. intros [= ->] [->|[]]. by right.
  - rewrite last_cons_cons. intros Hl [<-|Hin]; [|by apply IH]. left. rewrite Forall_forall in Hf. apply Hf.
    by apply last_Some_elem_of in Hl.
Qed.

Lemma last_confirmed_spec lookback l kind p : indexed l ->
  last_confirmed_before (swings_of kind (detect_swings l lookback)) (length l - 1) = Some p ->
  sw_kind p = kind /\ confirmed_swing lookback l p /\
  forall q, In q (detect_swings l lookback) -> sw_kind q = kind -> confirmed_before (length l - 1) q = true -> earlier q p.
Proof.
  unfold last_confirmed_before. intros Hix Hl.
  pose proof (filter_strongly_sorted _ (confirmed_before (length l - 1)) _ (filter_strongly_sorted _ (fun q => bool_decide (sw_kind q = kind)) _ (detect_swings_sorted l lookback Hix))) as Hs.
  fold (swings_of kind (detect_swings l lookback)) in Hs. assert (In p (List.filter (confirmed_before (length l - 1)) (swings_of kind (detect_swings l lookback)))) as Hin
    by (apply list_elem_of_In; by apply last_Some_elem_of).
  apply filter_In in Hin as [Hin Hc]. apply filter_In in Hin as [Hin Hk]. apply bool_decide_eq_true in Hk.
  split; [done|]. split; [by apply detected_swing|]. intros q Hq Eq Hcq.
  destruct (last_greatest earlier _ p q Hs Hl) as [Hle| ->]; [|done|unfold earlier; lia].
  apply filter_In. split; [|done]. apply filter_In. split; [done|]. by apply bool_decide_eq_true.
Qed.

(** ** Signals *)

(** the signal names the swing it rests on, the most recent confirmed one of its kind *)
Record rests_on (lookback : nat) (candles : list normalized_candle) (latest : normalized_candle) (s : structure_signal)
    (p : SwingPoint) : Prop := {
  ro_swing : confirmed_swing lookback candles p;
  ro_fields : sg_candle_index s = Some (tc_index latest) /\ sg_swing_index s = Some (sw_index p) /\ sg_level s = Some (sw_price p);
  ro_recent : forall q, In q (detect_swings candles lookback) -> sw_kind q = sw_kind p ->
    confirmed_before (length candles - 1) q = true -> earlier q p
}.

Definition swept (latest : normalized_candle) (d : SignalDirection) (p : SwingPoint) : Prop :=
  match d with
  | BullishSignal => sw_kind p = SwingLow /\ (dQ (tc_low latest) < dQ (sw_price p) < dQ (tc_close latest))%Q
  | BearishSignal => sw_kind p = SwingHigh /\ (dQ (tc_close latest) < dQ (sw_price p) < dQ (tc_high latest))%Q
  | SignalNA => False
  end.

Definition broken (latest : normalized_candle) (d : SignalDirection) (p : SwingPoint) : Prop :=
  match d with
  | BullishSignal => sw_kind p = SwingHigh /\ (dQ (sw_price p) < dQ (tc_close latest))%Q
  | BearishSignal => sw_kind p = SwingLow /\ (dQ (tc_close latest) < dQ (sw_price p))%Q
  | SignalNA => False
  end.

Definition turned (prior : TrendContext) (d : SignalDirection) : Prop :=
  match d with BullishSignal => prior = BearishTrend | BearishSignal => prior = BullishTrend | SignalNA => False end.

Lemma swing_if_some test o p : swing_if test o = Some p -> o = Some p /\ test p = true.
Proof. unfold swing_if. destruct o as [q|]; [|done]. destruct (test q) eqn:E; [|done]. by intros [= <-]. Qed.

Section Signals.
Variables (lookback : nat) (candles : list normalized_candle) (latest : normalized_candle).
Hypothesis Hix : indexed candles.
Let high := last_confirmed_before (swings_of SwingHigh (detect_swings candles lookback)) (length candles - 1).
Let low := last_confirmed_before (swings_of SwingLow (detect_swings candles lookback)) (length candles - 1).

Lemma swing_rests kind d reason p :
  last_confirmed_before (swings_of kind (detect_swings candles lookback)) (length candles - 1) = Some p ->
  sw_kind p = kind /\ rests_on lookback candles latest (signal_at d latest p reason) p.
Proof.
  intros Hl. apply last_confirmed_spec in Hl as (Hk & Hc & Hr); [|done]. split; [done|]. split; [done|done|].
  intros q Hq Eq. apply Hr; [done|congruence].
Qed.

Lemma sweep_rests : sg_is_present (detect_sweep latest high low) = true ->
  exists p, rests_on lookback candles latest (detect_sweep latest high low) p /\ swept latest (sg_direction (detect_sweep latest high low)) p.
Proof.
  unfold detect_sweep. destruct (swing_if _ low) as [p|] eqn:El; [|destruct (swing_if _ high) as [p|] eqn:Eh; [|done]]; intros _.
  - apply swing_if_some in El as [El Ht]. apply andb_true_iff in Ht as [H1%dltb_spec H2%dltb_spec].
    destruct (swing_rests SwingLow BullishSignal "Latest candle took a previous swing low and closed back above it." p El) as [Hk Hr]. by exists p.
  - apply swing_if_some in Eh as [Eh Ht]. apply andb_true_iff in Ht as [H1%dltb_spec H2%dltb_spec].
    destruct (swing_rests SwingHigh BearishSignal "Latest candle took a previous swing high and closed back below it." p Eh) as [Hk Hr]. by exists p.
Qed.

Lemma bos_rests : sg_is_present (detect_bos latest high low) = true ->
  exists p, rests_on lookback candles latest (detect_bos latest high low) p /\ broken latest (sg_direction (detect_bos latest high low)) p.
Proof.
  unfold detect_bos. destruct (swing_if _ high) as [p|] eqn:Eh; [|destruct (swing_if _ low) as [p|] eqn:El; [|done]]; intros _.
  - apply swing_if_some in Eh as [Eh Ht%dltb_spec].
    destruct (swing_rests SwingHigh BullishSignal "Latest candle closed above a previously confirmed swing high." p Eh) as [Hk Hr]. by exists p.
  - apply swing_if_some in El as [El Ht%dltb_spec].
    destruct (swing_rests SwingLow BearishSignal "Latest candle closed below a previously confirmed swing low." p El) as [Hk Hr]. by exists p.
Qed.

Lemma choch_rests prior : let s := ch_signal (detect_choch latest high low prior) in sg_is_present s = true ->
  turned prior (sg_direction s) /\ exists p, rests_on lookback candles latest s p /\ broken latest (sg_direction s) p.
Proof.
  unfold detect_choch. destruct (swing_if _ high) as [p|] eqn:Eh; [|destruct (swing_if _ low) as [p|] eqn:El; [|done]]; intros _.
  - apply swing_if_some in Eh as [Eh Ht]. apply andb_true_iff in Ht as [Hp%bool_decide_eq_true H2%dltb_spec]. split; [done|].
    destruct (swing_rests SwingHigh BullishSignal "Prior context was bearish and latest close broke a previous structure high." p Eh) as [Hk Hr].
    by exists p.
  - apply swing_if_some in El as [El Ht]. apply andb_true_iff in Ht as [Hp%bool_decide_eq_true H2%dltb_spec]. split; [done|].
    destruct (swing_rests SwingLow BearishSignal "Prior context was bullish and latest close broke a previous structure low." p El) as [Hk Hr].
    by exists p.
Qed.

Lemma sweep_and_bos_agree : sg_is_present (detect_sweep latest high low) = true -> sg_is_present (detect_bos latest high low) = true ->
  sg_direction (detect_sweep latest high low) = sg_direction (detect_bos latest high low).
Proof.
  unfold detect_sweep, detect_bos. destruct (swing_if _ low) as [p|] eqn:El.
  - apply swing_if_some in El as [El Ht]. apply andb_true_iff in Ht as [_ H2%dltb_spec]. rewrite El.
    destruct (swing_if _ high); [done|]. cbn [swing_if]. destruct (dltb (tc_close latest) (sw_price p)) eqn:E; [|done].
    apply dltb_spec in E. exfalso. by apply (Qlt_irrefl (dQ (sw_price p))), Qlt_trans with (dQ (tc_close latest)).
  - destruct (swing_if _ high) as [p|] eqn:Eh; [|done]. apply swing_if_some in Eh as [Eh Ht]. apply andb_true_iff in Ht as [_ H2%dltb_spec].
    rewrite Eh. cbn [swing_if]. destruct (dltb (sw_price p) (tc_close latest)) eqn:E.
    { apply dltb_spec in E. exfalso. by apply (Qlt_irrefl (dQ (sw_price p))), Qlt_trans with (dQ (tc_close latest)). }
    match goal with |- context [swing_if ?t ?o] => destruct (swing_if t o) as [q|] end; [done|]. intros _ Hn. discriminate Hn.
Qed.
End Signals.

Lemma score_range trend sweep bos choch volume position : (10 <= score_structure trend sweep bos choch volume position <= 100)%Z.
Proof.
  unfold score_structure. destruct trend, (sg_is_present sweep), (sg_is_present bos || _), (va_is_present volume), position; cbn; lia.
Qed.

(** the guarantees of a valid analysis *)
Record sound_structure (lookback : nat) (candles : list normalized_candle) (latest : normalized_candle) (r : TechnicalStructureResult) : Prop := {
  ss_sweep : sg_is_present (ts_sweep r) = true ->
    exists p, rests_on lookback candles latest (ts_sweep r) p /\ swept latest (sg_direction (ts_sweep r)) p;
  ss_bos : sg_is_present (ts_bos r) = true ->
    exists p, rests_on lookback candles latest (ts_bos r) p /\ broken latest (sg_direction (ts_bos r)) p;
  ss_choch : let s := ch_signal (ts_choch r) in sg_is_present s = true ->
    turned (ch_prior_context (ts_choch r)) (sg_direction s) /\ exists p, rests_on lookback candles latest s p /\ broken latest (sg_direction s) p;
  ss_agree : sg_is_present (ts_sweep r) = true -> sg_is_present (ts_bos r) = true -> sg_direction (ts_sweep r) = sg_direction (ts_bos r);
  ss_score : exists score, ts_structure_score r = Some score /\ (10 <= score <= 100)%Z
}.

Section Sound.
Context `{ObjectRepr}.

(** C25: structure signals rest on confirmed swings. A valid analysis reports a sweep, a break or a change of character
    only against the most recent swing of its kind whose neighbours had all closed before the latest candle: a strict
    extreme among them, which the latest candle pierced and closed back from, or closed beyond, as the signal says; a
    change of character turns against the context of the candle before; a sweep and a break never point in opposite
    directions, and the score is in 10..100.  Without usable candles there are errors, no signal and no score. *)
Theorem structure_signals_confirmed a candles tf r : analyze a candles tf = Ok r ->
  (ts_is_valid r = false -> failed_closed r) /\
  (ts_is_valid r = true -> exists normalized latest, normalize_candles 0 candles = Ok (normalized, []) /\
     last normalized = Some latest /\ sound_structure (ag_lookback a) normalized latest r).
Proof.
  intros E. apply analyze_cases in E as [(Hv & ns & latest & previous & prior & Ha)|[Hf Hc]]; [|split; [done|congruence]].
  split; [congruence|]. intros _. exists ns, latest. split; [apply Ha|]. split; [apply Ha|].
  destruct (normalize_candles_indices _ _ _ (an_normalized _ _ _ _ _ _ _ Ha)) as [_ Hix].
  destruct (an_signals _ _ _ _ _ _ _ Ha) as (Hs & Hb & Hh). rewrite (an_points _ _ _ _ _ _ _ Ha) in Hs, Hb, Hh.
  split.
  - rewrite Hs. by apply sweep_rests.
  - rewrite Hb. by apply bos_rests.
  - rewrite Hh. cbn zeta. intros Hp. assert (ch_prior_context (detect_choch latest (last_confirmed_before (swings_of SwingHigh (detect_swings ns (ag_lookback a))) (length ns - 1))
      (last_confirmed_before (swings_of SwingLow (detect_swings ns (ag_lookback a))) (length ns - 1)) prior) = prior) as ->
      by (unfold detect_choch; destruct (swing_if _ _); [done|]; by destruct (swing_if _ _)). by apply choch_rests.
  - rewrite Hs, Hb. apply sweep_and_bos_agree.
  - eexists. split; [apply Ha|apply score_range].
Qed.
End Sound.

(** ** A sample series

    A swing low at 95 on the third candle, taken by the last one, which closes back above it. *)

#[local] Instance sample_repr : ObjectRepr := fun _ => "<object>".

Definition ohlc (o h l c : Z) : candle :=
  MappingCandle [("open", CVal (PyInt o)); ("high", CVal (PyInt h)); ("low", CVal (PyInt l)); ("close", CVal (PyInt c));
                 ("volume", CVal (PyInt (h - l)))].

Definition sample_series : list candle :=
  [ohlc 100 101 99 100; ohlc 100 102 97 98; ohlc 98 99 95 98; ohlc 98 102 97 101; ohlc 101 103 100 102; ohlc 102 104 101 103;
   ohlc 103 104 94 98].

Definition sample_agent : TechnicalStructureAgent :=
  {| ag_lookback := 1; ag_atr_period := 2; ag_ema_fast_period := 2; ag_ema_slow_period := 3; ag_range_window := 4;
     ag_volume_zscore_window := 3; ag_volume_zscore_threshold := dec_of_Z 1 |}.

Example sample_sweep :
  match analyze sample_agent sample_series "15m" with
  | Ok r => (sg_direction (ts_sweep r), sg_swing_index (ts_sweep r), option_map dec_to_string (ts_atr r),
             option_map dec_to_string (ts_volume_z_score r), ts_structure_score r)
            = (BullishSignal, Some 2%nat, Some "6.50000000", Some "1.41421356", Some 65%Z)
  | Raise _ => False
  end.
Proof. vm_compute. reflexivity. Qed.

Ltac sample_analysis candles r E H :=
  assert (match analyze sample_agent candles "15m" with Ok x => ts_is_valid x = true | Raise _ => False end) as H
    by (vm_compute; reflexivity);
  destruct (analyze sample_agent candles "15m") as [r|] eqn:E; [|destruct H].

Lemma structure_signals_confirmed_witness : exists r normalized latest, analyze sample_agent sample_series "15m" = Ok r /\
  ts_is_valid r = true /\ sound_structure 1 normalized latest r.
Proof.
  sample_analysis sample_series r E H. destruct (structure_signals_confirmed sample_agent sample_series "15m" r E) as [_ Hs].
  destruct (Hs H) as (normalized & latest & _ & _ & Hr). exists r, normalized, latest. split; [reflexivity|]. split; [exact H|exact Hr].
Defined.

Lemma swings_never_repaint_witness : exists r r', analyze sample_agent (take 6 sample_series) "15m" = Ok r /\
  analyze sample_agent (take 6 sample_series ++ drop 6 sample_series) "15m" = Ok r' /\
  ts_swing_points r = List.filter (confirmed_before (ts_candle_count r)) (ts_swing_points r').
Proof.
  sample_analysis (take 6 sample_series) r E H. sample_analysis (take 6 sample_series ++ drop 6 sample_series) r' E' H'.
  exists r, r'. split; [reflexivity|]. split; [reflexivity|].
  exact (swings_never_repaint sample_agent (take 6 sample_series) (drop 6 sample_series) "15m" r r' E E' H H').
Defined.
