(* ===== verification/DerivativesOrderflow.v ===== *)
(** * Derivatives context (src/app/agents/derivatives_orderflow.py)

    Funding, open interest, their relation to the price change, crowding, volume
    confirmation and a score out of 100.  The market data is a mapping, or an object
    by its attributes; overrides are keyword arguments.  NA is [None], also of the
    classifications.  The sentences in which the signals explain themselves, which
    follow from their classification, and the constant fields for CVD and the
    liquidation heatmap are left out. *)

From stdpp Require Import base tactics list strings.
From Stdlib Require Import ZArith NArith QArith Lqa Lia Bool Ascii.
From S2P Require Import Prelude PyString PyDecimal DecimalFacts LifecycleModels CandleIntegrity FlowSnapshot TechnicalStructure.
Open Scope string_scope.
Open Scope py_scope.

(** a supplied value: a scalar, or a sequence with its text *)
Inductive market_value : Type :=
| Scalar (v : cval)
| Values (text : string) (values : list cval).

Inductive FundingDirection : Type := FundingPositive | FundingNegative | FundingNeutral.
Inductive FundingSeverity : Type := SeverityNormal | SeverityElevated | SeverityExtreme.
Inductive OiDirection : Type := OiIncreasing | OiDecreasing | OiFlat.
Inductive PriceDirection : Type := PriceUp | PriceDown | PriceFlat.
Inductive RelationshipClassification : Type :=
| NewParticipation | ShortCovering | NewShorts | LongLiquidation.
Inductive VolumeConfirmation : Type := NoConfirmation | ModerateConfirmation | StrongConfirmation.
Inductive DataQualityStatus : Type := QualityValid | QualityPartial | QualityInvalid.
Inductive CrowdingDirection : Type := CrowdedLong | CrowdedShort | CrowdedNone.

Record FundingSignal := {
  fu_raw_funding_rate : option dec;
  fu_direction : option FundingDirection;
  fu_severity : option FundingSeverity;
  fu_z_score : option dec;
  fu_historical_sample_size : nat
}.

Record OpenInterestSignal := {
  oi_current_open_interest : option dec;
  oi_previous_open_interest : option dec;
  oi_change_percentage : option dec;
  oi_direction : option OiDirection
}.

Record PriceOiRelationship := {
  po_price_change_percentage : option dec;
  po_price_direction : option PriceDirection;
  po_oi_direction : option OiDirection;
  po_classification : option RelationshipClassification
}.

(** [crowded_long_risk] and [crowded_short_risk] are the two first values of the direction *)
Record CrowdingRiskSignal := { cr_crowded_long_risk : bool; cr_crowded_short_risk : bool; cr_risk_direction : option CrowdingDirection }.

Record VolumeConfirmationSignal := { vc_volume_z_score : option dec; vc_confirmation : option VolumeConfirmation }.

Record DerivativesRiskFlags := {
  rf_crowded_long_risk : bool;
  rf_crowded_short_risk : bool;
  rf_funding_extreme : bool;
  rf_oi_spike : bool;
  rf_missing_funding : bool;
  rf_missing_open_interest : bool;
  rf_missing_volume : bool;
  rf_conflicting_context : bool
}.

Record DerivativesDataQuality := {
  dq_status : DataQualityStatus;
  dq_verified : bool;
  dq_missing_fields : list string;
  dq_reason : string
}.

Record DerivativesOrderflowResult := {
  do_is_valid : bool;
  do_data_quality : DerivativesDataQuality;
  do_errors : list string;
  do_funding : FundingSignal;
  do_open_interest : OpenInterestSignal;
  do_price_oi_relationship : PriceOiRelationship;
  do_crowding_risk : CrowdingRiskSignal;
  do_volume_confirmation : VolumeConfirmationSignal;
  do_risk_flags : DerivativesRiskFlags;
  do_active_risk_flags : list string;
  do_derivatives_score : Z;
  do_score_components : list (string * Z)
}.

(** the thresholds of the agent *)
Record DerivativesOrderflowAgent := {
  da_funding_elevated_threshold : dec;
  da_funding_extreme_threshold : dec;
  da_oi_flat_change_threshold_percentage : dec;
  da_oi_significant_change_threshold_percentage : dec;
  da_oi_spike_threshold_percentage : dec;
  da_price_flat_change_threshold_percentage : dec;
  da_volume_moderate_z_threshold : dec;
  da_volume_strong_z_threshold : dec
}.

(** the checks of [__init__] on the parsed thresholds *)
Definition check_thresholds (a : DerivativesOrderflowAgent) : result DerivativesOrderflowAgent :=
  if dleb (da_funding_elevated_threshold a) dzero then Raise (ValueError "funding_elevated_threshold must be positive") else
  if dltb (da_funding_extreme_threshold a) (da_funding_elevated_threshold a)
  then Raise (ValueError "funding_extreme_threshold must be greater than or equal to elevated threshold") else
  if dltb (da_oi_flat_change_threshold_percentage a) dzero
  then Raise (ValueError "oi_flat_change_threshold_percentage cannot be negative") else
  if dltb (da_oi_significant_change_threshold_percentage a) (da_oi_flat_change_threshold_percentage a)
  then Raise (ValueError "oi_significant_change_threshold_percentage must be greater than or equal to flat threshold") else
  if dltb (da_oi_spike_threshold_percentage a) (da_oi_significant_change_threshold_percentage a)
  then Raise (ValueError "oi_spike_threshold_percentage must be greater than or equal to significant threshold") else
  if dltb (da_price_flat_change_threshold_percentage a) dzero
  then Raise (ValueError "price_flat_change_threshold_percentage cannot be negative") else
  if dltb (da_volume_moderate_z_threshold a) dzero then Raise (ValueError "volume_moderate_z_threshold cannot be negative") else
  if dltb (da_volume_strong_z_threshold a) (da_volume_moderate_z_threshold a)
  then Raise (ValueError "volume_strong_z_threshold must be greater than or equal to moderate threshold") else Ok a.

(** ** Numbers *)

(** [_quantize] *)
Definition do_quantize (value : dec) : result dec := dquantize value (-8).

(** [-d] *)
Definition dneg (d : dec) : dec := dfix (dneg_copy d).

(** [_is_missing]: None, empty text and NA *)
Definition do_is_missing (v : market_value) : bool := match v with Scalar c => is_missing c | Values _ _ => false end.

Section Input.
Context `{ObjectRepr}.

Definition value_text (v : market_value) : string := match v with Scalar c => cval_text c | Values text _ => text end.
Definition value_repr (v : market_value) : string := match v with Scalar c => cval_repr c | Values text _ => text end.

(** [_decimal_from] *)
Definition do_decimal_from (value : market_value) (path : string) : dec + string :=
  match parse_decimal (value_text value) with
  | Some (Finite d) => inl d
  | _ => inr ("Malformed derivatives data at " +:+ path +:+ ": invalid decimal " +:+ value_repr value +:+ ".")
  end.

(** the data and the overrides of a call *)
Record market_input := { mi_source : option (list (string * market_value)); mi_overrides : list (string * market_value) }.

(** the first alias of a mapping *)
Fixpoint first_alias (aliases : list string) (d : list (string * market_value)) : option market_value :=
  match aliases with
  | [] => None
  | alias :: rest => match assoc alias d with Some v => Some v | None => first_alias rest d end
  end.

(** [_extract_value] *)
Definition extract_value (i : market_input) (aliases : list string) : market_value :=
  match first_alias aliases (mi_overrides i) with
  | Some v => v
  | None => match mi_source i with
            | Some source => default (Scalar (CVal PyNone)) (first_alias aliases source)
            | None => Scalar (CVal PyNone)
            end
  end.

(** [_extract_decimal]: the value, and the error it appends *)
Definition extract_decimal (i : market_input) (aliases : list string) (label : string) : option dec * list string :=
  let value := extract_value i aliases in
  if do_is_missing value then (None, [])
  else match do_decimal_from value label with inl d => (Some d, []) | inr e => (None, [e]) end.

(** [((current - previous) / abs(previous)) * 100] *)
Definition percentage_change (current previous : dec) : result dec :=
  let! ratio := ddiv (dsub current previous) (dabs previous) in
  Ok (dmul ratio (dec_of_Z 100)).

(** [_extract_price_change_percentage] *)
Definition extract_price_change_percentage (i : market_input) : result (option dec * list string) :=
  let (percentage, e1) := extract_decimal i ["price_change_percentage"; "price_change_percent"; "price_change_pct";
                            "price_change_24h_percentage"; "price_change_24h_pct"] "price_change_percentage" in
  match percentage with
  | Some p => Ok (Some p, e1)
  | None =>
      let (ratio, e2) := extract_decimal i ["price_change_ratio"; "price_change_ratio_24h"; "price_change_pcnt"; "price24hPcnt"]
                           "price_change_ratio" in
      match ratio with
      | Some r => Ok (Some (dmul r (dec_of_Z 100)), e1 ++ e2)%list
      | None =>
          let (current, e3) := extract_decimal i ["current_price"; "last_price"; "mark_price"] "current_price" in
          let (previous, e4) := extract_decimal i ["previous_price"; "previous_close"; "prev_price"] "previous_price" in
          let errors := (e1 ++ e2 ++ e3 ++ e4)%list in
          match current, previous with
          | Some c, Some p =>
              if deqb p dzero
              then Ok (None, errors ++ ["Cannot calculate price change percentage because previous_price is zero."])%list
              else let! change := percentage_change c p in Ok (Some change, errors)
          | _, _ => Ok (None, errors)
          end
      end
  end.

(** ** Funding *)

(** the loop of [_calculate_z_score] over the history: the values, and the error that stopped it *)
Fixpoint funding_history (index : nat) (values : list cval) : list dec * option string :=
  match values with
  | [] => ([], None)
  | v :: rest =>
      let path := "historical_funding_rates[" +:+ string_of_N (N.of_nat index) +:+ "]" in
      if is_missing v then ([], Some ("Malformed " +:+ path +:+ ": funding history cannot contain missing values."))
      else match do_decimal_from (Scalar v) path with
           | inr e => ([], Some e)
           | inl d => let (ds, e) := funding_history (S index) rest in (d :: ds, e)
           end
  end.

(** [_calculate_z_score]: the score, the sample size and the errors *)
Definition calculate_z_score (current : dec) (historical : market_value) : result (option dec * nat * list string) :=
  match historical with
  | Scalar (CVal PyNone) => Ok (None, 0%nat, [])
  | Scalar _ => Ok (None, 0%nat, ["Malformed historical_funding_rates: expected a sequence of funding rates."])
  | Values _ values =>
      match funding_history 0 values with
      | (ds, Some e) => Ok (None, length ds, [e])
      | (ds, None) =>
          if (length ds <? 2)%nat then Ok (None, length ds, []) else
          let count := dec_of_Z (Z.of_nat (length ds)) in
          let! mean := ddiv (dsum ds) count in
          let! variance := ddiv (dsum (map (fun v => dsquare (dsub v mean)) ds)) count in
          if deqb variance dzero
          then Ok (if deqb current mean then Some (mkDec false 0 (-8)) else None, length ds, [])
          else let! deviation := dsqrt variance in
               let! z := ddiv (dsub current mean) deviation in
               let! shown := do_quantize z in
               Ok (Some shown, length ds, [])
      end
  end.

(** [_analyze_funding] *)
Definition analyze_funding (a : DerivativesOrderflowAgent) (rate : option dec) (historical : market_value)
    : result (FundingSignal * list string) :=
  match rate with
  | None => Ok ({| fu_raw_funding_rate := None; fu_direction := None; fu_severity := None; fu_z_score := None;
                   fu_historical_sample_size := 0 |}, [])
  | Some r =>
      let direction := if dltb dzero r then FundingPositive else if dltb r dzero then FundingNegative else FundingNeutral in
      let severity := if dleb (da_funding_extreme_threshold a) (dabs r) then SeverityExtreme
                      else if dleb (da_funding_elevated_threshold a) (dabs r) then SeverityElevated else SeverityNormal in
      let! (z, size, errors) := calculate_z_score r historical in
      let! shown := do_quantize r in
      Ok ({| fu_raw_funding_rate := Some shown; fu_direction := Some direction; fu_severity := Some severity; fu_z_score := z;
             fu_historical_sample_size := size |}, errors)
  end.

(** ** Open interest and price *)

(** [_analyze_open_interest] *)
Definition analyze_open_interest (a : DerivativesOrderflowAgent) (current previous : option dec) : result OpenInterestSignal :=
  match current, previous with
  | Some c, Some p =>
      let! shown_current := do_quantize c in
      let! shown_previous := do_quantize p in
      if deqb p dzero
      then Ok {| oi_current_open_interest := Some shown_current; oi_previous_open_interest := Some shown_previous;
                 oi_change_percentage := None; oi_direction := None |}
      else
        let! change := percentage_change c p in
        let! shown := do_quantize change in
        let flat := da_oi_flat_change_threshold_percentage a in
        Ok {| oi_current_open_interest := Some shown_current; oi_previous_open_interest := Some shown_previous;
              oi_change_percentage := Some shown;
              oi_direction := Some (if dltb flat change then OiIncreasing else if dltb change (dneg flat) then OiDecreasing else OiFlat) |}
  | _, _ => Ok {| oi_current_open_interest := current; oi_previous_open_interest := previous; oi_change_percentage := None;
                  oi_direction := None |}
  end.

(** [_price_direction] *)
Definition price_direction (a : DerivativesOrderflowAgent) (change : option dec) : option PriceDirection :=
  match change with
  | None => None
  | Some c => let flat := da_price_flat_change_threshold_percentage a in
              Some (if dltb flat c then PriceUp else if dltb c (dneg flat) then PriceDown else PriceFlat)
  end.

(** the four classifications *)
Definition classify_relationship (price : PriceDirection) (oi : OiDirection) : option RelationshipClassification :=
  match price, oi with
  | PriceUp, OiIncreasing => Some NewParticipation
  | PriceUp, OiDecreasing => Some ShortCovering
  | PriceDown, OiIncreasing => Some NewShorts
  | PriceDown, OiDecreasing => Some LongLiquidation
  | _, _ => None
  end.

(** [_classify_price_oi_relationship] *)
Definition classify_price_oi_relationship (a : DerivativesOrderflowAgent) (change : option dec) (oi : OpenInterestSignal)
    : result PriceOiRelationship :=
  let direction := price_direction a change in
  match change, direction, oi_direction oi with
  | Some c, Some price, Some open_interest =>
      let! shown := do_quantize c in
      Ok {| po_price_change_percentage := Some shown; po_price_direction := direction; po_oi_direction := oi_direction oi;
            po_classification := classify_relationship price open_interest |}
  | _, _, _ => Ok {| po_price_change_percentage := change; po_price_direction := direction; po_oi_direction := oi_direction oi;
                     po_classification := None |}
  end.

(** ** Risks *)

Definition is_elevated (s : option FundingSeverity) : bool :=
  match s with Some SeverityElevated | Some SeverityExtreme => true | _ => false end.

(** [_analyze_crowding_risk] *)
Definition analyze_crowding_risk (funding : FundingSignal) (oi : OpenInterestSignal) (relationship : PriceOiRelationship)
    : CrowdingRiskSignal :=
  let signal (l s : bool) (d : option CrowdingDirection) :=
    {| cr_crowded_long_risk := l; cr_crowded_short_risk := s; cr_risk_direction := d |} in
  match fu_direction funding, oi_direction oi, po_price_direction relationship with
  | Some f, Some o, Some p =>
      match is_elevated (fu_severity funding), f, o, p with
      | true, FundingPositive, OiIncreasing, PriceUp => signal true false (Some CrowdedLong)
      | true, FundingNegative, OiIncreasing, PriceDown => signal false true (Some CrowdedShort)
      | _, _, _, _ => signal false false (Some CrowdedNone)
      end
  | _, _, _ => signal false false None
  end.

(** [_classify_volume_confirmation] *)
Definition classify_volume_confirmation (a : DerivativesOrderflowAgent) (z : option dec) : result VolumeConfirmationSignal :=
  match z with
  | None => Ok {| vc_volume_z_score := None; vc_confirmation := None |}
  | Some v =>
      let! shown := do_quantize v in
      Ok {| vc_volume_z_score := Some shown;
            vc_confirmation := Some (if dleb (da_volume_strong_z_threshold a) v then StrongConfirmation
                                     else if dleb (da_volume_moderate_z_threshold a) v then ModerateConfirmation
                                     else NoConfirmation) |}
  end.

Definition absent {A} (o : option A) : bool := match o with None => true | Some _ => false end.

(** [_build_risk_flags] *)
Definition build_risk_flags (a : DerivativesOrderflowAgent) (funding : FundingSignal) (oi : OpenInterestSignal)
    (relationship : PriceOiRelationship) (crowding : CrowdingRiskSignal) (volume : VolumeConfirmationSignal) : DerivativesRiskFlags :=
  {| rf_crowded_long_risk := cr_crowded_long_risk crowding; rf_crowded_short_risk := cr_crowded_short_risk crowding;
     rf_funding_extreme := match fu_severity funding with Some SeverityExtreme => true | _ => false end;
     rf_oi_spike := match oi_change_percentage oi with
                    | Some c => dleb (da_oi_spike_threshold_percentage a) (dabs c)
                    | None => false
                    end;
     rf_missing_funding := absent (fu_raw_funding_rate funding);
     rf_missing_open_interest := absent (oi_current_open_interest oi) || absent (oi_previous_open_interest oi);
     rf_missing_volume := absent (vc_volume_z_score volume);
     rf_conflicting_context :=
       is_elevated (fu_severity funding)
       && match po_price_direction relationship, fu_direction funding with
          | Some PriceUp, Some FundingNegative | Some PriceDown, Some FundingPositive => true
          | _, _ => false
          end |}.

(** [_active_risk_flags] *)
Definition active_risk_flags (f : DerivativesRiskFlags) : list string :=
  map fst (List.filter snd
    [("crowded_long_risk", rf_crowded_long_risk f); ("crowded_short_risk", rf_crowded_short_risk f);
     ("funding_extreme", rf_funding_extreme f); ("oi_spike", rf_oi_spike f); ("missing_funding", rf_missing_funding f);
     ("missing_open_interest", rf_missing_open_interest f); ("missing_volume", rf_missing_volume f);
     ("conflicting_context", rf_conflicting_context f)]).

(** [_build_data_quality] *)
Definition build_data_quality (change : option dec) (oi : OpenInterestSignal) (funding : FundingSignal)
    (volume : VolumeConfirmationSignal) (errors : list string) : DerivativesDataQuality :=
  let missing (o : option dec) (name : string) := if absent o then [name] else [] in
  let no_oi := absent (oi_current_open_interest oi) || absent (oi_previous_open_interest oi) in
  let (status, reason) :=
    if absent change then (QualityInvalid, "Invalid derivatives context: price data is missing.")
    else if no_oi then (QualityPartial, "Partial derivatives context: one or more open interest fields are missing.")
    else (QualityValid, "Valid derivatives context: price and open interest data are available.") in
  {| dq_status := status;
     dq_verified := match errors, status with
                    | [], QualityValid => negb (absent (fu_raw_funding_rate funding) || absent (vc_volume_z_score volume))
                    | _, _ => false
                    end;
     dq_missing_fields := (missing change "price_change_percentage" ++ missing (oi_current_open_interest oi) "current_open_interest"
                           ++ missing (oi_previous_open_interest oi) "previous_open_interest"
                           ++ missing (fu_raw_funding_rate funding) "funding_rate"
                           ++ missing (vc_volume_z_score volume) "volume_z_score")%list;
     dq_reason := reason |}.

(** ** The score *)

(** [_score_components] *)
Definition score_components (a : DerivativesOrderflowAgent) (funding : FundingSignal) (oi : OpenInterestSignal)
    (relationship : PriceOiRelationship) (crowding : CrowdingRiskSignal) (volume : VolumeConfirmationSignal)
    (quality : DerivativesDataQuality) : list (string * Z) :=
  [("price_oi_clarity", if absent (po_classification relationship) then 0%Z else 25%Z);
   ("funding_context", if absent (fu_raw_funding_rate funding) then 0%Z else 20%Z);
   ("oi_change_significance",
     match oi_change_percentage oi with
     | None => 0%Z
     | Some c => if dleb (da_oi_significant_change_threshold_percentage a) (dabs c) then 20%Z else 10%Z
     end);
   ("volume_confirmation",
     match vc_confirmation volume with Some StrongConfirmation => 15%Z | Some ModerateConfirmation => 10%Z | _ => 0%Z end);
   ("crowding_risk_adjustment", match cr_risk_direction crowding with Some CrowdedNone => 10%Z | None => 5%Z | _ => 0%Z end);
   ("data_quality", match dq_status quality with QualityValid => 10%Z | QualityPartial => 5%Z | QualityInvalid => 0%Z end)].

Definition no_components : list (string * Z) :=
  map (fun key => (key, 0%Z)) ["price_oi_clarity"; "funding_context"; "oi_change_significance"; "volume_confirmation";
                               "crowding_risk_adjustment"; "data_quality"].

Definition component_sum (components : list (string * Z)) : Z := fold_right Z.add 0%Z (map snd components).

(** [analyze] *)
Definition analyze_derivatives (a : DerivativesOrderflowAgent) (i : market_input) : result DerivativesOrderflowResult :=
  let! (change, e1) := extract_price_change_percentage i in
  let (rate, e2) := extract_decimal i ["funding_rate"; "current_funding_rate"] "funding_rate" in
  let (current, e3) := extract_decimal i ["current_open_interest"; "open_interest"; "oi"] "current_open_interest" in
  let (previous, e4) := extract_decimal i ["previous_open_interest"; "previous_oi"; "open_interest_previous"]
                          "previous_open_interest" in
  let historical := extract_value i ["historical_funding_rates"; "funding_history"; "historical_funding"] in
  let (z, e5) := extract_decimal i ["volume_z_score"; "volume_zscore"; "volume_z_score_24h"] "volume_z_score" in
  let! (funding, e6) := analyze_funding a rate historical in
  let errors := (e1 ++ e2 ++ e3 ++ e4 ++ e5 ++ e6)%list in
  let! oi := analyze_open_interest a current previous in
  let! relationship := classify_price_oi_relationship a change oi in
  let crowding := analyze_crowding_risk funding oi relationship in
  let! volume := classify_volume_confirmation a z in
  let flags := build_risk_flags a funding oi relationship crowding volume in
  let quality := build_data_quality change oi funding volume errors in
  let components := match dq_status quality with
                    | QualityInvalid => no_components
                    | _ => score_components a funding oi relationship crowding volume quality
                    end in
  Ok {| do_is_valid := match dq_status quality with QualityValid => true | _ => false end; do_data_quality := quality;
        do_errors := errors; do_funding := funding; do_open_interest := oi; do_price_oi_relationship := relationship;
        do_crowding_risk := crowding; do_volume_confirmation := volume; do_risk_flags := flags;
        do_active_risk_flags := active_risk_flags flags;
        do_derivatives_score := match dq_status quality with QualityInvalid => 0%Z | _ => Z.min (component_sum components) 100 end;
        do_score_components := components |}.
End Input.

(** ** Theorems *)

Local Open Scope Q_scope.

Section Contract.
Context `{ObjectRepr}.

(** the numbers a call was given *)
Definition given_rate (i : market_input) : option dec := fst (extract_decimal i ["funding_rate"; "current_funding_rate"] "funding_rate").
Definition given_current (i : market_input) : option dec :=
  fst (extract_decimal i ["current_open_interest"; "open_interest"; "oi"] "current_open_interest").
Definition given_previous (i : market_input) : option dec :=
  fst (extract_decimal i ["previous_open_interest"; "previous_oi"; "open_interest_previous"] "previous_open_interest").

(** crowding in one direction: funding beyond its threshold, open interest rising and the price following *)
Definition crowded (a : DerivativesOrderflowAgent) (i : market_input) (long : bool) : Prop :=
  exists rate current previous oi change e,
    given_rate i = Some rate /\ given_current i = Some current /\ given_previous i = Some previous /\
    percentage_change current previous = Ok oi /\ extract_price_change_percentage i = Ok (Some change, e) /\
    dQ (da_funding_elevated_threshold a) <= dQ (dabs rate) /\ dQ (da_oi_flat_change_threshold_percentage a) < dQ oi /\
    if long then 0 < dQ rate /\ dQ (da_price_flat_change_threshold_percentage a) < dQ change
    else dQ rate < 0 /\ dQ change < dQ (dneg (da_price_flat_change_threshold_percentage a)).

Record derivatives_run (a : DerivativesOrderflowAgent) (i : market_input) (r : DerivativesOrderflowResult)
    (change : option dec) (e1 e6 : list string) : Prop := {
  dr_change : extract_price_change_percentage i = Ok (change, e1);
  dr_funding : analyze_funding a (given_rate i)
    (extract_value i ["historical_funding_rates"; "funding_history"; "historical_funding"]) = Ok (do_funding r, e6);
  dr_oi : analyze_open_interest a (given_current i) (given_previous i) = Ok (do_open_interest r);
  dr_relationship : classify_price_oi_relationship a change (do_open_interest r) = Ok (do_price_oi_relationship r);
  dr_crowding : do_crowding_risk r = analyze_crowding_risk (do_funding r) (do_open_interest r) (do_price_oi_relationship r);
  dr_flags : do_risk_flags r
    = build_risk_flags a (do_funding r) (do_open_interest r) (do_price_oi_relationship r) (do_crowding_risk r) (do_volume_confirmation r);
  dr_quality : do_data_quality r = build_data_quality change (do_open_interest r) (do_funding r) (do_volume_confirmation r) (do_errors r);
  dr_components : do_score_components r = match dq_status (do_data_quality r) with
    | QualityInvalid => no_components
    | _ => score_components a (do_funding r) (do_open_interest r) (do_price_oi_relationship r) (do_crowding_risk r)
             (do_volume_confirmation r) (do_data_quality r)
    end;
  dr_score : do_derivatives_score r = match dq_status (do_data_quality r) with
    | QualityInvalid => 0%Z | _ => Z.min (component_sum (do_score_components r)) 100 end;
  dr_valid : do_is_valid r = match dq_status (do_data_quality r) with QualityValid => true | _ => false end
}.

Lemma analyze_derivatives_run a i r : analyze_derivatives a i = Ok r -> exists change e1 e6, derivatives_run a i r change e1 e6.
Proof.
  unfold analyze_derivatives. intros E. apply bind_ok in E as ([change e1] & Hc & E). unfold given_rate, given_current, given_previous.
  destruct (extract_decimal i ["funding_rate"; _] _) as [rate e2] eqn:Er. destruct (extract_decimal i ["current_open_interest"; _; _] _) as [current e3] eqn:Ec.
  destruct (extract_decimal i ["previous_open_interest"; _; _] _) as [previous e4] eqn:Ep. destruct (extract_decimal i ["volume_z_score"; _; _] _) as [z e5].
  apply bind_ok in E as ([funding e6] & Hf & E). apply bind_ok in E as (oi & Ho & E). apply bind_ok in E as (rel & Hr & E).
  apply bind_ok in E as (volume & Hv & E). apply ok_inj in E as <-. exists change, e1, e6.
  split; cbn [do_is_valid do_data_quality do_errors do_funding do_open_interest do_price_oi_relationship do_crowding_risk do_volume_confirmation
    do_risk_flags do_derivatives_score do_score_components]; unfold given_rate, given_current, given_previous; rewrite ?Er, ?Ec, ?Ep; done.
Qed.

(** *** Crowding *)

Lemma crowding_spec f o p : let c := analyze_crowding_risk f o p in
  (cr_crowded_long_risk c = true <-> is_elevated (fu_severity f) = true /\ fu_direction f = Some FundingPositive /\
     oi_direction o = Some OiIncreasing /\ po_price_direction p = Some PriceUp) /\
  (cr_crowded_short_risk c = true <-> is_elevated (fu_severity f) = true /\ fu_direction f = Some FundingNegative /\
     oi_direction o = Some OiIncreasing /\ po_price_direction p = Some PriceDown).
Proof.
  unfold analyze_crowding_risk. destruct (fu_direction f) as [[]|], (oi_direction o) as [[]|], (po_price_direction p) as [[]|];
    destruct (is_elevated (fu_severity f)); cbn; split; split; try done; by intros (? & ? & ? & ?).
Qed.

Lemma elevated_funding a rate historical f e : check_thresholds a = Ok a -> analyze_funding a rate historical = Ok (f, e) ->
  is_elevated (fu_severity f) = true -> exists r, rate = Some r /\ dQ (da_funding_elevated_threshold a) <= dQ (dabs r) /\
    (fu_direction f = Some FundingPositive -> 0 < dQ r) /\ (fu_direction f = Some FundingNegative -> dQ r < 0).
Proof.
  intros Ha Hf He. unfold analyze_funding in Hf. destruct rate as [r|]; [|apply ok_inj in Hf; injection Hf as <- _; done].
  apply bind_ok in Hf as ([[z size] errors] & _ & Hf). apply bind_ok in Hf as (shown & _ & Hf). apply ok_inj in Hf. injection Hf as <- _.
  cbn [fu_severity fu_direction] in *. exists r. split; [done|]. pose proof dQ_zero as H0. split.
  - destruct (dleb (da_funding_extreme_threshold a) (dabs r)) eqn:Ex.
    + apply dleb_spec in Ex. unfold check_thresholds in Ha. destruct (dleb _ _) in Ha; [done|].
      destruct (dltb (da_funding_extreme_threshold a) (da_funding_elevated_threshold a)) eqn:Et; [done|]. apply dltb_false in Et. lra.
    + destruct (dleb (da_funding_elevated_threshold a) (dabs r)) eqn:El; [by apply dleb_spec in El|done].
  - destruct (dltb dzero r) eqn:Ep; [|destruct (dltb r dzero) eqn:En]; split; intros Hd; try done;
      [apply dltb_spec in Ep|apply dltb_spec in En]; lra.
Qed.

Lemma rising_open_interest a current previous o : analyze_open_interest a current previous = Ok o -> oi_direction o = Some OiIncreasing ->
  exists c p change, current = Some c /\ previous = Some p /\ percentage_change c p = Ok change /\
    dQ (da_oi_flat_change_threshold_percentage a) < dQ change.
Proof.
  unfold analyze_open_interest. intros E Hd. destruct current as [c|], previous as [p|]; try (apply ok_inj in E as <-; done).
  apply bind_ok in E as (sc & _ & E). apply bind_ok in E as (sp & _ & E). destruct (deqb p dzero); [apply ok_inj in E as <-; done|].
  apply bind_ok in E as (change & Hc & E). apply bind_ok in E as (shown & _ & E). apply ok_inj in E as <-. cbn [oi_direction] in Hd.
  exists c, p, change. split_and!; try done. destruct (dltb _ change) eqn:El; [by apply dltb_spec in El|by destruct (dltb change _)].
Qed.

Lemma moving_price a change o p : classify_price_oi_relationship a change o = Ok p ->
  (po_price_direction p = Some PriceUp -> exists c, change = Some c /\ dQ (da_price_flat_change_threshold_percentage a) < dQ c) /\
  (po_price_direction p = Some PriceDown -> exists c, change = Some c /\ dQ c < dQ (dneg (da_price_flat_change_threshold_percentage a))).
Proof.
  unfold classify_price_oi_relationship. intros E. assert (po_price_direction p = price_direction a change) as ->.
  { destruct change as [c|]; cbn [price_direction] in *; [|by apply ok_inj in E as <-].
    destruct (oi_direction o); [|by apply ok_inj in E as <-]. apply bind_ok in E as (shown & _ & E). by apply ok_inj in E as <-. }
  unfold price_direction. destruct change as [c|]; [|done]. set (flat := da_price_flat_change_threshold_percentage a).
  destruct (dltb flat c) eqn:Eu; [|destruct (dltb c (dneg flat)) eqn:Ed]; split; intros Hd; try done;
    exists c; (split; [done|]); by apply dltb_spec.
Qed.

Lemma components_range a f o p c v q :
  (0 <= component_sum (score_components a f o p c v q) <= 100)%Z.
Proof.
  unfold component_sum, score_components. cbn [map snd fold_right].
  destruct (absent (po_classification p)), (absent (fu_raw_funding_rate f)), (vc_confirmation v) as [[]|], (cr_risk_direction c) as [[]|],
    (dq_status q), (oi_change_percentage o) as [x|]; try destruct (dleb _ _); lia.
Qed.

Lemma score_is_sum a i r change e1 e6 : derivatives_run a i r change e1 e6 ->
  do_derivatives_score r = component_sum (do_score_components r) /\ (0 <= do_derivatives_score r <= 100)%Z.
Proof.
  intros Hr. rewrite (dr_score _ _ _ _ _ _ Hr), (dr_components _ _ _ _ _ _ Hr).
  pose proof (components_range a (do_funding r) (do_open_interest r) (do_price_oi_relationship r) (do_crowding_risk r)
    (do_volume_confirmation r) (do_data_quality r)) as Hc. destruct (dq_status (do_data_quality r)); [lia|lia|done].
Qed.

(** C27: the derivatives context says what the numbers say. The score is the sum of its components and in 0..100, zero
    without a price change; the context is valid exactly with a price change and both open interests, and verified
    exactly if moreover nothing was malformed and nothing is missing; a crowding flag means that funding is beyond its
    threshold, open interest rose and the price moved with the funding; and of the two crowding flags and the conflict
    at most one is set. *)
Theorem derivatives_context_contract a i r : check_thresholds a = Ok a -> analyze_derivatives a i = Ok r ->
  (do_derivatives_score r = component_sum (do_score_components r) /\ (0 <= do_derivatives_score r <= 100)%Z) /\
  (do_is_valid r = true <-> exists change e, extract_price_change_percentage i = Ok (Some change, e) /\
     given_current i <> None /\ given_previous i <> None) /\
  (dq_verified (do_data_quality r) = true <-> do_errors r = [] /\ dq_missing_fields (do_data_quality r) = []) /\
  (rf_crowded_long_risk (do_risk_flags r) = true -> crowded a i true) /\
  (rf_crowded_short_risk (do_risk_flags r) = true -> crowded a i false) /\
  let flags := do_risk_flags r in
  (Nat.b2n (rf_crowded_long_risk flags) + Nat.b2n (rf_crowded_short_risk flags) + Nat.b2n (rf_conflicting_context flags) <= 1)%nat.
Proof.
  intros Ha E. apply analyze_derivatives_run in E as (change & e1 & e6 & Hr).
  destruct (crowding_spec (do_funding r) (do_open_interest r) (do_price_oi_relationship r)) as [Hl Hs].
  assert (absent (oi_current_open_interest (do_open_interest r)) = absent (given_current i) /\
          absent (oi_previous_open_interest (do_open_interest r)) = absent (given_previous i)) as [Eoc Eop].
  { pose proof (dr_oi _ _ _ _ _ _ Hr) as Ho. unfold analyze_open_interest in Ho.
    destruct (given_current i), (given_previous i); try (by apply ok_inj in Ho as <-).
    apply bind_ok in Ho as (sc & _ & Ho). apply bind_ok in Ho as (sp & _ & Ho). destruct (deqb _ _); [by apply ok_inj in Ho as <-|].
    apply bind_ok in Ho as (ch & _ & Ho). apply bind_ok in Ho as (sh & _ & Ho). by apply ok_inj in Ho as <-. }
  split; [by eapply score_is_sum|]. split_and!.
  - rewrite (dr_valid _ _ _ _ _ _ Hr), (dr_quality _ _ _ _ _ _ Hr), (dr_change _ _ _ _ _ _ Hr). unfold build_data_quality. rewrite Eoc, Eop.
    destruct change as [c|], (given_current i), (given_previous i); cbn; split; try done; try (by intros (x & e & [=] & ? & ?)).
    intros _. by exists c, e1.
  - rewrite (dr_quality _ _ _ _ _ _ Hr). unfold build_data_quality. destruct change, (oi_current_open_interest _), (oi_previous_open_interest _),
      (fu_raw_funding_rate _), (vc_volume_z_score _), (do_errors r); cbn; split; try done; by intros [? ?].
  - rewrite (dr_flags _ _ _ _ _ _ Hr), (dr_crowding _ _ _ _ _ _ Hr). cbn [build_risk_flags rf_crowded_long_risk]. intros (H1 & H2 & H3 & H4)%Hl.
    destruct (elevated_funding _ _ _ _ _ Ha (dr_funding _ _ _ _ _ _ Hr) H1) as (rate & Er & Hel & Hp & _).
    destruct (rising_open_interest _ _ _ _ (dr_oi _ _ _ _ _ _ Hr) H3) as (c & p & oi & Ec & Ep & Hpc & Hoi).
    destruct (proj1 (moving_price _ _ _ _ (dr_relationship _ _ _ _ _ _ Hr)) H4) as (ch & -> & Hch).
    exists rate, c, p, oi, ch, e1. split_and!; auto. apply Hr.
  - rewrite (dr_flags _ _ _ _ _ _ Hr), (dr_crowding _ _ _ _ _ _ Hr). cbn [build_risk_flags rf_crowded_short_risk]. intros (H1 & H2 & H3 & H4)%Hs.
    destruct (elevated_funding _ _ _ _ _ Ha (dr_funding _ _ _ _ _ _ Hr) H1) as (rate & Er & Hel & _ & Hn).
    destruct (rising_open_interest _ _ _ _ (dr_oi _ _ _ _ _ _ Hr) H3) as (c & p & oi & Ec & Ep & Hpc & Hoi).
    destruct (proj2 (moving_price _ _ _ _ (dr_relationship _ _ _ _ _ _ Hr)) H4) as (ch & -> & Hch).
    exists rate, c, p, oi, ch, e1. split_and!; auto. apply Hr.
  - cbn zeta. rewrite (dr_flags _ _ _ _ _ _ Hr), (dr_crowding _ _ _ _ _ _ Hr). cbn [build_risk_flags rf_crowded_long_risk rf_crowded_short_risk rf_conflicting_context].
    unfold analyze_crowding_risk. destruct (fu_direction _) as [[]|], (oi_direction _) as [[]|], (po_price_direction _) as [[]|];
      destruct (is_elevated _); cbn; lia.
Qed.
End Contract.

(** ** A sample: crowded longs *)

#[local] Instance derivatives_repr : ObjectRepr := fun _ => "<object>".

(** the default thresholds *)
Definition default_derivatives_agent : DerivativesOrderflowAgent :=
  {| da_funding_elevated_threshold := mkDec false 5 (-4); da_funding_extreme_threshold := mkDec false 10 (-4);
     da_oi_flat_change_threshold_percentage := mkDec false 10 (-2); da_oi_significant_change_threshold_percentage := mkDec false 200 (-2);
     da_oi_spike_threshold_percentage := mkDec false 1000 (-2); da_price_flat_change_threshold_percentage := mkDec false 10 (-2);
     da_volume_moderate_z_threshold := mkDec false 100 (-2); da_volume_strong_z_threshold := mkDec false 200 (-2) |}.

Definition sample_market : market_input :=
  {| mi_source := Some [("price_change_pct", Scalar (CVal (PyStr "3.5"))); ("funding_rate", Scalar (CVal (PyStr "0.0012")));
                        ("open_interest", Scalar (CVal (PyInt 1100))); ("previous_oi", Scalar (CVal (PyInt 1000)));
                        ("funding_history", Values "[...]" [CVal (PyStr "0.0001"); CVal (PyStr "0.0003")])];
     mi_overrides := [("volume_z_score", Scalar (CVal (PyStr "2.5")))] |}.

Example sample_market_crowded :
  match analyze_derivatives default_derivatives_agent sample_market with
  | Ok r => (do_active_risk_flags r, do_derivatives_score r, option_map dec_to_string (fu_z_score (do_funding r)))
            = (["crowded_long_risk"; "funding_extreme"; "oi_spike"], 90%Z, Some "10.00000000")
  | Raise _ => False
  end.
Proof. vm_compute. reflexivity. Qed.

Lemma derivatives_context_contract_witness : exists r, analyze_derivatives default_derivatives_agent sample_market = Ok r /\
  crowded default_derivatives_agent sample_market true.
Proof.
  assert (match analyze_derivatives default_derivatives_agent sample_market with
          | Ok r => rf_crowded_long_risk (do_risk_flags r) = true | Raise _ => False end) as H by (vm_compute; reflexivity).
  destruct (analyze_derivatives default_derivatives_agent sample_market) as [r|] eqn:E; [|destruct H]. exists r. split; [reflexivity|].
  destruct (derivatives_context_contract default_derivatives_agent sample_market r eq_refl E) as (_ & _ & _ & Hc & _). exact (Hc H).
Defined.
